(* ===== verification/_CoqProject ===== *)
-Q . S2P
Prelude.v
Idl.v
Service.v
TimeParser.v
Json.v
JsonText.v
Mapper.v
Compat.v
Thread.v
Sharing.v
Calls.v
Provider.v
ApiIdl.v
BlobStore.v
S3Store.v
MemoryS3.v
WorkerApi.v
IdlJson.v
ApiJson.v
Model.v
IdlModel.v
ApiModel.v
ServiceJson.v
Wire.v
IdlClient.v
Simulate.v
Persistence.v
Queue.v
Counter.v
Timers.v
Channels.v
Signals.v
ContinueAsNew.v
Locking.v
Decider.v
Activity.v
StateExecution.v
Updater.v
Providers.v
Client.v
History.v
Backend.v
TemporalClient.v
CadenceClient.v
WorkflowProviders.v
ClientFacts.v
Api.v
ApiFacts.v
ApiBackend.v
Http.v
ApiSignals.v
Server.v
ClientServer.v
Waiting.v
DumpPath.v
Interpreter.v
Exclusion.v
Completion.v
Invariants.v
Cancellation.v
Resume.v
Examples.v
TestSystem.v
TestWorkers.v
TestChannels.v
TestAttributes.v
TestStorage.v
TestLocking.v
Witnesses.v
ApiWitnesses.v
DumpWitness.v
ResumeWitness.v
ProviderWitness.v
