(* ===== verification/Prelude.v ===== *)
(** * A verification development for the iWF server

    iWF runs workflows as a graph of states.  The server's core is an interpreter
    that runs as one workflow of a Temporal or Cadence backend
    (service/interpreter): it takes state movements from a queue, runs a state
    execution for each (wait-until API, commands, execute API), applies the
    decision, and goes on until a state closes the workflow or the history gets
    long and the run continues as new.  Activities call the user's worker over
    HTTP and keep large values in an external storage.  An API service
    (service/api) answers HTTP requests by starting, signalling, querying and
    describing workflows through a client of the backend (service/client).  The
    development models these parts and proves what makes them correct.

    ** How the program is modelled

    - Data (Idl.v: gen/iwfidl; Service.v: service/interfaces.go, const.go).  A
      pointer field is an [option], a string enumeration an inductive type with a
      constructor for every other string, an int32 or int64 a [Z] with the
      wrap-around written out ([wrap32], [wrap64] in this file), a Go map a [gmap]
      read with Go's zero value ([map_get]); a loop over [DeterministicKeys] goes
      through the sorted keys.  A panic is [Panic msg] of the monad [gores].
    - Coroutines (Thread.v).  Code that reads and writes the shared state, calls
      the backend or waits is a [thread]; a program of the interpreter is a term of
      the type [prog St A] (Provider.v), where [St] is any state that has the
      components the program uses (the class [Has], with [Indep] where two
      components must not overlap; [WorkflowState] of Interpreter.v has them all).
      [exec] runs a thread that is not interrupted against an answer to every call
      of the backend; [step] is the step relation of a pool of coroutines that
      yield only where the SDKs let them; [own_step] is one coroutine with
      arbitrary changes of the state by the others at its yields; [wp], [safe] and
      [wlp] are the proof rules for [step] and [own_step], [keeps] is the frame rule.
      Sharing.v has the rule for coroutines that divide something among themselves
      (the class [Shares]): locked keys in Exclusion.v, counted executions in
      Completion.v.  It is for runs without cancelled waits, in which the backend may
      start more coroutines at any yield ([calm_step], whose argument says which: the
      handlers of arriving RPC updates).  That the number of other coroutines is
      answered as it is (GetThreadCount) is part of the steps, by the field [tells] of
      the class [Provider].  The provider's counter (Providers.v, as in the code) has a
      coroutine from when it first runs, the steps from when it is created.  The main
      loop, which alone asks, creates coroutines only while the threshold is not met and
      asks only when it is, after a wait; the other creators are counted themselves.
    - The backend (Provider.v: interfaces/interfaces.go).  Its calls are the events
      [providerE]; theorems hold for all its answers unless they say which they
      need ([Inbox] in Signals.v: the signal channels are queues; [dump_server] in
      ContinueAsNew.v: the dump activity is answered by the query handler of the
      previous run at some moment).  Simulate.v is one executable backend, which
      satisfies them.  WorkflowProviders.v implements the events on the SDK of either
      backend ([temporal_provider], [cadence_provider] over the calls [wfE]).
    - Activities (BlobStore.v, S3Store.v, WorkerApi.v, Activity.v) run in the state
      monad [M W] of Prelude.v over a world [W] that the calls outside read and
      change: the S3 client, the HTTP client of the worker, the clock.  What is
      relied on of S3 is the class [LawfulS3]; the store promises [LawfulStore] to
      its clients, whatever it is built on.
    - The API service and the backend clients keep no state: they are programs of
      calls ([proc] in Calls.v).  [runs] gives every run of a program with its
      calls and answers, and [always] what holds of all of them; a layer is put on
      top of another by [translate], an implementation of the calls by [interp].
      The calls of the service are [apiE] (Api.v), those of the unified client
      [clientE] (Client.v), those of the SDKs [temporalE] and [cadenceE]; the class
      [UnifiedClient] is the interface of a backend client, [LawfulClient] its
      promise on starting workflows, which both clients keep (ApiBackend.v).
    - HTTP and JSON.  A message is a method, a path, headers and a body (Wire.v); the
      body is text made by the model of encoding/json (Json.v, JsonText.v), where a
      [codec] is how a Go type is written and read and [Lawful] that it reads back
      what it wrote up to the repair of strings that are not UTF-8.  The generated
      client (IdlClient.v) sends messages, the service (Http.v) answers them, and
      ClientServer.v puts the two together.
    - Sharing.  Timers are pointers shared by table, scheduler and waits, so
      Timers.v has a heap of them ([tt_heap]); the maps of completed commands are
      shared by a state execution, its command coroutines and the continue-as-newer,
      so ContinueAsNew.v has a heap of cells ([CommandsHeap]).

    ** The files

    - Prelude.v (this file): the Go primitives, lemmas and tactics.
    - Idl.v, Service.v: the data.  Thread.v, Provider.v: coroutines, the backend.
    - Json.v, JsonText.v (encoding/json), IdlJson.v, ApiJson.v (gen/iwfidl),
      ServiceJson.v (service/interfaces.go): values, their text, codecs of the structs.
      Model.v, IdlModel.v, ApiModel.v (gen/iwfidl/model_*.go): the methods of the
      generated data model, every getter, test and setter of every field by itself, with
      what the methods of required, optional and collection fields promise each other,
      the constructors, the methods of the enumerations and the Nullable wrappers.
      Wire.v: messages.  IdlClient.v (gen/iwfidl/client.go, configuration.go,
      api_default.go): the generated client and its operations.
    - TimeParser.v (common/timeparser), Mapper.v (common/mapper), Compat.v
      (common/compatibility, common/utils).
    - Persistence.v (persistence.go): loading by policy, upserts, locks.
    - Queue.v (stateRequest.go, stateRequestQueue.go, outputCollector.go).
    - Counter.v (stateExecutionCounter.go, globalVersioner.go, config/, cont/).
    - Timers.v (timers/): the simple and the greedy processor, the scheduler.
    - Channels.v (InternalChannel.go), Signals.v (signalReceiver.go).
    - ContinueAsNew.v (continueAsNewer.go): snapshot, dump by pages, loading.
    - Locking.v: what a call between locks leaves behind, for the next three.
    - Decider.v (deciderTriggerer.go, the validation of activityImpl.go).
    - StateExecution.v (processStateExecution, invokeStateExecute and
      checkClosingWorkflow of workflowImpl.go), Updater.v (workflowUpdater.go,
      queryHandler.go), Interpreter.v (InterpreterImpl of workflowImpl.go).
    - BlobStore.v (common/blobstore/interfaces.go, helpers.go), S3Store.v
      (common/blobstore/store_impl.go), WorkerApi.v (common/rpc, common/urlautofix),
      Activity.v (activityImpl.go): large values, calls of the worker, activities.
    - Providers.v (common/retry, the activity options, local activities and
      coroutine counters of both workflowProvider.go), WorkflowProviders.v (all methods
      of both workflowProvider.go and activityProvider.go, as implementations of the
      interpreter's calls), Server.v (config/config.go, interpreter/env, both worker.go,
      cmd/server/iwf).
    - Calls.v: programs of calls.  ApiIdl.v (gen/iwfidl): requests and responses.
    - Client.v (client/interfaces.go), Backend.v (what both clients share), History.v
      (the searches of both reset.go), TemporalClient.v (client/temporal),
      CadenceClient.v (client/cadence), ClientFacts.v (the theorems on resets).
    - Api.v (service/api/service.go), ApiFacts.v (its theorems), Http.v (handler.go,
      routers.go), ApiSignals.v (what the API signals to the interpreter),
      ApiBackend.v (the service on a backend client), ClientServer.v (the client on
      the service), Waiting.v (who waits for a state, and who tells it), DumpPath.v
      (continue-as-new loading over the dump activity, the client, the service and the
      query).
    - Exclusion.v: the attribute locks in every interleaving of those programs.
      Completion.v: what runs when a workflow completes.  Invariants.v: every
      component is well-formed in every reachable state.  Cancellation.v: runs whose
      waits are cancelled.  Resume.v: a run and the one that takes over from it, end to
      end.
    - Simulate.v, Examples.v: whole runs.  MemoryS3.v: an S3 in memory.
    - TestSystem.v: the whole system for a test: the API service over a client whose
      backend runs the interpreter, its activities call workers, and the clock moves
      on; it stores large values in the S3 of MemoryS3.v when a test asks for it.
      TestWorkers.v, TestChannels.v, TestAttributes.v, TestStorage.v, TestLocking.v: the
      workers of the integration tests (integ/workflow) and the tests that use them
      (integ/).
      Witnesses.v, ApiWitnesses.v, DumpWitness.v, ResumeWitness.v, ProviderWitness.v: the
      theorems with hypotheses at concrete inputs.

    ** What the theorems show

    - The whole workflow: it never completes over a queued state (Interpreter.v), and
      unless a state forces it, only when no state execution runs, whatever the
      interleaving (Completion.v); whatever the interleaving all components stay
      well-formed (Invariants.v); whole runs behave as expected, also across continue-as-new (Examples.v); the
      integration tests of the modelled workers get the answers they assert, under
      the configurations they use, with or without external storage (TestLocking.v).
    - State executions and updates: locks are released on every path, books are
      kept (StateExecution.v, Updater.v); the closing decision (StateExecution.v);
      no interleaving of command and signal coroutines panics (StateExecution.v);
      in every interleaving of a whole run without cancellation the locked keys are
      divided among the coroutines (Exclusion.v), and a cancelled wait breaks that
      (Cancellation.v).
    - The data model: a getter shows what the setter of its field has set and not what
      any other has, in every struct; the constructors take what the API requires
      (ApiModel.v); the enumerations accept exactly their values (IdlModel.v).
    - Commands: the decider trigger is what its three types mean, monotone, and
      panic-free on validated requests (Decider.v); message channels are FIFO
      queues (Channels.v states the contract, Signals.v the refinement).
    - Counting: executing counts match the running states while the configuration stays
      as it is, ids are never reused, the continue-as-new threshold (Counter.v).
    - Attributes: policies, upserts, round trip (Persistence.v);
      search attributes read back what was written (Mapper.v).
    - Timers: the greedy scheduler leaves no pending timer uncovered, waits never
      report a timer fired early, stale skips (Timers.v).
    - Continue-as-new: the drain loses no signal of the channels it knows, the pages
      that are loaded come from one snapshot and loading ends, also over HTTP with the
      snapshot as JSON if no page cuts a character, and what becomes of one that is cut;
      the queue is rebuilt (Signals.v, ContinueAsNew.v, DumpPath.v).  The run that
      takes over from any state a run can reach, over the dump activity, HTTP, the
      API and the query, has the same snapshot and the same states to start
      (Resume.v).
    - External storage: large attributes and state inputs read back as they were
      written, deleting a workflow's objects ends and is exact, the objects of
      workflows are separate (BlobStore.v, S3Store.v, Activity.v).
    - Activities and RPC: no accepted command request panics the trigger, an RPC
      never closes a workflow (Activity.v, WorkerApi.v).
    - Waiting for a state: a completed state tells who waits for it, under the id the
      request computes from the key the state was started with, or from the id of the
      execution if it has none, when the two configurations agree (Waiting.v).
    - API: a start answers its own workflow, down to the SDK of either backend;
      replies about a workflow's status are sound; an RPC writes back exactly when
      it changes something; an accepted timer skip is applied; every signal is of
      the type its receiver decodes; every request is answered with a known status
      (ApiFacts.v, ApiBackend.v, ApiSignals.v, Http.v); a caller of the generated
      client gets exactly what the service answered to its request (ClientServer.v).
    - Backends: a call of the interpreter that does not depend on the backend does the
      same on both, activities with a retry policy under the same one, while Cadence's
      workers take them within its ten seconds ([portable], [options_differ]); resets go to the same event, however the
      history is paged; queries are retried as configured; memos survive their
      encryption (WorkflowProviders.v, Backend.v, ClientFacts.v).
    - The server: a started worker has registered everything it can be asked to run,
      but on Cadence the activity of RPC updates, which Cadence has not;
      a started clean-up for every storage with a schedule; the services launched are
      those asked for, on the configured backend (Server.v).
    - Deviations of the code from its intent are stated as theorems too:
      [failed_retry_doubles], [mode_change_leaves_stale_id],
      [bad_array_element_panics], [TrimRpcTimeoutSeconds_ignores_request],
      [raised_threshold_stops_handlers], [thousand_years_is_in_the_future],
      [cancelled_wait_unlocks_others], [execute_panics_on_other_success],
      [cleanup_keeps_old] (against config.go), [cut_characters_are_replaced], [accent_is_lost],
      [api_alone_ignores_waitForOn], [key_hides_execution], [options_differ],
      [wait_ids_collide].

    ** Fuel and bounds

    The endless loops of the signal handlers and of the main loop take a [fuel]:
    the number of iterations of the run considered; safety theorems hold for every
    fuel, and the loops that must end have theorems that bound it: the drain needs
    more fuel than the signals of one channel ([drain_complete]), the loading as
    much as the snapshot has pages ([load_over_http]), the deletion one more
    than there are objects ([DeleteWorkflowObjects_exact]), the search for a reset
    as much as the history has pages ([reset_finds_event]).  Counters are int32; the
    theorem on the threshold assumes the counts stay below 2^31.

    ** What is not modelled

    The backends' SDKs, S3, md5, and of the standard library the parsing of urls, XML
    and the text of floats (parameters); reading the YAML configuration and the
    command line; logging and metrics; functions only tests call; the generated mocks.
    Of the integration tests: the workers that need what the simulated backend does
    not have (resets, headers, the listing of workflows, the times of retries and
    time-outs of a worker's call), and the variants with memos or with RPCs that are
    updates. *)

From stdpp Require Export base tactics list gmap strings pretty sorting.
From Stdlib Require Export ZArith Lia.

(** ** Go results: a value, or a panic

    A Go function either returns or panics; the code panics on purpose in a few
    places ([panic("critical bug, ...")]) and by nil dereference or an index out
    of range in others.  [gores] makes both visible. *)

Inductive gores (A : Type) : Type :=
| Ret (a : A)
| Panic (msg : string).
Arguments Ret {A} a.
Arguments Panic {A} msg.

#[export] Instance gores_ret : MRet gores := @Ret.

#[export] Instance gores_bind : MBind gores := fun A B f m =>
  match m with
  | Ret a => f a
  | Panic msg => Panic msg
  end.

#[export] Instance gores_fmap : FMap gores := fun A B f m =>
  match m with
  | Ret a => Ret (f a)
  | Panic msg => Panic msg
  end.

(** Dereferencing a pointer, or reading a slice at an index. *)
Definition deref {A} (p : option A) : gores A :=
  match p with
  | Some a => Ret a
  | None => Panic "nil pointer dereference"
  end.

Definition index {A} (l : list A) (i : nat) : gores A :=
  match l !! i with
  | Some a => Ret a
  | None => Panic "index out of range"
  end.

(** [len(l)], a Go [int]. *)
Definition len {A} (l : list A) : Z := Z.of_nat (length l).

(** ** Machine integers *)

Definition wrap32 (z : Z) : Z := ((z + 2147483648) mod 4294967296 - 2147483648)%Z.
Definition wrap64 (z : Z) : Z :=
  ((z + 9223372036854775808) mod 18446744073709551616 - 9223372036854775808)%Z.

Definition is_int32 (z : Z) : Prop := (-2147483648 <= z <= 2147483647)%Z.
Definition is_int64 (z : Z) : Prop :=
  (-9223372036854775808 <= z <= 9223372036854775807)%Z.

(** ** Maps *)

(** Go's [m[k]] on a map whose element type has the zero value [zero]. *)
Definition map_get {K V} `{Countable K} (zero : V) (m : gmap K V) (k : K) : V :=
  default zero (m !! k).

(** [map[string]bool] used as a set: a key mapped to [false] counts as absent. *)
Definition is_true_key (m : gmap string bool) (k : string) : bool := map_get false m k.

(** [keyMap := map[string]bool{}; for _, k := range keys { keyMap[k] = true }] *)
Definition key_map (keys : list string) : gmap string bool :=
  foldl (fun m k => <[k := true]> m) ∅ keys.

(** [slices.Contains]. *)
Definition contains {A} `{EqDecision A} (l : list A) (a : A) : bool :=
  bool_decide (a ∈ l).

(** ** A state monad over [gores] for the code that mutates an object *)

Definition M (S A : Type) : Type := S -> gores (A * S).

#[export] Instance M_ret {S} : MRet (M S) := fun A a s => Ret (a, s).

#[export] Instance M_bind {S} : MBind (M S) := fun A B f m s =>
  match m s with
  | Ret (a, s') => f a s'
  | Panic msg => Panic msg
  end.

Definition getM {S} : M S S := fun s => Ret (s, s).
Definition modM {S} (f : S -> S) : M S unit := fun s => Ret (tt, f s).
Definition liftM {S A} (m : gores A) : M S A := fun s =>
  match m with
  | Ret a => Ret (a, s)
  | Panic msg => Panic msg
  end.

(** The state after a run that returned. *)
Definition run_state {S A} (m : M S A) (s : S) : option S :=
  match m s with
  | Ret (_, s') => Some s'
  | Panic _ => None
  end.

(** ** Generic lemmas *)

Create HintDb iwf.

Lemma gores_bind_Ret {A B} (f : A -> gores B) (m : gores A) b :
  m ≫= f = Ret b -> exists a, m = Ret a /\ f a = Ret b.
Proof. destruct m; [eauto | done]. Qed.

(** An invariant of a step relation holds in every reachable state. *)
Lemma rtc_invariant {A} (R : relation A) (P : A -> Prop) x y :
  (forall x y, P x -> R x y -> P y) -> P x -> rtc R x y -> P y.
Proof. intros Hstep Hx Hr. induction Hr; eauto. Qed.

Lemma wrap32_id z : is_int32 z -> wrap32 z = z.
Proof. unfold is_int32, wrap32. intros. rewrite Z.mod_small; lia. Qed.

Lemma wrap32_range z : is_int32 (wrap32 z).
Proof.
  unfold is_int32, wrap32.
  pose proof (Z.mod_pos_bound (z + 2147483648) 4294967296). lia.
Qed.

Lemma wrap64_id z : is_int64 z -> wrap64 z = z.
Proof. unfold is_int64, wrap64. intros. rewrite Z.mod_small; lia. Qed.

Lemma wrap64_range z : is_int64 (wrap64 z).
Proof.
  unfold is_int64, wrap64.
  pose proof (Z.mod_pos_bound (z + 9223372036854775808) 18446744073709551616). lia.
Qed.

Lemma len_nil_iff {A} (l : list A) : len l = 0%Z <-> l = [].
Proof. unfold len. destruct l; simpl; split; intros; done || lia. Qed.

Lemma len_cons {A} (x : A) l : len (x :: l) = (len l + 1)%Z.
Proof. unfold len. cbn [length]. lia. Qed.

Lemma len_nonneg {A} (l : list A) : (0 <= len l)%Z.
Proof. unfold len. lia. Qed.

Lemma foldl_insert_lookup (keys : list string) (m : gmap string bool) k :
  foldl (fun m k => <[k := true]> m) m keys !! k =
  if decide (k ∈ keys) then Some true else m !! k.
Proof.
  revert m. induction keys as [|k' keys IH]; intros m; cbn [foldl].
  - case_decide; [set_solver | done].
  - rewrite IH, lookup_insert. repeat case_decide; set_solver.
Qed.

Lemma key_map_true keys k : is_true_key (key_map keys) k = bool_decide (k ∈ keys).
Proof.
  unfold is_true_key, map_get, key_map. rewrite foldl_insert_lookup.
  case_decide; [by rewrite bool_decide_true | by rewrite bool_decide_false].
Qed.

(** [for _, a := range l { m[key(a)] = f(a) }]: the last write to a key wins. *)
Lemma foldl_insert_key_lookup {A B} (key : A -> string) (f : A -> B) (l : list A)
  (m : gmap string B) k :
  foldl (fun m a => <[key a := f a]> m) m l !! k =
  match last (filter (fun a => key a = k) l) with
  | Some a => Some (f a)
  | None => m !! k
  end.
Proof.
  revert m. induction l as [|a l IH] using rev_ind; intros m; simpl; [done|].
  rewrite foldl_app. cbn [foldl]. rewrite lookup_insert, filter_app.
  destruct (decide (key a = k)) as [Hk|Hk].
  - rewrite filter_cons_True, filter_nil by done. by rewrite last_snoc.
  - rewrite filter_cons_False, filter_nil, app_nil_r by done. apply IH.
Qed.

Lemma foldl_insert_self_lookup {A} (key : A -> string) (l : list A) (m : gmap string A) k :
  foldl (fun m a => <[key a := a]> m) m l !! k =
  match last (filter (fun a => key a = k) l) with
  | Some a => Some a
  | None => m !! k
  end.
Proof. apply (foldl_insert_key_lookup key id). Qed.

(** ** [DeterministicKeys]: the keys of a map in sorted order

    service/interpreter/utils.go copies the keys of the map and sorts them; the
    iteration order of [range] over a map does not matter because the sort is
    total.  [sorted_keys R] is that function for a key type ordered by [R]. *)

Definition sorted_keys {K V} `{Countable K} (R : relation K) `{!RelDecision R}
  (m : gmap K V) : list K :=
  merge_sort R (map fst (map_to_list m)).

Definition DeterministicKeys {V} (m : gmap string V) : list string :=
  sorted_keys String.le m.
Definition DeterministicKeysInt {V} (m : gmap nat V) : list nat :=
  sorted_keys le m.

(** The values of a map in the order of its sorted keys: the loop
    [for _, k := range DeterministicKeys(m) { res = append(res, m[k]) }]. *)
Definition sorted_values {V} (m : gmap string V) : list V :=
  omap (fun k => m !! k) (DeterministicKeys m).

Section sorted_keys.
Context {K V : Type} `{Countable K} (R : relation K) `{!RelDecision R}.

Lemma sorted_keys_perm (m : gmap K V) :
  sorted_keys R m ≡ₚ map fst (map_to_list m).
Proof. apply merge_sort_Permutation. Qed.

Lemma elem_of_sorted_keys (m : gmap K V) k : k ∈ sorted_keys R m <-> is_Some (m !! k).
Proof.
  rewrite (sorted_keys_perm m), list_elem_of_fmap. split.
  - intros [[k' v] [-> Hin]]. apply elem_of_map_to_list in Hin. eauto.
  - intros [v Hv]. exists (k, v). split; [done | by apply elem_of_map_to_list].
Qed.

Lemma NoDup_sorted_keys (m : gmap K V) : NoDup (sorted_keys R m).
Proof. rewrite (sorted_keys_perm m). apply NoDup_fst_map_to_list. Qed.

Lemma sorted_keys_length (m : gmap K V) : length (sorted_keys R m) = size m.
Proof.
  by rewrite (sorted_keys_perm m), length_map, length_map_to_list.
Qed.

Lemma sorted_keys_sorted `{!Transitive R, !Total R} (m : gmap K V) :
  StronglySorted R (sorted_keys R m).
Proof. by apply StronglySorted_merge_sort. Qed.

(** The sorted key list is the only sorted enumeration of the domain. *)
Lemma sorted_keys_unique `{!Transitive R, !Total R, !AntiSymm (=) R}
  (m : gmap K V) (l : list K) :
  Sorted R l -> NoDup l -> (forall k, k ∈ l <-> is_Some (m !! k)) -> l = sorted_keys R m.
Proof.
  intros Hs Hnd Hin. apply (Sorted_unique R); [done | by apply Sorted_merge_sort |].
  apply NoDup_Permutation; [done | apply NoDup_sorted_keys |].
  intros k. by rewrite Hin, elem_of_sorted_keys.
Qed.

End sorted_keys.
