(* ===== verification/Idl.v ===== *)
(** * The data model

    The structs of gen/iwfidl (the generated IDL types) and of
    service/interfaces.go that the interpreter stores and passes around.  A Go
    pointer field ([*T] with [omitempty]) is an [option T]; a generated getter
    [GetX()] is [default zero x]; [HasX()] is [is_set x].  A Go slice is a list
    (the code only ever looks at [len], so nil and the empty slice coincide).
    A Go string enumeration is an inductive type with one constructor per
    constant of the source and a last constructor for any other string, because
    the code has branches for unsupported values.  A float is kept as the
    rational number it denotes. *)

From Stdlib Require Export QArith_base.
From S2P Require Export Prelude.

#[local] Set Warnings "-register-all".

(** [HasX()] *)
Definition is_set {A} (p : option A) : bool :=
  match p with Some _ => true | None => false end.

(** ** Enumerations *)

Inductive SearchAttributeValueType : Type :=
| KEYWORD | TEXT | DATETIME | INT | DOUBLE | BOOL | KEYWORD_ARRAY
| SearchAttributeValueType_other (s : string).

Inductive PersistenceLoadingType : Type :=
| PersistenceLoadingType_empty
| ALL_WITHOUT_LOCKING | PARTIAL_WITHOUT_LOCKING | PARTIAL_WITH_EXCLUSIVE_LOCK
| NONE | ALL_WITH_PARTIAL_LOCK
| PersistenceLoadingType_other (s : string).

Inductive DeciderTriggerType : Type :=
| ALL_COMMAND_COMPLETED | ANY_COMMAND_COMPLETED | ANY_COMMAND_COMBINATION_COMPLETED
| DeciderTriggerType_other (s : string).

Inductive CommandWaitingType : Type :=
| ALL_COMPLETED | ANY_COMPLETED | ANY_COMBINATION_COMPLETED
| CommandWaitingType_other (s : string).

Inductive ExecutingStateIdMode : Type :=
| ENABLED_FOR_ALL | ENABLED_FOR_STATES_WITH_WAIT_UNTIL | DISABLED
| ExecutingStateIdMode_other (s : string).

Inductive WorkflowConditionalCloseType : Type :=
| FORCE_COMPLETE_ON_INTERNAL_CHANNEL_EMPTY
| FORCE_COMPLETE_ON_SIGNAL_CHANNEL_EMPTY
| GRACEFUL_COMPLETE_ON_ALL_CHANNELS_EMPTY
| WorkflowConditionalCloseType_other (s : string).

Inductive StartApiFailurePolicy : Type :=
| FAIL_WORKFLOW_ON_START_API_FAILURE | PROCEED_TO_DECIDE_ON_START_API_FAILURE
| StartApiFailurePolicy_other (s : string).

Inductive WaitUntilApiFailurePolicy : Type :=
| FAIL_WORKFLOW_ON_FAILURE | PROCEED_ON_FAILURE
| WaitUntilApiFailurePolicy_other (s : string).

Inductive ExecuteApiFailurePolicy : Type :=
| FAIL_WORKFLOW_ON_EXECUTE_API_FAILURE | PROCEED_TO_CONFIGURED_STATE
| ExecuteApiFailurePolicy_other (s : string).

Inductive WorkflowErrorType : Type :=
| STATE_DECISION_FAILING_WORKFLOW_ERROR_TYPE
| CLIENT_API_FAILING_WORKFLOW_ERROR_TYPE
| STATE_API_FAIL_ERROR_TYPE
| INVALID_USER_WORKFLOW_CODE_ERROR_TYPE
| RPC_ACQUIRE_LOCK_FAILURE
| SERVER_INTERNAL_ERROR_TYPE
| WorkflowErrorType_other (s : string).

Inductive TimerStatus : Type := SCHEDULED | FIRED.
Inductive ChannelRequestStatus : Type := WAITING | RECEIVED.

(** service/interfaces.go: [InternalTimerStatus] *)
Inductive InternalTimerStatus : Type := TimerPending | TimerFired | TimerSkipped.

(** service/interfaces.go: [StateExecutionStatus] *)
Inductive StateExecutionStatus : Type :=
| FailureStateExecutionStatus
| WaitingCommandsStateExecutionStatus
| CompletedStateExecutionStatus
| ExecuteApiFailedAndProceed.

Inductive BackendType : Type := BackendTypeCadence | BackendTypeTemporal.

#[export] Instance SearchAttributeValueType_eq_dec : EqDecision SearchAttributeValueType.
Proof. solve_decision. Defined.
#[export] Instance PersistenceLoadingType_eq_dec : EqDecision PersistenceLoadingType.
Proof. solve_decision. Defined.
#[export] Instance DeciderTriggerType_eq_dec : EqDecision DeciderTriggerType.
Proof. solve_decision. Defined.
#[export] Instance CommandWaitingType_eq_dec : EqDecision CommandWaitingType.
Proof. solve_decision. Defined.
#[export] Instance ExecutingStateIdMode_eq_dec : EqDecision ExecutingStateIdMode.
Proof. solve_decision. Defined.
#[export] Instance WorkflowConditionalCloseType_eq_dec : EqDecision WorkflowConditionalCloseType.
Proof. solve_decision. Defined.
#[export] Instance StartApiFailurePolicy_eq_dec : EqDecision StartApiFailurePolicy.
Proof. solve_decision. Defined.
#[export] Instance WaitUntilApiFailurePolicy_eq_dec : EqDecision WaitUntilApiFailurePolicy.
Proof. solve_decision. Defined.
#[export] Instance ExecuteApiFailurePolicy_eq_dec : EqDecision ExecuteApiFailurePolicy.
Proof. solve_decision. Defined.
#[export] Instance WorkflowErrorType_eq_dec : EqDecision WorkflowErrorType.
Proof. solve_decision. Defined.
#[export] Instance InternalTimerStatus_eq_dec : EqDecision InternalTimerStatus.
Proof. solve_decision. Defined.
#[export] Instance StateExecutionStatus_eq_dec : EqDecision StateExecutionStatus.
Proof. solve_decision. Defined.
#[export] Instance BackendType_eq_dec : EqDecision BackendType.
Proof. solve_decision. Defined.

(** ** Values and attributes *)

Record EncodedObject : Type := mkEncodedObject {
  ExtStoreId : option string;
  ExtPath : option string;
  Encoding : option string;
  Data : option string
}.

Record KeyValue : Type := mkKeyValue {
  kv_Key : option string;
  kv_Value : option EncodedObject
}.

Record SearchAttribute : Type := mkSearchAttribute {
  sa_Key : option string;
  StringValue : option string;
  IntegerValue : option Z;
  DoubleValue : option Q;
  BoolValue : option bool;
  StringArrayValue : list string;
  ValueType : option SearchAttributeValueType
}.

Record SearchAttributeKeyAndType : Type := mkSearchAttributeKeyAndType {
  sakt_Key : option string;
  sakt_ValueType : option SearchAttributeValueType
}.

#[export] Instance EncodedObject_eq_dec : EqDecision EncodedObject.
Proof. solve_decision. Defined.
#[export] Instance KeyValue_eq_dec : EqDecision KeyValue.
Proof. solve_decision. Defined.

Definition kv_GetKey (kv : KeyValue) : string := default EmptyString (kv_Key kv).
Definition sa_GetKey (sa : SearchAttribute) : string := default EmptyString (sa_Key sa).
Definition empty_EncodedObject : EncodedObject := mkEncodedObject None None None None.
Definition kv_GetValue (kv : KeyValue) : EncodedObject :=
  default empty_EncodedObject (kv_Value kv).

(** ** Loading policies, retry policies and state options *)

Record PersistenceLoadingPolicy : Type := mkPersistenceLoadingPolicy {
  plp_PersistenceLoadingType : option PersistenceLoadingType;
  PartialLoadingKeys : list string;
  LockingKeys : list string;
  UseKeyAsPrefix : option bool;
  LazyLoadingLargeDataAttributes : option bool
}.

Definition GetPersistenceLoadingType (p : PersistenceLoadingPolicy) : PersistenceLoadingType :=
  default PersistenceLoadingType_empty (plp_PersistenceLoadingType p).

Record RetryPolicy : Type := mkRetryPolicy {
  InitialIntervalSeconds : option Z;
  BackoffCoefficient : option Q;
  MaximumIntervalSeconds : option Z;
  MaximumAttempts : option Z;
  MaximumAttemptsDurationSeconds : option Z
}.

Inductive WorkflowStateOptions : Type := mkWorkflowStateOptions {
  SearchAttributesLoadingPolicy : option PersistenceLoadingPolicy;
  WaitUntilApiSearchAttributesLoadingPolicy : option PersistenceLoadingPolicy;
  ExecuteApiSearchAttributesLoadingPolicy : option PersistenceLoadingPolicy;
  DataObjectsLoadingPolicy : option PersistenceLoadingPolicy;
  StartApiTimeoutSeconds : option Z;
  DecideApiTimeoutSeconds : option Z;
  StartApiRetryPolicy : option RetryPolicy;
  DecideApiRetryPolicy : option RetryPolicy;
  so_StartApiFailurePolicy : option StartApiFailurePolicy;
  so_ExecuteApiFailurePolicy : option ExecuteApiFailurePolicy;
  ExecuteApiFailureProceedStateId : option string;
  ExecuteApiFailureProceedStateOptions : option WorkflowStateOptions;
  SkipStartApi : option bool;
  WaitUntilApiTimeoutSeconds : option Z;
  ExecuteApiTimeoutSeconds : option Z;
  WaitUntilApiRetryPolicy : option RetryPolicy;
  ExecuteApiRetryPolicy : option RetryPolicy;
  so_WaitUntilApiFailurePolicy : option WaitUntilApiFailurePolicy;
  SkipWaitUntil : option bool;
  DataAttributesLoadingPolicy : option PersistenceLoadingPolicy;
  WaitUntilApiDataAttributesLoadingPolicy : option PersistenceLoadingPolicy;
  ExecuteApiDataAttributesLoadingPolicy : option PersistenceLoadingPolicy
}.

(** The zero [WorkflowStateOptions{}] that [GetStateOptions()] returns on nil. *)
Definition empty_options : WorkflowStateOptions :=
  mkWorkflowStateOptions None None None None None None None None None None None None
    None None None None None None None None None None.

(** ** States and decisions *)

Record StateMovement : Type := mkStateMovement {
  StateId : string;
  StateInput : option EncodedObject;
  StateOptions : option WorkflowStateOptions;
  WaitForKey : option string
}.

(** The zero [StateMovement{}]. *)
Definition empty_movement : StateMovement := mkStateMovement EmptyString None None None.

Definition GetStateOptions (s : StateMovement) : WorkflowStateOptions :=
  default empty_options (StateOptions s).

Record WorkflowConditionalClose : Type := mkWorkflowConditionalClose {
  ConditionalCloseType : option WorkflowConditionalCloseType;
  cc_ChannelName : option string;
  CloseInput : option EncodedObject
}.

Record StateDecision : Type := mkStateDecision {
  NextStates : list StateMovement;
  ConditionalClose : option WorkflowConditionalClose
}.

Record StateCompletionOutput : Type := mkStateCompletionOutput {
  CompletedStateId : string;
  CompletedStateExecutionId : string;
  CompletedStateOutput : option EncodedObject
}.

Record InterStateChannelPublishing : Type := mkInterStateChannelPublishing {
  pub_ChannelName : string;
  pub_Value : option EncodedObject
}.

Record ChannelInfo : Type := mkChannelInfo { Size : option Z }.

(** ** Commands *)

Record TimerCommand : Type := mkTimerCommand {
  tc_CommandId : option string;
  FiringUnixTimestampSeconds : option Z;
  DurationSeconds : option Z
}.

Record SignalCommand : Type := mkSignalCommand {
  sc_CommandId : option string;
  SignalChannelName : string;
  sc_AtLeast : option Z;
  sc_AtMost : option Z
}.

Record InterStateChannelCommand : Type := mkInterStateChannelCommand {
  ic_CommandId : option string;
  ic_ChannelName : string;
  ic_AtLeast : option Z;
  ic_AtMost : option Z
}.

Record CommandCombination : Type := mkCommandCombination { CommandIds : list string }.

Record CommandRequest : Type := mkCommandRequest {
  cr_DeciderTriggerType : option DeciderTriggerType;
  cr_CommandWaitingType : option CommandWaitingType;
  TimerCommands : list TimerCommand;
  SignalCommands : list SignalCommand;
  InterStateChannelCommands : list InterStateChannelCommand;
  CommandCombinations : list CommandCombination
}.

Definition empty_CommandRequest : CommandRequest := mkCommandRequest None None [] [] [] [].

Record TimerResult : Type := mkTimerResult {
  tr_CommandId : string;
  tr_TimerStatus : TimerStatus
}.

Record SignalResult : Type := mkSignalResult {
  sr_CommandId : string;
  SignalRequestStatus : ChannelRequestStatus;
  sr_SignalChannelName : string;
  SignalValue : option EncodedObject
}.

Record InterStateChannelResult : Type := mkInterStateChannelResult {
  ir_CommandId : string;
  RequestStatus : ChannelRequestStatus;
  ir_ChannelName : string;
  ir_Value : option EncodedObject
}.

Record CommandResults : Type := mkCommandResults {
  SignalResults : list SignalResult;
  InterStateChannelResults : list InterStateChannelResult;
  TimerResults : list TimerResult;
  StateStartApiSucceeded : option bool;
  StateWaitUntilFailed : option bool
}.

(** ** Requests and responses of the worker APIs *)

Record Context_ : Type := mkContext {
  ctx_WorkflowId : string;
  ctx_WorkflowRunId : string;
  ctx_WorkflowStartedTimestamp : Z;
  ctx_StateExecutionId : option string;
  FirstAttemptTimestamp : option Z;
  Attempt : option Z
}.

Record WorkflowStateStartRequest : Type := mkWorkflowStateStartRequest {
  ws_Context : Context_;
  ws_WorkflowType : string;
  ws_WorkflowStateId : string;
  ws_StateInput : option EncodedObject;
  ws_SearchAttributes : list SearchAttribute;
  ws_DataObjects : list KeyValue
}.

Record WorkflowStateStartResponse : Type := mkWorkflowStateStartResponse {
  ws_LocalActivityInput : option string;
  ws_UpsertSearchAttributes : list SearchAttribute;
  ws_UpsertDataObjects : list KeyValue;
  ws_CommandRequest : option CommandRequest;
  ws_UpsertStateLocals : list KeyValue;
  ws_RecordEvents : list KeyValue;
  ws_PublishToInterStateChannel : list InterStateChannelPublishing
}.

Record WorkflowStateDecideRequest : Type := mkWorkflowStateDecideRequest {
  wd_Context : Context_;
  wd_WorkflowType : string;
  wd_WorkflowStateId : string;
  wd_StateInput : option EncodedObject;
  wd_SearchAttributes : list SearchAttribute;
  wd_DataObjects : list KeyValue;
  wd_StateLocals : list KeyValue;
  wd_CommandResults : option CommandResults
}.

Record WorkflowStateDecideResponse : Type := mkWorkflowStateDecideResponse {
  wd_LocalActivityInput : option string;
  wd_StateDecision : option StateDecision;
  wd_UpsertSearchAttributes : list SearchAttribute;
  wd_UpsertDataObjects : list KeyValue;
  wd_RecordEvents : list KeyValue;
  wd_UpsertStateLocals : list KeyValue;
  wd_PublishToInterStateChannel : list InterStateChannelPublishing
}.

Record WorkflowRpcRequest : Type := mkWorkflowRpcRequest {
  rpc_WorkflowId : string;
  rpc_WorkflowRunId : option string;
  RpcName : string;
  rpc_Input : option EncodedObject;
  rpc_SearchAttributesLoadingPolicy : option PersistenceLoadingPolicy;
  rpc_DataAttributesLoadingPolicy : option PersistenceLoadingPolicy;
  TimeoutSeconds : option Z;
  rpc_UseMemoForDataAttributes : option bool;
  rpc_SearchAttributes : list SearchAttributeKeyAndType
}.

Record WorkflowRpcResponse : Type := mkWorkflowRpcResponse {
  rpcr_Output : option EncodedObject
}.

Record WorkflowWorkerRpcRequest : Type := mkWorkflowWorkerRpcRequest {
  wr_Context : Context_;
  wr_WorkflowType : string;
  wr_RpcName : string;
  wr_Input : option EncodedObject;
  wr_SearchAttributes : list SearchAttribute;
  wr_DataAttributes : list KeyValue;
  wr_SignalChannelInfos : option (gmap string ChannelInfo);
  wr_InternalChannelInfos : option (gmap string ChannelInfo)
}.

Record WorkflowWorkerRpcResponse : Type := mkWorkflowWorkerRpcResponse {
  wr_Output : option EncodedObject;
  wr_StateDecision : option StateDecision;
  wr_UpsertSearchAttributes : list SearchAttribute;
  wr_UpsertDataAttributes : list KeyValue;
  wr_RecordEvents : list KeyValue;
  wr_UpsertStateLocals : list KeyValue;
  wr_PublishToInterStateChannel : list InterStateChannelPublishing
}.

Record WorkflowDumpRequest : Type := mkWorkflowDumpRequest {
  dump_WorkflowId : string;
  dump_WorkflowRunId : string;
  PageSizeInBytes : Z;
  PageNum : Z
}.

Record WorkflowDumpResponse : Type := mkWorkflowDumpResponse {
  Checksum : string;
  TotalPages : Z;
  JsonData : string
}.

(** The value fields of gen/iwfidl/model_workflow_config.go. *)
Record WorkflowConfig : Type := mkWorkflowConfig {
  DisableSystemSearchAttribute : option bool;
  cfg_ExecutingStateIdMode : option ExecutingStateIdMode;
  ContinueAsNewThreshold : option Z;
  ContinueAsNewPageSizeInBytes : option Z;
  OptimizeActivity : option bool;
  OptimizeTimer : option bool
}.
