(* ===== verification/Service.v ===== *)
(** * service/const.go and service/interfaces.go

    The constants and internal types shared by the interpreter and the API
    server, the errors the interpreter returns, and the one operation of
    service/interfaces.go, [ValidateTimerSkipRequest] (in Timers.v, where the
    timers live). *)

From S2P Require Export Idl.

(** ** Constants *)

Definition DefaultContinueAsNewPageSizeInBytes : Z := 1024 * 1024.

Definition IwfSystemConstPrefix : string := "__IwfSystem_".
Definition SkipTimerSignalChannelName : string := IwfSystemConstPrefix +:+ "SkipTimerChannel".
Definition FailWorkflowSignalChannelName : string := IwfSystemConstPrefix +:+ "FailWorkflowChannel".
Definition UpdateConfigSignalChannelName : string := IwfSystemConstPrefix +:+ "UpdateWorkflowConfig".
Definition ExecuteRpcSignalChannelName : string := IwfSystemConstPrefix +:+ "ExecuteRpc".
Definition StateCompletionSignalChannelName : string := IwfSystemConstPrefix +:+ "StateCompletion".
Definition TriggerContinueAsNewSignalChannelName : string :=
  IwfSystemConstPrefix +:+ "TriggerContinueAsNew".

Definition SearchAttributeGlobalVersion : string := "IwfGlobalWorkflowVersion".
Definition SearchAttributeExecutingStateIds : string := "IwfExecutingStateIds".
Definition SearchAttributeIwfWorkflowType : string := "IwfWorkflowType".

Definition WorkerUrlMemoKey : string := IwfSystemConstPrefix +:+ "WorkerUrl".
Definition UseMemoForDataAttributesKey : string :=
  IwfSystemConstPrefix +:+ "UseMemoForDataAttributes".
Definition WorkflowRequestId : string := IwfSystemConstPrefix +:+ "WorkflowRequestId".

Definition ValidIwfSystemSignalNames : gmap string bool :=
  <[SkipTimerSignalChannelName := true]>
  (<[FailWorkflowSignalChannelName := true]>
  (<[UpdateConfigSignalChannelName := true]>
  (<[ExecuteRpcSignalChannelName := true]> ∅))).

Definition GracefulCompletingWorkflowStateId : string := "_SYS_GRACEFUL_COMPLETING_WORKFLOW".
Definition ForceCompletingWorkflowStateId : string := "_SYS_FORCE_COMPLETING_WORKFLOW".
Definition ForceFailingWorkflowStateId : string := "_SYS_FORCE_FAILING_WORKFLOW".
Definition DeadEndWorkflowStateId : string := "_SYS_DEAD_END".

Definition ValidClosingWorkflowStateId : gmap string bool :=
  <[GracefulCompletingWorkflowStateId := true]>
  (<[ForceCompletingWorkflowStateId := true]>
  (<[ForceFailingWorkflowStateId := true]>
  (<[DeadEndWorkflowStateId := true]> ∅))).

(** ** Internal types *)

Record BasicInfo : Type := mkBasicInfo {
  bi_IwfWorkflowType : string;
  bi_IwfWorkerUrl : string
}.

Record ContinueAsNewInput : Type := mkContinueAsNewInput { PreviousInternalRunId : string }.

Record InterpreterWorkflowInput : Type := mkInterpreterWorkflowInput {
  in_IwfWorkflowType : string;
  in_IwfWorkerUrl : string;
  in_StartStateId : option string;
  in_WaitForCompletionStateExecutionIds : list string;
  in_WaitForCompletionStateIds : list string;
  in_StateInput : option EncodedObject;
  in_StateOptions : option WorkflowStateOptions;
  in_InitSearchAttributes : list SearchAttribute;
  in_InitDataAttributes : list KeyValue;
  in_UseMemoForDataAttributes : bool;
  in_Config : WorkflowConfig;
  in_IsResumeFromContinueAsNew : bool;
  in_ContinueAsNewInput : option ContinueAsNewInput
}.

Record InterpreterWorkflowOutput : Type := mkInterpreterWorkflowOutput {
  StateCompletionOutputs : list StateCompletionOutput
}.

Record ExecuteRpcSignalRequest : Type := mkExecuteRpcSignalRequest {
  rs_RpcInput : option EncodedObject;
  rs_RpcOutput : option EncodedObject;
  rs_UpsertDataObjects : list KeyValue;
  rs_UpsertSearchAttributes : list SearchAttribute;
  rs_StateDecision : option StateDecision;
  rs_RecordEvents : list KeyValue;
  rs_InterStateChannelPublishing : list InterStateChannelPublishing
}.

Record TimerInfo : Type := mkTimerInfo {
  ti_CommandId : option string;
  ti_FiringUnixTimestampSeconds : Z;
  ti_Status : InternalTimerStatus
}.

Record SkipTimerSignalRequest : Type := mkSkipTimerSignalRequest {
  sk_StateExecutionId : string;
  sk_CommandId : string;
  sk_CommandIndex : Z
}.

Record FailWorkflowSignalRequest : Type := mkFailWorkflowSignalRequest { Reason : string }.

Record StateExecutionCompletedCommands : Type := mkStateExecutionCompletedCommands {
  CompletedTimerCommands : gmap nat InternalTimerStatus;
  CompletedSignalCommands : gmap nat (option EncodedObject);
  CompletedInterStateChannelCommands : gmap nat (option EncodedObject)
}.

Record StateExecutionResumeInfo : Type := mkStateExecutionResumeInfo {
  ri_StateExecutionId : string;
  ri_State : StateMovement;
  ri_StateExecutionCompletedCommands : StateExecutionCompletedCommands;
  ri_CommandRequest : CommandRequest;
  ri_StateExecutionLocals : list KeyValue
}.

Record StaleSkipTimerSignal : Type := mkStaleSkipTimerSignal {
  st_StateExecutionId : string;
  st_TimerCommandId : string;
  st_TimerCommandIndex : Z
}.

Record StateExecutionCounterInfo : Type := mkStateExecutionCounterInfo {
  StateIdStartedCount : gmap string Z;
  StateIdCurrentlyExecutingCount : gmap string Z;
  TotalCurrentlyExecutingCount : Z
}.

Record ContinueAsNewDumpResponse : Type := mkContinueAsNewDumpResponse {
  StatesToStartFromBeginning : list StateMovement;
  StateExecutionsToResume : gmap string StateExecutionResumeInfo;
  InterStateChannelReceived : gmap string (list (option EncodedObject));
  SignalsReceived : gmap string (list (option EncodedObject));
  StateExecutionCounterInfo_ : StateExecutionCounterInfo;
  StateOutputs : list StateCompletionOutput;
  StaleSkipTimerSignals : list StaleSkipTimerSignal;
  DataObjects : list KeyValue;
  SearchAttributes : list SearchAttribute
}.

(** ** Errors

    The error values the interpreter distinguishes: an application error made by
    [provider.NewApplicationError(errType, details)], whose details are a message
    or the collected state outputs, and any other error with its message. *)

Inductive errDetails : Type :=
| DetailsString (msg : string)
| DetailsOutputs (outputs : list StateCompletionOutput).

Inductive error : Type :=
| ApplicationError (errType : WorkflowErrorType) (details : errDetails)
| OtherError (msg : string).

Definition NewApplicationError (errType : WorkflowErrorType) (msg : string) : error :=
  ApplicationError errType (DetailsString msg).

Definition IsApplicationError (e : error) : bool :=
  match e with ApplicationError _ _ => true | OtherError _ => false end.

(** ** String helpers of the Go standard library *)

(** [strings.HasPrefix]. *)
Definition HasPrefix (s p : string) : bool := String.prefix p s.

(** Is [stateId] one of the four closing state ids? *)
Definition is_closing_state (stateId : string) : bool :=
  is_true_key ValidClosingWorkflowStateId stateId.
