(* ===== verification/TimeParser.v ===== *)
(** * service/common/timeparser/time.go

    [ParseTime] turns the value of a DATETIME search attribute into unix
    nanoseconds.  It tries, in order, Go's [time.Parse] with the layout
    [2006-01-02T15:04:05-07:00], [strconv.ParseInt], and the duration notation
    of [parseTimeRange].  The two standard-library parsers are modelled as far
    as this layout uses them: fixed two-digit fields except the hour (one or two
    digits), an optional fraction after the seconds, a numeric zone with a
    colon whose fields may reach 24 and 60. *)

From Stdlib Require Export Ascii.
From S2P Require Export Service.

(** ** Digits *)

Definition is_digit (a : ascii) : bool :=
  let n := N_of_ascii a in ((48 <=? n) && (n <=? 57))%N.
Definition digit_val (a : ascii) : Z := (Z.of_N (N_of_ascii a) - 48)%Z.

(** The value of a digit string, most significant first. *)
Fixpoint digits_val (acc : Z) (l : list ascii) : Z :=
  match l with
  | [] => acc
  | a :: l' => digits_val (acc * 10 + digit_val a)%Z l'
  end.

Fixpoint span_digits (l : list ascii) : list ascii * list ascii :=
  match l with
  | a :: l' =>
      if is_digit a then let '(d, r) := span_digits l' in (a :: d, r) else ([], l)
  | [] => ([], [])
  end.

Definition chars (s : string) : list ascii := String.list_ascii_of_string s.

(** ** [time.Parse] for the layout [2006-01-02T15:04:05-07:00] *)

(** [getnum(value, fixed)]: two digits, or one digit unless [fixed]. *)
Definition getnum (fixed : bool) (l : list ascii) : option (Z * list ascii) :=
  match l with
  | a :: b :: r =>
      if is_digit a then
        if is_digit b then Some ((digit_val a * 10 + digit_val b)%Z, r)
        else if fixed then None else Some (digit_val a, b :: r)
      else None
  | [a] => if is_digit a then if fixed then None else Some (digit_val a, []) else None
  | [] => None
  end.

Definition expect (c : ascii) (l : list ascii) : option (list ascii) :=
  match l with
  | a :: r => if bool_decide (a = c) then Some r else None
  | [] => None
  end.

(** Two digits in a range. *)
Definition getnum_in (fixed : bool) (lo hi : Z) (l : list ascii) : option (Z * list ascii) :=
  '(n, r) ← getnum fixed l;
  if ((lo <=? n) && (n <=? hi))%Z then Some (n, r) else None.

Definition get_year (l : list ascii) : option (Z * list ascii) :=
  match l with
  | a :: b :: c :: d :: r =>
      if is_digit a && is_digit b && is_digit c && is_digit d
      then Some (digits_val 0 [a; b; c; d], r) else None
  | _ => None
  end.

(** [10 ^ k] for the nine fractional digits at most. *)
Definition scale_ns (digits : list ascii) : Z :=
  let d := take 9 digits in
  (digits_val 0 d * 10 ^ (9 - len d))%Z.

(** The fraction that may follow the seconds. *)
Definition get_fraction (l : list ascii) : Z * list ascii :=
  match l with
  | p :: d :: r =>
      if (bool_decide (p = "."%char) || bool_decide (p = ","%char)) && is_digit d then
        let '(ds, rest) := span_digits (d :: r) in (scale_ns ds, rest)
      else (0%Z, l)
  | _ => (0%Z, l)
  end.

(** [-07:00]: the zone offset in seconds. *)
Definition get_zone (l : list ascii) : option (Z * list ascii) :=
  match l with
  | sign :: h1 :: h2 :: c :: m1 :: m2 :: r =>
      if bool_decide (c = ":"%char) then
        '(hr, _) ← getnum_in true 0 24 [h1; h2];
        '(mm, _) ← getnum_in true 0 60 [m1; m2];
        let off := ((hr * 60 + mm) * 60)%Z in
        if bool_decide (sign = "+"%char) then Some (off, r)
        else if bool_decide (sign = "-"%char) then Some ((- off)%Z, r) else None
      else None
  | _ => None
  end.

Definition is_leap (y : Z) : bool :=
  ((y mod 4 =? 0) && (negb (y mod 100 =? 0) || (y mod 400 =? 0)))%Z.

Definition daysIn (m y : Z) : Z :=
  if (m =? 2)%Z then if is_leap y then 29 else 28
  else if ((m =? 4) || (m =? 6) || (m =? 9) || (m =? 11))%Z then 30 else 31.

(** Days since 1970-01-01 of a date of the proleptic Gregorian calendar. *)
Definition days_from_civil (y m d : Z) : Z :=
  (let y := if m <=? 2 then y - 1 else y in
   let era := y / 400 in
   let yoe := y - era * 400 in
   let mp := if m >? 2 then m - 3 else m + 9 in
   let doy := (153 * mp + 2) / 5 + d - 1 in
   let doe := yoe * 365 + yoe / 4 - yoe / 100 + doy in
   era * 146097 + doe - 719468)%Z.

Definition parse_layout (timeStr : string) : option Z :=
  '(year, l) ← get_year (chars timeStr);
  l ← expect "-"%char l;
  '(month, l) ← getnum_in true 1 12 l;
  l ← expect "-"%char l;
  '(day, l) ← getnum true l;
  l ← expect "T"%char l;
  '(hour, l) ← getnum_in false 0 23 l;
  l ← expect ":"%char l;
  '(min, l) ← getnum_in true 0 59 l;
  l ← expect ":"%char l;
  '(sec, l) ← getnum_in true 0 59 l;
  let '(nsec, l) := get_fraction l in
  '(zone, l) ← get_zone l;
  match l with
  | [] =>
      if ((1 <=? day) && (day <=? daysIn month year))%Z then
        let secs := (days_from_civil year month day * 86400 + hour * 3600 + min * 60 + sec - zone)%Z in
        Some (wrap64 (secs * 1000000000 + nsec))
      else None
  | _ :: _ => None
  end.

(** ** [strconv.ParseInt(s, 10, 64)] and [strconv.Atoi] *)

Definition ParseInt (s : string) : option Z :=
  let '(neg, ds) :=
    match chars s with
    | a :: r =>
        if bool_decide (a = "-"%char) then (true, r)
        else if bool_decide (a = "+"%char) then (false, r) else (false, a :: r)
    | [] => (false, [])
    end in
  if bool_decide (ds = []) || negb (forallb is_digit ds) then None
  else
    let n := digits_val 0 ds in
    let v := if neg then (- n)%Z else n in
    if ((-9223372036854775808 <=? v) && (v <=? 9223372036854775807))%Z then Some v else None.

(** ** [parseTimeDuration] and [parseTimeRange] *)

Definition Second : Z := 1000000000.
Definition day_ns : Z := 24 * 3600 * Second.
Definition week_ns : Z := 7 * day_ns.
Definition month_ns : Z := 30 * day_ns.
Definition year_ns : Z := 365 * day_ns.

Definition parseTimeDuration (duration : string) : option Z :=
  if contains ["s"; "second"] duration then Some Second
  else if contains ["m"; "minute"] duration then Some (60 * Second)%Z
  else if contains ["h"; "hour"] duration then Some (3600 * Second)%Z
  else if contains ["d"; "day"] duration then Some day_ns
  else if contains ["w"; "week"] duration then Some week_ns
  else if contains ["M"; "month"] duration then Some month_ns
  else if contains ["y"; "year"] duration then Some year_ns
  else None.

(** The match of [^[1-9][0-9]*] and the rest of the string. *)
Definition leading_number (s : string) : option (list ascii * list ascii) :=
  match span_digits (chars s) with
  | (a :: ds, r) => if bool_decide (a = "0"%char) then None else Some (a :: ds, r)
  | ([], _) => None
  end.

(** [now] is [time.Now()] in unix nanoseconds.  The results of matching the two
    regular expressions for the whole string are not used by the code beyond
    their (impossible) compile error, so they do not appear. *)
Definition parseTimeRange (now : Z) (timeRange : string) : option Z :=
  '(ds, rest) ← leading_number timeRange;
  num ← ParseInt (String.string_of_list_ascii ds);
  if (1000000 <=? num)%Z then None
  else
    dur ← parseTimeDuration (String.string_of_list_ascii rest);
    let res := (now + wrap64 (wrap64 (- num) * dur))%Z in
    Some (if (res <? 0)%Z then 0%Z else res).

Definition ParseTime (now : Z) (timeStr : string) : Z + error :=
  if bool_decide (timeStr = EmptyString) then inl 0%Z
  else match parse_layout timeStr with
  | Some t => inl t
  | None =>
      match ParseInt timeStr with
      | Some t => inl t
      | None =>
          match parseTimeRange now timeStr with
          | Some t => inl (wrap64 t)
          | None => inr (OtherError "cannot parse time")
          end
      end
  end.

Example parse_utc : parse_layout "1970-01-02T00:00:01+00:00" = Some 86401000000000%Z.
Proof. reflexivity. Qed.
Example parse_zone : parse_layout "2018-02-15T16:16:36-08:00" = Some 1518740196000000000%Z.
Proof. reflexivity. Qed.
Example parse_fraction : parse_layout "2000-02-29T1:00:00.5+01:00" = Some 951782400500000000%Z.
Proof. reflexivity. Qed.
Example parse_bad_day : parse_layout "2001-02-29T01:00:00+01:00" = None.
Proof. reflexivity. Qed.

(** ** Properties *)

Lemma digits_val_app acc l1 l2 : digits_val acc (l1 ++ l2) = digits_val (digits_val acc l1) l2.
Proof. revert acc. induction l1 as [|a l1 IH]; intros acc; cbn; [done | apply IH]. Qed.

Lemma span_digits_app ds a r :
  forallb is_digit ds = true -> is_digit a = false -> span_digits (ds ++ a :: r) = (ds, a :: r).
Proof.
  intros Hd Ha. induction ds as [|d ds IH]; cbn in *; [by rewrite Ha|].
  apply andb_true_iff in Hd as [-> Hd]. by rewrite IH.
Qed.

Lemma pretty_N_char_digit n : (n < 10)%N ->
  is_digit (pretty_N_char n) = true /\ digit_val (pretty_N_char n) = Z.of_N n.
Proof.
  intros Hn.
  destruct n as [|[[[[]|[]|]|[[]|[]|]|]|[[[]|[]|]|[[]|[]|]|]|]]; try lia; by vm_compute.
Qed.

Lemma chars_app s1 s2 : chars (s1 +:+ s2) = chars s1 ++ chars s2.
Proof. unfold chars. induction s1 as [|a s1 IH]; simpl; [done | by rewrite IH]. Qed.

(** The decimal digits of a positive number. *)
Lemma pretty_N_go_digits n : (0 < n)%N ->
  exists a ds, (forall s, chars (pretty_N_go n s) = (a :: ds) ++ chars s) /\
    forallb is_digit (a :: ds) = true /\ digits_val 0 (a :: ds) = Z.of_N n /\ a <> "0"%char.
Proof.
  induction (N.lt_wf_0 n) as [n _ IH]; intros Hn.
  pose proof (N.mod_lt n 10 ltac:(lia)) as Hmod.
  destruct (pretty_N_char_digit (n mod 10) Hmod) as [Hd Hv].
  destruct (decide (n < 10)%N) as [Hlt|Hge].
  - rewrite N.mod_small in Hd, Hv by done. exists (pretty_N_char n), []. split_and!.
    + intros s. rewrite pretty_N_go_step, N.div_small, N.mod_small by done.
      by rewrite pretty_N_go_0.
    + cbn. by rewrite Hd.
    + cbn. by rewrite Hv.
    + intros Ha. rewrite Ha in Hv. change (digit_val "0") with 0%Z in Hv. lia.
  - assert (0 < n / 10)%N by (apply N.div_str_pos; lia).
    destruct (IH (n / 10)%N) as (a & ds & Hs & Hds & Hval & Ha); [apply N.div_lt; lia | done |].
    exists a, (ds ++ [pretty_N_char (n mod 10)]). split_and!; [| | | done].
    + intros s. rewrite pretty_N_go_step by done. rewrite Hs. cbn. by rewrite <- app_assoc.
    + cbn in *. rewrite forallb_app. cbn. by rewrite Hd, andb_true_r.
    + change (a :: ds ++ [pretty_N_char (n mod 10)]) with ((a :: ds) ++ [pretty_N_char (n mod 10)]).
      rewrite digits_val_app, Hval. cbn. rewrite Hv. pose proof (N.div_mod n 10). lia.
Qed.

Lemma parseTimeDuration_unit unit d :
  parseTimeDuration unit = Some d ->
  (exists a r, chars unit = a :: r /\ is_digit a = false) /\ (0 < d)%Z.
Proof.
  unfold parseTimeDuration, contains. intros H.
  repeat match type of H with
  | (if bool_decide (_ ∈ _) then _ else _) = _ => case_bool_decide as Hin; [|clear Hin]
  end; [injection H as <-..|done];
    (split; [|by vm_compute]);
    repeat (apply elem_of_cons in Hin as [->|Hin]; [eexists _, _; split; reflexivity|]);
    by apply elem_of_nil in Hin.
Qed.

Lemma ParseInt_digits a ds :
  forallb is_digit (a :: ds) = true ->
  ParseInt (String.string_of_list_ascii (a :: ds)) =
  let n := digits_val 0 (a :: ds) in
  if ((-9223372036854775808 <=? n) && (n <=? 9223372036854775807))%Z then Some n else None.
Proof.
  intros Hd. unfold ParseInt, chars. rewrite String.list_ascii_of_string_of_list_ascii.
  assert (is_digit a = true) as Ha by (cbn in Hd; by apply andb_true_iff in Hd as [? _]).
  rewrite bool_decide_false by (by intros ->). rewrite bool_decide_false by (by intros ->).
  by rewrite (bool_decide_false (a :: ds = [])), Hd.
Qed.

(** A number and a unit, whatever the product: the 64-bit duration decides. *)
Lemma parseTimeRange_unit now n unit d :
  (0 < n < 1000000)%Z -> parseTimeDuration unit = Some d ->
  parseTimeRange now (pretty n +:+ unit) = Some (Z.max 0 (now + wrap64 (- n * d))).
Proof.
  intros Hn Hu.
  destruct (parseTimeDuration_unit unit d Hu) as [(a & r & Har & Ha) Hd].
  destruct n as [|p|p]; try lia.
  destruct (pretty_N_go_digits (N.pos p)) as (b & ds & Hs & Hds & Hval & Hb); [lia|].
  unfold parseTimeRange, leading_number.
  change (pretty (Z.pos p)) with (pretty_N_go (N.pos p) EmptyString).
  rewrite chars_app, Hs, app_nil_r, Har, span_digits_app by done.
  rewrite bool_decide_false by done. cbn [mbind option_bind].
  rewrite ParseInt_digits, Hval by done. cbn [Z.of_N].
  destruct (Z.leb_spec (-9223372036854775808) (Z.pos p)), (Z.leb_spec (Z.pos p) 9223372036854775807);
    try lia. cbn [andb mbind option_bind].
  destruct (Z.leb_spec 1000000 (Z.pos p)); [lia|].
  rewrite <- Har. unfold chars. rewrite String.string_of_list_ascii_of_string, Hu. cbn [mbind option_bind].
  rewrite (wrap64_id (- Z.pos p)) by (unfold is_int64; lia).
  generalize (wrap64 (- Z.pos p * d)) as x. intros x.
  destruct (Z.ltb_spec (now + x) 0); f_equal; lia.
Qed.

(** The documented example is wrong: [1000y], which the comment says gives the
    epoch, overflows the duration and gives a time 170 years in the future. *)
Lemma thousand_years_is_in_the_future now :
  (0 <= now)%Z ->
  parseTimeRange now "1000y" = Some (now + 5357488147419103232)%Z.
Proof.
  intros Hnow.
  pose proof (parseTimeRange_unit now 1000 "y" year_ns ltac:(lia) ltac:(done)) as He.
  change (pretty 1000%Z +:+ "y") with "1000y" in He. rewrite He.
  change (wrap64 (- (1000) * year_ns)) with 5357488147419103232%Z. f_equal. lia.
Qed.

(** A relative time, a number in decimal and one of the fourteen units, is that
    long before now, cut off at the epoch; the product is a 64-bit duration, so the
    answer is only right when it does not overflow. *)
Theorem parseTimeRange_spec now n unit d :
  (0 < n < 1000000)%Z -> parseTimeDuration unit = Some d ->
  parseTimeRange now (pretty n +:+ unit) = Some (Z.max 0 (now + wrap64 (- n * d))) /\
  (is_int64 (- n * d) ->
   parseTimeRange now (pretty n +:+ unit) = Some (Z.max 0 (now - n * d))).
Proof.
  intros Hn Hu. pose proof (parseTimeRange_unit now n unit d Hn Hu) as He.
  split; [done|]. intros Hi. rewrite He, wrap64_id by done. f_equal. lia.
Qed.
