(* ===== verification/Json.v ===== *)
(** * JSON

    What the code relies on of Go's encoding/json: the values of JSON, and the
    conversion of Go values to and from them.  A [codec] is what encoding/json does
    for one Go type: [enc] is Marshal, [dec j old] is Unmarshal into a variable
    that holds [old] (JSON null leaves it, a member that is missing leaves its
    field).  A struct is described by its fields with their tags; [struct] encodes
    it through [ToMap], whose map Go writes in the order of its keys, or by
    reflection in the order of the fields.  The text of these values is in
    JsonText.v. *)

From S2P Require Export TimeParser.

(** ** Values *)

Inductive json : Type :=
| JNull
| JBool (b : bool)
| JNum (literal : string)
| JStr (s : string)
| JArr (elements : list json)
| JObj (members : list (string * json)).

Fixpoint json_ind' (P : json -> Prop)
  (Hnull : P JNull) (Hbool : forall b, P (JBool b)) (Hnum : forall l, P (JNum l))
  (Hstr : forall s, P (JStr s)) (Harr : forall l, Forall P l -> P (JArr l))
  (Hobj : forall ms, Forall (fun m => P m.2) ms -> P (JObj ms)) (j : json) : P j :=
  let go := json_ind' P Hnull Hbool Hnum Hstr Harr Hobj in
  match j with
  | JNull => Hnull
  | JBool b => Hbool b
  | JNum l => Hnum l
  | JStr s => Hstr s
  | JArr l => Harr l ((fix all l : Forall P l :=
      match l with [] => Forall_nil_2 _ | j :: l => Forall_cons_2 _ _ _ (go j) (all l) end) l)
  | JObj ms => Hobj ms ((fix all ms : Forall (fun m => P m.2) ms :=
      match ms with [] => Forall_nil_2 _ | m :: ms => Forall_cons_2 _ _ _ (go m.2) (all ms) end) ms)
  end.

(** The nesting of a value. *)
Fixpoint json_depth (j : json) : nat :=
  match j with
  | JArr l => S (foldr (fun j n => json_depth j `max` n) O l)
  | JObj ms => S (foldr (fun m n => json_depth m.2 `max` n) O ms)
  | _ => 1
  end.

(** ** UTF-8

    The pieces of a string: an ASCII byte, the bytes of another rune, or a byte that
    belongs to no rune. *)

Inductive piece : Type :=
| Ascii1 (a : ascii)
| Rune (bytes : list ascii)
| Bad (a : ascii).

Definition code (a : ascii) : Z := Z.of_N (N_of_ascii a).
Definition between (lo hi : Z) (a : ascii) : bool := ((lo <=? code a) && (code a <=? hi))%Z.
Definition continuation : ascii -> bool := between 128 191.

Definition rune2 (a b : ascii) : bool := between 194 223 a && continuation b.
Definition rune3 (a b c : ascii) : bool :=
  continuation c &&
  (between 224 224 a && between 160 191 b || between 225 236 a && continuation b ||
   between 237 237 a && between 128 159 b || between 238 239 a && continuation b).
Definition rune4 (a b c d : ascii) : bool :=
  continuation c && continuation d &&
  (between 240 240 a && between 144 191 b || between 241 243 a && continuation b ||
   between 244 244 a && between 128 143 b).

Fixpoint pieces (l : list ascii) : list piece :=
  match l with
  | [] => []
  | a :: l1 =>
      if between 0 127 a then Ascii1 a :: pieces l1
      else
        let bad := Bad a :: pieces l1 in
        match l1 with
        | b :: l2 =>
            if rune2 a b then Rune [a; b] :: pieces l2
            else match l2 with
                 | c :: l3 =>
                     if rune3 a b c then Rune [a; b; c] :: pieces l3
                     else match l3 with
                          | d :: l4 => if rune4 a b c d then Rune [a; b; c; d] :: pieces l4 else bad
                          | [] => bad
                          end
                 | [] => bad
                 end
        | [] => bad
        end
  end.

Definition piece_bytes (p : piece) : list ascii :=
  match p with Ascii1 a | Bad a => [a] | Rune bytes => bytes end.
Definition is_bad (p : piece) : bool := match p with Bad _ => true | _ => false end.

(** [utf8.ValidString] *)
Definition utf8 (s : string) : bool := negb (existsb is_bad (pieces (chars s))).

Definition is_number_char (a : ascii) : bool :=
  is_digit a || bool_decide (a ∈ ["-"; "+"; "."; "e"; "E"]%char).

(** ** Numbers *)

Fixpoint skip_digits (l : list ascii) : list ascii :=
  match l with a :: r => if is_digit a then skip_digits r else l | [] => [] end.
(** What is left after at least one digit. *)
Definition some_digits (l : list ascii) : option (list ascii) :=
  match l with a :: r => if is_digit a then Some (skip_digits r) else None | [] => None end.
Definition drop_one_of (cs : list ascii) (l : list ascii) : option (list ascii) :=
  match l with a :: r => if bool_decide (a ∈ cs) then Some r else None | [] => None end.

(** An integer without leading zeros, a fraction and an exponent. *)
Definition is_number (l : list ascii) : bool :=
  let l := default l (drop_one_of ["-"%char] l) in
  match (match drop_one_of ["0"%char] l with Some r => Some r | None => some_digits l end) with
  | None => false
  | Some l =>
      match (match drop_one_of ["."%char] l with Some r => some_digits r | None => Some l end) with
      | None => false
      | Some l =>
          match (match drop_one_of ["e"; "E"]%char l with
                 | Some r => some_digits (default r (drop_one_of ["+"; "-"]%char r))
                 | None => Some l
                 end) with
          | Some [] => true
          | _ => false
          end
      end
  end.

Definition number_text (s : string) : bool :=
  forallb is_number_char (chars s) && is_number (chars s).

(** What Marshal writes so that Unmarshal reads it back: strings of UTF-8. *)
Fixpoint json_ok (j : json) : bool :=
  match j with
  | JNull | JBool _ => true
  | JNum l => number_text l
  | JStr s => utf8 s
  | JArr l => forallb json_ok l
  | JObj ms => forallb (fun m => utf8 m.1 && json_ok m.2) ms
  end.

(** ** Codecs

    [carries x]: [x] is a value that JSON can carry. *)

Record codec (T : Type) : Type := mkcodec {
  zero : T;
  enc : T -> json;
  dec : json -> T -> option T;
  carries : T -> bool
}.
Arguments mkcodec {T} _ _ _ _.
Arguments zero {T} _.
Arguments enc {T} _ _.
Arguments dec {T} _ _ _.
Arguments carries {T} _ _.

Definition string_codec : codec string := {|
  zero := EmptyString; enc := JStr; carries := utf8;
  dec j old := match j with JStr s => Some s | JNull => Some old | _ => None end
|}.

Definition bool_codec : codec bool := {|
  zero := false; enc := JBool; carries _ := true;
  dec j old := match j with JBool b => Some b | JNull => Some old | _ => None end
|}.

(** An integer type with the given range; its literal has no fraction or exponent. *)
Definition int_codec (lo hi : Z) : codec Z := {|
  zero := 0%Z; enc z := JNum (pretty z); carries z := ((lo <=? z) && (z <=? hi))%Z;
  dec j old :=
    match j with
    | JNum l => z ← ParseInt l; if ((lo <=? z) && (z <=? hi))%Z then Some z else None
    | JNull => Some old
    | _ => None
    end
|}.
Definition int32_codec : codec Z := int_codec (-2147483648) 2147483647.
Definition int64_codec : codec Z := int_codec (-9223372036854775808) 9223372036854775807.

(** strconv's decimal text of a float, with its 32 or 64 bits. *)
Class FloatText := {
  is_float : Z -> Q -> bool;
  FormatFloat : Z -> Q -> string;
  ParseFloat : Z -> string -> option Q;
  ParseFloat_FormatFloat bits q :
    is_float bits q = true -> ParseFloat bits (FormatFloat bits q) = Some q;
  FormatFloat_number bits q : is_float bits q = true -> number_text (FormatFloat bits q) = true
}.

Definition float_codec `{FloatText} (bits : Z) : codec Q := {|
  zero := 0%Q; enc q := JNum (FormatFloat bits q); carries := is_float bits;
  dec j old :=
    match j with JNum l => ParseFloat bits l | JNull => Some old | _ => None end
|}.

(** A pointer: null is nil. *)
Definition ptr {T} (c : codec T) : codec (option T) := {|
  zero := None;
  enc p := match p with None => JNull | Some x => enc c x end;
  dec j old :=
    match j with
    | JNull => Some None
    | _ => Some <$> dec c j (default (zero c) old)
    end;
  carries p := match p with None => true | Some x => carries c x end
|}.

(** A slice; the empty list is the nil slice. *)
Definition slice {T} (c : codec T) : codec (list T) := {|
  zero := [];
  enc l := match l with [] => JNull | _ => JArr (enc c <$> l) end;
  dec j old :=
    match j with
    | JNull => Some []
    | JArr js => mapM (fun j => dec c j (zero c)) js
    | _ => None
    end;
  carries l := forallb (carries c) l
|}.

(** A map with string keys, or with keys printed as strings; Unmarshal adds to the
    map it is given. *)
Definition map_members {K V} `{Countable K} (key : K -> string) (m : gmap K V) : list (string * V) :=
  merge_sort (fun a b => String.le a.1 b.1) ((fun kv => (key kv.1, kv.2)) <$> map_to_list m).

Fixpoint read_map {K V} `{Countable K} (parse : string -> option K) (c : codec V)
  (ms : list (string * json)) (m : gmap K V) : option (gmap K V) :=
  match ms with
  | [] => Some m
  | (k, j) :: ms =>
      key ← parse k; x ← dec c j (zero c); read_map parse c ms (<[key := x]> m)
  end.

Definition map_codec {K V} `{Countable K} (key : K -> string) (parse : string -> option K)
  (good : K -> bool) (c : codec V) : codec (gmap K V) := {|
  zero := ∅;
  enc m := JObj (prod_map id (enc c) <$> map_members key m);
  dec j old :=
    match j with
    | JNull => Some ∅
    | JObj ms => read_map parse c ms old
    | _ => None
    end;
  carries m := forallb (fun kv => good kv.1 && carries c kv.2) (map_to_list m)
|}.

Definition string_map {V} (c : codec V) : codec (gmap string V) := map_codec id Some utf8 c.

(** Go's [map[int]T] with keys that are not negative. *)
Definition parse_nat (s : string) : option nat :=
  z ← ParseInt s; if (0 <=? z)%Z then Some (Z.to_nat z) else None.
Definition int_map {V} (c : codec V) : codec (gmap nat V) :=
  map_codec (fun n => pretty (Z.of_nat n)) parse_nat
    (fun n => (Z.of_nat n <=? 9223372036854775807)%Z) c.

(** A string enumeration with its allowed values.  Its [UnmarshalJSON] refuses
    every other string, and null, which leaves the string empty. *)
Record enumeration (T : Type) : Type := mkenumeration {
  enum_text : T -> string;
  enum_allowed : list T;
  enum_zero : T
}.
Arguments mkenumeration {T} _ _ _.
Arguments enum_text {T} _ _.
Arguments enum_allowed {T} _.
Arguments enum_zero {T} _.

Definition enum_of_text {T} (e : enumeration T) (value : string) : option T :=
  find (fun existing => bool_decide (enum_text e existing = value)) (enum_allowed e).

(** [IsValid()]; [NewXFromValue] tests the same. *)
Definition enum_IsValid {T} (e : enumeration T) (v : T) : bool :=
  existsb (fun existing => bool_decide (enum_text e existing = enum_text e v)) (enum_allowed e).

Definition enum_codec {T} `{EqDecision T} (e : enumeration T) : codec T := {|
  zero := enum_zero e;
  enc v := JStr (enum_text e v);
  carries v := bool_decide (v ∈ enum_allowed e);
  dec j old :=
    value ← dec string_codec j EmptyString; enum_of_text e value
|}.

(** ** Structs *)

Record field (R A : Type) : Type := mkfield {
  f_name : string;
  f_get : R -> A;
  f_codec : codec A;
  f_omit : A -> bool
}.
Arguments mkfield {R A} _ _ _ _.
Arguments f_name {R A} _.
Arguments f_get {R A} _ _.
Arguments f_codec {R A} _.
Arguments f_omit {R A} _ _.

(** A field that is always written. *)
Definition required {R A} (name : string) (get : R -> A) (c : codec A) : field R A :=
  mkfield name get c (fun _ => false).
(** [if !IsNil(o.X)] for a pointer and for a slice. *)
Definition optional {R A} (name : string) (get : R -> option A) (c : codec A) : field R (option A) :=
  mkfield name get (ptr c) (fun p => match p with None => true | _ => false end).
Definition optional_slice {R A} (name : string) (get : R -> list A) (c : codec A) : field R (list A) :=
  mkfield name get (slice c) (fun l => match l with [] => true | _ => false end).
(** The tag [omitempty] on a string or a bool. *)
Definition omitempty_string {R} (name : string) (get : R -> string) : field R string :=
  mkfield name get string_codec (fun s => bool_decide (s = EmptyString)).
Definition omitempty_bool {R} (name : string) (get : R -> bool) : field R bool :=
  mkfield name get bool_codec negb.

(** The constructor of a struct [R] and its fields, in order. *)
Inductive fields (R : Type) : Type -> Type :=
| construct {F} (f : F) : fields R F
| and_field {A F} (fs : fields R (A -> F)) (fd : field R A) : fields R F.
Arguments construct {R F} f.
Arguments and_field {R A F} fs fd.

Declare Scope json_scope.
Delimit Scope json_scope with json.
Infix "⊛" := and_field (at level 50, left associativity) : json_scope.

Fixpoint field_names {R F} (fs : fields R F) : list string :=
  match fs with construct _ => [] | and_field fs fd => field_names fs ++ [f_name fd] end.

Fixpoint field_values {R F} (fs : fields R F) (r : R) : F :=
  match fs with construct f => f | and_field fs fd => field_values fs r (f_get fd r) end.

Fixpoint field_zeros {R F} (fs : fields R F) : F :=
  match fs with construct f => f | and_field fs fd => field_zeros fs (zero (f_codec fd)) end.

Definition field_members {R A} (fd : field R A) (r : R) : list (string * json) :=
  if f_omit fd (f_get fd r) then [] else [(f_name fd, enc (f_codec fd) (f_get fd r))].

Fixpoint members {R F} (fs : fields R F) (r : R) : list (string * json) :=
  match fs with construct _ => [] | and_field fs fd => members fs r ++ field_members fd r end.

Fixpoint fields_carry {R F} (fs : fields R F) (r : R) : bool :=
  match fs with
  | construct _ => true
  | and_field fs fd => fields_carry fs r && carries (f_codec fd) (f_get fd r)
  end.

(** The keys that Unmarshal takes for the field [name]: equal up to case, where the
    long s and the Kelvin sign count as letters.  No two fields of a struct have
    names that are equal up to case ([StructLaw] below asks for it). *)
Definition upper (a : ascii) : ascii :=
  if between 97 122 a then ascii_of_N (Z.to_N (code a - 32)) else a.
Fixpoint fold_name (l : list ascii) : list ascii :=
  match l with
  | [] => []
  | a :: l1 =>
      match l1 with
      | b :: l2 =>
          if bool_decide ([a; b] = ["197"; "191"]%char) then "S"%char :: fold_name l2
          else match l2 with
               | c :: l3 =>
                   if bool_decide ([a; b; c] = ["226"; "132"; "170"]%char) then "K"%char :: fold_name l3
                   else upper a :: fold_name l1
               | [] => upper a :: fold_name l1
               end
      | [] => [upper a]
      end
  end.
Definition names (name key : string) : bool :=
  bool_decide (fold_name (chars key) = fold_name (chars name)).

Arguments names : simpl never.

(** Every member with the field's name is decoded into it, one after the other. *)
Fixpoint read_field {A} (name : string) (c : codec A) (ms : list (string * json)) (old : A) : option A :=
  match ms with
  | [] => Some old
  | (key, j) :: ms =>
      x ← (if names name key then dec c j old else Some old); read_field name c ms x
  end.

Fixpoint read_fields {R F} (fs : fields R F) (ms : list (string * json)) (old : R) : option F :=
  match fs with
  | construct f => Some f
  | and_field fs fd =>
      f ← read_fields fs ms old;
      a ← read_field (f_name fd) (f_codec fd) ms (f_get fd old);
      Some (f a)
  end.

Definition sort_members : list (string * json) -> list (string * json) :=
  merge_sort (fun a b => String.le a.1 b.1).

(** [sorted]: encoded through [ToMap]. *)
Definition struct {R} (sorted : bool) (fs : fields R R) : codec R := {|
  zero := field_zeros fs;
  enc r := JObj (if sorted then sort_members (members fs r) else members fs r);
  dec j old :=
    match j with JObj ms => read_fields fs ms old | JNull => Some old | _ => None end;
  carries := fields_carry fs
|}.

(** ** Laws

    A codec is lawful when what it carries is read back, from text that can be
    written. *)

Class Lawful {T} (c : codec T) : Prop :=
  lawful x : carries c x = true -> dec c (enc c x) (zero c) = Some x /\ json_ok (enc c x) = true.
(** A codec under a pointer must not write null. *)
Class NonNull {T} (c : codec T) : Prop := nonnull x : enc c x <> JNull.

Lemma ParseInt_neg a ds :
  forallb is_digit (a :: ds) = true ->
  ParseInt (String "-" (String.string_of_list_ascii (a :: ds))) =
  let n := (- digits_val 0 (a :: ds))%Z in
  if ((-9223372036854775808 <=? n) && (n <=? 9223372036854775807))%Z then Some n else None.
Proof.
  intros Hd. unfold ParseInt, chars. cbn [String.list_ascii_of_string].
  rewrite String.list_ascii_of_string_of_list_ascii. rewrite bool_decide_true by done.
  by rewrite (bool_decide_false (a :: ds = [])), Hd.
Qed.

(** The digits of a positive number as text. *)
Lemma pretty_pos p : exists a ds,
  pretty (N.pos p) = String.string_of_list_ascii (a :: ds) /\
  forallb is_digit (a :: ds) = true /\ digits_val 0 (a :: ds) = Z.pos p /\ a <> "0"%char.
Proof.
  destruct (pretty_N_go_digits (N.pos p)) as (a & ds & Hs & Hd & Hv & Ha); [lia|].
  exists a, ds. split_and!; [|done..].
  rewrite <- (String.string_of_list_ascii_of_string (pretty (N.pos p))).
  specialize (Hs EmptyString). change (pretty (N.pos p)) with (pretty_N_go (N.pos p) EmptyString).
  unfold chars in Hs. cbn [String.list_ascii_of_string] in Hs. rewrite app_nil_r in Hs. by rewrite Hs.
Qed.

Lemma ParseInt_pretty (z : Z) : is_int64 z -> ParseInt (pretty z) = Some z.
Proof.
  intros Hz. unfold is_int64 in Hz. destruct z as [|p|p]; [done|..].
  - destruct (pretty_pos p) as (a & ds & Hp & Hd & Hv & _).
    change (pretty (Z.pos p)) with (pretty (N.pos p)). rewrite Hp, ParseInt_digits, Hv by done. cbv zeta.
    by rewrite (proj2 (Z.leb_le _ _)), (proj2 (Z.leb_le _ _)) by lia.
  - destruct (pretty_pos p) as (a & ds & Hp & Hd & Hv & _).
    change (pretty (Z.neg p)) with (String "-" (pretty (N.pos p))).
    rewrite Hp, ParseInt_neg, Hv by done. cbv zeta.
    by rewrite (proj2 (Z.leb_le _ _)), (proj2 (Z.leb_le _ _)) by lia.
Qed.

Lemma skip_digits_all l : forallb is_digit l = true -> skip_digits l = [].
Proof. induction l as [|a l IH]; cbn; [done|]. intros [-> Hl]%andb_true_iff. by apply IH. Qed.

Lemma digits_number_text a ds :
  forallb is_digit (a :: ds) = true -> a <> "0"%char -> is_number (a :: ds) = true.
Proof.
  intros Hd Ha. cbn [forallb] in Hd. apply andb_true_iff in Hd as [Hd Hds].
  assert (a <> "-"%char) as Hm by (by intros ->).
  unfold is_number, drop_one_of. cbn [default].
  rewrite (bool_decide_false (a ∈ _)) by set_solver. cbn [default].
  rewrite (bool_decide_false (a ∈ _)) by set_solver. unfold some_digits.
  by rewrite Hd, skip_digits_all.
Qed.

Lemma digits_number l : forallb is_digit l = true -> forallb is_number_char l = true.
Proof.
  intros H. apply forallb_forall. intros a Ha. unfold is_number_char.
  rewrite forallb_forall in H. by rewrite H.
Qed.

Lemma pretty_number (z : Z) : number_text (pretty z) = true.
Proof.
  unfold number_text, chars. destruct z as [|p|p]; [done|..]; destruct (pretty_pos p) as (a & ds & Hp & Hd & _ & Ha).
  - change (pretty (Z.pos p)) with (pretty (N.pos p)).
    rewrite Hp, String.list_ascii_of_string_of_list_ascii.
    by rewrite digits_number, digits_number_text.
  - change (pretty (Z.neg p)) with (String "-" (pretty (N.pos p))).
    rewrite Hp. cbn [String.list_ascii_of_string].
    rewrite String.list_ascii_of_string_of_list_ascii.
    rewrite (digits_number (a :: ds) Hd : forallb is_number_char ("-"%char :: a :: ds) = true). cbn [andb].
    pose proof (digits_number_text a ds Hd Ha) as Hn.
    unfold is_number in *. cbn [drop_one_of default]. rewrite bool_decide_true by set_solver. cbn [default].
    assert (drop_one_of ["-"%char] (a :: ds) = None) as E.
    { cbn. rewrite bool_decide_false; [done|]. intros Hin. apply list_elem_of_singleton in Hin as ->. done. }
    by rewrite E in Hn.
Qed.

(** Strings of ASCII are UTF-8. *)
Lemma ascii_utf8 s : forallb (between 0 127) (chars s) = true -> utf8 s = true.
Proof.
  unfold utf8. induction (chars s) as [|a l IH]; [done|]. cbn [forallb pieces].
  intros [Ha Hl]%andb_true_iff. rewrite Ha. cbn. by apply IH.
Qed.

Lemma number_utf8 s : number_text s = true -> utf8 s = true.
Proof.
  intros [H _]%andb_true_iff. apply ascii_utf8, forallb_forall. intros b Hb.
  rewrite forallb_forall in H. specialize (H b Hb). unfold is_number_char in H.
  apply orb_true_iff in H as [Hd|He].
  - unfold is_digit in Hd. by destruct b as [[] [] [] [] [] [] [] []].
  - apply bool_decide_eq_true in He.
    repeat (apply elem_of_cons in He as [->|He]; [done|]). by apply elem_of_nil in He.
Qed.

#[export] Instance string_lawful : Lawful string_codec.
Proof. intros x Hx. done. Qed.
#[export] Instance string_nonnull : NonNull string_codec.
Proof. done. Qed.
#[export] Instance bool_lawful : Lawful bool_codec.
Proof. by intros []. Qed.
#[export] Instance bool_nonnull : NonNull bool_codec.
Proof. done. Qed.

Lemma int_lawful lo hi :
  (-9223372036854775808 <= lo)%Z -> (hi <= 9223372036854775807)%Z -> Lawful (int_codec lo hi).
Proof.
  intros Hlo Hhi z Hz. split; [|apply pretty_number]. cbn in *.
  apply andb_true_iff in Hz as Hb. destruct Hb as [H1%Z.leb_le H2%Z.leb_le].
  rewrite ParseInt_pretty by (unfold is_int64; lia). cbn. by rewrite Hz.
Qed.
#[export] Instance int32_lawful : Lawful int32_codec.
Proof. by apply int_lawful. Qed.
#[export] Instance int64_lawful : Lawful int64_codec.
Proof. by apply int_lawful. Qed.
#[export] Instance int32_nonnull : NonNull int32_codec.
Proof. done. Qed.
#[export] Instance int64_nonnull : NonNull int64_codec.
Proof. done. Qed.

#[export] Instance float_lawful `{FloatText} bits : Lawful (float_codec bits).
Proof. intros q Hq. cbn in *. by rewrite ParseFloat_FormatFloat, FormatFloat_number. Qed.
#[export] Instance float_nonnull `{FloatText} bits : NonNull (float_codec bits).
Proof. done. Qed.

#[export] Instance ptr_lawful {T} (c : codec T) : Lawful c -> NonNull c -> Lawful (ptr c).
Proof.
  intros Hc Hn [x|] Hx; [|done]. cbn in *. destruct (Hc x Hx) as [Hd Hj]. split; [|done].
  pose proof (Hn x) as Hnull. rewrite Hd. by destruct (enc c x).
Qed.

#[export] Instance slice_lawful {T} (c : codec T) : Lawful c -> Lawful (slice c).
Proof.
  intros Hc l Hl. cbn in *.
  assert (mapM (fun j => dec c j (zero c)) (enc c <$> l) = Some l /\
          forallb json_ok (enc c <$> l) = true) as [Hm Hj].
  { induction l as [|x l IH]; [done|]. cbn in *. apply andb_true_iff in Hl as [Hx Hl].
    destruct (Hc x Hx) as [Hd Hj], (IH Hl) as [Hm Hjs]. by rewrite Hd, Hj, Hm, Hjs. }
  by destruct l.
Qed.

(** *** Maps *)

Section maps.
Context {K V : Type} `{Countable K} (key : K -> string) (parse : string -> option K) (good : K -> bool).
Context (c : codec V) `{!Lawful c}.
Context (Hparse : forall k, good k = true -> parse (key k) = Some k /\ utf8 (key k) = true).

Lemma read_map_list (kvs : list (K * V)) m :
  forallb (fun kv => good kv.1 && carries c kv.2) kvs = true ->
  read_map parse c ((fun kv => (key kv.1, enc c kv.2)) <$> kvs) m =
  Some (foldl (fun m kv => <[kv.1 := kv.2]> m) m kvs).
Proof.
  revert m. induction kvs as [|[k v] kvs IH]; intros m Hg; [done|]. cbn in *.
  apply andb_true_iff in Hg as [[Hk Hv]%andb_true_iff Hg].
  rewrite (proj1 (Hparse k Hk)), (proj1 (lawful v Hv)). cbn. by apply IH.
Qed.

Lemma foldl_insert_map (kvs : list (K * V)) (m : gmap K V) :
  kvs ≡ₚ map_to_list m -> foldl (fun m kv => <[kv.1 := kv.2]> m) ∅ kvs = m.
Proof.
  intros Hp. rewrite <- (list_to_map_to_list m).
  rewrite (list_to_map_proper (map_to_list m) (reverse kvs)).
  - induction kvs as [|[k v] kvs _] using rev_ind; [done|]. clear Hp.
    rewrite foldl_app. cbn. rewrite reverse_app. cbn. f_equal.
    induction kvs as [|[k' v'] kvs IH] using rev_ind; [done|].
    rewrite foldl_app, reverse_app. cbn. by f_equal.
  - apply NoDup_fst_map_to_list.
  - by rewrite reverse_Permutation, Hp.
Qed.

#[export] Instance map_lawful : Lawful (map_codec key parse good c).
Proof.
  intros m Hm. cbn in *.
  assert (exists kvs, map_members key m = (fun kv => (key kv.1, kv.2)) <$> kvs /\ kvs ≡ₚ map_to_list m)
    as (kvs & Hkvs & Hp).
  { assert (map_members key m ≡ₚ (fun kv => (key kv.1, kv.2)) <$> map_to_list m) as Hp
      by apply merge_sort_Permutation.
    apply Permutation_map_inv in Hp as (kvs & Hk & Hp). by exists kvs. }
  rewrite Hkvs. rewrite <- list_fmap_compose. change (compose (prod_map id (enc c)) _) with
    (fun kv : K * V => (key kv.1, enc c kv.2)).
  assert (forallb (fun kv => good kv.1 && carries c kv.2) kvs = true) as Hg.
  { apply forallb_forall. intros kv Hin. rewrite forallb_forall in Hm. apply Hm.
    apply list_elem_of_In. rewrite <- Hp. by apply list_elem_of_In. }
  split.
  - rewrite read_map_list by done. by rewrite (foldl_insert_map kvs m Hp).
  - apply forallb_forall. intros x Hx. apply list_elem_of_In, list_elem_of_fmap in Hx as (kv & -> & Hin).
    rewrite forallb_forall in Hg. apply list_elem_of_In in Hin. apply Hg in Hin.
    apply andb_true_iff in Hin as [Hk Hv]. cbn. by rewrite (proj2 (Hparse _ Hk)), (proj2 (lawful _ Hv)).
Qed.
End maps.

#[export] Instance map_nonnull {K V} `{Countable K} key parse good (c : codec V) :
  NonNull (map_codec (K := K) key parse good c).
Proof. done. Qed.
#[export] Instance string_map_lawful {V} (c : codec V) : Lawful c -> Lawful (string_map c).
Proof. intros Hc. apply map_lawful; [done|]. intros k Hk. by split. Qed.
#[export] Instance int_map_lawful {V} (c : codec V) : Lawful c -> Lawful (int_map c).
Proof.
  intros Hc. apply map_lawful; [done|]. intros n Hn%Z.leb_le. split.
  - unfold parse_nat. rewrite ParseInt_pretty by (unfold is_int64; lia). cbn.
    rewrite (proj2 (Z.leb_le _ _)) by lia. by rewrite Nat2Z.id.
  - apply number_utf8, pretty_number.
Qed.

#[export] Instance enum_nonnull {T} `{EqDecision T} (e : enumeration T) : NonNull (enum_codec e).
Proof. done. Qed.

(** The allowed values of an enumeration have texts of their own. *)
Class EnumLaw {T} (e : enumeration T) : Prop :=
  enum_law : Forall (fun v => enum_of_text e (enum_text e v) = Some v /\ utf8 (enum_text e v) = true)
               (enum_allowed e).
#[export] Instance enum_lawful {T} `{EqDecision T} (e : enumeration T) :
  EnumLaw e -> Lawful (enum_codec e).
Proof.
  intros He v Hv%bool_decide_eq_true. cbn in *. apply (proj1 (Forall_forall _ _) He _ Hv).
Qed.

(** *** Structs *)

Fixpoint fields_zero {R F} (fs : fields R F) (r : R) : Prop :=
  match fs with
  | construct _ => True
  | and_field fs fd => fields_zero fs r /\ f_get fd r = zero (f_codec fd)
  end.

Fixpoint fields_lawful {R F} (fs : fields R F) : Prop :=
  match fs with
  | construct _ => True
  | and_field fs fd =>
      fields_lawful fs /\ Lawful (f_codec fd) /\ (forall a, f_omit fd a = true -> a = zero (f_codec fd))
  end.

Class StructLaw {R} (fs : fields R R) : Prop := {
  law_names : NoDup ((fun n => fold_name (chars n)) <$> field_names fs);
  law_utf8 : forallb utf8 (field_names fs) = true;
  law_values : forall r, field_values fs r = r;
  law_zero : fields_zero fs (field_zeros fs);
  law_fields : fields_lawful fs
}.

Lemma read_field_filter {A} n (c : codec A) ms old :
  read_field n c ms old = read_field n c (filter (fun m => names n m.1) ms) old.
Proof.
  revert old. induction ms as [|[k j] ms IH]; intros old; [done|].
  destruct (names n k) eqn:En.
  - rewrite filter_cons_True by (cbn; rewrite En; exact I). cbn [read_field]. rewrite En.
    destruct (dec c j old); cbn; [apply IH | done].
  - rewrite filter_cons_False by (cbn; rewrite En; exact id). cbn [read_field]. rewrite En. apply IH.
Qed.

(** Members with other names. *)
Lemma filter_others n (ms : list (string * json)) :
  (forall m, m ∈ ms -> names n m.1 = false) -> filter (fun m => names n m.1) ms = [].
Proof.
  intros H. induction ms as [|m ms IH]; [done|]. rewrite filter_cons_False.
  - apply IH. intros m' Hm'. apply H. by right.
  - rewrite H; [auto | left].
Qed.

Lemma members_names {R F} (fs : fields R F) (r : R) m :
  m ∈ members fs r -> m.1 ∈ field_names fs.
Proof.
  induction fs as [F f|A F fs IH fd]; cbn; [by intros ?%elem_of_nil|].
  rewrite !elem_of_app. intros [Hm|Hm]; [left; auto|right].
  unfold field_members in Hm. destruct (f_omit _ _); [by apply elem_of_nil in Hm|].
  apply list_elem_of_singleton in Hm as ->. left.
Qed.

Lemma names_false n k : fold_name (chars k) <> fold_name (chars n) -> names n k = false.
Proof. apply bool_decide_false. Qed.

(** Reading the members of [r], among others with other names, in any order. *)
Lemma read_members {R F} (fs : fields R F) (ms extra : list (string * json)) (r old : R) :
  NoDup ((fun n => fold_name (chars n)) <$> field_names fs) ->
  (forall m n, m ∈ extra -> n ∈ field_names fs -> names n m.1 = false) ->
  ms ≡ₚ members fs r ++ extra ->
  fields_zero fs old -> fields_lawful fs -> fields_carry fs r = true ->
  read_fields fs ms old = Some (field_values fs r).
Proof.
  revert ms extra. induction fs as [F f|A F fs IH fd]; intros ms extra Hnd Hex Hms Hz Hl Hc; [done|].
  cbn in *. rewrite fmap_app in Hnd. apply NoDup_app in Hnd as (Hnd & Hdis & _).
  destruct Hz as [Hz Hold], Hl as (Hl & Hcodec & Homit). apply andb_true_iff in Hc as [Hc Hca].
  assert (forall n, n ∈ field_names fs -> fold_name (chars (f_name fd)) <> fold_name (chars n)) as Hne.
  { intros n Hn Heq. apply (Hdis (fold_name (chars n))); [by apply list_elem_of_fmap; exists n|].
    rewrite <- Heq. left. }
  rewrite (IH ms (field_members fd r ++ extra)); [|done| |by rewrite Hms, app_assoc|done..].
  2:{ intros m n [Hm|Hm]%elem_of_app Hn; [|apply Hex; [done | apply elem_of_app; by left]].
      unfold field_members in Hm. destruct (f_omit _ _); [by apply elem_of_nil in Hm|].
      apply list_elem_of_singleton in Hm as ->. by apply names_false, Hne. }
  cbn. rewrite read_field_filter.
  assert (filter (fun m => names (f_name fd) m.1) ms ≡ₚ field_members fd r) as Hf.
  { rewrite Hms, !filter_app.
    rewrite (filter_others _ (members fs r)).
    2:{ intros m Hm%members_names. apply names_false. intros Heq. by apply (Hne _ Hm). }
    rewrite (filter_others _ extra) by (intros m Hm; apply Hex; [done | apply elem_of_app; right; left]).
    rewrite app_nil_r. cbn. unfold field_members. destruct (f_omit _ _); [done|].
    rewrite filter_cons_True; [done|]. cbn. unfold names. by rewrite bool_decide_true. }
  unfold field_members in Hf. rewrite Hold. destruct (f_omit fd (f_get fd r)) eqn:Eo.
  - apply Permutation_nil_r in Hf. rewrite Hf. cbn. by rewrite (Homit _ Eo).
  - apply Permutation_singleton_r in Hf. rewrite Hf. cbn. unfold names. rewrite bool_decide_true by done.
    by rewrite (proj1 (Hcodec _ Hca)).
Qed.

Lemma members_ok {R F} (fs : fields R F) (r : R) :
  forallb utf8 (field_names fs) = true -> fields_lawful fs -> fields_carry fs r = true ->
  forallb (fun m => utf8 m.1 && json_ok m.2) (members fs r) = true.
Proof.
  induction fs as [F f|A F fs IH fd]; cbn; [done|]. rewrite !forallb_app. intros [Hu Hn]%andb_true_iff.
  intros (Hl & Hcodec & _) [Hc Hca]%andb_true_iff. rewrite IH by done. cbn.
  unfold field_members. destruct (f_omit _ _); [done|]. cbn in *.
  rewrite andb_true_r in Hn. by rewrite Hn, (proj2 (Hcodec _ Hca)).
Qed.

Lemma forallb_perm {A} (f : A -> bool) l l' : l ≡ₚ l' -> forallb f l = forallb f l'.
Proof.
  intros Hp. induction Hp as [|x l l' _ IH|x y l|l1 l2 l3 _ IH1 _ IH2]; cbn.
  - done.
  - by rewrite IH.
  - by rewrite !andb_assoc, (andb_comm (f y)).
  - by rewrite IH1.
Qed.

#[export] Instance struct_lawful {R} sorted (fs : fields R R) : StructLaw fs -> Lawful (struct sorted fs).
Proof.
  intros [Hnd Hu Hv Hz Hl] r Hr. cbn in *.
  assert ((if sorted then sort_members (members fs r) else members fs r) ≡ₚ members fs r) as Hp
    by (destruct sorted; [apply merge_sort_Permutation | done]).
  set (ms := if sorted then _ else _) in *. split.
  - rewrite (read_members fs ms [] r); try done.
    + by rewrite Hv.
    + by intros m n ?%elem_of_nil.
    + by rewrite app_nil_r.
  - rewrite (forallb_perm _ _ _ Hp). by apply members_ok.
Qed.
#[export] Instance struct_nonnull {R} sorted (fs : fields R R) : NonNull (struct sorted fs).
Proof. done. Qed.

(** The laws of a struct from those of its fields, of an enumeration by computation. *)
Ltac omitted_is_zero :=
  let a := fresh in intros a; destruct a; cbn; try done; by intros ?%bool_decide_eq_true.
Ltac fields_law :=
  cbn [fields_lawful fields_zero field_zeros f_codec f_omit f_get
       required optional optional_slice omitempty_string omitempty_bool];
  repeat lazymatch goal with
  | |- _ /\ _ => split
  | |- True => exact I
  | |- Lawful _ => typeclasses eauto
  | |- _ = true -> _ => discriminate
  | |- forall _, false = true -> _ => discriminate
  | |- forall _, _ = true -> _ => omitted_is_zero
  | |- _ = _ => reflexivity
  end.
Ltac struct_law :=
  constructor;
  [ apply (bool_decide_unpack _); vm_compute; exact I
  | vm_compute; reflexivity
  | by intros []
  | fields_law
  | fields_law ].
Ltac enum_law := repeat (apply Forall_cons_2; [split; vm_compute; reflexivity|]); apply Forall_nil_2.

(** Floats without a fraction: the decimal text of an integer. *)
Definition whole_floats : FloatText.
Proof.
  refine {| is_float _ q := bool_decide (is_int64 (Qnum q)) && Pos.eqb (Qden q) 1;
            FormatFloat _ q := pretty (Qnum q);
            ParseFloat _ s := z ← ParseInt s; Some (Qmake z 1) |}.
  - intros _ [z d] [Hz%bool_decide_eq_true Hd%Pos.eqb_eq]%andb_prop. cbn in *. subst d.
    by rewrite ParseInt_pretty.
  - intros _ q _. apply pretty_number.
Defined.
