(* ===== verification/JsonText.v ===== *)
(** * The text of JSON

    encoding/json's text of the values of Json.v: [print] is what Marshal writes
    (compact, with HTML characters escaped), [Unmarshal_text] what Unmarshal and the
    decoder accept.  Strings are bytes; what is not UTF-8 becomes U+FFFD both ways.
    Not modelled: the limit of ten thousand on the nesting. *)

From S2P Require Export Json.

(** ** Writing *)

Definition hex_digit (n : Z) : ascii := ascii_of_N (Z.to_N (if (n <? 10)%Z then 48 + n else 87 + n)%Z).
Definition replacement : list ascii := ["239"; "191"; "189"]%char.

(** [\u2028]: the escape of a rune below 65536. *)
Definition unicode_escape (rune : Z) : list ascii :=
  ["\"%char; "u"%char; hex_digit (rune / 4096 mod 16); hex_digit (rune / 256 mod 16);
   hex_digit (rune / 16 mod 16); hex_digit (rune mod 16)].

(** Bytes that are written as they are; not control characters, quotes, backslash
    and the characters of HTML. *)
Definition safe (a : ascii) : bool :=
  between 32 127 a && negb (bool_decide (a ∈ ["034"; "\"; "<"; ">"; "&"]%char)).

Definition write_ascii (a : ascii) : list ascii :=
  if safe a then [a]
  else if bool_decide (a ∈ ["034"; "\"]%char) then ["\"%char; a]
  else if bool_decide (a = "008"%char) then ["\"; "b"]%char
  else if bool_decide (a = "012"%char) then ["\"; "f"]%char
  else if bool_decide (a = "010"%char) then ["\"; "n"]%char
  else if bool_decide (a = "013"%char) then ["\"; "r"]%char
  else if bool_decide (a = "009"%char) then ["\"; "t"]%char
  else unicode_escape (code a).

Definition write_piece (p : piece) : list ascii :=
  match p with
  | Ascii1 a => write_ascii a
  | Rune bytes =>
      if bool_decide (bytes = ["226"; "128"; "168"]%char) then unicode_escape 8232
      else if bool_decide (bytes = ["226"; "128"; "169"]%char) then unicode_escape 8233
      else bytes
  | Bad _ => unicode_escape 65533
  end.

Definition print_string (s : string) : list ascii :=
  "034"%char :: flat_map write_piece (pieces (chars s)) ++ ["034"%char].

(** The elements of a list with commas between them. *)
Fixpoint commas (l : list (list ascii)) : list ascii :=
  match l with
  | [] => []
  | [x] => x
  | x :: l => x ++ ","%char :: commas l
  end.

Fixpoint print (j : json) : list ascii :=
  match j with
  | JNull => chars "null"
  | JBool b => chars (if b then "true" else "false")
  | JNum l => chars l
  | JStr s => print_string s
  | JArr l => "["%char :: commas (map print l) ++ ["]"%char]
  | JObj ms =>
      "{"%char :: commas (map (fun m => print_string m.1 ++ ":"%char :: print m.2) ms) ++ ["}"%char]
  end.

(** ** Reading *)

Definition is_space (a : ascii) : bool := bool_decide (a ∈ [" "; "009"; "013"; "010"]%char).
Fixpoint skip (l : list ascii) : list ascii :=
  match l with a :: r => if is_space a then skip r else l | [] => [] end.

Definition hex_value (a : ascii) : option Z :=
  if between 48 57 a then Some (code a - 48)%Z
  else if between 97 102 a then Some (code a - 87)%Z
  else if between 65 70 a then Some (code a - 55)%Z
  else None.
Definition hex4 (a b c d : ascii) : option Z :=
  a ← hex_value a; b ← hex_value b; c ← hex_value c; d ← hex_value d;
  Some (a * 4096 + b * 256 + c * 16 + d)%Z.

Definition byte (n : Z) : ascii := ascii_of_N (Z.to_N n).
(** [utf8.AppendRune]; a surrogate has no encoding. *)
Definition encode_rune (r : Z) : list ascii :=
  if (r <? 128)%Z then [byte r]
  else if (r <? 2048)%Z then [byte (192 + r / 64); byte (128 + r mod 64)]
  else if ((55296 <=? r) && (r <=? 57343))%Z then replacement
  else if (r <? 65536)%Z then
    [byte (224 + r / 4096); byte (128 + r / 64 mod 64); byte (128 + r mod 64)]
  else
    [byte (240 + r / 262144); byte (128 + r / 4096 mod 64); byte (128 + r / 64 mod 64);
     byte (128 + r mod 64)].

Definition simple_escape (a : ascii) : option ascii :=
  if bool_decide (a ∈ ["034"; "\"; "/"]%char) then Some a
  else if bool_decide (a = "b"%char) then Some "008"%char
  else if bool_decide (a = "f"%char) then Some "012"%char
  else if bool_decide (a = "n"%char) then Some "010"%char
  else if bool_decide (a = "r"%char) then Some "013"%char
  else if bool_decide (a = "t"%char) then Some "009"%char
  else None.

(** The bytes up to the closing quote, escapes resolved; two escaped surrogates are
    one rune. *)
Fixpoint unquote (l : list ascii) : option (list ascii * list ascii) :=
  match l with
  | [] => None
  | a :: r =>
      if bool_decide (a = "034"%char) then Some ([], r)
      else if bool_decide (a = "\"%char) then
        match r with
        | [] => None
        | e :: r =>
            if bool_decide (e = "u"%char) then
              match r with
              | h1 :: h2 :: h3 :: h4 :: r =>
                  u ← hex4 h1 h2 h3 h4;
                  let plain := '(s, rest) ← unquote r; Some (encode_rune u ++ s, rest) in
                  if ((55296 <=? u) && (u <=? 56319))%Z then
                    match r with
                    | b :: v :: g1 :: g2 :: g3 :: g4 :: r =>
                        if bool_decide (b = "\"%char) && bool_decide (v = "u"%char) then
                          w ← hex4 g1 g2 g3 g4;
                          if ((56320 <=? w) && (w <=? 57343))%Z then
                            '(s, rest) ← unquote r;
                            Some (encode_rune ((u - 55296) * 1024 + (w - 56320) + 65536)%Z ++ s, rest)
                          else plain
                        else plain
                    | _ => plain
                    end
                  else plain
              | _ => None
              end
            else
              c ← simple_escape e; '(s, rest) ← unquote r; Some (c :: s, rest)
        end
      else if between 0 31 a then None
      else '(s, rest) ← unquote r; Some (a :: s, rest)
  end.

(** Bytes that are not UTF-8 are replaced. *)
Definition repair_piece (p : piece) : list ascii :=
  match p with Bad _ => replacement | _ => piece_bytes p end.
Definition repair (l : list ascii) : list ascii := flat_map repair_piece (pieces l).

Definition repair_string (s : string) : string := String.string_of_list_ascii (repair (chars s)).

Definition read_string (l : list ascii) : option (string * list ascii) :=
  '(s, rest) ← unquote l; Some (String.string_of_list_ascii (repair s), rest).

(** A number: the characters numbers are made of, which must be one. *)
Fixpoint span_number (l : list ascii) : list ascii * list ascii :=
  match l with
  | a :: r => if is_number_char a then let '(n, rest) := span_number r in (a :: n, rest) else ([], l)
  | [] => ([], [])
  end.

(** A given word at the front. *)
Fixpoint word (w l : list ascii) : option (list ascii) :=
  match w, l with
  | [], _ => Some l
  | a :: w, b :: l => if bool_decide (a = b) then word w l else None
  | _ :: _, [] => None
  end.

(** One value and what follows it; an array and an object after their first
    bracket, when they are not empty. *)
Fixpoint read_value (fuel : nat) (l : list ascii) : option (json * list ascii) :=
  match fuel with
  | O => None
  | S fuel =>
      match skip l with
      | [] => None
      | a :: r =>
          if bool_decide (a = "{"%char) then
            match skip r with
            | b :: r' =>
                if bool_decide (b = "}"%char) then Some (JObj [], r')
                else '(ms, rest) ← read_members fuel r; Some (JObj ms, rest)
            | [] => None
            end
          else if bool_decide (a = "["%char) then
            match skip r with
            | b :: r' =>
                if bool_decide (b = "]"%char) then Some (JArr [], r')
                else '(js, rest) ← read_elements fuel r; Some (JArr js, rest)
            | [] => None
            end
          else if bool_decide (a = "034"%char) then
            '(s, rest) ← read_string r; Some (JStr s, rest)
          else if bool_decide (a = "n"%char) then rest ← word (chars "ull") r; Some (JNull, rest)
          else if bool_decide (a = "t"%char) then rest ← word (chars "rue") r; Some (JBool true, rest)
          else if bool_decide (a = "f"%char) then rest ← word (chars "alse") r; Some (JBool false, rest)
          else
            let '(n, rest) := span_number (a :: r) in
            if is_number n then Some (JNum (String.string_of_list_ascii n), rest) else None
      end
  end
with read_members (fuel : nat) (l : list ascii) : option (list (string * json) * list ascii) :=
  match fuel with
  | O => None
  | S fuel =>
      match skip l with
      | q :: r =>
          if bool_decide (q = "034"%char) then
            '(k, r) ← read_string r;
            match skip r with
            | c :: r =>
                if bool_decide (c = ":"%char) then
                  '(v, r) ← read_value fuel r;
                  match skip r with
                  | s :: r =>
                      if bool_decide (s = ","%char) then
                        '(ms, rest) ← read_members fuel r; Some ((k, v) :: ms, rest)
                      else if bool_decide (s = "}"%char) then Some ([(k, v)], r)
                      else None
                  | [] => None
                  end
                else None
            | [] => None
            end
          else None
      | [] => None
      end
  end
with read_elements (fuel : nat) (l : list ascii) : option (list json * list ascii) :=
  match fuel with
  | O => None
  | S fuel =>
      '(v, r) ← read_value fuel l;
      match skip r with
      | s :: r =>
          if bool_decide (s = ","%char) then
            '(js, rest) ← read_elements fuel r; Some (v :: js, rest)
          else if bool_decide (s = "]"%char) then Some ([v], r)
          else None
      | [] => None
      end
  end.

(** Every call reads at least one character, so the text is fuel enough. *)
Definition Decode_text (l : list ascii) : option (json * list ascii) := read_value (2 * length l + 2) l.

(** [json.Unmarshal] wants nothing but space after the value, a decoder ignores it. *)
Definition Unmarshal_text (l : list ascii) : option json :=
  '(j, rest) ← Decode_text l; match skip rest with [] => Some j | _ => None end.

Definition Marshal {T} (c : codec T) (x : T) : list ascii := print (enc c x).
Definition Unmarshal {T} (c : codec T) (text : list ascii) : option T :=
  j ← Unmarshal_text text; dec c j (zero c).
Definition Decode {T} (c : codec T) (text : list ascii) : option T :=
  '(j, _) ← Decode_text text; dec c j (zero c).

(** ** What is written is read back *)

(** *** Strings *)

Definition high (a : ascii) : bool := between 128 255 a.
Definition good_piece (p : piece) : Prop :=
  match p with Ascii1 a => between 0 127 a = true | Rune bytes => forallb high bytes = true | Bad _ => True end.
(** A piece that is read back as it is. *)
Definition stable_piece (p : piece) : Prop :=
  is_bad p = false -> forall X, pieces (piece_bytes p ++ X) = p :: pieces X.

Lemma continuation_high a : continuation a = true -> high a = true.
Proof. unfold continuation, high, between. intros [??]%andb_true_iff. lia. Qed.
Lemma lead_high lo hi a : (128 <= lo)%Z -> (hi <= 255)%Z -> between lo hi a = true -> high a = true.
Proof. unfold high, between. intros ?? [??]%andb_true_iff. lia. Qed.

Ltac high_byte H :=
  first [ apply continuation_high in H
        | match type of H with between ?lo ?hi ?a = true => apply (lead_high lo hi a) in H; [|done..] end ].

Lemma rune2_high a b : rune2 a b = true -> forallb high [a; b] = true.
Proof.
  unfold rune2. intros [Ha Hb]%andb_true_iff. cbn.
  by rewrite (lead_high 194 223 a), (continuation_high b).
Qed.

Lemma rune3_high a b c : rune3 a b c = true -> forallb high [a; b; c] = true.
Proof.
  unfold rune3. intros [Hc H]%andb_true_iff. cbn. rewrite (continuation_high c) by done.
  repeat (apply orb_true_iff in H as [H|H]);
    apply andb_true_iff in H as [Ha Hb]; high_byte Ha; high_byte Hb; by rewrite Ha, Hb.
Qed.

Lemma rune4_high a b c d : rune4 a b c d = true -> forallb high [a; b; c; d] = true.
Proof.
  unfold rune4. intros [[Hc Hd]%andb_true_iff H]%andb_true_iff. cbn.
  rewrite (continuation_high c), (continuation_high d) by done.
  repeat (apply orb_true_iff in H as [H|H]);
    apply andb_true_iff in H as [Ha Hb]; high_byte Ha; high_byte Hb; by rewrite Ha, Hb.
Qed.

Lemma between_above lo hi lo' hi' a :
  (hi < lo')%Z -> between lo' hi' a = true -> between lo hi a = false.
Proof. unfold between. intros ? [??]%andb_true_iff. apply andb_false_iff. right. lia. Qed.

Lemma rune2_stable a b : rune2 a b = true -> stable_piece (Rune [a; b]).
Proof.
  intros H _ X. cbn [piece_bytes app pieces]. rewrite H.
  unfold rune2 in H. apply andb_true_iff in H as [Ha _].
  by rewrite (between_above 0 127 194 223).
Qed.

(** The first byte of a longer rune. *)
Lemma rune3_lead a b c : rune3 a b c = true -> between 224 239 a = true.
Proof.
  unfold rune3. intros [_ H]%andb_true_iff.
  repeat (apply orb_true_iff in H as [H|H]); apply andb_true_iff in H as [H _];
    unfold between in *; apply andb_true_iff in H as [??]; apply andb_true_iff; split; lia.
Qed.
Lemma rune4_lead a b c d : rune4 a b c d = true -> between 240 244 a = true.
Proof.
  unfold rune4. intros [_ H]%andb_true_iff.
  repeat (apply orb_true_iff in H as [H|H]); apply andb_true_iff in H as [H _];
    unfold between in *; apply andb_true_iff in H as [??]; apply andb_true_iff; split; lia.
Qed.

Lemma rune3_stable a b c : rune3 a b c = true -> stable_piece (Rune [a; b; c]).
Proof.
  intros H _ X. pose proof (rune3_lead _ _ _ H) as Ha. cbn [piece_bytes app pieces].
  rewrite (between_above 0 127 224 239) by done.
  assert (rune2 a b = false) as -> by (unfold rune2; by rewrite (between_above 194 223 224 239)).
  by rewrite H.
Qed.

Lemma rune4_stable a b c d : rune4 a b c d = true -> stable_piece (Rune [a; b; c; d]).
Proof.
  intros H _ X. pose proof (rune4_lead _ _ _ _ H) as Ha. cbn [piece_bytes app pieces].
  rewrite (between_above 0 127 240 244) by done.
  assert (rune2 a b = false) as -> by (unfold rune2; by rewrite (between_above 194 223 240 244)).
  assert (rune3 a b c = false) as ->.
  { apply not_true_iff_false. intros H3%rune3_lead. revert H3. by rewrite (between_above 224 239 240 244). }
  by rewrite H.
Qed.

Lemma ascii_stable a : between 0 127 a = true -> stable_piece (Ascii1 a).
Proof. intros H _ X. cbn [piece_bytes app pieces]. by rewrite H. Qed.

(** The pieces are good and make up the string. *)
Lemma pieces_spec l :
  Forall (fun p => good_piece p /\ stable_piece p) (pieces l) /\ flat_map piece_bytes (pieces l) = l.
Proof.
  remember (length l) as n eqn:En. assert (length l <= n) as Hn by lia. clear En.
  revert l Hn. induction n as [|n IH]; intros [|a l1] Hn; cbn in Hn; try lia; [done|done|].
  assert (forall p l', good_piece p /\ stable_piece p -> a :: l1 = piece_bytes p ++ l' -> length l' <= n ->
    Forall (fun p => good_piece p /\ stable_piece p) (p :: pieces l') /\
    flat_map piece_bytes (p :: pieces l') = a :: l1) as Hp.
  { intros p l' Hg Hl Hl'. destruct (IH l' Hl') as [Hf Hb]. split; [by constructor|].
    cbn [flat_map]. by rewrite Hb. }
  cbn [pieces]. destruct (between 0 127 a) eqn:Ea; [apply Hp; [split; [done | by apply ascii_stable] | done | lia]|].
  assert (Forall (fun p => good_piece p /\ stable_piece p) (Bad a :: pieces l1) /\
          flat_map piece_bytes (Bad a :: pieces l1) = a :: l1) as Hbad
    by (apply Hp; [split; [done | by intros ?] | done | lia]).
  destruct l1 as [|b l2]; [done|]. destruct (rune2 a b) eqn:E2.
  { apply Hp; [split; [by apply rune2_high | by apply rune2_stable] | done | cbn in Hn; lia]. }
  destruct l2 as [|c l3]; [done|]. destruct (rune3 a b c) eqn:E3.
  { apply Hp; [split; [by apply rune3_high | by apply rune3_stable] | done | cbn in Hn; lia]. }
  destruct l3 as [|d l4]; [done|]. destruct (rune4 a b c d) eqn:E4; [|done].
  apply Hp; [split; [by apply rune4_high | by apply rune4_stable] | done | cbn in Hn; lia].
Qed.

(** [bytes] in front of what is read. *)
Definition push (bytes : list ascii) (r : option (list ascii * list ascii)) :
  option (list ascii * list ascii) :=
  '(s, rest) ← r; Some (bytes ++ s, rest).

Lemma unquote_ascii a X : between 0 127 a = true -> unquote (write_ascii a ++ X) = push [a] (unquote X).
Proof. by destruct a as [[] [] [] [] [] [] [] []]. Qed.

Lemma unquote_high a X : high a = true -> unquote (a :: X) = push [a] (unquote X).
Proof. by destruct a as [[] [] [] [] [] [] [] []]. Qed.

Lemma unquote_bytes bytes X :
  forallb high bytes = true -> unquote (bytes ++ X) = push bytes (unquote X).
Proof.
  induction bytes as [|a bytes IH]; [intros _; cbn [app]; unfold push; by destruct (unquote X) as [[]|]|].
  intros [Ha Hb]%andb_true_iff. cbn [app]. rewrite unquote_high, IH by done.
  unfold push. by destruct (unquote X) as [[]|].
Qed.

Lemma unquote_piece p X :
  good_piece p -> unquote (write_piece p ++ X) = push (repair_piece p) (unquote X).
Proof.
  destruct p as [a|bytes|a]; cbn [good_piece write_piece repair_piece piece_bytes]; intros Hg.
  - by apply unquote_ascii.
  - case_bool_decide as E1; [by subst|]. case_bool_decide as E2; [by subst|]. by apply unquote_bytes.
  - done.
Qed.

Lemma unquote_pieces ps X :
  Forall good_piece ps ->
  unquote (flat_map write_piece ps ++ "034"%char :: X) = Some (flat_map repair_piece ps, X).
Proof.
  induction 1 as [|p ps Hp Hps IH]; [done|]. cbn [flat_map].
  rewrite <- app_assoc, unquote_piece, IH by done. done.
Qed.

(** What is repaired stays as it is. *)
Lemma repair_pieces ps :
  Forall stable_piece ps ->
  pieces (flat_map repair_piece ps) = map (fun p => match p with Bad _ => Rune replacement | p => p end) ps.
Proof.
  induction 1 as [|p ps Hp Hps IH]; [done|]. cbn [flat_map map]. rewrite <- IH.
  destruct p as [a|bytes|a]; [by apply Hp | by apply Hp|]. by apply rune3_stable.
Qed.

Lemma utf8_repair s : utf8 (repair_string s) = true.
Proof.
  unfold utf8, repair_string, repair. unfold chars at 1. rewrite String.list_ascii_of_string_of_list_ascii.
  destruct (pieces_spec (chars s)) as [Hg _].
  rewrite repair_pieces by (eapply Forall_impl; [exact Hg | by intros p [_ Hs]]).
  apply negb_true_iff. induction (pieces (chars s)) as [|p ps IH]; [done|].
  apply Forall_cons in Hg as [_ Hg]. cbn [map existsb]. rewrite IH by done. by destruct p.
Qed.

Lemma repair_repair l : repair (repair l) = repair l.
Proof.
  unfold repair at 1. unfold repair at 1. destruct (pieces_spec l) as [Hg _].
  rewrite repair_pieces by (eapply Forall_impl; [exact Hg | by intros p [_ Hs]]).
  unfold repair. induction (pieces l) as [|p ps IH]; [done|]. apply Forall_cons in Hg as [_ Hg].
  cbn [map flat_map]. rewrite IH by done. by destruct p.
Qed.

Lemma repair_good ps : existsb is_bad ps = false -> flat_map repair_piece ps = flat_map piece_bytes ps.
Proof.
  induction ps as [|p ps IH]; [done|]. cbn. intros [Hb Hbs]%orb_false_iff. rewrite IH by done.
  by destruct p.
Qed.

Lemma repair_string_utf8 s : utf8 s = true -> repair_string s = s.
Proof.
  unfold utf8. intros Hb%negb_true_iff. destruct (pieces_spec (chars s)) as [_ Hl].
  unfold repair_string, repair. rewrite repair_good, Hl by done. unfold chars.
  by rewrite String.string_of_list_ascii_of_string.
Qed.

Lemma read_print_string s X :
  exists l, print_string s = "034"%char :: l /\ read_string (l ++ X) = Some (repair_string s, X).
Proof.
  destruct (pieces_spec (chars s)) as [Hg Hl].
  eexists. split; [reflexivity|]. unfold read_string.
  rewrite <- app_assoc. cbn [app]. rewrite unquote_pieces by (eapply Forall_impl; [exact Hg | by intros p [? _]]).
  cbn. change (flat_map repair_piece (pieces (chars s))) with (repair (chars s)). by rewrite repair_repair.
Qed.

(** *** Values *)

(** What may follow a value. *)
Definition ends (rest : list ascii) : Prop :=
  match rest with [] => True | a :: _ => is_number_char a = false end.

Lemma span_number_app n rest :
  forallb is_number_char n = true -> ends rest -> span_number (n ++ rest) = (n, rest).
Proof.
  induction n as [|a n IH]; cbn.
  - intros _ He. destruct rest as [|a rest]; [done|]. cbn in *. by rewrite He.
  - intros [-> Hn]%andb_true_iff He. by rewrite IH.
Qed.

(** A number starts like no other value. *)
Lemma number_head n rest fuel :
  is_number n = true -> forallb is_number_char n = true -> ends rest ->
  read_value (S fuel) (n ++ rest) = Some (JNum (String.string_of_list_ascii n), rest).
Proof.
  intros Hn Hc He. destruct n as [|a n]; [done|]. pose proof Hc as Hc'. cbn in Hc'.
  apply andb_true_iff in Hc' as [Ha _].
  assert (is_space a = false /\
    bool_decide (a = "{"%char) = false /\ bool_decide (a = "["%char) = false /\
    bool_decide (a = "034"%char) = false /\ bool_decide (a = "n"%char) = false /\
    bool_decide (a = "t"%char) = false /\ bool_decide (a = "f"%char) = false) as (H1 & H2 & H3 & H4 & H5 & H6 & H7)
    by (clear -Ha; by destruct a as [[] [] [] [] [] [] [] []]).
  cbn [read_value app skip]. rewrite H1, H2, H3, H4, H5, H6, H7.
  change (a :: n ++ rest) with ((a :: n) ++ rest). rewrite span_number_app by done. cbv beta iota.
  by rewrite Hn.
Qed.

Fixpoint json_weight (j : json) : nat :=
  match j with
  | JArr l => S (foldr (fun j n => S (json_weight j) + n) O l)
  | JObj ms => S (foldr (fun m n => S (json_weight m.2) + n) O ms)
  | _ => O
  end.

(** The numbers of a value are numbers. *)
Fixpoint numbers_ok (j : json) : bool :=
  match j with
  | JNum l => number_text l
  | JArr l => forallb numbers_ok l
  | JObj ms => forallb (fun m => numbers_ok m.2) ms
  | _ => true
  end.
(** What is read of a printed value: bytes that are not UTF-8 are replaced. *)
Fixpoint json_repair (j : json) : json :=
  match j with
  | JStr s => JStr (repair_string s)
  | JArr l => JArr (map json_repair l)
  | JObj ms => JObj (map (fun m => (repair_string m.1, json_repair m.2)) ms)
  | j => j
  end.

Lemma json_ok_repair j : json_ok j = true -> numbers_ok j = true /\ json_repair j = j.
Proof.
  induction j as [|b|n|s|l Hl|ms Hms] using json_ind'; cbn [json_ok numbers_ok json_repair]; intros H;
    [done|done|done| | |].
  - by rewrite repair_string_utf8.
  - induction Hl as [|j l Hj Hl IH]; [done|]. cbn in H. apply andb_true_iff in H as [H1 H2].
    destruct (Hj H1) as [Hn Hr], (IH H2) as [Hns Hrs]. injection Hrs as Hrs. cbn. by rewrite Hn, Hns, Hr, Hrs.
  - induction Hms as [|[k j] ms Hj Hms IH]; [done|]. cbn in H.
    apply andb_true_iff in H as [[H1 H2]%andb_true_iff H3].
    destruct (Hj H2) as [Hn Hr], (IH H3) as [Hns Hrs]. injection Hrs as Hrs.
    cbn [forallb map numbers_ok json_repair fst snd] in *. by rewrite Hn, Hns, Hr, Hrs, repair_string_utf8.
Qed.

Definition reads_back (j : json) : Prop :=
  forall fuel rest, numbers_ok j = true -> ends rest -> json_weight j < fuel ->
    read_value fuel (print j ++ rest) = Some (json_repair j, rest).

(** The first character of a value is neither space nor a closing bracket. *)
Lemma print_head j rest :
  numbers_ok j = true ->
  exists a l, print j ++ rest = a :: l /\ is_space a = false /\
    bool_decide (a = "]"%char) = false /\ bool_decide (a = "}"%char) = false.
Proof.
  destruct j as [|b|n|s|l|ms]; cbn [numbers_ok print]; intros H.
  - by eexists _, _.
  - by destruct b; eexists _, _.
  - apply andb_true_iff in H as [Hc Hn]. destruct (chars n) as [|a l]; [done|].
    cbn in Hc. apply andb_true_iff in Hc as [Ha _]. eexists _, _. split; [reflexivity|].
    clear -Ha; by destruct a as [[] [] [] [] [] [] [] []].
  - by eexists _, _.
  - by eexists _, _.
  - by eexists _, _.
Qed.

Lemma skip_head a l : is_space a = false -> skip (a :: l) = a :: l.
Proof. cbn. by intros ->. Qed.

Lemma commas_cons x y l : commas (x :: y :: l) = x ++ ","%char :: commas (y :: l).
Proof. done. Qed.

Lemma read_print_elements l fuel rest :
  l <> [] -> Forall reads_back l -> forallb numbers_ok l = true ->
  foldr (fun j n => S (json_weight j) + n) O l < fuel ->
  read_elements fuel (commas (map print l) ++ "]"%char :: rest) = Some (map json_repair l, rest).
Proof.
  intros Hne Hr. revert fuel Hne. induction Hr as [|j l Hj Hl IH]; intros fuel Hne Hok Hf; [done|].
  cbn [foldr forallb] in *. apply andb_true_iff in Hok as [Hok Hoks].
  destruct fuel as [|fuel]; [lia|]. destruct l as [|j' l].
  - cbn [map commas read_elements]. rewrite Hj by (done || cbn in Hf; lia). done.
  - cbn [map]. rewrite commas_cons, <- app_assoc. cbn [read_elements app].
    rewrite Hj by (done || lia). cbv beta iota delta [mbind option_bind]. rewrite skip_head by done.
    rewrite bool_decide_true by done. change (print j' :: map print l) with (map print (j' :: l)).
    rewrite IH by (done || lia). done.
Qed.

Lemma read_print_members ms fuel rest :
  ms <> [] -> Forall (fun m => reads_back m.2) ms ->
  forallb (fun m => numbers_ok m.2) ms = true ->
  foldr (fun m n => S (json_weight m.2) + n) O ms < fuel ->
  read_members fuel (commas (map (fun m => print_string m.1 ++ ":"%char :: print m.2) ms) ++ "}"%char :: rest)
    = Some (map (fun m => (repair_string m.1, json_repair m.2)) ms, rest).
Proof.
  intros Hne Hr. revert fuel Hne. induction Hr as [|[k j] ms Hj Hms IH]; intros fuel Hne Hok Hf; [done|].
  cbn [foldr forallb fst snd] in *. apply andb_true_iff in Hok as [Hok Hoks].
  destruct fuel as [|fuel]; [lia|].
  assert (forall X Y, ends X -> read_value fuel (print j ++ X) = Y -> 
    read_members (S fuel) ((print_string k ++ ":"%char :: print j) ++ X) =
    ('(v, r) ← Y;
     match skip r with
     | s :: r =>
         if bool_decide (s = ","%char) then '(ms, rest) ← read_members fuel r; Some ((repair_string k, v) :: ms, rest)
         else if bool_decide (s = "}"%char) then Some ([(repair_string k, v)], r) else None
     | [] => None
     end)) as Hstep.
  { intros X Y HX <-. destruct (read_print_string k (":"%char :: print j ++ X)) as (l & Hl & Hread).
    rewrite Hl, <- app_assoc. cbn [app read_members]. rewrite skip_head by done.
    rewrite bool_decide_true by done. rewrite Hread. cbv beta iota delta [mbind option_bind].
    rewrite skip_head by done. by rewrite bool_decide_true. }
  destruct ms as [|m' ms].
  - cbn [map commas fst snd]. rewrite (Hstep _ (Some (json_repair j, "}"%char :: rest))).
    + cbv beta iota delta [mbind option_bind]. by rewrite skip_head.
    + done.
    + apply Hj; [done|done|cbn in Hf; lia].
  - cbn [map]. rewrite commas_cons, <- app_assoc. cbn [app fst snd].
    change ((print_string m'.1 ++ ":"%char :: print m'.2) :: map _ ms) with
      (map (fun m => print_string m.1 ++ ":"%char :: print m.2) (m' :: ms)).
    rewrite (Hstep _ (Some (json_repair j, ","%char :: commas (map (fun m => print_string m.1 ++ ":"%char :: print m.2) (m' :: ms))
                               ++ "}"%char :: rest))).
    + cbv beta iota delta [mbind option_bind]. rewrite skip_head by done.
      rewrite bool_decide_true by done. rewrite IH by (done || lia). done.
    + done.
    + apply Hj; [done|done|lia].
Qed.

Lemma read_print j : reads_back j.
Proof.
  induction j as [|b|n|s|l Hl|ms Hms] using json_ind'; intros fuel rest Hok He Hf;
    (destruct fuel as [|fuel]; [lia|]).
  - done.
  - by destruct b.
  - cbn [numbers_ok print] in *. apply andb_true_iff in Hok as [Hc Hn].
    rewrite number_head by done. unfold chars. by rewrite String.string_of_list_ascii_of_string.
  - cbn [numbers_ok print] in *. destruct (read_print_string s rest) as (l & Hl & Hread).
    rewrite Hl. cbn [app read_value]. rewrite skip_head by done.
    rewrite !bool_decide_false, bool_decide_true by done. by rewrite Hread.
  - cbn [numbers_ok print json_weight] in *. cbn [app read_value]. rewrite skip_head by done.
    rewrite bool_decide_false, bool_decide_true by done. rewrite <- app_assoc. cbn [app].
    destruct l as [|j l]; [done|].
    assert (exists a r, commas (map print (j :: l)) ++ "]"%char :: rest = a :: r /\ is_space a = false /\
      bool_decide (a = "]"%char) = false) as (a & r & E & Hs & Hb).
    { cbn [forallb] in Hok. apply andb_true_iff in Hok as [Hj _]. cbn [map].
      destruct l as [|j' l'].
      - destruct (print_head j ("]"%char :: rest) Hj) as (a & r & E & Hs & Hb & _). by exists a, r.
      - change (commas (print j :: map print (j' :: l'))) with
          (print j ++ ","%char :: commas (map print (j' :: l'))). rewrite <- app_assoc.
        destruct (print_head j ((","%char :: commas (map print (j' :: l'))) ++ "]"%char :: rest) Hj)
          as (a & r & E & Hs & Hb & _). by exists a, r. }
    rewrite E, skip_head, Hb by done. rewrite <- E.
    rewrite read_print_elements by (done || lia). done.
  - cbn [numbers_ok print json_weight] in *. cbn [app read_value]. rewrite skip_head by done.
    rewrite bool_decide_true by done. rewrite <- app_assoc. cbn [app].
    destruct ms as [|m ms]; [done|].
    assert (exists r, commas (map (fun m => print_string m.1 ++ ":"%char :: print m.2) (m :: ms)) ++ "}"%char :: rest
      = "034"%char :: r) as (r & E) by (destruct ms; eexists; reflexivity).
    rewrite E, skip_head, bool_decide_false by done. rewrite <- E.
    rewrite read_print_members by (done || lia). done.
Qed.

(** The text is long enough for its own fuel. *)
Lemma json_weight_print j : json_weight j <= 2 * length (print j).
Proof.
  induction j as [|b|n|s|l Hl|ms Hms] using json_ind'; try (cbn [json_weight]; lia).
  - cbn [json_weight print length]. rewrite length_app. cbn [length].
    enough (foldr (fun j n => S (json_weight j) + n) O l <= 2 * length (commas (map print l)) + 1) by lia.
    induction Hl as [|j l Hj Hl IH]; [cbn; lia|]. cbn [foldr map]. destruct l as [|j' l].
    + cbn [foldr commas map]. lia.
    + cbn [map] in *. rewrite commas_cons, length_app. cbn [length]. lia.
  - cbn [json_weight print length]. rewrite length_app. cbn [length].
    enough (foldr (fun m n => S (json_weight m.2) + n) O ms <=
      2 * length (commas (map (fun m => print_string m.1 ++ ":"%char :: print m.2) ms)) + 1) by lia.
    induction Hms as [|m ms Hm Hms IH]; [cbn; lia|]. cbn [foldr map]. destruct ms as [|m' ms].
    + cbn [foldr commas map]. rewrite length_app. cbn [length]. lia.
    + cbn [map] in *. rewrite commas_cons, !length_app. cbn [length]. lia.
Qed.

Lemma Decode_text_repair j rest :
  numbers_ok j = true -> ends rest -> Decode_text (print j ++ rest) = Some (json_repair j, rest).
Proof.
  intros Hok He. apply read_print; [done..|]. pose proof (json_weight_print j).
  rewrite length_app. lia.
Qed.

Lemma Decode_text_print j rest :
  json_ok j = true -> ends rest -> Decode_text (print j ++ rest) = Some (j, rest).
Proof. intros [Hn Hr]%json_ok_repair He. by rewrite Decode_text_repair, Hr. Qed.

Lemma Unmarshal_text_repair j : numbers_ok j = true -> Unmarshal_text (print j) = Some (json_repair j).
Proof.
  intros Hok. unfold Unmarshal_text. rewrite <- (app_nil_r (print j)).
  by rewrite Decode_text_repair.
Qed.

Lemma Unmarshal_text_print j : json_ok j = true -> Unmarshal_text (print j) = Some j.
Proof. intros [Hn Hr]%json_ok_repair. by rewrite Unmarshal_text_repair, Hr. Qed.

(** Unmarshal, and a decoder, give back what Marshal wrote. *)
Lemma Unmarshal_Marshal {T} (c : codec T) `{!Lawful c} x :
  carries c x = true -> Unmarshal c (Marshal c x) = Some x.
Proof.
  intros Hx. destruct (lawful x Hx) as [Hd Hj]. unfold Unmarshal, Marshal.
  by rewrite Unmarshal_text_print.
Qed.

Lemma Decode_Marshal {T} (c : codec T) `{!Lawful c} x rest :
  carries c x = true -> ends rest -> Decode c (Marshal c x ++ rest) = Some x.
Proof.
  intros Hx He. destruct (lawful x Hx) as [Hd Hj]. unfold Decode, Marshal.
  by rewrite Decode_text_print.
Qed.

(** What is read of a value that JSON does not carry, when it is written like [y] but for
    bytes that are not UTF-8. *)
Lemma Unmarshal_repaired {T} (c : codec T) `{!Lawful c} x y :
  numbers_ok (enc c x) = true -> json_repair (enc c x) = enc c y -> carries c y = true ->
  Unmarshal c (Marshal c x) = Some y.
Proof.
  intros Hn Hr Hy. destruct (lawful y Hy) as [Hd Hj]. unfold Unmarshal, Marshal.
  by rewrite Unmarshal_text_repair, Hr.
Qed.
