(* ===== verification/Mapper.v ===== *)
(** * service/common/mapper/searchAttribute.go

    The conversions between an iWF [SearchAttribute] and the value the backend
    stores.  The payload codecs of the Temporal and Cadence clients are
    parameters ([decode]). *)

From S2P Require Export TimeParser.

(** A dynamic Go value ([interface{}]): what [MapToInternalSearchAttributes]
    puts in the map, and what decoding a JSON payload may produce. *)
Inductive iface : Type :=
| INil
| IString (s : string)
| INumber (s : string)              (* json.Number *)
| IFloat (q : Q)                    (* float64 *)
| IBool (b : bool)
| IInt64 (z : Z)
| ITime (unixNano : Z)
| IStrings (l : list string)        (* []string *)
| IArray (l : list iface)           (* []interface{} *)
| IObject (fields : list (string * iface)).

Definition sa_GetValueType (sa : SearchAttribute) : SearchAttributeValueType :=
  default (SearchAttributeValueType_other EmptyString) (ValueType sa).
Definition GetStringValue (sa : SearchAttribute) : string := default EmptyString (StringValue sa).
Definition GetIntegerValue (sa : SearchAttribute) : Z := default 0%Z (IntegerValue sa).
Definition GetBoolValue (sa : SearchAttribute) : bool := default false (BoolValue sa).
Definition GetDoubleValue (sa : SearchAttribute) : Q := default 0%Q (DoubleValue sa).

(** The value stored for one attribute. *)
Definition internal_value (now : Z) (attr : SearchAttribute) : iface + error :=
  match sa_GetValueType attr with
  | KEYWORD | TEXT => inl (IString (GetStringValue attr))
  | INT => inl (IInt64 (GetIntegerValue attr))
  | BOOL => inl (IBool (GetBoolValue attr))
  | DOUBLE => inl (IFloat (GetDoubleValue attr))
  | DATETIME =>
      match ParseTime now (GetStringValue attr) with
      | inl t => inl (ITime t)
      | inr e => inr e
      end
  | KEYWORD_ARRAY => inl (IStrings (StringArrayValue attr))
  | SearchAttributeValueType_other _ =>
      inr (OtherError "unsupported search attribute value type")
  end.

(** The loop, which returns at the first attribute it cannot convert. *)
Fixpoint map_internal_loop (now : Z) (res : gmap string iface) (attributes : list SearchAttribute) :
  gmap string iface + error :=
  match attributes with
  | [] => inl res
  | attr :: rest =>
      match internal_value now attr with
      | inl v => map_internal_loop now (<[sa_GetKey attr := v]> res) rest
      | inr e => inr e
      end
  end.

Definition MapToInternalSearchAttributes (now : Z) (attributes : list SearchAttribute) :
  gmap string iface + error :=
  map_internal_loop now ∅ attributes.

(** [int64(f)] truncates toward zero; out of range it is the smallest int64. *)
Definition int64_of_float (q : Q) : Z :=
  let t := Z.quot (Qnum q) (Zpos (Qden q)) in
  if ((-9223372036854775808 <=? t) && (t <=? 9223372036854775807))%Z then t
  else (-9223372036854775808)%Z.

(** The elements of a decoded array as strings; [None] when one is not a string. *)
Fixpoint strings_of (l : list iface) : option (list string) :=
  match l with
  | [] => Some []
  | IString s :: l' => ss ← strings_of l'; Some (s :: ss)
  | _ :: _ => None
  end.

Definition new_sa (key : string) (valueType : SearchAttributeValueType) : SearchAttribute :=
  mkSearchAttribute (Some key) None None None None [] (Some valueType).
Definition sa_with_string (s : string) (rv : SearchAttribute) : SearchAttribute :=
  mkSearchAttribute (sa_Key rv) (Some s) (IntegerValue rv) (DoubleValue rv) (BoolValue rv)
    (StringArrayValue rv) (ValueType rv).
Definition sa_with_int (z : Z) (rv : SearchAttribute) : SearchAttribute :=
  mkSearchAttribute (sa_Key rv) (StringValue rv) (Some z) (DoubleValue rv) (BoolValue rv)
    (StringArrayValue rv) (ValueType rv).
Definition sa_with_double (q : Q) (rv : SearchAttribute) : SearchAttribute :=
  mkSearchAttribute (sa_Key rv) (StringValue rv) (IntegerValue rv) (Some q) (BoolValue rv)
    (StringArrayValue rv) (ValueType rv).
Definition sa_with_bool (b : bool) (rv : SearchAttribute) : SearchAttribute :=
  mkSearchAttribute (sa_Key rv) (StringValue rv) (IntegerValue rv) (DoubleValue rv) (Some b)
    (StringArrayValue rv) (ValueType rv).
Definition sa_with_array (l : list string) (rv : SearchAttribute) : SearchAttribute :=
  mkSearchAttribute (sa_Key rv) (StringValue rv) (IntegerValue rv) (DoubleValue rv) (BoolValue rv)
    l (ValueType rv).

Definition cannot_convert : error := OtherError "unable to convert value".

(** The two Go results: the pointer and the error.  A non-string element of an
    array returns the outer [err], which is nil, next to a nil pointer. *)
Definition mapToIwfSearchAttribute (key : string) (valueType : SearchAttributeValueType)
  (object : iface) (useNumber : bool) : option SearchAttribute * option error :=
  let rv := new_sa key valueType in
  match valueType with
  | KEYWORD | DATETIME | TEXT =>
      match object with
      | IString strVal => (Some (sa_with_string strVal rv), None)
      | _ => (None, Some cannot_convert)
      end
  | INT =>
      if useNumber then
        match object with
        | INumber number =>
            match ParseInt number with
            | Some intVal => (Some (sa_with_int intVal rv), None)
            | None => (None, Some (OtherError "strconv.ParseInt"))
            end
        | _ => (None, Some cannot_convert)
        end
      else
        match object with
        | IFloat floatVal => (Some (sa_with_int (int64_of_float floatVal) rv), None)
        | _ => (None, Some cannot_convert)
        end
  | BOOL =>
      match object with
      | IBool boolVal => (Some (sa_with_bool boolVal rv), None)
      | _ => (None, Some cannot_convert)
      end
  | DOUBLE =>
      match object with
      | IFloat floatVal => (Some (sa_with_double floatVal rv), None)
      | _ => (None, Some cannot_convert)
      end
  | KEYWORD_ARRAY =>
      match object with
      | IArray arrayVal =>
          match strings_of arrayVal with
          | Some l => (Some (sa_with_array l rv), None)
          | None => (None, None)
          end
      | _ => (None, Some cannot_convert)
      end
  | SearchAttributeValueType_other _ =>
      (None, Some (OtherError "unsupported search attribute value type"))
  end.

Section decode.
Context {Payload : Type} (decode : Payload -> option iface).

(** The loop of the two [MapXToIwfSearchAttributes]; [useNumber] is their only
    difference besides the codec. *)
Fixpoint map_to_iwf_loop (useNumber : bool) (fields : gmap string Payload)
  (result : gmap string SearchAttribute) (requested : list SearchAttributeKeyAndType) :
  gores (gmap string SearchAttribute + error) :=
  match requested with
  | [] => Ret (inl result)
  | sa :: rest =>
      let key := default EmptyString (sakt_Key sa) in
      match fields !! key with
      | None => map_to_iwf_loop useNumber fields result rest
      | Some field =>
          match decode field with
          | None => Ret (inr (OtherError "decode"))
          | Some INil => map_to_iwf_loop useNumber fields result rest
          | Some object =>
              let valueType :=
                default (SearchAttributeValueType_other EmptyString) (sakt_ValueType sa) in
              match mapToIwfSearchAttribute key valueType object useNumber with
              | (_, Some err) => Ret (inr err)
              | (rv, None) =>
                  v ← deref rv;
                  map_to_iwf_loop useNumber fields (<[key := v]> result) rest
              end
          end
      end
  end.

(** [searchAttributes == nil] is [None]; the nil map result is the empty map. *)
Definition MapCadenceToIwfSearchAttributes (searchAttributes : option (gmap string Payload))
  (requested : list SearchAttributeKeyAndType) : gores (gmap string SearchAttribute + error) :=
  match searchAttributes with
  | None => Ret (inl ∅)
  | Some fields =>
      if (len requested =? 0)%Z then Ret (inl ∅)
      else map_to_iwf_loop true fields ∅ requested
  end.

Definition MapTemporalToIwfSearchAttributes (searchAttributes : option (gmap string Payload))
  (requested : list SearchAttributeKeyAndType) : gores (gmap string SearchAttribute + error) :=
  match searchAttributes with
  | None => Ret (inl ∅)
  | Some fields =>
      if (len requested =? 0)%Z then Ret (inl ∅)
      else map_to_iwf_loop false fields ∅ requested
  end.

End decode.

(** ** Lemmas *)

(** Converting a list: all attributes convert, and a later attribute with the
    same key wins. *)
Lemma map_internal_loop_spec now attrs res res' :
  map_internal_loop now res attrs = inl res' <->
  Forall (fun a => exists v, internal_value now a = inl v) attrs /\
  res' = foldl (fun r a =>
    match internal_value now a with inl v => <[sa_GetKey a := v]> r | inr _ => r end) res attrs.
Proof.
  revert res. induction attrs as [|a attrs IH]; intros res; simpl.
  - split; [by intros [= ->] | by intros [_ ->]].
  - destruct (internal_value now a) as [v|e] eqn:Ea.
    + rewrite IH. split; intros [Hf ->]; (split; [|done]).
      * constructor; eauto.
      * by inversion Hf.
    + split; [done|]. intros [Hf _]. inversion Hf as [|?? [v Hv]]. congruence.
Qed.

(** The canonical form of an attribute: only the field of its type is set. *)
Definition canonical (sa : SearchAttribute) : Prop :=
  exists k, match sa_GetValueType sa with
  | KEYWORD | TEXT => exists s, sa = sa_with_string s (new_sa k (sa_GetValueType sa))
  | INT => exists z, sa = sa_with_int z (new_sa k INT) /\ (Z.abs z <= 2 ^ 53)%Z
  | BOOL => exists b, sa = sa_with_bool b (new_sa k BOOL)
  | DOUBLE => exists q, sa = sa_with_double q (new_sa k DOUBLE)
  | KEYWORD_ARRAY => exists l, sa = sa_with_array l (new_sa k KEYWORD_ARRAY)
  | _ => False
  end.

Lemma strings_of_map l : strings_of (map IString l) = Some l.
Proof. induction l as [|s l IH]; simpl; [done | by rewrite IH]. Qed.

(** What a JSON codec makes of a stored value, without [UseNumber]: numbers are
    float64 (exact up to 2^53), lists are [[]interface{}]. *)
Definition json_value (v : iface) : iface :=
  match v with
  | IInt64 z => IFloat (z # 1)
  | IStrings l => IArray (map IString l)
  | v => v
  end.

Lemma int64_of_float_int z : (Z.abs z <= 2 ^ 53)%Z -> int64_of_float (z # 1) = z.
Proof.
  intros Hz. unfold int64_of_float. cbn [Qnum Qden].
  replace (Z.quot z 1) with z by (symmetry; apply Z.quot_1_r).
  destruct (Z.leb_spec (-9223372036854775808) z); [|lia].
  destruct (Z.leb_spec z 9223372036854775807); [done | lia].
Qed.

(** What the code writes for a search attribute reads back: an attribute that
    sets exactly the field of its type is converted for the backend without error,
    and the JSON form of the converted value is mapped to the same attribute, for
    every type but DATETIME and for integers up to 2^53. *)
Theorem search_attribute_roundtrip now sa :
  canonical sa -> exists v, internal_value now sa = inl v /\
    json_value v <> INil /\
    mapToIwfSearchAttribute (sa_GetKey sa) (sa_GetValueType sa) (json_value v) false
      = (Some sa, None).
Proof.
  intros [k Hc]. unfold internal_value.
  destruct (sa_GetValueType sa) eqn:Et; try done.
  - destruct Hc as [s ->]. eexists; by split_and!.
  - destruct Hc as [s ->]. eexists; by split_and!.
  - destruct Hc as [z [-> Hz]]. eexists; split_and!; [done | done |].
    cbn. by rewrite int64_of_float_int.
  - destruct Hc as [q ->]. eexists; by split_and!.
  - destruct Hc as [b ->]. eexists; by split_and!.
  - destruct Hc as [l ->]. eexists; split_and!; [done | done |].
    cbn. by rewrite strings_of_map.
Qed.

(** Reading back an array attribute with an element that is not a string panics:
    [mapToIwfSearchAttribute] returns no error and no attribute, and both callers
    dereference the nil pointer. *)
Theorem bad_array_element_panics {Payload} (decode : Payload -> option iface) fields key field l :
  fields !! key = Some field -> decode field = Some (IArray l) -> strings_of l = None ->
  let requested := [mkSearchAttributeKeyAndType (Some key) (Some KEYWORD_ARRAY)] in
  MapTemporalToIwfSearchAttributes decode (Some fields) requested = Panic "nil pointer dereference" /\
  MapCadenceToIwfSearchAttributes decode (Some fields) requested = Panic "nil pointer dereference".
Proof.
  intros Hk Hd Hl. cbn zeta. unfold MapTemporalToIwfSearchAttributes, MapCadenceToIwfSearchAttributes.
  cbn. rewrite Hk, Hd. cbn. by rewrite Hl.
Qed.
