(* ===== verification/Compat.v ===== *)
(** * Compatibility accessors and small utilities

    service/common/compatibility (the old names of the state options take
    precedence over the new ones) and service/common/utils/utils.go. *)

From S2P Require Export Service.

(** ** compatibility/commandRequest.go *)

Definition GetDeciderTriggerType (commandRequest : CommandRequest) : gores DeciderTriggerType :=
  match cr_CommandWaitingType commandRequest with
  | Some newType =>
      match newType with
      | ALL_COMPLETED => Ret ALL_COMMAND_COMPLETED
      | ANY_COMPLETED => Ret ANY_COMMAND_COMPLETED
      | ANY_COMBINATION_COMPLETED => Ret ANY_COMMAND_COMBINATION_COMPLETED
      | CommandWaitingType_other _ => Panic "invalid waiting type to convert"
      end
  | None =>
      Ret (default (DeciderTriggerType_other EmptyString) (cr_DeciderTriggerType commandRequest))
  end.

(** ** compatibility/stateOptions.go *)

(** [if opts.HasOld() { return old }; return new], under [opts == nil]. *)
Definition opt_field {A} (opts : option WorkflowStateOptions)
  (f : WorkflowStateOptions -> option A) : option A :=
  match opts with Some o => f o | None => None end.

Definition GetStartApiTimeoutSeconds (opts : option WorkflowStateOptions) : Z :=
  match opts with
  | None => 0
  | Some o =>
      if is_set (StartApiTimeoutSeconds o) then default 0%Z (StartApiTimeoutSeconds o)
      else default 0%Z (WaitUntilApiTimeoutSeconds o)
  end.

Definition GetDecideApiTimeoutSeconds (opts : option WorkflowStateOptions) : Z :=
  match opts with
  | None => 0
  | Some o =>
      if is_set (DecideApiTimeoutSeconds o) then default 0%Z (DecideApiTimeoutSeconds o)
      else default 0%Z (ExecuteApiTimeoutSeconds o)
  end.

Definition GetStartApiRetryPolicy (opts : option WorkflowStateOptions) : option RetryPolicy :=
  opt_field opts (fun o =>
    if is_set (StartApiRetryPolicy o) then StartApiRetryPolicy o else WaitUntilApiRetryPolicy o).

Definition GetDecideApiRetryPolicy (opts : option WorkflowStateOptions) : option RetryPolicy :=
  opt_field opts (fun o =>
    if is_set (DecideApiRetryPolicy o) then DecideApiRetryPolicy o else ExecuteApiRetryPolicy o).

Definition GetWaitUntilApiDataAttributesLoadingPolicy (opts : option WorkflowStateOptions) :
  option PersistenceLoadingPolicy :=
  opt_field opts (fun o =>
    if is_set (WaitUntilApiDataAttributesLoadingPolicy o)
    then WaitUntilApiDataAttributesLoadingPolicy o
    else if is_set (DataAttributesLoadingPolicy o)
    then DataAttributesLoadingPolicy o
    else DataObjectsLoadingPolicy o).

Definition GetExecuteApiDataAttributesLoadingPolicy (opts : option WorkflowStateOptions) :
  option PersistenceLoadingPolicy :=
  opt_field opts (fun o =>
    if is_set (ExecuteApiDataAttributesLoadingPolicy o)
    then ExecuteApiDataAttributesLoadingPolicy o
    else if is_set (DataAttributesLoadingPolicy o)
    then DataAttributesLoadingPolicy o
    else DataObjectsLoadingPolicy o).

Definition GetWaitUntilApiSearchAttributesLoadingPolicy (opts : option WorkflowStateOptions) :
  option PersistenceLoadingPolicy :=
  opt_field opts (fun o =>
    if is_set (WaitUntilApiSearchAttributesLoadingPolicy o)
    then WaitUntilApiSearchAttributesLoadingPolicy o
    else SearchAttributesLoadingPolicy o).

Definition GetExecuteApiSearchAttributesLoadingPolicy (opts : option WorkflowStateOptions) :
  option PersistenceLoadingPolicy :=
  opt_field opts (fun o =>
    if is_set (ExecuteApiSearchAttributesLoadingPolicy o)
    then ExecuteApiSearchAttributesLoadingPolicy o
    else SearchAttributesLoadingPolicy o).

Definition GetStartApiFailurePolicy (opts : option WorkflowStateOptions) :
  gores (option StartApiFailurePolicy) :=
  match opts with
  | None => Ret None
  | Some o =>
      if is_set (so_StartApiFailurePolicy o) then Ret (so_StartApiFailurePolicy o)
      else match so_WaitUntilApiFailurePolicy o with
           | Some FAIL_WORKFLOW_ON_FAILURE => Ret (Some FAIL_WORKFLOW_ON_START_API_FAILURE)
           | Some PROCEED_ON_FAILURE => Ret (Some PROCEED_TO_DECIDE_ON_START_API_FAILURE)
           | Some (WaitUntilApiFailurePolicy_other _) => Panic "invalid policy to convert"
           | None => Ret None
           end
  end.

Definition GetSkipWaitUntilApi (opts : option WorkflowStateOptions) : bool :=
  match opts with
  | None => false
  | Some o =>
      if is_set (SkipStartApi o) then default false (SkipStartApi o)
      else default false (SkipWaitUntil o)
  end.

(** [options := s.GetStateOptions(); compatibility.GetSkipWaitUntilApi(&options)] *)
Definition skip_wait_until (s : StateMovement) : bool :=
  GetSkipWaitUntilApi (Some (GetStateOptions s)).

(** ** compatibility/workflowStartOptions.go *)

Inductive IDReusePolicy : Type :=
| ALLOW_IF_PREVIOUS_EXISTS_ABNORMALLY | ALLOW_IF_PREVIOUS_EXITS_ABNORMALLY
| ALLOW_IF_NO_RUNNING | DISALLOW_REUSE | ALLOW_TERMINATE_IF_RUNNING
| IDReusePolicy_other (s : string).

Inductive WorkflowIDReusePolicy : Type :=
| ALLOW_DUPLICATE_FAILED_ONLY | ALLOW_DUPLICATE | REJECT_DUPLICATE | TERMINATE_IF_RUNNING
| WorkflowIDReusePolicy_other (s : string).

Definition GetWorkflowIdReusePolicy (idReusePolicy : option IDReusePolicy)
  (workflowIDReusePolicy : option WorkflowIDReusePolicy) :
  gores (option WorkflowIDReusePolicy) :=
  match idReusePolicy with
  | Some ALLOW_IF_NO_RUNNING => Ret (Some ALLOW_DUPLICATE)
  | Some ALLOW_IF_PREVIOUS_EXISTS_ABNORMALLY
  | Some ALLOW_IF_PREVIOUS_EXITS_ABNORMALLY => Ret (Some ALLOW_DUPLICATE_FAILED_ONLY)
  | Some DISALLOW_REUSE => Ret (Some REJECT_DUPLICATE)
  | Some ALLOW_TERMINATE_IF_RUNNING => Ret (Some TERMINATE_IF_RUNNING)
  | Some (IDReusePolicy_other _) => Panic "invalid id reuse policy to convert"
  | None => Ret workflowIDReusePolicy
  end.

(** ** utils/utils.go *)

(** One of the two loops of [MergeStringSlice]; the state is [(exists, out)]. *)
Fixpoint merge_loop (exists_ : gmap string bool) (out : list string) (ks : list string) :
  gmap string bool * list string :=
  match ks with
  | [] => (exists_, out)
  | k :: ks' =>
      if is_true_key exists_ k then merge_loop exists_ out ks'
      else merge_loop (<[k := true]> exists_) (out ++ [k]) ks'
  end.

Definition MergeStringSlice (first second : list string) : list string :=
  let '(exists_, out) := merge_loop ∅ [] first in
  snd (merge_loop exists_ out second).

Definition MergeMap {V} (first second : gmap string V) : gmap string V :=
  let out := map_fold (fun k v out => <[k := v]> out) ∅ first in
  map_fold (fun k v out => <[k := v]> out) out second.

Definition defaultMaxApiTimeoutSeconds : Z := 60.

(** [deadlineNs] is [ddl.Sub(time.Now())] in nanoseconds when the context has a
    deadline; [int32(timeRemaining.Seconds())] truncates toward zero. *)
Definition TrimRpcTimeoutSeconds (deadlineNs : option Z) (req : WorkflowRpcRequest) : Z :=
  let secondsRemaining := wrap32 defaultMaxApiTimeoutSeconds in
  let secondsRemaining :=
    match deadlineNs with
    | Some timeRemaining =>
        let s := wrap32 (Z.quot timeRemaining 1000000000) in
        if (s <? secondsRemaining)%Z then s else secondsRemaining
    | None => secondsRemaining
    end in
  let GetTimeoutSeconds := default 0%Z (TimeoutSeconds req) in
  if negb (is_set (TimeoutSeconds req)) && (0 <? GetTimeoutSeconds)%Z
     && (GetTimeoutSeconds <? secondsRemaining)%Z
  then GetTimeoutSeconds else secondsRemaining.

(** The unix second of the new deadline.  [now] is [time.Now().Unix()] and
    [parentDdl] the parent context's deadline as [ddl.Unix()]. *)
Definition TrimContextByTimeoutWithCappedDDL (now : Z) (parentDdl : option Z)
  (reqWaitSeconds : option Z) (configuredMaxSeconds : Z) : Z :=
  let maxWaitSeconds :=
    if (configuredMaxSeconds =? 0)%Z then defaultMaxApiTimeoutSeconds else configuredMaxSeconds in
  let maxWaitSeconds :=
    match reqWaitSeconds with
    | Some r => if (0 <? r)%Z && (r <? maxWaitSeconds)%Z then r else maxWaitSeconds
    | None => maxWaitSeconds
    end in
  let maxWaitTimestamp := wrap64 (now + maxWaitSeconds) in
  match parentDdl with
  | Some maxDdlUnix => if (maxDdlUnix <? maxWaitTimestamp)%Z then maxDdlUnix else maxWaitTimestamp
  | None => maxWaitTimestamp
  end.

(** [CheckHttpError]: [hasErr] is [err != nil], [httpStatus] the response's status. *)
Definition CheckHttpError (hasErr : bool) (httpStatus : option Z) : bool :=
  hasErr || match httpStatus with Some s => negb (s =? 200)%Z | None => false end.

Definition ToNanoSeconds (seconds nanos : Z) : Z :=
  wrap64 (wrap64 (wrap64 (wrap64 (seconds * 1000) * 1000) * 1000) + nanos).

Definition GetWorkflowIdForWaitForStateExecution (parentId : string)
  (stateExeId waitForKey stateId : option string) : gores string :=
  match waitForKey with
  | Some key =>
      if bool_decide (key <> EmptyString) then
        sid ← deref stateId;
        Ret (IwfSystemConstPrefix +:+ parentId +:+ "_" +:+ sid +:+ "_" +:+ key)
      else
        exe ← deref stateExeId;
        Ret (IwfSystemConstPrefix +:+ parentId +:+ "_" +:+ exe)
  | None =>
      exe ← deref stateExeId;
      Ret (IwfSystemConstPrefix +:+ parentId +:+ "_" +:+ exe)
  end.

(** ** Lemmas *)

(** The state of the merge loops: [exists_] holds exactly the keys of [out]. *)
Definition merge_inv (exists_ : gmap string bool) (out : list string) : Prop :=
  NoDup out /\ forall k, is_true_key exists_ k = bool_decide (k ∈ out).

Lemma merge_inv_snoc exists_ out k :
  merge_inv exists_ out -> k ∉ out -> merge_inv (<[k := true]> exists_) (out ++ [k]).
Proof.
  intros [Hnd Hk] Hnin. split.
  - apply NoDup_app. split_and!; [done | | apply NoDup_singleton].
    intros x Hx ->%list_elem_of_singleton. done.
  - intros k'. specialize (Hk k'). unfold is_true_key, map_get in *. rewrite lookup_insert.
    destruct (decide (k = k')) as [<-|Hne]; simpl.
    + symmetry. apply bool_decide_eq_true. apply elem_of_app. right. by left.
    + rewrite Hk. apply bool_decide_ext. rewrite elem_of_app, list_elem_of_singleton.
      intuition congruence.
Qed.

Lemma merge_loop_spec ks exists_ out exists' out' :
  merge_inv exists_ out -> merge_loop exists_ out ks = (exists', out') ->
  merge_inv exists' out' /\ (forall k, k ∈ out' <-> k ∈ out \/ k ∈ ks) /\
  exists suffix, out' = out ++ suffix /\ suffix `sublist_of` ks.
Proof.
  revert exists_ out. induction ks as [|k ks IH]; intros exists_ out Hinv Hm; simpl in Hm.
  - simplify_eq. split_and!; [done | intros k'; rewrite elem_of_nil; tauto |].
    exists []. by rewrite app_nil_r.
  - destruct Hinv as [Hnd Hk]. pose proof (Hk k) as Hkk. rewrite Hkk in Hm.
    case_bool_decide as Hin.
    + apply IH in Hm as (Hinv & Hel & suf & -> & Hsub); [|done].
      split_and!; [done | |].
      * intros k'. rewrite Hel, elem_of_cons. intuition (subst; auto).
      * exists suf. split; [done | by constructor].
    + apply IH in Hm as (Hinv & Hel & suf & -> & Hsub); [|by apply merge_inv_snoc].
      split_and!; [done | |].
      * intros k'. rewrite Hel, elem_of_app, !elem_of_cons, elem_of_nil. tauto.
      * exists (k :: suf). rewrite <- app_assoc. split; [done | by constructor].
Qed.

Lemma MergeStringSlice_elem first second k :
  k ∈ MergeStringSlice first second <-> k ∈ first \/ k ∈ second.
Proof.
  unfold MergeStringSlice. destruct (merge_loop ∅ [] first) as [e1 o1] eqn:H1.
  destruct (merge_loop e1 o1 second) as [e2 o2] eqn:H2; simpl.
  apply merge_loop_spec in H1 as (Hinv1 & Hel1 & _); [|by split; [constructor |]].
  apply merge_loop_spec in H2 as (_ & Hel2 & _); [|done].
  rewrite Hel2, Hel1, elem_of_nil. tauto.
Qed.

Lemma MergeMap_union {V} (first second : gmap string V) :
  MergeMap first second = second ∪ first.
Proof.
  unfold MergeMap.
  assert (forall m acc : gmap string V,
    map_fold (fun k v out => <[k := v]> out) acc m = m ∪ acc) as Hfold.
  { intros m acc.
    apply (map_fold_weak_ind (fun r m => r = m ∪ acc)); [by rewrite (left_id_L ∅ (∪)) |].
    intros k v m' r _ ->. by rewrite insert_union_l. }
  by rewrite !Hfold, (right_id_L ∅ (∪)).
Qed.

(** ** Properties *)

(** [MergeStringSlice] lists every key of the two slices once: first the keys
    of the first slice and then the further keys of the second, each in the order
    of its slice. *)
Theorem MergeStringSlice_spec first second :
  NoDup (MergeStringSlice first second) /\
  exists l1 l2, MergeStringSlice first second = l1 ++ l2 /\
    l1 `sublist_of` first /\ l2 `sublist_of` second /\
    (forall k, k ∈ l1 <-> k ∈ first) /\
    (forall k, k ∈ l2 <-> k ∈ second /\ k ∉ first).
Proof.
  unfold MergeStringSlice. destruct (merge_loop ∅ [] first) as [e1 o1] eqn:H1.
  destruct (merge_loop e1 o1 second) as [e2 o2] eqn:H2; cbn [snd].
  apply merge_loop_spec in H1 as (Hinv1 & Hel1 & suf1 & -> & Hs1); [|by split; [constructor |]].
  apply merge_loop_spec in H2 as ([Hnd _] & Hel2 & suf2 & -> & Hs2); [|done].
  cbn [app] in *. split; [done|]. exists suf1, suf2.
  assert (forall k, k ∈ suf1 <-> k ∈ first) as Hf by (intros k; rewrite Hel1, elem_of_nil; tauto).
  split_and!; [done..|]. intros k. apply NoDup_app in Hnd as (_ & Hdis & _).
  specialize (Hel2 k). rewrite elem_of_app in Hel2. rewrite <- Hf. split.
  - intros Hk. assert (k ∉ suf1) by (intros H; by apply (Hdis k)). tauto.
  - tauto.
Qed.

(** The RPC timeout is the remaining time of the context's deadline, at most 60
    seconds; the timeout the request asks for is never used, because the test that
    should find it ([req.TimeoutSeconds == nil]) is the wrong way round. *)
Theorem TrimRpcTimeoutSeconds_ignores_request deadlineNs req :
  TrimRpcTimeoutSeconds deadlineNs req =
  match deadlineNs with
  | Some timeRemaining => Z.min (wrap32 (Z.quot timeRemaining 1000000000)) 60
  | None => 60%Z
  end.
Proof.
  unfold TrimRpcTimeoutSeconds. change (wrap32 defaultMaxApiTimeoutSeconds) with 60%Z.
  destruct (TimeoutSeconds req) as [t|]; cbn;
    (destruct deadlineNs as [d|]; [destruct (Z.ltb_spec (wrap32 (Z.quot d 1000000000)) 60); lia | done]).
Qed.

(** The deadline of a long-polling request is the earliest of the parent
    context's deadline, the configured maximum (60 seconds when not configured) and
    the waiting time the request asks for, when that is positive. *)
Theorem TrimContext_deadline_spec now parentDdl reqWaitSeconds configuredMaxSeconds :
  is_int64 (now + configuredMaxSeconds) -> is_int64 (now + 60) ->
  (forall r, reqWaitSeconds = Some r -> is_int64 (now + r)) ->
  let bounds :=
    (now + (if (configuredMaxSeconds =? 0)%Z then 60 else configuredMaxSeconds))%Z ::
    (match reqWaitSeconds with
     | Some r => if (0 <? r)%Z then [now + r]%Z else []
     | None => []
     end) ++ option_list parentDdl in
  let deadline := TrimContextByTimeoutWithCappedDDL now parentDdl reqWaitSeconds configuredMaxSeconds in
  deadline ∈ bounds /\ Forall (fun b => deadline <= b)%Z bounds.
Proof.
  intros Hc H60 Hr. cbn zeta. unfold TrimContextByTimeoutWithCappedDDL.
  change defaultMaxApiTimeoutSeconds with 60%Z.
  set (mx := (if (configuredMaxSeconds =? 0)%Z then 60 else configuredMaxSeconds)%Z).
  assert (is_int64 (now + mx)) as Hm by (unfold mx; by destruct (configuredMaxSeconds =? 0)%Z).
  clearbody mx. clear Hc H60.
  destruct reqWaitSeconds as [r|]; [specialize (Hr r eq_refl); destruct (Z.ltb_spec 0 r);
    [destruct (Z.ltb_spec r mx)|]|]; cbn [andb]; rewrite wrap64_id by done; clear Hr Hm;
    (destruct parentDdl as [p|]; [match goal with |- context [(p <? ?x)%Z] => destruct (Z.ltb_spec p x) end|]);
    cbn [option_list app]; (split; [repeat (first [by left | right]) |]);
    repeat constructor; lia.
Qed.
