(* ===== verification/Thread.v ===== *)
(** * Workflow coroutines

    The interpreter runs many coroutines over one shared state.  The backend
    schedules them cooperatively: a coroutine runs until it waits
    ([provider.Await]) or calls something that blocks (an activity, a signal
    channel), and only then may another one run.  A [thread] is the code of a
    coroutine as data: its reads and writes of the shared state [St], its calls
    of the provider (events of type [Ev X], answered by a value of type [X]) and
    its waits.  A program is written in the monad of threads; [step] runs a pool
    of them; [wp] is a weakest precondition whose invariant must hold wherever
    another coroutine may run. *)

From S2P Require Export Service.

(** A provider interface: its calls, which of them let other coroutines run, and what
    an answer says about the number of the other coroutines that have not returned. *)
Class Provider (Ev : Type -> Type) : Type := {
  blocking : forall X, Ev X -> bool;
  tells : forall X, Ev X -> X -> Z -> Prop
}.

Inductive thread {St : Type} {Ev : Type -> Type} (A : Type) : Type :=
| Done (a : A)
| Crash (msg : string)
| Get (k : St -> thread A)
| Put (s : St) (k : thread A)
| Call (X : Type) (e : Ev X) (k : X -> thread A)
(** [provider.Await(ctx, func() bool { x = e(); return ok(x) })]: wait until a
    poll of [e] satisfies [ok]; the error is the one of a cancelled context. *)
| Poll (X : Type) (e : Ev X) (ok : X -> St -> bool) (k : X + error -> thread A)
| Wait (c : St -> bool) (k : option error -> thread A)
| GoNamed (body : thread unit) (k : thread A).
Arguments thread : clear implicits.
Arguments Done {St Ev A} a.
Arguments Crash {St Ev A} msg.
Arguments Get {St Ev A} k.
Arguments Put {St Ev A} s k.
Arguments Call {St Ev A X} e k.
Arguments Poll {St Ev A X} e ok k.
Arguments Wait {St Ev A} c k.
Arguments GoNamed {St Ev A} body k.

Section monad.
Context {St : Type} {Ev : Type -> Type}.

Fixpoint thread_bind {A B : Type} (t : thread St Ev A) (f : A -> thread St Ev B) : thread St Ev B :=
  match t with
  | Done a => f a
  | Crash msg => Crash msg
  | Get k => Get (fun s => thread_bind (k s) f)
  | Put s k => Put s (thread_bind k f)
  | Call e k => Call e (fun x => thread_bind (k x) f)
  | Poll e ok k => Poll e ok (fun x => thread_bind (k x) f)
  | Wait c k => Wait c (fun r => thread_bind (k r) f)
  | GoNamed body k => GoNamed body (thread_bind k f)
  end.
End monad.

#[export] Instance thread_ret {St Ev} : MRet (thread St Ev) := fun A => Done.
#[export] Instance thread_mbind {St Ev} : MBind (thread St Ev) := fun A B f t => thread_bind t f.

(** A component of the shared state: the pointer the Go code holds to it. *)
Class Has (St P : Type) : Type := {
  part : St -> P;
  set_part : P -> St -> St;
  part_set p s : part (set_part p s) = p;
  set_part_part s : set_part (part s) s = s;
  set_part_set p p' s : set_part p (set_part p' s) = set_part p s
}.

(** Two components that do not overlap. *)
Class Indep (St P Q : Type) `{!Has St P, !Has St Q} : Prop :=
  indep (q : Q) (s : St) : (part (set_part q s) : P) = part s.

#[export] Program Instance Has_self {St} : Has St St | 10 := {|
  part s := s; set_part p _ := p
|}.
Solve All Obligations with done.

Section operations.
Context {St : Type} {Ev : Type -> Type}.

Definition get_part {P} `{!Has St P} : thread St Ev P := Get (fun s => Done (part s)).
Definition put_part {P} `{!Has St P} (p : P) : thread St Ev unit :=
  Get (fun s => Put (set_part p s) (Done tt)).
Definition mod_part {P} `{!Has St P} (f : P -> P) : thread St Ev unit :=
  Get (fun s => Put (set_part (f (part s)) s) (Done tt)).

(** A call of a component's operation that may panic. *)
Definition run_part {P A} `{!Has St P} (m : M P A) : thread St Ev A :=
  Get (fun s =>
    match m (part s) with
    | Ret (a, p) => Put (set_part p s) (Done a)
    | Panic msg => Crash msg
    end).

Definition call {X} (e : Ev X) : thread St Ev X := Call e Done.
Definition wait (c : St -> bool) : thread St Ev (option error) := Wait c Done.
Definition lift_gores {A} (m : gores A) : thread St Ev A :=
  match m with Ret a => Done a | Panic msg => Crash msg end.

(** [for _, a := range l { f(a) }] *)
Fixpoint for_each {A} (l : list A) (f : A -> thread St Ev unit) : thread St Ev unit :=
  match l with
  | [] => Done tt
  | a :: l' => thread_bind (f a) (fun _ => for_each l' f)
  end.

(** [for _, a := range l { if err := f(a); err != nil { return err } }] *)
Fixpoint for_each_err {A} (l : list A) (f : A -> thread St Ev (option error)) :
  thread St Ev (option error) :=
  match l with
  | [] => Done None
  | a :: l' =>
      thread_bind (f a) (fun err =>
        match err with Some e => Done (Some e) | None => for_each_err l' f end)
  end.
End operations.

(** ** Running a pool of coroutines *)

Section run.
Context {St : Type} {Ev : Type -> Type} `{!Provider Ev}.
Notation thread := (thread St Ev).

Record pool : Type := mkPool {
  active : thread unit;
  waiting : list (thread unit);
  shared : St
}.

(** Is the coroutine at a point where others may run? *)
Definition at_yield {A : Type} (t : thread A) : bool :=
  match t with
  | Wait _ _ | Poll _ _ _ | Done _ => true
  | Call e _ => blocking _ e
  | _ => false
  end.

(** How many have not returned. *)
Definition live (ts : list (thread unit)) : Z :=
  len (List.filter (fun t => match t with Done _ => false | _ => true end) ts).

(** A waiting coroutine continues when what it waits for has happened. *)
Inductive resume {A : Type} (s : St) : thread A -> thread A -> Prop :=
| resume_wait c k : c s = true -> resume s (Wait c k) (k None)
| resume_wait_cancelled c k err : resume s (Wait c k) (k (Some err))
| resume_poll X (e : Ev X) ok k x : ok x s = true -> resume s (Poll e ok k) (k (inl x))
| resume_poll_cancelled X (e : Ev X) ok k err : resume s (Poll e ok k) (k (inr err))
| resume_call X (e : Ev X) k x : blocking _ e = true -> resume s (Call e k) (k x)
| resume_started t : at_yield t = false -> resume s t t.

Inductive step : pool -> pool -> Prop :=
| step_get k ws s : step (mkPool (Get k) ws s) (mkPool (k s) ws s)
| step_put s' k ws s : step (mkPool (Put s' k) ws s) (mkPool k ws s')
| step_call X (e : Ev X) k x ws s :
    blocking _ e = false -> step (mkPool (Call e k) ws s) (mkPool (k x) ws s)
| step_go body k ws s : step (mkPool (GoNamed body k) ws s) (mkPool k (ws ++ [body]) s)
| step_switch t ws1 t' t'' ws2 ws' s :
    at_yield t = true -> resume s t' t'' -> ws' ≡ₚ t :: ws1 ++ ws2 ->
    step (mkPool t (ws1 ++ t' :: ws2) s) (mkPool t'' ws' s)
| step_resume t t' ws s : at_yield t = true -> resume s t t' ->
    step (mkPool t ws s) (mkPool t' ws s).

(** ** Weakest preconditions *)

(** [wp I t Q s]: from a state [s], [t] does not crash, the invariant [I] holds
    wherever another coroutine may run, and [Q] holds when it returns.  After
    such a point the state is any state of the invariant. *)
Fixpoint wp {A : Type} (I : St -> Prop) (t : thread A) (Q : A -> St -> Prop) (s : St) : Prop :=
  match t with
  | Done a => Q a s
  | Crash _ => False
  | Get k => wp I (k s) Q s
  | Put s' k => wp I k Q s'
  | Call e k =>
      if blocking _ e then I s /\ forall s' x, I s' -> wp I (k x) Q s'
      else forall x, wp I (k x) Q s
  | Poll e ok k =>
      I s /\ forall s' r, I s' -> (forall x, r = inl x -> ok x s' = true) -> wp I (k r) Q s'
  | Wait c k =>
      I s /\ forall s' r, I s' -> (r = None -> c s' = true) -> wp I (k r) Q s'
  | GoNamed body k => (forall s', I s' -> wp I body (fun _ s => I s) s') /\ wp I k Q s
  end.

Lemma wp_mono {A : Type} I (t : thread A) (Q Q' : A -> St -> Prop) s :
  (forall a s, Q a s -> Q' a s) -> wp I t Q s -> wp I t Q' s.
Proof.
  revert Q Q' s. induction t as [A a|A msg|A k IH|A s0 k IH|A X e k IH|A X e ok k IH|A c k IH|A body _ k IH];
    intros Q Q' s HQ; simpl; eauto.
  - destruct (blocking X e); [intros [? H]; split; eauto | eauto].
  - intros [? H]; split; eauto.
  - intros [? H]; split; eauto.
  - intros [? ?]; split; eauto.
Qed.

Lemma wp_bind {A B : Type} I (t : thread A) (f : A -> thread B) Q s :
  wp I t (fun a s' => wp I (f a) Q s') s -> wp I (thread_bind t f) Q s.
Proof.
  revert f Q s. induction t as [A a|A msg|A k IH|A s0 k IH|A X e k IH|A X e ok k IH|A c k IH|A body _ k IH];
    intros f Q s; simpl; eauto.
  - destruct (blocking X e); [intros [? H]; split; eauto | eauto].
  - intros [? H]; split; eauto.
  - intros [? H]; split; eauto.
  - intros [? ?]; split; eauto.
Qed.

Lemma wp_for_each {A} (I : St -> Prop) (l : list A) (f : A -> thread unit) (R : St -> Prop) s :
  (forall a s, a ∈ l -> R s -> wp I (f a) (fun _ s' => R s') s) -> R s ->
  wp I (for_each l f) (fun _ s' => R s') s.
Proof.
  revert s. induction l as [|a l IH]; intros s Hf HR; simpl; [done|].
  apply wp_bind. eapply wp_mono; [|apply Hf; [by left | done]].
  intros [] s' HR'. cbn beta in HR'. apply IH; [|done]. intros a' s'' Ha'. apply Hf. by right.
Qed.

(** ** Soundness: the invariant holds at every yield, and nothing crashes *)

Definition good (I : St -> Prop) (t : thread unit) (s : St) : Prop := wp I t (fun _ s => I s) s.

(** What a waiting coroutine promises, whatever the state it is resumed in. *)
Definition ready (I : St -> Prop) (t : thread unit) : Prop :=
  forall s t', I s -> resume s t t' -> good I t' s.

Definition pool_ok (I : St -> Prop) (p : pool) : Prop :=
  good I (active p) (shared p) /\ Forall (ready I) (waiting p).

Lemma good_yield I t s : at_yield t = true -> good I t s -> I s.
Proof.
  destruct t as [a|msg|k|s0 k|X e k|X e ok k|c k|body k]; unfold good; simpl; try done;
    try tauto. intros ->. tauto.
Qed.

Lemma good_ready I t s : at_yield t = true -> good I t s -> ready I t.
Proof.
  intros Hy Hg s' t' HI Hr. unfold good in *.
  destruct Hr as [c k Hc|c k err|X e ok k x Hok|X e ok k err|X e k x Hb|t Ht]; simpl in *.
  - destruct Hg as [_ Hg]. by apply Hg.
  - destruct Hg as [_ Hg]. by apply Hg.
  - destruct Hg as [_ Hg]. apply Hg; [done|]. by intros x' [= <-].
  - destruct Hg as [_ Hg]. by apply Hg.
  - rewrite Hb in Hg. destruct Hg as [_ Hg]. by apply Hg.
  - congruence.
Qed.

Lemma started_ready (I : St -> Prop) (t : thread unit) :
  (forall s, I s -> good I t s) -> ready I t.
Proof.
  intros Hg s t' HI Hr. destruct (at_yield t) eqn:Hy.
  - eapply good_ready; eauto.
  - inversion Hr; subst; simpl in *; try congruence. by apply Hg.
Qed.

Lemma pool_ok_step I p p' : pool_ok I p -> step p p' -> pool_ok I p'.
Proof.
  intros [Ha Hw] Hs.
  destruct Hs as [k ws s|s' k ws s|X e k x ws s Hb|body k ws s|t ws1 t' t'' ws2 ws' s Hy Hr Hp|t t' ws s Hy Hr];
    unfold pool_ok, good in *; simpl in *.
  - done.
  - done.
  - rewrite Hb in Ha. auto.
  - destruct Ha as [Hb Ha]. split; [done|]. apply Forall_app; split; [done|].
    apply Forall_singleton, started_ready, Hb.
  - apply Forall_app in Hw as [Hw1 Hw2]. apply Forall_cons in Hw2 as [Ht' Hw2]. split.
    + eapply Ht'; [|done]. by eapply good_yield.
    + rewrite Hp. apply Forall_cons; split; [by eapply good_ready | by apply Forall_app].
  - split; [|done]. eapply good_ready; [done.. | by eapply good_yield | done].
Qed.

Lemma pool_ok_steps I p p' : pool_ok I p -> rtc step p p' -> pool_ok I p'.
Proof. intros Hp Hs. induction Hs; eauto using pool_ok_step. Qed.

Lemma pool_ok_not_crashed I p msg : pool_ok I p -> active p <> Crash msg.
Proof. intros [Ha _] Hc. by rewrite Hc in Ha. Qed.

End run.
Arguments pool : clear implicits.

(** ** Executing one coroutine

    [exec h w t s] runs [t] alone: [h] answers the provider's calls from the
    environment [w], every wait whose condition holds returns at once, and the
    run stops ([None]) at one whose condition does not hold. Spawned coroutines
    are collected. *)
Section exec.
Context {St : Type} {Ev : Type -> Type} {W : Type} (h : forall X, Ev X -> W -> X * W).

Fixpoint exec {A : Type} (t : thread St Ev A) (w : W) (s : St) :
  option (A * W * St * list (thread St Ev unit)) :=
  match t with
  | Done a => Some (a, w, s, [])
  | Crash _ => None
  | Get k => exec (k s) w s
  | Put s' k => exec k w s'
  | Call e k => let '(x, w') := h _ e w in exec (k x) w' s
  | Poll e ok k =>
      let '(x, w') := h _ e w in
      if ok x s then exec (k (inl x)) w' s else None
  | Wait c k => if c s then exec (k None) w s else None
  | GoNamed body k =>
      match exec k w s with
      | Some (a, w', s', ts) => Some (a, w', s', body :: ts)
      | None => None
      end
  end.
End exec.

Lemma exec_bind {St Ev W} (h : forall X, Ev X -> W -> X * W) {A B : Type}
  (t : thread St Ev A) (f : A -> thread St Ev B) w s :
  exec h (thread_bind t f) w s =
  match exec h t w s with
  | Some (a, w', s', ts) =>
      match exec h (f a) w' s' with
      | Some (b, w'', s'', ts') => Some (b, w'', s'', ts ++ ts')
      | None => None
      end
  | None => None
  end.
Proof.
  revert f w s. induction t as [A a|A msg|A k IH|A s0 k IH|A X e k IH|A X e ok k IH|A c k IH|A body _ k IH];
    intros f w s; simpl; eauto.
  - destruct (exec h (f a) w s) as [[[[? ?] ?] ?]|]; done.
  - destruct (h X e w) as [x w']; eauto.
  - destruct (h X e w) as [x w']. destruct (ok x s); eauto.
  - destruct (c s); eauto.
  - rewrite IH. destruct (exec h k w s) as [[[[a w'] s'] ts]|]; [|done].
    destruct (exec h (f a) w' s') as [[[[? ?] ?] ?]|]; done.
Qed.

(** The outcome of an execution, split at a bind. *)
Lemma exec_bind_inv {St Ev W} (h : forall X, Ev X -> W -> X * W) {A C : Type}
  (t : thread St Ev A) (k : A -> thread St Ev C) w s c w' s' ts :
  exec h (t ≫= k) w s = Some (c, w', s', ts) ->
  exists a w1 s1 ts1 ts2, exec h t w s = Some (a, w1, s1, ts1) /\
    exec h (k a) w1 s1 = Some (c, w', s', ts2).
Proof.
  unfold mbind, thread_mbind. rewrite exec_bind.
  destruct (exec h t w s) as [[[[a w1] s1] ts1]|]; [|done].
  destruct (exec h (k a) w1 s1) as [[[[c' w2] s2] ts2]|] eqn:E; [|done].
  intros [= <- <- <- <-]. naive_solver.
Qed.

(** The result of an execution that spawned nothing. *)
Definition returns {St Ev W} (h : forall X, Ev X -> W -> X * W) {A : Type} (t : thread St Ev A)
  (w : W) (s : St) (a : A) (w' : W) (s' : St) : Prop :=
  exec h t w s = Some (a, w', s', []).

(** ** Programs that leave a part of the state alone

    [keeps h f t]: executing [t] does not change the observation [f]. *)
Section keeps.
Context {St : Type} {Ev : Type -> Type} {W B : Type} (h : forall X, Ev X -> W -> X * W) (f : St -> B).

Definition keeps {A : Type} (t : thread St Ev A) : Prop :=
  forall w s a w' s' ts, exec h t w s = Some (a, w', s', ts) -> f s' = f s.

Lemma keeps_ret {A : Type} (a : A) : keeps (mret a : thread St Ev A).
Proof. intros w s ? ? ? ? [= <- <- <- <-]. done. Qed.

Lemma keeps_Done {A : Type} (a : A) : keeps (Done a : thread St Ev A).
Proof. intros w s ? ? ? ? [= <- <- <- <-]. done. Qed.

Lemma keeps_Crash {A : Type} msg : keeps (Crash msg : thread St Ev A).
Proof. by intros w s. Qed.

Lemma keeps_bind {A C : Type} (t : thread St Ev A) (k : A -> thread St Ev C) :
  keeps t -> (forall a, keeps (k a)) -> keeps (t ≫= k).
Proof.
  intros Ht Hk w s c w' s' ts H. unfold mbind, thread_mbind in H. rewrite exec_bind in H.
  destruct (exec h t w s) as [[[[a w1] s1] ts1]|] eqn:E1; [|done].
  destruct (exec h (k a) w1 s1) as [[[[c' w2] s2] ts2]|] eqn:E2; [|done].
  injection H as <- <- <- <-. rewrite (Hk a _ _ _ _ _ _ E2). by eapply Ht.
Qed.

Lemma keeps_call {X : Type} (e : Ev X) : keeps (call e).
Proof. intros w s ? ? ? ?. cbn. destruct (h X e w). by intros [= <- <- <- <-]. Qed.

Lemma keeps_Get {A : Type} (k : St -> thread St Ev A) : (forall s, keeps (k s)) -> keeps (Get k).
Proof. intros Hk w s ? ? ? ? H. cbn in H. by eapply Hk. Qed.

Lemma keeps_get_part {P} `{!Has St P} : keeps (get_part (P := P)).
Proof. intros w s ? ? ? ? [= <- <- <- <-]. done. Qed.

Lemma keeps_mod_part {P} `{!Has St P} (g : P -> P) :
  (forall p s, f (set_part p s) = f s) -> keeps (mod_part g).
Proof. intros Hf w s ? ? ? ? [= <- <- <- <-]. apply Hf. Qed.

Lemma keeps_put_part {P} `{!Has St P} (p : P) :
  (forall p s, f (set_part p s) = f s) -> keeps (put_part p).
Proof. intros Hf w s ? ? ? ? [= <- <- <- <-]. apply Hf. Qed.

(** A modification of the part that [f] observes, invisible to [f]. *)
Lemma keeps_mod_part_inv {P} `{!Has St P} (g : P -> P) :
  (forall s, f (set_part (g (part s)) s) = f s) -> keeps (mod_part g).
Proof. intros Hf w s ? ? ? ? [= <- <- <- <-]. apply Hf. Qed.

Lemma keeps_lift {A : Type} (m : gores A) : keeps (lift_gores m).
Proof. destruct m; [apply keeps_Done | apply keeps_Crash]. Qed.

Lemma keeps_wait c : keeps (wait c).
Proof. intros w s ? ? ? ?. cbn. destruct (c s); [|done]. by intros [= <- <- <- <-]. Qed.
End keeps.

(** Decompose a program; the leaves that change the state remain. *)
Ltac keeps_step :=
  match goal with
  | |- keeps _ _ (mret _) => apply keeps_ret
  | |- keeps _ _ (Done _) => apply keeps_Done
  | |- keeps _ _ (Crash _) => apply keeps_Crash
  | |- keeps _ _ (call _) => apply keeps_call
  | |- keeps _ _ get_part => apply keeps_get_part
  | |- keeps _ _ (lift_gores _) => apply keeps_lift
  | |- keeps _ _ (wait _) => apply keeps_wait
  | |- keeps _ _ (Get _) => apply keeps_Get; intros ?
  | |- keeps _ _ (_ ≫= _) => apply keeps_bind; [|intros ?]
  | |- keeps _ _ (match ?x with _ => _ end) => destruct x
  | |- keeps _ _ (let _ := _ in _) => cbv zeta
  end.
Ltac keeps_auto := repeat keeps_step; try done.

(** ** Programs that never crash, whatever the other coroutines do *)
Section safe.
Context {St : Type} {Ev : Type -> Type} `{!Provider Ev}.

Definition anything : St -> Prop := fun _ => True.
Definition safe {A : Type} (t : thread St Ev A) : Prop :=
  forall s, wp anything t (fun _ _ => True) s.

Lemma safe_ret {A : Type} (a : A) : safe (mret a : thread St Ev A).
Proof. done. Qed.
Lemma safe_Done {A : Type} (a : A) : safe (Done a : thread St Ev A).
Proof. done. Qed.
Lemma safe_bind {A C : Type} (t : thread St Ev A) (k : A -> thread St Ev C) :
  safe t -> (forall a, safe (k a)) -> safe (t ≫= k).
Proof.
  intros Ht Hk s. apply (wp_bind (St := St)). eapply wp_mono; [|apply Ht]. intros a s' _. apply Hk.
Qed.
Lemma safe_call {X : Type} (e : Ev X) : safe (call e).
Proof. intros s. cbn. by destruct (blocking X e). Qed.
Lemma safe_Get {A : Type} (k : St -> thread St Ev A) : (forall s, safe (k s)) -> safe (Get k).
Proof. intros Hk s. apply Hk. Qed.
Lemma safe_get_part {P} `{!Has St P} : safe (get_part (P := P)).
Proof. done. Qed.
Lemma safe_mod_part {P} `{!Has St P} (g : P -> P) : safe (mod_part g).
Proof. done. Qed.
Lemma safe_put_part {P} `{!Has St P} (p : P) : safe (put_part p).
Proof. done. Qed.
Lemma safe_wait c : safe (wait c).
Proof. done. Qed.
Lemma safe_Poll {A X : Type} (e : Ev X) ok (k : X + error -> thread St Ev A) :
  (forall r, safe (k r)) -> safe (Poll e ok k).
Proof. intros Hk s. split; [done|]. intros s' r _ _. apply Hk. Qed.
Lemma safe_for_each {A : Type} (l : list A) (f : A -> thread St Ev unit) :
  (forall a, safe (f a)) -> safe (for_each l f).
Proof. intros Hf. induction l as [|a l IH]; [done|]. by apply safe_bind. Qed.

(** A pool of safe coroutines never crashes. *)
Lemma safe_pool ts s p msg :
  Forall (fun t => safe t) ts -> rtc step (mkPool (Done tt) ts s) p -> active p <> Crash msg.
Proof.
  intros Hts Hr. apply (pool_ok_not_crashed anything).
  eapply pool_ok_steps; [|exact Hr]. split; [done|]. cbn.
  eapply Forall_impl; [exact Hts|]. intros t Ht. apply started_ready. intros s' _.
  unfold good. eapply wp_mono; [|apply Ht]. done.
Qed.
End safe.

Ltac safe_step :=
  match goal with
  | |- safe (mret _) => apply safe_ret
  | |- safe (Done _) => apply safe_Done
  | |- safe (call _) => apply safe_call
  | |- safe get_part => apply safe_get_part
  | |- safe (mod_part _) => apply safe_mod_part
  | |- safe (put_part _) => apply safe_put_part
  | |- safe (wait _) => apply safe_wait
  | |- safe (Get _) => apply safe_Get; intros ?
  | |- safe (Poll _ _ _) => apply safe_Poll; intros ?
  | |- safe (_ ≫= _) => apply safe_bind; [|intros ?]
  | |- safe (for_each _ _) => apply safe_for_each; intros ?
  | |- safe (match ?x with _ => _ end) => destruct x
  | |- safe (let _ := _ in _) => cbv zeta
  end.
Ltac safe_auto := repeat safe_step; try done.

(** ** What a coroutine guarantees when it returns

    [own_step] is the view of one coroutine: its own steps, and, wherever others
    may run, any change of the shared state.  [wlp t Q s]: if [t], started in [s],
    returns [a] in a state [s'], then [Q a s']. *)
Section wlp.
Context {St : Type} {Ev : Type -> Type} `{!Provider Ev}.

Inductive own_step {A : Type} : thread St Ev A * St -> thread St Ev A * St -> Prop :=
| own_get k s : own_step (Get k, s) (k s, s)
| own_put s' k s : own_step (Put s' k, s) (k, s')
| own_call X (e : Ev X) k x s : blocking X e = false -> own_step (Call e k, s) (k x, s)
| own_go body k s : own_step (GoNamed body k, s) (k, s)
| own_resume t t' s s' : (forall a, t <> Done a) -> at_yield t = true -> resume s' t t' ->
    own_step (t, s) (t', s').

Fixpoint wlp {A : Type} (t : thread St Ev A) (Q : A -> St -> Prop) (s : St) : Prop :=
  match t with
  | Done a => Q a s
  | Crash _ => True
  | Get k => wlp (k s) Q s
  | Put s' k => wlp k Q s'
  | Call e k => if blocking _ e then forall s' x, wlp (k x) Q s' else forall x, wlp (k x) Q s
  | Poll e ok k => forall s' r, (forall x, r = inl x -> ok x s' = true) -> wlp (k r) Q s'
  | Wait c k => forall s' r, (r = None -> c s' = true) -> wlp (k r) Q s'
  | GoNamed _ k => wlp k Q s
  end.

Lemma wlp_step {A : Type} (x y : thread St Ev A * St) Q : wlp x.1 Q x.2 -> own_step x y -> wlp y.1 Q y.2.
Proof.
  intros Hx Hs. destruct Hs as [k s|s' k s|X e k x s Hb|body k s|t t' s s' Hd Hy Hr]; cbn in *; auto.
  - rewrite Hb in Hx. apply Hx.
  - destruct Hr as [c k Hc|c k err|X e ok k x Hok|X e ok k err|X e k x Hb|t Ht]; cbn in *.
    + by apply Hx.
    + by apply Hx.
    + apply Hx. by intros ? [= <-].
    + by apply Hx.
    + rewrite Hb in Hx. apply Hx.
    + congruence.
Qed.

Lemma wlp_sound {A : Type} (t : thread St Ev A) Q s a s' :
  wlp t Q s -> rtc own_step (t, s) (Done a, s') -> Q a s'.
Proof.
  intros Ht Hs.
  apply (rtc_invariant own_step (fun x => wlp x.1 Q x.2) (t, s) (Done a, s')); [|done..].
  intros x y. apply wlp_step.
Qed.

Lemma wlp_mono {A : Type} (t : thread St Ev A) (Q Q' : A -> St -> Prop) s :
  (forall a s, Q a s -> Q' a s) -> wlp t Q s -> wlp t Q' s.
Proof.
  revert Q Q' s. induction t as [A a|A msg|A k IH|A s0 k IH|A X e k IH|A X e ok k IH|A c k IH|A body _ k IH];
    intros Q Q' s HQ; simpl; eauto. destruct (blocking X e); eauto.
Qed.

Lemma wlp_bind {A B : Type} (t : thread St Ev A) (f : A -> thread St Ev B) Q s :
  wlp t (fun a s' => wlp (f a) Q s') s -> wlp (t ≫= f) Q s.
Proof.
  unfold mbind, thread_mbind. revert f Q s.
  induction t as [A a|A msg|A k IH|A s0 k IH|A X e k IH|A X e ok k IH|A c k IH|A body _ k IH];
    intros f Q s; simpl; eauto. destruct (blocking X e); eauto.
Qed.

(** Any program satisfies the trivial postcondition. *)
Lemma wlp_true {A : Type} (t : thread St Ev A) s : wlp t (fun _ _ => True) s.
Proof. revert s. induction t; intros s'; simpl; eauto. destruct (blocking X e); eauto. Qed.

Lemma wlp_any {A B : Type} (t : thread St Ev A) (f : A -> thread St Ev B) Q s :
  (forall a s', wlp (f a) Q s') -> wlp (t ≫= f) Q s.
Proof. intros Hf. apply wlp_bind. eapply wlp_mono; [|apply wlp_true]. auto. Qed.

(** A program that neither yields nor writes the state. *)
Fixpoint pure_calls {A : Type} (t : thread St Ev A) (s : St) : Prop :=
  match t with
  | Done _ | Crash _ => True
  | Get k => pure_calls (k s) s
  | Call e k => blocking _ e = false /\ forall x, pure_calls (k x) s
  | Put _ _ | Poll _ _ _ | Wait _ _ | GoNamed _ _ => False
  end.

Lemma wlp_pure {A B : Type} (t : thread St Ev A) (f : A -> thread St Ev B) Q s :
  pure_calls t s -> (forall a, wlp (f a) Q s) -> wlp (t ≫= f) Q s.
Proof.
  intros Hp Hf. apply wlp_bind. revert s Hp Hf.
  induction t as [A a|A msg|A k IH|A s0 k IH|A X e k IH|A X e ok k IH|A c k IH|A body _ k IH];
    intros s Hp Hf; simpl in *; auto; try done.
  destruct Hp as [-> Hp]. auto.
Qed.
End wlp.
