(* ===== verification/Sharing.v ===== *)
(** * What each coroutine owns

    A proof rule for pools of coroutines that divide the shared state among
    themselves: every coroutine owns a share, only it may change what its share
    stands for, and it keeps its share while it waits.  The shares of all
    coroutines together describe the state ([owned]).  A share may also be what
    permits a call ([permits]), and a coroutine that spawns another may hand it a
    share.  The rule is for runs without cancelled waits in which coroutines may
    arrive from outside ([calm_step]). *)

From S2P Require Export Thread.

(** Shares and the states they describe. *)
Class Shares (St : Type) (Ev : Type -> Type) (R : Type) : Type := {
  no_share : R;
  owned : list R -> St -> Prop;
  (** what a coroutine that makes a call owns *)
  permits : forall X, Ev X -> R -> Prop;
  owned_perm Hs Hs' s : Hs ≡ₚ Hs' -> owned Hs s -> owned Hs' s;
  owned_none Hs s : owned Hs s -> owned (no_share :: Hs) s
}.

(** ** Runs without cancellation *)

Section calm.
Context {St : Type} {Ev : Type -> Type} `{!Provider Ev}.

(** [resume] for a coroutine that is not cancelled, while [n] others have not
    returned. *)
Inductive wakes {A : Type} (n : Z) (s : St) : thread St Ev A -> thread St Ev A -> Prop :=
| wakes_wait c k : c s = true -> wakes n s (Wait c k) (k None)
| wakes_poll X (e : Ev X) ok k x : tells _ e x n -> ok x s = true -> wakes n s (Poll e ok k) (k (inl x))
| wakes_call X (e : Ev X) k x : blocking _ e = true -> wakes n s (Call e k) (k x)
| wakes_started t : at_yield t = false -> wakes n s t t.

(** The coroutines that others than the running ones may start, at any time. *)
Context (arrives : thread St Ev unit -> Prop).

Inductive calm_step : pool St Ev -> pool St Ev -> Prop :=
| calm_get k ws s : calm_step (mkPool (Get k) ws s) (mkPool (k s) ws s)
| calm_put s' k ws s : calm_step (mkPool (Put s' k) ws s) (mkPool k ws s')
| calm_call X (e : Ev X) k x ws s :
    blocking _ e = false -> calm_step (mkPool (Call e k) ws s) (mkPool (k x) ws s)
| calm_go body k ws s : calm_step (mkPool (GoNamed body k) ws s) (mkPool k (ws ++ [body]) s)
| calm_switch t ws1 t' t'' ws2 ws' s :
    at_yield t = true -> wakes (live (t :: ws1 ++ ws2)) s t' t'' -> ws' ≡ₚ t :: ws1 ++ ws2 ->
    calm_step (mkPool t (ws1 ++ t' :: ws2) s) (mkPool t'' ws' s)
| calm_resume t t' ws s : at_yield t = true -> wakes (live ws) s t t' ->
    calm_step (mkPool t ws s) (mkPool t' ws s)
| calm_arrive t body ws s : at_yield t = true -> arrives body ->
    calm_step (mkPool t ws s) (mkPool t (ws ++ [body]) s).

Lemma wakes_resume n s (t t' : thread St Ev unit) : wakes n s t t' -> resume s t t'.
Proof. intros []; by constructor. Qed.
End calm.

(** Without arrivals these are steps of the pool. *)
Lemma calm_step_step {St Ev} `{!Provider Ev} (p p' : pool St Ev) : calm_step (fun _ => False) p p' -> step p p'.
Proof. intros []; try (econstructor; eauto using wakes_resume); done. Qed.

(** A coroutine that wakes had not returned. *)
Lemma wakes_live {St Ev} `{!Provider Ev} n s (t t' : thread St Ev unit) ws :
  wakes n s t t' -> live (t :: ws) = (live ws + 1)%Z.
Proof.
  unfold live. intros Hw. destruct Hw as [c k Hc|X e ok k x Ht Hok|X e k x Hb|t Ht]; cbn [List.filter];
    rewrite ?len_cons; try lia. destruct t; try done; cbn [List.filter]; rewrite len_cons; lia.
Qed.
Lemma live_nonneg {St Ev} (ts : list (thread St Ev unit)) : (0 <= live ts)%Z.
Proof. apply len_nonneg. Qed.
Lemma live_perm {St Ev} (ts ts' : list (thread St Ev unit)) : ts ≡ₚ ts' -> live ts = live ts'.
Proof.
  unfold live, len. intros Hp. f_equal.
  induction Hp as [|t l l' _ IH|t t' l|l1 l2 l3 _ IH1 _ IH2]; cbn.
  - done.
  - destruct t; cbn; by rewrite ?IH.
  - by destruct t, t'.
  - by rewrite IH1.
Qed.

Section sharing.
Context {St R : Type} {Ev : Type -> Type} `{!Provider Ev} `{!Shares St Ev R}.
Notation thread := (thread St Ev).
Notation no_share := (no_share (St := St) (Ev := Ev)).
Notation owned := (owned (Ev := Ev)).

(** When all the others have returned, none of them owns anything. *)
Definition alone (n : Z) (Fs : list R) : Prop := n = 0%Z -> Forall (fun H => H = no_share) Fs.

(** A coroutine that has not started may be given [H]: one that does nothing returns
    it, one that starts with a call has it permitted. *)
Definition may_start (t : thread unit) (H : R) : Prop :=
  match t with
  | Done _ => H = no_share
  | Call e _ => blocking _ e = true -> permits _ e H
  | Poll e _ _ => permits _ e H
  | _ => True
  end.

(** [act t Q s Fs]: [t] runs from [s] while the other coroutines own [Fs].  At a
    yield it owns some [H] with which the shares describe the state; when it is
    woken it still owns [H], in whatever state and with whatever the others own
    then.  [Q] holds when it returns.  A spawned coroutine starts with a share that
    its parent gives it and ends with none. *)
Fixpoint act {A : Type} (t : thread A) (Q : A -> St -> list R -> Prop) (s : St) (Fs : list R) : Prop :=
  match t with
  | Done a => Q a s Fs
  | Crash _ => True
  | Get k => act (k s) Q s Fs
  | Put s' k => act k Q s' Fs
  | Call e k =>
      exists H, permits _ e H /\ owned (H :: Fs) s /\
        if blocking _ e then forall s' Fs' x, owned (H :: Fs') s' -> act (k x) Q s' Fs'
        else forall x, act (k x) Q s Fs
  | Poll e ok k =>
      exists H, permits _ e H /\ owned (H :: Fs) s /\
        forall s' Fs' n x, owned (H :: Fs') s' -> alone n Fs' -> tells _ e x n -> ok x s' = true ->
          act (k (inl x)) Q s' Fs'
  | Wait c k =>
      exists H, owned (H :: Fs) s /\
        forall s' Fs', owned (H :: Fs') s' -> c s' = true -> act (k None) Q s' Fs'
  | GoNamed body k =>
      exists H, may_start body H /\
        (forall s' Fs', owned (H :: Fs') s' ->
           act body (fun _ s'' Fs'' => owned (no_share :: Fs'') s'') s' Fs') /\
        act k Q s (Fs ++ [H])
  end.

Lemma act_mono {A : Type} (t : thread A) (Q Q' : A -> St -> list R -> Prop) s Fs :
  (forall a s Fs, Q a s Fs -> Q' a s Fs) -> act t Q s Fs -> act t Q' s Fs.
Proof.
  revert Q Q' s Fs. induction t as [A a|A msg|A k IH|A s0 k IH|A X e k IH|A X e ok k IH|A c k IH|A body _ k IH];
    intros Q Q' s Fs HQ; simpl; eauto.
  - intros (H & ? & ? & Hk). exists H. destruct (blocking X e); eauto 10.
  - intros (H & ? & ? & Hk). exists H. split_and!; [done..|]. intros. eapply IH; eauto.
  - intros (H & ? & Hk). exists H. split; [done|]. intros. eapply IH; eauto.
  - intros (H & ? & ? & ?). exists H. split_and!; eauto.
Qed.

Lemma act_bind {A B : Type} (t : thread A) (f : A -> thread B) Q s Fs :
  act t (fun a s' Fs' => act (f a) Q s' Fs') s Fs -> act (t ≫= f) Q s Fs.
Proof.
  unfold mbind, thread_mbind. revert f Q s Fs.
  induction t as [A a|A msg|A k IH|A s0 k IH|A X e k IH|A X e ok k IH|A c k IH|A body _ k IH];
    intros f Q s Fs; simpl; eauto.
  - intros (H & ? & ? & Hk). exists H. destruct (blocking X e); eauto 10.
  - intros (H & ? & ? & Hk). exists H. eauto 10.
  - intros (H & ? & Hk). exists H. eauto 10.
  - intros (H & ? & ? & ?). exists H. split_and!; eauto.
Qed.

(** ** Soundness *)

Definition behaves (t : thread unit) (s : St) (Fs : list R) : Prop :=
  act t (fun _ s' Fs' => owned (no_share :: Fs') s') s Fs.

(** What a coroutine that owns [H] promises, when it waits or has not started. *)
Definition holds (t : thread unit) (H : R) : Prop :=
  match t with
  | Done _ => H = no_share
  | Wait c k => forall s Fs, owned (H :: Fs) s -> c s = true -> behaves (k None) s Fs
  | Poll e ok k => permits _ e H /\
      forall s Fs n x, owned (H :: Fs) s -> alone n Fs -> tells _ e x n -> ok x s = true ->
        behaves (k (inl x)) s Fs
  | Call e k =>
      if blocking _ e then permits _ e H /\ forall s Fs x, owned (H :: Fs) s -> behaves (k x) s Fs
      else forall s Fs, owned (H :: Fs) s -> behaves t s Fs
  | _ => forall s Fs, owned (H :: Fs) s -> behaves t s Fs
  end.

Lemma behaves_yield t s Fs :
  at_yield t = true -> behaves t s Fs <-> exists H, owned (H :: Fs) s /\ holds t H.
Proof.
  unfold behaves. intros Hy.
  destruct t as [[]|msg|k|s0 k|X e k|X e ok k|c k|body k]; simpl in *; try done.
  - split; [by exists no_share | intros (H & Ho & ->); exact Ho].
  - rewrite Hy in *. naive_solver.
  - naive_solver.
Qed.

Lemma holds_wakes t H s n Fs t' :
  holds t H -> owned (H :: Fs) s -> alone n Fs -> wakes n s t t' -> behaves t' s Fs.
Proof.
  intros Hh Ho Ha Hw. destruct Hw as [c k Hc|X e ok k x Ht Hok|X e k x Hb|t Ht]; simpl in *; eauto.
  - destruct Hh as [_ Hh]. by eapply Hh.
  - rewrite Hb in Hh. destruct Hh as [_ Hh]. by apply Hh.
  - destruct t; simpl in *; try done; eauto. rewrite Ht in Hh. eauto.
Qed.

(** A coroutine that may start with [H], in any state. *)
Definition starts_with (H : R) (t : thread unit) : Prop := forall s Fs, owned (H :: Fs) s -> behaves t s Fs.
Definition starts : thread unit -> Prop := starts_with no_share.

(** The shares of the coroutines that wait. *)
Definition shared_ok (p : pool St Ev) : Prop :=
  exists Hs, Forall2 holds (waiting p) Hs /\ behaves (active p) (shared p) Hs.

Lemma starts_holds t H : may_start t H -> starts_with H t -> holds t H.
Proof.
  intros Hm Ht. unfold starts_with, behaves in Ht.
  destruct t as [[]|msg|k|s0 k|X e k|X e ok k|c k|body k]; simpl in *; try done.
  - destruct (blocking X e) eqn:Hb; [|by intros s Fs Ho; unfold behaves; simpl; rewrite Hb; auto].
    split; [by apply Hm|]. intros s Fs x Ho. destruct (Ht s Fs Ho) as (H' & _ & Ho' & Hk). by apply Hk.
  - split; [done|]. intros s Fs n x Ho Ha Hx Hok. destruct (Ht s Fs Ho) as (H' & _ & Ho' & Hk). by eapply Hk.
  - intros s Fs Ho Hc. destruct (Ht s Fs Ho) as (H' & Ho' & Hk). by apply Hk.
Qed.

(** A coroutine that may arrive. *)
Definition arriving (t : thread unit) : Prop := may_start t no_share /\ starts t.

(** Who has returned owns nothing. *)
Lemma live_alone ts Hs : Forall2 holds ts Hs -> alone (live ts) Hs.
Proof.
  induction 1 as [|t H ts Hs Ht Hts IH]; [by constructor|].
  unfold alone, live in *. cbn. destruct t as [[]|msg|k|s0 k|X e k|X e ok k|c k|body k]; rewrite ?len_cons;
    intros Hn; try (pose proof (len_nonneg (List.filter
      (fun t : thread unit => match t with Done _ => false | _ => true end) ts)); lia).
  constructor; [exact Ht | by apply IH].
Qed.

Context (arrives : thread unit -> Prop) (Harrives : forall t, arrives t -> arriving t).

Lemma shared_ok_step p p' : shared_ok p -> calm_step arrives p p' -> shared_ok p'.
Proof.
  intros (Hs & Hw & Ha) Hst. unfold shared_ok.
  destruct Hst as [k ws s|s' k ws s|X e k x ws s Hb|body k ws s|t ws1 t' t'' ws2 ws' s Hy Hr Hp|t t' ws s Hy Hr
    |t body ws s Hy Hb]; cbn [waiting active shared] in *.
  - by exists Hs.
  - by exists Hs.
  - unfold behaves in Ha. cbn in Ha. rewrite Hb in Ha. destruct Ha as (H & _ & _ & Ha).
    exists Hs. split; [done | apply Ha].
  - destruct Ha as (H & Hm & Hbody & Hk). exists (Hs ++ [H]). split; [|done].
    apply Forall2_app; [done|]. repeat constructor. by apply starts_holds.
  - apply (behaves_yield _ _ _ Hy) in Ha as (H & Ho & Ht).
    apply Forall2_app_inv_l in Hw as (Hs1 & Hs2 & Hw1 & Hw2 & ->).
    apply Forall2_cons_inv_l in Hw2 as (H' & Hs2' & Ht' & Hw2 & ->).
    assert (Forall2 holds (t :: ws1 ++ ws2) (H :: Hs1 ++ Hs2')) as Hall
      by (constructor; [done | by apply Forall2_app]).
    pose proof (live_alone _ _ Hall) as Hal.
    destruct (Permutation_Forall2 (symmetry Hp) Hall) as (Hs' & Hperm & Hall').
    exists Hs'. split; [done|]. eapply holds_wakes; [exact Ht' | | | exact Hr].
    + eapply owned_perm; [|exact Ho]. rewrite <- Hperm. solve_Permutation.
    + intros Hn. specialize (Hal Hn). by rewrite <- Hperm.
  - apply (behaves_yield _ _ _ Hy) in Ha as (H & Ho & Ht). exists Hs. split; [done|].
    eapply holds_wakes; [exact Ht | exact Ho | by apply live_alone | exact Hr].
  - apply (behaves_yield _ _ _ Hy) in Ha as (H & Ho & Ht). destruct (Harrives _ Hb) as [Hm Hst].
    exists (Hs ++ [no_share]). split.
    + apply Forall2_app; [done|]. repeat constructor. by apply starts_holds.
    + apply (behaves_yield _ _ _ Hy). exists H. split; [|done].
      eapply owned_perm; [|by apply owned_none]. rewrite (Permutation_app_comm Hs). cbn. apply Permutation_swap.
Qed.

Lemma shared_ok_steps p p' : shared_ok p -> rtc (calm_step arrives) p p' -> shared_ok p'.
Proof. intros Hp. by apply rtc_invariant; [apply shared_ok_step|]. Qed.

(** In a pool whose running coroutine is at a yield, everyone has a share. *)
Lemma pool_shares ts Hs0 s p :
  Forall2 may_start ts Hs0 -> Forall2 starts_with Hs0 ts -> owned Hs0 s ->
  rtc (calm_step arrives) (mkPool (Done tt) ts s) p -> at_yield (active p) = true ->
  exists Hs, Forall2 holds (active p :: waiting p) Hs /\ owned Hs (shared p).
Proof.
  intros Hm Hst Ho Hr Hy. apply shared_ok_steps in Hr as (Hs & Hw & Ha).
  - apply (behaves_yield _ _ _ Hy) in Ha as (H & Hoh & Ht). exists (H :: Hs). split; [by constructor | done].
  - exists Hs0. split; cbn.
    + clear Hr Ho. induction Hm as [|t H ts Hs0 Hm Hms IH]; inversion Hst; subst; constructor; eauto.
      by apply starts_holds.
    + unfold behaves. cbn. by apply owned_none.
Qed.

(** When no one owns anything at the start. *)
Lemma pool_shares_none ts s p :
  Forall arriving ts -> owned [] s -> rtc (calm_step arrives) (mkPool (Done tt) ts s) p ->
  at_yield (active p) = true ->
  exists Hs, Forall2 holds (active p :: waiting p) Hs /\ owned Hs (shared p).
Proof.
  intros Hts Ho. apply (pool_shares ts (map (fun _ => no_share) ts)).
  - induction Hts as [|t ts [Hm _] Hts IH]; by constructor.
  - induction Hts as [|t ts [_ Ht] Hts IH]; by constructor.
  - clear Hts. induction ts as [|t ts IH]; cbn; [done|]. by apply owned_none.
Qed.

(** ** Programs that keep their share

    [keeps_share H t]: [t], started while owning [H], owns [H] when it returns. *)
Definition ends_with {A : Type} (H : R) (t : thread A) (H' : R) : Prop :=
  forall s Fs, owned (H :: Fs) s -> act t (fun _ s' Fs' => owned (H' :: Fs') s') s Fs.
Definition keeps_share {A : Type} (H : R) (t : thread A) : Prop := ends_with H t H.

Lemma ends_bind {A B : Type} H H1 H2 (t : thread A) (f : A -> thread B) :
  ends_with H t H1 -> (forall a, ends_with H1 (f a) H2) -> ends_with H (t ≫= f) H2.
Proof.
  intros Ht Hf s Fs Ho. apply act_bind. eapply act_mono; [|by apply Ht].
  intros a s' Fs' Ho'. cbn beta in Ho'. by apply Hf.
Qed.

Lemma ends_Get {A : Type} H (k : St -> thread A) H' : (forall s, ends_with H (k s) H') -> ends_with H (Get k) H'.
Proof. intros Hk s Fs Ho. by apply (Hk s). Qed.

Lemma ks_ret {A : Type} H (a : A) : keeps_share H (mret a : thread A).
Proof. by intros s Fs Ho. Qed.
Lemma ks_Done {A : Type} H (a : A) : keeps_share H (Done a : thread A).
Proof. by intros s Fs Ho. Qed.
Lemma ks_Crash {A : Type} H msg H' : ends_with H (Crash msg : thread A) H'.
Proof. by intros s Fs Ho. Qed.
Lemma ks_bind {A B : Type} H (t : thread A) (f : A -> thread B) :
  keeps_share H t -> (forall a, keeps_share H (f a)) -> keeps_share H (t ≫= f).
Proof. apply ends_bind. Qed.
Lemma ends_after {A B : Type} H H' (t : thread A) (f : A -> thread B) :
  keeps_share H t -> (forall a, ends_with H (f a) H') -> ends_with H (t ≫= f) H'.
Proof. apply ends_bind. Qed.
Lemma ks_call {X : Type} H (e : Ev X) : permits _ e H -> keeps_share H (call e).
Proof. intros Hp s Fs Ho. exists H. by destruct (blocking X e). Qed.
Lemma ks_Poll {A X : Type} H (e : Ev X) ok (k : X + error -> thread A) :
  permits _ e H -> (forall r, keeps_share H (k r)) -> keeps_share H (Poll e ok k).
Proof. intros Hp Hk s Fs Ho. exists H. split_and!; [done..|]. intros s' Fs' n x Ho' _ _ _. by apply Hk. Qed.
Lemma ks_wait H c : keeps_share H (wait c : thread _).
Proof. intros s Fs Ho. exists H. by split. Qed.
Lemma ks_lift {A : Type} H (m : gores A) : keeps_share H (lift_gores m).
Proof. destruct m; [apply ks_Done | apply ks_Crash]. Qed.
Lemma ks_get_part {P} `{!Has St P} H : keeps_share H (get_part (P := P)).
Proof. by intros s Fs Ho. Qed.
Lemma ks_go {A : Type} H (body : thread unit) (k : thread A) :
  may_start body no_share -> keeps_share no_share body -> keeps_share H k -> keeps_share H (GoNamed body k).
Proof.
  intros Hm Hb Hk s Fs Ho. exists no_share. split_and!; [done | intros s' Fs' Ho'; by apply Hb|]. apply Hk.
  eapply owned_perm; [|by apply owned_none]. rewrite Permutation_app_comm. cbn.
  apply Permutation_swap.
Qed.
Lemma ks_for_each {A : Type} H (l : list A) (f : A -> thread unit) :
  (forall a, keeps_share H (f a)) -> keeps_share H (for_each l f).
Proof. intros Hf. induction l as [|a l IH]; [apply ks_Done | by apply ks_bind]. Qed.
Lemma ks_for_each_err {A : Type} H (l : list A) (f : A -> thread (option error)) :
  (forall a, keeps_share H (f a)) -> keeps_share H (for_each_err l f).
Proof.
  intros Hf. induction l as [|a l IH]; [apply ks_Done|]. apply ks_bind; [done|].
  intros [e|]; [apply ks_Done | done].
Qed.

(** A part of the state that no share speaks about. *)
Class Apart (P : Type) `{!Has St P} : Prop :=
  apart (p : P) (s : St) Hs : owned Hs s -> owned Hs (set_part p s).

Lemma ks_mod_part {P} `{!Has St P, !Apart P} H (g : P -> P) : keeps_share H (mod_part g).
Proof. intros s Fs Ho. cbn. by apply apart. Qed.
Lemma ks_put_part {P} `{!Has St P, !Apart P} H (p : P) : keeps_share H (put_part p).
Proof. intros s Fs Ho. cbn. by apply apart. Qed.
Lemma ks_run_part {P A} `{!Has St P, !Apart P} H (m : M P A) : keeps_share H (run_part m).
Proof. intros s Fs Ho. cbn. destruct (m (part s)) as [[a p]|msg]; cbn; [by apply apart | done]. Qed.

Lemma ks_starts (t : thread unit) : keeps_share no_share t -> starts t.
Proof. intros Ht s Fs Ho. by apply Ht. Qed.

End sharing.

(** Decompose a program into what it does to its share. *)
Ltac ks_step :=
  match goal with
  | |- keeps_share _ (mret _) => apply ks_ret
  | |- keeps_share _ (Done _) => apply ks_Done
  | |- keeps_share _ (Crash _) => apply ks_Crash
  | |- keeps_share _ (call _) => apply ks_call; first [done | solve [eauto with shares]]
  | |- keeps_share _ get_part => apply ks_get_part
  | |- keeps_share _ (mod_part _) => apply ks_mod_part
  | |- keeps_share _ (put_part _) => apply ks_put_part
  | |- keeps_share _ (run_part _) => apply ks_run_part
  | |- keeps_share _ (lift_gores _) => apply ks_lift
  | |- keeps_share _ (wait _) => apply ks_wait
  | |- keeps_share _ (Get _) => apply ends_Get; intros ?; fold_ks
  | |- keeps_share _ (Poll _ _ _) => apply ks_Poll; [first [done | solve [eauto with shares]]|intros ?]
  | |- keeps_share _ (GoNamed _ _) => apply ks_go; [first [done | solve [eauto with shares]] | |]
  | |- keeps_share _ (_ ≫= _) => apply ks_bind; [|intros ?]
  | |- keeps_share _ (for_each _ _) => apply ks_for_each; intros ?
  | |- keeps_share _ (for_each_err _ _) => apply ks_for_each_err; intros ?
  | |- keeps_share _ (match ?x with _ => _ end) => destruct x
  | |- keeps_share _ (let _ := _ in _) => cbv zeta
  end
with fold_ks :=
  match goal with |- ends_with ?H ?t ?H => change (keeps_share H t) end.
Ltac ks_auto := try fold_ks; repeat first [ks_step | solve [eauto with shares]].
Create HintDb shares.
