(* ===== verification/Calls.v ===== *)
(** * Programs that call services

    The request handlers and the backend clients run alone: they keep no shared
    state and only make calls, one after the other.  A [proc E A] is such a
    program as data: its calls are events [E X], answered by a value of type [X].
    [runs] gives every run with the calls it made; [interp] runs a program on top
    of an implementation of its calls, so that layers compose. *)

From S2P Require Export Prelude.

Inductive proc {E : Type -> Type} (A : Type) : Type :=
| Fin (a : A)
| Throw (msg : string)
| Ask (X : Type) (e : E X) (k : X -> proc A).
Arguments proc : clear implicits.
Arguments Fin {E A} a.
Arguments Throw {E A} msg.
Arguments Ask {E A X} e k.

(** A call and its answer. *)
Inductive obs (E : Type -> Type) : Type :=
| Obs (X : Type) (e : E X) (x : X).
Arguments Obs {E X} e x.

Section proc.
Context {E : Type -> Type}.

Fixpoint proc_bind {A B : Type} (p : proc E A) (f : A -> proc E B) : proc E B :=
  match p with
  | Fin a => f a
  | Throw msg => Throw msg
  | Ask e k => Ask e (fun x => proc_bind (k x) f)
  end.

#[export] Instance proc_ret : MRet (proc E) := fun A => Fin.
#[export] Instance proc_mbind : MBind (proc E) := fun A B f p => proc_bind p f.

Definition ask {X} (e : E X) : proc E X := Ask e Fin.
Definition of_gores {A} (m : gores A) : proc E A :=
  match m with Ret a => Fin a | Panic msg => Throw msg end.

(** ** Runs *)

Inductive runs {A : Type} : proc E A -> list (obs E) -> gores A -> Prop :=
| runs_fin a : runs (Fin a) [] (Ret a)
| runs_throw msg : runs (Throw msg) [] (Panic msg)
| runs_ask X (e : E X) k x tr r : runs (k x) tr r -> runs (Ask e k) (Obs e x :: tr) r.

(** [always p Q]: every run of [p], whatever the answers, satisfies [Q]. *)
Fixpoint always {A : Type} (p : proc E A) (Q : list (obs E) -> gores A -> Prop) : Prop :=
  match p with
  | Fin a => Q [] (Ret a)
  | Throw msg => Q [] (Panic msg)
  | Ask e k => forall x, always (k x) (fun tr => Q (Obs e x :: tr))
  end.

Lemma always_runs {A : Type} (p : proc E A) Q tr r : always p Q -> runs p tr r -> Q tr r.
Proof.
  intros Ha Hr. revert Q Ha. induction Hr as [a|msg|X e k x tr r Hr IH]; intros Q Ha; cbn in Ha; [done..|].
  exact (IH (fun tr => Q (Obs e x :: tr)) (Ha x)).
Qed.

Lemma always_mono {A : Type} (p : proc E A) (Q Q' : list (obs E) -> gores A -> Prop) :
  (forall tr r, Q tr r -> Q' tr r) -> always p Q -> always p Q'.
Proof.
  revert Q Q'. induction p as [a|msg|X e k IH]; intros Q Q' HQ; cbn; auto.
  intros H x. apply (IH x (fun tr => Q (Obs e x :: tr))); auto.
Qed.

(** What is run after a call that panicked is nothing. *)
Definition after {A B : Type} (Q : list (obs E) -> gores B -> Prop) (f : A -> proc E B)
  (tr : list (obs E)) (r : gores A) : Prop :=
  match r with
  | Ret a => always (f a) (fun tr' => Q (tr ++ tr'))
  | Panic msg => Q tr (Panic msg)
  end.

Lemma always_bind {A B : Type} (p : proc E A) (f : A -> proc E B) Q :
  always p (after Q f) -> always (p ≫= f) Q.
Proof.
  revert Q. induction p as [a|msg|X e k IH]; intros Q; cbn; auto.
  intros H x. apply (IH x (fun tr => Q (Obs e x :: tr))).
  eapply always_mono; [|apply H]. by intros tr [].
Qed.

(** ** Programs that do not return

    [throughout p Q]: at every moment of every run of [p], the calls answered so far
    and the call being made, if any, satisfy [Q]; also when [p] never returns. *)
Inductive next_call : Type := NextCall (X : Type) (e : E X).

Fixpoint throughout {A : Type} (p : proc E A) (Q : list (obs E) -> option next_call -> Prop) : Prop :=
  match p with
  | Fin _ | Throw _ => Q [] None
  | Ask e k => Q [] (Some (NextCall _ e)) /\ forall x, throughout (k x) (fun tr => Q (Obs e x :: tr))
  end.

Lemma throughout_mono {A : Type} (p : proc E A) (Q Q' : list (obs E) -> option next_call -> Prop) :
  (forall tr next, Q tr next -> Q' tr next) -> throughout p Q -> throughout p Q'.
Proof.
  revert Q Q'. induction p as [a|msg|X e k IH]; intros Q Q' HQ; cbn; auto.
  intros [H0 H]. split; [auto|]. intros x. apply (IH x (fun tr => Q (Obs e x :: tr))); auto.
Qed.

Lemma throughout_bind {A B : Type} (p : proc E A) (f : A -> proc E B) Q :
  throughout p Q ->
  always p (fun tr r => match r with Ret a => throughout (f a) (fun tr' => Q (tr ++ tr')) | Panic _ => True end) ->
  throughout (p ≫= f) Q.
Proof.
  revert Q. induction p as [a|msg|X e k IH]; intros Q; cbn; auto.
  intros [H0 H] Ha. split; [done|]. intros x. apply (IH x (fun tr => Q (Obs e x :: tr))); auto.
Qed.

(** ** Running on top of an implementation *)

Section interp.
Context {W : Type} (h : forall X, E X -> M W X).

Fixpoint interp {A : Type} (p : proc E A) : M W A :=
  match p with
  | Fin a => mret a
  | Throw msg => fun _ => Panic msg
  | Ask e k => x ← h _ e; interp (k x)
  end.

Lemma interp_bind {A B : Type} (p : proc E A) (f : A -> proc E B) w :
  interp (proc_bind p f) w =
  match interp p w with
  | Ret (a, w') => interp (f a) w'
  | Panic msg => Panic msg
  end.
Proof.
  revert w. induction p as [a|msg|X e k IH]; intros w; [done..|].
  cbn. unfold mbind, M_bind in *. destruct (h X e w) as [[x w']|]; [apply IH | done].
Qed.

(** What an implementation does is one of the runs, unless it panics itself. *)
Lemma interp_runs {A : Type} (p : proc E A) w a w' :
  interp p w = Ret (a, w') -> exists tr, runs p tr (Ret a).
Proof.
  revert w. induction p as [a0|msg|X e k IH]; intros w H; cbn in H.
  - injection H as -> ->. exists []. constructor.
  - done.
  - unfold mbind, M_bind in H. destruct (h X e w) as [[x w1]|] eqn:Eh; [|done].
    apply IH in H as [tr Htr]. exists (Obs e x :: tr). by constructor.
Qed.
End interp.

(** [for _, a := range l { f(a) }] *)
Fixpoint each {A} (l : list A) (f : A -> proc E unit) : proc E unit :=
  match l with
  | [] => Fin tt
  | a :: l' => proc_bind (f a) (fun _ => each l' f)
  end.

End proc.

(** What holds of the calls of both parts, whatever was called before. *)
Lemma calls_bind {E : Type -> Type} {A B} (p : proc E A) (f : A -> proc E B) (Q : option next_call -> Prop) :
  throughout p (fun _ => Q) -> (forall a, throughout (f a) (fun _ => Q)) ->
  throughout (p ≫= f) (fun _ => Q).
Proof.
  intros Hp Hf. induction p as [a|msg|X e k IH]; cbn in *; [apply Hf | done |].
  destruct Hp as [H0 Hp]. split; [done|]. intros x. by apply IH.
Qed.

Lemma throughout_each {E : Type -> Type} {A} (l : list A) (f : A -> proc E unit) (Q : option next_call -> Prop) :
  Q None -> (forall a, throughout (f a) (fun _ => Q)) -> throughout (each l f) (fun _ => Q).
Proof.
  intros H0 Hf. induction l as [|a l IH]; [done|]. cbn [each]. by apply calls_bind.
Qed.

(** ** Calls made of other calls

    A layer implements the calls of the one above by programs of its own. *)

Section translate.
Context {E F : Type -> Type} (h : forall X, E X -> proc F X).

Fixpoint translate {A : Type} (p : proc E A) : proc F A :=
  match p with
  | Fin a => Fin a
  | Throw msg => Throw msg
  | Ask e k => proc_bind (h _ e) (fun x => translate (k x))
  end.

(** The run [tr] of the lower layer makes the calls of the run [tr'] above. *)
Inductive implements : list (obs E) -> list (obs F) -> Prop :=
| implements_nil : implements [] []
| implements_call X (e : E X) x t tr' tr :
    runs (h X e) t (Ret x) -> implements tr' tr -> implements (Obs e x :: tr') (t ++ tr).
End translate.

(** The runs of a program that makes a call first. *)
Lemma runs_Ask {E A X} (e : E X) (k : X -> proc E A) tr r :
  runs (Ask e k) tr r -> exists x tr', tr = Obs e x :: tr' /\ runs (k x) tr' r.
Proof.
  intros H. remember (Ask e k) as q eqn:Eq. destruct H as [| |X' e' k' x tr r H]; try done.
  pose (continuation := fun q : proc E A => match q in proc _ _ return list (obs E) -> Prop with
    | Ask e1 k1 => fun l => exists x1 l1, l = Obs e1 x1 :: l1 /\ runs (k1 x1) l1 r
    | _ => fun _ => True end).
  assert (continuation (Ask e' k') (Obs e' x :: tr)) as Hc by (cbn; eauto).
  rewrite Eq in Hc. exact Hc.
Qed.

Lemma runs_bind {E A B} (p : proc E A) (f : A -> proc E B) tr r :
  runs (proc_bind p f) tr r ->
  (exists msg, r = Panic msg /\ runs p tr (Panic msg)) \/
  (exists a tr1 tr2, tr = tr1 ++ tr2 /\ runs p tr1 (Ret a) /\ runs (f a) tr2 r).
Proof.
  revert tr. induction p as [a|msg|X e k IH]; intros tr H; cbn in H.
  - right. exists a, [], tr. split_and!; [done | constructor | exact H].
  - left. inversion H; subst. exists msg. split; [done | constructor].
  - apply runs_Ask in H as (x' & tr' & -> & Hr).
    destruct (IH _ _ Hr) as [(msg & -> & Hp)|(a & t1 & t2 & -> & H1 & H2)].
    + left. exists msg. split; [done | by constructor].
    + right. exists a, (Obs e x' :: t1), t2. split_and!; [done | by constructor | exact H2].
Qed.

Lemma runs_Fin {E A} (a : A) (tr : list (obs E)) r : runs (Fin a) tr r -> tr = [] /\ r = Ret a.
Proof. inversion 1; subst; done. Qed.

(** A run of the composed program is a run of the upper layer. *)
Lemma translate_runs {E F} (h : forall X, E X -> proc F X) {A} (p : proc E A) tr a :
  runs (translate h p) tr (Ret a) -> exists tr', runs p tr' (Ret a) /\ implements h tr' tr.
Proof.
  revert tr. induction p as [a0|msg|X e k IH]; intros tr H; cbn in H.
  - apply runs_Fin in H as [-> [= ->]]. exists []. split; constructor.
  - inversion H.
  - apply runs_bind in H as [(msg & ? & _)|(x & t1 & t2 & -> & H1 & H2)]; [done|].
    apply IH in H2 as (tr' & Hr & Hi). exists (Obs e x :: tr').
    split; by constructor.
Qed.

(** A call of the upper layer is made by a part of the run of the lower one. *)
Lemma implements_call_of {E F} (h : forall X, E X -> proc F X) tr' tr X (e : E X) x :
  implements h tr' tr -> Obs e x ∈ tr' ->
  exists t, runs (h X e) t (Ret x) /\ forall o, o ∈ t -> o ∈ tr.
Proof.
  intros Hi.
  enough (Forall (fun o => match o with
    Obs e x => exists t, runs (h _ e) t (Ret x) /\ forall o, o ∈ t -> o ∈ tr end) tr') as H.
  { intros Hin. by apply (proj1 (Forall_forall _ _) H) in Hin. }
  induction Hi as [|X' e' x' t l' l Hr Hi IH]; constructor.
  - exists t. split; [done|]. intros o Ho. apply elem_of_app. by left.
  - eapply Forall_impl; [exact IH|]. intros [X0 e0 x0] (t0 & Ht0 & Hin). exists t0. split; [done|].
    intros o Ho. apply elem_of_app. right. auto.
Qed.

(** Discharges [always] of a straight-line program: one goal per run. *)
Ltac every_run :=
  repeat match goal with
  | |- always (Ask _ _) _ => cbn [always]; intro
  | |- always (proc_bind (Ask _ _) _) _ => cbn [proc_bind always]; intro
  | |- always (proc_bind (Fin _) _) _ => cbn [proc_bind]
  | |- always (Fin _) _ => cbn [always]
  | |- always (Throw _) _ => cbn [always]
  end.
