(* ===== verification/Provider.v ===== *)
(** * The workflow provider

    service/interpreter/interfaces/interfaces.go: the calls of [WorkflowProvider]
    the interpreter makes, as events of the thread monad.  The provider is the
    SDK of the backend behind service/interpreter/temporal and
    service/interpreter/cadence; its answers are arbitrary in every theorem.
    Also here: the calls of the other process-wide services the interpreter
    uses (env.GetUnifiedClient(), event.Handle). *)

From S2P Require Export Mapper Thread.

(** ** Data of the interface *)

Record WorkflowExecution : Type := mkWorkflowExecution { ID : string; RunID : string }.

Record WorkflowInfo : Type := mkWorkflowInfo {
  wi_WorkflowExecution : WorkflowExecution;
  WorkflowStartTime : Z;                 (* unix nanoseconds *)
  WorkflowExecutionTimeout : Z;          (* nanoseconds *)
  FirstRunID : string;
  CurrentRunID : string
}.

Record ActivityOptions : Type := mkActivityOptions {
  StartToCloseTimeout : Z;               (* nanoseconds *)
  HeartbeatTimeout : Z;
  ao_RetryPolicy : option RetryPolicy
}.

Inductive ErrorSubStatus : Type :=
| UNCATEGORIZED_SUB_STATUS | WORKFLOW_ALREADY_STARTED_SUB_STATUS | WORKFLOW_NOT_EXISTS_SUB_STATUS
| WORKER_API_ERROR | LONG_POLL_TIME_OUT_SUB_STATUS.

Record ErrorResponse : Type := mkErrorResponse {
  er_Detail : option string;
  er_SubStatus : option ErrorSubStatus;
  OriginalWorkerErrorDetail : option string;
  OriginalWorkerErrorType : option string;
  OriginalWorkerErrorStatus : option Z
}.

Record ErrorAndStatus : Type := mkErrorAndStatus {
  StatusCode : Z;
  es_Error : ErrorResponse
}.

Definition NewErrorAndStatus (statusCode : Z) (subStatus : ErrorSubStatus) (details : string) :
  ErrorAndStatus :=
  mkErrorAndStatus statusCode (mkErrorResponse (Some details) (Some subStatus) None None None).

Definition NewErrorAndStatusWithWorkerError (statusCode : Z) (subStatus : ErrorSubStatus)
  (details originalWorkerDetails originalWorkerErrType : string) (originalWorkerStatus : Z) :
  ErrorAndStatus :=
  mkErrorAndStatus statusCode
    (mkErrorResponse (Some details) (Some subStatus) (Some originalWorkerDetails)
       (Some originalWorkerErrType) (Some originalWorkerStatus)).

Record HandlerOutput : Type := mkHandlerOutput {
  ho_RpcOutput : option WorkflowRpcResponse;
  ho_StatusError : option ErrorAndStatus
}.

Record InvokeRpcActivityOutput : Type := mkInvokeRpcActivityOutput {
  ro_RpcOutput : option WorkflowWorkerRpcResponse;
  ro_StatusError : option ErrorAndStatus
}.

(** service/interfaces.go: the inputs of the activities. *)
Record StateStartActivityInput : Type := mkStateStartActivityInput {
  ss_IwfWorkerUrl : string;
  ss_Request : WorkflowStateStartRequest
}.

Record StateDecideActivityInput : Type := mkStateDecideActivityInput {
  sd_IwfWorkerUrl : string;
  sd_Request : WorkflowStateDecideRequest
}.

Record PrepareRpcQueryRequest : Type := mkPrepareRpcQueryRequest {
  pq_DataObjectsLoadingPolicy : option PersistenceLoadingPolicy;
  pq_CachedDataObjectsLoadingPolicy : option PersistenceLoadingPolicy;
  pq_SearchAttributesLoadingPolicy : option PersistenceLoadingPolicy
}.

Record PrepareRpcQueryResponse : Type := mkPrepareRpcQueryResponse {
  pq_DataObjects : list KeyValue;
  pq_SearchAttributes : list SearchAttribute;
  pq_WorkflowRunId : string;
  pq_WorkflowStartedTimestamp : Z;
  pq_IwfWorkflowType : string;
  pq_IwfWorkerUrl : string;
  pq_SignalChannelInfo : gmap string ChannelInfo;
  pq_InternalChannelInfo : gmap string ChannelInfo
}.

Definition SecondNs : Z := 1000000000.
Definition Unix (t : Z) : Z := Z.div t SecondNs.
Definition UnixMilli (t : Z) : Z := Z.div t 1000000.

(** The events a handler of event.Handle can be told about. *)
Inductive EventType : Type :=
| STATE_EXECUTE_ATTEMPT_FAIL_EVENT | STATE_EXECUTE_ATTEMPT_SUCC_EVENT
| STATE_WAIT_UNTIL_ATTEMPT_FAIL_EVENT | STATE_WAIT_UNTIL_ATTEMPT_SUCC_EVENT
| WORKFLOW_START_EVENT | WORKFLOW_COMPLETE_EVENT | WORKFLOW_FAIL_EVENT
| STATE_WAIT_UNTIL_EE_START_EVENT | STATE_WAIT_UNTIL_EE_COMPLETE_EVENT
| STATE_WAIT_UNTIL_EE_FAIL_EVENT
| STATE_EXECUTE_EE_START_EVENT | STATE_EXECUTE_EE_COMPLETE_EVENT | STATE_EXECUTE_EE_FAIL_EVENT
| RPC_EXECUTION_EVENT.

Record IwfEvent : Type := mkIwfEvent {
  ev_EventType : EventType;
  ev_RpcName : option string;
  ev_WorkflowType : string;
  ev_WorkflowId : string;
  ev_WorkflowRunId : string;
  ev_StateId : option string;
  ev_StateExecutionId : option string;
  StartTimestampInMs : option Z;
  EndTimestampInMs : option Z;
  ev_SearchAttributes : list SearchAttribute;
  ev_Error : option error
}.

(** ** The calls *)

(** The value types of the signal channels. *)
Inductive sigty : Type -> Type :=
| SigValue : sigty EncodedObject
| SigFail : sigty FailWorkflowSignalRequest
| SigSkip : sigty SkipTimerSignalRequest
| SigConfig : sigty WorkflowConfig
| SigTrigger : sigty unit
| SigRpc : sigty ExecuteRpcSignalRequest
| SigCompletion : sigty StateCompletionOutput.

Definition sig_kind {T} (ty : sigty T) : nat :=
  match ty with
  | SigValue => 0 | SigFail => 1 | SigSkip => 2 | SigConfig => 3
  | SigTrigger => 4 | SigRpc => 5 | SigCompletion => 6
  end.

Inductive providerE : Type -> Type :=
| GetWorkflowInfo : providerE WorkflowInfo
| GetSearchAttributes (requested : list SearchAttributeKeyAndType) :
    providerE (gmap string SearchAttribute + error)
| UpsertSearchAttributes (attributes : gmap string iface) : providerE (option error)
| UpsertMemo (memo : gmap string EncodedObject) : providerE (option error)
| SetQueryHandler (queryType : string) : providerE (option error)
| SetRpcUpdateHandler (updateType : string) : providerE (option error)
| GetThreadCount : providerE Z
| Now : providerE Z                                  (* unix nanoseconds *)
| TimeNow : providerE Z                              (* time.Now() *)
| IsReplaying : providerE bool
| Sleep (d : Z) : providerE (option error)
| NewTimer (d : Z) : providerE nat                   (* a future *)
| IsReady (future : nat) : providerE bool
| FutureGet (future : nat) : providerE (option error)
| ReceiveAsync {T} (ty : sigty T) (signalName : string) : providerE (option T)
| ReceiveBlocking {T} (ty : sigty T) (signalName : string) : providerE T
| GetVersion (changeID : string) (minSupported maxSupported : Z) : providerE Z
| GetUnhandledSignalNames : providerE (list string)
| GetBackendType : providerE BackendType
| NewInterpreterContinueAsNewError (input : InterpreterWorkflowInput) : providerE error
| ExecuteStateStart (optimizeByLocalActivity : bool) (options : ActivityOptions)
    (renamedApi : bool) (input : StateStartActivityInput) (sas : list SearchAttribute) :
    providerE (WorkflowStateStartResponse + error)
| ExecuteStateDecide (optimizeByLocalActivity : bool) (options : ActivityOptions)
    (renamedApi : bool) (input : StateDecideActivityInput) :
    providerE (WorkflowStateDecideResponse + error)
| ExecuteDumpWorkflowInternal (options : ActivityOptions) (request : WorkflowDumpRequest) :
    providerE (WorkflowDumpResponse + error)
| ExecuteInvokeWorkerRpc (local optimizeByLocalActivity : bool) (options : ActivityOptions)
    (rpcPrep : PrepareRpcQueryResponse) (input : WorkflowRpcRequest) :
    providerE (InvokeRpcActivityOutput + error)
| ExecuteCleanupBlobStore (options : ActivityOptions) (storeId : string) :
    providerE (option error)
| HandleEvent (event : IwfEvent) : providerE unit
| SignalWithStartOn : providerE string               (* sharedConfig.GetSignalWithStartOnWithDefault() *)
| SignalWithStartWaitForStateCompletionWorkflow (workflowId : string) :
    providerE (option error)
| IsWorkflowAlreadyStartedError (err : error) : providerE bool.

(** The calls during which other coroutines run.  GetThreadCount answers the number of the
    others, those that were created and have not run yet included; the counter of the
    providers (Providers.v) has them only from their first step.  The interpreter asks
    for it in [DrainThreads] only, after a wait that the threshold ended, and the same
    coroutine creates others only when the threshold is not met. *)
#[export] Instance provider_blocking : Provider providerE := {|
  blocking X e :=
    match e with
    | Sleep _ | ReceiveBlocking _ _ | FutureGet _
    | ExecuteStateStart _ _ _ _ _ | ExecuteStateDecide _ _ _ _
    | ExecuteDumpWorkflowInternal _ _ | ExecuteInvokeWorkerRpc _ _ _ _ _
    | ExecuteCleanupBlobStore _ _ => true
    | _ => false
    end;
  tells X e :=
    match e in providerE X return X -> Z -> Prop with
    | GetThreadCount => fun count others => count = others
    | _ => fun _ _ => True
    end
|}.

(** The coroutines of the interpreter, over a shared state [St]. *)
Notation prog St A := (thread St providerE A).
