(* ===== verification/ApiIdl.v ===== *)
(** * Requests and responses of the API

    gen/iwfidl: the records of the requests the API service answers.  Optional
    fields are options; the [Get] functions default to the zero value. *)

From S2P Require Export Compat.

Inductive WorkflowStatus : Type :=
| RUNNING | COMPLETED | FAILED | TIMEOUT | TERMINATED | CANCELED | CONTINUED_AS_NEW.
#[export] Instance WorkflowStatus_eq_dec : EqDecision WorkflowStatus.
Proof. solve_decision. Defined.

Inductive WorkflowStopType : Type :=
| CANCEL | TERMINATE | FAIL | WorkflowStopType_other (s : string).

Inductive WorkflowResetType : Type :=
| HISTORY_EVENT_ID | BEGINNING | HISTORY_EVENT_TIME | STATE_ID | STATE_EXECUTION_ID
| WorkflowResetType_other (s : string).

(** [GetWorkflowRunId()], [GetReason()], ... of an unset field. *)
Definition get_string (s : option string) : string := default EmptyString s.

Record WorkflowRetryPolicy : Type := mkWorkflowRetryPolicy {
  wrp_InitialIntervalSeconds : option Z;
  wrp_BackoffCoefficient : option Q;
  wrp_MaximumIntervalSeconds : option Z;
  wrp_MaximumAttempts : option Z
}.

Record WorkflowAlreadyStartedOptions : Type := mkWorkflowAlreadyStartedOptions {
  IgnoreAlreadyStartedError : bool;
  RequestId : option string
}.

Record WorkflowStartOptions : Type := mkWorkflowStartOptions {
  so_WorkflowIDReusePolicy : option WorkflowIDReusePolicy;
  so_CronSchedule : option string;
  WorkflowStartDelaySeconds : option Z;
  so_RetryPolicy : option WorkflowRetryPolicy;
  so_SearchAttributes : list SearchAttribute;
  so_DataAttributes : list KeyValue;
  WorkflowConfigOverride : option WorkflowConfig;
  so_IdReusePolicy : option IDReusePolicy;
  so_UseMemoForDataAttributes : option bool;
  so_WorkflowAlreadyStartedOptions : option WorkflowAlreadyStartedOptions
}.

Record WorkflowStartRequest : Type := mkWorkflowStartRequest {
  sr_WorkflowId : string;
  sr_IwfWorkflowType : string;
  WorkflowTimeoutSeconds : Z;
  sr_IwfWorkerUrl : string;
  sr_StartStateId : option string;
  sr_WaitForCompletionStateIds : list string;
  sr_WaitForCompletionStateExecutionIds : list string;
  sr_StateInput : option EncodedObject;
  sr_StateOptions : option WorkflowStateOptions;
  sr_WorkflowStartOptions : option WorkflowStartOptions
}.

Record WorkflowStartResponse : Type := mkWorkflowStartResponse {
  sresp_WorkflowRunId : option string
}.

Record WorkflowWaitForStateCompletionRequest : Type := mkWorkflowWaitForStateCompletionRequest {
  wc_WorkflowId : string;
  wc_StateExecutionId : option string;
  wc_StateId : option string;
  wc_WaitForKey : option string;
  wc_WaitTimeSeconds : option Z
}.

Record WorkflowWaitForStateCompletionResponse : Type := mkWorkflowWaitForStateCompletionResponse {
  wcr_StateCompletionOutput : option StateCompletionOutput
}.

Record WorkflowSignalRequest : Type := mkWorkflowSignalRequest {
  sg_WorkflowId : string;
  sg_WorkflowRunId : option string;
  sg_SignalChannelName : string;
  sg_SignalValue : option EncodedObject
}.

Record PublishToInternalChannelRequest : Type := mkPublishToInternalChannelRequest {
  pub_WorkflowId : string;
  pub_WorkflowRunId : option string;
  Messages : list InterStateChannelPublishing
}.

Record WorkflowConfigUpdateRequest : Type := mkWorkflowConfigUpdateRequest {
  cu_WorkflowId : string;
  cu_WorkflowRunId : option string;
  cu_WorkflowConfig : WorkflowConfig
}.

Record TriggerContinueAsNewRequest : Type := mkTriggerContinueAsNewRequest {
  tc_WorkflowId : string;
  tc_WorkflowRunId : option string
}.

Record WorkflowStopRequest : Type := mkWorkflowStopRequest {
  stop_WorkflowId : string;
  stop_WorkflowRunId : option string;
  stop_Reason : option string;
  StopType : option WorkflowStopType
}.

Record WorkflowGetDataObjectsRequest : Type := mkWorkflowGetDataObjectsRequest {
  gd_WorkflowId : string;
  gd_WorkflowRunId : option string;
  gd_Keys : list string;
  gd_UseMemoForDataAttributes : option bool
}.

Record WorkflowGetDataObjectsResponse : Type := mkWorkflowGetDataObjectsResponse {
  Objects : list KeyValue
}.

Record WorkflowSetDataObjectsRequest : Type := mkWorkflowSetDataObjectsRequest {
  sdo_WorkflowId : string;
  sdo_WorkflowRunId : option string;
  sdo_Objects : list KeyValue
}.

Record WorkflowGetSearchAttributesRequest : Type := mkWorkflowGetSearchAttributesRequest {
  gs_WorkflowId : string;
  gs_WorkflowRunId : option string;
  gs_Keys : list SearchAttributeKeyAndType
}.

Record WorkflowGetSearchAttributesResponse : Type := mkWorkflowGetSearchAttributesResponse {
  gsr_SearchAttributes : list SearchAttribute
}.

Record WorkflowSetSearchAttributesRequest : Type := mkWorkflowSetSearchAttributesRequest {
  ssa_WorkflowId : string;
  ssa_WorkflowRunId : option string;
  ssa_SearchAttributes : list SearchAttribute
}.

Record WorkflowGetRequest : Type := mkWorkflowGetRequest {
  get_WorkflowId : string;
  get_WorkflowRunId : option string;
  NeedsResults : option bool;
  get_WaitTimeSeconds : option Z
}.

Record WorkflowGetResponse : Type := mkWorkflowGetResponse {
  getr_WorkflowRunId : string;
  getr_WorkflowStatus : WorkflowStatus;
  Results : list StateCompletionOutput;
  ErrorType : option WorkflowErrorType;
  ErrorMessage : option string
}.

Record WorkflowSearchRequest : Type := mkWorkflowSearchRequest {
  Query : string;
  PageSize : option Z;
  se_NextPageToken : option string
}.

Record WorkflowSearchResponseEntry : Type := mkWorkflowSearchResponseEntry {
  entry_WorkflowId : string;
  entry_WorkflowRunId : string
}.

Record WorkflowSearchResponse : Type := mkWorkflowSearchResponse {
  WorkflowExecutions : list WorkflowSearchResponseEntry;
  ser_NextPageToken : option string
}.

Record WorkflowResetRequest : Type := mkWorkflowResetRequest {
  rst_WorkflowId : string;
  rst_WorkflowRunId : option string;
  ResetType : WorkflowResetType;
  HistoryEventId : option Z;
  rst_Reason : option string;
  HistoryEventTime : option string;
  rst_StateId : option string;
  rst_StateExecutionId : option string;
  SkipSignalReapply : option bool;
  SkipUpdateReapply : option bool
}.

Record WorkflowResetResponse : Type := mkWorkflowResetResponse { rstr_WorkflowRunId : string }.

Record WorkflowSkipTimerRequest : Type := mkWorkflowSkipTimerRequest {
  skt_WorkflowId : string;
  skt_WorkflowRunId : option string;
  WorkflowStateExecutionId : string;
  TimerCommandId : option string;
  TimerCommandIndex : option Z
}.

Record HealthInfo : Type := mkHealthInfo {
  Condition : option string;
  Hostname : option string;
  Duration : option Z
}.
