(* ===== verification/BlobStore.v ===== *)
(** * External storage of large values

    service/common/blobstore: the paths of stored objects (interfaces.go) and the
    replacement of large data attributes by references and back (helpers.go).  The
    record [BlobStore] is the Go interface and the class [LawfulStore] what its
    clients rely on; S3Store.v gives the implementation. *)

From S2P Require Export Provider.

(** A call of an outside service, which returns. *)
Definition outside {W A} (f : W -> A * W) : M W A := fun w => Ret (f w).

(** [M]'s bind, with an early return of the error. *)
Definition try_ {W A B} (m : M W (A + error)) (f : A -> M W (B + error)) : M W (B + error) :=
  r ← m;
  match r with
  | inl a => f a
  | inr e => mret (inr e)
  end.

Notation "x ←? m ; k" := (try_ m (fun x => k))
  (at level 20, m at level 100, k at level 200, right associativity,
   format "x  ←?  m ;  '//' k") : stdpp_scope.

(** [if err != nil { return nil, err }] *)
Definition check_err {W} (err : option error) : M W (unit + error) :=
  mret match err with Some e => inr e | None => inl tt end.

(** ** Runs that return *)

Lemma M_bind_Ret {S A B} (m : M S A) (f : A -> M S B) w b w' :
  (m ≫= f) w = Ret (b, w') -> exists a w1, m w = Ret (a, w1) /\ f a w1 = Ret (b, w').
Proof. unfold mbind, M_bind. destruct (m w) as [[a w1]|]; [eauto | done]. Qed.

Lemma try_Ret {W A B} (m : M W (A + error)) (f : A -> M W (B + error)) w b w' :
  try_ m f w = Ret (inl b, w') -> exists a w1, m w = Ret (inl a, w1) /\ f a w1 = Ret (inl b, w').
Proof.
  intros (r & w1 & Em & Ef)%M_bind_Ret. destruct r as [a|e]; [eauto | done].
Qed.

Lemma liftM_Ret {S A} (m : gores A) (w w' : S) a : liftM m w = Ret (a, w') -> m = Ret a /\ w' = w.
Proof. unfold liftM. destruct m; naive_solver. Qed.

Lemma outside_Ret {W A} (f : W -> A * W) w a w' : outside f w = Ret (a, w') -> f w = (a, w').
Proof. unfold outside. by intros [= ->]. Qed.

Lemma mret_Ret {S A} (a b : A) (w w' : S) : (mret a : M S A) w = Ret (b, w') -> a = b /\ w' = w.
Proof. by intros [= -> ->]. Qed.

(** One step of a run that returned: its value [x], the run [E] of the step. *)
Tactic Notation "step" hyp(H) "as" ident(x) ident(E) :=
  let w := fresh "w" in
  lazymatch type of H with
  | (_ ≫= _) _ = Ret _ => apply M_bind_Ret in H as (x & w & E & H)
  | try_ _ _ _ = Ret (inl _, _) => apply try_Ret in H as (x & w & E & H)
  end;
  lazymatch type of E with
  | outside _ _ = _ => apply outside_Ret in E
  | liftM _ _ = _ => apply liftM_Ret in E as [E ->]
  | _ => idtac
  end.
Ltac step_done H := apply mret_Ret in H as [H ->].

(** ** interfaces.go: the paths *)

(** [strings.Split(s, sep)] for a separator of one character. *)
Fixpoint split_chars (sep : ascii) (cur : list ascii) (l : list ascii) : list (list ascii) :=
  match l with
  | [] => [cur]
  | a :: l' => if bool_decide (a = sep) then cur :: split_chars sep [] l'
               else split_chars sep (cur ++ [a]) l'
  end.
Definition strings_Split (sep : ascii) (s : string) : list string :=
  map String.string_of_list_ascii (split_chars sep [] (chars s)).

Definition contains_char (c : ascii) (s : string) : bool := existsb (fun a => bool_decide (a = c)) (chars s).

Definition reservedCharacters : list ascii := ["/"%char; "$"%char].

Definition ValidateWorkflowId (workflowId : string) : option error :=
  match List.find (fun c => contains_char c workflowId) reservedCharacters with
  | Some c => Some (OtherError ("workflowId contains reserved character: "
                                +:+ String.string_of_list_ascii [c]))
  | None => None
  end.

Definition ExtractWorkflowId (workflowPath : string) : string + error :=
  match strings_Split "$"%char workflowPath with
  | [_; workflowId] => inl workflowId
  | _ => inr (OtherError ("invalid workflow path: " +:+ workflowPath))
  end.

Definition MustExtractWorkflowId (workflowPath : string) : gores string :=
  match ExtractWorkflowId workflowPath with
  | inl workflowId => Ret workflowId
  | inr _ => Panic "invalid workflow path"
  end.

Definition ExtractYyyymmdd (workflowPath : string) : string + error :=
  match strings_Split "$"%char workflowPath with
  | [yyyymmdd; _] => inl yyyymmdd
  | _ => inr (OtherError ("invalid workflow path: " +:+ workflowPath))
  end.

(** [time.Parse("20060102", s)], in unix seconds. *)
Definition parse_yyyymmdd (s : string) : option Z :=
  '(year, l) ← get_year (chars s);
  '(month, l) ← getnum_in true 1 12 l;
  '(day, l) ← getnum true l;
  match l with
  | [] => if ((1 <=? day) && (day <=? daysIn month year))%Z
          then Some (days_from_civil year month day * 86400)%Z else None
  | _ => None
  end.

Definition ExtractYyyymmddToUnixSeconds (workflowPath : string) : gores (Z * bool) :=
  match ExtractYyyymmdd workflowPath with
  | inr _ => Ret (0%Z, false)
  | inl yyyymmdd =>
      match parse_yyyymmdd yyyymmdd with
      | Some t => Ret (t, true)
      | None => Panic "parsing time"
      end
  end.

(** ** The interface *)

Record ListObjectPathsOutput : Type := mkListObjectPathsOutput {
  ContinuationToken : option string;
  WorkflowPaths : list string
}.

(** The Go interface; [W] is the world its calls read and change. *)
Record BlobStore (W : Type) : Type := mkBlobStore {
  WriteObject : string -> string -> M W (string * string + error);
  ReadObject : string -> string -> M W (string + error);
  DeleteWorkflowObjects : string -> string -> M W (option error);
  ListWorkflowPaths : string -> option string -> M W (ListObjectPathsOutput + error)
}.
Arguments mkBlobStore {W} _ _ _ _.
Arguments WriteObject {W} _ _ _ _.
Arguments ReadObject {W} _ _ _ _.
Arguments DeleteWorkflowObjects {W} _ _ _ _.
Arguments ListWorkflowPaths {W} _ _ _ _.

(** What the clients that write and read rely on.  [stored w storeId path data]:
    reading that path gives [data], if the read succeeds. *)
Class LawfulStore {W} (b : BlobStore W) : Type := {
  stored : W -> string -> string -> string -> Prop;
  write_runs workflowId data w : exists r w', WriteObject b workflowId data w = Ret (r, w');
  write_stores workflowId data w storeId path w' :
    WriteObject b workflowId data w = Ret (inl (storeId, path), w') -> stored w' storeId path data;
  write_keeps workflowId data w r w' storeId path d :
    WriteObject b workflowId data w = Ret (r, w') ->
    stored w storeId path d -> stored w' storeId path d;
  read_stored storeId path w d :
    stored w storeId path d ->
    exists w', (ReadObject b storeId path w = Ret (inl d, w') \/
                exists e, ReadObject b storeId path w = Ret (inr e, w')) /\
      (forall storeId' path' d', stored w storeId' path' d' -> stored w' storeId' path' d');
  read_gives storeId path w r w' :
    ReadObject b storeId path w = Ret (r, w') ->
    (forall d, r = inl d -> stored w' storeId path d) /\
    (forall storeId' path' d', stored w storeId' path' d' -> stored w' storeId' path' d')
}.

(** ** helpers.go: data attributes *)

(** [len(s)] of a string, a number of bytes. *)
Definition byte_len (s : string) : Z := Z.of_nat (String.length s).

Section helpers.
Context {W : Type} (blobStore : option (BlobStore W)).

(** A call of a method of a nil interface panics. *)
Definition store_call {A} (f : BlobStore W -> M W A) : M W A :=
  b ← liftM (deref blobStore); f b.

(** The data of an element that goes to the external storage. *)
Definition oversized (threashold : Z) (v : option EncodedObject) : option string :=
  data ← v ≫= Data; if (threashold <? byte_len data)%Z then Some data else None.

Definition set_reference (storeId path : string) (v : EncodedObject) : EncodedObject :=
  mkEncodedObject (Some storeId) (Some path) (Encoding v) None.

Definition set_loaded (data : string) (v : EncodedObject) : EncodedObject :=
  mkEncodedObject None None (Encoding v) (Some data).

Definition map_value (f : EncodedObject -> EncodedObject) (kv : KeyValue) : KeyValue :=
  mkKeyValue (kv_Key kv) (f <$> kv_Value kv).

(** The loop updates the elements in place: the slice as it is left is returned
    with the error. *)
Fixpoint write_data_objects (workflowId : string) (threashold : Z) (dataObjects : list KeyValue) :
  M W (list KeyValue * option error) :=
  match dataObjects with
  | [] => mret ([], None)
  | kv :: rest =>
      match oversized threashold (kv_Value kv) with
      | None =>
          res ← write_data_objects workflowId threashold rest;
          mret (kv :: fst res, snd res)
      | Some data =>
          r ← store_call (fun b => WriteObject b workflowId data);
          match r with
          | inr writeErr => mret (kv :: rest, Some writeErr)
          | inl (storeId, path) =>
              res ← write_data_objects workflowId threashold rest;
              mret (map_value (set_reference storeId path) kv :: fst res, snd res)
          end
      end
  end.

Definition WriteDataObjectsToExternalStorage (dataObjects : list KeyValue) (workflowId : string)
  (threashold : Z) (isExternalStorageEnabled : bool) : M W (list KeyValue * option error) :=
  if negb isExternalStorageEnabled then mret (dataObjects, None)
  else write_data_objects workflowId threashold dataObjects.

(** [ExtStoreId != nil && ExtPath != nil]. *)
Definition reference_of (v : option EncodedObject) : option (string * string) :=
  storeId ← v ≫= ExtStoreId; path ← v ≫= ExtPath; Some (storeId, path).

Fixpoint LoadDataObjectsFromExternalStorage (dataObjects : list KeyValue) :
  M W (list KeyValue * option error) :=
  match dataObjects with
  | [] => mret ([], None)
  | kv :: rest =>
      match reference_of (kv_Value kv) with
      | None =>
          res ← LoadDataObjectsFromExternalStorage rest;
          mret (kv :: fst res, snd res)
      | Some (storeId, path) =>
          r ← store_call (fun b => ReadObject b storeId path);
          match r with
          | inr err => mret (kv :: rest, Some err)
          | inl data =>
              res ← LoadDataObjectsFromExternalStorage rest;
              mret (map_value (set_loaded data) kv :: fst res, snd res)
          end
      end
  end.

End helpers.

(** ** Data attributes survive the external storage *)

Section helpers_facts.
Context {W : Type} (b : BlobStore W) `{!LawfulStore b}.

(** Every stored object of [w] is still stored in [w']. *)
Definition keeps_stored (w w' : W) : Prop :=
  forall storeId path d, stored w storeId path d -> stored w' storeId path d.

#[export] Instance keeps_stored_preorder : PreOrder keeps_stored.
Proof. split; [by intros w ??? | intros w1 w2 w3 H1 H2 ??? H; auto]. Qed.

(** Neither reference field is set: how workers send values. *)
Definition inline_value (v : EncodedObject) : Prop := ExtStoreId v = None /\ ExtPath v = None.
Definition inline (kv : KeyValue) : Prop := forall v, kv_Value kv = Some v -> inline_value v.

(** [kv] is [kv0], or [kv0] with its data replaced by a reference to it. *)
Inductive denotes (w : W) (kv0 : KeyValue) : KeyValue -> Prop :=
| denotes_inline : denotes w kv0 kv0
| denotes_stored v data storeId path :
    kv_Value kv0 = Some v -> Data v = Some data -> stored w storeId path data ->
    denotes w kv0 (map_value (set_reference storeId path) kv0).

Lemma denotes_mono w w' kv0 kv : keeps_stored w w' -> denotes w kv0 kv -> denotes w' kv0 kv.
Proof. intros Hk [|v d i p Ev Ed Hst]; [constructor | by eapply denotes_stored, Hk]. Qed.

Lemma denotes_all_mono w w' objs0 objs :
  keeps_stored w w' -> Forall2 (denotes w) objs0 objs -> Forall2 (denotes w') objs0 objs.
Proof. intros Hk H. eapply Forall2_impl; [exact H|]. intros ??. by apply denotes_mono. Qed.

Lemma oversized_Some t v data :
  oversized t v = Some data ->
  exists o, v = Some o /\ Data o = Some data /\ (t < byte_len data)%Z.
Proof.
  unfold oversized. destruct v as [o|]; [|done]. cbn. destruct (Data o) as [d|] eqn:E; [|done].
  cbn. destruct (Z.ltb_spec t (byte_len d)); [|done]. intros [= ->]. eauto.
Qed.

Lemma inline_no_reference kv : inline kv -> reference_of (kv_Value kv) = None.
Proof.
  unfold inline, inline_value, reference_of. destruct (kv_Value kv) as [v|]; [|done].
  intros H. destruct (H v) as [E _]; [done|]. cbn. by rewrite E.
Qed.

Lemma store_call_some {A} (f : BlobStore W -> M W A) : store_call (Some b) f = f b.
Proof. done. Qed.

(** Loading undoes writing on one element. *)
Lemma load_of_reference kv0 v data storeId path :
  inline kv0 -> kv_Value kv0 = Some v -> Data v = Some data ->
  map_value (set_loaded data) (map_value (set_reference storeId path) kv0) = kv0.
Proof.
  intros Hi Ev Ed. destruct (Hi v Ev) as [Ei Ep]. destruct kv0 as [k v0]; cbn in Ev; subst v0.
  destruct v as [i p en d]; cbn in *; by subst.
Qed.

(** Every write of the store succeeds, and every read of a stored object. *)
Definition store_succeeds : Prop :=
  (forall wid data w, exists p w', WriteObject b wid data w = Ret (inl p, w')) /\
  (forall storeId path data w, stored w storeId path data ->
     exists w', ReadObject b storeId path w = Ret (inl data, w')).

Lemma write_data_objects_spec wid t objs w :
  exists objs' err w', write_data_objects (Some b) wid t objs w = Ret ((objs', err), w') /\
    keeps_stored w w' /\
    (err = None -> Forall2 (denotes w') objs objs' /\
                   Forall (fun kv => oversized t (kv_Value kv) = None) objs') /\
    (store_succeeds -> err = None).
Proof.
  revert w. induction objs as [|kv objs IH]; intros w; cbn [write_data_objects].
  { exists [], None, w. by split_and!. }
  destruct (oversized t (kv_Value kv)) as [data|] eqn:Eo; rewrite ?store_call_some;
    unfold mbind, M_bind.
  - destruct (write_runs wid data w) as (r & w1 & Er). rewrite Er.
    assert (keeps_stored w w1) as Hk1 by (intros ???; by eapply write_keeps).
    destruct r as [[storeId path]|e].
    2:{ eexists _, _, w1. split_and!; [done..|]. intros [Hw _]. destruct (Hw wid data w) as (? & ? & ?). congruence. }
    destruct (IH w1) as (objs' & err & w2 & E & Hk & Hd & Hs). rewrite E. cbn.
    eexists _, err, w2. split_and!; [done | by etrans | | done].
    intros Herr. destruct (Hd Herr) as [Hd1 Hd2].
    apply oversized_Some in Eo as (o & Ev & Ed & _). split; constructor; try done.
    + eapply denotes_stored; [done..|]. apply Hk. by eapply write_stores.
    + unfold map_value. by rewrite Ev.
  - destruct (IH w) as (objs' & err & w2 & E & Hk & Hd & Hs). rewrite E. cbn.
    eexists _, err, w2. split_and!; [done|done| |done].
    intros Herr. destruct (Hd Herr). split; constructor; try done. constructor.
Qed.

Lemma load_denoted objs0 objs w :
  Forall inline objs0 -> Forall2 (denotes w) objs0 objs ->
  exists objs' err w', LoadDataObjectsFromExternalStorage (Some b) objs w = Ret ((objs', err), w') /\
    keeps_stored w w' /\ (err = None -> objs' = objs0) /\ (store_succeeds -> err = None).
Proof.
  intros Hi H. revert w Hi H. induction objs as [|kv objs IH] in objs0 |- *; intros w Hi H;
    inversion H as [|kv0 ? objs0' ? Hkv Hrest]; subst; cbn [LoadDataObjectsFromExternalStorage].
  { by exists [], None, w. }
  apply Forall_cons in Hi as [Hi0 Hi].
  destruct Hkv as [|v data storeId path Ev Ed Hst].
  - rewrite inline_no_reference by done. unfold mbind, M_bind.
    destruct (IH _ w Hi Hrest) as (objs' & err & w' & E & Hk & He & Hs).
    rewrite E. cbn. eexists _, err, w'. split_and!; [done|done| |done]. intros Herr. by rewrite He.
  - assert (reference_of (kv_Value (map_value (set_reference storeId path) kv0))
            = Some (storeId, path)) as -> by (unfold map_value; by rewrite Ev).
    rewrite store_call_some. unfold mbind, M_bind.
    destruct (read_stored storeId path w data Hst) as (w1 & Hr & Hk1).
    destruct Hr as [Hr|[e Hr]]; rewrite Hr.
    2:{ eexists _, _, w1. split_and!; [done..|]. intros [_ Hs]. destruct (Hs _ _ _ _ Hst). congruence. }
    destruct (IH objs0' w1 Hi) as (objs' & err & w2 & E & Hk & He & Hs).
    { by eapply denotes_all_mono. }
    rewrite E. cbn. eexists _, err, w2. split_and!; [done| by etrans | |done]. intros Herr.
    rewrite He by done. f_equal. by eapply load_of_reference.
Qed.

(** C13: data attributes survive the external storage.  Writing the attributes of a
    worker's answer never panics, and if it reports no error then no attribute
    that is left carries more than the threshold, and loading what is left, after
    anything else that keeps the objects, gives the attributes back, unless a
    read fails; no error is reported when the store's calls succeed. *)
Theorem external_storage_roundtrip wid t objs w :
  Forall inline objs ->
  exists objs' err w',
    WriteDataObjectsToExternalStorage (Some b) objs wid t true w = Ret ((objs', err), w') /\
    (store_succeeds -> err = None) /\
    (err = None ->
     Forall (fun kv => forall v data, kv_Value kv = Some v -> Data v = Some data ->
                       (byte_len data <= t)%Z) objs' /\
     forall w1, keeps_stored w' w1 ->
       exists objs'' err' w2,
         LoadDataObjectsFromExternalStorage (Some b) objs' w1 = Ret ((objs'', err'), w2) /\
         (err' = None -> objs'' = objs) /\ (store_succeeds -> err' = None)).
Proof.
  intros Hi. destruct (write_data_objects_spec wid t objs w) as (objs' & err & w' & E & Hk & Hd & Hs).
  exists objs', err, w'. split; [done|]. split; [done|].
  intros Herr. destruct (Hd Herr) as [Hd1 Hd2]. split.
  - eapply Forall_impl; [exact Hd2|]. intros kv Ho v data Ev Ed. unfold oversized in Ho.
    rewrite Ev in Ho. cbn in Ho. rewrite Ed in Ho. cbn in Ho.
    destruct (Z.ltb_spec t (byte_len data)); [done | lia].
  - intros w1 Hk1. destruct (load_denoted objs objs' w1 Hi) as (objs'' & err' & w2 & ? & ? & ?);
      [by eapply denotes_all_mono | eauto 7].
Qed.

End helpers_facts.
