(* ===== verification/S3Store.v ===== *)
(** * The store on top of S3

    service/common/blobstore/store_impl.go.  The S3 client, the clock and the
    source of uuids are parameters ([S3Client]); [LawfulS3] states what S3
    documents.  The store implements the interface of BlobStore.v, deletes
    exactly the objects of a workflow path and terminates. *)

From S2P Require Export BlobStore.

(** ** store_impl.go: the store on top of S3 *)

Inductive StorageStatus : Type :=
| StorageStatusActive | StorageStatusInactive | StorageStatus_other (s : string).
Inductive StorageType : Type := StorageTypeS3 | StorageType_other (s : string).

Record BlobStorageConfig : Type := mkBlobStorageConfig {
  Status : StorageStatus;
  StorageId : string;
  StorageType_ : StorageType;
  S3Endpoint : string;
  S3Bucket : string;
  S3Region : string;
  S3AccessKey : string;
  S3SecretKey : string;
  CleanupCronSchedule : string
}.

Record ExternalStorageConfig : Type := mkExternalStorageConfig {
  Enabled : bool;
  ThresholdInBytes : Z;
  SupportedStorages : list BlobStorageConfig;
  MinAgeForCleanupCheckInDays : Z
}.

Record DeleteError : Type := mkDeleteError {
  de_Key : option string;
  de_Code : option string;
  de_Message : option string
}.

Record ListObjectsV2Output : Type := mkListObjectsV2Output {
  Contents : list (option string);          (* the keys *)
  CommonPrefixes : list (option string);
  IsTruncated : option bool;
  NextContinuationToken : option string
}.

(** The calls of the S3 client, the clock and the source of uuids; parameters. *)
Record S3Client (W : Type) : Type := mkS3Client {
  PutObject : string -> string -> string -> W -> option error * W;
  GetObject : string -> string -> W -> (string + error) * W;
  ListObjectsV2 : string -> string -> option string -> option string -> W ->
                  (ListObjectsV2Output + error) * W;
  DeleteObjects : string -> list string -> W -> (list DeleteError + error) * W;
  uuid_New : W -> string * W;
  time_Now_yyyymmdd : W -> string * W
}.
Arguments PutObject {W} _ _ _ _ _.
Arguments GetObject {W} _ _ _ _.
Arguments ListObjectsV2 {W} _ _ _ _ _ _.
Arguments DeleteObjects {W} _ _ _ _.
Arguments uuid_New {W} _ _.
Arguments time_Now_yyyymmdd {W} _ _.

Record blobStoreImpl (W : Type) : Type := mkblobStoreImpl {
  s3Client : S3Client W;
  pathPrefix : string;
  activeStorage : BlobStorageConfig;
  supportedStore : gmap string BlobStorageConfig
}.
Arguments mkblobStoreImpl {W} _ _ _ _.
Arguments s3Client {W} _.
Arguments pathPrefix {W} _.
Arguments activeStorage {W} _.
Arguments supportedStore {W} _.

(** The loop of NewBlobStore over the configured storages. *)
Fixpoint scan_storages (storages : list BlobStorageConfig) (active : option BlobStorageConfig)
  (supportedStores : gmap string BlobStorageConfig) :
  gores (option BlobStorageConfig * gmap string BlobStorageConfig) :=
  match storages with
  | [] => Ret (active, supportedStores)
  | storage :: rest =>
      active' ← match Status storage, active with
                | StorageStatusActive, Some _ =>
                    Panic "cannot have more than one active storage configured"
                | StorageStatusActive, None => Ret (Some storage)
                | _, _ => Ret active
                end;
      match StorageType_ storage with
      | StorageTypeS3 => scan_storages rest active' (<[StorageId storage := storage]> supportedStores)
      | StorageType_other _ => Panic "only S3 storage type is supported"
      end
  end.

(** The nil store when the external storage is disabled. *)
Definition NewBlobStore {W} (s3Client : S3Client W) (temporalOrCadenceNamespace : string)
  (storeConfig : ExternalStorageConfig) : gores (option (blobStoreImpl W)) :=
  if negb (Enabled storeConfig) then Ret None
  else
    '(active, supportedStores) ← scan_storages (SupportedStorages storeConfig) None ∅;
    match active with
    | None => Panic "no active storage found"
    | Some activeStorage =>
        Ret (Some (mkblobStoreImpl s3Client (temporalOrCadenceNamespace +:+ "/") activeStorage
                     supportedStores))
    end.

Definition objectPath (yyyymmdd workflowId randomUuid : string) : string :=
  yyyymmdd +:+ "$" +:+ workflowId +:+ "/" +:+ randomUuid.

Definition TrimPrefix (s p : string) : string :=
  if HasPrefix s p then String.substring (String.length p) (String.length s - String.length p) s
  else s.
Definition TrimSuffix (s p : string) : string :=
  let n := String.length s - String.length p in
  if bool_decide (String.substring n (String.length p) s = p) then String.substring 0 n s else s.

(** [fmt.Errorf("...: %w", err)]. *)
Definition wrap_error (msg : string) (err : error) : error :=
  match err with
  | OtherError m => OtherError (msg +:+ m)
  | ApplicationError _ _ => err
  end.

Section store_impl.
Context {W : Type} (b : blobStoreImpl W).

Definition blob_WriteObject (workflowId data : string) : M W (string * string + error) :=
  randomUuid ← outside (uuid_New (s3Client b));
  yyyymmdd ← outside (time_Now_yyyymmdd (s3Client b));
  let path := objectPath yyyymmdd workflowId randomUuid in
  err ← outside (PutObject (s3Client b) (S3Bucket (activeStorage b)) (pathPrefix b +:+ path) data);
  match err with
  | Some err => mret (inr err)
  | None => mret (inl (StorageId (activeStorage b), path))
  end.

Definition blob_ReadObject (storeId path : string) : M W (string + error) :=
  match supportedStore b !! storeId with
  | None => mret (inr (OtherError ("store not found for " +:+ storeId)))
  | Some storeConfig =>
      outside (GetObject (s3Client b) (S3Bucket storeConfig) (pathPrefix b +:+ path))
  end.

Definition delete_error_msgs (errs : list DeleteError) : list string :=
  omap (fun e => k ← de_Key e; c ← de_Code e; m ← de_Message e;
                 Some ("key=" +:+ k +:+ ", code=" +:+ c +:+ ", message=" +:+ m)) errs.

(** One batch: the error the deletion reports. *)
Definition delete_batch (bucket : string) (keys : list string) : M W (option error) :=
  match keys with
  | [] => mret None
  | _ =>
      r ← outside (DeleteObjects (s3Client b) bucket keys);
      match r with
      | inr err => mret (Some (wrap_error "failed to delete objects: " err))
      | inl [] => mret None
      | inl errs => mret (Some (OtherError ("some objects failed to delete: "
                                            +:+ String.concat "; " (delete_error_msgs errs))))
      end
  end.

(** The pages; [fuel] bounds their number. *)
Fixpoint delete_pages (fuel : nat) (bucket prefix : string) (continuationToken : option string) :
  M W (option error) :=
  match fuel with
  | 0 => liftM (Panic "out of fuel")
  | S fuel =>
      r ← outside (ListObjectsV2 (s3Client b) bucket prefix None continuationToken);
      match r with
      | inr err => mret (Some (wrap_error "failed to list objects for deletion: " err))
      | inl listResult =>
          if (len (Contents listResult) =? 0)%Z then mret None
          else
            err ← delete_batch bucket (omap id (Contents listResult));
            match err with
            | Some err => mret (Some err)
            | None =>
                if negb (default false (IsTruncated listResult)) then mret None
                else delete_pages fuel bucket prefix (NextContinuationToken listResult)
            end
      end
  end.

Definition blob_DeleteWorkflowObjects (fuel : nat) (storeId workflowPath : string) :
  M W (option error) :=
  match supportedStore b !! storeId with
  | None => mret (Some (OtherError ("store not found for " +:+ storeId)))
  | Some storeConfig =>
      delete_pages fuel (S3Bucket storeConfig) (pathPrefix b +:+ workflowPath +:+ "/") None
  end.

Definition workflow_path_of (commonPrefix : option string) : option string :=
  prefixStr ← commonPrefix;
  if HasPrefix prefixStr (pathPrefix b)
  then Some (TrimSuffix (TrimPrefix prefixStr (pathPrefix b)) "/") else None.

Definition blob_ListWorkflowPaths (storeId : string) (continuationToken : option string) :
  M W (ListObjectPathsOutput + error) :=
  match supportedStore b !! storeId with
  | None => mret (inr (OtherError ("store not found for " +:+ storeId)))
  | Some storeConfig =>
      r ← outside (ListObjectsV2 (s3Client b) (S3Bucket storeConfig) (pathPrefix b) (Some "/")
                     continuationToken);
      match r with
      | inr err => mret (inr err)
      | inl result =>
          mret (inl (mkListObjectPathsOutput (NextContinuationToken result)
                       (omap workflow_path_of (CommonPrefixes result))))
      end
  end.

(** The objects of today's workflow, those of one page. *)
Definition CountWorkflowObjectsForTesting (workflowId : string) : M W (Z + error) :=
  yyyymmdd ← outside (time_Now_yyyymmdd (s3Client b));
  let prefix := pathPrefix b +:+ yyyymmdd +:+ "$" +:+ workflowId +:+ "/" in
  r ← outside (ListObjectsV2 (s3Client b) (S3Bucket (activeStorage b)) prefix None None);
  match r with
  | inr err => mret (inr err)
  | inl result => mret (inl (len (Contents result)))
  end.

Definition blobStore_of (fuel : nat) : BlobStore W :=
  mkBlobStore blob_WriteObject blob_ReadObject (blob_DeleteWorkflowObjects fuel)
    blob_ListWorkflowPaths.

End store_impl.

(** ** What S3 documents

    [objects w]: the content of the buckets.  A failed put or a failed batch may
    have been carried out in part.  [covers token key]: a listing that continues
    from [token] goes past [key]. *)
Class LawfulS3 {W} (c : S3Client W) : Type := {
  objects : W -> gmap (string * string) string;
  covers : option string -> string -> Prop;
  covers_start key : covers None key;
  put_ok bucket key data w w' :
    PutObject c bucket key data w = (None, w') -> objects w' = <[(bucket, key) := data]> (objects w);
  put_failed bucket key data w e w' :
    PutObject c bucket key data w = (Some e, w') ->
    objects w' = objects w \/ objects w' = <[(bucket, key) := data]> (objects w);
  get_reads bucket key w r w' :
    GetObject c bucket key w = (r, w') ->
    objects w' = objects w /\ forall d, r = inl d -> objects w !! (bucket, key) = Some d;
  list_keeps bucket prefix delim token w r w' :
    ListObjectsV2 c bucket prefix delim token w = (r, w') -> objects w' = objects w;
  list_page bucket prefix token w r w' :
    ListObjectsV2 c bucket prefix None token w = (inl r, w') ->
    (forall k, k ∈ omap id (Contents r) ->
       HasPrefix k prefix = true /\ is_Some (objects w !! (bucket, k))) /\
    (forall k, HasPrefix k prefix = true -> is_Some (objects w !! (bucket, k)) -> covers token k ->
       k ∈ omap id (Contents r) \/
       (IsTruncated r = Some true /\ covers (NextContinuationToken r) k)) /\
    (IsTruncated r = Some true -> omap id (Contents r) <> []);
  delete_frame bucket keys w r w' :
    DeleteObjects c bucket keys w = (r, w') ->
    objects w' ⊆ objects w /\
    forall b k, (b <> bucket \/ k ∉ keys) -> objects w' !! (b, k) = objects w !! (b, k);
  delete_ok bucket keys w w' :
    DeleteObjects c bucket keys w = (inl [], w') ->
    forall k, k ∈ keys -> objects w' !! (bucket, k) = None;
  uuid_fresh w u w' :
    uuid_New c w = (u, w') ->
    objects w' = objects w /\ forall bucket p, objects w !! (bucket, p +:+ "/" +:+ u) = None;
  clock_keeps w t w' : time_Now_yyyymmdd c w = (t, w') -> objects w' = objects w
}.


(** ** Strings *)

Lemma str_app_assoc s t u : (s +:+ t) +:+ u = s +:+ t +:+ u.
Proof. induction s as [|a s IH]; [done|]. exact (f_equal (String a) IH). Qed.

Lemma str_app_nil s : s +:+ EmptyString = s.
Proof. induction s as [|a s IH]; [done|]. exact (f_equal (String a) IH). Qed.

Lemma str_app_length s t : String.length (s +:+ t) = String.length s + String.length t.
Proof. induction s as [|a s IH]; [done|]. exact (f_equal S IH). Qed.

Lemma substring_prefix s t : String.substring 0 (String.length s) (s +:+ t) = s.
Proof. induction s as [|a s IH]; [by destruct t|]. exact (f_equal (String a) IH). Qed.

Lemma substring_all s : String.substring 0 (String.length s) s = s.
Proof. pose proof (substring_prefix s EmptyString) as H. by rewrite str_app_nil in H. Qed.

Lemma substring_suffix s t : String.substring (String.length s) (String.length t) (s +:+ t) = t.
Proof. induction s as [|a s IH]; [apply (substring_all t) | exact IH]. Qed.

Lemma HasPrefix_spec s p : HasPrefix s p = true <-> exists r, s = p +:+ r.
Proof.
  unfold HasPrefix. revert s. induction p as [|a p IH]; intros s.
  { destruct s; (split; [by eexists | done]). }
  destruct s as [|c s]; [split; [done | by intros [? [=]]]|].
  change (String.prefix (String a p) (String c s))
    with (if ascii_dec a c then String.prefix p s else false).
  destruct (ascii_dec a c) as [->|Hne].
  - rewrite IH. split; intros [r E]; exists r; [by rewrite E | by injection E].
  - split; [done|]. intros [r E]. by injection E.
Qed.

Lemma TrimPrefix_app p s : TrimPrefix (p +:+ s) p = s.
Proof.
  unfold TrimPrefix. rewrite (proj2 (HasPrefix_spec _ _)) by eauto.
  rewrite str_app_length. replace (_ + _ - _) with (String.length s) by lia.
  apply substring_suffix.
Qed.

Lemma TrimSuffix_app s p : TrimSuffix (s +:+ p) p = s.
Proof.
  unfold TrimSuffix. rewrite str_app_length. replace (_ + _ - _) with (String.length s) by lia.
  rewrite substring_suffix, bool_decide_true by done. apply substring_prefix.
Qed.

(** ** The store implements the interface *)

Section store_facts.
Context {W : Type} (b : blobStoreImpl W) `{!LawfulS3 (s3Client b)}.

(** The store that NewBlobStore makes can read what it writes. *)
Definition readable_store : Prop :=
  exists cfg, supportedStore b !! StorageId (activeStorage b) = Some cfg /\
              S3Bucket cfg = S3Bucket (activeStorage b).

Definition s3_stored (w : W) (storeId path data : string) : Prop :=
  exists cfg, supportedStore b !! storeId = Some cfg /\
              objects w !! (S3Bucket cfg, pathPrefix b +:+ path) = Some data.

Lemma object_key_split p ymd wid u :
  p +:+ objectPath ymd wid u = (p +:+ ymd +:+ "$" +:+ wid) +:+ "/" +:+ u.
Proof. unfold objectPath. by rewrite !str_app_assoc. Qed.

(** A write goes to a fresh key. *)
Lemma blob_write_spec wid data w :
  exists r w' key, blob_WriteObject b wid data w = Ret (r, w') /\
    objects w !! (S3Bucket (activeStorage b), key) = None /\
    (objects w' = objects w \/
     objects w' = <[(S3Bucket (activeStorage b), key) := data]> (objects w)) /\
    forall storeId path, r = inl (storeId, path) ->
      storeId = StorageId (activeStorage b) /\ key = pathPrefix b +:+ path /\
      objects w' !! (S3Bucket (activeStorage b), key) = Some data.
Proof.
  unfold blob_WriteObject, mbind, M_bind, outside.
  destruct (uuid_New (s3Client b) w) as [u w1] eqn:Eu.
  destruct (uuid_fresh _ _ _ Eu) as [Hw1 Hfresh].
  destruct (time_Now_yyyymmdd (s3Client b) w1) as [ymd w2] eqn:Et.
  apply clock_keeps in Et as Hw2.
  set (key := pathPrefix b +:+ objectPath ymd wid u).
  destruct (PutObject _ _ _ _ w2) as [err w3] eqn:Ep.
  assert (objects w !! (S3Bucket (activeStorage b), key) = None) as Hnew.
  { unfold key. rewrite object_key_split. apply Hfresh. }
  destruct err as [e|].
  - exists (inr e), w3, key. split; [done|]. split; [done|]. split; [|done].
    apply put_failed in Ep. by rewrite Hw2, Hw1 in Ep.
  - eexists _, w3, key. split; [done|]. split; [done|].
    apply put_ok in Ep. rewrite Hw2, Hw1 in Ep. split; [by right|].
    intros ?? [= <- <-]. split_and!; [done|done|]. by rewrite Ep, lookup_insert_eq.
Qed.

#[export] Instance s3_lawful_store fuel (Hr : readable_store) : LawfulStore (blobStore_of b fuel).
Proof.
  refine {| stored := s3_stored |}.
  - intros wid data w. destruct (blob_write_spec wid data w) as (r & w' & ? & ? & ?). eauto.
  - intros wid data w storeId path w' E.
    destruct (blob_write_spec wid data w) as (r & w'' & key & E' & _ & _ & H).
    cbn in E. rewrite E in E'. injection E' as <- <-.
    destruct (H _ _ eq_refl) as (-> & -> & Hl). destruct Hr as (cfg & Ec & Eb).
    exists cfg. by rewrite Eb.
  - intros wid data w r w' storeId path d E (cfg & Ec & Hd).
    destruct (blob_write_spec wid data w) as (r' & w'' & key & E' & Hn & Ho & _).
    cbn in E. rewrite E in E'. injection E' as <- <-. exists cfg. split; [done|].
    destruct Ho as [->| ->]; [done|]. rewrite lookup_insert_ne; [done|]. congruence.
  - intros storeId path w d (cfg & Ec & Hd). cbn. unfold blob_ReadObject. rewrite Ec.
    unfold outside. destruct (GetObject _ _ _ w) as [r w'] eqn:Eg.
    destruct (get_reads _ _ _ _ _ Eg) as [Hw' Hrd]. exists w'. split.
    + destruct r as [d'|e]; [|by right; exists e]. left.
      by rewrite (Hrd d' eq_refl) in Hd; simplify_eq.
    + intros ??? (cfg' & ? & ?). exists cfg'. by rewrite Hw'.
  - intros storeId path w r w' E. cbn in E. unfold blob_ReadObject in E.
    destruct (supportedStore b !! storeId) as [cfg|] eqn:Ec.
    + unfold outside in E. destruct (GetObject _ _ _ w) as [r' w''] eqn:Eg. injection E as -> ->.
      destruct (get_reads _ _ _ _ _ Eg) as [Hw' Hrd]. split.
      * intros d ->. exists cfg. rewrite Hw'. auto.
      * intros ??? (cfg' & ? & ?). exists cfg'. by rewrite Hw'.
    + injection E as <- <-. split; [done|]. by intros ???.
Defined.

(** ** Deleting the objects of a workflow path *)

(** Every listing and every deletion of S3 succeeds. *)
Definition s3_succeeds : Prop :=
  (forall bucket prefix delim token w e w',
     ListObjectsV2 (s3Client b) bucket prefix delim token w <> (inr e, w')) /\
  (forall bucket keys w r w', DeleteObjects (s3Client b) bucket keys w = (r, w') -> r = inl []).

Lemma delete_batch_succeeds bucket keys w err w' :
  s3_succeeds -> delete_batch b bucket keys w = Ret (err, w') -> err = None.
Proof.
  intros [_ Hd] H. unfold delete_batch in H. destruct keys as [|k keys]; [by step_done H|].
  step H as r Er. apply Hd in Er as ->. by step_done H.
Qed.

Lemma delete_pages_succeeds fuel bucket prefix token w err w' :
  s3_succeeds -> delete_pages b fuel bucket prefix token w = Ret (err, w') -> err = None.
Proof.
  intros Hs. revert token w. induction fuel as [|fuel IH]; intros token w H;
    cbn [delete_pages] in H; [done|].
  step H as r El. destruct r as [page|e]; [|by destruct (proj1 Hs _ _ _ _ _ _ _ El)].
  destruct (_ =? 0)%Z; [by step_done H|].
  step H as err1 Ed. apply delete_batch_succeeds in Ed as ->; [|done].
  destruct (negb _); [by step_done H | by eapply IH].
Qed.

Definition under (bucket prefix : string) (bk : string * string) : Prop :=
  bk.1 = bucket /\ HasPrefix bk.2 prefix = true.

#[export] Instance under_dec bucket prefix bk : Decision (under bucket prefix bk).
Proof. unfold under. apply _. Defined.

Definition count_under (bucket prefix : string) (w : W) : nat :=
  size (filter (fun kv => under bucket prefix kv.1) (objects w)).

Lemma delete_batch_spec bucket keys w :
  exists err w', delete_batch b bucket keys w = Ret (err, w') /\
    objects w' ⊆ objects w /\
    (forall bk, (bk.1 <> bucket \/ bk.2 ∉ keys) -> objects w' !! bk = objects w !! bk) /\
    (err = None -> forall k, k ∈ keys -> objects w' !! (bucket, k) = None).
Proof.
  unfold delete_batch. destruct keys as [|key keys].
  { exists None, w. split_and!; [done..|]. intros _ k Hk. by apply elem_of_nil in Hk. }
  unfold mbind, M_bind, outside. destruct (DeleteObjects _ _ _ w) as [r w'] eqn:E.
  destruct (delete_frame _ _ _ _ _ E) as [Hsub Hframe].
  assert (forall bk, (bk.1 <> bucket \/ bk.2 ∉ (key :: keys)) -> objects w' !! bk = objects w !! bk)
    by (intros [bk1 bk2] ?; by apply Hframe).
  destruct r as [[|d ds]|e]; eexists _, w'; (split; [done|]); (split_and!; [done|done|]); try done.
  intros _. by apply (delete_ok bucket (key :: keys) w).
Qed.

Lemma count_under_decreases bucket prefix w w' k :
  objects w' ⊆ objects w -> under bucket prefix k ->
  is_Some (objects w !! k) -> objects w' !! k = None ->
  count_under bucket prefix w' < count_under bucket prefix w.
Proof.
  intros Hsub Hu [d Hd] Hn. unfold count_under. apply map_subset_size. split.
  - apply map_subseteq_spec. intros i x. rewrite !map_lookup_filter_Some.
    intros [? ?]. split; [by eapply lookup_weaken | done].
  - intros Hle. assert (filter (fun kv => under bucket prefix kv.1) (objects w) !! k = Some d) as Hk
      by (by apply map_lookup_filter_Some).
    apply (lookup_weaken _ _ _ _ Hk) in Hle. apply map_lookup_filter_Some in Hle as [? _]. congruence.
Qed.

(** What a page whose keys are deleted leaves under the prefix. *)
Lemma page_leftover bucket prefix token w page w1 w2 :
  ListObjectsV2 (s3Client b) bucket prefix None token w = (inl page, w1) ->
  (forall k, HasPrefix k prefix = true -> is_Some (objects w !! (bucket, k)) -> covers token k) ->
  objects w2 ⊆ objects w ->
  (forall k, k ∈ omap id (Contents page) -> objects w2 !! (bucket, k) = None) ->
  forall bk, under bucket prefix bk -> is_Some (objects w2 !! bk) ->
    IsTruncated page = Some true /\ covers (NextContinuationToken page) bk.2.
Proof.
  intros El Hcov Hsub Hgone [bk1 k] [E Hp] Hs. cbn in E, Hp. subst bk1.
  destruct (list_page _ _ _ _ _ _ El) as (_ & Hall & _).
  assert (is_Some (objects w !! (bucket, k))) as Hs' by (by eapply lookup_weaken_is_Some).
  destruct (Hall k Hp Hs' (Hcov k Hp Hs')) as [Hk|Hc]; [|done].
  rewrite (Hgone k Hk) in Hs. by destruct Hs.
Qed.

(** A page that is truncated makes progress. *)
Lemma page_progress bucket prefix token w page w1 w2 :
  ListObjectsV2 (s3Client b) bucket prefix None token w = (inl page, w1) ->
  IsTruncated page = Some true -> objects w2 ⊆ objects w ->
  (forall k, k ∈ omap id (Contents page) -> objects w2 !! (bucket, k) = None) ->
  count_under bucket prefix w2 < count_under bucket prefix w.
Proof.
  intros El Ht Hsub Hgone. destruct (list_page _ _ _ _ _ _ El) as (Hin & _ & Htr).
  destruct (omap id (Contents page)) as [|k ks] eqn:Ek; [by destruct (Htr Ht)|].
  assert (k ∈ k :: ks) as Hk by left. destruct (Hin k Hk).
  by eapply (count_under_decreases _ _ _ _ (bucket, k)); [..|apply Hgone].
Qed.

Lemma delete_pages_spec fuel bucket prefix token w :
  count_under bucket prefix w < fuel ->
  (forall k, HasPrefix k prefix = true -> is_Some (objects w !! (bucket, k)) -> covers token k) ->
  exists err w', delete_pages b fuel bucket prefix token w = Ret (err, w') /\
    objects w' ⊆ objects w /\
    (forall bk, ~ under bucket prefix bk -> objects w' !! bk = objects w !! bk) /\
    (err = None -> forall bk, under bucket prefix bk -> objects w' !! bk = None).
Proof.
  revert token w. induction fuel as [|fuel IH]; intros token w Hfuel Hcov; [lia|].
  cbn [delete_pages]. unfold outside at 1. unfold mbind, M_bind.
  destruct (ListObjectsV2 _ _ _ _ _ w) as [[page|e] w1] eqn:El; apply list_keeps in El as Hw1;
    [|eexists _, w1; by rewrite Hw1].
  pose proof (list_page _ _ _ _ _ _ El) as (Hin & _ & _).
  destruct (len (Contents page) =? 0)%Z eqn:Elen.
  { apply Z.eqb_eq, len_nil_iff in Elen. exists None, w1. rewrite Hw1. split_and!; [done..|].
    intros _ bk Hu. apply eq_None_not_Some. intros Hs.
    destruct (page_leftover _ _ _ _ _ _ w El Hcov (reflexivity _)) with bk as [Ht _]; try done.
    - rewrite Elen. intros k Hk. by apply elem_of_nil in Hk.
    - destruct (list_page _ _ _ _ _ _ El) as (_ & _ & Htr). apply Htr in Ht. by rewrite Elen in Ht. }
  destruct (delete_batch_spec bucket (omap id (Contents page)) w1)
    as (err & w2 & Ed & Hsub & Hframe & Hgone).
  rewrite Ed, Hw1 in *.
  assert (forall bk, ~ under bucket prefix bk -> objects w2 !! bk = objects w !! bk) as Hout.
  { intros [bk1 k] Hu. apply Hframe. cbn. destruct (decide (bk1 = bucket)) as [->|]; [right|by left].
    intros Hk. by destruct (Hin k Hk), Hu. }
  destruct err as [e|]; [by exists (Some e), w2|]. specialize (Hgone eq_refl).
  pose proof (page_leftover _ _ _ _ _ _ _ El Hcov Hsub Hgone) as Hleft.
  destruct (IsTruncated page) as [[]|] eqn:Et; cbn.
  2,3: exists None, w2; split_and!; [done..|]; intros _ bk Hu; apply eq_None_not_Some;
    intros Hs; by destruct (Hleft bk Hu Hs).
  destruct (IH (NextContinuationToken page) w2) as (err & w3 & E3 & Hsub3 & Hout3 & Hgone3).
  - pose proof (page_progress _ _ _ _ _ _ _ El Et Hsub Hgone). lia.
  - intros k Hp Hs. by apply (Hleft (bucket, k)).
  - exists err, w3. split_and!; [done| by etrans | | done].
    intros bk Hu. by rewrite Hout3, Hout.
Qed.

(** Whatever a deletion that returned did, it is limited to the prefix. *)
Lemma delete_pages_frame fuel bucket prefix token w err w' :
  delete_pages b fuel bucket prefix token w = Ret (err, w') ->
  forall bk, ~ under bucket prefix bk -> objects w' !! bk = objects w !! bk.
Proof.
  revert token w. induction fuel as [|fuel IH]; intros token w H bk Hu; cbn [delete_pages] in H; [done|].
  step H as r El. pose proof (list_keeps _ _ _ _ _ _ _ El) as Hw.
  destruct r as [page|e]; [|by step_done H; rewrite Hw].
  pose proof (list_page _ _ _ _ _ _ El) as (Hin & _ & _).
  destruct (_ =? 0)%Z; [by step_done H; rewrite Hw|].
  step H as err1 Ed.
  destruct (delete_batch_spec bucket (omap id (Contents page)) w0)
    as (err2 & w2 & Ed2 & _ & Hframe & _).
  rewrite Ed in Ed2. injection Ed2 as <- <-.
  assert (objects w1 !! bk = objects w !! bk) as Hbk.
  { rewrite <- Hw. apply Hframe. destruct bk as [bk1 k]; cbn.
    destruct (decide (bk1 = bucket)) as [->|]; [right|by left].
    intros Hk. by destruct (Hin k Hk), Hu. }
  destruct err1 as [e|]; [by step_done H|]. destruct (IsTruncated page) as [[]|]; cbn in H;
    [|by step_done H..].
  rewrite <- Hbk. by eapply IH.
Qed.

Lemma delete_frame_under fuel storeId workflowPath w err w' bk :
  DeleteWorkflowObjects (blobStore_of b fuel) storeId workflowPath w = Ret (err, w') ->
  (forall storeConfig,
     ~ under (S3Bucket storeConfig) (pathPrefix b +:+ workflowPath +:+ "/") bk) ->
  objects w' !! bk = objects w !! bk.
Proof.
  cbn. unfold blob_DeleteWorkflowObjects. intros H Hu.
  destruct (supportedStore b !! storeId) as [cfg|]; [|by step_done H].
  by eapply delete_pages_frame.
Qed.

(** C14: deleting a workflow path terminates, with as many rounds as there are
    objects under it plus one; whether or not it reports an error it deletes
    nothing else, and when it reports none no object of the path is left; it
    reports none when the calls of S3 succeed. *)
Theorem DeleteWorkflowObjects_exact fuel storeId workflowPath storeConfig w :
  supportedStore b !! storeId = Some storeConfig ->
  let prefix := pathPrefix b +:+ workflowPath +:+ "/" in
  count_under (S3Bucket storeConfig) prefix w < fuel ->
  exists err w', DeleteWorkflowObjects (blobStore_of b fuel) storeId workflowPath w = Ret (err, w') /\
    objects w' ⊆ objects w /\
    (forall bk, ~ under (S3Bucket storeConfig) prefix bk -> objects w' !! bk = objects w !! bk) /\
    (err = None -> forall bk, under (S3Bucket storeConfig) prefix bk -> objects w' !! bk = None) /\
    (s3_succeeds -> err = None).
Proof.
  intros Ec prefix Hfuel. cbn. unfold blob_DeleteWorkflowObjects. rewrite Ec.
  destruct (delete_pages_spec fuel (S3Bucket storeConfig) prefix None w)
    as (err & w' & E & Hsub & Hframe & Hgone); [done | intros k _ _; apply covers_start|].
  exists err, w'. split_and!; try done. intros Hs. by eapply delete_pages_succeeds.
Qed.

End store_facts.

(** ** Paths *)

Lemma contains_char_spec c s : contains_char c s = false <-> c ∉ chars s.
Proof.
  unfold contains_char. rewrite <- not_true_iff_false, existsb_exists. split.
  - intros H Hc. apply H. exists c. split; [by apply list_elem_of_In | by apply bool_decide_true].
  - intros H (a & Ha & E). apply bool_decide_eq_true in E as ->. by apply H, list_elem_of_In.
Qed.

Lemma ValidateWorkflowId_spec workflowId :
  ValidateWorkflowId workflowId = None <-> "/"%char ∉ chars workflowId /\ "$"%char ∉ chars workflowId.
Proof.
  rewrite <- !contains_char_spec. unfold ValidateWorkflowId, reservedCharacters. cbn.
  destruct (contains_char "/" workflowId), (contains_char "$" workflowId); naive_solver.
Qed.

(** Cutting a list at the first occurrence of [c] is unambiguous. *)
Lemma cut_unique (c : ascii) l1 l2 r1 r2 :
  c ∉ l1 -> c ∉ l2 -> l1 ++ c :: r1 = l2 ++ c :: r2 -> l1 = l2 /\ r1 = r2.
Proof.
  revert l2. induction l1 as [|a l1 IH]; intros [|a' l2] H1 H2 E; injection E; intros; subst;
    rewrite ?elem_of_cons in *; try tauto.
  destruct (IH l2) as [-> ->]; naive_solver.
Qed.

Lemma chars_inj s t : chars s = chars t -> s = t.
Proof.
  intros E. apply (f_equal String.string_of_list_ascii) in E. unfold chars in E.
  by rewrite !String.string_of_list_ascii_of_string in E.
Qed.

Lemma split_chars_here sep cur l1 l2 :
  sep ∉ l1 -> split_chars sep cur (l1 ++ sep :: l2) = (cur ++ l1) :: split_chars sep [] l2.
Proof.
  revert cur. induction l1 as [|a l1 IH]; intros cur H; cbn.
  - by rewrite bool_decide_true, app_nil_r.
  - apply not_elem_of_cons in H as [Hne H]. rewrite bool_decide_false, IH by congruence.
    by rewrite <- app_assoc.
Qed.

Lemma split_chars_last sep cur l : sep ∉ l -> split_chars sep cur l = [cur ++ l].
Proof.
  revert cur. induction l as [|a l IH]; intros cur H; cbn; [by rewrite app_nil_r|].
  apply not_elem_of_cons in H as [Hne H]. rewrite bool_decide_false, IH by congruence.
  by rewrite <- app_assoc.
Qed.

Lemma split_chars_ne sep cur l : split_chars sep cur l <> [].
Proof. revert cur. induction l as [|c l IH]; intros cur; cbn; [done|]. by case_bool_decide. Qed.

Lemma split_chars_one sep cur l b : split_chars sep cur l = [b] -> cur ++ l = b.
Proof.
  revert cur. induction l as [|c l IH]; intros cur E; cbn in E.
  - injection E as <-. apply app_nil_r.
  - case_bool_decide; [injection E as _ E; by apply split_chars_ne in E|].
    apply IH in E. by rewrite <- app_assoc in E.
Qed.

Lemma split_chars_two sep cur l a b :
  sep ∉ cur -> split_chars sep cur l = [a; b] -> cur ++ l = a ++ sep :: b /\ sep ∉ a.
Proof.
  revert cur. induction l as [|c l IH]; intros cur Hcur E; cbn in E; [done|].
  case_bool_decide as Hc.
  - subst c. injection E as <- E. apply split_chars_one in E as <-. done.
  - apply IH in E as [E ?]; [by rewrite <- app_assoc in E|]. set_solver.
Qed.

Lemma split_pair (yyyymmdd workflowId : string) :
  "$"%char ∉ chars yyyymmdd -> "$"%char ∉ chars workflowId ->
  strings_Split "$"%char (yyyymmdd +:+ "$" +:+ workflowId) = [yyyymmdd; workflowId].
Proof.
  intros H1 H2. unfold strings_Split. rewrite !chars_app.
  change (chars "$" ++ chars workflowId) with ("$"%char :: chars workflowId).
  rewrite split_chars_here, split_chars_last by done. cbn. unfold chars.
  by rewrite !String.string_of_list_ascii_of_string.
Qed.

Section paths.
Context {W : Type} (b : blobStoreImpl W).

(** The listing finds workflows by the common prefixes of their objects: for a
    workflow id that ValidateWorkflowId accepts, the prefix of an object that
    WriteObject stores gives back the workflow path, its date and the id. *)
Theorem workflow_path_roundtrip yyyymmdd workflowId u :
  ValidateWorkflowId workflowId = None -> "$"%char ∉ chars yyyymmdd ->
  let path := yyyymmdd +:+ "$" +:+ workflowId in
  let prefix := pathPrefix b +:+ path +:+ "/" in
  pathPrefix b +:+ objectPath yyyymmdd workflowId u = prefix +:+ u /\
  workflow_path_of b (Some prefix) = Some path /\
  MustExtractWorkflowId path = Ret workflowId /\
  ExtractYyyymmdd path = inl yyyymmdd.
Proof.
  intros [_ Hv]%ValidateWorkflowId_spec Hd path prefix. split_and!.
  - unfold objectPath, prefix, path. by rewrite !str_app_assoc.
  - unfold workflow_path_of. cbn. rewrite (proj2 (HasPrefix_spec _ _)) by (by eexists).
    unfold prefix. by rewrite TrimPrefix_app, TrimSuffix_app.
  - unfold MustExtractWorkflowId, ExtractWorkflowId, path. by rewrite split_pair.
  - unfold ExtractYyyymmdd, path. by rewrite split_pair.
Qed.

(** C32: the objects of different workflows do not mix: the objects under a workflow
    path, those DeleteWorkflowObjects deletes, are the ones written for that
    workflow on that day, provided the ids are ones ValidateWorkflowId accepts. *)
Theorem workflow_objects_separate ymd wid ymd' wid' u :
  ValidateWorkflowId wid = None -> ValidateWorkflowId wid' = None ->
  Forall (fun c => c ∉ chars ymd /\ c ∉ chars ymd') reservedCharacters ->
  HasPrefix (pathPrefix b +:+ objectPath ymd' wid' u)
            (pathPrefix b +:+ (ymd +:+ "$" +:+ wid) +:+ "/") = true <->
  ymd = ymd' /\ wid = wid'.
Proof.
  intros [Hs1 Hd1]%ValidateWorkflowId_spec [Hs2 Hd2]%ValidateWorkflowId_spec Hr.
  apply Forall_cons in Hr as [[Hy1 Hy2] Hr]. apply Forall_cons in Hr as [[Hz1 Hz2] _].
  rewrite HasPrefix_spec. split.
  - intros [r E]. apply (f_equal chars) in E. unfold objectPath in E.
    rewrite !chars_app, <- !app_assoc in E. apply app_inv_head in E.
    change (chars "$") with ["$"%char] in E. change (chars "/") with ["/"%char] in E. cbn in E.
    apply cut_unique in E as [E1 E2]; [|done..].
    apply cut_unique in E2 as [E2 _]; [|done..]. split; symmetry; by apply chars_inj.
  - intros [-> ->]. exists u. unfold objectPath. by rewrite !str_app_assoc.
Qed.

End paths.

(** ** NewBlobStore *)

Definition is_active (storage : BlobStorageConfig) : Prop := Status storage = StorageStatusActive.
#[export] Instance is_active_dec storage : Decision (is_active storage).
Proof. unfold is_active. destruct (Status storage); (by left) || (by right). Defined.

Definition is_s3 (storage : BlobStorageConfig) : Prop := StorageType_ storage = StorageTypeS3.

Lemma scan_storages_spec storages active m :
  match scan_storages storages active m with
  | Ret (active', m') =>
      Forall is_s3 storages /\
      option_list active' = option_list active ++ filter is_active storages /\
      m' = foldl (fun m s => <[StorageId s := s]> m) m storages
  | Panic _ =>
      ~ Forall is_s3 storages \/ 1 < length (option_list active ++ filter is_active storages)
  end.
Proof.
  revert active m. induction storages as [|s storages IH]; intros active m; cbn [scan_storages].
  { split_and!; [constructor | by rewrite app_nil_r | done]. }
  rewrite filter_cons. destruct (decide (is_active s)) as [Ha|Ha].
  - rewrite Ha. destruct active as [a|]; [right; cbn; lia|]. cbn.
    destruct (StorageType_ s) eqn:Et.
    + specialize (IH (Some s) (<[StorageId s:=s]> m)).
      destruct (scan_storages _ _ _) as [[active' m']|]; cbn in *.
      * destruct IH as (? & ? & ?). split_and!; [by constructor|done..].
      * rewrite Forall_cons. tauto.
    + left. rewrite Forall_cons. unfold is_s3. rewrite Et. naive_solver.
  - assert (forall k : option BlobStorageConfig -> gores (option BlobStorageConfig * gmap string BlobStorageConfig),
      (match Status s, active with
       | StorageStatusActive, Some _ => Panic "cannot have more than one active storage configured"
       | StorageStatusActive, None => Ret (Some s)
       | _, _ => Ret active end ≫= k) = k active) as Hst.
    { intros k. unfold is_active in Ha. by destruct (Status s). }
    rewrite Hst. destruct (StorageType_ s) eqn:Et.
    + specialize (IH active (<[StorageId s:=s]> m)).
      destruct (scan_storages _ _ _) as [[active' m']|]; cbn in *.
      * destruct IH as (? & ? & ?). split_and!; [by constructor|done..].
      * rewrite Forall_cons. tauto.
    + left. rewrite Forall_cons. unfold is_s3. rewrite Et. naive_solver.
Qed.

(** NewBlobStore makes a store exactly when the configuration has one active
    storage and only S3 ones, and panics otherwise; when the storage ids are
    distinct the store can read what it writes. *)
Theorem NewBlobStore_spec {W} (c : S3Client W) namespace storeConfig :
  Enabled storeConfig = true ->
  match NewBlobStore c namespace storeConfig with
  | Ret (Some st) =>
      Forall is_s3 (SupportedStorages storeConfig) /\
      filter is_active (SupportedStorages storeConfig) = [activeStorage st] /\
      (NoDup (StorageId <$> SupportedStorages storeConfig) -> readable_store st)
  | Ret None => False
  | Panic _ =>
      ~ Forall is_s3 (SupportedStorages storeConfig) \/
      length (filter is_active (SupportedStorages storeConfig)) <> 1
  end.
Proof.
  intros He. unfold NewBlobStore. rewrite He. cbn.
  pose proof (scan_storages_spec (SupportedStorages storeConfig) None ∅) as H.
  destruct (scan_storages _ _ _) as [[[a|] m]|]; cbn in *.
  - destruct H as (Hs3 & Ha & ->). split_and!; [done..|]. intros Hnd. exists a. split; [|done].
    cbn. rewrite (foldl_insert_self_lookup StorageId).
    assert (a ∈ filter is_active (SupportedStorages storeConfig)) as Hin by (rewrite <- Ha; by left).
    apply list_elem_of_filter in Hin as [_ Hin].
    destruct (last (filter (fun s => StorageId s = StorageId a) (SupportedStorages storeConfig)))
      as [s|] eqn:El.
    + apply last_Some_elem_of, list_elem_of_filter in El as [Ei El]. f_equal.
      apply list_elem_of_lookup in El as [i Hi], Hin as [j Hj].
      enough (i = j) by congruence.
      eapply NoDup_lookup; [exact Hnd| |]; rewrite list_lookup_fmap; [by rewrite Hi | rewrite Hj; cbn; congruence].
    + apply last_None in El.
      assert (a ∈ filter (fun s => StorageId s = StorageId a) (SupportedStorages storeConfig)) as Hf
        by (by apply list_elem_of_filter).
      rewrite El in Hf. by apply elem_of_nil in Hf.
  - destruct H as (_ & <- & _). right. done.
  - destruct H as [H|H]; [by left | right; lia].
Qed.
