(* ===== verification/MemoryS3.v ===== *)
(** * An S3 in memory

    A concrete S3 client: buckets as a map, every listing one page, a uuid longer
    than every key.  It has the documented behaviour that S3Store.v relies on. *)

From S2P Require Export S3Store.

Notation memory := (gmap (string * string) string).

Implicit Types (m : memory).

Fixpoint repeat_char (n : nat) : string :=
  match n with 0 => EmptyString | S n => String "u"%char (repeat_char n) end.

Definition longest (m : memory) : nat :=
  foldr (fun kv n => max (String.length kv.1.2) n) 0 (map_to_list m).

(** The keys of a bucket with a prefix. *)
Definition keys_under (bucket prefix : string) (m : memory) : list string :=
  omap (fun kv => if bool_decide (kv.1.1 = bucket) && HasPrefix kv.1.2 prefix
                  then Some kv.1.2 else None) (map_to_list m).

(** The text up to the first slash, if there is one. *)
Fixpoint up_to_slash (s : string) : option string :=
  match s with
  | EmptyString => None
  | String c rest =>
      if bool_decide (c = "/"%char) then Some (String c EmptyString)
      else String c <$> up_to_slash rest
  end.

Definition common_prefixes (prefix : string) (keys : list string) : list string :=
  remove_dups (omap (fun k => (fun d => prefix +:+ d) <$> up_to_slash (TrimPrefix k prefix)) keys).

Definition memory_list (bucket prefix : string) (delimiter token : option string) (m : memory) :
  (ListObjectsV2Output + error) * memory :=
  let keys := keys_under bucket prefix m in
  (inl (match delimiter with
        | None => mkListObjectsV2Output (Some <$> keys) [] None None
        | Some _ => mkListObjectsV2Output [] (Some <$> common_prefixes prefix keys) None None
        end), m).

Definition memory_delete (bucket : string) (keys : list string) (m : memory) : memory :=
  foldr (fun k m => delete (bucket, k) m) m keys.

Definition memory_s3 : S3Client memory := mkS3Client memory
  (fun bucket key data m => (None, <[(bucket, key) := data]> m))
  (fun bucket key m =>
     (match m !! (bucket, key) with Some d => inl d | None => inr (OtherError "NoSuchKey") end, m))
  memory_list
  (fun bucket keys m => (inl [], memory_delete bucket keys m))
  (fun m => (repeat_char (S (longest m)), m))
  (fun m => ("20250102", m)).

(** ** Its behaviour *)

Lemma elem_of_keys_under bucket prefix m k :
  k ∈ keys_under bucket prefix m <-> HasPrefix k prefix = true /\ is_Some (m !! (bucket, k)).
Proof.
  unfold keys_under. rewrite list_elem_of_omap. split.
  - intros ([[b' k'] d] & Hin & Hk). cbn [fst snd] in Hk. case_bool_decide as Hb; [|done].
    rewrite andb_true_l in Hk.
    destruct (HasPrefix k' prefix) eqn:Hp; [|done]. injection Hk as ->. subst b'.
    split; [done|]. apply elem_of_map_to_list in Hin. by exists d.
  - intros [Hp [d Hd]]. exists ((bucket, k), d). split; [by apply elem_of_map_to_list|].
    cbn [fst snd]. by rewrite bool_decide_true, Hp by done.
Qed.

Lemma lookup_memory_delete bucket keys m b k :
  memory_delete bucket keys m !! (b, k) = if decide (b = bucket /\ k ∈ keys) then None else m !! (b, k).
Proof.
  unfold memory_delete in *.
  induction keys as [|k0 keys IH]; cbn [foldr]; [by rewrite decide_False by set_solver|].
  destruct (decide ((bucket, k0) = (b, k))) as [[= -> ->]|Hne].
    rewrite lookup_delete_eq, decide_True; [done|]. by split; [|left].
  - rewrite lookup_delete_ne, IH by done.
    destruct (decide (b = bucket /\ k ∈ keys)) as [[-> Hin]|Hn].
    + rewrite decide_True; [done|]. by split; [|right].
    + rewrite decide_False; [done|]. intros [-> [->|Hin]%elem_of_cons]; [done|]. by apply Hn.
Qed.

Lemma longest_key m b k : is_Some (m !! (b, k)) -> String.length k <= longest m.
Proof.
  intros [d Hd%elem_of_map_to_list]. unfold longest.
  induction (map_to_list m) as [|kv l IH]; cbn; [by apply elem_of_nil in Hd|].
  apply elem_of_cons in Hd as [<-|Hd]; cbn; [lia|]. specialize (IH Hd). lia.
Qed.

Lemma length_repeat_char n : String.length (repeat_char n) = n.
Proof. induction n; cbn; congruence. Qed.

#[export] Instance memory_lawful : LawfulS3 memory_s3.
Proof.
  refine {| objects := fun m : memory => m; covers := fun _ _ => True |}; cbn.
  - done.
  - by intros bucket key data w w' [= <-].
  - done.
  - intros bucket key w r w' [= <- <-]. split; [done|]. intros d.
    destruct (w !! (bucket, key)); [by intros [= ->] | done].
  - by intros bucket prefix delim token w r w' [= _ <-].
  - intros bucket prefix token w r w' [= <- _]. cbn.
    assert (omap id (Some <$> keys_under bucket prefix w) = keys_under bucket prefix w) as Hk
      by (induction (keys_under bucket prefix w) as [|k l IH]; [done|]; cbn; by rewrite <- IH at 2).
    rewrite Hk. split_and!; [|by intros k Hp Hs _; left; apply elem_of_keys_under | done].
    intros k. apply elem_of_keys_under.
  - intros bucket keys w r w' [= _ <-]. split.
    + apply map_subseteq_spec. intros [b k] d. rewrite lookup_memory_delete. by case_decide.
    + intros b k Hne. rewrite lookup_memory_delete, decide_False; [done|]. by intros [-> ?]; destruct Hne.
  - intros bucket keys w w' [= <-] k Hk. by rewrite lookup_memory_delete, decide_True.
  - intros w u w' [= <- <-]. split; [done|]. intros bucket p.
    apply eq_None_not_Some. intros Hs%longest_key. rewrite !str_app_length in Hs.
    change (String "u" (repeat_char (longest w))) with (repeat_char (S (longest w))) in Hs.
    rewrite length_repeat_char in Hs. lia.
  - by intros w t w' [= _ <-].
Defined.

(** The store on it: one bucket, which is the active one. *)
Definition memory_config : BlobStorageConfig :=
  mkBlobStorageConfig StorageStatusActive "s3" StorageTypeS3 "http://localhost:9000" "bucket"
    "us-east-1" "key" "secret" EmptyString.
Definition memory_blobStore : blobStoreImpl memory :=
  mkblobStoreImpl memory_s3 "ns/" memory_config {[ "s3" := memory_config ]}.
Definition memory_store (fuel : nat) : BlobStore memory := blobStore_of memory_blobStore fuel.

Lemma memory_readable : readable_store memory_blobStore.
Proof. exists memory_config. split; [reflexivity | done]. Qed.

#[export] Instance memory_lawful_store (fuel : nat) : LawfulStore (memory_store fuel) :=
  @s3_lawful_store memory memory_blobStore memory_lawful fuel memory_readable.
