(* ===== verification/WorkerApi.v ===== *)
(** * Calls of the worker

    What a call of the generated HTTP client returns, the worker's url
    (service/common/urlautofix), and the call of a worker's RPC
    (service/common/rpc/invoke.go).  The client, the environment variables and
    the decoder of the worker's error body are parameters. *)

From S2P Require Export S3Store Compat.

(** ** Results of the generated client *)

Record http_response : Type := mkhttp_response {
  hr_StatusCode : Z;
  hr_Body : string + error            (* io.ReadAll(httpResp.Body) *)
}.

(** [resp, httpResp, err := req.Execute()]; of the error, what [err.Error()] says. *)
Record api_result (A : Type) : Type := mkapi_result {
  ar_resp : option A;
  ar_http : option http_response;
  ar_err : option string
}.
Arguments mkapi_result {A} _ _ _.
Arguments ar_resp {A} _.
Arguments ar_http {A} _.
Arguments ar_err {A} _.

(** The function of activityImpl.go; utils.go has it too. *)
Definition checkHttpError (err : option string) (httpResp : option http_response) : bool :=
  CheckHttpError (is_set err) (hr_StatusCode <$> httpResp).

(** ** urlautofix *)

(** [strings.Replace(s, old, new, 1)] for a non-empty [old]. *)
Fixpoint replace_first (old new s : string) : string :=
  if HasPrefix s old then new +:+ TrimPrefix s old
  else match s with
       | EmptyString => EmptyString
       | String c s' => String c (replace_first old new s')
       end.

(** [strings.TrimRight(s, "/")]. *)
Fixpoint trim_slashes (s : string) : string :=
  match s with
  | EmptyString => EmptyString
  | String c s' =>
      match trim_slashes s' with
      | EmptyString => if bool_decide (c = "/"%char) then EmptyString else String c EmptyString
      | t => String c t
      end
  end.

Definition DefaultFixWorkerUrlFunc (Getenv : string -> string) (url : string) : string :=
  let autofixUrl := Getenv "AUTO_FIX_WORKER_URL" in
  let url :=
    if bool_decide (autofixUrl <> EmptyString) then
      let url := replace_first "localhost" autofixUrl url in
      replace_first "127.0.0.1" autofixUrl url
    else url in
  let autofixPortEnv := Getenv "AUTO_FIX_WORKER_PORT_FROM_ENV" in
  let url :=
    if bool_decide (autofixPortEnv <> EmptyString) then
      let envVal := Getenv autofixPortEnv in
      replace_first ("$" +:+ autofixPortEnv +:+ "$") envVal url
    else url in
  trim_slashes url.

(** ** rpc/invoke.go *)

Record WorkerErrorResponse : Type := mkWorkerErrorResponse {
  we_Detail : option string;
  we_ErrorType : option string
}.

Definition HttpStatusCodeSpecial4xxError1 : Z := 420.

(** The text of an error that is not an application error. *)
Definition error_text (e : error) : string :=
  match e with
  | OtherError msg => msg
  | ApplicationError _ (DetailsString msg) => msg
  | ApplicationError _ (DetailsOutputs _) => EmptyString
  end.

Section rpc.
Context {W : Type}.
Context (FixWorkerUrl : string -> string).
Context (json_Unmarshal : string -> option WorkerErrorResponse).
(** The worker's endpoint: url, deadline (unix seconds), request. *)
Context (ApiV1WorkflowWorkerRpcPost :
  string -> Z -> WorkflowWorkerRpcRequest -> W -> api_result WorkflowWorkerRpcResponse * W).
Context (time_Now_Unix : W -> Z * W).

(** [detailedMessage := err.Error()] comes first: a nil error panics. *)
Definition handleWorkerRpcResponseError (err : option string) (httpResp : option http_response) :
  gores ErrorAndStatus :=
  detailedMessage ← deref err;
  let '(detailedMessage, originalStatusCode, workerError) :=
    match httpResp with
    | None => (detailedMessage, 0%Z, mkWorkerErrorResponse None None)
    | Some r =>
        match hr_Body r with
        | inr _ => ("cannot read body from http response", hr_StatusCode r,
                    mkWorkerErrorResponse None None)
        | inl body =>
            match json_Unmarshal body with
            | None => ("unable to decode worker response body to WorkerErrorResponse: body" +:+ body,
                       hr_StatusCode r, mkWorkerErrorResponse None None)
            | Some workerError =>
                ("worker API error, status:" +:+ pretty (hr_StatusCode r) +:+ ", errorType:"
                 +:+ default EmptyString (we_ErrorType workerError), hr_StatusCode r, workerError)
            end
        end
    end in
  Ret (NewErrorAndStatusWithWorkerError HttpStatusCodeSpecial4xxError1 WORKER_API_ERROR
         detailedMessage (default EmptyString (we_Detail workerError))
         (default EmptyString (we_ErrorType workerError)) (wrap32 originalStatusCode)).

(** [return nil, handleWorkerRpcResponseError(err, httpResp)]. *)
Definition rpc_fail {A} (err : option string) (httpResp : option http_response) :
  M W (A + ErrorAndStatus) :=
  e ← liftM (handleWorkerRpcResponseError err httpResp); mret (inr e).

Definition closing_not_supported : string := "closing workflow in RPC is not supported yet".

Definition InvokeWorkerRpc (ctxDeadline : option Z) (rpcPrep : PrepareRpcQueryResponse)
  (req : WorkflowRpcRequest) (apiMaxSeconds : Z) (blobStore : option (BlobStore W))
  (externalStorageConfig : ExternalStorageConfig) :
  M W (option WorkflowWorkerRpcResponse + ErrorAndStatus) :=
  let iwfWorkerBaseUrl := FixWorkerUrl (pq_IwfWorkerUrl rpcPrep) in
  '(dataObjects, err) ← LoadDataObjectsFromExternalStorage blobStore (pq_DataObjects rpcPrep);
  match err with
  | Some err => rpc_fail (Some (error_text err)) None
  | None =>
  now ← outside time_Now_Unix;
  let deadline := TrimContextByTimeoutWithCappedDDL now ctxDeadline (TimeoutSeconds req) apiMaxSeconds in
  let workerRequest :=
    mkWorkflowWorkerRpcRequest
      (mkContext (rpc_WorkflowId req) (pq_WorkflowRunId rpcPrep) (pq_WorkflowStartedTimestamp rpcPrep)
         None None None)
      (pq_IwfWorkflowType rpcPrep) (RpcName req) (rpc_Input req) (pq_SearchAttributes rpcPrep)
      dataObjects (Some (pq_SignalChannelInfo rpcPrep)) (Some (pq_InternalChannelInfo rpcPrep)) in
  result ← outside (ApiV1WorkflowWorkerRpcPost iwfWorkerBaseUrl deadline workerRequest);
  if checkHttpError (ar_err result) (ar_http result)
  then rpc_fail (ar_err result) (ar_http result)
  else
    let decision := default (mkStateDecision [] None) (ar_resp result ≫= wr_StateDecision) in
    if is_set (ConditionalClose decision) then rpc_fail (Some closing_not_supported) None
    else
      resp ← liftM (deref (ar_resp result));
      (* a nil slice has no elements: nothing is written *)
      '(upserts, err) ← WriteDataObjectsToExternalStorage blobStore (wr_UpsertDataAttributes resp)
                          (rpc_WorkflowId req) (ThresholdInBytes externalStorageConfig)
                          (Enabled externalStorageConfig);
      match err with
      | Some err => rpc_fail (Some (error_text err)) None
      | None =>
          if existsb (fun st => is_closing_state (StateId st)) (NextStates decision)
          then rpc_fail (Some closing_not_supported) None
          else mret (inl (Some (mkWorkflowWorkerRpcResponse (wr_Output resp) (wr_StateDecision resp)
                 (wr_UpsertSearchAttributes resp) upserts (wr_RecordEvents resp)
                 (wr_UpsertStateLocals resp) (wr_PublishToInterStateChannel resp))))
      end
  end.

End rpc.

(** ** What an RPC gives back *)

Section rpc_facts.
Context {W : Type} (FixWorkerUrl : string -> string).
Context (json_Unmarshal : string -> option WorkerErrorResponse).
Context (post : string -> Z -> WorkflowWorkerRpcRequest -> W ->
                api_result WorkflowWorkerRpcResponse * W).
Context (time_Now_Unix : W -> Z * W).

Lemma rpc_fail_inr {A} err httpResp (w : W) (r : A + ErrorAndStatus) w' :
  rpc_fail json_Unmarshal err httpResp w = Ret (r, w') -> exists e, r = inr e.
Proof. unfold rpc_fail. intros H. step H as e Ee. step_done H. eauto. Qed.

(** An RPC can neither close the workflow nor start a closing state: an answer
    that InvokeWorkerRpc returns has no conditional close and no closing state
    among its next states, its status was 200, and its decision is the worker's. *)
Lemma rpc_never_closes ddl rpcPrep req maxSeconds store cfg w r w' :
  InvokeWorkerRpc FixWorkerUrl json_Unmarshal post time_Now_Unix ddl rpcPrep req maxSeconds store cfg w
    = Ret (inl r, w') ->
  exists resp, r = Some resp /\
    (forall d, wr_StateDecision resp = Some d ->
       ConditionalClose d = None /\ Forall (fun s => is_closing_state (StateId s) = false) (NextStates d)) /\
    exists url deadline request w1, let result := fst (post url deadline request w1) in
      ar_err result = None /\
      (forall hr, ar_http result = Some hr -> hr_StatusCode hr = 200%Z) /\
      (ar_resp result ≫= wr_StateDecision) = wr_StateDecision resp.
Proof.
  unfold InvokeWorkerRpc. intros H. step H as loaded El. destruct loaded as [objs [err|]];
    [by destruct (rpc_fail_inr _ _ _ _ _ H) as [? [=]]|].
  step H as now En. step H as result Er.
  destruct (checkHttpError _ _) eqn:Ec; [by destruct (rpc_fail_inr _ _ _ _ _ H) as [? [=]]|].
  destruct (is_set (ConditionalClose _)) eqn:Ecc; [by destruct (rpc_fail_inr _ _ _ _ _ H) as [? [=]]|].
  step H as resp Ed. destruct (ar_resp result) as [resp'|] eqn:Eresp; [injection Ed as ->|done].
  step H as written Ew. destruct written as [ups [err|]];
    [by destruct (rpc_fail_inr _ _ _ _ _ H) as [? [=]]|].
  destruct (existsb _ _) eqn:Eex; [by destruct (rpc_fail_inr _ _ _ _ _ H) as [? [=]]|].
  step_done H. injection H as <-. eexists. split; [done|]. split.
  - intros d Hd. cbn in Hd, Ecc, Eex. rewrite Hd in Ecc, Eex. cbn in Ecc, Eex. split.
    + by destruct (ConditionalClose d).
    + apply Forall_forall. intros s Hs. apply not_true_iff_false. intros Ht.
      apply not_true_iff_false in Eex. apply Eex, existsb_exists. exists s.
      split; [by apply list_elem_of_In | done].
  - eexists _, _, _, _. rewrite Er. cbn. unfold checkHttpError, CheckHttpError in Ec.
    apply orb_false_iff in Ec as [Ee Ec]. split_and!; [by destruct (ar_err result)| |by rewrite Eresp].
    intros hr Ehr. rewrite Ehr in Ec. cbn in Ec. by apply negb_false_iff, Z.eqb_eq in Ec.
Qed.

End rpc_facts.
