(* ===== verification/IdlJson.v ===== *)
(** * The data model as JSON

    What [ToMap], [MarshalJSON], [UnmarshalJSON] and the tags of the structs of
    gen/iwfidl make of the types of Idl.v.  An enumeration is decoded only to one of
    its allowed values.  The types that have no constructor for other strings are
    read by clients and workers; their zero stands for the empty string. *)

From S2P Require Export Compat Provider Json.

(** ** Enumerations *)

#[export] Instance EventType_eq_dec : EqDecision EventType.
Proof. solve_decision. Defined.
#[export] Instance TimerStatus_eq_dec : EqDecision TimerStatus.
Proof. solve_decision. Defined.
#[export] Instance ChannelRequestStatus_eq_dec : EqDecision ChannelRequestStatus.
Proof. solve_decision. Defined.
#[export] Instance ErrorSubStatus_eq_dec : EqDecision ErrorSubStatus.
Proof. solve_decision. Defined.
#[export] Instance IDReusePolicy_eq_dec : EqDecision IDReusePolicy.
Proof. solve_decision. Defined.
#[export] Instance WorkflowIDReusePolicy_eq_dec : EqDecision WorkflowIDReusePolicy.
Proof. solve_decision. Defined.

Definition SearchAttributeValueType_enum : enumeration SearchAttributeValueType := {|
  enum_text v :=
    match v with
    | KEYWORD => "KEYWORD"
    | TEXT => "TEXT"
    | DATETIME => "DATETIME"
    | INT => "INT"
    | DOUBLE => "DOUBLE"
    | BOOL => "BOOL"
    | KEYWORD_ARRAY => "KEYWORD_ARRAY"
    | SearchAttributeValueType_other s => s
    end;
  enum_allowed := [KEYWORD; TEXT; DATETIME; INT; DOUBLE; BOOL; KEYWORD_ARRAY];
  enum_zero := SearchAttributeValueType_other EmptyString
|}.
#[export] Instance SearchAttributeValueType_law : EnumLaw SearchAttributeValueType_enum.
Proof. enum_law. Qed.

Definition PersistenceLoadingType_enum : enumeration PersistenceLoadingType := {|
  enum_text v :=
    match v with
    | PersistenceLoadingType_empty => EmptyString
    | ALL_WITHOUT_LOCKING => "LOAD_ALL_WITHOUT_LOCKING"
    | PARTIAL_WITHOUT_LOCKING => "LOAD_PARTIAL_WITHOUT_LOCKING"
    | PARTIAL_WITH_EXCLUSIVE_LOCK => "LOAD_PARTIAL_WITH_EXCLUSIVE_LOCK"
    | NONE => "LOAD_NONE"
    | ALL_WITH_PARTIAL_LOCK => "LOAD_ALL_WITH_PARTIAL_LOCK"
    | PersistenceLoadingType_other s => s
    end;
  enum_allowed := [ALL_WITHOUT_LOCKING; PARTIAL_WITHOUT_LOCKING; PARTIAL_WITH_EXCLUSIVE_LOCK;
    NONE; ALL_WITH_PARTIAL_LOCK];
  enum_zero := PersistenceLoadingType_empty
|}.
#[export] Instance PersistenceLoadingType_law : EnumLaw PersistenceLoadingType_enum.
Proof. enum_law. Qed.

Definition EventType_enum : enumeration EventType := {|
  enum_text v :=
    match v with
    | STATE_EXECUTE_ATTEMPT_FAIL_EVENT => "STATE_EXECUTE_ATTEMPT_FAIL_EVENT"
    | STATE_EXECUTE_ATTEMPT_SUCC_EVENT => "STATE_EXECUTE_ATTEMPT_SUCC_EVENT"
    | STATE_EXECUTE_EE_COMPLETE_EVENT => "STATE_EXECUTE_EE_COMPLETE_EVENT"
    | STATE_EXECUTE_EE_FAIL_EVENT => "STATE_EXECUTE_EE_FAIL_EVENT"
    | STATE_EXECUTE_EE_START_EVENT => "STATE_EXECUTE_EE_START_EVENT"
    | STATE_WAIT_UNTIL_ATTEMPT_FAIL_EVENT => "STATE_WAIT_UNTIL_ATTEMPT_FAIL_EVENT"
    | STATE_WAIT_UNTIL_ATTEMPT_SUCC_EVENT => "STATE_WAIT_UNTIL_ATTEMPT_SUCC_EVENT"
    | STATE_WAIT_UNTIL_EE_COMPLETE_EVENT => "STATE_WAIT_UNTIL_EE_COMPLETE_EVENT"
    | STATE_WAIT_UNTIL_EE_FAIL_EVENT => "STATE_WAIT_UNTIL_EE_FAIL_EVENT"
    | STATE_WAIT_UNTIL_EE_START_EVENT => "STATE_WAIT_UNTIL_EE_START_EVENT"
    | WORKFLOW_COMPLETE_EVENT => "WORKFLOW_COMPLETE_EVENT"
    | WORKFLOW_FAIL_EVENT => "WORKFLOW_FAIL_EVENT"
    | WORKFLOW_START_EVENT => "WORKFLOW_START_EVENT"
    | RPC_EXECUTION_EVENT => "RPC_EXECUTION_EVENT"
    end;
  enum_allowed := [STATE_EXECUTE_ATTEMPT_FAIL_EVENT; STATE_EXECUTE_ATTEMPT_SUCC_EVENT; STATE_EXECUTE_EE_COMPLETE_EVENT;
    STATE_EXECUTE_EE_FAIL_EVENT; STATE_EXECUTE_EE_START_EVENT; STATE_WAIT_UNTIL_ATTEMPT_FAIL_EVENT;
    STATE_WAIT_UNTIL_ATTEMPT_SUCC_EVENT; STATE_WAIT_UNTIL_EE_COMPLETE_EVENT; STATE_WAIT_UNTIL_EE_FAIL_EVENT;
    STATE_WAIT_UNTIL_EE_START_EVENT; WORKFLOW_COMPLETE_EVENT; WORKFLOW_FAIL_EVENT; WORKFLOW_START_EVENT;
    RPC_EXECUTION_EVENT];
  enum_zero := STATE_EXECUTE_ATTEMPT_FAIL_EVENT
|}.
#[export] Instance EventType_law : EnumLaw EventType_enum.
Proof. enum_law. Qed.

Definition DeciderTriggerType_enum : enumeration DeciderTriggerType := {|
  enum_text v :=
    match v with
    | ALL_COMMAND_COMPLETED => "ALL_COMMAND_COMPLETED"
    | ANY_COMMAND_COMPLETED => "ANY_COMMAND_COMPLETED"
    | ANY_COMMAND_COMBINATION_COMPLETED => "ANY_COMMAND_COMBINATION_COMPLETED"
    | DeciderTriggerType_other s => s
    end;
  enum_allowed := [ALL_COMMAND_COMPLETED; ANY_COMMAND_COMPLETED;
    ANY_COMMAND_COMBINATION_COMPLETED];
  enum_zero := DeciderTriggerType_other EmptyString
|}.
#[export] Instance DeciderTriggerType_law : EnumLaw DeciderTriggerType_enum.
Proof. enum_law. Qed.

Definition CommandWaitingType_enum : enumeration CommandWaitingType := {|
  enum_text v :=
    match v with
    | ALL_COMPLETED => "ALL_COMPLETED"
    | ANY_COMPLETED => "ANY_COMPLETED"
    | ANY_COMBINATION_COMPLETED => "ANY_COMBINATION_COMPLETED"
    | CommandWaitingType_other s => s
    end;
  enum_allowed := [ALL_COMPLETED; ANY_COMPLETED; ANY_COMBINATION_COMPLETED];
  enum_zero := CommandWaitingType_other EmptyString
|}.
#[export] Instance CommandWaitingType_law : EnumLaw CommandWaitingType_enum.
Proof. enum_law. Qed.

Definition ExecutingStateIdMode_enum : enumeration ExecutingStateIdMode := {|
  enum_text v :=
    match v with
    | ENABLED_FOR_ALL => "ENABLED_FOR_ALL"
    | ENABLED_FOR_STATES_WITH_WAIT_UNTIL => "ENABLED_FOR_STATES_WITH_WAIT_UNTIL"
    | DISABLED => "DISABLED"
    | ExecutingStateIdMode_other s => s
    end;
  enum_allowed := [ENABLED_FOR_ALL; ENABLED_FOR_STATES_WITH_WAIT_UNTIL; DISABLED];
  enum_zero := ExecutingStateIdMode_other EmptyString
|}.
#[export] Instance ExecutingStateIdMode_law : EnumLaw ExecutingStateIdMode_enum.
Proof. enum_law. Qed.

Definition WorkflowConditionalCloseType_enum : enumeration WorkflowConditionalCloseType := {|
  enum_text v :=
    match v with
    | FORCE_COMPLETE_ON_INTERNAL_CHANNEL_EMPTY => "FORCE_COMPLETE_ON_INTERNAL_CHANNEL_EMPTY"
    | FORCE_COMPLETE_ON_SIGNAL_CHANNEL_EMPTY => "FORCE_COMPLETE_ON_SIGNAL_CHANNEL_EMPTY"
    | GRACEFUL_COMPLETE_ON_ALL_CHANNELS_EMPTY => "GRACEFUL_COMPLETE_ON_ALL_CHANNELS_EMPTY"
    | WorkflowConditionalCloseType_other s => s
    end;
  enum_allowed := [FORCE_COMPLETE_ON_INTERNAL_CHANNEL_EMPTY;
    FORCE_COMPLETE_ON_SIGNAL_CHANNEL_EMPTY; GRACEFUL_COMPLETE_ON_ALL_CHANNELS_EMPTY];
  enum_zero := WorkflowConditionalCloseType_other EmptyString
|}.
#[export] Instance WorkflowConditionalCloseType_law : EnumLaw WorkflowConditionalCloseType_enum.
Proof. enum_law. Qed.

Definition StartApiFailurePolicy_enum : enumeration StartApiFailurePolicy := {|
  enum_text v :=
    match v with
    | FAIL_WORKFLOW_ON_START_API_FAILURE => "FAIL_WORKFLOW_ON_START_API_FAILURE"
    | PROCEED_TO_DECIDE_ON_START_API_FAILURE => "PROCEED_TO_DECIDE_ON_START_API_FAILURE"
    | StartApiFailurePolicy_other s => s
    end;
  enum_allowed := [FAIL_WORKFLOW_ON_START_API_FAILURE; PROCEED_TO_DECIDE_ON_START_API_FAILURE];
  enum_zero := StartApiFailurePolicy_other EmptyString
|}.
#[export] Instance StartApiFailurePolicy_law : EnumLaw StartApiFailurePolicy_enum.
Proof. enum_law. Qed.

Definition WaitUntilApiFailurePolicy_enum : enumeration WaitUntilApiFailurePolicy := {|
  enum_text v :=
    match v with
    | FAIL_WORKFLOW_ON_FAILURE => "FAIL_WORKFLOW_ON_FAILURE"
    | PROCEED_ON_FAILURE => "PROCEED_ON_FAILURE"
    | WaitUntilApiFailurePolicy_other s => s
    end;
  enum_allowed := [FAIL_WORKFLOW_ON_FAILURE; PROCEED_ON_FAILURE];
  enum_zero := WaitUntilApiFailurePolicy_other EmptyString
|}.
#[export] Instance WaitUntilApiFailurePolicy_law : EnumLaw WaitUntilApiFailurePolicy_enum.
Proof. enum_law. Qed.

Definition ExecuteApiFailurePolicy_enum : enumeration ExecuteApiFailurePolicy := {|
  enum_text v :=
    match v with
    | FAIL_WORKFLOW_ON_EXECUTE_API_FAILURE => "FAIL_WORKFLOW_ON_EXECUTE_API_FAILURE"
    | PROCEED_TO_CONFIGURED_STATE => "PROCEED_TO_CONFIGURED_STATE"
    | ExecuteApiFailurePolicy_other s => s
    end;
  enum_allowed := [FAIL_WORKFLOW_ON_EXECUTE_API_FAILURE; PROCEED_TO_CONFIGURED_STATE];
  enum_zero := ExecuteApiFailurePolicy_other EmptyString
|}.
#[export] Instance ExecuteApiFailurePolicy_law : EnumLaw ExecuteApiFailurePolicy_enum.
Proof. enum_law. Qed.

Definition WorkflowErrorType_enum : enumeration WorkflowErrorType := {|
  enum_text v :=
    match v with
    | STATE_DECISION_FAILING_WORKFLOW_ERROR_TYPE => "STATE_DECISION_FAILING_WORKFLOW_ERROR_TYPE"
    | CLIENT_API_FAILING_WORKFLOW_ERROR_TYPE => "CLIENT_API_FAILING_WORKFLOW_ERROR_TYPE"
    | STATE_API_FAIL_ERROR_TYPE => "STATE_API_FAIL_ERROR_TYPE"
    | INVALID_USER_WORKFLOW_CODE_ERROR_TYPE => "INVALID_USER_WORKFLOW_CODE_ERROR_TYPE"
    | RPC_ACQUIRE_LOCK_FAILURE => "RPC_ACQUIRE_LOCK_FAILURE"
    | SERVER_INTERNAL_ERROR_TYPE => "SERVER_INTERNAL_ERROR_TYPE"
    | WorkflowErrorType_other s => s
    end;
  enum_allowed := [STATE_DECISION_FAILING_WORKFLOW_ERROR_TYPE;
    CLIENT_API_FAILING_WORKFLOW_ERROR_TYPE; STATE_API_FAIL_ERROR_TYPE;
    INVALID_USER_WORKFLOW_CODE_ERROR_TYPE; RPC_ACQUIRE_LOCK_FAILURE;
    SERVER_INTERNAL_ERROR_TYPE];
  enum_zero := WorkflowErrorType_other EmptyString
|}.
#[export] Instance WorkflowErrorType_law : EnumLaw WorkflowErrorType_enum.
Proof. enum_law. Qed.

Definition TimerStatus_enum : enumeration TimerStatus := {|
  enum_text v :=
    match v with
    | SCHEDULED => "SCHEDULED"
    | FIRED => "FIRED"
    end;
  enum_allowed := [SCHEDULED; FIRED];
  enum_zero := SCHEDULED
|}.
#[export] Instance TimerStatus_law : EnumLaw TimerStatus_enum.
Proof. enum_law. Qed.

Definition ChannelRequestStatus_enum : enumeration ChannelRequestStatus := {|
  enum_text v :=
    match v with
    | WAITING => "WAITING"
    | RECEIVED => "RECEIVED"
    end;
  enum_allowed := [WAITING; RECEIVED];
  enum_zero := WAITING
|}.
#[export] Instance ChannelRequestStatus_law : EnumLaw ChannelRequestStatus_enum.
Proof. enum_law. Qed.

Definition ErrorSubStatus_enum : enumeration ErrorSubStatus := {|
  enum_text v :=
    match v with
    | UNCATEGORIZED_SUB_STATUS => "UNCATEGORIZED_SUB_STATUS"
    | WORKFLOW_ALREADY_STARTED_SUB_STATUS => "WORKFLOW_ALREADY_STARTED_SUB_STATUS"
    | WORKFLOW_NOT_EXISTS_SUB_STATUS => "WORKFLOW_NOT_EXISTS_SUB_STATUS"
    | WORKER_API_ERROR => "WORKER_API_ERROR"
    | LONG_POLL_TIME_OUT_SUB_STATUS => "LONG_POLL_TIME_OUT_SUB_STATUS"
    end;
  enum_allowed := [UNCATEGORIZED_SUB_STATUS; WORKFLOW_ALREADY_STARTED_SUB_STATUS;
    WORKFLOW_NOT_EXISTS_SUB_STATUS; WORKER_API_ERROR; LONG_POLL_TIME_OUT_SUB_STATUS];
  enum_zero := UNCATEGORIZED_SUB_STATUS
|}.
#[export] Instance ErrorSubStatus_law : EnumLaw ErrorSubStatus_enum.
Proof. enum_law. Qed.

Definition IDReusePolicy_enum : enumeration IDReusePolicy := {|
  enum_text v :=
    match v with
    | ALLOW_IF_PREVIOUS_EXISTS_ABNORMALLY => "ALLOW_IF_PREVIOUS_EXISTS_ABNORMALLY"
    | ALLOW_IF_PREVIOUS_EXITS_ABNORMALLY => "ALLOW_IF_PREVIOUS_EXITS_ABNORMALLY"
    | ALLOW_IF_NO_RUNNING => "ALLOW_IF_NO_RUNNING"
    | DISALLOW_REUSE => "DISALLOW_REUSE"
    | ALLOW_TERMINATE_IF_RUNNING => "ALLOW_TERMINATE_IF_RUNNING"
    | IDReusePolicy_other s => s
    end;
  enum_allowed := [ALLOW_IF_PREVIOUS_EXISTS_ABNORMALLY; ALLOW_IF_PREVIOUS_EXITS_ABNORMALLY;
    ALLOW_IF_NO_RUNNING; DISALLOW_REUSE; ALLOW_TERMINATE_IF_RUNNING];
  enum_zero := IDReusePolicy_other EmptyString
|}.
#[export] Instance IDReusePolicy_law : EnumLaw IDReusePolicy_enum.
Proof. enum_law. Qed.

Definition WorkflowIDReusePolicy_enum : enumeration WorkflowIDReusePolicy := {|
  enum_text v :=
    match v with
    | ALLOW_DUPLICATE_FAILED_ONLY => "ALLOW_DUPLICATE_FAILED_ONLY"
    | ALLOW_DUPLICATE => "ALLOW_DUPLICATE"
    | REJECT_DUPLICATE => "REJECT_DUPLICATE"
    | TERMINATE_IF_RUNNING => "TERMINATE_IF_RUNNING"
    | WorkflowIDReusePolicy_other s => s
    end;
  enum_allowed := [ALLOW_DUPLICATE_FAILED_ONLY; ALLOW_DUPLICATE; REJECT_DUPLICATE;
    TERMINATE_IF_RUNNING];
  enum_zero := WorkflowIDReusePolicy_other EmptyString
|}.
#[export] Instance WorkflowIDReusePolicy_law : EnumLaw WorkflowIDReusePolicy_enum.
Proof. enum_law. Qed.

(** ** Values and attributes *)

Section structs.
Context `{FloatText}.

Definition EncodedObject_codec : codec EncodedObject := struct true (
    construct mkEncodedObject
    ⊛ optional "extStoreId" ExtStoreId string_codec
    ⊛ optional "extPath" ExtPath string_codec
    ⊛ optional "encoding" Encoding string_codec
    ⊛ optional "data" Data string_codec)%json.
#[export] Instance EncodedObject_lawful : Lawful EncodedObject_codec.
Proof. apply struct_lawful. struct_law. Qed.
#[export] Instance EncodedObject_nonnull : NonNull EncodedObject_codec.
Proof. done. Qed.

Definition KeyValue_codec : codec KeyValue := struct true (
    construct mkKeyValue
    ⊛ optional "key" kv_Key string_codec
    ⊛ optional "value" kv_Value EncodedObject_codec)%json.
#[export] Instance KeyValue_lawful : Lawful KeyValue_codec.
Proof. apply struct_lawful. struct_law. Qed.
#[export] Instance KeyValue_nonnull : NonNull KeyValue_codec.
Proof. done. Qed.

Definition SearchAttribute_codec : codec SearchAttribute := struct true (
    construct mkSearchAttribute
    ⊛ optional "key" sa_Key string_codec
    ⊛ optional "stringValue" StringValue string_codec
    ⊛ optional "integerValue" IntegerValue int64_codec
    ⊛ optional "doubleValue" DoubleValue (float_codec 64)
    ⊛ optional "boolValue" BoolValue bool_codec
    ⊛ optional_slice "stringArrayValue" StringArrayValue string_codec
    ⊛ optional "valueType" ValueType (enum_codec SearchAttributeValueType_enum))%json.
#[export] Instance SearchAttribute_lawful : Lawful SearchAttribute_codec.
Proof. apply struct_lawful. struct_law. Qed.
#[export] Instance SearchAttribute_nonnull : NonNull SearchAttribute_codec.
Proof. done. Qed.

Definition SearchAttributeKeyAndType_codec : codec SearchAttributeKeyAndType := struct true (
    construct mkSearchAttributeKeyAndType
    ⊛ optional "key" sakt_Key string_codec
    ⊛ optional "valueType" sakt_ValueType (enum_codec SearchAttributeValueType_enum))%json.
#[export] Instance SearchAttributeKeyAndType_lawful : Lawful SearchAttributeKeyAndType_codec.
Proof. apply struct_lawful. struct_law. Qed.
#[export] Instance SearchAttributeKeyAndType_nonnull : NonNull SearchAttributeKeyAndType_codec.
Proof. done. Qed.

(** ** Policies and state options *)

Definition PersistenceLoadingPolicy_codec : codec PersistenceLoadingPolicy := struct true (
    construct mkPersistenceLoadingPolicy
    ⊛ optional "persistenceLoadingType" plp_PersistenceLoadingType (enum_codec PersistenceLoadingType_enum)
    ⊛ optional_slice "partialLoadingKeys" PartialLoadingKeys string_codec
    ⊛ optional_slice "lockingKeys" LockingKeys string_codec
    ⊛ optional "useKeyAsPrefix" UseKeyAsPrefix bool_codec
    ⊛ optional "lazyLoadingLargeDataAttributes" LazyLoadingLargeDataAttributes bool_codec)%json.
#[export] Instance PersistenceLoadingPolicy_lawful : Lawful PersistenceLoadingPolicy_codec.
Proof. apply struct_lawful. struct_law. Qed.
#[export] Instance PersistenceLoadingPolicy_nonnull : NonNull PersistenceLoadingPolicy_codec.
Proof. done. Qed.

Definition RetryPolicy_codec : codec RetryPolicy := struct true (
    construct mkRetryPolicy
    ⊛ optional "initialIntervalSeconds" InitialIntervalSeconds int32_codec
    ⊛ optional "backoffCoefficient" BackoffCoefficient (float_codec 32)
    ⊛ optional "maximumIntervalSeconds" MaximumIntervalSeconds int32_codec
    ⊛ optional "maximumAttempts" MaximumAttempts int32_codec
    ⊛ optional "maximumAttemptsDurationSeconds" MaximumAttemptsDurationSeconds int32_codec)%json.
#[export] Instance RetryPolicy_lawful : Lawful RetryPolicy_codec.
Proof. apply struct_lawful. struct_law. Qed.
#[export] Instance RetryPolicy_nonnull : NonNull RetryPolicy_codec.
Proof. done. Qed.

(** The options contain options, so their codec is built for a nesting [n]; a value is
    written with its own nesting and read with that of the JSON value. *)
Definition options_fields (self : codec WorkflowStateOptions) :
  fields WorkflowStateOptions WorkflowStateOptions := (
    construct mkWorkflowStateOptions
    ⊛ optional "searchAttributesLoadingPolicy" SearchAttributesLoadingPolicy PersistenceLoadingPolicy_codec
    ⊛ optional "waitUntilApiSearchAttributesLoadingPolicy" WaitUntilApiSearchAttributesLoadingPolicy PersistenceLoadingPolicy_codec
    ⊛ optional "executeApiSearchAttributesLoadingPolicy" ExecuteApiSearchAttributesLoadingPolicy PersistenceLoadingPolicy_codec
    ⊛ optional "dataObjectsLoadingPolicy" DataObjectsLoadingPolicy PersistenceLoadingPolicy_codec
    ⊛ optional "startApiTimeoutSeconds" StartApiTimeoutSeconds int32_codec
    ⊛ optional "decideApiTimeoutSeconds" DecideApiTimeoutSeconds int32_codec
    ⊛ optional "startApiRetryPolicy" StartApiRetryPolicy RetryPolicy_codec
    ⊛ optional "decideApiRetryPolicy" DecideApiRetryPolicy RetryPolicy_codec
    ⊛ optional "startApiFailurePolicy" so_StartApiFailurePolicy (enum_codec StartApiFailurePolicy_enum)
    ⊛ optional "executeApiFailurePolicy" so_ExecuteApiFailurePolicy (enum_codec ExecuteApiFailurePolicy_enum)
    ⊛ optional "executeApiFailureProceedStateId" ExecuteApiFailureProceedStateId string_codec
    ⊛ optional "executeApiFailureProceedStateOptions" ExecuteApiFailureProceedStateOptions self
    ⊛ optional "skipStartApi" SkipStartApi bool_codec
    ⊛ optional "waitUntilApiTimeoutSeconds" WaitUntilApiTimeoutSeconds int32_codec
    ⊛ optional "executeApiTimeoutSeconds" ExecuteApiTimeoutSeconds int32_codec
    ⊛ optional "waitUntilApiRetryPolicy" WaitUntilApiRetryPolicy RetryPolicy_codec
    ⊛ optional "executeApiRetryPolicy" ExecuteApiRetryPolicy RetryPolicy_codec
    ⊛ optional "waitUntilApiFailurePolicy" so_WaitUntilApiFailurePolicy (enum_codec WaitUntilApiFailurePolicy_enum)
    ⊛ optional "skipWaitUntil" SkipWaitUntil bool_codec
    ⊛ optional "dataAttributesLoadingPolicy" DataAttributesLoadingPolicy PersistenceLoadingPolicy_codec
    ⊛ optional "waitUntilApiDataAttributesLoadingPolicy" WaitUntilApiDataAttributesLoadingPolicy PersistenceLoadingPolicy_codec
    ⊛ optional "executeApiDataAttributesLoadingPolicy" ExecuteApiDataAttributesLoadingPolicy PersistenceLoadingPolicy_codec)%json.

Definition no_options : codec WorkflowStateOptions :=
  mkcodec empty_options (fun _ => JObj []) (fun _ _ => None) (fun _ => false).

Fixpoint options_codec (n : nat) : codec WorkflowStateOptions :=
  struct true (options_fields (match n with O => no_options | S n => options_codec n end)).

Fixpoint options_depth (o : WorkflowStateOptions) : nat :=
  match o with
  | mkWorkflowStateOptions _ _ _ _ _ _ _ _ _ _ _ next _ _ _ _ _ _ _ _ _ _ =>
      match next with Some o => S (options_depth o) | None => O end
  end.

Definition WorkflowStateOptions_codec : codec WorkflowStateOptions := {|
  zero := empty_options;
  enc o := enc (options_codec (options_depth o)) o;
  dec j old := dec (options_codec (json_depth j)) j old;
  carries o := carries (options_codec (options_depth o)) o
|}.

Lemma no_options_lawful : Lawful no_options.
Proof. done. Qed.
Lemma options_codec_lawful n : Lawful (options_codec n).
Proof.
  induction n as [|n IH]; cbn [options_codec]; apply struct_lawful; unfold options_fields.
  - pose proof no_options_lawful. assert (NonNull no_options) by done. struct_law.
  - assert (NonNull (options_codec n)) by (destruct n; done). struct_law.
Qed.

Lemma options_depth_eq o :
  options_depth o =
  match ExecuteApiFailureProceedStateOptions o with Some o' => S (options_depth o') | None => O end.
Proof. by destruct o. Qed.

(** The options in the options are the only use of the inner codec. *)
Lemma options_ext c1 c2 o :
  (forall o', ExecuteApiFailureProceedStateOptions o = Some o' ->
     enc c1 o' = enc c2 o' /\ carries c1 o' = carries c2 o') ->
  enc (struct true (options_fields c1)) o = enc (struct true (options_fields c2)) o /\
  carries (struct true (options_fields c1)) o = carries (struct true (options_fields c2)) o.
Proof.
  intros Hself. set (proceed := "executeApiFailureProceedStateOptions").
  assert (field_members (optional proceed ExecuteApiFailureProceedStateOptions c1) o =
          field_members (optional proceed ExecuteApiFailureProceedStateOptions c2) o) as Hm.
  { unfold field_members. cbn. destruct (ExecuteApiFailureProceedStateOptions o) as [o'|]; [|done].
    by rewrite (proj1 (Hself o' eq_refl)). }
  assert (carries (ptr c1) (ExecuteApiFailureProceedStateOptions o) =
          carries (ptr c2) (ExecuteApiFailureProceedStateOptions o)) as Hc.
  { cbn. destruct (ExecuteApiFailureProceedStateOptions o) as [o'|]; [|done]. apply (Hself o' eq_refl). }
  unfold options_fields. split.
  - unfold struct. cbn [enc members]. fold proceed. by rewrite Hm.
  - cbn [struct carries fields_carry f_codec f_get optional]. cbn [optional f_codec f_get] in *. by rewrite Hc.
Qed.

Lemma options_codec_nesting n m o :
  options_depth o <= n -> options_depth o <= m ->
  enc (options_codec n) o = enc (options_codec m) o /\
  carries (options_codec n) o = carries (options_codec m) o.
Proof.
  revert m o. induction n as [|n IH]; intros m o Hn Hm; rewrite options_depth_eq in Hn, Hm;
    destruct m as [|m]; cbn [options_codec]; apply options_ext; intros o' Ho'; rewrite Ho' in Hn, Hm; try lia.
  apply IH; lia.
Qed.

(** The JSON value of options is nested at least as deep. *)
Lemma options_json_depth n o :
  options_depth o <= n -> options_depth o <= json_depth (enc (options_codec n) o).
Proof.
  revert o. induction n as [|n IH]; intros o Hn; rewrite options_depth_eq in Hn |- *;
    destruct (ExecuteApiFailureProceedStateOptions o) as [o'|] eqn:Eo; try lia.
  specialize (IH o' ltac:(lia)). cbn [options_codec struct enc json_depth]. apply le_n_S.
  etrans; [exact IH|].
  assert (("executeApiFailureProceedStateOptions", enc (options_codec n) o') ∈
          members (options_fields (options_codec n)) o) as Hin.
  { assert (field_members (optional "executeApiFailureProceedStateOptions"
      ExecuteApiFailureProceedStateOptions (options_codec n)) o =
      [("executeApiFailureProceedStateOptions", enc (options_codec n) o')]) as Hf
      by (unfold field_members; cbn; by rewrite Eo).
    unfold options_fields. cbn [members]. rewrite Hf.
    do 10 (apply elem_of_app; left). apply elem_of_app. right. left. }
  assert (("executeApiFailureProceedStateOptions", enc (options_codec n) o') ∈
          sort_members (members (options_fields (options_codec n)) o)) as Hin'.
  { unfold sort_members. by rewrite merge_sort_Permutation. }
  revert Hin'. generalize (sort_members (members (options_fields (options_codec n)) o)).
  generalize (enc (options_codec n) o'). clear. intros j ms Hin.
  induction ms as [|m ms IH]; [by apply elem_of_nil in Hin|].
  apply elem_of_cons in Hin as [<-|Hin]; cbn [foldr]; [cbn; lia|]. specialize (IH Hin). lia.
Qed.

#[export] Instance WorkflowStateOptions_lawful : Lawful WorkflowStateOptions_codec.
Proof.
  intros o Ho. cbn [WorkflowStateOptions_codec enc dec zero carries] in *.
  set (d := options_depth o) in *. set (m := json_depth _).
  assert (d <= m) as Hm by (by apply options_json_depth).
  destruct (options_codec_nesting d m o) as [He Hc]; [done..|].
  split; [|by apply options_codec_lawful]. rewrite He, Hc in *.
  destruct (options_codec_lawful m o Ho) as [Hd _]. destruct m; exact Hd.
Qed.
#[export] Instance WorkflowStateOptions_nonnull : NonNull WorkflowStateOptions_codec.
Proof. intros o. cbn. by destruct (options_depth o). Qed.

(** ** The error of an event *)

Record IwfEventError : Type := mkIwfEventError { ee_Type : option string; ee_Details : option string }.
Definition IwfEventError_codec : codec IwfEventError := struct true (
    construct mkIwfEventError
    ⊛ optional "type" ee_Type string_codec
    ⊛ optional "details" ee_Details string_codec)%json.
#[export] Instance IwfEventError_lawful : Lawful IwfEventError_codec.
Proof. apply struct_lawful. struct_law. Qed.
#[export] Instance IwfEventError_nonnull : NonNull IwfEventError_codec.
Proof. done. Qed.

(** ** States and decisions *)

Definition StateMovement_codec : codec StateMovement := struct true (
    construct mkStateMovement
    ⊛ required "stateId" StateId string_codec
    ⊛ optional "stateInput" StateInput EncodedObject_codec
    ⊛ optional "stateOptions" StateOptions WorkflowStateOptions_codec
    ⊛ optional "waitForKey" WaitForKey string_codec)%json.
#[export] Instance StateMovement_lawful : Lawful StateMovement_codec.
Proof. apply struct_lawful. struct_law. Qed.
#[export] Instance StateMovement_nonnull : NonNull StateMovement_codec.
Proof. done. Qed.

Definition WorkflowConditionalClose_codec : codec WorkflowConditionalClose := struct true (
    construct mkWorkflowConditionalClose
    ⊛ optional "conditionalCloseType" ConditionalCloseType (enum_codec WorkflowConditionalCloseType_enum)
    ⊛ optional "channelName" cc_ChannelName string_codec
    ⊛ optional "closeInput" CloseInput EncodedObject_codec)%json.
#[export] Instance WorkflowConditionalClose_lawful : Lawful WorkflowConditionalClose_codec.
Proof. apply struct_lawful. struct_law. Qed.
#[export] Instance WorkflowConditionalClose_nonnull : NonNull WorkflowConditionalClose_codec.
Proof. done. Qed.

Definition StateDecision_codec : codec StateDecision := struct true (
    construct mkStateDecision
    ⊛ optional_slice "nextStates" NextStates StateMovement_codec
    ⊛ optional "conditionalClose" ConditionalClose WorkflowConditionalClose_codec)%json.
#[export] Instance StateDecision_lawful : Lawful StateDecision_codec.
Proof. apply struct_lawful. struct_law. Qed.
#[export] Instance StateDecision_nonnull : NonNull StateDecision_codec.
Proof. done. Qed.

Definition StateCompletionOutput_codec : codec StateCompletionOutput := struct true (
    construct mkStateCompletionOutput
    ⊛ required "completedStateId" CompletedStateId string_codec
    ⊛ required "completedStateExecutionId" CompletedStateExecutionId string_codec
    ⊛ optional "completedStateOutput" CompletedStateOutput EncodedObject_codec)%json.
#[export] Instance StateCompletionOutput_lawful : Lawful StateCompletionOutput_codec.
Proof. apply struct_lawful. struct_law. Qed.
#[export] Instance StateCompletionOutput_nonnull : NonNull StateCompletionOutput_codec.
Proof. done. Qed.

Definition InterStateChannelPublishing_codec : codec InterStateChannelPublishing := struct true (
    construct mkInterStateChannelPublishing
    ⊛ required "channelName" pub_ChannelName string_codec
    ⊛ optional "value" pub_Value EncodedObject_codec)%json.
#[export] Instance InterStateChannelPublishing_lawful : Lawful InterStateChannelPublishing_codec.
Proof. apply struct_lawful. struct_law. Qed.
#[export] Instance InterStateChannelPublishing_nonnull : NonNull InterStateChannelPublishing_codec.
Proof. done. Qed.

Definition ChannelInfo_codec : codec ChannelInfo := struct true (
    construct mkChannelInfo
    ⊛ optional "size" Size int32_codec)%json.
#[export] Instance ChannelInfo_lawful : Lawful ChannelInfo_codec.
Proof. apply struct_lawful. struct_law. Qed.
#[export] Instance ChannelInfo_nonnull : NonNull ChannelInfo_codec.
Proof. done. Qed.

(** ** Commands *)

Definition TimerCommand_codec : codec TimerCommand := struct true (
    construct mkTimerCommand
    ⊛ optional "commandId" tc_CommandId string_codec
    ⊛ optional "firingUnixTimestampSeconds" FiringUnixTimestampSeconds int64_codec
    ⊛ optional "durationSeconds" DurationSeconds int64_codec)%json.
#[export] Instance TimerCommand_lawful : Lawful TimerCommand_codec.
Proof. apply struct_lawful. struct_law. Qed.
#[export] Instance TimerCommand_nonnull : NonNull TimerCommand_codec.
Proof. done. Qed.

Definition SignalCommand_codec : codec SignalCommand := struct true (
    construct mkSignalCommand
    ⊛ optional "commandId" sc_CommandId string_codec
    ⊛ required "signalChannelName" SignalChannelName string_codec
    ⊛ optional "atLeast" sc_AtLeast int32_codec
    ⊛ optional "atMost" sc_AtMost int32_codec)%json.
#[export] Instance SignalCommand_lawful : Lawful SignalCommand_codec.
Proof. apply struct_lawful. struct_law. Qed.
#[export] Instance SignalCommand_nonnull : NonNull SignalCommand_codec.
Proof. done. Qed.

Definition InterStateChannelCommand_codec : codec InterStateChannelCommand := struct true (
    construct mkInterStateChannelCommand
    ⊛ optional "commandId" ic_CommandId string_codec
    ⊛ required "channelName" ic_ChannelName string_codec
    ⊛ optional "atLeast" ic_AtLeast int32_codec
    ⊛ optional "atMost" ic_AtMost int32_codec)%json.
#[export] Instance InterStateChannelCommand_lawful : Lawful InterStateChannelCommand_codec.
Proof. apply struct_lawful. struct_law. Qed.
#[export] Instance InterStateChannelCommand_nonnull : NonNull InterStateChannelCommand_codec.
Proof. done. Qed.

Definition CommandCombination_codec : codec CommandCombination := struct true (
    construct mkCommandCombination
    ⊛ optional_slice "commandIds" CommandIds string_codec)%json.
#[export] Instance CommandCombination_lawful : Lawful CommandCombination_codec.
Proof. apply struct_lawful. struct_law. Qed.
#[export] Instance CommandCombination_nonnull : NonNull CommandCombination_codec.
Proof. done. Qed.

Definition CommandRequest_codec : codec CommandRequest := struct true (
    construct mkCommandRequest
    ⊛ optional "deciderTriggerType" cr_DeciderTriggerType (enum_codec DeciderTriggerType_enum)
    ⊛ optional "commandWaitingType" cr_CommandWaitingType (enum_codec CommandWaitingType_enum)
    ⊛ optional_slice "timerCommands" TimerCommands TimerCommand_codec
    ⊛ optional_slice "signalCommands" SignalCommands SignalCommand_codec
    ⊛ optional_slice "interStateChannelCommands" InterStateChannelCommands InterStateChannelCommand_codec
    ⊛ optional_slice "commandCombinations" CommandCombinations CommandCombination_codec)%json.
#[export] Instance CommandRequest_lawful : Lawful CommandRequest_codec.
Proof. apply struct_lawful. struct_law. Qed.
#[export] Instance CommandRequest_nonnull : NonNull CommandRequest_codec.
Proof. done. Qed.

Definition TimerResult_codec : codec TimerResult := struct true (
    construct mkTimerResult
    ⊛ required "commandId" tr_CommandId string_codec
    ⊛ required "timerStatus" tr_TimerStatus (enum_codec TimerStatus_enum))%json.
#[export] Instance TimerResult_lawful : Lawful TimerResult_codec.
Proof. apply struct_lawful. struct_law. Qed.
#[export] Instance TimerResult_nonnull : NonNull TimerResult_codec.
Proof. done. Qed.

Definition SignalResult_codec : codec SignalResult := struct true (
    construct mkSignalResult
    ⊛ required "commandId" sr_CommandId string_codec
    ⊛ required "signalRequestStatus" SignalRequestStatus (enum_codec ChannelRequestStatus_enum)
    ⊛ required "signalChannelName" sr_SignalChannelName string_codec
    ⊛ optional "signalValue" SignalValue EncodedObject_codec)%json.
#[export] Instance SignalResult_lawful : Lawful SignalResult_codec.
Proof. apply struct_lawful. struct_law. Qed.
#[export] Instance SignalResult_nonnull : NonNull SignalResult_codec.
Proof. done. Qed.

Definition InterStateChannelResult_codec : codec InterStateChannelResult := struct true (
    construct mkInterStateChannelResult
    ⊛ required "commandId" ir_CommandId string_codec
    ⊛ required "requestStatus" RequestStatus (enum_codec ChannelRequestStatus_enum)
    ⊛ required "channelName" ir_ChannelName string_codec
    ⊛ optional "value" ir_Value EncodedObject_codec)%json.
#[export] Instance InterStateChannelResult_lawful : Lawful InterStateChannelResult_codec.
Proof. apply struct_lawful. struct_law. Qed.
#[export] Instance InterStateChannelResult_nonnull : NonNull InterStateChannelResult_codec.
Proof. done. Qed.

Definition CommandResults_codec : codec CommandResults := struct true (
    construct mkCommandResults
    ⊛ optional_slice "signalResults" SignalResults SignalResult_codec
    ⊛ optional_slice "interStateChannelResults" InterStateChannelResults InterStateChannelResult_codec
    ⊛ optional_slice "timerResults" TimerResults TimerResult_codec
    ⊛ optional "stateStartApiSucceeded" StateStartApiSucceeded bool_codec
    ⊛ optional "stateWaitUntilFailed" StateWaitUntilFailed bool_codec)%json.
#[export] Instance CommandResults_lawful : Lawful CommandResults_codec.
Proof. apply struct_lawful. struct_law. Qed.
#[export] Instance CommandResults_nonnull : NonNull CommandResults_codec.
Proof. done. Qed.

(** ** Requests and responses of the worker *)

Definition Context__codec : codec Context_ := struct true (
    construct mkContext
    ⊛ required "workflowId" ctx_WorkflowId string_codec
    ⊛ required "workflowRunId" ctx_WorkflowRunId string_codec
    ⊛ required "workflowStartedTimestamp" ctx_WorkflowStartedTimestamp int64_codec
    ⊛ optional "stateExecutionId" ctx_StateExecutionId string_codec
    ⊛ optional "firstAttemptTimestamp" FirstAttemptTimestamp int64_codec
    ⊛ optional "attempt" Attempt int32_codec)%json.
#[export] Instance Context__lawful : Lawful Context__codec.
Proof. apply struct_lawful. struct_law. Qed.
#[export] Instance Context__nonnull : NonNull Context__codec.
Proof. done. Qed.

Definition WorkflowStateStartRequest_codec : codec WorkflowStateStartRequest := struct true (
    construct mkWorkflowStateStartRequest
    ⊛ required "context" ws_Context Context__codec
    ⊛ required "workflowType" ws_WorkflowType string_codec
    ⊛ required "workflowStateId" ws_WorkflowStateId string_codec
    ⊛ optional "stateInput" ws_StateInput EncodedObject_codec
    ⊛ optional_slice "searchAttributes" ws_SearchAttributes SearchAttribute_codec
    ⊛ optional_slice "dataObjects" ws_DataObjects KeyValue_codec)%json.
#[export] Instance WorkflowStateStartRequest_lawful : Lawful WorkflowStateStartRequest_codec.
Proof. apply struct_lawful. struct_law. Qed.
#[export] Instance WorkflowStateStartRequest_nonnull : NonNull WorkflowStateStartRequest_codec.
Proof. done. Qed.

Definition WorkflowStateStartResponse_codec : codec WorkflowStateStartResponse := struct true (
    construct mkWorkflowStateStartResponse
    ⊛ optional "localActivityInput" ws_LocalActivityInput string_codec
    ⊛ optional_slice "upsertSearchAttributes" ws_UpsertSearchAttributes SearchAttribute_codec
    ⊛ optional_slice "upsertDataObjects" ws_UpsertDataObjects KeyValue_codec
    ⊛ optional "commandRequest" ws_CommandRequest CommandRequest_codec
    ⊛ optional_slice "upsertStateLocals" ws_UpsertStateLocals KeyValue_codec
    ⊛ optional_slice "recordEvents" ws_RecordEvents KeyValue_codec
    ⊛ optional_slice "publishToInterStateChannel" ws_PublishToInterStateChannel InterStateChannelPublishing_codec)%json.
#[export] Instance WorkflowStateStartResponse_lawful : Lawful WorkflowStateStartResponse_codec.
Proof. apply struct_lawful. struct_law. Qed.
#[export] Instance WorkflowStateStartResponse_nonnull : NonNull WorkflowStateStartResponse_codec.
Proof. done. Qed.

Definition WorkflowStateDecideRequest_codec : codec WorkflowStateDecideRequest := struct true (
    construct mkWorkflowStateDecideRequest
    ⊛ required "context" wd_Context Context__codec
    ⊛ required "workflowType" wd_WorkflowType string_codec
    ⊛ required "workflowStateId" wd_WorkflowStateId string_codec
    ⊛ optional "stateInput" wd_StateInput EncodedObject_codec
    ⊛ optional_slice "searchAttributes" wd_SearchAttributes SearchAttribute_codec
    ⊛ optional_slice "DataObjects" wd_DataObjects KeyValue_codec
    ⊛ optional_slice "stateLocals" wd_StateLocals KeyValue_codec
    ⊛ optional "commandResults" wd_CommandResults CommandResults_codec)%json.
#[export] Instance WorkflowStateDecideRequest_lawful : Lawful WorkflowStateDecideRequest_codec.
Proof. apply struct_lawful. struct_law. Qed.
#[export] Instance WorkflowStateDecideRequest_nonnull : NonNull WorkflowStateDecideRequest_codec.
Proof. done. Qed.

Definition WorkflowStateDecideResponse_codec : codec WorkflowStateDecideResponse := struct true (
    construct mkWorkflowStateDecideResponse
    ⊛ optional "localActivityInput" wd_LocalActivityInput string_codec
    ⊛ optional "stateDecision" wd_StateDecision StateDecision_codec
    ⊛ optional_slice "upsertSearchAttributes" wd_UpsertSearchAttributes SearchAttribute_codec
    ⊛ optional_slice "upsertDataObjects" wd_UpsertDataObjects KeyValue_codec
    ⊛ optional_slice "recordEvents" wd_RecordEvents KeyValue_codec
    ⊛ optional_slice "upsertStateLocals" wd_UpsertStateLocals KeyValue_codec
    ⊛ optional_slice "publishToInterStateChannel" wd_PublishToInterStateChannel InterStateChannelPublishing_codec)%json.
#[export] Instance WorkflowStateDecideResponse_lawful : Lawful WorkflowStateDecideResponse_codec.
Proof. apply struct_lawful. struct_law. Qed.
#[export] Instance WorkflowStateDecideResponse_nonnull : NonNull WorkflowStateDecideResponse_codec.
Proof. done. Qed.

Definition WorkflowRpcRequest_codec : codec WorkflowRpcRequest := struct true (
    construct mkWorkflowRpcRequest
    ⊛ required "workflowId" rpc_WorkflowId string_codec
    ⊛ optional "workflowRunId" rpc_WorkflowRunId string_codec
    ⊛ required "rpcName" RpcName string_codec
    ⊛ optional "input" rpc_Input EncodedObject_codec
    ⊛ optional "searchAttributesLoadingPolicy" rpc_SearchAttributesLoadingPolicy PersistenceLoadingPolicy_codec
    ⊛ optional "dataAttributesLoadingPolicy" rpc_DataAttributesLoadingPolicy PersistenceLoadingPolicy_codec
    ⊛ optional "timeoutSeconds" TimeoutSeconds int32_codec
    ⊛ optional "useMemoForDataAttributes" rpc_UseMemoForDataAttributes bool_codec
    ⊛ optional_slice "searchAttributes" rpc_SearchAttributes SearchAttributeKeyAndType_codec)%json.
#[export] Instance WorkflowRpcRequest_lawful : Lawful WorkflowRpcRequest_codec.
Proof. apply struct_lawful. struct_law. Qed.
#[export] Instance WorkflowRpcRequest_nonnull : NonNull WorkflowRpcRequest_codec.
Proof. done. Qed.

Definition WorkflowRpcResponse_codec : codec WorkflowRpcResponse := struct true (
    construct mkWorkflowRpcResponse
    ⊛ optional "output" rpcr_Output EncodedObject_codec)%json.
#[export] Instance WorkflowRpcResponse_lawful : Lawful WorkflowRpcResponse_codec.
Proof. apply struct_lawful. struct_law. Qed.
#[export] Instance WorkflowRpcResponse_nonnull : NonNull WorkflowRpcResponse_codec.
Proof. done. Qed.

Definition WorkflowWorkerRpcRequest_codec : codec WorkflowWorkerRpcRequest := struct true (
    construct mkWorkflowWorkerRpcRequest
    ⊛ required "context" wr_Context Context__codec
    ⊛ required "workflowType" wr_WorkflowType string_codec
    ⊛ required "rpcName" wr_RpcName string_codec
    ⊛ optional "input" wr_Input EncodedObject_codec
    ⊛ optional_slice "searchAttributes" wr_SearchAttributes SearchAttribute_codec
    ⊛ optional_slice "dataAttributes" wr_DataAttributes KeyValue_codec
    ⊛ optional "signalChannelInfos" wr_SignalChannelInfos (string_map ChannelInfo_codec)
    ⊛ optional "internalChannelInfos" wr_InternalChannelInfos (string_map ChannelInfo_codec))%json.
#[export] Instance WorkflowWorkerRpcRequest_lawful : Lawful WorkflowWorkerRpcRequest_codec.
Proof. apply struct_lawful. struct_law. Qed.
#[export] Instance WorkflowWorkerRpcRequest_nonnull : NonNull WorkflowWorkerRpcRequest_codec.
Proof. done. Qed.

Definition WorkflowWorkerRpcResponse_codec : codec WorkflowWorkerRpcResponse := struct true (
    construct mkWorkflowWorkerRpcResponse
    ⊛ optional "output" wr_Output EncodedObject_codec
    ⊛ optional "stateDecision" wr_StateDecision StateDecision_codec
    ⊛ optional_slice "upsertSearchAttributes" wr_UpsertSearchAttributes SearchAttribute_codec
    ⊛ optional_slice "upsertDataAttributes" wr_UpsertDataAttributes KeyValue_codec
    ⊛ optional_slice "recordEvents" wr_RecordEvents KeyValue_codec
    ⊛ optional_slice "upsertStateLocals" wr_UpsertStateLocals KeyValue_codec
    ⊛ optional_slice "publishToInterStateChannel" wr_PublishToInterStateChannel InterStateChannelPublishing_codec)%json.
#[export] Instance WorkflowWorkerRpcResponse_lawful : Lawful WorkflowWorkerRpcResponse_codec.
Proof. apply struct_lawful. struct_law. Qed.
#[export] Instance WorkflowWorkerRpcResponse_nonnull : NonNull WorkflowWorkerRpcResponse_codec.
Proof. done. Qed.

Definition WorkflowDumpRequest_codec : codec WorkflowDumpRequest := struct true (
    construct mkWorkflowDumpRequest
    ⊛ required "workflowId" dump_WorkflowId string_codec
    ⊛ required "workflowRunId" dump_WorkflowRunId string_codec
    ⊛ required "pageSizeInBytes" PageSizeInBytes int32_codec
    ⊛ required "pageNum" PageNum int32_codec)%json.
#[export] Instance WorkflowDumpRequest_lawful : Lawful WorkflowDumpRequest_codec.
Proof. apply struct_lawful. struct_law. Qed.
#[export] Instance WorkflowDumpRequest_nonnull : NonNull WorkflowDumpRequest_codec.
Proof. done. Qed.

Definition WorkflowDumpResponse_codec : codec WorkflowDumpResponse := struct true (
    construct mkWorkflowDumpResponse
    ⊛ required "checksum" Checksum string_codec
    ⊛ required "totalPages" TotalPages int32_codec
    ⊛ required "jsonData" JsonData string_codec)%json.
#[export] Instance WorkflowDumpResponse_lawful : Lawful WorkflowDumpResponse_codec.
Proof. apply struct_lawful. struct_law. Qed.
#[export] Instance WorkflowDumpResponse_nonnull : NonNull WorkflowDumpResponse_codec.
Proof. done. Qed.

Definition WorkflowConfig_codec : codec WorkflowConfig := struct true (
    construct mkWorkflowConfig
    ⊛ optional "disableSystemSearchAttribute" DisableSystemSearchAttribute bool_codec
    ⊛ optional "executingStateIdMode" cfg_ExecutingStateIdMode (enum_codec ExecutingStateIdMode_enum)
    ⊛ optional "continueAsNewThreshold" ContinueAsNewThreshold int32_codec
    ⊛ optional "continueAsNewPageSizeInBytes" ContinueAsNewPageSizeInBytes int32_codec
    ⊛ optional "optimizeActivity" OptimizeActivity bool_codec
    ⊛ optional "optimizeTimer" OptimizeTimer bool_codec)%json.
#[export] Instance WorkflowConfig_lawful : Lawful WorkflowConfig_codec.
Proof. apply struct_lawful. struct_law. Qed.
#[export] Instance WorkflowConfig_nonnull : NonNull WorkflowConfig_codec.
Proof. done. Qed.

Definition ErrorResponse_codec : codec ErrorResponse := struct true (
    construct mkErrorResponse
    ⊛ optional "detail" er_Detail string_codec
    ⊛ optional "subStatus" er_SubStatus (enum_codec ErrorSubStatus_enum)
    ⊛ optional "originalWorkerErrorDetail" OriginalWorkerErrorDetail string_codec
    ⊛ optional "originalWorkerErrorType" OriginalWorkerErrorType string_codec
    ⊛ optional "originalWorkerErrorStatus" OriginalWorkerErrorStatus int32_codec)%json.
#[export] Instance ErrorResponse_lawful : Lawful ErrorResponse_codec.
Proof. apply struct_lawful. struct_law. Qed.
#[export] Instance ErrorResponse_nonnull : NonNull ErrorResponse_codec.
Proof. done. Qed.

End structs.
