(* ===== verification/ApiJson.v ===== *)
(** * The requests and responses of the API as JSON

    [ToMap], [MarshalJSON], [UnmarshalJSON] and the tags of the structs of gen/iwfidl
    that ApiIdl.v and WorkerApi.v have. *)

From S2P Require Export ApiIdl WorkerApi IdlJson.

(** ** Enumerations *)

#[export] Instance WorkflowStopType_eq_dec : EqDecision WorkflowStopType.
Proof. solve_decision. Defined.
#[export] Instance WorkflowResetType_eq_dec : EqDecision WorkflowResetType.
Proof. solve_decision. Defined.

Definition WorkflowStatus_enum : enumeration WorkflowStatus := {|
  enum_text v :=
    match v with
    | RUNNING => "RUNNING"
    | COMPLETED => "COMPLETED"
    | FAILED => "FAILED"
    | TIMEOUT => "TIMEOUT"
    | TERMINATED => "TERMINATED"
    | CANCELED => "CANCELED"
    | CONTINUED_AS_NEW => "CONTINUED_AS_NEW"
    end;
  enum_allowed := [RUNNING; COMPLETED; FAILED; TIMEOUT; TERMINATED; CANCELED; CONTINUED_AS_NEW];
  enum_zero := RUNNING
|}.
#[export] Instance WorkflowStatus_law : EnumLaw WorkflowStatus_enum.
Proof. enum_law. Qed.

Definition WorkflowStopType_enum : enumeration WorkflowStopType := {|
  enum_text v :=
    match v with
    | CANCEL => "CANCEL"
    | TERMINATE => "TERMINATE"
    | FAIL => "FAIL"
    | WorkflowStopType_other s => s
    end;
  enum_allowed := [CANCEL; TERMINATE; FAIL];
  enum_zero := WorkflowStopType_other EmptyString
|}.
#[export] Instance WorkflowStopType_law : EnumLaw WorkflowStopType_enum.
Proof. enum_law. Qed.

Definition WorkflowResetType_enum : enumeration WorkflowResetType := {|
  enum_text v :=
    match v with
    | HISTORY_EVENT_ID => "HISTORY_EVENT_ID"
    | BEGINNING => "BEGINNING"
    | HISTORY_EVENT_TIME => "HISTORY_EVENT_TIME"
    | STATE_ID => "STATE_ID"
    | STATE_EXECUTION_ID => "STATE_EXECUTION_ID"
    | WorkflowResetType_other s => s
    end;
  enum_allowed := [HISTORY_EVENT_ID; BEGINNING; HISTORY_EVENT_TIME; STATE_ID;
    STATE_EXECUTION_ID];
  enum_zero := WorkflowResetType_other EmptyString
|}.
#[export] Instance WorkflowResetType_law : EnumLaw WorkflowResetType_enum.
Proof. enum_law. Qed.

(** ** Requests and responses *)

Section structs.
Context `{FloatText}.

Definition WorkerErrorResponse_codec : codec WorkerErrorResponse := struct true (
    construct mkWorkerErrorResponse
    ⊛ optional "detail" we_Detail string_codec
    ⊛ optional "errorType" we_ErrorType string_codec)%json.
#[export] Instance WorkerErrorResponse_lawful : Lawful WorkerErrorResponse_codec.
Proof. apply struct_lawful. struct_law. Qed.
#[export] Instance WorkerErrorResponse_nonnull : NonNull WorkerErrorResponse_codec.
Proof. done. Qed.

Definition WorkflowRetryPolicy_codec : codec WorkflowRetryPolicy := struct true (
    construct mkWorkflowRetryPolicy
    ⊛ optional "initialIntervalSeconds" wrp_InitialIntervalSeconds int32_codec
    ⊛ optional "backoffCoefficient" wrp_BackoffCoefficient (float_codec 32)
    ⊛ optional "maximumIntervalSeconds" wrp_MaximumIntervalSeconds int32_codec
    ⊛ optional "maximumAttempts" wrp_MaximumAttempts int32_codec)%json.
#[export] Instance WorkflowRetryPolicy_lawful : Lawful WorkflowRetryPolicy_codec.
Proof. apply struct_lawful. struct_law. Qed.
#[export] Instance WorkflowRetryPolicy_nonnull : NonNull WorkflowRetryPolicy_codec.
Proof. done. Qed.

Definition WorkflowAlreadyStartedOptions_codec : codec WorkflowAlreadyStartedOptions := struct true (
    construct mkWorkflowAlreadyStartedOptions
    ⊛ required "ignoreAlreadyStartedError" IgnoreAlreadyStartedError bool_codec
    ⊛ optional "requestId" RequestId string_codec)%json.
#[export] Instance WorkflowAlreadyStartedOptions_lawful : Lawful WorkflowAlreadyStartedOptions_codec.
Proof. apply struct_lawful. struct_law. Qed.
#[export] Instance WorkflowAlreadyStartedOptions_nonnull : NonNull WorkflowAlreadyStartedOptions_codec.
Proof. done. Qed.

Definition WorkflowStartOptions_codec : codec WorkflowStartOptions := struct true (
    construct mkWorkflowStartOptions
    ⊛ optional "workflowIDReusePolicy" so_WorkflowIDReusePolicy (enum_codec WorkflowIDReusePolicy_enum)
    ⊛ optional "cronSchedule" so_CronSchedule string_codec
    ⊛ optional "workflowStartDelaySeconds" WorkflowStartDelaySeconds int32_codec
    ⊛ optional "retryPolicy" so_RetryPolicy WorkflowRetryPolicy_codec
    ⊛ optional_slice "searchAttributes" so_SearchAttributes SearchAttribute_codec
    ⊛ optional_slice "dataAttributes" so_DataAttributes KeyValue_codec
    ⊛ optional "workflowConfigOverride" WorkflowConfigOverride WorkflowConfig_codec
    ⊛ optional "idReusePolicy" so_IdReusePolicy (enum_codec IDReusePolicy_enum)
    ⊛ optional "useMemoForDataAttributes" so_UseMemoForDataAttributes bool_codec
    ⊛ optional "workflowAlreadyStartedOptions" so_WorkflowAlreadyStartedOptions WorkflowAlreadyStartedOptions_codec)%json.
#[export] Instance WorkflowStartOptions_lawful : Lawful WorkflowStartOptions_codec.
Proof. apply struct_lawful. struct_law. Qed.
#[export] Instance WorkflowStartOptions_nonnull : NonNull WorkflowStartOptions_codec.
Proof. done. Qed.

Definition WorkflowStartRequest_codec : codec WorkflowStartRequest := struct true (
    construct mkWorkflowStartRequest
    ⊛ required "workflowId" sr_WorkflowId string_codec
    ⊛ required "iwfWorkflowType" sr_IwfWorkflowType string_codec
    ⊛ required "workflowTimeoutSeconds" WorkflowTimeoutSeconds int32_codec
    ⊛ required "iwfWorkerUrl" sr_IwfWorkerUrl string_codec
    ⊛ optional "startStateId" sr_StartStateId string_codec
    ⊛ optional_slice "waitForCompletionStateIds" sr_WaitForCompletionStateIds string_codec
    ⊛ optional_slice "waitForCompletionStateExecutionIds" sr_WaitForCompletionStateExecutionIds string_codec
    ⊛ optional "stateInput" sr_StateInput EncodedObject_codec
    ⊛ optional "stateOptions" sr_StateOptions WorkflowStateOptions_codec
    ⊛ optional "workflowStartOptions" sr_WorkflowStartOptions WorkflowStartOptions_codec)%json.
#[export] Instance WorkflowStartRequest_lawful : Lawful WorkflowStartRequest_codec.
Proof. apply struct_lawful. struct_law. Qed.
#[export] Instance WorkflowStartRequest_nonnull : NonNull WorkflowStartRequest_codec.
Proof. done. Qed.

Definition WorkflowStartResponse_codec : codec WorkflowStartResponse := struct true (
    construct mkWorkflowStartResponse
    ⊛ optional "workflowRunId" sresp_WorkflowRunId string_codec)%json.
#[export] Instance WorkflowStartResponse_lawful : Lawful WorkflowStartResponse_codec.
Proof. apply struct_lawful. struct_law. Qed.
#[export] Instance WorkflowStartResponse_nonnull : NonNull WorkflowStartResponse_codec.
Proof. done. Qed.

Definition WorkflowWaitForStateCompletionRequest_codec : codec WorkflowWaitForStateCompletionRequest := struct true (
    construct mkWorkflowWaitForStateCompletionRequest
    ⊛ required "workflowId" wc_WorkflowId string_codec
    ⊛ optional "stateExecutionId" wc_StateExecutionId string_codec
    ⊛ optional "stateId" wc_StateId string_codec
    ⊛ optional "waitForKey" wc_WaitForKey string_codec
    ⊛ optional "waitTimeSeconds" wc_WaitTimeSeconds int32_codec)%json.
#[export] Instance WorkflowWaitForStateCompletionRequest_lawful : Lawful WorkflowWaitForStateCompletionRequest_codec.
Proof. apply struct_lawful. struct_law. Qed.
#[export] Instance WorkflowWaitForStateCompletionRequest_nonnull : NonNull WorkflowWaitForStateCompletionRequest_codec.
Proof. done. Qed.

Definition WorkflowWaitForStateCompletionResponse_codec : codec WorkflowWaitForStateCompletionResponse := struct true (
    construct mkWorkflowWaitForStateCompletionResponse
    ⊛ optional "stateCompletionOutput" wcr_StateCompletionOutput StateCompletionOutput_codec)%json.
#[export] Instance WorkflowWaitForStateCompletionResponse_lawful : Lawful WorkflowWaitForStateCompletionResponse_codec.
Proof. apply struct_lawful. struct_law. Qed.
#[export] Instance WorkflowWaitForStateCompletionResponse_nonnull : NonNull WorkflowWaitForStateCompletionResponse_codec.
Proof. done. Qed.

Definition WorkflowSignalRequest_codec : codec WorkflowSignalRequest := struct true (
    construct mkWorkflowSignalRequest
    ⊛ required "workflowId" sg_WorkflowId string_codec
    ⊛ optional "workflowRunId" sg_WorkflowRunId string_codec
    ⊛ required "signalChannelName" sg_SignalChannelName string_codec
    ⊛ optional "signalValue" sg_SignalValue EncodedObject_codec)%json.
#[export] Instance WorkflowSignalRequest_lawful : Lawful WorkflowSignalRequest_codec.
Proof. apply struct_lawful. struct_law. Qed.
#[export] Instance WorkflowSignalRequest_nonnull : NonNull WorkflowSignalRequest_codec.
Proof. done. Qed.

Definition PublishToInternalChannelRequest_codec : codec PublishToInternalChannelRequest := struct true (
    construct mkPublishToInternalChannelRequest
    ⊛ required "workflowId" pub_WorkflowId string_codec
    ⊛ optional "workflowRunId" pub_WorkflowRunId string_codec
    ⊛ optional_slice "messages" Messages InterStateChannelPublishing_codec)%json.
#[export] Instance PublishToInternalChannelRequest_lawful : Lawful PublishToInternalChannelRequest_codec.
Proof. apply struct_lawful. struct_law. Qed.
#[export] Instance PublishToInternalChannelRequest_nonnull : NonNull PublishToInternalChannelRequest_codec.
Proof. done. Qed.

Definition WorkflowConfigUpdateRequest_codec : codec WorkflowConfigUpdateRequest := struct true (
    construct mkWorkflowConfigUpdateRequest
    ⊛ required "workflowId" cu_WorkflowId string_codec
    ⊛ optional "workflowRunId" cu_WorkflowRunId string_codec
    ⊛ required "workflowConfig" cu_WorkflowConfig WorkflowConfig_codec)%json.
#[export] Instance WorkflowConfigUpdateRequest_lawful : Lawful WorkflowConfigUpdateRequest_codec.
Proof. apply struct_lawful. struct_law. Qed.
#[export] Instance WorkflowConfigUpdateRequest_nonnull : NonNull WorkflowConfigUpdateRequest_codec.
Proof. done. Qed.

Definition TriggerContinueAsNewRequest_codec : codec TriggerContinueAsNewRequest := struct true (
    construct mkTriggerContinueAsNewRequest
    ⊛ required "workflowId" tc_WorkflowId string_codec
    ⊛ optional "workflowRunId" tc_WorkflowRunId string_codec)%json.
#[export] Instance TriggerContinueAsNewRequest_lawful : Lawful TriggerContinueAsNewRequest_codec.
Proof. apply struct_lawful. struct_law. Qed.
#[export] Instance TriggerContinueAsNewRequest_nonnull : NonNull TriggerContinueAsNewRequest_codec.
Proof. done. Qed.

Definition WorkflowStopRequest_codec : codec WorkflowStopRequest := struct true (
    construct mkWorkflowStopRequest
    ⊛ required "workflowId" stop_WorkflowId string_codec
    ⊛ optional "workflowRunId" stop_WorkflowRunId string_codec
    ⊛ optional "reason" stop_Reason string_codec
    ⊛ optional "stopType" StopType (enum_codec WorkflowStopType_enum))%json.
#[export] Instance WorkflowStopRequest_lawful : Lawful WorkflowStopRequest_codec.
Proof. apply struct_lawful. struct_law. Qed.
#[export] Instance WorkflowStopRequest_nonnull : NonNull WorkflowStopRequest_codec.
Proof. done. Qed.

Definition WorkflowGetDataObjectsRequest_codec : codec WorkflowGetDataObjectsRequest := struct true (
    construct mkWorkflowGetDataObjectsRequest
    ⊛ required "workflowId" gd_WorkflowId string_codec
    ⊛ optional "workflowRunId" gd_WorkflowRunId string_codec
    ⊛ optional_slice "keys" gd_Keys string_codec
    ⊛ optional "useMemoForDataAttributes" gd_UseMemoForDataAttributes bool_codec)%json.
#[export] Instance WorkflowGetDataObjectsRequest_lawful : Lawful WorkflowGetDataObjectsRequest_codec.
Proof. apply struct_lawful. struct_law. Qed.
#[export] Instance WorkflowGetDataObjectsRequest_nonnull : NonNull WorkflowGetDataObjectsRequest_codec.
Proof. done. Qed.

Definition WorkflowGetDataObjectsResponse_codec : codec WorkflowGetDataObjectsResponse := struct true (
    construct mkWorkflowGetDataObjectsResponse
    ⊛ optional_slice "objects" Objects KeyValue_codec)%json.
#[export] Instance WorkflowGetDataObjectsResponse_lawful : Lawful WorkflowGetDataObjectsResponse_codec.
Proof. apply struct_lawful. struct_law. Qed.
#[export] Instance WorkflowGetDataObjectsResponse_nonnull : NonNull WorkflowGetDataObjectsResponse_codec.
Proof. done. Qed.

Definition WorkflowSetDataObjectsRequest_codec : codec WorkflowSetDataObjectsRequest := struct true (
    construct mkWorkflowSetDataObjectsRequest
    ⊛ required "workflowId" sdo_WorkflowId string_codec
    ⊛ optional "workflowRunId" sdo_WorkflowRunId string_codec
    ⊛ optional_slice "objects" sdo_Objects KeyValue_codec)%json.
#[export] Instance WorkflowSetDataObjectsRequest_lawful : Lawful WorkflowSetDataObjectsRequest_codec.
Proof. apply struct_lawful. struct_law. Qed.
#[export] Instance WorkflowSetDataObjectsRequest_nonnull : NonNull WorkflowSetDataObjectsRequest_codec.
Proof. done. Qed.

Definition WorkflowGetSearchAttributesRequest_codec : codec WorkflowGetSearchAttributesRequest := struct true (
    construct mkWorkflowGetSearchAttributesRequest
    ⊛ required "workflowId" gs_WorkflowId string_codec
    ⊛ optional "workflowRunId" gs_WorkflowRunId string_codec
    ⊛ optional_slice "keys" gs_Keys SearchAttributeKeyAndType_codec)%json.
#[export] Instance WorkflowGetSearchAttributesRequest_lawful : Lawful WorkflowGetSearchAttributesRequest_codec.
Proof. apply struct_lawful. struct_law. Qed.
#[export] Instance WorkflowGetSearchAttributesRequest_nonnull : NonNull WorkflowGetSearchAttributesRequest_codec.
Proof. done. Qed.

Definition WorkflowGetSearchAttributesResponse_codec : codec WorkflowGetSearchAttributesResponse := struct true (
    construct mkWorkflowGetSearchAttributesResponse
    ⊛ optional_slice "searchAttributes" gsr_SearchAttributes SearchAttribute_codec)%json.
#[export] Instance WorkflowGetSearchAttributesResponse_lawful : Lawful WorkflowGetSearchAttributesResponse_codec.
Proof. apply struct_lawful. struct_law. Qed.
#[export] Instance WorkflowGetSearchAttributesResponse_nonnull : NonNull WorkflowGetSearchAttributesResponse_codec.
Proof. done. Qed.

Definition WorkflowSetSearchAttributesRequest_codec : codec WorkflowSetSearchAttributesRequest := struct true (
    construct mkWorkflowSetSearchAttributesRequest
    ⊛ required "workflowId" ssa_WorkflowId string_codec
    ⊛ optional "workflowRunId" ssa_WorkflowRunId string_codec
    ⊛ optional_slice "searchAttributes" ssa_SearchAttributes SearchAttribute_codec)%json.
#[export] Instance WorkflowSetSearchAttributesRequest_lawful : Lawful WorkflowSetSearchAttributesRequest_codec.
Proof. apply struct_lawful. struct_law. Qed.
#[export] Instance WorkflowSetSearchAttributesRequest_nonnull : NonNull WorkflowSetSearchAttributesRequest_codec.
Proof. done. Qed.

Definition WorkflowGetRequest_codec : codec WorkflowGetRequest := struct true (
    construct mkWorkflowGetRequest
    ⊛ required "workflowId" get_WorkflowId string_codec
    ⊛ optional "workflowRunId" get_WorkflowRunId string_codec
    ⊛ optional "needsResults" NeedsResults bool_codec
    ⊛ optional "waitTimeSeconds" get_WaitTimeSeconds int32_codec)%json.
#[export] Instance WorkflowGetRequest_lawful : Lawful WorkflowGetRequest_codec.
Proof. apply struct_lawful. struct_law. Qed.
#[export] Instance WorkflowGetRequest_nonnull : NonNull WorkflowGetRequest_codec.
Proof. done. Qed.

Definition WorkflowGetResponse_codec : codec WorkflowGetResponse := struct true (
    construct mkWorkflowGetResponse
    ⊛ required "workflowRunId" getr_WorkflowRunId string_codec
    ⊛ required "workflowStatus" getr_WorkflowStatus (enum_codec WorkflowStatus_enum)
    ⊛ optional_slice "results" Results StateCompletionOutput_codec
    ⊛ optional "errorType" ErrorType (enum_codec WorkflowErrorType_enum)
    ⊛ optional "errorMessage" ErrorMessage string_codec)%json.
#[export] Instance WorkflowGetResponse_lawful : Lawful WorkflowGetResponse_codec.
Proof. apply struct_lawful. struct_law. Qed.
#[export] Instance WorkflowGetResponse_nonnull : NonNull WorkflowGetResponse_codec.
Proof. done. Qed.

Definition WorkflowSearchRequest_codec : codec WorkflowSearchRequest := struct true (
    construct mkWorkflowSearchRequest
    ⊛ required "query" Query string_codec
    ⊛ optional "pageSize" PageSize int32_codec
    ⊛ optional "nextPageToken" se_NextPageToken string_codec)%json.
#[export] Instance WorkflowSearchRequest_lawful : Lawful WorkflowSearchRequest_codec.
Proof. apply struct_lawful. struct_law. Qed.
#[export] Instance WorkflowSearchRequest_nonnull : NonNull WorkflowSearchRequest_codec.
Proof. done. Qed.

Definition WorkflowSearchResponseEntry_codec : codec WorkflowSearchResponseEntry := struct true (
    construct mkWorkflowSearchResponseEntry
    ⊛ required "workflowId" entry_WorkflowId string_codec
    ⊛ required "workflowRunId" entry_WorkflowRunId string_codec)%json.
#[export] Instance WorkflowSearchResponseEntry_lawful : Lawful WorkflowSearchResponseEntry_codec.
Proof. apply struct_lawful. struct_law. Qed.
#[export] Instance WorkflowSearchResponseEntry_nonnull : NonNull WorkflowSearchResponseEntry_codec.
Proof. done. Qed.

Definition WorkflowSearchResponse_codec : codec WorkflowSearchResponse := struct true (
    construct mkWorkflowSearchResponse
    ⊛ optional_slice "workflowExecutions" WorkflowExecutions WorkflowSearchResponseEntry_codec
    ⊛ optional "nextPageToken" ser_NextPageToken string_codec)%json.
#[export] Instance WorkflowSearchResponse_lawful : Lawful WorkflowSearchResponse_codec.
Proof. apply struct_lawful. struct_law. Qed.
#[export] Instance WorkflowSearchResponse_nonnull : NonNull WorkflowSearchResponse_codec.
Proof. done. Qed.

Definition WorkflowResetRequest_codec : codec WorkflowResetRequest := struct true (
    construct mkWorkflowResetRequest
    ⊛ required "workflowId" rst_WorkflowId string_codec
    ⊛ optional "workflowRunId" rst_WorkflowRunId string_codec
    ⊛ required "resetType" ResetType (enum_codec WorkflowResetType_enum)
    ⊛ optional "historyEventId" HistoryEventId int32_codec
    ⊛ optional "reason" rst_Reason string_codec
    ⊛ optional "historyEventTime" HistoryEventTime string_codec
    ⊛ optional "stateId" rst_StateId string_codec
    ⊛ optional "stateExecutionId" rst_StateExecutionId string_codec
    ⊛ optional "skipSignalReapply" SkipSignalReapply bool_codec
    ⊛ optional "skipUpdateReapply" SkipUpdateReapply bool_codec)%json.
#[export] Instance WorkflowResetRequest_lawful : Lawful WorkflowResetRequest_codec.
Proof. apply struct_lawful. struct_law. Qed.
#[export] Instance WorkflowResetRequest_nonnull : NonNull WorkflowResetRequest_codec.
Proof. done. Qed.

Definition WorkflowResetResponse_codec : codec WorkflowResetResponse := struct true (
    construct mkWorkflowResetResponse
    ⊛ required "workflowRunId" rstr_WorkflowRunId string_codec)%json.
#[export] Instance WorkflowResetResponse_lawful : Lawful WorkflowResetResponse_codec.
Proof. apply struct_lawful. struct_law. Qed.
#[export] Instance WorkflowResetResponse_nonnull : NonNull WorkflowResetResponse_codec.
Proof. done. Qed.

Definition WorkflowSkipTimerRequest_codec : codec WorkflowSkipTimerRequest := struct true (
    construct mkWorkflowSkipTimerRequest
    ⊛ required "workflowId" skt_WorkflowId string_codec
    ⊛ optional "workflowRunId" skt_WorkflowRunId string_codec
    ⊛ required "workflowStateExecutionId" WorkflowStateExecutionId string_codec
    ⊛ optional "timerCommandId" TimerCommandId string_codec
    ⊛ optional "timerCommandIndex" TimerCommandIndex int32_codec)%json.
#[export] Instance WorkflowSkipTimerRequest_lawful : Lawful WorkflowSkipTimerRequest_codec.
Proof. apply struct_lawful. struct_law. Qed.
#[export] Instance WorkflowSkipTimerRequest_nonnull : NonNull WorkflowSkipTimerRequest_codec.
Proof. done. Qed.

Definition HealthInfo_codec : codec HealthInfo := struct true (
    construct mkHealthInfo
    ⊛ optional "condition" Condition string_codec
    ⊛ optional "hostname" Hostname string_codec
    ⊛ optional "duration" Duration int32_codec)%json.
#[export] Instance HealthInfo_lawful : Lawful HealthInfo_codec.
Proof. apply struct_lawful. struct_law. Qed.
#[export] Instance HealthInfo_nonnull : NonNull HealthInfo_codec.
Proof. done. Qed.

End structs.
