(* ===== verification/Model.v ===== *)
(** * The methods of the generated data model

    gen/iwfidl has for every field of a struct a getter, a getter with a flag, a test
    and a setter, for every struct two constructors and a wrapper for values that may
    be null, and for every enumeration a constructor that checks its text.  They are
    the same code for every type: this file has what the methods promise each other, and
    IdlModel.v and ApiModel.v the methods of the types, each by itself.

    A pointer receiver is an [option], nil being [None]; a method that assigns through
    it gives the struct after the assignment. *)

From S2P Require Export Json.

(** ** The methods of a field

    Every method is given by itself, as the source has it: a getter by the field it
    reads, a setter by the struct it leaves. *)

(** [o.X = v] through a pointer; [write] is the struct after the assignment. *)
Definition assigns {S A} (write : A -> S -> S) (v : A) (o : option S) : gores S :=
  match o with
  | None => Panic "invalid memory address or nil pointer dereference"
  | Some s => Ret (write v s)
  end.

(** The methods of a field of type [A] that is always there. *)
Record required_methods (S A : Type) : Type := mkrequired_methods {
  GetX : option S -> A;
  GetXOk : option S -> option A * bool;
  SetX : A -> option S -> gores S
}.
Arguments GetX {S A} _ _.
Arguments GetXOk {S A} _ _.
Arguments SetX {S A} _ _ _.

(** [if o == nil { var ret A; return ret }; return o.X], [zero] being Go's zero value. *)
Definition get_field {S A} (zero : A) (read : S -> A) (o : option S) : A :=
  match o with None => zero | Some s => read s end.
(** [if o == nil { return nil, false }; return &o.X, true] *)
Definition get_field_ok {S A} (read : S -> A) (o : option S) : option A * bool :=
  match o with None => (None, false) | Some s => (Some (read s), true) end.

(** The methods of a field that is a pointer to [A]. *)
Record optional_methods (S A : Type) : Type := mkoptional_methods {
  GetOptX : option S -> A;
  GetOptXOk : option S -> option A * bool;
  HasX : option S -> bool;
  SetOptX : A -> option S -> gores S
}.
Arguments GetOptX {S A} _ _.
Arguments GetOptXOk {S A} _ _.
Arguments HasX {S A} _ _.
Arguments SetOptX {S A} _ _ _.

(** [o == nil || IsNil(o.X)] is that there is no value here. *)
Definition pointed {S A} (read : S -> option A) (o : option S) : option A := s ← o; read s.
(** [if o == nil || IsNil(o.X) { var ret A; return ret }; return *o.X] *)
Definition get_pointer {S A} (zero : A) (read : S -> option A) (o : option S) : A :=
  match pointed read o with None => zero | Some v => v end.
(** [if o == nil || IsNil(o.X) { return nil, false }; return o.X, true] *)
Definition get_pointer_ok {S A} (read : S -> option A) (o : option S) : option A * bool :=
  match pointed read o with None => (None, false) | Some v => (Some v, true) end.
(** [if o != nil && !IsNil(o.X) { return true }; return false] *)
Definition has_pointer {S A} (read : S -> option A) (o : option S) : bool :=
  match pointed read o with Some _ => true | None => false end.

(** The methods of a field that is a slice or a map.  The model does not tell nil from
    empty, so [IsNil] may give either answer on an empty one: its results are relations
    here. *)
Record collection_methods (S L : Type) : Type := mkcollection_methods {
  GetAllX : option S -> L;
  GetAllXOk : option S -> L * bool -> Prop;
  HasAnyX : option S -> bool -> Prop;
  SetAllX : L -> option S -> gores S
}.
Arguments GetAllX {S L} _ _.
Arguments GetAllXOk {S L} _ _ _.
Arguments HasAnyX {S L} _ _ _.
Arguments SetAllX {S L} _ _ _.

(** What [o == nil || IsNil(o.X)] may be. *)
Definition is_nil {S L} (empty : L) (read : S -> L) (o : option S) (b : bool) : Prop :=
  match o with None => b = true | Some s => b = true -> read s = empty end.
(** [if o == nil || IsNil(o.X) { return nil, false }; return o.X, true] *)
Definition get_all_ok {S L} (empty : L) (read : S -> L) (o : option S) (r : L * bool) : Prop :=
  exists b, is_nil empty read o b /\ r = if b then (empty, false) else (get_field empty read o, true).
(** [if o != nil && !IsNil(o.X) { return true }; return false] *)
Definition has_any {S L} (empty : L) (read : S -> L) (o : option S) (r : bool) : Prop :=
  exists b, is_nil empty read o b /\ r = negb b.

(** ** What the methods of one field promise each other *)

Definition panics {S} (r : gores S) : Prop := exists e, r = Panic e.

(** On nil there is nothing, and assigning panics. *)
Record required_law {S A} (zero : A) (x : required_methods S A) : Prop := {
  required_nil : GetX x None = zero /\ GetXOk x None = (None, false) /\ forall v, panics (SetX x v None);
  required_ok s : GetXOk x (Some s) = (Some (GetX x (Some s)), true)
}.

(** The test and the flag say whether there is a value; without one the getter gives
    the zero value. *)
Record optional_law {S A} (zero : A) (x : optional_methods S A) : Prop := {
  optional_nil : HasX x None = false /\ forall v, panics (SetOptX x v None);
  optional_flag o : snd (GetOptXOk x o) = HasX x o;
  optional_there o : HasX x o = true -> fst (GetOptXOk x o) = Some (GetOptX x o);
  optional_absent o : HasX x o = false -> fst (GetOptXOk x o) = None /\ GetOptX x o = zero
}.

(** Where the flag says there is a collection it is the one of the getter; the getter
    gives an empty one where the flag or the test may say there is none. *)
Record collection_law {S L} (empty : L) (x : collection_methods S L) : Prop := {
  collection_nil : GetAllX x None = empty /\ ~ HasAnyX x None true /\ forall v, panics (SetAllX x v None);
  collection_flag o l (b : bool) : GetAllXOk x o (l, b) -> HasAnyX x o b /\ GetAllX x o = l;
  collection_none o : HasAnyX x o false -> GetAllX x o = empty
}.

(** ** Laws of a struct *)

(** The methods of one field of whatever type: what its getters let see, its setter,
    and the law above. *)
Record any_methods (S : Type) : Type := mkany_methods {
  value_of : Type;
  view : option S -> option value_of;
  assignment : value_of -> option S -> gores S;
  law_of : Prop
}.
Arguments value_of {S} _.
Arguments view {S} _ _.
Arguments assignment {S} _ _ _.
Arguments law_of {S} _.

Definition Required {S A} (zero : A) (x : required_methods S A) : any_methods S :=
  mkany_methods S A (fun o => fst (GetXOk x o)) (SetX x) (required_law zero x).
Definition Optional {S A} (zero : A) (x : optional_methods S A) : any_methods S :=
  mkany_methods S A (fun o => fst (GetOptXOk x o)) (SetOptX x) (optional_law zero x).
Definition Collection {S L} (empty : L) (x : collection_methods S L) : any_methods S :=
  mkany_methods S L (fun o => Some (GetAllX x o)) (SetAllX x) (collection_law empty x).

(** The setter sets: the getters show the value. *)
Definition reads_back {S} (x : any_methods S) : Prop :=
  forall v s, exists s', assignment x v (Some s) = Ret s' /\ view x (Some s') = Some v.
(** Nobody sees through the one field what is assigned to the other. *)
Definition apart {S} (x y : any_methods S) : Prop :=
  forall v s s', assignment x v (Some s) = Ret s' -> view y (Some s') = view y (Some s).
Definition agree {S} (s s' : S) (x : any_methods S) : Prop := view x (Some s) = view x (Some s').

(** The fields are separate, and with [rest] -- what of the struct has no methods here --
    they are the whole struct. *)
Record lawful_struct {S} (rest : S -> S -> Prop) (ms : list (any_methods S)) : Prop := {
  fields_lawful : Forall law_of ms;
  fields_read_back : Forall reads_back ms;
  fields_apart : ForallOrdPairs (fun x y => apart x y /\ apart y x) ms;
  rest_apart : Forall (fun x => forall v s s', assignment x v (Some s) = Ret s' -> rest s' s) ms;
  fields_are_all s s' : Forall (agree s s') ms -> rest s s' -> s = s'
}.
Definition no_rest {S} (_ _ : S) : Prop := True.

(** What the getters of one field see decides the field. *)
Section agreement.
Context {S A : Type} (s s' : S).

Lemma agree_required (zero : A) get read set :
  agree s s' (Required zero (mkrequired_methods S A get (get_field_ok read) set)) -> read s = read s'.
Proof. by intros [= ?]. Qed.

Lemma agree_optional (zero : A) get read has set :
  agree s s' (Optional zero (mkoptional_methods S A get (get_pointer_ok read) has set)) -> read s = read s'.
Proof.
  unfold agree. cbn. unfold get_pointer_ok, pointed. cbn.
  by destruct (read s), (read s'); cbn; intros E; simplify_eq.
Qed.

Lemma agree_collection (empty : A) read ok has set :
  agree s s' (Collection empty (mkcollection_methods S A (get_field empty read) ok has set)) -> read s = read s'.
Proof. by intros [= ?]. Qed.
End agreement.

Create HintDb structs discriminated.

Ltac field_agrees H :=
  lazymatch type of H with
  | agree _ _ (Optional _ _) => apply agree_optional in H
  | agree _ _ (Required _ _) => apply agree_required in H
  | agree _ _ (Collection _ _) => apply agree_collection in H
  end.

(** The methods of a field that read the same field of the struct keep its law. *)
Section one_field.
Context {S A : Type}.

Lemma required_methods_lawful (zero : A) (read : S -> A) write :
  required_law zero (mkrequired_methods S A (get_field zero read) (get_field_ok read) (assigns write)).
Proof. split; [|done]. repeat split. intros v. by eexists. Qed.

Lemma optional_methods_lawful (zero : A) (read : S -> option A) write :
  optional_law zero
    (mkoptional_methods S A (get_pointer zero read) (get_pointer_ok read) (has_pointer read) (assigns write)).
Proof.
  split; cbn; unfold get_pointer, get_pointer_ok, has_pointer; [split; [done|intros v; by eexists]|..];
    intros o; by destruct (pointed read o).
Qed.

Lemma collection_methods_lawful (empty : A) (read : S -> A) write :
  collection_law empty
    (mkcollection_methods S A (get_field empty read) (get_all_ok empty read) (has_any empty read) (assigns write)).
Proof.
  split; cbn.
  - split; [done|]. split; [by intros ([] & Hn & E)|]. intros v. by eexists.
  - intros o l b (n & Hn & E). destruct n; simplify_eq; (split; [by eexists|]); destruct o; cbn in *; auto.
  - intros o (n & Hn & E). destruct n, o; simplify_eq; cbn in *; auto.
Qed.
End one_field.

Ltac field_law :=
  first [apply optional_methods_lawful | apply required_methods_lawful | apply collection_methods_lawful].

Ltac lawful_struct :=
  split;
  [ repeat (apply Forall_cons_2; [field_law|]); apply Forall_nil_2
  | repeat (apply Forall_cons_2; [by intros ? []; eexists|]); apply Forall_nil_2
  | repeat (apply FOP_cons;
      [repeat (apply Forall_cons_2; [by split; intros ? [] ? [= <-]|]); apply Forall_nil_2|]);
    apply FOP_nil
  | repeat (apply Forall_cons_2; [by intros ? [] ? [= <-]|]); apply Forall_nil_2
  | intros s s' Heq Hrest; red in Hrest;
    repeat (let H := fresh in apply Forall_cons in Heq as [H Heq]; field_agrees H);
    destruct s, s'; cbn in *; subst; reflexivity ].

(** Assigning a field what it shows changes nothing, a second assignment takes the
    first one's place, and the order of assignments to two fields does not matter. *)
Section struct_laws.
Context {S : Type} (rest : S -> S -> Prop) `{!Transitive rest, !Symmetric rest}.
Context (ms : list (any_methods S)) (Hms : lawful_struct rest ms).

Lemma in_reads_back x v s s' :
  x ∈ ms -> assignment x v (Some s) = Ret s' -> view x (Some s') = Some v /\ rest s' s.
Proof.
  intros Hin Hs'. split.
  - destruct (proj1 (Forall_forall _ _) (fields_read_back _ _ Hms) x Hin v s) as (s1 & E & Hv).
    rewrite Hs' in E. by injection E as ->.
  - exact (proj1 (Forall_forall _ _) (rest_apart _ _ Hms) x Hin v s s' Hs').
Qed.

(** Two fields are the same one or apart. *)
Lemma same_or_apart x y : x ∈ ms -> y ∈ ms -> x = y \/ apart x y.
Proof.
  intros H1 H2. destruct (ForallOrdPairs_In (fields_apart _ _ Hms) x y) as [E|[[H _]|[_ H]]];
    [by apply list_elem_of_In..| | |]; auto.
Qed.

(** Two structs that came from one by assignments are the same if the getters see the
    same in the fields. *)
Lemma same_fields s s' : rest s s' -> (forall x, x ∈ ms -> agree s s' x) -> s = s'.
Proof. intros Hr H. apply (fields_are_all _ _ Hms); [by apply Forall_forall|done]. Qed.

Lemma set_viewed x v s s' :
  x ∈ ms -> view x (Some s) = Some v -> assignment x v (Some s) = Ret s' -> s' = s.
Proof.
  intros Hin Hv Hs'. destruct (in_reads_back x v s s' Hin Hs') as [Hv' Hr].
  apply same_fields; [done|]. intros y Hy. unfold agree.
  destruct (same_or_apart x y Hin Hy) as [<-|Hap]; [congruence|exact (Hap v s s' Hs')].
Qed.

Lemma set_twice x v v' s s1 s2 s' :
  x ∈ ms -> assignment x v (Some s) = Ret s1 -> assignment x v' (Some s1) = Ret s2 ->
  assignment x v' (Some s) = Ret s' -> s2 = s'.
Proof.
  intros Hin H1 H2 H'. destruct (in_reads_back x v s s1 Hin H1) as [_ Hr1].
  destruct (in_reads_back x v' s1 s2 Hin H2) as [Hv2 Hr2], (in_reads_back x v' s s' Hin H') as [Hv' Hr'].
  apply same_fields; [by do 2 (etrans; [eassumption|])|]. intros y Hy. unfold agree.
  destruct (same_or_apart x y Hin Hy) as [<-|Hap]; [congruence|].
  by rewrite (Hap v' s1 s2 H2), (Hap v s s1 H1), (Hap v' s s' H').
Qed.

Lemma sets_commute x y v w s s1 s2 s3 s4 :
  x ∈ ms -> y ∈ ms -> x <> y ->
  assignment x v (Some s) = Ret s1 -> assignment y w (Some s1) = Ret s2 ->
  assignment y w (Some s) = Ret s3 -> assignment x v (Some s3) = Ret s4 -> s2 = s4.
Proof.
  intros Hx Hy Hne H1 H2 H3 H4.
  destruct (in_reads_back x v s s1 Hx H1) as [Hv1 Hr1], (in_reads_back y w s1 s2 Hy H2) as [Hv2 Hr2],
    (in_reads_back y w s s3 Hy H3) as [Hv3 Hr3], (in_reads_back x v s3 s4 Hx H4) as [Hv4 Hr4].
  destruct (same_or_apart x y Hx Hy) as [?|Hxy]; [done|].
  destruct (same_or_apart y x Hy Hx) as [?|Hyx]; [congruence|].
  apply same_fields; [do 2 (etrans; [eassumption|]); symmetry; by etrans|]. intros z Hz. unfold agree.
  destruct (same_or_apart x z Hx Hz) as [<-|Hxz]; [by rewrite (Hyx w s1 s2 H2), Hv1, Hv4|].
  destruct (same_or_apart y z Hy Hz) as [<-|Hyz]; [by rewrite (Hxy v s3 s4 H4), Hv3, Hv2|].
  by rewrite (Hyz w s1 s2 H2), (Hxz v s s1 H1), (Hxz v s3 s4 H4), (Hyz w s s3 H3).
Qed.
End struct_laws.

Inductive any_struct : Type :=
| Struct {S : Type} (rest : S -> S -> Prop) (ms : list (any_methods S)).
Definition struct_lawful_methods (st : any_struct) : Prop := let 'Struct rest ms := st in lawful_struct rest ms.

(** The members a value is written with. *)
Definition written {S} (c : codec S) (s : S) : list string :=
  match enc c s with JObj ms => map fst ms | _ => [] end.

(** A constructor with the names of the fields it sets. *)
Inductive any_constructor : Type :=
| Constructor {S Args : Type} (c : codec S) (new : Args -> S) (required : list string).
Definition writes_required (ct : any_constructor) : Prop :=
  let 'Constructor c new required := ct in forall args, written c (new args) = required.

(** ** Values that may be null *)

Record Nullable (T : Type) : Type := mkNullable { nv_value : option T; nv_isSet : bool }.
Arguments mkNullable {T} _ _.
Arguments nv_value {T} _.
Arguments nv_isSet {T} _.

Record nullable_methods (T : Type) : Type := mknullable_methods {
  nm_Get : Nullable T -> option T;
  nm_Set : option T -> Nullable T -> Nullable T;
  nm_IsSet : Nullable T -> bool;
  nm_Unset : Nullable T -> Nullable T;
  NewNullableX : option T -> Nullable T;
  nm_MarshalJSON : Nullable T -> json;
  nm_UnmarshalJSON : json -> Nullable T -> option (Nullable T)
}.
Arguments nm_Get {T} _ _.
Arguments nm_Set {T} _ _ _.
Arguments nm_IsSet {T} _ _.
Arguments nm_Unset {T} _ _.
Arguments NewNullableX {T} _ _.
Arguments nm_MarshalJSON {T} _ _.
Arguments nm_UnmarshalJSON {T} _ _ _.

(** An error leaves a value that is not specified: [None]. *)
Definition nullable {T} (c : codec T) : nullable_methods T := {|
  nm_Get v := nv_value v;
  nm_Set val v := mkNullable val true;
  nm_IsSet v := nv_isSet v;
  nm_Unset v := mkNullable None false;
  NewNullableX val := mkNullable val true;
  nm_MarshalJSON v := enc (ptr c) (nv_value v);
  nm_UnmarshalJSON src v := value ← dec (ptr c) src (nv_value v); Some (mkNullable value true)
|}.

(** A wrapper is read back from what it is written as, and null is set, too. *)
Lemma nullable_roundtrip {T} (c : codec T) `{!Lawful c, !NonNull c} v :
  carries (ptr c) (nv_value v) = true ->
  nm_UnmarshalJSON (nullable c) (nm_MarshalJSON (nullable c) v) (nm_Unset (nullable c) v) =
  Some (nm_Set (nullable c) (nm_Get (nullable c) v) v).
Proof.
  intros Hv. cbn [nullable nm_UnmarshalJSON nm_MarshalJSON nm_Unset nm_Set nm_Get nv_value].
  change None with (zero (ptr c)). by rewrite (proj1 (ptr_lawful c _ _ (nv_value v) Hv)).
Qed.

(** ** Enumerations *)

(** The methods of an enumeration called [name]. *)
Record enum_methods (T : Type) : Type := mkenum_methods {
  NewXFromValue : string -> option T * option string;
  IsValid : T -> bool;
  Ptr : T -> option T
}.
Arguments NewXFromValue {T} _ _.
Arguments IsValid {T} _ _.
Arguments Ptr {T} _ _.

(** The text of [fmt.Errorf] with [%v] for the slice of allowed values. *)
Definition invalid_value {T} (name : string) (e : enumeration T) (v : string) : string :=
  "invalid value '" +:+ v +:+ "' for " +:+ name +:+ ": valid values are [" +:+
  String.concat " " (map (enum_text e) (enum_allowed e)) +:+ "]".

Definition enum_type {T} (name : string) (e : enumeration T) : enum_methods T := {|
  NewXFromValue v :=
    match enum_of_text e v with
    | Some ev => (Some ev, None)
    | None => (None, Some (invalid_value name e v))
    end;
  IsValid v := enum_IsValid e v;
  Ptr v := Some v
|}.

(** The constructor takes what the decoder takes, and gives a valid value of that
    text. *)
Lemma NewXFromValue_spec {T} `{EqDecision T} name (e : enumeration T) v :
  fst (NewXFromValue (enum_type name e) v) = dec (enum_codec e) (JStr v) (enum_zero e) /\
  forall x, fst (NewXFromValue (enum_type name e) v) = Some x ->
    IsValid (enum_type name e) x = true /\ enum_text e x = v.
Proof.
  cbn. destruct (enum_of_text e v) as [x|] eqn:E; [|done]. split; [done|]. intros x' [= <-].
  apply find_some in E as [Hin Ht%bool_decide_eq_true]. split; [|exact Ht].
  apply existsb_exists. exists x. split; [exact Hin|]. by apply bool_decide_eq_true.
Qed.

(** ** Wrappers of the basic types (utils.go) *)

Section basic.
Context `{FloatText}.

Definition NullableBool : nullable_methods bool := nullable bool_codec.
(** Go's int has 64 bits. *)
Definition NullableInt : nullable_methods Z := nullable int64_codec.
Definition NullableInt32 : nullable_methods Z := nullable int32_codec.
Definition NullableInt64 : nullable_methods Z := nullable int64_codec.
Definition NullableFloat32 : nullable_methods Q := nullable (float_codec 32).
Definition NullableFloat64 : nullable_methods Q := nullable (float_codec 64).
Definition NullableString : nullable_methods string := nullable string_codec.

End basic.
