(* ===== verification/IdlModel.v ===== *)
(** * The methods of the data model: states, commands and the worker's API

    The methods that gen/iwfidl generates (Model.v) of the types of Idl.v.  A definition
    [T_X] has the methods of the field [X] of [T]. *)

From S2P Require Export Model IdlJson.

Section model.
Context `{FloatText}.

(** ** SearchAttributeValueType (model_search_attribute_value_type.go) *)

Definition SearchAttributeValueType_methods : enum_methods SearchAttributeValueType :=
  enum_type "SearchAttributeValueType" SearchAttributeValueType_enum.
Definition NullableSearchAttributeValueType : nullable_methods SearchAttributeValueType :=
  nullable (enum_codec SearchAttributeValueType_enum).

(** ** PersistenceLoadingType (model_persistence_loading_type.go) *)

Definition PersistenceLoadingType_methods : enum_methods PersistenceLoadingType :=
  enum_type "PersistenceLoadingType" PersistenceLoadingType_enum.
Definition NullablePersistenceLoadingType : nullable_methods PersistenceLoadingType :=
  nullable (enum_codec PersistenceLoadingType_enum).

(** ** EventType (model_event_type.go) *)

Definition EventType_methods : enum_methods EventType := enum_type "EventType" EventType_enum.
Definition NullableEventType : nullable_methods EventType := nullable (enum_codec EventType_enum).

(** ** DeciderTriggerType (model_decider_trigger_type.go) *)

Definition DeciderTriggerType_methods : enum_methods DeciderTriggerType :=
  enum_type "DeciderTriggerType" DeciderTriggerType_enum.
Definition NullableDeciderTriggerType : nullable_methods DeciderTriggerType :=
  nullable (enum_codec DeciderTriggerType_enum).

(** ** CommandWaitingType (model_command_waiting_type.go) *)

Definition CommandWaitingType_methods : enum_methods CommandWaitingType :=
  enum_type "CommandWaitingType" CommandWaitingType_enum.
Definition NullableCommandWaitingType : nullable_methods CommandWaitingType :=
  nullable (enum_codec CommandWaitingType_enum).

(** ** ExecutingStateIdMode (model_executing_state_id_mode.go) *)

Definition ExecutingStateIdMode_methods : enum_methods ExecutingStateIdMode :=
  enum_type "ExecutingStateIdMode" ExecutingStateIdMode_enum.
Definition NullableExecutingStateIdMode : nullable_methods ExecutingStateIdMode :=
  nullable (enum_codec ExecutingStateIdMode_enum).

(** ** WorkflowConditionalCloseType (model_workflow_conditional_close_type.go) *)

Definition WorkflowConditionalCloseType_methods : enum_methods WorkflowConditionalCloseType :=
  enum_type "WorkflowConditionalCloseType" WorkflowConditionalCloseType_enum.
Definition NullableWorkflowConditionalCloseType : nullable_methods WorkflowConditionalCloseType :=
  nullable (enum_codec WorkflowConditionalCloseType_enum).

(** ** StartApiFailurePolicy (model_start_api_failure_policy.go) *)

Definition StartApiFailurePolicy_methods : enum_methods StartApiFailurePolicy :=
  enum_type "StartApiFailurePolicy" StartApiFailurePolicy_enum.
Definition NullableStartApiFailurePolicy : nullable_methods StartApiFailurePolicy :=
  nullable (enum_codec StartApiFailurePolicy_enum).

(** ** WaitUntilApiFailurePolicy (model_wait_until_api_failure_policy.go) *)

Definition WaitUntilApiFailurePolicy_methods : enum_methods WaitUntilApiFailurePolicy :=
  enum_type "WaitUntilApiFailurePolicy" WaitUntilApiFailurePolicy_enum.
Definition NullableWaitUntilApiFailurePolicy : nullable_methods WaitUntilApiFailurePolicy :=
  nullable (enum_codec WaitUntilApiFailurePolicy_enum).

(** ** ExecuteApiFailurePolicy (model_execute_api_failure_policy.go) *)

Definition ExecuteApiFailurePolicy_methods : enum_methods ExecuteApiFailurePolicy :=
  enum_type "ExecuteApiFailurePolicy" ExecuteApiFailurePolicy_enum.
Definition NullableExecuteApiFailurePolicy : nullable_methods ExecuteApiFailurePolicy :=
  nullable (enum_codec ExecuteApiFailurePolicy_enum).

(** ** WorkflowErrorType (model_workflow_error_type.go) *)

Definition WorkflowErrorType_methods : enum_methods WorkflowErrorType :=
  enum_type "WorkflowErrorType" WorkflowErrorType_enum.
Definition NullableWorkflowErrorType : nullable_methods WorkflowErrorType :=
  nullable (enum_codec WorkflowErrorType_enum).

(** ** TimerStatus (model_timer_status.go) *)

Definition TimerStatus_methods : enum_methods TimerStatus := enum_type "TimerStatus" TimerStatus_enum.
Definition NullableTimerStatus : nullable_methods TimerStatus := nullable (enum_codec TimerStatus_enum).

(** ** ChannelRequestStatus (model_channel_request_status.go) *)

Definition ChannelRequestStatus_methods : enum_methods ChannelRequestStatus :=
  enum_type "ChannelRequestStatus" ChannelRequestStatus_enum.
Definition NullableChannelRequestStatus : nullable_methods ChannelRequestStatus :=
  nullable (enum_codec ChannelRequestStatus_enum).

(** ** ErrorSubStatus (model_error_sub_status.go) *)

Definition ErrorSubStatus_methods : enum_methods ErrorSubStatus := enum_type "ErrorSubStatus" ErrorSubStatus_enum.
Definition NullableErrorSubStatus : nullable_methods ErrorSubStatus := nullable (enum_codec ErrorSubStatus_enum).

(** ** IDReusePolicy (model_id_reuse_policy.go) *)

Definition IDReusePolicy_methods : enum_methods IDReusePolicy := enum_type "IDReusePolicy" IDReusePolicy_enum.
Definition NullableIDReusePolicy : nullable_methods IDReusePolicy := nullable (enum_codec IDReusePolicy_enum).

(** ** WorkflowIDReusePolicy (model_workflow_id_reuse_policy.go) *)

Definition WorkflowIDReusePolicy_methods : enum_methods WorkflowIDReusePolicy :=
  enum_type "WorkflowIDReusePolicy" WorkflowIDReusePolicy_enum.
Definition NullableWorkflowIDReusePolicy : nullable_methods WorkflowIDReusePolicy :=
  nullable (enum_codec WorkflowIDReusePolicy_enum).

(** ** EncodedObject (model_encoded_object.go) *)

Definition EncodedObject_ExtStoreId : optional_methods EncodedObject _ := {|
  GetOptX := get_pointer EmptyString ExtStoreId;
  GetOptXOk := get_pointer_ok ExtStoreId;
  HasX := has_pointer ExtStoreId;
  SetOptX := assigns (fun v o => mkEncodedObject (Some v) (ExtPath o) (Encoding o) (Data o))
|}.
Definition EncodedObject_ExtPath : optional_methods EncodedObject _ := {|
  GetOptX := get_pointer EmptyString ExtPath;
  GetOptXOk := get_pointer_ok ExtPath;
  HasX := has_pointer ExtPath;
  SetOptX := assigns (fun v o => mkEncodedObject (ExtStoreId o) (Some v) (Encoding o) (Data o))
|}.
Definition EncodedObject_Encoding : optional_methods EncodedObject _ := {|
  GetOptX := get_pointer EmptyString Encoding;
  GetOptXOk := get_pointer_ok Encoding;
  HasX := has_pointer Encoding;
  SetOptX := assigns (fun v o => mkEncodedObject (ExtStoreId o) (ExtPath o) (Some v) (Data o))
|}.
Definition EncodedObject_Data : optional_methods EncodedObject _ := {|
  GetOptX := get_pointer EmptyString Data;
  GetOptXOk := get_pointer_ok Data;
  HasX := has_pointer Data;
  SetOptX := assigns (fun v o => mkEncodedObject (ExtStoreId o) (ExtPath o) (Encoding o) (Some v))
|}.
Definition EncodedObject_members : list (any_methods EncodedObject) :=
  [Optional EmptyString EncodedObject_ExtStoreId; Optional EmptyString EncodedObject_ExtPath;
    Optional EmptyString EncodedObject_Encoding; Optional EmptyString EncodedObject_Data].
Definition NewEncodedObject : EncodedObject :=
  mkEncodedObject None None None None.
Definition NewEncodedObjectWithDefaults : EncodedObject :=
  mkEncodedObject None None None None.
Definition NullableEncodedObject : nullable_methods EncodedObject := nullable EncodedObject_codec.
Lemma EncodedObject_struct_lawful : lawful_struct no_rest EncodedObject_members.
Proof. lawful_struct. Qed.

(** ** KeyValue (model_key_value.go) *)

Definition KeyValue_Key : optional_methods KeyValue _ := {|
  GetOptX := get_pointer EmptyString kv_Key;
  GetOptXOk := get_pointer_ok kv_Key;
  HasX := has_pointer kv_Key;
  SetOptX := assigns (fun v o => mkKeyValue (Some v) (kv_Value o))
|}.
Definition KeyValue_Value : optional_methods KeyValue _ := {|
  GetOptX := get_pointer (zero EncodedObject_codec) kv_Value;
  GetOptXOk := get_pointer_ok kv_Value;
  HasX := has_pointer kv_Value;
  SetOptX := assigns (fun v o => mkKeyValue (kv_Key o) (Some v))
|}.
Definition KeyValue_members : list (any_methods KeyValue) :=
  [Optional EmptyString KeyValue_Key; Optional (zero EncodedObject_codec) KeyValue_Value].
Definition NewKeyValue : KeyValue :=
  mkKeyValue None None.
Definition NewKeyValueWithDefaults : KeyValue :=
  mkKeyValue None None.
Definition NullableKeyValue : nullable_methods KeyValue := nullable KeyValue_codec.
Lemma KeyValue_struct_lawful : lawful_struct no_rest KeyValue_members.
Proof. lawful_struct. Qed.

(** ** SearchAttribute (model_search_attribute.go) *)

Definition SearchAttribute_Key : optional_methods SearchAttribute _ := {|
  GetOptX := get_pointer EmptyString sa_Key;
  GetOptXOk := get_pointer_ok sa_Key;
  HasX := has_pointer sa_Key;
  SetOptX :=
    assigns (fun v o => mkSearchAttribute (Some v) (StringValue o) (IntegerValue o) (DoubleValue o) (BoolValue
    o) (StringArrayValue o) (ValueType o))
|}.
Definition SearchAttribute_StringValue : optional_methods SearchAttribute _ := {|
  GetOptX := get_pointer EmptyString StringValue;
  GetOptXOk := get_pointer_ok StringValue;
  HasX := has_pointer StringValue;
  SetOptX :=
    assigns (fun v o => mkSearchAttribute (sa_Key o) (Some v) (IntegerValue o) (DoubleValue o) (BoolValue o)
    (StringArrayValue o) (ValueType o))
|}.
Definition SearchAttribute_IntegerValue : optional_methods SearchAttribute _ := {|
  GetOptX := get_pointer 0%Z IntegerValue;
  GetOptXOk := get_pointer_ok IntegerValue;
  HasX := has_pointer IntegerValue;
  SetOptX :=
    assigns (fun v o => mkSearchAttribute (sa_Key o) (StringValue o) (Some v) (DoubleValue o) (BoolValue o)
    (StringArrayValue o) (ValueType o))
|}.
Definition SearchAttribute_DoubleValue : optional_methods SearchAttribute _ := {|
  GetOptX := get_pointer 0%Q DoubleValue;
  GetOptXOk := get_pointer_ok DoubleValue;
  HasX := has_pointer DoubleValue;
  SetOptX :=
    assigns (fun v o => mkSearchAttribute (sa_Key o) (StringValue o) (IntegerValue o) (Some v) (BoolValue o)
    (StringArrayValue o) (ValueType o))
|}.
Definition SearchAttribute_BoolValue : optional_methods SearchAttribute _ := {|
  GetOptX := get_pointer false BoolValue;
  GetOptXOk := get_pointer_ok BoolValue;
  HasX := has_pointer BoolValue;
  SetOptX :=
    assigns (fun v o => mkSearchAttribute (sa_Key o) (StringValue o) (IntegerValue o) (DoubleValue o) (Some v)
    (StringArrayValue o) (ValueType o))
|}.
Definition SearchAttribute_StringArrayValue : collection_methods SearchAttribute _ := {|
  GetAllX := get_field [] StringArrayValue;
  GetAllXOk := get_all_ok [] StringArrayValue;
  HasAnyX := has_any [] StringArrayValue;
  SetAllX :=
    assigns (fun v o => mkSearchAttribute (sa_Key o) (StringValue o) (IntegerValue o) (DoubleValue o)
    (BoolValue o) v (ValueType o))
|}.
Definition SearchAttribute_ValueType : optional_methods SearchAttribute _ := {|
  GetOptX := get_pointer (enum_zero SearchAttributeValueType_enum) ValueType;
  GetOptXOk := get_pointer_ok ValueType;
  HasX := has_pointer ValueType;
  SetOptX :=
    assigns (fun v o => mkSearchAttribute (sa_Key o) (StringValue o) (IntegerValue o) (DoubleValue o)
    (BoolValue o) (StringArrayValue o) (Some v))
|}.
Definition SearchAttribute_members : list (any_methods SearchAttribute) :=
  [Optional EmptyString SearchAttribute_Key; Optional EmptyString SearchAttribute_StringValue;
    Optional 0%Z SearchAttribute_IntegerValue; Optional 0%Q SearchAttribute_DoubleValue;
    Optional false SearchAttribute_BoolValue; Collection [] SearchAttribute_StringArrayValue;
    Optional (enum_zero SearchAttributeValueType_enum) SearchAttribute_ValueType].
Definition NewSearchAttribute : SearchAttribute :=
  mkSearchAttribute None None None None None [] None.
Definition NewSearchAttributeWithDefaults : SearchAttribute :=
  mkSearchAttribute None None None None None [] None.
Definition NullableSearchAttribute : nullable_methods SearchAttribute := nullable SearchAttribute_codec.
Lemma SearchAttribute_struct_lawful : lawful_struct no_rest SearchAttribute_members.
Proof. lawful_struct. Qed.

(** ** SearchAttributeKeyAndType (model_search_attribute_key_and_type.go) *)

Definition SearchAttributeKeyAndType_Key : optional_methods SearchAttributeKeyAndType _ := {|
  GetOptX := get_pointer EmptyString sakt_Key;
  GetOptXOk := get_pointer_ok sakt_Key;
  HasX := has_pointer sakt_Key;
  SetOptX := assigns (fun v o => mkSearchAttributeKeyAndType (Some v) (sakt_ValueType o))
|}.
Definition SearchAttributeKeyAndType_ValueType : optional_methods SearchAttributeKeyAndType _ := {|
  GetOptX := get_pointer (enum_zero SearchAttributeValueType_enum) sakt_ValueType;
  GetOptXOk := get_pointer_ok sakt_ValueType;
  HasX := has_pointer sakt_ValueType;
  SetOptX := assigns (fun v o => mkSearchAttributeKeyAndType (sakt_Key o) (Some v))
|}.
Definition SearchAttributeKeyAndType_members : list (any_methods SearchAttributeKeyAndType) :=
  [Optional EmptyString SearchAttributeKeyAndType_Key; Optional (enum_zero SearchAttributeValueType_enum)
    SearchAttributeKeyAndType_ValueType].
Definition NewSearchAttributeKeyAndType : SearchAttributeKeyAndType :=
  mkSearchAttributeKeyAndType None None.
Definition NewSearchAttributeKeyAndTypeWithDefaults : SearchAttributeKeyAndType :=
  mkSearchAttributeKeyAndType None None.
Definition NullableSearchAttributeKeyAndType : nullable_methods SearchAttributeKeyAndType :=
  nullable SearchAttributeKeyAndType_codec.
Lemma SearchAttributeKeyAndType_struct_lawful : lawful_struct no_rest SearchAttributeKeyAndType_members.
Proof. lawful_struct. Qed.

(** ** PersistenceLoadingPolicy (model_persistence_loading_policy.go) *)

Definition PersistenceLoadingPolicy_PersistenceLoadingType : optional_methods PersistenceLoadingPolicy _ := {|
  GetOptX := get_pointer (enum_zero PersistenceLoadingType_enum) plp_PersistenceLoadingType;
  GetOptXOk := get_pointer_ok plp_PersistenceLoadingType;
  HasX := has_pointer plp_PersistenceLoadingType;
  SetOptX :=
    assigns (fun v o => mkPersistenceLoadingPolicy (Some v) (PartialLoadingKeys o) (LockingKeys o)
    (UseKeyAsPrefix o) (LazyLoadingLargeDataAttributes o))
|}.
Definition PersistenceLoadingPolicy_PartialLoadingKeys : collection_methods PersistenceLoadingPolicy _ := {|
  GetAllX := get_field [] PartialLoadingKeys;
  GetAllXOk := get_all_ok [] PartialLoadingKeys;
  HasAnyX := has_any [] PartialLoadingKeys;
  SetAllX :=
    assigns (fun v o => mkPersistenceLoadingPolicy (plp_PersistenceLoadingType o) v (LockingKeys o)
    (UseKeyAsPrefix o) (LazyLoadingLargeDataAttributes o))
|}.
Definition PersistenceLoadingPolicy_LockingKeys : collection_methods PersistenceLoadingPolicy _ := {|
  GetAllX := get_field [] LockingKeys;
  GetAllXOk := get_all_ok [] LockingKeys;
  HasAnyX := has_any [] LockingKeys;
  SetAllX :=
    assigns (fun v o => mkPersistenceLoadingPolicy (plp_PersistenceLoadingType o) (PartialLoadingKeys o) v
    (UseKeyAsPrefix o) (LazyLoadingLargeDataAttributes o))
|}.
Definition PersistenceLoadingPolicy_UseKeyAsPrefix : optional_methods PersistenceLoadingPolicy _ := {|
  GetOptX := get_pointer false UseKeyAsPrefix;
  GetOptXOk := get_pointer_ok UseKeyAsPrefix;
  HasX := has_pointer UseKeyAsPrefix;
  SetOptX :=
    assigns (fun v o => mkPersistenceLoadingPolicy (plp_PersistenceLoadingType o) (PartialLoadingKeys o)
    (LockingKeys o) (Some v) (LazyLoadingLargeDataAttributes o))
|}.
Definition PersistenceLoadingPolicy_LazyLoadingLargeDataAttributes : optional_methods PersistenceLoadingPolicy _ := {|
  GetOptX := get_pointer false LazyLoadingLargeDataAttributes;
  GetOptXOk := get_pointer_ok LazyLoadingLargeDataAttributes;
  HasX := has_pointer LazyLoadingLargeDataAttributes;
  SetOptX :=
    assigns (fun v o => mkPersistenceLoadingPolicy (plp_PersistenceLoadingType o) (PartialLoadingKeys o)
    (LockingKeys o) (UseKeyAsPrefix o) (Some v))
|}.
Definition PersistenceLoadingPolicy_members : list (any_methods PersistenceLoadingPolicy) :=
  [Optional (enum_zero PersistenceLoadingType_enum) PersistenceLoadingPolicy_PersistenceLoadingType;
    Collection [] PersistenceLoadingPolicy_PartialLoadingKeys;
    Collection [] PersistenceLoadingPolicy_LockingKeys; Optional false PersistenceLoadingPolicy_UseKeyAsPrefix;
    Optional false PersistenceLoadingPolicy_LazyLoadingLargeDataAttributes].
Definition NewPersistenceLoadingPolicy : PersistenceLoadingPolicy :=
  mkPersistenceLoadingPolicy None [] [] None None.
Definition NewPersistenceLoadingPolicyWithDefaults : PersistenceLoadingPolicy :=
  mkPersistenceLoadingPolicy None [] [] None None.
Definition NullablePersistenceLoadingPolicy : nullable_methods PersistenceLoadingPolicy :=
  nullable PersistenceLoadingPolicy_codec.
Lemma PersistenceLoadingPolicy_struct_lawful : lawful_struct no_rest PersistenceLoadingPolicy_members.
Proof. lawful_struct. Qed.

(** ** RetryPolicy (model_retry_policy.go) *)

Definition RetryPolicy_InitialIntervalSeconds : optional_methods RetryPolicy _ := {|
  GetOptX := get_pointer 0%Z InitialIntervalSeconds;
  GetOptXOk := get_pointer_ok InitialIntervalSeconds;
  HasX := has_pointer InitialIntervalSeconds;
  SetOptX :=
    assigns (fun v o => mkRetryPolicy (Some v) (BackoffCoefficient o) (MaximumIntervalSeconds o)
    (MaximumAttempts o) (MaximumAttemptsDurationSeconds o))
|}.
Definition RetryPolicy_BackoffCoefficient : optional_methods RetryPolicy _ := {|
  GetOptX := get_pointer 0%Q BackoffCoefficient;
  GetOptXOk := get_pointer_ok BackoffCoefficient;
  HasX := has_pointer BackoffCoefficient;
  SetOptX :=
    assigns (fun v o => mkRetryPolicy (InitialIntervalSeconds o) (Some v) (MaximumIntervalSeconds o)
    (MaximumAttempts o) (MaximumAttemptsDurationSeconds o))
|}.
Definition RetryPolicy_MaximumIntervalSeconds : optional_methods RetryPolicy _ := {|
  GetOptX := get_pointer 0%Z MaximumIntervalSeconds;
  GetOptXOk := get_pointer_ok MaximumIntervalSeconds;
  HasX := has_pointer MaximumIntervalSeconds;
  SetOptX :=
    assigns (fun v o => mkRetryPolicy (InitialIntervalSeconds o) (BackoffCoefficient o) (Some v)
    (MaximumAttempts o) (MaximumAttemptsDurationSeconds o))
|}.
Definition RetryPolicy_MaximumAttempts : optional_methods RetryPolicy _ := {|
  GetOptX := get_pointer 0%Z MaximumAttempts;
  GetOptXOk := get_pointer_ok MaximumAttempts;
  HasX := has_pointer MaximumAttempts;
  SetOptX :=
    assigns (fun v o => mkRetryPolicy (InitialIntervalSeconds o) (BackoffCoefficient o) (MaximumIntervalSeconds
    o) (Some v) (MaximumAttemptsDurationSeconds o))
|}.
Definition RetryPolicy_MaximumAttemptsDurationSeconds : optional_methods RetryPolicy _ := {|
  GetOptX := get_pointer 0%Z MaximumAttemptsDurationSeconds;
  GetOptXOk := get_pointer_ok MaximumAttemptsDurationSeconds;
  HasX := has_pointer MaximumAttemptsDurationSeconds;
  SetOptX :=
    assigns (fun v o => mkRetryPolicy (InitialIntervalSeconds o) (BackoffCoefficient o) (MaximumIntervalSeconds
    o) (MaximumAttempts o) (Some v))
|}.
Definition RetryPolicy_members : list (any_methods RetryPolicy) :=
  [Optional 0%Z RetryPolicy_InitialIntervalSeconds; Optional 0%Q RetryPolicy_BackoffCoefficient;
    Optional 0%Z RetryPolicy_MaximumIntervalSeconds; Optional 0%Z RetryPolicy_MaximumAttempts;
    Optional 0%Z RetryPolicy_MaximumAttemptsDurationSeconds].
Definition NewRetryPolicy : RetryPolicy :=
  mkRetryPolicy None None None None None.
Definition NewRetryPolicyWithDefaults : RetryPolicy :=
  mkRetryPolicy None None None None None.
Definition NullableRetryPolicy : nullable_methods RetryPolicy := nullable RetryPolicy_codec.
Lemma RetryPolicy_struct_lawful : lawful_struct no_rest RetryPolicy_members.
Proof. lawful_struct. Qed.

(** ** IwfEventError (model_iwf_event_error.go) *)

Definition IwfEventError_Type : optional_methods IwfEventError _ := {|
  GetOptX := get_pointer EmptyString ee_Type;
  GetOptXOk := get_pointer_ok ee_Type;
  HasX := has_pointer ee_Type;
  SetOptX := assigns (fun v o => mkIwfEventError (Some v) (ee_Details o))
|}.
Definition IwfEventError_Details : optional_methods IwfEventError _ := {|
  GetOptX := get_pointer EmptyString ee_Details;
  GetOptXOk := get_pointer_ok ee_Details;
  HasX := has_pointer ee_Details;
  SetOptX := assigns (fun v o => mkIwfEventError (ee_Type o) (Some v))
|}.
Definition IwfEventError_members : list (any_methods IwfEventError) :=
  [Optional EmptyString IwfEventError_Type; Optional EmptyString IwfEventError_Details].
Definition NewIwfEventError : IwfEventError :=
  mkIwfEventError None None.
Definition NewIwfEventErrorWithDefaults : IwfEventError :=
  mkIwfEventError None None.
Definition NullableIwfEventError : nullable_methods IwfEventError := nullable IwfEventError_codec.
Lemma IwfEventError_struct_lawful : lawful_struct no_rest IwfEventError_members.
Proof. lawful_struct. Qed.

(** ** StateMovement (model_state_movement.go) *)

Definition StateMovement_StateId : required_methods StateMovement _ := {|
  GetX := get_field EmptyString StateId;
  GetXOk := get_field_ok StateId;
  SetX := assigns (fun v o => mkStateMovement v (StateInput o) (StateOptions o) (WaitForKey o))
|}.
Definition StateMovement_StateInput : optional_methods StateMovement _ := {|
  GetOptX := get_pointer (zero EncodedObject_codec) StateInput;
  GetOptXOk := get_pointer_ok StateInput;
  HasX := has_pointer StateInput;
  SetOptX := assigns (fun v o => mkStateMovement (StateId o) (Some v) (StateOptions o) (WaitForKey o))
|}.
Definition StateMovement_StateOptions : optional_methods StateMovement _ := {|
  GetOptX := get_pointer (zero WorkflowStateOptions_codec) StateOptions;
  GetOptXOk := get_pointer_ok StateOptions;
  HasX := has_pointer StateOptions;
  SetOptX := assigns (fun v o => mkStateMovement (StateId o) (StateInput o) (Some v) (WaitForKey o))
|}.
Definition StateMovement_WaitForKey : optional_methods StateMovement _ := {|
  GetOptX := get_pointer EmptyString WaitForKey;
  GetOptXOk := get_pointer_ok WaitForKey;
  HasX := has_pointer WaitForKey;
  SetOptX := assigns (fun v o => mkStateMovement (StateId o) (StateInput o) (StateOptions o) (Some v))
|}.
Definition StateMovement_members : list (any_methods StateMovement) :=
  [Required EmptyString StateMovement_StateId; Optional (zero EncodedObject_codec) StateMovement_StateInput;
    Optional (zero WorkflowStateOptions_codec) StateMovement_StateOptions;
    Optional EmptyString StateMovement_WaitForKey].
Definition NewStateMovement (stateId_ : string) : StateMovement :=
  mkStateMovement stateId_ None None None.
Definition NewStateMovementWithDefaults : StateMovement :=
  mkStateMovement EmptyString None None None.
Definition NullableStateMovement : nullable_methods StateMovement := nullable StateMovement_codec.
Lemma StateMovement_struct_lawful : lawful_struct no_rest StateMovement_members.
Proof. lawful_struct. Qed.

(** ** WorkflowConditionalClose (model_workflow_conditional_close.go) *)

Definition WorkflowConditionalClose_ConditionalCloseType : optional_methods WorkflowConditionalClose _ := {|
  GetOptX := get_pointer (enum_zero WorkflowConditionalCloseType_enum) ConditionalCloseType;
  GetOptXOk := get_pointer_ok ConditionalCloseType;
  HasX := has_pointer ConditionalCloseType;
  SetOptX := assigns (fun v o => mkWorkflowConditionalClose (Some v) (cc_ChannelName o) (CloseInput o))
|}.
Definition WorkflowConditionalClose_ChannelName : optional_methods WorkflowConditionalClose _ := {|
  GetOptX := get_pointer EmptyString cc_ChannelName;
  GetOptXOk := get_pointer_ok cc_ChannelName;
  HasX := has_pointer cc_ChannelName;
  SetOptX := assigns (fun v o => mkWorkflowConditionalClose (ConditionalCloseType o) (Some v) (CloseInput o))
|}.
Definition WorkflowConditionalClose_CloseInput : optional_methods WorkflowConditionalClose _ := {|
  GetOptX := get_pointer (zero EncodedObject_codec) CloseInput;
  GetOptXOk := get_pointer_ok CloseInput;
  HasX := has_pointer CloseInput;
  SetOptX := assigns (fun v o => mkWorkflowConditionalClose (ConditionalCloseType o) (cc_ChannelName o) (Some v))
|}.
Definition WorkflowConditionalClose_members : list (any_methods WorkflowConditionalClose) :=
  [Optional (enum_zero WorkflowConditionalCloseType_enum) WorkflowConditionalClose_ConditionalCloseType;
    Optional EmptyString WorkflowConditionalClose_ChannelName;
    Optional (zero EncodedObject_codec) WorkflowConditionalClose_CloseInput].
Definition NewWorkflowConditionalClose : WorkflowConditionalClose :=
  mkWorkflowConditionalClose None None None.
Definition NewWorkflowConditionalCloseWithDefaults : WorkflowConditionalClose :=
  mkWorkflowConditionalClose None None None.
Definition NullableWorkflowConditionalClose : nullable_methods WorkflowConditionalClose :=
  nullable WorkflowConditionalClose_codec.
Lemma WorkflowConditionalClose_struct_lawful : lawful_struct no_rest WorkflowConditionalClose_members.
Proof. lawful_struct. Qed.

(** ** StateDecision (model_state_decision.go) *)

Definition StateDecision_NextStates : collection_methods StateDecision _ := {|
  GetAllX := get_field [] NextStates;
  GetAllXOk := get_all_ok [] NextStates;
  HasAnyX := has_any [] NextStates;
  SetAllX := assigns (fun v o => mkStateDecision v (ConditionalClose o))
|}.
Definition StateDecision_ConditionalClose : optional_methods StateDecision _ := {|
  GetOptX := get_pointer (zero WorkflowConditionalClose_codec) ConditionalClose;
  GetOptXOk := get_pointer_ok ConditionalClose;
  HasX := has_pointer ConditionalClose;
  SetOptX := assigns (fun v o => mkStateDecision (NextStates o) (Some v))
|}.
Definition StateDecision_members : list (any_methods StateDecision) :=
  [Collection [] StateDecision_NextStates; Optional (zero WorkflowConditionalClose_codec)
    StateDecision_ConditionalClose].
Definition NewStateDecision : StateDecision :=
  mkStateDecision [] None.
Definition NewStateDecisionWithDefaults : StateDecision :=
  mkStateDecision [] None.
Definition NullableStateDecision : nullable_methods StateDecision := nullable StateDecision_codec.
Lemma StateDecision_struct_lawful : lawful_struct no_rest StateDecision_members.
Proof. lawful_struct. Qed.

(** ** StateCompletionOutput (model_state_completion_output.go) *)

Definition StateCompletionOutput_CompletedStateId : required_methods StateCompletionOutput _ := {|
  GetX := get_field EmptyString CompletedStateId;
  GetXOk := get_field_ok CompletedStateId;
  SetX := assigns (fun v o => mkStateCompletionOutput v (CompletedStateExecutionId o) (CompletedStateOutput o))
|}.
Definition StateCompletionOutput_CompletedStateExecutionId : required_methods StateCompletionOutput _ := {|
  GetX := get_field EmptyString CompletedStateExecutionId;
  GetXOk := get_field_ok CompletedStateExecutionId;
  SetX := assigns (fun v o => mkStateCompletionOutput (CompletedStateId o) v (CompletedStateOutput o))
|}.
Definition StateCompletionOutput_CompletedStateOutput : optional_methods StateCompletionOutput _ := {|
  GetOptX := get_pointer (zero EncodedObject_codec) CompletedStateOutput;
  GetOptXOk := get_pointer_ok CompletedStateOutput;
  HasX := has_pointer CompletedStateOutput;
  SetOptX := assigns (fun v o => mkStateCompletionOutput (CompletedStateId o) (CompletedStateExecutionId o) (Some v))
|}.
Definition StateCompletionOutput_members : list (any_methods StateCompletionOutput) :=
  [Required EmptyString StateCompletionOutput_CompletedStateId;
    Required EmptyString StateCompletionOutput_CompletedStateExecutionId;
    Optional (zero EncodedObject_codec) StateCompletionOutput_CompletedStateOutput].
Definition NewStateCompletionOutput (completedStateId_ : string) (completedStateExecutionId_ : string) :
  StateCompletionOutput :=
  mkStateCompletionOutput completedStateId_ completedStateExecutionId_ None.
Definition NewStateCompletionOutputWithDefaults : StateCompletionOutput :=
  mkStateCompletionOutput EmptyString EmptyString None.
Definition NullableStateCompletionOutput : nullable_methods StateCompletionOutput :=
  nullable StateCompletionOutput_codec.
Lemma StateCompletionOutput_struct_lawful : lawful_struct no_rest StateCompletionOutput_members.
Proof. lawful_struct. Qed.

(** ** InterStateChannelPublishing (model_inter_state_channel_publishing.go) *)

Definition InterStateChannelPublishing_ChannelName : required_methods InterStateChannelPublishing _ := {|
  GetX := get_field EmptyString pub_ChannelName;
  GetXOk := get_field_ok pub_ChannelName;
  SetX := assigns (fun v o => mkInterStateChannelPublishing v (pub_Value o))
|}.
Definition InterStateChannelPublishing_Value : optional_methods InterStateChannelPublishing _ := {|
  GetOptX := get_pointer (zero EncodedObject_codec) pub_Value;
  GetOptXOk := get_pointer_ok pub_Value;
  HasX := has_pointer pub_Value;
  SetOptX := assigns (fun v o => mkInterStateChannelPublishing (pub_ChannelName o) (Some v))
|}.
Definition InterStateChannelPublishing_members : list (any_methods InterStateChannelPublishing) :=
  [Required EmptyString InterStateChannelPublishing_ChannelName;
    Optional (zero EncodedObject_codec) InterStateChannelPublishing_Value].
Definition NewInterStateChannelPublishing (channelName_ : string) : InterStateChannelPublishing :=
  mkInterStateChannelPublishing channelName_ None.
Definition NewInterStateChannelPublishingWithDefaults : InterStateChannelPublishing :=
  mkInterStateChannelPublishing EmptyString None.
Definition NullableInterStateChannelPublishing : nullable_methods InterStateChannelPublishing :=
  nullable InterStateChannelPublishing_codec.
Lemma InterStateChannelPublishing_struct_lawful : lawful_struct no_rest InterStateChannelPublishing_members.
Proof. lawful_struct. Qed.

(** ** ChannelInfo (model_channel_info.go) *)

Definition ChannelInfo_Size : optional_methods ChannelInfo _ := {|
  GetOptX := get_pointer 0%Z Size;
  GetOptXOk := get_pointer_ok Size;
  HasX := has_pointer Size;
  SetOptX := assigns (fun v o => mkChannelInfo (Some v))
|}.
Definition ChannelInfo_members : list (any_methods ChannelInfo) :=
  [Optional 0%Z ChannelInfo_Size].
Definition NewChannelInfo : ChannelInfo :=
  mkChannelInfo None.
Definition NewChannelInfoWithDefaults : ChannelInfo :=
  mkChannelInfo None.
Definition NullableChannelInfo : nullable_methods ChannelInfo := nullable ChannelInfo_codec.
Lemma ChannelInfo_struct_lawful : lawful_struct no_rest ChannelInfo_members.
Proof. lawful_struct. Qed.

(** ** TimerCommand (model_timer_command.go) *)

Definition TimerCommand_CommandId : optional_methods TimerCommand _ := {|
  GetOptX := get_pointer EmptyString tc_CommandId;
  GetOptXOk := get_pointer_ok tc_CommandId;
  HasX := has_pointer tc_CommandId;
  SetOptX := assigns (fun v o => mkTimerCommand (Some v) (FiringUnixTimestampSeconds o) (DurationSeconds o))
|}.
Definition TimerCommand_FiringUnixTimestampSeconds : optional_methods TimerCommand _ := {|
  GetOptX := get_pointer 0%Z FiringUnixTimestampSeconds;
  GetOptXOk := get_pointer_ok FiringUnixTimestampSeconds;
  HasX := has_pointer FiringUnixTimestampSeconds;
  SetOptX := assigns (fun v o => mkTimerCommand (tc_CommandId o) (Some v) (DurationSeconds o))
|}.
Definition TimerCommand_DurationSeconds : optional_methods TimerCommand _ := {|
  GetOptX := get_pointer 0%Z DurationSeconds;
  GetOptXOk := get_pointer_ok DurationSeconds;
  HasX := has_pointer DurationSeconds;
  SetOptX := assigns (fun v o => mkTimerCommand (tc_CommandId o) (FiringUnixTimestampSeconds o) (Some v))
|}.
Definition TimerCommand_members : list (any_methods TimerCommand) :=
  [Optional EmptyString TimerCommand_CommandId; Optional 0%Z TimerCommand_FiringUnixTimestampSeconds;
    Optional 0%Z TimerCommand_DurationSeconds].
Definition NewTimerCommand : TimerCommand :=
  mkTimerCommand None None None.
Definition NewTimerCommandWithDefaults : TimerCommand :=
  mkTimerCommand None None None.
Definition NullableTimerCommand : nullable_methods TimerCommand := nullable TimerCommand_codec.
Lemma TimerCommand_struct_lawful : lawful_struct no_rest TimerCommand_members.
Proof. lawful_struct. Qed.

(** ** SignalCommand (model_signal_command.go) *)

Definition SignalCommand_CommandId : optional_methods SignalCommand _ := {|
  GetOptX := get_pointer EmptyString sc_CommandId;
  GetOptXOk := get_pointer_ok sc_CommandId;
  HasX := has_pointer sc_CommandId;
  SetOptX := assigns (fun v o => mkSignalCommand (Some v) (SignalChannelName o) (sc_AtLeast o) (sc_AtMost o))
|}.
Definition SignalCommand_SignalChannelName : required_methods SignalCommand _ := {|
  GetX := get_field EmptyString SignalChannelName;
  GetXOk := get_field_ok SignalChannelName;
  SetX := assigns (fun v o => mkSignalCommand (sc_CommandId o) v (sc_AtLeast o) (sc_AtMost o))
|}.
Definition SignalCommand_AtLeast : optional_methods SignalCommand _ := {|
  GetOptX := get_pointer 0%Z sc_AtLeast;
  GetOptXOk := get_pointer_ok sc_AtLeast;
  HasX := has_pointer sc_AtLeast;
  SetOptX := assigns (fun v o => mkSignalCommand (sc_CommandId o) (SignalChannelName o) (Some v) (sc_AtMost o))
|}.
Definition SignalCommand_AtMost : optional_methods SignalCommand _ := {|
  GetOptX := get_pointer 0%Z sc_AtMost;
  GetOptXOk := get_pointer_ok sc_AtMost;
  HasX := has_pointer sc_AtMost;
  SetOptX := assigns (fun v o => mkSignalCommand (sc_CommandId o) (SignalChannelName o) (sc_AtLeast o) (Some v))
|}.
Definition SignalCommand_members : list (any_methods SignalCommand) :=
  [Optional EmptyString SignalCommand_CommandId; Required EmptyString SignalCommand_SignalChannelName;
    Optional 0%Z SignalCommand_AtLeast; Optional 0%Z SignalCommand_AtMost].
Definition NewSignalCommand (signalChannelName_ : string) : SignalCommand :=
  mkSignalCommand None signalChannelName_ None None.
Definition NewSignalCommandWithDefaults : SignalCommand :=
  mkSignalCommand None EmptyString None None.
Definition NullableSignalCommand : nullable_methods SignalCommand := nullable SignalCommand_codec.
Lemma SignalCommand_struct_lawful : lawful_struct no_rest SignalCommand_members.
Proof. lawful_struct. Qed.

(** ** InterStateChannelCommand (model_inter_state_channel_command.go) *)

Definition InterStateChannelCommand_CommandId : optional_methods InterStateChannelCommand _ := {|
  GetOptX := get_pointer EmptyString ic_CommandId;
  GetOptXOk := get_pointer_ok ic_CommandId;
  HasX := has_pointer ic_CommandId;
  SetOptX := assigns (fun v o => mkInterStateChannelCommand (Some v) (ic_ChannelName o) (ic_AtLeast o) (ic_AtMost o))
|}.
Definition InterStateChannelCommand_ChannelName : required_methods InterStateChannelCommand _ := {|
  GetX := get_field EmptyString ic_ChannelName;
  GetXOk := get_field_ok ic_ChannelName;
  SetX := assigns (fun v o => mkInterStateChannelCommand (ic_CommandId o) v (ic_AtLeast o) (ic_AtMost o))
|}.
Definition InterStateChannelCommand_AtLeast : optional_methods InterStateChannelCommand _ := {|
  GetOptX := get_pointer 0%Z ic_AtLeast;
  GetOptXOk := get_pointer_ok ic_AtLeast;
  HasX := has_pointer ic_AtLeast;
  SetOptX :=
    assigns (fun v o => mkInterStateChannelCommand (ic_CommandId o) (ic_ChannelName o) (Some v) (ic_AtMost o))
|}.
Definition InterStateChannelCommand_AtMost : optional_methods InterStateChannelCommand _ := {|
  GetOptX := get_pointer 0%Z ic_AtMost;
  GetOptXOk := get_pointer_ok ic_AtMost;
  HasX := has_pointer ic_AtMost;
  SetOptX :=
    assigns (fun v o => mkInterStateChannelCommand (ic_CommandId o) (ic_ChannelName o) (ic_AtLeast o) (Some v))
|}.
Definition InterStateChannelCommand_members : list (any_methods InterStateChannelCommand) :=
  [Optional EmptyString InterStateChannelCommand_CommandId; Required EmptyString
    InterStateChannelCommand_ChannelName; Optional 0%Z InterStateChannelCommand_AtLeast;
    Optional 0%Z InterStateChannelCommand_AtMost].
Definition NewInterStateChannelCommand (channelName_ : string) : InterStateChannelCommand :=
  mkInterStateChannelCommand None channelName_ None None.
Definition NewInterStateChannelCommandWithDefaults : InterStateChannelCommand :=
  mkInterStateChannelCommand None EmptyString None None.
Definition NullableInterStateChannelCommand : nullable_methods InterStateChannelCommand :=
  nullable InterStateChannelCommand_codec.
Lemma InterStateChannelCommand_struct_lawful : lawful_struct no_rest InterStateChannelCommand_members.
Proof. lawful_struct. Qed.

(** ** CommandCombination (model_command_combination.go) *)

Definition CommandCombination_CommandIds : collection_methods CommandCombination _ := {|
  GetAllX := get_field [] CommandIds;
  GetAllXOk := get_all_ok [] CommandIds;
  HasAnyX := has_any [] CommandIds;
  SetAllX := assigns (fun v o => mkCommandCombination v)
|}.
Definition CommandCombination_members : list (any_methods CommandCombination) :=
  [Collection [] CommandCombination_CommandIds].
Definition NewCommandCombination : CommandCombination :=
  mkCommandCombination [].
Definition NewCommandCombinationWithDefaults : CommandCombination :=
  mkCommandCombination [].
Definition NullableCommandCombination : nullable_methods CommandCombination := nullable CommandCombination_codec.
Lemma CommandCombination_struct_lawful : lawful_struct no_rest CommandCombination_members.
Proof. lawful_struct. Qed.

(** ** CommandRequest (model_command_request.go) *)

Definition CommandRequest_DeciderTriggerType : optional_methods CommandRequest _ := {|
  GetOptX := get_pointer (enum_zero DeciderTriggerType_enum) cr_DeciderTriggerType;
  GetOptXOk := get_pointer_ok cr_DeciderTriggerType;
  HasX := has_pointer cr_DeciderTriggerType;
  SetOptX :=
    assigns (fun v o => mkCommandRequest (Some v) (cr_CommandWaitingType o) (TimerCommands o) (SignalCommands
    o) (InterStateChannelCommands o) (CommandCombinations o))
|}.
Definition CommandRequest_CommandWaitingType : optional_methods CommandRequest _ := {|
  GetOptX := get_pointer (enum_zero CommandWaitingType_enum) cr_CommandWaitingType;
  GetOptXOk := get_pointer_ok cr_CommandWaitingType;
  HasX := has_pointer cr_CommandWaitingType;
  SetOptX :=
    assigns (fun v o => mkCommandRequest (cr_DeciderTriggerType o) (Some v) (TimerCommands o) (SignalCommands
    o) (InterStateChannelCommands o) (CommandCombinations o))
|}.
Definition CommandRequest_TimerCommands : collection_methods CommandRequest _ := {|
  GetAllX := get_field [] TimerCommands;
  GetAllXOk := get_all_ok [] TimerCommands;
  HasAnyX := has_any [] TimerCommands;
  SetAllX :=
    assigns (fun v o => mkCommandRequest (cr_DeciderTriggerType o) (cr_CommandWaitingType o) v (SignalCommands
    o) (InterStateChannelCommands o) (CommandCombinations o))
|}.
Definition CommandRequest_SignalCommands : collection_methods CommandRequest _ := {|
  GetAllX := get_field [] SignalCommands;
  GetAllXOk := get_all_ok [] SignalCommands;
  HasAnyX := has_any [] SignalCommands;
  SetAllX :=
    assigns (fun v o => mkCommandRequest (cr_DeciderTriggerType o) (cr_CommandWaitingType o) (TimerCommands o)
    v (InterStateChannelCommands o) (CommandCombinations o))
|}.
Definition CommandRequest_InterStateChannelCommands : collection_methods CommandRequest _ := {|
  GetAllX := get_field [] InterStateChannelCommands;
  GetAllXOk := get_all_ok [] InterStateChannelCommands;
  HasAnyX := has_any [] InterStateChannelCommands;
  SetAllX :=
    assigns (fun v o => mkCommandRequest (cr_DeciderTriggerType o) (cr_CommandWaitingType o) (TimerCommands o)
    (SignalCommands o) v (CommandCombinations o))
|}.
Definition CommandRequest_CommandCombinations : collection_methods CommandRequest _ := {|
  GetAllX := get_field [] CommandCombinations;
  GetAllXOk := get_all_ok [] CommandCombinations;
  HasAnyX := has_any [] CommandCombinations;
  SetAllX :=
    assigns (fun v o => mkCommandRequest (cr_DeciderTriggerType o) (cr_CommandWaitingType o) (TimerCommands o)
    (SignalCommands o) (InterStateChannelCommands o) v)
|}.
Definition CommandRequest_members : list (any_methods CommandRequest) :=
  [Optional (enum_zero DeciderTriggerType_enum) CommandRequest_DeciderTriggerType;
    Optional (enum_zero CommandWaitingType_enum) CommandRequest_CommandWaitingType;
    Collection [] CommandRequest_TimerCommands; Collection [] CommandRequest_SignalCommands;
    Collection [] CommandRequest_InterStateChannelCommands; Collection [] CommandRequest_CommandCombinations].
Definition NewCommandRequest : CommandRequest :=
  mkCommandRequest None None [] [] [] [].
Definition NewCommandRequestWithDefaults : CommandRequest :=
  mkCommandRequest None None [] [] [] [].
Definition NullableCommandRequest : nullable_methods CommandRequest := nullable CommandRequest_codec.
Lemma CommandRequest_struct_lawful : lawful_struct no_rest CommandRequest_members.
Proof. lawful_struct. Qed.

(** ** TimerResult (model_timer_result.go) *)

Definition TimerResult_CommandId : required_methods TimerResult _ := {|
  GetX := get_field EmptyString tr_CommandId;
  GetXOk := get_field_ok tr_CommandId;
  SetX := assigns (fun v o => mkTimerResult v (tr_TimerStatus o))
|}.
Definition TimerResult_TimerStatus : required_methods TimerResult _ := {|
  GetX := get_field (enum_zero TimerStatus_enum) tr_TimerStatus;
  GetXOk := get_field_ok tr_TimerStatus;
  SetX := assigns (fun v o => mkTimerResult (tr_CommandId o) v)
|}.
Definition TimerResult_members : list (any_methods TimerResult) :=
  [Required EmptyString TimerResult_CommandId; Required (enum_zero TimerStatus_enum) TimerResult_TimerStatus].
Definition NewTimerResult (commandId_ : string) (timerStatus_ : TimerStatus) : TimerResult :=
  mkTimerResult commandId_ timerStatus_.
Definition NewTimerResultWithDefaults : TimerResult :=
  mkTimerResult EmptyString (enum_zero TimerStatus_enum).
Definition NullableTimerResult : nullable_methods TimerResult := nullable TimerResult_codec.
Lemma TimerResult_struct_lawful : lawful_struct no_rest TimerResult_members.
Proof. lawful_struct. Qed.

(** ** SignalResult (model_signal_result.go) *)

Definition SignalResult_CommandId : required_methods SignalResult _ := {|
  GetX := get_field EmptyString sr_CommandId;
  GetXOk := get_field_ok sr_CommandId;
  SetX := assigns (fun v o => mkSignalResult v (SignalRequestStatus o) (sr_SignalChannelName o) (SignalValue o))
|}.
Definition SignalResult_SignalRequestStatus : required_methods SignalResult _ := {|
  GetX := get_field (enum_zero ChannelRequestStatus_enum) SignalRequestStatus;
  GetXOk := get_field_ok SignalRequestStatus;
  SetX := assigns (fun v o => mkSignalResult (sr_CommandId o) v (sr_SignalChannelName o) (SignalValue o))
|}.
Definition SignalResult_SignalChannelName : required_methods SignalResult _ := {|
  GetX := get_field EmptyString sr_SignalChannelName;
  GetXOk := get_field_ok sr_SignalChannelName;
  SetX := assigns (fun v o => mkSignalResult (sr_CommandId o) (SignalRequestStatus o) v (SignalValue o))
|}.
Definition SignalResult_SignalValue : optional_methods SignalResult _ := {|
  GetOptX := get_pointer (zero EncodedObject_codec) SignalValue;
  GetOptXOk := get_pointer_ok SignalValue;
  HasX := has_pointer SignalValue;
  SetOptX :=
    assigns (fun v o => mkSignalResult (sr_CommandId o) (SignalRequestStatus o) (sr_SignalChannelName o) (Some v))
|}.
Definition SignalResult_members : list (any_methods SignalResult) :=
  [Required EmptyString SignalResult_CommandId; Required (enum_zero ChannelRequestStatus_enum)
    SignalResult_SignalRequestStatus; Required EmptyString SignalResult_SignalChannelName;
    Optional (zero EncodedObject_codec) SignalResult_SignalValue].
Definition NewSignalResult (commandId_ : string) (signalRequestStatus_ : ChannelRequestStatus)
  (signalChannelName_ : string) : SignalResult :=
  mkSignalResult commandId_ signalRequestStatus_ signalChannelName_ None.
Definition NewSignalResultWithDefaults : SignalResult :=
  mkSignalResult EmptyString (enum_zero ChannelRequestStatus_enum) EmptyString None.
Definition NullableSignalResult : nullable_methods SignalResult := nullable SignalResult_codec.
Lemma SignalResult_struct_lawful : lawful_struct no_rest SignalResult_members.
Proof. lawful_struct. Qed.

(** ** InterStateChannelResult (model_inter_state_channel_result.go) *)

Definition InterStateChannelResult_CommandId : required_methods InterStateChannelResult _ := {|
  GetX := get_field EmptyString ir_CommandId;
  GetXOk := get_field_ok ir_CommandId;
  SetX := assigns (fun v o => mkInterStateChannelResult v (RequestStatus o) (ir_ChannelName o) (ir_Value o))
|}.
Definition InterStateChannelResult_RequestStatus : required_methods InterStateChannelResult _ := {|
  GetX := get_field (enum_zero ChannelRequestStatus_enum) RequestStatus;
  GetXOk := get_field_ok RequestStatus;
  SetX := assigns (fun v o => mkInterStateChannelResult (ir_CommandId o) v (ir_ChannelName o) (ir_Value o))
|}.
Definition InterStateChannelResult_ChannelName : required_methods InterStateChannelResult _ := {|
  GetX := get_field EmptyString ir_ChannelName;
  GetXOk := get_field_ok ir_ChannelName;
  SetX := assigns (fun v o => mkInterStateChannelResult (ir_CommandId o) (RequestStatus o) v (ir_Value o))
|}.
Definition InterStateChannelResult_Value : optional_methods InterStateChannelResult _ := {|
  GetOptX := get_pointer (zero EncodedObject_codec) ir_Value;
  GetOptXOk := get_pointer_ok ir_Value;
  HasX := has_pointer ir_Value;
  SetOptX :=
    assigns (fun v o => mkInterStateChannelResult (ir_CommandId o) (RequestStatus o) (ir_ChannelName o) (Some v))
|}.
Definition InterStateChannelResult_members : list (any_methods InterStateChannelResult) :=
  [Required EmptyString InterStateChannelResult_CommandId; Required (enum_zero ChannelRequestStatus_enum)
    InterStateChannelResult_RequestStatus; Required EmptyString InterStateChannelResult_ChannelName;
    Optional (zero EncodedObject_codec) InterStateChannelResult_Value].
Definition NewInterStateChannelResult (commandId_ : string) (requestStatus_ : ChannelRequestStatus)
  (channelName_ : string) : InterStateChannelResult :=
  mkInterStateChannelResult commandId_ requestStatus_ channelName_ None.
Definition NewInterStateChannelResultWithDefaults : InterStateChannelResult :=
  mkInterStateChannelResult EmptyString (enum_zero ChannelRequestStatus_enum) EmptyString None.
Definition NullableInterStateChannelResult : nullable_methods InterStateChannelResult :=
  nullable InterStateChannelResult_codec.
Lemma InterStateChannelResult_struct_lawful : lawful_struct no_rest InterStateChannelResult_members.
Proof. lawful_struct. Qed.

(** ** CommandResults (model_command_results.go) *)

Definition CommandResults_SignalResults : collection_methods CommandResults _ := {|
  GetAllX := get_field [] SignalResults;
  GetAllXOk := get_all_ok [] SignalResults;
  HasAnyX := has_any [] SignalResults;
  SetAllX :=
    assigns (fun v o => mkCommandResults v (InterStateChannelResults o) (TimerResults o)
    (StateStartApiSucceeded o) (StateWaitUntilFailed o))
|}.
Definition CommandResults_InterStateChannelResults : collection_methods CommandResults _ := {|
  GetAllX := get_field [] InterStateChannelResults;
  GetAllXOk := get_all_ok [] InterStateChannelResults;
  HasAnyX := has_any [] InterStateChannelResults;
  SetAllX :=
    assigns (fun v o => mkCommandResults (SignalResults o) v (TimerResults o) (StateStartApiSucceeded o)
    (StateWaitUntilFailed o))
|}.
Definition CommandResults_TimerResults : collection_methods CommandResults _ := {|
  GetAllX := get_field [] TimerResults;
  GetAllXOk := get_all_ok [] TimerResults;
  HasAnyX := has_any [] TimerResults;
  SetAllX :=
    assigns (fun v o => mkCommandResults (SignalResults o) (InterStateChannelResults o) v
    (StateStartApiSucceeded o) (StateWaitUntilFailed o))
|}.
Definition CommandResults_StateStartApiSucceeded : optional_methods CommandResults _ := {|
  GetOptX := get_pointer false StateStartApiSucceeded;
  GetOptXOk := get_pointer_ok StateStartApiSucceeded;
  HasX := has_pointer StateStartApiSucceeded;
  SetOptX :=
    assigns (fun v o => mkCommandResults (SignalResults o) (InterStateChannelResults o) (TimerResults o) (Some
    v) (StateWaitUntilFailed o))
|}.
Definition CommandResults_StateWaitUntilFailed : optional_methods CommandResults _ := {|
  GetOptX := get_pointer false StateWaitUntilFailed;
  GetOptXOk := get_pointer_ok StateWaitUntilFailed;
  HasX := has_pointer StateWaitUntilFailed;
  SetOptX :=
    assigns (fun v o => mkCommandResults (SignalResults o) (InterStateChannelResults o) (TimerResults o)
    (StateStartApiSucceeded o) (Some v))
|}.
Definition CommandResults_members : list (any_methods CommandResults) :=
  [Collection [] CommandResults_SignalResults; Collection [] CommandResults_InterStateChannelResults;
    Collection [] CommandResults_TimerResults; Optional false CommandResults_StateStartApiSucceeded;
    Optional false CommandResults_StateWaitUntilFailed].
Definition NewCommandResults : CommandResults :=
  mkCommandResults [] [] [] None None.
Definition NewCommandResultsWithDefaults : CommandResults :=
  mkCommandResults [] [] [] None None.
Definition NullableCommandResults : nullable_methods CommandResults := nullable CommandResults_codec.
Lemma CommandResults_struct_lawful : lawful_struct no_rest CommandResults_members.
Proof. lawful_struct. Qed.

(** ** Context (model_context.go) *)

Definition Context_WorkflowId : required_methods Context_ _ := {|
  GetX := get_field EmptyString ctx_WorkflowId;
  GetXOk := get_field_ok ctx_WorkflowId;
  SetX :=
    assigns (fun v o => mkContext v (ctx_WorkflowRunId o) (ctx_WorkflowStartedTimestamp o)
    (ctx_StateExecutionId o) (FirstAttemptTimestamp o) (Attempt o))
|}.
Definition Context_WorkflowRunId : required_methods Context_ _ := {|
  GetX := get_field EmptyString ctx_WorkflowRunId;
  GetXOk := get_field_ok ctx_WorkflowRunId;
  SetX :=
    assigns (fun v o => mkContext (ctx_WorkflowId o) v (ctx_WorkflowStartedTimestamp o) (ctx_StateExecutionId
    o) (FirstAttemptTimestamp o) (Attempt o))
|}.
Definition Context_WorkflowStartedTimestamp : required_methods Context_ _ := {|
  GetX := get_field 0%Z ctx_WorkflowStartedTimestamp;
  GetXOk := get_field_ok ctx_WorkflowStartedTimestamp;
  SetX :=
    assigns (fun v o => mkContext (ctx_WorkflowId o) (ctx_WorkflowRunId o) v (ctx_StateExecutionId o)
    (FirstAttemptTimestamp o) (Attempt o))
|}.
Definition Context_StateExecutionId : optional_methods Context_ _ := {|
  GetOptX := get_pointer EmptyString ctx_StateExecutionId;
  GetOptXOk := get_pointer_ok ctx_StateExecutionId;
  HasX := has_pointer ctx_StateExecutionId;
  SetOptX :=
    assigns (fun v o => mkContext (ctx_WorkflowId o) (ctx_WorkflowRunId o) (ctx_WorkflowStartedTimestamp o)
    (Some v) (FirstAttemptTimestamp o) (Attempt o))
|}.
Definition Context_FirstAttemptTimestamp : optional_methods Context_ _ := {|
  GetOptX := get_pointer 0%Z FirstAttemptTimestamp;
  GetOptXOk := get_pointer_ok FirstAttemptTimestamp;
  HasX := has_pointer FirstAttemptTimestamp;
  SetOptX :=
    assigns (fun v o => mkContext (ctx_WorkflowId o) (ctx_WorkflowRunId o) (ctx_WorkflowStartedTimestamp o)
    (ctx_StateExecutionId o) (Some v) (Attempt o))
|}.
Definition Context_Attempt : optional_methods Context_ _ := {|
  GetOptX := get_pointer 0%Z Attempt;
  GetOptXOk := get_pointer_ok Attempt;
  HasX := has_pointer Attempt;
  SetOptX :=
    assigns (fun v o => mkContext (ctx_WorkflowId o) (ctx_WorkflowRunId o) (ctx_WorkflowStartedTimestamp o)
    (ctx_StateExecutionId o) (FirstAttemptTimestamp o) (Some v))
|}.
Definition Context_members : list (any_methods Context_) :=
  [Required EmptyString Context_WorkflowId; Required EmptyString Context_WorkflowRunId;
    Required 0%Z Context_WorkflowStartedTimestamp; Optional EmptyString Context_StateExecutionId;
    Optional 0%Z Context_FirstAttemptTimestamp; Optional 0%Z Context_Attempt].
Definition NewContext (workflowId_ : string) (workflowRunId_ : string) (workflowStartedTimestamp_ : Z) : Context_ :=
  mkContext workflowId_ workflowRunId_ workflowStartedTimestamp_ None None None.
Definition NewContextWithDefaults : Context_ :=
  mkContext EmptyString EmptyString 0%Z None None None.
Definition NullableContext : nullable_methods Context_ := nullable Context__codec.
Lemma Context_struct_lawful : lawful_struct no_rest Context_members.
Proof. lawful_struct. Qed.

(** ** WorkflowStateStartRequest (model_workflow_state_start_request.go) *)

Definition WorkflowStateStartRequest_Context : required_methods WorkflowStateStartRequest _ := {|
  GetX := get_field (zero Context__codec) ws_Context;
  GetXOk := get_field_ok ws_Context;
  SetX :=
    assigns (fun v o => mkWorkflowStateStartRequest v (ws_WorkflowType o) (ws_WorkflowStateId o) (ws_StateInput
    o) (ws_SearchAttributes o) (ws_DataObjects o))
|}.
Definition WorkflowStateStartRequest_WorkflowType : required_methods WorkflowStateStartRequest _ := {|
  GetX := get_field EmptyString ws_WorkflowType;
  GetXOk := get_field_ok ws_WorkflowType;
  SetX :=
    assigns (fun v o => mkWorkflowStateStartRequest (ws_Context o) v (ws_WorkflowStateId o) (ws_StateInput o)
    (ws_SearchAttributes o) (ws_DataObjects o))
|}.
Definition WorkflowStateStartRequest_WorkflowStateId : required_methods WorkflowStateStartRequest _ := {|
  GetX := get_field EmptyString ws_WorkflowStateId;
  GetXOk := get_field_ok ws_WorkflowStateId;
  SetX :=
    assigns (fun v o => mkWorkflowStateStartRequest (ws_Context o) (ws_WorkflowType o) v (ws_StateInput o)
    (ws_SearchAttributes o) (ws_DataObjects o))
|}.
Definition WorkflowStateStartRequest_StateInput : optional_methods WorkflowStateStartRequest _ := {|
  GetOptX := get_pointer (zero EncodedObject_codec) ws_StateInput;
  GetOptXOk := get_pointer_ok ws_StateInput;
  HasX := has_pointer ws_StateInput;
  SetOptX :=
    assigns (fun v o => mkWorkflowStateStartRequest (ws_Context o) (ws_WorkflowType o) (ws_WorkflowStateId o)
    (Some v) (ws_SearchAttributes o) (ws_DataObjects o))
|}.
Definition WorkflowStateStartRequest_SearchAttributes : collection_methods WorkflowStateStartRequest _ := {|
  GetAllX := get_field [] ws_SearchAttributes;
  GetAllXOk := get_all_ok [] ws_SearchAttributes;
  HasAnyX := has_any [] ws_SearchAttributes;
  SetAllX :=
    assigns (fun v o => mkWorkflowStateStartRequest (ws_Context o) (ws_WorkflowType o) (ws_WorkflowStateId o)
    (ws_StateInput o) v (ws_DataObjects o))
|}.
Definition WorkflowStateStartRequest_DataObjects : collection_methods WorkflowStateStartRequest _ := {|
  GetAllX := get_field [] ws_DataObjects;
  GetAllXOk := get_all_ok [] ws_DataObjects;
  HasAnyX := has_any [] ws_DataObjects;
  SetAllX :=
    assigns (fun v o => mkWorkflowStateStartRequest (ws_Context o) (ws_WorkflowType o) (ws_WorkflowStateId o)
    (ws_StateInput o) (ws_SearchAttributes o) v)
|}.
Definition WorkflowStateStartRequest_members : list (any_methods WorkflowStateStartRequest) :=
  [Required (zero Context__codec) WorkflowStateStartRequest_Context;
    Required EmptyString WorkflowStateStartRequest_WorkflowType;
    Required EmptyString WorkflowStateStartRequest_WorkflowStateId;
    Optional (zero EncodedObject_codec) WorkflowStateStartRequest_StateInput;
    Collection [] WorkflowStateStartRequest_SearchAttributes; Collection [] WorkflowStateStartRequest_DataObjects].
Definition NewWorkflowStateStartRequest (context_ : Context_) (workflowType_ : string) (workflowStateId_ :
  string) : WorkflowStateStartRequest :=
  mkWorkflowStateStartRequest context_ workflowType_ workflowStateId_ None [] [].
Definition NewWorkflowStateStartRequestWithDefaults : WorkflowStateStartRequest :=
  mkWorkflowStateStartRequest (zero Context__codec) EmptyString EmptyString None [] [].
Definition NullableWorkflowStateStartRequest : nullable_methods WorkflowStateStartRequest :=
  nullable WorkflowStateStartRequest_codec.
Lemma WorkflowStateStartRequest_struct_lawful : lawful_struct no_rest WorkflowStateStartRequest_members.
Proof. lawful_struct. Qed.

(** ** WorkflowStateStartResponse (model_workflow_state_start_response.go) *)

Definition WorkflowStateStartResponse_LocalActivityInput : optional_methods WorkflowStateStartResponse _ := {|
  GetOptX := get_pointer EmptyString ws_LocalActivityInput;
  GetOptXOk := get_pointer_ok ws_LocalActivityInput;
  HasX := has_pointer ws_LocalActivityInput;
  SetOptX :=
    assigns (fun v o => mkWorkflowStateStartResponse (Some v) (ws_UpsertSearchAttributes o)
    (ws_UpsertDataObjects o) (ws_CommandRequest o) (ws_UpsertStateLocals o) (ws_RecordEvents o)
    (ws_PublishToInterStateChannel o))
|}.
Definition WorkflowStateStartResponse_UpsertSearchAttributes : collection_methods WorkflowStateStartResponse _ := {|
  GetAllX := get_field [] ws_UpsertSearchAttributes;
  GetAllXOk := get_all_ok [] ws_UpsertSearchAttributes;
  HasAnyX := has_any [] ws_UpsertSearchAttributes;
  SetAllX :=
    assigns (fun v o => mkWorkflowStateStartResponse (ws_LocalActivityInput o) v (ws_UpsertDataObjects o)
    (ws_CommandRequest o) (ws_UpsertStateLocals o) (ws_RecordEvents o) (ws_PublishToInterStateChannel o))
|}.
Definition WorkflowStateStartResponse_UpsertDataObjects : collection_methods WorkflowStateStartResponse _ := {|
  GetAllX := get_field [] ws_UpsertDataObjects;
  GetAllXOk := get_all_ok [] ws_UpsertDataObjects;
  HasAnyX := has_any [] ws_UpsertDataObjects;
  SetAllX :=
    assigns (fun v o => mkWorkflowStateStartResponse (ws_LocalActivityInput o) (ws_UpsertSearchAttributes o) v
    (ws_CommandRequest o) (ws_UpsertStateLocals o) (ws_RecordEvents o) (ws_PublishToInterStateChannel o))
|}.
Definition WorkflowStateStartResponse_CommandRequest : optional_methods WorkflowStateStartResponse _ := {|
  GetOptX := get_pointer (zero CommandRequest_codec) ws_CommandRequest;
  GetOptXOk := get_pointer_ok ws_CommandRequest;
  HasX := has_pointer ws_CommandRequest;
  SetOptX :=
    assigns (fun v o => mkWorkflowStateStartResponse (ws_LocalActivityInput o) (ws_UpsertSearchAttributes o)
    (ws_UpsertDataObjects o) (Some v) (ws_UpsertStateLocals o) (ws_RecordEvents o) (ws_PublishToInterStateChannel o))
|}.
Definition WorkflowStateStartResponse_UpsertStateLocals : collection_methods WorkflowStateStartResponse _ := {|
  GetAllX := get_field [] ws_UpsertStateLocals;
  GetAllXOk := get_all_ok [] ws_UpsertStateLocals;
  HasAnyX := has_any [] ws_UpsertStateLocals;
  SetAllX :=
    assigns (fun v o => mkWorkflowStateStartResponse (ws_LocalActivityInput o) (ws_UpsertSearchAttributes o)
    (ws_UpsertDataObjects o) (ws_CommandRequest o) v (ws_RecordEvents o) (ws_PublishToInterStateChannel o))
|}.
Definition WorkflowStateStartResponse_RecordEvents : collection_methods WorkflowStateStartResponse _ := {|
  GetAllX := get_field [] ws_RecordEvents;
  GetAllXOk := get_all_ok [] ws_RecordEvents;
  HasAnyX := has_any [] ws_RecordEvents;
  SetAllX :=
    assigns (fun v o => mkWorkflowStateStartResponse (ws_LocalActivityInput o) (ws_UpsertSearchAttributes o)
    (ws_UpsertDataObjects o) (ws_CommandRequest o) (ws_UpsertStateLocals o) v (ws_PublishToInterStateChannel o))
|}.
Definition WorkflowStateStartResponse_PublishToInterStateChannel : collection_methods
  WorkflowStateStartResponse _ := {|
  GetAllX := get_field [] ws_PublishToInterStateChannel;
  GetAllXOk := get_all_ok [] ws_PublishToInterStateChannel;
  HasAnyX := has_any [] ws_PublishToInterStateChannel;
  SetAllX :=
    assigns (fun v o => mkWorkflowStateStartResponse (ws_LocalActivityInput o) (ws_UpsertSearchAttributes o)
    (ws_UpsertDataObjects o) (ws_CommandRequest o) (ws_UpsertStateLocals o) (ws_RecordEvents o) v)
|}.
Definition WorkflowStateStartResponse_members : list (any_methods WorkflowStateStartResponse) :=
  [Optional EmptyString WorkflowStateStartResponse_LocalActivityInput;
    Collection [] WorkflowStateStartResponse_UpsertSearchAttributes;
    Collection [] WorkflowStateStartResponse_UpsertDataObjects;
    Optional (zero CommandRequest_codec) WorkflowStateStartResponse_CommandRequest;
    Collection [] WorkflowStateStartResponse_UpsertStateLocals;
    Collection [] WorkflowStateStartResponse_RecordEvents; Collection []
    WorkflowStateStartResponse_PublishToInterStateChannel].
Definition NewWorkflowStateStartResponse : WorkflowStateStartResponse :=
  mkWorkflowStateStartResponse None [] [] None [] [] [].
Definition NewWorkflowStateStartResponseWithDefaults : WorkflowStateStartResponse :=
  mkWorkflowStateStartResponse None [] [] None [] [] [].
Definition NullableWorkflowStateStartResponse : nullable_methods WorkflowStateStartResponse :=
  nullable WorkflowStateStartResponse_codec.
Lemma WorkflowStateStartResponse_struct_lawful : lawful_struct no_rest WorkflowStateStartResponse_members.
Proof. lawful_struct. Qed.

(** ** WorkflowStateDecideRequest (model_workflow_state_decide_request.go) *)

Definition WorkflowStateDecideRequest_Context : required_methods WorkflowStateDecideRequest _ := {|
  GetX := get_field (zero Context__codec) wd_Context;
  GetXOk := get_field_ok wd_Context;
  SetX :=
    assigns (fun v o => mkWorkflowStateDecideRequest v (wd_WorkflowType o) (wd_WorkflowStateId o)
    (wd_StateInput o) (wd_SearchAttributes o) (wd_DataObjects o) (wd_StateLocals o) (wd_CommandResults o))
|}.
Definition WorkflowStateDecideRequest_WorkflowType : required_methods WorkflowStateDecideRequest _ := {|
  GetX := get_field EmptyString wd_WorkflowType;
  GetXOk := get_field_ok wd_WorkflowType;
  SetX :=
    assigns (fun v o => mkWorkflowStateDecideRequest (wd_Context o) v (wd_WorkflowStateId o) (wd_StateInput o)
    (wd_SearchAttributes o) (wd_DataObjects o) (wd_StateLocals o) (wd_CommandResults o))
|}.
Definition WorkflowStateDecideRequest_WorkflowStateId : required_methods WorkflowStateDecideRequest _ := {|
  GetX := get_field EmptyString wd_WorkflowStateId;
  GetXOk := get_field_ok wd_WorkflowStateId;
  SetX :=
    assigns (fun v o => mkWorkflowStateDecideRequest (wd_Context o) (wd_WorkflowType o) v (wd_StateInput o)
    (wd_SearchAttributes o) (wd_DataObjects o) (wd_StateLocals o) (wd_CommandResults o))
|}.
Definition WorkflowStateDecideRequest_StateInput : optional_methods WorkflowStateDecideRequest _ := {|
  GetOptX := get_pointer (zero EncodedObject_codec) wd_StateInput;
  GetOptXOk := get_pointer_ok wd_StateInput;
  HasX := has_pointer wd_StateInput;
  SetOptX :=
    assigns (fun v o => mkWorkflowStateDecideRequest (wd_Context o) (wd_WorkflowType o) (wd_WorkflowStateId o)
    (Some v) (wd_SearchAttributes o) (wd_DataObjects o) (wd_StateLocals o) (wd_CommandResults o))
|}.
Definition WorkflowStateDecideRequest_SearchAttributes : collection_methods WorkflowStateDecideRequest _ := {|
  GetAllX := get_field [] wd_SearchAttributes;
  GetAllXOk := get_all_ok [] wd_SearchAttributes;
  HasAnyX := has_any [] wd_SearchAttributes;
  SetAllX :=
    assigns (fun v o => mkWorkflowStateDecideRequest (wd_Context o) (wd_WorkflowType o) (wd_WorkflowStateId o)
    (wd_StateInput o) v (wd_DataObjects o) (wd_StateLocals o) (wd_CommandResults o))
|}.
Definition WorkflowStateDecideRequest_DataObjects : collection_methods WorkflowStateDecideRequest _ := {|
  GetAllX := get_field [] wd_DataObjects;
  GetAllXOk := get_all_ok [] wd_DataObjects;
  HasAnyX := has_any [] wd_DataObjects;
  SetAllX :=
    assigns (fun v o => mkWorkflowStateDecideRequest (wd_Context o) (wd_WorkflowType o) (wd_WorkflowStateId o)
    (wd_StateInput o) (wd_SearchAttributes o) v (wd_StateLocals o) (wd_CommandResults o))
|}.
Definition WorkflowStateDecideRequest_StateLocals : collection_methods WorkflowStateDecideRequest _ := {|
  GetAllX := get_field [] wd_StateLocals;
  GetAllXOk := get_all_ok [] wd_StateLocals;
  HasAnyX := has_any [] wd_StateLocals;
  SetAllX :=
    assigns (fun v o => mkWorkflowStateDecideRequest (wd_Context o) (wd_WorkflowType o) (wd_WorkflowStateId o)
    (wd_StateInput o) (wd_SearchAttributes o) (wd_DataObjects o) v (wd_CommandResults o))
|}.
Definition WorkflowStateDecideRequest_CommandResults : optional_methods WorkflowStateDecideRequest _ := {|
  GetOptX := get_pointer (zero CommandResults_codec) wd_CommandResults;
  GetOptXOk := get_pointer_ok wd_CommandResults;
  HasX := has_pointer wd_CommandResults;
  SetOptX :=
    assigns (fun v o => mkWorkflowStateDecideRequest (wd_Context o) (wd_WorkflowType o) (wd_WorkflowStateId o)
    (wd_StateInput o) (wd_SearchAttributes o) (wd_DataObjects o) (wd_StateLocals o) (Some v))
|}.
Definition WorkflowStateDecideRequest_members : list (any_methods WorkflowStateDecideRequest) :=
  [Required (zero Context__codec) WorkflowStateDecideRequest_Context;
    Required EmptyString WorkflowStateDecideRequest_WorkflowType;
    Required EmptyString WorkflowStateDecideRequest_WorkflowStateId;
    Optional (zero EncodedObject_codec) WorkflowStateDecideRequest_StateInput;
    Collection [] WorkflowStateDecideRequest_SearchAttributes;
    Collection [] WorkflowStateDecideRequest_DataObjects; Collection [] WorkflowStateDecideRequest_StateLocals;
    Optional (zero CommandResults_codec) WorkflowStateDecideRequest_CommandResults].
Definition NewWorkflowStateDecideRequest (context_ : Context_) (workflowType_ : string) (workflowStateId_ :
  string) : WorkflowStateDecideRequest :=
  mkWorkflowStateDecideRequest context_ workflowType_ workflowStateId_ None [] [] [] None.
Definition NewWorkflowStateDecideRequestWithDefaults : WorkflowStateDecideRequest :=
  mkWorkflowStateDecideRequest (zero Context__codec) EmptyString EmptyString None [] [] [] None.
Definition NullableWorkflowStateDecideRequest : nullable_methods WorkflowStateDecideRequest :=
  nullable WorkflowStateDecideRequest_codec.
Lemma WorkflowStateDecideRequest_struct_lawful : lawful_struct no_rest WorkflowStateDecideRequest_members.
Proof. lawful_struct. Qed.

(** ** WorkflowStateDecideResponse (model_workflow_state_decide_response.go) *)

Definition WorkflowStateDecideResponse_LocalActivityInput : optional_methods WorkflowStateDecideResponse _ := {|
  GetOptX := get_pointer EmptyString wd_LocalActivityInput;
  GetOptXOk := get_pointer_ok wd_LocalActivityInput;
  HasX := has_pointer wd_LocalActivityInput;
  SetOptX :=
    assigns (fun v o => mkWorkflowStateDecideResponse (Some v) (wd_StateDecision o) (wd_UpsertSearchAttributes
    o) (wd_UpsertDataObjects o) (wd_RecordEvents o) (wd_UpsertStateLocals o) (wd_PublishToInterStateChannel o))
|}.
Definition WorkflowStateDecideResponse_StateDecision : optional_methods WorkflowStateDecideResponse _ := {|
  GetOptX := get_pointer (zero StateDecision_codec) wd_StateDecision;
  GetOptXOk := get_pointer_ok wd_StateDecision;
  HasX := has_pointer wd_StateDecision;
  SetOptX :=
    assigns (fun v o => mkWorkflowStateDecideResponse (wd_LocalActivityInput o) (Some v)
    (wd_UpsertSearchAttributes o) (wd_UpsertDataObjects o) (wd_RecordEvents o) (wd_UpsertStateLocals o)
    (wd_PublishToInterStateChannel o))
|}.
Definition WorkflowStateDecideResponse_UpsertSearchAttributes : collection_methods WorkflowStateDecideResponse _ := {|
  GetAllX := get_field [] wd_UpsertSearchAttributes;
  GetAllXOk := get_all_ok [] wd_UpsertSearchAttributes;
  HasAnyX := has_any [] wd_UpsertSearchAttributes;
  SetAllX :=
    assigns (fun v o => mkWorkflowStateDecideResponse (wd_LocalActivityInput o) (wd_StateDecision o) v
    (wd_UpsertDataObjects o) (wd_RecordEvents o) (wd_UpsertStateLocals o) (wd_PublishToInterStateChannel o))
|}.
Definition WorkflowStateDecideResponse_UpsertDataObjects : collection_methods WorkflowStateDecideResponse _ := {|
  GetAllX := get_field [] wd_UpsertDataObjects;
  GetAllXOk := get_all_ok [] wd_UpsertDataObjects;
  HasAnyX := has_any [] wd_UpsertDataObjects;
  SetAllX :=
    assigns (fun v o => mkWorkflowStateDecideResponse (wd_LocalActivityInput o) (wd_StateDecision o)
    (wd_UpsertSearchAttributes o) v (wd_RecordEvents o) (wd_UpsertStateLocals o) (wd_PublishToInterStateChannel o))
|}.
Definition WorkflowStateDecideResponse_RecordEvents : collection_methods WorkflowStateDecideResponse _ := {|
  GetAllX := get_field [] wd_RecordEvents;
  GetAllXOk := get_all_ok [] wd_RecordEvents;
  HasAnyX := has_any [] wd_RecordEvents;
  SetAllX :=
    assigns (fun v o => mkWorkflowStateDecideResponse (wd_LocalActivityInput o) (wd_StateDecision o)
    (wd_UpsertSearchAttributes o) (wd_UpsertDataObjects o) v (wd_UpsertStateLocals o)
    (wd_PublishToInterStateChannel o))
|}.
Definition WorkflowStateDecideResponse_UpsertStateLocals : collection_methods WorkflowStateDecideResponse _ := {|
  GetAllX := get_field [] wd_UpsertStateLocals;
  GetAllXOk := get_all_ok [] wd_UpsertStateLocals;
  HasAnyX := has_any [] wd_UpsertStateLocals;
  SetAllX :=
    assigns (fun v o => mkWorkflowStateDecideResponse (wd_LocalActivityInput o) (wd_StateDecision o)
    (wd_UpsertSearchAttributes o) (wd_UpsertDataObjects o) (wd_RecordEvents o) v (wd_PublishToInterStateChannel o))
|}.
Definition WorkflowStateDecideResponse_PublishToInterStateChannel : collection_methods
  WorkflowStateDecideResponse _ := {|
  GetAllX := get_field [] wd_PublishToInterStateChannel;
  GetAllXOk := get_all_ok [] wd_PublishToInterStateChannel;
  HasAnyX := has_any [] wd_PublishToInterStateChannel;
  SetAllX :=
    assigns (fun v o => mkWorkflowStateDecideResponse (wd_LocalActivityInput o) (wd_StateDecision o)
    (wd_UpsertSearchAttributes o) (wd_UpsertDataObjects o) (wd_RecordEvents o) (wd_UpsertStateLocals o) v)
|}.
Definition WorkflowStateDecideResponse_members : list (any_methods WorkflowStateDecideResponse) :=
  [Optional EmptyString WorkflowStateDecideResponse_LocalActivityInput;
    Optional (zero StateDecision_codec) WorkflowStateDecideResponse_StateDecision;
    Collection [] WorkflowStateDecideResponse_UpsertSearchAttributes;
    Collection [] WorkflowStateDecideResponse_UpsertDataObjects;
    Collection [] WorkflowStateDecideResponse_RecordEvents; Collection []
    WorkflowStateDecideResponse_UpsertStateLocals; Collection []
    WorkflowStateDecideResponse_PublishToInterStateChannel].
Definition NewWorkflowStateDecideResponse : WorkflowStateDecideResponse :=
  mkWorkflowStateDecideResponse None None [] [] [] [] [].
Definition NewWorkflowStateDecideResponseWithDefaults : WorkflowStateDecideResponse :=
  mkWorkflowStateDecideResponse None None [] [] [] [] [].
Definition NullableWorkflowStateDecideResponse : nullable_methods WorkflowStateDecideResponse :=
  nullable WorkflowStateDecideResponse_codec.
Lemma WorkflowStateDecideResponse_struct_lawful : lawful_struct no_rest WorkflowStateDecideResponse_members.
Proof. lawful_struct. Qed.

(** ** WorkflowRpcRequest (model_workflow_rpc_request.go) *)

Definition WorkflowRpcRequest_WorkflowId : required_methods WorkflowRpcRequest _ := {|
  GetX := get_field EmptyString rpc_WorkflowId;
  GetXOk := get_field_ok rpc_WorkflowId;
  SetX :=
    assigns (fun v o => mkWorkflowRpcRequest v (rpc_WorkflowRunId o) (RpcName o) (rpc_Input o)
    (rpc_SearchAttributesLoadingPolicy o) (rpc_DataAttributesLoadingPolicy o) (TimeoutSeconds o)
    (rpc_UseMemoForDataAttributes o) (rpc_SearchAttributes o))
|}.
Definition WorkflowRpcRequest_WorkflowRunId : optional_methods WorkflowRpcRequest _ := {|
  GetOptX := get_pointer EmptyString rpc_WorkflowRunId;
  GetOptXOk := get_pointer_ok rpc_WorkflowRunId;
  HasX := has_pointer rpc_WorkflowRunId;
  SetOptX :=
    assigns (fun v o => mkWorkflowRpcRequest (rpc_WorkflowId o) (Some v) (RpcName o) (rpc_Input o)
    (rpc_SearchAttributesLoadingPolicy o) (rpc_DataAttributesLoadingPolicy o) (TimeoutSeconds o)
    (rpc_UseMemoForDataAttributes o) (rpc_SearchAttributes o))
|}.
Definition WorkflowRpcRequest_RpcName : required_methods WorkflowRpcRequest _ := {|
  GetX := get_field EmptyString RpcName;
  GetXOk := get_field_ok RpcName;
  SetX :=
    assigns (fun v o => mkWorkflowRpcRequest (rpc_WorkflowId o) (rpc_WorkflowRunId o) v (rpc_Input o)
    (rpc_SearchAttributesLoadingPolicy o) (rpc_DataAttributesLoadingPolicy o) (TimeoutSeconds o)
    (rpc_UseMemoForDataAttributes o) (rpc_SearchAttributes o))
|}.
Definition WorkflowRpcRequest_Input : optional_methods WorkflowRpcRequest _ := {|
  GetOptX := get_pointer (zero EncodedObject_codec) rpc_Input;
  GetOptXOk := get_pointer_ok rpc_Input;
  HasX := has_pointer rpc_Input;
  SetOptX :=
    assigns (fun v o => mkWorkflowRpcRequest (rpc_WorkflowId o) (rpc_WorkflowRunId o) (RpcName o) (Some v)
    (rpc_SearchAttributesLoadingPolicy o) (rpc_DataAttributesLoadingPolicy o) (TimeoutSeconds o)
    (rpc_UseMemoForDataAttributes o) (rpc_SearchAttributes o))
|}.
Definition WorkflowRpcRequest_SearchAttributesLoadingPolicy : optional_methods WorkflowRpcRequest _ := {|
  GetOptX := get_pointer (zero PersistenceLoadingPolicy_codec) rpc_SearchAttributesLoadingPolicy;
  GetOptXOk := get_pointer_ok rpc_SearchAttributesLoadingPolicy;
  HasX := has_pointer rpc_SearchAttributesLoadingPolicy;
  SetOptX :=
    assigns (fun v o => mkWorkflowRpcRequest (rpc_WorkflowId o) (rpc_WorkflowRunId o) (RpcName o) (rpc_Input o)
    (Some v) (rpc_DataAttributesLoadingPolicy o) (TimeoutSeconds o) (rpc_UseMemoForDataAttributes o)
    (rpc_SearchAttributes o))
|}.
Definition WorkflowRpcRequest_DataAttributesLoadingPolicy : optional_methods WorkflowRpcRequest _ := {|
  GetOptX := get_pointer (zero PersistenceLoadingPolicy_codec) rpc_DataAttributesLoadingPolicy;
  GetOptXOk := get_pointer_ok rpc_DataAttributesLoadingPolicy;
  HasX := has_pointer rpc_DataAttributesLoadingPolicy;
  SetOptX :=
    assigns (fun v o => mkWorkflowRpcRequest (rpc_WorkflowId o) (rpc_WorkflowRunId o) (RpcName o) (rpc_Input o)
    (rpc_SearchAttributesLoadingPolicy o) (Some v) (TimeoutSeconds o) (rpc_UseMemoForDataAttributes o)
    (rpc_SearchAttributes o))
|}.
Definition WorkflowRpcRequest_TimeoutSeconds : optional_methods WorkflowRpcRequest _ := {|
  GetOptX := get_pointer 0%Z TimeoutSeconds;
  GetOptXOk := get_pointer_ok TimeoutSeconds;
  HasX := has_pointer TimeoutSeconds;
  SetOptX :=
    assigns (fun v o => mkWorkflowRpcRequest (rpc_WorkflowId o) (rpc_WorkflowRunId o) (RpcName o) (rpc_Input o)
    (rpc_SearchAttributesLoadingPolicy o) (rpc_DataAttributesLoadingPolicy o) (Some v)
    (rpc_UseMemoForDataAttributes o) (rpc_SearchAttributes o))
|}.
Definition WorkflowRpcRequest_UseMemoForDataAttributes : optional_methods WorkflowRpcRequest _ := {|
  GetOptX := get_pointer false rpc_UseMemoForDataAttributes;
  GetOptXOk := get_pointer_ok rpc_UseMemoForDataAttributes;
  HasX := has_pointer rpc_UseMemoForDataAttributes;
  SetOptX :=
    assigns (fun v o => mkWorkflowRpcRequest (rpc_WorkflowId o) (rpc_WorkflowRunId o) (RpcName o) (rpc_Input o)
    (rpc_SearchAttributesLoadingPolicy o) (rpc_DataAttributesLoadingPolicy o) (TimeoutSeconds o) (Some v)
    (rpc_SearchAttributes o))
|}.
Definition WorkflowRpcRequest_SearchAttributes : collection_methods WorkflowRpcRequest _ := {|
  GetAllX := get_field [] rpc_SearchAttributes;
  GetAllXOk := get_all_ok [] rpc_SearchAttributes;
  HasAnyX := has_any [] rpc_SearchAttributes;
  SetAllX :=
    assigns (fun v o => mkWorkflowRpcRequest (rpc_WorkflowId o) (rpc_WorkflowRunId o) (RpcName o) (rpc_Input o)
    (rpc_SearchAttributesLoadingPolicy o) (rpc_DataAttributesLoadingPolicy o) (TimeoutSeconds o)
    (rpc_UseMemoForDataAttributes o) v)
|}.
Definition WorkflowRpcRequest_members : list (any_methods WorkflowRpcRequest) :=
  [Required EmptyString WorkflowRpcRequest_WorkflowId; Optional EmptyString WorkflowRpcRequest_WorkflowRunId;
    Required EmptyString WorkflowRpcRequest_RpcName; Optional (zero EncodedObject_codec)
    WorkflowRpcRequest_Input; Optional (zero PersistenceLoadingPolicy_codec)
    WorkflowRpcRequest_SearchAttributesLoadingPolicy; Optional (zero PersistenceLoadingPolicy_codec)
    WorkflowRpcRequest_DataAttributesLoadingPolicy; Optional 0%Z WorkflowRpcRequest_TimeoutSeconds;
    Optional false WorkflowRpcRequest_UseMemoForDataAttributes; Collection [] WorkflowRpcRequest_SearchAttributes].
Definition NewWorkflowRpcRequest (workflowId_ : string) (rpcName_ : string) : WorkflowRpcRequest :=
  mkWorkflowRpcRequest workflowId_ None rpcName_ None None None None None [].
Definition NewWorkflowRpcRequestWithDefaults : WorkflowRpcRequest :=
  mkWorkflowRpcRequest EmptyString None EmptyString None None None None None [].
Definition NullableWorkflowRpcRequest : nullable_methods WorkflowRpcRequest := nullable WorkflowRpcRequest_codec.
Lemma WorkflowRpcRequest_struct_lawful : lawful_struct no_rest WorkflowRpcRequest_members.
Proof. lawful_struct. Qed.

(** ** WorkflowRpcResponse (model_workflow_rpc_response.go) *)

Definition WorkflowRpcResponse_Output : optional_methods WorkflowRpcResponse _ := {|
  GetOptX := get_pointer (zero EncodedObject_codec) rpcr_Output;
  GetOptXOk := get_pointer_ok rpcr_Output;
  HasX := has_pointer rpcr_Output;
  SetOptX := assigns (fun v o => mkWorkflowRpcResponse (Some v))
|}.
Definition WorkflowRpcResponse_members : list (any_methods WorkflowRpcResponse) :=
  [Optional (zero EncodedObject_codec) WorkflowRpcResponse_Output].
Definition NewWorkflowRpcResponse : WorkflowRpcResponse :=
  mkWorkflowRpcResponse None.
Definition NewWorkflowRpcResponseWithDefaults : WorkflowRpcResponse :=
  mkWorkflowRpcResponse None.
Definition NullableWorkflowRpcResponse : nullable_methods WorkflowRpcResponse := nullable WorkflowRpcResponse_codec.
Lemma WorkflowRpcResponse_struct_lawful : lawful_struct no_rest WorkflowRpcResponse_members.
Proof. lawful_struct. Qed.

(** ** WorkflowWorkerRpcRequest (model_workflow_worker_rpc_request.go) *)

Definition WorkflowWorkerRpcRequest_Context : required_methods WorkflowWorkerRpcRequest _ := {|
  GetX := get_field (zero Context__codec) wr_Context;
  GetXOk := get_field_ok wr_Context;
  SetX :=
    assigns (fun v o => mkWorkflowWorkerRpcRequest v (wr_WorkflowType o) (wr_RpcName o) (wr_Input o)
    (wr_SearchAttributes o) (wr_DataAttributes o) (wr_SignalChannelInfos o) (wr_InternalChannelInfos o))
|}.
Definition WorkflowWorkerRpcRequest_WorkflowType : required_methods WorkflowWorkerRpcRequest _ := {|
  GetX := get_field EmptyString wr_WorkflowType;
  GetXOk := get_field_ok wr_WorkflowType;
  SetX :=
    assigns (fun v o => mkWorkflowWorkerRpcRequest (wr_Context o) v (wr_RpcName o) (wr_Input o)
    (wr_SearchAttributes o) (wr_DataAttributes o) (wr_SignalChannelInfos o) (wr_InternalChannelInfos o))
|}.
Definition WorkflowWorkerRpcRequest_RpcName : required_methods WorkflowWorkerRpcRequest _ := {|
  GetX := get_field EmptyString wr_RpcName;
  GetXOk := get_field_ok wr_RpcName;
  SetX :=
    assigns (fun v o => mkWorkflowWorkerRpcRequest (wr_Context o) (wr_WorkflowType o) v (wr_Input o)
    (wr_SearchAttributes o) (wr_DataAttributes o) (wr_SignalChannelInfos o) (wr_InternalChannelInfos o))
|}.
Definition WorkflowWorkerRpcRequest_Input : optional_methods WorkflowWorkerRpcRequest _ := {|
  GetOptX := get_pointer (zero EncodedObject_codec) wr_Input;
  GetOptXOk := get_pointer_ok wr_Input;
  HasX := has_pointer wr_Input;
  SetOptX :=
    assigns (fun v o => mkWorkflowWorkerRpcRequest (wr_Context o) (wr_WorkflowType o) (wr_RpcName o) (Some v)
    (wr_SearchAttributes o) (wr_DataAttributes o) (wr_SignalChannelInfos o) (wr_InternalChannelInfos o))
|}.
Definition WorkflowWorkerRpcRequest_SearchAttributes : collection_methods WorkflowWorkerRpcRequest _ := {|
  GetAllX := get_field [] wr_SearchAttributes;
  GetAllXOk := get_all_ok [] wr_SearchAttributes;
  HasAnyX := has_any [] wr_SearchAttributes;
  SetAllX :=
    assigns (fun v o => mkWorkflowWorkerRpcRequest (wr_Context o) (wr_WorkflowType o) (wr_RpcName o) (wr_Input
    o) v (wr_DataAttributes o) (wr_SignalChannelInfos o) (wr_InternalChannelInfos o))
|}.
Definition WorkflowWorkerRpcRequest_DataAttributes : collection_methods WorkflowWorkerRpcRequest _ := {|
  GetAllX := get_field [] wr_DataAttributes;
  GetAllXOk := get_all_ok [] wr_DataAttributes;
  HasAnyX := has_any [] wr_DataAttributes;
  SetAllX :=
    assigns (fun v o => mkWorkflowWorkerRpcRequest (wr_Context o) (wr_WorkflowType o) (wr_RpcName o) (wr_Input
    o) (wr_SearchAttributes o) v (wr_SignalChannelInfos o) (wr_InternalChannelInfos o))
|}.
Definition WorkflowWorkerRpcRequest_SignalChannelInfos : optional_methods WorkflowWorkerRpcRequest _ := {|
  GetOptX := get_pointer (zero (string_map ChannelInfo_codec)) wr_SignalChannelInfos;
  GetOptXOk := get_pointer_ok wr_SignalChannelInfos;
  HasX := has_pointer wr_SignalChannelInfos;
  SetOptX :=
    assigns (fun v o => mkWorkflowWorkerRpcRequest (wr_Context o) (wr_WorkflowType o) (wr_RpcName o) (wr_Input
    o) (wr_SearchAttributes o) (wr_DataAttributes o) (Some v) (wr_InternalChannelInfos o))
|}.
Definition WorkflowWorkerRpcRequest_InternalChannelInfos : optional_methods WorkflowWorkerRpcRequest _ := {|
  GetOptX := get_pointer (zero (string_map ChannelInfo_codec)) wr_InternalChannelInfos;
  GetOptXOk := get_pointer_ok wr_InternalChannelInfos;
  HasX := has_pointer wr_InternalChannelInfos;
  SetOptX :=
    assigns (fun v o => mkWorkflowWorkerRpcRequest (wr_Context o) (wr_WorkflowType o) (wr_RpcName o) (wr_Input
    o) (wr_SearchAttributes o) (wr_DataAttributes o) (wr_SignalChannelInfos o) (Some v))
|}.
Definition WorkflowWorkerRpcRequest_members : list (any_methods WorkflowWorkerRpcRequest) :=
  [Required (zero Context__codec) WorkflowWorkerRpcRequest_Context;
    Required EmptyString WorkflowWorkerRpcRequest_WorkflowType;
    Required EmptyString WorkflowWorkerRpcRequest_RpcName; Optional (zero EncodedObject_codec)
    WorkflowWorkerRpcRequest_Input; Collection [] WorkflowWorkerRpcRequest_SearchAttributes;
    Collection [] WorkflowWorkerRpcRequest_DataAttributes; Optional (zero (string_map ChannelInfo_codec))
    WorkflowWorkerRpcRequest_SignalChannelInfos; Optional (zero (string_map ChannelInfo_codec))
    WorkflowWorkerRpcRequest_InternalChannelInfos].
Definition NewWorkflowWorkerRpcRequest (context_ : Context_) (workflowType_ : string) (rpcName_ : string) :
  WorkflowWorkerRpcRequest :=
  mkWorkflowWorkerRpcRequest context_ workflowType_ rpcName_ None [] [] None None.
Definition NewWorkflowWorkerRpcRequestWithDefaults : WorkflowWorkerRpcRequest :=
  mkWorkflowWorkerRpcRequest (zero Context__codec) EmptyString EmptyString None [] [] None None.
Definition NullableWorkflowWorkerRpcRequest : nullable_methods WorkflowWorkerRpcRequest :=
  nullable WorkflowWorkerRpcRequest_codec.
Lemma WorkflowWorkerRpcRequest_struct_lawful : lawful_struct no_rest WorkflowWorkerRpcRequest_members.
Proof. lawful_struct. Qed.

(** ** WorkflowWorkerRpcResponse (model_workflow_worker_rpc_response.go) *)

Definition WorkflowWorkerRpcResponse_Output : optional_methods WorkflowWorkerRpcResponse _ := {|
  GetOptX := get_pointer (zero EncodedObject_codec) wr_Output;
  GetOptXOk := get_pointer_ok wr_Output;
  HasX := has_pointer wr_Output;
  SetOptX :=
    assigns (fun v o => mkWorkflowWorkerRpcResponse (Some v) (wr_StateDecision o) (wr_UpsertSearchAttributes o)
    (wr_UpsertDataAttributes o) (wr_RecordEvents o) (wr_UpsertStateLocals o) (wr_PublishToInterStateChannel o))
|}.
Definition WorkflowWorkerRpcResponse_StateDecision : optional_methods WorkflowWorkerRpcResponse _ := {|
  GetOptX := get_pointer (zero StateDecision_codec) wr_StateDecision;
  GetOptXOk := get_pointer_ok wr_StateDecision;
  HasX := has_pointer wr_StateDecision;
  SetOptX :=
    assigns (fun v o => mkWorkflowWorkerRpcResponse (wr_Output o) (Some v) (wr_UpsertSearchAttributes o)
    (wr_UpsertDataAttributes o) (wr_RecordEvents o) (wr_UpsertStateLocals o) (wr_PublishToInterStateChannel o))
|}.
Definition WorkflowWorkerRpcResponse_UpsertSearchAttributes : collection_methods WorkflowWorkerRpcResponse _ := {|
  GetAllX := get_field [] wr_UpsertSearchAttributes;
  GetAllXOk := get_all_ok [] wr_UpsertSearchAttributes;
  HasAnyX := has_any [] wr_UpsertSearchAttributes;
  SetAllX :=
    assigns (fun v o => mkWorkflowWorkerRpcResponse (wr_Output o) (wr_StateDecision o) v
    (wr_UpsertDataAttributes o) (wr_RecordEvents o) (wr_UpsertStateLocals o) (wr_PublishToInterStateChannel o))
|}.
Definition WorkflowWorkerRpcResponse_UpsertDataAttributes : collection_methods WorkflowWorkerRpcResponse _ := {|
  GetAllX := get_field [] wr_UpsertDataAttributes;
  GetAllXOk := get_all_ok [] wr_UpsertDataAttributes;
  HasAnyX := has_any [] wr_UpsertDataAttributes;
  SetAllX :=
    assigns (fun v o => mkWorkflowWorkerRpcResponse (wr_Output o) (wr_StateDecision o)
    (wr_UpsertSearchAttributes o) v (wr_RecordEvents o) (wr_UpsertStateLocals o) (wr_PublishToInterStateChannel o))
|}.
Definition WorkflowWorkerRpcResponse_RecordEvents : collection_methods WorkflowWorkerRpcResponse _ := {|
  GetAllX := get_field [] wr_RecordEvents;
  GetAllXOk := get_all_ok [] wr_RecordEvents;
  HasAnyX := has_any [] wr_RecordEvents;
  SetAllX :=
    assigns (fun v o => mkWorkflowWorkerRpcResponse (wr_Output o) (wr_StateDecision o)
    (wr_UpsertSearchAttributes o) (wr_UpsertDataAttributes o) v (wr_UpsertStateLocals o)
    (wr_PublishToInterStateChannel o))
|}.
Definition WorkflowWorkerRpcResponse_UpsertStateLocals : collection_methods WorkflowWorkerRpcResponse _ := {|
  GetAllX := get_field [] wr_UpsertStateLocals;
  GetAllXOk := get_all_ok [] wr_UpsertStateLocals;
  HasAnyX := has_any [] wr_UpsertStateLocals;
  SetAllX :=
    assigns (fun v o => mkWorkflowWorkerRpcResponse (wr_Output o) (wr_StateDecision o)
    (wr_UpsertSearchAttributes o) (wr_UpsertDataAttributes o) (wr_RecordEvents o) v (wr_PublishToInterStateChannel o))
|}.
Definition WorkflowWorkerRpcResponse_PublishToInterStateChannel : collection_methods WorkflowWorkerRpcResponse _ := {|
  GetAllX := get_field [] wr_PublishToInterStateChannel;
  GetAllXOk := get_all_ok [] wr_PublishToInterStateChannel;
  HasAnyX := has_any [] wr_PublishToInterStateChannel;
  SetAllX :=
    assigns (fun v o => mkWorkflowWorkerRpcResponse (wr_Output o) (wr_StateDecision o)
    (wr_UpsertSearchAttributes o) (wr_UpsertDataAttributes o) (wr_RecordEvents o) (wr_UpsertStateLocals o) v)
|}.
Definition WorkflowWorkerRpcResponse_members : list (any_methods WorkflowWorkerRpcResponse) :=
  [Optional (zero EncodedObject_codec) WorkflowWorkerRpcResponse_Output;
    Optional (zero StateDecision_codec) WorkflowWorkerRpcResponse_StateDecision;
    Collection [] WorkflowWorkerRpcResponse_UpsertSearchAttributes;
    Collection [] WorkflowWorkerRpcResponse_UpsertDataAttributes;
    Collection [] WorkflowWorkerRpcResponse_RecordEvents; Collection []
    WorkflowWorkerRpcResponse_UpsertStateLocals; Collection [] WorkflowWorkerRpcResponse_PublishToInterStateChannel].
Definition NewWorkflowWorkerRpcResponse : WorkflowWorkerRpcResponse :=
  mkWorkflowWorkerRpcResponse None None [] [] [] [] [].
Definition NewWorkflowWorkerRpcResponseWithDefaults : WorkflowWorkerRpcResponse :=
  mkWorkflowWorkerRpcResponse None None [] [] [] [] [].
Definition NullableWorkflowWorkerRpcResponse : nullable_methods WorkflowWorkerRpcResponse :=
  nullable WorkflowWorkerRpcResponse_codec.
Lemma WorkflowWorkerRpcResponse_struct_lawful : lawful_struct no_rest WorkflowWorkerRpcResponse_members.
Proof. lawful_struct. Qed.

(** ** WorkflowDumpRequest (model_workflow_dump_request.go) *)

Definition WorkflowDumpRequest_WorkflowId : required_methods WorkflowDumpRequest _ := {|
  GetX := get_field EmptyString dump_WorkflowId;
  GetXOk := get_field_ok dump_WorkflowId;
  SetX := assigns (fun v o => mkWorkflowDumpRequest v (dump_WorkflowRunId o) (PageSizeInBytes o) (PageNum o))
|}.
Definition WorkflowDumpRequest_WorkflowRunId : required_methods WorkflowDumpRequest _ := {|
  GetX := get_field EmptyString dump_WorkflowRunId;
  GetXOk := get_field_ok dump_WorkflowRunId;
  SetX := assigns (fun v o => mkWorkflowDumpRequest (dump_WorkflowId o) v (PageSizeInBytes o) (PageNum o))
|}.
Definition WorkflowDumpRequest_PageSizeInBytes : required_methods WorkflowDumpRequest _ := {|
  GetX := get_field 0%Z PageSizeInBytes;
  GetXOk := get_field_ok PageSizeInBytes;
  SetX := assigns (fun v o => mkWorkflowDumpRequest (dump_WorkflowId o) (dump_WorkflowRunId o) v (PageNum o))
|}.
Definition WorkflowDumpRequest_PageNum : required_methods WorkflowDumpRequest _ := {|
  GetX := get_field 0%Z PageNum;
  GetXOk := get_field_ok PageNum;
  SetX := assigns (fun v o => mkWorkflowDumpRequest (dump_WorkflowId o) (dump_WorkflowRunId o) (PageSizeInBytes o) v)
|}.
Definition WorkflowDumpRequest_members : list (any_methods WorkflowDumpRequest) :=
  [Required EmptyString WorkflowDumpRequest_WorkflowId; Required EmptyString WorkflowDumpRequest_WorkflowRunId;
    Required 0%Z WorkflowDumpRequest_PageSizeInBytes; Required 0%Z WorkflowDumpRequest_PageNum].
Definition NewWorkflowDumpRequest (workflowId_ : string) (workflowRunId_ : string) (pageSizeInBytes_ : Z)
  (pageNum_ : Z) : WorkflowDumpRequest :=
  mkWorkflowDumpRequest workflowId_ workflowRunId_ pageSizeInBytes_ pageNum_.
Definition NewWorkflowDumpRequestWithDefaults : WorkflowDumpRequest :=
  mkWorkflowDumpRequest EmptyString EmptyString 0%Z 0%Z.
Definition NullableWorkflowDumpRequest : nullable_methods WorkflowDumpRequest := nullable WorkflowDumpRequest_codec.
Lemma WorkflowDumpRequest_struct_lawful : lawful_struct no_rest WorkflowDumpRequest_members.
Proof. lawful_struct. Qed.

(** ** WorkflowDumpResponse (model_workflow_dump_response.go) *)

Definition WorkflowDumpResponse_Checksum : required_methods WorkflowDumpResponse _ := {|
  GetX := get_field EmptyString Checksum;
  GetXOk := get_field_ok Checksum;
  SetX := assigns (fun v o => mkWorkflowDumpResponse v (TotalPages o) (JsonData o))
|}.
Definition WorkflowDumpResponse_TotalPages : required_methods WorkflowDumpResponse _ := {|
  GetX := get_field 0%Z TotalPages;
  GetXOk := get_field_ok TotalPages;
  SetX := assigns (fun v o => mkWorkflowDumpResponse (Checksum o) v (JsonData o))
|}.
Definition WorkflowDumpResponse_JsonData : required_methods WorkflowDumpResponse _ := {|
  GetX := get_field EmptyString JsonData;
  GetXOk := get_field_ok JsonData;
  SetX := assigns (fun v o => mkWorkflowDumpResponse (Checksum o) (TotalPages o) v)
|}.
Definition WorkflowDumpResponse_members : list (any_methods WorkflowDumpResponse) :=
  [Required EmptyString WorkflowDumpResponse_Checksum; Required 0%Z WorkflowDumpResponse_TotalPages;
    Required EmptyString WorkflowDumpResponse_JsonData].
Definition NewWorkflowDumpResponse (checksum_ : string) (totalPages_ : Z) (jsonData_ : string) :
  WorkflowDumpResponse :=
  mkWorkflowDumpResponse checksum_ totalPages_ jsonData_.
Definition NewWorkflowDumpResponseWithDefaults : WorkflowDumpResponse :=
  mkWorkflowDumpResponse EmptyString 0%Z EmptyString.
Definition NullableWorkflowDumpResponse : nullable_methods WorkflowDumpResponse :=
  nullable WorkflowDumpResponse_codec.
Lemma WorkflowDumpResponse_struct_lawful : lawful_struct no_rest WorkflowDumpResponse_members.
Proof. lawful_struct. Qed.

(** ** WorkflowConfig (model_workflow_config.go) *)

Definition WorkflowConfig_DisableSystemSearchAttribute : optional_methods WorkflowConfig _ := {|
  GetOptX := get_pointer false DisableSystemSearchAttribute;
  GetOptXOk := get_pointer_ok DisableSystemSearchAttribute;
  HasX := has_pointer DisableSystemSearchAttribute;
  SetOptX :=
    assigns (fun v o => mkWorkflowConfig (Some v) (cfg_ExecutingStateIdMode o) (ContinueAsNewThreshold o)
    (ContinueAsNewPageSizeInBytes o) (OptimizeActivity o) (OptimizeTimer o))
|}.
Definition WorkflowConfig_ExecutingStateIdMode : optional_methods WorkflowConfig _ := {|
  GetOptX := get_pointer (enum_zero ExecutingStateIdMode_enum) cfg_ExecutingStateIdMode;
  GetOptXOk := get_pointer_ok cfg_ExecutingStateIdMode;
  HasX := has_pointer cfg_ExecutingStateIdMode;
  SetOptX :=
    assigns (fun v o => mkWorkflowConfig (DisableSystemSearchAttribute o) (Some v) (ContinueAsNewThreshold o)
    (ContinueAsNewPageSizeInBytes o) (OptimizeActivity o) (OptimizeTimer o))
|}.
Definition WorkflowConfig_ContinueAsNewThreshold : optional_methods WorkflowConfig _ := {|
  GetOptX := get_pointer 0%Z ContinueAsNewThreshold;
  GetOptXOk := get_pointer_ok ContinueAsNewThreshold;
  HasX := has_pointer ContinueAsNewThreshold;
  SetOptX :=
    assigns (fun v o => mkWorkflowConfig (DisableSystemSearchAttribute o) (cfg_ExecutingStateIdMode o) (Some v)
    (ContinueAsNewPageSizeInBytes o) (OptimizeActivity o) (OptimizeTimer o))
|}.
Definition WorkflowConfig_ContinueAsNewPageSizeInBytes : optional_methods WorkflowConfig _ := {|
  GetOptX := get_pointer 0%Z ContinueAsNewPageSizeInBytes;
  GetOptXOk := get_pointer_ok ContinueAsNewPageSizeInBytes;
  HasX := has_pointer ContinueAsNewPageSizeInBytes;
  SetOptX :=
    assigns (fun v o => mkWorkflowConfig (DisableSystemSearchAttribute o) (cfg_ExecutingStateIdMode o)
    (ContinueAsNewThreshold o) (Some v) (OptimizeActivity o) (OptimizeTimer o))
|}.
Definition WorkflowConfig_OptimizeActivity : optional_methods WorkflowConfig _ := {|
  GetOptX := get_pointer false OptimizeActivity;
  GetOptXOk := get_pointer_ok OptimizeActivity;
  HasX := has_pointer OptimizeActivity;
  SetOptX :=
    assigns (fun v o => mkWorkflowConfig (DisableSystemSearchAttribute o) (cfg_ExecutingStateIdMode o)
    (ContinueAsNewThreshold o) (ContinueAsNewPageSizeInBytes o) (Some v) (OptimizeTimer o))
|}.
Definition WorkflowConfig_OptimizeTimer : optional_methods WorkflowConfig _ := {|
  GetOptX := get_pointer false OptimizeTimer;
  GetOptXOk := get_pointer_ok OptimizeTimer;
  HasX := has_pointer OptimizeTimer;
  SetOptX :=
    assigns (fun v o => mkWorkflowConfig (DisableSystemSearchAttribute o) (cfg_ExecutingStateIdMode o)
    (ContinueAsNewThreshold o) (ContinueAsNewPageSizeInBytes o) (OptimizeActivity o) (Some v))
|}.
Definition WorkflowConfig_members : list (any_methods WorkflowConfig) :=
  [Optional false WorkflowConfig_DisableSystemSearchAttribute;
    Optional (enum_zero ExecutingStateIdMode_enum) WorkflowConfig_ExecutingStateIdMode;
    Optional 0%Z WorkflowConfig_ContinueAsNewThreshold; Optional 0%Z
    WorkflowConfig_ContinueAsNewPageSizeInBytes; Optional false WorkflowConfig_OptimizeActivity;
    Optional false WorkflowConfig_OptimizeTimer].
Definition NewWorkflowConfig : WorkflowConfig :=
  mkWorkflowConfig None None None None None None.
Definition NewWorkflowConfigWithDefaults : WorkflowConfig :=
  mkWorkflowConfig None None None None None None.
Definition NullableWorkflowConfig : nullable_methods WorkflowConfig := nullable WorkflowConfig_codec.
Lemma WorkflowConfig_struct_lawful : lawful_struct no_rest WorkflowConfig_members.
Proof. lawful_struct. Qed.

(** ** ErrorResponse (model_error_response.go) *)

Definition ErrorResponse_Detail : optional_methods ErrorResponse _ := {|
  GetOptX := get_pointer EmptyString er_Detail;
  GetOptXOk := get_pointer_ok er_Detail;
  HasX := has_pointer er_Detail;
  SetOptX :=
    assigns (fun v o => mkErrorResponse (Some v) (er_SubStatus o) (OriginalWorkerErrorDetail o)
    (OriginalWorkerErrorType o) (OriginalWorkerErrorStatus o))
|}.
Definition ErrorResponse_SubStatus : optional_methods ErrorResponse _ := {|
  GetOptX := get_pointer (enum_zero ErrorSubStatus_enum) er_SubStatus;
  GetOptXOk := get_pointer_ok er_SubStatus;
  HasX := has_pointer er_SubStatus;
  SetOptX :=
    assigns (fun v o => mkErrorResponse (er_Detail o) (Some v) (OriginalWorkerErrorDetail o)
    (OriginalWorkerErrorType o) (OriginalWorkerErrorStatus o))
|}.
Definition ErrorResponse_OriginalWorkerErrorDetail : optional_methods ErrorResponse _ := {|
  GetOptX := get_pointer EmptyString OriginalWorkerErrorDetail;
  GetOptXOk := get_pointer_ok OriginalWorkerErrorDetail;
  HasX := has_pointer OriginalWorkerErrorDetail;
  SetOptX :=
    assigns (fun v o => mkErrorResponse (er_Detail o) (er_SubStatus o) (Some v) (OriginalWorkerErrorType o)
    (OriginalWorkerErrorStatus o))
|}.
Definition ErrorResponse_OriginalWorkerErrorType : optional_methods ErrorResponse _ := {|
  GetOptX := get_pointer EmptyString OriginalWorkerErrorType;
  GetOptXOk := get_pointer_ok OriginalWorkerErrorType;
  HasX := has_pointer OriginalWorkerErrorType;
  SetOptX :=
    assigns (fun v o => mkErrorResponse (er_Detail o) (er_SubStatus o) (OriginalWorkerErrorDetail o) (Some v)
    (OriginalWorkerErrorStatus o))
|}.
Definition ErrorResponse_OriginalWorkerErrorStatus : optional_methods ErrorResponse _ := {|
  GetOptX := get_pointer 0%Z OriginalWorkerErrorStatus;
  GetOptXOk := get_pointer_ok OriginalWorkerErrorStatus;
  HasX := has_pointer OriginalWorkerErrorStatus;
  SetOptX :=
    assigns (fun v o => mkErrorResponse (er_Detail o) (er_SubStatus o) (OriginalWorkerErrorDetail o)
    (OriginalWorkerErrorType o) (Some v))
|}.
Definition ErrorResponse_members : list (any_methods ErrorResponse) :=
  [Optional EmptyString ErrorResponse_Detail; Optional (enum_zero ErrorSubStatus_enum) ErrorResponse_SubStatus;
    Optional EmptyString ErrorResponse_OriginalWorkerErrorDetail;
    Optional EmptyString ErrorResponse_OriginalWorkerErrorType; Optional 0%Z ErrorResponse_OriginalWorkerErrorStatus].
Definition NewErrorResponse : ErrorResponse :=
  mkErrorResponse None None None None None.
Definition NewErrorResponseWithDefaults : ErrorResponse :=
  mkErrorResponse None None None None None.
Definition NullableErrorResponse : nullable_methods ErrorResponse := nullable ErrorResponse_codec.
Lemma ErrorResponse_struct_lawful : lawful_struct no_rest ErrorResponse_members.
Proof. lawful_struct. Qed.

(** ** WorkflowStateOptions (model_workflow_state_options.go) *)

Definition WorkflowStateOptions_SearchAttributesLoadingPolicy : optional_methods WorkflowStateOptions _ := {|
  GetOptX := get_pointer (zero PersistenceLoadingPolicy_codec) SearchAttributesLoadingPolicy;
  GetOptXOk := get_pointer_ok SearchAttributesLoadingPolicy;
  HasX := has_pointer SearchAttributesLoadingPolicy;
  SetOptX :=
    assigns (fun v o => mkWorkflowStateOptions (Some v) (WaitUntilApiSearchAttributesLoadingPolicy o)
    (ExecuteApiSearchAttributesLoadingPolicy o) (DataObjectsLoadingPolicy o) (StartApiTimeoutSeconds o)
    (DecideApiTimeoutSeconds o) (StartApiRetryPolicy o) (DecideApiRetryPolicy o) (so_StartApiFailurePolicy o)
    (so_ExecuteApiFailurePolicy o) (ExecuteApiFailureProceedStateId o) (ExecuteApiFailureProceedStateOptions o)
    (SkipStartApi o) (WaitUntilApiTimeoutSeconds o) (ExecuteApiTimeoutSeconds o) (WaitUntilApiRetryPolicy o)
    (ExecuteApiRetryPolicy o) (so_WaitUntilApiFailurePolicy o) (SkipWaitUntil o) (DataAttributesLoadingPolicy
    o) (WaitUntilApiDataAttributesLoadingPolicy o) (ExecuteApiDataAttributesLoadingPolicy o))
|}.
Definition WorkflowStateOptions_WaitUntilApiSearchAttributesLoadingPolicy : optional_methods
  WorkflowStateOptions _ := {|
  GetOptX := get_pointer (zero PersistenceLoadingPolicy_codec) WaitUntilApiSearchAttributesLoadingPolicy;
  GetOptXOk := get_pointer_ok WaitUntilApiSearchAttributesLoadingPolicy;
  HasX := has_pointer WaitUntilApiSearchAttributesLoadingPolicy;
  SetOptX :=
    assigns (fun v o => mkWorkflowStateOptions (SearchAttributesLoadingPolicy o) (Some v)
    (ExecuteApiSearchAttributesLoadingPolicy o) (DataObjectsLoadingPolicy o) (StartApiTimeoutSeconds o)
    (DecideApiTimeoutSeconds o) (StartApiRetryPolicy o) (DecideApiRetryPolicy o) (so_StartApiFailurePolicy o)
    (so_ExecuteApiFailurePolicy o) (ExecuteApiFailureProceedStateId o) (ExecuteApiFailureProceedStateOptions o)
    (SkipStartApi o) (WaitUntilApiTimeoutSeconds o) (ExecuteApiTimeoutSeconds o) (WaitUntilApiRetryPolicy o)
    (ExecuteApiRetryPolicy o) (so_WaitUntilApiFailurePolicy o) (SkipWaitUntil o) (DataAttributesLoadingPolicy
    o) (WaitUntilApiDataAttributesLoadingPolicy o) (ExecuteApiDataAttributesLoadingPolicy o))
|}.
Definition WorkflowStateOptions_ExecuteApiSearchAttributesLoadingPolicy : optional_methods WorkflowStateOptions
  _ := {|
  GetOptX := get_pointer (zero PersistenceLoadingPolicy_codec) ExecuteApiSearchAttributesLoadingPolicy;
  GetOptXOk := get_pointer_ok ExecuteApiSearchAttributesLoadingPolicy;
  HasX := has_pointer ExecuteApiSearchAttributesLoadingPolicy;
  SetOptX :=
    assigns (fun v o => mkWorkflowStateOptions (SearchAttributesLoadingPolicy o)
    (WaitUntilApiSearchAttributesLoadingPolicy o) (Some v) (DataObjectsLoadingPolicy o) (StartApiTimeoutSeconds
    o) (DecideApiTimeoutSeconds o) (StartApiRetryPolicy o) (DecideApiRetryPolicy o) (so_StartApiFailurePolicy
    o) (so_ExecuteApiFailurePolicy o) (ExecuteApiFailureProceedStateId o) (ExecuteApiFailureProceedStateOptions
    o) (SkipStartApi o) (WaitUntilApiTimeoutSeconds o) (ExecuteApiTimeoutSeconds o) (WaitUntilApiRetryPolicy o)
    (ExecuteApiRetryPolicy o) (so_WaitUntilApiFailurePolicy o) (SkipWaitUntil o) (DataAttributesLoadingPolicy
    o) (WaitUntilApiDataAttributesLoadingPolicy o) (ExecuteApiDataAttributesLoadingPolicy o))
|}.
Definition WorkflowStateOptions_DataObjectsLoadingPolicy : optional_methods WorkflowStateOptions _ := {|
  GetOptX := get_pointer (zero PersistenceLoadingPolicy_codec) DataObjectsLoadingPolicy;
  GetOptXOk := get_pointer_ok DataObjectsLoadingPolicy;
  HasX := has_pointer DataObjectsLoadingPolicy;
  SetOptX :=
    assigns (fun v o => mkWorkflowStateOptions (SearchAttributesLoadingPolicy o)
    (WaitUntilApiSearchAttributesLoadingPolicy o) (ExecuteApiSearchAttributesLoadingPolicy o) (Some v)
    (StartApiTimeoutSeconds o) (DecideApiTimeoutSeconds o) (StartApiRetryPolicy o) (DecideApiRetryPolicy o)
    (so_StartApiFailurePolicy o) (so_ExecuteApiFailurePolicy o) (ExecuteApiFailureProceedStateId o)
    (ExecuteApiFailureProceedStateOptions o) (SkipStartApi o) (WaitUntilApiTimeoutSeconds o)
    (ExecuteApiTimeoutSeconds o) (WaitUntilApiRetryPolicy o) (ExecuteApiRetryPolicy o)
    (so_WaitUntilApiFailurePolicy o) (SkipWaitUntil o) (DataAttributesLoadingPolicy o)
    (WaitUntilApiDataAttributesLoadingPolicy o) (ExecuteApiDataAttributesLoadingPolicy o))
|}.
Definition WorkflowStateOptions_StartApiTimeoutSeconds : optional_methods WorkflowStateOptions _ := {|
  GetOptX := get_pointer 0%Z StartApiTimeoutSeconds;
  GetOptXOk := get_pointer_ok StartApiTimeoutSeconds;
  HasX := has_pointer StartApiTimeoutSeconds;
  SetOptX :=
    assigns (fun v o => mkWorkflowStateOptions (SearchAttributesLoadingPolicy o)
    (WaitUntilApiSearchAttributesLoadingPolicy o) (ExecuteApiSearchAttributesLoadingPolicy o)
    (DataObjectsLoadingPolicy o) (Some v) (DecideApiTimeoutSeconds o) (StartApiRetryPolicy o)
    (DecideApiRetryPolicy o) (so_StartApiFailurePolicy o) (so_ExecuteApiFailurePolicy o)
    (ExecuteApiFailureProceedStateId o) (ExecuteApiFailureProceedStateOptions o) (SkipStartApi o)
    (WaitUntilApiTimeoutSeconds o) (ExecuteApiTimeoutSeconds o) (WaitUntilApiRetryPolicy o)
    (ExecuteApiRetryPolicy o) (so_WaitUntilApiFailurePolicy o) (SkipWaitUntil o) (DataAttributesLoadingPolicy
    o) (WaitUntilApiDataAttributesLoadingPolicy o) (ExecuteApiDataAttributesLoadingPolicy o))
|}.
Definition WorkflowStateOptions_DecideApiTimeoutSeconds : optional_methods WorkflowStateOptions _ := {|
  GetOptX := get_pointer 0%Z DecideApiTimeoutSeconds;
  GetOptXOk := get_pointer_ok DecideApiTimeoutSeconds;
  HasX := has_pointer DecideApiTimeoutSeconds;
  SetOptX :=
    assigns (fun v o => mkWorkflowStateOptions (SearchAttributesLoadingPolicy o)
    (WaitUntilApiSearchAttributesLoadingPolicy o) (ExecuteApiSearchAttributesLoadingPolicy o)
    (DataObjectsLoadingPolicy o) (StartApiTimeoutSeconds o) (Some v) (StartApiRetryPolicy o)
    (DecideApiRetryPolicy o) (so_StartApiFailurePolicy o) (so_ExecuteApiFailurePolicy o)
    (ExecuteApiFailureProceedStateId o) (ExecuteApiFailureProceedStateOptions o) (SkipStartApi o)
    (WaitUntilApiTimeoutSeconds o) (ExecuteApiTimeoutSeconds o) (WaitUntilApiRetryPolicy o)
    (ExecuteApiRetryPolicy o) (so_WaitUntilApiFailurePolicy o) (SkipWaitUntil o) (DataAttributesLoadingPolicy
    o) (WaitUntilApiDataAttributesLoadingPolicy o) (ExecuteApiDataAttributesLoadingPolicy o))
|}.
Definition WorkflowStateOptions_StartApiRetryPolicy : optional_methods WorkflowStateOptions _ := {|
  GetOptX := get_pointer (zero RetryPolicy_codec) StartApiRetryPolicy;
  GetOptXOk := get_pointer_ok StartApiRetryPolicy;
  HasX := has_pointer StartApiRetryPolicy;
  SetOptX :=
    assigns (fun v o => mkWorkflowStateOptions (SearchAttributesLoadingPolicy o)
    (WaitUntilApiSearchAttributesLoadingPolicy o) (ExecuteApiSearchAttributesLoadingPolicy o)
    (DataObjectsLoadingPolicy o) (StartApiTimeoutSeconds o) (DecideApiTimeoutSeconds o) (Some v)
    (DecideApiRetryPolicy o) (so_StartApiFailurePolicy o) (so_ExecuteApiFailurePolicy o)
    (ExecuteApiFailureProceedStateId o) (ExecuteApiFailureProceedStateOptions o) (SkipStartApi o)
    (WaitUntilApiTimeoutSeconds o) (ExecuteApiTimeoutSeconds o) (WaitUntilApiRetryPolicy o)
    (ExecuteApiRetryPolicy o) (so_WaitUntilApiFailurePolicy o) (SkipWaitUntil o) (DataAttributesLoadingPolicy
    o) (WaitUntilApiDataAttributesLoadingPolicy o) (ExecuteApiDataAttributesLoadingPolicy o))
|}.
Definition WorkflowStateOptions_DecideApiRetryPolicy : optional_methods WorkflowStateOptions _ := {|
  GetOptX := get_pointer (zero RetryPolicy_codec) DecideApiRetryPolicy;
  GetOptXOk := get_pointer_ok DecideApiRetryPolicy;
  HasX := has_pointer DecideApiRetryPolicy;
  SetOptX :=
    assigns (fun v o => mkWorkflowStateOptions (SearchAttributesLoadingPolicy o)
    (WaitUntilApiSearchAttributesLoadingPolicy o) (ExecuteApiSearchAttributesLoadingPolicy o)
    (DataObjectsLoadingPolicy o) (StartApiTimeoutSeconds o) (DecideApiTimeoutSeconds o) (StartApiRetryPolicy o)
    (Some v) (so_StartApiFailurePolicy o) (so_ExecuteApiFailurePolicy o) (ExecuteApiFailureProceedStateId o)
    (ExecuteApiFailureProceedStateOptions o) (SkipStartApi o) (WaitUntilApiTimeoutSeconds o)
    (ExecuteApiTimeoutSeconds o) (WaitUntilApiRetryPolicy o) (ExecuteApiRetryPolicy o)
    (so_WaitUntilApiFailurePolicy o) (SkipWaitUntil o) (DataAttributesLoadingPolicy o)
    (WaitUntilApiDataAttributesLoadingPolicy o) (ExecuteApiDataAttributesLoadingPolicy o))
|}.
Definition WorkflowStateOptions_StartApiFailurePolicy : optional_methods WorkflowStateOptions _ := {|
  GetOptX := get_pointer (enum_zero StartApiFailurePolicy_enum) so_StartApiFailurePolicy;
  GetOptXOk := get_pointer_ok so_StartApiFailurePolicy;
  HasX := has_pointer so_StartApiFailurePolicy;
  SetOptX :=
    assigns (fun v o => mkWorkflowStateOptions (SearchAttributesLoadingPolicy o)
    (WaitUntilApiSearchAttributesLoadingPolicy o) (ExecuteApiSearchAttributesLoadingPolicy o)
    (DataObjectsLoadingPolicy o) (StartApiTimeoutSeconds o) (DecideApiTimeoutSeconds o) (StartApiRetryPolicy o)
    (DecideApiRetryPolicy o) (Some v) (so_ExecuteApiFailurePolicy o) (ExecuteApiFailureProceedStateId o)
    (ExecuteApiFailureProceedStateOptions o) (SkipStartApi o) (WaitUntilApiTimeoutSeconds o)
    (ExecuteApiTimeoutSeconds o) (WaitUntilApiRetryPolicy o) (ExecuteApiRetryPolicy o)
    (so_WaitUntilApiFailurePolicy o) (SkipWaitUntil o) (DataAttributesLoadingPolicy o)
    (WaitUntilApiDataAttributesLoadingPolicy o) (ExecuteApiDataAttributesLoadingPolicy o))
|}.
Definition WorkflowStateOptions_ExecuteApiFailurePolicy : optional_methods WorkflowStateOptions _ := {|
  GetOptX := get_pointer (enum_zero ExecuteApiFailurePolicy_enum) so_ExecuteApiFailurePolicy;
  GetOptXOk := get_pointer_ok so_ExecuteApiFailurePolicy;
  HasX := has_pointer so_ExecuteApiFailurePolicy;
  SetOptX :=
    assigns (fun v o => mkWorkflowStateOptions (SearchAttributesLoadingPolicy o)
    (WaitUntilApiSearchAttributesLoadingPolicy o) (ExecuteApiSearchAttributesLoadingPolicy o)
    (DataObjectsLoadingPolicy o) (StartApiTimeoutSeconds o) (DecideApiTimeoutSeconds o) (StartApiRetryPolicy o)
    (DecideApiRetryPolicy o) (so_StartApiFailurePolicy o) (Some v) (ExecuteApiFailureProceedStateId o)
    (ExecuteApiFailureProceedStateOptions o) (SkipStartApi o) (WaitUntilApiTimeoutSeconds o)
    (ExecuteApiTimeoutSeconds o) (WaitUntilApiRetryPolicy o) (ExecuteApiRetryPolicy o)
    (so_WaitUntilApiFailurePolicy o) (SkipWaitUntil o) (DataAttributesLoadingPolicy o)
    (WaitUntilApiDataAttributesLoadingPolicy o) (ExecuteApiDataAttributesLoadingPolicy o))
|}.
Definition WorkflowStateOptions_ExecuteApiFailureProceedStateId : optional_methods WorkflowStateOptions _ := {|
  GetOptX := get_pointer EmptyString ExecuteApiFailureProceedStateId;
  GetOptXOk := get_pointer_ok ExecuteApiFailureProceedStateId;
  HasX := has_pointer ExecuteApiFailureProceedStateId;
  SetOptX :=
    assigns (fun v o => mkWorkflowStateOptions (SearchAttributesLoadingPolicy o)
    (WaitUntilApiSearchAttributesLoadingPolicy o) (ExecuteApiSearchAttributesLoadingPolicy o)
    (DataObjectsLoadingPolicy o) (StartApiTimeoutSeconds o) (DecideApiTimeoutSeconds o) (StartApiRetryPolicy o)
    (DecideApiRetryPolicy o) (so_StartApiFailurePolicy o) (so_ExecuteApiFailurePolicy o) (Some v)
    (ExecuteApiFailureProceedStateOptions o) (SkipStartApi o) (WaitUntilApiTimeoutSeconds o)
    (ExecuteApiTimeoutSeconds o) (WaitUntilApiRetryPolicy o) (ExecuteApiRetryPolicy o)
    (so_WaitUntilApiFailurePolicy o) (SkipWaitUntil o) (DataAttributesLoadingPolicy o)
    (WaitUntilApiDataAttributesLoadingPolicy o) (ExecuteApiDataAttributesLoadingPolicy o))
|}.
Definition WorkflowStateOptions_ExecuteApiFailureProceedStateOptions : optional_methods WorkflowStateOptions _ := {|
  GetOptX := get_pointer (zero WorkflowStateOptions_codec) ExecuteApiFailureProceedStateOptions;
  GetOptXOk := get_pointer_ok ExecuteApiFailureProceedStateOptions;
  HasX := has_pointer ExecuteApiFailureProceedStateOptions;
  SetOptX :=
    assigns (fun v o => mkWorkflowStateOptions (SearchAttributesLoadingPolicy o)
    (WaitUntilApiSearchAttributesLoadingPolicy o) (ExecuteApiSearchAttributesLoadingPolicy o)
    (DataObjectsLoadingPolicy o) (StartApiTimeoutSeconds o) (DecideApiTimeoutSeconds o) (StartApiRetryPolicy o)
    (DecideApiRetryPolicy o) (so_StartApiFailurePolicy o) (so_ExecuteApiFailurePolicy o)
    (ExecuteApiFailureProceedStateId o) (Some v) (SkipStartApi o) (WaitUntilApiTimeoutSeconds o)
    (ExecuteApiTimeoutSeconds o) (WaitUntilApiRetryPolicy o) (ExecuteApiRetryPolicy o)
    (so_WaitUntilApiFailurePolicy o) (SkipWaitUntil o) (DataAttributesLoadingPolicy o)
    (WaitUntilApiDataAttributesLoadingPolicy o) (ExecuteApiDataAttributesLoadingPolicy o))
|}.
Definition WorkflowStateOptions_SkipStartApi : optional_methods WorkflowStateOptions _ := {|
  GetOptX := get_pointer false SkipStartApi;
  GetOptXOk := get_pointer_ok SkipStartApi;
  HasX := has_pointer SkipStartApi;
  SetOptX :=
    assigns (fun v o => mkWorkflowStateOptions (SearchAttributesLoadingPolicy o)
    (WaitUntilApiSearchAttributesLoadingPolicy o) (ExecuteApiSearchAttributesLoadingPolicy o)
    (DataObjectsLoadingPolicy o) (StartApiTimeoutSeconds o) (DecideApiTimeoutSeconds o) (StartApiRetryPolicy o)
    (DecideApiRetryPolicy o) (so_StartApiFailurePolicy o) (so_ExecuteApiFailurePolicy o)
    (ExecuteApiFailureProceedStateId o) (ExecuteApiFailureProceedStateOptions o) (Some v)
    (WaitUntilApiTimeoutSeconds o) (ExecuteApiTimeoutSeconds o) (WaitUntilApiRetryPolicy o)
    (ExecuteApiRetryPolicy o) (so_WaitUntilApiFailurePolicy o) (SkipWaitUntil o) (DataAttributesLoadingPolicy
    o) (WaitUntilApiDataAttributesLoadingPolicy o) (ExecuteApiDataAttributesLoadingPolicy o))
|}.
Definition WorkflowStateOptions_WaitUntilApiTimeoutSeconds : optional_methods WorkflowStateOptions _ := {|
  GetOptX := get_pointer 0%Z WaitUntilApiTimeoutSeconds;
  GetOptXOk := get_pointer_ok WaitUntilApiTimeoutSeconds;
  HasX := has_pointer WaitUntilApiTimeoutSeconds;
  SetOptX :=
    assigns (fun v o => mkWorkflowStateOptions (SearchAttributesLoadingPolicy o)
    (WaitUntilApiSearchAttributesLoadingPolicy o) (ExecuteApiSearchAttributesLoadingPolicy o)
    (DataObjectsLoadingPolicy o) (StartApiTimeoutSeconds o) (DecideApiTimeoutSeconds o) (StartApiRetryPolicy o)
    (DecideApiRetryPolicy o) (so_StartApiFailurePolicy o) (so_ExecuteApiFailurePolicy o)
    (ExecuteApiFailureProceedStateId o) (ExecuteApiFailureProceedStateOptions o) (SkipStartApi o) (Some v)
    (ExecuteApiTimeoutSeconds o) (WaitUntilApiRetryPolicy o) (ExecuteApiRetryPolicy o)
    (so_WaitUntilApiFailurePolicy o) (SkipWaitUntil o) (DataAttributesLoadingPolicy o)
    (WaitUntilApiDataAttributesLoadingPolicy o) (ExecuteApiDataAttributesLoadingPolicy o))
|}.
Definition WorkflowStateOptions_ExecuteApiTimeoutSeconds : optional_methods WorkflowStateOptions _ := {|
  GetOptX := get_pointer 0%Z ExecuteApiTimeoutSeconds;
  GetOptXOk := get_pointer_ok ExecuteApiTimeoutSeconds;
  HasX := has_pointer ExecuteApiTimeoutSeconds;
  SetOptX :=
    assigns (fun v o => mkWorkflowStateOptions (SearchAttributesLoadingPolicy o)
    (WaitUntilApiSearchAttributesLoadingPolicy o) (ExecuteApiSearchAttributesLoadingPolicy o)
    (DataObjectsLoadingPolicy o) (StartApiTimeoutSeconds o) (DecideApiTimeoutSeconds o) (StartApiRetryPolicy o)
    (DecideApiRetryPolicy o) (so_StartApiFailurePolicy o) (so_ExecuteApiFailurePolicy o)
    (ExecuteApiFailureProceedStateId o) (ExecuteApiFailureProceedStateOptions o) (SkipStartApi o)
    (WaitUntilApiTimeoutSeconds o) (Some v) (WaitUntilApiRetryPolicy o) (ExecuteApiRetryPolicy o)
    (so_WaitUntilApiFailurePolicy o) (SkipWaitUntil o) (DataAttributesLoadingPolicy o)
    (WaitUntilApiDataAttributesLoadingPolicy o) (ExecuteApiDataAttributesLoadingPolicy o))
|}.
Definition WorkflowStateOptions_WaitUntilApiRetryPolicy : optional_methods WorkflowStateOptions _ := {|
  GetOptX := get_pointer (zero RetryPolicy_codec) WaitUntilApiRetryPolicy;
  GetOptXOk := get_pointer_ok WaitUntilApiRetryPolicy;
  HasX := has_pointer WaitUntilApiRetryPolicy;
  SetOptX :=
    assigns (fun v o => mkWorkflowStateOptions (SearchAttributesLoadingPolicy o)
    (WaitUntilApiSearchAttributesLoadingPolicy o) (ExecuteApiSearchAttributesLoadingPolicy o)
    (DataObjectsLoadingPolicy o) (StartApiTimeoutSeconds o) (DecideApiTimeoutSeconds o) (StartApiRetryPolicy o)
    (DecideApiRetryPolicy o) (so_StartApiFailurePolicy o) (so_ExecuteApiFailurePolicy o)
    (ExecuteApiFailureProceedStateId o) (ExecuteApiFailureProceedStateOptions o) (SkipStartApi o)
    (WaitUntilApiTimeoutSeconds o) (ExecuteApiTimeoutSeconds o) (Some v) (ExecuteApiRetryPolicy o)
    (so_WaitUntilApiFailurePolicy o) (SkipWaitUntil o) (DataAttributesLoadingPolicy o)
    (WaitUntilApiDataAttributesLoadingPolicy o) (ExecuteApiDataAttributesLoadingPolicy o))
|}.
Definition WorkflowStateOptions_ExecuteApiRetryPolicy : optional_methods WorkflowStateOptions _ := {|
  GetOptX := get_pointer (zero RetryPolicy_codec) ExecuteApiRetryPolicy;
  GetOptXOk := get_pointer_ok ExecuteApiRetryPolicy;
  HasX := has_pointer ExecuteApiRetryPolicy;
  SetOptX :=
    assigns (fun v o => mkWorkflowStateOptions (SearchAttributesLoadingPolicy o)
    (WaitUntilApiSearchAttributesLoadingPolicy o) (ExecuteApiSearchAttributesLoadingPolicy o)
    (DataObjectsLoadingPolicy o) (StartApiTimeoutSeconds o) (DecideApiTimeoutSeconds o) (StartApiRetryPolicy o)
    (DecideApiRetryPolicy o) (so_StartApiFailurePolicy o) (so_ExecuteApiFailurePolicy o)
    (ExecuteApiFailureProceedStateId o) (ExecuteApiFailureProceedStateOptions o) (SkipStartApi o)
    (WaitUntilApiTimeoutSeconds o) (ExecuteApiTimeoutSeconds o) (WaitUntilApiRetryPolicy o) (Some v)
    (so_WaitUntilApiFailurePolicy o) (SkipWaitUntil o) (DataAttributesLoadingPolicy o)
    (WaitUntilApiDataAttributesLoadingPolicy o) (ExecuteApiDataAttributesLoadingPolicy o))
|}.
Definition WorkflowStateOptions_WaitUntilApiFailurePolicy : optional_methods WorkflowStateOptions _ := {|
  GetOptX := get_pointer (enum_zero WaitUntilApiFailurePolicy_enum) so_WaitUntilApiFailurePolicy;
  GetOptXOk := get_pointer_ok so_WaitUntilApiFailurePolicy;
  HasX := has_pointer so_WaitUntilApiFailurePolicy;
  SetOptX :=
    assigns (fun v o => mkWorkflowStateOptions (SearchAttributesLoadingPolicy o)
    (WaitUntilApiSearchAttributesLoadingPolicy o) (ExecuteApiSearchAttributesLoadingPolicy o)
    (DataObjectsLoadingPolicy o) (StartApiTimeoutSeconds o) (DecideApiTimeoutSeconds o) (StartApiRetryPolicy o)
    (DecideApiRetryPolicy o) (so_StartApiFailurePolicy o) (so_ExecuteApiFailurePolicy o)
    (ExecuteApiFailureProceedStateId o) (ExecuteApiFailureProceedStateOptions o) (SkipStartApi o)
    (WaitUntilApiTimeoutSeconds o) (ExecuteApiTimeoutSeconds o) (WaitUntilApiRetryPolicy o)
    (ExecuteApiRetryPolicy o) (Some v) (SkipWaitUntil o) (DataAttributesLoadingPolicy o)
    (WaitUntilApiDataAttributesLoadingPolicy o) (ExecuteApiDataAttributesLoadingPolicy o))
|}.
Definition WorkflowStateOptions_SkipWaitUntil : optional_methods WorkflowStateOptions _ := {|
  GetOptX := get_pointer false SkipWaitUntil;
  GetOptXOk := get_pointer_ok SkipWaitUntil;
  HasX := has_pointer SkipWaitUntil;
  SetOptX :=
    assigns (fun v o => mkWorkflowStateOptions (SearchAttributesLoadingPolicy o)
    (WaitUntilApiSearchAttributesLoadingPolicy o) (ExecuteApiSearchAttributesLoadingPolicy o)
    (DataObjectsLoadingPolicy o) (StartApiTimeoutSeconds o) (DecideApiTimeoutSeconds o) (StartApiRetryPolicy o)
    (DecideApiRetryPolicy o) (so_StartApiFailurePolicy o) (so_ExecuteApiFailurePolicy o)
    (ExecuteApiFailureProceedStateId o) (ExecuteApiFailureProceedStateOptions o) (SkipStartApi o)
    (WaitUntilApiTimeoutSeconds o) (ExecuteApiTimeoutSeconds o) (WaitUntilApiRetryPolicy o)
    (ExecuteApiRetryPolicy o) (so_WaitUntilApiFailurePolicy o) (Some v) (DataAttributesLoadingPolicy o)
    (WaitUntilApiDataAttributesLoadingPolicy o) (ExecuteApiDataAttributesLoadingPolicy o))
|}.
Definition WorkflowStateOptions_DataAttributesLoadingPolicy : optional_methods WorkflowStateOptions _ := {|
  GetOptX := get_pointer (zero PersistenceLoadingPolicy_codec) DataAttributesLoadingPolicy;
  GetOptXOk := get_pointer_ok DataAttributesLoadingPolicy;
  HasX := has_pointer DataAttributesLoadingPolicy;
  SetOptX :=
    assigns (fun v o => mkWorkflowStateOptions (SearchAttributesLoadingPolicy o)
    (WaitUntilApiSearchAttributesLoadingPolicy o) (ExecuteApiSearchAttributesLoadingPolicy o)
    (DataObjectsLoadingPolicy o) (StartApiTimeoutSeconds o) (DecideApiTimeoutSeconds o) (StartApiRetryPolicy o)
    (DecideApiRetryPolicy o) (so_StartApiFailurePolicy o) (so_ExecuteApiFailurePolicy o)
    (ExecuteApiFailureProceedStateId o) (ExecuteApiFailureProceedStateOptions o) (SkipStartApi o)
    (WaitUntilApiTimeoutSeconds o) (ExecuteApiTimeoutSeconds o) (WaitUntilApiRetryPolicy o)
    (ExecuteApiRetryPolicy o) (so_WaitUntilApiFailurePolicy o) (SkipWaitUntil o) (Some v)
    (WaitUntilApiDataAttributesLoadingPolicy o) (ExecuteApiDataAttributesLoadingPolicy o))
|}.
Definition WorkflowStateOptions_WaitUntilApiDataAttributesLoadingPolicy : optional_methods WorkflowStateOptions
  _ := {|
  GetOptX := get_pointer (zero PersistenceLoadingPolicy_codec) WaitUntilApiDataAttributesLoadingPolicy;
  GetOptXOk := get_pointer_ok WaitUntilApiDataAttributesLoadingPolicy;
  HasX := has_pointer WaitUntilApiDataAttributesLoadingPolicy;
  SetOptX :=
    assigns (fun v o => mkWorkflowStateOptions (SearchAttributesLoadingPolicy o)
    (WaitUntilApiSearchAttributesLoadingPolicy o) (ExecuteApiSearchAttributesLoadingPolicy o)
    (DataObjectsLoadingPolicy o) (StartApiTimeoutSeconds o) (DecideApiTimeoutSeconds o) (StartApiRetryPolicy o)
    (DecideApiRetryPolicy o) (so_StartApiFailurePolicy o) (so_ExecuteApiFailurePolicy o)
    (ExecuteApiFailureProceedStateId o) (ExecuteApiFailureProceedStateOptions o) (SkipStartApi o)
    (WaitUntilApiTimeoutSeconds o) (ExecuteApiTimeoutSeconds o) (WaitUntilApiRetryPolicy o)
    (ExecuteApiRetryPolicy o) (so_WaitUntilApiFailurePolicy o) (SkipWaitUntil o) (DataAttributesLoadingPolicy
    o) (Some v) (ExecuteApiDataAttributesLoadingPolicy o))
|}.
Definition WorkflowStateOptions_ExecuteApiDataAttributesLoadingPolicy : optional_methods WorkflowStateOptions _ := {|
  GetOptX := get_pointer (zero PersistenceLoadingPolicy_codec) ExecuteApiDataAttributesLoadingPolicy;
  GetOptXOk := get_pointer_ok ExecuteApiDataAttributesLoadingPolicy;
  HasX := has_pointer ExecuteApiDataAttributesLoadingPolicy;
  SetOptX :=
    assigns (fun v o => mkWorkflowStateOptions (SearchAttributesLoadingPolicy o)
    (WaitUntilApiSearchAttributesLoadingPolicy o) (ExecuteApiSearchAttributesLoadingPolicy o)
    (DataObjectsLoadingPolicy o) (StartApiTimeoutSeconds o) (DecideApiTimeoutSeconds o) (StartApiRetryPolicy o)
    (DecideApiRetryPolicy o) (so_StartApiFailurePolicy o) (so_ExecuteApiFailurePolicy o)
    (ExecuteApiFailureProceedStateId o) (ExecuteApiFailureProceedStateOptions o) (SkipStartApi o)
    (WaitUntilApiTimeoutSeconds o) (ExecuteApiTimeoutSeconds o) (WaitUntilApiRetryPolicy o)
    (ExecuteApiRetryPolicy o) (so_WaitUntilApiFailurePolicy o) (SkipWaitUntil o) (DataAttributesLoadingPolicy
    o) (WaitUntilApiDataAttributesLoadingPolicy o) (Some v))
|}.
Definition WorkflowStateOptions_members : list (any_methods WorkflowStateOptions) :=
  [Optional (zero PersistenceLoadingPolicy_codec) WorkflowStateOptions_SearchAttributesLoadingPolicy;
    Optional (zero PersistenceLoadingPolicy_codec)
    WorkflowStateOptions_WaitUntilApiSearchAttributesLoadingPolicy;
    Optional (zero PersistenceLoadingPolicy_codec)
    WorkflowStateOptions_ExecuteApiSearchAttributesLoadingPolicy;
    Optional (zero PersistenceLoadingPolicy_codec) WorkflowStateOptions_DataObjectsLoadingPolicy;
    Optional 0%Z WorkflowStateOptions_StartApiTimeoutSeconds; Optional 0%Z
    WorkflowStateOptions_DecideApiTimeoutSeconds; Optional (zero RetryPolicy_codec)
    WorkflowStateOptions_StartApiRetryPolicy; Optional (zero RetryPolicy_codec)
    WorkflowStateOptions_DecideApiRetryPolicy; Optional (enum_zero StartApiFailurePolicy_enum)
    WorkflowStateOptions_StartApiFailurePolicy; Optional (enum_zero ExecuteApiFailurePolicy_enum)
    WorkflowStateOptions_ExecuteApiFailurePolicy; Optional EmptyString
    WorkflowStateOptions_ExecuteApiFailureProceedStateId; Optional (zero WorkflowStateOptions_codec)
    WorkflowStateOptions_ExecuteApiFailureProceedStateOptions;
    Optional false WorkflowStateOptions_SkipStartApi; Optional 0%Z
    WorkflowStateOptions_WaitUntilApiTimeoutSeconds; Optional 0%Z
    WorkflowStateOptions_ExecuteApiTimeoutSeconds; Optional (zero RetryPolicy_codec)
    WorkflowStateOptions_WaitUntilApiRetryPolicy; Optional (zero RetryPolicy_codec)
    WorkflowStateOptions_ExecuteApiRetryPolicy; Optional (enum_zero WaitUntilApiFailurePolicy_enum)
    WorkflowStateOptions_WaitUntilApiFailurePolicy; Optional false WorkflowStateOptions_SkipWaitUntil;
    Optional (zero PersistenceLoadingPolicy_codec) WorkflowStateOptions_DataAttributesLoadingPolicy;
    Optional (zero PersistenceLoadingPolicy_codec)
    WorkflowStateOptions_WaitUntilApiDataAttributesLoadingPolicy;
    Optional (zero PersistenceLoadingPolicy_codec) WorkflowStateOptions_ExecuteApiDataAttributesLoadingPolicy].
Definition NewWorkflowStateOptions : WorkflowStateOptions :=
  mkWorkflowStateOptions None None None None None None None None None None None None None None None None None
    None None None None None.
Definition NewWorkflowStateOptionsWithDefaults : WorkflowStateOptions :=
  mkWorkflowStateOptions None None None None None None None None None None None None None None None None None
    None None None None None.
Definition NullableWorkflowStateOptions : nullable_methods WorkflowStateOptions :=
  nullable WorkflowStateOptions_codec.
Lemma WorkflowStateOptions_struct_lawful : lawful_struct no_rest WorkflowStateOptions_members.
Proof. lawful_struct. Qed.

(** ** IwfEvent (model_iwf_event.go)

    The model of an event has the error itself instead of its type and details, so the
    methods of that field are not here. *)

Definition IwfEvent_EventType : required_methods IwfEvent _ := {|
  GetX := get_field (enum_zero EventType_enum) ev_EventType;
  GetXOk := get_field_ok ev_EventType;
  SetX :=
    assigns (fun v o => mkIwfEvent v (ev_RpcName o) (ev_WorkflowType o) (ev_WorkflowId o) (ev_WorkflowRunId o)
    (ev_StateId o) (ev_StateExecutionId o) (StartTimestampInMs o) (EndTimestampInMs o) (ev_SearchAttributes o)
    (ev_Error o))
|}.
Definition IwfEvent_WorkflowType : required_methods IwfEvent _ := {|
  GetX := get_field EmptyString ev_WorkflowType;
  GetXOk := get_field_ok ev_WorkflowType;
  SetX :=
    assigns (fun v o => mkIwfEvent (ev_EventType o) (ev_RpcName o) v (ev_WorkflowId o) (ev_WorkflowRunId o)
    (ev_StateId o) (ev_StateExecutionId o) (StartTimestampInMs o) (EndTimestampInMs o) (ev_SearchAttributes o)
    (ev_Error o))
|}.
Definition IwfEvent_WorkflowId : required_methods IwfEvent _ := {|
  GetX := get_field EmptyString ev_WorkflowId;
  GetXOk := get_field_ok ev_WorkflowId;
  SetX :=
    assigns (fun v o => mkIwfEvent (ev_EventType o) (ev_RpcName o) (ev_WorkflowType o) v (ev_WorkflowRunId o)
    (ev_StateId o) (ev_StateExecutionId o) (StartTimestampInMs o) (EndTimestampInMs o) (ev_SearchAttributes o)
    (ev_Error o))
|}.
Definition IwfEvent_WorkflowRunId : required_methods IwfEvent _ := {|
  GetX := get_field EmptyString ev_WorkflowRunId;
  GetXOk := get_field_ok ev_WorkflowRunId;
  SetX :=
    assigns (fun v o => mkIwfEvent (ev_EventType o) (ev_RpcName o) (ev_WorkflowType o) (ev_WorkflowId o) v
    (ev_StateId o) (ev_StateExecutionId o) (StartTimestampInMs o) (EndTimestampInMs o) (ev_SearchAttributes o)
    (ev_Error o))
|}.
Definition IwfEvent_StateId : optional_methods IwfEvent _ := {|
  GetOptX := get_pointer EmptyString ev_StateId;
  GetOptXOk := get_pointer_ok ev_StateId;
  HasX := has_pointer ev_StateId;
  SetOptX :=
    assigns (fun v o => mkIwfEvent (ev_EventType o) (ev_RpcName o) (ev_WorkflowType o) (ev_WorkflowId o)
    (ev_WorkflowRunId o) (Some v) (ev_StateExecutionId o) (StartTimestampInMs o) (EndTimestampInMs o)
    (ev_SearchAttributes o) (ev_Error o))
|}.
Definition IwfEvent_StateExecutionId : optional_methods IwfEvent _ := {|
  GetOptX := get_pointer EmptyString ev_StateExecutionId;
  GetOptXOk := get_pointer_ok ev_StateExecutionId;
  HasX := has_pointer ev_StateExecutionId;
  SetOptX :=
    assigns (fun v o => mkIwfEvent (ev_EventType o) (ev_RpcName o) (ev_WorkflowType o) (ev_WorkflowId o)
    (ev_WorkflowRunId o) (ev_StateId o) (Some v) (StartTimestampInMs o) (EndTimestampInMs o)
    (ev_SearchAttributes o) (ev_Error o))
|}.
Definition IwfEvent_RpcName : optional_methods IwfEvent _ := {|
  GetOptX := get_pointer EmptyString ev_RpcName;
  GetOptXOk := get_pointer_ok ev_RpcName;
  HasX := has_pointer ev_RpcName;
  SetOptX :=
    assigns (fun v o => mkIwfEvent (ev_EventType o) (Some v) (ev_WorkflowType o) (ev_WorkflowId o)
    (ev_WorkflowRunId o) (ev_StateId o) (ev_StateExecutionId o) (StartTimestampInMs o) (EndTimestampInMs o)
    (ev_SearchAttributes o) (ev_Error o))
|}.
Definition IwfEvent_StartTimestampInMs : optional_methods IwfEvent _ := {|
  GetOptX := get_pointer 0%Z StartTimestampInMs;
  GetOptXOk := get_pointer_ok StartTimestampInMs;
  HasX := has_pointer StartTimestampInMs;
  SetOptX :=
    assigns (fun v o => mkIwfEvent (ev_EventType o) (ev_RpcName o) (ev_WorkflowType o) (ev_WorkflowId o)
    (ev_WorkflowRunId o) (ev_StateId o) (ev_StateExecutionId o) (Some v) (EndTimestampInMs o)
    (ev_SearchAttributes o) (ev_Error o))
|}.
Definition IwfEvent_EndTimestampInMs : optional_methods IwfEvent _ := {|
  GetOptX := get_pointer 0%Z EndTimestampInMs;
  GetOptXOk := get_pointer_ok EndTimestampInMs;
  HasX := has_pointer EndTimestampInMs;
  SetOptX :=
    assigns (fun v o => mkIwfEvent (ev_EventType o) (ev_RpcName o) (ev_WorkflowType o) (ev_WorkflowId o)
    (ev_WorkflowRunId o) (ev_StateId o) (ev_StateExecutionId o) (StartTimestampInMs o) (Some v)
    (ev_SearchAttributes o) (ev_Error o))
|}.
Definition IwfEvent_SearchAttributes : collection_methods IwfEvent _ := {|
  GetAllX := get_field [] ev_SearchAttributes;
  GetAllXOk := get_all_ok [] ev_SearchAttributes;
  HasAnyX := has_any [] ev_SearchAttributes;
  SetAllX :=
    assigns (fun v o => mkIwfEvent (ev_EventType o) (ev_RpcName o) (ev_WorkflowType o) (ev_WorkflowId o)
    (ev_WorkflowRunId o) (ev_StateId o) (ev_StateExecutionId o) (StartTimestampInMs o) (EndTimestampInMs o) v
    (ev_Error o))
|}.
Definition IwfEvent_members : list (any_methods IwfEvent) :=
  [Required (enum_zero EventType_enum) IwfEvent_EventType; Required EmptyString IwfEvent_WorkflowType;
    Required EmptyString IwfEvent_WorkflowId; Required EmptyString IwfEvent_WorkflowRunId;
    Optional EmptyString IwfEvent_StateId; Optional EmptyString IwfEvent_StateExecutionId;
    Optional EmptyString IwfEvent_RpcName; Optional 0%Z IwfEvent_StartTimestampInMs;
    Optional 0%Z IwfEvent_EndTimestampInMs; Collection [] IwfEvent_SearchAttributes].
Definition same_error (s s' : IwfEvent) : Prop := ev_Error s = ev_Error s'.
Definition NewIwfEventWithDefaults : IwfEvent :=
  mkIwfEvent (enum_zero EventType_enum) None EmptyString EmptyString EmptyString None None None None [] None.
Definition NewIwfEvent (eventType : EventType) (workflowType workflowId workflowRunId : string) : IwfEvent :=
  mkIwfEvent eventType None workflowType workflowId workflowRunId None None None None [] None.
Lemma IwfEvent_struct_lawful : lawful_struct same_error IwfEvent_members.
Proof. lawful_struct. Qed.

(** The getters that the service's files use (Idl.v) are these. *)
Lemma used_getters (s : StateMovement) (kv : KeyValue) (sa : SearchAttribute) (p : PersistenceLoadingPolicy) :
  GetStateOptions s = GetOptX StateMovement_StateOptions (Some s) /\
  kv_GetKey kv = GetOptX KeyValue_Key (Some kv) /\
  kv_GetValue kv = GetOptX KeyValue_Value (Some kv) /\
  sa_GetKey sa = GetOptX SearchAttribute_Key (Some sa) /\
  sa_GetValueType sa = GetOptX SearchAttribute_ValueType (Some sa) /\
  GetStringValue sa = GetOptX SearchAttribute_StringValue (Some sa) /\
  GetIntegerValue sa = GetOptX SearchAttribute_IntegerValue (Some sa) /\
  GetBoolValue sa = GetOptX SearchAttribute_BoolValue (Some sa) /\
  GetDoubleValue sa = GetOptX SearchAttribute_DoubleValue (Some sa) /\
  GetPersistenceLoadingType p = GetOptX PersistenceLoadingPolicy_PersistenceLoadingType (Some p).
Proof. repeat split; unfold default; cbn; by case_match. Qed.

End model.

#[export] Hint Resolve EncodedObject_struct_lawful KeyValue_struct_lawful SearchAttribute_struct_lawful
  SearchAttributeKeyAndType_struct_lawful PersistenceLoadingPolicy_struct_lawful RetryPolicy_struct_lawful
  IwfEventError_struct_lawful StateMovement_struct_lawful WorkflowConditionalClose_struct_lawful
  StateDecision_struct_lawful StateCompletionOutput_struct_lawful InterStateChannelPublishing_struct_lawful
  ChannelInfo_struct_lawful TimerCommand_struct_lawful SignalCommand_struct_lawful
  InterStateChannelCommand_struct_lawful CommandCombination_struct_lawful CommandRequest_struct_lawful
  TimerResult_struct_lawful SignalResult_struct_lawful InterStateChannelResult_struct_lawful
  CommandResults_struct_lawful Context_struct_lawful WorkflowStateStartRequest_struct_lawful
  WorkflowStateStartResponse_struct_lawful WorkflowStateDecideRequest_struct_lawful
  WorkflowStateDecideResponse_struct_lawful WorkflowRpcRequest_struct_lawful WorkflowRpcResponse_struct_lawful
  WorkflowWorkerRpcRequest_struct_lawful WorkflowWorkerRpcResponse_struct_lawful
  WorkflowDumpRequest_struct_lawful WorkflowDumpResponse_struct_lawful WorkflowConfig_struct_lawful
  ErrorResponse_struct_lawful WorkflowStateOptions_struct_lawful IwfEvent_struct_lawful : structs.
