(* ===== verification/ApiModel.v ===== *)
(** * The methods of the data model: the requests and responses of the API

    The methods that gen/iwfidl generates (Model.v) of the types of ApiIdl.v, and what
    holds of the methods of all types. *)

From S2P Require Export IdlModel ApiJson.

Section model.
Context `{FloatText}.

(** ** WorkflowStatus (model_workflow_status.go) *)

Definition WorkflowStatus_methods : enum_methods WorkflowStatus := enum_type "WorkflowStatus" WorkflowStatus_enum.
Definition NullableWorkflowStatus : nullable_methods WorkflowStatus := nullable (enum_codec WorkflowStatus_enum).

(** ** WorkflowStopType (model_workflow_stop_type.go) *)

Definition WorkflowStopType_methods : enum_methods WorkflowStopType :=
  enum_type "WorkflowStopType" WorkflowStopType_enum.
Definition NullableWorkflowStopType : nullable_methods WorkflowStopType :=
  nullable (enum_codec WorkflowStopType_enum).

(** ** WorkflowResetType (model_workflow_reset_type.go) *)

Definition WorkflowResetType_methods : enum_methods WorkflowResetType :=
  enum_type "WorkflowResetType" WorkflowResetType_enum.
Definition NullableWorkflowResetType : nullable_methods WorkflowResetType :=
  nullable (enum_codec WorkflowResetType_enum).

(** ** WorkerErrorResponse (model_worker_error_response.go) *)

Definition WorkerErrorResponse_Detail : optional_methods WorkerErrorResponse _ := {|
  GetOptX := get_pointer EmptyString we_Detail;
  GetOptXOk := get_pointer_ok we_Detail;
  HasX := has_pointer we_Detail;
  SetOptX := assigns (fun v o => mkWorkerErrorResponse (Some v) (we_ErrorType o))
|}.
Definition WorkerErrorResponse_ErrorType : optional_methods WorkerErrorResponse _ := {|
  GetOptX := get_pointer EmptyString we_ErrorType;
  GetOptXOk := get_pointer_ok we_ErrorType;
  HasX := has_pointer we_ErrorType;
  SetOptX := assigns (fun v o => mkWorkerErrorResponse (we_Detail o) (Some v))
|}.
Definition WorkerErrorResponse_members : list (any_methods WorkerErrorResponse) :=
  [Optional EmptyString WorkerErrorResponse_Detail; Optional EmptyString WorkerErrorResponse_ErrorType].
Definition NewWorkerErrorResponse : WorkerErrorResponse :=
  mkWorkerErrorResponse None None.
Definition NewWorkerErrorResponseWithDefaults : WorkerErrorResponse :=
  mkWorkerErrorResponse None None.
Definition NullableWorkerErrorResponse : nullable_methods WorkerErrorResponse := nullable WorkerErrorResponse_codec.
Lemma WorkerErrorResponse_struct_lawful : lawful_struct no_rest WorkerErrorResponse_members.
Proof. lawful_struct. Qed.

(** ** WorkflowRetryPolicy (model_workflow_retry_policy.go) *)

Definition WorkflowRetryPolicy_InitialIntervalSeconds : optional_methods WorkflowRetryPolicy _ := {|
  GetOptX := get_pointer 0%Z wrp_InitialIntervalSeconds;
  GetOptXOk := get_pointer_ok wrp_InitialIntervalSeconds;
  HasX := has_pointer wrp_InitialIntervalSeconds;
  SetOptX :=
    assigns (fun v o => mkWorkflowRetryPolicy (Some v) (wrp_BackoffCoefficient o) (wrp_MaximumIntervalSeconds
    o) (wrp_MaximumAttempts o))
|}.
Definition WorkflowRetryPolicy_BackoffCoefficient : optional_methods WorkflowRetryPolicy _ := {|
  GetOptX := get_pointer 0%Q wrp_BackoffCoefficient;
  GetOptXOk := get_pointer_ok wrp_BackoffCoefficient;
  HasX := has_pointer wrp_BackoffCoefficient;
  SetOptX :=
    assigns (fun v o => mkWorkflowRetryPolicy (wrp_InitialIntervalSeconds o) (Some v)
    (wrp_MaximumIntervalSeconds o) (wrp_MaximumAttempts o))
|}.
Definition WorkflowRetryPolicy_MaximumIntervalSeconds : optional_methods WorkflowRetryPolicy _ := {|
  GetOptX := get_pointer 0%Z wrp_MaximumIntervalSeconds;
  GetOptXOk := get_pointer_ok wrp_MaximumIntervalSeconds;
  HasX := has_pointer wrp_MaximumIntervalSeconds;
  SetOptX :=
    assigns (fun v o => mkWorkflowRetryPolicy (wrp_InitialIntervalSeconds o) (wrp_BackoffCoefficient o) (Some
    v) (wrp_MaximumAttempts o))
|}.
Definition WorkflowRetryPolicy_MaximumAttempts : optional_methods WorkflowRetryPolicy _ := {|
  GetOptX := get_pointer 0%Z wrp_MaximumAttempts;
  GetOptXOk := get_pointer_ok wrp_MaximumAttempts;
  HasX := has_pointer wrp_MaximumAttempts;
  SetOptX :=
    assigns (fun v o => mkWorkflowRetryPolicy (wrp_InitialIntervalSeconds o) (wrp_BackoffCoefficient o)
    (wrp_MaximumIntervalSeconds o) (Some v))
|}.
Definition WorkflowRetryPolicy_members : list (any_methods WorkflowRetryPolicy) :=
  [Optional 0%Z WorkflowRetryPolicy_InitialIntervalSeconds; Optional 0%Q
    WorkflowRetryPolicy_BackoffCoefficient; Optional 0%Z WorkflowRetryPolicy_MaximumIntervalSeconds;
    Optional 0%Z WorkflowRetryPolicy_MaximumAttempts].
Definition NewWorkflowRetryPolicy : WorkflowRetryPolicy :=
  mkWorkflowRetryPolicy None None None None.
Definition NewWorkflowRetryPolicyWithDefaults : WorkflowRetryPolicy :=
  mkWorkflowRetryPolicy None None None None.
Definition NullableWorkflowRetryPolicy : nullable_methods WorkflowRetryPolicy := nullable WorkflowRetryPolicy_codec.
Lemma WorkflowRetryPolicy_struct_lawful : lawful_struct no_rest WorkflowRetryPolicy_members.
Proof. lawful_struct. Qed.

(** ** WorkflowAlreadyStartedOptions (model_workflow_already_started_options.go) *)

Definition WorkflowAlreadyStartedOptions_IgnoreAlreadyStartedError : required_methods
  WorkflowAlreadyStartedOptions _ := {|
  GetX := get_field false IgnoreAlreadyStartedError;
  GetXOk := get_field_ok IgnoreAlreadyStartedError;
  SetX := assigns (fun v o => mkWorkflowAlreadyStartedOptions v (RequestId o))
|}.
Definition WorkflowAlreadyStartedOptions_RequestId : optional_methods WorkflowAlreadyStartedOptions _ := {|
  GetOptX := get_pointer EmptyString RequestId;
  GetOptXOk := get_pointer_ok RequestId;
  HasX := has_pointer RequestId;
  SetOptX := assigns (fun v o => mkWorkflowAlreadyStartedOptions (IgnoreAlreadyStartedError o) (Some v))
|}.
Definition WorkflowAlreadyStartedOptions_members : list (any_methods WorkflowAlreadyStartedOptions) :=
  [Required false WorkflowAlreadyStartedOptions_IgnoreAlreadyStartedError;
    Optional EmptyString WorkflowAlreadyStartedOptions_RequestId].
Definition NewWorkflowAlreadyStartedOptions (ignoreAlreadyStartedError_ : bool) : WorkflowAlreadyStartedOptions :=
  mkWorkflowAlreadyStartedOptions ignoreAlreadyStartedError_ None.
Definition NewWorkflowAlreadyStartedOptionsWithDefaults : WorkflowAlreadyStartedOptions :=
  mkWorkflowAlreadyStartedOptions false None.
Definition NullableWorkflowAlreadyStartedOptions : nullable_methods WorkflowAlreadyStartedOptions :=
  nullable WorkflowAlreadyStartedOptions_codec.
Lemma WorkflowAlreadyStartedOptions_struct_lawful : lawful_struct no_rest WorkflowAlreadyStartedOptions_members.
Proof. lawful_struct. Qed.

(** ** WorkflowStartOptions (model_workflow_start_options.go) *)

Definition WorkflowStartOptions_WorkflowIDReusePolicy : optional_methods WorkflowStartOptions _ := {|
  GetOptX := get_pointer (enum_zero WorkflowIDReusePolicy_enum) so_WorkflowIDReusePolicy;
  GetOptXOk := get_pointer_ok so_WorkflowIDReusePolicy;
  HasX := has_pointer so_WorkflowIDReusePolicy;
  SetOptX :=
    assigns (fun v o => mkWorkflowStartOptions (Some v) (so_CronSchedule o) (WorkflowStartDelaySeconds o)
    (so_RetryPolicy o) (so_SearchAttributes o) (so_DataAttributes o) (WorkflowConfigOverride o)
    (so_IdReusePolicy o) (so_UseMemoForDataAttributes o) (so_WorkflowAlreadyStartedOptions o))
|}.
Definition WorkflowStartOptions_CronSchedule : optional_methods WorkflowStartOptions _ := {|
  GetOptX := get_pointer EmptyString so_CronSchedule;
  GetOptXOk := get_pointer_ok so_CronSchedule;
  HasX := has_pointer so_CronSchedule;
  SetOptX :=
    assigns (fun v o => mkWorkflowStartOptions (so_WorkflowIDReusePolicy o) (Some v) (WorkflowStartDelaySeconds
    o) (so_RetryPolicy o) (so_SearchAttributes o) (so_DataAttributes o) (WorkflowConfigOverride o)
    (so_IdReusePolicy o) (so_UseMemoForDataAttributes o) (so_WorkflowAlreadyStartedOptions o))
|}.
Definition WorkflowStartOptions_WorkflowStartDelaySeconds : optional_methods WorkflowStartOptions _ := {|
  GetOptX := get_pointer 0%Z WorkflowStartDelaySeconds;
  GetOptXOk := get_pointer_ok WorkflowStartDelaySeconds;
  HasX := has_pointer WorkflowStartDelaySeconds;
  SetOptX :=
    assigns (fun v o => mkWorkflowStartOptions (so_WorkflowIDReusePolicy o) (so_CronSchedule o) (Some v)
    (so_RetryPolicy o) (so_SearchAttributes o) (so_DataAttributes o) (WorkflowConfigOverride o)
    (so_IdReusePolicy o) (so_UseMemoForDataAttributes o) (so_WorkflowAlreadyStartedOptions o))
|}.
Definition WorkflowStartOptions_RetryPolicy : optional_methods WorkflowStartOptions _ := {|
  GetOptX := get_pointer (zero WorkflowRetryPolicy_codec) so_RetryPolicy;
  GetOptXOk := get_pointer_ok so_RetryPolicy;
  HasX := has_pointer so_RetryPolicy;
  SetOptX :=
    assigns (fun v o => mkWorkflowStartOptions (so_WorkflowIDReusePolicy o) (so_CronSchedule o)
    (WorkflowStartDelaySeconds o) (Some v) (so_SearchAttributes o) (so_DataAttributes o)
    (WorkflowConfigOverride o) (so_IdReusePolicy o) (so_UseMemoForDataAttributes o)
    (so_WorkflowAlreadyStartedOptions o))
|}.
Definition WorkflowStartOptions_SearchAttributes : collection_methods WorkflowStartOptions _ := {|
  GetAllX := get_field [] so_SearchAttributes;
  GetAllXOk := get_all_ok [] so_SearchAttributes;
  HasAnyX := has_any [] so_SearchAttributes;
  SetAllX :=
    assigns (fun v o => mkWorkflowStartOptions (so_WorkflowIDReusePolicy o) (so_CronSchedule o)
    (WorkflowStartDelaySeconds o) (so_RetryPolicy o) v (so_DataAttributes o) (WorkflowConfigOverride o)
    (so_IdReusePolicy o) (so_UseMemoForDataAttributes o) (so_WorkflowAlreadyStartedOptions o))
|}.
Definition WorkflowStartOptions_DataAttributes : collection_methods WorkflowStartOptions _ := {|
  GetAllX := get_field [] so_DataAttributes;
  GetAllXOk := get_all_ok [] so_DataAttributes;
  HasAnyX := has_any [] so_DataAttributes;
  SetAllX :=
    assigns (fun v o => mkWorkflowStartOptions (so_WorkflowIDReusePolicy o) (so_CronSchedule o)
    (WorkflowStartDelaySeconds o) (so_RetryPolicy o) (so_SearchAttributes o) v (WorkflowConfigOverride o)
    (so_IdReusePolicy o) (so_UseMemoForDataAttributes o) (so_WorkflowAlreadyStartedOptions o))
|}.
Definition WorkflowStartOptions_WorkflowConfigOverride : optional_methods WorkflowStartOptions _ := {|
  GetOptX := get_pointer (zero WorkflowConfig_codec) WorkflowConfigOverride;
  GetOptXOk := get_pointer_ok WorkflowConfigOverride;
  HasX := has_pointer WorkflowConfigOverride;
  SetOptX :=
    assigns (fun v o => mkWorkflowStartOptions (so_WorkflowIDReusePolicy o) (so_CronSchedule o)
    (WorkflowStartDelaySeconds o) (so_RetryPolicy o) (so_SearchAttributes o) (so_DataAttributes o) (Some v)
    (so_IdReusePolicy o) (so_UseMemoForDataAttributes o) (so_WorkflowAlreadyStartedOptions o))
|}.
Definition WorkflowStartOptions_IdReusePolicy : optional_methods WorkflowStartOptions _ := {|
  GetOptX := get_pointer (enum_zero IDReusePolicy_enum) so_IdReusePolicy;
  GetOptXOk := get_pointer_ok so_IdReusePolicy;
  HasX := has_pointer so_IdReusePolicy;
  SetOptX :=
    assigns (fun v o => mkWorkflowStartOptions (so_WorkflowIDReusePolicy o) (so_CronSchedule o)
    (WorkflowStartDelaySeconds o) (so_RetryPolicy o) (so_SearchAttributes o) (so_DataAttributes o)
    (WorkflowConfigOverride o) (Some v) (so_UseMemoForDataAttributes o) (so_WorkflowAlreadyStartedOptions o))
|}.
Definition WorkflowStartOptions_UseMemoForDataAttributes : optional_methods WorkflowStartOptions _ := {|
  GetOptX := get_pointer false so_UseMemoForDataAttributes;
  GetOptXOk := get_pointer_ok so_UseMemoForDataAttributes;
  HasX := has_pointer so_UseMemoForDataAttributes;
  SetOptX :=
    assigns (fun v o => mkWorkflowStartOptions (so_WorkflowIDReusePolicy o) (so_CronSchedule o)
    (WorkflowStartDelaySeconds o) (so_RetryPolicy o) (so_SearchAttributes o) (so_DataAttributes o)
    (WorkflowConfigOverride o) (so_IdReusePolicy o) (Some v) (so_WorkflowAlreadyStartedOptions o))
|}.
Definition WorkflowStartOptions_WorkflowAlreadyStartedOptions : optional_methods WorkflowStartOptions _ := {|
  GetOptX := get_pointer (zero WorkflowAlreadyStartedOptions_codec) so_WorkflowAlreadyStartedOptions;
  GetOptXOk := get_pointer_ok so_WorkflowAlreadyStartedOptions;
  HasX := has_pointer so_WorkflowAlreadyStartedOptions;
  SetOptX :=
    assigns (fun v o => mkWorkflowStartOptions (so_WorkflowIDReusePolicy o) (so_CronSchedule o)
    (WorkflowStartDelaySeconds o) (so_RetryPolicy o) (so_SearchAttributes o) (so_DataAttributes o)
    (WorkflowConfigOverride o) (so_IdReusePolicy o) (so_UseMemoForDataAttributes o) (Some v))
|}.
Definition WorkflowStartOptions_members : list (any_methods WorkflowStartOptions) :=
  [Optional (enum_zero WorkflowIDReusePolicy_enum) WorkflowStartOptions_WorkflowIDReusePolicy;
    Optional EmptyString WorkflowStartOptions_CronSchedule; Optional 0%Z
    WorkflowStartOptions_WorkflowStartDelaySeconds; Optional (zero WorkflowRetryPolicy_codec)
    WorkflowStartOptions_RetryPolicy; Collection [] WorkflowStartOptions_SearchAttributes;
    Collection [] WorkflowStartOptions_DataAttributes; Optional (zero WorkflowConfig_codec)
    WorkflowStartOptions_WorkflowConfigOverride; Optional (enum_zero IDReusePolicy_enum)
    WorkflowStartOptions_IdReusePolicy; Optional false WorkflowStartOptions_UseMemoForDataAttributes;
    Optional (zero WorkflowAlreadyStartedOptions_codec) WorkflowStartOptions_WorkflowAlreadyStartedOptions].
Definition NewWorkflowStartOptions : WorkflowStartOptions :=
  mkWorkflowStartOptions None None None None [] [] None None None None.
Definition NewWorkflowStartOptionsWithDefaults : WorkflowStartOptions :=
  mkWorkflowStartOptions None None None None [] [] None None None None.
Definition NullableWorkflowStartOptions : nullable_methods WorkflowStartOptions :=
  nullable WorkflowStartOptions_codec.
Lemma WorkflowStartOptions_struct_lawful : lawful_struct no_rest WorkflowStartOptions_members.
Proof. lawful_struct. Qed.

(** ** WorkflowStartRequest (model_workflow_start_request.go) *)

Definition WorkflowStartRequest_WorkflowId : required_methods WorkflowStartRequest _ := {|
  GetX := get_field EmptyString sr_WorkflowId;
  GetXOk := get_field_ok sr_WorkflowId;
  SetX :=
    assigns (fun v o => mkWorkflowStartRequest v (sr_IwfWorkflowType o) (WorkflowTimeoutSeconds o)
    (sr_IwfWorkerUrl o) (sr_StartStateId o) (sr_WaitForCompletionStateIds o)
    (sr_WaitForCompletionStateExecutionIds o) (sr_StateInput o) (sr_StateOptions o) (sr_WorkflowStartOptions o))
|}.
Definition WorkflowStartRequest_IwfWorkflowType : required_methods WorkflowStartRequest _ := {|
  GetX := get_field EmptyString sr_IwfWorkflowType;
  GetXOk := get_field_ok sr_IwfWorkflowType;
  SetX :=
    assigns (fun v o => mkWorkflowStartRequest (sr_WorkflowId o) v (WorkflowTimeoutSeconds o) (sr_IwfWorkerUrl
    o) (sr_StartStateId o) (sr_WaitForCompletionStateIds o) (sr_WaitForCompletionStateExecutionIds o)
    (sr_StateInput o) (sr_StateOptions o) (sr_WorkflowStartOptions o))
|}.
Definition WorkflowStartRequest_WorkflowTimeoutSeconds : required_methods WorkflowStartRequest _ := {|
  GetX := get_field 0%Z WorkflowTimeoutSeconds;
  GetXOk := get_field_ok WorkflowTimeoutSeconds;
  SetX :=
    assigns (fun v o => mkWorkflowStartRequest (sr_WorkflowId o) (sr_IwfWorkflowType o) v (sr_IwfWorkerUrl o)
    (sr_StartStateId o) (sr_WaitForCompletionStateIds o) (sr_WaitForCompletionStateExecutionIds o)
    (sr_StateInput o) (sr_StateOptions o) (sr_WorkflowStartOptions o))
|}.
Definition WorkflowStartRequest_IwfWorkerUrl : required_methods WorkflowStartRequest _ := {|
  GetX := get_field EmptyString sr_IwfWorkerUrl;
  GetXOk := get_field_ok sr_IwfWorkerUrl;
  SetX :=
    assigns (fun v o => mkWorkflowStartRequest (sr_WorkflowId o) (sr_IwfWorkflowType o) (WorkflowTimeoutSeconds
    o) v (sr_StartStateId o) (sr_WaitForCompletionStateIds o) (sr_WaitForCompletionStateExecutionIds o)
    (sr_StateInput o) (sr_StateOptions o) (sr_WorkflowStartOptions o))
|}.
Definition WorkflowStartRequest_StartStateId : optional_methods WorkflowStartRequest _ := {|
  GetOptX := get_pointer EmptyString sr_StartStateId;
  GetOptXOk := get_pointer_ok sr_StartStateId;
  HasX := has_pointer sr_StartStateId;
  SetOptX :=
    assigns (fun v o => mkWorkflowStartRequest (sr_WorkflowId o) (sr_IwfWorkflowType o) (WorkflowTimeoutSeconds
    o) (sr_IwfWorkerUrl o) (Some v) (sr_WaitForCompletionStateIds o) (sr_WaitForCompletionStateExecutionIds o)
    (sr_StateInput o) (sr_StateOptions o) (sr_WorkflowStartOptions o))
|}.
Definition WorkflowStartRequest_WaitForCompletionStateIds : collection_methods WorkflowStartRequest _ := {|
  GetAllX := get_field [] sr_WaitForCompletionStateIds;
  GetAllXOk := get_all_ok [] sr_WaitForCompletionStateIds;
  HasAnyX := has_any [] sr_WaitForCompletionStateIds;
  SetAllX :=
    assigns (fun v o => mkWorkflowStartRequest (sr_WorkflowId o) (sr_IwfWorkflowType o) (WorkflowTimeoutSeconds
    o) (sr_IwfWorkerUrl o) (sr_StartStateId o) v (sr_WaitForCompletionStateExecutionIds o) (sr_StateInput o)
    (sr_StateOptions o) (sr_WorkflowStartOptions o))
|}.
Definition WorkflowStartRequest_WaitForCompletionStateExecutionIds : collection_methods WorkflowStartRequest _ := {|
  GetAllX := get_field [] sr_WaitForCompletionStateExecutionIds;
  GetAllXOk := get_all_ok [] sr_WaitForCompletionStateExecutionIds;
  HasAnyX := has_any [] sr_WaitForCompletionStateExecutionIds;
  SetAllX :=
    assigns (fun v o => mkWorkflowStartRequest (sr_WorkflowId o) (sr_IwfWorkflowType o) (WorkflowTimeoutSeconds
    o) (sr_IwfWorkerUrl o) (sr_StartStateId o) (sr_WaitForCompletionStateIds o) v (sr_StateInput o)
    (sr_StateOptions o) (sr_WorkflowStartOptions o))
|}.
Definition WorkflowStartRequest_StateInput : optional_methods WorkflowStartRequest _ := {|
  GetOptX := get_pointer (zero EncodedObject_codec) sr_StateInput;
  GetOptXOk := get_pointer_ok sr_StateInput;
  HasX := has_pointer sr_StateInput;
  SetOptX :=
    assigns (fun v o => mkWorkflowStartRequest (sr_WorkflowId o) (sr_IwfWorkflowType o) (WorkflowTimeoutSeconds
    o) (sr_IwfWorkerUrl o) (sr_StartStateId o) (sr_WaitForCompletionStateIds o)
    (sr_WaitForCompletionStateExecutionIds o) (Some v) (sr_StateOptions o) (sr_WorkflowStartOptions o))
|}.
Definition WorkflowStartRequest_StateOptions : optional_methods WorkflowStartRequest _ := {|
  GetOptX := get_pointer (zero WorkflowStateOptions_codec) sr_StateOptions;
  GetOptXOk := get_pointer_ok sr_StateOptions;
  HasX := has_pointer sr_StateOptions;
  SetOptX :=
    assigns (fun v o => mkWorkflowStartRequest (sr_WorkflowId o) (sr_IwfWorkflowType o) (WorkflowTimeoutSeconds
    o) (sr_IwfWorkerUrl o) (sr_StartStateId o) (sr_WaitForCompletionStateIds o)
    (sr_WaitForCompletionStateExecutionIds o) (sr_StateInput o) (Some v) (sr_WorkflowStartOptions o))
|}.
Definition WorkflowStartRequest_WorkflowStartOptions : optional_methods WorkflowStartRequest _ := {|
  GetOptX := get_pointer (zero WorkflowStartOptions_codec) sr_WorkflowStartOptions;
  GetOptXOk := get_pointer_ok sr_WorkflowStartOptions;
  HasX := has_pointer sr_WorkflowStartOptions;
  SetOptX :=
    assigns (fun v o => mkWorkflowStartRequest (sr_WorkflowId o) (sr_IwfWorkflowType o) (WorkflowTimeoutSeconds
    o) (sr_IwfWorkerUrl o) (sr_StartStateId o) (sr_WaitForCompletionStateIds o)
    (sr_WaitForCompletionStateExecutionIds o) (sr_StateInput o) (sr_StateOptions o) (Some v))
|}.
Definition WorkflowStartRequest_members : list (any_methods WorkflowStartRequest) :=
  [Required EmptyString WorkflowStartRequest_WorkflowId; Required EmptyString
    WorkflowStartRequest_IwfWorkflowType; Required 0%Z WorkflowStartRequest_WorkflowTimeoutSeconds;
    Required EmptyString WorkflowStartRequest_IwfWorkerUrl; Optional EmptyString
    WorkflowStartRequest_StartStateId; Collection [] WorkflowStartRequest_WaitForCompletionStateIds;
    Collection [] WorkflowStartRequest_WaitForCompletionStateExecutionIds;
    Optional (zero EncodedObject_codec) WorkflowStartRequest_StateInput;
    Optional (zero WorkflowStateOptions_codec) WorkflowStartRequest_StateOptions;
    Optional (zero WorkflowStartOptions_codec) WorkflowStartRequest_WorkflowStartOptions].
Definition NewWorkflowStartRequest (workflowId_ : string) (iwfWorkflowType_ : string) (workflowTimeoutSeconds_
  : Z) (iwfWorkerUrl_ : string) : WorkflowStartRequest :=
  mkWorkflowStartRequest workflowId_ iwfWorkflowType_ workflowTimeoutSeconds_ iwfWorkerUrl_ None [] [] None None None.
Definition NewWorkflowStartRequestWithDefaults : WorkflowStartRequest :=
  mkWorkflowStartRequest EmptyString EmptyString 0%Z EmptyString None [] [] None None None.
Definition NullableWorkflowStartRequest : nullable_methods WorkflowStartRequest :=
  nullable WorkflowStartRequest_codec.
Lemma WorkflowStartRequest_struct_lawful : lawful_struct no_rest WorkflowStartRequest_members.
Proof. lawful_struct. Qed.

(** ** WorkflowStartResponse (model_workflow_start_response.go) *)

Definition WorkflowStartResponse_WorkflowRunId : optional_methods WorkflowStartResponse _ := {|
  GetOptX := get_pointer EmptyString sresp_WorkflowRunId;
  GetOptXOk := get_pointer_ok sresp_WorkflowRunId;
  HasX := has_pointer sresp_WorkflowRunId;
  SetOptX := assigns (fun v o => mkWorkflowStartResponse (Some v))
|}.
Definition WorkflowStartResponse_members : list (any_methods WorkflowStartResponse) :=
  [Optional EmptyString WorkflowStartResponse_WorkflowRunId].
Definition NewWorkflowStartResponse : WorkflowStartResponse :=
  mkWorkflowStartResponse None.
Definition NewWorkflowStartResponseWithDefaults : WorkflowStartResponse :=
  mkWorkflowStartResponse None.
Definition NullableWorkflowStartResponse : nullable_methods WorkflowStartResponse :=
  nullable WorkflowStartResponse_codec.
Lemma WorkflowStartResponse_struct_lawful : lawful_struct no_rest WorkflowStartResponse_members.
Proof. lawful_struct. Qed.

(** ** WorkflowWaitForStateCompletionRequest (model_workflow_wait_for_state_completion_request.go) *)

Definition WorkflowWaitForStateCompletionRequest_WorkflowId : required_methods
  WorkflowWaitForStateCompletionRequest _ := {|
  GetX := get_field EmptyString wc_WorkflowId;
  GetXOk := get_field_ok wc_WorkflowId;
  SetX :=
    assigns (fun v o => mkWorkflowWaitForStateCompletionRequest v (wc_StateExecutionId o) (wc_StateId o)
    (wc_WaitForKey o) (wc_WaitTimeSeconds o))
|}.
Definition WorkflowWaitForStateCompletionRequest_StateExecutionId : optional_methods
  WorkflowWaitForStateCompletionRequest _ := {|
  GetOptX := get_pointer EmptyString wc_StateExecutionId;
  GetOptXOk := get_pointer_ok wc_StateExecutionId;
  HasX := has_pointer wc_StateExecutionId;
  SetOptX :=
    assigns (fun v o => mkWorkflowWaitForStateCompletionRequest (wc_WorkflowId o) (Some v) (wc_StateId o)
    (wc_WaitForKey o) (wc_WaitTimeSeconds o))
|}.
Definition WorkflowWaitForStateCompletionRequest_StateId : optional_methods
  WorkflowWaitForStateCompletionRequest _ := {|
  GetOptX := get_pointer EmptyString wc_StateId;
  GetOptXOk := get_pointer_ok wc_StateId;
  HasX := has_pointer wc_StateId;
  SetOptX :=
    assigns (fun v o => mkWorkflowWaitForStateCompletionRequest (wc_WorkflowId o) (wc_StateExecutionId o) (Some
    v) (wc_WaitForKey o) (wc_WaitTimeSeconds o))
|}.
Definition WorkflowWaitForStateCompletionRequest_WaitForKey : optional_methods
  WorkflowWaitForStateCompletionRequest _ := {|
  GetOptX := get_pointer EmptyString wc_WaitForKey;
  GetOptXOk := get_pointer_ok wc_WaitForKey;
  HasX := has_pointer wc_WaitForKey;
  SetOptX :=
    assigns (fun v o => mkWorkflowWaitForStateCompletionRequest (wc_WorkflowId o) (wc_StateExecutionId o)
    (wc_StateId o) (Some v) (wc_WaitTimeSeconds o))
|}.
Definition WorkflowWaitForStateCompletionRequest_WaitTimeSeconds : optional_methods
  WorkflowWaitForStateCompletionRequest _ := {|
  GetOptX := get_pointer 0%Z wc_WaitTimeSeconds;
  GetOptXOk := get_pointer_ok wc_WaitTimeSeconds;
  HasX := has_pointer wc_WaitTimeSeconds;
  SetOptX :=
    assigns (fun v o => mkWorkflowWaitForStateCompletionRequest (wc_WorkflowId o) (wc_StateExecutionId o)
    (wc_StateId o) (wc_WaitForKey o) (Some v))
|}.
Definition WorkflowWaitForStateCompletionRequest_members : list (any_methods WorkflowWaitForStateCompletionRequest) :=
  [Required EmptyString WorkflowWaitForStateCompletionRequest_WorkflowId;
    Optional EmptyString WorkflowWaitForStateCompletionRequest_StateExecutionId;
    Optional EmptyString WorkflowWaitForStateCompletionRequest_StateId;
    Optional EmptyString WorkflowWaitForStateCompletionRequest_WaitForKey;
    Optional 0%Z WorkflowWaitForStateCompletionRequest_WaitTimeSeconds].
Definition NewWorkflowWaitForStateCompletionRequest (workflowId_ : string) : WorkflowWaitForStateCompletionRequest :=
  mkWorkflowWaitForStateCompletionRequest workflowId_ None None None None.
Definition NewWorkflowWaitForStateCompletionRequestWithDefaults : WorkflowWaitForStateCompletionRequest :=
  mkWorkflowWaitForStateCompletionRequest EmptyString None None None None.
Definition NullableWorkflowWaitForStateCompletionRequest : nullable_methods
  WorkflowWaitForStateCompletionRequest := nullable WorkflowWaitForStateCompletionRequest_codec.
Lemma WorkflowWaitForStateCompletionRequest_struct_lawful : lawful_struct no_rest
  WorkflowWaitForStateCompletionRequest_members.
Proof. lawful_struct. Qed.

(** ** WorkflowWaitForStateCompletionResponse (model_workflow_wait_for_state_completion_response.go) *)

Definition WorkflowWaitForStateCompletionResponse_StateCompletionOutput : optional_methods
  WorkflowWaitForStateCompletionResponse _ := {|
  GetOptX := get_pointer (zero StateCompletionOutput_codec) wcr_StateCompletionOutput;
  GetOptXOk := get_pointer_ok wcr_StateCompletionOutput;
  HasX := has_pointer wcr_StateCompletionOutput;
  SetOptX := assigns (fun v o => mkWorkflowWaitForStateCompletionResponse (Some v))
|}.
Definition WorkflowWaitForStateCompletionResponse_members : list (any_methods
  WorkflowWaitForStateCompletionResponse) :=
  [Optional (zero StateCompletionOutput_codec) WorkflowWaitForStateCompletionResponse_StateCompletionOutput].
Definition NewWorkflowWaitForStateCompletionResponse : WorkflowWaitForStateCompletionResponse :=
  mkWorkflowWaitForStateCompletionResponse None.
Definition NewWorkflowWaitForStateCompletionResponseWithDefaults : WorkflowWaitForStateCompletionResponse :=
  mkWorkflowWaitForStateCompletionResponse None.
Definition NullableWorkflowWaitForStateCompletionResponse : nullable_methods
  WorkflowWaitForStateCompletionResponse := nullable WorkflowWaitForStateCompletionResponse_codec.
Lemma WorkflowWaitForStateCompletionResponse_struct_lawful : lawful_struct no_rest
  WorkflowWaitForStateCompletionResponse_members.
Proof. lawful_struct. Qed.

(** ** WorkflowSignalRequest (model_workflow_signal_request.go) *)

Definition WorkflowSignalRequest_WorkflowId : required_methods WorkflowSignalRequest _ := {|
  GetX := get_field EmptyString sg_WorkflowId;
  GetXOk := get_field_ok sg_WorkflowId;
  SetX :=
    assigns (fun v o => mkWorkflowSignalRequest v (sg_WorkflowRunId o) (sg_SignalChannelName o) (sg_SignalValue o))
|}.
Definition WorkflowSignalRequest_WorkflowRunId : optional_methods WorkflowSignalRequest _ := {|
  GetOptX := get_pointer EmptyString sg_WorkflowRunId;
  GetOptXOk := get_pointer_ok sg_WorkflowRunId;
  HasX := has_pointer sg_WorkflowRunId;
  SetOptX :=
    assigns (fun v o => mkWorkflowSignalRequest (sg_WorkflowId o) (Some v) (sg_SignalChannelName o)
    (sg_SignalValue o))
|}.
Definition WorkflowSignalRequest_SignalChannelName : required_methods WorkflowSignalRequest _ := {|
  GetX := get_field EmptyString sg_SignalChannelName;
  GetXOk := get_field_ok sg_SignalChannelName;
  SetX := assigns (fun v o => mkWorkflowSignalRequest (sg_WorkflowId o) (sg_WorkflowRunId o) v (sg_SignalValue o))
|}.
Definition WorkflowSignalRequest_SignalValue : optional_methods WorkflowSignalRequest _ := {|
  GetOptX := get_pointer (zero EncodedObject_codec) sg_SignalValue;
  GetOptXOk := get_pointer_ok sg_SignalValue;
  HasX := has_pointer sg_SignalValue;
  SetOptX :=
    assigns (fun v o => mkWorkflowSignalRequest (sg_WorkflowId o) (sg_WorkflowRunId o) (sg_SignalChannelName o)
    (Some v))
|}.
Definition WorkflowSignalRequest_members : list (any_methods WorkflowSignalRequest) :=
  [Required EmptyString WorkflowSignalRequest_WorkflowId; Optional EmptyString
    WorkflowSignalRequest_WorkflowRunId; Required EmptyString WorkflowSignalRequest_SignalChannelName;
    Optional (zero EncodedObject_codec) WorkflowSignalRequest_SignalValue].
Definition NewWorkflowSignalRequest (workflowId_ : string) (signalChannelName_ : string) : WorkflowSignalRequest :=
  mkWorkflowSignalRequest workflowId_ None signalChannelName_ None.
Definition NewWorkflowSignalRequestWithDefaults : WorkflowSignalRequest :=
  mkWorkflowSignalRequest EmptyString None EmptyString None.
Definition NullableWorkflowSignalRequest : nullable_methods WorkflowSignalRequest :=
  nullable WorkflowSignalRequest_codec.
Lemma WorkflowSignalRequest_struct_lawful : lawful_struct no_rest WorkflowSignalRequest_members.
Proof. lawful_struct. Qed.

(** ** PublishToInternalChannelRequest (model_publish_to_internal_channel_request.go) *)

Definition PublishToInternalChannelRequest_WorkflowId : required_methods PublishToInternalChannelRequest _ := {|
  GetX := get_field EmptyString pub_WorkflowId;
  GetXOk := get_field_ok pub_WorkflowId;
  SetX := assigns (fun v o => mkPublishToInternalChannelRequest v (pub_WorkflowRunId o) (Messages o))
|}.
Definition PublishToInternalChannelRequest_WorkflowRunId : optional_methods PublishToInternalChannelRequest _ := {|
  GetOptX := get_pointer EmptyString pub_WorkflowRunId;
  GetOptXOk := get_pointer_ok pub_WorkflowRunId;
  HasX := has_pointer pub_WorkflowRunId;
  SetOptX := assigns (fun v o => mkPublishToInternalChannelRequest (pub_WorkflowId o) (Some v) (Messages o))
|}.
Definition PublishToInternalChannelRequest_Messages : collection_methods PublishToInternalChannelRequest _ := {|
  GetAllX := get_field [] Messages;
  GetAllXOk := get_all_ok [] Messages;
  HasAnyX := has_any [] Messages;
  SetAllX := assigns (fun v o => mkPublishToInternalChannelRequest (pub_WorkflowId o) (pub_WorkflowRunId o) v)
|}.
Definition PublishToInternalChannelRequest_members : list (any_methods PublishToInternalChannelRequest) :=
  [Required EmptyString PublishToInternalChannelRequest_WorkflowId;
    Optional EmptyString PublishToInternalChannelRequest_WorkflowRunId;
    Collection [] PublishToInternalChannelRequest_Messages].
Definition NewPublishToInternalChannelRequest (workflowId_ : string) : PublishToInternalChannelRequest :=
  mkPublishToInternalChannelRequest workflowId_ None [].
Definition NewPublishToInternalChannelRequestWithDefaults : PublishToInternalChannelRequest :=
  mkPublishToInternalChannelRequest EmptyString None [].
Definition NullablePublishToInternalChannelRequest : nullable_methods PublishToInternalChannelRequest :=
  nullable PublishToInternalChannelRequest_codec.
Lemma PublishToInternalChannelRequest_struct_lawful : lawful_struct no_rest PublishToInternalChannelRequest_members.
Proof. lawful_struct. Qed.

(** ** WorkflowConfigUpdateRequest (model_workflow_config_update_request.go) *)

Definition WorkflowConfigUpdateRequest_WorkflowId : required_methods WorkflowConfigUpdateRequest _ := {|
  GetX := get_field EmptyString cu_WorkflowId;
  GetXOk := get_field_ok cu_WorkflowId;
  SetX := assigns (fun v o => mkWorkflowConfigUpdateRequest v (cu_WorkflowRunId o) (cu_WorkflowConfig o))
|}.
Definition WorkflowConfigUpdateRequest_WorkflowRunId : optional_methods WorkflowConfigUpdateRequest _ := {|
  GetOptX := get_pointer EmptyString cu_WorkflowRunId;
  GetOptXOk := get_pointer_ok cu_WorkflowRunId;
  HasX := has_pointer cu_WorkflowRunId;
  SetOptX := assigns (fun v o => mkWorkflowConfigUpdateRequest (cu_WorkflowId o) (Some v) (cu_WorkflowConfig o))
|}.
Definition WorkflowConfigUpdateRequest_WorkflowConfig : required_methods WorkflowConfigUpdateRequest _ := {|
  GetX := get_field (zero WorkflowConfig_codec) cu_WorkflowConfig;
  GetXOk := get_field_ok cu_WorkflowConfig;
  SetX := assigns (fun v o => mkWorkflowConfigUpdateRequest (cu_WorkflowId o) (cu_WorkflowRunId o) v)
|}.
Definition WorkflowConfigUpdateRequest_members : list (any_methods WorkflowConfigUpdateRequest) :=
  [Required EmptyString WorkflowConfigUpdateRequest_WorkflowId;
    Optional EmptyString WorkflowConfigUpdateRequest_WorkflowRunId;
    Required (zero WorkflowConfig_codec) WorkflowConfigUpdateRequest_WorkflowConfig].
Definition NewWorkflowConfigUpdateRequest (workflowId_ : string) (workflowConfig_ : WorkflowConfig) :
  WorkflowConfigUpdateRequest :=
  mkWorkflowConfigUpdateRequest workflowId_ None workflowConfig_.
Definition NewWorkflowConfigUpdateRequestWithDefaults : WorkflowConfigUpdateRequest :=
  mkWorkflowConfigUpdateRequest EmptyString None (zero WorkflowConfig_codec).
Definition NullableWorkflowConfigUpdateRequest : nullable_methods WorkflowConfigUpdateRequest :=
  nullable WorkflowConfigUpdateRequest_codec.
Lemma WorkflowConfigUpdateRequest_struct_lawful : lawful_struct no_rest WorkflowConfigUpdateRequest_members.
Proof. lawful_struct. Qed.

(** ** TriggerContinueAsNewRequest (model_trigger_continue_as_new_request.go) *)

Definition TriggerContinueAsNewRequest_WorkflowId : required_methods TriggerContinueAsNewRequest _ := {|
  GetX := get_field EmptyString tc_WorkflowId;
  GetXOk := get_field_ok tc_WorkflowId;
  SetX := assigns (fun v o => mkTriggerContinueAsNewRequest v (tc_WorkflowRunId o))
|}.
Definition TriggerContinueAsNewRequest_WorkflowRunId : optional_methods TriggerContinueAsNewRequest _ := {|
  GetOptX := get_pointer EmptyString tc_WorkflowRunId;
  GetOptXOk := get_pointer_ok tc_WorkflowRunId;
  HasX := has_pointer tc_WorkflowRunId;
  SetOptX := assigns (fun v o => mkTriggerContinueAsNewRequest (tc_WorkflowId o) (Some v))
|}.
Definition TriggerContinueAsNewRequest_members : list (any_methods TriggerContinueAsNewRequest) :=
  [Required EmptyString TriggerContinueAsNewRequest_WorkflowId;
    Optional EmptyString TriggerContinueAsNewRequest_WorkflowRunId].
Definition NewTriggerContinueAsNewRequest (workflowId_ : string) : TriggerContinueAsNewRequest :=
  mkTriggerContinueAsNewRequest workflowId_ None.
Definition NewTriggerContinueAsNewRequestWithDefaults : TriggerContinueAsNewRequest :=
  mkTriggerContinueAsNewRequest EmptyString None.
Definition NullableTriggerContinueAsNewRequest : nullable_methods TriggerContinueAsNewRequest :=
  nullable TriggerContinueAsNewRequest_codec.
Lemma TriggerContinueAsNewRequest_struct_lawful : lawful_struct no_rest TriggerContinueAsNewRequest_members.
Proof. lawful_struct. Qed.

(** ** WorkflowStopRequest (model_workflow_stop_request.go) *)

Definition WorkflowStopRequest_WorkflowId : required_methods WorkflowStopRequest _ := {|
  GetX := get_field EmptyString stop_WorkflowId;
  GetXOk := get_field_ok stop_WorkflowId;
  SetX := assigns (fun v o => mkWorkflowStopRequest v (stop_WorkflowRunId o) (stop_Reason o) (StopType o))
|}.
Definition WorkflowStopRequest_WorkflowRunId : optional_methods WorkflowStopRequest _ := {|
  GetOptX := get_pointer EmptyString stop_WorkflowRunId;
  GetOptXOk := get_pointer_ok stop_WorkflowRunId;
  HasX := has_pointer stop_WorkflowRunId;
  SetOptX := assigns (fun v o => mkWorkflowStopRequest (stop_WorkflowId o) (Some v) (stop_Reason o) (StopType o))
|}.
Definition WorkflowStopRequest_Reason : optional_methods WorkflowStopRequest _ := {|
  GetOptX := get_pointer EmptyString stop_Reason;
  GetOptXOk := get_pointer_ok stop_Reason;
  HasX := has_pointer stop_Reason;
  SetOptX :=
    assigns (fun v o => mkWorkflowStopRequest (stop_WorkflowId o) (stop_WorkflowRunId o) (Some v) (StopType o))
|}.
Definition WorkflowStopRequest_StopType : optional_methods WorkflowStopRequest _ := {|
  GetOptX := get_pointer (enum_zero WorkflowStopType_enum) StopType;
  GetOptXOk := get_pointer_ok StopType;
  HasX := has_pointer StopType;
  SetOptX :=
    assigns (fun v o => mkWorkflowStopRequest (stop_WorkflowId o) (stop_WorkflowRunId o) (stop_Reason o) (Some v))
|}.
Definition WorkflowStopRequest_members : list (any_methods WorkflowStopRequest) :=
  [Required EmptyString WorkflowStopRequest_WorkflowId; Optional EmptyString WorkflowStopRequest_WorkflowRunId;
    Optional EmptyString WorkflowStopRequest_Reason; Optional (enum_zero WorkflowStopType_enum)
    WorkflowStopRequest_StopType].
Definition NewWorkflowStopRequest (workflowId_ : string) : WorkflowStopRequest :=
  mkWorkflowStopRequest workflowId_ None None None.
Definition NewWorkflowStopRequestWithDefaults : WorkflowStopRequest :=
  mkWorkflowStopRequest EmptyString None None None.
Definition NullableWorkflowStopRequest : nullable_methods WorkflowStopRequest := nullable WorkflowStopRequest_codec.
Lemma WorkflowStopRequest_struct_lawful : lawful_struct no_rest WorkflowStopRequest_members.
Proof. lawful_struct. Qed.

(** ** WorkflowGetDataObjectsRequest (model_workflow_get_data_objects_request.go) *)

Definition WorkflowGetDataObjectsRequest_WorkflowId : required_methods WorkflowGetDataObjectsRequest _ := {|
  GetX := get_field EmptyString gd_WorkflowId;
  GetXOk := get_field_ok gd_WorkflowId;
  SetX :=
    assigns (fun v o => mkWorkflowGetDataObjectsRequest v (gd_WorkflowRunId o) (gd_Keys o)
    (gd_UseMemoForDataAttributes o))
|}.
Definition WorkflowGetDataObjectsRequest_WorkflowRunId : optional_methods WorkflowGetDataObjectsRequest _ := {|
  GetOptX := get_pointer EmptyString gd_WorkflowRunId;
  GetOptXOk := get_pointer_ok gd_WorkflowRunId;
  HasX := has_pointer gd_WorkflowRunId;
  SetOptX :=
    assigns (fun v o => mkWorkflowGetDataObjectsRequest (gd_WorkflowId o) (Some v) (gd_Keys o)
    (gd_UseMemoForDataAttributes o))
|}.
Definition WorkflowGetDataObjectsRequest_Keys : collection_methods WorkflowGetDataObjectsRequest _ := {|
  GetAllX := get_field [] gd_Keys;
  GetAllXOk := get_all_ok [] gd_Keys;
  HasAnyX := has_any [] gd_Keys;
  SetAllX :=
    assigns (fun v o => mkWorkflowGetDataObjectsRequest (gd_WorkflowId o) (gd_WorkflowRunId o) v
    (gd_UseMemoForDataAttributes o))
|}.
Definition WorkflowGetDataObjectsRequest_UseMemoForDataAttributes : optional_methods
  WorkflowGetDataObjectsRequest _ := {|
  GetOptX := get_pointer false gd_UseMemoForDataAttributes;
  GetOptXOk := get_pointer_ok gd_UseMemoForDataAttributes;
  HasX := has_pointer gd_UseMemoForDataAttributes;
  SetOptX :=
    assigns (fun v o => mkWorkflowGetDataObjectsRequest (gd_WorkflowId o) (gd_WorkflowRunId o) (gd_Keys o) (Some v))
|}.
Definition WorkflowGetDataObjectsRequest_members : list (any_methods WorkflowGetDataObjectsRequest) :=
  [Required EmptyString WorkflowGetDataObjectsRequest_WorkflowId;
    Optional EmptyString WorkflowGetDataObjectsRequest_WorkflowRunId;
    Collection [] WorkflowGetDataObjectsRequest_Keys; Optional false
    WorkflowGetDataObjectsRequest_UseMemoForDataAttributes].
Definition NewWorkflowGetDataObjectsRequest (workflowId_ : string) : WorkflowGetDataObjectsRequest :=
  mkWorkflowGetDataObjectsRequest workflowId_ None [] None.
Definition NewWorkflowGetDataObjectsRequestWithDefaults : WorkflowGetDataObjectsRequest :=
  mkWorkflowGetDataObjectsRequest EmptyString None [] None.
Definition NullableWorkflowGetDataObjectsRequest : nullable_methods WorkflowGetDataObjectsRequest :=
  nullable WorkflowGetDataObjectsRequest_codec.
Lemma WorkflowGetDataObjectsRequest_struct_lawful : lawful_struct no_rest WorkflowGetDataObjectsRequest_members.
Proof. lawful_struct. Qed.

(** ** WorkflowGetDataObjectsResponse (model_workflow_get_data_objects_response.go) *)

Definition WorkflowGetDataObjectsResponse_Objects : collection_methods WorkflowGetDataObjectsResponse _ := {|
  GetAllX := get_field [] Objects;
  GetAllXOk := get_all_ok [] Objects;
  HasAnyX := has_any [] Objects;
  SetAllX := assigns (fun v o => mkWorkflowGetDataObjectsResponse v)
|}.
Definition WorkflowGetDataObjectsResponse_members : list (any_methods WorkflowGetDataObjectsResponse) :=
  [Collection [] WorkflowGetDataObjectsResponse_Objects].
Definition NewWorkflowGetDataObjectsResponse : WorkflowGetDataObjectsResponse :=
  mkWorkflowGetDataObjectsResponse [].
Definition NewWorkflowGetDataObjectsResponseWithDefaults : WorkflowGetDataObjectsResponse :=
  mkWorkflowGetDataObjectsResponse [].
Definition NullableWorkflowGetDataObjectsResponse : nullable_methods WorkflowGetDataObjectsResponse :=
  nullable WorkflowGetDataObjectsResponse_codec.
Lemma WorkflowGetDataObjectsResponse_struct_lawful : lawful_struct no_rest WorkflowGetDataObjectsResponse_members.
Proof. lawful_struct. Qed.

(** ** WorkflowSetDataObjectsRequest (model_workflow_set_data_objects_request.go) *)

Definition WorkflowSetDataObjectsRequest_WorkflowId : required_methods WorkflowSetDataObjectsRequest _ := {|
  GetX := get_field EmptyString sdo_WorkflowId;
  GetXOk := get_field_ok sdo_WorkflowId;
  SetX := assigns (fun v o => mkWorkflowSetDataObjectsRequest v (sdo_WorkflowRunId o) (sdo_Objects o))
|}.
Definition WorkflowSetDataObjectsRequest_WorkflowRunId : optional_methods WorkflowSetDataObjectsRequest _ := {|
  GetOptX := get_pointer EmptyString sdo_WorkflowRunId;
  GetOptXOk := get_pointer_ok sdo_WorkflowRunId;
  HasX := has_pointer sdo_WorkflowRunId;
  SetOptX := assigns (fun v o => mkWorkflowSetDataObjectsRequest (sdo_WorkflowId o) (Some v) (sdo_Objects o))
|}.
Definition WorkflowSetDataObjectsRequest_Objects : collection_methods WorkflowSetDataObjectsRequest _ := {|
  GetAllX := get_field [] sdo_Objects;
  GetAllXOk := get_all_ok [] sdo_Objects;
  HasAnyX := has_any [] sdo_Objects;
  SetAllX := assigns (fun v o => mkWorkflowSetDataObjectsRequest (sdo_WorkflowId o) (sdo_WorkflowRunId o) v)
|}.
Definition WorkflowSetDataObjectsRequest_members : list (any_methods WorkflowSetDataObjectsRequest) :=
  [Required EmptyString WorkflowSetDataObjectsRequest_WorkflowId;
    Optional EmptyString WorkflowSetDataObjectsRequest_WorkflowRunId;
    Collection [] WorkflowSetDataObjectsRequest_Objects].
Definition NewWorkflowSetDataObjectsRequest (workflowId_ : string) : WorkflowSetDataObjectsRequest :=
  mkWorkflowSetDataObjectsRequest workflowId_ None [].
Definition NewWorkflowSetDataObjectsRequestWithDefaults : WorkflowSetDataObjectsRequest :=
  mkWorkflowSetDataObjectsRequest EmptyString None [].
Definition NullableWorkflowSetDataObjectsRequest : nullable_methods WorkflowSetDataObjectsRequest :=
  nullable WorkflowSetDataObjectsRequest_codec.
Lemma WorkflowSetDataObjectsRequest_struct_lawful : lawful_struct no_rest WorkflowSetDataObjectsRequest_members.
Proof. lawful_struct. Qed.

(** ** WorkflowGetSearchAttributesRequest (model_workflow_get_search_attributes_request.go) *)

Definition WorkflowGetSearchAttributesRequest_WorkflowId : required_methods WorkflowGetSearchAttributesRequest _ := {|
  GetX := get_field EmptyString gs_WorkflowId;
  GetXOk := get_field_ok gs_WorkflowId;
  SetX := assigns (fun v o => mkWorkflowGetSearchAttributesRequest v (gs_WorkflowRunId o) (gs_Keys o))
|}.
Definition WorkflowGetSearchAttributesRequest_WorkflowRunId : optional_methods
  WorkflowGetSearchAttributesRequest _ := {|
  GetOptX := get_pointer EmptyString gs_WorkflowRunId;
  GetOptXOk := get_pointer_ok gs_WorkflowRunId;
  HasX := has_pointer gs_WorkflowRunId;
  SetOptX := assigns (fun v o => mkWorkflowGetSearchAttributesRequest (gs_WorkflowId o) (Some v) (gs_Keys o))
|}.
Definition WorkflowGetSearchAttributesRequest_Keys : collection_methods WorkflowGetSearchAttributesRequest _ := {|
  GetAllX := get_field [] gs_Keys;
  GetAllXOk := get_all_ok [] gs_Keys;
  HasAnyX := has_any [] gs_Keys;
  SetAllX := assigns (fun v o => mkWorkflowGetSearchAttributesRequest (gs_WorkflowId o) (gs_WorkflowRunId o) v)
|}.
Definition WorkflowGetSearchAttributesRequest_members : list (any_methods WorkflowGetSearchAttributesRequest) :=
  [Required EmptyString WorkflowGetSearchAttributesRequest_WorkflowId;
    Optional EmptyString WorkflowGetSearchAttributesRequest_WorkflowRunId;
    Collection [] WorkflowGetSearchAttributesRequest_Keys].
Definition NewWorkflowGetSearchAttributesRequest (workflowId_ : string) : WorkflowGetSearchAttributesRequest :=
  mkWorkflowGetSearchAttributesRequest workflowId_ None [].
Definition NewWorkflowGetSearchAttributesRequestWithDefaults : WorkflowGetSearchAttributesRequest :=
  mkWorkflowGetSearchAttributesRequest EmptyString None [].
Definition NullableWorkflowGetSearchAttributesRequest : nullable_methods WorkflowGetSearchAttributesRequest :=
  nullable WorkflowGetSearchAttributesRequest_codec.
Lemma WorkflowGetSearchAttributesRequest_struct_lawful : lawful_struct no_rest
  WorkflowGetSearchAttributesRequest_members.
Proof. lawful_struct. Qed.

(** ** WorkflowGetSearchAttributesResponse (model_workflow_get_search_attributes_response.go) *)

Definition WorkflowGetSearchAttributesResponse_SearchAttributes : collection_methods
  WorkflowGetSearchAttributesResponse _ := {|
  GetAllX := get_field [] gsr_SearchAttributes;
  GetAllXOk := get_all_ok [] gsr_SearchAttributes;
  HasAnyX := has_any [] gsr_SearchAttributes;
  SetAllX := assigns (fun v o => mkWorkflowGetSearchAttributesResponse v)
|}.
Definition WorkflowGetSearchAttributesResponse_members : list (any_methods WorkflowGetSearchAttributesResponse) :=
  [Collection [] WorkflowGetSearchAttributesResponse_SearchAttributes].
Definition NewWorkflowGetSearchAttributesResponse : WorkflowGetSearchAttributesResponse :=
  mkWorkflowGetSearchAttributesResponse [].
Definition NewWorkflowGetSearchAttributesResponseWithDefaults : WorkflowGetSearchAttributesResponse :=
  mkWorkflowGetSearchAttributesResponse [].
Definition NullableWorkflowGetSearchAttributesResponse : nullable_methods WorkflowGetSearchAttributesResponse :=
  nullable WorkflowGetSearchAttributesResponse_codec.
Lemma WorkflowGetSearchAttributesResponse_struct_lawful : lawful_struct no_rest
  WorkflowGetSearchAttributesResponse_members.
Proof. lawful_struct. Qed.

(** ** WorkflowSetSearchAttributesRequest (model_workflow_set_search_attributes_request.go) *)

Definition WorkflowSetSearchAttributesRequest_WorkflowId : required_methods WorkflowSetSearchAttributesRequest _ := {|
  GetX := get_field EmptyString ssa_WorkflowId;
  GetXOk := get_field_ok ssa_WorkflowId;
  SetX := assigns (fun v o => mkWorkflowSetSearchAttributesRequest v (ssa_WorkflowRunId o) (ssa_SearchAttributes o))
|}.
Definition WorkflowSetSearchAttributesRequest_WorkflowRunId : optional_methods
  WorkflowSetSearchAttributesRequest _ := {|
  GetOptX := get_pointer EmptyString ssa_WorkflowRunId;
  GetOptXOk := get_pointer_ok ssa_WorkflowRunId;
  HasX := has_pointer ssa_WorkflowRunId;
  SetOptX :=
    assigns (fun v o => mkWorkflowSetSearchAttributesRequest (ssa_WorkflowId o) (Some v) (ssa_SearchAttributes o))
|}.
Definition WorkflowSetSearchAttributesRequest_SearchAttributes : collection_methods
  WorkflowSetSearchAttributesRequest _ := {|
  GetAllX := get_field [] ssa_SearchAttributes;
  GetAllXOk := get_all_ok [] ssa_SearchAttributes;
  HasAnyX := has_any [] ssa_SearchAttributes;
  SetAllX := assigns (fun v o => mkWorkflowSetSearchAttributesRequest (ssa_WorkflowId o) (ssa_WorkflowRunId o) v)
|}.
Definition WorkflowSetSearchAttributesRequest_members : list (any_methods WorkflowSetSearchAttributesRequest) :=
  [Required EmptyString WorkflowSetSearchAttributesRequest_WorkflowId;
    Optional EmptyString WorkflowSetSearchAttributesRequest_WorkflowRunId;
    Collection [] WorkflowSetSearchAttributesRequest_SearchAttributes].
Definition NewWorkflowSetSearchAttributesRequest (workflowId_ : string) : WorkflowSetSearchAttributesRequest :=
  mkWorkflowSetSearchAttributesRequest workflowId_ None [].
Definition NewWorkflowSetSearchAttributesRequestWithDefaults : WorkflowSetSearchAttributesRequest :=
  mkWorkflowSetSearchAttributesRequest EmptyString None [].
Definition NullableWorkflowSetSearchAttributesRequest : nullable_methods WorkflowSetSearchAttributesRequest :=
  nullable WorkflowSetSearchAttributesRequest_codec.
Lemma WorkflowSetSearchAttributesRequest_struct_lawful : lawful_struct no_rest
  WorkflowSetSearchAttributesRequest_members.
Proof. lawful_struct. Qed.

(** ** WorkflowGetRequest (model_workflow_get_request.go) *)

Definition WorkflowGetRequest_WorkflowId : required_methods WorkflowGetRequest _ := {|
  GetX := get_field EmptyString get_WorkflowId;
  GetXOk := get_field_ok get_WorkflowId;
  SetX := assigns (fun v o => mkWorkflowGetRequest v (get_WorkflowRunId o) (NeedsResults o) (get_WaitTimeSeconds o))
|}.
Definition WorkflowGetRequest_WorkflowRunId : optional_methods WorkflowGetRequest _ := {|
  GetOptX := get_pointer EmptyString get_WorkflowRunId;
  GetOptXOk := get_pointer_ok get_WorkflowRunId;
  HasX := has_pointer get_WorkflowRunId;
  SetOptX :=
    assigns (fun v o => mkWorkflowGetRequest (get_WorkflowId o) (Some v) (NeedsResults o) (get_WaitTimeSeconds o))
|}.
Definition WorkflowGetRequest_NeedsResults : optional_methods WorkflowGetRequest _ := {|
  GetOptX := get_pointer false NeedsResults;
  GetOptXOk := get_pointer_ok NeedsResults;
  HasX := has_pointer NeedsResults;
  SetOptX :=
    assigns (fun v o => mkWorkflowGetRequest (get_WorkflowId o) (get_WorkflowRunId o) (Some v)
    (get_WaitTimeSeconds o))
|}.
Definition WorkflowGetRequest_WaitTimeSeconds : optional_methods WorkflowGetRequest _ := {|
  GetOptX := get_pointer 0%Z get_WaitTimeSeconds;
  GetOptXOk := get_pointer_ok get_WaitTimeSeconds;
  HasX := has_pointer get_WaitTimeSeconds;
  SetOptX :=
    assigns (fun v o => mkWorkflowGetRequest (get_WorkflowId o) (get_WorkflowRunId o) (NeedsResults o) (Some v))
|}.
Definition WorkflowGetRequest_members : list (any_methods WorkflowGetRequest) :=
  [Required EmptyString WorkflowGetRequest_WorkflowId; Optional EmptyString WorkflowGetRequest_WorkflowRunId;
    Optional false WorkflowGetRequest_NeedsResults; Optional 0%Z WorkflowGetRequest_WaitTimeSeconds].
Definition NewWorkflowGetRequest (workflowId_ : string) : WorkflowGetRequest :=
  mkWorkflowGetRequest workflowId_ None None None.
Definition NewWorkflowGetRequestWithDefaults : WorkflowGetRequest :=
  mkWorkflowGetRequest EmptyString None None None.
Definition NullableWorkflowGetRequest : nullable_methods WorkflowGetRequest := nullable WorkflowGetRequest_codec.
Lemma WorkflowGetRequest_struct_lawful : lawful_struct no_rest WorkflowGetRequest_members.
Proof. lawful_struct. Qed.

(** ** WorkflowGetResponse (model_workflow_get_response.go) *)

Definition WorkflowGetResponse_WorkflowRunId : required_methods WorkflowGetResponse _ := {|
  GetX := get_field EmptyString getr_WorkflowRunId;
  GetXOk := get_field_ok getr_WorkflowRunId;
  SetX :=
    assigns (fun v o => mkWorkflowGetResponse v (getr_WorkflowStatus o) (Results o) (ErrorType o) (ErrorMessage o))
|}.
Definition WorkflowGetResponse_WorkflowStatus : required_methods WorkflowGetResponse _ := {|
  GetX := get_field (enum_zero WorkflowStatus_enum) getr_WorkflowStatus;
  GetXOk := get_field_ok getr_WorkflowStatus;
  SetX :=
    assigns (fun v o => mkWorkflowGetResponse (getr_WorkflowRunId o) v (Results o) (ErrorType o) (ErrorMessage o))
|}.
Definition WorkflowGetResponse_Results : collection_methods WorkflowGetResponse _ := {|
  GetAllX := get_field [] Results;
  GetAllXOk := get_all_ok [] Results;
  HasAnyX := has_any [] Results;
  SetAllX :=
    assigns (fun v o => mkWorkflowGetResponse (getr_WorkflowRunId o) (getr_WorkflowStatus o) v (ErrorType o)
    (ErrorMessage o))
|}.
Definition WorkflowGetResponse_ErrorType : optional_methods WorkflowGetResponse _ := {|
  GetOptX := get_pointer (enum_zero WorkflowErrorType_enum) ErrorType;
  GetOptXOk := get_pointer_ok ErrorType;
  HasX := has_pointer ErrorType;
  SetOptX :=
    assigns (fun v o => mkWorkflowGetResponse (getr_WorkflowRunId o) (getr_WorkflowStatus o) (Results o) (Some
    v) (ErrorMessage o))
|}.
Definition WorkflowGetResponse_ErrorMessage : optional_methods WorkflowGetResponse _ := {|
  GetOptX := get_pointer EmptyString ErrorMessage;
  GetOptXOk := get_pointer_ok ErrorMessage;
  HasX := has_pointer ErrorMessage;
  SetOptX :=
    assigns (fun v o => mkWorkflowGetResponse (getr_WorkflowRunId o) (getr_WorkflowStatus o) (Results o)
    (ErrorType o) (Some v))
|}.
Definition WorkflowGetResponse_members : list (any_methods WorkflowGetResponse) :=
  [Required EmptyString WorkflowGetResponse_WorkflowRunId; Required (enum_zero WorkflowStatus_enum)
    WorkflowGetResponse_WorkflowStatus; Collection [] WorkflowGetResponse_Results;
    Optional (enum_zero WorkflowErrorType_enum) WorkflowGetResponse_ErrorType;
    Optional EmptyString WorkflowGetResponse_ErrorMessage].
Definition NewWorkflowGetResponse (workflowRunId_ : string) (workflowStatus_ : WorkflowStatus) :
  WorkflowGetResponse :=
  mkWorkflowGetResponse workflowRunId_ workflowStatus_ [] None None.
Definition NewWorkflowGetResponseWithDefaults : WorkflowGetResponse :=
  mkWorkflowGetResponse EmptyString (enum_zero WorkflowStatus_enum) [] None None.
Definition NullableWorkflowGetResponse : nullable_methods WorkflowGetResponse := nullable WorkflowGetResponse_codec.
Lemma WorkflowGetResponse_struct_lawful : lawful_struct no_rest WorkflowGetResponse_members.
Proof. lawful_struct. Qed.

(** ** WorkflowSearchRequest (model_workflow_search_request.go) *)

Definition WorkflowSearchRequest_Query : required_methods WorkflowSearchRequest _ := {|
  GetX := get_field EmptyString Query;
  GetXOk := get_field_ok Query;
  SetX := assigns (fun v o => mkWorkflowSearchRequest v (PageSize o) (se_NextPageToken o))
|}.
Definition WorkflowSearchRequest_PageSize : optional_methods WorkflowSearchRequest _ := {|
  GetOptX := get_pointer 0%Z PageSize;
  GetOptXOk := get_pointer_ok PageSize;
  HasX := has_pointer PageSize;
  SetOptX := assigns (fun v o => mkWorkflowSearchRequest (Query o) (Some v) (se_NextPageToken o))
|}.
Definition WorkflowSearchRequest_NextPageToken : optional_methods WorkflowSearchRequest _ := {|
  GetOptX := get_pointer EmptyString se_NextPageToken;
  GetOptXOk := get_pointer_ok se_NextPageToken;
  HasX := has_pointer se_NextPageToken;
  SetOptX := assigns (fun v o => mkWorkflowSearchRequest (Query o) (PageSize o) (Some v))
|}.
Definition WorkflowSearchRequest_members : list (any_methods WorkflowSearchRequest) :=
  [Required EmptyString WorkflowSearchRequest_Query; Optional 0%Z WorkflowSearchRequest_PageSize;
    Optional EmptyString WorkflowSearchRequest_NextPageToken].
Definition NewWorkflowSearchRequest (query_ : string) : WorkflowSearchRequest :=
  mkWorkflowSearchRequest query_ None None.
Definition NewWorkflowSearchRequestWithDefaults : WorkflowSearchRequest :=
  mkWorkflowSearchRequest EmptyString None None.
Definition NullableWorkflowSearchRequest : nullable_methods WorkflowSearchRequest :=
  nullable WorkflowSearchRequest_codec.
Lemma WorkflowSearchRequest_struct_lawful : lawful_struct no_rest WorkflowSearchRequest_members.
Proof. lawful_struct. Qed.

(** ** WorkflowSearchResponseEntry (model_workflow_search_response_entry.go) *)

Definition WorkflowSearchResponseEntry_WorkflowId : required_methods WorkflowSearchResponseEntry _ := {|
  GetX := get_field EmptyString entry_WorkflowId;
  GetXOk := get_field_ok entry_WorkflowId;
  SetX := assigns (fun v o => mkWorkflowSearchResponseEntry v (entry_WorkflowRunId o))
|}.
Definition WorkflowSearchResponseEntry_WorkflowRunId : required_methods WorkflowSearchResponseEntry _ := {|
  GetX := get_field EmptyString entry_WorkflowRunId;
  GetXOk := get_field_ok entry_WorkflowRunId;
  SetX := assigns (fun v o => mkWorkflowSearchResponseEntry (entry_WorkflowId o) v)
|}.
Definition WorkflowSearchResponseEntry_members : list (any_methods WorkflowSearchResponseEntry) :=
  [Required EmptyString WorkflowSearchResponseEntry_WorkflowId;
    Required EmptyString WorkflowSearchResponseEntry_WorkflowRunId].
Definition NewWorkflowSearchResponseEntry (workflowId_ : string) (workflowRunId_ : string) :
  WorkflowSearchResponseEntry :=
  mkWorkflowSearchResponseEntry workflowId_ workflowRunId_.
Definition NewWorkflowSearchResponseEntryWithDefaults : WorkflowSearchResponseEntry :=
  mkWorkflowSearchResponseEntry EmptyString EmptyString.
Definition NullableWorkflowSearchResponseEntry : nullable_methods WorkflowSearchResponseEntry :=
  nullable WorkflowSearchResponseEntry_codec.
Lemma WorkflowSearchResponseEntry_struct_lawful : lawful_struct no_rest WorkflowSearchResponseEntry_members.
Proof. lawful_struct. Qed.

(** ** WorkflowSearchResponse (model_workflow_search_response.go) *)

Definition WorkflowSearchResponse_WorkflowExecutions : collection_methods WorkflowSearchResponse _ := {|
  GetAllX := get_field [] WorkflowExecutions;
  GetAllXOk := get_all_ok [] WorkflowExecutions;
  HasAnyX := has_any [] WorkflowExecutions;
  SetAllX := assigns (fun v o => mkWorkflowSearchResponse v (ser_NextPageToken o))
|}.
Definition WorkflowSearchResponse_NextPageToken : optional_methods WorkflowSearchResponse _ := {|
  GetOptX := get_pointer EmptyString ser_NextPageToken;
  GetOptXOk := get_pointer_ok ser_NextPageToken;
  HasX := has_pointer ser_NextPageToken;
  SetOptX := assigns (fun v o => mkWorkflowSearchResponse (WorkflowExecutions o) (Some v))
|}.
Definition WorkflowSearchResponse_members : list (any_methods WorkflowSearchResponse) :=
  [Collection [] WorkflowSearchResponse_WorkflowExecutions; Optional EmptyString
    WorkflowSearchResponse_NextPageToken].
Definition NewWorkflowSearchResponse : WorkflowSearchResponse :=
  mkWorkflowSearchResponse [] None.
Definition NewWorkflowSearchResponseWithDefaults : WorkflowSearchResponse :=
  mkWorkflowSearchResponse [] None.
Definition NullableWorkflowSearchResponse : nullable_methods WorkflowSearchResponse :=
  nullable WorkflowSearchResponse_codec.
Lemma WorkflowSearchResponse_struct_lawful : lawful_struct no_rest WorkflowSearchResponse_members.
Proof. lawful_struct. Qed.

(** ** WorkflowResetRequest (model_workflow_reset_request.go) *)

Definition WorkflowResetRequest_WorkflowId : required_methods WorkflowResetRequest _ := {|
  GetX := get_field EmptyString rst_WorkflowId;
  GetXOk := get_field_ok rst_WorkflowId;
  SetX :=
    assigns (fun v o => mkWorkflowResetRequest v (rst_WorkflowRunId o) (ResetType o) (HistoryEventId o)
    (rst_Reason o) (HistoryEventTime o) (rst_StateId o) (rst_StateExecutionId o) (SkipSignalReapply o)
    (SkipUpdateReapply o))
|}.
Definition WorkflowResetRequest_WorkflowRunId : optional_methods WorkflowResetRequest _ := {|
  GetOptX := get_pointer EmptyString rst_WorkflowRunId;
  GetOptXOk := get_pointer_ok rst_WorkflowRunId;
  HasX := has_pointer rst_WorkflowRunId;
  SetOptX :=
    assigns (fun v o => mkWorkflowResetRequest (rst_WorkflowId o) (Some v) (ResetType o) (HistoryEventId o)
    (rst_Reason o) (HistoryEventTime o) (rst_StateId o) (rst_StateExecutionId o) (SkipSignalReapply o)
    (SkipUpdateReapply o))
|}.
Definition WorkflowResetRequest_ResetType : required_methods WorkflowResetRequest _ := {|
  GetX := get_field (enum_zero WorkflowResetType_enum) ResetType;
  GetXOk := get_field_ok ResetType;
  SetX :=
    assigns (fun v o => mkWorkflowResetRequest (rst_WorkflowId o) (rst_WorkflowRunId o) v (HistoryEventId o)
    (rst_Reason o) (HistoryEventTime o) (rst_StateId o) (rst_StateExecutionId o) (SkipSignalReapply o)
    (SkipUpdateReapply o))
|}.
Definition WorkflowResetRequest_HistoryEventId : optional_methods WorkflowResetRequest _ := {|
  GetOptX := get_pointer 0%Z HistoryEventId;
  GetOptXOk := get_pointer_ok HistoryEventId;
  HasX := has_pointer HistoryEventId;
  SetOptX :=
    assigns (fun v o => mkWorkflowResetRequest (rst_WorkflowId o) (rst_WorkflowRunId o) (ResetType o) (Some v)
    (rst_Reason o) (HistoryEventTime o) (rst_StateId o) (rst_StateExecutionId o) (SkipSignalReapply o)
    (SkipUpdateReapply o))
|}.
Definition WorkflowResetRequest_Reason : optional_methods WorkflowResetRequest _ := {|
  GetOptX := get_pointer EmptyString rst_Reason;
  GetOptXOk := get_pointer_ok rst_Reason;
  HasX := has_pointer rst_Reason;
  SetOptX :=
    assigns (fun v o => mkWorkflowResetRequest (rst_WorkflowId o) (rst_WorkflowRunId o) (ResetType o)
    (HistoryEventId o) (Some v) (HistoryEventTime o) (rst_StateId o) (rst_StateExecutionId o)
    (SkipSignalReapply o) (SkipUpdateReapply o))
|}.
Definition WorkflowResetRequest_HistoryEventTime : optional_methods WorkflowResetRequest _ := {|
  GetOptX := get_pointer EmptyString HistoryEventTime;
  GetOptXOk := get_pointer_ok HistoryEventTime;
  HasX := has_pointer HistoryEventTime;
  SetOptX :=
    assigns (fun v o => mkWorkflowResetRequest (rst_WorkflowId o) (rst_WorkflowRunId o) (ResetType o)
    (HistoryEventId o) (rst_Reason o) (Some v) (rst_StateId o) (rst_StateExecutionId o) (SkipSignalReapply o)
    (SkipUpdateReapply o))
|}.
Definition WorkflowResetRequest_StateId : optional_methods WorkflowResetRequest _ := {|
  GetOptX := get_pointer EmptyString rst_StateId;
  GetOptXOk := get_pointer_ok rst_StateId;
  HasX := has_pointer rst_StateId;
  SetOptX :=
    assigns (fun v o => mkWorkflowResetRequest (rst_WorkflowId o) (rst_WorkflowRunId o) (ResetType o)
    (HistoryEventId o) (rst_Reason o) (HistoryEventTime o) (Some v) (rst_StateExecutionId o) (SkipSignalReapply
    o) (SkipUpdateReapply o))
|}.
Definition WorkflowResetRequest_StateExecutionId : optional_methods WorkflowResetRequest _ := {|
  GetOptX := get_pointer EmptyString rst_StateExecutionId;
  GetOptXOk := get_pointer_ok rst_StateExecutionId;
  HasX := has_pointer rst_StateExecutionId;
  SetOptX :=
    assigns (fun v o => mkWorkflowResetRequest (rst_WorkflowId o) (rst_WorkflowRunId o) (ResetType o)
    (HistoryEventId o) (rst_Reason o) (HistoryEventTime o) (rst_StateId o) (Some v) (SkipSignalReapply o)
    (SkipUpdateReapply o))
|}.
Definition WorkflowResetRequest_SkipSignalReapply : optional_methods WorkflowResetRequest _ := {|
  GetOptX := get_pointer false SkipSignalReapply;
  GetOptXOk := get_pointer_ok SkipSignalReapply;
  HasX := has_pointer SkipSignalReapply;
  SetOptX :=
    assigns (fun v o => mkWorkflowResetRequest (rst_WorkflowId o) (rst_WorkflowRunId o) (ResetType o)
    (HistoryEventId o) (rst_Reason o) (HistoryEventTime o) (rst_StateId o) (rst_StateExecutionId o) (Some v)
    (SkipUpdateReapply o))
|}.
Definition WorkflowResetRequest_SkipUpdateReapply : optional_methods WorkflowResetRequest _ := {|
  GetOptX := get_pointer false SkipUpdateReapply;
  GetOptXOk := get_pointer_ok SkipUpdateReapply;
  HasX := has_pointer SkipUpdateReapply;
  SetOptX :=
    assigns (fun v o => mkWorkflowResetRequest (rst_WorkflowId o) (rst_WorkflowRunId o) (ResetType o)
    (HistoryEventId o) (rst_Reason o) (HistoryEventTime o) (rst_StateId o) (rst_StateExecutionId o)
    (SkipSignalReapply o) (Some v))
|}.
Definition WorkflowResetRequest_members : list (any_methods WorkflowResetRequest) :=
  [Required EmptyString WorkflowResetRequest_WorkflowId; Optional EmptyString
    WorkflowResetRequest_WorkflowRunId; Required (enum_zero WorkflowResetType_enum)
    WorkflowResetRequest_ResetType; Optional 0%Z WorkflowResetRequest_HistoryEventId;
    Optional EmptyString WorkflowResetRequest_Reason; Optional EmptyString
    WorkflowResetRequest_HistoryEventTime; Optional EmptyString WorkflowResetRequest_StateId;
    Optional EmptyString WorkflowResetRequest_StateExecutionId;
    Optional false WorkflowResetRequest_SkipSignalReapply; Optional false WorkflowResetRequest_SkipUpdateReapply].
Definition NewWorkflowResetRequest (workflowId_ : string) (resetType_ : WorkflowResetType) : WorkflowResetRequest :=
  mkWorkflowResetRequest workflowId_ None resetType_ None None None None None None None.
Definition NewWorkflowResetRequestWithDefaults : WorkflowResetRequest :=
  mkWorkflowResetRequest EmptyString None (enum_zero WorkflowResetType_enum) None None None None None None None.
Definition NullableWorkflowResetRequest : nullable_methods WorkflowResetRequest :=
  nullable WorkflowResetRequest_codec.
Lemma WorkflowResetRequest_struct_lawful : lawful_struct no_rest WorkflowResetRequest_members.
Proof. lawful_struct. Qed.

(** ** WorkflowResetResponse (model_workflow_reset_response.go) *)

Definition WorkflowResetResponse_WorkflowRunId : required_methods WorkflowResetResponse _ := {|
  GetX := get_field EmptyString rstr_WorkflowRunId;
  GetXOk := get_field_ok rstr_WorkflowRunId;
  SetX := assigns (fun v o => mkWorkflowResetResponse v)
|}.
Definition WorkflowResetResponse_members : list (any_methods WorkflowResetResponse) :=
  [Required EmptyString WorkflowResetResponse_WorkflowRunId].
Definition NewWorkflowResetResponse (workflowRunId_ : string) : WorkflowResetResponse :=
  mkWorkflowResetResponse workflowRunId_.
Definition NewWorkflowResetResponseWithDefaults : WorkflowResetResponse :=
  mkWorkflowResetResponse EmptyString.
Definition NullableWorkflowResetResponse : nullable_methods WorkflowResetResponse :=
  nullable WorkflowResetResponse_codec.
Lemma WorkflowResetResponse_struct_lawful : lawful_struct no_rest WorkflowResetResponse_members.
Proof. lawful_struct. Qed.

(** ** WorkflowSkipTimerRequest (model_workflow_skip_timer_request.go) *)

Definition WorkflowSkipTimerRequest_WorkflowId : required_methods WorkflowSkipTimerRequest _ := {|
  GetX := get_field EmptyString skt_WorkflowId;
  GetXOk := get_field_ok skt_WorkflowId;
  SetX :=
    assigns (fun v o => mkWorkflowSkipTimerRequest v (skt_WorkflowRunId o) (WorkflowStateExecutionId o)
    (TimerCommandId o) (TimerCommandIndex o))
|}.
Definition WorkflowSkipTimerRequest_WorkflowRunId : optional_methods WorkflowSkipTimerRequest _ := {|
  GetOptX := get_pointer EmptyString skt_WorkflowRunId;
  GetOptXOk := get_pointer_ok skt_WorkflowRunId;
  HasX := has_pointer skt_WorkflowRunId;
  SetOptX :=
    assigns (fun v o => mkWorkflowSkipTimerRequest (skt_WorkflowId o) (Some v) (WorkflowStateExecutionId o)
    (TimerCommandId o) (TimerCommandIndex o))
|}.
Definition WorkflowSkipTimerRequest_WorkflowStateExecutionId : required_methods WorkflowSkipTimerRequest _ := {|
  GetX := get_field EmptyString WorkflowStateExecutionId;
  GetXOk := get_field_ok WorkflowStateExecutionId;
  SetX :=
    assigns (fun v o => mkWorkflowSkipTimerRequest (skt_WorkflowId o) (skt_WorkflowRunId o) v (TimerCommandId
    o) (TimerCommandIndex o))
|}.
Definition WorkflowSkipTimerRequest_TimerCommandId : optional_methods WorkflowSkipTimerRequest _ := {|
  GetOptX := get_pointer EmptyString TimerCommandId;
  GetOptXOk := get_pointer_ok TimerCommandId;
  HasX := has_pointer TimerCommandId;
  SetOptX :=
    assigns (fun v o => mkWorkflowSkipTimerRequest (skt_WorkflowId o) (skt_WorkflowRunId o)
    (WorkflowStateExecutionId o) (Some v) (TimerCommandIndex o))
|}.
Definition WorkflowSkipTimerRequest_TimerCommandIndex : optional_methods WorkflowSkipTimerRequest _ := {|
  GetOptX := get_pointer 0%Z TimerCommandIndex;
  GetOptXOk := get_pointer_ok TimerCommandIndex;
  HasX := has_pointer TimerCommandIndex;
  SetOptX :=
    assigns (fun v o => mkWorkflowSkipTimerRequest (skt_WorkflowId o) (skt_WorkflowRunId o)
    (WorkflowStateExecutionId o) (TimerCommandId o) (Some v))
|}.
Definition WorkflowSkipTimerRequest_members : list (any_methods WorkflowSkipTimerRequest) :=
  [Required EmptyString WorkflowSkipTimerRequest_WorkflowId; Optional EmptyString
    WorkflowSkipTimerRequest_WorkflowRunId; Required EmptyString
    WorkflowSkipTimerRequest_WorkflowStateExecutionId; Optional EmptyString
    WorkflowSkipTimerRequest_TimerCommandId; Optional 0%Z WorkflowSkipTimerRequest_TimerCommandIndex].
Definition NewWorkflowSkipTimerRequest (workflowId_ : string) (workflowStateExecutionId_ : string) :
  WorkflowSkipTimerRequest :=
  mkWorkflowSkipTimerRequest workflowId_ None workflowStateExecutionId_ None None.
Definition NewWorkflowSkipTimerRequestWithDefaults : WorkflowSkipTimerRequest :=
  mkWorkflowSkipTimerRequest EmptyString None EmptyString None None.
Definition NullableWorkflowSkipTimerRequest : nullable_methods WorkflowSkipTimerRequest :=
  nullable WorkflowSkipTimerRequest_codec.
Lemma WorkflowSkipTimerRequest_struct_lawful : lawful_struct no_rest WorkflowSkipTimerRequest_members.
Proof. lawful_struct. Qed.

(** ** HealthInfo (model_health_info.go) *)

Definition HealthInfo_Condition : optional_methods HealthInfo _ := {|
  GetOptX := get_pointer EmptyString Condition;
  GetOptXOk := get_pointer_ok Condition;
  HasX := has_pointer Condition;
  SetOptX := assigns (fun v o => mkHealthInfo (Some v) (Hostname o) (Duration o))
|}.
Definition HealthInfo_Hostname : optional_methods HealthInfo _ := {|
  GetOptX := get_pointer EmptyString Hostname;
  GetOptXOk := get_pointer_ok Hostname;
  HasX := has_pointer Hostname;
  SetOptX := assigns (fun v o => mkHealthInfo (Condition o) (Some v) (Duration o))
|}.
Definition HealthInfo_Duration : optional_methods HealthInfo _ := {|
  GetOptX := get_pointer 0%Z Duration;
  GetOptXOk := get_pointer_ok Duration;
  HasX := has_pointer Duration;
  SetOptX := assigns (fun v o => mkHealthInfo (Condition o) (Hostname o) (Some v))
|}.
Definition HealthInfo_members : list (any_methods HealthInfo) :=
  [Optional EmptyString HealthInfo_Condition; Optional EmptyString HealthInfo_Hostname;
    Optional 0%Z HealthInfo_Duration].
Definition NewHealthInfo : HealthInfo :=
  mkHealthInfo None None None.
Definition NewHealthInfoWithDefaults : HealthInfo :=
  mkHealthInfo None None None.
Definition NullableHealthInfo : nullable_methods HealthInfo := nullable HealthInfo_codec.
Lemma HealthInfo_struct_lawful : lawful_struct no_rest HealthInfo_members.
Proof. lawful_struct. Qed.

End model.

#[export] Hint Resolve WorkerErrorResponse_struct_lawful WorkflowRetryPolicy_struct_lawful
  WorkflowAlreadyStartedOptions_struct_lawful WorkflowStartOptions_struct_lawful
  WorkflowStartRequest_struct_lawful WorkflowStartResponse_struct_lawful
  WorkflowWaitForStateCompletionRequest_struct_lawful WorkflowWaitForStateCompletionResponse_struct_lawful
  WorkflowSignalRequest_struct_lawful PublishToInternalChannelRequest_struct_lawful
  WorkflowConfigUpdateRequest_struct_lawful TriggerContinueAsNewRequest_struct_lawful
  WorkflowStopRequest_struct_lawful WorkflowGetDataObjectsRequest_struct_lawful
  WorkflowGetDataObjectsResponse_struct_lawful WorkflowSetDataObjectsRequest_struct_lawful
  WorkflowGetSearchAttributesRequest_struct_lawful WorkflowGetSearchAttributesResponse_struct_lawful
  WorkflowSetSearchAttributesRequest_struct_lawful WorkflowGetRequest_struct_lawful
  WorkflowGetResponse_struct_lawful WorkflowSearchRequest_struct_lawful
  WorkflowSearchResponseEntry_struct_lawful WorkflowSearchResponse_struct_lawful
  WorkflowResetRequest_struct_lawful WorkflowResetResponse_struct_lawful WorkflowSkipTimerRequest_struct_lawful
  HealthInfo_struct_lawful : structs.

(** ** All types *)

Section all_types.
Context `{FloatText}.

Definition data_model : list any_struct := [
  Struct no_rest EncodedObject_members; Struct no_rest KeyValue_members; Struct no_rest SearchAttribute_members;
  Struct no_rest SearchAttributeKeyAndType_members; Struct no_rest PersistenceLoadingPolicy_members;
  Struct no_rest RetryPolicy_members; Struct no_rest IwfEventError_members;
  Struct no_rest StateMovement_members; Struct no_rest WorkflowConditionalClose_members;
  Struct no_rest StateDecision_members; Struct no_rest StateCompletionOutput_members;
  Struct no_rest InterStateChannelPublishing_members; Struct no_rest ChannelInfo_members;
  Struct no_rest TimerCommand_members; Struct no_rest SignalCommand_members;
  Struct no_rest InterStateChannelCommand_members; Struct no_rest CommandCombination_members;
  Struct no_rest CommandRequest_members; Struct no_rest TimerResult_members;
  Struct no_rest SignalResult_members; Struct no_rest InterStateChannelResult_members;
  Struct no_rest CommandResults_members; Struct no_rest Context_members;
  Struct no_rest WorkflowStateStartRequest_members; Struct no_rest WorkflowStateStartResponse_members;
  Struct no_rest WorkflowStateDecideRequest_members; Struct no_rest WorkflowStateDecideResponse_members;
  Struct no_rest WorkflowRpcRequest_members; Struct no_rest WorkflowRpcResponse_members;
  Struct no_rest WorkflowWorkerRpcRequest_members; Struct no_rest WorkflowWorkerRpcResponse_members;
  Struct no_rest WorkflowDumpRequest_members; Struct no_rest WorkflowDumpResponse_members;
  Struct no_rest WorkflowConfig_members; Struct no_rest ErrorResponse_members;
  Struct no_rest WorkflowStateOptions_members; Struct no_rest WorkerErrorResponse_members;
  Struct no_rest WorkflowRetryPolicy_members; Struct no_rest WorkflowAlreadyStartedOptions_members;
  Struct no_rest WorkflowStartOptions_members; Struct no_rest WorkflowStartRequest_members;
  Struct no_rest WorkflowStartResponse_members; Struct no_rest WorkflowWaitForStateCompletionRequest_members;
  Struct no_rest WorkflowWaitForStateCompletionResponse_members; Struct no_rest WorkflowSignalRequest_members;
  Struct no_rest PublishToInternalChannelRequest_members; Struct no_rest WorkflowConfigUpdateRequest_members;
  Struct no_rest TriggerContinueAsNewRequest_members; Struct no_rest WorkflowStopRequest_members;
  Struct no_rest WorkflowGetDataObjectsRequest_members; Struct no_rest WorkflowGetDataObjectsResponse_members;
  Struct no_rest WorkflowSetDataObjectsRequest_members; Struct no_rest
  WorkflowGetSearchAttributesRequest_members; Struct no_rest WorkflowGetSearchAttributesResponse_members;
  Struct no_rest WorkflowSetSearchAttributesRequest_members; Struct no_rest WorkflowGetRequest_members;
  Struct no_rest WorkflowGetResponse_members; Struct no_rest WorkflowSearchRequest_members;
  Struct no_rest WorkflowSearchResponseEntry_members; Struct no_rest WorkflowSearchResponse_members;
  Struct no_rest WorkflowResetRequest_members; Struct no_rest WorkflowResetResponse_members;
  Struct no_rest WorkflowSkipTimerRequest_members; Struct no_rest HealthInfo_members;
  Struct same_error IwfEvent_members].

(** C37: the methods of the data model do what they are called.  In every struct of
    gen/iwfidl, and for each of its fields: on nil the getters give the zero value, the
    test says no and the setter panics; the getter, the getter with a flag and the test
    fit together; after the setter the getters show the value that was set, while the
    getters of every other field show what they did before; and the fields with
    methods are the whole struct (of IwfEvent: all but its error). *)
Theorem data_model_methods_lawful : Forall struct_lawful_methods data_model.
Proof.
  unfold data_model. repeat (apply Forall_cons_2; [cbn [struct_lawful_methods]; solve [auto with structs]|]).
  apply Forall_nil_2.
Qed.

(** The constructors, each with the fields the API requires: those whose tag has no
    omitempty. *)
Definition constructors : list any_constructor := [
  Constructor EncodedObject_codec (fun _ : unit => NewEncodedObject) [];
  Constructor KeyValue_codec (fun _ : unit => NewKeyValue) [];
  Constructor SearchAttribute_codec (fun _ : unit => NewSearchAttribute) [];
  Constructor SearchAttributeKeyAndType_codec (fun _ : unit => NewSearchAttributeKeyAndType) [];
  Constructor PersistenceLoadingPolicy_codec (fun _ : unit => NewPersistenceLoadingPolicy) [];
  Constructor RetryPolicy_codec (fun _ : unit => NewRetryPolicy) [];
  Constructor IwfEventError_codec (fun _ : unit => NewIwfEventError) [];
  Constructor StateMovement_codec (fun stateId => NewStateMovement stateId) ["stateId"];
  Constructor WorkflowConditionalClose_codec (fun _ : unit => NewWorkflowConditionalClose) [];
  Constructor StateDecision_codec (fun _ : unit => NewStateDecision) [];
  Constructor StateCompletionOutput_codec (fun '(completedStateId, completedStateExecutionId) =>
    NewStateCompletionOutput completedStateId completedStateExecutionId) ["completedStateExecutionId";
    "completedStateId"];
  Constructor InterStateChannelPublishing_codec (fun channelName => NewInterStateChannelPublishing channelName)
    ["channelName"];
  Constructor ChannelInfo_codec (fun _ : unit => NewChannelInfo) [];
  Constructor TimerCommand_codec (fun _ : unit => NewTimerCommand) [];
  Constructor SignalCommand_codec (fun signalChannelName => NewSignalCommand signalChannelName) ["signalChannelName"];
  Constructor InterStateChannelCommand_codec (fun channelName => NewInterStateChannelCommand channelName)
    ["channelName"];
  Constructor CommandCombination_codec (fun _ : unit => NewCommandCombination) [];
  Constructor CommandRequest_codec (fun _ : unit => NewCommandRequest) [];
  Constructor TimerResult_codec (fun '(commandId, timerStatus) => NewTimerResult commandId timerStatus)
    ["commandId"; "timerStatus"];
  Constructor SignalResult_codec (fun '(commandId, signalRequestStatus, signalChannelName) => NewSignalResult
    commandId signalRequestStatus signalChannelName) ["commandId"; "signalChannelName"; "signalRequestStatus"];
  Constructor InterStateChannelResult_codec (fun '(commandId, requestStatus, channelName) =>
    NewInterStateChannelResult commandId requestStatus channelName) ["channelName"; "commandId"; "requestStatus"];
  Constructor CommandResults_codec (fun _ : unit => NewCommandResults) [];
  Constructor Context__codec (fun '(workflowId, workflowRunId, workflowStartedTimestamp) => NewContext
    workflowId workflowRunId workflowStartedTimestamp) ["workflowId"; "workflowRunId"; "workflowStartedTimestamp"];
  Constructor WorkflowStateStartRequest_codec (fun '(context, workflowType, workflowStateId) =>
    NewWorkflowStateStartRequest context workflowType workflowStateId) ["context"; "workflowStateId"; "workflowType"];
  Constructor WorkflowStateStartResponse_codec (fun _ : unit => NewWorkflowStateStartResponse) [];
  Constructor WorkflowStateDecideRequest_codec (fun '(context, workflowType, workflowStateId) =>
    NewWorkflowStateDecideRequest context workflowType workflowStateId) ["context"; "workflowStateId"; "workflowType"];
  Constructor WorkflowStateDecideResponse_codec (fun _ : unit => NewWorkflowStateDecideResponse) [];
  Constructor WorkflowRpcRequest_codec (fun '(workflowId, rpcName) => NewWorkflowRpcRequest workflowId rpcName)
    ["rpcName"; "workflowId"];
  Constructor WorkflowRpcResponse_codec (fun _ : unit => NewWorkflowRpcResponse) [];
  Constructor WorkflowWorkerRpcRequest_codec (fun '(context, workflowType, rpcName) =>
    NewWorkflowWorkerRpcRequest context workflowType rpcName) ["context"; "rpcName"; "workflowType"];
  Constructor WorkflowWorkerRpcResponse_codec (fun _ : unit => NewWorkflowWorkerRpcResponse) [];
  Constructor WorkflowDumpRequest_codec (fun '(workflowId, workflowRunId, pageSizeInBytes, pageNum) =>
    NewWorkflowDumpRequest workflowId workflowRunId pageSizeInBytes pageNum) ["pageNum"; "pageSizeInBytes";
    "workflowId"; "workflowRunId"];
  Constructor WorkflowDumpResponse_codec (fun '(checksum, totalPages, jsonData) => NewWorkflowDumpResponse
    checksum totalPages jsonData) ["checksum"; "jsonData"; "totalPages"];
  Constructor WorkflowConfig_codec (fun _ : unit => NewWorkflowConfig) [];
  Constructor ErrorResponse_codec (fun _ : unit => NewErrorResponse) [];
  Constructor WorkflowStateOptions_codec (fun _ : unit => NewWorkflowStateOptions) [];
  Constructor WorkerErrorResponse_codec (fun _ : unit => NewWorkerErrorResponse) [];
  Constructor WorkflowRetryPolicy_codec (fun _ : unit => NewWorkflowRetryPolicy) [];
  Constructor WorkflowAlreadyStartedOptions_codec (fun ignoreAlreadyStartedError =>
    NewWorkflowAlreadyStartedOptions ignoreAlreadyStartedError) ["ignoreAlreadyStartedError"];
  Constructor WorkflowStartOptions_codec (fun _ : unit => NewWorkflowStartOptions) [];
  Constructor WorkflowStartRequest_codec (fun '(workflowId, iwfWorkflowType, workflowTimeoutSeconds,
    iwfWorkerUrl) => NewWorkflowStartRequest workflowId iwfWorkflowType workflowTimeoutSeconds iwfWorkerUrl)
    ["iwfWorkerUrl"; "iwfWorkflowType"; "workflowId"; "workflowTimeoutSeconds"];
  Constructor WorkflowStartResponse_codec (fun _ : unit => NewWorkflowStartResponse) [];
  Constructor WorkflowWaitForStateCompletionRequest_codec (fun workflowId =>
    NewWorkflowWaitForStateCompletionRequest workflowId) ["workflowId"];
  Constructor WorkflowWaitForStateCompletionResponse_codec (fun _ : unit =>
    NewWorkflowWaitForStateCompletionResponse) [];
  Constructor WorkflowSignalRequest_codec (fun '(workflowId, signalChannelName) => NewWorkflowSignalRequest
    workflowId signalChannelName) ["signalChannelName"; "workflowId"];
  Constructor PublishToInternalChannelRequest_codec (fun workflowId => NewPublishToInternalChannelRequest
    workflowId) ["workflowId"];
  Constructor WorkflowConfigUpdateRequest_codec (fun '(workflowId, workflowConfig) =>
    NewWorkflowConfigUpdateRequest workflowId workflowConfig) ["workflowConfig"; "workflowId"];
  Constructor TriggerContinueAsNewRequest_codec (fun workflowId => NewTriggerContinueAsNewRequest workflowId)
    ["workflowId"];
  Constructor WorkflowStopRequest_codec (fun workflowId => NewWorkflowStopRequest workflowId) ["workflowId"];
  Constructor WorkflowGetDataObjectsRequest_codec (fun workflowId => NewWorkflowGetDataObjectsRequest
    workflowId) ["workflowId"];
  Constructor WorkflowGetDataObjectsResponse_codec (fun _ : unit => NewWorkflowGetDataObjectsResponse) [];
  Constructor WorkflowSetDataObjectsRequest_codec (fun workflowId => NewWorkflowSetDataObjectsRequest
    workflowId) ["workflowId"];
  Constructor WorkflowGetSearchAttributesRequest_codec (fun workflowId => NewWorkflowGetSearchAttributesRequest
    workflowId) ["workflowId"];
  Constructor WorkflowGetSearchAttributesResponse_codec (fun _ : unit => NewWorkflowGetSearchAttributesResponse) [];
  Constructor WorkflowSetSearchAttributesRequest_codec (fun workflowId => NewWorkflowSetSearchAttributesRequest
    workflowId) ["workflowId"];
  Constructor WorkflowGetRequest_codec (fun workflowId => NewWorkflowGetRequest workflowId) ["workflowId"];
  Constructor WorkflowGetResponse_codec (fun '(workflowRunId, workflowStatus) => NewWorkflowGetResponse
    workflowRunId workflowStatus) ["workflowRunId"; "workflowStatus"];
  Constructor WorkflowSearchRequest_codec (fun query => NewWorkflowSearchRequest query) ["query"];
  Constructor WorkflowSearchResponseEntry_codec (fun '(workflowId, workflowRunId) =>
    NewWorkflowSearchResponseEntry workflowId workflowRunId) ["workflowId"; "workflowRunId"];
  Constructor WorkflowSearchResponse_codec (fun _ : unit => NewWorkflowSearchResponse) [];
  Constructor WorkflowResetRequest_codec (fun '(workflowId, resetType) => NewWorkflowResetRequest workflowId
    resetType) ["resetType"; "workflowId"];
  Constructor WorkflowResetResponse_codec (fun workflowRunId => NewWorkflowResetResponse workflowRunId)
    ["workflowRunId"];
  Constructor WorkflowSkipTimerRequest_codec (fun '(workflowId, workflowStateExecutionId) =>
    NewWorkflowSkipTimerRequest workflowId workflowStateExecutionId) ["workflowId"; "workflowStateExecutionId"];
  Constructor HealthInfo_codec (fun _ : unit => NewHealthInfo) []].

(** What the constructors make is written to JSON with the fields the API requires
    and no others, whatever the arguments are. *)
Theorem constructors_write_required : Forall writes_required constructors.
Proof.
  unfold constructors. repeat (apply Forall_cons_2; [cbn [writes_required]; intros; repeat case_match; reflexivity|]).
  apply Forall_nil_2.
Qed.

End all_types.
