(* ===== verification/ServiceJson.v ===== *)
(** * The data of the service as JSON

    The structs of service/interfaces.go that cross a process as JSON: the inputs and
    results of workflows and activities, signals, queries, and the snapshot of a run.
    They have no [MarshalJSON], so their fields are written in order, under the name
    of the tag or of the field. *)

From S2P Require Export Service IdlJson.

(** A Go string without checks; the model has its three values. *)
Definition InternalTimerStatus_enum : enumeration InternalTimerStatus := {|
  enum_text v := match v with TimerPending => "Pending" | TimerFired => "Fired" | TimerSkipped => "Skipped" end;
  enum_allowed := [TimerPending; TimerFired; TimerSkipped];
  enum_zero := TimerPending
|}.
#[export] Instance InternalTimerStatus_law : EnumLaw InternalTimerStatus_enum.
Proof. enum_law. Qed.
Definition InternalTimerStatus_codec : codec InternalTimerStatus := enum_codec InternalTimerStatus_enum.
#[export] Instance InternalTimerStatus_lawful : Lawful InternalTimerStatus_codec.
Proof. apply enum_lawful. typeclasses eauto. Qed.

Section structs.
Context `{FloatText}.

(** ** Inputs, results and queries *)

Definition ContinueAsNewInput_codec : codec ContinueAsNewInput := struct false (
    construct mkContinueAsNewInput
    ⊛ required "previousInternalRunId" PreviousInternalRunId string_codec)%json.
#[export] Instance ContinueAsNewInput_lawful : Lawful ContinueAsNewInput_codec.
Proof. apply struct_lawful. struct_law. Qed.
#[export] Instance ContinueAsNewInput_nonnull : NonNull ContinueAsNewInput_codec.
Proof. done. Qed.

Definition InterpreterWorkflowInput_codec : codec InterpreterWorkflowInput := struct false (
    construct mkInterpreterWorkflowInput
    ⊛ omitempty_string "iwfWorkflowType" in_IwfWorkflowType
    ⊛ omitempty_string "iwfWorkerUrl" in_IwfWorkerUrl
    ⊛ optional "startStateId" in_StartStateId string_codec
    ⊛ optional_slice "waitForCompletionStateExecutionIds" in_WaitForCompletionStateExecutionIds string_codec
    ⊛ optional_slice "waitForCompletionStateIds" in_WaitForCompletionStateIds string_codec
    ⊛ optional "stateInput" in_StateInput EncodedObject_codec
    ⊛ optional "stateOptions" in_StateOptions WorkflowStateOptions_codec
    ⊛ optional_slice "initSearchAttributes" in_InitSearchAttributes SearchAttribute_codec
    ⊛ optional_slice "initDataAttributes" in_InitDataAttributes KeyValue_codec
    ⊛ omitempty_bool "useMemoForDataAttributes" in_UseMemoForDataAttributes
    ⊛ required "config" in_Config WorkflowConfig_codec
    ⊛ omitempty_bool "isResumeFromContinueAsNew" in_IsResumeFromContinueAsNew
    ⊛ optional "continueAsNewInput" in_ContinueAsNewInput ContinueAsNewInput_codec)%json.
#[export] Instance InterpreterWorkflowInput_lawful : Lawful InterpreterWorkflowInput_codec.
Proof. apply struct_lawful. struct_law. Qed.
#[export] Instance InterpreterWorkflowInput_nonnull : NonNull InterpreterWorkflowInput_codec.
Proof. done. Qed.

Definition InterpreterWorkflowOutput_codec : codec InterpreterWorkflowOutput := struct false (
    construct mkInterpreterWorkflowOutput
    ⊛ optional_slice "stateCompletionOutputs" StateCompletionOutputs StateCompletionOutput_codec)%json.
#[export] Instance InterpreterWorkflowOutput_lawful : Lawful InterpreterWorkflowOutput_codec.
Proof. apply struct_lawful. struct_law. Qed.
#[export] Instance InterpreterWorkflowOutput_nonnull : NonNull InterpreterWorkflowOutput_codec.
Proof. done. Qed.

Definition StateStartActivityInput_codec : codec StateStartActivityInput := struct false (
    construct mkStateStartActivityInput
    ⊛ required "IwfWorkerUrl" ss_IwfWorkerUrl string_codec
    ⊛ required "Request" ss_Request WorkflowStateStartRequest_codec)%json.
#[export] Instance StateStartActivityInput_lawful : Lawful StateStartActivityInput_codec.
Proof. apply struct_lawful. struct_law. Qed.
#[export] Instance StateStartActivityInput_nonnull : NonNull StateStartActivityInput_codec.
Proof. done. Qed.

Definition StateDecideActivityInput_codec : codec StateDecideActivityInput := struct false (
    construct mkStateDecideActivityInput
    ⊛ required "IwfWorkerUrl" sd_IwfWorkerUrl string_codec
    ⊛ required "Request" sd_Request WorkflowStateDecideRequest_codec)%json.
#[export] Instance StateDecideActivityInput_lawful : Lawful StateDecideActivityInput_codec.
Proof. apply struct_lawful. struct_law. Qed.
#[export] Instance StateDecideActivityInput_nonnull : NonNull StateDecideActivityInput_codec.
Proof. done. Qed.

Definition PrepareRpcQueryRequest_codec : codec PrepareRpcQueryRequest := struct false (
    construct mkPrepareRpcQueryRequest
    ⊛ required "DataObjectsLoadingPolicy" pq_DataObjectsLoadingPolicy (ptr PersistenceLoadingPolicy_codec)
    ⊛ required "CachedDataObjectsLoadingPolicy" pq_CachedDataObjectsLoadingPolicy (ptr PersistenceLoadingPolicy_codec)
    ⊛ required "SearchAttributesLoadingPolicy" pq_SearchAttributesLoadingPolicy (ptr PersistenceLoadingPolicy_codec))%json.
#[export] Instance PrepareRpcQueryRequest_lawful : Lawful PrepareRpcQueryRequest_codec.
Proof. apply struct_lawful. struct_law. Qed.
#[export] Instance PrepareRpcQueryRequest_nonnull : NonNull PrepareRpcQueryRequest_codec.
Proof. done. Qed.

Definition PrepareRpcQueryResponse_codec : codec PrepareRpcQueryResponse := struct false (
    construct mkPrepareRpcQueryResponse
    ⊛ required "DataObjects" pq_DataObjects (slice KeyValue_codec)
    ⊛ required "SearchAttributes" pq_SearchAttributes (slice SearchAttribute_codec)
    ⊛ required "WorkflowRunId" pq_WorkflowRunId string_codec
    ⊛ required "WorkflowStartedTimestamp" pq_WorkflowStartedTimestamp int64_codec
    ⊛ required "IwfWorkflowType" pq_IwfWorkflowType string_codec
    ⊛ required "IwfWorkerUrl" pq_IwfWorkerUrl string_codec
    ⊛ required "SignalChannelInfo" pq_SignalChannelInfo (string_map ChannelInfo_codec)
    ⊛ required "InternalChannelInfo" pq_InternalChannelInfo (string_map ChannelInfo_codec))%json.
#[export] Instance PrepareRpcQueryResponse_lawful : Lawful PrepareRpcQueryResponse_codec.
Proof. apply struct_lawful. struct_law. Qed.
#[export] Instance PrepareRpcQueryResponse_nonnull : NonNull PrepareRpcQueryResponse_codec.
Proof. done. Qed.

Definition TimerInfo_codec : codec TimerInfo := struct false (
    construct mkTimerInfo
    ⊛ required "CommandId" ti_CommandId (ptr string_codec)
    ⊛ required "FiringUnixTimestampSeconds" ti_FiringUnixTimestampSeconds int64_codec
    ⊛ required "Status" ti_Status InternalTimerStatus_codec)%json.
#[export] Instance TimerInfo_lawful : Lawful TimerInfo_codec.
Proof. apply struct_lawful. struct_law. Qed.
#[export] Instance TimerInfo_nonnull : NonNull TimerInfo_codec.
Proof. done. Qed.

(** ** Signals *)

Definition ExecuteRpcSignalRequest_codec : codec ExecuteRpcSignalRequest := struct false (
    construct mkExecuteRpcSignalRequest
    ⊛ optional "rpcInput" rs_RpcInput EncodedObject_codec
    ⊛ optional "rpcOutput" rs_RpcOutput EncodedObject_codec
    ⊛ optional_slice "upsertDataObjects" rs_UpsertDataObjects KeyValue_codec
    ⊛ optional_slice "upsertSearchAttributes" rs_UpsertSearchAttributes SearchAttribute_codec
    ⊛ optional "stateDecision" rs_StateDecision StateDecision_codec
    ⊛ optional_slice "recordEvents" rs_RecordEvents KeyValue_codec
    ⊛ optional_slice "interStateChannelPublishing" rs_InterStateChannelPublishing InterStateChannelPublishing_codec)%json.
#[export] Instance ExecuteRpcSignalRequest_lawful : Lawful ExecuteRpcSignalRequest_codec.
Proof. apply struct_lawful. struct_law. Qed.
#[export] Instance ExecuteRpcSignalRequest_nonnull : NonNull ExecuteRpcSignalRequest_codec.
Proof. done. Qed.

Definition SkipTimerSignalRequest_codec : codec SkipTimerSignalRequest := struct false (
    construct mkSkipTimerSignalRequest
    ⊛ required "StateExecutionId" sk_StateExecutionId string_codec
    ⊛ required "CommandId" sk_CommandId string_codec
    ⊛ required "CommandIndex" sk_CommandIndex int64_codec)%json.
#[export] Instance SkipTimerSignalRequest_lawful : Lawful SkipTimerSignalRequest_codec.
Proof. apply struct_lawful. struct_law. Qed.
#[export] Instance SkipTimerSignalRequest_nonnull : NonNull SkipTimerSignalRequest_codec.
Proof. done. Qed.

Definition FailWorkflowSignalRequest_codec : codec FailWorkflowSignalRequest := struct false (
    construct mkFailWorkflowSignalRequest
    ⊛ required "Reason" Reason string_codec)%json.
#[export] Instance FailWorkflowSignalRequest_lawful : Lawful FailWorkflowSignalRequest_codec.
Proof. apply struct_lawful. struct_law. Qed.
#[export] Instance FailWorkflowSignalRequest_nonnull : NonNull FailWorkflowSignalRequest_codec.
Proof. done. Qed.

(** ** The snapshot of a run *)

Definition StateExecutionCompletedCommands_codec : codec StateExecutionCompletedCommands := struct false (
    construct mkStateExecutionCompletedCommands
    ⊛ required "completedTimerCommands" CompletedTimerCommands (int_map InternalTimerStatus_codec)
    ⊛ required "completedSignalCommands" CompletedSignalCommands (int_map (ptr EncodedObject_codec))
    ⊛ required "completedInterStateChannelCommands" CompletedInterStateChannelCommands (int_map (ptr EncodedObject_codec)))%json.
#[export] Instance StateExecutionCompletedCommands_lawful : Lawful StateExecutionCompletedCommands_codec.
Proof. apply struct_lawful. struct_law. Qed.
#[export] Instance StateExecutionCompletedCommands_nonnull : NonNull StateExecutionCompletedCommands_codec.
Proof. done. Qed.

Definition StateExecutionResumeInfo_codec : codec StateExecutionResumeInfo := struct false (
    construct mkStateExecutionResumeInfo
    ⊛ required "stateExecutionId" ri_StateExecutionId string_codec
    ⊛ required "state" ri_State StateMovement_codec
    ⊛ required "stateExecutionCompletedCommands" ri_StateExecutionCompletedCommands StateExecutionCompletedCommands_codec
    ⊛ required "commandRequest" ri_CommandRequest CommandRequest_codec
    ⊛ required "stateExecutionLocals" ri_StateExecutionLocals (slice KeyValue_codec))%json.
#[export] Instance StateExecutionResumeInfo_lawful : Lawful StateExecutionResumeInfo_codec.
Proof. apply struct_lawful. struct_law. Qed.
#[export] Instance StateExecutionResumeInfo_nonnull : NonNull StateExecutionResumeInfo_codec.
Proof. done. Qed.

Definition StaleSkipTimerSignal_codec : codec StaleSkipTimerSignal := struct false (
    construct mkStaleSkipTimerSignal
    ⊛ required "StateExecutionId" st_StateExecutionId string_codec
    ⊛ required "TimerCommandId" st_TimerCommandId string_codec
    ⊛ required "TimerCommandIndex" st_TimerCommandIndex int64_codec)%json.
#[export] Instance StaleSkipTimerSignal_lawful : Lawful StaleSkipTimerSignal_codec.
Proof. apply struct_lawful. struct_law. Qed.
#[export] Instance StaleSkipTimerSignal_nonnull : NonNull StaleSkipTimerSignal_codec.
Proof. done. Qed.

Definition StateExecutionCounterInfo_codec : codec StateExecutionCounterInfo := struct false (
    construct mkStateExecutionCounterInfo
    ⊛ required "StateIdStartedCount" StateIdStartedCount (string_map int64_codec)
    ⊛ required "StateIdCurrentlyExecutingCount" StateIdCurrentlyExecutingCount (string_map int64_codec)
    ⊛ required "TotalCurrentlyExecutingCount" TotalCurrentlyExecutingCount int64_codec)%json.
#[export] Instance StateExecutionCounterInfo_lawful : Lawful StateExecutionCounterInfo_codec.
Proof. apply struct_lawful. struct_law. Qed.
#[export] Instance StateExecutionCounterInfo_nonnull : NonNull StateExecutionCounterInfo_codec.
Proof. done. Qed.

Definition ContinueAsNewDumpResponse_codec : codec ContinueAsNewDumpResponse := struct false (
    construct mkContinueAsNewDumpResponse
    ⊛ required "StatesToStartFromBeginning" StatesToStartFromBeginning (slice StateMovement_codec)
    ⊛ required "StateExecutionsToResume" StateExecutionsToResume (string_map StateExecutionResumeInfo_codec)
    ⊛ required "InterStateChannelReceived" InterStateChannelReceived (string_map (slice (ptr EncodedObject_codec)))
    ⊛ required "SignalsReceived" SignalsReceived (string_map (slice (ptr EncodedObject_codec)))
    ⊛ required "StateExecutionCounterInfo" StateExecutionCounterInfo_ StateExecutionCounterInfo_codec
    ⊛ required "StateOutputs" StateOutputs (slice StateCompletionOutput_codec)
    ⊛ required "StaleSkipTimerSignals" StaleSkipTimerSignals (slice StaleSkipTimerSignal_codec)
    ⊛ required "DataObjects" DataObjects (slice KeyValue_codec)
    ⊛ required "SearchAttributes" SearchAttributes (slice SearchAttribute_codec))%json.
#[export] Instance ContinueAsNewDumpResponse_lawful : Lawful ContinueAsNewDumpResponse_codec.
Proof. apply struct_lawful. struct_law. Qed.
#[export] Instance ContinueAsNewDumpResponse_nonnull : NonNull ContinueAsNewDumpResponse_codec.
Proof. done. Qed.

End structs.
