(* ===== verification/Wire.v ===== *)
(** * HTTP messages

    What Go's net/http carries between the server and the clients of it and of the
    workers. *)

From S2P Require Export JsonText.

Record http_request : Type := mkhttp_request {
  rq_Method : string;
  rq_URL : string;
  rq_Header : gmap string (list string);
  rq_Body : option (list ascii)
}.

(** A response; reading the body may fail after some bytes. *)
Record wire_response : Type := mkwire_response {
  wr_StatusCode : Z;
  wr_Status : string;
  wr_ContentType : string;
  wr_Body : list ascii;
  wr_BodyError : option string
}.

(** [http.StatusText], of the codes the program answers; empty for those it does not
    know. *)
Definition StatusText (code : Z) : string :=
  if (code =? 200)%Z then "OK"
  else if (code =? 400)%Z then "Bad Request"
  else if (code =? 404)%Z then "Not Found"
  else if (code =? 500)%Z then "Internal Server Error"
  else EmptyString.

(** The status line net/http writes. *)
Definition status_line (code : Z) : string :=
  pretty code +:+ " " +:+
  (if bool_decide (StatusText code = EmptyString) then "status code " +:+ pretty code else StatusText code).

(** A response with the given body, as gin's [c.JSON] writes it. *)
Definition json_response {T} (c : codec T) (code : Z) (x : T) : wire_response :=
  mkwire_response code (status_line code) "application/json; charset=utf-8" (Marshal c x) None.

(** gin's answer where there is no route. *)
Definition no_route : wire_response :=
  mkwire_response 404 (status_line 404) "text/plain" (chars "404 page not found") None.

(** [struct{}{}] *)
Definition empty_struct : codec unit := struct false (construct tt).
#[export] Instance empty_struct_lawful : Lawful empty_struct.
Proof. apply struct_lawful. struct_law. Qed.
