(* ===== verification/IdlClient.v ===== *)
(** * The generated HTTP client

    gen/iwfidl/configuration.go, client.go and api_default.go.  A call of the client
    is a program of the calls [httpE] of net/http.  Of the standard library, the
    parsing of urls, XML and the texts of errors are parameters ([NetText]). *)

From S2P Require Export ApiJson Wire Calls.

(** ** configuration.go *)

Record ServerVariable : Type := mkServerVariable {
  DefaultValue : string;
  EnumValues : list string
}.

Record ServerConfiguration : Type := mkServerConfiguration {
  URL : string;
  Variables : gmap string ServerVariable
}.

Record Configuration : Type := mkConfiguration {
  cfg_Host : string;
  cfg_Scheme : string;
  cfg_DefaultHeader : gmap string string;
  cfg_UserAgent : string;
  cfg_Debug : bool;
  cfg_Servers : list ServerConfiguration;
  cfg_OperationServers : gmap string (list ServerConfiguration)
}.

Definition NewConfiguration : Configuration :=
  mkConfiguration EmptyString EmptyString ∅ "OpenAPI-Generator/1.0.0/go" false
    [mkServerConfiguration "http://petstore.swagger.io/v2" ∅] ∅.

Definition AddDefaultHeader (key value : string) (c : Configuration) : Configuration :=
  mkConfiguration (cfg_Host c) (cfg_Scheme c) (<[key := value]> (cfg_DefaultHeader c)) (cfg_UserAgent c)
    (cfg_Debug c) (cfg_Servers c) (cfg_OperationServers c).

(** The values of a context that the client reads. *)
Inductive ctx_value : Type :=
| CtxInt (index : Z)
| CtxIndices (indices : gmap string Z)
| CtxVariables (variables : gmap string string)
| CtxOperationVariables (variables : gmap string (gmap string string))
| CtxOther (type : string).

(** [%T] *)
Definition type_name (v : ctx_value) : string :=
  match v with
  | CtxInt _ => "int"
  | CtxIndices _ => "map[string]int"
  | CtxVariables _ => "map[string]string"
  | CtxOperationVariables _ => "map[string]map[string]string"
  | CtxOther type => type
  end.

Inductive contextKey : Type :=
| ContextServerIndex | ContextOperationServerIndices
| ContextServerVariables | ContextOperationServerVariables.

(** A [context.Context]: its deadline (unix seconds) and its values. *)
Record go_context : Type := mkgo_context {
  gc_Deadline : option Z;
  gc_Value : contextKey -> option ctx_value
}.
(** [context.Background()] with a deadline. *)
Definition background (deadline : option Z) : go_context := mkgo_context deadline (fun _ => None).

(** [strings.Replace(s, old, new, -1)] for a non-empty [old]; [skip] characters belong to
    an occurrence already replaced. *)
Fixpoint replace_all (old new : string) (skip : nat) (s : string) : string :=
  match s with
  | EmptyString => EmptyString
  | String c s' =>
      match skip with
      | S skip => replace_all old new skip s'
      | O => if HasPrefix s old then new +:+ replace_all old new (String.length old - 1) s'
             else String c (replace_all old new O s')
      end
  end.

(** The loop over the variables of a server, in some order of the map. *)
Fixpoint replace_variables (vars : list (string * ServerVariable)) (variables : gmap string string)
  (url : string) : string + string :=
  match vars with
  | [] => inl url
  | (name, variable) :: vars =>
      let placeholder := "{" +:+ name +:+ "}" in
      match variables !! name with
      | Some value =>
          if negb (bool_decide (EnumValues variable = [])) && negb (bool_decide (value ∈ EnumValues variable))
          then inr ("the variable " +:+ name +:+ " in the server URL has invalid value " +:+ value +:+
                    ". Must be [" +:+ String.concat " " (EnumValues variable) +:+ "]")
          else replace_variables vars variables (replace_all placeholder value O url)
      | None => replace_variables vars variables (replace_all placeholder (DefaultValue variable) O url)
      end
  end.

Definition ServerConfigurations_URL (sc : list ServerConfiguration) (index : Z)
  (variables : gmap string string) : string + string :=
  match (if (0 <=? index)%Z then sc !! Z.to_nat index else None) with
  | None => inr ("index " +:+ pretty index +:+ " out of range " +:+ pretty (len sc - 1)%Z)
  | Some server => replace_variables (map_to_list (Variables server)) variables (URL server)
  end.

Definition ServerURL (c : Configuration) : Z -> gmap string string -> string + string :=
  ServerConfigurations_URL (cfg_Servers c).

Definition getServerIndex (ctx : go_context) : Z + string :=
  match gc_Value ctx ContextServerIndex with
  | None => inl 0%Z
  | Some (CtxInt index) => inl index
  | Some si => inr ("Invalid type " +:+ type_name si +:+ " should be int")
  end.

Definition getServerOperationIndex (ctx : go_context) (endpoint : string) : Z + string :=
  match gc_Value ctx ContextOperationServerIndices with
  | None => getServerIndex ctx
  | Some (CtxIndices operationIndices) =>
      match operationIndices !! endpoint with Some index => inl index | None => getServerIndex ctx end
  | Some osi => inr ("Invalid type " +:+ type_name osi +:+ " should be map[string]int")
  end.

Definition getServerVariables (ctx : go_context) : gmap string string + string :=
  match gc_Value ctx ContextServerVariables with
  | None => inl ∅
  | Some (CtxVariables variables) => inl variables
  | Some sv => inr ("ctx value of ContextServerVariables has invalid type " +:+ type_name sv +:+
                    " should be map[string]string")
  end.

Definition getServerOperationVariables (ctx : go_context) (endpoint : string) :
  gmap string string + string :=
  match gc_Value ctx ContextOperationServerVariables with
  | None => getServerVariables ctx
  | Some (CtxOperationVariables operationVariables) =>
      match operationVariables !! endpoint with
      | Some variables => inl variables
      | None => getServerVariables ctx
      end
  | Some osv => inr ("ctx value of ContextOperationServerVariables has invalid type " +:+ type_name osv +:+
                     " should be map[string]map[string]string")
  end.

Definition ServerURLWithContext (c : Configuration) (ctx : option go_context) (endpoint : string) :
  string + string :=
  let sc := default (cfg_Servers c) (cfg_OperationServers c !! endpoint) in
  match ctx with
  | None => ServerConfigurations_URL sc 0 ∅
  | Some ctx =>
      match getServerOperationIndex ctx endpoint with
      | inr err => inr err
      | inl index =>
          match getServerOperationVariables ctx endpoint with
          | inr err => inr err
          | inl variables => ServerConfigurations_URL sc index variables
          end
      end
  end.

(** ** client.go: headers and bodies *)

(** [strings.EqualFold], [contains]: equality up to case. *)
Definition EqualFold (a b : string) : bool := bool_decide (fold_name (chars a) = fold_name (chars b)).
Definition contains_fold (haystack : list string) (needle : string) : bool :=
  existsb (fun a => EqualFold a needle) haystack.

Definition selectHeaderContentType (contentTypes : list string) : string :=
  match contentTypes with
  | [] => EmptyString
  | first :: _ => if contains_fold contentTypes "application/json" then "application/json" else first
  end.

Definition selectHeaderAccept (accepts : list string) : string :=
  if bool_decide (accepts = []) then EmptyString
  else if contains_fold accepts "application/json" then "application/json"
  else String.concat "," accepts.

(** The text of [l] from its start up to case: what follows [w]. *)
Fixpoint strip_word (w l : list ascii) : option (list ascii) :=
  match w, l with
  | [], _ => Some l
  | a :: w, b :: l => if bool_decide (upper a = upper b) then strip_word w l else None
  | _ :: _, [] => None
  end.
Definition strips (w : string) (l : list ascii) : bool := is_set (strip_word (chars w) l).

(** Does [test] hold somewhere in the text? *)
Fixpoint somewhere (test : list ascii -> bool) (l : list ascii) : bool :=
  test l || match l with [] => false | _ :: l => somewhere test l end.

(** "json"; the regular expression folds the long s too. *)
Definition json_word (l : list ascii) : bool :=
  strips "json" l ||
  match strip_word ["j"%char] l with
  | Some (b :: c :: l) => bool_decide ([b; c] = ["197"; "191"]%char) && strips "on" l
  | _ => false
  end.

(** [[^;]+\+json], where [seen] characters were read. *)
Fixpoint vendor_json (seen : bool) (l : list ascii) : bool :=
  match l with
  | [] => false
  | a :: l =>
      seen && bool_decide (a = "+"%char) && json_word l ||
      negb (bool_decide (a = ";"%char)) && vendor_json true l
  end.

Definition json_at (l : list ascii) : bool :=
  json_word l ||
  match strip_word (chars "vnd.") l with Some l => vendor_json false l | None => false end.

Definition after_type (test : list ascii -> bool) (l : list ascii) : bool :=
  match strip_word (chars "application/") l with Some l => test l | None => false end ||
  match strip_word (chars "text/") l with Some l => test l | None => false end.

Definition jsonCheck (contentType : string) : bool := somewhere (after_type json_at) (chars contentType).
Definition xmlCheck (contentType : string) : bool := somewhere (after_type (strips "xml")) (chars contentType).

(** [setBody] of a value that is marshalled; the encoder ends it with a newline.  No
    operation sends XML. *)
Definition setBody (body : json) (contentType : string) : list ascii + string :=
  if jsonCheck contentType then inl (print body ++ ["010"%char])
  else inr ("invalid body type " +:+ contentType +:+ String "010" EmptyString).

(** [http.CanonicalHeaderKey]: of a token, the first letter and those after a hyphen are
    upper case, the others lower case. *)
Definition lower (a : ascii) : ascii :=
  if Json.between 65 90 a then ascii_of_N (Z.to_N (code a + 32)) else a.
Definition token_char (a : ascii) : bool :=
  is_digit a || Json.between 65 90 a || Json.between 97 122 a ||
  bool_decide (a ∈ ["!"; "#"; "$"; "%"; "&"; "'"; "*"; "+"; "-"; "."; "^"; "_"; "`"; "|"; "~"]%char).
Fixpoint canonical (start : bool) (l : list ascii) : list ascii :=
  match l with
  | [] => []
  | a :: l => (if start then upper a else lower a) :: canonical (bool_decide (a = "-"%char)) l
  end.
Definition CanonicalHeaderKey (key : string) : string :=
  if forallb token_char (chars key) then String.string_of_list_ascii (canonical true (chars key)) else key.

Definition Header_Add (key value : string) (h : gmap string (list string)) : gmap string (list string) :=
  let key := CanonicalHeaderKey key in <[key := map_get [] h key ++ [value]]> h.

(** The client the activities make, of one server and with their default headers. *)
Definition api_client (url : string) (DefaultHeaders : gmap string string) : Configuration :=
  mkConfiguration EmptyString EmptyString DefaultHeaders EmptyString false [mkServerConfiguration url ∅] ∅.

Lemma api_client_URL url headers ctx name :
  (forall key, gc_Value ctx key = None) -> ServerURLWithContext (api_client url headers) (Some ctx) name = inl url.
Proof.
  intros Hctx. unfold ServerURLWithContext. cbn. unfold getServerOperationIndex, getServerOperationVariables,
    getServerIndex, getServerVariables. rewrite !Hctx. done.
Qed.

(** ** Parameters of the client *)

Class NetText : Type := {
  (** [url.Parse(path)], the host and the scheme replaced where they are not empty, the
      query encoded again, [url.String()], and [http.NewRequest]'s check of it. *)
  request_url : string -> string -> string -> string + string;
  (** [xml.Unmarshal] *)
  xml_Unmarshal : forall {T}, codec T -> list ascii -> T -> T * option string;
  (** Where [json.Unmarshal] fails: what it leaves in the variable, and its error. *)
  Unmarshal_leaves : forall {T}, codec T -> list ascii -> T -> T;
  Unmarshal_error : forall {T}, codec T -> list ascii -> string;
  (** [fmt.Sprintf("%s", p)] of a pointer to a string: not the string, but the
      pointer's type and address. *)
  pointer_text : option string -> string
}.

(** ** client.go: requests and responses *)

Inductive httpE : Type -> Type :=
| Do (deadline : option Z) (request : http_request) : httpE (option wire_response * option string)
| DumpRequestOut (request : http_request) : httpE (option string)    (* its error *)
| DumpResponse (response : wire_response) : httpE (option string).

(** The models of the errors. *)
Inductive error_model : Type :=
| ErrorResponse_model (e : ErrorResponse)
| WorkerErrorResponse_model (e : WorkerErrorResponse).

Record GenericOpenAPIError : Type := mkGenericOpenAPIError {
  goe_body : list ascii;
  goe_error : string;
  goe_model : option error_model
}.

Inductive client_error : Type :=
| PlainError (msg : string)
| GenericError (e : GenericOpenAPIError).

(** [err.Error()] *)
Definition client_error_text (e : client_error) : string :=
  match e with PlainError msg => msg | GenericError e => goe_error e end.

(** The result of a call: the value, the response (whose body can be read again) and
    the error. *)
Record client_result (A : Type) : Type := mkclient_result {
  cr_value : option A;
  cr_response : option wire_response;
  cr_error : option client_error
}.
Arguments mkclient_result {A} _ _ _.
Arguments cr_value {A} _.
Arguments cr_response {A} _.
Arguments cr_error {A} _.

(** What its callers use of it. *)
Definition as_http_response (r : wire_response) : http_response :=
  mkhttp_response (wr_StatusCode r)
    (match wr_BodyError r with
     | None => inl (String.string_of_list_ascii (wr_Body r))
     | Some err => inr (OtherError err)
     end).
Definition as_api_result {A} (r : client_result A) : api_result A :=
  mkapi_result (cr_value r) (as_http_response <$> cr_response r) (client_error_text <$> cr_error r).

(** ** api_default.go: the operations *)

(** Which struct an error response of a given status decodes to. *)
Inductive model_kind : Type := ErrorResponseKind | WorkerErrorResponseKind.

(** What one operation of the API differs in.  [op_Response] is missing where the
    operation has no return value. *)
Record operation (Req Resp : Type) : Type := mkoperation {
  op_Name : string;
  op_Path : string;
  op_Method : string;
  op_ContentTypes : list string;
  op_Body : option (codec Req);
  op_Response : option (codec Resp);
  op_Errors : list (Z * model_kind)
}.
Arguments mkoperation {Req Resp} _ _ _ _ _ _ _.
Arguments op_Name {Req Resp} _.
Arguments op_Path {Req Resp} _.
Arguments op_Method {Req Resp} _.
Arguments op_ContentTypes {Req Resp} _.
Arguments op_Body {Req Resp} _.
Arguments op_Response {Req Resp} _.
Arguments op_Errors {Req Resp} _.

(** The request under construction ([ApiApiV1Workflow...Request]). *)
Record api_request (Req : Type) : Type := mkapi_request {
  ar_ctx : option go_context;
  ar_body : option Req
}.
Arguments mkapi_request {Req} _ _.
Arguments ar_ctx {Req} _.
Arguments ar_body {Req} _.

Definition new_request {Req} (ctx : option go_context) : api_request Req := mkapi_request ctx None.
Definition with_body {Req} (body : Req) (r : api_request Req) : api_request Req :=
  mkapi_request (ar_ctx r) (Some body).

Section client.
Context `{FloatText} {NT : NetText}.
Context (cfg : Configuration).

Definition callAPI (ctx : option go_context) (request : http_request) :
  proc httpE (option wire_response * option string) :=
  let deadline := ctx ≫= gc_Deadline in
  dumped ← (if cfg_Debug cfg then ask (DumpRequestOut request) else mret None);
  match dumped with
  | Some err => mret (None, Some err)
  | None =>
      r ← ask (Do deadline request);
      match r with
      | (resp, Some err) => mret (resp, Some err)
      | (Some resp, None) =>
          dumped ← (if cfg_Debug cfg then ask (DumpResponse resp) else mret None);
          mret (Some resp, dumped)
      | (None, None) => mret (None, None)
      end
  end.

(** [prepareRequest] of a request without a form, query parameters or files; a body is a
    pointer to a struct ([detectContentType]). *)
Definition prepareRequest (path method : string) (postBody : option json)
  (headerParams : gmap string string) : http_request + string :=
  let contentType := map_get EmptyString headerParams "Content-Type" in
  let headerParams :=
    match postBody with
    | Some _ =>
        if bool_decide (contentType = EmptyString)
        then <["Content-Type" := "application/json; charset=utf-8"]> headerParams else headerParams
    | None => headerParams
    end in
  let body :=
    match postBody with
    | Some value =>
        match setBody value (map_get EmptyString headerParams "Content-Type") with
        | inl body => inl (Some body)
        | inr err => inr err
        end
    | None => inl None
    end in
  match body with
  | inr err => inr err
  | inl body =>
      match request_url (cfg_Host cfg) (cfg_Scheme cfg) path with
      | inr err => inr err
      | inl url =>
          let headers : gmap string (list string) := (fun v => [v]) <$> headerParams in
          let headers := Header_Add "User-Agent" (cfg_UserAgent cfg) headers in
          (* in some order of the map *)
          let headers := foldl (fun h kv => Header_Add kv.1 kv.2 h) headers (map_to_list (cfg_DefaultHeader cfg)) in
          inl (mkhttp_request method url headers body)
      end
  end.

(** [decode(&v, b, contentType)] where [v] holds [old]; no operation reads a file. *)
Definition decode {T} (c : codec T) (b : list ascii) (contentType : string) (old : T) : T * option string :=
  if bool_decide (b = []) then (old, None)
  else if xmlCheck contentType then xml_Unmarshal c b old
  else if jsonCheck contentType then
    match Unmarshal_text b ≫= (fun j => dec c j old) with
    | Some v => (v, None)
    | None => (Unmarshal_leaves c b old, Some (Unmarshal_error c b))
    end
  else (old, Some "undefined response type").

(** [strings.TrimSpace] of ASCII. *)
Definition trim_space (s : string) : string :=
  let trim := fix trim (l : list ascii) :=
    match l with a :: r => if bool_decide (a ∈ [" "; "009"; "010"; "011"; "012"; "013"]%char) then trim r else l
               | [] => [] end in
  String.string_of_list_ascii (rev (trim (rev (trim (chars s))))).

(** The models have a field Detail, a pointer, and no field Title. *)
Definition formatErrorMessage (status : string) (detail : option string) : string :=
  let str := EmptyString in
  let str := str +:+ " (" +:+ pointer_text detail +:+ ")" in
  trim_space (status +:+ " " +:+ str).

Definition decode_model (kind : model_kind) (body : list ascii) (contentType status : string) :
  string * option error_model :=
  match kind with
  | ErrorResponseKind =>
      match decode ErrorResponse_codec body contentType (zero ErrorResponse_codec) with
      | (_, Some err) => (err, None)
      | (v, None) => (formatErrorMessage status (er_Detail v), Some (ErrorResponse_model v))
      end
  | WorkerErrorResponseKind =>
      match decode WorkerErrorResponse_codec body contentType (zero WorkerErrorResponse_codec) with
      | (_, Some err) => (err, None)
      | (v, None) => (formatErrorMessage status (we_Detail v), Some (WorkerErrorResponse_model v))
      end
  end.

Definition status_error (errors : list (Z * model_kind)) (resp : wire_response) (body : list ascii) :
  GenericOpenAPIError :=
  match find (fun e => (wr_StatusCode resp =? e.1)%Z) errors with
  | None => mkGenericOpenAPIError body (wr_Status resp) None
  | Some (_, kind) =>
      let '(err, model) := decode_model kind body (wr_ContentType resp) (wr_Status resp) in
      mkGenericOpenAPIError body err model
  end.

(** The rest of a call, after the response was received. *)
Definition read_response {Req Resp} (op : operation Req Resp) (resp : wire_response) : client_result Resp :=
  (* the bytes that were read replace the body *)
  let localVarBody := wr_Body resp in
  let response := mkwire_response (wr_StatusCode resp) (wr_Status resp) (wr_ContentType resp) localVarBody None in
  match wr_BodyError resp with
  | Some err => mkclient_result None (Some response) (Some (PlainError err))
  | None =>
      if (300 <=? wr_StatusCode resp)%Z then
        mkclient_result None (Some response) (Some (GenericError (status_error (op_Errors op) resp localVarBody)))
      else
        match op_Response op with
        | None => mkclient_result None (Some response) None
        | Some c =>
            let '(value, err) := decode (ptr c) localVarBody (wr_ContentType resp) None in
            mkclient_result value (Some response)
              ((fun err => GenericError (mkGenericOpenAPIError localVarBody err None)) <$> err)
        end
  end.

Definition header_params {Req Resp} (op : operation Req Resp) : gmap string string :=
  let contentType := selectHeaderContentType (op_ContentTypes op) in
  let accept := selectHeaderAccept ["application/json"] in
  let params : gmap string string :=
    if bool_decide (contentType = EmptyString) then ∅ else {[ "Content-Type" := contentType ]} in
  if bool_decide (accept = EmptyString) then params else <["Accept" := accept]> params.

(** The request an operation makes. *)
Definition operation_request {Req Resp} (op : operation Req Resp) (basePath : string) (body : option Req) :
  http_request + string :=
  prepareRequest (basePath +:+ op_Path op) (op_Method op) ((fun c => enc (ptr c) body) <$> op_Body op)
    (header_params op).

Definition Execute {Req Resp} (op : operation Req Resp) (r : api_request Req) :
  proc httpE (client_result Resp) :=
  match ServerURLWithContext cfg (ar_ctx r) ("DefaultApiService." +:+ op_Name op) with
  | inr err => mret (mkclient_result None None (Some (GenericError (mkGenericOpenAPIError [] err None))))
  | inl localBasePath =>
      match operation_request op localBasePath (ar_body r) with
      | inr err => mret (mkclient_result None None (Some (PlainError err)))
      | inl req =>
          '(resp, err) ← callAPI (ar_ctx r) req;
          mret match err, resp with
               | Some err, _ => mkclient_result None resp (Some (PlainError err))
               | None, None => mkclient_result None None None
               | None, Some resp => read_response op resp
               end
      end
  end.

Definition post {Req Resp} (name path : string) (c : codec Req) (response : option (codec Resp))
  (errors : list (Z * model_kind)) : operation Req Resp :=
  mkoperation name path "POST" ["application/json"] (Some c) response errors.
Definition bad_request : list (Z * model_kind) := [(400%Z, ErrorResponseKind)].
Definition worker_error : list (Z * model_kind) := [(400%Z, WorkerErrorResponseKind)].

Definition ApiV1WorkflowConfigUpdatePost_op : operation WorkflowConfigUpdateRequest unit :=
  post "ApiV1WorkflowConfigUpdatePost" "/api/v1/workflow/config/update" WorkflowConfigUpdateRequest_codec
    None bad_request.
Definition ApiV1WorkflowConfigUpdatePostExecute (r : api_request WorkflowConfigUpdateRequest) :
  proc httpE (client_result unit) := Execute ApiV1WorkflowConfigUpdatePost_op r.

Definition ApiV1WorkflowDataobjectsGetPost_op : operation WorkflowGetDataObjectsRequest WorkflowGetDataObjectsResponse :=
  post "ApiV1WorkflowDataobjectsGetPost" "/api/v1/workflow/dataobjects/get" WorkflowGetDataObjectsRequest_codec
    (Some WorkflowGetDataObjectsResponse_codec) bad_request.
Definition ApiV1WorkflowDataobjectsGetPostExecute (r : api_request WorkflowGetDataObjectsRequest) :
  proc httpE (client_result WorkflowGetDataObjectsResponse) := Execute ApiV1WorkflowDataobjectsGetPost_op r.

Definition ApiV1WorkflowDataobjectsSetPost_op : operation WorkflowSetDataObjectsRequest unit :=
  post "ApiV1WorkflowDataobjectsSetPost" "/api/v1/workflow/dataobjects/set" WorkflowSetDataObjectsRequest_codec
    None bad_request.
Definition ApiV1WorkflowDataobjectsSetPostExecute (r : api_request WorkflowSetDataObjectsRequest) :
  proc httpE (client_result unit) := Execute ApiV1WorkflowDataobjectsSetPost_op r.

Definition ApiV1WorkflowEncodedobjectLoadPost_op : operation EncodedObject EncodedObject :=
  post "ApiV1WorkflowEncodedobjectLoadPost" "/api/v1/workflow/encodedobject/load" EncodedObject_codec
    (Some EncodedObject_codec) bad_request.
Definition ApiV1WorkflowEncodedobjectLoadPostExecute (r : api_request EncodedObject) :
  proc httpE (client_result EncodedObject) := Execute ApiV1WorkflowEncodedobjectLoadPost_op r.

Definition ApiV1WorkflowGetPost_op : operation WorkflowGetRequest WorkflowGetResponse :=
  post "ApiV1WorkflowGetPost" "/api/v1/workflow/get" WorkflowGetRequest_codec
    (Some WorkflowGetResponse_codec) bad_request.
Definition ApiV1WorkflowGetPostExecute (r : api_request WorkflowGetRequest) :
  proc httpE (client_result WorkflowGetResponse) := Execute ApiV1WorkflowGetPost_op r.

Definition ApiV1WorkflowGetWithWaitPost_op : operation WorkflowGetRequest WorkflowGetResponse :=
  post "ApiV1WorkflowGetWithWaitPost" "/api/v1/workflow/getWithWait" WorkflowGetRequest_codec
    (Some WorkflowGetResponse_codec) [(400%Z, ErrorResponseKind); (420%Z, ErrorResponseKind)].
Definition ApiV1WorkflowGetWithWaitPostExecute (r : api_request WorkflowGetRequest) :
  proc httpE (client_result WorkflowGetResponse) := Execute ApiV1WorkflowGetWithWaitPost_op r.

Definition ApiV1WorkflowInternalDumpPost_op : operation WorkflowDumpRequest WorkflowDumpResponse :=
  post "ApiV1WorkflowInternalDumpPost" "/api/v1/workflow/internal/dump" WorkflowDumpRequest_codec
    (Some WorkflowDumpResponse_codec) bad_request.
Definition ApiV1WorkflowInternalDumpPostExecute (r : api_request WorkflowDumpRequest) :
  proc httpE (client_result WorkflowDumpResponse) := Execute ApiV1WorkflowInternalDumpPost_op r.

Definition ApiV1WorkflowPublishToInternalChannelPost_op : operation PublishToInternalChannelRequest unit :=
  post "ApiV1WorkflowPublishToInternalChannelPost" "/api/v1/workflow/publishToInternalChannel" PublishToInternalChannelRequest_codec
    None bad_request.
Definition ApiV1WorkflowPublishToInternalChannelPostExecute (r : api_request PublishToInternalChannelRequest) :
  proc httpE (client_result unit) := Execute ApiV1WorkflowPublishToInternalChannelPost_op r.

Definition ApiV1WorkflowResetPost_op : operation WorkflowResetRequest WorkflowResetResponse :=
  post "ApiV1WorkflowResetPost" "/api/v1/workflow/reset" WorkflowResetRequest_codec
    (Some WorkflowResetResponse_codec) bad_request.
Definition ApiV1WorkflowResetPostExecute (r : api_request WorkflowResetRequest) :
  proc httpE (client_result WorkflowResetResponse) := Execute ApiV1WorkflowResetPost_op r.

Definition ApiV1WorkflowRpcPost_op : operation WorkflowRpcRequest WorkflowRpcResponse :=
  post "ApiV1WorkflowRpcPost" "/api/v1/workflow/rpc" WorkflowRpcRequest_codec
    (Some WorkflowRpcResponse_codec) [(400%Z, ErrorResponseKind); (420%Z, ErrorResponseKind); (450%Z, ErrorResponseKind)].
Definition ApiV1WorkflowRpcPostExecute (r : api_request WorkflowRpcRequest) :
  proc httpE (client_result WorkflowRpcResponse) := Execute ApiV1WorkflowRpcPost_op r.

Definition ApiV1WorkflowSearchPost_op : operation WorkflowSearchRequest WorkflowSearchResponse :=
  post "ApiV1WorkflowSearchPost" "/api/v1/workflow/search" WorkflowSearchRequest_codec
    (Some WorkflowSearchResponse_codec) bad_request.
Definition ApiV1WorkflowSearchPostExecute (r : api_request WorkflowSearchRequest) :
  proc httpE (client_result WorkflowSearchResponse) := Execute ApiV1WorkflowSearchPost_op r.

Definition ApiV1WorkflowSearchattributesGetPost_op : operation WorkflowGetSearchAttributesRequest WorkflowGetSearchAttributesResponse :=
  post "ApiV1WorkflowSearchattributesGetPost" "/api/v1/workflow/searchattributes/get" WorkflowGetSearchAttributesRequest_codec
    (Some WorkflowGetSearchAttributesResponse_codec) bad_request.
Definition ApiV1WorkflowSearchattributesGetPostExecute (r : api_request WorkflowGetSearchAttributesRequest) :
  proc httpE (client_result WorkflowGetSearchAttributesResponse) := Execute ApiV1WorkflowSearchattributesGetPost_op r.

Definition ApiV1WorkflowSearchattributesSetPost_op : operation WorkflowSetSearchAttributesRequest unit :=
  post "ApiV1WorkflowSearchattributesSetPost" "/api/v1/workflow/searchattributes/set" WorkflowSetSearchAttributesRequest_codec
    None bad_request.
Definition ApiV1WorkflowSearchattributesSetPostExecute (r : api_request WorkflowSetSearchAttributesRequest) :
  proc httpE (client_result unit) := Execute ApiV1WorkflowSearchattributesSetPost_op r.

Definition ApiV1WorkflowSignalPost_op : operation WorkflowSignalRequest unit :=
  post "ApiV1WorkflowSignalPost" "/api/v1/workflow/signal" WorkflowSignalRequest_codec
    None bad_request.
Definition ApiV1WorkflowSignalPostExecute (r : api_request WorkflowSignalRequest) :
  proc httpE (client_result unit) := Execute ApiV1WorkflowSignalPost_op r.

Definition ApiV1WorkflowStartPost_op : operation WorkflowStartRequest WorkflowStartResponse :=
  post "ApiV1WorkflowStartPost" "/api/v1/workflow/start" WorkflowStartRequest_codec
    (Some WorkflowStartResponse_codec) bad_request.
Definition ApiV1WorkflowStartPostExecute (r : api_request WorkflowStartRequest) :
  proc httpE (client_result WorkflowStartResponse) := Execute ApiV1WorkflowStartPost_op r.

Definition ApiV1WorkflowStateDecidePost_op : operation WorkflowStateDecideRequest WorkflowStateDecideResponse :=
  post "ApiV1WorkflowStateDecidePost" "/api/v1/workflowState/decide" WorkflowStateDecideRequest_codec
    (Some WorkflowStateDecideResponse_codec) worker_error.
Definition ApiV1WorkflowStateDecidePostExecute (r : api_request WorkflowStateDecideRequest) :
  proc httpE (client_result WorkflowStateDecideResponse) := Execute ApiV1WorkflowStateDecidePost_op r.

Definition ApiV1WorkflowStateStartPost_op : operation WorkflowStateStartRequest WorkflowStateStartResponse :=
  post "ApiV1WorkflowStateStartPost" "/api/v1/workflowState/start" WorkflowStateStartRequest_codec
    (Some WorkflowStateStartResponse_codec) worker_error.
Definition ApiV1WorkflowStateStartPostExecute (r : api_request WorkflowStateStartRequest) :
  proc httpE (client_result WorkflowStateStartResponse) := Execute ApiV1WorkflowStateStartPost_op r.

Definition ApiV1WorkflowStopPost_op : operation WorkflowStopRequest unit :=
  post "ApiV1WorkflowStopPost" "/api/v1/workflow/stop" WorkflowStopRequest_codec
    None bad_request.
Definition ApiV1WorkflowStopPostExecute (r : api_request WorkflowStopRequest) :
  proc httpE (client_result unit) := Execute ApiV1WorkflowStopPost_op r.

Definition ApiV1WorkflowTimerSkipPost_op : operation WorkflowSkipTimerRequest unit :=
  post "ApiV1WorkflowTimerSkipPost" "/api/v1/workflow/timer/skip" WorkflowSkipTimerRequest_codec
    None bad_request.
Definition ApiV1WorkflowTimerSkipPostExecute (r : api_request WorkflowSkipTimerRequest) :
  proc httpE (client_result unit) := Execute ApiV1WorkflowTimerSkipPost_op r.

Definition ApiV1WorkflowTriggerContinueAsNewPost_op : operation TriggerContinueAsNewRequest unit :=
  post "ApiV1WorkflowTriggerContinueAsNewPost" "/api/v1/workflow/triggerContinueAsNew" TriggerContinueAsNewRequest_codec
    None bad_request.
Definition ApiV1WorkflowTriggerContinueAsNewPostExecute (r : api_request TriggerContinueAsNewRequest) :
  proc httpE (client_result unit) := Execute ApiV1WorkflowTriggerContinueAsNewPost_op r.

Definition ApiV1WorkflowWaitForStateCompletionPost_op : operation WorkflowWaitForStateCompletionRequest WorkflowWaitForStateCompletionResponse :=
  post "ApiV1WorkflowWaitForStateCompletionPost" "/api/v1/workflow/waitForStateCompletion" WorkflowWaitForStateCompletionRequest_codec
    (Some WorkflowWaitForStateCompletionResponse_codec) [(400%Z, ErrorResponseKind); (420%Z, ErrorResponseKind)].
Definition ApiV1WorkflowWaitForStateCompletionPostExecute (r : api_request WorkflowWaitForStateCompletionRequest) :
  proc httpE (client_result WorkflowWaitForStateCompletionResponse) := Execute ApiV1WorkflowWaitForStateCompletionPost_op r.

Definition ApiV1WorkflowWorkerRpcPost_op : operation WorkflowWorkerRpcRequest WorkflowWorkerRpcResponse :=
  post "ApiV1WorkflowWorkerRpcPost" "/api/v1/workflowWorker/rpc" WorkflowWorkerRpcRequest_codec
    (Some WorkflowWorkerRpcResponse_codec) worker_error.
Definition ApiV1WorkflowWorkerRpcPostExecute (r : api_request WorkflowWorkerRpcRequest) :
  proc httpE (client_result WorkflowWorkerRpcResponse) := Execute ApiV1WorkflowWorkerRpcPost_op r.

Definition InfoHealthcheckGet_op : operation unit HealthInfo :=
  mkoperation "InfoHealthcheckGet" "/info/healthcheck" "GET" [] None (Some HealthInfo_codec) [].
Definition InfoHealthcheckGetExecute (r : api_request unit) : proc httpE (client_result HealthInfo) := Execute InfoHealthcheckGet_op r.

End client.
