(* ===== verification/Simulate.v ===== *)
(** * A simulated backend

    A concrete, executable answer to every call of the provider interface: a
    clock, FIFO signal channels, timers that fire by the clock, and workers given
    as functions.  It instantiates the arbitrary handlers of the theorems (their
    hypotheses hold for it), and [run_pool] runs a whole workflow on it. *)

From S2P Require Export Provider Sharing.

(** ** The world a run talks to *)

(** What a worker remembers between its calls: how often it was called, what it
    noted, and what it complained about; the external storage, the objects by bucket
    and key; and the signals sent to the workflows that wait for a state, by their id. *)
Inductive datum : Type :=
| DInt (z : Z) | DText (s : string) | DFlag (b : bool) | DObject (v : option EncodedObject)
| DChannel (s : ChannelRequestStatus) | DTimer (s : TimerStatus)
| DAttributes (l : list SearchAttribute) | DObjects (l : list KeyValue)
| DResults (r : option CommandResults) | DChannels (m : list (string * ChannelInfo)).

Record WorkerState : Type := mkWorkerState {
  invokeHistory : gmap string Z;
  invokeData : gmap string datum;
  flags : gmap string bool;
  complaint : option string;
  stored_objects : gmap (string * string) string;
  waiting_workflows : gmap string (list StateCompletionOutput)
}.
Definition new_worker : WorkerState := mkWorkerState ∅ ∅ ∅ None ∅ ∅.

(** Starts the workflow that waits for a state unless it runs, and signals it. *)
Definition signal_waiting (workflowId : string) (signals : list StateCompletionOutput) (h : WorkerState) : WorkerState :=
  mkWorkerState (invokeHistory h) (invokeData h) (flags h) (complaint h) (stored_objects h)
    (<[workflowId := map_get [] (waiting_workflows h) workflowId ++ signals]> (waiting_workflows h)).

Record World : Type := mkWorld {
  clock : Z;                                       (* unix nanoseconds *)
  value_signals : gmap string (list EncodedObject);
  fail_signals : gmap string (list FailWorkflowSignalRequest);
  skip_signals : gmap string (list SkipTimerSignalRequest);
  config_signals : gmap string (list WorkflowConfig);
  trigger_signals : gmap string (list unit);
  rpc_signals : gmap string (list ExecuteRpcSignalRequest);
  completion_signals : gmap string (list StateCompletionOutput);
  timer_ends : list Z;                             (* of the futures, in order *)
  events : list EventType;                         (* what event.Handle was told *)
  threads : Z;
  worker : WorkerState;
  horizon : option Z;                              (* time does not pass beyond it *)
  failure : option error                           (* the last error event.Handle was told *)
}.

Definition quiet_world (now : Z) : World := mkWorld now ∅ ∅ ∅ ∅ ∅ ∅ ∅ [] [] 0 new_worker None None.

Definition signals_of {T} (ty : sigty T) (w : World) : gmap string (list T) :=
  match ty in sigty T return gmap string (list T) with
  | SigValue => value_signals w | SigFail => fail_signals w | SigSkip => skip_signals w
  | SigConfig => config_signals w | SigTrigger => trigger_signals w | SigRpc => rpc_signals w
  | SigCompletion => completion_signals w
  end.

Definition set_signals {T} (ty : sigty T) : gmap string (list T) -> World -> World :=
  match ty in sigty T return gmap string (list T) -> World -> World with
  | SigValue => fun m '(mkWorld c _ f s g t r o e v n h q z) => mkWorld c m f s g t r o e v n h q z
  | SigFail => fun m '(mkWorld c u _ s g t r o e v n h q z) => mkWorld c u m s g t r o e v n h q z
  | SigSkip => fun m '(mkWorld c u f _ g t r o e v n h q z) => mkWorld c u f m g t r o e v n h q z
  | SigConfig => fun m '(mkWorld c u f s _ t r o e v n h q z) => mkWorld c u f s m t r o e v n h q z
  | SigTrigger => fun m '(mkWorld c u f s g _ r o e v n h q z) => mkWorld c u f s g m r o e v n h q z
  | SigRpc => fun m '(mkWorld c u f s g t _ o e v n h q z) => mkWorld c u f s g t m o e v n h q z
  | SigCompletion => fun m '(mkWorld c u f s g t r _ e v n h q z) => mkWorld c u f s g t r m e v n h q z
  end.

Definition pending {T} (ty : sigty T) (n : string) (w : World) : list T :=
  map_get [] (signals_of ty w) n.

(** Receive the oldest signal of a channel. *)
Definition pop {T} (ty : sigty T) (n : string) (w : World) : option T * World :=
  match pending ty n w with
  | [] => (None, w)
  | v :: rest => (Some v, set_signals ty (<[n := rest]> (signals_of ty w)) w)
  end.

(** Send a signal. *)
Definition signal {T} (ty : sigty T) (n : string) (v : T) (w : World) : World :=
  set_signals ty (<[n := pending ty n w ++ [v]]> (signals_of ty w)) w.

Definition names_of {T} (m : gmap string (list T)) : list string :=
  List.filter (fun n => match map_get [] m n with [] => false | _ => true end)
    (DeterministicKeys m).

Definition unhandled (w : World) : list string :=
  names_of (value_signals w) ++ names_of (fail_signals w) ++ names_of (skip_signals w) ++
  names_of (config_signals w) ++ names_of (trigger_signals w) ++ names_of (rpc_signals w) ++
  names_of (completion_signals w).

Definition set_clock (c : Z) (w : World) : World :=
  let '(mkWorld _ u f s g t r o e v n h q z) := w in mkWorld c u f s g t r o e v n h q z.
Definition add_timer (d : Z) (w : World) : World :=
  let '(mkWorld c u f s g t r o e v n h q z) := w in mkWorld c u f s g t r o (e ++ [c + d])%Z v n h q z.
Definition clear_timers (w : World) : World :=
  let '(mkWorld c u f s g t r o _ v n h q z) := w in mkWorld c u f s g t r o [] v n h q z.
Definition add_event (ev : EventType) (w : World) : World :=
  let '(mkWorld c u f s g t r o e v n h q z) := w in mkWorld c u f s g t r o e (v ++ [ev]) n h q z.
Definition set_worker (h : WorkerState) (w : World) : World :=
  let '(mkWorld c u f s g t r o e v n _ q z) := w in mkWorld c u f s g t r o e v n h q z.
Definition set_horizon (q : option Z) (w : World) : World :=
  let '(mkWorld c u f s g t r o e v n h _ z) := w in mkWorld c u f s g t r o e v n h q z.
Definition add_failure (e : option error) (w : World) : World :=
  let '(mkWorld c u f s g t r o v' v n h q z) := w in
  mkWorld c u f s g t r o v' v n h q (match e with Some _ => e | None => z end).
Definition set_threads (n : Z) (w : World) : World :=
  let '(mkWorld c u f s g t r o e v _ h q z) := w in mkWorld c u f s g t r o e v n h q z.

(** A value for a blocking receive on an empty channel, which a real run would
    still be waiting in. *)
Definition no_signal {T} (ty : sigty T) : T :=
  match ty in sigty T return T with
  | SigValue => empty_EncodedObject
  | SigFail => mkFailWorkflowSignalRequest EmptyString
  | SigSkip => mkSkipTimerSignalRequest EmptyString EmptyString 0
  | SigConfig => mkWorkflowConfig None None None None None None
  | SigTrigger => tt
  | SigRpc => mkExecuteRpcSignalRequest None None [] [] None [] []
  | SigCompletion => mkStateCompletionOutput EmptyString EmptyString None
  end.

(** ** The workers and the answers *)

(** The workers answer an attempt, counted from 1, at a time, and may remember it. *)
Record Workers : Type := mkStatefulWorkers {
  wait_until_api : Z -> Z -> StateStartActivityInput -> WorkerState ->
                   (WorkflowStateStartResponse + error) * WorkerState;
  execute_api : Z -> Z -> StateDecideActivityInput -> WorkerState ->
                (WorkflowStateDecideResponse + error) * WorkerState;
  rpc_api : WorkflowRpcRequest -> InvokeRpcActivityOutput + error;
  dump_api : WorkflowDumpRequest -> WorkflowDumpResponse + error
}.

(** Workers that remember nothing. *)
Definition mkWorkers (wait_until : StateStartActivityInput -> WorkflowStateStartResponse + error)
  (execute : StateDecideActivityInput -> WorkflowStateDecideResponse + error)
  (rpc : WorkflowRpcRequest -> InvokeRpcActivityOutput + error)
  (dump : WorkflowDumpRequest -> WorkflowDumpResponse + error) : Workers :=
  mkStatefulWorkers (fun _ _ i h => (wait_until i, h)) (fun _ _ i h => (execute i, h)) rpc dump.

(** The attempts of an activity: those of its policy; the simulated backend gives up
    after ten where the policy has no limit, and no time passes between them. *)
Definition tries (maximumAttempts : Z) : nat :=
  if (0 <? maximumAttempts)%Z then Z.to_nat maximumAttempts else 10.
Definition tries_of (options : ActivityOptions) : nat :=
  tries (default 0%Z (ao_RetryPolicy options ≫= MaximumAttempts)).

(** [more] attempts after the first. *)
Fixpoint run_attempts {A} (more : nat) (attempt : Z) (f : Z -> Z -> WorkerState -> (A + error) * WorkerState)
  (w : World) : (A + error) * World :=
  let '(r, h) := f attempt (clock w) (worker w) in
  match r, more with
  | inr _, S more => run_attempts more (attempt + 1)%Z f (set_worker h w)
  | _, _ => (r, set_worker h w)
  end.

(** An optimised activity that failed as a local one is run again. *)
Definition run_simulated {A} (optimize : bool) (n : nat)
  (f : Z -> Z -> WorkerState -> (A + error) * WorkerState) (w : World) : (A + error) * World :=
  let '(r, w) := run_attempts (pred n) 1 f w in
  match r with
  | inr _ => if optimize then run_attempts (pred n) 1 f w else (r, w)
  | inl _ => (r, w)
  end.

Definition no_workers : Workers :=
  mkWorkers (fun _ => inr (OtherError "no worker")) (fun _ => inr (OtherError "no worker"))
    (fun _ => inr (OtherError "no worker")) (fun _ => inr (OtherError "no worker")).

Definition sim_info : WorkflowInfo := mkWorkflowInfo (mkWorkflowExecution "wid" "run") 0 0 "run" "run".

Definition sim (b : Workers) (X : Type) (e : providerE X) (w : World) : X * World :=
  match e in providerE X return X * World with
  | GetWorkflowInfo => (sim_info, w)
  | GetSearchAttributes _ => (inl ∅, w)
  | UpsertSearchAttributes _ => (None, w)
  | UpsertMemo _ => (None, w)
  | SetQueryHandler _ => (None, w)
  | SetRpcUpdateHandler _ => (None, w)
  | GetThreadCount => (threads w, w)
  | Now => (clock w, w)
  | TimeNow => (clock w, w)
  | IsReplaying => (false, w)
  | Sleep d => (None, set_clock (clock w + d)%Z w)
  | NewTimer d => (length (timer_ends w), add_timer d w)
  | IsReady future => (bool_decide (default 0 (timer_ends w !! future) <= clock w)%Z, w)
  | FutureGet future => (None, set_clock (Z.max (clock w) (default 0 (timer_ends w !! future)))%Z w)
  | ReceiveAsync ty name => pop ty name w
  | ReceiveBlocking ty name => let '(v, w') := pop ty name w in (default (no_signal ty) v, w')
  | GetVersion _ _ maxSupported => (maxSupported, w)
  | GetUnhandledSignalNames => (unhandled w, w)
  | GetBackendType => (BackendTypeTemporal, w)
  | NewInterpreterContinueAsNewError _ => (OtherError "continue as new", w)
  | ExecuteStateStart optimize options _ input _ =>
      run_simulated optimize (tries_of options) (fun attempt now => wait_until_api b attempt now input) w
  | ExecuteStateDecide optimize options _ input =>
      run_simulated optimize (tries_of options) (fun attempt now => execute_api b attempt now input) w
  | ExecuteDumpWorkflowInternal _ request => (dump_api b request, w)
  | ExecuteInvokeWorkerRpc _ _ _ _ input => (rpc_api b input, w)
  | ExecuteCleanupBlobStore _ _ => (None, w)
  | HandleEvent event => (tt, add_failure (ev_Error event) (add_event (ev_EventType event) w))
  | SignalWithStartOn => ("old", w)
  | SignalWithStartWaitForStateCompletionWorkflow workflowId =>
      (None, set_worker (signal_waiting workflowId [mkStateCompletionOutput EmptyString EmptyString None] (worker w)) w)
  | IsWorkflowAlreadyStartedError _ => (false, w)
  end.

(** ** The channels of the world are FIFO queues *)

Lemma pending_set {T} (ty : sigty T) m n w : pending ty n (set_signals ty m w) = map_get [] m n.
Proof. by destruct ty, w. Qed.

Lemma pop_spec {T} (ty : sigty T) n w :
  fst (pop ty n w) = head (pending ty n w) /\
  pending ty n (snd (pop ty n w)) = tail (pending ty n w).
Proof.
  unfold pop. destruct (pending ty n w) as [|v rest] eqn:E; cbn; [by rewrite E|].
  split; [done|]. rewrite pending_set. unfold map_get. by rewrite lookup_insert_eq.
Qed.

Lemma elem_of_names_of {T} (m : gmap string (list T)) n : map_get [] m n <> [] -> n ∈ names_of m.
Proof.
  intros Hn. unfold names_of. rewrite list_elem_of_In, filter_In, <- list_elem_of_In. split.
  - apply (elem_of_sorted_keys String.le). unfold map_get in Hn. destruct (m !! n); [eauto | done].
  - destruct (map_get [] m n) eqn:E; [congruence | done].
Qed.

Lemma elem_of_unhandled {T} (ty : sigty T) n w : pending ty n w <> [] -> n ∈ unhandled w.
Proof.
  intros Hn. unfold unhandled. rewrite !elem_of_app.
  destruct ty; apply elem_of_names_of in Hn; tauto.
Qed.

(** The signal channels of the world behave as the SDKs document theirs. *)
Lemma pop_other {T T'} (ty : sigty T) (ty' : sigty T') n n' w :
  (sig_kind ty', n') <> (sig_kind ty, n) ->
  pending ty' n' (snd (pop ty n w)) = pending ty' n' w.
Proof.
  intros Hne. unfold pop. destruct (pending ty n w) as [|v rest]; [done|]. cbn [snd].
  destruct ty, ty'; try (by destruct w);
    (rewrite pending_set; unfold pending, map_get; rewrite lookup_insert_ne; [done | congruence]).
Qed.

(** ** Running a pool *)

Section run_pool.
Context {St : Type} (b : Workers).
Notation thread := (thread St providerE).

(** What a coroutine at a yield does when it is given the floor: nothing while
    what it waits for has not happened. *)
Definition wake (t : thread unit) (w : World) (s : St) : option (thread unit * World) :=
  match t with
  | Done _ => None
  | Wait c k => if c s then Some (k None, w) else None
  | Poll e ok k =>
      let '(x, w') := sim b _ e w in if ok x s then Some (k (inl x), w') else None
  | Call e k => if blocking _ e then let '(x, w') := sim b _ e w in Some (k x, w') else Some (t, w)
  | _ => Some (t, w)
  end.

(** The first coroutine that can go on, with those before and after it. *)
Fixpoint pick (before ts : list (thread unit)) (w : World) (s : St) :
  option (list (thread unit) * thread unit * list (thread unit) * World) :=
  match ts with
  | [] => None
  | t :: rest =>
      match wake t w s with
      | Some (t', w') => Some (before, t', rest, w')
      | None => pick (before ++ [t]) rest w s
      end
  end.

(** Does the coroutine go on by itself, as the SDKs' [Await] does when its
    condition already holds?  A call that blocks gives the floor away. *)
Definition goes_on (t : thread unit) (w : World) (s : St) : option (thread unit * World) :=
  match t with
  | Wait _ _ | Poll _ _ _ => wake t w s
  | _ => None
  end.

(** When the next timer fires. *)
Definition next_end (w : World) : option Z :=
  foldr (fun e r =>
    if (clock w <? e)%Z && match horizon w with Some q => (e <=? q)%Z | None => true end then Some (match r with Some c => Z.min c e | None => e end) else r)
    None (timer_ends w).

(** [fuel] steps: the running coroutine goes on as long as it can, then the next
    one in turn (the coroutines form a circle); when none can, time passes until the next timer fires.
    The run stops when a coroutine crashes or all wait for something that cannot
    happen. *)
Fixpoint run_pool (fuel : nat) (t : thread unit) (ws : list (thread unit)) (w : World) (s : St) :
  thread unit * list (thread unit) * World * St :=
  match fuel with
  | O => (t, ws, w, s)
  | S fuel' =>
      if at_yield t then
        let w := set_threads (live (t :: ws) - 1) w in
        match goes_on t w s with
        | Some (t', w') => run_pool fuel' t' ws w' s
        | None =>
            match pick [] ws w s with
            | Some (before, t', after, w') => run_pool fuel' t' (after ++ t :: before) w' s
            | None =>
                match wake t w s with
                | Some (t', w') => run_pool fuel' t' ws w' s
                | None =>
                    match next_end w with
                    | Some c => run_pool fuel' t ws (set_clock c w) s
                    | None => (t, ws, w, s)
                    end
                end
            end
        end
      else
        match t with
        | Get k => run_pool fuel' (k s) ws w s
        | Put s' k => run_pool fuel' k ws w s'
        | GoNamed body k => run_pool fuel' k (ws ++ [body]) w s
        | Call e k => let '(x, w') := sim b _ e w in run_pool fuel' (k x) ws w' s
        | _ => (t, ws, w, s)
        end
  end.

Lemma wake_wakes t w s t' w' : wake t w s = Some (t', w') -> wakes (threads w) s t t'.
Proof.
  unfold wake. intros H.
  destruct t as [a|msg|k|s0 k|X e k|X e ok k|c k|body k]; try done; try (simplify_eq; by constructor).
  - destruct (blocking X e) eqn:Hb; [|simplify_eq; by constructor].
    destruct (sim b X e w) as [x w0]. simplify_eq. by constructor.
  - assert (tells _ e (fst (sim b X e w)) (threads w)) as Hx by by destruct e.
    destruct (sim b X e w) as [x w0]. destruct (ok x s) eqn:Hok; [|done]. simplify_eq. by constructor.
  - destruct (c s) eqn:Hc; [|done]. simplify_eq. by constructor.
Qed.

Lemma pick_split before ts w s l1 t' l2 w' :
  pick before ts w s = Some (l1, t', l2, w') ->
  exists t, before ++ ts = l1 ++ t :: l2 /\ wakes (threads w) s t t'.
Proof.
  revert before. induction ts as [|t ts IH]; intros before H; cbn in H; [done|].
  destruct (wake t w s) as [[t1 w1]|] eqn:E.
  - simplify_eq. exists t. split; [done|]. by eapply wake_wakes.
  - destruct (IH _ H) as (t2 & Ht & Hr). exists t2. split; [|done]. by rewrite <- Ht, <- app_assoc.
Qed.

(** The thread count the simulator gives a coroutine that wakes is that of the others. *)
Lemma woken_threads n s (t t' : thread unit) ws w :
  wakes n s t t' -> threads (set_threads (live (t :: ws) - 1) w) = live ws.
Proof. intros Hw. rewrite (wakes_live _ _ _ _ _ Hw). destruct w. cbn. lia. Qed.

(** The simulator takes steps of the pool's step relation, without cancellations. *)
Lemma run_pool_calm arrives fuel t ws w s t' ws' w' s' :
  run_pool fuel t ws w s = (t', ws', w', s') -> rtc (calm_step arrives) (mkPool t ws s) (mkPool t' ws' s').
Proof.
  revert t ws w s. induction fuel as [|fuel IH]; intros t ws w s H; cbn -[sim] in H.
  { by simplify_eq. }
  destruct (at_yield t) eqn:Hy.
  - destruct (goes_on _ _ s) as [[t0 w0]|] eqn:E0.
    { assert (wake t (set_threads (live (t :: ws) - 1) w) s = Some (t0, w0)) as Hw by (by destruct t).
      apply wake_wakes in Hw. rewrite (woken_threads _ _ _ _ _ _ Hw) in Hw.
      eapply rtc_l; [by apply calm_resume | by eapply IH]. }
    destruct (pick _ _ _ s) as [[[[l1 t1] l2] w1]|] eqn:E.
    + apply pick_split in E as (t2 & E & Hr). cbn [app] in E. subst ws.
      assert (live (t :: l1 ++ t2 :: l2) = live (t2 :: t :: l1 ++ l2)) as El by (apply live_perm; solve_Permutation).
      rewrite El, (woken_threads _ _ _ _ _ _ Hr) in Hr.
      eapply rtc_l; [eapply calm_switch; [done | exact Hr |] | by eapply IH].
      by rewrite Permutation_app_comm.
    + destruct (wake _ _ s) as [[t1 w1]|] eqn:E1.
      * apply wake_wakes in E1. rewrite (woken_threads _ _ _ _ _ _ E1) in E1.
        eapply rtc_l; [by apply calm_resume | by eapply IH].
      * destruct (next_end _); [by eapply IH | by simplify_eq].
  - destruct t as [a|msg|k|s0 k|X e k|X e ok k|c k|body k]; try (by simplify_eq);
      try (eapply rtc_l; [by constructor | by eapply IH]).
    destruct (sim b X e w) as [x w1]. eapply rtc_l; [by apply calm_call | by eapply IH].
Qed.

Lemma run_pool_steps fuel t ws w s t' ws' w' s' :
  run_pool fuel t ws w s = (t', ws', w', s') -> rtc step (mkPool t ws s) (mkPool t' ws' s').
Proof.
  intros H%(run_pool_calm (fun _ => False)). induction H as [p|p1 p2 p3 H1 H2 IH]; [apply rtc_refl|].
  eapply rtc_l; [by apply calm_step_step | exact IH].
Qed.

(** ** Running one coroutine among others

    [env] is what the others do to the state wherever they may run. *)
Fixpoint own_run {A : Type} (env : St -> St) (t : thread A) (w : World) (s : St) : option (A * St) :=
  match t with
  | Done a => Some (a, s)
  | Crash _ => None
  | Get k => own_run env (k s) w s
  | Put s' k => own_run env k w s'
  | Call e k =>
      let '(x, w') := sim b _ e w in
      own_run env (k x) w' (if blocking _ e then env s else s)
  | Poll e ok k =>
      let '(x, w') := sim b _ e w in
      if ok x (env s) then own_run env (k (inl x)) w' (env s) else None
  | Wait c k => if c (env s) then own_run env (k None) w (env s) else None
  | GoNamed _ k => own_run env k w s
  end.

Lemma own_run_steps {A : Type} env (t : thread A) w s a s' :
  own_run env t w s = Some (a, s') -> rtc own_step (t, s) (Done a, s').
Proof.
  revert w s. induction t as [A a0|A msg|A k IH|A s0 k IH|A X e k IH|A X e ok k IH|A c k IH|A body _ k IH];
    intros w s H; cbn -[sim blocking] in H; try done.
  - by simplify_eq.
  - eapply rtc_l; [constructor | by eapply IH].
  - eapply rtc_l; [constructor | by eapply IH].
  - destruct (sim b X e w) as [x w1].
    destruct (blocking X e) eqn:Hb.
    + eapply rtc_l; [eapply (own_resume _ (k x) s (env s)); [done | done | by apply resume_call] | by eapply IH].
    + eapply rtc_l; [by eapply (own_call _ _ _ x) | by eapply IH].
  - destruct (sim b X e w) as [x w1]. destruct (ok x (env s)) eqn:Hok; [|done].
    eapply rtc_l; [eapply (own_resume _ (k (inl x)) s (env s)); [done | done | by constructor] | by eapply IH].
  - destruct (c (env s)) eqn:Hc; [|done].
    eapply rtc_l; [eapply (own_resume _ (k None) s (env s)); [done | done | by constructor] | by eapply IH].
  - eapply rtc_l; [constructor | by eapply IH].
Qed.

End run_pool.
