(* ===== verification/Persistence.v ===== *)
(** * service/interpreter/persistence.go

    The data attributes and search attributes of a workflow, and the locks on
    their keys that state executions and RPCs take.  Waiting for a lock is a
    [Wait] of the thread monad; the manager is a component of the shared state. *)

From S2P Require Export Provider Compat.

Record PersistenceManager : Type := mkPersistenceManager {
  dataAttributes : gmap string KeyValue;
  searchAttributes : gmap string SearchAttribute;
  lockedDataAttributesKeys : gmap string bool;
  lockedSearchAttributeKeys : gmap string bool;
  useMemo : bool
}.

Definition NewPersistenceManager (initDataAttributes : list KeyValue)
  (initSearchAttributes : list SearchAttribute) (useMemo : bool) : PersistenceManager :=
  let searchAttributes := foldl (fun m sa => <[sa_GetKey sa := sa]> m) ∅ initSearchAttributes in
  let dataAttributes := foldl (fun m da => <[kv_GetKey da := da]> m) ∅ initDataAttributes in
  mkPersistenceManager dataAttributes searchAttributes ∅ ∅ useMemo.

Definition RebuildPersistenceManager (dolist : list KeyValue) (salist : list SearchAttribute)
  (useMemo : bool) : PersistenceManager :=
  let dataAttributes := foldl (fun m do_ => <[kv_GetKey do_ := do_]> m) ∅ dolist in
  let searchAttributes := foldl (fun m sa => <[sa_GetKey sa := sa]> m) ∅ salist in
  mkPersistenceManager dataAttributes searchAttributes ∅ ∅ useMemo.

Definition set_dataAttributes (m : gmap string KeyValue) (am : PersistenceManager) :=
  mkPersistenceManager m (searchAttributes am) (lockedDataAttributesKeys am)
    (lockedSearchAttributeKeys am) (useMemo am).
Definition set_searchAttributes (m : gmap string SearchAttribute) (am : PersistenceManager) :=
  mkPersistenceManager (dataAttributes am) m (lockedDataAttributesKeys am)
    (lockedSearchAttributeKeys am) (useMemo am).
Definition set_lockedData (m : gmap string bool) (am : PersistenceManager) :=
  mkPersistenceManager (dataAttributes am) (searchAttributes am) m
    (lockedSearchAttributeKeys am) (useMemo am).
Definition set_lockedSearch (m : gmap string bool) (am : PersistenceManager) :=
  mkPersistenceManager (dataAttributes am) (searchAttributes am) (lockedDataAttributesKeys am)
    m (useMemo am).

(** [for _, key := range DeterministicKeys(m) { if keep(key) { append(res, m[key]) } }] *)
Definition select_values {V} (keep : string -> bool) (m : gmap string V) : list V :=
  omap (fun key => if keep key then m !! key else None) (DeterministicKeys m).

Definition GetDataAttributesByKey (keys : list string) (am : PersistenceManager) : list KeyValue :=
  let all := (len keys =? 0)%Z in
  let keyMap := key_map keys in
  select_values (fun key => is_true_key keyMap key || all) (dataAttributes am).

Definition GetAllSearchAttributes (am : PersistenceManager) : list SearchAttribute :=
  sorted_values (searchAttributes am).
Definition GetAllDataAttributes (am : PersistenceManager) : list KeyValue :=
  sorted_values (dataAttributes am).

(** ** Locks *)

Definition checkKeysAreUnlocked (lockedKeys : gmap string bool) (keysToCheck : list string) : bool :=
  forallb (fun k => negb (is_true_key lockedKeys k)) keysToCheck.

Definition CheckDataAndSearchAttributesKeysAreUnlocked
  (dataAttrKeysToCheck searchAttrKeysToCheck : list string) (am : PersistenceManager) : bool :=
  checkKeysAreUnlocked (lockedDataAttributesKeys am) dataAttrKeysToCheck &&
  checkKeysAreUnlocked (lockedSearchAttributeKeys am) searchAttrKeysToCheck.

Definition lockKeys (lockedKeys : gmap string bool) (keysToLock : list string) : gmap string bool :=
  foldl (fun m k => <[k := true]> m) lockedKeys keysToLock.

Definition unlockKeys (lockedKeys : gmap string bool) (keysToUnlock : list string) :
  gmap string bool :=
  foldl (fun m k => delete k m) lockedKeys keysToUnlock.

(** The loading types that lock: [PARTIAL_WITH_EXCLUSIVE_LOCK], [ALL_WITH_PARTIAL_LOCK]. *)
Definition needs_lock (loadingType : PersistenceLoadingType) : bool :=
  bool_decide (loadingType = PARTIAL_WITH_EXCLUSIVE_LOCK) ||
  bool_decide (loadingType = ALL_WITH_PARTIAL_LOCK).

Definition locking_keys (policy : option PersistenceLoadingPolicy) : list string :=
  match policy with
  | Some p => if needs_lock (GetPersistenceLoadingType p) then LockingKeys p else []
  | None => []
  end.

Definition UnlockPersistence (saPolicy daPolicy : option PersistenceLoadingPolicy)
  (am : PersistenceManager) : PersistenceManager :=
  let am :=
    match saPolicy with
    | Some p =>
        if needs_lock (GetPersistenceLoadingType p)
        then set_lockedSearch (unlockKeys (lockedSearchAttributeKeys am) (LockingKeys p)) am
        else am
    | None => am
    end in
  match daPolicy with
  | Some p =>
      if needs_lock (GetPersistenceLoadingType p)
      then set_lockedData (unlockKeys (lockedDataAttributesKeys am) (LockingKeys p)) am
      else am
  | None => am
  end.

(** [loadingType] and [partialLoadingKeys] of the two Load functions. *)
Definition policy_loading_type (policy : option PersistenceLoadingPolicy) : PersistenceLoadingType :=
  match policy with
  | Some p => GetPersistenceLoadingType p
  | None => PersistenceLoadingType_empty
  end.

Definition policy_partial_keys (policy : option PersistenceLoadingPolicy) : list string :=
  match policy with
  | Some p =>
      if bool_decide (GetPersistenceLoadingType p = PARTIAL_WITH_EXCLUSIVE_LOCK)
      then MergeStringSlice (PartialLoadingKeys p) (LockingKeys p)
      else PartialLoadingKeys p
  | None => []
  end.

(** The reads that follow the locking. *)
Definition read_search_attributes (policy : option PersistenceLoadingPolicy)
  (am : PersistenceManager) : gores (list SearchAttribute) :=
  match policy_loading_type policy with
  | PersistenceLoadingType_empty | ALL_WITHOUT_LOCKING | ALL_WITH_PARTIAL_LOCK =>
      Ret (GetAllSearchAttributes am)
  | PARTIAL_WITHOUT_LOCKING | PARTIAL_WITH_EXCLUSIVE_LOCK =>
      let keyMap := key_map (policy_partial_keys policy) in
      Ret (select_values (fun key => is_true_key keyMap key) (searchAttributes am))
  | NONE => Ret []
  | PersistenceLoadingType_other _ => Panic "not supported loading type"
  end.

Definition read_data_attributes (policy : option PersistenceLoadingPolicy)
  (am : PersistenceManager) : gores (list KeyValue) :=
  match policy_loading_type policy with
  | PersistenceLoadingType_empty | ALL_WITHOUT_LOCKING | ALL_WITH_PARTIAL_LOCK =>
      Ret (GetAllDataAttributes am)
  | PARTIAL_WITHOUT_LOCKING | PARTIAL_WITH_EXCLUSIVE_LOCK =>
      Ret (GetDataAttributesByKey (policy_partial_keys policy) am)
  | NONE => Ret []
  | PersistenceLoadingType_other _ => Panic "not supported loading type"
  end.

(** ** The operations that call the provider *)

Section operations.
Context {St : Type} `{!Has St PersistenceManager}.

(** The two lock maps, [am.lockedSearchAttributeKeys] and [am.lockedDataAttributesKeys]. *)
Inductive lock_map : Type := SearchLocks | DataLocks.

Definition locked (w : lock_map) (am : PersistenceManager) : gmap string bool :=
  match w with
  | SearchLocks => lockedSearchAttributeKeys am
  | DataLocks => lockedDataAttributesKeys am
  end.
Definition set_locked (w : lock_map) (m : gmap string bool) (am : PersistenceManager) :
  PersistenceManager :=
  match w with
  | SearchLocks => set_lockedSearch m am
  | DataLocks => set_lockedData m am
  end.

Definition awaitAndLockForKeys (w : lock_map) (keysToLock : list string) : prog St unit :=
  err ← wait (fun s => checkKeysAreUnlocked (locked w (part s)) keysToLock);
  match err with
  | Some _ => mret tt
  | None => mod_part (fun am => set_locked w (lockKeys (locked w am) keysToLock) am)
  end.

Definition LoadSearchAttributes (loadingPolicy : option PersistenceLoadingPolicy) :
  prog St (list SearchAttribute) :=
  _ ← match loadingPolicy with
      | Some p =>
          if needs_lock (GetPersistenceLoadingType p)
          then awaitAndLockForKeys SearchLocks (LockingKeys p) else mret tt
      | None => mret tt
      end;
  am ← get_part;
  lift_gores (read_search_attributes loadingPolicy am).

Definition LoadDataAttributes (loadingPolicy : option PersistenceLoadingPolicy) :
  prog St (list KeyValue) :=
  _ ← match loadingPolicy with
      | Some p =>
          if needs_lock (GetPersistenceLoadingType p)
          then awaitAndLockForKeys DataLocks (LockingKeys p) else mret tt
      | None => mret tt
      end;
  am ← get_part;
  lift_gores (read_data_attributes loadingPolicy am).

Definition upsert_search (attributes : list SearchAttribute) (am : PersistenceManager) :
  PersistenceManager :=
  set_searchAttributes
    (foldl (fun m attr => <[sa_GetKey attr := attr]> m) (searchAttributes am) attributes) am.

Definition upsert_data (attributes : list KeyValue) (am : PersistenceManager) :
  PersistenceManager :=
  set_dataAttributes
    (foldl (fun m attr => <[kv_GetKey attr := attr]> m) (dataAttributes am) attributes) am.

Definition ProcessUpsertSearchAttribute (attributes : list SearchAttribute) :
  prog St (option error) :=
  if (len attributes =? 0)%Z then mret None
  else
    _ ← mod_part (upsert_search attributes);
    now ← call TimeNow;
    match MapToInternalSearchAttributes now attributes with
    | inr err => mret (Some err)
    | inl attrsToUpsert => call (UpsertSearchAttributes attrsToUpsert)
    end.

Definition ProcessUpsertDataAttribute (attributes : list KeyValue) : prog St (option error) :=
  if (len attributes =? 0)%Z then mret None
  else
    _ ← mod_part (upsert_data attributes);
    am ← get_part (P := PersistenceManager);
    if useMemo am then
      let memo := foldl (fun memo att => <[kv_GetKey att := kv_GetValue att]> memo) ∅ attributes in
      call (UpsertMemo memo)
    else mret None.

End operations.

(** ** Lemmas on the lock maps *)

Lemma checkKeysAreUnlocked_spec m keys :
  checkKeysAreUnlocked m keys = true <-> forall k, k ∈ keys -> is_true_key m k = false.
Proof.
  unfold checkKeysAreUnlocked. rewrite forallb_forall. split; intros H k Hk.
  - apply negb_true_iff, H, list_elem_of_In, Hk.
  - apply negb_true_iff, H, list_elem_of_In, Hk.
Qed.

Lemma lockKeys_true m keys k :
  is_true_key (lockKeys m keys) k = bool_decide (k ∈ keys) || is_true_key m k.
Proof.
  unfold is_true_key, map_get, lockKeys. rewrite foldl_insert_lookup.
  case_decide; [by rewrite bool_decide_true | by rewrite bool_decide_false].
Qed.

Lemma unlockKeys_lookup m keys k :
  unlockKeys m keys !! k = if decide (k ∈ keys) then None else m !! k.
Proof.
  unfold unlockKeys. revert m. induction keys as [|k' keys IH]; intros m; cbn [foldl].
  - case_decide as Hk; [|done]. by apply elem_of_nil in Hk.
  - rewrite IH, lookup_delete. destruct (decide (k' = k)) as [->|Hne].
    + rewrite (decide_True (P := k ∈ k :: keys)) by left. by case_decide.
    + case_decide as H1; case_decide as H2; try done.
      * exfalso. apply H2. by right.
      * apply elem_of_cons in H2 as [->|]; done.
Qed.

Lemma unlockKeys_true m keys k :
  is_true_key (unlockKeys m keys) k = negb (bool_decide (k ∈ keys)) && is_true_key m k.
Proof.
  unfold is_true_key, map_get. rewrite unlockKeys_lookup.
  case_decide; [by rewrite bool_decide_true | by rewrite bool_decide_false].
Qed.

(** ** Lemmas on reading and rebuilding *)

(** Every attribute is stored under its own key. *)
Definition am_wf (am : PersistenceManager) : Prop :=
  map_Forall (fun k da => kv_GetKey da = k) (dataAttributes am) /\
  map_Forall (fun k sa => sa_GetKey sa = k) (searchAttributes am).

Section keyed.
Context {V : Type} (key : V -> string).

Lemma keyed_insert_fold (l : list V) (m : gmap string V) :
  map_Forall (fun k v => key v = k) m ->
  map_Forall (fun k v => key v = k) (foldl (fun m a => <[key a := a]> m) m l).
Proof.
  revert m. induction l as [|a l IH]; intros m Hm; cbn [foldl]; [done|].
  apply IH. by apply map_Forall_insert_2.
Qed.

Lemma elem_of_select_values keep (m : gmap string V) v :
  v ∈ select_values keep m <-> exists k, m !! k = Some v /\ keep k = true.
Proof.
  unfold select_values. rewrite list_elem_of_omap. split.
  - intros (k & _ & Hk). destruct (keep k) eqn:E; eauto; done.
  - intros (k & Hm & Hk). exists k. rewrite Hk. split; [|done].
    apply (elem_of_sorted_keys String.le). eauto.
Qed.

Lemma sorted_values_select (m : gmap string V) :
  sorted_values m = select_values (fun _ => true) m.
Proof. done. Qed.

(** Writing back the sorted values of a keyed map gives the map. *)
Lemma rebuild_sorted_values (m : gmap string V) :
  map_Forall (fun k v => key v = k) m ->
  foldl (fun m a => <[key a := a]> m) ∅ (sorted_values m) = m.
Proof.
  intros Hm. apply map_eq. intros k.
  rewrite (foldl_insert_key_lookup key id), lookup_empty.
  destruct (last _) as [v|] eqn:Hl.
  - assert (v ∈ filter (fun a => key a = k) (sorted_values m)) as Hin.
    { apply list_elem_of_lookup. exists (pred (length (filter (fun a => key a = k) (sorted_values m)))).
      by rewrite <- last_lookup. }
    apply list_elem_of_filter in Hin as [<- Hin].
    rewrite sorted_values_select in Hin. apply elem_of_select_values in Hin as (k & Hk & _).
    by rewrite (Hm _ _ Hk), Hk.
  - apply last_None in Hl. destruct (m !! k) as [v|] eqn:Hk; [|done]. exfalso.
    assert (v ∈ filter (fun a => key a = k) (sorted_values m)) as Hin.
    { apply list_elem_of_filter. split; [by apply (Hm k) |].
      rewrite sorted_values_select. apply elem_of_select_values. eauto. }
    rewrite Hl in Hin. by apply elem_of_nil in Hin.
Qed.

Lemma last_write_wins (l : list V) (m : gmap string V) k v :
  foldl (fun m a => <[key a := a]> m) m l !! k = Some v ->
  v ∈ l /\ key v = k \/ m !! k = Some v.
Proof.
  rewrite (foldl_insert_key_lookup key id). destruct (last _) as [a|] eqn:Hl; [|auto].
  intros [= <-]. left. rewrite last_lookup in Hl.
  apply list_elem_of_lookup_2, list_elem_of_filter in Hl. tauto.
Qed.
End keyed.

Lemma NewPersistenceManager_wf das sas b : am_wf (NewPersistenceManager das sas b).
Proof. split; simpl; by apply (keyed_insert_fold _ _ ∅). Qed.

Lemma upsert_search_wf attrs am : am_wf am -> am_wf (upsert_search attrs am).
Proof. intros [Hd Hs]. split; [done|]. by apply (keyed_insert_fold sa_GetKey). Qed.

Lemma upsert_data_wf attrs am : am_wf am -> am_wf (upsert_data attrs am).
Proof. intros [Hd Hs]. split; [|done]. by apply (keyed_insert_fold kv_GetKey). Qed.

#[export] Hint Resolve NewPersistenceManager_wf upsert_search_wf upsert_data_wf : iwf.

(** ** Properties *)

(** The keys a loading policy selects.  For data attributes, an empty key list of
    the partial types selects everything. *)
Definition selects (empty_is_all : bool) (policy : option PersistenceLoadingPolicy) (k : string) :
  Prop :=
  let keys := policy_partial_keys policy in
  match policy_loading_type policy with
  | PersistenceLoadingType_empty | ALL_WITHOUT_LOCKING | ALL_WITH_PARTIAL_LOCK => True
  | PARTIAL_WITHOUT_LOCKING | PARTIAL_WITH_EXCLUSIVE_LOCK =>
      k ∈ keys \/ (empty_is_all = true /\ keys = [])
  | NONE | PersistenceLoadingType_other _ => False
  end.

Definition supported (policy : option PersistenceLoadingPolicy) : Prop :=
  forall s, policy_loading_type policy <> PersistenceLoadingType_other s.

(** The manager after the locking of a Load function. *)
Definition after_lock (w : lock_map) (policy : option PersistenceLoadingPolicy)
  (am : PersistenceManager) : PersistenceManager :=
  set_locked w (lockKeys (locked w am) (locking_keys policy)) am.

Lemma set_locked_id w am : set_locked w (locked w am) am = am.
Proof. by destruct w, am. Qed.

Lemma after_lock_data w policy am :
  dataAttributes (after_lock w policy am) = dataAttributes am /\
  searchAttributes (after_lock w policy am) = searchAttributes am.
Proof. by destruct w. Qed.

Lemma lock_part_returns {St W} `{!Has St PersistenceManager} (h : forall X, providerE X -> W -> X * W)
  w policy e (s : St) :
  checkKeysAreUnlocked (locked w (part s)) (locking_keys policy) = true ->
  returns h (match policy with
             | Some p =>
                 if needs_lock (GetPersistenceLoadingType p)
                 then awaitAndLockForKeys w (LockingKeys p) else mret tt
             | None => mret tt
             end) e s tt e (set_part (after_lock w policy (part s)) s).
Proof.
  unfold after_lock, locking_keys, returns. intros Hc.
  assert (exec h (mret tt : prog St unit) e s =
    Some (tt, e, set_part (set_locked w (lockKeys (locked w (part s)) []) (part s)) s, [])) as Hid.
  { cbn. by rewrite set_locked_id, set_part_part. }
  destruct policy as [p|]; [|done].
  destruct (needs_lock (GetPersistenceLoadingType p)); [|done].
  unfold awaitAndLockForKeys. cbn. by rewrite Hc.
Qed.

Lemma read_data_selects policy am :
  supported policy ->
  exists res, read_data_attributes policy am = Ret res /\
    forall kv, kv ∈ res <->
      exists k, dataAttributes am !! k = Some kv /\ selects true policy k.
Proof.
  unfold supported, read_data_attributes, selects. intros Hsup.
  destruct (policy_loading_type policy) eqn:Et; try (by destruct (Hsup s));
    eexists; (split; [done|]); intros kv;
    try (unfold GetAllDataAttributes; rewrite sorted_values_select, elem_of_select_values; naive_solver).
  1,2: unfold GetDataAttributesByKey; rewrite elem_of_select_values;
    setoid_rewrite orb_true_iff; setoid_rewrite key_map_true;
    setoid_rewrite bool_decide_eq_true; setoid_rewrite Z.eqb_eq; setoid_rewrite len_nil_iff;
    naive_solver.
  rewrite elem_of_nil. naive_solver.
Qed.

Lemma read_search_selects policy am :
  supported policy ->
  exists res, read_search_attributes policy am = Ret res /\
    forall sa, sa ∈ res <->
      exists k, searchAttributes am !! k = Some sa /\ selects false policy k.
Proof.
  unfold supported, read_search_attributes, selects. intros Hsup.
  destruct (policy_loading_type policy) eqn:Et; try (by destruct (Hsup s));
    eexists; (split; [done|]); intros kv;
    try (unfold GetAllSearchAttributes; rewrite sorted_values_select, elem_of_select_values; naive_solver).
  1,2: rewrite elem_of_select_values; setoid_rewrite key_map_true;
    setoid_rewrite bool_decide_eq_true; naive_solver.
  rewrite elem_of_nil. naive_solver.
Qed.

Section properties.
Context {St : Type} `{!Has St PersistenceManager} {W : Type}
  (h : forall X, providerE X -> W -> X * W).

(** [LoadDataAttributes], when the policy's locking keys are free, returns
    exactly the attributes the policy selects, locks exactly those keys in the
    data-attribute lock table and changes nothing else; a partial policy without
    keys selects every attribute. *)
Theorem LoadDataAttributes_spec policy e (s : St) :
  supported policy ->
  checkKeysAreUnlocked (lockedDataAttributesKeys (part s)) (locking_keys policy) = true ->
  exists res,
    returns h (LoadDataAttributes policy) e s res e
      (set_part (after_lock DataLocks policy (part s)) s) /\
    forall kv, kv ∈ res <->
      exists k, dataAttributes (part s) !! k = Some kv /\ selects true policy k.
Proof.
  intros Hsup Hc. destruct (read_data_selects policy (after_lock DataLocks policy (part s)) Hsup)
    as (res & Hr & Hel). exists res. split; [|exact Hel].
  unfold returns, LoadDataAttributes, mbind, thread_mbind. rewrite exec_bind.
  rewrite (lock_part_returns h DataLocks policy e s Hc). cbn [exec get_part thread_bind].
  rewrite part_set, Hr. done.
Qed.

(** [LoadSearchAttributes] does the same for search attributes, except that a
    partial policy without keys selects none. *)
Theorem LoadSearchAttributes_spec policy e (s : St) :
  supported policy ->
  checkKeysAreUnlocked (lockedSearchAttributeKeys (part s)) (locking_keys policy) = true ->
  exists res,
    returns h (LoadSearchAttributes policy) e s res e
      (set_part (after_lock SearchLocks policy (part s)) s) /\
    forall sa, sa ∈ res <->
      exists k, searchAttributes (part s) !! k = Some sa /\ selects false policy k.
Proof.
  intros Hsup Hc. destruct (read_search_selects policy (after_lock SearchLocks policy (part s)) Hsup)
    as (res & Hr & Hel). exists res. split; [|exact Hel].
  unfold returns, LoadSearchAttributes, mbind, thread_mbind. rewrite exec_bind.
  rewrite (lock_part_returns h SearchLocks policy e s Hc). cbn [exec get_part thread_bind].
  rewrite part_set, Hr. done.
Qed.
End properties.

(** The snapshot of the attributes ([GetAllDataAttributes],
    [GetAllSearchAttributes]) rebuilds the manager in the next run; only the
    locks are dropped. *)
Theorem persistence_snapshot_roundtrip am :
  am_wf am ->
  RebuildPersistenceManager (GetAllDataAttributes am) (GetAllSearchAttributes am) (useMemo am) =
  mkPersistenceManager (dataAttributes am) (searchAttributes am) ∅ ∅ (useMemo am).
Proof.
  intros [Hd Hs]. unfold RebuildPersistenceManager, GetAllDataAttributes, GetAllSearchAttributes.
  by rewrite (rebuild_sorted_values kv_GetKey), (rebuild_sorted_values sa_GetKey).
Qed.

(** [ProcessUpsertDataAttribute] stores the last value written for each key,
    leaves every other key and the search attributes and locks alone, and, with
    [useMemo], sends the backend exactly the written keys, with the same values. *)
Theorem ProcessUpsertDataAttribute_spec {St W} `{!Has St PersistenceManager}
  (h : forall X, providerE X -> W -> X * W) attributes e (s : St) :
  attributes <> [] ->
  let memo := foldl (fun m a => <[kv_GetKey a := kv_GetValue a]> m) ∅ attributes in
  let s' := set_part (upsert_data attributes (part s)) s in
  (if useMemo (part s)
   then returns h (ProcessUpsertDataAttribute attributes) e s
          (fst (h _ (UpsertMemo memo) e)) (snd (h _ (UpsertMemo memo) e)) s'
   else returns h (ProcessUpsertDataAttribute attributes) e s None e s') /\
  forall k,
    memo !! k = kv_GetValue <$> last (filter (fun a => kv_GetKey a = k) attributes) /\
    dataAttributes (part s') !! k =
      match last (filter (fun a => kv_GetKey a = k) attributes) with
      | Some a => Some a
      | None => dataAttributes (part s) !! k
      end.
Proof.
  intros Hne. cbn zeta. split.
  - unfold returns, ProcessUpsertDataAttribute.
    destruct (Z.eqb_spec (len attributes) 0) as [->%len_nil_iff|_]; [done|].
    cbn. rewrite part_set. cbn [useMemo upsert_data set_dataAttributes].
    destruct (useMemo (part s)); cbn; [|done].
    destruct (h _ _ e); done.
  - intros k. rewrite part_set. cbn [dataAttributes upsert_data set_dataAttributes].
    rewrite (foldl_insert_key_lookup kv_GetKey), foldl_insert_self_lookup, lookup_empty.
    by destruct (last _).
Qed.
