(* ===== verification/Queue.v ===== *)
(** * State requests, the request queue and the output collector

    service/interpreter/stateRequest.go, stateRequestQueue.go and
    outputCollector.go. *)

From S2P Require Export Service.

(** ** stateRequest.go

    The Go struct has both a start and a resume field and a flag; the unused
    field holds the zero value. *)

Definition empty_resume_info : StateExecutionResumeInfo :=
  mkStateExecutionResumeInfo EmptyString empty_movement
    (mkStateExecutionCompletedCommands ∅ ∅ ∅) empty_CommandRequest [].

Record StateRequest : Type := mkStateRequest {
  stateStartRequest : StateMovement;
  isResumeRequest : bool;
  stateResumeRequest : StateExecutionResumeInfo
}.

Definition NewStateStartRequest (movement : StateMovement) : StateRequest :=
  mkStateRequest movement false empty_resume_info.

Definition NewStateResumeRequest (resumeRequest : StateExecutionResumeInfo) : StateRequest :=
  mkStateRequest empty_movement true resumeRequest.

Definition GetStateStartRequest (sq : StateRequest) : StateMovement := stateStartRequest sq.
Definition GetStateResumeRequest (sq : StateRequest) : StateExecutionResumeInfo :=
  stateResumeRequest sq.
Definition IsResumeRequest (sq : StateRequest) : bool := isResumeRequest sq.

Definition GetStateMovement (sq : StateRequest) : StateMovement :=
  if isResumeRequest sq then ri_State (stateResumeRequest sq) else stateStartRequest sq.

Definition GetStateId (sq : StateRequest) : string :=
  if IsResumeRequest sq then StateId (ri_State (stateResumeRequest sq))
  else StateId (stateStartRequest sq).

(** ** stateRequestQueue.go *)

Record StateRequestQueue : Type := mkStateRequestQueue { queue : list StateRequest }.

Definition NewStateRequestQueue : StateRequestQueue := mkStateRequestQueue [].

Definition NewStateRequestQueueWithResumeRequests (startReqs : list StateMovement)
  (resumeReqs : gmap string StateExecutionResumeInfo) : StateRequestQueue :=
  let queue := foldl (fun queue r => queue ++ [NewStateStartRequest r]) [] startReqs in
  let queue := foldl (fun queue k =>
    match resumeReqs !! k with
    | Some r => queue ++ [NewStateResumeRequest r]
    | None => queue ++ [NewStateResumeRequest empty_resume_info]
    end) queue (DeterministicKeys resumeReqs) in
  mkStateRequestQueue queue.

Definition IsEmpty (srq : StateRequestQueue) : bool := (len (queue srq) =? 0)%Z.

Definition TakeAll (srq : StateRequestQueue) : list StateRequest * StateRequestQueue :=
  (queue srq, mkStateRequestQueue []).

Definition GetAllStateStartRequests (srq : StateRequestQueue) : list StateMovement :=
  foldl (fun res r =>
    if IsResumeRequest r then res else res ++ [GetStateStartRequest r]) [] (queue srq).

Definition GetAllStateResumeRequests (srq : StateRequestQueue) : list StateExecutionResumeInfo :=
  foldl (fun res r =>
    if IsResumeRequest r then res ++ [GetStateResumeRequest r] else res) [] (queue srq).

Definition AddStateStartRequests (reqs : list StateMovement) (srq : StateRequestQueue) :
  StateRequestQueue :=
  foldl (fun srq r => mkStateRequestQueue (queue srq ++ [NewStateStartRequest r])) srq reqs.

Definition AddSingleStateStartRequest (stateId : string) (input : option EncodedObject)
  (options : option WorkflowStateOptions) (srq : StateRequestQueue) : StateRequestQueue :=
  mkStateRequestQueue
    (queue srq ++ [NewStateStartRequest (mkStateMovement stateId input options None)]).

(** ** outputCollector.go *)

Record OutputCollector : Type := mkOutputCollector { outputs : list StateCompletionOutput }.

Definition NewOutputCollector (initOutputs : list StateCompletionOutput) : OutputCollector :=
  mkOutputCollector initOutputs.

Definition oc_Add (output : StateCompletionOutput) (o : OutputCollector) : OutputCollector :=
  match CompletedStateOutput output with
  | Some _ => mkOutputCollector (outputs o ++ [output])
  | None => o
  end.

Definition oc_GetAll (o : OutputCollector) : list StateCompletionOutput := outputs o.

(** ** Lemmas *)

Lemma foldl_snoc_map {A B} (f : A -> B) (l : list A) (acc : list B) :
  foldl (fun acc a => acc ++ [f a]) acc l = acc ++ map f l.
Proof.
  revert acc. induction l as [|a l IH]; intros acc; simpl; [by rewrite app_nil_r |].
  by rewrite IH, <- app_assoc.
Qed.

Lemma AddStateStartRequests_queue reqs srq :
  queue (AddStateStartRequests reqs srq) = queue srq ++ map NewStateStartRequest reqs.
Proof.
  unfold AddStateStartRequests. revert srq.
  induction reqs as [|r reqs IH]; intros srq; simpl; [by rewrite app_nil_r |].
  rewrite IH; simpl. by rewrite <- app_assoc.
Qed.

Definition start_requests (l : list StateRequest) : list StateMovement :=
  omap (fun r => if IsResumeRequest r then None else Some (GetStateStartRequest r)) l.
Definition resume_requests (l : list StateRequest) : list StateExecutionResumeInfo :=
  omap (fun r => if IsResumeRequest r then Some (GetStateResumeRequest r) else None) l.

Lemma GetAllStateStartRequests_omap srq :
  GetAllStateStartRequests srq = start_requests (queue srq).
Proof.
  unfold GetAllStateStartRequests, start_requests.
  assert (forall l acc, foldl (fun res r =>
    if IsResumeRequest r then res else res ++ [GetStateStartRequest r]) acc l =
    acc ++ omap (fun r => if IsResumeRequest r then None else Some (GetStateStartRequest r)) l) as H.
  { induction l as [|r l IH]; intros acc; simpl; [by rewrite app_nil_r |].
    rewrite IH. destruct (IsResumeRequest r); [done | by rewrite <- app_assoc]. }
  apply H.
Qed.

Lemma GetAllStateResumeRequests_omap srq :
  GetAllStateResumeRequests srq = resume_requests (queue srq).
Proof.
  unfold GetAllStateResumeRequests, resume_requests.
  assert (forall l acc, foldl (fun res r =>
    if IsResumeRequest r then res ++ [GetStateResumeRequest r] else res) acc l =
    acc ++ omap (fun r => if IsResumeRequest r then Some (GetStateResumeRequest r) else None) l)
    as H.
  { induction l as [|r l IH]; intros acc; simpl; [by rewrite app_nil_r |].
    rewrite IH. destruct (IsResumeRequest r); [by rewrite <- app_assoc | done]. }
  apply H.
Qed.

Lemma start_requests_map l : start_requests (map NewStateStartRequest l) = l.
Proof. unfold start_requests. induction l as [|a l IH]; [done | cbn; f_equal; exact IH]. Qed.

Lemma resume_requests_map_start l : resume_requests (map NewStateStartRequest l) = [].
Proof. unfold resume_requests. by induction l. Qed.

Lemma start_requests_map_resume l : start_requests (map NewStateResumeRequest l) = [].
Proof. unfold start_requests. by induction l. Qed.

Lemma resume_requests_map l : resume_requests (map NewStateResumeRequest l) = l.
Proof. unfold resume_requests. induction l as [|a l IH]; [done | cbn; f_equal; exact IH]. Qed.

Lemma resume_fold_omap (m : gmap string StateExecutionResumeInfo) ks acc :
  Forall (fun k => is_Some (m !! k)) ks ->
  foldl (fun queue k =>
    match m !! k with
    | Some r => queue ++ [NewStateResumeRequest r]
    | None => queue ++ [NewStateResumeRequest empty_resume_info]
    end) acc ks = acc ++ map NewStateResumeRequest (omap (fun k => m !! k) ks).
Proof.
  intros Hks. revert acc. induction Hks as [|k ks [r Hr] Hks IH]; intros acc; simpl.
  - by rewrite app_nil_r.
  - rewrite IH, Hr. simpl. by rewrite <- app_assoc.
Qed.

Lemma NewStateRequestQueueWithResumeRequests_queue startReqs resumeReqs :
  queue (NewStateRequestQueueWithResumeRequests startReqs resumeReqs) =
  map NewStateStartRequest startReqs ++ map NewStateResumeRequest (sorted_values resumeReqs).
Proof.
  unfold NewStateRequestQueueWithResumeRequests; simpl.
  rewrite foldl_snoc_map, resume_fold_omap; [done |].
  apply Forall_forall. intros k. apply elem_of_sorted_keys.
Qed.

Lemma start_requests_app l1 l2 : start_requests (l1 ++ l2) = start_requests l1 ++ start_requests l2.
Proof. apply omap_app. Qed.
Lemma resume_requests_app l1 l2 :
  resume_requests (l1 ++ l2) = resume_requests l1 ++ resume_requests l2.
Proof. apply omap_app. Qed.
