(* ===== verification/Counter.v ===== *)
(** * Workflow config, versions and counters

    service/interpreter/config/workflowConfiger.go, globalVersioner.go,
    cont/continueAsNewCounter.go and stateExecutionCounter.go. *)

From S2P Require Export Provider Compat Queue.

(** ** config/workflowConfiger.go *)

Record WorkflowConfiger : Type := mkWorkflowConfiger { config : WorkflowConfig }.

Definition NewWorkflowConfiger (config : WorkflowConfig) : WorkflowConfiger :=
  mkWorkflowConfiger config.
Definition wc_Get (wc : WorkflowConfiger) : WorkflowConfig := config wc.

Definition ShouldOptimizeActivity (wc : WorkflowConfiger) : bool :=
  default false (OptimizeActivity (config wc)).

(** [if c.F != nil { wc.config.F = c.F }], field by field; [OptimizeTimer] is not
    updated. *)
Definition upd {A} (new old : option A) : option A :=
  match new with Some _ => new | None => old end.

Definition UpdateByAPI (c : WorkflowConfig) (wc : WorkflowConfiger) : WorkflowConfiger :=
  let old := config wc in
  mkWorkflowConfiger (mkWorkflowConfig
    (upd (DisableSystemSearchAttribute c) (DisableSystemSearchAttribute old))
    (upd (cfg_ExecutingStateIdMode c) (cfg_ExecutingStateIdMode old))
    (upd (ContinueAsNewThreshold c) (ContinueAsNewThreshold old))
    (upd (ContinueAsNewPageSizeInBytes c) (ContinueAsNewPageSizeInBytes old))
    (upd (OptimizeActivity c) (OptimizeActivity old))
    (OptimizeTimer old)).

Definition GetDisableSystemSearchAttribute (c : WorkflowConfig) : bool :=
  default false (DisableSystemSearchAttribute c).
Definition GetExecutingStateIdMode (c : WorkflowConfig) : ExecutingStateIdMode :=
  default (ExecutingStateIdMode_other EmptyString) (cfg_ExecutingStateIdMode c).
Definition GetContinueAsNewThreshold (c : WorkflowConfig) : Z :=
  default 0%Z (ContinueAsNewThreshold c).
Definition GetContinueAsNewPageSizeInBytes (c : WorkflowConfig) : Z :=
  default 0%Z (ContinueAsNewPageSizeInBytes c).
Definition GetOptimizeTimer (c : WorkflowConfig) : bool := default false (OptimizeTimer c).

(** ** globalVersioner.go *)

Definition globalChangeId : string := "global".
Definition StartingVersionUsingGlobalVersioning : Z := 1.
Definition StartingVersionOptimizedUpsertSearchAttribute : Z := 2.
Definition StartingVersionRenamedStateApi : Z := 3.
Definition StartingVersionContinueAsNewOnNoStates : Z := 4.
Definition StartingVersionTemporal26SDK : Z := 5.
Definition StartingVersionExecutingStateIdMode : Z := 6.
Definition StartingVersionNoIwfGlobalVersionSearchAttribute : Z := 7.
Definition StartingVersionYieldOnConditionalComplete : Z := 8.
Definition SyncUpdateRPCUseLocalActivity : Z := 9.
Definition StartingVersionWaitingCommandThreads : Z := 10.
Definition MaxOfAllVersions : Z := StartingVersionWaitingCommandThreads.

Record GlobalVersioner : Type := mkGlobalVersioner { version : Z }.

Definition IsAfterVersionOfContinueAsNewOnNoStates (p : GlobalVersioner) : bool :=
  (StartingVersionContinueAsNewOnNoStates <=? version p)%Z.
Definition IsAfterVersionOfUsingGlobalVersioning (p : GlobalVersioner) : bool :=
  (StartingVersionUsingGlobalVersioning <=? version p)%Z.
Definition IsAfterVersionOfOptimizedUpsertSearchAttribute (p : GlobalVersioner) : bool :=
  (StartingVersionOptimizedUpsertSearchAttribute <=? version p)%Z.
Definition IsAfterVersionOfExecutingStateIdMode (p : GlobalVersioner) : bool :=
  (StartingVersionExecutingStateIdMode <=? version p)%Z.
Definition IsAfterVersionOfRenamedStateApi (p : GlobalVersioner) : bool :=
  (StartingVersionRenamedStateApi <=? version p)%Z.
Definition IsAfterVersionOfTemporal26SDK (p : GlobalVersioner) : bool :=
  (StartingVersionTemporal26SDK <=? version p)%Z.
Definition IsAfterVersionOfNoIwfGlobalVersionSearchAttribute (p : GlobalVersioner) : bool :=
  (StartingVersionNoIwfGlobalVersionSearchAttribute <=? version p)%Z.
Definition IsAfterVersionOfYieldOnConditionalComplete (p : GlobalVersioner) : bool :=
  (StartingVersionYieldOnConditionalComplete <=? version p)%Z.
Definition IsAfterVersionOfSyncUpdateRPCUseLocalActivity (p : GlobalVersioner) : bool :=
  (SyncUpdateRPCUseLocalActivity <=? version p)%Z.
Definition IsAfterVersionOfWaitingCommandThreads (p : GlobalVersioner) : bool :=
  (StartingVersionWaitingCommandThreads <=? version p)%Z.

Definition IsUsingGlobalVersionSearchAttribute (p : GlobalVersioner) : bool :=
  ((StartingVersionUsingGlobalVersioning <=? version p) &&
   (version p <? StartingVersionNoIwfGlobalVersionSearchAttribute))%Z.

(** ** cont/continueAsNewCounter.go *)

Record ContinueAsNewCounter : Type := mkContinueAsNewCounter {
  executedStateApis : Z;       (* int32 *)
  signalsReceived : Z;         (* int32 *)
  syncUpdateReceived : Z;      (* int32 *)
  triggeredByAPI : bool
}.

Definition NewContinueAsCounter : ContinueAsNewCounter := mkContinueAsNewCounter 0 0 0 false.

Definition IncExecutedStateExecution (skipStart : bool) (c : ContinueAsNewCounter) :
  ContinueAsNewCounter :=
  mkContinueAsNewCounter
    (if skipStart then wrap32 (executedStateApis c + 1) else wrap32 (executedStateApis c + 2))
    (signalsReceived c) (syncUpdateReceived c) (triggeredByAPI c).
Definition IncSignalsReceived (c : ContinueAsNewCounter) : ContinueAsNewCounter :=
  mkContinueAsNewCounter (executedStateApis c) (wrap32 (signalsReceived c + 1))
    (syncUpdateReceived c) (triggeredByAPI c).
Definition IncSyncUpdateReceived (c : ContinueAsNewCounter) : ContinueAsNewCounter :=
  mkContinueAsNewCounter (executedStateApis c) (signalsReceived c)
    (wrap32 (syncUpdateReceived c + 1)) (triggeredByAPI c).
Definition TriggerByAPI (c : ContinueAsNewCounter) : ContinueAsNewCounter :=
  mkContinueAsNewCounter (executedStateApis c) (signalsReceived c) (syncUpdateReceived c) true.

(** [c.configer] is the workflow's configer. *)
Definition IsThresholdMet (wc : WorkflowConfiger) (c : ContinueAsNewCounter) : bool :=
  if triggeredByAPI c then true
  else
    let config := wc_Get wc in
    if (GetContinueAsNewThreshold config =? 0)%Z then false
    else
      let totalOperations :=
        wrap32 (wrap32 (signalsReceived c + executedStateApis c) + syncUpdateReceived c) in
      (GetContinueAsNewThreshold config <=? totalOperations)%Z.

(** ** stateExecutionCounter.go *)

Record StateExecutionCounter : Type := mkStateExecutionCounter {
  stateIdStartedCounts : gmap string Z;
  stateIdCurrentlyExecutingCounts : gmap string Z;
  totalCurrentlyExecutingCount : Z
}.

Definition NewStateExecutionCounter : StateExecutionCounter := mkStateExecutionCounter ∅ ∅ 0.

Definition RebuildStateExecutionCounter (stateIdStartedCounts : gmap string Z)
  (stateIdCurrentlyExecutingCounts : gmap string Z) (totalCurrentlyExecutingCount : Z) :
  StateExecutionCounter :=
  mkStateExecutionCounter stateIdStartedCounts stateIdCurrentlyExecutingCounts
    totalCurrentlyExecutingCount.

Definition sec_Dump (e : StateExecutionCounter) : StateExecutionCounterInfo :=
  mkStateExecutionCounterInfo (stateIdStartedCounts e) (stateIdCurrentlyExecutingCounts e)
    (totalCurrentlyExecutingCount e).

(** [fmt.Sprintf("%v-%v", stateId, id)] *)
Definition execution_id (stateId : string) (id : Z) : string := stateId +:+ "-" +:+ pretty id.

Definition CreateNextExecutionId (stateId : string) (e : StateExecutionCounter) :
  string * StateExecutionCounter :=
  let id := (map_get 0 (stateIdStartedCounts e) stateId + 1)%Z in
  (execution_id stateId id,
   mkStateExecutionCounter (<[stateId := id]> (stateIdStartedCounts e))
     (stateIdCurrentlyExecutingCounts e) (totalCurrentlyExecutingCount e)).

Definition increaseStateIdCurrentlyExecutingCounts (s : StateMovement) (e : StateExecutionCounter) :
  bool * StateExecutionCounter :=
  let n := (map_get 0 (stateIdCurrentlyExecutingCounts e) (StateId s) + 1)%Z in
  ((n =? 1)%Z,
   mkStateExecutionCounter (stateIdStartedCounts e)
     (<[StateId s := n]> (stateIdCurrentlyExecutingCounts e)) (totalCurrentlyExecutingCount e)).

Definition decreaseStateIdCurrentlyExecutingCounts (state : StateMovement)
  (e : StateExecutionCounter) : StateExecutionCounter :=
  let n := (map_get 0 (stateIdCurrentlyExecutingCounts e) (StateId state) - 1)%Z in
  mkStateExecutionCounter (stateIdStartedCounts e)
    (if (n =? 0)%Z then delete (StateId state) (stateIdCurrentlyExecutingCounts e)
     else <[StateId state := n]> (stateIdCurrentlyExecutingCounts e))
    (totalCurrentlyExecutingCount e).

Definition add_total (d : Z) (e : StateExecutionCounter) : StateExecutionCounter :=
  mkStateExecutionCounter (stateIdStartedCounts e) (stateIdCurrentlyExecutingCounts e)
    (totalCurrentlyExecutingCount e + d).

Definition determineIfShouldSkipRefreshOnCompleted (nextStates : list StateMovement)
  (enabledForAll : bool) : bool :=
  let nonClosingNextStates :=
    filter (fun s => ~ is_Some (ValidClosingWorkflowStateId !! StateId s)) nextStates in
  if enabledForAll then (0 <? len nonClosingNextStates)%Z
  else existsb (fun s => negb (skip_wait_until s)) nonClosingNextStates.

(** The [if]/[switch] in the loop of [MarkStateIdExecutingIfNotYet]: the counter
    and [needsUpdateSA]. *)
Definition mark_track (gv : GlobalVersioner) (config : WorkflowConfig) (s : StateMovement)
  (e : StateExecutionCounter) (needsUpdateSA : bool) : StateExecutionCounter * bool :=
  if IsAfterVersionOfExecutingStateIdMode gv then
    match GetExecutingStateIdMode config with
    | DISABLED => (e, needsUpdateSA)
    | ENABLED_FOR_ALL => (snd (increaseStateIdCurrentlyExecutingCounts s e), true)
    | _ =>
        if negb (skip_wait_until s)
        then (snd (increaseStateIdCurrentlyExecutingCounts s e), true)
        else (e, needsUpdateSA)
    end
  else if negb (GetDisableSystemSearchAttribute config) then
    let '(first, e') := increaseStateIdCurrentlyExecutingCounts s e in
    (e', if first then true else needsUpdateSA)
  else (e, needsUpdateSA).

(** The body of the loop: the counter, [needsUpdateSA] and [numOfNew]. *)
Definition mark_executing_one (gv : GlobalVersioner) (config : WorkflowConfig) (sr : StateRequest)
  (st : StateExecutionCounter * bool * Z) : StateExecutionCounter * bool * Z :=
  let '(e, needsUpdateSA, numOfNew) := st in
  if IsResumeRequest sr then st
  else
    let '(e', needs') := mark_track gv config (GetStateStartRequest sr) e needsUpdateSA in
    (e', needs', (numOfNew + 1)%Z).

Definition mark_executing (gv : GlobalVersioner) (config : WorkflowConfig)
  (stateReqs : list StateRequest) (e : StateExecutionCounter) : StateExecutionCounter * bool :=
  let '(e', needsUpdateSA, numOfNew) :=
    foldl (fun st sr => mark_executing_one gv config sr st) (e, false, 0%Z) stateReqs in
  (add_total numOfNew e', needsUpdateSA).

(** The counts after a completion, and whether the search attribute is refreshed. *)
Definition mark_completed (gv : GlobalVersioner) (config : WorkflowConfig)
  (currentState : StateMovement) (nextStates : list StateMovement) (e : StateExecutionCounter) :
  StateExecutionCounter * bool :=
  let e := add_total (-1) e in
  if IsAfterVersionOfExecutingStateIdMode gv then
    match GetExecutingStateIdMode config with
    | DISABLED => (e, false)
    | ENABLED_FOR_ALL =>
        let e := decreaseStateIdCurrentlyExecutingCounts currentState e in
        (e, negb (determineIfShouldSkipRefreshOnCompleted nextStates true))
    | _ =>
        if skip_wait_until currentState then (e, false)
        else
          let e := decreaseStateIdCurrentlyExecutingCounts currentState e in
          (e, negb (determineIfShouldSkipRefreshOnCompleted nextStates false))
    end
  else if GetDisableSystemSearchAttribute config then (e, false)
  else (decreaseStateIdCurrentlyExecutingCounts currentState e, true).

Section operations.
Context {St : Type} `{!Has St StateExecutionCounter, !Has St ContinueAsNewCounter,
  !Has St WorkflowConfiger, !Has St GlobalVersioner}.

Definition NewGlobalVersioner : prog St GlobalVersioner :=
  v ← call (GetVersion globalChangeId 0 MaxOfAllVersions);
  mret (mkGlobalVersioner v).

Definition UpsertGlobalVersionSearchAttribute (p : GlobalVersioner) : prog St (option error) :=
  if IsUsingGlobalVersionSearchAttribute p then
    backend ← call GetBackendType;
    if bool_decide (backend <> BackendTypeCadence)
    then call (UpsertSearchAttributes {[ SearchAttributeGlobalVersion := IInt64 MaxOfAllVersions ]})
    else mret None
  else mret None.

(** [slices.Sort] *)
Definition sort_strings (l : list string) : list string := merge_sort String.le l.

(** [reflect.DeepEqual] tells a nil slice from an empty one, but neither of these two is
    ever empty without being nil: both are made by [append] to a nil slice, one here and
    the other in the mapping of a KEYWORD_ARRAY (common/mapper/searchAttribute.go), so
    equality of the lists is equality of the slices. *)
Definition refreshIwfExecutingStateIdSearchAttribute : prog St (option error) :=
  gv ← get_part (P := GlobalVersioner);
  e ← get_part (P := StateExecutionCounter);
  let executingStateIds := DeterministicKeys (stateIdCurrentlyExecutingCounts e) in
  let upsert : prog St (option error) :=
    if IsAfterVersionOfOptimizedUpsertSearchAttribute gv
       && negb (IsAfterVersionOfExecutingStateIdMode gv) && (len executingStateIds =? 0)%Z
    then mret None
    else call (UpsertSearchAttributes
                 {[ SearchAttributeExecutingStateIds := IStrings executingStateIds ]}) in
  if IsAfterVersionOfExecutingStateIdMode gv then
    r ← call (GetSearchAttributes
                [mkSearchAttributeKeyAndType (Some SearchAttributeExecutingStateIds)
                   (Some KEYWORD_ARRAY)]);
    match r with
    | inr err => mret (Some err)
    | inl sas =>
        let currentSAsValues :=
          match sas !! SearchAttributeExecutingStateIds with
          | Some currentSAs => StringArrayValue currentSAs
          | None => []
          end in
        if bool_decide (sort_strings currentSAsValues = sort_strings executingStateIds)
        then mret None else upsert
    end
  else upsert.

Definition MarkStateIdExecutingIfNotYet (stateReqs : list StateRequest) : prog St (option error) :=
  wc ← get_part (P := WorkflowConfiger);
  gv ← get_part (P := GlobalVersioner);
  e ← get_part (P := StateExecutionCounter);
  let '(e', needsUpdateSA) := mark_executing gv (wc_Get wc) stateReqs e in
  _ ← put_part e';
  if needsUpdateSA then refreshIwfExecutingStateIdSearchAttribute else mret None.

Definition MarkStateExecutionCompleted (currentState : StateMovement)
  (nextStates : list StateMovement) : prog St (option error) :=
  wc ← get_part (P := WorkflowConfiger);
  gv ← get_part (P := GlobalVersioner);
  _ ← mod_part (IncExecutedStateExecution (skip_wait_until currentState));
  e ← get_part (P := StateExecutionCounter);
  let '(e', refresh) := mark_completed gv (wc_Get wc) currentState nextStates e in
  _ ← put_part e';
  if refresh then refreshIwfExecutingStateIdSearchAttribute else mret None.

Definition ClearExecutingStateIdsSearchAttributeFinally : prog St unit :=
  wc ← get_part (P := WorkflowConfiger);
  gv ← get_part (P := GlobalVersioner);
  e ← get_part (P := StateExecutionCounter);
  if IsAfterVersionOfOptimizedUpsertSearchAttribute gv
     && negb (IsAfterVersionOfExecutingStateIdMode gv)
     && (totalCurrentlyExecutingCount e =? 0)%Z then
    if GetDisableSystemSearchAttribute (wc_Get wc) then mret tt
    else
      _ ← call (UpsertSearchAttributes {[ SearchAttributeExecutingStateIds := IStrings [] ]});
      mret tt
  else mret tt.

End operations.

(** ** State execution ids are unique *)

Fixpoint has_char (c : Ascii.ascii) (s : string) : bool :=
  match s with
  | EmptyString => false
  | String a s' => bool_decide (a = c) || has_char c s'
  end.

Lemma has_char_app c s1 s2 : has_char c (s1 +:+ s2) = has_char c s1 || has_char c s2.
Proof. induction s1 as [|a s1 IH]; simpl; [done | by rewrite IH, orb_assoc]. Qed.

Lemma pretty_N_go_no_dash n s :
  has_char "-"%char (pretty_N_go n s) = has_char "-"%char s.
Proof.
  revert s. induction (N.lt_wf_0 n) as [n _ IH]; intros s.
  destruct (decide (0 < n)%N) as [Hn|Hn].
  - rewrite pretty_N_go_step by done. rewrite IH by (apply N.div_lt; lia). cbn.
    rewrite bool_decide_false; [done|].
    unfold pretty_N_char. repeat case_match; done.
  - replace n with 0%N by lia. by rewrite pretty_N_go_0.
Qed.

Lemma pretty_pos_no_dash z : (0 < z)%Z -> has_char "-"%char (pretty z) = false.
Proof.
  intros Hz. destruct z as [|p|p]; try lia.
  change (has_char "-" (pretty_N_go (N.pos p) EmptyString) = false).
  by rewrite pretty_N_go_no_dash.
Qed.

Lemma last_dash_split s1 s2 d1 d2 :
  has_char "-"%char d1 = false -> has_char "-"%char d2 = false ->
  s1 +:+ "-" +:+ d1 = s2 +:+ "-" +:+ d2 -> s1 = s2 /\ d1 = d2.
Proof.
  intros H1 H2. revert s2. induction s1 as [|a s1 IH]; intros [|b s2]; intros E.
  - by simplify_eq/=.
  - assert (d1 = s2 +:+ "-" +:+ d2) as E' by (simpl in E; injection E; intros; simpl; done).
    rewrite E', !has_char_app in H1. simpl in H1. by rewrite orb_true_r in H1.
  - assert (s1 +:+ "-" +:+ d1 = d2) as E' by (simpl in E; injection E; intros; simpl; done).
    rewrite <- E', !has_char_app in H2. simpl in H2. by rewrite orb_true_r in H2.
  - simpl in E. injection E as -> E.
    destruct (IH s2) as [-> ->]; [simpl; done | done].
Qed.

Lemma execution_id_inj s1 s2 n1 n2 :
  (0 < n1)%Z -> (0 < n2)%Z -> execution_id s1 n1 = execution_id s2 n2 -> s1 = s2 /\ n1 = n2.
Proof.
  intros H1 H2 E. apply last_dash_split in E as [-> E]; [|by apply pretty_pos_no_dash..].
  split; [done|]. by apply (inj pretty).
Qed.

(** The ids handed out for a list of state ids, from a counter that may come from
    a previous run. *)
Fixpoint create_ids (stateIds : list string) (e : StateExecutionCounter) :
  list string * StateExecutionCounter :=
  match stateIds with
  | [] => ([], e)
  | s :: rest =>
      let '(id, e') := CreateNextExecutionId s e in
      let '(ids, e'') := create_ids rest e' in (id :: ids, e'')
  end.

(** The counts are those of executions already started. *)
Definition started_wf (e : StateExecutionCounter) : Prop :=
  forall k, (0 <= map_get 0 (stateIdStartedCounts e) k)%Z.

(** An id handed out before: a number up to the current count. *)
Definition used_id (e : StateExecutionCounter) (id : string) : Prop :=
  exists k n, id = execution_id k n /\ (0 < n <= map_get 0 (stateIdStartedCounts e) k)%Z.

Lemma CreateNextExecutionId_counts s e k :
  map_get 0%Z (stateIdStartedCounts (snd (CreateNextExecutionId s e))) k =
  (map_get 0 (stateIdStartedCounts e) k + if decide (s = k) then 1 else 0)%Z.
Proof.
  unfold CreateNextExecutionId, map_get. cbn. rewrite lookup_insert.
  case_decide; simplify_eq; cbn; lia.
Qed.

Lemma CreateNextExecutionId_fresh s e :
  started_wf e -> ~ used_id e (fst (CreateNextExecutionId s e)).
Proof.
  intros Hwf (k & n & E & Hn). unfold CreateNextExecutionId in E. cbn in E.
  specialize (Hwf s) as Hs. apply execution_id_inj in E as [-> <-]; lia.
Qed.

Lemma used_id_mono s e id : used_id e id -> used_id (snd (CreateNextExecutionId s e)) id.
Proof.
  intros (k & n & -> & Hn). exists k, n. split; [done|].
  rewrite CreateNextExecutionId_counts. case_decide; lia.
Qed.

Lemma CreateNextExecutionId_used s e :
  started_wf e -> used_id (snd (CreateNextExecutionId s e)) (fst (CreateNextExecutionId s e)).
Proof.
  intros Hwf. exists s, (map_get 0 (stateIdStartedCounts e) s + 1)%Z. split; [done|].
  rewrite CreateNextExecutionId_counts, decide_True by done. specialize (Hwf s). lia.
Qed.

Lemma CreateNextExecutionId_wf s e : started_wf e -> started_wf (snd (CreateNextExecutionId s e)).
Proof. intros Hwf k. rewrite CreateNextExecutionId_counts. specialize (Hwf k). case_decide; lia. Qed.

Lemma create_ids_spec stateIds e :
  started_wf e ->
  let '(ids, e') := create_ids stateIds e in
  NoDup ids /\ (forall id, id ∈ ids -> ~ used_id e id) /\
  (forall id, id ∈ ids -> used_id e' id).
Proof.
  revert e. induction stateIds as [|s rest IH]; intros e Hwf; cbn.
  - split_and!; [constructor | |]; intros id H; by apply elem_of_nil in H.
  - pose proof (CreateNextExecutionId_fresh s e Hwf) as Hf.
    pose proof (CreateNextExecutionId_used s e Hwf) as Hu.
    pose proof (CreateNextExecutionId_wf s e Hwf) as Hwf'.
    unfold CreateNextExecutionId in Hf, Hu, Hwf'. cbn [fst snd] in Hf, Hu, Hwf'.
    pose proof (used_id_mono s e) as Hmono. unfold CreateNextExecutionId in Hmono. cbn [snd] in Hmono.
    specialize (IH _ Hwf'). destruct (create_ids rest _) as [ids e''] eqn:Ec.
    destruct IH as (Hnd & Hfresh & Hused). split_and!.
    + constructor; [|done]. intros Hin. by apply (Hfresh _ Hin).
    + intros id [->|Hin]%elem_of_cons; [done|]. intros Huse. by apply (Hfresh _ Hin), Hmono.
    + intros id [->|Hin]%elem_of_cons; [|by apply Hused].
      clear -Ec Hu. revert Ec Hu. generalize (mkStateExecutionCounter
        (<[s:=(map_get 0 (stateIdStartedCounts e) s + 1)%Z]> (stateIdStartedCounts e))
        (stateIdCurrentlyExecutingCounts e) (totalCurrentlyExecutingCount e)).
      generalize (execution_id s (map_get 0 (stateIdStartedCounts e) s + 1)%Z).
      intros id e0. revert ids e0. induction rest as [|s' rest IHr]; intros ids e0; cbn.
      * by intros [= _ <-].
      * destruct (create_ids rest _) as [ids' e'''] eqn:Ec'. intros [= _ <-] Hu.
        eapply IHr; [exact Ec'|]. by apply (used_id_mono s').
Qed.

(** ** The counts match the running state executions *)

(** Is the state execution counted per state id? *)
Definition tracked (gv : GlobalVersioner) (config : WorkflowConfig) (s : StateMovement) : bool :=
  if IsAfterVersionOfExecutingStateIdMode gv then
    match GetExecutingStateIdMode config with
    | DISABLED => false
    | ENABLED_FOR_ALL => true
    | _ => negb (skip_wait_until s)
    end
  else negb (GetDisableSystemSearchAttribute config).

Section counts.
Context (gv : GlobalVersioner) (config : WorkflowConfig).

Definition counted (k : string) (s : StateMovement) : bool :=
  tracked gv config s && bool_decide (StateId s = k).
Definition tally (k : string) (running : list StateMovement) : Z :=
  len (List.filter (counted k) running).

Definition count_entry (n : Z) : option Z := if (n =? 0)%Z then None else Some n.

Definition counts_match (running : list StateMovement) (e : StateExecutionCounter) : Prop :=
  totalCurrentlyExecutingCount e = len running /\
  forall k, stateIdCurrentlyExecutingCounts e !! k = count_entry (tally k running).

Lemma tally_app k l1 l2 : tally k (l1 ++ l2) = (tally k l1 + tally k l2)%Z.
Proof. unfold tally, len. rewrite List.filter_app, length_app. lia. Qed.

Lemma tally_cons k s l : tally k (s :: l) = ((if counted k s then 1 else 0) + tally k l)%Z.
Proof. unfold tally, len. cbn. destruct (counted k s); cbn; lia. Qed.

Lemma tally_single k s : tally k [s] = (if counted k s then 1 else 0)%Z.
Proof. unfold tally, len. cbn. by destruct (counted k s). Qed.

Lemma tally_nonneg k l : (0 <= tally k l)%Z.
Proof. apply len_nonneg. Qed.

Lemma map_get_entry (m : gmap string Z) k n : m !! k = count_entry n -> map_get 0%Z m k = n.
Proof. unfold map_get, count_entry. intros ->. destruct (Z.eqb_spec n 0); by subst. Qed.

Lemma increase_counts running s e :
  (forall k, stateIdCurrentlyExecutingCounts e !! k = count_entry (tally k running)) ->
  tracked gv config s = true ->
  forall k, stateIdCurrentlyExecutingCounts (snd (increaseStateIdCurrentlyExecutingCounts s e)) !! k =
            count_entry (tally k (running ++ [s])).
Proof.
  intros Hm Ht k. unfold increaseStateIdCurrentlyExecutingCounts. cbn.
  rewrite (map_get_entry _ _ _ (Hm (StateId s))), tally_app, tally_single, lookup_insert.
  pose proof (tally_nonneg k running). unfold counted. rewrite Ht.
  case_decide as Hk.
  - rewrite bool_decide_true by done. rewrite Hk. unfold count_entry. cbn [andb].
    destruct (Z.eqb_spec (tally k running + 1) 0); [lia | done].
  - rewrite bool_decide_false, Hm by done. cbn [andb]. by rewrite Z.add_0_r.
Qed.

Lemma untracked_counts running s (m : gmap string Z) :
  (forall k, m !! k = count_entry (tally k running)) -> tracked gv config s = false ->
  forall k, m !! k = count_entry (tally k (running ++ [s])).
Proof.
  intros Hm Ht k. rewrite Hm, tally_app, tally_single. unfold counted. rewrite Ht.
  by rewrite Z.add_0_r.
Qed.

Lemma decrease_counts l1 s l2 e :
  (forall k, stateIdCurrentlyExecutingCounts e !! k = count_entry (tally k (l1 ++ s :: l2))) ->
  tracked gv config s = true ->
  forall k, stateIdCurrentlyExecutingCounts (decreaseStateIdCurrentlyExecutingCounts s e) !! k =
            count_entry (tally k (l1 ++ l2)).
Proof.
  intros Hm Ht k. unfold decreaseStateIdCurrentlyExecutingCounts. cbn.
  rewrite (map_get_entry _ _ _ (Hm (StateId s))).
  assert (forall k', tally k' (l1 ++ s :: l2) =
    (tally k' (l1 ++ l2) + if counted k' s then 1 else 0)%Z) as Ho.
  { intros k'. rewrite !tally_app, tally_cons. lia. }
  rewrite Ho. unfold counted. rewrite Ht, bool_decide_true by done. simpl.
  replace (tally (StateId s) (l1 ++ l2) + 1 - 1)%Z with (tally (StateId s) (l1 ++ l2)) by lia.
  destruct (decide (StateId s = k)) as [<-|Hk].
  - unfold count_entry. destruct (Z.eqb_spec (tally (StateId s) (l1 ++ l2)) 0).
    + by rewrite lookup_delete_eq.
    + by rewrite lookup_insert_eq.
  - assert (tally k (l1 ++ s :: l2) = tally k (l1 ++ l2)) as E.
    { rewrite Ho. unfold counted. rewrite (bool_decide_false (StateId s = k)) by done.
      rewrite andb_false_r. lia. }
    destruct (Z.eqb_spec (tally (StateId s) (l1 ++ l2)) 0).
    + rewrite lookup_delete_ne by done. by rewrite Hm, E.
    + rewrite lookup_insert_ne by done. by rewrite Hm, E.
Qed.

Lemma mark_track_spec s e needs :
  (mark_track gv config s e needs).1 =
    (if tracked gv config s then snd (increaseStateIdCurrentlyExecutingCounts s e) else e) /\
  (IsAfterVersionOfExecutingStateIdMode gv = true ->
   (mark_track gv config s e needs).2 = needs || tracked gv config s).
Proof.
  unfold mark_track, tracked. destruct (IsAfterVersionOfExecutingStateIdMode gv).
  - destruct (GetExecutingStateIdMode config), (skip_wait_until s); cbn;
      by rewrite ?orb_true_r, ?orb_false_r.
  - by destruct (GetDisableSystemSearchAttribute config).
Qed.

(** The marking loop, over start and resume requests. *)
Lemma mark_executing_loop reqs running e needs n :
  (forall k, stateIdCurrentlyExecutingCounts e !! k = count_entry (tally k running)) ->
  let '(e', needs', n') :=
    foldl (fun st sr => mark_executing_one gv config sr st) (e, needs, n) reqs in
  (forall k, stateIdCurrentlyExecutingCounts e' !! k =
     count_entry (tally k (running ++ start_requests reqs))) /\
  totalCurrentlyExecutingCount e' = totalCurrentlyExecutingCount e /\
  n' = (n + len (start_requests reqs))%Z.
Proof.
  revert running e needs n. induction reqs as [|sr reqs IH]; intros running e needs n Hm; cbn [foldl].
  - unfold start_requests; cbn. rewrite app_nil_r. split_and!; [done | done | unfold len; cbn; lia].
  - change (sr :: reqs) with ([sr] ++ reqs). rewrite start_requests_app, app_assoc.
    unfold mark_executing_one at 2. unfold start_requests at 1 3. cbn [omap list_omap].
    destruct (IsResumeRequest sr); [rewrite app_nil_r; exact (IH running e needs n Hm)|].
    set (s := GetStateStartRequest sr).
    destruct (mark_track gv config s e needs) as [e1 needs1] eqn:E.
    pose proof (mark_track_spec s e needs) as [He1 _]. rewrite E in He1. cbn [fst] in He1.
    specialize (IH (running ++ [s]) e1 needs1 (n + 1)%Z).
    destruct (foldl _ _ _) as [[e2 needs2] n2]. destruct IH as (Hm2 & Ht2 & Hn2).
    { subst e1. destruct (tracked gv config s) eqn:Ht; [by apply increase_counts |].
      by apply untracked_counts. }
    split_and!; [done | | unfold len in *; rewrite length_app; cbn; lia].
    rewrite Ht2. subst e1. by destruct (tracked gv config s).
Qed.

Lemma mark_executing_needs reqs e needs n :
  IsAfterVersionOfExecutingStateIdMode gv = true ->
  (foldl (fun st sr => mark_executing_one gv config sr st) (e, needs, n) reqs).1.2 =
  needs || existsb (tracked gv config) (start_requests reqs).
Proof.
  intros Hv. revert e needs n. induction reqs as [|sr reqs IH]; intros e needs n; cbn [foldl].
  - by rewrite orb_false_r.
  - unfold mark_executing_one at 2. unfold start_requests. cbn [omap list_omap].
    destruct (IsResumeRequest sr); [apply IH|].
    pose proof (mark_track_spec (GetStateStartRequest sr) e needs) as [_ Hn].
    destruct (mark_track _ _ _ _ _) as [e1 needs1]. cbn [snd] in Hn.
    rewrite IH, (Hn Hv). cbn [existsb]. by rewrite orb_assoc.
Qed.

Lemma mark_executing_spec reqs running e :
  counts_match running e ->
  counts_match (running ++ start_requests reqs) (fst (mark_executing gv config reqs e)).
Proof.
  intros [Htot Hm]. unfold mark_executing.
  pose proof (mark_executing_loop reqs running e false 0 Hm) as H.
  destruct (foldl _ _ _) as [[e1 needs1] n1]. destruct H as (Hm1 & Ht1 & Hn1).
  split; cbn; [|done]. rewrite Ht1, Htot, Hn1. unfold len. rewrite length_app. lia.
Qed.

Lemma mark_completed_spec l1 s l2 next e :
  counts_match (l1 ++ s :: l2) e ->
  counts_match (l1 ++ l2) (fst (mark_completed gv config s next e)).
Proof.
  intros [Htot Hm].
  assert (totalCurrentlyExecutingCount (add_total (-1) e) = len (l1 ++ l2)) as Htot'.
  { cbn. rewrite Htot. unfold len. rewrite !length_app. cbn. lia. }
  assert (tracked gv config s = false -> forall k,
    stateIdCurrentlyExecutingCounts e !! k = count_entry (tally k (l1 ++ l2))) as Hun.
  { intros Ht k. rewrite Hm, !tally_app, tally_cons. unfold counted. rewrite Ht. done. }
  assert (tracked gv config s = true -> forall k,
    stateIdCurrentlyExecutingCounts (decreaseStateIdCurrentlyExecutingCounts s (add_total (-1) e)) !! k
    = count_entry (tally k (l1 ++ l2))) as Htr.
  { intros Ht. by apply (decrease_counts l1 s l2 (add_total (-1) e)). }
  unfold mark_completed, tracked in *.
  destruct (IsAfterVersionOfExecutingStateIdMode gv).
  - destruct (GetExecutingStateIdMode config); cbn [fst]; try (split; [done | by auto]);
      destruct (skip_wait_until s); cbn [fst]; split; auto.
  - destruct (GetDisableSystemSearchAttribute config); cbn [fst]; split; auto.
Qed.

(** The steps of the counter: requests taken from the queue, and a completion of
    a running state execution. *)
Inductive counter_step :
  list StateMovement * StateExecutionCounter -> list StateMovement * StateExecutionCounter -> Prop :=
| cs_start reqs running e :
    counter_step (running, e)
      (running ++ start_requests reqs, fst (mark_executing gv config reqs e))
| cs_complete l1 s l2 next e :
    counter_step (l1 ++ s :: l2, e) (l1 ++ l2, fst (mark_completed gv config s next e)).

Lemma counter_step_inv x y :
  counts_match x.1 x.2 -> counter_step x y -> counts_match y.1 y.2.
Proof.
  intros Hm Hs. destruct Hs as [reqs running e|l1 s l2 next e]; cbn in *.
  - by apply mark_executing_spec.
  - by apply mark_completed_spec.
Qed.

(** C7: starting from a counter that matches its running state executions (the
    empty one, or the one carried over), under one version and one configuration,
    after any starts and completions the total is the number of running state
    executions and the per-state-id map holds exactly the ids of the tracked
    running ones, with their multiplicity: no stale and no missing id.  When the
    configuration changes meanwhile it need not ([mode_change_leaves_stale_id]). *)
Theorem counter_counts_running running e running' e' :
  counts_match running e -> rtc counter_step (running, e) (running', e') ->
  totalCurrentlyExecutingCount e' = len running' /\
  (forall k, map_get 0%Z (stateIdCurrentlyExecutingCounts e') k = tally k running') /\
  (forall k, k ∈ DeterministicKeys (stateIdCurrentlyExecutingCounts e') <->
     exists s, s ∈ running' /\ tracked gv config s = true /\ StateId s = k).
Proof.
  intros Hm Hr.
  assert (counts_match running' e') as [Htot Hc].
  { eapply (rtc_invariant counter_step (fun x => counts_match x.1 x.2) (running, e) (running', e'));
      [apply counter_step_inv | exact Hm | exact Hr]. }
  split_and!; [done | intros k; by apply map_get_entry |].
  intros k. unfold DeterministicKeys. rewrite (elem_of_sorted_keys String.le), Hc.
  transitivity (tally k running' <> 0)%Z.
  { unfold count_entry.
    destruct (Z.eqb_spec (tally k running') 0); split; intros H; try done; by destruct H. }
  unfold tally. rewrite len_nil_iff. split.
  - intros Hne. destruct (List.filter (counted k) running') as [|s l] eqn:E; [done|].
    assert (In s (List.filter (counted k) running')) as Hin by (rewrite E; left; done).
    apply filter_In in Hin as [Hin Hs]. apply andb_true_iff in Hs as [Ht Hs].
    apply bool_decide_eq_true in Hs. exists s. by rewrite list_elem_of_In.
  - intros (s & Hin & Ht & Hk) E. apply list_elem_of_In in Hin.
    assert (In s (List.filter (counted k) running')) as Hf.
    { apply filter_In. split; [done|]. unfold counted. by rewrite Ht, bool_decide_true. }
    by rewrite E in Hf.
Qed.

End counts.

(** C39: the ids [CreateNextExecutionId] hands out in a run are distinct and differ
    from every id handed out in the runs before it, whose counts are carried over
    by continue-as-new, and they are in the counts that are carried over next.  The
    counts are unbounded integers here: Go's would have to reach 2^63 to wrap. *)
Theorem execution_ids_unique stateIds e :
  started_wf e ->
  NoDup (fst (create_ids stateIds e)) /\
  (forall id, id ∈ fst (create_ids stateIds e) -> ~ used_id e id) /\
  (forall id, id ∈ fst (create_ids stateIds e) -> used_id (snd (create_ids stateIds e)) id).
Proof.
  intros Hwf. pose proof (create_ids_spec stateIds e Hwf) as H.
  by destruct (create_ids stateIds e).
Qed.

(** The completion of a state may skip refreshing the search attribute only
    when starting its next states will refresh it: whenever
    [determineIfShouldSkipRefreshOnCompleted] says to skip, marking those next
    states (none of them a closing state) as executing asks for the refresh. *)
Theorem skipped_refresh_happens_later gv config currentState nextStates reqs e e' :
  IsAfterVersionOfExecutingStateIdMode gv = true ->
  Forall (fun s => ValidClosingWorkflowStateId !! StateId s = None) nextStates ->
  tracked gv config currentState = true ->
  snd (mark_completed gv config currentState nextStates e) = false ->
  start_requests reqs = nextStates ->
  snd (mark_executing gv config reqs e') = true.
Proof.
  intros Hv Hnc Ht Hskip Hreqs.
  assert (filter (fun s => ~ is_Some (ValidClosingWorkflowStateId !! StateId s)) nextStates
          = nextStates) as Hf.
  { clear -Hnc. induction Hnc as [|s l Hs _ IH]; [done|].
    rewrite filter_cons_True, IH; [done|]. rewrite Hs. by intros [? ?]. }
  assert (existsb (tracked gv config) nextStates = true) as Hex.
  { unfold tracked, mark_completed, determineIfShouldSkipRefreshOnCompleted in *.
    rewrite Hv in *. rewrite Hf in Hskip.
    destruct (GetExecutingStateIdMode config); try done;
      try (destruct (skip_wait_until currentState); [done|]; cbn in Hskip;
           apply negb_false_iff in Hskip; exact Hskip).
    cbn in Hskip. destruct nextStates; [done | reflexivity]. }
  pose proof (mark_executing_needs gv config reqs e' false 0 Hv) as Hn.
  unfold mark_executing. destruct (foldl _ _ _) as [[e1 needs] n]. cbn in *.
  by rewrite Hn, Hreqs.
Qed.

(** ** When a run continues as new *)

(** What the counter counts. *)
Inductive can_op : Type := OpExecuted (skipStart : bool) | OpSignal | OpSyncUpdate | OpTrigger.

Definition apply_can_op (c : ContinueAsNewCounter) (op : can_op) : ContinueAsNewCounter :=
  match op with
  | OpExecuted skipStart => IncExecutedStateExecution skipStart c
  | OpSignal => IncSignalsReceived c
  | OpSyncUpdate => IncSyncUpdateReceived c
  | OpTrigger => TriggerByAPI c
  end.

(** The history an operation costs: a state execution calls two APIs, or one if it
    skips the waitUntil API. *)
Definition op_cost (op : can_op) : Z :=
  match op with OpExecuted false => 2 | OpTrigger => 0 | _ => 1 end.
Definition ops_cost (ops : list can_op) : Z := foldr (fun op n => op_cost op + n)%Z 0%Z ops.
Definition is_trigger (op : can_op) : bool := match op with OpTrigger => true | _ => false end.

Definition can_total (c : ContinueAsNewCounter) : Z :=
  (signalsReceived c + executedStateApis c + syncUpdateReceived c)%Z.
Definition can_nonneg (c : ContinueAsNewCounter) : Prop :=
  (0 <= executedStateApis c /\ 0 <= signalsReceived c /\ 0 <= syncUpdateReceived c)%Z.

Lemma ops_cost_nonneg ops : (0 <= ops_cost ops)%Z.
Proof. unfold ops_cost. induction ops as [|[[]| | |] ops IH]; cbn [foldr op_cost]; lia. Qed.

Lemma apply_can_op_spec c op :
  can_nonneg c -> (can_total c + op_cost op <= 2147483647)%Z ->
  can_nonneg (apply_can_op c op) /\ can_total (apply_can_op c op) = (can_total c + op_cost op)%Z /\
  triggeredByAPI (apply_can_op c op) = triggeredByAPI c || is_trigger op.
Proof.
  unfold can_nonneg, can_total. intros (H1 & H2 & H3) Hb.
  destruct op as [[]| | |]; cbn in *; rewrite ?wrap32_id by (unfold is_int32; lia);
    rewrite ?orb_false_r, ?orb_true_r; split_and!; lia || done.
Qed.

Lemma apply_can_ops_spec ops c :
  can_nonneg c -> (can_total c + ops_cost ops <= 2147483647)%Z ->
  let c' := foldl apply_can_op c ops in
  can_nonneg c' /\ can_total c' = (can_total c + ops_cost ops)%Z /\
  triggeredByAPI c' = triggeredByAPI c || existsb is_trigger ops.
Proof.
  revert c. induction ops as [|op ops IH]; intros c Hc Hb; cbn in *; [|fold (ops_cost ops) in *].
  - rewrite orb_false_r. split_and!; [done | lia | done].
  - pose proof (ops_cost_nonneg ops).
    destruct (apply_can_op_spec c op) as (Hn & Ht & Hg); [done | lia |].
    destruct (IH (apply_can_op c op)) as (Hn' & Ht' & Hg'); [done | lia |].
    split_and!; [done | lia |]. by rewrite Hg', Hg, orb_assoc.
Qed.

(** C36: the decision to continue as new depends only on what has been counted: after
    any operations the threshold is met exactly if the API triggered it or a
    non-zero threshold is reached by the APIs called (two per state execution, one
    when it skips waitUntil), signals and updates.  So once met it stays met while
    the threshold is not changed, and with a positive threshold every run that goes
    on long enough meets it. *)
Theorem threshold_met_exactly wc c ops :
  can_nonneg c -> (can_total c + ops_cost ops <= 2147483647)%Z ->
  let T := GetContinueAsNewThreshold (wc_Get wc) in
  IsThresholdMet wc (foldl apply_can_op c ops) =
    triggeredByAPI c || existsb is_trigger ops ||
    (negb (T =? 0) && (T <=? can_total c + ops_cost ops))%Z.
Proof.
  intros Hc Hb. cbn zeta. destruct (apply_can_ops_spec ops c Hc Hb) as (Hn & Ht & Hg).
  cbn zeta in *. set (c' := foldl apply_can_op c ops) in *. clearbody c'.
  unfold IsThresholdMet. rewrite <- Hg. destruct (triggeredByAPI c'); [done|]. cbn [orb].
  destruct (Z.eqb_spec (GetContinueAsNewThreshold (wc_Get wc)) 0); [done|]. cbn [negb andb].
  unfold can_total, can_nonneg in *.
  rewrite (wrap32_id (signalsReceived c' + executedStateApis c')) by (unfold is_int32; lia).
  rewrite wrap32_id by (unfold is_int32; lia). by rewrite Ht.
Qed.

(** The counts are not robust to a change of the mode while a state execution
    runs: an execution started while counting was disabled and completed after it
    was enabled leaves the count of its state id at -1, so that the search
    attribute lists a state that is not executing. *)
Theorem mode_change_leaves_stale_id gv before after s e :
  IsAfterVersionOfExecutingStateIdMode gv = true ->
  GetExecutingStateIdMode before = DISABLED ->
  GetExecutingStateIdMode after = ENABLED_FOR_ALL ->
  stateIdCurrentlyExecutingCounts e !! StateId s = None ->
  let started := fst (mark_executing gv before [NewStateStartRequest s] e) in
  let finished := fst (mark_completed gv after s [] started) in
  totalCurrentlyExecutingCount finished = totalCurrentlyExecutingCount e /\
  stateIdCurrentlyExecutingCounts finished !! StateId s = Some (-1)%Z /\
  StateId s ∈ DeterministicKeys (stateIdCurrentlyExecutingCounts finished).
Proof.
  intros Hv Hb Ha He. cbn zeta. unfold mark_executing, mark_executing_one, mark_track, mark_completed.
  cbn -[IsAfterVersionOfExecutingStateIdMode GetExecutingStateIdMode].
  rewrite !Hv, Hb, Ha. cbn. unfold map_get. rewrite He. cbn.
  change (0 - 1 =? 0)%Z with false. cbv iota. rewrite lookup_insert_eq. split_and!; [lia | done |].
  apply elem_of_sorted_keys. rewrite lookup_insert_eq. eauto.
Qed.
