(* ===== verification/Timers.v ===== *)
(** * Timers

    service/interpreter/timers: the two timer processors and the scheduler of
    the greedy one, and [ValidateTimerSkipRequest] of service/interfaces.go.

    A [*TimerInfo] is shared between the table of the state executions, the
    scheduler's pending list and the waiting coroutines, so the timers live in a
    heap ([tt_heap]) and a pointer is a location. *)

From S2P Require Export Counter.

Notation loc := nat.

Record TimerTable : Type := mkTimerTable {
  tt_heap : gmap loc TimerInfo;
  stateExecutionCurrentTimerInfos : gmap string (list loc);
  staleSkipTimerSignals : list StaleSkipTimerSignal
}.

Definition set_heap (h : gmap loc TimerInfo) (t : TimerTable) : TimerTable :=
  mkTimerTable h (stateExecutionCurrentTimerInfos t) (staleSkipTimerSignals t).
Definition set_infos (m : gmap string (list loc)) (t : TimerTable) : TimerTable :=
  mkTimerTable (tt_heap t) m (staleSkipTimerSignals t).
Definition set_stale (l : list StaleSkipTimerSignal) (t : TimerTable) : TimerTable :=
  mkTimerTable (tt_heap t) (stateExecutionCurrentTimerInfos t) l.

Definition set_status (status : InternalTimerStatus) (timer : TimerInfo) : TimerInfo :=
  mkTimerInfo (ti_CommandId timer) (ti_FiringUnixTimestampSeconds timer) status.

(** [timer.Status = status] through the pointer [l]. *)
Definition write_status (l : loc) (status : InternalTimerStatus) (h : gmap loc TimerInfo) :
  gmap loc TimerInfo :=
  alter (set_status status) l h.

(** [&timer]: a fresh location. *)
Definition alloc (timer : TimerInfo) (h : gmap loc TimerInfo) : loc * gmap loc TimerInfo :=
  let l := fresh (dom h) in (l, <[l := timer]> h).

(** ** service/interfaces.go: ValidateTimerSkipRequest *)

Definition ValidateTimerSkipRequest (h : gmap loc TimerInfo)
  (stateExeTimerInfos : gmap string (list loc)) (stateExeId timerId : string) (timerIdx : Z) :
  option loc :=
  let timerInfos := map_get [] stateExeTimerInfos stateExeId in
  if (len timerInfos =? 0)%Z then None
  else if bool_decide (timerId <> EmptyString) then
    List.find (fun l =>
      match h !! l with
      | Some t => bool_decide (ti_CommandId t = Some timerId)
      | None => false
      end) timerInfos
  else if ((0 <=? timerIdx) && (timerIdx <? len timerInfos))%Z then
    l ← timerInfos !! Z.to_nat timerIdx;
    t ← h !! l;
    if bool_decide (ti_Status t = TimerPending) then Some l else None
  else None.

(** ** timers/utils.go *)

(** [s[i] = s[len(s)-1]; return s[:len(s)-1]] *)
Definition removeElement (s : list StaleSkipTimerSignal) (i : nat) : list StaleSkipTimerSignal :=
  let s :=
    match s !! (length s - 1)%nat with
    | Some x => <[i := x]> s
    | None => s
    end in
  take (length s - 1) s.

(** [now] in unix nanoseconds. *)
Definition FixTimerCommandFromActivityOutput (now : Z) (request : CommandRequest) : CommandRequest :=
  let timerCommands := map (fun cmd =>
    match DurationSeconds cmd with
    | Some d => mkTimerCommand (tc_CommandId cmd) (Some (wrap64 (Unix now + d))) None
    | None => cmd
    end) (TimerCommands request) in
  mkCommandRequest (cr_DeciderTriggerType request) (cr_CommandWaitingType request) timerCommands
    (SignalCommands request) (InterStateChannelCommands request) (CommandCombinations request).

(** ** Operations the two processors share *)

Definition SkipTimer (stateExeId timerId : string) (timerIdx : Z) (t : TimerTable) :
  bool * TimerTable :=
  match ValidateTimerSkipRequest (tt_heap t) (stateExecutionCurrentTimerInfos t)
          stateExeId timerId timerIdx with
  | None =>
      (false, set_stale (staleSkipTimerSignals t ++
                         [mkStaleSkipTimerSignal stateExeId timerId timerIdx]) t)
  | Some l => (true, set_heap (write_status l TimerSkipped (tt_heap t)) t)
  end.

(** The loop ranges over the signals present when it starts; a signal that still
    matches no timer is appended again by [SkipTimer]. *)
Fixpoint retry_stale (i : nat) (signals : list StaleSkipTimerSignal) (t : TimerTable) :
  bool * TimerTable :=
  match signals with
  | [] => (false, t)
  | staleSkip :: rest =>
      let '(found, t') :=
        SkipTimer (st_StateExecutionId staleSkip) (st_TimerCommandId staleSkip)
          (st_TimerCommandIndex staleSkip) t in
      if found then (true, set_stale (removeElement (staleSkipTimerSignals t') i) t')
      else retry_stale (S i) rest t'
  end.

Definition RetryStaleSkipTimer (t : TimerTable) : bool * TimerTable :=
  retry_stale 0 (staleSkipTimerSignals t) t.

Definition GetFiringUnixTimestampSeconds (cmd : TimerCommand) : Z :=
  default 0%Z (FiringUnixTimestampSeconds cmd).

(** The [TimerInfo] of command [idx]: completed commands keep their status. *)
Definition new_timer (completedTimerCmds : gmap nat InternalTimerStatus) (idx : nat)
  (cmd : TimerCommand) : TimerInfo :=
  mkTimerInfo (tc_CommandId cmd) (GetFiringUnixTimestampSeconds cmd)
    (default TimerPending (completedTimerCmds !! idx)).

(** ** simpleTimerProcessor.go *)

Record SimpleTimerProcessor : Type := mkSimpleTimerProcessor {
  s_table : TimerTable;
  awaitingTimers : list Z
}.

Definition NewSimpleTimerProcessor (stale : list StaleSkipTimerSignal) : SimpleTimerProcessor :=
  mkSimpleTimerProcessor (mkTimerTable ∅ ∅ stale) [].

Fixpoint removeSingleTime (timers : list Z) (at_ : Z) : list Z :=
  match timers with
  | [] => []
  | t :: timers' => if (t =? at_)%Z then timers' else t :: removeSingleTime timers' at_
  end.

(** The loop of [AddTimers]: allocate a timer per command. *)
Fixpoint add_timers_loop (completed : gmap nat InternalTimerStatus) (idx : nat)
  (commands : list TimerCommand) (h : gmap loc TimerInfo) : list loc * gmap loc TimerInfo :=
  match commands with
  | [] => ([], h)
  | cmd :: rest =>
      let '(l, h) := alloc (new_timer completed idx cmd) h in
      let '(ls, h) := add_timers_loop completed (S idx) rest h in
      (l :: ls, h)
  end.

Definition simple_AddTimers (stateExeId : string) (commands : list TimerCommand)
  (completed : gmap nat InternalTimerStatus) (t : SimpleTimerProcessor) : SimpleTimerProcessor :=
  let '(timers, h) := add_timers_loop completed 0 commands (tt_heap (s_table t)) in
  mkSimpleTimerProcessor
    (set_infos (<[stateExeId := timers]> (stateExecutionCurrentTimerInfos (s_table t)))
       (set_heap h (s_table t)))
    (awaitingTimers t).

Definition simple_RemovePendingTimersOfState (stateExeId : string) (t : SimpleTimerProcessor) :
  SimpleTimerProcessor :=
  mkSimpleTimerProcessor
    (set_infos (delete stateExeId (stateExecutionCurrentTimerInfos (s_table t))) (s_table t))
    (awaitingTimers t).

(** ** greedyTimerScheduler.go *)

Record timerScheduler : Type := mkTimerScheduler {
  pendingScheduling : list loc;
  providerScheduledTimerUnixTs : list Z
}.

#[export] Instance timerScheduler_eq_dec : EqDecision timerScheduler.
Proof. solve_decision. Defined.

(** [timer.FiringUnixTimestampSeconds], [timer.Status] through a pointer. *)
Definition firing (h : gmap loc TimerInfo) (l : loc) : Z :=
  match h !! l with Some t => ti_FiringUnixTimestampSeconds t | None => 0%Z end.
Definition is_pending (h : gmap loc TimerInfo) (l : loc) : bool :=
  match h !! l with Some t => bool_decide (ti_Status t = TimerPending) | None => false end.

(** The loop that finds [insertIndex]; [None] when the timer is already there. *)
Fixpoint insert_index (h : gmap loc TimerInfo) (toAdd : loc) (i : nat) (pending : list loc) :
  option nat :=
  match pending with
  | [] => Some i
  | timer :: rest =>
      if (firing h timer <=? firing h toAdd)%Z then
        if bool_decide (toAdd = timer) then None else Some i
      else insert_index h toAdd (S i) rest
  end.

Definition addTimer (h : gmap loc TimerInfo) (toAdd : loc) (t : timerScheduler) :
  gores timerScheduler :=
  if negb (is_pending h toAdd) then Panic "invalid timer added"
  else
    match insert_index h toAdd 0 (pendingScheduling t) with
    | None => Ret t
    | Some insertIndex =>
        Ret (mkTimerScheduler
               (take insertIndex (pendingScheduling t) ++
                [toAdd] ++ drop insertIndex (pendingScheduling t))
               (providerScheduledTimerUnixTs t))
    end.

Fixpoint remove_first (toRemove : loc) (pending : list loc) : list loc :=
  match pending with
  | [] => []
  | timer :: rest => if bool_decide (toRemove = timer) then rest else timer :: remove_first toRemove rest
  end.

Definition removeTimer (toRemove : loc) (t : timerScheduler) : timerScheduler :=
  mkTimerScheduler (remove_first toRemove (pendingScheduling t)) (providerScheduledTimerUnixTs t).

(** The two loops of [pruneToNextTimer] walk a slice from its end while [drop_it]
    holds and keep the rest. *)
Fixpoint trim_end {A} (drop_it : A -> bool) (l : list A) : list A :=
  match l with
  | [] => []
  | a :: l' =>
      match trim_end drop_it l' with
      | [] => if drop_it a then [] else [a]
      | l'' => a :: l''
      end
  end.

Definition pruneToNextTimer (h : gmap loc TimerInfo) (pruneTo : Z) (t : timerScheduler) :
  option loc * timerScheduler :=
  let scheduled := trim_end (fun timerTime => (timerTime <=? pruneTo)%Z)
    (providerScheduledTimerUnixTs t) in
  let pending := trim_end (fun timer =>
    negb ((pruneTo <? firing h timer)%Z && is_pending h timer)) (pendingScheduling t) in
  (last pending, mkTimerScheduler pending scheduled).

(** The condition the scheduler coroutine waits for, without the threshold. *)
Definition needs_schedule (h : gmap loc TimerInfo) (next : option loc) (t : timerScheduler) : bool :=
  match next with
  | None => false
  | Some l =>
      match last (providerScheduledTimerUnixTs t) with
      | None => true
      | Some ts => (firing h l <? ts)%Z
      end
  end.

(** ** greedyTimerProcessor.go *)

Record GreedyTimerProcessor : Type := mkGreedyTimerProcessor {
  g_table : TimerTable;
  timerManager : timerScheduler
}.

Definition NewGreedyTimerProcessor (stale : list StaleSkipTimerSignal) : GreedyTimerProcessor :=
  mkGreedyTimerProcessor (mkTimerTable ∅ ∅ stale) (mkTimerScheduler [] []).

Fixpoint greedy_add_loop (completed : gmap nat InternalTimerStatus) (idx : nat)
  (commands : list TimerCommand) (h : gmap loc TimerInfo) (m : timerScheduler) :
  gores (list loc * gmap loc TimerInfo * timerScheduler) :=
  match commands with
  | [] => Ret ([], h, m)
  | cmd :: rest =>
      let '(l, h) := alloc (new_timer completed idx cmd) h in
      m ← (if is_pending h l then addTimer h l m else Ret m);
      '(ls, h, m) ← greedy_add_loop completed (S idx) rest h m;
      Ret (l :: ls, h, m)
  end.

Definition greedy_AddTimers (stateExeId : string) (commands : list TimerCommand)
  (completed : gmap nat InternalTimerStatus) (t : GreedyTimerProcessor) :
  gores GreedyTimerProcessor :=
  '(timers, h, m) ← greedy_add_loop completed 0 commands (tt_heap (g_table t)) (timerManager t);
  Ret (mkGreedyTimerProcessor
    (set_infos (<[stateExeId := timers]> (stateExecutionCurrentTimerInfos (g_table t)))
       (set_heap h (g_table t))) m).

Definition greedy_RemovePendingTimersOfState (stateExeId : string) (t : GreedyTimerProcessor) :
  GreedyTimerProcessor :=
  let timers := map_get [] (stateExecutionCurrentTimerInfos (g_table t)) stateExeId in
  mkGreedyTimerProcessor
    (set_infos (delete stateExeId (stateExecutionCurrentTimerInfos (g_table t))) (g_table t))
    (foldl (fun m timer => removeTimer timer m) (timerManager t) timers).

(** ** The [TimerProcessor] interface of the interpreter: one of the two *)

Inductive TimerProcessor : Type :=
| Simple (p : SimpleTimerProcessor)
| Greedy (p : GreedyTimerProcessor).

Definition tp_table (tp : TimerProcessor) : TimerTable :=
  match tp with Simple p => s_table p | Greedy p => g_table p end.
Definition set_table (t : TimerTable) (tp : TimerProcessor) : TimerProcessor :=
  match tp with
  | Simple p => Simple (mkSimpleTimerProcessor t (awaitingTimers p))
  | Greedy p => Greedy (mkGreedyTimerProcessor t (timerManager p))
  end.

Definition tp_Dump (tp : TimerProcessor) : list StaleSkipTimerSignal :=
  staleSkipTimerSignals (tp_table tp).

(** The timers as the query sees them: the pointed-to values. *)
Definition GetTimerInfos (tp : TimerProcessor) : gmap string (list TimerInfo) :=
  fmap (M := gmap string)
    (fun ls : list loc => omap (M := list) (fun l => tt_heap (tp_table tp) !! l) ls)
    (stateExecutionCurrentTimerInfos (tp_table tp)).

Definition GetTimerStartedUnixTimestamps (tp : TimerProcessor) : list Z :=
  match tp with
  | Simple p => awaitingTimers p
  | Greedy p => providerScheduledTimerUnixTs (timerManager p)
  end.

Definition tp_SkipTimer (stateExeId timerId : string) (timerIdx : Z) (tp : TimerProcessor) :
  bool * TimerProcessor :=
  let '(found, t) := SkipTimer stateExeId timerId timerIdx (tp_table tp) in
  (found, set_table t tp).

Definition AddTimers (stateExeId : string) (commands : list TimerCommand)
  (completed : gmap nat InternalTimerStatus) : M TimerProcessor unit := fun tp =>
  match tp with
  | Simple p => Ret (tt, Simple (simple_AddTimers stateExeId commands completed p))
  | Greedy p => p' ← greedy_AddTimers stateExeId commands completed p; Ret (tt, Greedy p')
  end.

Definition RemovePendingTimersOfState (stateExeId : string) (tp : TimerProcessor) :
  TimerProcessor :=
  match tp with
  | Simple p => Simple (simple_RemovePendingTimersOfState stateExeId p)
  | Greedy p => Greedy (greedy_RemovePendingTimersOfState stateExeId p)
  end.

Section operations.
Context {St : Type} `{!Has St TimerProcessor, !Has St ContinueAsNewCounter, !Has St WorkflowConfiger}.

Definition status_of (l : loc) (s : St) : InternalTimerStatus :=
  match tt_heap (tp_table (part s)) !! l with
  | Some t => ti_Status t
  | None => TimerPending
  end.
Definition firing_of (l : loc) (s : St) : Z := firing (tt_heap (tp_table (part s))) l.

Definition set_awaiting (f : list Z -> list Z) (tp : TimerProcessor) : TimerProcessor :=
  match tp with
  | Simple p => Simple (mkSimpleTimerProcessor (s_table p) (f (awaitingTimers p)))
  | Greedy p => Greedy p
  end.
Definition set_manager (f : timerScheduler -> timerScheduler) (tp : TimerProcessor) :
  TimerProcessor :=
  match tp with
  | Simple p => Simple p
  | Greedy p => Greedy (mkGreedyTimerProcessor (g_table p) (f (timerManager p)))
  end.
Definition write_timer (l : loc) (status : InternalTimerStatus) (tp : TimerProcessor) :
  TimerProcessor :=
  set_table (set_heap (write_status l status (tt_heap (tp_table tp))) (tp_table tp)) tp.

Definition is_done (status : InternalTimerStatus) : bool :=
  bool_decide (status = TimerFired) || bool_decide (status = TimerSkipped).

(** The waits of the two processors.  [cancelWaiting] is the value behind the
    pointer of the same name. *)
Definition simple_wait (l : loc) (cancelWaiting : St -> bool) : prog St InternalTimerStatus :=
  now ← call Now;
  s ← Get Done;
  let fireAt := firing_of l s in
  let duration := wrap64 (wrap64 (fireAt - Unix now) * SecondNs) in
  future ← call (NewTimer duration);
  _ ← mod_part (set_awaiting (fun ts => ts ++ [fireAt]));
  _ ← Poll (IsReady future)
        (fun ready s =>
           ready || bool_decide (status_of l s = TimerSkipped) || cancelWaiting s) Done;
  _ ← mod_part (set_awaiting (fun ts => removeSingleTime ts fireAt));
  s ← Get Done;
  if bool_decide (status_of l s = TimerSkipped) then mret TimerSkipped
  else
    ready ← call (IsReady future);
    if (ready : bool) then mret TimerFired else mret TimerPending.

Definition greedy_wait (l : loc) (cancelWaiting : St -> bool) : prog St InternalTimerStatus :=
  _ ← Poll Now
        (fun now s =>
           is_done (status_of l s) || (firing_of l s <=? Unix now)%Z || cancelWaiting s) Done;
  s ← Get Done;
  if bool_decide (status_of l s = TimerSkipped) then mret TimerSkipped
  else
    now ← call Now;
    if (firing_of l s <=? Unix now)%Z then
      _ ← mod_part (write_timer l TimerFired);
      mret TimerFired
    else
      _ ← mod_part (set_manager (removeTimer l));
      mret TimerPending.

Definition WaitForTimerFiredOrSkipped (stateExeId : string) (timerIdx : nat)
  (cancelWaiting : St -> bool) : prog St InternalTimerStatus :=
  s ← Get Done;
  let timerInfos :=
    map_get [] (stateExecutionCurrentTimerInfos (tp_table (part s))) stateExeId in
  if (len timerInfos =? 0)%Z then
    if cancelWaiting s then mret TimerPending else Crash "bug: this shouldn't happen"
  else
    l ← lift_gores (index timerInfos timerIdx);
    if is_done (status_of l s) then mret (status_of l s)
    else
      let '(skippedByStaleSkip, t) := RetryStaleSkipTimer (tp_table (part s)) in
      _ ← mod_part (set_table t);
      match (part s : TimerProcessor) with
      | Simple _ =>
          if skippedByStaleSkip : bool then mret TimerSkipped else simple_wait l cancelWaiting
      | Greedy _ =>
          if skippedByStaleSkip : bool then
            _ ← mod_part (write_timer l TimerSkipped);
            mret TimerSkipped
          else greedy_wait l cancelWaiting
      end.

(** [t.pruneToNextTimer(now)] on the processor. *)
Definition prune (now : Z) : prog St (option loc) :=
  tp ← get_part (P := TimerProcessor);
  match tp with
  | Simple _ => mret None
  | Greedy p =>
      let '(next, m) := pruneToNextTimer (tt_heap (g_table p)) now (timerManager p) in
      _ ← put_part (Greedy (mkGreedyTimerProcessor (g_table p) m));
      mret next
  end.

Definition threshold_met (s : St) : bool := IsThresholdMet (part s) (part s).

(** Is the scheduler's condition true, or does evaluating it prune something?  An
    evaluation that does neither leaves no trace. *)
Definition stirs (now : Z) (s : St) : bool :=
  match (part s : TimerProcessor) with
  | Simple _ => threshold_met s
  | Greedy p =>
      let '(next, m) := pruneToNextTimer (tt_heap (g_table p)) now (timerManager p) in
      needs_schedule (tt_heap (g_table p)) next m || negb (bool_decide (m = timerManager p)) ||
      threshold_met s
  end.

(** The coroutine of [startGreedyTimerScheduler].  Its wait's condition prunes, so
    each evaluation of the condition that stirs is one iteration here; [fuel] bounds the
    iterations of the run that is considered. *)
Fixpoint greedy_timer_scheduler (fuel : nat) : prog St unit :=
  match fuel with
  | O => mret tt
  | S fuel' =>
      Poll Now (fun now s => stirs (Unix now) s) (fun r =>
        match r with
        | inr _ => mret tt
        | inl now =>
            next ← prune (Unix now);
            s ← Get Done;
            let needs :=
              match (part s : TimerProcessor) with
              | Greedy p => needs_schedule (tt_heap (g_table p)) next (timerManager p)
              | Simple _ => false
              end in
            if threshold_met s then mret tt
            else if needs then
              now' ← call Now;
              next' ← prune (Unix now');
              l ← lift_gores (deref next');
              s ← Get Done;
              let fireAt := firing_of l s in
              _ ← call (NewTimer (wrap64 (wrap64 (fireAt - Unix now') * SecondNs)));
              _ ← mod_part (set_manager (fun m =>
                    mkTimerScheduler (pendingScheduling m)
                      (providerScheduledTimerUnixTs m ++ [fireAt])));
              greedy_timer_scheduler fuel'
            else greedy_timer_scheduler fuel'
        end)
  end.

End operations.

(** ** The pending list stays sorted, latest timer first *)

Definition later (h : gmap loc TimerInfo) (l l' : loc) : Prop := (firing h l' <= firing h l)%Z.

Lemma later_trans h : Transitive (later h).
Proof. unfold later. intros a b c. lia. Qed.

Lemma insert_index_Some h x i l j :
  insert_index h x i l = Some j ->
  exists l1 l2, l = l1 ++ l2 /\ j = (i + length l1)%nat /\
    Forall (fun y => firing h x < firing h y)%Z l1 /\
    match l2 with [] => True | y :: _ => (firing h y <= firing h x)%Z end.
Proof.
  revert i. induction l as [|y l IH]; intros i; cbn.
  - intros [= <-]. exists [], []. split_and!; [done | cbn; lia | done | done].
  - destruct (Z.leb_spec (firing h y) (firing h x)) as [Hle|Hlt].
    + case_bool_decide; [done|]. intros [= <-]. exists [], (y :: l).
      split_and!; [done | cbn; lia | done | done].
    + intros (l1 & l2 & -> & -> & H1 & H2)%IH. exists (y :: l1), l2.
      split_and!; [done | cbn; lia | by constructor | done].
Qed.

Lemma insert_index_None h x i l : insert_index h x i l = None -> x ∈ l.
Proof.
  revert i. induction l as [|y l IH]; intros i; cbn; [done|].
  destruct (Z.leb (firing h y) (firing h x)).
  - case_bool_decide as Hx; [intros _; subst; left | done].
  - intros H%IH. by right.
Qed.

Lemma StronglySorted_app_3 {A} (R : relation A) l1 l2 :
  StronglySorted R l1 -> StronglySorted R l2 ->
  (forall a b, a ∈ l1 -> b ∈ l2 -> R a b) -> StronglySorted R (l1 ++ l2).
Proof.
  intros H1 H2 H12. induction H1 as [|a l1 H1 IH Ha]; [done|]. cbn. constructor.
  - apply IH. intros x y Hx. apply H12. by right.
  - apply Forall_app. split; [done|]. apply Forall_forall. intros b. apply H12. left.
Qed.

Lemma StronglySorted_app_inv {A} (R : relation A) l1 l2 :
  StronglySorted R (l1 ++ l2) ->
  StronglySorted R l1 /\ StronglySorted R l2 /\ (forall a b, a ∈ l1 -> b ∈ l2 -> R a b).
Proof.
  induction l1 as [|a l1 IH]; cbn; intros H.
  - split_and!; [constructor | done |]. intros a b Ha. by apply elem_of_nil in Ha.
  - apply StronglySorted_inv in H as [H Ha]. apply IH in H as (H1 & H2 & H12).
    apply Forall_app in Ha as [Ha1 Ha2]. split_and!; [by constructor | done |].
    intros x b [->|Hx]%elem_of_cons Hb; [|by apply H12].
    rewrite Forall_forall in Ha2. by apply Ha2.
Qed.

Lemma addTimer_spec h x t t' :
  StronglySorted (later h) (pendingScheduling t) -> addTimer h x t = Ret t' ->
  StronglySorted (later h) (pendingScheduling t') /\
  (forall l, l ∈ pendingScheduling t' <-> l = x \/ l ∈ pendingScheduling t) /\
  providerScheduledTimerUnixTs t' = providerScheduledTimerUnixTs t.
Proof.
  unfold addTimer. intros Hs. destruct (is_pending h x); [|done]. cbn.
  destruct (insert_index h x 0 (pendingScheduling t)) as [j|] eqn:Hi; intros [= <-].
  - apply insert_index_Some in Hi as (l1 & l2 & Hl & -> & H1 & H2). cbn [pendingScheduling].
    rewrite Hl in *. rewrite Nat.add_0_l, take_app_length, drop_app_length.
    apply StronglySorted_app_inv in Hs as (Hs1 & Hs2 & H12). split_and!; [| | done].
    + change (x :: l2) with ([x] ++ l2). apply StronglySorted_app_3; [done | |].
      * constructor; [done|]. destruct l2 as [|y l2]; [constructor|].
        apply StronglySorted_inv in Hs2 as [_ Hy]. constructor; [done|].
        eapply Forall_impl; [exact Hy|]. unfold later. intros z. lia.
      * intros a b Ha [->|Hb]%elem_of_cons; [|by apply H12].
        rewrite Forall_forall in H1. apply H1 in Ha. unfold later. lia.
    + intros l. rewrite !elem_of_app. cbn. rewrite elem_of_cons. tauto.
  - apply insert_index_None in Hi. split_and!; [done | | done]. intros l. naive_solver.
Qed.

Lemma removeTimer_spec h x t :
  StronglySorted (later h) (pendingScheduling t) ->
  StronglySorted (later h) (pendingScheduling (removeTimer x t)) /\
  (forall l, l <> x -> (l ∈ pendingScheduling (removeTimer x t) <-> l ∈ pendingScheduling t)).
Proof.
  unfold removeTimer. cbn. generalize (pendingScheduling t). intros p Hs.
  induction Hs as [|y p Hs [IHs IHe] Hy]; cbn; [split; [constructor | done] |].
  case_bool_decide as Hx.
  - subst. split; [done|]. intros l Hl. rewrite elem_of_cons. tauto.
  - split; [|intros l Hl; rewrite !elem_of_cons, (IHe l Hl); tauto].
    constructor; [done|]. clear -Hy. induction Hy as [|z p Hz Hy IH]; cbn; [constructor|].
    case_bool_decide; [done | by constructor].
Qed.

Lemma trim_end_spec {A} (d : A -> bool) l :
  exists suf, l = trim_end d l ++ suf /\ Forall (fun a => d a = true) suf /\
    forall a, last (trim_end d l) = Some a -> d a = false.
Proof.
  induction l as [|a l (suf & Hl & Hs & Hlast)]; cbn; [by exists []|].
  destruct (trim_end d l) as [|b l'] eqn:E.
  - destruct (d a) eqn:Ha; cbn in *.
    + exists (a :: suf). rewrite <- Hl in *. split_and!; [done | by constructor | done].
    + exists suf. rewrite <- Hl in *. split_and!; [done | done |]. by intros ? [= <-].
  - exists suf. split_and!; [by rewrite Hl at 1 | done |].
    intros x Hx. apply Hlast. by rewrite last_cons_cons in Hx.
Qed.

Lemma trim_end_idemp {A} (d : A -> bool) l : trim_end d (trim_end d l) = trim_end d l.
Proof.
  induction l as [|a l IH]; cbn; [done|].
  destruct (trim_end d l) as [|b l'] eqn:E.
  - destruct (d a) eqn:Ha; cbn; [done | by rewrite Ha].
  - cbn [trim_end]. cbn [trim_end] in IH. by rewrite IH.
Qed.

Lemma pruneToNextTimer_idemp h now t next t' :
  pruneToNextTimer h now t = (next, t') -> pruneToNextTimer h now t' = (next, t').
Proof. unfold pruneToNextTimer. intros [= <- <-]. cbn. by rewrite !trim_end_idemp. Qed.

(** A timer the scheduler still has to care about. *)
Definition wants (h : gmap loc TimerInfo) (now : Z) (l : loc) : Prop :=
  (now < firing h l)%Z /\ is_pending h l = true.

Lemma prune_drop_false h now l :
  negb ((now <? firing h l)%Z && is_pending h l) = false <-> wants h now l.
Proof. unfold wants. rewrite negb_false_iff, andb_true_iff, Z.ltb_lt. tauto. Qed.

Lemma pruneToNextTimer_spec h now t next t' :
  StronglySorted (later h) (pendingScheduling t) ->
  pruneToNextTimer h now t = (next, t') ->
  StronglySorted (later h) (pendingScheduling t') /\
  (forall l, l ∈ pendingScheduling t -> wants h now l -> l ∈ pendingScheduling t') /\
  match next with
  | None => pendingScheduling t' = []
  | Some l => l ∈ pendingScheduling t /\ wants h now l /\
      forall l', l' ∈ pendingScheduling t' -> (firing h l <= firing h l')%Z
  end.
Proof.
  unfold pruneToNextTimer. intros Hs [= <- <-]. cbn [pendingScheduling].
  set (d := fun timer => negb ((now <? firing h timer)%Z && is_pending h timer)).
  destruct (trim_end_spec d (pendingScheduling t)) as (suf & Hl & Hsuf & Hlast).
  rewrite Hl in Hs. apply StronglySorted_app_inv in Hs as (Hs1 & _ & _).
  rewrite Forall_forall in Hsuf. split_and!.
  - done.
  - intros l Hin Hw. rewrite Hl in Hin. apply elem_of_app in Hin as [|Hin]; [done|].
    apply Hsuf in Hin. apply prune_drop_false in Hw. unfold d in Hin. congruence.
  - destruct (last (trim_end d (pendingScheduling t))) as [l|] eqn:E; [|by apply last_None].
    split_and!.
    + rewrite Hl. apply elem_of_app. left. rewrite last_lookup in E.
      by apply list_elem_of_lookup_2 in E.
    + by apply prune_drop_false, Hlast.
    + intros l' Hl'. apply last_Some in E as [p E]. rewrite E in Hs1, Hl'.
      apply StronglySorted_app_inv in Hs1 as (_ & _ & H12).
      apply elem_of_app in Hl' as [Hl'| ->%list_elem_of_singleton]; [|lia].
      apply (H12 l' l); [done | by apply list_elem_of_singleton].
Qed.

(** The scheduler's invariant: both lists are sorted, the provider's strictly. *)
Definition sched_inv (h : gmap loc TimerInfo) (t : timerScheduler) : Prop :=
  StronglySorted (later h) (pendingScheduling t) /\
  StronglySorted (fun a b => (b < a)%Z) (providerScheduledTimerUnixTs t).

(** Every timer that is pending in the future has a provider timer that fires in
    the future and no later than it, so it will be re-examined in time. *)
Definition covered (h : gmap loc TimerInfo) (now : Z) (pending : list loc) (t : timerScheduler) :
  Prop :=
  forall l, l ∈ pending -> wants h now l ->
    exists ts, ts ∈ providerScheduledTimerUnixTs t /\ (now < ts <= firing h l)%Z.

(** One iteration of the scheduler: prune, then schedule the next timer if it
    fires before every scheduled one. *)
Definition schedule_once (h : gmap loc TimerInfo) (now : Z) (t : timerScheduler) : timerScheduler :=
  let '(next, t') := pruneToNextTimer h now t in
  if needs_schedule h next t' then
    match next with
    | Some l =>
        mkTimerScheduler (pendingScheduling t') (providerScheduledTimerUnixTs t' ++ [firing h l])
    | None => t'
    end
  else t'.

Lemma schedule_once_spec h now t :
  sched_inv h t ->
  sched_inv h (schedule_once h now t) /\ covered h now (pendingScheduling t) (schedule_once h now t).
Proof.
  intros [Hp Hq]. unfold schedule_once.
  destruct (pruneToNextTimer h now t) as [next t'] eqn:Hprune.
  pose proof (pruneToNextTimer_spec _ _ _ _ _ Hp Hprune) as (Hp' & Hkeep & Hnext).
  assert (providerScheduledTimerUnixTs t' =
    trim_end (fun ts => (ts <=? now)%Z) (providerScheduledTimerUnixTs t)) as Hq'.
  { unfold pruneToNextTimer in Hprune. by injection Hprune as _ <-. }
  destruct (trim_end_spec (fun ts => (ts <=? now)%Z) (providerScheduledTimerUnixTs t))
    as (suf & Hl & _ & Hlast). rewrite <- Hq' in Hl, Hlast.
  assert (StronglySorted (fun a b => (b < a)%Z) (providerScheduledTimerUnixTs t')) as Hqs.
  { rewrite Hl in Hq. by apply StronglySorted_app_inv in Hq as (? & _). }
  destruct next as [l|]; cbn [needs_schedule].
  - destruct Hnext as (Hin & Hw & Hmin). destruct Hw as [Hnow _].
    destruct (last (providerScheduledTimerUnixTs t')) as [ts|] eqn:E.
    + pose proof (Hlast ts eq_refl) as Hts. apply Z.leb_gt in Hts.
      apply last_Some in E as [p E].
      destruct (Z.ltb_spec (firing h l) ts) as [Hlt|Hge].
      * split; [split; [done|] |]; cbn [providerScheduledTimerUnixTs].
        -- apply StronglySorted_app_3; [done | repeat constructor |].
           intros a b Ha ->%list_elem_of_singleton. rewrite E in Ha, Hqs.
           apply StronglySorted_app_inv in Hqs as (_ & _ & H12).
           apply elem_of_app in Ha as [Ha| ->%list_elem_of_singleton]; [|done].
           specialize (H12 a ts Ha (list_elem_of_here _ _)). cbn in H12. lia.
        -- intros l' Hl' Hw'. exists (firing h l). cbn. split.
           ++ apply elem_of_app. right. by apply list_elem_of_singleton.
           ++ split; [done|]. by apply Hmin, Hkeep.
      * split; [done|]. intros l' Hl' Hw'. exists ts. split.
        -- rewrite E. apply elem_of_app. right. by apply list_elem_of_singleton.
        -- pose proof (Hmin l' (Hkeep l' Hl' Hw')). lia.
    + apply last_None in E. split; [split; [done|] |]; cbn [providerScheduledTimerUnixTs];
        rewrite E; [repeat constructor|].
      intros l' Hl' Hw'. exists (firing h l). cbn. split; [by apply list_elem_of_singleton |].
      split; [done|]. by apply Hmin, Hkeep.
  - split; [done|]. intros l' Hl' Hw'. pose proof (Hkeep l' Hl' Hw') as Hin.
    rewrite Hnext in Hin. by apply elem_of_nil in Hin.
Qed.

(** ** Adding timers *)

Lemma firing_insert_ne h l t x : l <> x -> firing (<[l := t]> h) x = firing h x.
Proof. intros Hne. unfold firing. by rewrite lookup_insert_ne. Qed.

Lemma StronglySorted_ext {A} (R R' : relation A) l :
  (forall a b, a ∈ l -> b ∈ l -> R a b -> R' a b) -> StronglySorted R l -> StronglySorted R' l.
Proof.
  intros HR Hs. induction Hs as [|a l Hs IH Ha]; constructor.
  - apply IH. intros x y Hx Hy. apply HR; by right.
  - rewrite Forall_forall in *. intros b Hb. apply HR; [left | by right | by apply Ha].
Qed.

Lemma later_insert h l t p :
  l ∉ p -> StronglySorted (later h) p -> StronglySorted (later (<[l := t]> h)) p.
Proof.
  intros Hl. apply StronglySorted_ext. intros a b Ha Hb. unfold later.
  rewrite !firing_insert_ne by (intros ->; done). done.
Qed.

(** All pointers of the scheduler are allocated. *)
Definition allocated (h : gmap loc TimerInfo) (p : list loc) : Prop :=
  forall l, l ∈ p -> l ∈ dom h.

Lemma greedy_add_loop_spec completed cmds idx h m :
  allocated h (pendingScheduling m) -> sched_inv h m ->
  exists ls h' m', greedy_add_loop completed idx cmds h m = Ret (ls, h', m') /\
    h ⊆ h' /\ allocated h' (pendingScheduling m') /\ sched_inv h' m' /\
    (forall l, l ∈ pendingScheduling m -> l ∈ pendingScheduling m') /\
    Forall2 (fun '(i, cmd) l => h' !! l = Some (new_timer completed i cmd) /\
       (completed !! i = None -> l ∈ pendingScheduling m'))
      (zip (seq idx (length cmds)) cmds) ls.
Proof.
  revert idx h m. induction cmds as [|cmd cmds IH]; intros idx h m Ha Hinv; cbn [greedy_add_loop].
  { by eexists [], h, m. }
  unfold alloc. set (l := fresh (dom h)). set (h1 := <[l := new_timer completed idx cmd]> h).
  assert (l ∉ dom h) as Hfresh by apply is_fresh.
  assert (l ∉ pendingScheduling m) as Hnin by (intros Hin; by apply Hfresh, Ha).
  assert (h ⊆ h1) as Hsub by (apply insert_subseteq, not_elem_of_dom, Hfresh).
  assert (allocated h1 (pendingScheduling m)) as Ha1.
  { intros x Hx. apply dom_insert, elem_of_union_r, Ha, Hx. }
  assert (sched_inv h1 m) as Hinv1 by (split; [by apply later_insert, Hinv | apply Hinv]).
  assert (exists m1, (if is_pending h1 l then addTimer h1 l m else Ret m) = Ret m1 /\
    allocated h1 (pendingScheduling m1) /\ sched_inv h1 m1 /\
    (forall x, x ∈ pendingScheduling m -> x ∈ pendingScheduling m1) /\
    (is_pending h1 l = true -> l ∈ pendingScheduling m1)) as (m1 & -> & Ha2 & Hinv2 & Hmono & Hl).
  { destruct (is_pending h1 l) eqn:Hp; [|by exists m].
    assert (exists m1, addTimer h1 l m = Ret m1) as [m1 Hm1].
    { unfold addTimer. rewrite Hp. cbn. destruct (insert_index _ _ _ _); eauto. }
    exists m1. destruct (addTimer_spec _ _ _ _ (proj1 Hinv1) Hm1) as (Hs & Hel & Hq).
    split_and!; [done | | split; [done | rewrite Hq; apply Hinv1] | |].
    - intros x [->|Hx]%Hel; [apply dom_insert; set_solver | by apply Ha1].
    - intros x Hx. apply Hel. by right.
    - intros _. apply Hel. by left. }
  cbn [mbind gores_bind].
  destruct (IH (S idx) h1 m1 Ha2 Hinv2) as (ls & h' & m' & -> & Hsub' & Ha' & Hinv' & Hmono' & HF).
  eexists (l :: ls), h', m'. split_and!; [done | by etrans | done | done | auto |].
  cbn. constructor; [|done]. split.
  - apply (lookup_weaken h1); [unfold h1; by rewrite lookup_insert_eq | done].
  - intros Hc. apply Hmono', Hl. unfold is_pending, h1. rewrite lookup_insert_eq.
    unfold new_timer. cbn. rewrite Hc. done.
Qed.

(** Adding the timer commands of a state execution to the greedy processor
    never panics, keeps the scheduler's lists sorted, gives every command its own
    timer with the command's firing time and the status carried over (or
    pending), and hands every command not yet completed to the scheduler. *)
Theorem greedy_AddTimers_spec stateExeId commands completed t :
  allocated (tt_heap (g_table t)) (pendingScheduling (timerManager t)) ->
  sched_inv (tt_heap (g_table t)) (timerManager t) ->
  exists t' ls, greedy_AddTimers stateExeId commands completed t = Ret t' /\
    sched_inv (tt_heap (g_table t')) (timerManager t') /\
    stateExecutionCurrentTimerInfos (g_table t') =
      <[stateExeId := ls]> (stateExecutionCurrentTimerInfos (g_table t)) /\
    length ls = length commands /\
    (forall i cmd l, commands !! i = Some cmd -> ls !! i = Some l ->
       tt_heap (g_table t') !! l = Some (new_timer completed i cmd) /\
       (completed !! i = None -> l ∈ pendingScheduling (timerManager t'))).
Proof.
  intros Ha Hinv. unfold greedy_AddTimers.
  destruct (greedy_add_loop_spec completed commands 0 _ _ Ha Hinv)
    as (ls & h' & m' & -> & _ & _ & Hinv' & _ & HF).
  eexists _, ls. cbn. split_and!; [done | done | done | |].
  - apply Forall2_length in HF. rewrite <- HF, length_zip_with, length_seq. lia.
  - intros i cmd l Hc Hl. apply (Forall2_lookup_lr _ _ _ i (i, cmd) l HF); [|exact Hl].
    apply lookup_zip_with_Some. exists i, cmd. split_and!; [done | | done].
    apply lookup_seq. split; [done|]. by apply lookup_lt_Some in Hc.
Qed.

#[local] Arguments pruneToNextTimer : simpl never.
#[local] Arguments needs_schedule : simpl never.

(** C27: one pass of the greedy scheduler's coroutine (with the clock standing
    still during the pass, as it does within a workflow task) leaves every timer
    that is pending in the future covered by a provider timer that fires no later
    than it, and keeps the lists sorted; when nothing wakes the coroutine, they are
    covered already. *)
Theorem greedy_scheduler_covers {St W} `{!Has St TimerProcessor, !Has St ContinueAsNewCounter,
  !Has St WorkflowConfiger} (h : forall X, providerE X -> W -> X * W) now e (s : St) p :
  (forall e, h _ Now e = (now, e)) ->
  part s = Greedy p ->
  (forall x : TimerProcessor, threshold_met (set_part x s) = false) ->
  sched_inv (tt_heap (g_table p)) (timerManager p) ->
  exists p',
    (if stirs (Unix now) s
     then exists e' s', returns h (greedy_timer_scheduler 1) e s tt e' s' /\ part s' = Greedy p'
     else p' = p) /\
    g_table p' = g_table p /\ sched_inv (tt_heap (g_table p)) (timerManager p') /\
    covered (tt_heap (g_table p)) (Unix now) (pendingScheduling (timerManager p)) (timerManager p').
Proof.
  intros Hnow Hp Hth Hinv.
  pose proof (schedule_once_spec _ (Unix now) _ Hinv) as [Hinv' Hcov].
  unfold schedule_once in *.
  destruct (stirs (Unix now) s) eqn:Hst.
  - unfold returns. cbn -[stirs]. rewrite Hnow. cbn -[stirs]. rewrite Hst. unfold prune. cbn. rewrite Hp.
    destruct (pruneToNextTimer (tt_heap (g_table p)) (Unix now) (timerManager p))
      as [next m] eqn:Hpr. cbn. rewrite Hth, !part_set. cbn.
    destruct (needs_schedule (tt_heap (g_table p)) next m) eqn:Hn.
    + cbn. rewrite Hnow. cbn. rewrite !part_set. cbn.
      assert (pruneToNextTimer (tt_heap (g_table p)) (Unix now) m = (next, m)) as Hidem.
      { by eapply pruneToNextTimer_idemp. }
      rewrite Hidem. cbn. destruct next as [l|]; [|done]. cbn.
      unfold firing_of. rewrite !part_set. cbn.
      destruct (h nat _ e) as [f e'] eqn:Hf. cbn.
      eexists. split_and!; [eexists _, _; split; [done | by rewrite part_set] | done | done | done].
    + eexists. split_and!; [eexists _, _; split; [done | by rewrite part_set] | done | done | done].
  - exists p. unfold stirs in Hst. rewrite Hp in Hst.
    destruct (pruneToNextTimer (tt_heap (g_table p)) (Unix now) (timerManager p)) as [next m].
    apply orb_false_elim in Hst as [[Hn Hm%negb_false_iff%bool_decide_eq_true]%orb_false_elim _].
    subst m. by rewrite Hn in *.
Qed.

(** ** Skipping timers *)

Lemma retry_stale_all_fail i signals t :
  (forall sk, sk ∈ signals ->
     ValidateTimerSkipRequest (tt_heap t) (stateExecutionCurrentTimerInfos t)
       (st_StateExecutionId sk) (st_TimerCommandId sk) (st_TimerCommandIndex sk) = None) ->
  retry_stale i signals t = (false, set_stale (staleSkipTimerSignals t ++ signals) t).
Proof.
  revert i t. induction signals as [|sk signals IH]; intros i t Hv; cbn.
  - rewrite app_nil_r. by destruct t.
  - unfold SkipTimer. rewrite Hv by left. rewrite IH; cbn.
    + rewrite <- app_assoc. by destruct sk.
    + intros sk' Hin. apply Hv. by right.
Qed.

(** [RetryStaleSkipTimer] that finds no timer for any stale signal queues every
    one of them again behind itself: the list doubles with every failed retry. *)
Theorem failed_retry_doubles t :
  (forall sk, sk ∈ staleSkipTimerSignals t ->
     ValidateTimerSkipRequest (tt_heap t) (stateExecutionCurrentTimerInfos t)
       (st_StateExecutionId sk) (st_TimerCommandId sk) (st_TimerCommandIndex sk) = None) ->
  RetryStaleSkipTimer t =
    (false, set_stale (staleSkipTimerSignals t ++ staleSkipTimerSignals t) t).
Proof. apply retry_stale_all_fail. Qed.

(** [ValidateTimerSkipRequest] returns a timer of the state execution it was
    asked for: the first with the command id, in any status, when an id is given;
    otherwise the one at the index, which is pending. *)
Theorem ValidateTimerSkipRequest_sound h infos stateExeId timerId timerIdx l :
  ValidateTimerSkipRequest h infos stateExeId timerId timerIdx = Some l ->
  exists timerInfos i timer, infos !! stateExeId = Some timerInfos /\
    timerInfos !! i = Some l /\ h !! l = Some timer /\
    if bool_decide (timerId = EmptyString)
    then Z.of_nat i = timerIdx /\ ti_Status timer = TimerPending
    else ti_CommandId timer = Some timerId.
Proof.
  unfold ValidateTimerSkipRequest, map_get.
  destruct (infos !! stateExeId) as [ts|]; cbn [default from_option]; [unfold id | by cbn].
  destruct (Z.eqb_spec (len ts) 0); [done|].
  case_bool_decide as Hid.
  - intros Hf%find_some. destruct Hf as [Hin Hl].
    destruct (h !! l) as [timer|] eqn:Hh; [|done]. apply bool_decide_eq_true in Hl.
    apply list_elem_of_In, list_elem_of_lookup in Hin as [i Hi].
    eexists _, i, timer. rewrite bool_decide_false by done. by split_and!.
  - rewrite bool_decide_true by (destruct (decide (timerId = EmptyString)); naive_solver).
    destruct (Z.leb_spec 0 timerIdx); [|done].
    destruct (Z.ltb_spec timerIdx (len ts)); [|done]. cbn.
    destruct (ts !! Z.to_nat timerIdx) as [l'|] eqn:Hi; [|done]. cbn.
    destruct (h !! l') as [timer|] eqn:Hh; [|done]. cbn.
    case_bool_decide; [|done]. intros [= ->]. eexists _, _, timer. split_and!; try done. lia.
Qed.

(** After [FixTimerCommandFromActivityOutput] every timer command is an
    absolute one: same number and order, same ids, no duration left; a duration
    becomes now plus the duration, an absolute time is kept. *)
Theorem FixTimerCommand_spec now request i cmd :
  TimerCommands request !! i = Some cmd ->
  (is_int64 (Unix now + default 0 (DurationSeconds cmd)))%Z ->
  exists cmd', TimerCommands (FixTimerCommandFromActivityOutput now request) !! i = Some cmd' /\
    tc_CommandId cmd' = tc_CommandId cmd /\ DurationSeconds cmd' = None /\
    GetFiringUnixTimestampSeconds cmd' =
      match DurationSeconds cmd with
      | Some d => (Unix now + d)%Z
      | None => GetFiringUnixTimestampSeconds cmd
      end /\
    length (TimerCommands (FixTimerCommandFromActivityOutput now request)) =
      length (TimerCommands request).
Proof.
  intros Hi Hr. cbn [TimerCommands FixTimerCommandFromActivityOutput].
  rewrite list_lookup_fmap, Hi. eexists; split; [done|]. rewrite length_map.
  destruct (DurationSeconds cmd) as [d|] eqn:Hd; cbn in *; [|done].
  by rewrite wrap64_id.
Qed.

(** ** What a timer command waits for *)

Section waits.
Context {St W : Type} `{!Has St TimerProcessor, !Has St ContinueAsNewCounter, !Has St WorkflowConfiger}.
Context (h : forall X, providerE X -> W -> X * W).

(** A greedy timer command returns exactly when its timer is done, its firing
    time is reached or its state cancels the wait, and never reports a timer fired
    early: it answers skipped for a skipped timer, fired (and marks the timer) when
    the clock has reached the firing time, and otherwise pending, taking the timer
    off the scheduler. *)
Theorem greedy_wait_spec now l cancelWaiting e (s : St) :
  (forall e, h _ Now e = (now, e)) ->
  exec h (greedy_wait l cancelWaiting) e s =
  if is_done (status_of l s) || (firing_of l s <=? Unix now)%Z || cancelWaiting s then
    if bool_decide (status_of l s = TimerSkipped) then Some (TimerSkipped, e, s, [])
    else if (firing_of l s <=? Unix now)%Z then
      Some (TimerFired, e, set_part (write_timer l TimerFired (part s)) s, [])
    else Some (TimerPending, e, set_part (set_manager (removeTimer l) (part s)) s, [])
  else None.
Proof.
  intros Hnow. unfold greedy_wait. cbn -[is_done status_of firing_of bool_decide]. rewrite Hnow.
  destruct (is_done _ || _ || _); [|done]. cbn -[status_of firing_of bool_decide].
  destruct (bool_decide _); [done|]. cbn -[firing_of]. rewrite Hnow.
  by destruct (firing_of l s <=? Unix now)%Z.
Qed.

(** The whole of [WaitForTimerFiredOrSkipped] on a state execution without
    timers: a cancelled wait answers pending and everything else is the panic "this
    shouldn't happen" ([exec] has no result); with a timer that is already fired or
    skipped it answers that status at once and changes nothing. *)
Theorem WaitForTimerFiredOrSkipped_done stateExeId timerIdx cancelWaiting e (s : St) :
  let timerInfos := map_get [] (stateExecutionCurrentTimerInfos (tp_table (part s))) stateExeId in
  (timerInfos = [] ->
   exec h (WaitForTimerFiredOrSkipped stateExeId timerIdx cancelWaiting) e s =
     if cancelWaiting s then Some (TimerPending, e, s, []) else None) /\
  (forall l, timerInfos !! timerIdx = Some l -> is_done (status_of l s) = true ->
   exec h (WaitForTimerFiredOrSkipped stateExeId timerIdx cancelWaiting) e s =
     Some (status_of l s, e, s, [])).
Proof.
  cbn zeta. unfold WaitForTimerFiredOrSkipped. split.
  - intros Hn. cbn. rewrite Hn. cbn. by destruct (cancelWaiting s).
  - intros l Hl Hd. cbn -[is_done status_of].
    destruct (Z.eqb_spec (len (map_get [] (stateExecutionCurrentTimerInfos (tp_table (part s))) stateExeId)) 0)
      as [He%len_nil_iff|_]; [by rewrite He in Hl|].
    unfold index. rewrite Hl. cbn -[is_done status_of]. rewrite Hd. done.
Qed.

(** Removing by moving the last element to the place. *)
Lemma removeElement_Permutation l1 x l2 : removeElement (l1 ++ x :: l2) (length l1) ≡ₚ l1 ++ l2.
Proof.
  destruct l2 as [|y l2 _] using rev_ind.
  - unfold removeElement. rewrite length_app, Nat.add_sub, list_lookup_middle by done.
    rewrite insert_app_r_alt, Nat.sub_diag by done. cbn [insert list_insert].
    by rewrite length_app, Nat.add_sub, take_app_length, app_nil_r.
  - unfold removeElement.
    replace (length (l1 ++ x :: l2 ++ [y]) - 1)%nat with (length (l1 ++ x :: l2))
      by (rewrite !length_app; cbn; rewrite length_app; cbn; lia).
    replace (l1 ++ x :: l2 ++ [y]) with ((l1 ++ x :: l2) ++ [y]) by (by rewrite <- app_assoc).
    rewrite list_lookup_middle by done. rewrite <- app_assoc.
    rewrite insert_app_r_alt, Nat.sub_diag by done. cbn [insert list_insert app].
    replace (l1 ++ y :: l2 ++ [y]) with ((l1 ++ y :: l2) ++ [y]) by (by rewrite <- app_assoc).
    replace (length ((l1 ++ y :: l2) ++ [y]) - 1)%nat with (length (l1 ++ y :: l2))
      by (rewrite !length_app; cbn; lia).
    rewrite take_app_length. by rewrite <- Permutation_cons_append.
Qed.

(** Does the signal match a timer? *)
Definition matches (t : TimerTable) (sk : StaleSkipTimerSignal) : option loc :=
  ValidateTimerSkipRequest (tt_heap t) (stateExecutionCurrentTimerInfos t)
    (st_StateExecutionId sk) (st_TimerCommandId sk) (st_TimerCommandIndex sk).

Lemma retry_stale_finds i pre sk post t l :
  (forall sk', sk' ∈ pre -> matches t sk' = None) -> matches t sk = Some l ->
  retry_stale i (pre ++ sk :: post) t =
  (true, set_stale (removeElement (staleSkipTimerSignals t ++ pre) (i + length pre))
           (set_heap (write_status l TimerSkipped (tt_heap t)) t)).
Proof.
  revert i t. induction pre as [|p pre IH]; intros i t Hpre Hsk; cbn [app retry_stale].
  - unfold SkipTimer. fold (matches t sk). rewrite Hsk. cbn. by rewrite app_nil_r, Nat.add_0_r.
  - unfold SkipTimer. fold (matches t p). rewrite (Hpre p) by left. cbn [fst snd].
    rewrite IH; [| intros sk' Hin; apply (Hpre sk'); by right | exact Hsk].
    cbn. rewrite <- app_assoc, Nat.add_succ_r. by destruct p.
Qed.

(** A skip that arrived before its timer is not lost: when the retry finds the
    first stale signal that now matches a timer, it skips that timer and takes the
    signal off the list, so it is applied once; the signals before it, which match
    nothing, are queued a second time. *)
Theorem stale_skip_applied_once pre sk post t l :
  staleSkipTimerSignals t = pre ++ sk :: post ->
  (forall sk', sk' ∈ pre -> matches t sk' = None) -> matches t sk = Some l ->
  exists t', RetryStaleSkipTimer t = (true, t') /\
    tt_heap t' = write_status l TimerSkipped (tt_heap t) /\
    stateExecutionCurrentTimerInfos t' = stateExecutionCurrentTimerInfos t /\
    staleSkipTimerSignals t' ≡ₚ pre ++ post ++ pre.
Proof.
  intros Hs Hpre Hsk. unfold RetryStaleSkipTimer. rewrite Hs.
  eexists. split; [by apply retry_stale_finds|]. split_and!; [done..|].
  cbn. rewrite Hs, <- app_assoc. cbn. apply removeElement_Permutation.
Qed.
End waits.
