(* ===== verification/Channels.v ===== *)
(** * Message channels

    service/interpreter/InternalChannel.go keeps, per channel name, the messages
    published by state APIs and RPCs and not yet consumed by a command.  The
    buffer of user signals in service/interpreter/signalReceiver.go
    ([receivedSignals], [HasSignal], [Retrieve]) has the same shape.  Both are
    instances of the interface [MessageChannels]: a family of FIFO queues. *)

From S2P Require Export Service.

(** A message is a [*iwfidl.EncodedObject]. *)
Notation message := (option EncodedObject).
Notation message_map := (gmap string (list (option EncodedObject))).

(** ** The abstract contract: one FIFO queue per name *)

Definition fifo : Type := string -> list message.

Definition fifo_push (n : string) (v : message) (q : fifo) : fifo :=
  fun n' => if decide (n' = n) then q n' ++ [v] else q n'.
Definition fifo_tail (n : string) (q : fifo) : fifo :=
  fun n' => if decide (n' = n) then tail (q n') else q n'.

(** What the interpreter's command threads rely on: the abstraction [queue_of],
    the test used by their [Await] condition, the consuming read, and that an
    enabled read returns the oldest message and takes only that message. *)
Class MessageChannels (Q : Type) : Type := {
  mc_wf : Q -> Prop;
  mc_queue : Q -> fifo;
  mc_has : Q -> string -> bool;
  mc_retrieve : string -> M Q message;
  mc_push : string -> message -> Q -> Q;
  mc_has_spec q n : mc_has q n = true <-> mc_queue q n <> [];
  mc_push_spec q n v : mc_wf q ->
    mc_wf (mc_push n v q) /\ (forall n', mc_queue (mc_push n v q) n' = fifo_push n v (mc_queue q) n');
  mc_retrieve_spec q n v rest : mc_wf q -> mc_queue q n = v :: rest ->
    exists q', mc_retrieve n q = Ret (v, q') /\ mc_wf q' /\
      (forall n', mc_queue q' n' = fifo_tail n (mc_queue q) n');
  mc_retrieve_empty q n : mc_queue q n = [] ->
    exists msg, mc_retrieve n q = Panic msg
}.

(** ** The operations on the underlying map, shared by both components *)

Definition buffer_has (m : message_map) (channelName : string) : bool :=
  (0 <? len (map_get [] m channelName))%Z.

Definition buffer_receive (channelName : string) (data : message) (m : message_map) : message_map :=
  <[channelName := map_get [] m channelName ++ [data]]> m.

Definition buffer_retrieve (channelName : string) : M message_map message := fun m =>
  match map_get [] m channelName with
  | [] => Panic "critical bug, this shouldn't happen"
  | data :: l =>
      if (len l =? 0)%Z then Ret (data, delete channelName m)
      else Ret (data, <[channelName := l]> m)
  end.

Definition buffer_infos (m : message_map) : gmap string ChannelInfo :=
  (fun l => mkChannelInfo (Some (wrap32 (len l)))) <$> m.

(** ** InternalChannel.go *)

Record InternalChannel : Type := mkInternalChannel { receivedData : message_map }.

Definition NewInternalChannel : InternalChannel := mkInternalChannel ∅.
Definition RebuildInternalChannel (refill : message_map) : InternalChannel :=
  mkInternalChannel refill.
Definition ic_GetAllReceived (i : InternalChannel) : message_map := receivedData i.

Definition ic_GetInfos (i : InternalChannel) : gmap string ChannelInfo :=
  buffer_infos (receivedData i).

Definition HasData (i : InternalChannel) (channelName : string) : bool :=
  buffer_has (receivedData i) channelName.

Definition ic_receive (channelName : string) (data : message) (i : InternalChannel) :
  InternalChannel :=
  mkInternalChannel (buffer_receive channelName data (receivedData i)).

Definition ProcessPublishing (publishes : list InterStateChannelPublishing) (i : InternalChannel) :
  InternalChannel :=
  foldl (fun i pub => ic_receive (pub_ChannelName pub) (pub_Value pub) i) i publishes.

Definition ic_Retrieve (channelName : string) : M InternalChannel message := fun i =>
  match buffer_retrieve channelName (receivedData i) with
  | Ret (data, m) => Ret (data, mkInternalChannel m)
  | Panic msg => Panic msg
  end.

(** ** The buffer implements the FIFO contract *)

(** [Retrieve] deletes a name when its list runs empty, so no list is empty. *)
Definition buffer_wf (m : message_map) : Prop :=
  map_Forall (fun _ (l : list message) => l <> []) m.
Definition buffer_queue (m : message_map) : fifo := map_get [] m.

Lemma buffer_has_spec m n : buffer_has m n = true <-> buffer_queue m n <> [].
Proof.
  unfold buffer_has, buffer_queue. rewrite Z.ltb_lt.
  pose proof (len_nonneg (map_get [] m n)). rewrite <- len_nil_iff. lia.
Qed.

Lemma buffer_receive_queue m n v n' :
  buffer_queue (buffer_receive n v m) n' = fifo_push n v (buffer_queue m) n'.
Proof.
  unfold buffer_queue, buffer_receive, fifo_push, map_get.
  rewrite lookup_insert. case_decide; case_decide; naive_solver.
Qed.

Lemma buffer_receive_wf m n v : buffer_wf m -> buffer_wf (buffer_receive n v m).
Proof.
  intros Hwf. apply map_Forall_insert_2; [|done]. by destruct (map_get _ _ _).
Qed.

Lemma buffer_retrieve_spec m n v rest :
  buffer_wf m -> buffer_queue m n = v :: rest ->
  exists m', buffer_retrieve n m = Ret (v, m') /\ buffer_wf m' /\
    (forall n', buffer_queue m' n' = fifo_tail n (buffer_queue m) n').
Proof.
  unfold buffer_queue, buffer_retrieve. intros Hwf Hq. rewrite Hq.
  destruct (Z.eqb_spec (len rest) 0) as [->%len_nil_iff|Hne];
    eexists; (split; [done|]); split.
  - by apply map_Forall_delete.
  - intros n'. unfold fifo_tail, map_get in *. rewrite lookup_delete.
    case_decide; case_decide; subst; try done. by rewrite Hq.
  - apply map_Forall_insert_2; [|done]. intros ->. by apply Hne.
  - intros n'. unfold fifo_tail, map_get in *. rewrite lookup_insert.
    case_decide; case_decide; subst; try done. by rewrite Hq.
Qed.

Lemma buffer_retrieve_empty m n :
  buffer_queue m n = [] -> buffer_retrieve n m = Panic "critical bug, this shouldn't happen".
Proof. unfold buffer_queue, buffer_retrieve. by intros ->. Qed.

#[export] Hint Resolve buffer_receive_wf : iwf.

#[export] Program Instance buffer_channels : MessageChannels message_map := {|
  mc_wf := buffer_wf;
  mc_queue := buffer_queue;
  mc_has := buffer_has;
  mc_retrieve := buffer_retrieve;
  mc_push := buffer_receive
|}.
Next Obligation. apply buffer_has_spec. Qed.
Next Obligation. intros; split; [by apply buffer_receive_wf | apply buffer_receive_queue]. Qed.
Next Obligation. apply buffer_retrieve_spec. Qed.
Next Obligation. intros; eexists; by apply buffer_retrieve_empty. Qed.

Lemma ic_Retrieve_spec i n v rest :
  buffer_wf (receivedData i) -> buffer_queue (receivedData i) n = v :: rest ->
  exists i', ic_Retrieve n i = Ret (v, i') /\ buffer_wf (receivedData i') /\
    (forall n', buffer_queue (receivedData i') n' =
                fifo_tail n (buffer_queue (receivedData i)) n').
Proof.
  intros Hwf Hq. destruct (buffer_retrieve_spec _ _ _ _ Hwf Hq) as (m' & Hr & Hwf' & Hq').
  exists (mkInternalChannel m'). unfold ic_Retrieve. by rewrite Hr.
Qed.

#[export] Program Instance InternalChannel_channels : MessageChannels InternalChannel := {|
  mc_wf i := buffer_wf (receivedData i);
  mc_queue i := buffer_queue (receivedData i);
  mc_has := HasData;
  mc_retrieve := ic_Retrieve;
  mc_push := ic_receive
|}.
Next Obligation. intros. apply buffer_has_spec. Qed.
Next Obligation. intros; split; [by apply buffer_receive_wf | apply buffer_receive_queue]. Qed.
Next Obligation. intros i n v rest. apply ic_Retrieve_spec. Qed.
Next Obligation.
  intros i n Hq. eexists. unfold ic_Retrieve. by rewrite buffer_retrieve_empty.
Qed.

(** ** Runs of operations, concrete and abstract *)

Inductive channel_op : Type :=
| OpPublish (n : string) (v : message)
| OpRetrieve (n : string).

(** A run collects the retrieved messages; [None] when a retrieve panics. *)
Fixpoint run_ops {Q} `{MessageChannels Q} (ops : list channel_op) (q : Q) :
  option (list message * Q) :=
  match ops with
  | [] => Some ([], q)
  | OpPublish n v :: ops' => run_ops ops' (mc_push n v q)
  | OpRetrieve n :: ops' =>
      match mc_retrieve n q with
      | Ret (v, q') => '(vs, q'') ← run_ops ops' q'; Some (v :: vs, q'')
      | Panic _ => None
      end
  end.

Fixpoint spec_run (ops : list channel_op) (q : fifo) : option (list message * fifo) :=
  match ops with
  | [] => Some ([], q)
  | OpPublish n v :: ops' => spec_run ops' (fifo_push n v q)
  | OpRetrieve n :: ops' =>
      match q n with
      | [] => None
      | v :: _ => '(vs, q'') ← spec_run ops' (fifo_tail n q); Some (v :: vs, q'')
      end
  end.

(** The queues of [q] are those of the abstract family [s]. *)
Definition simulates {Q} `{MessageChannels Q} (q : Q) (s : fifo) : Prop :=
  mc_wf q /\ forall n, mc_queue q n = s n.

Lemma fifo_push_ext n v (s s' : fifo) :
  (forall k, s k = s' k) -> forall k, fifo_push n v s k = fifo_push n v s' k.
Proof. intros E k. unfold fifo_push. by rewrite E. Qed.

Lemma fifo_tail_ext n (s s' : fifo) :
  (forall k, s k = s' k) -> forall k, fifo_tail n s k = fifo_tail n s' k.
Proof. intros E k. unfold fifo_tail. by rewrite E. Qed.

(** Same messages and related states, or both panic. *)
Definition refines {Q} `{MessageChannels Q} (r : option (list message * Q))
  (r' : option (list message * fifo)) : Prop :=
  match r, r' with
  | Some (vs, q), Some (vs', s) => vs = vs' /\ simulates q s
  | None, None => True
  | _, _ => False
  end.

(** The refinement for any implementation of the interface. *)
Lemma channels_simulation {Q} `{MessageChannels Q} (ops : list channel_op) (q : Q) (s : fifo) :
  simulates q s -> refines (run_ops ops q) (spec_run ops s).
Proof.
  unfold refines. revert q s. induction ops as [|[n v|n] ops IH]; intros q s [Hwf Hq]; simpl.
  - done.
  - apply IH. destruct (mc_push_spec q n v Hwf) as [Hwf' Hq']. split; [done|].
    intros k. rewrite Hq'. by apply fifo_push_ext.
  - rewrite <- (Hq n). destruct (mc_queue q n) as [|v rest] eqn:E.
    + by destruct (mc_retrieve_empty q n E) as [msg ->].
    + destruct (mc_retrieve_spec q n v rest Hwf E) as (q' & -> & Hwf' & Hq').
      assert (simulates q' (fifo_tail n s)) as Hs'.
      { split; [done|]. intros k. rewrite Hq'. by apply fifo_tail_ext. }
      specialize (IH _ _ Hs'). destruct (run_ops ops q') as [[vs q'']|],
        (spec_run ops (fifo_tail n s)) as [[vs' s'']|]; simpl; naive_solver.
Qed.
