(* ===== verification/Signals.v ===== *)
(** * service/interpreter/signalReceiver.go

    The coroutines that receive system and user signals, and the draining of
    signals before continue-as-new and before a conditional close.  A Go [for]
    loop over a signal channel takes a [fuel] argument: it bounds the number of
    signals that the considered run receives in that loop. *)

From S2P Require Export Channels Persistence Timers.

Record SignalReceiver : Type := mkSignalReceiver {
  receivedSignals : message_map;
  failWorkflowByClient : bool;
  reasonFailWorkflowByClient : option string
}.

(** [initReceivedSignals] nil is the empty map. *)
Definition NewSignalReceiverState (initReceivedSignals : message_map) : SignalReceiver :=
  mkSignalReceiver initReceivedSignals false None.

Definition set_received (m : message_map) (sr : SignalReceiver) : SignalReceiver :=
  mkSignalReceiver m (failWorkflowByClient sr) (reasonFailWorkflowByClient sr).
Definition set_fail (reason : string) (sr : SignalReceiver) : SignalReceiver :=
  mkSignalReceiver (receivedSignals sr) true (Some reason).

Definition HasSignal (channelName : string) (sr : SignalReceiver) : bool :=
  buffer_has (receivedSignals sr) channelName.

Definition sr_Retrieve (channelName : string) : M SignalReceiver message := fun sr =>
  match buffer_retrieve channelName (receivedSignals sr) with
  | Ret (sigVal, m) => Ret (sigVal, set_received m sr)
  | Panic msg => Panic msg
  end.

(** [append(sr.receivedSignals[sigName], &sigVal)] *)
Definition sr_receive (channelName : string) (sigVal : message) (sr : SignalReceiver) :
  SignalReceiver :=
  set_received (buffer_receive channelName sigVal (receivedSignals sr)) sr.

Definition sr_GetAllReceived (sr : SignalReceiver) : message_map := receivedSignals sr.
Definition sr_GetInfos (sr : SignalReceiver) : gmap string ChannelInfo :=
  buffer_infos (receivedSignals sr).

Definition IsFailWorkflowRequested (sr : SignalReceiver) : bool * option error :=
  let reason := default "fail by client" (reasonFailWorkflowByClient sr) in
  if failWorkflowByClient sr
  then (true, Some (NewApplicationError CLIENT_API_FAILING_WORKFLOW_ERROR_TYPE reason))
  else (false, None).

(** The receiver is a family of FIFO queues too. *)
Lemma sr_Retrieve_spec sr n v rest :
  buffer_wf (receivedSignals sr) -> buffer_queue (receivedSignals sr) n = v :: rest ->
  exists sr', sr_Retrieve n sr = Ret (v, sr') /\ buffer_wf (receivedSignals sr') /\
    (forall n', buffer_queue (receivedSignals sr') n' =
                fifo_tail n (buffer_queue (receivedSignals sr)) n').
Proof.
  intros Hwf Hq. destruct (buffer_retrieve_spec _ _ _ _ Hwf Hq) as (m' & Hr & Hwf' & Hq').
  exists (set_received m' sr). unfold sr_Retrieve. by rewrite Hr.
Qed.

#[export] Program Instance SignalReceiver_channels : MessageChannels SignalReceiver := {|
  mc_wf sr := buffer_wf (receivedSignals sr);
  mc_queue sr := buffer_queue (receivedSignals sr);
  mc_has sr n := HasSignal n sr;
  mc_retrieve := sr_Retrieve;
  mc_push := sr_receive
|}.
Next Obligation. intros. apply buffer_has_spec. Qed.
Next Obligation. intros; split; [by apply buffer_receive_wf | apply buffer_receive_queue]. Qed.
Next Obligation. intros sr n v rest. apply sr_Retrieve_spec. Qed.
Next Obligation.
  intros sr n Hq. eexists. unfold sr_Retrieve. by rewrite buffer_retrieve_empty.
Qed.

(** C15: the internal channels and the buffered user signals are FIFO queues: every
    run of publishes and retrieves on either of them returns the messages, and
    panics, exactly as the abstract family of queues that holds the same messages. *)
Theorem channels_are_fifo ops :
  (forall (q : InternalChannel) s, simulates q s -> refines (run_ops ops q) (spec_run ops s)) /\
  (forall (q : SignalReceiver) s, simulates q s -> refines (run_ops ops q) (spec_run ops s)).
Proof. split; intros q s; apply channels_simulation. Qed.

Section handlers.
Context {St : Type}
  `{!Has St SignalReceiver, !Has St TimerProcessor, !Has St WorkflowConfiger,
    !Has St InternalChannel, !Has St StateRequestQueue, !Has St PersistenceManager,
    !Has St ContinueAsNewCounter}.

(** What is done with one signal of each system channel. *)
Definition process_fail (val : FailWorkflowSignalRequest) : prog St unit :=
  mod_part (set_fail (Reason val)).

Definition process_skip_timer (val : SkipTimerSignalRequest) : prog St unit :=
  mod_part (fun tp => snd (tp_SkipTimer (sk_StateExecutionId val) (sk_CommandId val)
                             (sk_CommandIndex val) tp)).

Definition process_update_config (val : WorkflowConfig) : prog St unit :=
  mod_part (UpdateByAPI val).

Definition process_rpc (val : ExecuteRpcSignalRequest) : prog St unit :=
  _ ← ProcessUpsertDataAttribute (rs_UpsertDataObjects val);
  _ ← ProcessUpsertSearchAttribute (rs_UpsertSearchAttributes val);
  _ ← mod_part (ProcessPublishing (rs_InterStateChannelPublishing val));
  match rs_StateDecision val with
  | Some d => mod_part (AddStateStartRequests (NextStates d))
  | None => mret tt
  end.

(** The loop of the four system signal coroutines: wait for a signal or for
    continue-as-new; process a signal and count it; stop when there is none. *)
Fixpoint system_signal_handler {T} (fuel : nat) (ty : sigty T) (name : string)
  (process : T -> prog St unit) : prog St unit :=
  match fuel with
  | O => mret tt
  | S fuel' =>
      Poll (ReceiveAsync ty name) (fun received s => is_set received || threshold_met s) (fun r =>
        match r with
        | inr _ => mret tt
        | inl (Some val) =>
            _ ← mod_part IncSignalsReceived;
            _ ← process val;
            system_signal_handler fuel' ty name process
        | inl None => mret tt
        end)
  end.

Definition fail_workflow_handler (fuel : nat) : prog St unit :=
  system_signal_handler fuel SigFail FailWorkflowSignalChannelName process_fail.
Definition skip_timer_handler (fuel : nat) : prog St unit :=
  system_signal_handler fuel SigSkip SkipTimerSignalChannelName process_skip_timer.
Definition update_config_handler (fuel : nat) : prog St unit :=
  system_signal_handler fuel SigConfig UpdateConfigSignalChannelName process_update_config.
Definition execute_rpc_handler (fuel : nat) : prog St unit :=
  system_signal_handler fuel SigRpc ExecuteRpcSignalChannelName process_rpc.

Definition trigger_continue_as_new_handler : prog St unit :=
  Poll (ReceiveAsync SigTrigger TriggerContinueAsNewSignalChannelName)
    (fun received s => is_set received || threshold_met s) (fun r =>
    match r with
    | inr _ => mret tt
    | inl (Some _) => mod_part TriggerByAPI
    | inl None => mret tt
    end).

(** [for { ok := ch.ReceiveAsync(&val); if ok { process(val) } else { break } }] *)
Fixpoint receive_all {T} (fuel : nat) (ty : sigty T) (name : string)
  (process : T -> prog St unit) : prog St unit :=
  match fuel with
  | O => mret tt
  | S fuel' =>
      ok ← call (ReceiveAsync ty name);
      match ok with
      | Some val => _ ← process val; receive_all fuel' ty name process
      | None => mret tt
      end
  end.

Definition receiveSignal (fuel : nat) (sigName : string) : prog St unit :=
  receive_all fuel SigValue sigName (fun sigVal => mod_part (sr_receive sigName (Some sigVal))).

Definition is_user_signal (sigName : string) : bool := negb (HasPrefix sigName IwfSystemConstPrefix).

(** The coroutine for user signals. *)
Fixpoint user_signal_handler (fuel : nat) : prog St unit :=
  match fuel with
  | O => mret tt
  | S fuel' =>
      Poll GetUnhandledSignalNames
        (fun unhandledSigs s =>
           (0 <? len (List.filter is_user_signal unhandledSigs))%Z || threshold_met s) (fun r =>
        match r with
        | inr _ => mret tt
        | inl unhandledSigs =>
            let toProcess := List.filter is_user_signal unhandledSigs in
            s ← Get Done;
            if (len toProcess =? 0)%Z && threshold_met s then mret tt
            else
              _ ← for_each toProcess (fun sigName =>
                    _ ← mod_part IncSignalsReceived;
                    receiveSignal fuel sigName);
              user_signal_handler fuel'
        end)
  end.

Definition NewSignalReceiver (fuel : nat) (initReceivedSignals : message_map) : prog St unit :=
  _ ← put_part (NewSignalReceiverState initReceivedSignals);
  _ ← GoNamed (fail_workflow_handler fuel) (Done tt);
  _ ← GoNamed (skip_timer_handler fuel) (Done tt);
  _ ← GoNamed (update_config_handler fuel) (Done tt);
  _ ← GoNamed trigger_continue_as_new_handler (Done tt);
  _ ← GoNamed (execute_rpc_handler fuel) (Done tt);
  GoNamed (user_signal_handler fuel) (Done tt).

(** One name of the loop of [DrainAllReceivedButUnprocessedSignals]. *)
Definition drain_signal (fuel : nat) (sigName : string) : prog St unit :=
  if HasPrefix sigName IwfSystemConstPrefix then
    if is_true_key ValidIwfSystemSignalNames sigName then
      if bool_decide (sigName = SkipTimerSignalChannelName) then
        receive_all fuel SigSkip SkipTimerSignalChannelName process_skip_timer
      else if bool_decide (sigName = UpdateConfigSignalChannelName) then
        receive_all fuel SigConfig UpdateConfigSignalChannelName process_update_config
      else if bool_decide (sigName = FailWorkflowSignalChannelName) then
        receive_all fuel SigFail FailWorkflowSignalChannelName process_fail
      else if bool_decide (sigName = ExecuteRpcSignalChannelName) then
        receive_all fuel SigRpc ExecuteRpcSignalChannelName process_rpc
      else mret tt
    else mret tt
  else receiveSignal fuel sigName.

Definition DrainAllReceivedButUnprocessedSignals (fuel : nat) : prog St unit :=
  unhandledSigs ← call GetUnhandledSignalNames;
  if (len unhandledSigs =? 0)%Z then mret tt
  else for_each unhandledSigs (drain_signal fuel).

End handlers.

(** ** Draining loses nothing

    An [Inbox] is an environment whose signal channels are FIFO queues: receiving
    takes the oldest signal of that channel only, the names of the channels with
    signals are reported, and the other calls a handler makes leave the channels
    alone.  This is what both SDKs document for workflow signal channels. *)

Class Inbox {W : Type} (h : forall X, providerE X -> W -> X * W) : Type := {
  pending_signals : forall T, sigty T -> string -> W -> list T;
  inbox_receive T (ty : sigty T) n w :
    fst (h _ (ReceiveAsync ty n) w) = head (pending_signals T ty n w) /\
    pending_signals T ty n (snd (h _ (ReceiveAsync ty n) w)) = tail (pending_signals T ty n w) /\
    (forall T' (ty' : sigty T') n', (sig_kind ty', n') <> (sig_kind ty, n) ->
      pending_signals T' ty' n' (snd (h _ (ReceiveAsync ty n) w)) = pending_signals T' ty' n' w);
  inbox_names w :
    snd (h _ GetUnhandledSignalNames w) = w /\
    forall T (ty : sigty T) n, pending_signals T ty n w <> [] ->
      n ∈ fst (h _ GetUnhandledSignalNames w);
  inbox_upsert_memo m w T (ty : sigty T) n :
    pending_signals T ty n (snd (h _ (UpsertMemo m) w)) = pending_signals T ty n w;
  inbox_upsert_sa m w T (ty : sigty T) n :
    pending_signals T ty n (snd (h _ (UpsertSearchAttributes m) w)) = pending_signals T ty n w;
  inbox_time_now w T (ty : sigty T) n :
    pending_signals T ty n (snd (h _ TimeNow w)) = pending_signals T ty n w
}.

Section drain.
Context {St : Type}
  `{!Has St SignalReceiver, !Has St TimerProcessor, !Has St WorkflowConfiger,
    !Has St InternalChannel, !Has St StateRequestQueue, !Has St PersistenceManager,
    !Has St ContinueAsNewCounter}.
Context {W : Type} (h : forall X, providerE X -> W -> X * W) `{!Inbox h}.

Notation pend := (pending_signals _).

(** [process] runs to completion and leaves the signal channels alone. *)
Definition quiet {T} (process : T -> prog St unit) : Prop :=
  forall val w s, exists w' s', returns h (process val) w s tt w' s' /\
    forall T' (ty' : sigty T') n', pend ty' n' w' = pend ty' n' w.

Lemma quiet_mod {T P} `{!Has St P} (f : T -> P -> P) : quiet (fun v => mod_part (f v)).
Proof. intros val w s. by eexists w, _. Qed.

Lemma upsert_data_quiet attrs w (s : St) :
  exists r w' s', returns h (ProcessUpsertDataAttribute attrs) w s r w' s' /\
    forall T' (ty' : sigty T') n', pend ty' n' w' = pend ty' n' w.
Proof.
  unfold returns, ProcessUpsertDataAttribute. destruct (len attrs =? 0)%Z; [by eexists _, w, s|].
  cbn. destruct (useMemo _); cbn; [|by eexists _, w, _].
  match goal with |- context [h _ (UpsertMemo ?m) w] =>
    pose proof (inbox_upsert_memo m w) as Hq; destruct (h _ (UpsertMemo m) w) as [r w'] end.
  eexists _, w', _. split; [done | apply Hq].
Qed.

Lemma upsert_search_quiet attrs w (s : St) :
  exists r w' s', returns h (ProcessUpsertSearchAttribute attrs) w s r w' s' /\
    forall T' (ty' : sigty T') n', pend ty' n' w' = pend ty' n' w.
Proof.
  unfold returns, ProcessUpsertSearchAttribute. destruct (len attrs =? 0)%Z; [by eexists _, w, s|].
  cbn. pose proof (inbox_time_now w) as Hn. destruct (h _ TimeNow w) as [now w1]. cbn in Hn.
  destruct (MapToInternalSearchAttributes now attrs) as [m|err]; cbn; [|by eexists _, w1, _].
  pose proof (inbox_upsert_sa m w1) as Hq. destruct (h _ (UpsertSearchAttributes m) w1) as [r w'].
  eexists _, w', _. split; [done |]. intros. cbn in Hq. by rewrite Hq, Hn.
Qed.

Lemma process_rpc_quiet : quiet process_rpc.
Proof.
  intros val w s. unfold returns, process_rpc, mbind, thread_mbind.
  destruct (upsert_data_quiet (rs_UpsertDataObjects val) w s) as (r1 & w1 & s1 & H1 & Hq1).
  destruct (upsert_search_quiet (rs_UpsertSearchAttributes val) w1 s1) as (r2 & w2 & s2 & H2 & Hq2).
  rewrite exec_bind, H1. cbn beta iota. rewrite exec_bind, H2. cbn.
  destruct (rs_StateDecision val); cbn; eexists w2, _; (split; [done|]);
    intros; by rewrite Hq2, Hq1.
Qed.

(** Receiving everything on a channel empties that channel only. *)
Lemma receive_all_drains {T} (ty : sigty T) n process fuel w (s : St) :
  quiet process -> (length (pend ty n w) < fuel)%nat ->
  exists w' s', returns h (receive_all fuel ty n process) w s tt w' s' /\
    pend ty n w' = [] /\
    (forall T' (ty' : sigty T') n', (sig_kind ty', n') <> (sig_kind ty, n) ->
      pend ty' n' w' = pend ty' n' w).
Proof.
  intros Hp. revert w s. induction fuel as [|fuel IH]; intros w s Hf; [lia|].
  unfold returns. cbn. unfold mbind, thread_mbind. destruct (inbox_receive T ty n w) as (Hhd & Htl & Hother).
  destruct (h _ (ReceiveAsync ty n) w) as [ok w1]. cbn in *.
  destruct (pend ty n w) as [|v rest] eqn:Eq; cbn in *; subst ok; cbn.
  - eexists w1, s. split_and!; [done | done |]. intros. by apply Hother.
  - destruct (Hp v w1 s) as (w2 & s2 & Hrun & Hq). rewrite exec_bind, Hrun.
    destruct (IH w2 s2) as (w' & s' & Hrest & Hempty & Hoth).
    { rewrite Hq, Htl. lia. }
    rewrite Hrest. eexists w', s'. split_and!; [done | done |].
    intros. by rewrite Hoth, Hq, Hother.
Qed.

(** For a user channel, every received value is also in the buffer, in order. *)
Lemma receiveSignal_drains n fuel w (s : St) :
  (length (pend SigValue n w) < fuel)%nat ->
  exists w' s', returns h (receiveSignal fuel n) w s tt w' s' /\
    pend SigValue n w' = [] /\
    (forall T' (ty' : sigty T') n', (sig_kind ty', n') <> (0%nat, n) ->
      pend ty' n' w' = pend ty' n' w) /\
    (exists m, s' = set_part (set_received m (part s)) s /\
     forall k, buffer_queue m k =
      buffer_queue (receivedSignals (part s)) k ++
        (if decide (k = n) then map Some (pend SigValue n w) else [])).
Proof.
  revert w s. induction fuel as [|fuel IH]; intros w s Hf; [lia|].
  unfold returns, receiveSignal. cbn. destruct (inbox_receive _ SigValue n w) as (Hhd & Htl & Hother).
  destruct (h _ (ReceiveAsync SigValue n) w) as [ok w1]. cbn in *.
  destruct (pend SigValue n w) as [|v rest] eqn:Eq; cbn in *; subst ok; cbn.
  - eexists w1, s. split_and!; [done | done | |].
    + intros. by apply Hother.
    + exists (receivedSignals (part s)). split.
      * assert (set_received (receivedSignals (part s)) (part s) = (part s : SignalReceiver)) as ->
          by (by destruct (part s : SignalReceiver)).
        by rewrite set_part_part.
      * intros k. case_decide; by rewrite app_nil_r.
  - destruct (IH w1 (set_part (sr_receive n (Some v) (part s)) s))
      as (w' & s' & Hrest & Hempty & Hoth & m & Hs' & Hm).
    { rewrite Htl. lia. }
    unfold returns, receiveSignal in Hrest. rewrite Hrest.
    eexists w', s'. split_and!; [done | done | |].
    + intros. by rewrite Hoth, Hother.
    + exists m. rewrite part_set, set_part_set in Hs'. split; [done|].
      intros k. rewrite Hm, part_set. cbn [receivedSignals sr_receive set_received].
      rewrite buffer_receive_queue, Htl. unfold fifo_push. case_decide; [|by rewrite !app_nil_r].
      cbn. by rewrite <- app_assoc.
Qed.

(** The kind of values that the drain takes from the channel of a name. *)
Definition target (sigName : string) : option nat :=
  if HasPrefix sigName IwfSystemConstPrefix then
    if bool_decide (sigName = SkipTimerSignalChannelName) then Some 2%nat
    else if bool_decide (sigName = UpdateConfigSignalChannelName) then Some 3%nat
    else if bool_decide (sigName = FailWorkflowSignalChannelName) then Some 1%nat
    else if bool_decide (sigName = ExecuteRpcSignalChannelName) then Some 5%nat
    else None
  else Some 0%nat.

Context `{!Indep St SignalReceiver TimerProcessor, !Indep St SignalReceiver WorkflowConfiger,
  !Indep St SignalReceiver InternalChannel, !Indep St SignalReceiver StateRequestQueue,
  !Indep St SignalReceiver PersistenceManager}.

(** [process] does not touch the buffered user signals. *)
Definition keeps_received {T} (process : T -> prog St unit) : Prop :=
  forall val w s w' s', returns h (process val) w s tt w' s' ->
    receivedSignals (part s') = receivedSignals (part s).

Lemma keeps_mod {T P} `{!Has St P, !Indep St SignalReceiver P} (f : T -> P -> P) :
  keeps_received (fun v => mod_part (f v)).
Proof. intros val w s w' s' H. unfold returns in H. cbn in H. simplify_eq. by rewrite indep. Qed.

Lemma keeps_fail : keeps_received process_fail.
Proof. intros val w s w' s' H. unfold returns in H. cbn in H. simplify_eq. by rewrite part_set. Qed.

Lemma keeps_rpc : keeps_received process_rpc.
Proof.
  intros val w s w' s' H. unfold returns, process_rpc, mbind, thread_mbind in H.
  unfold ProcessUpsertDataAttribute, ProcessUpsertSearchAttribute in H.
  destruct (len (rs_UpsertDataObjects val) =? 0)%Z, (len (rs_UpsertSearchAttributes val) =? 0)%Z;
    cbn in H; repeat (case_match; cbn in *); simplify_eq; by rewrite ?indep.
Qed.

Lemma receive_all_keeps {T} (ty : sigty T) n process fuel w (s : St) w' s' :
  quiet process -> keeps_received process -> returns h (receive_all fuel ty n process) w s tt w' s' ->
  receivedSignals (part s') = receivedSignals (part s).
Proof.
  intros Hq Hk. revert w s. induction fuel as [|fuel IH]; intros w s H; unfold returns in H; cbn in H.
  - by simplify_eq.
  - unfold mbind, thread_mbind in H. destruct (h _ (ReceiveAsync ty n) w) as [[v|] w1]; cbn in H.
    + rewrite exec_bind in H. destruct (Hq v w1 s) as (w2 & s2 & Hrun & _). rewrite Hrun in H.
      destruct (exec h (receive_all fuel ty n process) w2 s2) as [[[[[] w3] s3] ts]|] eqn:E; [|done].
      simplify_eq. rewrite app_nil_l in *. subst. erewrite IH; [|exact E]. by eapply Hk.
    + by simplify_eq.
Qed.

(** The effect of draining a list of names on the channels and on the buffer. *)
Definition drained (names : list string) (w w' : W) (s s' : St) : Prop :=
  (forall T (ty : sigty T) n, pend ty n w' =
     if decide (n ∈ names /\ target n = Some (sig_kind ty)) then [] else pend ty n w) /\
  (forall n, buffer_queue (receivedSignals (part s')) n =
     buffer_queue (receivedSignals (part s)) n ++
       if decide (n ∈ names /\ target n = Some 0%nat) then map Some (pend SigValue n w) else []).

Lemma drain_system_spec {T} (ty : sigty T) n process fuel w (s : St) :
  quiet process -> keeps_received process -> target n = Some (sig_kind ty) -> sig_kind ty <> 0%nat ->
  (length (pend ty n w) < fuel)%nat ->
  exists w' s', returns h (receive_all fuel ty n process) w s tt w' s' /\ drained [n] w w' s s'.
Proof.
  intros Hq Hk Ht Hne Hf. destruct (receive_all_drains ty n process fuel w s Hq Hf)
    as (w' & s' & Hrun & Hempty & Hoth). exists w', s'. split; [done|]. split.
  - intros T' ty' n'. case_decide as Hd.
    + destruct Hd as [->%list_elem_of_singleton Hd]. rewrite Ht in Hd. injection Hd as Hd.
      destruct ty, ty'; cbn in Hd; try done.
    + apply Hoth. intros [= E ->]. apply Hd. rewrite list_elem_of_singleton. by rewrite Ht, E.
  - intros k. rewrite (receive_all_keeps ty n process fuel w s w' s' Hq Hk Hrun).
    rewrite decide_False; [by rewrite app_nil_r|].
    rewrite list_elem_of_singleton. intros [-> ?]. congruence.
Qed.

Lemma drain_signal_spec fuel sigName w (s : St) :
  (forall T (ty : sigty T), length (pend ty sigName w) < fuel)%nat ->
  exists w' s', returns h (drain_signal fuel sigName) w s tt w' s' /\ drained [sigName] w w' s s'.
Proof.
  intros Hf. pose proof (eq_refl (target sigName)) as Ht. unfold target at 2 in Ht.
  assert (target sigName = None -> drained [sigName] w w s s) as Hnone.
  { intros Hn. split.
    - intros T ty n. rewrite decide_False; [done|]. rewrite list_elem_of_singleton.
      intros [-> ?]. congruence.
    - intros n. rewrite decide_False; [by rewrite app_nil_r|]. rewrite list_elem_of_singleton.
      intros [-> ?]. congruence. }
  unfold drain_signal. destruct (HasPrefix sigName IwfSystemConstPrefix).
  - destruct (is_true_key ValidIwfSystemSignalNames sigName) eqn:Ev.
    + case_bool_decide as H1; [subst sigName; apply drain_system_spec;
        [apply quiet_mod | apply keeps_mod | done | done | apply Hf]|].
      case_bool_decide as H2; [subst sigName; apply drain_system_spec;
        [apply quiet_mod | apply keeps_mod | done | done | apply Hf]|].
      case_bool_decide as H3; [subst sigName; apply drain_system_spec;
        [apply quiet_mod | apply keeps_fail | done | done | apply Hf]|].
      case_bool_decide as H4; [subst sigName; apply drain_system_spec;
        [apply process_rpc_quiet | apply keeps_rpc | done | done | apply Hf]|].
      exists w, s. split; [done | by apply Hnone].
    + exists w, s. split; [done|]. apply Hnone. rewrite Ht.
      repeat case_bool_decide; subst; try done; by vm_compute in Ev.
  - destruct (receiveSignal_drains sigName fuel w s (Hf _ _))
      as (w' & s' & Hrun & Hempty & Hoth & m & Hs' & Hm).
    exists w', s'. split; [done|]. split.
    + intros T ty n. case_decide as Hd.
      * destruct Hd as [->%list_elem_of_singleton Hd]. rewrite Ht in Hd. injection Hd as Hd.
        by destruct ty.
      * apply Hoth. intros [= E ->]. apply Hd. rewrite list_elem_of_singleton. by rewrite Ht, E.
    + intros n. rewrite Hs', part_set. cbn [receivedSignals set_received]. rewrite Hm.
      f_equal. destruct (decide (n = sigName)) as [->|Hn].
      * rewrite decide_True; [done|]. by rewrite list_elem_of_singleton.
      * rewrite decide_False; [done|]. rewrite list_elem_of_singleton. tauto.
Qed.

Lemma drained_nil w (s : St) : drained [] w w s s.
Proof.
  split; intros; (rewrite decide_False; [by rewrite ?app_nil_r|]); intros [H _];
    by apply elem_of_nil in H.
Qed.

Lemma drained_cons n l w1 w2 w3 (s1 s2 s3 : St) :
  drained [n] w1 w2 s1 s2 -> drained l w2 w3 s2 s3 -> drained (n :: l) w1 w3 s1 s3.
Proof.
  intros [Hp1 Hb1] [Hp2 Hb2]. split.
  - intros T ty k. rewrite Hp2, Hp1.
    destruct (decide (k ∈ n :: l /\ _)) as [[[->|Hin]%elem_of_cons Ht]|Hd].
    + case_decide; [done|]. rewrite decide_True; [done|]. by rewrite list_elem_of_singleton.
    + by rewrite decide_True.
    + rewrite !decide_False; [done | |]; intros [Hin ?]; apply Hd; (split; [|done]);
        [|by right]. apply list_elem_of_singleton in Hin as ->. left.
  - intros k. rewrite Hb2, Hb1, <- app_assoc. f_equal.
    destruct (decide (target k = Some 0%nat)) as [Ht|Ht];
      [|by rewrite !decide_False by tauto].
    destruct (decide (k = n)) as [->|Hne].
    + rewrite (decide_True (P := n ∈ n :: l /\ _)) by (split; [left | done]).
      rewrite decide_True by (by rewrite list_elem_of_singleton).
      destruct (decide (n ∈ l /\ _)); [|by rewrite app_nil_r].
      rewrite (Hp1 _ SigValue), decide_True; [by rewrite app_nil_r|].
      by rewrite list_elem_of_singleton.
    + rewrite decide_False by (rewrite list_elem_of_singleton; tauto). cbn.
      rewrite (Hp1 _ SigValue), (decide_False (P := k ∈ [n] /\ _))
        by (rewrite list_elem_of_singleton; tauto).
      apply decide_ext. rewrite elem_of_cons. tauto.
Qed.

Lemma drained_shrinks l w w' (s s' : St) T (ty : sigty T) n :
  drained l w w' s s' -> (length (pend ty n w') <= length (pend ty n w))%nat.
Proof. intros [Hp _]. rewrite Hp. case_decide; cbn; lia. Qed.

Lemma drain_names_spec fuel names w (s : St) :
  (forall T (ty : sigty T) n, length (pend ty n w) < fuel)%nat ->
  exists w' s', returns h (for_each names (drain_signal fuel)) w s tt w' s' /\
    drained names w w' s s'.
Proof.
  revert w s. induction names as [|n names IH]; intros w s Hf.
  - exists w, s. split; [done | apply drained_nil].
  - destruct (drain_signal_spec fuel n w s) as (w1 & s1 & H1 & Hd1); [intros; apply Hf|].
    destruct (IH w1 s1) as (w' & s' & H2 & Hd2).
    { intros T ty k. eapply Nat.le_lt_trans; [by eapply drained_shrinks | apply Hf]. }
    exists w', s'. split; [|by eapply drained_cons].
    unfold returns. cbn [for_each]. rewrite exec_bind, H1. cbn beta iota. by rewrite H2.
Qed.

(** C22: [DrainAllReceivedButUnprocessedSignals] terminates, and leaves no signal that
    has a [target] behind: of the four system channels it knows (skip a timer, update
    the configuration, fail, RPC) and of every user channel nothing is left, and each
    user signal is appended to the buffer of its channel, in order, after the ones
    already there; the signals of any other name -- those that trigger
    continue-as-new, unknown ones with the system's prefix, those of another type than
    their channel's -- and the other buffers stay as they are.  [fuel] only has to
    exceed the signals of one channel. *)
Theorem drain_complete fuel w (s : St) :
  (forall T (ty : sigty T) n, length (pend ty n w) < fuel)%nat ->
  exists w' s', returns h (DrainAllReceivedButUnprocessedSignals fuel) w s tt w' s' /\
    (forall T (ty : sigty T) n, target n = Some (sig_kind ty) -> pend ty n w' = []) /\
    (forall T (ty : sigty T) n, target n <> Some (sig_kind ty) -> pend ty n w' = pend ty n w) /\
    (forall n, target n = Some 0%nat ->
       buffer_queue (receivedSignals (part s')) n =
       buffer_queue (receivedSignals (part s)) n ++ map Some (pend SigValue n w)) /\
    (forall n, target n <> Some 0%nat ->
       buffer_queue (receivedSignals (part s')) n = buffer_queue (receivedSignals (part s)) n).
Proof.
  intros Hf. unfold returns, DrainAllReceivedButUnprocessedSignals. cbn.
  destruct (inbox_names w) as [Hw Hnames].
  destruct (h _ GetUnhandledSignalNames w) as [names w0]. cbn in *. subst w0.
  assert (exists w' s', exec h (if (len names =? 0)%Z then mret tt
    else for_each names (drain_signal fuel)) w s = Some (tt, w', s', []) /\
    drained names w w' s s') as (w' & s' & Hrun & Hp & Hb).
  { destruct (Z.eqb_spec (len names) 0) as [->%len_nil_iff|_].
    - exists w, s. split; [done | apply drained_nil].
    - by apply drain_names_spec. }
  exists w', s'. split_and!; [done | | | |].
  - intros T ty n Ht. rewrite Hp. case_decide as Hd; [done|].
    destruct (pend ty n w) as [|v l] eqn:E; [done|]. exfalso. apply Hd. split; [|done].
    apply (Hnames T ty). by rewrite E.
  - intros T ty n Ht. rewrite Hp, decide_False; [done|tauto].
  - intros n Ht. rewrite Hb. f_equal. case_decide as Hd; [done|].
    destruct (pend SigValue n w) as [|v l] eqn:E; [done|]. exfalso. apply Hd. split; [|done].
    apply (Hnames _ SigValue). by rewrite E.
  - intros n Ht. rewrite Hb, decide_False; [by rewrite app_nil_r|tauto].
Qed.
End drain.
