(* ===== verification/ContinueAsNew.v ===== *)
(** * service/interpreter/continueAsNewer.go

    The snapshot of a run, its dump by pages, the loading of the previous run's
    snapshot, and the draining of the workflow's coroutines.

    The maps of completed commands of a waiting state execution are shared by its
    command coroutines and by the continue-as-newer, so they live in a heap
    ([CommandsHeap]) and [ResumeEntry] holds a location.  [json.Marshal],
    [json.Unmarshal] and [md5.Sum] are parameters. *)

From S2P Require Export Signals.

(** ** The command maps of the state executions *)

Record ExecCommands : Type := mkExecCommands {
  completed : StateExecutionCompletedCommands;
  commandReqDoneOrCanceled : bool;
  waitForThreads : gmap string bool
}.

Record CommandsHeap : Type := mkCommandsHeap { ch_cells : gmap loc ExecCommands }.

Definition empty_completed : StateExecutionCompletedCommands :=
  mkStateExecutionCompletedCommands ∅ ∅ ∅.
Definition empty_exec_commands : ExecCommands := mkExecCommands empty_completed false ∅.

Definition exec_commands (h : CommandsHeap) (l : loc) : ExecCommands :=
  default empty_exec_commands (ch_cells h !! l).
Definition upd_commands (l : loc) (f : ExecCommands -> ExecCommands) (h : CommandsHeap) :
  CommandsHeap :=
  mkCommandsHeap (<[l := f (exec_commands h l)]> (ch_cells h)).
Definition alloc_commands (c : StateExecutionCompletedCommands) (h : CommandsHeap) :
  loc * CommandsHeap :=
  let l := fresh (dom (ch_cells h)) in
  (l, mkCommandsHeap (<[l := mkExecCommands c false ∅]> (ch_cells h))).

(** ** The continue-as-newer *)

(** A [StateExecutionResumeInfo] with the command maps behind a pointer. *)
Record ResumeEntry : Type := mkResumeEntry {
  re_StateExecutionId : string;
  re_State : StateMovement;
  re_StateExecutionLocals : list KeyValue;
  re_CommandRequest : CommandRequest;
  re_commands : loc
}.

Record ContinueAsNewer : Type := mkContinueAsNewer {
  StateExecutionToResumeMap : gmap string ResumeEntry;
  inflightUpdateOperations : Z
}.

Definition NewContinueAsNewer : ContinueAsNewer := mkContinueAsNewer ∅ 0.

Definition AddPotentialStateExecutionToResume (stateExecutionId : string) (state : StateMovement)
  (stateExecLocals : list KeyValue) (commandRequest : CommandRequest) (commands : loc)
  (c : ContinueAsNewer) : ContinueAsNewer :=
  mkContinueAsNewer
    (<[stateExecutionId :=
        mkResumeEntry stateExecutionId state stateExecLocals commandRequest commands]>
       (StateExecutionToResumeMap c))
    (inflightUpdateOperations c).

Definition HasAnyStateExecutionToResume (c : ContinueAsNewer) : bool :=
  bool_decide (0 < size (StateExecutionToResumeMap c))%nat.

Definition RemoveStateExecutionToResume (stateExecutionId : string) (c : ContinueAsNewer) :
  ContinueAsNewer :=
  mkContinueAsNewer (delete stateExecutionId (StateExecutionToResumeMap c))
    (inflightUpdateOperations c).

Definition IncreaseInflightOperation (c : ContinueAsNewer) : ContinueAsNewer :=
  mkContinueAsNewer (StateExecutionToResumeMap c) (inflightUpdateOperations c + 1).
Definition DecreaseInflightOperation (c : ContinueAsNewer) : ContinueAsNewer :=
  mkContinueAsNewer (StateExecutionToResumeMap c) (inflightUpdateOperations c - 1).

(** The entry as the snapshot serializes it: the maps as they are now. *)
Definition resume_info (h : CommandsHeap) (e : ResumeEntry) : StateExecutionResumeInfo :=
  mkStateExecutionResumeInfo (re_StateExecutionId e) (re_State e)
    (completed (exec_commands h (re_commands e))) (re_CommandRequest e)
    (re_StateExecutionLocals e).

(** [localStateExecutionToResumeMap]: the waiting executions, then the resume
    requests still in the queue. *)
Definition resume_map (h : CommandsHeap) (c : ContinueAsNewer) (srq : StateRequestQueue) :
  gmap string StateExecutionResumeInfo :=
  let local : gmap string StateExecutionResumeInfo :=
    foldl (fun m key =>
      match StateExecutionToResumeMap c !! key with
      | Some e => <[key := resume_info h e]> m
      | None => m
      end) ∅ (DeterministicKeys (StateExecutionToResumeMap c)) in
  foldl (fun m value => <[ri_StateExecutionId value := value]> m) local
    (GetAllStateResumeRequests srq).

(** ** Dumping by pages *)

Section pages.
Context (md5 : list Ascii.ascii -> string).

(** [int32(math.Ceil(float64(len) / float64(pageSize)))]; the quotient of two
    integers below 2^31 is far enough from the integers it is not equal to for the
    float64 rounding not to matter. *)
Definition ceil_div (a b : Z) : Z := ((a + b - 1) / b)%Z.

(** The query handler of [SetQueryHandlersForContinueAsNew] on the marshalled
    snapshot.  A slice with bad bounds panics. *)
Definition dump_page (wholeData : list Ascii.ascii) (request : WorkflowDumpRequest) :
  gores (WorkflowDumpResponse + error) :=
  let checksum := md5 wholeData in
  let pageSize :=
    if (0 <? PageSizeInBytes request)%Z then PageSizeInBytes request
    else DefaultContinueAsNewPageSizeInBytes in
  let totalPages := wrap32 (ceil_div (len wholeData) pageSize) in
  if (totalPages <=? PageNum request)%Z then
    Ret (inr (OtherError "wrong pageNum, shouldn't happen"))
  else
    let start := wrap32 (pageSize * PageNum request) in
    let end_ := wrap32 (start + pageSize) in
    let end_ :=
      if (wrap32 (len wholeData) <? end_)%Z then wrap32 (len wholeData) else end_ in
    if ((0 <=? start) && (start <=? end_) && (end_ <=? len wholeData))%Z then
      Ret (inl (mkWorkflowDumpResponse checksum totalPages
        (String.string_of_list_ascii
           (take (Z.to_nat (end_ - start)) (drop (Z.to_nat start) wholeData)))))
    else Panic "slice bounds out of range".

End pages.

(** ** Loading the previous run *)

Record DumpActivityConfig : Type := mkDumpActivityConfig {
  dac_StartToCloseTimeout : Z;
  dac_RetryPolicy : option RetryPolicy
}.

Section operations.
Context {St : Type}.
Context (unmarshal : list Ascii.ascii -> option ContinueAsNewDumpResponse).

Definition dump_activity_options (config : option DumpActivityConfig) : ActivityOptions :=
  let default_retry := mkRetryPolicy None None (Some 5%Z) None None in
  match config with
  | None => mkActivityOptions (5 * SecondNs) 0 (Some default_retry)
  | Some c =>
      mkActivityOptions (dac_StartToCloseTimeout c) 0
        (match dac_RetryPolicy c with Some r => Some r | None => Some default_retry end)
  end.

(** The loop of [LoadInternalsFromPreviousRun]: [None] when [fuel] requests were
    not enough. *)
Fixpoint load_loop (fuel : nat) (options : ActivityOptions) (workflowId previousRunId : string)
  (pageSize : Z) (sb lastChecksum : string) (pageNum : Z) : prog St (option (string + error)) :=
  match fuel with
  | O => mret None
  | S fuel' =>
      r ← call (ExecuteDumpWorkflowInternal options
                  (mkWorkflowDumpRequest workflowId previousRunId pageSize pageNum));
      match r with
      | inr err => mret (Some (inr err))
      | inl resp =>
          if bool_decide (lastChecksum <> EmptyString)
             && bool_decide (lastChecksum <> Checksum resp) then
            load_loop fuel' options workflowId previousRunId pageSize EmptyString EmptyString 0
          else
            let sb := sb +:+ JsonData resp in
            let pageNum := wrap32 (pageNum + 1) in
            if (TotalPages resp <=? pageNum)%Z then mret (Some (inl sb))
            else load_loop fuel' options workflowId previousRunId pageSize sb (Checksum resp) pageNum
      end
  end.

Definition LoadInternalsFromPreviousRun (fuel : nat) (config : option DumpActivityConfig)
  (previousRunId : string) (continueAsNewPageSizeInBytes : Z) :
  prog St (option (ContinueAsNewDumpResponse + error)) :=
  info ← call GetWorkflowInfo;
  let workflowId := ID (wi_WorkflowExecution info) in
  let pageSize :=
    if (continueAsNewPageSizeInBytes =? 0)%Z then DefaultContinueAsNewPageSizeInBytes
    else continueAsNewPageSizeInBytes in
  r ← load_loop fuel (dump_activity_options config) workflowId previousRunId pageSize
        EmptyString EmptyString 0;
  mret (match r with
        | None => None
        | Some (inr err) => Some (inr err)
        | Some (inl sb) =>
            match unmarshal (String.list_ascii_of_string sb) with
            | Some resp => Some (inl resp)
            | None => Some (inr (OtherError "json.Unmarshal"))
            end
        end).

(** ** The snapshot and the draining *)

Context `{!Has St SignalReceiver, !Has St TimerProcessor, !Has St InternalChannel,
  !Has St StateRequestQueue, !Has St PersistenceManager, !Has St StateExecutionCounter,
  !Has St OutputCollector, !Has St ContinueAsNewer, !Has St CommandsHeap}.

Definition GetSnapshot (s : St) : ContinueAsNewDumpResponse :=
  mkContinueAsNewDumpResponse
    (GetAllStateStartRequests (part s))
    (resume_map (part s) (part s) (part s))
    (ic_GetAllReceived (part s))
    (sr_GetAllReceived (part s))
    (sec_Dump (part s))
    (oc_GetAll (part s))
    (tp_Dump (part s))
    (GetAllDataAttributes (part s))
    (GetAllSearchAttributes (part s)).

(** [allThreadsDrained]; the in-memory monitor of the source only decides what is
    logged. *)
Definition DrainThreads : prog St (option error) :=
  Poll GetThreadCount
    (fun remainingThreadCount s =>
       ((remainingThreadCount =? 0) && (inflightUpdateOperations (part s) =? 0))%Z)
    (fun r => match r with inl _ => mret None | inr err => mret (Some err) end).

End operations.

(** ** Pages put together are the data *)

Section pages_lemmas.
Context (md5 : list Ascii.ascii -> string).

Definition page (pageSize : Z) (data : list Ascii.ascii) (n : nat) : list Ascii.ascii :=
  take (Z.to_nat pageSize) (drop (Z.to_nat pageSize * n) data).

(** Sizes for which the int32 arithmetic of the handler is exact. *)
Definition page_sizes_ok (pageSize : Z) (data : list Ascii.ascii) : Prop :=
  (0 < pageSize)%Z /\ (len data + pageSize <= 2147483647)%Z.

Definition total_pages (pageSize : Z) (data : list Ascii.ascii) : Z := ceil_div (len data) pageSize.

Lemma ceil_div_le a b : (0 < b)%Z -> (0 <= a)%Z -> (0 <= ceil_div a b <= a)%Z.
Proof.
  intros Hb Ha. unfold ceil_div. split; [apply Z.div_pos; lia|].
  destruct (decide (a = 0)%Z) as [->|]; [rewrite Z.div_small; lia|].
  apply Z.div_le_upper_bound; nia.
Qed.

Lemma total_pages_bound pageSize data (n : Z) :
  page_sizes_ok pageSize data -> (0 <= n)%Z ->
  (n < total_pages pageSize data)%Z <-> (pageSize * n < len data)%Z.
Proof.
  intros [Hp Hl] Hn. unfold total_pages, ceil_div.
  split; intros H.
  - assert (pageSize * (n + 1) <= len data + pageSize - 1)%Z; [|lia].
    assert (n + 1 <= (len data + pageSize - 1) / pageSize)%Z by lia.
    etransitivity; [apply Z.mul_le_mono_nonneg_l; [lia | eassumption] | apply Z.mul_div_le; lia].
  - assert (n + 1 <= (len data + pageSize - 1) / pageSize)%Z; [|lia].
    apply Z.div_le_lower_bound; lia.
Qed.

Lemma dump_page_spec pageSize data wid rid (n : Z) :
  page_sizes_ok pageSize data -> (0 <= n)%Z ->
  dump_page md5 data (mkWorkflowDumpRequest wid rid pageSize n) =
  Ret (if (n <? total_pages pageSize data)%Z then
         inl (mkWorkflowDumpResponse (md5 data) (total_pages pageSize data)
                (String.string_of_list_ascii (page pageSize data (Z.to_nat n))))
       else inr (OtherError "wrong pageNum, shouldn't happen")).
Proof.
  intros Hok Hn. pose proof Hok as [Hp Hl]. pose proof (len_nonneg data).
  unfold dump_page. cbn [PageSizeInBytes PageNum].
  destruct (Z.ltb_spec 0 pageSize); [|lia].
  fold (total_pages pageSize data).
  pose proof (ceil_div_le (len data) pageSize ltac:(lia) ltac:(lia)) as Hc.
  fold (total_pages pageSize data) in Hc.
  rewrite (wrap32_id (total_pages pageSize data)) by (unfold is_int32; lia).
  destruct (Z.leb_spec (total_pages pageSize data) n), (Z.ltb_spec n (total_pages pageSize data));
    try lia; [done|].
  assert (pageSize * n < len data)%Z as Hlt by (by apply total_pages_bound).
  assert (0 <= pageSize * n)%Z by nia.
  rewrite (wrap32_id (pageSize * n)) by (unfold is_int32; lia).
  rewrite (wrap32_id (pageSize * n + pageSize)) by (unfold is_int32; lia).
  rewrite (wrap32_id (len data)) by (unfold is_int32; lia).
  assert (Z.to_nat (pageSize * n) = Z.to_nat pageSize * Z.to_nat n)%nat as En
    by (rewrite Z2Nat.inj_mul; lia).
  unfold page. rewrite En.
  destruct (Z.ltb_spec (len data) (pageSize * n + pageSize)).
  - destruct (Z.leb_spec 0 (pageSize * n)), (Z.leb_spec (pageSize * n) (len data)),
      (Z.leb_spec (len data) (len data)); try lia. cbn [andb].
    do 4 f_equal. unfold len in *.
    rewrite !take_ge; [done | rewrite length_drop; lia..].
  - destruct (Z.leb_spec 0 (pageSize * n)), (Z.leb_spec (pageSize * n) (pageSize * n + pageSize)),
      (Z.leb_spec (pageSize * n + pageSize) (len data)); try lia. cbn [andb].
    do 4 f_equal. f_equal. lia.
Qed.

(** The concatenation of the first [n] pages. *)
Lemma take_pages pageSize data n :
  take (Z.to_nat pageSize * S n) data = take (Z.to_nat pageSize * n) data ++ page pageSize data n.
Proof.
  unfold page. rewrite Nat.mul_succ_r, <- take_take_drop. done.
Qed.

End pages_lemmas.

(** ** Loading reads one snapshot *)

Lemma list_ascii_app s1 s2 :
  String.list_ascii_of_string (s1 +:+ s2) =
  String.list_ascii_of_string s1 ++ String.list_ascii_of_string s2.
Proof. induction s1 as [|a s1 IH]; simpl; [done | by rewrite IH]. Qed.

Section load.
Context {St W : Type} (h : forall X, providerE X -> W -> X * W) (md5 : list Ascii.ascii -> string).
(** [served w]: the marshalled snapshot the previous run answers from in [w]. *)
Context (served : W -> list Ascii.ascii) (pageSize : Z).

Definition dump_answer (data : list Ascii.ascii) (req : WorkflowDumpRequest) :
  WorkflowDumpResponse + error :=
  match dump_page md5 data req with Ret r => r | Panic msg => inr (OtherError msg) end.

(** The requests considered. *)
Context (asked : WorkflowDumpRequest -> Prop).

(** [x] is an answer of the query handler, whatever the text of its error. *)
Definition page_answer (data : list Ascii.ascii) (req : WorkflowDumpRequest)
  (x : WorkflowDumpResponse + error) : Prop :=
  match dump_answer data req with inl resp => x = inl resp | inr _ => exists err, x = inr err end.

(** The dump activity asks the query handler of the previous run, at some moment. *)
Definition dump_server : Prop :=
  forall options req w, asked req ->
    exists w1, page_answer (served w1) req (fst (h _ (ExecuteDumpWorkflowInternal options req) w)).

(** The requests of the loading are among them. *)
Definition pages_asked (wid rid : string) : Prop :=
  forall n, (0 <= n <= 2147483647)%Z -> asked (mkWorkflowDumpRequest wid rid pageSize n).

(** The requests the theorems are about: non-empty data whose size and pages are
    within int32, with a non-empty checksum. *)
Definition served_ok : Prop :=
  forall w, page_sizes_ok pageSize (served w) /\ served w <> [] /\ md5 (served w) <> EmptyString.

(** What has been read so far: nothing, or the first pages of some snapshot. *)
Definition read_inv (sb lastChecksum : string) (pageNum : Z) : Prop :=
  (sb = EmptyString /\ lastChecksum = EmptyString /\ pageNum = 0%Z) \/
  exists w0, lastChecksum = md5 (served w0) /\
    (0 < pageNum < total_pages pageSize (served w0))%Z /\
    String.list_ascii_of_string sb =
      take (Z.to_nat pageSize * Z.to_nat pageNum) (served w0).

Lemma dump_answer_spec w wid rid n :
  served_ok -> (0 <= n < total_pages pageSize (served w))%Z ->
  dump_answer (served w) (mkWorkflowDumpRequest wid rid pageSize n) =
  inl (mkWorkflowDumpResponse (md5 (served w)) (total_pages pageSize (served w))
         (String.string_of_list_ascii (page pageSize (served w) (Z.to_nat n)))).
Proof.
  intros Hok Hn. destruct (Hok w) as (Hp & _). unfold dump_answer.
  rewrite dump_page_spec by (done || lia). by destruct (Z.ltb_spec n (total_pages pageSize (served w))); [|lia].
Qed.

Lemma total_pages_pos w : served_ok -> (0 < total_pages pageSize (served w) <= 2147483647)%Z.
Proof.
  intros Hok. destruct (Hok w) as (Hp & Hne & _). split.
  - apply total_pages_bound; [done | lia |]. unfold len. destruct (served w); [done | cbn; lia].
  - destruct Hp. pose proof (len_nonneg (served w)).
    pose proof (ceil_div_le (len (served w)) pageSize ltac:(lia) ltac:(lia)).
    unfold total_pages. lia.
Qed.

(** Appending the next page. *)
Lemma read_next sb data n :
  String.list_ascii_of_string sb = take (Z.to_nat pageSize * n) data ->
  String.list_ascii_of_string (sb +:+ String.string_of_list_ascii (page pageSize data n)) =
  take (Z.to_nat pageSize * S n) data.
Proof.
  intros Hsb. by rewrite list_ascii_app, String.list_ascii_of_string_of_list_ascii, Hsb, take_pages.
Qed.

Lemma take_all_pages data n :
  page_sizes_ok pageSize data -> (total_pages pageSize data <= Z.of_nat n)%Z ->
  take (Z.to_nat pageSize * n) data = data.
Proof.
  intros Hok Hn. apply take_ge.
  assert (~ (pageSize * Z.of_nat n < len data)%Z) as H.
  { intros Hlt%(total_pages_bound pageSize data (Z.of_nat n)); [lia | done | lia]. }
  destruct Hok as [Hp _]. unfold len in H.
  apply Nat2Z.inj_le. rewrite Nat2Z.inj_mul, Z2Nat.id by lia. lia.
Qed.

Lemma load_loop_reads_one fuel options wid rid sb ck n w (s : St) sb' w' s' ts :
  dump_server -> served_ok -> pages_asked wid rid ->
  (forall w1 w2, md5 (served w1) = md5 (served w2) -> served w1 = served w2) ->
  read_inv sb ck n ->
  exec h (load_loop fuel options wid rid pageSize sb ck n) w s = Some (Some (inl sb'), w', s', ts) ->
  s' = s /\ ts = [] /\ exists w0, String.list_ascii_of_string sb' = served w0.
Proof.
  intros Hsrv Hok Hasked Hinj. revert sb ck n w. induction fuel as [|fuel IH]; intros sb ck n w Hinv Hrun;
    [done|].
  assert (0 <= n <= 2147483647)%Z as Hn0.
  { destruct Hinv as [(_ & _ & ->)|(w0 & _ & Hr & _)]; [lia|]. pose proof (total_pages_pos w0 Hok). lia. }
  cbn in Hrun. destruct (Hsrv options _ w (Hasked n Hn0)) as [w2 Hans]. unfold page_answer in Hans.
  destruct (h _ (ExecuteDumpWorkflowInternal _ _) w) as [r w1]. cbn [fst] in Hans. clear w. rename w2 into w.
  pose proof (total_pages_pos w Hok) as Hpos. destruct (Hok w) as (Hp & Hne & Hck).
  destruct (decide (n < total_pages pageSize (served w))%Z) as [Hn|Hn].
  2: { exfalso. unfold dump_answer in Hans. rewrite dump_page_spec in Hans by (done || lia).
       destruct (Z.ltb_spec n (total_pages pageSize (served w))); [lia|]. by destruct Hans as [err ->]. }
  rewrite dump_answer_spec in Hans by (done || lia). subst r.
  cbn [Checksum JsonData TotalPages] in Hrun.
  destruct (bool_decide (ck <> EmptyString) && bool_decide (ck <> md5 (served w))) eqn:Eck.
  { eapply IH; [|exact Hrun]. by left. }
  assert (String.list_ascii_of_string sb = take (Z.to_nat pageSize * Z.to_nat n) (served w)) as Hsb.
  { destruct Hinv as [(-> & _ & ->)|(w0 & -> & Hr & Hsb)].
    - cbn. by rewrite Nat.mul_0_r.
    - rewrite bool_decide_true in Eck by apply Hok. cbn in Eck.
      apply bool_decide_eq_false in Eck. rewrite Hsb.
      rewrite (Hinj w0 w); [done|]. by destruct (decide (md5 (served w0) = md5 (served w))). }
  apply read_next in Hsb.
  rewrite wrap32_id in Hrun by (unfold is_int32; lia).
  destruct (Z.leb_spec (total_pages pageSize (served w)) (n + 1)) as [Hle|Hlt].
  - cbn in Hrun. injection Hrun as <- <- <- <-. split_and!; [done | done |]. exists w.
    rewrite Hsb. apply take_all_pages; [done|]. lia.
  - eapply IH; [|exact Hrun]. right. exists w. split_and!; [done | lia | lia |].
    rewrite Hsb. do 2 f_equal. lia.
Qed.

(** The text put together from the first [n] pages, each as it arrives. *)
Definition received (arrive : string -> string) (data : list Ascii.ascii) (n : nat) : list Ascii.ascii :=
  flat_map (fun i => String.list_ascii_of_string (arrive (String.string_of_list_ascii (page pageSize data i))))
    (seq 0 n).

Lemma received_S arrive data n :
  received arrive data (S n) =
  received arrive data n ++
    String.list_ascii_of_string (arrive (String.string_of_list_ascii (page pageSize data n))).
Proof. unfold received. rewrite seq_S, flat_map_app. cbn. by rewrite app_nil_r. Qed.

Lemma received_whole arrive data n :
  (forall i, (i < n)%nat -> arrive (String.string_of_list_ascii (page pageSize data i)) =
    String.string_of_list_ascii (page pageSize data i)) ->
  received arrive data n = take (Z.to_nat pageSize * n) data.
Proof.
  intros Ha. induction n as [|n IH]; [by rewrite Nat.mul_0_r|].
  rewrite received_S, IH by (intros i Hi; apply Ha; lia).
  by rewrite Ha, String.list_ascii_of_string_of_list_ascii, take_pages by lia.
Qed.

(** The loop over pages of a snapshot that no longer changes, whatever becomes of each
    page on its way. *)
Lemma load_loop_received arrive total checksum data fuel options wid rid sb ck n w (s : St) :
  (total <= 2147483647)%Z ->
  (forall options n w, (0 <= n < total)%Z ->
    fst (h _ (ExecuteDumpWorkflowInternal options (mkWorkflowDumpRequest wid rid pageSize n)) w) =
    inl (mkWorkflowDumpResponse checksum total
           (arrive (String.string_of_list_ascii (page pageSize data (Z.to_nat n)))))) ->
  (Z.of_nat fuel >= total - n)%Z -> (0 <= n < total)%Z ->
  (ck = EmptyString \/ ck = checksum) ->
  String.list_ascii_of_string sb = received arrive data (Z.to_nat n) ->
  exists w', returns h (load_loop fuel options wid rid pageSize sb ck n) w s
    (Some (inl (String.string_of_list_ascii (received arrive data (Z.to_nat total))))) w' s.
Proof.
  intros Htot Hsrv. revert sb ck n w.
  induction fuel as [|fuel IH]; intros sb ck n w Hf Hn Hck Hsb; [lia|].
  unfold returns. cbn. specialize (Hsrv options n w Hn).
  destruct (h _ (ExecuteDumpWorkflowInternal _ _) w) as [r w1]. cbn [fst] in Hsrv. subst r.
  cbn [Checksum JsonData TotalPages].
  replace (bool_decide (ck <> EmptyString) && bool_decide (ck <> checksum)) with false.
  2: { symmetry. apply andb_false_iff. destruct Hck as [->| ->]; [left|right];
       apply bool_decide_eq_false_2; intros Hx; by apply Hx. }
  rewrite wrap32_id by (unfold is_int32; lia).
  assert (Z.to_nat (n + 1) = S (Z.to_nat n)) as En by lia.
  set (sb' := sb +:+ _).
  assert (String.list_ascii_of_string sb' = received arrive data (Z.to_nat (n + 1))) as Hsb'.
  { subst sb'. by rewrite list_ascii_app, Hsb, En, received_S. }
  destruct (Z.leb_spec total (n + 1)) as [Hle|Hlt].
  - exists w1. cbn. replace total with (n + 1)%Z by lia.
    by rewrite <- Hsb', String.string_of_list_ascii_of_string.
  - apply IH; [lia | lia | by right | exact Hsb'].
Qed.

End load.

(** ** Properties *)

Section properties.
Context {St W : Type} (h : forall X, providerE X -> W -> X * W) (md5 : list Ascii.ascii -> string).
Context (marshal : ContinueAsNewDumpResponse -> list Ascii.ascii)
  (unmarshal : list Ascii.ascii -> option ContinueAsNewDumpResponse).

(** The requests are for the workflow itself. *)
Definition loads_asked asked runId pageSize : Prop :=
  forall w, pages_asked pageSize asked (ID (wi_WorkflowExecution (fst (h _ GetWorkflowInfo w)))) runId.

(** Loading terminates with what the text put together parses to, when the pages come
    from one snapshot, whatever becomes of each on its way. *)
Lemma load_received arrive checksum data fuel config runId pageSize w (s : St) :
  (forall w, snd (h _ GetWorkflowInfo w) = w) ->
  (0 < pageSize)%Z -> (0 < total_pages pageSize data <= 2147483647)%Z ->
  (forall options n w w0, (0 <= n < total_pages pageSize data)%Z ->
    fst (h _ (ExecuteDumpWorkflowInternal options
           (mkWorkflowDumpRequest (ID (wi_WorkflowExecution (fst (h _ GetWorkflowInfo w0)))) runId pageSize n)) w) =
    inl (mkWorkflowDumpResponse checksum (total_pages pageSize data)
           (arrive (String.string_of_list_ascii (page pageSize data (Z.to_nat n)))))) ->
  (total_pages pageSize data <= Z.of_nat fuel)%Z ->
  exists w', returns h (LoadInternalsFromPreviousRun unmarshal fuel config runId pageSize) w s
    (Some (match unmarshal (received pageSize arrive data (Z.to_nat (total_pages pageSize data))) with
           | Some resp => inl resp
           | None => inr (OtherError "json.Unmarshal")
           end)) w' s.
Proof.
  intros Hinfo Hps Htot Hsrv Hf.
  unfold returns, LoadInternalsFromPreviousRun, mbind, thread_mbind. cbn.
  pose proof (Hinfo w) as Hw. specialize (fun options n w1 => Hsrv options n w1 w).
  destruct (h _ GetWorkflowInfo w) as [info w0]. cbn in Hw, Hsrv. subst w0.
  destruct (Z.eqb_spec pageSize 0) as [|_]; [lia|].
  destruct (load_loop_received h pageSize arrive (total_pages pageSize data) checksum data fuel
    (dump_activity_options config) (ID (wi_WorkflowExecution info)) runId EmptyString EmptyString 0 w s)
    as (w' & Hrun); try done; try lia; [by left|].
  exists w'. rewrite exec_bind, Hrun. cbn.
  rewrite String.list_ascii_of_string_of_list_ascii. by destruct (unmarshal _).
Qed.

(** Loading terminates and gives back the previous run's snapshot: with a
    previous run that no longer changes, at most one request per page, the pages
    put together parse to exactly the snapshot it dumped. *)
Theorem load_previous_run asked snapshot fuel config runId pageSize w (s : St) :
  unmarshal (marshal snapshot) = Some snapshot ->
  (forall w, snd (h _ GetWorkflowInfo w) = w) ->
  dump_server h md5 (fun _ => marshal snapshot) asked -> loads_asked asked runId pageSize ->
  served_ok md5 (fun _ : W => marshal snapshot) pageSize ->
  (total_pages pageSize (marshal snapshot) <= Z.of_nat fuel)%Z ->
  exists w', returns h (LoadInternalsFromPreviousRun unmarshal fuel config runId pageSize) w s
    (Some (inl snapshot)) w' s.
Proof.
  intros Hjson Hinfo Hsrv Hasked Hok Hf.
  destruct (Hok w) as ([Hps Hl] & Hne & _).
  pose proof (total_pages_pos md5 (fun _ => marshal snapshot) pageSize w Hok) as Hpos. cbn in Hpos.
  destruct (load_received (fun text => text) (md5 (marshal snapshot)) (marshal snapshot) fuel config runId
    pageSize w s) as [w' Hw']; try done.
  - intros options n w1 w0 Hn. destruct (Hsrv options _ w1 (Hasked w0 n ltac:(lia))) as [w2 Hans].
    unfold page_answer in Hans. by rewrite (dump_answer_spec md5 (fun _ : W => marshal snapshot) pageSize w)
      in Hans by done.
  - exists w'. rewrite received_whole, take_all_pages, Hjson in Hw' by (done || lia). exact Hw'.
Qed.

(** The pages that are put together come from one snapshot even when the
    previous run changes while it is read: whatever it serves from request to
    request, if the loading succeeds its result is one of the snapshots served,
    provided the checksum tells the served snapshots apart. *)
Theorem load_is_one_snapshot asked (snap : W -> ContinueAsNewDumpResponse) fuel config runId pageSize
  w (s : St) resp w' s' ts :
  let served w := marshal (snap w) in
  (forall w, unmarshal (served w) = Some (snap w)) ->
  (forall w1 w2, md5 (served w1) = md5 (served w2) -> served w1 = served w2) ->
  dump_server h md5 served asked -> loads_asked asked runId pageSize -> served_ok md5 served pageSize ->
  exec h (LoadInternalsFromPreviousRun unmarshal fuel config runId pageSize) w s =
    Some (Some (inl resp), w', s', ts) ->
  s' = s /\ ts = [] /\ exists w0, resp = snap w0.
Proof.
  intros served Hjson Hinj Hsrv Hasked Hok Hrun. specialize (Hasked w).
  destruct (Hok w) as ([Hps _] & _ & _).
  unfold LoadInternalsFromPreviousRun, mbind, thread_mbind in Hrun. cbn in Hrun.
  destruct (h _ GetWorkflowInfo w) as [info w0].
  destruct (Z.eqb_spec pageSize 0) as [|_]; [lia|].
  rewrite exec_bind in Hrun.
  destruct (exec h (load_loop _ _ _ _ _ _ _ _) w0 s) as [[[[r w1] s1] ts1]|] eqn:E; [|done].
  cbn in Hrun. destruct r as [[sb|err]|]; [|done..].
  destruct (load_loop_reads_one h md5 served pageSize asked fuel _ _ _ _ _ _ _ _ _ _ _ _
    Hsrv Hok Hasked Hinj (or_introl (conj eq_refl (conj eq_refl eq_refl))) E) as (-> & -> & w2 & Hsb).
  rewrite Hsb, Hjson in Hrun. injection Hrun as <- <- <- <-. split_and!; [done | done | by exists w2].
Qed.
End properties.

(** ** The queue and the waiting executions survive the snapshot *)

Section requeue.
Context (h : CommandsHeap) (c : ContinueAsNewer) (srq : StateRequestQueue).

(** Waiting executions are stored under their own id. *)
Definition resume_wf : Prop :=
  map_Forall (fun k e => re_StateExecutionId e = k) (StateExecutionToResumeMap c).

Lemma local_resume_map :
  foldl (fun (m : gmap string StateExecutionResumeInfo) key =>
    match StateExecutionToResumeMap c !! key with
    | Some e => <[key := resume_info h e]> m
    | None => m
    end) ∅ (DeterministicKeys (StateExecutionToResumeMap c)) =
  fmap (M := gmap string) (resume_info h) (StateExecutionToResumeMap c).
Proof.
  assert (forall ks (m : gmap string StateExecutionResumeInfo) k,
    foldl (fun (m : gmap string StateExecutionResumeInfo) key =>
      match StateExecutionToResumeMap c !! key with
      | Some e => <[key := resume_info h e]> m
      | None => m
      end) m ks !! k =
    if decide (k ∈ ks /\ is_Some (StateExecutionToResumeMap c !! k))
    then resume_info h <$> StateExecutionToResumeMap c !! k else m !! k) as Hf.
  { induction ks as [|k' ks IH]; intros m k; cbn [foldl].
    - rewrite decide_False; [done|]. intros [H _]. by apply elem_of_nil in H.
    - rewrite IH. destruct (decide (k ∈ ks /\ _)) as [[Hin Hs]|Hn].
      + rewrite decide_True; [done|]. split; [by right | done].
      + destruct (decide (k = k')) as [->|Hne].
        * destruct (StateExecutionToResumeMap c !! k') as [e|] eqn:E.
          -- rewrite lookup_insert_eq, decide_True; [done|]. split; [left | eauto].
          -- rewrite decide_False; [done|]. intros [_ [? ?]]. done.
        * rewrite decide_False.
          2: { intros [[->|Hin]%elem_of_cons Hs]; [done|]. by apply Hn. }
          destruct (StateExecutionToResumeMap c !! k'); [by rewrite lookup_insert_ne | done]. }
  apply map_eq. intros k. rewrite Hf, lookup_fmap.
  case_decide as Hd; [done|]. destruct (StateExecutionToResumeMap c !! k) as [e|] eqn:E; [|done].
  exfalso. apply Hd. split; [|done]. apply (elem_of_sorted_keys String.le). eauto.
Qed.

Lemma resume_map_lookup k :
  resume_map h c srq !! k =
  match last (filter (fun r => ri_StateExecutionId r = k) (resume_requests (queue srq))) with
  | Some r => Some r
  | None => resume_info h <$> StateExecutionToResumeMap c !! k
  end.
Proof.
  unfold resume_map. rewrite local_resume_map, GetAllStateResumeRequests_omap.
  rewrite foldl_insert_self_lookup. by rewrite lookup_fmap.
Qed.
End requeue.

(** What the next run starts from: the queue rebuilt from a snapshot holds the
    start requests that were still queued, in order, and then one resume request
    for every waiting state execution and every queued resume request, each with
    its state, locals, commands and the commands completed so far; a queued
    resume request wins over a waiting execution with the same id. *)
Theorem snapshot_queue_roundtrip h c srq :
  let q := NewStateRequestQueueWithResumeRequests (GetAllStateStartRequests srq) (resume_map h c srq) in
  start_requests (queue q) = start_requests (queue srq) /\
  (forall r, r ∈ resume_requests (queue q) <->
     exists k, match last (filter (fun r => ri_StateExecutionId r = k) (resume_requests (queue srq))) with
       | Some r' => r = r'
       | None => exists e, StateExecutionToResumeMap c !! k = Some e /\ r = resume_info h e
       end) /\
  length (resume_requests (queue q)) = size (resume_map h c srq).
Proof.
  cbn zeta. rewrite NewStateRequestQueueWithResumeRequests_queue, start_requests_app,
    resume_requests_app, start_requests_map, start_requests_map_resume, app_nil_r,
    resume_requests_map_start, resume_requests_map. cbn [app].
  split_and!.
  - by rewrite GetAllStateStartRequests_omap.
  - intros r. rewrite sorted_values_select, elem_of_select_values. split.
    + intros (k & Hk & _). exists k. rewrite resume_map_lookup in Hk.
      destruct (last _); [congruence|].
      destruct (StateExecutionToResumeMap c !! k); cbn in Hk; [|done]. naive_solver.
    + intros (k & Hk). exists k. split; [|done]. rewrite resume_map_lookup.
      destruct (last _); [congruence|]. destruct Hk as (e & -> & ->). done.
  - rewrite <- (sorted_keys_length String.le). unfold sorted_values, DeterministicKeys.
    assert (forall ks, Forall (fun k => is_Some (resume_map h c srq !! k)) ks ->
      length (omap (fun k => resume_map h c srq !! k) ks) = length ks) as Hlen.
    { intros ks Hks. induction Hks as [|k ks [r Hr] Hks IH]; [done|]. cbn. rewrite Hr. cbn. by f_equal. }
    apply Hlen, Forall_forall. intros k. apply elem_of_sorted_keys.
Qed.
