(* ===== verification/Locking.v ===== *)
(** * What a call between locks leaves behind

    The state APIs (workflowImpl.go) and the RPC updates (workflowUpdater.go) all
    load attributes, which locks the policies' keys, call a worker, unlock and
    apply the response.  The lemmas here follow the lock tables and the
    continue-as-newer through such a call. *)

From S2P Require Export ContinueAsNew.

Section locking.
Context {St : Type} `{!Has St PersistenceManager, !Has St InternalChannel, !Has St ContinueAsNewer}.
Context `{!Indep St PersistenceManager InternalChannel, !Indep St PersistenceManager ContinueAsNewer,
  !Indep St ContinueAsNewer PersistenceManager, !Indep St ContinueAsNewer InternalChannel}.
Context {W : Type} (h : forall X, providerE X -> W -> X * W).

Definition lock_tables (s : St) : gmap string bool * gmap string bool :=
  (lockedSearchAttributeKeys (part s), lockedDataAttributesKeys (part s)).
Definition waiting_executions (s : St) : gmap string ResumeEntry :=
  StateExecutionToResumeMap (part s).

(** The books the calls keep: the lock tables and the continue-as-newer. *)
Definition books (s : St) : gmap string bool * gmap string bool * ContinueAsNewer :=
  (lock_tables s, part s).

(** Each key is locked in [s'] exactly if it is in [s]. *)
Definition same_locks (s s' : St) : Prop :=
  (forall k, is_true_key (lockedSearchAttributeKeys (part s')) k =
             is_true_key (lockedSearchAttributeKeys (part s)) k) /\
  (forall k, is_true_key (lockedDataAttributesKeys (part s')) k =
             is_true_key (lockedDataAttributesKeys (part s)) k).

(** The books with the keys of the two policies locked on top of [s], all of
    which were free. *)
Definition locked_on (sa da : option PersistenceLoadingPolicy) (s : St)
  (b : gmap string bool * gmap string bool * ContinueAsNewer) : Prop :=
  checkKeysAreUnlocked (lockedSearchAttributeKeys (part s)) (locking_keys sa) = true /\
  checkKeysAreUnlocked (lockedDataAttributesKeys (part s)) (locking_keys da) = true /\
  b = (lockKeys (lockedSearchAttributeKeys (part s)) (locking_keys sa),
       lockKeys (lockedDataAttributesKeys (part s)) (locking_keys da), part s).

Lemma books_inj (s s' : St) :
  books s' = books s -> lock_tables s' = lock_tables s /\ (part s' : ContinueAsNewer) = part s.
Proof. unfold books. by intros [= H1 H2 H3]; split; [unfold lock_tables; f_equal|]. Qed.

Lemma same_locks_tables (s s1 s2 : St) :
  lock_tables s2 = lock_tables s1 -> same_locks s s1 -> same_locks s s2.
Proof. unfold lock_tables, same_locks. intros [= -> ->]. done. Qed.

Lemma same_locks_books (s s1 s2 : St) : books s = books s1 -> same_locks s1 s2 -> same_locks s s2.
Proof. intros [Hl _]%books_inj. unfold lock_tables, same_locks in *. injection Hl as -> ->. done. Qed.

Lemma upsert_search_keeps attrs : keeps h books (ProcessUpsertSearchAttribute attrs).
Proof.
  unfold ProcessUpsertSearchAttribute. keeps_auto.
  apply keeps_mod_part_inv. intros s. unfold books, lock_tables. by rewrite part_set, indep.
Qed.

Lemma upsert_data_keeps attrs : keeps h books (ProcessUpsertDataAttribute attrs).
Proof.
  unfold ProcessUpsertDataAttribute. keeps_auto.
  apply keeps_mod_part_inv. intros s. unfold books, lock_tables. by rewrite part_set, indep.
Qed.

Lemma publish_keeps pubs : keeps h books (mod_part (ProcessPublishing pubs)).
Proof. apply keeps_mod_part. intros p s. unfold books, lock_tables. by rewrite !indep. Qed.

(** A Load that got past its wait took exactly its locks. *)
Lemma load_search_locks policy w s r w' s' ts :
  exec h (LoadSearchAttributes policy) w s = Some (r, w', s', ts) ->
  checkKeysAreUnlocked (lockedSearchAttributeKeys (part s)) (locking_keys policy) = true /\
  books s' = (lockKeys (lockedSearchAttributeKeys (part s)) (locking_keys policy),
              lockedDataAttributesKeys (part s), part s).
Proof.
  unfold LoadSearchAttributes, locking_keys, books, lock_tables. intros H.
  apply exec_bind_inv in H as (u & w1 & s1 & ts1 & ts2 & H1 & H).
  assert (s' = s1) as ->.
  { cbn in H. destruct (read_search_attributes policy (part s1)); cbn in H; congruence. }
  destruct policy as [p|]; [destruct (needs_lock _)|]; cbn in H1.
  - destruct (checkKeysAreUnlocked _ _) eqn:E in H1; [|done]. cbn in H1.
    injection H1 as <- <- <- <-. by rewrite part_set, indep.
  - by injection H1 as <- <- <- <-.
  - by injection H1 as <- <- <- <-.
Qed.

Lemma load_data_locks policy w s r w' s' ts :
  exec h (LoadDataAttributes policy) w s = Some (r, w', s', ts) ->
  checkKeysAreUnlocked (lockedDataAttributesKeys (part s)) (locking_keys policy) = true /\
  books s' = (lockedSearchAttributeKeys (part s),
              lockKeys (lockedDataAttributesKeys (part s)) (locking_keys policy), part s).
Proof.
  unfold LoadDataAttributes, locking_keys, books, lock_tables. intros H.
  apply exec_bind_inv in H as (u & w1 & s1 & ts1 & ts2 & H1 & H).
  assert (s' = s1) as ->.
  { cbn in H. destruct (read_data_attributes policy (part s1)); cbn in H; congruence. }
  destruct policy as [p|]; [destruct (needs_lock _)|]; cbn in H1.
  - destruct (checkKeysAreUnlocked _ _) eqn:E in H1; [|done]. cbn in H1.
    injection H1 as <- <- <- <-. by rewrite part_set, indep.
  - by injection H1 as <- <- <- <-.
  - by injection H1 as <- <- <- <-.
Qed.

(** Both Loads, in the order of the state APIs and in that of the RPC update. *)
Lemma load_search_data_locks sa da w s r1 w1 s1 ts1 r2 w2 s2 ts2 :
  exec h (LoadSearchAttributes sa) w s = Some (r1, w1, s1, ts1) ->
  exec h (LoadDataAttributes da) w1 s1 = Some (r2, w2, s2, ts2) ->
  locked_on sa da s (books s2).
Proof.
  intros (Hf1 & Hb1)%load_search_locks (Hf2 & Hb2)%load_data_locks.
  unfold books, lock_tables in *. injection Hb1 as Ha Hb Hc.
  rewrite Hb in Hf2. split_and!; [done..|]. by rewrite Hb2, Ha, Hb, Hc.
Qed.

Lemma load_data_search_locks sa da w s r1 w1 s1 ts1 r2 w2 s2 ts2 :
  exec h (LoadDataAttributes da) w s = Some (r1, w1, s1, ts1) ->
  exec h (LoadSearchAttributes sa) w1 s1 = Some (r2, w2, s2, ts2) ->
  locked_on sa da s (books s2).
Proof.
  intros (Hf1 & Hb1)%load_data_locks (Hf2 & Hb2)%load_search_locks.
  unfold books, lock_tables in *. injection Hb1 as Ha Hb Hc.
  rewrite Ha in Hf2. split_and!; [done..|]. by rewrite Hb2, Ha, Hb, Hc.
Qed.

Lemma UnlockPersistence_tables sa da am :
  lockedSearchAttributeKeys (UnlockPersistence sa da am) =
    unlockKeys (lockedSearchAttributeKeys am) (locking_keys sa) /\
  lockedDataAttributesKeys (UnlockPersistence sa da am) =
    unlockKeys (lockedDataAttributesKeys am) (locking_keys da).
Proof.
  unfold UnlockPersistence, locking_keys. destruct am.
  destruct sa as [sa|]; [destruct (needs_lock (GetPersistenceLoadingType sa))|];
  (destruct da as [da|]; [destruct (needs_lock (GetPersistenceLoadingType da))|]); done.
Qed.

Lemma lock_unlock m keys k :
  checkKeysAreUnlocked m keys = true ->
  is_true_key (unlockKeys (lockKeys m keys) keys) k = is_true_key m k.
Proof.
  rewrite checkKeysAreUnlocked_spec. intros Hf. rewrite unlockKeys_true, lockKeys_true.
  case_bool_decide; cbn; [by rewrite Hf | done].
Qed.

(** Unlocking gives every key back. *)
Lemma unlock_restores sa da (s s1 s2 : St) :
  locked_on sa da s (books s1) ->
  s2 = set_part (UnlockPersistence sa da (part s1)) s1 ->
  same_locks s s2 /\ (part s2 : ContinueAsNewer) = part s.
Proof.
  intros (Hf1 & Hf2 & Hb) ->. unfold books, lock_tables in Hb. injection Hb as Ha Hb Hc.
  destruct (UnlockPersistence_tables sa da (part s1)) as [Hu1 Hu2].
  unfold same_locks. rewrite part_set, indep, Hu1, Hu2, Ha, Hb, Hc.
  split_and!; [intros k; by apply lock_unlock.. | done].
Qed.

End locking.
