(* ===== verification/Decider.v ===== *)
(** * The decider trigger and the validation of command requests

    service/interpreter/deciderTriggerer.go decides when the commands of a state
    are complete enough to run its execute API;
    checkCommandRequestFromWaitUntilResponse of activityImpl.go rejects the
    command requests on which that decision would panic. *)

From S2P Require Export Compat.

(** ** deciderTriggerer.go *)

(** [acceptedCmdIds[cid]++] for every id of the combination. *)
Definition count_ids (ids : list string) : gmap string Z :=
  foldl (fun accepted cid => <[cid := (map_get 0 accepted cid + 1)%Z]> accepted) ∅ ids.

(** The loop that takes the completed ids off the accepted ones. *)
Definition consume_id (accepted : gmap string Z) (cid : string) : gmap string Z :=
  if (0 <? map_get 0 accepted cid)%Z then
    let accepted := <[cid := (map_get 0 accepted cid - 1)%Z]> accepted in
    if (map_get 0 accepted cid =? 0)%Z then delete cid accepted else accepted
  else accepted.

Definition consume_ids (accepted : gmap string Z) (completed : list string) : gmap string Z :=
  foldl consume_id accepted completed.

(** [for _, idx := range DeterministicKeys(completed) { ... *cmds[idx].CommandId }] *)
Fixpoint collect_ids {C} (cmds : list C) (commandId : C -> option string)
  (idxs : list nat) : gores (list string) :=
  match idxs with
  | [] => Ret []
  | idx :: idxs' =>
      cmd ← index cmds idx;
      cmdId ← deref (commandId cmd);
      rest ← collect_ids cmds commandId idxs';
      Ret (cmdId :: rest)
  end.

Definition completed_cmd_ids (commandReq : CommandRequest)
  (timers : gmap nat InternalTimerStatus) (signals channels : gmap nat (option EncodedObject)) :
  gores (list string) :=
  t ← collect_ids (TimerCommands commandReq) tc_CommandId (DeterministicKeysInt timers);
  s ← collect_ids (SignalCommands commandReq) sc_CommandId (DeterministicKeysInt signals);
  c ← collect_ids (InterStateChannelCommands commandReq) ic_CommandId
        (DeterministicKeysInt channels);
  Ret (t ++ s ++ c).

(** The loop over [GetCommandCombinations()]. *)
Definition combination_met (combinations : list CommandCombination) (completed : list string) :
  bool :=
  existsb (fun acceptedComb =>
    bool_decide (size (consume_ids (count_ids (CommandIds acceptedComb)) completed) = 0))
    combinations.

Definition num_commands (commandReq : CommandRequest) : Z :=
  (len (TimerCommands commandReq) + len (SignalCommands commandReq)
   + len (InterStateChannelCommands commandReq))%Z.

Definition IsDeciderTriggerConditionMet (commandReq : CommandRequest)
  (completedTimerCmds : gmap nat InternalTimerStatus)
  (completedSignalCmds completedInterStateChannelCmds : gmap nat (option EncodedObject)) :
  gores bool :=
  if (0 <? num_commands commandReq)%Z then
    triggerType ← GetDeciderTriggerType commandReq;
    match triggerType with
    | ALL_COMMAND_COMPLETED =>
        Ret ((Z.of_nat (size completedTimerCmds) =? len (TimerCommands commandReq))%Z
             && (Z.of_nat (size completedSignalCmds) =? len (SignalCommands commandReq))%Z
             && (Z.of_nat (size completedInterStateChannelCmds) =?
                 len (InterStateChannelCommands commandReq))%Z)
    | ANY_COMMAND_COMPLETED =>
        Ret (0 <? Z.of_nat (size completedTimerCmds) + Z.of_nat (size completedSignalCmds)
                  + Z.of_nat (size completedInterStateChannelCmds))%Z
    | ANY_COMMAND_COMBINATION_COMPLETED =>
        completedCmdIds ← completed_cmd_ids commandReq completedTimerCmds completedSignalCmds
                            completedInterStateChannelCmds;
        Ret (combination_met (CommandCombinations commandReq) completedCmdIds)
    | DeciderTriggerType_other _ => Panic "unsupported decider trigger type"
    end
  else Ret true.

(** ** activityImpl.go: checkCommandRequestFromWaitUntilResponse *)

Definition listTimerSignalInternalChannelCommandIds (commandReq : CommandRequest) : list string :=
  map (fun c => default EmptyString (tc_CommandId c)) (TimerCommands commandReq) ++
  map (fun c => default EmptyString (sc_CommandId c)) (SignalCommands commandReq) ++
  map (fun c => default EmptyString (ic_CommandId c)) (InterStateChannelCommands commandReq).

Definition areAllCommandCombinationsIdsValid (commandReq : CommandRequest) : bool :=
  let ids := listTimerSignalInternalChannelCommandIds commandReq in
  forallb (fun commandCombo => forallb (fun cmdId => contains ids cmdId) (CommandIds commandCombo))
    (CommandCombinations commandReq).

(** [GetCommandId() == ""] for some command of the list. *)
Definition some_id_empty {C} (commandId : C -> option string) (cmds : list C) : bool :=
  existsb (fun c => bool_decide (default EmptyString (commandId c) = EmptyString)) cmds.

(** [None] is the nil error. *)
Definition checkCommandRequestFromWaitUntilResponse (resp : option WorkflowStateStartResponse) :
  gores (option error) :=
  match resp ≫= ws_CommandRequest with
  | None => Ret None
  | Some commandReq =>
      if (0 <? num_commands commandReq)%Z then
        dtt ← GetDeciderTriggerType commandReq;
        match dtt with
        | DeciderTriggerType_other _ => Ret (Some (OtherError "unsupported decider trigger type"))
        | ANY_COMMAND_COMBINATION_COMPLETED =>
            let err := OtherError "ANY_COMMAND_COMBINATION_COMPLETED can only be used when every command has an commandId, and the combination list cannot be empty" in
            if (len (CommandCombinations commandReq) =? 0)%Z then Ret (Some err)
            else if some_id_empty tc_CommandId (TimerCommands commandReq) then Ret (Some err)
            else if some_id_empty sc_CommandId (SignalCommands commandReq) then Ret (Some err)
            else if some_id_empty ic_CommandId (InterStateChannelCommands commandReq)
            then Ret (Some err)
            else if negb (areAllCommandCombinationsIdsValid commandReq)
            then Ret (Some (OtherError "ANY_COMMAND_COMBINATION_COMPLETED can only be used when every command has an commandId that is found in TimerCommands, SignalCommands or InternalChannelCommand"))
            else Ret None
        | _ => Ret None
        end
      else Ret None
  end.

(** ** Counting occurrences *)

Definition occ (x : string) (l : list string) : nat := length (filter (fun y => y = x) l).

Lemma occ_nil x : occ x [] = 0.
Proof. done. Qed.

Lemma occ_cons x y l : occ x (y :: l) = (if decide (y = x) then 1 else 0) + occ x l.
Proof. unfold occ. rewrite filter_cons. by case_decide. Qed.

Lemma occ_perm x l l' : l ≡ₚ l' -> occ x l = occ x l'.
Proof. intros Hp. unfold occ. by rewrite Hp. Qed.

Lemma elem_of_occ x l : x ∈ l <-> 0 < occ x l.
Proof.
  induction l as [|y l IH]; [rewrite elem_of_nil, occ_nil; lia |].
  rewrite elem_of_cons, occ_cons, IH. case_decide; subst; intuition (try lia; congruence).
Qed.

(** Multiset inclusion is inclusion of the counts. *)
Lemma submseteq_occ l1 l2 : l1 ⊆+ l2 <-> forall x, occ x l1 <= occ x l2.
Proof.
  split.
  - intros Hs x. induction Hs; rewrite ?occ_nil, ?occ_cons in *; repeat case_decide; lia.
  - revert l2. induction l1 as [|x l1 IH]; intros l2 Hle; [apply submseteq_nil_l |].
    assert (x ∈ l2) as Hin.
    { apply elem_of_occ. specialize (Hle x). rewrite occ_cons, decide_True in Hle by done. lia. }
    apply elem_of_Permutation in Hin as [l2' Hp]. rewrite Hp. apply submseteq_skip, IH.
    intros y. specialize (Hle y). rewrite (occ_perm _ _ _ Hp), !occ_cons in Hle. lia.
Qed.

(** Case analysis on the key first, then on the positivity of the counts. *)
Ltac solve_counts k i :=
  destruct (decide (k = i)) as [->|]; repeat case_decide;
  first [done | congruence | lia | f_equal; lia].

(** A counting map: only positive entries, and the entry of a key is its count. *)
Definition counts (m : gmap string Z) (c : string -> Z) : Prop :=
  forall k, m !! k = if decide (0 < c k)%Z then Some (c k) else None.

Lemma counts_get m c k : counts m c -> (0 <= c k)%Z -> map_get 0%Z m k = c k.
Proof. intros Hc Hk. unfold map_get. rewrite Hc. case_decide; simpl; lia. Qed.

Lemma count_ids_counts_aux ids m c :
  counts m c -> (forall k, (0 <= c k)%Z) ->
  counts (foldl (fun m cid => <[cid := (map_get 0 m cid + 1)%Z]> m) m ids)
    (fun k => (c k + Z.of_nat (occ k ids))%Z).
Proof.
  revert m c. induction ids as [|i ids IH]; intros m c Hc Hp; simpl.
  - intros k. rewrite Hc, occ_nil. replace (c k + Z.of_nat 0)%Z with (c k) by lia. done.
  - set (c' := fun k => if decide (k = i) then (c k + 1)%Z else c k).
    assert (counts (<[i:=(map_get 0 m i + 1)%Z]> m) c') as Hc'.
    { intros k. rewrite lookup_insert, (counts_get _ _ _ Hc (Hp i)), Hc. unfold c'.
      specialize (Hp k). solve_counts k i. }
    assert (forall k, (0 <= c' k)%Z) as Hp'.
    { intros k. unfold c'. specialize (Hp k). case_decide; lia. }
    intros k. rewrite (IH _ _ Hc' Hp' k), occ_cons. unfold c'. solve_counts k i.
Qed.

Lemma count_ids_counts ids : counts (count_ids ids) (fun k => Z.of_nat (occ k ids)).
Proof.
  assert (counts ∅ (fun _ => 0%Z)) as H0 by (intros k; by rewrite lookup_empty).
  apply (count_ids_counts_aux ids ∅ (fun _ => 0%Z)) in H0; [| done]. exact H0.
Qed.

Lemma consume_id_counts m c i :
  counts m c -> (forall k, (0 <= c k)%Z) ->
  counts (consume_id m i) (fun k => if decide (k = i) then Z.max 0 (c k - 1) else c k)%Z.
Proof.
  intros Hc Hp k. pose proof (Hp k). unfold consume_id. rewrite (counts_get _ _ _ Hc (Hp i)).
  destruct (Z.ltb_spec 0 (c i)).
  - unfold map_get. rewrite lookup_insert_eq; simpl. destruct (Z.eqb_spec (c i - 1) 0).
    + rewrite lookup_delete, lookup_insert, Hc. solve_counts k i.
    + rewrite lookup_insert, Hc. solve_counts k i.
  - rewrite Hc. solve_counts k i.
Qed.

Lemma consume_ids_counts ids m c :
  counts m c -> (forall k, (0 <= c k)%Z) ->
  counts (consume_ids m ids) (fun k => Z.max 0 (c k - Z.of_nat (occ k ids)))%Z.
Proof.
  revert m c. induction ids as [|i ids IH]; intros m c Hc Hp; unfold consume_ids; cbn [foldl].
  - intros k. rewrite occ_nil, Hc. specialize (Hp k).
    replace (Z.max 0 (c k - Z.of_nat 0)) with (c k) by lia. done.
  - pose proof (consume_id_counts m c i Hc Hp) as Hc'.
    apply IH in Hc'; [| intros k; specialize (Hp k); case_decide; lia].
    intros k. unfold consume_ids in Hc'. rewrite Hc', occ_cons. specialize (Hp k).
    solve_counts k i.
Qed.

Lemma counts_empty m c : counts m c -> size m = 0 <-> forall k, (c k <= 0)%Z.
Proof.
  intros Hc. rewrite map_size_empty_iff. split.
  - intros -> k. specialize (Hc k). rewrite lookup_empty in Hc. case_decide; [done | lia].
  - intros Hle. apply map_eq. intros k. rewrite Hc, lookup_empty. specialize (Hle k).
    case_decide; [lia | done].
Qed.

(** The nested loops decide multiset inclusion. *)
Lemma consume_count_empty ids completed :
  size (consume_ids (count_ids ids) completed) = 0 <-> ids ⊆+ completed.
Proof.
  rewrite submseteq_occ.
  rewrite counts_empty by (apply consume_ids_counts; [apply count_ids_counts | intros; simpl; lia]).
  split; intros H k; specialize (H k); simpl in *; lia.
Qed.

Lemma combination_met_spec combinations completed :
  combination_met combinations completed = true <->
  exists comb, comb ∈ combinations /\ CommandIds comb ⊆+ completed.
Proof.
  unfold combination_met. rewrite existsb_exists. split.
  - intros (comb & Hin & H%bool_decide_eq_true%consume_count_empty).
    exists comb. by rewrite list_elem_of_In.
  - intros (comb & Hin & H). exists comb. rewrite <- list_elem_of_In.
    split; [done |]. by apply bool_decide_eq_true, consume_count_empty.
Qed.

(** ** Completions *)

(** The completed indexes are indexes of commands. *)
Definition in_range {V} (m : gmap nat V) (n : nat) : Prop :=
  forall i, is_Some (m !! i) -> i < n.

Definition completions_in_range (commandReq : CommandRequest)
  (timers : gmap nat InternalTimerStatus) (signals channels : gmap nat (option EncodedObject)) :
  Prop :=
  in_range timers (length (TimerCommands commandReq)) /\
  in_range signals (length (SignalCommands commandReq)) /\
  in_range channels (length (InterStateChannelCommands commandReq)).

Definition all_completed {V} (m : gmap nat V) (n : nat) : Prop :=
  forall i, i < n -> is_Some (m !! i).

Definition id_at {C} (cmds : list C) (commandId : C -> option string) (i : nat) : string :=
  default EmptyString (cmds !! i ≫= commandId).

Lemma collect_ids_Ret {C} (cmds : list C) f idxs ids :
  collect_ids cmds f idxs = Ret ids -> ids = map (id_at cmds f) idxs.
Proof.
  revert ids. induction idxs as [|i idxs IH]; intros ids; simpl; [by intros [= <-] |].
  unfold index, deref, id_at at 1. destruct (cmds !! i) as [c|]; simpl; [|done].
  destruct (f c); simpl; [|done].
  destruct (collect_ids cmds f idxs); simpl; [|done]. intros [= <-]. f_equal; auto.
Qed.

Lemma collect_ids_total {C} (cmds : list C) f idxs :
  Forall (fun i => i < length cmds) idxs -> some_id_empty f cmds = false ->
  collect_ids cmds f idxs = Ret (map (id_at cmds f) idxs).
Proof.
  intros Hr He. induction Hr as [|i idxs Hi Hr IH]; simpl; [done |].
  apply lookup_lt_is_Some in Hi as [c Hc]. unfold index, id_at at 1. rewrite Hc; simpl.
  destruct (f c) as [cid|] eqn:Hf; simpl; [by rewrite IH |]. exfalso.
  apply not_true_iff_false in He. apply He. unfold some_id_empty.
  apply existsb_exists. exists c. split.
  - rewrite <- list_elem_of_In. by eapply list_elem_of_lookup_2.
  - by rewrite Hf.
Qed.

Lemma sorted_keys_in_range {V} (m : gmap nat V) n :
  in_range m n -> Forall (fun i => i < n) (DeterministicKeysInt m).
Proof. intros Hr. apply Forall_forall. intros i Hi. by apply Hr, (elem_of_sorted_keys le). Qed.

(** [n] in-range completions out of [n] commands are all of them. *)
Lemma size_all_completed {V} (m : gmap nat V) n :
  in_range m n -> size m = n <-> all_completed m n.
Proof.
  intros Hr. assert (dom m ⊆ set_seq (C := gset nat) 0 n) as Hsub.
  { intros i Hi%elem_of_dom. apply elem_of_set_seq. specialize (Hr _ Hi). lia. }
  rewrite <- size_dom. split.
  - intros Hs i Hi. apply elem_of_dom.
    assert (dom m = set_seq 0 n) as ->; [| apply elem_of_set_seq; lia].
    apply set_subseteq_size_eq; [done |]. rewrite Hs, size_set_seq. lia.
  - intros Hall. assert (dom m = set_seq (C := gset nat) 0 n) as ->; [| by rewrite size_set_seq].
    apply set_eq. intros i. rewrite elem_of_dom, elem_of_set_seq. split; [|intros []; apply Hall; lia].
    intros Hi. specialize (Hr _ Hi). lia.
Qed.

Lemma map_ids_submseteq {C V} (cmds : list C) f (m1 m2 : gmap nat V) :
  m1 ⊆ m2 ->
  map (id_at cmds f) (DeterministicKeysInt m1) ⊆+ map (id_at cmds f) (DeterministicKeysInt m2).
Proof.
  intros Hsub. apply fmap_submseteq, NoDup_submseteq; [apply NoDup_sorted_keys |].
  intros i. unfold DeterministicKeysInt. rewrite !elem_of_sorted_keys.
  intros [v Hv]. exists v. by eapply lookup_weaken.
Qed.

Lemma completed_cmd_ids_Ret req t s c ids :
  completed_cmd_ids req t s c = Ret ids ->
  ids = map (id_at (TimerCommands req) tc_CommandId) (DeterministicKeysInt t) ++
        map (id_at (SignalCommands req) sc_CommandId) (DeterministicKeysInt s) ++
        map (id_at (InterStateChannelCommands req) ic_CommandId) (DeterministicKeysInt c).
Proof.
  unfold completed_cmd_ids. intros (lt & Ht & (ls & Hs & (lc & Hc & [= <-])
    %gores_bind_Ret)%gores_bind_Ret)%gores_bind_Ret.
  by rewrite (collect_ids_Ret _ _ _ _ Ht), (collect_ids_Ret _ _ _ _ Hs),
    (collect_ids_Ret _ _ _ _ Hc).
Qed.

Lemma map_size_mono {V} (m1 m2 : gmap nat V) : m1 ⊆ m2 -> size m1 <= size m2.
Proof. intros Hs. by apply map_subseteq_size. Qed.

(** ** Properties of the trigger *)

(** With every command index completed at most once and in range, the
    ALL_COMMAND_COMPLETED trigger holds exactly when every command is completed. *)
Theorem trigger_all_spec req t s c :
  GetDeciderTriggerType req = Ret ALL_COMMAND_COMPLETED ->
  completions_in_range req t s c ->
  IsDeciderTriggerConditionMet req t s c = Ret true <->
  all_completed t (length (TimerCommands req)) /\
  all_completed s (length (SignalCommands req)) /\
  all_completed c (length (InterStateChannelCommands req)).
Proof.
  intros Htt (Hrt & Hrs & Hrc). unfold IsDeciderTriggerConditionMet.
  rewrite <- !size_all_completed by done.
  destruct (Z.ltb_spec 0 (num_commands req)) as [Hn|Hn]; unfold num_commands, len in Hn.
  - rewrite Htt; simpl. unfold len. split.
    + intros [= H]. rewrite !andb_true_iff, !Z.eqb_eq in H. lia.
    + intros (-> & -> & ->). by rewrite !Z.eqb_refl.
  - split; [intros _ | done].
    assert (forall V (m : gmap nat V), in_range m 0 -> size m = 0) as Hz.
    { intros V m Hm. apply size_all_completed; [done |]. intros i Hi. lia. }
    replace (length (TimerCommands req)) with 0 in * by lia.
    replace (length (SignalCommands req)) with 0 in * by lia.
    replace (length (InterStateChannelCommands req)) with 0 in * by lia. auto.
Qed.

(** C24: the ANY_COMMAND_COMBINATION_COMPLETED trigger holds exactly when the
    completed command ids contain, as a multiset, the ids of some combination. *)
Theorem trigger_combination_spec req t s c ids :
  (0 < num_commands req)%Z ->
  GetDeciderTriggerType req = Ret ANY_COMMAND_COMBINATION_COMPLETED ->
  completed_cmd_ids req t s c = Ret ids ->
  IsDeciderTriggerConditionMet req t s c = Ret true <->
  exists comb, comb ∈ CommandCombinations req /\ CommandIds comb ⊆+ ids.
Proof.
  intros Hn Htt Hids. unfold IsDeciderTriggerConditionMet.
  rewrite (proj2 (Z.ltb_lt _ _) Hn), Htt; simpl. rewrite Hids; simpl.
  rewrite <- combination_met_spec. split; [by intros [= ->] | by intros ->].
Qed.

(** A met trigger stays met when more commands complete, so the commands that
    complete while the command threads are drained cannot undo the decision to
    run the execute API. *)
Theorem trigger_monotone req t s c t' s' c' b :
  t ⊆ t' -> s ⊆ s' -> c ⊆ c' -> completions_in_range req t' s' c' ->
  IsDeciderTriggerConditionMet req t s c = Ret true ->
  IsDeciderTriggerConditionMet req t' s' c' = Ret b -> b = true.
Proof.
  intros Ht Hs Hc Hr. pose proof (map_size_mono _ _ Ht). pose proof (map_size_mono _ _ Hs).
  pose proof (map_size_mono _ _ Hc). unfold IsDeciderTriggerConditionMet.
  destruct (0 <? num_commands req)%Z eqn:Hn; [|by intros _ [= ->]].
  destruct (GetDeciderTriggerType req) as [tt|] eqn:Htt; [|done]. destruct tt; simpl; try done.
  - intros Hall [= <-]. destruct Hr as (Hrt & Hrs & Hrc).
    injection Hall as Hall. rewrite !andb_true_iff, !Z.eqb_eq in *. unfold len in *.
    assert (forall V (m : gmap nat V) n, in_range m n -> size m <= n) as Hle.
    { intros V m n Hm. rewrite <- size_dom, <- (size_set_seq (C := gset nat) 0 n).
      apply subseteq_size. intros i Hi%elem_of_dom. apply elem_of_set_seq.
      specialize (Hm _ Hi). lia. }
    apply Hle in Hrt, Hrs, Hrc. lia.
  - intros [= Hany%Z.ltb_lt] [= <-]. apply Z.ltb_lt. lia.
  - destruct (completed_cmd_ids req t s c) as [ids|] eqn:Hids; [|done].
    destruct (completed_cmd_ids req t' s' c') as [ids'|] eqn:Hids'; [|done]; simpl.
    intros [= (comb & Hin & Hsub)%combination_met_spec] [= <-].
    apply combination_met_spec. exists comb. split; [done |]. etrans; [done |].
    rewrite (completed_cmd_ids_Ret _ _ _ _ _ Hids), (completed_cmd_ids_Ret _ _ _ _ _ Hids').
    repeat apply submseteq_app; by apply map_ids_submseteq.
Qed.

(** On a command request that passed the check of the waitUntil activity, the
    trigger never panics. *)
Lemma validated_request_decides resp req t s c :
  ws_CommandRequest resp = Some req ->
  checkCommandRequestFromWaitUntilResponse (Some resp) = Ret None ->
  completions_in_range req t s c ->
  exists b, IsDeciderTriggerConditionMet req t s c = Ret b.
Proof.
  intros Hreq Hchk (Hrt & Hrs & Hrc). unfold checkCommandRequestFromWaitUntilResponse in Hchk.
  simpl in Hchk. rewrite Hreq in Hchk. unfold IsDeciderTriggerConditionMet.
  destruct (0 <? num_commands req)%Z; [|eauto].
  destruct (GetDeciderTriggerType req) as [[]|]; simpl in *; try done; try by eauto.
  destruct (len (CommandCombinations req) =? 0)%Z; [done |].
  destruct (some_id_empty tc_CommandId _) eqn:Ht; [done |].
  destruct (some_id_empty sc_CommandId _) eqn:Hs; [done |].
  destruct (some_id_empty ic_CommandId _) eqn:Hc; [done |].
  unfold completed_cmd_ids. rewrite !collect_ids_total by auto using sorted_keys_in_range.
  simpl. eauto.
Qed.
