(* ===== verification/Activity.v ===== *)
(** * The activities

    service/interpreter/activityImpl.go: the calls of the worker's waitUntil and
    execute APIs with the checks of their answers and the external storage of
    their values, the call of an RPC, the dump of a workflow and the clean-up of
    the external storage.  Everything outside (HTTP, the SDK, the clock, JSON) is
    in [ActivityEnv], a parameter.  An activity works on its own decoded copy of
    its input, so changes of the input are not visible to its caller. *)

From S2P Require Export WorkerApi Decider.

(** ** The environment *)

Record ActivityInfo : Type := mkActivityInfo {
  ScheduledTime : Z;                       (* unix nanoseconds *)
  ai_Attempt : Z;
  IsLocalActivity : bool;
  ai_WorkflowExecution : WorkflowExecution
}.

Record ActivityEnv (W : Type) : Type := mkActivityEnv {
  GetBlobStore : option (BlobStore W);
  ExternalStorage : ExternalStorageConfig;
  MaxWaitSeconds : Z;
  ApiServiceAddress : string;
  Getenv : string -> string;
  GetActivityInfo : ActivityInfo;
  ContextDeadline : option Z;              (* unix seconds *)
  time_Now : W -> Z * W;                   (* unix nanoseconds *)
  ApiV1WorkflowStateStartPost :
    string -> WorkflowStateStartRequest -> W -> api_result WorkflowStateStartResponse * W;
  ApiV1WorkflowStateDecidePost :
    string -> WorkflowStateDecideRequest -> W -> api_result WorkflowStateDecideResponse * W;
  ApiV1WorkflowWorkerRpcPost_ :
    string -> Z -> WorkflowWorkerRpcRequest -> W -> api_result WorkflowWorkerRpcResponse * W;
  ApiV1WorkflowInternalDumpPost :
    string -> WorkflowDumpRequest -> W -> api_result WorkflowDumpResponse * W;
  UnmarshalWorkerError : string -> option WorkerErrorResponse;
  MarshalStartResponse : WorkflowStateStartResponse -> string;
  MarshalDecideResponse : WorkflowStateDecideResponse -> string;
  event_Handle : IwfEvent -> W -> unit * W;
  DescribeWorkflowExecution : string -> W -> option error * W;
  IsNotFoundError : option error -> bool;
  RecordHeartbeat : W -> unit * W
}.
Arguments GetBlobStore {W} _.
Arguments ExternalStorage {W} _.
Arguments MaxWaitSeconds {W} _.
Arguments ApiServiceAddress {W} _.
Arguments Getenv {W} _ _.
Arguments GetActivityInfo {W} _.
Arguments ContextDeadline {W} _.
Arguments time_Now {W} _ _.
Arguments ApiV1WorkflowStateStartPost {W} _ _ _ _.
Arguments ApiV1WorkflowStateDecidePost {W} _ _ _ _.
Arguments ApiV1WorkflowWorkerRpcPost_ {W} _ _ _ _ _.
Arguments ApiV1WorkflowInternalDumpPost {W} _ _ _ _.
Arguments UnmarshalWorkerError {W} _ _.
Arguments MarshalStartResponse {W} _ _.
Arguments MarshalDecideResponse {W} _ _.
Arguments event_Handle {W} _ _ _.
Arguments DescribeWorkflowExecution {W} _ _ _.
Arguments IsNotFoundError {W} _ _.
Arguments RecordHeartbeat {W} _ _.

(** ** Errors *)

(** [msg[:maxLength] + "..."] *)
Definition trimText (msg : string) (maxLength : nat) : string :=
  if (Z.of_nat maxLength <? byte_len msg)%Z then String.substring 0 maxLength msg +:+ "..." else msg.

(** [errMsg := err.Error()] panics on a nil error. *)
Definition composeHttpError (isLocalActivity : bool) (err : option string)
  (httpResp : option http_response) (errType : WorkflowErrorType) : gores error :=
  let '(responseBody, statusCode) :=
    match httpResp with
    | None => ("None", 0%Z)
    | Some r => (match hr_Body r with
                 | inr _ => "cannot read body from http response"
                 | inl body => body
                 end, hr_StatusCode r)
    end in
  errMsg ← deref err;
  let '(trimmedErrMsg, trimmedResponseBody, errType) :=
    if isLocalActivity
    then (trimText errMsg 5, trimText responseBody 50, WorkflowErrorType_other "1st-attempt-failure")
    else (trimText errMsg 50, trimText responseBody 500, errType) in
  Ret (NewApplicationError errType
         ("statusCode: " +:+ pretty statusCode +:+ ", responseBody: " +:+ trimmedResponseBody
          +:+ ", errMsg: " +:+ trimmedErrMsg)).

Definition composeInputForDebug (stateExeId : string) : option string :=
  Some ("stateExeId: " +:+ stateExeId).

Definition empty_decision_msg : string :=
  "empty state decision is no longer supported. If it's from old SDKs then upgrade the SDK to newer versions".

Definition checkStateDecisionFromResponse (resp : option WorkflowStateDecideResponse) : option error :=
  match resp ≫= wd_StateDecision with
  | None => Some (OtherError empty_decision_msg)
  | Some decision =>
      if (len (NextStates decision) =? 0)%Z
      then Some (OtherError empty_decision_msg) else None
  end.

(** [resp.MarshalJSON()] has a value receiver: it panics on a nil response. *)
Definition compose_resp_error {A} (MarshalJSON : A -> string) (err : error) (resp : option A) :
  gores error :=
  resp ← deref resp;
  Ret (NewApplicationError STATE_API_FAIL_ERROR_TYPE
         ("err msg: " +:+ error_text err +:+ ", response: " +:+ MarshalJSON resp)).

(** ** Functional updates of the generated records *)

Definition set_attempt (info : ActivityInfo) (c : Context_) : Context_ :=
  mkContext (ctx_WorkflowId c) (ctx_WorkflowRunId c) (ctx_WorkflowStartedTimestamp c)
    (ctx_StateExecutionId c) (Some (Unix (ScheduledTime info))) (Some (ai_Attempt info)).

Definition set_start_LocalActivityInput (s : option string) (r : WorkflowStateStartResponse) :=
  mkWorkflowStateStartResponse s (ws_UpsertSearchAttributes r) (ws_UpsertDataObjects r)
    (ws_CommandRequest r) (ws_UpsertStateLocals r) (ws_RecordEvents r)
    (ws_PublishToInterStateChannel r).

Definition set_start_UpsertDataObjects (l : list KeyValue) (r : WorkflowStateStartResponse) :=
  mkWorkflowStateStartResponse (ws_LocalActivityInput r) (ws_UpsertSearchAttributes r) l
    (ws_CommandRequest r) (ws_UpsertStateLocals r) (ws_RecordEvents r)
    (ws_PublishToInterStateChannel r).

Definition set_decide_LocalActivityInput (s : option string) (r : WorkflowStateDecideResponse) :=
  mkWorkflowStateDecideResponse s (wd_StateDecision r) (wd_UpsertSearchAttributes r)
    (wd_UpsertDataObjects r) (wd_RecordEvents r) (wd_UpsertStateLocals r)
    (wd_PublishToInterStateChannel r).

Definition set_decide_StateDecision (d : StateDecision) (r : WorkflowStateDecideResponse) :=
  mkWorkflowStateDecideResponse (wd_LocalActivityInput r) (Some d) (wd_UpsertSearchAttributes r)
    (wd_UpsertDataObjects r) (wd_RecordEvents r) (wd_UpsertStateLocals r)
    (wd_PublishToInterStateChannel r).

Definition set_decide_UpsertDataObjects (l : list KeyValue) (r : WorkflowStateDecideResponse) :=
  mkWorkflowStateDecideResponse (wd_LocalActivityInput r) (wd_StateDecision r)
    (wd_UpsertSearchAttributes r) l (wd_RecordEvents r) (wd_UpsertStateLocals r)
    (wd_PublishToInterStateChannel r).

Definition set_StateInput (i : option EncodedObject) (s : StateMovement) : StateMovement :=
  mkStateMovement (StateId s) i (StateOptions s) (WaitForKey s).

Section activities.
Context {W : Type} (env : ActivityEnv W).

Definition FixWorkerUrl : string -> string := DefaultFixWorkerUrlFunc (Getenv env).

(** ** State inputs in the external storage *)

(** The input with its data, and the "whole" copy that keeps the reference. *)
Definition loadStateInputFromExternalStorage (input : EncodedObject) :
  M W (EncodedObject * EncodedObject + error) :=
  match ExtStoreId input, ExtPath input with
  | Some extStoreId, Some extPath =>
      data ←? store_call (GetBlobStore env) (fun b => ReadObject b extStoreId extPath);
      mret (inl (set_loaded data input,
                 mkEncodedObject (Some extStoreId) (Some extPath) (Encoding input) (Some data)))
  | _, _ => mret (inl (input, input))
  end.

(** [if StateInput != nil && StateInput.ExtStoreId != nil { ... load ... }] *)
Definition load_request_input (stateInput : option EncodedObject) :
  M W (option EncodedObject * option EncodedObject + error) :=
  match stateInput with
  | Some input =>
      if is_set (ExtStoreId input) then
        loaded ←? loadStateInputFromExternalStorage input;
        mret (inl (Some (fst loaded), Some (snd loaded)))
      else mret (inl (stateInput, None))
  | None => mret (inl (None, None))
  end.

(** The copy already stored has the same data. *)
Definition reusable (currentInputCopy : option EncodedObject) (data : string) :
  option (string * string) :=
  copy ← currentInputCopy;
  d ← Data copy;
  if bool_decide (d = data) then reference_of (Some copy) else None.

Definition processNextStateInputForExternalStorage (nextStateInput currentInputCopy : option EncodedObject)
  (workflowId : string) : M W (option EncodedObject + error) :=
  match oversized (ThresholdInBytes (ExternalStorage env)) nextStateInput with
  | None => mret (inl nextStateInput)
  | Some data =>
      match reusable currentInputCopy data with
      | Some (storeId, path) => mret (inl (set_reference storeId path <$> nextStateInput))
      | None =>
          r ←? store_call (GetBlobStore env) (fun b => WriteObject b workflowId data);
          mret (inl (set_reference (fst r) (snd r) <$> nextStateInput))
      end
  end.

Fixpoint writeNextStateInputsToExternalStorage (nextStates : list StateMovement)
  (currentInputCopy : option EncodedObject) (workflowId : string) : M W (list StateMovement + error) :=
  match nextStates with
  | [] => mret (inl [])
  | st :: rest =>
      input ←? processNextStateInputForExternalStorage (StateInput st) currentInputCopy workflowId;
      rest' ←? writeNextStateInputsToExternalStorage rest currentInputCopy workflowId;
      mret (inl (set_StateInput input st :: rest'))
  end.

Definition load_attributes (dataObjects : list KeyValue) : M W (list KeyValue + error) :=
  '(objs, err) ← LoadDataObjectsFromExternalStorage (GetBlobStore env) dataObjects;
  mret match err with Some e => inr e | None => inl objs end.

Definition write_attributes (dataObjects : list KeyValue) : M W (list KeyValue + error) :=
  '(objs, err) ← WriteDataObjectsToExternalStorage (GetBlobStore env) dataObjects
                   (ID (ai_WorkflowExecution (GetActivityInfo env)))
                   (ThresholdInBytes (ExternalStorage env)) (Enabled (ExternalStorage env));
  mret match err with Some e => inr e | None => inl objs end.

(** [event.Handle(iwfidl.IwfEvent{...})]; the type and details the event shows are
    those of the error. *)
Definition handle_attempt_event (eventType : EventType) (workflowType stateId : string)
  (stateExecutionId : option string) (start : Z) (sas : list SearchAttribute) (err : option error) :
  M W unit :=
  let exec := ai_WorkflowExecution (GetActivityInfo env) in
  end_ ← outside (time_Now env);
  outside (event_Handle env (mkIwfEvent eventType None workflowType (ID exec) (RunID exec)
             (Some stateId) stateExecutionId (Some (UnixMilli start)) (Some (UnixMilli end_)) sas err)).

(** ** The waitUntil API *)

Definition start_request (input : StateStartActivityInput) (stateInput : option EncodedObject)
  (dataObjects : list KeyValue) : WorkflowStateStartRequest :=
  let r := ss_Request input in
  mkWorkflowStateStartRequest (set_attempt (GetActivityInfo env) (ws_Context r)) (ws_WorkflowType r)
    (ws_WorkflowStateId r) stateInput (ws_SearchAttributes r) dataObjects.

Definition StateApiWaitUntil (input : StateStartActivityInput) (searchAttributes : list SearchAttribute) :
  M W (option WorkflowStateStartResponse + error) :=
  startTime ← outside (time_Now env);
  let info := GetActivityInfo env in
  let request := ss_Request input in
  let stateExeId := default EmptyString (ctx_StateExecutionId (ws_Context request)) in
  let event ty err := handle_attempt_event ty (ws_WorkflowType request) (ws_WorkflowStateId request)
                        (Some stateExeId) startTime searchAttributes err in
  loaded ←? load_request_input (ws_StateInput request);
  dataObjects ←? load_attributes (ws_DataObjects request);
  result ← outside (ApiV1WorkflowStateStartPost env (FixWorkerUrl (ss_IwfWorkerUrl input))
                      (start_request input (fst loaded) dataObjects));
  if checkHttpError (ar_err result) (ar_http result) then
    stateStartErr ← liftM (composeHttpError (IsLocalActivity info) (ar_err result) (ar_http result)
                             STATE_API_FAIL_ERROR_TYPE);
    event STATE_WAIT_UNTIL_ATTEMPT_FAIL_EVENT (Some stateStartErr);;
    mret (inr stateStartErr)
  else
    let resp := ar_resp result in
    checked ← liftM (checkCommandRequestFromWaitUntilResponse resp);
    match checked with
    | Some err =>
        stateStartErr ← liftM (compose_resp_error (MarshalStartResponse env) err resp);
        event STATE_WAIT_UNTIL_ATTEMPT_FAIL_EVENT (Some stateStartErr);;
        mret (inr stateStartErr)
    | None =>
        resp ← (if IsLocalActivity info then
                  r ← liftM (deref resp);
                  mret (Some (set_start_LocalActivityInput (composeInputForDebug stateExeId) r))
                else mret resp);
        resp ←? (if Enabled (ExternalStorage env) then
                   r ← liftM (deref resp);
                   objs ←? write_attributes (ws_UpsertDataObjects r);
                   mret (inl (Some (set_start_UpsertDataObjects objs r)))
                 else mret (inl resp));
        event STATE_WAIT_UNTIL_ATTEMPT_SUCC_EVENT None;;
        mret (inl resp)
    end.

(** ** The execute API *)

(** The workflow only passes StateWaitUntilFailed; old SDKs read the other. *)
Definition fill_wait_until_status (r : CommandResults) : CommandResults :=
  match StateWaitUntilFailed r with
  | None => mkCommandResults (SignalResults r) (InterStateChannelResults r) (TimerResults r)
              (Some true) (Some false)
  | Some failed => mkCommandResults (SignalResults r) (InterStateChannelResults r) (TimerResults r)
                     (Some (negb failed)) (Some failed)
  end.

Definition decide_request (input : StateDecideActivityInput) (stateInput : option EncodedObject)
  (dataObjects : list KeyValue) : WorkflowStateDecideRequest :=
  let r := sd_Request input in
  mkWorkflowStateDecideRequest (set_attempt (GetActivityInfo env) (wd_Context r)) (wd_WorkflowType r)
    (wd_WorkflowStateId r) stateInput (wd_SearchAttributes r) dataObjects (wd_StateLocals r)
    (fill_wait_until_status <$> wd_CommandResults r).

Definition store_decision (resp : option WorkflowStateDecideResponse)
  (wholeStateInputCopy : option EncodedObject) : M W (option WorkflowStateDecideResponse + error) :=
  r ← liftM (deref resp);
  decision ← liftM (deref (wd_StateDecision r));
  nextStates ←? writeNextStateInputsToExternalStorage (NextStates decision) wholeStateInputCopy
                  (ID (ai_WorkflowExecution (GetActivityInfo env)));
  objs ←? write_attributes (wd_UpsertDataObjects r);
  mret (inl (Some (set_decide_UpsertDataObjects objs
          (set_decide_StateDecision (mkStateDecision nextStates (ConditionalClose decision)) r)))).

Definition StateApiExecute (input : StateDecideActivityInput) :
  M W (option WorkflowStateDecideResponse + error) :=
  startTime ← outside (time_Now env);
  let info := GetActivityInfo env in
  let request := sd_Request input in
  let stateExeId := ctx_StateExecutionId (wd_Context request) in
  let event ty err := handle_attempt_event ty (wd_WorkflowType request) (wd_WorkflowStateId request)
                        stateExeId startTime (wd_SearchAttributes request) err in
  loaded ←? load_request_input (wd_StateInput request);
  dataObjects ←? load_attributes (wd_DataObjects request);
  result ← outside (ApiV1WorkflowStateDecidePost env (FixWorkerUrl (sd_IwfWorkerUrl input))
                      (decide_request input (fst loaded) dataObjects));
  if checkHttpError (ar_err result) (ar_http result) then
    stateApiExecuteErr ← liftM (composeHttpError (IsLocalActivity info) (ar_err result)
                                  (ar_http result) STATE_API_FAIL_ERROR_TYPE);
    event STATE_EXECUTE_ATTEMPT_FAIL_EVENT (Some stateApiExecuteErr);;
    mret (inr stateApiExecuteErr)
  else
    let resp := ar_resp result in
    match checkStateDecisionFromResponse resp with
    | Some err =>
        stateApiExecuteErr ← liftM (compose_resp_error (MarshalDecideResponse env) err resp);
        event STATE_EXECUTE_ATTEMPT_FAIL_EVENT (Some stateApiExecuteErr);;
        mret (inr stateApiExecuteErr)
    | None =>
        resp ← (if IsLocalActivity info then
                  r ← liftM (deref resp);
                  mret (Some (set_decide_LocalActivityInput
                                (composeInputForDebug (default EmptyString stateExeId)) r))
                else mret resp);
        resp ←? (if Enabled (ExternalStorage env) then store_decision resp (snd loaded)
                 else mret (inl resp));
        event STATE_EXECUTE_ATTEMPT_SUCC_EVENT None;;
        mret (inl resp)
    end.

(** ** The other activities *)

Definition DumpWorkflowInternal (req : WorkflowDumpRequest) :
  M W (option WorkflowDumpResponse + error) :=
  result ← outside (ApiV1WorkflowInternalDumpPost env (ApiServiceAddress env) req);
  if checkHttpError (ar_err result) (ar_http result) then
    err ← liftM (composeHttpError (IsLocalActivity (GetActivityInfo env)) (ar_err result)
                   (ar_http result) SERVER_INTERNAL_ERROR_TYPE);
    mret (inr err)
  else mret (inl (ar_resp result)).

Definition time_Now_Unix : W -> Z * W := fun w => let '(t, w') := time_Now env w in (Unix t, w').

(** The activity itself never fails: the error is in its output. *)
Definition InvokeWorkerRpcActivity (rpcPrep : PrepareRpcQueryResponse) (req : WorkflowRpcRequest) :
  M W InvokeRpcActivityOutput :=
  r ← InvokeWorkerRpc FixWorkerUrl (UnmarshalWorkerError env) (ApiV1WorkflowWorkerRpcPost_ env)
        time_Now_Unix (ContextDeadline env) rpcPrep req (MaxWaitSeconds env) (GetBlobStore env)
        (ExternalStorage env);
  mret match r with
       | inl resp => mkInvokeRpcActivityOutput resp None
       | inr statusErr => mkInvokeRpcActivityOutput None (Some statusErr)
       end.

(** One page of workflow paths; [break] only leaves this loop. *)
Fixpoint cleanup_page (store : BlobStore W) (storeId : string) (stopCheckingUnixSeconds : Z)
  (workflowPaths : list string) : M W (unit + error) :=
  match workflowPaths with
  | [] => mret (inl tt)
  | workflowPath :: rest =>
      '(currentTimestamp, valid) ← liftM (ExtractYyyymmddToUnixSeconds workflowPath);
      if negb valid then cleanup_page store storeId stopCheckingUnixSeconds rest
      else if (currentTimestamp <? stopCheckingUnixSeconds)%Z then mret (inl tt)
      else
        workflowId ← liftM (MustExtractWorkflowId workflowPath);
        err ← outside (DescribeWorkflowExecution env workflowId);
        err ← (if IsNotFoundError env err
               then DeleteWorkflowObjects store storeId workflowPath else mret err);
        _ ←? check_err err;
        outside (RecordHeartbeat env);;
        cleanup_page store storeId stopCheckingUnixSeconds rest
  end.

Fixpoint cleanup_pages (fuel : nat) (store : BlobStore W) (storeId : string)
  (stopCheckingUnixSeconds : Z) (continueToken : option string) : M W (option error) :=
  match fuel with
  | 0 => liftM (Panic "out of fuel")
  | S fuel =>
      r ← ListWorkflowPaths store storeId continueToken;
      match r with
      | inr err => mret (Some err)
      | inl listOutput =>
          r ← cleanup_page store storeId stopCheckingUnixSeconds (WorkflowPaths listOutput);
          match r with
          | inr err => mret (Some err)
          | inl _ =>
              match ContinuationToken listOutput with
              | None => mret None
              | token => cleanup_pages fuel store storeId stopCheckingUnixSeconds token
              end
          end
      end
  end.

Definition cleanup_cutoff (now : Z) : Z :=
  wrap64 (now - wrap64 (MinAgeForCleanupCheckInDays (ExternalStorage env) * 24 * 3600)).

(** [store.ListWorkflowPaths] on a nil store panics. *)
Definition CleanupBlobStore (fuel : nat) (storeId : string) : M W (option error) :=
  now ← outside time_Now_Unix;
  store_call (GetBlobStore env) (fun store =>
    cleanup_pages fuel store storeId (cleanup_cutoff now) None).

End activities.

(** ** The check of the worker's answers *)

Section activity_facts.
Context {W : Type} (env : ActivityEnv W).

(** What a successful attempt of the waitUntil activity went through. *)
Lemma StateApiWaitUntil_inv input sas w resp w' :
  StateApiWaitUntil env input sas w = Ret (inl resp, w') ->
  exists request result w1 w2,
    ApiV1WorkflowStateStartPost env (FixWorkerUrl env (ss_IwfWorkerUrl input)) request w1 = (result, w2) /\
    checkHttpError (ar_err result) (ar_http result) = false /\
    checkCommandRequestFromWaitUntilResponse (ar_resp result) = Ret None /\
    (resp ≫= ws_CommandRequest) = (ar_resp result ≫= ws_CommandRequest).
Proof.
  unfold StateApiWaitUntil. intros H.
  step H as start Es. step H as loaded Elo. step H as attrs Ea. step H as result Er.
  eexists _, result, _, _. split; [exact Er|].
  destruct (checkHttpError _ _); [step H as cerr Ee; step H as u Eu; by step_done H|]. split; [done|].
  step H as checked Ec. destruct checked; [step H as cerr Ee; step H as u Eu; by step_done H|].
  split; [done|]. step H as resp1 E1. step H as resp2 E2. step H as u Eu. step_done H.
  injection H as <-.
  assert ((resp1 ≫= ws_CommandRequest) = (ar_resp result ≫= ws_CommandRequest)) as <-.
  { destruct (IsLocalActivity _); [|by step_done E1; subst].
    step E1 as r Ed. step_done E1. subst. by destruct (ar_resp result); simplify_eq/=. }
  destruct (Enabled _); [|by step_done E2; simplify_eq].
  step E2 as r Ed. step E2 as objs Eo. step_done E2. by destruct resp1; simplify_eq/=.
Qed.

(** C25: on the command request of an answer the waitUntil activity returns, the
    trigger never panics: neither on an unsupported trigger type nor on a command
    without an id. *)
Theorem accepted_request_never_panics input sas w resp w' req t s c :
  StateApiWaitUntil env input sas w = Ret (inl (Some resp), w') ->
  ws_CommandRequest resp = Some req ->
  completions_in_range req t s c ->
  exists met, IsDeciderTriggerConditionMet req t s c = Ret met.
Proof.
  intros H Hreq Hr. apply StateApiWaitUntil_inv in H as (_ & result & _ & _ & _ & _ & Hc & E).
  cbn in E. rewrite Hreq in E. destruct (ar_resp result) as [r0|]; [|done].
  by apply (validated_request_decides r0).
Qed.

(** What a successful attempt of the execute activity went through: the input is
    loaded, the attributes are, the worker answers with next states, and what
    goes back is the answer, its values stored when the storage is enabled. *)
Lemma StateApiExecute_inv input w resp w' :
  StateApiExecute env input w = Ret (inl resp, w') ->
  exists start w0 stateInput copy w1 dataObjects w2 result w3 r0 r1 w4 u,
    time_Now env w = (start, w0) /\
    load_request_input env (wd_StateInput (sd_Request input)) w0 = Ret (inl (stateInput, copy), w1) /\
    load_attributes env (wd_DataObjects (sd_Request input)) w1 = Ret (inl dataObjects, w2) /\
    ApiV1WorkflowStateDecidePost env (FixWorkerUrl env (sd_IwfWorkerUrl input))
      (decide_request env input stateInput dataObjects) w2 = (result, w3) /\
    ar_resp result = Some r0 /\ checkStateDecisionFromResponse (Some r0) = None /\
    wd_StateDecision r1 = wd_StateDecision r0 /\ wd_UpsertDataObjects r1 = wd_UpsertDataObjects r0 /\
    (if Enabled (ExternalStorage env) then store_decision env (Some r1) copy
     else mret (inl (Some r1))) w3 = Ret (inl resp, w4) /\
    handle_attempt_event env STATE_EXECUTE_ATTEMPT_SUCC_EVENT (wd_WorkflowType (sd_Request input))
      (wd_WorkflowStateId (sd_Request input)) (ctx_StateExecutionId (wd_Context (sd_Request input)))
      start (wd_SearchAttributes (sd_Request input)) None w4 = Ret (u, w').
Proof.
  unfold StateApiExecute. intros H.
  step H as start Es. step H as loaded Elo. step H as attrs Ea. step H as result Er.
  destruct loaded as [stateInput copy].
  destruct (checkHttpError _ _); [step H as cerr Ee; step H as u Eu; by step_done H|].
  destruct (checkStateDecisionFromResponse (ar_resp result)) eqn:Ec;
    [step H as cerr Ee; step H as u Eu; by step_done H|].
  destruct (ar_resp result) as [r0|] eqn:E0; [|done].
  step H as resp1 E1. step H as resp2 E2. step H as u Eu. step_done H. injection H as <-.
  assert (exists r1, resp1 = Some r1 /\ wd_StateDecision r1 = wd_StateDecision r0 /\
    wd_UpsertDataObjects r1 = wd_UpsertDataObjects r0 /\ w4 = w3) as (r1 & -> & Hd & Hu & ->).
  { destruct (IsLocalActivity _); [|step_done E1; eauto].
    step E1 as r Ed. step_done E1. injection Ed as <-. subst. eexists. by split_and!. }
  do 13 eexists. split_and!; done.
Qed.

(** The execute activity never returns a decision without next states. *)
Lemma checked_decision r0 :
  checkStateDecisionFromResponse (Some r0) = None ->
  exists decision, wd_StateDecision r0 = Some decision /\ NextStates decision <> [].
Proof.
  unfold checkStateDecisionFromResponse. cbn. destruct (wd_StateDecision r0) as [d|]; [|done].
  destruct (Z.eqb_spec (len (NextStates d)) 0) as [|Hn]; [done|]. intros _. exists d.
  split; [done|]. intros E. by apply Hn, len_nil_iff.
Qed.

(** ** State inputs survive the external storage *)

Section inputs.
Context (b : BlobStore W) `{!LawfulStore b} (Hb : GetBlobStore env = Some b).

(** [v] is [v0], or [v0] with its data replaced by a reference to it. *)
Inductive input_denotes (w : W) (v0 : option EncodedObject) : option EncodedObject -> Prop :=
| input_same : input_denotes w v0 v0
| input_stored o data storeId path :
    v0 = Some o -> Data o = Some data -> stored w storeId path data ->
    input_denotes w v0 (Some (set_reference storeId path o)).

Lemma input_denotes_mono w w' v0 v :
  keeps_stored b w w' -> input_denotes w v0 v -> input_denotes w' v0 v.
Proof. intros Hk [|o d i p ? ? ?]; [constructor | by eapply input_stored, Hk]. Qed.

(** The copy of the input is backed by the store. *)
Definition copy_stored (w : W) (copy : option EncodedObject) : Prop :=
  forall data storeId path, reusable copy data = Some (storeId, path) -> stored w storeId path data.

Lemma reusable_inv copy data storeId path :
  reusable copy data = Some (storeId, path) ->
  exists c, copy = Some c /\ Data c = Some data /\ ExtStoreId c = Some storeId /\ ExtPath c = Some path.
Proof.
  unfold reusable. destruct copy as [c|]; [|done]. cbn. destruct (Data c) as [d|] eqn:Ed; [|done].
  cbn. case_bool_decide as Hd; [subst d|done]. unfold reference_of. cbn.
  destruct (ExtStoreId c) eqn:Ei; [|done]. cbn. destruct (ExtPath c) eqn:Ep; [|done].
  intros [= <- <-]. by exists c.
Qed.

Lemma load_request_input_keeps v w i copy w' :
  load_request_input env v w = Ret (inl (i, copy), w') ->
  keeps_stored b w w' /\ copy_stored w' copy.
Proof.
  unfold load_request_input. intros H.
  destruct v as [o|]; [|step_done H; simplify_eq; split; [done|]; by intros ??].
  destruct (ExtStoreId o) as [storeId|] eqn:Ei; cbn in H;
    [|step_done H; simplify_eq; split; [done|]; by intros ??].
  step H as l El. step_done H. simplify_eq.
  unfold loadStateInputFromExternalStorage in El. rewrite Ei in El.
  destruct (ExtPath o) as [path|] eqn:Ep.
  - step El as d Ed. rewrite Hb, store_call_some in Ed. step_done El. injection El as <-.
    apply read_gives in Ed as [Hd Hk]. split; [done|].
    intros data s p (c & [= <-] & Edd & Es & Ex)%reusable_inv. cbn in *. simplify_eq. by apply Hd.
  - step_done El. simplify_eq. split; [done|].
    intros data s p (c & [= <-] & Edd & Es & Ex)%reusable_inv. cbn in *. congruence.
Qed.

Lemma process_input_spec v copy wid w v' w' :
  copy_stored w copy ->
  processNextStateInputForExternalStorage env v copy wid w = Ret (inl v', w') ->
  keeps_stored b w w' /\ input_denotes w' v v' /\
  oversized (ThresholdInBytes (ExternalStorage env)) v' = None.
Proof.
  intros Hc. unfold processNextStateInputForExternalStorage.
  destruct (oversized _ v) as [data|] eqn:Eo; intros H.
  - apply oversized_Some in Eo as (o & -> & Ed & _).
    destruct (reusable copy data) as [[storeId path]|] eqn:Er.
    + step_done H. injection H as <-. split_and!; [done| |done].
      by eapply input_stored; [..|apply Hc].
    + step H as r Ew. rewrite Hb, store_call_some in Ew. step_done H. injection H as <-.
      destruct r as [storeId path]. split_and!; [intros ???; by eapply write_keeps| |done].
      eapply input_stored; [done..|]. by eapply write_stores.
  - step_done H. injection H as <-. split_and!; [done|constructor|done].
Qed.

(** A next state with its input stored. *)
Definition next_stored (w : W) (s0 s : StateMovement) : Prop :=
  StateId s = StateId s0 /\ StateOptions s = StateOptions s0 /\ WaitForKey s = WaitForKey s0 /\
  input_denotes w (StateInput s0) (StateInput s) /\
  oversized (ThresholdInBytes (ExternalStorage env)) (StateInput s) = None.

Lemma next_stored_mono w w' l0 l :
  keeps_stored b w w' -> Forall2 (next_stored w) l0 l -> Forall2 (next_stored w') l0 l.
Proof.
  intros Hk H. eapply Forall2_impl; [exact H|]. intros ?? (? & ? & ? & ? & ?). split_and!; try done.
  by eapply input_denotes_mono.
Qed.

Lemma write_next_inputs_spec states copy wid w states' w' :
  copy_stored w copy ->
  writeNextStateInputsToExternalStorage env states copy wid w = Ret (inl states', w') ->
  keeps_stored b w w' /\ Forall2 (next_stored w') states states'.
Proof.
  revert w states'. induction states as [|s states IH]; intros w states' Hc H;
    cbn [writeNextStateInputsToExternalStorage] in H.
  { step_done H. by injection H as <-. }
  step H as v Ev. step H as rest Erest. step_done H. injection H as <-.
  apply process_input_spec in Ev as (Hk1 & Hd & Ho); [|done].
  apply IH in Erest as (Hk2 & Hrest); [|intros ????; by apply Hk1, Hc].
  split; [by etrans|]. constructor; [|done]. split_and!; try done. by eapply input_denotes_mono.
Qed.

(** Reading a stored input gives it back, unless the read fails. *)
Lemma load_input_denoted w v0 v :
  (forall o, v0 = Some o -> inline_value o) -> input_denotes w v0 v ->
  exists r w', load_request_input env v w = Ret (r, w') /\
    (forall i copy, r = inl (i, copy) -> i = v0) /\
    (store_succeeds b -> exists p, r = inl p).
Proof.
  intros Hi [|o data storeId path -> Ed Hs].
  - unfold load_request_input. destruct v0 as [o|]; [|eexists _, _; split; [done|]; naive_solver].
    destruct (Hi o eq_refl) as [-> _]. cbn. eexists _, _. split; [done|]. naive_solver.
  - cbn. unfold try_, loadStateInputFromExternalStorage. cbn. rewrite Hb.
    unfold try_, mbind, M_bind. rewrite store_call_some.
    destruct (read_stored storeId path w data Hs) as (w1 & [Er|[e Er]] & _); rewrite Er.
    + eexists _, _. split; [done|]. split; [|eauto]. intros i copy [= <- <-].
      destruct (Hi o eq_refl) as [Ei Ep]. destruct o; cbn in *; by subst.
    + eexists _, _. split_and!; [done..|]. intros [_ Hr].
      destruct (Hr storeId path data w Hs). congruence.
Qed.

Lemma write_attributes_keeps objs w r w' :
  write_attributes env objs w = Ret (r, w') -> keeps_stored b w w'.
Proof.
  unfold write_attributes. rewrite Hb. intros H. apply M_bind_Ret in H as ([l err] & w1 & Ew & H).
  step_done H. unfold WriteDataObjectsToExternalStorage in Ew.
  destruct (Enabled _); cbn [negb] in Ew; [|by step_done Ew].
  destruct (write_data_objects_spec b (ID (ai_WorkflowExecution (GetActivityInfo env)))
    (ThresholdInBytes (ExternalStorage env)) objs w) as (? & ? & ? & E & Hk & _).
  rewrite E in Ew. injection Ew as _ _ <-. exact Hk.
Qed.

Lemma store_decision_spec r copy w resp w' :
  copy_stored w copy ->
  store_decision env (Some r) copy w = Ret (inl resp, w') ->
  exists d0 resp' d, wd_StateDecision r = Some d0 /\ resp = Some resp' /\
    wd_StateDecision resp' = Some d /\ ConditionalClose d = ConditionalClose d0 /\
    Forall2 (next_stored w') (NextStates d0) (NextStates d).
Proof.
  intros Hc H. unfold store_decision in H.
  step H as r' Er. injection Er as ->. step H as d0 Ed.
  destruct (wd_StateDecision r') as [d|] eqn:Ed0; [injection Ed as ->|done].
  step H as next En. step H as objs Eo. step_done H. injection H as <-.
  apply write_next_inputs_spec in En as [_ Hn]; [|done]. apply write_attributes_keeps in Eo.
  eexists d0, _, _. split_and!; [done..|]. cbn. by eapply next_stored_mono.
Qed.

(** The other calls of an activity leave the store alone. *)
Definition keeps_store : Prop :=
  (forall w, keeps_stored b w (snd (time_Now env w))) /\
  (forall event w, keeps_stored b w (snd (event_Handle env event w))) /\
  (forall url request w, keeps_stored b w (snd (ApiV1WorkflowStateDecidePost env url request w))).

Lemma handle_event_keeps ty wt sid eid start sas err w u w' :
  keeps_store -> handle_attempt_event env ty wt sid eid start sas err w = Ret (u, w') ->
  keeps_stored b w w'.
Proof.
  intros (Ht & He & _) H. unfold handle_attempt_event in H. step H as end_ Ee. apply outside_Ret in H.
  specialize (Ht w). rewrite Ee in Ht.
  match type of H with event_Handle _ ?ev ?w0 = _ => specialize (He ev w0); rewrite H in He end.
  by etrans.
Qed.

Lemma load_attributes_keeps objs w r w' :
  load_attributes env objs w = Ret (r, w') -> keeps_stored b w w'.
Proof.
  unfold load_attributes. rewrite Hb. intros H. apply M_bind_Ret in H as ([l err] & w1 & El & H).
  step_done H. clear r H. revert w l err El.
  induction objs as [|kv objs IH]; intros w l err H; cbn [LoadDataObjectsFromExternalStorage] in H.
  { step_done H. done. }
  destruct (reference_of (kv_Value kv)) as [[storeId path]|].
  - rewrite store_call_some in H. step H as r Er. apply read_gives in Er as [_ Hk].
    destruct r as [data|e]; [|by step_done H]. step H as res Eres. step_done H.
    destruct res. etrans; [exact Hk | by eapply IH].
  - step H as res Eres. step_done H. destruct res. by eapply IH.
Qed.

(** C4: the inputs of the next states survive the external storage.  A decision
    that the execute activity returns has next states, those of the worker's
    answer; none carries an input above the threshold, and loading an input the
    next activity gets, after anything that keeps the stored objects, gives the
    one the worker sent, unless the read fails.  This covers an input that reuses
    the object its own state was loaded from. *)
Theorem execute_inputs_roundtrip input w resp w' :
  keeps_store -> Enabled (ExternalStorage env) = true ->
  StateApiExecute env input w = Ret (inl resp, w') ->
  exists stateInput dataObjects result w1 d0 resp' d,
    fst (ApiV1WorkflowStateDecidePost env (FixWorkerUrl env (sd_IwfWorkerUrl input))
           (decide_request env input stateInput dataObjects) w1) = result /\
    (ar_resp result ≫= wd_StateDecision) = Some d0 /\ NextStates d0 <> [] /\
    resp = Some resp' /\ wd_StateDecision resp' = Some d /\
    Forall2 (fun s0 s =>
      StateId s = StateId s0 /\
      (forall o data, StateInput s = Some o -> Data o = Some data ->
         (byte_len data <= ThresholdInBytes (ExternalStorage env))%Z) /\
      ((forall o, StateInput s0 = Some o -> inline_value o) ->
       forall w2, keeps_stored b w' w2 ->
         exists r w3, load_request_input env (StateInput s) w2 = Ret (r, w3) /\
           (forall i copy, r = inl (i, copy) -> i = StateInput s0) /\
           (store_succeeds b -> exists p, r = inl p)))
      (NextStates d0) (NextStates d).
Proof.
  intros Hk He H. apply StateApiExecute_inv in H as
    (start & w0 & v & copy & w1 & objs & w2 & result & w3 & r0 & r1 & w4 & u &
     Et & Ei & Ea & Er & E0 & Ec & Ed & _ & Es & Eu).
  rewrite He in Es. apply checked_decision in Ec as (d0 & Ed0 & Hne).
  apply load_request_input_keeps in Ei as [_ Hc]. apply load_attributes_keeps in Ea as Hka.
  apply handle_event_keeps in Eu as Hku; [|done].
  apply store_decision_spec in Es as (d0' & resp' & d & Ed1 & -> & Ed' & _ & Hn).
  2:{ intros ????. destruct Hk as (_ & _ & Hpost).
      match type of Er with ApiV1WorkflowStateDecidePost _ ?u ?r ?w = _ =>
        specialize (Hpost u r w); rewrite Er in Hpost end.
      by apply Hpost, Hka, Hc. }
  rewrite Ed, Ed0 in Ed1. injection Ed1 as <-.
  eexists _, _, result, w2, d0, resp', d. split; [by rewrite Er|]. split; [by rewrite E0|].
  split_and!; try done. eapply Forall2_impl; [exact Hn|].
  intros s0 s (Hid & _ & _ & Hin & Ho). split_and!; [done| |].
  - intros o data Eo Eda. unfold oversized in Ho. rewrite Eo in Ho. cbn in Ho. rewrite Eda in Ho.
    cbn in Ho. destruct (Z.ltb_spec (ThresholdInBytes (ExternalStorage env)) (byte_len data)); [done|lia].
  - intros Hinl w5 Hk5. apply load_input_denoted; [done|].
    eapply input_denotes_mono; [|exact Hin]. by etrans.
Qed.

End inputs.
End activity_facts.

(** ** A worker that answers with another success status *)

(** [err.Error()] is called on the nil error of a response such as 202. *)
Lemma composeHttpError_nil local r ty :
  exists msg, composeHttpError local None (Some r) ty = Panic msg.
Proof. unfold composeHttpError. destruct (hr_Body r); cbn; eauto. Qed.

(** The failure branch of the execute activity crashes when the worker answers
    with a status other than 200 that the HTTP client does not report as an
    error, a 202 for instance. *)
Theorem execute_panics_on_other_success {W} (env : ActivityEnv W) input w status body :
  wd_StateInput (sd_Request input) = None -> wd_DataObjects (sd_Request input) = [] ->
  status <> 200%Z ->
  (forall url request w, exists resp w',
     ApiV1WorkflowStateDecidePost env url request w
     = (mkapi_result resp (Some (mkhttp_response status body)) None, w')) ->
  exists msg, StateApiExecute env input w = Panic msg.
Proof.
  intros Hi Ho Hs Hpost. unfold StateApiExecute. rewrite Hi, Ho.
  unfold mbind at 1, M_bind at 1, outside at 1. destruct (time_Now env w) as [t w1].
  cbn [load_request_input load_attributes]. unfold try_ at 1, mbind at 1, M_bind at 1.
  unfold load_request_input. cbn [mret M_ret]. unfold try_, load_attributes, mbind, M_bind, mret, M_ret.
  cbn [LoadDataObjectsFromExternalStorage mret M_ret]. unfold mret, M_ret, outside.
  match goal with |- context [ApiV1WorkflowStateDecidePost env ?u ?r ?w0] =>
    destruct (Hpost u r w0) as (resp & w2 & ->) end.
  cbn [ar_err ar_http]. unfold checkHttpError, CheckHttpError. cbn [is_set fmap option_fmap option_map hr_StatusCode orb].
  replace (status =? 200)%Z with false by (symmetry; by apply Z.eqb_neq). cbn [negb].
  destruct (composeHttpError_nil (IsLocalActivity (GetActivityInfo env))
    (mkhttp_response status body) STATE_API_FAIL_ERROR_TYPE) as [msg E].
  exists msg. unfold liftM. by rewrite E.
Qed.

(** ** The clean-up ends and never deletes an object older than the cutoff *)

Section cleanup.
Context {W : Type} (env : ActivityEnv W) (st : blobStoreImpl W) `{!LawfulS3 (s3Client st)}.

(** The calls between the deletions leave the buckets alone. *)
Definition keeps_buckets : Prop :=
  (forall w, objects (snd (time_Now env w)) = objects w) /\
  (forall id w, objects (snd (DescribeWorkflowExecution env id w)) = objects w) /\
  (forall w, objects (snd (RecordHeartbeat env w)) = objects w).

(** An object written on the day [ymd], in any bucket. *)
Definition written_on (ymd : string) (bk : string * string) : Prop :=
  exists rest, bk.2 = pathPrefix st +:+ ymd +:+ "$" +:+ rest.

(** The objects of the day [ymd] are the same in both worlds. *)
Definition same_day (ymd : string) (w w' : W) : Prop :=
  forall bk, written_on ymd bk -> objects w' !! bk = objects w !! bk.

Instance same_day_preorder ymd : PreOrder (same_day ymd).
Proof. split; [by intros w ?? | intros w1 w2 w3 H1 H2 bk Hbk; by rewrite H2, H1]. Qed.

Lemma same_objects_same_day ymd w w' : objects w' = objects w -> same_day ymd w w'.
Proof. intros H bk _. by rewrite H. Qed.

(** The date of a path is the text before its [$]. *)
Lemma path_date path ymd :
  ExtractYyyymmdd path = inl ymd ->
  exists wid, path = ymd +:+ "$" +:+ wid /\ "$"%char ∉ chars ymd.
Proof.
  unfold ExtractYyyymmdd, strings_Split. intros H.
  destruct (split_chars "$"%char [] (chars path)) as [|a [|c [|]]] eqn:E; cbn in H; try done.
  assert (String.string_of_list_ascii a = ymd) as <- by congruence.
  apply split_chars_two in E as [E Ha]; [|by apply not_elem_of_nil].
  exists (String.string_of_list_ascii c). unfold chars. rewrite String.list_ascii_of_string_of_list_ascii.
  split; [|done]. apply chars_inj. rewrite !chars_app. cbn in E. rewrite E. unfold chars.
  by rewrite !String.list_ascii_of_string_of_list_ascii.
Qed.

(** Deleting a path touches the objects of its own day only. *)
Lemma delete_same_day fuel storeId path day ymd w err w' :
  DeleteWorkflowObjects (blobStore_of st fuel) storeId path w = Ret (err, w') ->
  ExtractYyyymmdd path = inl day -> day <> ymd -> "$"%char ∉ chars ymd -> same_day ymd w w'.
Proof.
  intros H (wid & -> & Hday)%path_date Hne Hymd bk [rest Hrest].
  eapply delete_frame_under in H; [exact H|].
  intros storeConfig [_ Hp]. apply HasPrefix_spec in Hp as [r E].
  rewrite Hrest in E. apply (f_equal chars) in E. rewrite !chars_app, <- !app_assoc in E.
  apply app_inv_head in E. apply cut_unique in E as [E _]; [|done..].
  by apply Hne, chars_inj.
Qed.
Lemma time_valid_day path t :
  ExtractYyyymmddToUnixSeconds path = Ret (t, true) ->
  exists day, ExtractYyyymmdd path = inl day /\ parse_yyyymmdd day = Some t.
Proof.
  unfold ExtractYyyymmddToUnixSeconds. destruct (ExtractYyyymmdd path) as [day|]; [|done].
  destruct (parse_yyyymmdd day) eqn:E; [|done]. intros [= <-]. by exists day.
Qed.

Lemma cleanup_page_same_day fuel storeId cutoff ymd t paths w r w' :
  keeps_buckets -> "$"%char ∉ chars ymd -> parse_yyyymmdd ymd = Some t -> (t < cutoff)%Z ->
  cleanup_page env (blobStore_of st fuel) storeId cutoff paths w = Ret (r, w') ->
  same_day ymd w w'.
Proof.
  intros (Ht & Hd & Hh) Hymd Hp Hcut. revert w. induction paths as [|path paths IH]; intros w H;
    cbn [cleanup_page] in H; [by step_done H|].
  step H as tv Ev. destruct tv as [t' valid].
  destruct valid; cbn [negb] in H; [|by apply IH].
  destruct (Z.ltb_spec t' cutoff) as [|Hle]; [by step_done H|].
  step H as wid Ew. step H as derr Ed. step H as err Ee.
  specialize (Hd wid w). rewrite Ed in Hd. cbn in Hd.
  assert (same_day ymd w w1) as Hk.
  { destruct (IsNotFoundError env derr); [|step_done Ee; by apply same_objects_same_day].
    etrans; [by apply same_objects_same_day|].
    apply time_valid_day in Ev as (day & Eday & Epd).
    eapply delete_same_day; [exact Ee|exact Eday| |done]. intros ->. rewrite Hp in Epd.
    injection Epd as ->. lia. }
  apply M_bind_Ret in H as (chk & w2 & Ec & H).
  assert (w2 = w1) as -> by (unfold check_err in Ec; by step_done Ec).
  destruct chk as [[]|e]; [|by step_done H].
  step H as u Eu. specialize (Hh w1). rewrite Eu in Hh. cbn in Hh.
  etrans; [exact Hk|]. etrans; [by apply same_objects_same_day|]. by apply IH.
Qed.

Lemma cleanup_pages_same_day fuel1 fuel2 storeId cutoff ymd t token w r w' :
  keeps_buckets -> "$"%char ∉ chars ymd -> parse_yyyymmdd ymd = Some t -> (t < cutoff)%Z ->
  cleanup_pages env fuel2 (blobStore_of st fuel1) storeId cutoff token w = Ret (r, w') ->
  same_day ymd w w'.
Proof.
  intros Hk Hymd Hp Hcut. revert token w. induction fuel2 as [|fuel2 IH]; intros token w H;
    cbn [cleanup_pages] in H; [done|].
  step H as page El. assert (objects w0 = objects w) as Hw.
  { cbn in El. unfold blob_ListWorkflowPaths in El.
    destruct (supportedStore st !! storeId) as [cfg|]; [|by step_done El].
    step El as res Er. apply list_keeps in Er. destruct res; by step_done El. }
  apply same_objects_same_day with (ymd := ymd) in Hw.
  destruct page as [page|e]; [|by step_done H].
  step H as res Ep. assert (same_day ymd w w1) as Hk1.
  { etrans; [exact Hw|]. by eapply cleanup_page_same_day. }
  destruct res as [u|e]; [|by step_done H].
  destruct (ContinuationToken page); [|by step_done H]. etrans; [exact Hk1|]. by eapply IH.
Qed.

(** *** It ends *)

Lemma delete_returns fuel storeId path w :
  size (objects w) < fuel ->
  exists err w', DeleteWorkflowObjects (blobStore_of st fuel) storeId path w = Ret (err, w') /\
    objects w' ⊆ objects w.
Proof.
  intros Hf. cbn. unfold blob_DeleteWorkflowObjects.
  destruct (supportedStore st !! storeId) as [cfg|]; [|by eexists _, w].
  destruct (delete_pages_spec st fuel (S3Bucket cfg) (pathPrefix st +:+ path +:+ "/") None w)
    as (err & w' & E & Hsub & _); [|intros k _ _; apply covers_start | eauto].
  eapply Nat.le_lt_trans; [|exact Hf]. unfold count_under.
  apply map_subseteq_size, map_filter_subseteq.
Qed.

(** The date of a path, if it has one, is a date. *)
Definition dated (path : string) : Prop :=
  forall day, ExtractYyyymmdd path = inl day -> is_Some (parse_yyyymmdd day).

Lemma dated_path path :
  dated path -> exists t valid, ExtractYyyymmddToUnixSeconds path = Ret (t, valid) /\
    (valid = true -> exists wid, MustExtractWorkflowId path = Ret wid).
Proof.
  unfold dated, ExtractYyyymmddToUnixSeconds, MustExtractWorkflowId, ExtractWorkflowId, ExtractYyyymmdd.
  intros Hd. destruct (strings_Split "$"%char path) as [|a [|c [|]]]; try by eexists _, false.
  destruct (Hd a eq_refl) as [t ->]. eexists _, _. eauto.
Qed.

Lemma cleanup_page_returns fuel storeId cutoff paths w :
  keeps_buckets -> Forall dated paths -> size (objects w) < fuel ->
  exists r w', cleanup_page env (blobStore_of st fuel) storeId cutoff paths w = Ret (r, w') /\
    objects w' ⊆ objects w.
Proof.
  intros (_ & Hd & Hh). revert w. induction paths as [|path paths IH]; intros w Hp Hf;
    cbn [cleanup_page]; [by eexists _, w|].
  apply Forall_cons in Hp as [(t & valid & Et & Ew)%dated_path Hp].
  rewrite Et. unfold mbind, M_bind, liftM, outside. cbn beta iota.
  destruct valid; cbn [negb]; [|by apply IH].
  destruct (_ <? _)%Z; [by eexists _, w|]. destruct (Ew eq_refl) as [wid Ewid].
  rewrite Ewid. cbn beta iota. specialize (Hd wid w).
  destruct (DescribeWorkflowExecution env wid w) as [derr w1]. cbn [snd] in Hd.
  assert (exists err w2, (if IsNotFoundError env derr
    then DeleteWorkflowObjects (blobStore_of st fuel) storeId path else mret derr) w1 = Ret (err, w2) /\
    objects w2 ⊆ objects w) as (err & w2 & -> & Hsub).
  { rewrite <- Hd. destruct (IsNotFoundError env derr); [apply delete_returns; by rewrite Hd|].
    by eexists _, w1. }
  unfold try_, check_err, mbind, M_bind, mret, M_ret. destruct err as [e|]; [by eexists _, w2|].
  specialize (Hh w2). destruct (RecordHeartbeat env w2) as [u w3]. cbn [snd] in Hh.
  destruct (IH w3 Hp) as (r & w4 & E & Hsub').
  { rewrite Hh. eapply Nat.le_lt_trans; [by apply map_subseteq_size | done]. }
  exists r, w4. split; [exact E|]. rewrite Hh in Hsub'. by etrans.
Qed.

(** The listing of a store ends after [n] pages, and the paths it gives while
    objects of [w0] are deleted are dated. *)
Fixpoint listing_ends (fuel : nat) (storeId : string) (w0 : W) (n : nat) (token : option string) : Prop :=
  match n with
  | 0 => False
  | S n => forall w out w', objects w ⊆ objects w0 ->
      ListWorkflowPaths (blobStore_of st fuel) storeId token w = Ret (inl out, w') ->
      Forall dated (WorkflowPaths out) /\
      match ContinuationToken out with
      | None => True
      | token => listing_ends fuel storeId w0 n token
      end
  end.

Lemma list_returns fuel storeId token w :
  exists r w', ListWorkflowPaths (blobStore_of st fuel) storeId token w = Ret (r, w') /\
    objects w' = objects w.
Proof.
  cbn. unfold blob_ListWorkflowPaths.
  destruct (supportedStore st !! storeId) as [cfg|]; [|by eexists _, w].
  unfold mbind, M_bind, outside. destruct (ListObjectsV2 _ _ _ _ _ w) as [r w'] eqn:El.
  apply list_keeps in El. destruct r; by eexists _, w'.
Qed.

Lemma cleanup_pages_return fuel1 fuel2 storeId cutoff w0 n token w :
  keeps_buckets -> listing_ends fuel1 storeId w0 n token -> n <= fuel2 ->
  size (objects w0) < fuel1 -> objects w ⊆ objects w0 ->
  exists r w', cleanup_pages env fuel2 (blobStore_of st fuel1) storeId cutoff token w = Ret (r, w').
Proof.
  intros Hk. revert n token w. induction fuel2 as [|fuel2 IH]; intros n token w Hl Hn Hsz Hw.
  { destruct n; [done | lia]. }
  destruct n as [|n]; [done|]. cbn [cleanup_pages]. unfold mbind, M_bind.
  destruct (list_returns fuel1 storeId token w) as (r & w1 & E & Hw1). rewrite E.
  destruct r as [page|e]; [|by eexists _, w1].
  destruct (Hl w page w1 Hw E) as [Hd Hnext].
  destruct (cleanup_page_returns fuel1 storeId cutoff (WorkflowPaths page) w1 Hk Hd) as (r & w2 & E2 & Hsub).
  { rewrite Hw1. eapply Nat.le_lt_trans; [by apply map_subseteq_size | done]. }
  rewrite E2. destruct r as [[]|e]; [|by eexists _, w2].
  destruct (ContinuationToken page) as [tok|]; [|by eexists _, w2].
  apply (IH n); try done; [lia|]. rewrite Hw1 in Hsub. by etrans.
Qed.

(** C38: the clean-up of the external storage ends, and it keeps every object
    written on a day before the cutoff, [now] minus the configured minimum age:
    it only ever deletes younger objects.  That is the opposite of what config.go:46-48
    says of the setting, by which it is at the objects created after the cutoff that
    checking stops; the code stops at those from before it. *)
Theorem cleanup_keeps_old fuel1 fuel2 storeId n w :
  GetBlobStore env = Some (blobStore_of st fuel1) -> keeps_buckets ->
  listing_ends fuel1 storeId w n None -> n <= fuel2 -> size (objects w) < fuel1 ->
  exists r w', CleanupBlobStore env fuel2 storeId w = Ret (r, w') /\
    forall ymd t, "$"%char ∉ chars ymd -> parse_yyyymmdd ymd = Some t ->
      (t < cleanup_cutoff env (fst (time_Now_Unix env w)))%Z -> same_day ymd w w'.
Proof.
  intros Hst Hk Hl Hn Hf. unfold CleanupBlobStore, mbind, M_bind, outside.
  destruct (time_Now_Unix env w) as [now w0] eqn:En. cbn [fst].
  assert (objects w0 = objects w) as Hw0.
  { pose proof (proj1 Hk w) as Ht. unfold time_Now_Unix in En. destruct (time_Now env w).
    by injection En as _ <-. }
  rewrite Hst. change (store_call (Some (blobStore_of st fuel1)) ?f) with (f (blobStore_of st fuel1)).
  cbv beta.
  destruct (cleanup_pages_return fuel1 fuel2 storeId (cleanup_cutoff env now) w n None w0)
    as (r & w' & E); [done..|by rewrite Hw0|].
  exists r, w'. split; [exact E|]. intros ymd t Hymd Hp Hcut.
  etrans; [by apply same_objects_same_day|]. by eapply cleanup_pages_same_day.
Qed.
End cleanup.
