(* ===== verification/StateExecution.v ===== *)
(** * The execution of one state

    service/interpreter/workflowImpl.go: [checkClosingWorkflow],
    [processStateExecution] with its command coroutines, [invokeStateExecute] and
    their helpers, over a shared state that holds every component. *)

From S2P Require Export Locking Decider.

(** ** Helpers *)

Definition shouldProceedOnStartApiError (state : StateMovement) : gores bool :=
  match StateOptions state with
  | None => Ret false
  | Some _ =>
      policy ← GetStartApiFailurePolicy (StateOptions state);
      Ret (match policy with
           | None => false
           | Some p => bool_decide (p = PROCEED_TO_DECIDE_ON_START_API_FAILURE)
           end)
  end.

Definition shouldProceedOnExecuteApiError (state : StateMovement) : bool :=
  match StateOptions state with
  | None => false
  | Some options =>
      bool_decide (default EmptyString (ExecuteApiFailureProceedStateId options) <> EmptyString) &&
      bool_decide (so_ExecuteApiFailurePolicy options = Some PROCEED_TO_CONFIGURED_STATE)
  end.

(** [err.Error()]; its text is not used by the code. *)
Definition error_text (err : error) : string :=
  match err with
  | ApplicationError _ (DetailsString msg) => msg
  | ApplicationError _ (DetailsOutputs _) => "application error"
  | OtherError msg => msg
  end.

Definition convertStateApiActivityError (err : error) : error :=
  if IsApplicationError err then err
  else NewApplicationError STATE_API_FAIL_ERROR_TYPE (error_text err).

Definition getCommandThreadName (prefix stateExecId cmdId : string) (idx : nat) : string :=
  prefix +:+ "-" +:+ stateExecId +:+ "-" +:+ cmdId +:+ "-" +:+ pretty idx.

Definition createUserWorkflowError (message : string) : error :=
  NewApplicationError INVALID_USER_WORKFLOW_CODE_ERROR_TYPE message.

(** ** checkClosingWorkflow *)

Record ClosingCheck : Type := mkClosingCheck {
  canGoNext : bool;
  gracefulComplete : bool;
  forceComplete : bool;
  forceFail : bool;
  completeOutput : option StateCompletionOutput;
  closing_err : option error
}.

Definition closing_error (err : error) : ClosingCheck :=
  mkClosingCheck false false false false None (Some err).

(** One iteration of the loop over the next states: the result so far and
    [systemStateId]. *)
Definition check_movement (currentStateId currentStateExeId : string)
  (acc : ClosingCheck * bool) (movement : StateMovement) : ClosingCheck * bool :=
  let '(r, systemStateId) := acc in
  let stateId := StateId movement in
  let output := Some (mkStateCompletionOutput currentStateId currentStateExeId (StateInput movement)) in
  let '(r, systemStateId) :=
    if bool_decide (stateId = GracefulCompletingWorkflowStateId)
    then (mkClosingCheck false true (forceComplete r) (forceFail r) output (closing_err r), true)
    else (r, systemStateId) in
  let '(r, systemStateId) :=
    if bool_decide (stateId = ForceCompletingWorkflowStateId)
    then (mkClosingCheck false (gracefulComplete r) true (forceFail r) output (closing_err r), true)
    else (r, systemStateId) in
  let '(r, systemStateId) :=
    if bool_decide (stateId = ForceFailingWorkflowStateId)
    then (mkClosingCheck false (gracefulComplete r) (forceComplete r) true output (closing_err r), true)
    else (r, systemStateId) in
  if bool_decide (stateId = DeadEndWorkflowStateId)
  then (mkClosingCheck false (gracefulComplete r) (forceComplete r) (forceFail r)
          (completeOutput r) (closing_err r), true)
  else (r, systemStateId).

(** The part of [checkClosingWorkflow] without a conditional close. *)
Definition check_next_states (currentStateId currentStateExeId : string)
  (nextStates : list StateMovement) : ClosingCheck :=
  let '(r, systemStateId) :=
    foldl (check_movement currentStateId currentStateExeId)
      (mkClosingCheck true false false false None None, false) nextStates in
  let r :=
    if (len nextStates =? 0)%Z
    then mkClosingCheck false true (forceComplete r) (forceFail r) (completeOutput r) (closing_err r)
    else r in
  if systemStateId && (1 <? len nextStates)%Z then
    mkClosingCheck (canGoNext r) (gracefulComplete r) (forceComplete r) (forceFail r)
      (completeOutput r)
      (Some (createUserWorkflowError
        "invalid state decisions. Closing workflow decision cannot be combined with other state decisions"))
  else r.

(** The check of the condition, after the draining. *)
Definition check_condition (conditionClose : WorkflowConditionalClose) (nextStates : list StateMovement)
  (currentStateId currentStateExeId : string) (internalHasData signalHasData : bool) : ClosingCheck :=
  let closeType := ConditionalCloseType conditionClose in
  let conditionMet :=
    (bool_decide (closeType = Some FORCE_COMPLETE_ON_INTERNAL_CHANNEL_EMPTY) && negb internalHasData) ||
    (bool_decide (closeType = Some FORCE_COMPLETE_ON_SIGNAL_CHANNEL_EMPTY) && negb signalHasData) in
  if conditionMet then
    mkClosingCheck false false true false
      (Some (mkStateCompletionOutput currentStateId currentStateExeId (CloseInput conditionClose))) None
  else
    match List.find (fun st => is_closing_state (StateId st)) nextStates with
    | Some st =>
        closing_error (createUserWorkflowError
          ("invalid ConditionUnmetDecision with stateId: " +:+ StateId st))
    | None => mkClosingCheck true false false false None None
    end.

Section operations.
Context {St : Type}
  `{!Has St SignalReceiver, !Has St TimerProcessor, !Has St WorkflowConfiger,
    !Has St InternalChannel, !Has St StateRequestQueue, !Has St PersistenceManager,
    !Has St ContinueAsNewCounter, !Has St ContinueAsNewer, !Has St CommandsHeap,
    !Has St GlobalVersioner}.

Definition DrainReceivedButUnprocessedInternalChannelsFromStateApis : prog St (option error) :=
  gv ← get_part (P := GlobalVersioner);
  if IsAfterVersionOfYieldOnConditionalComplete gv then wait (fun _ => true) else mret None.

Definition checkClosingWorkflow (fuel : nat) (decision : StateDecision)
  (currentStateId currentStateExeId : string) : prog St ClosingCheck :=
  match ConditionalClose decision with
  | Some conditionClose =>
      let closeType := ConditionalCloseType conditionClose in
      if bool_decide (closeType = Some FORCE_COMPLETE_ON_INTERNAL_CHANNEL_EMPTY)
         || bool_decide (closeType = Some FORCE_COMPLETE_ON_SIGNAL_CHANNEL_EMPTY) then
        _ ← DrainAllReceivedButUnprocessedSignals fuel;
        err ← DrainReceivedButUnprocessedInternalChannelsFromStateApis;
        match err with
        | Some e => mret (closing_error e)
        | None =>
            ic ← get_part (P := InternalChannel);
            sr ← get_part (P := SignalReceiver);
            let channelName := default EmptyString (cc_ChannelName conditionClose) in
            mret (check_condition conditionClose (NextStates decision) currentStateId
                    currentStateExeId (HasData ic channelName) (HasSignal channelName sr))
        end
      else
        mret (closing_error (createUserWorkflowError
          "invalid state decisions. Unsupported ConditionalCloseType"))
  | None => mret (check_next_states currentStateId currentStateExeId (NextStates decision))
  end.

(** [if !provider.IsReplaying(ctx) { event.Handle(...) }] *)
Definition emit_event (eventType : EventType) (basicInfo : BasicInfo) (stateId stateExeId : option string)
  (start : option Z) (with_end : bool) (err : option error) : prog St unit :=
  replaying ← call IsReplaying;
  if (replaying : bool) then mret tt
  else
    info ← call GetWorkflowInfo;
    end_ ← (if with_end then now ← call Now; mret (Some (UnixMilli now)) else mret None);
    am ← get_part (P := PersistenceManager);
    call (HandleEvent (mkIwfEvent eventType None (bi_IwfWorkflowType basicInfo)
      (ID (wi_WorkflowExecution info)) (RunID (wi_WorkflowExecution info)) stateId stateExeId
      start end_ (GetAllSearchAttributes am) err)).

Definition signalWithStart (workflowId : string) : prog St unit :=
  err ← call (SignalWithStartWaitForStateCompletionWorkflow workflowId);
  match err with
  | Some e =>
      alreadyStarted ← call (IsWorkflowAlreadyStartedError e);
      if (alreadyStarted : bool) then mret tt else Crash "failed to signal on completion"
  | None => mret tt
  end.

(** The part of [invokeStateExecute] that signals the completion. *)
Definition signal_completion (state : StateMovement) (executionContext : Context_) : prog St unit :=
  signalWithStartOn ← call SignalWithStartOn;
  backend ← call GetBackendType;
  let parentIds (parentId : string) : gores string :=
    GetWorkflowIdForWaitForStateExecution parentId (ctx_StateExecutionId executionContext)
      (WaitForKey state) (Some (StateId state)) in
  _ ← (if bool_decide (backend = BackendTypeCadence)
          || (bool_decide (backend = BackendTypeTemporal)
              && (bool_decide (signalWithStartOn = "old") || bool_decide (signalWithStartOn = "both")))
       then
         workflowId ← lift_gores (parentIds (ctx_WorkflowId executionContext));
         signalWithStart workflowId
       else mret tt);
  if bool_decide (backend = BackendTypeTemporal)
     && (bool_decide (signalWithStartOn = "both") || bool_decide (signalWithStartOn = "new"))
  then
    info ← call GetWorkflowInfo;
    workflowId ← lift_gores (parentIds (FirstRunID info));
    signalWithStart workflowId
  else mret tt.

Definition execute_options (state : StateMovement) : ActivityOptions :=
  match StateOptions state with
  | Some _ =>
      let decideApiTimeout := GetDecideApiTimeoutSeconds (StateOptions state) in
      mkActivityOptions
        (if (0 <? decideApiTimeout)%Z then wrap64 (decideApiTimeout * SecondNs) else 30 * SecondNs) 0
        (GetDecideApiRetryPolicy (StateOptions state))
  | None => mkActivityOptions (30 * SecondNs) 0 None
  end.

(** The three results of [processStateExecution] and [invokeStateExecute]. *)
Notation exec_result := (option StateDecision * StateExecutionStatus * option error)%type.

Definition empty_decision : StateDecision := mkStateDecision [] None.

(** What [invokeStateExecute] does with a successful response. *)
Definition apply_decide_response (stateExeId : string) (decideResponse : WorkflowStateDecideResponse) :
  prog St exec_result :=
  err ← ProcessUpsertSearchAttribute (wd_UpsertSearchAttributes decideResponse);
  match err with
  | Some e => mret (None, FailureStateExecutionStatus, Some e)
  | None =>
      err ← ProcessUpsertDataAttribute (wd_UpsertDataObjects decideResponse);
      match err with
      | Some e => mret (None, FailureStateExecutionStatus, Some e)
      | None =>
          _ ← mod_part (ProcessPublishing (wd_PublishToInterStateChannel decideResponse));
          _ ← mod_part (RemoveStateExecutionToResume stateExeId);
          mret (Some (default empty_decision (wd_StateDecision decideResponse)),
                CompletedStateExecutionStatus, None)
      end
  end.

Definition invokeStateExecute (basicInfo : BasicInfo) (state : StateMovement) (stateExeId : string)
  (executionContext : Context_) (commandRes : option CommandResults) (renamedApi : bool)
  (stateExecutionLocal : list KeyValue) (shouldSendSignalOnCompletion : bool) :
  prog St exec_result :=
  let saLoadingPolicy := GetExecuteApiSearchAttributesLoadingPolicy (StateOptions state) in
  let doLoadingPolicy := GetExecuteApiDataAttributesLoadingPolicy (StateOptions state) in
  start ← call Now;
  let started := Some (UnixMilli start) in
  _ ← emit_event STATE_EXECUTE_EE_START_EVENT basicInfo (Some (StateId state)) (Some stateExeId)
        started false None;
  wc ← get_part (P := WorkflowConfiger);
  sas ← LoadSearchAttributes saLoadingPolicy;
  das ← LoadDataAttributes doLoadingPolicy;
  r ← call (ExecuteStateDecide (ShouldOptimizeActivity wc) (execute_options state) renamedApi
        (mkStateDecideActivityInput (bi_IwfWorkerUrl basicInfo)
          (mkWorkflowStateDecideRequest executionContext (bi_IwfWorkflowType basicInfo)
            (StateId state) (StateInput state) sas das stateExecutionLocal commandRes)));
  _ ← match r with
      | inl _ => emit_event STATE_EXECUTE_EE_COMPLETE_EVENT basicInfo (Some (StateId state))
                   (Some stateExeId) started true None
      | inr err => emit_event STATE_EXECUTE_EE_FAIL_EVENT basicInfo (Some (StateId state))
                     (Some stateExeId) started true (Some err)
      end;
  _ ← mod_part (UnlockPersistence saLoadingPolicy doLoadingPolicy);
  match r with
  | inl decideResponse =>
      _ ← (if shouldSendSignalOnCompletion then
             replaying ← call IsReplaying;
             if (replaying : bool) then mret tt else signal_completion state executionContext
           else mret tt);
      apply_decide_response stateExeId decideResponse
  | inr err =>
      if shouldProceedOnExecuteApiError state
      then mret (None, ExecuteApiFailedAndProceed, None)
      else mret (None, FailureStateExecutionStatus, Some (convertStateApiActivityError err))
  end.

(** ** The command coroutines *)

Definition canceled (cell : loc) (s : St) : bool :=
  commandReqDoneOrCanceled (exec_commands (part s) cell).

Definition on_completed (f : StateExecutionCompletedCommands -> StateExecutionCompletedCommands)
  (c : ExecCommands) : ExecCommands :=
  mkExecCommands (f (completed c)) (commandReqDoneOrCanceled c) (waitForThreads c).
Definition set_thread (name : string) (done_ : bool) (c : ExecCommands) : ExecCommands :=
  mkExecCommands (completed c) (commandReqDoneOrCanceled c) (<[name := done_]> (waitForThreads c)).
Definition set_canceled (c : ExecCommands) : ExecCommands :=
  mkExecCommands (completed c) true (waitForThreads c).

Definition add_timer_result (idx : nat) (status : InternalTimerStatus)
  (c : StateExecutionCompletedCommands) : StateExecutionCompletedCommands :=
  mkStateExecutionCompletedCommands (<[idx := status]> (CompletedTimerCommands c))
    (CompletedSignalCommands c) (CompletedInterStateChannelCommands c).
Definition add_signal_result (idx : nat) (v : message) (c : StateExecutionCompletedCommands) :
  StateExecutionCompletedCommands :=
  mkStateExecutionCompletedCommands (CompletedTimerCommands c)
    (<[idx := v]> (CompletedSignalCommands c)) (CompletedInterStateChannelCommands c).
Definition add_channel_result (idx : nat) (v : message) (c : StateExecutionCompletedCommands) :
  StateExecutionCompletedCommands :=
  mkStateExecutionCompletedCommands (CompletedTimerCommands c) (CompletedSignalCommands c)
    (<[idx := v]> (CompletedInterStateChannelCommands c)).

Definition timer_thread (stateExeId : string) (cell : loc) (idx : nat) (threadName : string) :
  prog St unit :=
  status ← WaitForTimerFiredOrSkipped stateExeId idx (canceled cell);
  _ ← (if is_done status
       then mod_part (upd_commands cell (on_completed (add_timer_result idx status)))
       else mret tt);
  mod_part (upd_commands cell (set_thread threadName true)).

(** [received] is the value of the last evaluation of the wait's condition: the
    state has not changed since when the wait returns without error, and it was
    false if the wait was cancelled. *)
Definition signal_thread (cell : loc) (idx : nat) (cmd : SignalCommand) (threadName : string) :
  prog St unit :=
  err ← wait (fun s => HasSignal (SignalChannelName cmd) (part s) || canceled cell s);
  s ← Get Done;
  let received := negb (is_set err) && HasSignal (SignalChannelName cmd) (part s) in
  _ ← (if received then
         v ← run_part (sr_Retrieve (SignalChannelName cmd));
         mod_part (upd_commands cell (on_completed (add_signal_result idx v)))
       else mret tt);
  mod_part (upd_commands cell (set_thread threadName true)).

Definition interstate_thread (cell : loc) (idx : nat) (cmd : InterStateChannelCommand)
  (threadName : string) : prog St unit :=
  err ← wait (fun s => HasData (part s) (ic_ChannelName cmd) || canceled cell s);
  s ← Get Done;
  let received := negb (is_set err) && HasData (part s) (ic_ChannelName cmd) in
  _ ← (if received then
         v ← run_part (ic_Retrieve (ic_ChannelName cmd));
         mod_part (upd_commands cell (on_completed (add_channel_result idx v)))
       else mret tt);
  mod_part (upd_commands cell (set_thread threadName true)).

Definition get_completed (cell : loc) : prog St StateExecutionCompletedCommands :=
  h ← get_part (P := CommandsHeap);
  mret (completed (exec_commands h cell)).

(** Start one coroutine per command that is not completed yet. *)
Definition start_command_threads {C V} (cell : loc) (prefix stateExeId : string)
  (commandId : C -> option string) (completed_of : StateExecutionCompletedCommands -> gmap nat V)
  (body : nat -> C -> string -> prog St unit) (cmds : list C) : prog St unit :=
  for_each (imap pair cmds) (fun '(idx, cmd) =>
    c ← get_completed cell;
    match completed_of c !! idx with
    | Some _ => mret tt
    | None =>
        let threadName :=
          getCommandThreadName prefix stateExeId (default EmptyString (commandId cmd)) idx in
        _ ← mod_part (upd_commands cell (set_thread threadName false));
        GoNamed (body idx cmd threadName) (Done tt)
    end).

(** ** The results sent to the execute API *)

Definition timer_results (commandReq : CommandRequest) (m : gmap nat InternalTimerStatus) :
  list TimerResult :=
  imap (fun idx cmd =>
    mkTimerResult (default EmptyString (tc_CommandId cmd))
      (match m !! idx with Some _ => FIRED | None => SCHEDULED end)) (TimerCommands commandReq).

Definition signal_results (commandReq : CommandRequest) (m : gmap nat message) : list SignalResult :=
  imap (fun idx cmd =>
    mkSignalResult (default EmptyString (sc_CommandId cmd))
      (match m !! idx with Some _ => RECEIVED | None => WAITING end)
      (SignalChannelName cmd) (default None (m !! idx))) (SignalCommands commandReq).

Definition channel_results (commandReq : CommandRequest) (m : gmap nat message) :
  list InterStateChannelResult :=
  imap (fun idx cmd =>
    mkInterStateChannelResult (default EmptyString (ic_CommandId cmd))
      (match m !! idx with Some _ => RECEIVED | None => WAITING end)
      (ic_ChannelName cmd) (default None (m !! idx))) (InterStateChannelCommands commandReq).

Definition command_results (commandReq : CommandRequest) (c : StateExecutionCompletedCommands)
  (waitUntilFailed : bool) : CommandResults :=
  mkCommandResults (signal_results commandReq (CompletedSignalCommands c))
    (channel_results commandReq (CompletedInterStateChannelCommands c))
    (timer_results commandReq (CompletedTimerCommands c)) None
    (if waitUntilFailed then Some true else None).

(** ** processStateExecution *)

Definition wait_until_options (state : StateMovement) : ActivityOptions :=
  match StateOptions state with
  | Some _ =>
      let startApiTimeout := GetStartApiTimeoutSeconds (StateOptions state) in
      mkActivityOptions
        (if (0 <? startApiTimeout)%Z then wrap64 (startApiTimeout * SecondNs) else 30 * SecondNs) 0
        (GetStartApiRetryPolicy (StateOptions state))
  | None => mkActivityOptions (30 * SecondNs) 0 None
  end.

(** The getters of a nil response return zero values. *)
Definition empty_start_response : WorkflowStateStartResponse :=
  mkWorkflowStateStartResponse None [] [] None [] [] [].

(** The waitUntil part for a state that starts from its beginning: the failure to
    return, or the commands, the locals and [errWaitUntilApi]. *)
Definition invoke_wait_until (basicInfo : BasicInfo) (state : StateMovement) (stateExeId : string)
  (executionContext : Context_) (renamedApi : bool) :
  prog St (error + CommandRequest * list KeyValue * option error) :=
  let saLoadingPolicy := GetWaitUntilApiSearchAttributesLoadingPolicy (StateOptions state) in
  let doLoadingPolicy := GetWaitUntilApiDataAttributesLoadingPolicy (StateOptions state) in
  start ← call Now;
  let started := Some (UnixMilli start) in
  _ ← emit_event STATE_WAIT_UNTIL_EE_START_EVENT basicInfo (Some (StateId state)) (Some stateExeId)
        started false None;
  wc ← get_part (P := WorkflowConfiger);
  sas ← LoadSearchAttributes saLoadingPolicy;
  das ← LoadDataAttributes doLoadingPolicy;
  am ← get_part (P := PersistenceManager);
  r ← call (ExecuteStateStart (ShouldOptimizeActivity wc) (wait_until_options state) renamedApi
        (mkStateStartActivityInput (bi_IwfWorkerUrl basicInfo)
          (mkWorkflowStateStartRequest executionContext (bi_IwfWorkflowType basicInfo)
            (StateId state) (StateInput state) sas das))
        (GetAllSearchAttributes am));
  _ ← match r with
      | inl _ => emit_event STATE_WAIT_UNTIL_EE_COMPLETE_EVENT basicInfo (Some (StateId state))
                   (Some stateExeId) started true None
      | inr err => emit_event STATE_WAIT_UNTIL_EE_FAIL_EVENT basicInfo (Some (StateId state))
                     (Some stateExeId) started true (Some err)
      end;
  _ ← mod_part (UnlockPersistence saLoadingPolicy doLoadingPolicy);
  proceed ← (match r with
             | inr _ => lift_gores (shouldProceedOnStartApiError state)
             | inl _ => mret true
             end);
  match r, proceed with
  | inr err, false => mret (inl (convertStateApiActivityError err))
  | _, _ =>
      let startResponse := match r with inl resp => resp | inr _ => empty_start_response end in
      err ← ProcessUpsertSearchAttribute (ws_UpsertSearchAttributes startResponse);
      match err with
      | Some e => mret (inl e)
      | None =>
          err ← ProcessUpsertDataAttribute (ws_UpsertDataObjects startResponse);
          match err with
          | Some e => mret (inl e)
          | None =>
              _ ← mod_part (ProcessPublishing (ws_PublishToInterStateChannel startResponse));
              now ← call Now;
              let commandReq := FixTimerCommandFromActivityOutput now
                (default empty_CommandRequest (ws_CommandRequest startResponse)) in
              mret (inr (commandReq, ws_UpsertStateLocals startResponse,
                         match r with inr e => Some e | inl _ => None end))
          end
      end
  end.

(** Start the coroutines of the three kinds of commands. *)
Definition start_commands (stateExeId : string) (commandReq : CommandRequest) (cell : loc) :
  prog St unit :=
  _ ← (if (0 <? len (TimerCommands commandReq))%Z then
         c ← get_completed cell;
         _ ← run_part (AddTimers stateExeId (TimerCommands commandReq) (CompletedTimerCommands c));
         start_command_threads cell "timer" stateExeId tc_CommandId CompletedTimerCommands
           (fun idx _ name => timer_thread stateExeId cell idx name) (TimerCommands commandReq)
       else mret tt);
  _ ← start_command_threads cell "signal" stateExeId sc_CommandId CompletedSignalCommands
        (fun idx cmd name => signal_thread cell idx cmd name) (SignalCommands commandReq);
  start_command_threads cell "interstate" stateExeId ic_CommandId
    CompletedInterStateChannelCommands
    (fun idx cmd name => interstate_thread cell idx cmd name) (InterStateChannelCommands commandReq).

Definition decider_met (commandReq : CommandRequest) (cell : loc) (s : St) : gores bool :=
  let c := completed (exec_commands (part s) cell) in
  IsDeciderTriggerConditionMet commandReq (CompletedTimerCommands c) (CompletedSignalCommands c)
    (CompletedInterStateChannelCommands c).

Definition threads_done (cell : loc) (s : St) : bool :=
  forallb (fun kv => kv.2) (map_to_list (waitForThreads (exec_commands (part s) cell))).

(** Waiting for the commands; a panic of the condition is a panic of the
    workflow. *)
Definition await_commands (commandReq : CommandRequest) (cell : loc) : prog St unit :=
  err ← wait (fun s =>
    match decider_met commandReq cell s with
    | Ret met => met || threshold_met s
    | Panic _ => true
    end);
  match err with
  | Some _ => mret tt
  | None => s ← Get Done; _ ← lift_gores (decider_met commandReq cell s); mret tt
  end.

Definition process_commands (basicInfo : BasicInfo) (state : StateMovement) (stateExeId : string)
  (executionContext : Context_) (renamedApi : bool) (commandReq : CommandRequest)
  (stateExecutionLocal : list KeyValue) (errWaitUntilApi : option error) (cell : loc)
  (shouldSendSignalOnCompletion : bool) : prog St exec_result :=
  _ ← start_commands stateExeId commandReq cell;
  _ ← mod_part (AddPotentialStateExecutionToResume stateExeId state stateExecutionLocal commandReq cell);
  _ ← await_commands commandReq cell;
  _ ← mod_part (upd_commands cell set_canceled);
  gv ← get_part (P := GlobalVersioner);
  err ← (if IsAfterVersionOfWaitingCommandThreads gv then wait (threads_done cell) else mret None);
  match err with
  | Some e => mret (None, WaitingCommandsStateExecutionStatus, Some e)
  | None =>
      s ← Get Done;
      met ← lift_gores (decider_met commandReq cell s);
      if (met : bool) then
        c ← get_completed cell;
        _ ← (if (0 <? len (TimerCommands commandReq))%Z
             then mod_part (RemovePendingTimersOfState stateExeId) else mret tt);
        invokeStateExecute basicInfo state stateExeId executionContext
          (Some (command_results commandReq c (is_set errWaitUntilApi))) renamedApi
          stateExecutionLocal shouldSendSignalOnCompletion
      else mret (None, WaitingCommandsStateExecutionStatus, None)
  end.

Definition processStateExecution (basicInfo : BasicInfo) (stateReq : StateRequest)
  (stateExeId : string) (shouldSendSignalOnCompletion : bool) : prog St exec_result :=
  gv ← get_part (P := GlobalVersioner);
  let renamedApi := IsAfterVersionOfRenamedStateApi gv in
  info ← call GetWorkflowInfo;
  let executionContext :=
    mkContext (ID (wi_WorkflowExecution info)) (FirstRunID info) (Unix (WorkflowStartTime info))
      (Some stateExeId) None None in
  let state := GetStateMovement stateReq in
  if skip_wait_until state then
    invokeStateExecute basicInfo state stateExeId executionContext None renamedApi []
      shouldSendSignalOnCompletion
  else if IsResumeRequest stateReq then
    let resume := GetStateResumeRequest stateReq in
    h ← get_part (P := CommandsHeap);
    let '(cell, h') := alloc_commands (ri_StateExecutionCompletedCommands resume) h in
    _ ← put_part h';
    process_commands basicInfo state stateExeId executionContext renamedApi
      (ri_CommandRequest resume) (ri_StateExecutionLocals resume) None cell
      shouldSendSignalOnCompletion
  else
    r ← invoke_wait_until basicInfo state stateExeId executionContext renamedApi;
    match r with
    | inl err => mret (None, FailureStateExecutionStatus, Some err)
    | inr (commandReq, locals, errWaitUntilApi) =>
        h ← get_part (P := CommandsHeap);
        let '(cell, h') := alloc_commands empty_completed h in
        _ ← put_part h';
        process_commands basicInfo state stateExeId executionContext renamedApi commandReq locals
          errWaitUntilApi cell shouldSendSignalOnCompletion
    end.

End operations.
Notation exec_result := (option StateDecision * StateExecutionStatus * option error)%type.

(** ** Closing decisions *)

Definition closing_ids : list string :=
  [GracefulCompletingWorkflowStateId; ForceCompletingWorkflowStateId;
   ForceFailingWorkflowStateId; DeadEndWorkflowStateId].

Definition has_next (id : string) (l : list StateMovement) : bool :=
  existsb (fun m => bool_decide (StateId m = id)) l.
Definition has_closing (l : list StateMovement) : bool :=
  existsb (fun m => bool_decide (StateId m ∈ closing_ids)) l.

Lemma closing_ids_distinct :
  GracefulCompletingWorkflowStateId <> ForceCompletingWorkflowStateId /\
  GracefulCompletingWorkflowStateId <> ForceFailingWorkflowStateId /\
  GracefulCompletingWorkflowStateId <> DeadEndWorkflowStateId /\
  ForceCompletingWorkflowStateId <> ForceFailingWorkflowStateId /\
  ForceCompletingWorkflowStateId <> DeadEndWorkflowStateId /\
  ForceFailingWorkflowStateId <> DeadEndWorkflowStateId.
Proof. done. Qed.

Lemma check_movement_effect cid ceid r sys m :
  let '(r', sys') := check_movement cid ceid (r, sys) m in
  canGoNext r' = canGoNext r && negb (bool_decide (StateId m ∈ closing_ids)) /\
  gracefulComplete r' = gracefulComplete r || bool_decide (StateId m = GracefulCompletingWorkflowStateId) /\
  forceComplete r' = forceComplete r || bool_decide (StateId m = ForceCompletingWorkflowStateId) /\
  forceFail r' = forceFail r || bool_decide (StateId m = ForceFailingWorkflowStateId) /\
  closing_err r' = closing_err r /\
  sys' = sys || bool_decide (StateId m ∈ closing_ids) /\
  completeOutput r' =
    (if bool_decide (StateId m ∈ closing_ids) && negb (bool_decide (StateId m = DeadEndWorkflowStateId))
     then Some (mkStateCompletionOutput cid ceid (StateInput m)) else completeOutput r).
Proof.
  pose proof closing_ids_distinct as Hd.
  assert (bool_decide (StateId m ∈ closing_ids) =
    bool_decide (StateId m = GracefulCompletingWorkflowStateId) ||
    bool_decide (StateId m = ForceCompletingWorkflowStateId) ||
    bool_decide (StateId m = ForceFailingWorkflowStateId) ||
    bool_decide (StateId m = DeadEndWorkflowStateId)) as Hc.
  { rewrite <- !bool_decide_or. apply bool_decide_ext. unfold closing_ids.
    rewrite !elem_of_cons, elem_of_nil. tauto. }
  rewrite Hc. unfold check_movement. generalize dependent (StateId m). intros id _.
  destruct Hd as (H1 & H2 & H3 & H4 & H5 & H6).
  repeat case_bool_decide; subst; try congruence; cbn;
    by rewrite ?andb_false_r, ?andb_true_r, ?orb_true_r, ?orb_false_r.
Qed.

Lemma check_fold_effect cid ceid l r sys :
  let '(r', sys') := foldl (check_movement cid ceid) (r, sys) l in
  canGoNext r' = canGoNext r && negb (has_closing l) /\
  gracefulComplete r' = gracefulComplete r || has_next GracefulCompletingWorkflowStateId l /\
  forceComplete r' = forceComplete r || has_next ForceCompletingWorkflowStateId l /\
  forceFail r' = forceFail r || has_next ForceFailingWorkflowStateId l /\
  closing_err r' = closing_err r /\ sys' = sys || has_closing l.
Proof.
  revert r sys. induction l as [|m l IH]; intros r sys; cbn [foldl].
  - cbn. by rewrite andb_true_r, !orb_false_r.
  - pose proof (check_movement_effect cid ceid r sys m) as Hm.
    destruct (check_movement cid ceid (r, sys) m) as [r1 sys1].
    destruct Hm as (H1 & H2 & H3 & H4 & H5 & H6 & _). specialize (IH r1 sys1).
    destruct (foldl _ _ _) as [r2 sys2]. destruct IH as (I1 & I2 & I3 & I4 & I5 & I6).
    unfold has_closing, has_next in *. cbn [existsb].
    rewrite I1, I2, I3, I4, I5, I6, H1, H2, H3, H4, H5, H6, negb_orb, !andb_assoc, !orb_assoc.
    done.
Qed.

(** How a decision without conditional close ends a state: the workflow goes on
    exactly when there are next states and none is a closing state; it completes
    gracefully when there are none or one is the graceful-complete state, and is
    forced to complete or to fail exactly by those states; an error is reported
    exactly when a closing state comes with other movements; and a single closing
    movement other than a dead end delivers its input as the output of the state. *)
Theorem check_next_states_spec cid ceid l :
  let r := check_next_states cid ceid l in
  (canGoNext r = true <-> l <> [] /\ has_closing l = false) /\
  (gracefulComplete r = true <-> l = [] \/ has_next GracefulCompletingWorkflowStateId l = true) /\
  forceComplete r = has_next ForceCompletingWorkflowStateId l /\
  forceFail r = has_next ForceFailingWorkflowStateId l /\
  (closing_err r <> None <-> has_closing l = true /\ (1 < length l)%nat) /\
  (forall m, l = [m] -> StateId m ∈ closing_ids -> StateId m <> DeadEndWorkflowStateId ->
     completeOutput r = Some (mkStateCompletionOutput cid ceid (StateInput m))).
Proof.
  cbn zeta. unfold check_next_states.
  pose proof (check_fold_effect cid ceid l (mkClosingCheck true false false false None None) false) as H.
  assert (forall m, l = [m] -> StateId m ∈ closing_ids -> StateId m <> DeadEndWorkflowStateId ->
    completeOutput (fst (foldl (check_movement cid ceid)
      (mkClosingCheck true false false false None None, false) l)) =
    Some (mkStateCompletionOutput cid ceid (StateInput m))) as Hout.
  { intros m -> Hin Hne. cbn [foldl].
    pose proof (check_movement_effect cid ceid (mkClosingCheck true false false false None None) false m)
      as Hm. destruct (check_movement _ _ _ m) as [r1 sys1]. destruct Hm as (_ & _ & _ & _ & _ & _ & Ho).
    cbn [fst]. by rewrite Ho, bool_decide_true, bool_decide_false. }
  destruct (foldl _ _ l) as [r sys]. cbn [fst canGoNext gracefulComplete forceComplete forceFail
    closing_err andb orb] in *.
  destruct H as (H1 & H2 & H3 & H4 & H5 & H6). subst sys.
  destruct (Z.eqb_spec (len l) 0) as [->%len_nil_iff|Hne].
  - cbn in *. rewrite H3, H4, H5. cbn. clear. naive_solver.
  - assert (l <> []) as Hl by (intros ->; done).
    assert ((1 <? len l)%Z = true <-> (1 < length l)%nat) as Hlen
      by (rewrite Z.ltb_lt; unfold len; lia).
    destruct (has_closing l && (1 <? len l)%Z) eqn:Eb;
      cbn [canGoNext gracefulComplete forceComplete forceFail closing_err completeOutput];
      rewrite ?H1, ?H2, ?H5; cbn [andb orb] in *; rewrite ?negb_true_iff;
      (split_and!; [tauto | tauto | done | done | | exact Hout]).
    + apply andb_true_iff in Eb as [Hc Hgt]. rewrite Hc.
      split; [intros _; split; [done | by apply Hlen] | done].
    + split; [done|]. intros [Hc Hgt]. rewrite Hc in Eb. cbn in Eb. apply Hlen in Hgt. congruence.
Qed.

(** ** What an execute call leaves behind *)

Section execute.
Context {St : Type}
  `{!Has St SignalReceiver, !Has St TimerProcessor, !Has St WorkflowConfiger,
    !Has St InternalChannel, !Has St StateRequestQueue, !Has St PersistenceManager,
    !Has St ContinueAsNewCounter, !Has St ContinueAsNewer, !Has St CommandsHeap,
    !Has St GlobalVersioner}.
Context `{!Indep St PersistenceManager InternalChannel, !Indep St PersistenceManager ContinueAsNewer,
  !Indep St ContinueAsNewer PersistenceManager, !Indep St ContinueAsNewer InternalChannel}.
Context {W : Type} (h : forall X, providerE X -> W -> X * W).

Lemma emit_event_keeps {B} (f : St -> B) ty bi sid exe st b e : keeps h f (emit_event ty bi sid exe st b e).
Proof. unfold emit_event. keeps_auto. Qed.

Lemma signal_completion_keeps {B} (f : St -> B) state ctx : keeps h f (signal_completion state ctx).
Proof. unfold signal_completion, signalWithStart. keeps_auto. Qed.

(** A completed response takes the execution off the waiting ones. *)
Definition after_execute (status : StateExecutionStatus) (exe : string) (s : St) :
  gmap string ResumeEntry :=
  if bool_decide (status = CompletedStateExecutionStatus)
  then delete exe (waiting_executions s) else waiting_executions s.

Lemma apply_decide_response_spec exe resp w s r w' s' ts :
  exec h (apply_decide_response exe resp) w s = Some (r, w', s', ts) ->
  lock_tables s' = lock_tables s /\ waiting_executions s' = after_execute r.1.2 exe s.
Proof.
  unfold apply_decide_response, after_execute. intros H.
  apply exec_bind_inv in H as (e1 & w1 & s1 & ts1 & ts2 & H1 & H).
  apply upsert_search_keeps, books_inj in H1 as [Hl1 Hw1].
  destruct e1 as [e|]; [injection H as <- <- <- <-; unfold waiting_executions; by rewrite Hl1, Hw1|].
  apply exec_bind_inv in H as (e2 & w2 & s2 & ts3 & ts4 & H2 & H).
  apply upsert_data_keeps, books_inj in H2 as [Hl2 Hw2].
  destruct e2 as [e|]; [injection H as <- <- <- <-; unfold waiting_executions; by rewrite Hl2, Hw2, Hl1, Hw1|].
  apply exec_bind_inv in H as (u3 & w3 & s3 & ts5 & ts6 & H3 & H).
  apply publish_keeps, books_inj in H3 as [Hl3 Hw3].
  cbn in H. injection H as <- <- <- <-. cbn [fst snd]. rewrite bool_decide_true by done.
  split; [transitivity (lock_tables s3); [unfold lock_tables; by rewrite indep | congruence]|].
  unfold waiting_executions. rewrite part_set. cbn. by rewrite Hw3, Hw2, Hw1.
Qed.

(** C6: when [invokeStateExecute] returns, on success, failure or
    proceed-on-failure, it holds no lock any more: each key is locked exactly if
    it was before.  The execution is taken off the executions to resume exactly
    when it completed; a failed execute call that proceeds to a configured state
    leaves it there. *)
Theorem invokeStateExecute_cleanup basicInfo state exe ctx commandRes renamed locals send
  w s d status err w' s' ts :
  exec h (invokeStateExecute basicInfo state exe ctx commandRes renamed locals send) w s =
    Some (d, status, err, w', s', ts) ->
  same_locks s s' /\ waiting_executions s' = after_execute status exe s.
Proof.
  unfold invokeStateExecute. intros H.
  apply exec_bind_inv in H as (start & w1 & s1 & ts1 & ts1' & H1 & H).
  apply (keeps_call h books) in H1.
  apply exec_bind_inv in H as (u & w2 & s2 & ts2 & ts2' & H2 & H).
  apply (emit_event_keeps books) in H2.
  apply exec_bind_inv in H as (wc & w3 & s3 & ts3 & ts3' & H3 & H).
  apply (keeps_get_part h books) in H3. rewrite H2, H1 in H3. clear H1 H2.
  apply exec_bind_inv in H as (sas & w4 & s4 & ts4 & ts4' & H4 & H).
  apply exec_bind_inv in H as (das & w5 & s5 & ts5 & ts5' & H5 & H).
  pose proof (load_search_data_locks h _ _ _ _ _ _ _ _ _ _ _ _ H4 H5) as Hlocked. clear H4 H5.
  apply exec_bind_inv in H as (r & w6 & s6 & ts6 & ts6' & H6 & H).
  apply (keeps_call h books) in H6.
  apply exec_bind_inv in H as (u7 & w7 & s7 & ts7 & ts7' & H7 & H).
  assert (books s7 = books s6) as E7 by (destruct r; by eapply emit_event_keeps).
  apply exec_bind_inv in H as (u8 & w8 & s8 & ts8 & ts8' & H8 & H).
  cbn in H8. injection H8 as <- <- <- <-.
  match type of H with exec h _ _ ?x = _ => set (s8 := x) in H end.
  destruct (unlock_restores _ _ s3 s7 s8 ltac:(rewrite E7, H6; exact Hlocked) eq_refl) as [Hs8 Hw8].
  assert (waiting_executions s8 = waiting_executions s) as Hw
    by (unfold waiting_executions; rewrite Hw8; by apply books_inj in H3 as [_ ->]).
  assert (same_locks s s8) as Hk by (by eapply same_locks_books; [symmetry; apply H3|]).
  destruct r as [resp|err'].
  - apply exec_bind_inv in H as (u9 & w9 & s9 & ts9 & ts9' & H9 & H).
    assert (books s9 = books s8) as [Hl9 Hw9]%books_inj.
    { destruct send; [|by injection H9 as <- <- <- <-].
      apply exec_bind_inv in H9 as (rep & w9' & s9' & tsa & tsb & Hr & H9).
      apply (keeps_call h books) in Hr. rewrite <- Hr.
      destruct rep; [by injection H9 as <- <- <- <- | by eapply signal_completion_keeps]. }
    apply apply_decide_response_spec in H as [Hl ->]. split.
    + by eapply same_locks_tables; [|exact Hk]; congruence.
    + unfold after_execute, waiting_executions in *. by rewrite Hw9, Hw.
  - unfold after_execute.
    destruct (shouldProceedOnExecuteApiError state); injection H as <- <- <- <- <- <-;
      by rewrite bool_decide_false.
Qed.
End execute.

(** ** The coroutines that share the channels never panic *)

Section channel_threads.
Context {St : Type}
  `{!Has St SignalReceiver, !Has St TimerProcessor, !Has St WorkflowConfiger,
    !Has St InternalChannel, !Has St StateRequestQueue, !Has St PersistenceManager,
    !Has St ContinueAsNewCounter, !Has St CommandsHeap}.

Lemma system_handler_safe {T} fuel (ty : sigty T) name (process : T -> prog St unit) :
  (forall v, safe (process v)) -> safe (system_signal_handler fuel ty name process).
Proof.
  intros Hp. induction fuel as [|fuel IH]; cbn [system_signal_handler]; safe_auto; auto.
Qed.

Lemma process_rpc_safe v : safe (process_rpc v).
Proof.
  unfold process_rpc, ProcessUpsertDataAttribute, ProcessUpsertSearchAttribute. safe_auto.
Qed.

Lemma receive_all_safe {T} fuel (ty : sigty T) name (process : T -> prog St unit) :
  (forall v, safe (process v)) -> safe (receive_all fuel ty name process).
Proof. intros Hp. induction fuel as [|fuel IH]; cbn [receive_all]; safe_auto; auto. Qed.

Lemma user_signal_handler_safe fuel : safe (user_signal_handler fuel : prog St unit).
Proof.
  induction fuel as [|fuel IH]; cbn [user_signal_handler]; safe_auto.
  apply receive_all_safe. intros v. safe_auto.
Qed.

Lemma buffer_retrieve_Ret n m : buffer_has m n = true -> exists r, buffer_retrieve n m = Ret r.
Proof.
  intros H%buffer_has_spec. unfold buffer_queue, buffer_retrieve in *.
  destruct (map_get _ _ _) as [|v l]; [done|]. destruct (len l =? 0)%Z; eauto.
Qed.

Lemma signal_thread_safe cell idx cmd name : safe (signal_thread cell idx cmd name : prog St unit).
Proof.
  intros s0. split; [done|]. intros s r _ _. cbn.
  destruct (negb (is_set r) && HasSignal (SignalChannelName cmd) (part s)) eqn:E; [|done].
  apply andb_true_iff in E as [_ E]. destruct (buffer_retrieve_Ret _ _ E) as [[v m] Hr].
  unfold run_part, sr_Retrieve. cbn. by rewrite Hr.
Qed.

Lemma interstate_thread_safe cell idx cmd name :
  safe (interstate_thread cell idx cmd name : prog St unit).
Proof.
  intros s0. split; [done|]. intros s r _ _. cbn.
  destruct (negb (is_set r) && HasData (part s) (ic_ChannelName cmd)) eqn:E; [|done].
  apply andb_true_iff in E as [_ E]. destruct (buffer_retrieve_Ret _ _ E) as [[v m] Hr].
  unfold run_part, ic_Retrieve. cbn. by rewrite Hr.
Qed.

(** The coroutines that receive signals or consume channel messages. *)
Inductive channel_coroutine : prog St unit -> Prop :=
| cc_signal cell idx cmd name : channel_coroutine (signal_thread cell idx cmd name)
| cc_interstate cell idx cmd name : channel_coroutine (interstate_thread cell idx cmd name)
| cc_fail fuel : channel_coroutine (fail_workflow_handler fuel)
| cc_skip fuel : channel_coroutine (skip_timer_handler fuel)
| cc_config fuel : channel_coroutine (update_config_handler fuel)
| cc_trigger : channel_coroutine trigger_continue_as_new_handler
| cc_rpc fuel : channel_coroutine (execute_rpc_handler fuel)
| cc_user fuel : channel_coroutine (user_signal_handler fuel).

Lemma channel_coroutine_safe t : channel_coroutine t -> safe t.
Proof.
  intros [| | | | | | |].
  - apply signal_thread_safe.
  - apply interstate_thread_safe.
  - apply system_handler_safe. intros v. apply safe_mod_part.
  - apply system_handler_safe. intros v. apply safe_mod_part.
  - apply system_handler_safe. intros v. apply safe_mod_part.
  - unfold trigger_continue_as_new_handler. safe_auto.
  - apply system_handler_safe. apply process_rpc_safe.
  - apply user_signal_handler_safe.
Qed.

(** C26: in every interleaving of any number of command coroutines for signal and
    internal-channel commands with the signal receivers, whatever signals arrive
    and whichever waits are cancelled, none of them panics: a message is only
    retrieved from a channel that has one. *)
Theorem channel_coroutines_never_panic ts (s : St) p msg :
  Forall channel_coroutine ts -> rtc step (mkPool (Done tt) ts s) p -> active p <> Crash msg.
Proof.
  intros Hts. apply safe_pool. eapply Forall_impl; [exact Hts|]. intros t. apply channel_coroutine_safe.
Qed.
End channel_threads.
