(* ===== verification/Updater.v ===== *)
(** * RPCs by workflow update, and queries

    service/interpreter/workflowUpdater.go: the validator and the handler of the
    RPC update; service/interpreter/queryHandler.go: the query handlers. *)

From S2P Require Export Locking.

Definition GetDataAttributesWorkflowQueryType : string := "GetDataAttributes".
Definition GetSearchAttributesWorkflowQueryType : string := "GetSearchAttributes".
Definition GetCurrentTimerInfosQueryType : string := "GetCurrentTimerInfos".
Definition ContinueAsNewDumpByPageQueryType : string := "ContinueAsNewDumpByPage".
Definition DebugDumpQueryType : string := "DebugNewDump".
Definition PrepareRpcQueryType : string := "PrepareRpcQueryType".
Definition ExecuteOptimisticLockingRpcUpdateType : string := "ExecuteOptimisticLockingRpcUpdate".

Record DebugDumpResponse : Type := mkDebugDumpResponse {
  dd_Config : WorkflowConfig;
  dd_Snapshot : ContinueAsNewDumpResponse;
  FiringTimersUnixTimestamps : list Z
}.

Section operations.
Context {St : Type}
  `{!Has St SignalReceiver, !Has St TimerProcessor, !Has St WorkflowConfiger,
    !Has St InternalChannel, !Has St StateRequestQueue, !Has St PersistenceManager,
    !Has St ContinueAsNewCounter, !Has St ContinueAsNewer, !Has St CommandsHeap,
    !Has St GlobalVersioner, !Has St StateExecutionCounter, !Has St OutputCollector}.

(** ** workflowUpdater.go *)

Definition updater_validator (input : WorkflowRpcRequest) (s : St) : option error :=
  let daKeys := match rpc_DataAttributesLoadingPolicy input with
                | Some p => LockingKeys p | None => [] end in
  let saKeys := match rpc_SearchAttributesLoadingPolicy input with
                | Some p => LockingKeys p | None => [] end in
  if CheckDataAndSearchAttributesKeysAreUnlocked daKeys saKeys (part s) then None
  else Some (NewApplicationError RPC_ACQUIRE_LOCK_FAILURE
    "requested data or search attributes are being locked by other operations").

(** The effects of a successful RPC on the workflow. *)
Definition apply_rpc_output (rpcOutput : WorkflowWorkerRpcResponse) : prog St unit :=
  _ ← mod_part IncSyncUpdateReceived;
  _ ← ProcessUpsertDataAttribute (wr_UpsertDataAttributes rpcOutput);
  _ ← ProcessUpsertSearchAttribute (wr_UpsertSearchAttributes rpcOutput);
  _ ← mod_part (ProcessPublishing (wr_PublishToInterStateChannel rpcOutput));
  match wr_StateDecision rpcOutput with
  | Some d => mod_part (AddStateStartRequests (NextStates d))
  | None => mret tt
  end.

(** The deferred RPC event. *)
Definition emit_rpc_event (basicInfo : BasicInfo) (rpcName : string) (info : WorkflowInfo) (start : Z) : prog St unit :=
  replaying ← call IsReplaying;
  if (replaying : bool) then mret tt
  else
    am ← get_part (P := PersistenceManager);
    call (HandleEvent (mkIwfEvent RPC_EXECUTION_EVENT (Some rpcName) (bi_IwfWorkflowType basicInfo)
      (ID (wi_WorkflowExecution info)) EmptyString None None (Some start) None
      (GetAllSearchAttributes am) None)).

Definition updater_handler_body (basicInfo : BasicInfo) (info : WorkflowInfo)
  (input : WorkflowRpcRequest) : prog St (HandlerOutput + error) :=
  das ← LoadDataAttributes (rpc_DataAttributesLoadingPolicy input);
  sas ← LoadSearchAttributes (rpc_SearchAttributesLoadingPolicy input);
  sr ← get_part (P := SignalReceiver);
  ic ← get_part (P := InternalChannel);
  let rpcPrep :=
    mkPrepareRpcQueryResponse das sas (RunID (wi_WorkflowExecution info))
      (Unix (WorkflowStartTime info)) (bi_IwfWorkflowType basicInfo) (bi_IwfWorkerUrl basicInfo)
      (sr_GetInfos sr) (ic_GetInfos ic) in
  let activityOptions :=
    mkActivityOptions (5 * SecondNs) 0
      (Some (mkRetryPolicy None None None (Some 3%Z) (TimeoutSeconds input))) in
  gv ← get_part (P := GlobalVersioner);
  wc ← get_part (P := WorkflowConfiger);
  r ← (if IsAfterVersionOfSyncUpdateRPCUseLocalActivity gv
       then call (ExecuteInvokeWorkerRpc true false activityOptions rpcPrep input)
       else call (ExecuteInvokeWorkerRpc false (ShouldOptimizeActivity wc) activityOptions rpcPrep input));
  _ ← mod_part (UnlockPersistence (rpc_SearchAttributesLoadingPolicy input)
                  (rpc_DataAttributesLoadingPolicy input));
  match r with
  | inr _ => mret (inr (NewApplicationError SERVER_INTERNAL_ERROR_TYPE "activity invocation failure:"))
  | inl activityOutput =>
      match ro_RpcOutput activityOutput with
      | None => mret (inl (mkHandlerOutput None (ro_StatusError activityOutput)))
      | Some rpcOutput =>
          _ ← apply_rpc_output rpcOutput;
          mret (inl (mkHandlerOutput (Some (mkWorkflowRpcResponse (wr_Output rpcOutput)))
                       (ro_StatusError activityOutput)))
      end
  end.

Definition updater_handler (basicInfo : BasicInfo) (input : WorkflowRpcRequest) :
  prog St (HandlerOutput + error) :=
  _ ← mod_part IncreaseInflightOperation;
  info ← call GetWorkflowInfo;
  now ← call Now;
  r ← updater_handler_body basicInfo info input;
  _ ← emit_rpc_event basicInfo (RpcName input) info (UnixMilli now);
  _ ← mod_part DecreaseInflightOperation;
  mret r.

(** The update handler is registered with the provider, which runs it later. *)
Definition NewWorkflowUpdater : prog St (option error) :=
  gv ← get_part (P := GlobalVersioner);
  if IsAfterVersionOfTemporal26SDK gv
  then call (SetRpcUpdateHandler ExecuteOptimisticLockingRpcUpdateType)
  else mret None.

(** ** queryHandler.go *)

Definition query_data_attributes (keys : list string) (s : St) : list KeyValue :=
  GetDataAttributesByKey keys (part s).
Definition query_search_attributes (s : St) : list SearchAttribute :=
  GetAllSearchAttributes (part s).
Definition query_debug_dump (s : St) : DebugDumpResponse :=
  mkDebugDumpResponse (wc_Get (part s)) (GetSnapshot s) (GetTimerStartedUnixTimestamps (part s)).
Definition query_timer_infos (s : St) : gmap string (list TimerInfo) := GetTimerInfos (part s).

(** The query that pages of the snapshot are read from. *)
Definition query_dump_page (marshal : ContinueAsNewDumpResponse -> list Ascii.ascii)
  (md5 : list Ascii.ascii -> string) (request : WorkflowDumpRequest) (s : St) :
  gores (WorkflowDumpResponse + error) :=
  dump_page md5 (marshal (GetSnapshot s)) request.

Definition query_prepare_rpc (basicInfo : BasicInfo) (req : PrepareRpcQueryRequest) :
  prog St PrepareRpcQueryResponse :=
  info ← call GetWorkflowInfo;
  das ← LoadDataAttributes (pq_DataObjectsLoadingPolicy req);
  sas ← LoadSearchAttributes (pq_SearchAttributesLoadingPolicy req);
  sr ← get_part (P := SignalReceiver);
  ic ← get_part (P := InternalChannel);
  mret (mkPrepareRpcQueryResponse das sas (RunID (wi_WorkflowExecution info))
    (Unix (WorkflowStartTime info)) (bi_IwfWorkflowType basicInfo) (bi_IwfWorkerUrl basicInfo)
    (sr_GetInfos sr) (ic_GetInfos ic)).

Definition SetQueryHandlers : prog St (option error) :=
  for_each_err
    [GetDataAttributesWorkflowQueryType; GetSearchAttributesWorkflowQueryType;
     ContinueAsNewDumpByPageQueryType; DebugDumpQueryType; PrepareRpcQueryType;
     GetCurrentTimerInfosQueryType]
    (fun queryType => call (SetQueryHandler queryType)).

End operations.

(** ** Properties *)

Section properties.
Context {St : Type}
  `{!Has St SignalReceiver, !Has St TimerProcessor, !Has St WorkflowConfiger,
    !Has St InternalChannel, !Has St StateRequestQueue, !Has St PersistenceManager,
    !Has St ContinueAsNewCounter, !Has St ContinueAsNewer, !Has St CommandsHeap,
    !Has St GlobalVersioner, !Has St StateExecutionCounter, !Has St OutputCollector}.
Context `{!Indep St PersistenceManager InternalChannel, !Indep St PersistenceManager ContinueAsNewer,
  !Indep St ContinueAsNewer PersistenceManager, !Indep St ContinueAsNewer InternalChannel,
  !Indep St PersistenceManager ContinueAsNewCounter, !Indep St ContinueAsNewer ContinueAsNewCounter,
  !Indep St PersistenceManager StateRequestQueue, !Indep St ContinueAsNewer StateRequestQueue}.
Context {W : Type} (h : forall X, providerE X -> W -> X * W).

Lemma apply_rpc_output_keeps out : keeps h books (apply_rpc_output out).
Proof.
  unfold apply_rpc_output. keeps_auto.
  - apply keeps_mod_part. intros p0 s0. unfold books, lock_tables. by rewrite !indep.
  - apply upsert_data_keeps.
  - apply upsert_search_keeps.
  - apply publish_keeps.
  - apply keeps_mod_part. intros p0 s0. unfold books, lock_tables. by rewrite !indep.
Qed.

Lemma emit_rpc_event_keeps {B} (f : St -> B) bi name info start :
  keeps h f (emit_rpc_event bi name info start).
Proof. unfold emit_rpc_event. keeps_auto. Qed.

Lemma updater_handler_body_locks bi info input w s r w' s' ts :
  exec h (updater_handler_body bi info input) w s = Some (r, w', s', ts) ->
  same_locks s s' /\ (part s' : ContinueAsNewer) = part s.
Proof.
  unfold updater_handler_body. intros H.
  apply exec_bind_inv in H as (das & w1 & s1 & ts1 & ts1' & H1 & H).
  apply exec_bind_inv in H as (sas & w2 & s2 & ts2 & ts2' & H2 & H).
  pose proof (load_data_search_locks h _ _ _ _ _ _ _ _ _ _ _ _ H1 H2) as Hlocked. clear H1 H2.
  do 3 (apply exec_bind_inv in H as (? & ? & ? & ? & ? & Hg & H);
    apply (keeps_get_part h books) in Hg; rewrite <- Hg in Hlocked; clear Hg).
  apply exec_bind_inv in H as (wc & w6 & s6 & ts6 & ts6' & Hg & H).
  apply (keeps_get_part h books) in Hg. rewrite <- Hg in Hlocked. clear Hg.
  apply exec_bind_inv in H as (r7 & w7 & s7 & ts7 & ts7' & H7 & H).
  assert (books s7 = books s6) as E7.
  { destruct (IsAfterVersionOfSyncUpdateRPCUseLocalActivity _); by eapply keeps_call. }
  rewrite <- E7 in Hlocked.
  apply exec_bind_inv in H as (u8 & w8 & s8 & ts8 & ts8' & H8 & H).
  cbn in H8. injection H8 as <- <- <- <-.
  match type of H with exec h _ _ ?x = _ => set (s8 := x) in H end.
  destruct (unlock_restores _ _ s s7 s8 Hlocked eq_refl) as [Hs8 Hw8].
  destruct r7 as [out|err]; [|by injection H as <- <- <- <-].
  destruct (ro_RpcOutput out) as [rpcOutput|]; [|by injection H as <- <- <- <-].
  apply exec_bind_inv in H as (u9 & w9 & s9 & ts9 & ts9' & H9 & H).
  apply apply_rpc_output_keeps, books_inj in H9 as [Hl9 Hw9]. injection H as <- <- <- <-.
  split; [by eapply same_locks_tables | by rewrite Hw9].
Qed.

(** C31: however an RPC update ends, the handler holds no lock when it returns (each
    key is locked exactly if it was before) and the count of in-flight operations
    that continue-as-new waits for is what it was. *)
Theorem updater_handler_cleanup bi input w s r w' s' ts :
  exec h (updater_handler bi input) w s = Some (r, w', s', ts) ->
  same_locks s s' /\ (part s' : ContinueAsNewer) = part s.
Proof.
  unfold updater_handler. intros H.
  apply exec_bind_inv in H as (u1 & w1 & s1 & ts1 & ts1' & H1 & H).
  cbn in H1. injection H1 as <- <- <- <-.
  match type of H with exec h _ _ ?x = _ => set (s1 := x) in H end.
  apply exec_bind_inv in H as (info & w2 & s2 & ts2 & ts2' & H2 & H).
  apply (keeps_call h books), books_inj in H2 as [Hl2 Hw2].
  apply exec_bind_inv in H as (now & w3 & s3 & ts3 & ts3' & H3 & H).
  apply (keeps_call h books), books_inj in H3 as [Hl3 Hw3].
  apply exec_bind_inv in H as (r4 & w4 & s4 & ts4 & ts4' & H4 & H).
  apply updater_handler_body_locks in H4 as [Hl4 Hw4].
  apply exec_bind_inv in H as (u5 & w5 & s5 & ts5 & ts5' & H5 & H).
  apply (emit_rpc_event_keeps books), books_inj in H5 as [Hl5 Hw5].
  cbn in H. injection H as <- <- <- <-. split.
  - assert (lock_tables s1 = lock_tables s) as E1 by (unfold s1, lock_tables; by rewrite indep).
    apply (same_locks_tables _ s4).
    + transitivity (lock_tables s5); [unfold lock_tables; by rewrite indep | done].
    + unfold same_locks in *. unfold lock_tables in *. injection Hl3 as Ha3 Hb3.
      injection Hl2 as Ha2 Hb2. injection E1 as Ha1 Hb1.
      by rewrite Ha3, Ha2, Ha1, Hb3, Hb2, Hb1 in Hl4.
  - rewrite part_set, Hw5, Hw4, Hw3, Hw2. unfold s1. rewrite part_set.
    destruct (part s : ContinueAsNewer) as [m n]. unfold DecreaseInflightOperation. cbn. f_equal. lia.
Qed.

(** The validator admits an RPC update exactly when none of the locking keys of
    its two policies is locked; otherwise it answers with the lock failure the
    API turns into a retryable response. *)
Theorem updater_validator_spec input (s : St) :
  let free (keys : list string) (locked : gmap string bool) :=
    forall k, k ∈ keys -> is_true_key locked k = false in
  let keys policy := match policy with Some p => LockingKeys p | None => [] end in
  (updater_validator input s = None <->
   free (keys (rpc_DataAttributesLoadingPolicy input)) (lockedDataAttributesKeys (part s)) /\
   free (keys (rpc_SearchAttributesLoadingPolicy input)) (lockedSearchAttributeKeys (part s))) /\
  forall err, updater_validator input s = Some err ->
    exists details, err = ApplicationError RPC_ACQUIRE_LOCK_FAILURE details.
Proof.
  cbn zeta. unfold updater_validator, CheckDataAndSearchAttributesKeysAreUnlocked. split.
  - rewrite <- !checkKeysAreUnlocked_spec. destruct (_ && _) eqn:E.
    + apply andb_true_iff in E. done.
    + apply andb_false_iff in E. split; [done|]. intros [H1 H2]. destruct E; congruence.
  - intros err. destruct (_ && _); [done|]. intros [= <-]. by eexists.
Qed.
End properties.
