(* ===== verification/Providers.v ===== *)
(** * The providers: retry policies, activity options and coroutines

    common/retry/policy.go and interpreter/{temporal,cadence}/workflowProvider.go:
    what the two backends make of the options of an activity, and the coroutines
    the provider counts.  The conversions fill the defaults into the policy they
    are given, so they return the policy as well. *)

From S2P Require Export Calls ApiIdl Provider.

(** ** Retry policies *)

(** [time.Second * time.Duration(s)] *)
Definition seconds_duration (s : Z) : Z := wrap64 (SecondNs * s).

Record temporal_RetryPolicy : Type := mktemporal_RetryPolicy {
  t_InitialInterval : Z;
  t_MaximumInterval : Z;
  t_MaximumAttempts : Z;
  t_BackoffCoefficient : Q
}.

Record cadence_RetryPolicy : Type := mkcadence_RetryPolicy {
  c_InitialInterval : Z;
  c_MaximumInterval : Z;
  c_MaximumAttempts : Z;
  c_BackoffCoefficient : Q;
  c_ExpirationInterval : Z
}.

Definition fill {A} (d : A) (o : option A) : option A := Some (default d o).

Definition fillActivityRetryPolicyDefault (policy : RetryPolicy) : RetryPolicy :=
  mkRetryPolicy (fill 1%Z (InitialIntervalSeconds policy)) (fill (2 # 1)%Q (BackoffCoefficient policy))
    (fill 100%Z (MaximumIntervalSeconds policy)) (fill 0%Z (MaximumAttempts policy))
    (fill 0%Z (MaximumAttemptsDurationSeconds policy)).

Definition fillWorkflowRetryPolicyDefault (policy : WorkflowRetryPolicy) : WorkflowRetryPolicy :=
  mkWorkflowRetryPolicy (fill 1%Z (wrp_InitialIntervalSeconds policy))
    (fill (2 # 1)%Q (wrp_BackoffCoefficient policy)) (fill 100%Z (wrp_MaximumIntervalSeconds policy))
    (fill 0%Z (wrp_MaximumAttempts policy)).

(** The getters of an unset field. *)
Definition get_int (o : option Z) : Z := default 0%Z o.
Definition get_float (o : option Q) : Q := default 0%Q o.

(** A year, "unlimited" where Cadence asks for a bound. *)
Definition unlimited : Z := wrap64 (wrap64 (wrap64 (3600 * SecondNs * 24) * 365) * 1).

Definition ConvertTemporalWorkflowRetryPolicy (policy : option WorkflowRetryPolicy) :
  option temporal_RetryPolicy * option WorkflowRetryPolicy :=
  match policy with
  | None => (None, None)
  | Some policy =>
      let policy := fillWorkflowRetryPolicyDefault policy in
      (Some (mktemporal_RetryPolicy (seconds_duration (get_int (wrp_InitialIntervalSeconds policy)))
               (seconds_duration (get_int (wrp_MaximumIntervalSeconds policy)))
               (get_int (wrp_MaximumAttempts policy)) (get_float (wrp_BackoffCoefficient policy))),
       Some policy)
  end.

(** The expiration interval is left zero. *)
Definition ConvertCadenceWorkflowRetryPolicy (policy : option WorkflowRetryPolicy) :
  option cadence_RetryPolicy * option WorkflowRetryPolicy :=
  match policy with
  | None => (None, None)
  | Some policy =>
      let policy := fillWorkflowRetryPolicyDefault policy in
      (Some (mkcadence_RetryPolicy (seconds_duration (get_int (wrp_InitialIntervalSeconds policy)))
               (seconds_duration (get_int (wrp_MaximumIntervalSeconds policy)))
               (get_int (wrp_MaximumAttempts policy)) (get_float (wrp_BackoffCoefficient policy)) 0%Z),
       Some policy)
  end.

Definition ConvertTemporalActivityRetryPolicy (policy : option RetryPolicy) :
  option temporal_RetryPolicy * option RetryPolicy :=
  match policy with
  | None => (None, None)
  | Some policy =>
      let policy := fillActivityRetryPolicyDefault policy in
      (Some (mktemporal_RetryPolicy (seconds_duration (get_int (InitialIntervalSeconds policy)))
               (seconds_duration (get_int (MaximumIntervalSeconds policy)))
               (get_int (MaximumAttempts policy)) (get_float (BackoffCoefficient policy))),
       Some policy)
  end.

Definition expiration_interval (policy : RetryPolicy) : Z :=
  if (0 <? get_int (MaximumAttemptsDurationSeconds policy))%Z
  then seconds_duration (get_int (MaximumAttemptsDurationSeconds policy))
  else unlimited.

Definition ConvertCadenceActivityRetryPolicy (policy : option RetryPolicy) :
  option cadence_RetryPolicy * option RetryPolicy :=
  match policy with
  | None => (None, None)
  | Some policy =>
      let policy := fillActivityRetryPolicyDefault policy in
      (Some (mkcadence_RetryPolicy (seconds_duration (get_int (InitialIntervalSeconds policy)))
               (seconds_duration (get_int (MaximumIntervalSeconds policy)))
               (get_int (MaximumAttempts policy)) (get_float (BackoffCoefficient policy))
               (expiration_interval policy)),
       Some policy)
  end.

(** ** Activity options *)

Record temporal_ActivityOptions : Type := mktemporal_ActivityOptions {
  ta_ScheduleToCloseTimeout : Z;
  ta_StartToCloseTimeout : Z;
  ta_RetryPolicy : option temporal_RetryPolicy;
  ta_HeartbeatTimeout : Z
}.

Record cadence_ActivityOptions : Type := mkcadence_ActivityOptions {
  ca_StartToCloseTimeout : Z;
  ca_ScheduleToStartTimeout : Z;
  ca_HeartbeatTimeout : Z;
  ca_RetryPolicy : option cadence_RetryPolicy
}.

(** Local activities: [ScheduleToCloseTimeout] and the retry policy. *)
Record LocalActivityOptions (P : Type) : Type := mkLocalActivityOptions {
  la_ScheduleToCloseTimeout : Z;
  la_RetryPolicy : option P
}.
Arguments mkLocalActivityOptions {P} _ _.
Arguments la_ScheduleToCloseTimeout {P} _.
Arguments la_RetryPolicy {P} _.

Definition set_RetryPolicy (p : option RetryPolicy) (o : ActivityOptions) : ActivityOptions :=
  mkActivityOptions (StartToCloseTimeout o) (HeartbeatTimeout o) p.

Definition local_timeout : Z := (SecondNs * 7)%Z.

(** The options the context gets, and the options as they are left. *)
Definition temporal_WithActivityOptions (options : ActivityOptions) :
  temporal_ActivityOptions * LocalActivityOptions temporal_RetryPolicy * ActivityOptions :=
  let maxSeconds := get_int (ao_RetryPolicy options ≫= MaximumAttemptsDurationSeconds) in
  let scheduledToCloseTimeout := if (0 <? maxSeconds)%Z then seconds_duration maxSeconds else 0%Z in
  let '(policy, filled) := ConvertTemporalActivityRetryPolicy (ao_RetryPolicy options) in
  let '(local_policy, filled) := ConvertTemporalActivityRetryPolicy filled in
  (mktemporal_ActivityOptions scheduledToCloseTimeout (StartToCloseTimeout options) policy
     (HeartbeatTimeout options),
   mkLocalActivityOptions local_timeout local_policy, set_RetryPolicy filled options).

Definition cadence_WithActivityOptions (options : ActivityOptions) :
  cadence_ActivityOptions * LocalActivityOptions cadence_RetryPolicy * ActivityOptions :=
  let startToCloseTimeout :=
    if (StartToCloseTimeout options =? 0)%Z then unlimited else StartToCloseTimeout options in
  let '(policy, filled) := ConvertCadenceActivityRetryPolicy (ao_RetryPolicy options) in
  let '(local_policy, filled) := ConvertCadenceActivityRetryPolicy filled in
  (mkcadence_ActivityOptions startToCloseTimeout (SecondNs * 10)%Z (HeartbeatTimeout options) policy,
   mkLocalActivityOptions local_timeout local_policy, set_RetryPolicy filled options).

(** ** Running an activity *)

Inductive activityE (A : Type) : Type -> Type :=
| RunLocalActivity : activityE A (A + error)
| RunActivity : activityE A (A + error).
Arguments RunLocalActivity {A}.
Arguments RunActivity {A}.

(** The same function in both providers. *)
Definition ExecuteActivity {A} (optimizeByLocalActivity : bool) : proc (activityE A) (A + error) :=
  if optimizeByLocalActivity then
    r ← ask RunLocalActivity;
    match r with
    | inr _ => ask RunActivity
    | inl a => mret (inl a)
    end
  else ask RunActivity.

(** ** Coroutines

    [GoNamed] counts a coroutine from its first step until it returns. *)

Record workflowProvider : Type := mkworkflowProvider {
  threadCount : Z;
  pendingThreadNames : gmap string Z
}.

Definition newWorkflowProvider : workflowProvider := mkworkflowProvider 0 ∅.

Definition thread_enter (name : string) (w : workflowProvider) : workflowProvider :=
  mkworkflowProvider (threadCount w + 1)
    (<[name := (map_get 0 (pendingThreadNames w) name + 1)%Z]> (pendingThreadNames w)).

Definition thread_exit (name : string) (w : workflowProvider) : workflowProvider :=
  let n := (map_get 0 (pendingThreadNames w) name - 1)%Z in
  let pending := <[name := n]> (pendingThreadNames w) in
  mkworkflowProvider (threadCount w - 1) (if (n =? 0)%Z then delete name pending else pending).

(** ** The conversions agree *)

Lemma seconds_duration_exact s : is_int32 s -> seconds_duration s = (s * SecondNs)%Z.
Proof.
  unfold is_int32, seconds_duration, SecondNs. intros H. rewrite wrap64_id; unfold is_int64; lia.
Qed.

Lemma fill_idemp {A} (d : A) o : fill d (fill d o) = fill d o.
Proof. done. Qed.

Lemma unlimited_year : unlimited = (365 * 24 * 3600 * SecondNs)%Z.
Proof. reflexivity. Qed.

(** The fields of a policy are 32-bit integers. *)
Definition policy_ok (p : RetryPolicy) : Prop :=
  (forall s, InitialIntervalSeconds p = Some s -> is_int32 s) /\
  (forall s, MaximumIntervalSeconds p = Some s -> is_int32 s) /\
  (forall s, MaximumAttemptsDurationSeconds p = Some s -> is_int32 s).

(** The time a backend allows for all attempts together: zero is no bound. *)
Definition temporal_total (o : temporal_ActivityOptions) : option Z :=
  if (ta_ScheduleToCloseTimeout o =? 0)%Z then None else Some (ta_ScheduleToCloseTimeout o).
Definition cadence_total (o : cadence_ActivityOptions) : option Z :=
  c_ExpirationInterval <$> ca_RetryPolicy o.

(** What both policies say of the single attempts. *)
Definition same_policy (t : temporal_RetryPolicy) (c : cadence_RetryPolicy) : Prop :=
  t_InitialInterval t = c_InitialInterval c /\ t_MaximumInterval t = c_MaximumInterval c /\
  t_MaximumAttempts t = c_MaximumAttempts c /\ t_BackoffCoefficient t = c_BackoffCoefficient c.

Lemma get_int_is_int32 d o :
  is_int32 d -> (forall s, o = Some s -> is_int32 s) -> is_int32 (get_int (fill d o)).
Proof. intros Hd Ho. destruct o; cbn; auto. Qed.

(** The two backends run an activity under the same policy: the same intervals,
    attempts and backoff, exactly the seconds asked for (defaults 1 s, 100 s,
    unlimited attempts, factor 2); all attempts together get the same time, a year
    on Cadence when unlimited; and the options are left the same, with the
    defaults filled in. *)
Lemma activity_options_equivalent options p :
  ao_RetryPolicy options = Some p -> policy_ok p ->
  let '(t, tl, t_left) := temporal_WithActivityOptions options in
  let '(c, cl, c_left) := cadence_WithActivityOptions options in
  exists tp cp, ta_RetryPolicy t = Some tp /\ ca_RetryPolicy c = Some cp /\ same_policy tp cp /\
    la_RetryPolicy tl = Some tp /\ la_RetryPolicy cl = Some cp /\
    t_InitialInterval tp = (default 1 (InitialIntervalSeconds p) * SecondNs)%Z /\
    t_MaximumInterval tp = (default 100 (MaximumIntervalSeconds p) * SecondNs)%Z /\
    t_MaximumAttempts tp = default 0%Z (MaximumAttempts p) /\
    t_BackoffCoefficient tp = default (2 # 1)%Q (BackoffCoefficient p) /\
    cadence_total c = Some (default (365 * 24 * 3600 * SecondNs)%Z (temporal_total t)) /\
    t_left = c_left /\ ao_RetryPolicy t_left = Some (fillActivityRetryPolicyDefault p).
Proof.
  intros Hp (Hi & Hm & Hd). unfold temporal_WithActivityOptions, cadence_WithActivityOptions.
  rewrite Hp. cbn [ConvertTemporalActivityRetryPolicy ConvertCadenceActivityRetryPolicy].
  eexists _, _. split; [done|]. split; [done|]. split; [by repeat split|].
  split_and!; try reflexivity.
  - cbn. apply seconds_duration_exact.
    by apply (get_int_is_int32 1 (InitialIntervalSeconds p)); [unfold is_int32; lia|].
  - cbn. apply seconds_duration_exact.
    by apply (get_int_is_int32 100 (MaximumIntervalSeconds p)); [unfold is_int32; lia|].
  - unfold cadence_total, temporal_total, expiration_interval. cbn.
    destruct (MaximumAttemptsDurationSeconds p) as [s|] eqn:Es; cbn; [|done].
    destruct (Z.ltb_spec 0 s); [|done].
    rewrite !seconds_duration_exact by auto. unfold SecondNs.
    destruct (Z.eqb_spec (s * 1000000000) 0); [lia | done].
Qed.

(** ** The counters *)

Inductive thread_op : Type := Enter (name : string) | Exit_ (name : string).
Definition thread_step (w : workflowProvider) (o : thread_op) : workflowProvider :=
  match o with Enter name => thread_enter name w | Exit_ name => thread_exit name w end.

Fixpoint remove_one (name : string) (l : list string) : list string :=
  match l with
  | [] => []
  | x :: l => if bool_decide (x = name) then l else x :: remove_one name l
  end.

(** The coroutines that run, by name, after the given steps; [None] when one exits
    that did not run. *)
Fixpoint running (l : list string) (ops : list thread_op) : option (list string) :=
  match ops with
  | [] => Some l
  | Enter name :: ops => running (name :: l) ops
  | Exit_ name :: ops =>
      if bool_decide (name ∈ l) then running (remove_one name l) ops else None
  end.

Definition times (name : string) (l : list string) : Z := len (filter (fun x => x = name) l).

(** The counters of the coroutines [l]: every name with its number, none with zero. *)
Definition counts_threads (w : workflowProvider) (l : list string) : Prop :=
  threadCount w = len l /\
  forall name, pendingThreadNames w !! name =
    if (times name l =? 0)%Z then None else Some (times name l).

Lemma times_cons name x l :
  times name (x :: l) = (times name l + if decide (x = name) then 1 else 0)%Z.
Proof. unfold times. rewrite filter_cons.
  destruct (decide (x = name)); rewrite ?len_cons; lia. Qed.

Lemma times_nonneg name l : (0 <= times name l)%Z.
Proof. unfold times, len. lia. Qed.

Lemma times_remove name x l :
  x ∈ l -> times name (remove_one x l) = (times name l - if decide (x = name) then 1 else 0)%Z.
Proof.
  induction l as [|y l IH]; cbn; [by intros ?%elem_of_nil|]. rewrite times_cons.
  case_bool_decide as Hy; [subst y; intros _; lia|].
  intros [->|Hx]%elem_of_cons; [done|]. rewrite times_cons, IH by done. lia.
Qed.

Lemma len_remove x l : x ∈ l -> len (remove_one x l) = (len l - 1)%Z.
Proof.
  induction l as [|y l IH]; cbn; [by intros ?%elem_of_nil|].
  case_bool_decide as Hy; rewrite len_cons; [lia|].
  intros [->|Hx]%elem_of_cons; [done|]. rewrite len_cons, IH by done. lia.
Qed.

Lemma times_elem name l : name ∈ l -> (0 < times name l)%Z.
Proof.
  induction l as [|y l IH]; [by intros ?%elem_of_nil|]. rewrite times_cons.
  pose proof (times_nonneg name l). case_decide; [lia|].
  intros [->|Hx]%elem_of_cons; [done|]. specialize (IH Hx). lia.
Qed.

Lemma thread_counts_get w l name : counts_threads w l -> map_get 0%Z (pendingThreadNames w) name = times name l.
Proof.
  intros [_ H]. unfold map_get. rewrite H. destruct (Z.eqb_spec (times name l) 0); cbn; lia.
Qed.

Lemma enter_counts w l name : counts_threads w l -> counts_threads (thread_enter name w) (name :: l).
Proof.
  intros Hc. split; [cbn; rewrite len_cons, (proj1 Hc); lia|]. intros name'. cbn.
  rewrite (thread_counts_get w l) by done. rewrite times_cons. pose proof (times_nonneg name l).
  case_decide as E.
  - subst name'. rewrite lookup_insert_eq. destruct (Z.eqb_spec (times name l + 1) 0); [lia | done].
  - rewrite lookup_insert_ne by done. rewrite (proj2 Hc), Z.add_0_r. done.
Qed.

Lemma exit_counts w l name :
  counts_threads w l -> name ∈ l -> counts_threads (thread_exit name w) (remove_one name l).
Proof.
  intros Hc Hin. split; [cbn; rewrite len_remove by done; rewrite (proj1 Hc); lia|]. intros name'. cbn.
  rewrite (thread_counts_get w l) by done. rewrite times_remove by done. pose proof (times_elem _ _ Hin).
  destruct (decide (name = name')) as [<-|E].
  - destruct (Z.eqb_spec (times name l - 1) 0) as [E0|E0];
      [by rewrite lookup_delete_eq | by rewrite lookup_insert_eq].
  - rewrite Z.sub_0_r. rewrite <- (proj2 Hc). destruct (times name l - 1 =? 0)%Z.
    + by rewrite lookup_delete_ne, lookup_insert_ne.
    + by rewrite lookup_insert_ne.
Qed.

(** Whatever order coroutines start and return in, the provider's counters are
    those of the coroutines that run, and list no name that does not. *)
Theorem provider_counts_threads ops l :
  running [] ops = Some l -> counts_threads (foldl thread_step newWorkflowProvider ops) l.
Proof.
  assert (counts_threads newWorkflowProvider []) as H0
    by (split; [done | intros name; apply lookup_empty]).
  revert H0. generalize newWorkflowProvider, (@nil string).
  induction ops as [|[name|name] ops IH]; intros w l0 H0; cbn.
  - by intros [= <-].
  - apply IH, enter_counts, H0.
  - case_bool_decide; [|done]. by apply IH, exit_counts.
Qed.
