(* ===== verification/Client.v ===== *)
(** * The unified client

    service/client/interfaces.go: what the API service asks of the backend, as
    events, and the errors it distinguishes. *)

From S2P Require Export WorkerApi Updater Calls ApiIdl.

Record StartWorkflowOptions : Type := mkStartWorkflowOptions {
  swo_ID : string;
  swo_TaskQueue : string;
  swo_WorkflowExecutionTimeout : Z;            (* nanoseconds *)
  swo_WorkflowIDReusePolicy : option WorkflowIDReusePolicy;
  swo_CronSchedule : option string;
  swo_RetryPolicy : option WorkflowRetryPolicy;
  swo_SearchAttributes : gmap string iface;
  swo_Memo : gmap string EncodedObject;
  swo_WorkflowStartDelay : option Z
}.

Record ListWorkflowExecutionsRequest : Type := mkListWorkflowExecutionsRequest {
  lw_PageSize : Z;
  lw_Query : string;
  lw_NextPageToken : string
}.

Record ListWorkflowExecutionsResponse : Type := mkListWorkflowExecutionsResponse {
  Executions : list WorkflowSearchResponseEntry;
  lwr_NextPageToken : string
}.

Record DescribeWorkflowExecutionResponse : Type := mkDescribeWorkflowExecutionResponse {
  desc_Status : WorkflowStatus;
  desc_RunId : string;
  desc_FirstRunId : string;
  desc_SearchAttributes : gmap string SearchAttribute;
  desc_Memos : gmap string EncodedObject;
  desc_WorkflowStartedTimestamp : Z
}.

(** The queries of service/const.go the API makes, with the type of the answer. *)
Inductive query : Type -> Type :=
| QueryDataAttributes (keys : list string) : query (list KeyValue)
| QueryPrepareRpc (request : PrepareRpcQueryRequest) : query (option PrepareRpcQueryResponse)
| QueryTimerInfos : query (gmap string (list TimerInfo))
| QueryDumpPage (request : WorkflowDumpRequest) : query WorkflowDumpResponse.

Definition query_type {T} (q : query T) : string :=
  match q with
  | QueryDataAttributes _ => GetDataAttributesWorkflowQueryType
  | QueryPrepareRpc _ => PrepareRpcQueryType
  | QueryTimerInfos => GetCurrentTimerInfosQueryType
  | QueryDumpPage _ => ContinueAsNewDumpByPageQueryType
  end.

(** The type a workflow's result is decoded to. *)
Inductive result_of : Type -> Type :=
| ResultOutput : result_of InterpreterWorkflowOutput
| ResultStateCompletion : result_of StateCompletionOutput.

Inductive clientE : Type -> Type :=
| StartInterpreterWorkflow (options : StartWorkflowOptions) (input : InterpreterWorkflowInput) :
    clientE (string + error)
| StartWaitForStateCompletionWorkflow (options : StartWorkflowOptions) : clientE (string + error)
| StartBlobStoreCleanupWorkflow (taskQueue workflowID cronSchedule storeId : string) :
    clientE (option error)
| SignalWorkflow {T} (workflowID runID signalName : string) (ty : sigty T) (arg : T) :
    clientE (option error)
| SignalWithStartWaitForStateCompletion (options : StartWorkflowOptions)
    (stateCompletionOutput : StateCompletionOutput) : clientE (option error)
| CancelWorkflow (workflowID runID : string) : clientE (option error)
| TerminateWorkflow (workflowID runID reason : string) : clientE (option error)
| ListWorkflow (request : ListWorkflowExecutionsRequest) :
    clientE (ListWorkflowExecutionsResponse + error)
| QueryWorkflow {T} (workflowID runID : string) (q : query T) : clientE (T + error)
| DescribeWorkflow (workflowID runID : string) (requested : list SearchAttributeKeyAndType) :
    clientE (DescribeWorkflowExecutionResponse + error)
| GetWorkflowResult {T} (deadline : option Z) (ty : result_of T) (workflowID runID : string) :
    clientE (T + error)
| SynchronousUpdateWorkflow (workflowID runID updateType : string) (input : WorkflowRpcRequest) :
    clientE (HandlerOutput + error)
| ResetWorkflow (request : WorkflowResetRequest) : clientE (string + error).

(** The interface [errorHandler]; each recognises an error of the SDK, never nil.
    [None] stands for the empty type of an error that is not an application's. *)
Record errorHandler : Type := mkerrorHandler {
  GetApplicationErrorTypeIfIsApplicationError : error -> option WorkflowErrorType;
  GetApplicationErrorOutputs : error -> list StateCompletionOutput + error;
  GetApplicationErrorMessage : error -> string + error;
  eh_IsWorkflowAlreadyStartedError : error -> bool;
  GetRunIdFromWorkflowAlreadyStartedError : error -> string;
  eh_IsNotFoundError : error -> bool;
  IsRequestTimeoutError : error -> bool;
  IsWorkflowTimeoutError : error -> bool
}.
