(* ===== verification/History.v ===== *)
(** * The search of a history for the event to reset to

    client/temporal/reset.go and client/cadence/reset.go.  Both read the history
    of a run page by page and look for the workflow task (Cadence: decision) to
    reset to; only the names of the SDKs' types, the search from the beginning
    and the unknown reset type differ.  The pages are events of the client's
    program; the data converter is a parameter. *)

From S2P Require Export Client TimeParser.

(** The event types the searches distinguish: task scheduled and completed
    (Cadence: decision task), activity task scheduled. *)
Inductive HistoryEventType : Type :=
| TASK_SCHEDULED | TASK_COMPLETED | ACTIVITY_TASK_SCHEDULED
| HistoryEventType_other (s : string).
#[export] Instance HistoryEventType_eq_dec : EqDecision HistoryEventType.
Proof. solve_decision. Defined.

(** An event; [T] is the SDK's type of its time. *)
Record HistoryEvent (T : Type) : Type := mkHistoryEvent {
  he_EventId : Z;
  he_EventType : HistoryEventType;
  he_EventTime : T;
  he_ActivityType : string;
  he_Input : string                      (* the serialized arguments *)
}.
Arguments mkHistoryEvent {T} _ _ _ _ _.
Arguments he_EventId {T} _.
Arguments he_EventType {T} _.
Arguments he_EventTime {T} _.
Arguments he_ActivityType {T} _.
Arguments he_Input {T} _.

Record HistoryPage (T : Type) : Type := mkHistoryPage {
  hp_Events : list (HistoryEvent T);
  hp_NextPageToken : string
}.
Arguments mkHistoryPage {T} _ _.
Arguments hp_Events {T} _.
Arguments hp_NextPageToken {T} _.

Definition composeErrorWithMessage (msg : string) (err : error) : error :=
  OtherError (msg +:+ ", " +:+ error_text err).

(** [strings.Contains] *)
Definition strings_Contains (s sub : string) : bool := is_set (String.index 0 sub s).

(** ** Loops over the pages *)

Section search.
Context {T St : Type}.
(** One event: go on with a state, or return. *)
Context (step : St -> HistoryEvent T -> St + (Z + error)).

Fixpoint scan_events (st : St) (events : list (HistoryEvent T)) : St + (Z + error) :=
  match events with
  | [] => inl st
  | e :: rest =>
      match step st e with
      | inl st => scan_events st rest
      | inr r => inr r
      end
  end.

Context {E : Type -> Type} (get_history : string -> proc E (HistoryPage T + error)).
Context (get_failed : error -> error) (at_end : St -> Z + error).

(** [fuel] bounds the pages. *)
Fixpoint search_pages (fuel : nat) (nextPageToken : string) (st : St) : proc E (Z + error) :=
  match fuel with
  | 0 => Throw "out of fuel"
  | S fuel =>
      resp ← get_history nextPageToken;
      match resp with
      | inr err => mret (inr (get_failed err))
      | inl resp =>
          match scan_events st (hp_Events resp) with
          | inr r => mret r
          | inl st =>
              if bool_decide (hp_NextPageToken resp <> EmptyString)
              then search_pages fuel (hp_NextPageToken resp) st
              else mret (at_end st)
          end
      end
  end.

(** The search of the history as one list. *)
Definition search_list (st : St) (events : list (HistoryEvent T)) : Z + error :=
  match scan_events st events with
  | inl st => at_end st
  | inr r => r
  end.

Lemma scan_events_app st l1 l2 :
  scan_events st (l1 ++ l2) =
  match scan_events st l1 with inl st => scan_events st l2 | inr r => inr r end.
Proof. revert st. induction l1 as [|e l1 IH]; intros st; cbn; [done|]. by destruct (step st e). Qed.

(** [answer] serves the pages, from the given token on. *)
Fixpoint serves (answer : string -> HistoryPage T + error) (token : string)
  (pages : list (list (HistoryEvent T))) : Prop :=
  match pages with
  | [] => False
  | [p] => answer token = inl (mkHistoryPage p EmptyString)
  | p :: rest => exists next, next <> EmptyString /\
      answer token = inl (mkHistoryPage p next) /\ serves answer next rest
  end.

(** However the history is cut into pages, the search is the search of the whole. *)
Lemma search_pages_spec {W} (h : forall X, E X -> M W X) answer (w : W) pages fuel token st :
  (forall token, interp h (get_history token) w = Ret (answer token, w)) ->
  serves answer token pages -> length pages <= fuel ->
  interp h (search_pages fuel token st) w = Ret (search_list st (concat pages), w).
Proof.
  intros Hget. revert fuel token st.
  induction pages as [|p rest IH]; intros fuel token st Hs Hf; [done|].
  destruct fuel as [|fuel]; [cbn in Hf; lia|]. cbn [search_pages].
  unfold mbind, proc_mbind. rewrite interp_bind, Hget.
  assert (exists next, answer token = inl (mkHistoryPage p next) /\
    ((next = EmptyString /\ rest = []) \/ (next <> EmptyString /\ serves answer next rest)))
    as (next & -> & Hnext).
  { destruct rest; cbn in Hs; [eauto|]. destruct Hs as (next & Hne & Ha & Hr). eauto. }
  cbn [hp_Events hp_NextPageToken]. unfold search_list. cbn [concat]. rewrite scan_events_app.
  destruct (scan_events st p) as [st'|r]; [|done].
  destruct Hnext as [[-> ->]|[Hne Hr]].
  - by rewrite bool_decide_eq_false_2 by auto.
  - rewrite bool_decide_eq_true_2 by done. apply IH; [done|]. cbn in Hf. lia.
Qed.
End search.

(** ** The searches *)

Section steps.
Context {T : Type}.

Definition completed (e : HistoryEvent T) : bool := bool_decide (he_EventType e = TASK_COMPLETED).
Definition scheduled (e : HistoryEvent T) : bool := bool_decide (he_EventType e = TASK_SCHEDULED).

(** The first completed task, or the one after the first scheduled one. *)
Definition first_task_step (workflowTaskEventID : Z) (e : HistoryEvent T) : Z + (Z + error) :=
  if completed e then inr (inl (he_EventId e))
  else if scheduled e && (workflowTaskEventID =? 0)%Z
  then inl (wrap64 (he_EventId e + 1))
  else inl workflowTaskEventID.

Definition first_task_end (workflowTaskEventID : Z) : Z + error :=
  if (workflowTaskEventID =? 0)%Z
  then inr (OtherError "unable to find any scheduled or completed task") else inl workflowTaskEventID.

(** Cadence's: the first completed decision task only. *)
Definition first_decision_step (decisionFinishID : Z) (e : HistoryEvent T) : Z + (Z + error) :=
  if completed e then inr (inl (he_EventId e))
  else inl decisionFinishID.

Definition no_event : error :=
  composeErrorWithMessage "Get historyEventId failed" (OtherError "no historyEventId").

Definition found_or_fail (decisionFinishID : Z) : Z + error :=
  if (decisionFinishID =? 0)%Z then inr no_event else inl decisionFinishID.

(** The first task completed no earlier than a time; breaking out of the loops
    runs what follows them. *)
Definition earliest_step (nanos : T -> Z) (earliestTime decisionFinishID : Z) (e : HistoryEvent T) :
  Z + (Z + error) :=
  if completed e && (earliestTime <=? nanos (he_EventTime e))%Z
  then inr (found_or_fail (he_EventId e)) else inl decisionFinishID.

(** The last task completed before the first activity of the state. *)
Context (FromPayloads : string -> StateStartActivityInput + error).
Context (stateId stateExecutionId : string).

Definition history_failed (err : error) : error :=
  composeErrorWithMessage "GetWorkflowExecutionHistory failed" err.

Definition is_state_activity (e : HistoryEvent T) : bool :=
  bool_decide (he_EventType e = ACTIVITY_TASK_SCHEDULED) &&
  (strings_Contains (he_ActivityType e) "StateApiExecute"
   || strings_Contains (he_ActivityType e) "StateApiWaitUntil").

Definition input_matches (input : StateStartActivityInput) : bool :=
  bool_decide (ws_WorkflowStateId (ss_Request input) = stateId)
  || bool_decide (default EmptyString (ctx_StateExecutionId (ws_Context (ss_Request input)))
                  = stateExecutionId).

Definition state_step (decisionFinishID : Z) (e : HistoryEvent T) : Z + (Z + error) :=
  let decisionFinishID :=
    if completed e then he_EventId e else decisionFinishID in
  if is_state_activity e then
    match FromPayloads (he_Input e) with
    | inr err => inr (inr (history_failed err))
    | inl input =>
        if input_matches input then
          if (decisionFinishID =? 0)%Z
          then inr (inr (history_failed (OtherError "invalid history or something goes very wrong")))
          else inr (inl decisionFinishID)
        else inl decisionFinishID
    end
  else inl decisionFinishID.

Definition state_end (decisionFinishID : Z) : Z + error := inr no_event.

End steps.

(** ** What the searches find *)

Section found.
Context {T : Type}.
Implicit Types (history : list (HistoryEvent T)).

(** The first event with a property, and the events before it. *)
Fixpoint find_event (p : HistoryEvent T -> bool) history : option (list (HistoryEvent T) * HistoryEvent T) :=
  match history with
  | [] => None
  | e :: rest =>
      if p e then Some ([], e)
      else match find_event p rest with
           | Some (before, e') => Some (e :: before, e')
           | None => None
           end
  end.

(** The last completed task, zero when there is none. *)
Definition last_completed (id : Z) history : Z :=
  foldl (fun id e => if completed e then he_EventId e else id) id history.

(** Where to reset to for a time: the first task completed no earlier. *)
Definition reset_point_of_time (nanos : T -> Z) (earliestTime : Z) history : Z + error :=
  match find_event (fun e => completed e && (earliestTime <=? nanos (he_EventTime e))%Z) history with
  | Some (_, e) => found_or_fail (he_EventId e)
  | None => inr no_event
  end.

Lemma search_of_time nanos earliestTime history :
  search_list (earliest_step nanos earliestTime) found_or_fail 0%Z history =
  reset_point_of_time nanos earliestTime history.
Proof.
  unfold search_list, reset_point_of_time.
  induction history as [|e rest IH]; cbn; [done|]. unfold earliest_step at 1.
  destruct (_ && _); [done|]. rewrite IH. by destruct (find_event _ rest) as [[]|].
Qed.

(** From the beginning: the first completed decision. *)
Definition first_completed history : Z + error :=
  match find_event completed history with
  | Some (_, e) => inl (he_EventId e)
  | None => inr no_event
  end.

Lemma search_of_first_decision history :
  search_list first_decision_step found_or_fail 0%Z history = first_completed history.
Proof.
  unfold search_list, first_completed.
  induction history as [|e rest IH]; cbn; [done|]. unfold first_decision_step at 1.
  destruct (completed e); [done|]. rewrite IH. by destruct (find_event _ rest) as [[]|].
Qed.

(** Temporal falls back to the event after the first scheduled task. *)
Definition first_task history : Z + error :=
  match find_event completed history with
  | Some (_, e) => inl (he_EventId e)
  | None =>
      match find_event scheduled history with
      | Some (_, e) => inl (he_EventId e + 1)%Z
      | None => inr (OtherError "unable to find any scheduled or completed task")
      end
  end.

(** Event ids count from 1. *)
Definition ids_ok history : Prop := Forall (fun e => (1 <= he_EventId e < 9223372036854775807)%Z) history.

Lemma search_of_first_task history :
  ids_ok history -> search_list first_task_step first_task_end 0%Z history = first_task history.
Proof.
  intros Hok.
  enough (forall id, (0 <= id)%Z -> search_list first_task_step first_task_end id history =
    match find_event completed history with
    | Some (_, e) => inl (he_EventId e)
    | None => if (id =? 0)%Z then first_task history else inl id
    end) as H.
  { rewrite H by lia. unfold first_task. by destruct (find_event completed history) as [[]|]. }
  induction Hok as [|e rest [He1 He2] Hok IH]; intros id Hid.
  { unfold search_list, first_task_end; cbn. by destruct (id =? 0)%Z. }
  unfold search_list. cbn [scan_events find_event]. unfold first_task_step at 1.
  destruct (completed e) eqn:Hc; [done|].
  assert (wrap64 (he_EventId e + 1) = he_EventId e + 1)%Z as Hw by (apply wrap64_id; unfold is_int64; lia).
  assert (first_task (e :: rest) = match find_event completed rest with
    | Some (_, e) => inl (he_EventId e)
    | None => if scheduled e then inl (he_EventId e + 1)%Z else first_task rest end) as Hft.
  { unfold first_task. cbn [find_event]. rewrite Hc.
    destruct (find_event completed rest) as [[]|]; [done|]. destruct (scheduled e); [done|].
    by destruct (find_event scheduled rest) as [[]|]. }
  rewrite Hft. destruct (scheduled e); cbn [andb]; [destruct (Z.eqb_spec id 0) as [->|Hne]|].
  - rewrite Hw. fold (search_list first_task_step first_task_end (he_EventId e + 1)%Z rest).
    rewrite IH by lia. destruct (find_event completed rest) as [[]|]; [done|].
    by destruct (Z.eqb_spec (he_EventId e + 1) 0); [lia|].
  - fold (search_list first_task_step first_task_end id rest). rewrite IH by lia.
    destruct (find_event completed rest) as [[]|]; [done|]. by destruct (Z.eqb_spec id 0).
  - fold (search_list first_task_step first_task_end id rest). rewrite IH by lia.
    by destruct (find_event completed rest) as [[]|].
Qed.

(** ** By state *)

Context (FromPayloads : string -> StateStartActivityInput + error).
Context (stateId stateExecutionId : string).

(** The search ends at an activity of the state, or at one it cannot read. *)
Definition ends_search (e : HistoryEvent T) : bool :=
  is_state_activity e &&
  match FromPayloads (he_Input e) with
  | inl input => input_matches stateId stateExecutionId input
  | inr _ => true
  end.

(** The last task completed before the first activity of the state. *)
Definition reset_point_of_state history : Z + error :=
  match find_event ends_search history with
  | None => inr no_event
  | Some (before, e) =>
      match FromPayloads (he_Input e) with
      | inr err => inr (history_failed err)
      | inl _ =>
          if (last_completed 0 before =? 0)%Z
          then inr (history_failed (OtherError "invalid history or something goes very wrong"))
          else inl (last_completed 0 before)
      end
  end.

Lemma activity_not_completed (e : HistoryEvent T) : is_state_activity e = true -> completed e = false.
Proof.
  unfold is_state_activity, completed. intros [He _]%andb_true_iff.
  apply bool_decide_eq_true in He. by rewrite He.
Qed.

Lemma search_of_state history :
  search_list (state_step FromPayloads stateId stateExecutionId) state_end 0%Z history =
  reset_point_of_state history.
Proof.
  unfold reset_point_of_state.
  enough (forall id, search_list (state_step FromPayloads stateId stateExecutionId) state_end id history =
    match find_event ends_search history with
    | None => inr no_event
    | Some (before, e) =>
        match FromPayloads (he_Input e) with
        | inr err => inr (history_failed err)
        | inl _ =>
            if (last_completed id before =? 0)%Z
            then inr (history_failed (OtherError "invalid history or something goes very wrong"))
            else inl (last_completed id before)
        end
    end) as H by apply H.
  induction history as [|e rest IH]; intros id; [done|].
  unfold search_list. cbn [scan_events find_event]. unfold state_step at 1, ends_search at 1.
  destruct (is_state_activity e) eqn:Ha; cbn [andb].
  - pose proof (activity_not_completed e Ha) as Hc. rewrite Hc.
    destruct (FromPayloads (he_Input e)) as [input|err] eqn:Ef; cbn [andb]; [|by rewrite Ef].
    destruct (input_matches stateId stateExecutionId input).
    + rewrite Ef. cbn. by destruct (id =? 0)%Z.
    + fold (search_list (state_step FromPayloads stateId stateExecutionId) state_end id rest).
      rewrite IH. destruct (find_event ends_search rest) as [[before e']|]; [|done].
      unfold last_completed. cbn [foldl]. by rewrite Hc.
  - fold (search_list (state_step FromPayloads stateId stateExecutionId) state_end
            (if completed e then he_EventId e else id) rest).
    rewrite IH. by destruct (find_event ends_search rest) as [[before e']|].
Qed.
End found.
