(* ===== verification/Backend.v ===== *)
(** * What the two backend clients share

    The interface of a backend client as a class, the application errors of the
    SDKs, the retries of queries and the workflows the service registers.  The
    SDKs are third-party: their calls are events, and what they say of an error
    is a parameter. *)

From S2P Require Export Client Providers.

(** A backend client: the calls of the unified client as programs of the SDK's
    calls [E]. *)
Class UnifiedClient (E : Type -> Type) : Type := {
  uc_errors : errorHandler;
  uc_GetBackendType : BackendType;
  uc_call : forall X, clientE X -> proc E X
}.

(** What it promises of starting a workflow: a run id it answers is of a workflow
    that the SDK started under the id of the options, except for the options it
    answers with an empty run id. *)
Class LawfulClient {E : Type -> Type} (c : UnifiedClient E) : Type := {
  sdk_started : obs E -> option (string * string);     (* workflow id, run id *)
  starts_nothing : StartWorkflowOptions -> Prop;
  start_sound : forall options input tr runId,
    runs (uc_call _ (StartInterpreterWorkflow options input)) tr (Ret (inl runId)) ->
    (exists o, o ∈ tr /\ sdk_started o = Some (swo_ID options, runId)) \/
    (runId = EmptyString /\ starts_nothing options)
}.

(** ** Errors *)

(** An application error of the SDK ([temporal.ApplicationError],
    [cadence.CustomError]): its type, empty as [None], and what decoding its
    details gives, as state outputs, as a string, and as any value: a string or
    another value with its JSON, if it has one. *)
Record sdk_application_error : Type := mksdk_application_error {
  ae_Type : option WorkflowErrorType;
  ae_HasDetails : bool;
  ae_outputs : list StateCompletionOutput + error;
  ae_string : string + error;
  ae_any : (string + option string) + error
}.

(** [GetApplicationErrorDetails(err, &details)], [get] decoding to the type of [details]. *)
Definition GetApplicationErrorDetails {A} (a : option sdk_application_error)
  (get : sdk_application_error -> A + error) : A + error :=
  match a with
  | None => inr (OtherError "not an application error. Critical code bug")
  | Some a =>
      if ae_HasDetails a then get a
      else inr (OtherError "application error doesn't have details. Critical code bug")
  end.

(** Details that are no string and do not marshal are the empty string. *)
Definition GetApplicationErrorTypeAndDetails (a : option sdk_application_error) :
  option WorkflowErrorType * string :=
  (a ≫= ae_Type,
   match GetApplicationErrorDetails a ae_any with
   | inr err2 => error_text err2
   | inl (inl errDetailsString) => errDetailsString
   | inl (inr (Some jsonBytes)) => jsonBytes
   | inl (inr None) => EmptyString
   end).

(** ** Queries *)

Record QueryWorkflowFailedRetryPolicy : Type := mkQueryWorkflowFailedRetryPolicy {
  qp_InitialIntervalSeconds : Z;
  qp_MaximumAttempts : Z
}.

Definition QueryWorkflowFailedRetryPolicyWithDefaults
  (retryPolicy : option QueryWorkflowFailedRetryPolicy) : QueryWorkflowFailedRetryPolicy :=
  let or_default d (get : QueryWorkflowFailedRetryPolicy -> Z) :=
    match retryPolicy with
    | Some p => if (get p =? 0)%Z then d else get p
    | None => d
    end in
  mkQueryWorkflowFailedRetryPolicy (or_default 1%Z qp_InitialIntervalSeconds)
    (or_default 5%Z qp_MaximumAttempts).

Section query.
Context {E : Type -> Type} {T : Type}.
(** The SDK's query, whose encoded value may fail to decode; [time.Sleep]. *)
Context (query_once : proc E ((T + error) + error)) (sleep : Z -> proc E unit).
Context (isQueryFailedError : error -> bool) (policy : QueryWorkflowFailedRetryPolicy).

(** The loop, with the attempts left and the last error; without any attempt the
    value is nil. *)
Fixpoint query_loop (attempts : nat) (err : option error) : proc E (T + error) :=
  match attempts with
  | 0 =>
      match err with
      | Some err => mret (inr err)
      | None => Throw "nil pointer dereference"
      end
  | S attempts =>
      qres ← query_once;
      match qres with
      | inl value => mret value
      | inr err =>
          if isQueryFailedError err then
            proc_bind (sleep (seconds_duration (qp_InitialIntervalSeconds policy)))
              (fun _ => query_loop attempts (Some err))
          else mret (inr err)
      end
  end.

Definition query_with_retry : proc E (T + error) :=
  query_loop (Z.to_nat (qp_MaximumAttempts policy)) None.
End query.

(** ** Workflows *)

(** The workflows the service registers, and their arguments. *)
Inductive workflow_args : Type :=
| Interpreter (input : InterpreterWorkflowInput)
| WaitforStateCompletionWorkflow
| BlobStoreCleanup (storeId : string).

(** The value of [WorkflowIDReusePolicy] both SDKs know; unset is their default. *)
Inductive sdk_reuse_policy : Type :=
| ReuseUnspecified | ReuseAllowDuplicate | ReuseAllowDuplicateFailedOnly
| ReuseRejectDuplicate | ReuseTerminateIfRunning.

(** The same function for both backends. *)
Definition mapToWorkflowIdReusePolicy (workflowIdReusePolicy : WorkflowIDReusePolicy) :
  sdk_reuse_policy + error :=
  match workflowIdReusePolicy with
  | ALLOW_DUPLICATE => inl ReuseAllowDuplicate
  | ALLOW_DUPLICATE_FAILED_ONLY => inl ReuseAllowDuplicateFailedOnly
  | REJECT_DUPLICATE => inl ReuseRejectDuplicate
  | TERMINATE_IF_RUNNING => inl ReuseTerminateIfRunning
  | WorkflowIDReusePolicy_other s => inr (OtherError ("unsupported workflow id reuse policy " +:+ s))
  end.

Definition termination_reason (reason : string) : string :=
  if bool_decide (reason = EmptyString) then "Force termiantion from user" else reason.

(** A memo's field as it is handed to the SDK: a value, or a payload encrypted before. *)
Inductive memo_field : Type :=
| MemoValue (v : EncodedObject)
| MemoPayload (p : string).

(** Converts every value of a map.  The code ranges over the map, so when several
    values do not convert, which error it stops at is arbitrary. *)
Fixpoint try_all {V U} (f : V -> U + error) (l : list (string * V)) : list (string * U) + error :=
  match l with
  | [] => inl []
  | (k, v) :: rest =>
      match f v with
      | inr err => inr err
      | inl u => match try_all f rest with inl l => inl ((k, u) :: l) | inr err => inr err end
      end
  end.

Definition try_map {V U} (f : V -> U + error) (m : gmap string V) : gmap string U + error :=
  match try_all f (map_to_list m) with
  | inl l => inl (list_to_map l)
  | inr err => inr err
  end.

Lemma try_all_spec {V U} (f : V -> U + error) l l' :
  try_all f l = inl l' -> Forall2 (fun kv ku => kv.1 = ku.1 /\ f kv.2 = inl ku.2) l l'.
Proof.
  revert l'. induction l as [|[k v] l IH]; intros l'; cbn; [by intros [= <-]|].
  destruct (f v) eqn:Ef; [|done]. destruct (try_all f l) eqn:El; [|done].
  intros [= <-]. constructor; [done | by apply IH].
Qed.

Lemma try_map_lookup {V U} (f : V -> U + error) m m' k :
  try_map f m = inl m' ->
  match m !! k with Some v => exists u, m' !! k = Some u /\ f v = inl u | None => m' !! k = None end.
Proof.
  unfold try_map. destruct (try_all f (map_to_list m)) as [l'|] eqn:El; [|done].
  intros [= <-]. apply try_all_spec in El.
  assert (NoDup l'.*1) as Hnd.
  { replace (l'.*1) with ((map_to_list m).*1) by (clear -El; induction El as [|?? l l' []]; cbn; congruence).
    apply NoDup_fst_map_to_list. }
  destruct (m !! k) as [v|] eqn:Em.
  - apply elem_of_map_to_list, list_elem_of_lookup in Em as [i Hi].
    destruct (Forall2_lookup_l _ _ _ _ _ El Hi) as ([k' u] & Hi' & Hk & Hu); cbn in *; subst k'.
    exists u. split; [|done]. apply elem_of_list_to_map_1; [done|]. by eapply list_elem_of_lookup_2.
  - apply not_elem_of_list_to_map_1. intros Hin.
    apply list_elem_of_fmap in Hin as ([k' u] & -> & [i Hi]%list_elem_of_lookup).
    destruct (Forall2_lookup_r _ _ _ _ _ El Hi) as ([k v] & Hi' & Hk & _); cbn in *; subst k.
    apply list_elem_of_lookup_2, elem_of_map_to_list in Hi'. congruence.
Qed.

Lemma try_map_total {V U} (f : V -> U + error) m :
  (forall k v, m !! k = Some v -> exists u, f v = inl u) -> exists m', try_map f m = inl m'.
Proof.
  intros Hf. unfold try_map.
  enough (exists l', try_all f (map_to_list m) = inl l') as [l' ->] by eauto.
  assert (forall kv, kv ∈ map_to_list m -> exists u, f kv.2 = inl u) as Hl
    by (intros [k v] Hkv; apply elem_of_map_to_list in Hkv; eauto).
  revert Hl. induction (map_to_list m) as [|[k v] l IH]; intros Hl; cbn; [eauto|].
  destruct (Hl (k, v)) as [u Hu]; [by left|]. cbn in Hu. rewrite Hu.
  destruct IH as [l' ->]; [|eauto]. intros kv Hkv. apply Hl. by right.
Qed.

(** ** Retried queries *)

Section retries.
Context {E : Type -> Type} {T : Type} (q : E ((T + error) + error)%type) (z : Z -> E unit).
Context (isQueryFailedError : error -> bool) (policy : QueryWorkflowFailedRetryPolicy).

Definition pause : Z := seconds_duration (qp_InitialIntervalSeconds policy).

(** The calls of attempts that failed with the given errors, one after the other. *)
Definition failed_attempts (errs : list error) : list (obs E) :=
  concat ((fun err => [Obs q (inr err); Obs (z pause) tt]) <$> errs).

(** How a query ends after the attempts that failed with [errs]. *)
Definition query_end (errs : list error) (tr : list (obs E)) (r : gores (T + error)) : Prop :=
  (exists value, tr = failed_attempts errs ++ [Obs q (inl value)] /\ r = Ret value) \/
  (exists err, isQueryFailedError err = false /\
     tr = failed_attempts errs ++ [Obs q (inr err)] /\ r = Ret (inr err)) \/
  (exists err, last errs = Some err /\ len errs = qp_MaximumAttempts policy /\
     tr = failed_attempts errs /\ r = Ret (inr err)).

Lemma query_loop_runs n err :
  always (query_loop (ask q) (fun d => ask (z d)) isQueryFailedError policy n err) (fun tr r =>
    exists errs, Forall (fun e => isQueryFailedError e = true) errs /\ length errs <= n /\
      ((exists value, tr = failed_attempts errs ++ [Obs q (inl value)] /\ r = Ret value) \/
       (exists e, isQueryFailedError e = false /\
          tr = failed_attempts errs ++ [Obs q (inr e)] /\ r = Ret (inr e)) \/
       (length errs = n /\ tr = failed_attempts errs /\
          r = match last (option_list err ++ errs) with Some e => Ret (inr e) | None => Panic "nil pointer dereference" end))).
Proof.
  revert err. induction n as [|n IH]; intros err.
  - assert (forall e : error, last (option_list (Some e) ++ []) = Some e) as Hl by done.
    destruct err as [e|]; cbn; exists []; split_and!; auto.
  - cbn. intros [value|e]; cbn.
    + exists []. split_and!; [constructor | cbn; lia|]. left. by exists value.
    + destruct (isQueryFailedError e) eqn:Hq; cbn.
      * intros u. destruct u. eapply always_mono; [|apply IH].
        intros tr r (errs & Hf & Hn & Hcases). exists (e :: errs).
        split; [by constructor|]. split; [cbn; lia|].
        destruct Hcases as [(v & -> & ->)|[(e' & He & -> & ->)|(Hl & -> & ->)]].
        -- left. by exists v.
        -- right; left. by exists e'.
        -- right; right. split_and!; [cbn; lia | done|]. by destruct err.
      * exists []. split_and!; [constructor | cbn; lia|]. right; left. by exists e.
Qed.
End retries.

(** C34: a query is made at most as often as configured, with a pause after each
    failure, and only a failed query is repeated: the answer is that of the last
    call, and it never panics when at least one attempt is configured. *)
Theorem queries_are_retried {E T} (q : E ((T + error) + error)%type) (z : Z -> E unit)
  isQueryFailedError policy tr r :
  (1 <= qp_MaximumAttempts policy)%Z ->
  runs (query_with_retry (ask q) (fun d => ask (z d)) isQueryFailedError policy) tr r ->
  exists errs, Forall (fun e => isQueryFailedError e = true) errs /\
    (len errs <= qp_MaximumAttempts policy)%Z /\ query_end q z isQueryFailedError policy errs tr r.
Proof.
  intros Hmax Hruns.
  destruct (always_runs _ _ _ _ (query_loop_runs q z isQueryFailedError policy _ None) Hruns)
    as (errs & Hf & Hn & Hcases).
  exists errs. split; [done|]. split; [unfold len; lia|]. unfold query_end.
  destruct Hcases as [H|[H|(Hl & -> & ->)]]; [by left | by right; left | right; right].
  change (option_list None ++ errs) with errs. destruct (last errs) as [e|] eqn:El; [|by apply last_None in El as ->; cbn in Hl; lia].
  exists e. unfold len. split_and!; try done. lia.
Qed.
