(* ===== verification/TemporalClient.v ===== *)
(** * The Temporal client

    client/temporal/client.go and reset.go over the calls of Temporal's SDK. *)

From S2P Require Export Backend History.

(** ** The SDK *)

Record temporal_StartWorkflowOptions : Type := mktemporal_StartWorkflowOptions {
  ts_ID : string;
  ts_TaskQueue : string;
  ts_WorkflowExecutionTimeout : Z;
  ts_SearchAttributes : gmap string iface;
  ts_Memo : gmap string memo_field;
  ts_ErrorWhenAlreadyStarted : bool;
  ts_WorkflowIDReusePolicy : sdk_reuse_policy;
  ts_RetryPolicy : option temporal_RetryPolicy;
  ts_StartDelay : Z
}.

(** The typed search attributes of the action are never set. *)
Record temporal_ScheduleOptions : Type := mktemporal_ScheduleOptions {
  sched_ID : string;
  sched_CronExpressions : list string;
  sched_Workflow_ID : string;
  sched_TaskQueue : string;
  sched_Workflow : workflow_args;
  sched_WorkflowExecutionTimeout : Z;
  sched_RetryPolicy : option temporal_RetryPolicy;
  sched_Memo : gmap string memo_field
}.

Inductive temporal_status : Type :=
| STATUS_RUNNING | STATUS_COMPLETED | STATUS_FAILED | STATUS_CANCELED | STATUS_TERMINATED
| STATUS_CONTINUED_AS_NEW | STATUS_TIMED_OUT | temporal_status_other (s : string).

Record temporal_description : Type := mktemporal_description {
  td_Status : temporal_status;
  td_RunId : string;
  td_FirstRunId : string;
  td_SearchAttributes : option (gmap string string);
  td_Memo : option (gmap string string);
  td_StartTime : Z * Z                      (* seconds and nanoseconds *)
}.

Inductive reapply_exclude : Type := EXCLUDE_SIGNAL | EXCLUDE_UPDATE.

Record temporal_ResetRequest : Type := mktemporal_ResetRequest {
  tr_Namespace : string;
  tr_WorkflowId : string;
  tr_RunId : string;
  tr_Reason : string;
  tr_WorkflowTaskFinishEventId : Z;
  tr_RequestId : string;
  tr_ResetReapplyExcludeTypes : list reapply_exclude
}.

Inductive temporalE : Type -> Type :=
| T_ExecuteWorkflow (options : temporal_StartWorkflowOptions) (workflow : workflow_args) :
    temporalE (string + error)                        (* run.GetRunID() *)
| T_CreateSchedule (options : temporal_ScheduleOptions) : temporalE (option error)
| T_SignalWithStartWorkflow (workflowID signalName : string) (arg : StateCompletionOutput)
    (options : temporal_StartWorkflowOptions) (workflow : workflow_args) : temporalE (option error)
| T_SignalWorkflow {T} (workflowID runID signalName : string) (ty : sigty T) (arg : T) :
    temporalE (option error)
| T_CancelWorkflow (workflowID runID : string) : temporalE (option error)
| T_TerminateWorkflow (workflowID runID reason : string) : temporalE (option error)
| T_ListWorkflow (pageSize : Z) (query nextPageToken : string) :
    temporalE (list (string * string) * string + error)
| T_QueryWorkflow {T} (workflowID runID : string) (q : query T) : temporalE ((T + error) + error)
| T_Sleep (d : Z) : temporalE unit
| T_DescribeWorkflowExecution (workflowID runID : string) : temporalE (temporal_description + error)
| T_GetWorkflowResult {T} (deadline : option Z) (ty : result_of T) (workflowID runID : string) :
    temporalE (T + error)
| T_UpdateWorkflow (workflowID runID updateName : string) (arg : WorkflowRpcRequest) :
    temporalE (nat + error)                           (* a handle *)
| T_UpdateGet (handle : nat) : temporalE (HandlerOutput + error)
| T_GetWorkflowExecutionHistory (namespace workflowID runID nextPageToken : string) :
    temporalE (HistoryPage (Z * Z) + error)
| T_ResetWorkflowExecution (request : temporal_ResetRequest) : temporalE (string + error)
| T_UuidNew : temporalE string
| T_TimeNow : temporalE Z.

(** What [errors.As] and the SDK's predicates say of an error; the data
    converters: the configured one, the SDK's default one, and the decoders of
    search attributes and activity arguments. *)
Record temporal_sdk : Type := mktemporal_sdk {
  IsWorkflowExecutionAlreadyStartedError : error -> bool;
  as_WorkflowExecutionAlreadyStarted : error -> option string;        (* its run id *)
  as_NotFound : error -> bool;
  as_QueryFailed : error -> bool;
  as_DeadlineExceeded : error -> bool;
  as_Canceled : error -> bool;
  IsTimeoutError : error -> bool;
  as_ApplicationError : error -> option sdk_application_error;
  ToPayload : EncodedObject -> string + error;
  FromPayload : string -> EncodedObject + error;
  default_FromPayload : string -> EncodedObject + error;
  default_FromPayload_payload : string -> string + error;
  sa_decode : string -> option iface;
  FromPayloads : string -> StateStartActivityInput + error
}.

Record temporalClient : Type := mktemporalClient {
  tc_sdk : temporal_sdk;
  tc_namespace : string;
  memoEncryption : bool;
  queryWorkflowFailedRetryPolicy : QueryWorkflowFailedRetryPolicy
}.

Definition NewTemporalClient (sdk : temporal_sdk) (namespace : string) (memoEncryption : bool)
  (retryPolicy : option QueryWorkflowFailedRetryPolicy) : temporalClient :=
  mktemporalClient sdk namespace memoEncryption (QueryWorkflowFailedRetryPolicyWithDefaults retryPolicy).

Section temporal.
Context (t : temporalClient).

(** ** Errors *)

Definition temporal_IsWorkflowAlreadyStartedError (err : error) : bool :=
  bool_decide (error_text err = "schedule with this ID is already registered")
  || IsWorkflowExecutionAlreadyStartedError (tc_sdk t) err.

Definition temporal_IsRequestTimeoutError (err : error) : bool :=
  as_DeadlineExceeded (tc_sdk t) err || as_Canceled (tc_sdk t) err.

Definition temporal_errorHandler : errorHandler := mkerrorHandler
  (fun err => as_ApplicationError (tc_sdk t) err ≫= ae_Type)
  (fun err => GetApplicationErrorDetails (as_ApplicationError (tc_sdk t) err) ae_outputs)
  (fun err => GetApplicationErrorDetails (as_ApplicationError (tc_sdk t) err) ae_string)
  temporal_IsWorkflowAlreadyStartedError
  (fun err => default EmptyString (as_WorkflowExecutionAlreadyStarted (tc_sdk t) err))
  (as_NotFound (tc_sdk t)) temporal_IsRequestTimeoutError (IsTimeoutError (tc_sdk t)).

(** ** Memo *)

Definition encrypt_field (v : EncodedObject) : memo_field + error :=
  match ToPayload (tc_sdk t) v with inl p => inl (MemoPayload p) | inr err => inr err end.

Definition encryptMemoIfNeeded (rawMemo : gmap string EncodedObject) : gmap string memo_field + error :=
  if negb (memoEncryption t) then inl (MemoValue <$> rawMemo) else try_map encrypt_field rawMemo.

Definition decrypt_field (payload : string) : EncodedObject + error :=
  if memoEncryption t then
    match default_FromPayload_payload (tc_sdk t) payload with
    | inr err => inr err
    | inl encryptedPayload => FromPayload (tc_sdk t) encryptedPayload
    end
  else default_FromPayload (tc_sdk t) payload.

Definition getMemoAndDecryptIfNeeded (memo : option (gmap string string)) :
  gmap string EncodedObject + error := try_map decrypt_field (default ∅ memo).

(** ** Starting workflows *)

(** An unsupported reuse policy is answered with an empty run id and no error; a
    cron schedule is created without the search attributes and the start delay. *)
Definition temporal_StartInterpreterWorkflow (options : StartWorkflowOptions)
  (input : InterpreterWorkflowInput) : proc temporalE (string + error) :=
  match encryptMemoIfNeeded (swo_Memo options) with
  | inr err => mret (inr err)
  | inl memo =>
      match (match swo_WorkflowIDReusePolicy options with
             | None => inl ReuseUnspecified
             | Some p => mapToWorkflowIdReusePolicy p
             end) with
      | inr _ => mret (inl EmptyString)
      | inl reusePolicy =>
          let '(retryPolicy, _) := ConvertTemporalWorkflowRetryPolicy (swo_RetryPolicy options) in
          let cron := get_string (swo_CronSchedule options) in
          if bool_decide (cron <> EmptyString) then
            err ← ask (T_CreateSchedule (mktemporal_ScheduleOptions
                         ("schedule for workflow: " +:+ swo_ID options) [cron] (swo_ID options)
                         (swo_TaskQueue options) (Interpreter input)
                         (swo_WorkflowExecutionTimeout options) retryPolicy memo));
            mret match err with Some err => inr err | None => inl EmptyString end
          else
            ask (T_ExecuteWorkflow (mktemporal_StartWorkflowOptions (swo_ID options)
                   (swo_TaskQueue options) (swo_WorkflowExecutionTimeout options)
                   (swo_SearchAttributes options) memo true reusePolicy retryPolicy
                   (default 0%Z (swo_WorkflowStartDelay options))) (Interpreter input))
      end
  end.

(** The options of the two workflows that wait for a state. *)
Definition temporal_wait_options (options : StartWorkflowOptions) : temporal_StartWorkflowOptions :=
  mktemporal_StartWorkflowOptions (swo_ID options) (swo_TaskQueue options)
    (swo_WorkflowExecutionTimeout options) ∅ ∅ false ReuseAllowDuplicateFailedOnly None 0.

Definition temporal_StartWaitForStateCompletionWorkflow (options : StartWorkflowOptions) :
  proc temporalE (string + error) :=
  ask (T_ExecuteWorkflow (temporal_wait_options options) WaitforStateCompletionWorkflow).

Definition temporal_StartBlobStoreCleanupWorkflow (taskQueue workflowID cronSchedule storeId : string) :
  proc temporalE (option error) :=
  if bool_decide (cronSchedule = EmptyString) then
    r ← ask (T_ExecuteWorkflow (mktemporal_StartWorkflowOptions workflowID taskQueue 0 ∅ ∅ false
               ReuseUnspecified None 0) (BlobStoreCleanup storeId));
    mret match r with inl _ => None | inr err => Some err end
  else
    ask (T_CreateSchedule (mktemporal_ScheduleOptions workflowID [cronSchedule] workflowID taskQueue
           (BlobStoreCleanup storeId) 0 None ∅)).

Definition temporal_SignalWithStart (options : StartWorkflowOptions)
  (stateCompletionOutput : StateCompletionOutput) : proc temporalE (option error) :=
  ask (T_SignalWithStartWorkflow (swo_ID options) StateCompletionSignalChannelName
         stateCompletionOutput (temporal_wait_options options) WaitforStateCompletionWorkflow).

(** ** Reading workflows *)

Definition search_entry (exe : string * string) : WorkflowSearchResponseEntry :=
  mkWorkflowSearchResponseEntry exe.1 exe.2.

Definition temporal_ListWorkflow (request : ListWorkflowExecutionsRequest) :
  proc temporalE (ListWorkflowExecutionsResponse + error) :=
  r ← ask (T_ListWorkflow (lw_PageSize request) (lw_Query request) (lw_NextPageToken request));
  mret match r with
       | inr err => inr err
       | inl (executions, token) =>
           inl (mkListWorkflowExecutionsResponse (search_entry <$> executions) token)
       end.

Definition temporal_QueryWorkflow {T} (workflowID runID : string) (q : query T) :
  proc temporalE (T + error) :=
  query_with_retry (ask (T_QueryWorkflow workflowID runID q)) (fun d => ask (T_Sleep d))
    (as_QueryFailed (tc_sdk t)) (queryWorkflowFailedRetryPolicy t).

Definition temporal_status_to_iwf (status : temporal_status) : WorkflowStatus + error :=
  match status with
  | STATUS_CANCELED => inl CANCELED
  | STATUS_COMPLETED => inl COMPLETED
  | STATUS_CONTINUED_AS_NEW => inl CONTINUED_AS_NEW
  | STATUS_FAILED => inl FAILED
  | STATUS_RUNNING => inl RUNNING
  | STATUS_TIMED_OUT => inl TIMEOUT
  | STATUS_TERMINATED => inl TERMINATED
  | temporal_status_other s => inr (OtherError ("not supported status " +:+ s))
  end.

(** The error of the memo comes with the response; the callers look at the error. *)
Definition temporal_DescribeWorkflowExecution (workflowID runID : string)
  (requestedSearchAttributes : list SearchAttributeKeyAndType) :
  proc temporalE (DescribeWorkflowExecutionResponse + error) :=
  resp ← ask (T_DescribeWorkflowExecution workflowID runID);
  match resp with
  | inr err => mret (inr err)
  | inl resp =>
      match temporal_status_to_iwf (td_Status resp) with
      | inr err => mret (inr err)
      | inl status =>
          searchAttributes ← of_gores (MapTemporalToIwfSearchAttributes (sa_decode (tc_sdk t))
                                         (td_SearchAttributes resp) requestedSearchAttributes);
          match searchAttributes with
          | inr err => mret (inr err)
          | inl searchAttributes =>
              match getMemoAndDecryptIfNeeded (td_Memo resp) with
              | inr err => mret (inr err)
              | inl memo =>
                  mret (inl (mkDescribeWorkflowExecutionResponse status (td_RunId resp)
                    (td_FirstRunId resp) searchAttributes memo
                    (ToNanoSeconds (td_StartTime resp).1 (td_StartTime resp).2)))
              end
          end
      end
  end.

Definition temporal_SynchronousUpdateWorkflow (workflowID runID updateType : string)
  (input : WorkflowRpcRequest) : proc temporalE (HandlerOutput + error) :=
  handle ← ask (T_UpdateWorkflow workflowID runID updateType input);
  match handle with
  | inr err => mret (inr err)
  | inl handle => ask (T_UpdateGet handle)
  end.

(** ** Reset *)

Definition temporal_nanos (eventTime : Z * Z) : Z := ToNanoSeconds eventTime.1 eventTime.2.

(** [fuel] bounds the pages of a history. *)
Definition temporal_first_task (fuel : nat) (wid rid : string) : proc temporalE (Z + error) :=
  search_pages first_task_step (fun token => ask (T_GetWorkflowExecutionHistory (tc_namespace t) wid rid token))
    id first_task_end fuel EmptyString 0%Z.

Definition temporal_earliest (fuel : nat) (wid rid : string) (earliestTime : Z) :
  proc temporalE (Z + error) :=
  search_pages (earliest_step temporal_nanos earliestTime)
    (fun token => ask (T_GetWorkflowExecutionHistory (tc_namespace t) wid rid token))
    history_failed found_or_fail fuel EmptyString 0%Z.

Definition temporal_by_state (fuel : nat) (wid rid stateId stateExecutionId : string) :
  proc temporalE (Z + error) :=
  search_pages (state_step (FromPayloads (tc_sdk t)) stateId stateExecutionId)
    (fun token => ask (T_GetWorkflowExecutionHistory (tc_namespace t) wid rid token))
    history_failed state_end fuel EmptyString 0%Z.

Definition with_run {A} (rid : string) (r : A + error) : string * A + error :=
  match r with inl a => inl (rid, a) | inr err => inr err end.

(** The run and the event to reset to. *)
Definition getResetEventIDByType (fuel : nat) (resetType : WorkflowResetType) (wid rid : string)
  (historyEventId : Z) (earliestHistoryTimeStr stateId stateExecutionId : string) :
  proc temporalE (string * Z + error) :=
  match resetType with
  | HISTORY_EVENT_ID => mret (inl (rid, historyEventId))
  | HISTORY_EVENT_TIME =>
      now ← ask T_TimeNow;
      match ParseTime now earliestHistoryTimeStr with
      | inr err => mret (inr err)
      | inl earliestTimeUnixNano =>
          r ← temporal_earliest fuel wid rid earliestTimeUnixNano; mret (with_run rid r)
      end
  | BEGINNING => r ← temporal_first_task fuel wid rid; mret (with_run rid r)
  | STATE_ID | STATE_EXECUTION_ID =>
      r ← temporal_by_state fuel wid rid stateId stateExecutionId; mret (with_run rid r)
  | WorkflowResetType_other _ => Throw "not supported resetType"
  end.

(** The run to reset: the requested one, or the current one. *)
Definition temporal_run_id (wid reqRunId : string) : proc temporalE (string + error) :=
  if bool_decide (reqRunId = EmptyString) then
    resp ← ask (T_DescribeWorkflowExecution wid EmptyString);
    mret match resp with inl resp => inl (td_RunId resp) | inr err => inr err end
  else mret (inl reqRunId).

Definition excluded_types (request : WorkflowResetRequest) : list reapply_exclude :=
  (if default false (SkipSignalReapply request) then [EXCLUDE_SIGNAL] else []) ++
  (if default false (SkipUpdateReapply request) then [EXCLUDE_UPDATE] else []).

Definition temporal_ResetWorkflow (fuel : nat) (request : WorkflowResetRequest) :
  proc temporalE (string + error) :=
  let wid := rst_WorkflowId request in
  reqRunId ← temporal_run_id wid (get_string (rst_WorkflowRunId request));
  match reqRunId with
  | inr err => mret (inr err)
  | inl reqRunId =>
      found ← getResetEventIDByType fuel (ResetType request) wid reqRunId
                (get_int (HistoryEventId request)) (get_string (HistoryEventTime request))
                (get_string (rst_StateId request)) (get_string (rst_StateExecutionId request));
      match found with
      | inr err => mret (inr err)
      | inl (resetBaseRunID, resetEventId) =>
          requestId ← ask T_UuidNew;
          ask (T_ResetWorkflowExecution (mktemporal_ResetRequest (tc_namespace t) wid resetBaseRunID
                 (get_string (rst_Reason request)) resetEventId requestId (excluded_types request)))
      end
  end.

(** ** The client *)

Definition temporal_call (fuel : nat) X (e : clientE X) : proc temporalE X :=
  match e in clientE X return proc temporalE X with
  | StartInterpreterWorkflow options input => temporal_StartInterpreterWorkflow options input
  | StartWaitForStateCompletionWorkflow options =>
      temporal_StartWaitForStateCompletionWorkflow options
  | StartBlobStoreCleanupWorkflow taskQueue workflowID cronSchedule storeId =>
      temporal_StartBlobStoreCleanupWorkflow taskQueue workflowID cronSchedule storeId
  | SignalWorkflow workflowID runID signalName ty arg =>
      ask (T_SignalWorkflow workflowID runID signalName ty arg)
  | SignalWithStartWaitForStateCompletion options output => temporal_SignalWithStart options output
  | CancelWorkflow workflowID runID => ask (T_CancelWorkflow workflowID runID)
  | TerminateWorkflow workflowID runID reason =>
      ask (T_TerminateWorkflow workflowID runID (termination_reason reason))
  | ListWorkflow request => temporal_ListWorkflow request
  | QueryWorkflow workflowID runID q => temporal_QueryWorkflow workflowID runID q
  | DescribeWorkflow workflowID runID requested =>
      temporal_DescribeWorkflowExecution workflowID runID requested
  | GetWorkflowResult deadline ty workflowID runID =>
      ask (T_GetWorkflowResult deadline ty workflowID runID)
  | SynchronousUpdateWorkflow workflowID runID updateType input =>
      temporal_SynchronousUpdateWorkflow workflowID runID updateType input
  | ResetWorkflow request => temporal_ResetWorkflow fuel request
  end.
End temporal.

#[export] Instance temporal_client (t : temporalClient) (fuel : nat) : UnifiedClient temporalE := {|
  uc_errors := temporal_errorHandler t;
  uc_GetBackendType := BackendTypeTemporal;
  uc_call := temporal_call t fuel
|}.

(** ** Memo *)

(** A field that was stored decodes to the value it was made of. *)
Definition field_of (t : temporalClient) (v : EncodedObject) (f : memo_field) : Prop :=
  if memoEncryption t then exists p, f = MemoPayload p /\ ToPayload (tc_sdk t) v = inl p
  else f = MemoValue v.

(** The SDK's own encoding [stored] of a field and the configured converter lose nothing. *)
Record memo_codecs (t : temporalClient) (stored : memo_field -> string) : Prop := mkmemo_codecs {
  mc_value : forall v, default_FromPayload (tc_sdk t) (stored (MemoValue v)) = inl v;
  mc_payload : forall p, default_FromPayload_payload (tc_sdk t) (stored (MemoPayload p)) = inl p;
  mc_converter : forall v p, ToPayload (tc_sdk t) v = inl p -> FromPayload (tc_sdk t) p = inl v
}.

Lemma decrypt_field_of t stored v f :
  memo_codecs t stored -> field_of t v f -> decrypt_field t (stored f) = inl v.
Proof.
  intros [Hv Hp Hc]. unfold field_of, decrypt_field. destruct (memoEncryption t).
  - intros (p & -> & E). rewrite Hp. by apply Hc.
  - intros ->. apply Hv.
Qed.

(** A memo stored field by field is described as it was given. *)
Lemma stored_memo_is_described t stored memo fields :
  memo_codecs t stored ->
  (forall k, match memo !! k with
             | Some v => exists f, fields !! k = Some f /\ field_of t v f
             | None => fields !! k = None
             end) ->
  getMemoAndDecryptIfNeeded t (Some (stored <$> fields)) = inl memo.
Proof.
  intros Hcs Hk. unfold getMemoAndDecryptIfNeeded.
  change (default ∅ (Some (stored <$> fields))) with (stored <$> fields).
  destruct (try_map_total (decrypt_field t) (stored <$> fields)) as [m' Hm'].
  { intros k p. rewrite lookup_fmap, fmap_Some. intros (f & Hf & ->). specialize (Hk k).
    destruct (memo !! k) as [v|]; [|by rewrite Hk in Hf]. destruct Hk as (f' & Hf' & Hd).
    rewrite Hf' in Hf. injection Hf as <-. eauto using decrypt_field_of. }
  rewrite Hm'. f_equal. apply map_eq. intros k.
  pose proof (try_map_lookup _ _ _ k Hm') as Hl. rewrite lookup_fmap in Hl. specialize (Hk k).
  destruct (memo !! k) as [v|].
  - destruct Hk as (f & Hf & Hd). rewrite Hf in Hl. destruct Hl as (u & Hu & Hd').
    rewrite (decrypt_field_of t stored v f) in Hd' by done. congruence.
  - by rewrite Hk in Hl.
Qed.

(** The memo of a started workflow is described as it was given, encrypted or not. *)
Lemma memo_encryption_roundtrip t stored memo fields :
  memo_codecs t stored -> encryptMemoIfNeeded t memo = inl fields ->
  getMemoAndDecryptIfNeeded t (Some (stored <$> fields)) = inl memo.
Proof.
  intros Hcs Henc. apply stored_memo_is_described; [done|]. intros k.
  unfold encryptMemoIfNeeded in Henc. unfold field_of. destruct (memoEncryption t); cbn [negb] in Henc.
  - pose proof (try_map_lookup _ _ _ k Henc) as Hk. destruct (memo !! k) as [v|]; [|done].
    destruct Hk as (f & Hf & Ef). exists f. split; [done|]. unfold encrypt_field in Ef.
    destruct (ToPayload (tc_sdk t) v) as [p|] eqn:Et; [|done]. injection Ef as <-. eauto.
  - injection Henc as <-. rewrite lookup_fmap. destruct (memo !! k) as [v|]; cbn; eauto.
Qed.
