(* ===== verification/CadenceClient.v ===== *)
(** * The Cadence client

    client/cadence/client.go and reset.go over the calls of Cadence's SDK. *)

From S2P Require Export Backend History.

(** ** The SDK *)

Record cadence_StartWorkflowOptions : Type := mkcadence_StartWorkflowOptions {
  cs_ID : string;
  cs_TaskList : string;
  cs_ExecutionStartToCloseTimeout : Z;
  cs_SearchAttributes : gmap string iface;
  cs_Memo : gmap string EncodedObject;
  cs_WorkflowIDReusePolicy : sdk_reuse_policy;
  cs_CronSchedule : string;
  cs_RetryPolicy : option cadence_RetryPolicy;
  cs_DelayStart : Z
}.

(** No close status is a workflow that runs. *)
Inductive cadence_CloseStatus : Type :=
| CloseStatusCompleted | CloseStatusFailed | CloseStatusCanceled | CloseStatusTerminated
| CloseStatusContinuedAsNew | CloseStatusTimedOut | CloseStatus_other (s : string).

Record cadence_description : Type := mkcadence_description {
  cd_CloseStatus : option cadence_CloseStatus;
  cd_RunId : string;
  cd_SearchAttributes : option (gmap string string);
  cd_Memo : option (gmap string string)
}.

Record cadence_ResetRequest : Type := mkcadence_ResetRequest {
  cr_Domain : string;
  cr_WorkflowId : string;
  cr_RunId : string;
  cr_Reason : option string;
  cr_DecisionFinishEventId : Z;
  cr_RequestId : string;
  cr_SkipSignalReapply : bool
}.

Inductive cadenceE : Type -> Type :=
| C_StartWorkflow (options : cadence_StartWorkflowOptions) (workflow : workflow_args) :
    cadenceE (string + error)                         (* run.RunID *)
| C_SignalWithStartWorkflow (workflowID signalName : string) (arg : StateCompletionOutput)
    (options : cadence_StartWorkflowOptions) (workflow : workflow_args) : cadenceE (option error)
| C_SignalWorkflow {T} (workflowID runID signalName : string) (ty : sigty T) (arg : T) :
    cadenceE (option error)
| C_CancelWorkflow (workflowID runID : string) : cadenceE (option error)
| C_TerminateWorkflow (workflowID runID reason : string) : cadenceE (option error)
| C_ListWorkflow (pageSize : Z) (query nextPageToken : string) :
    cadenceE (list (option string * option string) * string + error)
| C_QueryWorkflow {T} (workflowID runID : string) (q : query T) : cadenceE ((T + error) + error)
| C_Sleep (d : Z) : cadenceE unit
| C_DescribeWorkflowExecution (workflowID runID : string) : cadenceE (cadence_description + error)
| C_GetWorkflowResult {T} (deadline : option Z) (ty : result_of T) (workflowID runID : string) :
    cadenceE (T + error)
| C_GetWorkflowExecutionHistory (domain workflowID runID nextPageToken : string) :
    cadenceE (HistoryPage Z + error)
| C_ResetWorkflowExecution (request : cadence_ResetRequest) : cadenceE (string + error)
| C_UuidNew : cadenceE string
| C_TimeNow : cadenceE Z.

(** What [errors.As] and [errors.Is] say of an error, and the decoders. *)
Record cadence_sdk : Type := mkcadence_sdk {
  as_WorkflowExecutionAlreadyStartedError : error -> option string;   (* its run id *)
  is_unwrapped : error -> bool;             (* the type assertion on it succeeds *)
  as_EntityNotExistsError : error -> bool;
  as_QueryFailedError : error -> bool;
  is_DeadlineExceeded : error -> bool;
  cadence_IsTimeoutError : error -> bool;
  as_CustomError : error -> option sdk_application_error;
  FromData_EncodedObject : string -> EncodedObject + error;
  cadence_sa_decode : string -> option iface;
  FromData : string -> StateStartActivityInput + error
}.

Record cadenceClient : Type := mkcadenceClient {
  cc_sdk : cadence_sdk;
  cc_domain : string;
  cc_queryWorkflowFailedRetryPolicy : QueryWorkflowFailedRetryPolicy
}.

Definition NewCadenceClient (sdk : cadence_sdk) (domain : string)
  (retryPolicy : option QueryWorkflowFailedRetryPolicy) : cadenceClient :=
  mkcadenceClient sdk domain (QueryWorkflowFailedRetryPolicyWithDefaults retryPolicy).

Section cadence.
Context (t : cadenceClient).

Definition cadence_IsWorkflowAlreadyStartedError (err : error) : bool :=
  is_set (as_WorkflowExecutionAlreadyStartedError (cc_sdk t) err).

Definition cadence_errorHandler : errorHandler := mkerrorHandler
  (fun err => as_CustomError (cc_sdk t) err ≫= ae_Type)
  (fun err => GetApplicationErrorDetails (as_CustomError (cc_sdk t) err) ae_outputs)
  (fun err => GetApplicationErrorDetails (as_CustomError (cc_sdk t) err) ae_string)
  cadence_IsWorkflowAlreadyStartedError
  (fun err => default EmptyString (as_WorkflowExecutionAlreadyStartedError (cc_sdk t) err))
  (as_EntityNotExistsError (cc_sdk t)) (is_DeadlineExceeded (cc_sdk t))
  (cadence_IsTimeoutError (cc_sdk t)).

(** ** Starting workflows *)

Definition cadence_StartInterpreterWorkflow (options : StartWorkflowOptions)
  (input : InterpreterWorkflowInput) : proc cadenceE (string + error) :=
  if is_set (swo_Memo options !! UseMemoForDataAttributesKey)
  then mret (inr (OtherError "using Memo is not supported with Cadence, see https://github.com/uber/cadence/issues/3729"))
  else
    match (match swo_WorkflowIDReusePolicy options with
           | None => inl ReuseUnspecified
           | Some p => mapToWorkflowIdReusePolicy p
           end) with
    | inr _ => mret (inl EmptyString)
    | inl reusePolicy =>
        let '(retryPolicy, _) := ConvertCadenceWorkflowRetryPolicy (swo_RetryPolicy options) in
        ask (C_StartWorkflow (mkcadence_StartWorkflowOptions (swo_ID options) (swo_TaskQueue options)
               (swo_WorkflowExecutionTimeout options) (swo_SearchAttributes options) (swo_Memo options)
               reusePolicy (get_string (swo_CronSchedule options)) retryPolicy
               (default 0%Z (swo_WorkflowStartDelay options))) (Interpreter input))
    end.

Definition cadence_wait_options (options : StartWorkflowOptions) : cadence_StartWorkflowOptions :=
  mkcadence_StartWorkflowOptions (swo_ID options) (swo_TaskQueue options)
    (swo_WorkflowExecutionTimeout options) ∅ ∅ ReuseAllowDuplicateFailedOnly EmptyString None 0.

(** Already started is no error here: the run that waits.  The type assertion
    panics on a wrapped error. *)
Definition cadence_StartWaitForStateCompletionWorkflow (options : StartWorkflowOptions) :
  proc cadenceE (string + error) :=
  run ← ask (C_StartWorkflow (cadence_wait_options options) WaitforStateCompletionWorkflow);
  match run with
  | inl runId => mret (inl runId)
  | inr err =>
      match as_WorkflowExecutionAlreadyStartedError (cc_sdk t) err with
      | Some runId =>
          if is_unwrapped (cc_sdk t) err then mret (inl runId) else Throw "interface conversion"
      | None => mret (inr err)
      end
  end.

Definition cadence_StartBlobStoreCleanupWorkflow (taskQueue workflowID cronSchedule storeId : string) :
  proc cadenceE (option error) :=
  r ← ask (C_StartWorkflow (mkcadence_StartWorkflowOptions workflowID taskQueue
             (365 * 24 * 3600 * SecondNs) ∅ ∅ ReuseUnspecified cronSchedule None 0)
             (BlobStoreCleanup storeId));
  mret match r with inl _ => None | inr err => Some err end.

Definition cadence_SignalWithStart (options : StartWorkflowOptions)
  (stateCompletionOutput : StateCompletionOutput) : proc cadenceE (option error) :=
  ask (C_SignalWithStartWorkflow (swo_ID options) StateCompletionSignalChannelName
         stateCompletionOutput (cadence_wait_options options) WaitforStateCompletionWorkflow).

(** ** Reading workflows *)

(** [*exe.Execution.WorkflowId] *)
Fixpoint cadence_entries (executions : list (option string * option string)) :
  gores (list WorkflowSearchResponseEntry) :=
  match executions with
  | [] => Ret []
  | (wid, rid) :: rest =>
      wid ← deref wid; rid ← deref rid; l ← cadence_entries rest;
      Ret (mkWorkflowSearchResponseEntry wid rid :: l)
  end.

Definition cadence_ListWorkflow (request : ListWorkflowExecutionsRequest) :
  proc cadenceE (ListWorkflowExecutionsResponse + error) :=
  r ← ask (C_ListWorkflow (lw_PageSize request) (lw_Query request) (lw_NextPageToken request));
  match r with
  | inr err => mret (inr err)
  | inl (executions, token) =>
      l ← of_gores (cadence_entries executions);
      mret (inl (mkListWorkflowExecutionsResponse l token))
  end.

Definition cadence_QueryWorkflow {T} (workflowID runID : string) (q : query T) :
  proc cadenceE (T + error) :=
  query_with_retry (ask (C_QueryWorkflow workflowID runID q)) (fun d => ask (C_Sleep d))
    (as_QueryFailedError (cc_sdk t)) (cc_queryWorkflowFailedRetryPolicy t).

Definition cadence_status_to_iwf (status : option cadence_CloseStatus) : WorkflowStatus + error :=
  match status with
  | None => inl RUNNING
  | Some CloseStatusCanceled => inl CANCELED
  | Some CloseStatusContinuedAsNew => inl CONTINUED_AS_NEW
  | Some CloseStatusFailed => inl FAILED
  | Some CloseStatusTimedOut => inl TIMEOUT
  | Some CloseStatusTerminated => inl TERMINATED
  | Some CloseStatusCompleted => inl COMPLETED
  | Some (CloseStatus_other s) => inr (OtherError ("not supported status " +:+ s))
  end.

Definition decodeMemo (memo : option (gmap string string)) : gmap string EncodedObject + error :=
  try_map (FromData_EncodedObject (cc_sdk t)) (default ∅ memo).

(** A memo that does not decode is dropped. *)
Definition cadence_DescribeWorkflowExecution (workflowID runID : string)
  (requestedSearchAttributes : list SearchAttributeKeyAndType) :
  proc cadenceE (DescribeWorkflowExecutionResponse + error) :=
  resp ← ask (C_DescribeWorkflowExecution workflowID runID);
  match resp with
  | inr err => mret (inr err)
  | inl resp =>
      match cadence_status_to_iwf (cd_CloseStatus resp) with
      | inr err => mret (inr err)
      | inl status =>
          searchAttributes ← of_gores (MapCadenceToIwfSearchAttributes (cadence_sa_decode (cc_sdk t))
                                         (cd_SearchAttributes resp) requestedSearchAttributes);
          match searchAttributes with
          | inr err => mret (inr err)
          | inl searchAttributes =>
              let memo := match decodeMemo (cd_Memo resp) with inl memo => memo | inr _ => ∅ end in
              mret (inl (mkDescribeWorkflowExecutionResponse status (cd_RunId resp) EmptyString
                           searchAttributes memo 0))
          end
      end
  end.

(** ** Reset *)

Definition cadence_first_decision (fuel : nat) (wid rid : string) : proc cadenceE (Z + error) :=
  search_pages first_decision_step
    (fun token => ask (C_GetWorkflowExecutionHistory (cc_domain t) wid rid token))
    history_failed found_or_fail fuel EmptyString 0%Z.

Definition cadence_earliest (fuel : nat) (wid rid : string) (earliestTime : Z) :
  proc cadenceE (Z + error) :=
  search_pages (earliest_step id earliestTime)
    (fun token => ask (C_GetWorkflowExecutionHistory (cc_domain t) wid rid token))
    history_failed found_or_fail fuel EmptyString 0%Z.

Definition cadence_by_state (fuel : nat) (wid rid stateId stateExecutionId : string) :
  proc cadenceE (Z + error) :=
  search_pages (state_step (FromData (cc_sdk t)) stateId stateExecutionId)
    (fun token => ask (C_GetWorkflowExecutionHistory (cc_domain t) wid rid token))
    history_failed state_end fuel EmptyString 0%Z.

Definition getResetIDsByType (fuel : nat) (resetType : WorkflowResetType) (wid rid : string)
  (historyEventId : Z) (earliestHistoryTimeStr stateId stateExecutionId : string) :
  proc cadenceE (Z + error) :=
  match resetType with
  | HISTORY_EVENT_ID => mret (inl historyEventId)
  | BEGINNING => cadence_first_decision fuel wid rid
  | HISTORY_EVENT_TIME =>
      now ← ask C_TimeNow;
      match ParseTime now earliestHistoryTimeStr with
      | inr err => mret (inr err)
      | inl earliestTimeUnixNano => cadence_earliest fuel wid rid earliestTimeUnixNano
      end
  | STATE_ID | STATE_EXECUTION_ID => cadence_by_state fuel wid rid stateId stateExecutionId
  | WorkflowResetType_other _ => mret (inr (OtherError "not supported resetType"))
  end.

Definition cadence_run_id (wid reqRunId : string) : proc cadenceE (string + error) :=
  if bool_decide (reqRunId = EmptyString) then
    resp ← ask (C_DescribeWorkflowExecution wid EmptyString);
    mret match resp with inl resp => inl (cd_RunId resp) | inr err => inr err end
  else mret (inl reqRunId).

Definition cadence_ResetWorkflow (fuel : nat) (request : WorkflowResetRequest) :
  proc cadenceE (string + error) :=
  let wid := rst_WorkflowId request in
  reqRunId ← cadence_run_id wid (get_string (rst_WorkflowRunId request));
  match reqRunId with
  | inr err => mret (inr err)
  | inl reqRunId =>
      found ← getResetIDsByType fuel (ResetType request) wid reqRunId
                (get_int (HistoryEventId request)) (get_string (HistoryEventTime request))
                (get_string (rst_StateId request)) (get_string (rst_StateExecutionId request));
      match found with
      | inr err => mret (inr err)
      | inl decisionFinishID =>
          requestId ← ask C_UuidNew;
          ask (C_ResetWorkflowExecution (mkcadence_ResetRequest (cc_domain t) wid reqRunId
                 (rst_Reason request) decisionFinishID requestId
                 (default false (SkipSignalReapply request))))
      end
  end.

(** ** The client *)

Definition cadence_call (fuel : nat) X (e : clientE X) : proc cadenceE X :=
  match e in clientE X return proc cadenceE X with
  | StartInterpreterWorkflow options input => cadence_StartInterpreterWorkflow options input
  | StartWaitForStateCompletionWorkflow options =>
      cadence_StartWaitForStateCompletionWorkflow options
  | StartBlobStoreCleanupWorkflow taskQueue workflowID cronSchedule storeId =>
      cadence_StartBlobStoreCleanupWorkflow taskQueue workflowID cronSchedule storeId
  | SignalWorkflow workflowID runID signalName ty arg =>
      ask (C_SignalWorkflow workflowID runID signalName ty arg)
  | SignalWithStartWaitForStateCompletion options output => cadence_SignalWithStart options output
  | CancelWorkflow workflowID runID => ask (C_CancelWorkflow workflowID runID)
  | TerminateWorkflow workflowID runID reason =>
      ask (C_TerminateWorkflow workflowID runID (termination_reason reason))
  | ListWorkflow request => cadence_ListWorkflow request
  | QueryWorkflow workflowID runID q => cadence_QueryWorkflow workflowID runID q
  | DescribeWorkflow workflowID runID requested =>
      cadence_DescribeWorkflowExecution workflowID runID requested
  | GetWorkflowResult deadline ty workflowID runID =>
      ask (C_GetWorkflowResult deadline ty workflowID runID)
  | SynchronousUpdateWorkflow workflowID runID updateType input =>
      mret (inr (OtherError "not supported in Cadence"))
  | ResetWorkflow request => cadence_ResetWorkflow fuel request
  end.
End cadence.

#[export] Instance cadence_client (t : cadenceClient) (fuel : nat) : UnifiedClient cadenceE := {|
  uc_errors := cadence_errorHandler t;
  uc_GetBackendType := BackendTypeCadence;
  uc_call := cadence_call t fuel
|}.
