(* ===== verification/WorkflowProviders.v ===== *)
(** * The providers over the SDKs of the backends

    interpreter/temporal/workflowProvider.go and interpreter/cadence/workflowProvider.go:
    every method of [WorkflowProvider] as a program of the calls it makes of the
    package workflow of its SDK, and both providers as implementations of the
    events [providerE].  Also interpreter/{temporal,cadence}/activityProvider.go.
    The packages of the two SDKs have the same functions ([wfE]) and differ in the
    types of the workflow's info and of the options. *)

From S2P Require Export Activity TemporalClient CadenceClient.

(** ** The SDKs *)

Record temporal_Info : Type := mktemporal_Info {
  ti_WorkflowExecution : WorkflowExecution;
  ti_WorkflowStartTime : Z;                          (* unix nanoseconds *)
  ti_WorkflowExecutionTimeout : Z;
  ti_FirstRunID : string;
  ti_SearchAttributes : option (gmap string string)
}.

Record cadence_Info : Type := mkcadence_Info {
  ci_WorkflowExecution : WorkflowExecution;
  ci_ExecutionStartToCloseTimeoutSeconds : Z;        (* int32 *)
  ci_SearchAttributes : option (gmap string string)
}.

(** The activities the interpreter runs, with the arguments after the backend. *)
Inductive activity : Type -> Type :=
| act_StateStart (input : StateStartActivityInput) (sas : list SearchAttribute) :
    activity WorkflowStateStartResponse
| act_StateApiWaitUntil (input : StateStartActivityInput) (sas : list SearchAttribute) :
    activity WorkflowStateStartResponse
| act_StateDecide (input : StateDecideActivityInput) : activity WorkflowStateDecideResponse
| act_StateApiExecute (input : StateDecideActivityInput) : activity WorkflowStateDecideResponse
| act_DumpWorkflowInternal (request : WorkflowDumpRequest) : activity WorkflowDumpResponse
| act_InvokeWorkerRpc (rpcPrep : PrepareRpcQueryResponse) (input : WorkflowRpcRequest) :
    activity InvokeRpcActivityOutput
| act_CleanupBlobStore (storeId : string) : activity unit.

(** The name under which the SDKs register a function. *)
Definition activity_name {X} (a : activity X) : string :=
  match a with
  | act_StateStart _ _ => "StateStart"
  | act_StateApiWaitUntil _ _ => "StateApiWaitUntil"
  | act_StateDecide _ => "StateDecide"
  | act_StateApiExecute _ => "StateApiExecute"
  | act_DumpWorkflowInternal _ => "DumpWorkflowInternal"
  | act_InvokeWorkerRpc _ _ => "InvokeWorkerRpc"
  | act_CleanupBlobStore _ => "CleanupBlobStore"
  end.

(** The functions of package workflow: [I] is the info of a workflow, [AO] the
    options of activities and [LO] of local ones, as the context carries them. *)
Inductive wfE (I AO LO : Type) : Type -> Type :=
| wf_GetInfo : wfE I AO LO I
| wf_UpsertSearchAttributes (attributes : gmap string iface) : wfE I AO LO (option error)
| wf_UpsertMemo (memo : gmap string memo_field) : wfE I AO LO (option error)
| wf_SetQueryHandler (queryType : string) : wfE I AO LO (option error)
| wf_SetUpdateHandlerWithOptions (updateType : string) : wfE I AO LO (option error)
| wf_NewTimer (d : Z) : wfE I AO LO nat
| wf_FutureIsReady (future : nat) : wfE I AO LO bool
| wf_FutureGet (future : nat) : wfE I AO LO (option error)
| wf_ExecuteActivity {X} (options : option AO) (backend : BackendType) (a : activity X) :
    wfE I AO LO (X + error)                          (* with Get on the future *)
| wf_ExecuteLocalActivity {X} (options : option LO) (backend : BackendType) (a : activity X) :
    wfE I AO LO (X + error)
| wf_Now : wfE I AO LO Z
| wf_Sleep (d : Z) : wfE I AO LO (option error)
| wf_IsReplaying : wfE I AO LO bool
| wf_GetVersion (changeID : string) (minSupported maxSupported : Z) : wfE I AO LO Z
| wf_ReceiveAsync {T} (ty : sigty T) (signalName : string) : wfE I AO LO (option T)
| wf_Receive {T} (ty : sigty T) (signalName : string) : wfE I AO LO T
| wf_GetUnhandledSignalNames : wfE I AO LO (list string)
| wf_NewContinueAsNewError (workflow : workflow_args) : wfE I AO LO error
| wf_outside {X} (e : providerE X) : wfE I AO LO X.  (* not a call of the SDK *)
Arguments wf_GetInfo {I AO LO}.
Arguments wf_UpsertSearchAttributes {I AO LO} _.
Arguments wf_UpsertMemo {I AO LO} _.
Arguments wf_SetQueryHandler {I AO LO} _.
Arguments wf_SetUpdateHandlerWithOptions {I AO LO} _.
Arguments wf_NewTimer {I AO LO} _.
Arguments wf_FutureIsReady {I AO LO} _.
Arguments wf_FutureGet {I AO LO} _.
Arguments wf_ExecuteActivity {I AO LO X} _ _ _.
Arguments wf_ExecuteLocalActivity {I AO LO X} _ _ _.
Arguments wf_Now {I AO LO}.
Arguments wf_Sleep {I AO LO} _.
Arguments wf_IsReplaying {I AO LO}.
Arguments wf_GetVersion {I AO LO} _ _ _.
Arguments wf_ReceiveAsync {I AO LO T} _ _.
Arguments wf_Receive {I AO LO T} _ _.
Arguments wf_GetUnhandledSignalNames {I AO LO}.
Arguments wf_NewContinueAsNewError {I AO LO} _.
Arguments wf_outside {I AO LO X} _.

Definition temporal_wfE : Type -> Type :=
  wfE temporal_Info temporal_ActivityOptions (LocalActivityOptions temporal_RetryPolicy).
Definition cadence_wfE : Type -> Type :=
  wfE cadence_Info cadence_ActivityOptions (LocalActivityOptions cadence_RetryPolicy).

(** ** Contexts

    A workflow.Context carries values and the options of activities.  The unified
    context holds one of either SDK, or anything else. *)

Record sdk_context (V AO LO : Type) : Type := mksdk_context {
  cx_values : gmap string V;
  cx_activity : option AO;
  cx_local : option LO
}.
Arguments mksdk_context {V AO LO} _ _ _.
Arguments cx_values {V AO LO} _.
Arguments cx_activity {V AO LO} _.
Arguments cx_local {V AO LO} _.

Definition WithValue {V AO LO} (c : sdk_context V AO LO) (key : string) (val : V) :
  sdk_context V AO LO := mksdk_context (<[key := val]> (cx_values c)) (cx_activity c) (cx_local c).
Definition set_activity {V AO LO} (o : AO) (c : sdk_context V AO LO) : sdk_context V AO LO :=
  mksdk_context (cx_values c) (Some o) (cx_local c).
Definition set_local {V AO LO} (o : LO) (c : sdk_context V AO LO) : sdk_context V AO LO :=
  mksdk_context (cx_values c) (cx_activity c) (Some o).

Notation temporal_Context V :=
  (sdk_context V temporal_ActivityOptions (LocalActivityOptions temporal_RetryPolicy)).
Notation cadence_Context V :=
  (sdk_context V cadence_ActivityOptions (LocalActivityOptions cadence_RetryPolicy)).

Inductive UnifiedContext (V : Type) : Type :=
| TemporalContext (c : temporal_Context V)
| CadenceContext (c : cadence_Context V)
| OtherContext.
Arguments TemporalContext {V} _.
Arguments CadenceContext {V} _.
Arguments OtherContext {V}.

(** The configuration a provider reads: env.CheckAndGetTemporalMemoEncryptionDataConverter,
    and the SDK's decoder of search attributes. *)
Record provider_env : Type := mkprovider_env {
  pe_ToPayload : EncodedObject -> string + error;
  pe_shouldEncrypt : bool;
  pe_sa_decode : string -> option iface
}.

(** ** The Temporal provider *)

Section temporal.
Context (env : provider_env) {V : Type}.
Notation P A := (proc temporal_wfE A).

Definition temporal_wfCtx (ctx : UnifiedContext V) : P (temporal_Context V) :=
  match ctx with
  | TemporalContext c => mret c
  | _ => Throw "cannot convert to temporal workflow context"
  end.

Definition temporal_GetBackendType : BackendType := BackendTypeTemporal.

Definition temporal_NewInterpreterContinueAsNewError (ctx : UnifiedContext V)
  (input : InterpreterWorkflowInput) : P error :=
  _ ← temporal_wfCtx ctx; ask (wf_NewContinueAsNewError (Interpreter input)).

Definition temporal_UpsertSearchAttributes (ctx : UnifiedContext V) (attributes : gmap string iface) :
  P (option error) :=
  _ ← temporal_wfCtx ctx; ask (wf_UpsertSearchAttributes attributes).

(** [memo[key] = pl] for the sorted keys, until a value does not convert. *)
Fixpoint encrypt_loop (rawMemo : gmap string EncodedObject) (keys : list string)
  (memo : gmap string memo_field) : gmap string memo_field + error :=
  match keys with
  | [] => inl memo
  | key :: rest =>
      match pe_ToPayload env (map_get (mkEncodedObject None None None None) rawMemo key) with
      | inr err => inr err
      | inl pl => encrypt_loop rawMemo rest (<[key := MemoPayload pl]> memo)
      end
  end.

Definition upserted_memo (rawMemo : gmap string EncodedObject) : gmap string memo_field + error :=
  if pe_shouldEncrypt env then encrypt_loop rawMemo (DeterministicKeys rawMemo) ∅
  else inl (foldl (fun memo key =>
         <[key := MemoValue (map_get (mkEncodedObject None None None None) rawMemo key)]> memo) ∅
         (DeterministicKeys rawMemo)).

Definition temporal_UpsertMemo (ctx : UnifiedContext V) (rawMemo : gmap string EncodedObject) :
  P (option error) :=
  _ ← temporal_wfCtx ctx;
  match upserted_memo rawMemo with
  | inr err => mret (Some err)
  | inl memo => ask (wf_UpsertMemo memo)
  end.

Definition temporal_NewTimer (ctx : UnifiedContext V) (d : Z) : P nat :=
  _ ← temporal_wfCtx ctx; ask (wf_NewTimer d).

Definition temporal_GetWorkflowInfo (ctx : UnifiedContext V) : P WorkflowInfo :=
  _ ← temporal_wfCtx ctx;
  info ← ask wf_GetInfo;
  mret (mkWorkflowInfo
          (mkWorkflowExecution (ID (ti_WorkflowExecution info)) (RunID (ti_WorkflowExecution info)))
          (ti_WorkflowStartTime info) (ti_WorkflowExecutionTimeout info) (ti_FirstRunID info)
          (RunID (ti_WorkflowExecution info))).

Definition temporal_GetSearchAttributes (ctx : UnifiedContext V)
  (requestedSearchAttributes : list SearchAttributeKeyAndType) :
  P (gmap string SearchAttribute + error) :=
  _ ← temporal_wfCtx ctx;
  info ← ask wf_GetInfo;
  of_gores (MapTemporalToIwfSearchAttributes (pe_sa_decode env) (ti_SearchAttributes info)
              requestedSearchAttributes).

Definition temporal_SetQueryHandler (ctx : UnifiedContext V) (queryType : string) : P (option error) :=
  _ ← temporal_wfCtx ctx; ask (wf_SetQueryHandler queryType).

Definition temporal_SetRpcUpdateHandler (ctx : UnifiedContext V) (updateType : string) :
  P (option error) :=
  _ ← temporal_wfCtx ctx; ask (wf_SetUpdateHandlerWithOptions updateType).

Definition temporal_ExtendContextWithValue (parent : UnifiedContext V) (key : string) (val : V) :
  P (UnifiedContext V) :=
  c ← temporal_wfCtx parent; mret (TemporalContext (WithValue c key val)).

(** The new context, and the options as they are left. *)
Definition temporal_provider_WithActivityOptions (ctx : UnifiedContext V) (options : ActivityOptions) :
  P (UnifiedContext V * ActivityOptions) :=
  c ← temporal_wfCtx ctx;
  let '(activityOptions, localOptions, options) := temporal_WithActivityOptions options in
  mret (TemporalContext (set_local localOptions (set_activity activityOptions c)), options).

Definition temporal_FutureGet (ctx : UnifiedContext V) (future : nat) : P (option error) :=
  _ ← temporal_wfCtx ctx; ask (wf_FutureGet future).

(** The SDK's functions that run an activity, in a context. *)
Definition temporal_runs_activity {X} (c : temporal_Context V) (a : activity X) (R : Type)
  (e : activityE X R) : P R :=
  match e in activityE _ R return P R with
  | RunLocalActivity => ask (wf_ExecuteLocalActivity (cx_local c) temporal_GetBackendType a)
  | RunActivity => ask (wf_ExecuteActivity (cx_activity c) temporal_GetBackendType a)
  end.

Definition temporal_ExecuteActivity {X} (optimizeByLocalActivity : bool) (ctx : UnifiedContext V)
  (a : activity X) : P (X + error) :=
  c ← temporal_wfCtx ctx;
  translate (temporal_runs_activity c a) (ExecuteActivity optimizeByLocalActivity).

Definition temporal_ExecuteLocalActivity {X} (ctx : UnifiedContext V) (a : activity X) :
  P (X + error) :=
  c ← temporal_wfCtx ctx; ask (wf_ExecuteLocalActivity (cx_local c) temporal_GetBackendType a).

Definition temporal_Now (ctx : UnifiedContext V) : P Z :=
  _ ← temporal_wfCtx ctx; ask wf_Now.

Definition temporal_Sleep (ctx : UnifiedContext V) (d : Z) : P (option error) :=
  _ ← temporal_wfCtx ctx; ask (wf_Sleep d).

Definition temporal_IsReplaying (ctx : UnifiedContext V) : P bool :=
  _ ← temporal_wfCtx ctx; ask wf_IsReplaying.

Definition temporal_GetVersion (ctx : UnifiedContext V) (changeID : string)
  (minSupported maxSupported : Z) : P Z :=
  _ ← temporal_wfCtx ctx; ask (wf_GetVersion changeID minSupported maxSupported).

(** [GetSignalChannel(ctx, signalName)] and the two receives of its channel. *)
Definition temporal_ReceiveAsync {T} (ctx : UnifiedContext V) (ty : sigty T) (signalName : string) :
  P (option T) :=
  _ ← temporal_wfCtx ctx; ask (wf_ReceiveAsync ty signalName).

Definition temporal_ReceiveBlocking {T} (ctx : UnifiedContext V) (ty : sigty T) (signalName : string) :
  P T :=
  _ ← temporal_wfCtx ctx; ask (wf_Receive ty signalName).

Definition temporal_GetContextValue (ctx : UnifiedContext V) (key : string) : P (option V) :=
  c ← temporal_wfCtx ctx; mret (cx_values c !! key).

Definition temporal_GetUnhandledSignalNames (ctx : UnifiedContext V) : P (list string) :=
  _ ← temporal_wfCtx ctx; ask wf_GetUnhandledSignalNames.

(** An activity in the context with its options. *)
Definition temporal_with_options {X} (ctx : UnifiedContext V) (options : ActivityOptions)
  (run : UnifiedContext V -> P X) : P X :=
  '(ctx, _) ← temporal_provider_WithActivityOptions ctx options; run ctx.

(** The calls of the interpreter on this provider. *)
Definition temporal_provider (w : workflowProvider) (ctx : UnifiedContext V) (X : Type)
  (e : providerE X) : P X :=
  match e in providerE X return P X with
  | GetWorkflowInfo => temporal_GetWorkflowInfo ctx
  | GetSearchAttributes requested => temporal_GetSearchAttributes ctx requested
  | UpsertSearchAttributes attributes => temporal_UpsertSearchAttributes ctx attributes
  | UpsertMemo memo => temporal_UpsertMemo ctx memo
  | SetQueryHandler queryType => temporal_SetQueryHandler ctx queryType
  | SetRpcUpdateHandler updateType => temporal_SetRpcUpdateHandler ctx updateType
  | GetThreadCount => mret (threadCount w)
  | Now => temporal_Now ctx
  | IsReplaying => temporal_IsReplaying ctx
  | Sleep d => temporal_Sleep ctx d
  | NewTimer d => temporal_NewTimer ctx d
  | IsReady future => ask (wf_FutureIsReady future)
  | FutureGet future => temporal_FutureGet ctx future
  | ReceiveAsync ty signalName => temporal_ReceiveAsync ctx ty signalName
  | ReceiveBlocking ty signalName => temporal_ReceiveBlocking ctx ty signalName
  | GetVersion changeID minSupported maxSupported =>
      temporal_GetVersion ctx changeID minSupported maxSupported
  | GetUnhandledSignalNames => temporal_GetUnhandledSignalNames ctx
  | GetBackendType => mret temporal_GetBackendType
  | NewInterpreterContinueAsNewError input => temporal_NewInterpreterContinueAsNewError ctx input
  | ExecuteStateStart optimize options renamedApi input sas =>
      temporal_with_options ctx options (fun ctx => temporal_ExecuteActivity optimize ctx
        (if renamedApi then act_StateApiWaitUntil input sas else act_StateStart input sas))
  | ExecuteStateDecide optimize options renamedApi input =>
      temporal_with_options ctx options (fun ctx => temporal_ExecuteActivity optimize ctx
        (if renamedApi then act_StateApiExecute input else act_StateDecide input))
  | ExecuteDumpWorkflowInternal options request =>
      temporal_with_options ctx options (fun ctx =>
        temporal_ExecuteActivity false ctx (act_DumpWorkflowInternal request))
  | ExecuteInvokeWorkerRpc local optimize options rpcPrep input =>
      temporal_with_options ctx options (fun ctx =>
        if local then temporal_ExecuteLocalActivity ctx (act_InvokeWorkerRpc rpcPrep input)
        else temporal_ExecuteActivity optimize ctx (act_InvokeWorkerRpc rpcPrep input))
  | ExecuteCleanupBlobStore options storeId =>
      temporal_with_options ctx options (fun ctx =>
        r ← temporal_ExecuteActivity false ctx (act_CleanupBlobStore storeId);
        mret (match r with inl _ => None | inr err => Some err end))
  | TimeNow => ask (wf_outside TimeNow)
  | HandleEvent event => ask (wf_outside (HandleEvent event))
  | SignalWithStartOn => ask (wf_outside SignalWithStartOn)
  | SignalWithStartWaitForStateCompletionWorkflow workflowId =>
      ask (wf_outside (SignalWithStartWaitForStateCompletionWorkflow workflowId))
  | IsWorkflowAlreadyStartedError err => ask (wf_outside (IsWorkflowAlreadyStartedError err))
  end.
End temporal.

(** ** The Cadence provider *)

Section cadence.
Context (env : provider_env) {V : Type}.
Notation P A := (proc cadence_wfE A).

Definition cadence_wfCtx (ctx : UnifiedContext V) : P (cadence_Context V) :=
  match ctx with
  | CadenceContext c => mret c
  | _ => Throw "cannot convert to cadence workflow context"
  end.

Definition cadence_GetBackendType : BackendType := BackendTypeCadence.

Definition cadence_NewInterpreterContinueAsNewError (ctx : UnifiedContext V)
  (input : InterpreterWorkflowInput) : P error :=
  _ ← cadence_wfCtx ctx; ask (wf_NewContinueAsNewError (Interpreter input)).

Definition cadence_UpsertSearchAttributes (ctx : UnifiedContext V) (attributes : gmap string iface) :
  P (option error) :=
  _ ← cadence_wfCtx ctx; ask (wf_UpsertSearchAttributes attributes).

Definition cadence_UpsertMemo (ctx : UnifiedContext V) (memo : gmap string EncodedObject) :
  P (option error) :=
  mret (Some (OtherError "upsert memo is not supported in Cadence")).

Definition cadence_NewTimer (ctx : UnifiedContext V) (d : Z) : P nat :=
  _ ← cadence_wfCtx ctx; ask (wf_NewTimer d).

(** The start time and the id of the first run are not known. *)
Definition cadence_GetWorkflowInfo (ctx : UnifiedContext V) : P WorkflowInfo :=
  _ ← cadence_wfCtx ctx;
  info ← ask wf_GetInfo;
  mret (mkWorkflowInfo
          (mkWorkflowExecution (ID (ci_WorkflowExecution info)) (RunID (ci_WorkflowExecution info)))
          0 (seconds_duration (ci_ExecutionStartToCloseTimeoutSeconds info))
          (RunID (ci_WorkflowExecution info)) (RunID (ci_WorkflowExecution info))).

Definition cadence_GetSearchAttributes (ctx : UnifiedContext V)
  (requestedSearchAttributes : list SearchAttributeKeyAndType) :
  P (gmap string SearchAttribute + error) :=
  _ ← cadence_wfCtx ctx;
  info ← ask wf_GetInfo;
  of_gores (MapCadenceToIwfSearchAttributes (pe_sa_decode env) (ci_SearchAttributes info)
              requestedSearchAttributes).

Definition cadence_SetQueryHandler (ctx : UnifiedContext V) (queryType : string) : P (option error) :=
  _ ← cadence_wfCtx ctx; ask (wf_SetQueryHandler queryType).

(** The feature is not available in Cadence. *)
Definition cadence_SetRpcUpdateHandler (ctx : UnifiedContext V) (updateType : string) :
  P (option error) := mret None.

Definition cadence_ExtendContextWithValue (parent : UnifiedContext V) (key : string) (val : V) :
  P (UnifiedContext V) :=
  c ← cadence_wfCtx parent; mret (CadenceContext (WithValue c key val)).

(** The new context, and the options as they are left. *)
Definition cadence_provider_WithActivityOptions (ctx : UnifiedContext V) (options : ActivityOptions) :
  P (UnifiedContext V * ActivityOptions) :=
  c ← cadence_wfCtx ctx;
  let '(activityOptions, localOptions, options) := cadence_WithActivityOptions options in
  mret (CadenceContext (set_local localOptions (set_activity activityOptions c)), options).

Definition cadence_FutureGet (ctx : UnifiedContext V) (future : nat) : P (option error) :=
  _ ← cadence_wfCtx ctx; ask (wf_FutureGet future).

(** The SDK's functions that run an activity, in a context. *)
Definition cadence_runs_activity {X} (c : cadence_Context V) (a : activity X) (R : Type)
  (e : activityE X R) : P R :=
  match e in activityE _ R return P R with
  | RunLocalActivity => ask (wf_ExecuteLocalActivity (cx_local c) cadence_GetBackendType a)
  | RunActivity => ask (wf_ExecuteActivity (cx_activity c) cadence_GetBackendType a)
  end.

Definition cadence_ExecuteActivity {X} (optimizeByLocalActivity : bool) (ctx : UnifiedContext V)
  (a : activity X) : P (X + error) :=
  c ← cadence_wfCtx ctx;
  translate (cadence_runs_activity c a) (ExecuteActivity optimizeByLocalActivity).

Definition cadence_ExecuteLocalActivity {X} (ctx : UnifiedContext V) (a : activity X) :
  P (X + error) :=
  c ← cadence_wfCtx ctx; ask (wf_ExecuteLocalActivity (cx_local c) cadence_GetBackendType a).

Definition cadence_Now (ctx : UnifiedContext V) : P Z :=
  _ ← cadence_wfCtx ctx; ask wf_Now.

Definition cadence_Sleep (ctx : UnifiedContext V) (d : Z) : P (option error) :=
  _ ← cadence_wfCtx ctx; ask (wf_Sleep d).

Definition cadence_IsReplaying (ctx : UnifiedContext V) : P bool :=
  _ ← cadence_wfCtx ctx; ask wf_IsReplaying.

Definition cadence_GetVersion (ctx : UnifiedContext V) (changeID : string)
  (minSupported maxSupported : Z) : P Z :=
  _ ← cadence_wfCtx ctx; ask (wf_GetVersion changeID minSupported maxSupported).

(** [GetSignalChannel(ctx, signalName)] and the two receives of its channel. *)
Definition cadence_ReceiveAsync {T} (ctx : UnifiedContext V) (ty : sigty T) (signalName : string) :
  P (option T) :=
  _ ← cadence_wfCtx ctx; ask (wf_ReceiveAsync ty signalName).

Definition cadence_ReceiveBlocking {T} (ctx : UnifiedContext V) (ty : sigty T) (signalName : string) :
  P T :=
  _ ← cadence_wfCtx ctx; ask (wf_Receive ty signalName).

Definition cadence_GetContextValue (ctx : UnifiedContext V) (key : string) : P (option V) :=
  c ← cadence_wfCtx ctx; mret (cx_values c !! key).

Definition cadence_GetUnhandledSignalNames (ctx : UnifiedContext V) : P (list string) :=
  _ ← cadence_wfCtx ctx; ask wf_GetUnhandledSignalNames.

(** An activity in the context with its options. *)
Definition cadence_with_options {X} (ctx : UnifiedContext V) (options : ActivityOptions)
  (run : UnifiedContext V -> P X) : P X :=
  '(ctx, _) ← cadence_provider_WithActivityOptions ctx options; run ctx.

(** The calls of the interpreter on this provider. *)
Definition cadence_provider (w : workflowProvider) (ctx : UnifiedContext V) (X : Type)
  (e : providerE X) : P X :=
  match e in providerE X return P X with
  | GetWorkflowInfo => cadence_GetWorkflowInfo ctx
  | GetSearchAttributes requested => cadence_GetSearchAttributes ctx requested
  | UpsertSearchAttributes attributes => cadence_UpsertSearchAttributes ctx attributes
  | UpsertMemo memo => cadence_UpsertMemo ctx memo
  | SetQueryHandler queryType => cadence_SetQueryHandler ctx queryType
  | SetRpcUpdateHandler updateType => cadence_SetRpcUpdateHandler ctx updateType
  | GetThreadCount => mret (threadCount w)
  | Now => cadence_Now ctx
  | IsReplaying => cadence_IsReplaying ctx
  | Sleep d => cadence_Sleep ctx d
  | NewTimer d => cadence_NewTimer ctx d
  | IsReady future => ask (wf_FutureIsReady future)
  | FutureGet future => cadence_FutureGet ctx future
  | ReceiveAsync ty signalName => cadence_ReceiveAsync ctx ty signalName
  | ReceiveBlocking ty signalName => cadence_ReceiveBlocking ctx ty signalName
  | GetVersion changeID minSupported maxSupported =>
      cadence_GetVersion ctx changeID minSupported maxSupported
  | GetUnhandledSignalNames => cadence_GetUnhandledSignalNames ctx
  | GetBackendType => mret cadence_GetBackendType
  | NewInterpreterContinueAsNewError input => cadence_NewInterpreterContinueAsNewError ctx input
  | ExecuteStateStart optimize options renamedApi input sas =>
      cadence_with_options ctx options (fun ctx => cadence_ExecuteActivity optimize ctx
        (if renamedApi then act_StateApiWaitUntil input sas else act_StateStart input sas))
  | ExecuteStateDecide optimize options renamedApi input =>
      cadence_with_options ctx options (fun ctx => cadence_ExecuteActivity optimize ctx
        (if renamedApi then act_StateApiExecute input else act_StateDecide input))
  | ExecuteDumpWorkflowInternal options request =>
      cadence_with_options ctx options (fun ctx =>
        cadence_ExecuteActivity false ctx (act_DumpWorkflowInternal request))
  | ExecuteInvokeWorkerRpc local optimize options rpcPrep input =>
      cadence_with_options ctx options (fun ctx =>
        if local then cadence_ExecuteLocalActivity ctx (act_InvokeWorkerRpc rpcPrep input)
        else cadence_ExecuteActivity optimize ctx (act_InvokeWorkerRpc rpcPrep input))
  | ExecuteCleanupBlobStore options storeId =>
      cadence_with_options ctx options (fun ctx =>
        r ← cadence_ExecuteActivity false ctx (act_CleanupBlobStore storeId);
        mret (match r with inl _ => None | inr err => Some err end))
  | TimeNow => ask (wf_outside TimeNow)
  | HandleEvent event => ask (wf_outside (HandleEvent event))
  | SignalWithStartOn => ask (wf_outside SignalWithStartOn)
  | SignalWithStartWaitForStateCompletionWorkflow workflowId =>
      ask (wf_outside (SignalWithStartWaitForStateCompletionWorkflow workflowId))
  | IsWorkflowAlreadyStartedError err => ask (wf_outside (IsWorkflowAlreadyStartedError err))
  end.
End cadence.

(** ** The providers of activities *)

Record temporal_activity_Info : Type := mktemporal_activity_Info {
  tai_ScheduledTime : Z;
  tai_Attempt : Z;
  tai_IsLocalActivity : bool;
  tai_WorkflowExecution : WorkflowExecution
}.

Record cadence_activity_Info : Type := mkcadence_activity_Info {
  cai_ScheduledTimestamp : Z;
  cai_Attempt : Z;                                   (* int32, from zero *)
  cai_WorkflowExecution : WorkflowExecution
}.

Definition temporal_GetActivityInfo (info : temporal_activity_Info) : ActivityInfo :=
  mkActivityInfo (tai_ScheduledTime info) (tai_Attempt info) (tai_IsLocalActivity info)
    (mkWorkflowExecution (ID (tai_WorkflowExecution info)) (RunID (tai_WorkflowExecution info))).

Definition cadence_GetActivityInfo (info : cadence_activity_Info) : ActivityInfo :=
  mkActivityInfo (cai_ScheduledTimestamp info) (wrap32 (cai_Attempt info + 1)) false
    (mkWorkflowExecution (ID (cai_WorkflowExecution info)) (RunID (cai_WorkflowExecution info))).

(** ** The backends agree *)

(** A function of package workflow whose arguments are the same for both SDKs and
    which is there on both. *)
Definition plain_call {I AO LO I' AO' LO' X} (e : wfE I AO LO X) : option (wfE I' AO' LO' X) :=
  match e in wfE _ _ _ X return option (wfE I' AO' LO' X) with
  | wf_UpsertSearchAttributes attributes => Some (wf_UpsertSearchAttributes attributes)
  | wf_SetQueryHandler queryType => Some (wf_SetQueryHandler queryType)
  | wf_NewTimer d => Some (wf_NewTimer d)
  | wf_FutureIsReady future => Some (wf_FutureIsReady future)
  | wf_FutureGet future => Some (wf_FutureGet future)
  | wf_Now => Some wf_Now
  | wf_Sleep d => Some (wf_Sleep d)
  | wf_IsReplaying => Some wf_IsReplaying
  | wf_GetVersion changeID lo hi => Some (wf_GetVersion changeID lo hi)
  | wf_ReceiveAsync ty signalName => Some (wf_ReceiveAsync ty signalName)
  | wf_Receive ty signalName => Some (wf_Receive ty signalName)
  | wf_GetUnhandledSignalNames => Some wf_GetUnhandledSignalNames
  | wf_NewContinueAsNewError workflow => Some (wf_NewContinueAsNewError workflow)
  | wf_outside e => Some (wf_outside e)
  | _ => None
  end.

(** The options of an activity say the same to both SDKs: the same attempts, the
    same time for one attempt and for all, where Cadence's year is no bound.  Without a
    policy they do not: Temporal then retries by its defaults, Cadence not at all.  Only
    Cadence bounds the time until a worker takes the activity ([in_time]). *)
Definition same_options (t : temporal_ActivityOptions) (c : cadence_ActivityOptions) : Prop :=
  ta_HeartbeatTimeout t = ca_HeartbeatTimeout c /\
  ca_StartToCloseTimeout c =
    (if (ta_StartToCloseTimeout t =? 0)%Z then unlimited else ta_StartToCloseTimeout t) /\
  match ta_RetryPolicy t, ca_RetryPolicy c with
  | Some tp, Some cp =>
      same_policy tp cp /\ c_ExpirationInterval cp = default unlimited (temporal_total t)
  | _, _ => False
  end.

Definition same_local_options (t : LocalActivityOptions temporal_RetryPolicy)
  (c : LocalActivityOptions cadence_RetryPolicy) : Prop :=
  la_ScheduleToCloseTimeout t = la_ScheduleToCloseTimeout c /\
  match la_RetryPolicy t, la_RetryPolicy c with
  | Some tp, Some cp => same_policy tp cp
  | _, _ => False
  end.

(** The same call of the two SDKs: an activity gets options that say the same, and
    the backend it runs on. *)
Inductive same_call : forall X, temporal_wfE X -> cadence_wfE X -> Prop :=
| same_plain X (e : temporal_wfE X) (e' : cadence_wfE X) :
    plain_call e = Some e' -> same_call X e e'
| same_activity X (a : activity X) t c :
    same_options t c ->
    same_call (X + error) (wf_ExecuteActivity (Some t) BackendTypeTemporal a)
      (wf_ExecuteActivity (Some c) BackendTypeCadence a)
| same_local_activity X (a : activity X) t c :
    same_local_options t c ->
    same_call (X + error) (wf_ExecuteLocalActivity (Some t) BackendTypeTemporal a)
      (wf_ExecuteLocalActivity (Some c) BackendTypeCadence a).

(** The options have a retry policy, of numbers of 32 bits. *)
Definition options_ok (o : ActivityOptions) : Prop :=
  exists p, ao_RetryPolicy o = Some p /\ policy_ok p.

(** What does not depend on the backend: all but the features only Temporal has, the
    description of the workflow with its search attributes, the name of the backend,
    and activities without a retry policy. *)
Definition portable {X} (e : providerE X) : Prop :=
  match e with
  | UpsertMemo _ | SetRpcUpdateHandler _ | GetBackendType | GetWorkflowInfo
  | GetSearchAttributes _ => False
  | ExecuteStateStart _ o _ _ _ | ExecuteStateDecide _ o _ _ | ExecuteDumpWorkflowInternal o _
  | ExecuteInvokeWorkerRpc _ _ o _ _ | ExecuteCleanupBlobStore o _ => options_ok o
  | _ => True
  end.

Lemma options_agree o :
  options_ok o ->
  let '(t, tl, _) := temporal_WithActivityOptions o in
  let '(c, cl, _) := cadence_WithActivityOptions o in
  same_options t c /\ same_local_options tl cl.
Proof.
  intros (p & Ep & Hok).
  - pose proof (activity_options_equivalent o p Ep Hok) as H.
    destruct (temporal_WithActivityOptions o) as [[t tl] t_left] eqn:Et.
    destruct (cadence_WithActivityOptions o) as [[c cl] c_left] eqn:Ec.
    destruct H as (tp & cp & Ht & Hc & Hs & Hlt & Hlc & _ & _ & _ & _ & Htot & _).
    unfold temporal_WithActivityOptions, cadence_WithActivityOptions in Et, Ec.
    rewrite Ep in Et, Ec. cbn in Et, Ec. injection Et as <- <- _. injection Ec as <- <- _.
    cbn in *. injection Ht as <-. injection Hc as <-. split; split_and!; try done.
    unfold cadence_total in Htot. cbn in Htot. injection Htot as Htot. by rewrite Htot.
Qed.

(** Cadence's options give a worker ten seconds to take the activity, Temporal's any
    time, and without a policy neither SDK gets one. *)
Lemma options_differ o :
  let '(t, tl, _) := temporal_WithActivityOptions o in
  let '(c, cl, _) := cadence_WithActivityOptions o in
  ca_ScheduleToStartTimeout c = (10 * SecondNs)%Z /\
  (ao_RetryPolicy o = None -> ta_RetryPolicy t = None /\ ca_RetryPolicy c = None /\
     la_RetryPolicy tl = None /\ la_RetryPolicy cl = None /\ ~ same_options t c /\ ~ same_local_options tl cl).
Proof.
  unfold temporal_WithActivityOptions, cadence_WithActivityOptions.
  destruct (ao_RetryPolicy o) as [p|]; cbn; (split; [reflexivity|]); [done|intros _].
  split_and!; try done; [by intros (_ & _ & [])|by intros (_ & [])].
Qed.

Section agreement.
Context {V W : Type} (ht : forall X, temporal_wfE X -> M W X) (hc : forall X, cadence_wfE X -> M W X).

(** The time until a worker takes an activity, which Cadence's options bound. *)
Context (start_delay : forall X, activity X -> W -> Z).
Definition in_time {X} (e : cadence_wfE X) (w : W) : Prop :=
  match e with
  | wf_ExecuteActivity o _ a => forall c, o = Some c -> (start_delay _ a w <= ca_ScheduleToStartTimeout c)%Z
  | _ => True
  end.

(** The SDKs answer the same to the same call, if an activity is taken in time, and the
    workers of Cadence take each within ten seconds. *)
Hypothesis agree : forall X e e', same_call X e e' -> forall w, in_time e' w -> ht X e w = hc X e' w.
Hypothesis prompt : forall X (a : activity X) w, (start_delay X a w <= 10 * SecondNs)%Z.

Lemma ask_agree X e e' w : same_call X e e' -> in_time e' w -> interp ht (ask e) w = interp hc (ask e') w.
Proof. intros H Ht. cbn. unfold mbind, M_bind. by rewrite (agree _ _ _ H w Ht). Qed.

Lemma bind_agree {A B : Type} (p : proc temporal_wfE A) (q : proc cadence_wfE A) f g w :
  interp ht p w = interp hc q w ->
  (forall a w, interp ht (f a) w = interp hc (g a) w) ->
  interp ht (proc_bind (B := B) p f) w = interp hc (proc_bind q g) w.
Proof. intros Hp Hf. rewrite !interp_bind, Hp. destruct (interp hc q w) as [[]|]; auto. Qed.

(** The contexts carry options that say the same. *)
Definition same_context (c : temporal_Context V) (c' : cadence_Context V) : Prop :=
  exists t tl k kl, cx_activity c = Some t /\ cx_local c = Some tl /\ cx_activity c' = Some k /\
    cx_local c' = Some kl /\ same_options t k /\ same_local_options tl kl /\
    ca_ScheduleToStartTimeout k = (10 * SecondNs)%Z.

Lemma with_options_agree {A} (run : UnifiedContext V -> proc temporal_wfE A)
  (run' : UnifiedContext V -> proc cadence_wfE A) c c' o s :
  options_ok o ->
  (forall c c', same_context c c' -> forall s,
     interp ht (run (TemporalContext c)) s = interp hc (run' (CadenceContext c')) s) ->
  interp ht (temporal_with_options (TemporalContext c) o run) s =
  interp hc (cadence_with_options (CadenceContext c') o run') s.
Proof.
  intros Hok Hrun. pose proof (options_agree o Hok) as H. pose proof (options_differ o) as Hd.
  unfold temporal_with_options, cadence_with_options, temporal_provider_WithActivityOptions,
    cadence_provider_WithActivityOptions.
  destruct (temporal_WithActivityOptions o) as [[t tl] tr].
  destruct (cadence_WithActivityOptions o) as [[k kl] kr]. destruct H as [Ho Hl], Hd as [Hd _].
  cbn [temporal_wfCtx cadence_wfCtx mbind proc_mbind proc_bind mret proc_ret]. apply Hrun.
  by exists t, tl, k, kl.
Qed.

Lemma local_activity_agree {X} (a : activity X) c c' s :
  same_context c c' ->
  interp ht (temporal_ExecuteLocalActivity (TemporalContext c) a) s =
  interp hc (cadence_ExecuteLocalActivity (CadenceContext c') a) s.
Proof.
  intros (t & tl & k & kl & Et & Etl & Ek & Ekl & Ho & Hl & Hd). apply ask_agree; [|done].
  rewrite Etl, Ekl. by constructor.
Qed.

Lemma activity_agree {X} (a : activity X) optimize c c' s :
  same_context c c' ->
  interp ht (temporal_ExecuteActivity optimize (TemporalContext c) a) s =
  interp hc (cadence_ExecuteActivity optimize (CadenceContext c') a) s.
Proof.
  intros (t & tl & k & kl & Et & Etl & Ek & Ekl & Ho & Hl & Hd).
  assert (forall w, in_time (wf_ExecuteActivity (cx_activity c') BackendTypeCadence a) w) as Hin
    by (intros w c0; rewrite Ek; intros [= <-]; rewrite Hd; apply prompt).
  assert (same_call _ (wf_ExecuteActivity (cx_activity c) BackendTypeTemporal a)
            (wf_ExecuteActivity (cx_activity c') BackendTypeCadence a)) as Ha
    by (rewrite Et, Ek; by constructor).
  destruct optimize; cbn -[ask].
  - apply bind_agree; [apply ask_agree; [rewrite Etl, Ekl; by constructor|done]|]. intros [r|r] s'; [done|].
    by apply bind_agree; [apply ask_agree; [|apply Hin]|].
  - by apply bind_agree; [apply ask_agree; [|apply Hin]|].
Qed.

(** C30: the interpreter runs the same on both backends: every call of the provider
    that does not depend on the backend ([portable]: all but memos, updates, the
    description of the workflow with its search attributes, the name of the backend,
    and activities without a retry policy, for which the SDKs have other defaults) does
    the same on SDKs that answer the same to the same calls, whatever the contexts
    hold, as long as Cadence's workers take an activity within the ten seconds that
    only Cadence's options have; activities get the same attempts and the same time
    for them, and an optimised activity falls back in the same way. *)
Theorem backends_agree env env' w (c : temporal_Context V) (c' : cadence_Context V) {X}
  (e : providerE X) :
  portable e ->
  forall s, interp ht (temporal_provider env w (TemporalContext c) X e) s =
            interp hc (cadence_provider env' w (CadenceContext c') X e) s.
Proof.
  intros He s. destruct e; try done; cbn [portable] in He;
    cbn [temporal_provider cadence_provider];
    try (by (apply ask_agree; [constructor|exact I])); apply with_options_agree; try done; intros k k' Hk s'.
  1-3: by apply activity_agree.
  - destruct local; [by apply local_activity_agree | by apply activity_agree].
  - by apply bind_agree; [apply activity_agree|].
Qed.
End agreement.

(** ** What only one backend has *)

(** Go's zero value, which reading a key of the map never gives. *)
Notation raw_value raw k := (map_get (mkEncodedObject None None None None) raw k).

(** The memo under encryption: the sorted keys, up to the first value that does
    not convert. *)
Lemma encrypt_loop_spec env raw keys memo :
  match encrypt_loop env raw keys memo with
  | inl memo' => forall k,
      if bool_decide (k ∈ keys)
      then exists p, pe_ToPayload env (raw_value raw k) = inl p /\ memo' !! k = Some (MemoPayload p)
      else memo' !! k = memo !! k
  | inr err => exists k, k ∈ keys /\ pe_ToPayload env (raw_value raw k) = inr err
  end.
Proof.
  revert memo. induction keys as [|key keys IH]; intros memo; cbn.
  - intros k. rewrite bool_decide_false; [done | apply not_elem_of_nil].
  - destruct (pe_ToPayload env _) as [p|err] eqn:Ep; [|by exists key; split; [left|]].
    specialize (IH (<[key := MemoPayload p]> memo)). destruct (encrypt_loop _ _ _ _) as [memo'|err].
    + intros k. specialize (IH k). rewrite (bool_decide_ext (k ∈ key :: keys) (k = key \/ k ∈ keys))
        by apply elem_of_cons.
      do 2 case_bool_decide; try (naive_solver; fail).
      * destruct H0 as [->|]; [|done]. rewrite lookup_insert_eq in IH. eauto.
      * by rewrite lookup_insert_ne in IH by naive_solver.
    + destruct IH as (k & Hk & E). exists k. split; [by right | done].
Qed.

Lemma memo_loop_spec (raw : gmap string EncodedObject) keys (memo : gmap string memo_field) k :
  foldl (fun memo key =>
    <[key := MemoValue (raw_value raw key)]> memo) memo keys !! k =
  if bool_decide (k ∈ keys)
  then Some (MemoValue (raw_value raw k)) else memo !! k.
Proof.
  revert memo. induction keys as [|key keys IH]; intros memo; cbn.
  - rewrite bool_decide_false; [done | apply not_elem_of_nil].
  - rewrite IH. destruct (decide (k = key)) as [->|Hk].
    + rewrite (bool_decide_true (key ∈ key :: keys)) by (by left).
      by rewrite lookup_insert_eq; case_bool_decide.
    + rewrite lookup_insert_ne by done.
      rewrite (bool_decide_ext (k ∈ key :: keys) (k ∈ keys)); [done|].
      rewrite elem_of_cons. naive_solver.
Qed.

Lemma keys_lookup (raw : gmap string EncodedObject) k :
  if bool_decide (k ∈ DeterministicKeys raw)
  then exists v, raw !! k = Some v /\ raw_value raw k = v
  else raw !! k = None.
Proof.
  unfold DeterministicKeys, map_get. case_bool_decide as Hk; rewrite elem_of_sorted_keys in Hk.
  - destruct Hk as [v ->]. by exists v.
  - by apply eq_None_not_Some.
Qed.

(** What is handed to the SDK, on every path of the upsert. *)
Lemma upserted_fields env t memo :
  pe_ToPayload env = ToPayload (tc_sdk t) -> pe_shouldEncrypt env = memoEncryption t ->
  match upserted_memo env memo with
  | inl fields => forall k, match memo !! k with
      | Some v => exists f, fields !! k = Some f /\ field_of t v f
      | None => fields !! k = None
      end
  | inr err => exists k v, memo !! k = Some v /\ ToPayload (tc_sdk t) v = inr err
  end.
Proof.
  intros Hto Henc. unfold upserted_memo, field_of. rewrite Henc. destruct (memoEncryption t).
  - pose proof (encrypt_loop_spec env memo (DeterministicKeys memo) ∅) as H. rewrite Hto in H.
    destruct (encrypt_loop _ _ _ _) as [fields|err].
    + intros k. specialize (H k). pose proof (keys_lookup memo k) as Hl. case_bool_decide.
      * destruct Hl as (v & -> & Hv). rewrite Hv in H. destruct H as (p & Hp & Hf). eauto.
      * rewrite Hl. by rewrite H, lookup_empty.
    + destruct H as (k & Hk & E). pose proof (keys_lookup memo k) as Hl.
      rewrite bool_decide_true in Hl by done. destruct Hl as (v & Hm & Hv). rewrite Hv in E. eauto.
  - intros k. rewrite memo_loop_spec. pose proof (keys_lookup memo k) as Hl. case_bool_decide.
    + destruct Hl as (v & -> & Hv). rewrite Hv. eauto.
    + by rewrite Hl, lookup_empty.
Qed.

(** C29: attributes kept in the memo survive: what a workflow upserts into its memo on
    Temporal is handed to the SDK in one call, encrypted exactly when the provider
    is to encrypt, and a client with the same setting describes it as it was given;
    no call is made only when a value cannot be encrypted, and that error is
    returned.  On Cadence no call is made and the upsert is refused. *)
Theorem upserted_memo_is_described {V} env t stored (c : temporal_Context V) (ctx : UnifiedContext V) memo :
  pe_ToPayload env = ToPayload (tc_sdk t) -> pe_shouldEncrypt env = memoEncryption t ->
  memo_codecs t stored ->
  always (temporal_UpsertMemo env (TemporalContext c) memo) (fun tr r =>
    match tr with
    | [] => exists k v err, memo !! k = Some v /\ ToPayload (tc_sdk t) v = inr err /\ r = Ret (Some err)
    | _ => exists fields answer, tr = [Obs (wf_UpsertMemo fields) answer] /\ r = Ret answer /\
        getMemoAndDecryptIfNeeded t (Some (stored <$> fields)) = inl memo /\
        (memoEncryption t = true -> forall k f, fields !! k = Some f -> exists p, f = MemoPayload p)
    end) /\
  runs (cadence_UpsertMemo ctx memo) [] (Ret (Some (OtherError "upsert memo is not supported in Cadence"))).
Proof.
  intros Hto Henc Hcs. split; [|constructor]. pose proof (upserted_fields env t memo Hto Henc) as H.
  cbn -[upserted_memo getMemoAndDecryptIfNeeded]. destruct (upserted_memo env memo) as [fields|err].
  - intros answer. exists fields, answer. split_and!; [done..| |].
    + by apply stored_memo_is_described.
    + intros He k f Hf. specialize (H k). destruct (memo !! k) as [v|]; [|by rewrite H in Hf].
      destruct H as (f' & Hf' & Hd). rewrite Hf' in Hf. injection Hf as ->. unfold field_of in Hd.
      rewrite He in Hd. destruct Hd as (p & -> & _). by exists p.
  - destruct H as (k & v & Hv & E). by exists k, v, err.
Qed.

(** ** The contexts *)

(** The calls that look at the context; on Cadence memos and updates do not. *)
Definition reads_context {X} (e : providerE X) : bool :=
  match e with
  | GetThreadCount | IsReady _ | GetBackendType | TimeNow | HandleEvent _ | SignalWithStartOn
  | SignalWithStartWaitForStateCompletionWorkflow _ | IsWorkflowAlreadyStartedError _ => false
  | _ => true
  end.
Definition only_on_temporal {X} (e : providerE X) : bool :=
  match e with UpsertMemo _ | SetRpcUpdateHandler _ => true | _ => false end.

Definition of_temporal {V} (ctx : UnifiedContext V) : bool :=
  match ctx with TemporalContext _ => true | _ => false end.
Definition of_cadence {V} (ctx : UnifiedContext V) : bool :=
  match ctx with CadenceContext _ => true | _ => false end.

(** The panics of a run: none but those of the mapping of search attributes. *)
Definition no_panic_but_mapping {X} (e : providerE X) (r : gores X) : Prop :=
  match r with Ret _ => True | Panic _ => exists requested, existT X e = existT _ (GetSearchAttributes requested) end.

Lemma always_of_gores {E : Type -> Type} {X} (m : gores X) (Q : list (obs E) -> gores X -> Prop) :
  Q [] m -> always (of_gores m) Q.
Proof. by destruct m. Qed.

Ltac temporal_activity options :=
  unfold temporal_with_options, temporal_provider_WithActivityOptions;
  cbn [temporal_wfCtx mbind proc_mbind proc_bind mret proc_ret];
  destruct (temporal_WithActivityOptions options) as [[? ?] ?];
  cbn [mbind proc_mbind proc_bind mret proc_ret].
Ltac cadence_activity options :=
  unfold cadence_with_options, cadence_provider_WithActivityOptions;
  cbn [cadence_wfCtx mbind proc_mbind proc_bind mret proc_ret];
  destruct (cadence_WithActivityOptions options) as [[? ?] ?];
  cbn [mbind proc_mbind proc_bind mret proc_ret].

Lemma temporal_own_context {V} env w (c : temporal_Context V) {X} (e : providerE X) :
  always (temporal_provider env w (TemporalContext c) X e) (fun _ => no_panic_but_mapping e).
Proof.
  destruct e; cbn [temporal_provider]; try done.
  - unfold temporal_GetSearchAttributes, ask. cbn [temporal_wfCtx mbind proc_mbind proc_bind mret proc_ret always].
    intros info. apply always_of_gores. destruct (MapTemporalToIwfSearchAttributes _ _ _); cbn; eauto.
  - cbn -[upserted_memo]. by destruct (upserted_memo env memo).
  - temporal_activity options; cbn. destruct optimizeByLocalActivity; cbn; [by intros [] | done].
  - temporal_activity options; cbn. destruct optimizeByLocalActivity; cbn; [by intros [] | done].
  - temporal_activity options. done.
  - temporal_activity options; cbn. destruct local, optimizeByLocalActivity; cbn; try done; by intros [].
  - temporal_activity options. done.
Qed.

Lemma cadence_own_context {V} env w (c : cadence_Context V) {X} (e : providerE X) :
  always (cadence_provider env w (CadenceContext c) X e) (fun _ => no_panic_but_mapping e).
Proof.
  destruct e; cbn [cadence_provider]; try done.
  - unfold cadence_GetSearchAttributes, ask. cbn [cadence_wfCtx mbind proc_mbind proc_bind mret proc_ret always].
    intros info. apply always_of_gores. destruct (MapCadenceToIwfSearchAttributes _ _ _); cbn; eauto.
  - cadence_activity options; cbn. destruct optimizeByLocalActivity; cbn; [by intros [] | done].
  - cadence_activity options; cbn. destruct optimizeByLocalActivity; cbn; [by intros [] | done].
  - cadence_activity options. done.
  - cadence_activity options; cbn. destruct local, optimizeByLocalActivity; cbn; try done; by intros [].
  - cadence_activity options. done.
Qed.

(** A context of the wrong SDK is a panic before any call, of every method that
    reads its context, and a provider on a context of its own SDK panics nowhere
    but in the mapping of search attributes. *)
Theorem provider_contexts {V} env w (ctx : UnifiedContext V) {X} (e : providerE X) :
  (reads_context e = true ->
   (of_temporal ctx = false ->
    temporal_provider env w ctx X e = Throw "cannot convert to temporal workflow context") /\
   (of_cadence ctx = false -> only_on_temporal e = false ->
    cadence_provider env w ctx X e = Throw "cannot convert to cadence workflow context")) /\
  (of_temporal ctx = true -> always (temporal_provider env w ctx X e) (fun _ => no_panic_but_mapping e)) /\
  (of_cadence ctx = true -> always (cadence_provider env w ctx X e) (fun _ => no_panic_but_mapping e)).
Proof.
  split_and!.
  - intros Hr. split.
    + by destruct ctx, e.
    + by destruct ctx, e.
  - destruct ctx; try done. intros _. apply temporal_own_context.
  - destruct ctx; try done. intros _. apply cadence_own_context.
Qed.

(** The contexts a provider makes are of its SDK and keep what they held. *)
Lemma extended_context {V} (c : temporal_Context V) key val :
  runs (temporal_ExtendContextWithValue (TemporalContext c) key val) []
    (Ret (TemporalContext (WithValue c key val))) /\
  (forall c', c' = WithValue c key val ->
     runs (temporal_GetContextValue (TemporalContext c') key) [] (Ret (Some val)) /\
     forall key', key' <> key ->
       runs (temporal_GetContextValue (TemporalContext c') key') [] (Ret (cx_values c !! key'))).
Proof.
  split; [constructor|]. intros c' ->. split.
  - unfold temporal_GetContextValue. cbn. rewrite lookup_insert_eq. constructor.
  - intros key' Hk. unfold temporal_GetContextValue. cbn. rewrite lookup_insert_ne by done. constructor.
Qed.

(** ** The registry of activity providers (interfaces.go)

    Filled by the [init] functions of the two packages. *)

Definition backend_name (b : BackendType) : string :=
  match b with BackendTypeTemporal => "temporal" | BackendTypeCadence => "cadence" end.

Definition RegisterActivityProvider {P} (registry : gmap string P) (backendType : BackendType)
  (provider : P) : gores (gmap string P) :=
  if is_set (registry !! backend_name backendType)
  then Panic ("backend type " +:+ backend_name backendType +:+ " has been registered")
  else Ret (<[backend_name backendType := provider]> registry).

Definition GetActivityProviderByType {P} (registry : gmap string P) (backendType : BackendType) : gores P :=
  match registry !! backend_name backendType with
  | Some provider => Ret provider
  | None => Panic ("not supported yet: " +:+ backend_name backendType)
  end.

(** The order of the two [init] functions does not matter, and both backends are then
    known; registering one again panics. *)
Lemma activity_providers {P} (t c : P) (order : bool) :
  let register (r : gores (gmap string P)) (b : BackendType) (p : P) :=
    match r with Ret m => RegisterActivityProvider m b p | Panic msg => Panic msg end in
  let both := if order
              then register (register (Ret ∅) BackendTypeTemporal t) BackendTypeCadence c
              else register (register (Ret ∅) BackendTypeCadence c) BackendTypeTemporal t in
  exists registry, both = Ret registry /\
    GetActivityProviderByType registry BackendTypeTemporal = Ret t /\
    GetActivityProviderByType registry BackendTypeCadence = Ret c /\
    forall b p, exists msg, RegisterActivityProvider registry b p = Panic msg.
Proof.
  destruct order; cbn; eexists; (split; [reflexivity|]); unfold GetActivityProviderByType;
    (split; [reflexivity|]); (split; [reflexivity|]); intros [] p; eexists; reflexivity.
Qed.
