(* ===== verification/ClientFacts.v ===== *)
(** * Resets on both backends

    A reset finds the event it asks for, the same on both backends, however the
    history is paged. *)

From S2P Require Export TemporalClient CadenceClient.

(** ** Reset *)

Section reset.
Context {W : Type} (w : W).

(** The backend serves the history [pages] of the run, and its clock says [now]. *)
Definition temporal_serves (t : temporalClient) (h : forall X, temporalE X -> M W X) (wid rid : string)
  (now : Z) (pages : list (list (HistoryEvent (Z * Z)))) : Prop :=
  h _ T_TimeNow w = Ret (now, w) /\
  exists answer, serves answer EmptyString pages /\
    forall token, h _ (T_GetWorkflowExecutionHistory (tc_namespace t) wid rid token) w = Ret (answer token, w).

Definition cadence_serves (t : cadenceClient) (h : forall X, cadenceE X -> M W X) (wid rid : string)
  (now : Z) (pages : list (list (HistoryEvent Z))) : Prop :=
  h _ C_TimeNow w = Ret (now, w) /\
  exists answer, serves answer EmptyString pages /\
    forall token, h _ (C_GetWorkflowExecutionHistory (cc_domain t) wid rid token) w = Ret (answer token, w).

(** The event a request asks for, in the whole history. *)
Definition reset_event {T} (nanos : T -> Z) (decode : string -> StateStartActivityInput + error)
  (beginning : list (HistoryEvent T) -> Z + error) (now : Z) (resetType : WorkflowResetType)
  (historyEventId : Z) (timeStr stateId stateExecutionId : string) (history : list (HistoryEvent T)) :
  Z + error :=
  match resetType with
  | HISTORY_EVENT_ID => inl historyEventId
  | HISTORY_EVENT_TIME =>
      match ParseTime now timeStr with
      | inr err => inr err
      | inl time => reset_point_of_time nanos time history
      end
  | BEGINNING => beginning history
  | STATE_ID | STATE_EXECUTION_ID => reset_point_of_state decode stateId stateExecutionId history
  | WorkflowResetType_other _ => inr (OtherError "not supported resetType")
  end.

Definition known_reset_type (ty : WorkflowResetType) : Prop :=
  match ty with WorkflowResetType_other _ => False | _ => True end.

Lemma interp_ask {E X} (h : forall X, E X -> M W X) (e : E X) u :
  h _ e w = Ret (u, w) -> interp h (ask e) w = Ret (u, w).
Proof. intros H. cbn. unfold mbind, M_bind. by rewrite H. Qed.

Lemma temporal_reset_event t h wid rid now pages fuel resetType eventId timeStr stateId stateExecutionId :
  temporal_serves t h wid rid now pages -> length pages <= fuel -> ids_ok (concat pages) ->
  known_reset_type resetType ->
  interp h (getResetEventIDByType t fuel resetType wid rid eventId timeStr stateId stateExecutionId) w =
  Ret (with_run rid (reset_event temporal_nanos (FromPayloads (tc_sdk t)) first_task now resetType
         eventId timeStr stateId stateExecutionId (concat pages)), w).
Proof.
  intros (Hnow & answer & Hserves & Hget) Hfuel Hids Hty.
  assert (forall token, interp h (ask (T_GetWorkflowExecutionHistory (tc_namespace t) wid rid token)) w
    = Ret (answer token, w)) as Hask by (intros; apply interp_ask, Hget).
  unfold getResetEventIDByType, reset_event, mbind, proc_mbind.
  destruct resetType; try done.
  - rewrite interp_bind. unfold temporal_first_task.
    by erewrite search_pages_spec, search_of_first_task by eauto.
  - rewrite interp_bind, (interp_ask h T_TimeNow now Hnow).
    destruct (ParseTime now timeStr) as [time|err]; [|done].
    rewrite interp_bind. unfold temporal_earliest.
    by erewrite search_pages_spec, search_of_time by eauto.
  - rewrite interp_bind. unfold temporal_by_state.
    by erewrite search_pages_spec, search_of_state by eauto.
  - rewrite interp_bind. unfold temporal_by_state.
    by erewrite search_pages_spec, search_of_state by eauto.
Qed.

Lemma cadence_reset_event t h wid rid now pages fuel resetType eventId timeStr stateId stateExecutionId :
  cadence_serves t h wid rid now pages -> length pages <= fuel ->
  interp h (getResetIDsByType t fuel resetType wid rid eventId timeStr stateId stateExecutionId) w =
  Ret (reset_event id (FromData (cc_sdk t)) first_completed now resetType
         eventId timeStr stateId stateExecutionId (concat pages), w).
Proof.
  intros (Hnow & answer & Hserves & Hget) Hfuel.
  assert (forall token, interp h (ask (C_GetWorkflowExecutionHistory (cc_domain t) wid rid token)) w
    = Ret (answer token, w)) as Hask by (intros; apply interp_ask, Hget).
  unfold getResetIDsByType, reset_event, mbind, proc_mbind.
  destruct resetType; try done.
  - unfold cadence_first_decision. by erewrite search_pages_spec, search_of_first_decision by eauto.
  - rewrite interp_bind, (interp_ask h C_TimeNow now Hnow).
    destruct (ParseTime now timeStr) as [time|err]; [|done]. unfold cadence_earliest.
    by erewrite search_pages_spec, search_of_time by eauto.
  - unfold cadence_by_state. by erewrite search_pages_spec, search_of_state by eauto.
  - unfold cadence_by_state. by erewrite search_pages_spec, search_of_state by eauto.
Qed.

(** The run a request is about, the current one being [current]. *)
Definition requested_run (request : WorkflowResetRequest) (current : string) : string :=
  let runId := get_string (rst_WorkflowRunId request) in
  if bool_decide (runId = EmptyString) then current else runId.

Definition requested_event (t : temporalClient) (now : Z) (request : WorkflowResetRequest)
  (history : list (HistoryEvent (Z * Z))) : Z + error :=
  reset_event temporal_nanos (FromPayloads (tc_sdk t)) first_task now (ResetType request)
    (get_int (HistoryEventId request)) (get_string (HistoryEventTime request))
    (get_string (rst_StateId request)) (get_string (rst_StateExecutionId request)) history.

(** C12: a reset on Temporal resets the requested run, or the current one, to the event
    the request asks for in the whole history, however it is paged: the given
    event, the first task completed no earlier than a time, the first completed
    task, or the last one completed before the first activity of a state; when
    there is none, nothing is reset and the error says so. *)
Theorem reset_finds_event (t : temporalClient) (h : forall X, temporalE X -> M W X) request described now
  uuid pages fuel :
  let wid := rst_WorkflowId request in
  let rid := requested_run request (td_RunId described) in
  h _ (T_DescribeWorkflowExecution wid EmptyString) w = Ret (inl described, w) ->
  h _ T_UuidNew w = Ret (uuid, w) ->
  temporal_serves t h wid rid now pages -> length pages <= fuel -> ids_ok (concat pages) ->
  known_reset_type (ResetType request) ->
  interp h (temporal_ResetWorkflow t fuel request) w =
  match requested_event t now request (concat pages) with
  | inr err => Ret (inr err, w)
  | inl event =>
      interp h (ask (T_ResetWorkflowExecution (mktemporal_ResetRequest (tc_namespace t) wid rid
        (get_string (rst_Reason request)) event uuid (excluded_types request)))) w
  end.
Proof.
  intros wid rid Hd Hu Hserves Hfuel Hids Hty. unfold temporal_ResetWorkflow, mbind, proc_mbind.
  cbv zeta. fold wid. rewrite interp_bind.
  assert (interp h (temporal_run_id wid (get_string (rst_WorkflowRunId request))) w = Ret (inl rid, w))
    as Hrun.
  { unfold temporal_run_id, rid, requested_run. case_bool_decide; [|done].
    unfold mbind, proc_mbind. by rewrite interp_bind, (interp_ask h _ _ Hd). }
  rewrite Hrun, interp_bind. erewrite temporal_reset_event by eauto. unfold requested_event.
  destruct (reset_event _ _ _ _ _ _ _ _ _ _) as [event|err]; cbn [with_run]; [|done].
  by rewrite interp_bind, (interp_ask h _ _ Hu).
Qed.

(** *** The same event on both backends *)

Definition as_cadence (e : HistoryEvent (Z * Z)) : HistoryEvent Z :=
  mkHistoryEvent (he_EventId e) (he_EventType e) (temporal_nanos (he_EventTime e)) (he_ActivityType e)
    (he_Input e).

Lemma find_event_map p p' (history : list (HistoryEvent (Z * Z))) :
  (forall e, p' (as_cadence e) = p e) ->
  find_event p' (as_cadence <$> history) =
  match find_event p history with
  | Some (before, e) => Some (as_cadence <$> before, as_cadence e)
  | None => None
  end.
Proof.
  intros Hp. induction history as [|e history IH]; [done|]. rewrite fmap_cons. cbn [find_event].
  rewrite Hp, IH. destruct (p e); [done|]. by destruct (find_event p history) as [[]|].
Qed.

Lemma last_completed_map i (history : list (HistoryEvent (Z * Z))) :
  last_completed i (as_cadence <$> history) = last_completed i history.
Proof.
  unfold last_completed. revert i. induction history as [|e history IH]; intros i; [done|]. apply IH.
Qed.

(** C28: both backends reset to the same event of the same history, even if they page
    it differently: for a time, a state, a state execution or a given event; from
    the beginning when a task has completed, as Temporal alone falls back to the
    first scheduled one. *)
Theorem backends_reset_alike t c th ch wid rid now tpages cpages fuel resetType eventId timeStr stateId
  stateExecutionId :
  temporal_serves t th wid rid now tpages -> cadence_serves c ch wid rid now cpages ->
  as_cadence <$> concat tpages = concat cpages ->
  (forall data, FromPayloads (tc_sdk t) data = FromData (cc_sdk c) data) ->
  length tpages <= fuel -> length cpages <= fuel -> ids_ok (concat tpages) ->
  known_reset_type resetType ->
  (resetType = BEGINNING -> exists before e, find_event completed (concat tpages) = Some (before, e)) ->
  exists event,
    interp th (getResetEventIDByType t fuel resetType wid rid eventId timeStr stateId stateExecutionId) w
      = Ret (with_run rid event, w) /\
    interp ch (getResetIDsByType c fuel resetType wid rid eventId timeStr stateId stateExecutionId) w
      = Ret (event, w).
Proof.
  intros Ht Hc Hhist Hdec Hft Hfc Hids Hty Hbeg.
  erewrite temporal_reset_event, cadence_reset_event by eauto.
  eexists. split; [done|]. do 2 f_equal. rewrite <- Hhist. symmetry.
  destruct resetType; try done; unfold reset_event.
  - unfold first_task, first_completed. rewrite (find_event_map completed) by done.
    by destruct (Hbeg eq_refl) as (before & e & ->).
  - destruct (ParseTime now timeStr) as [time|]; [|done]. unfold reset_point_of_time.
    rewrite (find_event_map (fun e => completed e && (time <=? temporal_nanos (he_EventTime e))%Z)) by done.
    destruct (find_event (fun e => completed e && (time <=? temporal_nanos (he_EventTime e))%Z)
                (concat tpages)) as [[]|]; reflexivity.
  - unfold reset_point_of_state.
    rewrite (find_event_map (ends_search (FromPayloads (tc_sdk t)) stateId stateExecutionId))
      by (intros e; unfold ends_search; cbn; by rewrite Hdec).
    destruct (find_event (ends_search (FromPayloads (tc_sdk t)) stateId stateExecutionId)
                (concat tpages)) as [[before e]|]; [|done]. cbn.
    by rewrite last_completed_map, Hdec.
  - unfold reset_point_of_state.
    rewrite (find_event_map (ends_search (FromPayloads (tc_sdk t)) stateId stateExecutionId))
      by (intros e; unfold ends_search; cbn; by rewrite Hdec).
    destruct (find_event (ends_search (FromPayloads (tc_sdk t)) stateId stateExecutionId)
                (concat tpages)) as [[before e]|]; [|done]. cbn.
    by rewrite last_completed_map, Hdec.
Qed.
End reset.
