(* ===== verification/Api.v ===== *)
(** * The API service

    service/api/service.go: every handler, from the decoded request to the reply
    or the error with its status.  A handler is a program ([proc]) of the calls it
    makes: of the unified client, the external storage, the worker's RPC, the
    clock and the event handler.  [CapturePanic] is the deferred recovery. *)

From S2P Require Export Client.

(** ** The service *)

Record serviceImpl : Type := mkserviceImpl {
  client_errors : errorHandler;                       (* s.client, its errors *)
  client_GetBackendType : BackendType;
  store_set : bool;                                   (* s.store is not nil *)
  taskQueue : string;
  cfg_ExternalStorage : ExternalStorageConfig;
  cfg_DefaultWorkflowConfig : option WorkflowConfig;
  FailAtMemoIncompatibility : bool;
  cfg_MaxWaitSeconds : Z;
  OmitRpcInputOutputInHistory : option bool;
  cfg_WaitForOn : string;                             (* sharedConfig *)
  ctx_Deadline : option Z                             (* of the request, unix seconds *)
}.

Inductive apiE : Type -> Type :=
| Client {X} (e : clientE X) : apiE X
| StoreWrite (workflowId data : string) : apiE (string * string + error)
| StoreRead (storeId path : string) : apiE (string + error)
(** rpc.InvokeWorkerRpc (WorkerApi.v), which may panic. *)
| CallWorkerRpc (rpcPrep : PrepareRpcQueryResponse) (req : WorkflowRpcRequest) :
    apiE (gores (option WorkflowWorkerRpcResponse + ErrorAndStatus))
| TimeNowNs : apiE Z
| ApiHandleEvent (event : IwfEvent) : apiE unit
| OsHostname : apiE (string + error).

Notation handler A := (proc apiE (A + ErrorAndStatus)).

(** ** Errors *)

Definition StatusInternalServerError : Z := 500.
Definition StatusBadRequest : Z := 400.
Definition HttpStatusCodeSpecial4xxError2 : Z := 450.

(** The recovered panic becomes an error; its text here is the model's. *)
Fixpoint CapturePanic {E : Type -> Type} {A} (p : proc E (A + ErrorAndStatus)) :
  proc E (A + ErrorAndStatus) :=
  match p with
  | Throw msg => Fin (inr (NewErrorAndStatus StatusInternalServerError UNCATEGORIZED_SUB_STATUS msg))
  | Fin a => Fin a
  | Ask e k => Ask e (fun x => CapturePanic (k x))
  end.

(** [defer q()] *)
Fixpoint finally {A} (p : proc apiE A) (q : proc apiE unit) : proc apiE A :=
  match p with
  | Throw msg => proc_bind q (fun _ => Throw msg)
  | Fin a => proc_bind q (fun _ => Fin a)
  | Ask e k => Ask e (fun x => finally (k x) q)
  end.

Definition makeInvalidRequestError (msg : string) : ErrorAndStatus :=
  NewErrorAndStatus StatusBadRequest UNCATEGORIZED_SUB_STATUS ("invalid request - " +:+ msg).

(** [os.Hostname] may fail. *)
Definition ApiInfoHealth : proc apiE HealthInfo :=
  hostName ← ask OsHostname;
  let hostName := match hostName with inl hostName => hostName | inr _ => "Hostname Not Available" end in
  mret (mkHealthInfo (Some "OK") (Some hostName) (Some 0%Z)).

Section api.
Context (s : serviceImpl).

Definition client {X} (e : clientE X) : proc apiE X := ask (Client e).

(** Its two log lines are left out. *)
Definition handleError (err : error) (workflowId : string) : ErrorAndStatus :=
  let '(status, subStatus) := (StatusInternalServerError, UNCATEGORIZED_SUB_STATUS) in
  let '(status, subStatus) :=
    if eh_IsNotFoundError (client_errors s) err
    then (StatusBadRequest, WORKFLOW_NOT_EXISTS_SUB_STATUS) else (status, subStatus) in
  let '(status, subStatus) :=
    if eh_IsWorkflowAlreadyStartedError (client_errors s) err
    then (StatusBadRequest, WORKFLOW_ALREADY_STARTED_SUB_STATUS) else (status, subStatus) in
  let '(status, subStatus) :=
    if bool_decide (workflowId = EmptyString) && (status =? StatusInternalServerError)%Z
    then (StatusBadRequest, WORKFLOW_NOT_EXISTS_SUB_STATUS) else (status, subStatus) in
  NewErrorAndStatus status subStatus (error_text err).

(** [return nil, s.handleError(err, path, workflowId)] *)
Definition api_error {A} (err : error) (workflowId : string) : handler A :=
  mret (inr (handleError err workflowId)).

(** [if err != nil { return nil, s.handleError(...) }] *)
Definition or_error {A B} (workflowId : string) (m : proc apiE (A + error)) (f : A -> handler B) :
  handler B :=
  r ← m;
  match r with
  | inl a => f a
  | inr err => api_error err workflowId
  end.

Definition unless_error {B} (workflowId : string) (m : proc apiE (option error)) (k : handler B) :
  handler B :=
  r ← m;
  match r with
  | None => k
  | Some err => api_error err workflowId
  end.

(** ** Data attributes and the external storage *)

Definition store_call_api {X} (e : apiE X) : proc apiE X :=
  if store_set s then ask e else Throw "nil pointer dereference".

Fixpoint write_data (dataObjects : list KeyValue) (workflowId : string) :
  proc apiE (list KeyValue + error) :=
  match dataObjects with
  | [] => mret (inl [])
  | kv :: rest =>
      match oversized (ThresholdInBytes (cfg_ExternalStorage s)) (kv_Value kv) with
      | None =>
          r ← write_data rest workflowId;
          mret match r with inl l => inl (kv :: l) | inr e => inr e end
      | Some data =>
          w ← store_call_api (StoreWrite workflowId data);
          match w with
          | inr err => mret (inr err)
          | inl (storeId, path) =>
              r ← write_data rest workflowId;
              mret match r with
                   | inl l => inl (map_value (set_reference storeId path) kv :: l)
                   | inr e => inr e
                   end
          end
      end
  end.

Definition writeDataObjectsToExternalStorage (dataObjects : list KeyValue) (workflowId : string) :
  proc apiE (list KeyValue + error) :=
  if negb (Enabled (cfg_ExternalStorage s)) then mret (inl dataObjects)
  else write_data dataObjects workflowId.

(** Unlike helpers.go, the reference is kept next to the data. *)
Definition add_data (data : string) (v : EncodedObject) : EncodedObject :=
  mkEncodedObject (ExtStoreId v) (ExtPath v) (Encoding v) (Some data).

Fixpoint loadDataObjectsFromExternalStorage (dataObjects : list KeyValue) :
  proc apiE (list KeyValue + error) :=
  match dataObjects with
  | [] => mret (inl [])
  | kv :: rest =>
      match reference_of (kv_Value kv) with
      | None =>
          r ← loadDataObjectsFromExternalStorage rest;
          mret match r with inl l => inl (kv :: l) | inr e => inr e end
      | Some (storeId, path) =>
          d ← store_call_api (StoreRead storeId path);
          match d with
          | inr err => mret (inr err)
          | inl data =>
              r ← loadDataObjectsFromExternalStorage rest;
              mret match r with
                   | inl l => inl (map_value (add_data data) kv :: l)
                   | inr e => inr e
                   end
          end
      end
  end.

(** ** Starting a workflow *)

(** config.DefaultWorkflowConfig *)
Definition DefaultWorkflowConfig : WorkflowConfig :=
  mkWorkflowConfig None None (Some 100%Z) None None None.

(** The override's value when set. *)
Definition override {A} (o d : option A) : option A := match o with Some _ => o | None => d end.

Definition overrideWorkflowConfig (configOverride workflowConfig : WorkflowConfig) : WorkflowConfig :=
  mkWorkflowConfig
    (override (DisableSystemSearchAttribute configOverride) (DisableSystemSearchAttribute workflowConfig))
    (override (cfg_ExecutingStateIdMode configOverride) (cfg_ExecutingStateIdMode workflowConfig))
    (override (ContinueAsNewThreshold configOverride) (ContinueAsNewThreshold workflowConfig))
    (override (ContinueAsNewPageSizeInBytes configOverride) (ContinueAsNewPageSizeInBytes workflowConfig))
    (override (OptimizeActivity configOverride) (OptimizeActivity workflowConfig))
    (override (OptimizeTimer configOverride) (OptimizeTimer workflowConfig)).

Definition memo_value (data : string) : EncodedObject := mkEncodedObject None None None (Some data).

(** What the start options change: the client's options, the configuration, the
    initial attributes and whether the memo keeps the data attributes. *)
Record start_settings : Type := mkstart_settings {
  ss_options : StartWorkflowOptions;
  ss_config : WorkflowConfig;
  ss_initCustomSAs : list SearchAttribute;
  ss_initCustomDAs : list KeyValue;
  ss_ignoreAlreadyStartedError : bool;
  ss_requestId : option string;
  ss_useMemoForDAs : bool
}.

Definition default_settings (req : WorkflowStartRequest) : start_settings :=
  mkstart_settings
    (mkStartWorkflowOptions (sr_WorkflowId req) (taskQueue s) (WorkflowTimeoutSeconds req * SecondNs)%Z
       None None None {[ SearchAttributeIwfWorkflowType := IString (sr_IwfWorkflowType req) ]}
       {[ WorkerUrlMemoKey := memo_value (sr_IwfWorkerUrl req) ]} None)
    (default DefaultWorkflowConfig (cfg_DefaultWorkflowConfig s)) [] [] false None false.

(** [Memo[da.GetKey()] = da.GetValue()] for every data attribute. *)
Definition memo_of_attributes (das : list KeyValue) (memo : gmap string EncodedObject) :
  gmap string EncodedObject :=
  foldl (fun memo da => <[kv_GetKey da := kv_GetValue da]> memo) memo das.

Definition start_memo (startOptions : WorkflowStartOptions) (das : list KeyValue)
  (requestId : option string) (memo : gmap string EncodedObject) : gmap string EncodedObject :=
  let memo :=
    if default false (so_UseMemoForDataAttributes startOptions)
    then memo_of_attributes das (<[UseMemoForDataAttributesKey := memo_value "true"]> memo)
    else memo in
  match requestId with
  | Some id => <[WorkflowRequestId := memo_value id]> memo
  | None => memo
  end.

(** [if req.WorkflowStartOptions != nil { ... }] *)
Definition apply_start_options (req : WorkflowStartRequest) (startOptions : WorkflowStartOptions) :
  proc apiE (start_settings + error) :=
  let st := default_settings req in
  let o := ss_options st in
  reusePolicy ← of_gores (GetWorkflowIdReusePolicy (so_IdReusePolicy startOptions)
                            (so_WorkflowIDReusePolicy startOptions));
  now ← ask TimeNowNs;
  match MapToInternalSearchAttributes now (so_SearchAttributes startOptions) with
  | inr err => mret (inr err)
  | inl initialCustomSAInternal =>
      let config := match WorkflowConfigOverride startOptions with
                    | Some configOverride => overrideWorkflowConfig configOverride (ss_config st)
                    | None => ss_config st
                    end in
      let already := so_WorkflowAlreadyStartedOptions startOptions in
      let requestId := already ≫= RequestId in
      processed ← (if Enabled (cfg_ExternalStorage s)
                   then writeDataObjectsToExternalStorage (so_DataAttributes startOptions)
                          (sr_WorkflowId req)
                   else mret (inl (so_DataAttributes startOptions)));
      match processed with
      | inr err => mret (inr err)
      | inl das =>
          mret (inl (mkstart_settings
            (mkStartWorkflowOptions (swo_ID o) (swo_TaskQueue o) (swo_WorkflowExecutionTimeout o)
               reusePolicy (so_CronSchedule startOptions) (so_RetryPolicy startOptions)
               (MergeMap initialCustomSAInternal (swo_SearchAttributes o))
               (start_memo startOptions das requestId (swo_Memo o))
               ((fun d => (d * SecondNs)%Z) <$> WorkflowStartDelaySeconds startOptions))
            config (so_SearchAttributes startOptions) das
            (default false (IgnoreAlreadyStartedError <$> already)) requestId
            (default false (so_UseMemoForDataAttributes startOptions))))
      end
  end.

(** The state input, moved to the external storage when it is large. *)
Definition store_state_input (req : WorkflowStartRequest) : proc apiE (option EncodedObject + error) :=
  if negb (Enabled (cfg_ExternalStorage s)) then mret (inl (sr_StateInput req))
  else
    match ValidateWorkflowId (sr_WorkflowId req) with
    | Some err => mret (inr err)
    | None =>
        match sr_StateInput req with
        | None => mret (inl None)
        | Some input =>
            let data := get_string (Data input) in
            if (ThresholdInBytes (cfg_ExternalStorage s) <? byte_len data)%Z then
              w ← store_call_api (StoreWrite (sr_WorkflowId req) data);
              match w with
              | inr err => mret (inr err)
              | inl (storeId, path) =>
                  encoding ← of_gores (deref (Encoding input));
                  mret (inl (Some (mkEncodedObject (Some storeId) (Some path) (Some encoding) None)))
              end
            else mret (inl (Some input))
        end
    end.

Definition interpreter_input (req : WorkflowStartRequest) (st : start_settings)
  (stateInput : option EncodedObject) : InterpreterWorkflowInput :=
  mkInterpreterWorkflowInput (sr_IwfWorkflowType req) (sr_IwfWorkerUrl req) (sr_StartStateId req)
    (sr_WaitForCompletionStateExecutionIds req) (sr_WaitForCompletionStateIds req) stateInput
    (sr_StateOptions req) (ss_initCustomSAs st) (ss_initCustomDAs st) (ss_useMemoForDAs st)
    (ss_config st) false None.

(** The error of the start, unless it is the one the request ignores: then the
    run id of the workflow that is running. *)
Definition already_started (req : WorkflowStartRequest) (st : start_settings) (err : error) :
  handler WorkflowStartResponse :=
  let eh := client_errors s in
  let wid := sr_WorkflowId req in
  if eh_IsWorkflowAlreadyStartedError eh err && ss_ignoreAlreadyStartedError st then
    let runId := GetRunIdFromWorkflowAlreadyStartedError eh err in
    match ss_requestId st with
    | None => mret (inl (mkWorkflowStartResponse (Some runId)))
    | Some requestId =>
        described ← client (DescribeWorkflow wid runId []);
        match described with
        | inr _ => api_error err wid
        | inl response =>
            id ← of_gores (deref (Data (map_get empty_EncodedObject (desc_Memos response)
                                          WorkflowRequestId)));
            if bool_decide (id = requestId) then mret (inl (mkWorkflowStartResponse (Some runId)))
            else api_error err wid
        end
    end
  else api_error err wid.

Definition start_workflow (req : WorkflowStartRequest) : handler WorkflowStartResponse :=
  let wid := sr_WorkflowId req in
  or_error wid (match sr_WorkflowStartOptions req with
                | Some startOptions => apply_start_options req startOptions
                | None => mret (inl (default_settings req))
                end) (fun st =>
  or_error wid (store_state_input req) (fun stateInput =>
  started ← client (StartInterpreterWorkflow (ss_options st) (interpreter_input req st stateInput));
  match started with
  | inl runId => mret (inl (mkWorkflowStartResponse (Some runId)))
  | inr err => already_started req st err
  end)).

Definition ApiV1WorkflowStartPost (req : WorkflowStartRequest) : handler WorkflowStartResponse :=
  CapturePanic (start_workflow req).

(** ** Waiting for a state *)

Definition deadline_of (waitTimeSeconds : option Z) : proc apiE Z :=
  now ← ask TimeNowNs;
  mret (TrimContextByTimeoutWithCappedDDL (Unix now) (ctx_Deadline s) waitTimeSeconds
          (cfg_MaxWaitSeconds s)).

Definition long_poll_timeout {A} (msg : string) : handler A :=
  mret (inr (NewErrorAndStatus HttpStatusCodeSpecial4xxError1 LONG_POLL_TIME_OUT_SUB_STATUS msg)).

(** The id the workflow is waited under: of the workflow, or of its first run. *)
Definition wait_parent_id (req : WorkflowWaitForStateCompletionRequest) : proc apiE (string + error) :=
  if bool_decide (cfg_WaitForOn s = "old") then mret (inl (wc_WorkflowId req))
  else
    match client_GetBackendType s with
    | BackendTypeTemporal =>
        r ← client (DescribeWorkflow (wc_WorkflowId req) EmptyString []);
        mret match r with inl response => inl (desc_FirstRunId response) | inr e => inr e end
    | BackendTypeCadence => mret (inl (wc_WorkflowId req))
    end.

Definition hour_ns : Z := (3600 * SecondNs)%Z.

Definition ApiV1WorkflowWaitForStateCompletion (req : WorkflowWaitForStateCompletionRequest) :
  handler WorkflowWaitForStateCompletionResponse :=
  let wid := wc_WorkflowId req in
  CapturePanic (
  or_error wid (wait_parent_id req) (fun parentId =>
  workflowId ← of_gores (GetWorkflowIdForWaitForStateExecution parentId (wc_StateExecutionId req)
                           (wc_WaitForKey req) (wc_StateId req));
  let options := mkStartWorkflowOptions workflowId (taskQueue s) hour_ns None None None ∅ ∅ None in
  or_error wid (client (StartWaitForStateCompletionWorkflow options)) (fun runId =>
  deadline ← deadline_of (wc_WaitTimeSeconds req);
  r ← client (GetWorkflowResult (Some deadline) ResultStateCompletion workflowId runId);
  match r with
  | inl output => mret (inl (mkWorkflowWaitForStateCompletionResponse (Some output)))
  | inr getErr =>
      if IsRequestTimeoutError (client_errors s) getErr || IsWorkflowTimeoutError (client_errors s) getErr
      then long_poll_timeout "waiting has exceeded timeout limit, please retry"
      else api_error getErr wid
  end))).

(** ** Handlers that send a signal *)

Definition send_signal {T} (workflowId : string) (runId : option string) (name : string)
  (ty : sigty T) (arg : T) : handler unit :=
  unless_error workflowId (client (SignalWorkflow workflowId (get_string runId) name ty arg))
    (mret (inl tt)).

Definition ApiV1WorkflowSignalPost (req : WorkflowSignalRequest) : handler unit :=
  CapturePanic (send_signal (sg_WorkflowId req) (sg_WorkflowRunId req) (sg_SignalChannelName req) SigValue
    (default empty_EncodedObject (sg_SignalValue req))).

Definition ApiV1WorkflowPublishToInternalChannelPost (req : PublishToInternalChannelRequest) :
  handler unit :=
  CapturePanic (send_signal (pub_WorkflowId req) (pub_WorkflowRunId req) ExecuteRpcSignalChannelName
    SigRpc (mkExecuteRpcSignalRequest None None [] [] None [] (Messages req))).

(** The signal carries the whole request; the receiver reads its configuration. *)
Definition ApiV1WorkflowConfigUpdate (req : WorkflowConfigUpdateRequest) : handler unit :=
  CapturePanic (send_signal (cu_WorkflowId req) (cu_WorkflowRunId req) UpdateConfigSignalChannelName
    SigConfig (cu_WorkflowConfig req)).

Definition ApiV1WorkflowTriggerContinueAsNew (req : TriggerContinueAsNewRequest) : handler unit :=
  CapturePanic (send_signal (tc_WorkflowId req) (tc_WorkflowRunId req)
    TriggerContinueAsNewSignalChannelName SigTrigger tt).

Definition ApiV1WorkflowStopPost (req : WorkflowStopRequest) : handler unit :=
  let wfId := stop_WorkflowId req in
  let runId := stop_WorkflowRunId req in
  CapturePanic
  match default CANCEL (StopType req) with
  | CANCEL => unless_error wfId (client (CancelWorkflow wfId (get_string runId))) (mret (inl tt))
  | TERMINATE =>
      unless_error wfId (client (TerminateWorkflow wfId (get_string runId) (get_string (stop_Reason req))))
        (mret (inl tt))
  | FAIL => send_signal wfId runId FailWorkflowSignalChannelName SigFail
              (mkFailWorkflowSignalRequest (get_string (stop_Reason req)))
  | WorkflowStopType_other t => api_error (OtherError ("unsupported stop type: " +:+ t)) wfId
  end.

Definition ApiV1WorkflowSetQueryAttributesPost (req : WorkflowSetDataObjectsRequest) : handler unit :=
  let wid := sdo_WorkflowId req in
  CapturePanic (
  or_error wid (if Enabled (cfg_ExternalStorage s) && (0 <? len (sdo_Objects req))%Z
                then writeDataObjectsToExternalStorage (sdo_Objects req) wid
                else mret (inl (sdo_Objects req))) (fun processedDataObjects =>
  send_signal wid (sdo_WorkflowRunId req) ExecuteRpcSignalChannelName SigRpc
    (mkExecuteRpcSignalRequest None None processedDataObjects [] None [] []))).

(** No panic is recovered here. *)
Definition ApiV1WorkflowSetSearchAttributesPost (req : WorkflowSetSearchAttributesRequest) :
  handler unit :=
  send_signal (ssa_WorkflowId req) (ssa_WorkflowRunId req) ExecuteRpcSignalChannelName SigRpc
    (mkExecuteRpcSignalRequest None None [] (ssa_SearchAttributes req) None [] []).

(** The decoded timers of one state execution, each in a location of its own. *)
Definition decoded_timers (infos : list TimerInfo) : gmap loc TimerInfo := list_to_map (imap pair infos).

Definition timer_exists (infos : gmap string (list TimerInfo)) (stateExeId timerId : string)
  (timerIdx : Z) : bool :=
  let timers := map_get [] infos stateExeId in
  is_set (ValidateTimerSkipRequest (decoded_timers timers) {[ stateExeId := seq 0 (length timers) ]}
            stateExeId timerId timerIdx).

Definition ApiV1WorkflowSkipTimerPost (request : WorkflowSkipTimerRequest) : handler unit :=
  let wid := skt_WorkflowId request in
  let commandId := get_string (TimerCommandId request) in
  let commandIndex := default 0%Z (TimerCommandIndex request) in
  CapturePanic (
  if bool_decide (commandId = EmptyString) && negb (is_set (TimerCommandIndex request))
  then mret (inr (makeInvalidRequestError "must provide either a timerCommandId or index"))
  else
    or_error wid (client (QueryWorkflow wid (get_string (skt_WorkflowRunId request)) QueryTimerInfos))
      (fun timerInfos =>
    if negb (timer_exists timerInfos (WorkflowStateExecutionId request) commandId commandIndex)
    then mret (inr (makeInvalidRequestError "requested timer command doesn't exist"))
    else send_signal wid (skt_WorkflowRunId request) SkipTimerSignalChannelName SigSkip
           (mkSkipTimerSignalRequest (WorkflowStateExecutionId request) commandId commandIndex))).

(** ** Reading attributes *)

(** The memo's data attributes that are requested; no key means all of them.  The
    code ranges over the map, so the order of the list is arbitrary. *)
Definition memo_attributes (memos : gmap string EncodedObject) (keys : list string) : list KeyValue :=
  let requestedKeys := key_map keys in
  omap (fun k =>
    v ← memos !! k;
    if HasPrefix k IwfSystemConstPrefix then None
    else if negb (bool_decide (keys = [])) && negb (is_true_key requestedKeys k) then None
    else Some (mkKeyValue (Some k) (Some v))) (DeterministicKeys memos).

(** The attributes, and whether the workflow has to be queried for them. *)
Definition attributes_from_memo (req : WorkflowGetDataObjectsRequest) :
  proc apiE (list KeyValue * bool + error) :=
  r ← client (DescribeWorkflow (gd_WorkflowId req) (get_string (gd_WorkflowRunId req)) []);
  match r with
  | inr err => mret (inr err)
  | inl response =>
      let das := memo_attributes (desc_Memos response) (gd_Keys req) in
      if is_set (desc_Memos response !! UseMemoForDataAttributesKey) then mret (inl (das, false))
      else if FailAtMemoIncompatibility s
      then mret (inr (OtherError "memo is not set correctly to use"))
      else mret (inl (das, true))
  end.

Definition ApiV1WorkflowGetQueryAttributesPost (req : WorkflowGetDataObjectsRequest) :
  handler WorkflowGetDataObjectsResponse :=
  let wid := gd_WorkflowId req in
  CapturePanic (
  or_error wid (if default false (gd_UseMemoForDataAttributes req) then attributes_from_memo req
                else mret (inl ([], true))) (fun '(das, queryToGetDataAttributes) =>
  or_error wid (if queryToGetDataAttributes
                then client (QueryWorkflow wid (get_string (gd_WorkflowRunId req))
                               (QueryDataAttributes (gd_Keys req)))
                else mret (inl das)) (fun das =>
  or_error wid (loadDataObjectsFromExternalStorage das) (fun processedDataAttributes =>
  mret (inl (mkWorkflowGetDataObjectsResponse processedDataAttributes)))))).

(** [*v.Key] panics on a key that is not set. *)
Fixpoint requested_attributes (found : gmap string SearchAttribute)
  (keys : list SearchAttributeKeyAndType) : gores (list SearchAttribute) :=
  match keys with
  | [] => Ret []
  | v :: rest =>
      key ← deref (sakt_Key v);
      l ← requested_attributes found rest;
      Ret (match found !! key with Some sa => sa :: l | None => l end)
  end.

Definition ApiV1WorkflowGetSearchAttributesPost (req : WorkflowGetSearchAttributesRequest) :
  handler WorkflowGetSearchAttributesResponse :=
  let wid := gs_WorkflowId req in
  CapturePanic (
  or_error wid (client (DescribeWorkflow wid (get_string (gs_WorkflowRunId req)) (gs_Keys req)))
    (fun response =>
  sas ← of_gores (requested_attributes (desc_SearchAttributes response) (gs_Keys req));
  mret (inl (mkWorkflowGetSearchAttributesResponse sas)))).

(** ** The state and the result of a workflow *)

(** The workflow failed with an application error of the given type. *)
Definition failed_response (wid runId : string) (errType : WorkflowErrorType) (getErr : error) :
  handler WorkflowGetResponse :=
  let eh := client_errors s in
  match errType with
  | STATE_DECISION_FAILING_WORKFLOW_ERROR_TYPE =>
      match GetApplicationErrorOutputs eh getErr with
      | inr err => api_error err wid
      | inl outputs => mret (inl (mkWorkflowGetResponse runId FAILED outputs (Some errType) None))
      end
  | _ =>
      match GetApplicationErrorMessage eh getErr with
      | inr err => api_error err wid
      | inl errMsg =>
          mret (inl (mkWorkflowGetResponse runId FAILED [] (Some errType)
                  (if bool_decide (errMsg = EmptyString) then None else Some errMsg)))
      end
  end.

(** Neither a result nor an application error: described again for the status. *)
Definition closed_response (wid runId : string) : handler WorkflowGetResponse :=
  or_error wid (client (DescribeWorkflow wid runId [])) (fun descResp =>
  match desc_Status descResp with
  | RUNNING | CONTINUED_AS_NEW | COMPLETED =>
      api_error (OtherError "impossible/very rare status, maybe caused by racing conditions") wid
  | status =>
      mret (inl (mkWorkflowGetResponse (desc_RunId descResp) status [] None
        (if bool_decide (status = FAILED)
         then Some "unknown workflow failure from interpreter implementation" else None)))
  end).

Definition get_failed (wid reqRunId runId : string) (getErr : error) : handler WorkflowGetResponse :=
  let eh := client_errors s in
  if IsRequestTimeoutError eh getErr
  then long_poll_timeout "workflow is still running, waiting has exceeded timeout limit, please retry"
  else
    match GetApplicationErrorTypeIfIsApplicationError eh getErr with
    | Some errType => failed_response wid runId errType getErr
    | None => closed_response wid reqRunId
    end.

Definition doApiV1WorkflowGetPost (req : WorkflowGetRequest) (withWait : bool) :
  handler WorkflowGetResponse :=
  let wid := get_WorkflowId req in
  let reqRunId := get_string (get_WorkflowRunId req) in
  or_error wid (client (DescribeWorkflow wid reqRunId [])) (fun descResp =>
  let done status outputs :=
    mret (inl (mkWorkflowGetResponse (desc_RunId descResp) status outputs None None)) in
  let finished r :=
    match r with
    | inl output => done COMPLETED (StateCompletionOutputs output)
    | inr getErr => get_failed wid reqRunId (desc_RunId descResp) getErr
    end in
  if negb withWait then
    if bool_decide (desc_Status descResp <> RUNNING) && default false (NeedsResults req)
    then r ← client (GetWorkflowResult None ResultOutput wid reqRunId); finished r
    else done (desc_Status descResp) []
  else
    deadline ← deadline_of (get_WaitTimeSeconds req);
    r ← client (GetWorkflowResult (Some deadline) ResultOutput wid reqRunId);
    finished r).

Definition ApiV1WorkflowGetPost (req : WorkflowGetRequest) : handler WorkflowGetResponse :=
  CapturePanic (doApiV1WorkflowGetPost req false).

Definition ApiV1WorkflowGetWithWaitPost (req : WorkflowGetRequest) : handler WorkflowGetResponse :=
  CapturePanic (doApiV1WorkflowGetPost req true).

Definition ApiV1WorkflowSearchPost (req : WorkflowSearchRequest) : handler WorkflowSearchResponse :=
  let pageSize := default 0%Z (PageSize req) in
  let pageSize := if (0 <? pageSize)%Z then pageSize else 1000%Z in
  CapturePanic (
  or_error "N/A" (client (ListWorkflow (mkListWorkflowExecutionsRequest pageSize (Query req)
                                         (get_string (se_NextPageToken req))))) (fun resp =>
  mret (inl (mkWorkflowSearchResponse (Executions resp) (Some (lwr_NextPageToken resp)))))).

Definition ApiV1WorkflowResetPost (req : WorkflowResetRequest) : handler WorkflowResetResponse :=
  CapturePanic (
  or_error (rst_WorkflowId req) (client (ResetWorkflow req)) (fun runId =>
  mret (inl (mkWorkflowResetResponse runId)))).

(** No panic is recovered here. *)
Definition ApiV1WorkflowDumpPost (request : WorkflowDumpRequest) : handler WorkflowDumpResponse :=
  or_error (dump_WorkflowId request)
    (client (QueryWorkflow (dump_WorkflowId request) (dump_WorkflowRunId request)
               (QueryDumpPage request))) (fun pageOfSnapshot => mret (inl pageOfSnapshot)).

(** ** RPC *)

Definition doNeedLocking (policy : PersistenceLoadingPolicy) : bool :=
  match GetPersistenceLoadingType policy with
  | PARTIAL_WITH_EXCLUSIVE_LOCK | ALL_WITH_PARTIAL_LOCK => true
  | _ => false
  end.

Definition needLocking (req : WorkflowRpcRequest) : bool :=
  default false (doNeedLocking <$> rpc_SearchAttributesLoadingPolicy req)
  || default false (doNeedLocking <$> rpc_DataAttributesLoadingPolicy req).

Definition set_TimeoutSeconds (t : Z) (req : WorkflowRpcRequest) : WorkflowRpcRequest :=
  mkWorkflowRpcRequest (rpc_WorkflowId req) (rpc_WorkflowRunId req) (RpcName req) (rpc_Input req)
    (rpc_SearchAttributesLoadingPolicy req) (rpc_DataAttributesLoadingPolicy req) (Some t)
    (rpc_UseMemoForDataAttributes req) (rpc_SearchAttributes req).

(** The time left until the request's deadline. *)
Definition time_remaining (now : Z) : option Z := (fun ddl => (ddl * SecondNs - now)%Z) <$> ctx_Deadline s.

(** Both results of the output are returned: the response may be nil. *)
Definition handleRpcBySynchronousUpdate (req : WorkflowRpcRequest) :
  handler (option WorkflowRpcResponse) :=
  let eh := client_errors s in
  now ← ask TimeNowNs;
  let req := set_TimeoutSeconds (TrimRpcTimeoutSeconds (time_remaining now) req) req in
  r ← client (SynchronousUpdateWorkflow (rpc_WorkflowId req) (get_string (rpc_WorkflowRunId req))
                ExecuteOptimisticLockingRpcUpdateType req);
  match r with
  | inl output =>
      mret match ho_StatusError output with
           | Some statusError => inr statusError
           | None => inl (ho_RpcOutput output)
           end
  | inr err =>
      match GetApplicationErrorTypeIfIsApplicationError eh err with
      | Some RPC_ACQUIRE_LOCK_FAILURE =>
          let details := match GetApplicationErrorMessage eh err with
                         | inl details => details
                         | inr err2 => error_text err2
                         end in
          mret (inr (NewErrorAndStatus HttpStatusCodeSpecial4xxError2 WORKER_API_ERROR details))
      | _ => api_error err (rpc_WorkflowId req)
      end
  end.

(** Nothing to write back: the RPC is read-only. *)
Definition rpc_mutates (resp : WorkflowWorkerRpcResponse) : bool :=
  (0 <? len (wr_UpsertDataAttributes resp) + len (wr_UpsertSearchAttributes resp)
        + len (wr_PublishToInterStateChannel resp) + len (wr_RecordEvents resp)
        + len (default [] (NextStates <$> wr_StateDecision resp)))%Z.

Definition rpc_signal (req : WorkflowRpcRequest) (resp : WorkflowWorkerRpcResponse) :
  ExecuteRpcSignalRequest :=
  let omit := default false (OmitRpcInputOutputInHistory s) in
  mkExecuteRpcSignalRequest (if omit then None else rpc_Input req) (if omit then None else wr_Output resp)
    (wr_UpsertDataAttributes resp) (wr_UpsertSearchAttributes resp) (wr_StateDecision resp)
    (wr_RecordEvents resp) (wr_PublishToInterStateChannel resp).

(** [resp == nil] panics at the first field read. *)
Definition rpc_write_back (req : WorkflowRpcRequest) (resp : option WorkflowWorkerRpcResponse) :
  handler (option WorkflowRpcResponse) :=
  resp ← of_gores (deref resp);
  let answer := mret (inl (Some (mkWorkflowRpcResponse (wr_Output resp)))) in
  if rpc_mutates resp then
    unless_error (rpc_WorkflowId req)
      (client (SignalWorkflow (rpc_WorkflowId req) (get_string (rpc_WorkflowRunId req))
                 ExecuteRpcSignalChannelName SigRpc (rpc_signal req resp))) answer
  else answer.

Definition rpc_event (req : WorkflowRpcRequest) (rpcPrep : option PrepareRpcQueryResponse) (start : Z) :
  proc apiE unit :=
  prep ← of_gores (deref rpcPrep);
  ask (ApiHandleEvent (mkIwfEvent RPC_EXECUTION_EVENT (Some (RpcName req)) (pq_IwfWorkflowType prep)
         (rpc_WorkflowId req) EmptyString None None (Some (UnixMilli start)) None [] None)).

Definition invoke_rpc (req : WorkflowRpcRequest) : handler (option WorkflowRpcResponse) :=
  or_error (rpc_WorkflowId req)
    (client (QueryWorkflow (rpc_WorkflowId req) (get_string (rpc_WorkflowRunId req))
       (QueryPrepareRpc (mkPrepareRpcQueryRequest (rpc_DataAttributesLoadingPolicy req) None
                           (rpc_SearchAttributesLoadingPolicy req))))) (fun rpcPrep =>
  start ← ask TimeNowNs;
  finally (
    prep ← of_gores (deref rpcPrep);
    r ← ask (CallWorkerRpc prep req);
    r ← of_gores r;
    match r with
    | inr retError => mret (inr retError)
    | inl resp => rpc_write_back req resp
    end) (rpc_event req rpcPrep start)).

Definition ApiV1WorkflowRpcPost (req : WorkflowRpcRequest) : handler (option WorkflowRpcResponse) :=
  CapturePanic (if needLocking req then handleRpcBySynchronousUpdate req else invoke_rpc req).

End api.
