(* ===== verification/ApiFacts.v ===== *)
(** * What the API service answers and calls

    The theorems on the handlers of Api.v: the runs of each handler, whatever the
    backend, the store and the worker answer. *)

From S2P Require Export Api.

(** ** Runs of recovered and deferred programs *)

(** The result of a run whose panic is recovered. *)
Definition recovered {A} (r : gores (A + ErrorAndStatus)) : gores (A + ErrorAndStatus) :=
  match r with
  | Panic msg => Ret (inr (NewErrorAndStatus StatusInternalServerError UNCATEGORIZED_SUB_STATUS msg))
  | Ret a => Ret a
  end.

Lemma always_capture {E : Type -> Type} {A} (p : proc E (A + ErrorAndStatus)) Q :
  always p (fun tr r => Q tr (recovered r)) -> always (CapturePanic p) Q.
Proof.
  revert Q. induction p as [a|msg|X e k IH]; intros Q; cbn; [done..|].
  intros H x. by apply IH.
Qed.

Lemma always_finally {A} (p : proc apiE A) (q : proc apiE unit) Q :
  always p (fun tr r => always q (fun tr' r' => Q (tr ++ tr')
    match r' with Ret _ => r | Panic msg => Panic msg end)) ->
  always (finally p q) Q.
Proof.
  revert Q. induction p as [a|msg|X e k IH]; intros Q H; cbn in H |- *.
  - apply always_bind. eapply always_mono; [|exact H]. intros tr [[]|msg]; cbn; by rewrite ?app_nil_r.
  - apply always_bind. eapply always_mono; [|exact H]. intros tr [[]|msg']; cbn; by rewrite ?app_nil_r.
  - intros x. apply (IH x (fun tr => Q (Obs e x :: tr))). exact (H x).
Qed.

Lemma always_intro {E : Type -> Type} {A} (p : proc E A) (Q : list (obs E) -> gores A -> Prop) :
  (forall tr r, Q tr r) -> always p Q.
Proof. revert Q. induction p as [a|msg|X e k IH]; intros Q H; cbn; auto. Qed.

Lemma always_and {E : Type -> Type} {A} (p : proc E A) (Q R : list (obs E) -> gores A -> Prop) :
  always p Q -> always p R -> always p (fun tr r => Q tr r /\ R tr r).
Proof.
  revert Q R. induction p as [a|msg|X e k IH]; intros Q R; cbn; [by split..|].
  intros HQ HR x. by apply (IH x (fun tr => Q (Obs e x :: tr)) (fun tr => R (Obs e x :: tr))).
Qed.

(** The part of a handler after a step that may fail: the step's runs satisfy [P]. *)
Lemma always_or_error s {A B} (P : list (obs apiE) -> A -> Prop) wid (m : proc apiE (A + error))
  (f : A -> handler B) Q :
  always m (fun tr r => forall a, r = Ret (inl a) -> P tr a) ->
  (forall tr e, Q tr (Ret (inr (handleError s e wid)))) -> (forall tr msg, Q tr (Panic msg)) ->
  (forall tr a, P tr a -> always (f a) (fun tr' => Q (tr ++ tr'))) ->
  always (or_error s wid m f) Q.
Proof.
  intros Hm He Hp Hf. unfold or_error. apply always_bind.
  eapply always_mono; [|exact Hm].
  intros tr [[a|e]|msg] H; cbn [after]; [by apply Hf, H | | apply Hp].
  unfold api_error. cbn. rewrite app_nil_r. apply He.
Qed.

(** The calls of a run. *)
Definition made {X} (tr : list (obs apiE)) (e : apiE X) (x : X) : Prop := Obs e x ∈ tr.

(** The call is one of the last of the run. *)
Ltac find_call :=
  unfold made; repeat (apply elem_of_app; right);
  repeat (apply elem_of_cons; first [left; reflexivity | right]).

Section facts.
Context (s : serviceImpl).

(** ** Errors *)

(** The status of an error: 400 for a workflow that already runs, for one that
    is not found and for a request without a workflow id, 500 for anything else;
    "already started" wins, and the message is the error's. *)
Theorem handleError_spec err workflowId :
  let es := handleError s err workflowId in
  let eh := client_errors s in
  er_Detail (es_Error es) = Some (error_text err) /\
  (StatusCode es, er_SubStatus (es_Error es)) =
    if eh_IsWorkflowAlreadyStartedError eh err then (400%Z, Some WORKFLOW_ALREADY_STARTED_SUB_STATUS)
    else if eh_IsNotFoundError eh err || bool_decide (workflowId = EmptyString)
    then (400%Z, Some WORKFLOW_NOT_EXISTS_SUB_STATUS)
    else (500%Z, Some UNCATEGORIZED_SUB_STATUS).
Proof.
  cbn. unfold handleError.
  by destruct (eh_IsNotFoundError _ err), (eh_IsWorkflowAlreadyStartedError _ err),
    (bool_decide (workflowId = EmptyString)).
Qed.

(** ** Writing to the external storage: the same as helpers.go *)

Definition on_store {W} (b : BlobStore W) (h : forall X, apiE X -> M W X) : Prop :=
  (forall wid data w, h _ (StoreWrite wid data) w = WriteObject b wid data w) /\
  (forall storeId path w, h _ (StoreRead storeId path) w = ReadObject b storeId path w).

(** The outcome of helpers.go as the service gives it: without the partial update. *)
Definition without_partial {W} (m : M W (list KeyValue * option error)) : M W (list KeyValue + error) :=
  r ← m; mret match snd r with Some e => inr e | None => inl (fst r) end.

(** The service's own loop over the data attributes does what helpers.go does
    for the activities, on every store, including what it writes and the error it
    stops at. *)
Lemma write_data_equivalent {W} (b : BlobStore W) h objs wid w :
  on_store b h -> store_set s = true ->
  interp h (writeDataObjectsToExternalStorage s objs wid) w =
  without_partial (WriteDataObjectsToExternalStorage (Some b) objs wid
    (ThresholdInBytes (cfg_ExternalStorage s)) (Enabled (cfg_ExternalStorage s))) w.
Proof.
  intros [Hw _] Hs. unfold writeDataObjectsToExternalStorage, WriteDataObjectsToExternalStorage.
  destruct (Enabled _); [|done]. cbn [negb]. revert w.
  unfold without_partial, mbind, M_bind, proc_mbind.
  induction objs as [|kv objs IH]; intros w; [done|]. cbn [write_data write_data_objects].
  unfold mbind, M_bind, proc_mbind. destruct (oversized _ _) as [data|].
  - unfold store_call_api. rewrite Hs, store_call_some, interp_bind. cbn [interp ask].
    unfold mbind, M_bind. rewrite Hw.
    destruct (WriteObject b wid data w) as [[[[storeId path]|e] w1]|]; [|done..].
    cbn beta iota. cbn [interp mret M_ret]. rewrite interp_bind, IH.
    by destruct (write_data_objects _ _ _ _ w1) as [[[l [e|]] w2]|].
  - rewrite interp_bind, IH. by destruct (write_data_objects _ _ _ _ w) as [[[l [e|]] w2]|].
Qed.

(** ** Starting a workflow *)

(** The options a workflow is started with are those of the request. *)
Definition requested_options (req : WorkflowStartRequest) (options : StartWorkflowOptions) : Prop :=
  swo_ID options = sr_WorkflowId req /\
  swo_CronSchedule options = (sr_WorkflowStartOptions req ≫= so_CronSchedule) /\
  Ret (swo_WorkflowIDReusePolicy options) =
    match sr_WorkflowStartOptions req with
    | Some o => GetWorkflowIdReusePolicy (so_IdReusePolicy o) (so_WorkflowIDReusePolicy o)
    | None => Ret None
    end.

(** What the settings keep of the request. *)
Definition settings_of (req : WorkflowStartRequest) (st : start_settings) : Prop :=
  requested_options req (ss_options st) /\
  let already := sr_WorkflowStartOptions req ≫= so_WorkflowAlreadyStartedOptions in
  ss_ignoreAlreadyStartedError st = default false (IgnoreAlreadyStartedError <$> already) /\
  ss_requestId st = (already ≫= RequestId).

Lemma apply_start_options_settings req startOptions :
  sr_WorkflowStartOptions req = Some startOptions ->
  always (apply_start_options s req startOptions)
    (fun tr r => forall st, r = Ret (inl st) -> settings_of req st).
Proof.
  intros Hso. unfold apply_start_options.
  assert (forall policy, GetWorkflowIdReusePolicy (so_IdReusePolicy startOptions)
    (so_WorkflowIDReusePolicy startOptions) = policy ->
    match sr_WorkflowStartOptions req with
    | Some o => GetWorkflowIdReusePolicy (so_IdReusePolicy o) (so_WorkflowIDReusePolicy o)
    | None => Ret None
    end = policy) as Hpolicy by (intros policy; by rewrite Hso).
  destruct (GetWorkflowIdReusePolicy _ _) as [policy|msg]; [|done]. cbn. intros now.
  destruct (MapToInternalSearchAttributes _ _); [|done].
  apply always_bind, always_intro. intros tr' [[das|e]|msg]; cbn; try done.
  intros st [= <-]. unfold settings_of, requested_options. cbn.
  rewrite (Hpolicy _ eq_refl), Hso. by split_and!.
Qed.

(** [runId] is of a workflow this request started, or of the one that runs under
    the id when the request asks to ignore that, and gave the same request id. *)
Definition claims (req : WorkflowStartRequest) (tr : list (obs apiE)) (runId : string) : Prop :=
  exists options input answer,
    requested_options req options /\
    made tr (Client (StartInterpreterWorkflow options input)) answer /\
    match answer with
    | inl started => runId = started
    | inr err =>
        exists already,
          eh_IsWorkflowAlreadyStartedError (client_errors s) err = true /\
          (sr_WorkflowStartOptions req ≫= so_WorkflowAlreadyStartedOptions) = Some already /\
          IgnoreAlreadyStartedError already = true /\
          runId = GetRunIdFromWorkflowAlreadyStartedError (client_errors s) err /\
          forall requestId, RequestId already = Some requestId ->
            exists described,
              made tr (Client (DescribeWorkflow (sr_WorkflowId req) runId [])) (inl described) /\
              (desc_Memos described !! WorkflowRequestId ≫= Data) = Some requestId
    end.

Lemma start_claims req :
  always (start_workflow s req) (fun tr r => forall resp runId,
    r = Ret (inl resp) -> sresp_WorkflowRunId resp = Some runId -> claims req tr runId).
Proof.
  unfold start_workflow.
  eapply always_or_error with (P := fun _ => settings_of req); [|by cbn; intros..|].
  { destruct (sr_WorkflowStartOptions req) as [o|] eqn:E; [by apply apply_start_options_settings|].
    cbn. intros st [= <-]. unfold settings_of, requested_options. by rewrite E. }
  intros tr st (HID & Hig & Hrid).
  eapply always_or_error with (P := fun _ _ => True); [by apply always_intro|by cbn; intros..|].
  intros tr1 stateInput _. cbn. intros [started|err]; cbn.
  - intros resp runId [= <-] [= <-].
    exists (ss_options st), (interpreter_input req st stateInput), (inl started).
    split; [exact HID|]. split; [|done]. by find_call.
  - unfold already_started. rewrite Hig, Hrid.
    destruct (eh_IsWorkflowAlreadyStartedError (client_errors s) err) eqn:Ea; [|done].
    destruct (sr_WorkflowStartOptions req ≫= so_WorkflowAlreadyStartedOptions) as [already|] eqn:Eal;
      [|done].
    cbn. destruct (IgnoreAlreadyStartedError already) eqn:Ei; [|done].
    destruct (RequestId already) as [requestId|] eqn:Er; cbn.
    + intros [described|e]; cbn; [|done].
      destruct (Data (map_get empty_EncodedObject (desc_Memos described) WorkflowRequestId))
        as [id|] eqn:Ed; [|done].
      cbn. case_bool_decide as Hid; [|done]. subst id. intros resp runId [= <-] [= <-].
      exists (ss_options st), (interpreter_input req st stateInput), (inr err).
      split; [exact HID|]. split; [by find_call|].
      exists already. split_and!; try done. intros ? Eq. rewrite Er in Eq.
      injection Eq as <-. exists described.
      split; [by find_call|]. unfold map_get in Ed.
      destruct (desc_Memos described !! WorkflowRequestId); [exact Ed | done].
    + intros resp runId [= <-] [= <-].
      exists (ss_options st), (interpreter_input req st stateInput), (inr err).
      split; [exact HID|]. split; [by find_call|]. exists already. split_and!; try done.
      intros ? Eq. by rewrite Er in Eq.
Qed.

(** C8: the start API never passes off another workflow as the one it was asked to
    start: a run id it answers is of the workflow it started or, if the request
    allows that one already runs, of the workflow running under the id, whose
    memo has the request's id when the request carries one. *)
Theorem start_answers_own_workflow req tr resp runId :
  runs (ApiV1WorkflowStartPost s req) tr (Ret (inl resp)) ->
  sresp_WorkflowRunId resp = Some runId -> claims req tr runId.
Proof.
  intros Hruns Hid. enough (always (ApiV1WorkflowStartPost s req) (fun tr r => forall resp runId,
    r = Ret (inl resp) -> sresp_WorkflowRunId resp = Some runId -> claims req tr runId)) as H.
  { by eapply (always_runs _ _ _ _ H Hruns). }
  apply always_capture. eapply always_mono; [|apply start_claims].
  intros tr' [r'|msg] H resp' runId' E; [by apply H | done].
Qed.

(** ** The status and the result of a workflow *)

(** Did the run ask for the workflow's result, which waits until it ends? *)
Definition asks_result (o : obs apiE) : bool :=
  match o with
  | Obs e _ => match e with
               | Client c => match c with GetWorkflowResult _ _ _ _ => true | _ => false end
               | _ => false
               end
  end.

(** What the reply to a get request says, given the run: waiting, the status is
    never one of a workflow that goes on; results and "completed" come from the
    workflow's result (or from its description, when not asked for); an error
    type means it failed. *)
Definition get_reply_sound (req : WorkflowGetRequest) (withWait : bool) (tr : list (obs apiE))
  (resp : WorkflowGetResponse) : Prop :=
  let wid := get_WorkflowId req in
  let runId := get_string (get_WorkflowRunId req) in
  (withWait = true ->
     getr_WorkflowStatus resp <> RUNNING /\ getr_WorkflowStatus resp <> CONTINUED_AS_NEW) /\
  (getr_WorkflowStatus resp = COMPLETED ->
     (exists deadline output,
        made tr (Client (GetWorkflowResult deadline ResultOutput wid runId)) (inl output) /\
        Results resp = StateCompletionOutputs output) \/
     (withWait = false /\ default false (NeedsResults req) = false /\ Results resp = [])) /\
  (forall errType, ErrorType resp = Some errType -> getr_WorkflowStatus resp = FAILED).

(** Asking for the result without waiting happens only to a workflow that was
    described as not running, and when the request needs it. *)
Definition get_asks_when_closed (req : WorkflowGetRequest) (tr : list (obs apiE)) : Prop :=
  existsb asks_result tr = true ->
  exists descResp,
    made tr (Client (DescribeWorkflow (get_WorkflowId req) (get_string (get_WorkflowRunId req)) []))
         (inl descResp) /\
    desc_Status descResp <> RUNNING /\ NeedsResults req = Some true.

Lemma get_failed_reply req withWait tr runId getErr :
  always (get_failed s (get_WorkflowId req) (get_string (get_WorkflowRunId req)) runId getErr)
    (fun tr' r => forall resp, recovered r = Ret (inl resp) -> get_reply_sound req withWait (tr ++ tr') resp).
Proof.
  unfold get_failed, get_reply_sound. destruct (IsRequestTimeoutError _ getErr); [done|].
  destruct (GetApplicationErrorTypeIfIsApplicationError _ getErr) as [ty|].
  - unfold failed_response.
    destruct ty; cbn; try (destruct (GetApplicationErrorOutputs _ _)); try (destruct (GetApplicationErrorMessage _ _));
      cbn; try done; by intros resp [= <-].
  - unfold closed_response.
    eapply always_or_error with (P := fun _ _ => True); [by apply always_intro|by cbn; intros..|].
    intros tr1 d _. destruct (desc_Status d) eqn:Es; cbn; try done; intros resp [= <-]; cbn; by rewrite ?Es.
Qed.

Lemma get_failed_no_panic wid reqRunId runId getErr :
  always (get_failed s wid reqRunId runId getErr) (fun _ r => forall msg, r <> Panic msg).
Proof.
  unfold get_failed. destruct (IsRequestTimeoutError _ getErr); [done|].
  destruct (GetApplicationErrorTypeIfIsApplicationError _ getErr) as [ty|].
  - unfold failed_response.
    destruct ty; cbn; try (destruct (GetApplicationErrorOutputs _ _));
      try (destruct (GetApplicationErrorMessage _ _)); done.
  - unfold closed_response. cbn. intros [d|e]; [destruct (desc_Status d)|]; done.
Qed.

(** A run that failed after the calls [tr]. *)
Lemma get_failed_sound req withWait tr runId getErr :
  (withWait = false -> forall tr', get_asks_when_closed req (tr ++ tr')) ->
  always (get_failed s (get_WorkflowId req) (get_string (get_WorkflowRunId req)) runId getErr)
    (fun tr' r =>
      (forall resp, recovered r = Ret (inl resp) -> get_reply_sound req withWait (tr ++ tr') resp) /\
      (withWait = false -> get_asks_when_closed req (tr ++ tr')) /\ (forall msg, r <> Panic msg)).
Proof.
  intros Hasks. apply always_and; [apply get_failed_reply|].
  apply always_and; [apply always_intro; auto | apply get_failed_no_panic].
Qed.

(** C21: the replies to the two get requests are sound: the waiting one never reports
    a workflow that is still running, "completed" comes with the results of the
    workflow, an error type only with "failed"; and the other one never blocks on
    a workflow that was described as running. *)
Theorem get_replies_sound req withWait tr r :
  runs (doApiV1WorkflowGetPost s req withWait) tr r ->
  (forall resp, r = Ret (inl resp) -> get_reply_sound req withWait tr resp) /\
  (withWait = false -> get_asks_when_closed req tr) /\
  (forall msg, r <> Panic msg).
Proof.
  intros Hruns. enough (always (doApiV1WorkflowGetPost s req withWait) (fun tr r =>
    (forall resp, recovered r = Ret (inl resp) -> get_reply_sound req withWait tr resp) /\
    (withWait = false -> get_asks_when_closed req tr) /\ (forall msg, r <> Panic msg))) as H.
  { destruct (always_runs _ _ _ _ H Hruns) as (H1 & H2 & H3). split_and!; [|done|done].
    intros resp ->. by apply H1. }
  clear. unfold doApiV1WorkflowGetPost. cbn. intros [d|e]; [|by cbn; split_and!].
  destruct withWait; cbn [negb].
  - cbn. intros now [output|getErr]; cbn.
    + split_and!; [|done..]. intros resp [= <-]. split_and!; [done| |done].
      intros _. left. eexists _, output. split; [by find_call | done].
    + by eapply (get_failed_sound req true [_; _; _]).
  - destruct (bool_decide (desc_Status d <> RUNNING) && default false (NeedsResults req)) eqn:Eb; cbn.
    + apply andb_true_iff in Eb as [Es%bool_decide_eq_true En].
      assert (NeedsResults req = Some true) as Hn by (destruct (NeedsResults req) as [[]|]; done).
      assert (forall tr', get_asks_when_closed req (Obs (Client (DescribeWorkflow (get_WorkflowId req)
        (get_string (get_WorkflowRunId req)) [])) (inl d) :: tr')) as Ha
        by (intros tr' _; exists d; split_and!; [by left|done|done]).
      intros [output|getErr]; cbn.
      * split_and!; [|done..]. intros resp [= <-]. split_and!; [done| |done].
        intros _. left. eexists _, output. split; [by find_call | done].
      * eapply (get_failed_sound req false [_; _]). intros _ tr'. apply Ha.
    + split_and!; [|done..]. intros resp [= <-]. split_and!; [done| |done]. cbn. intros Ec. right.
      rewrite Ec in Eb. by rewrite bool_decide_true in Eb.
Qed.

(** ** RPC *)

(** A signal as it is sent: to which workflow and run, on which channel, and the value
    if it is an RPC's. *)
Definition sent_signal (o : obs apiE) : option (string * string * string * option ExecuteRpcSignalRequest) :=
  match o with
  | Obs e _ =>
      match e with
      | Client c =>
          match c with
          | SignalWorkflow wid rid name ty arg =>
              Some (wid, rid, name,
                match ty in sigty T return T -> option ExecuteRpcSignalRequest with
                | SigRpc => Some
                | _ => fun _ => None
                end arg)
          | _ => None
          end
      | _ => None
      end
  end.

(** The answers of the worker. *)
Definition worker_answer_of (o : obs apiE) :
  option (gores (option WorkflowWorkerRpcResponse + ErrorAndStatus)) :=
  match o with
  | Obs e x =>
      match e in apiE X return X -> _ with
      | CallWorkerRpc _ _ => Some
      | _ => fun _ => None
      end x
  end.

Definition is_update (o : obs apiE) : bool :=
  match o with
  | Obs e _ => match e with
               | Client c => match c with SynchronousUpdateWorkflow _ _ _ _ => true | _ => false end
               | _ => false
               end
  end.

(** *** What an RPC is to do, without the code's own tests *)

(** The request asks for a lock: one of its policies has a type with exclusive locks. *)
Definition asks_lock (req : WorkflowRpcRequest) : Prop :=
  exists p t, (rpc_SearchAttributesLoadingPolicy req = Some p \/ rpc_DataAttributesLoadingPolicy req = Some p) /\
    plp_PersistenceLoadingType p = Some t /\ t ∈ [PARTIAL_WITH_EXCLUSIVE_LOCK; ALL_WITH_PARTIAL_LOCK].

(** The answer changes nothing of the workflow. *)
Record read_only (resp : WorkflowWorkerRpcResponse) : Prop := {
  no_data : wr_UpsertDataAttributes resp = [];
  no_search : wr_UpsertSearchAttributes resp = [];
  no_messages : wr_PublishToInterStateChannel resp = [];
  no_events : wr_RecordEvents resp = [];
  no_states d : wr_StateDecision resp = Some d -> NextStates d = []
}.

(** The signal has every part of the answer; the input and the output, which are only
    for the history, unless the configuration omits them. *)
Record has_answer (req : WorkflowRpcRequest) (resp : WorkflowWorkerRpcResponse) (sig : ExecuteRpcSignalRequest) :
  Prop := {
  sent_data : rs_UpsertDataObjects sig = wr_UpsertDataAttributes resp;
  sent_search : rs_UpsertSearchAttributes sig = wr_UpsertSearchAttributes resp;
  sent_decision : rs_StateDecision sig = wr_StateDecision resp;
  sent_events : rs_RecordEvents sig = wr_RecordEvents resp;
  sent_messages : rs_InterStateChannelPublishing sig = wr_PublishToInterStateChannel resp;
  sent_values :
    (OmitRpcInputOutputInHistory s = Some true -> rs_RpcInput sig = None /\ rs_RpcOutput sig = None) /\
    (OmitRpcInputOutputInHistory s <> Some true ->
     rs_RpcInput sig = rpc_Input req /\ rs_RpcOutput sig = wr_Output resp)
}.

(** Exactly one signal, to the workflow and run of the request. *)
Definition writes_back (req : WorkflowRpcRequest) (resp : WorkflowWorkerRpcResponse)
  (signals : list (string * string * string * option ExecuteRpcSignalRequest)) : Prop :=
  exists sig, has_answer req resp sig /\
    signals = [(rpc_WorkflowId req, default EmptyString (rpc_WorkflowRunId req),
                "__IwfSystem_ExecuteRpc", Some sig)].

(** The worker is called once at most; what it answers is written back when it changes
    anything, and nothing else is sent. *)
Definition unlocked_calls (req : WorkflowRpcRequest) (tr : list (obs apiE)) : Prop :=
  existsb is_update tr = false /\
  match omap worker_answer_of tr with
  | [] => omap sent_signal tr = []
  | [Ret (inl (Some resp))] =>
      (read_only resp -> omap sent_signal tr = []) /\ (~ read_only resp -> writes_back req resp (omap sent_signal tr))
  | [_] => omap sent_signal tr = []
  | _ => False
  end.

Definition locked_calls (tr : list (obs apiE)) : Prop :=
  omap worker_answer_of tr = [] /\ omap sent_signal tr = [] /\ length (filter (fun o => is_update o = true) tr) = 1.

(** *** The code's tests are these *)

Lemma needLocking_asks req : needLocking req = true <-> asks_lock req.
Proof.
  unfold needLocking, asks_lock, doNeedLocking, GetPersistenceLoadingType.
  assert (forall op, default false ((fun p => match default PersistenceLoadingType_empty (plp_PersistenceLoadingType p)
    with PARTIAL_WITH_EXCLUSIVE_LOCK | ALL_WITH_PARTIAL_LOCK => true | _ => false end) <$> op) = true <->
    exists p t, op = Some p /\ plp_PersistenceLoadingType p = Some t /\
      t ∈ [PARTIAL_WITH_EXCLUSIVE_LOCK; ALL_WITH_PARTIAL_LOCK]) as H.
  { intros [p|]; cbn; [|split; [done|by intros (? & ? & ? & _)]]. split.
    - destruct (plp_PersistenceLoadingType p) as [t|] eqn:E; [|done].
      intros Ht. exists p, t. split_and!; [done..|]. destruct t; by set_solver.
    - intros (? & t & [= <-] & -> & Ht). cbn. set_unfold in Ht. by destruct Ht as [->|[->|[]]]. }
  rewrite orb_true_iff, !H. naive_solver.
Qed.

Lemma rpc_mutates_read_only resp : rpc_mutates resp = false <-> read_only resp.
Proof.
  unfold rpc_mutates. rewrite Z.ltb_ge. set (ns := default [] _).
  pose proof (len_nonneg (wr_UpsertDataAttributes resp)). pose proof (len_nonneg (wr_UpsertSearchAttributes resp)).
  pose proof (len_nonneg (wr_PublishToInterStateChannel resp)). pose proof (len_nonneg (wr_RecordEvents resp)).
  pose proof (len_nonneg ns). split.
  - intros Hle. split; try (apply len_nil_iff; lia). intros d Hd. apply len_nil_iff.
    subst ns. rewrite Hd in *. cbn in *. lia.
  - intros [-> -> -> -> Hns]. subst ns.
    destruct (wr_StateDecision resp) as [d|]; cbn; [rewrite (Hns d eq_refl)|]; by unfold len.
Qed.

Lemma rpc_signal_has_answer req resp : has_answer req resp (rpc_signal s req resp).
Proof.
  split; try done. unfold rpc_signal. cbn. by destruct (OmitRpcInputOutputInHistory s) as [[]|].
Qed.

Lemma locking_calls req : always (handleRpcBySynchronousUpdate s req) (fun tr _ => locked_calls tr).
Proof.
  unfold handleRpcBySynchronousUpdate. cbn. intros now [output|err]; cbn; [by split_and!|].
  destruct (GetApplicationErrorTypeIfIsApplicationError _ err) as [[]|]; by split_and!.
Qed.

Lemma invoke_calls req : always (invoke_rpc s req) (fun tr _ => unlocked_calls req tr).
Proof.
  unfold invoke_rpc. cbn.
  intros [rpcPrep|err]; [|unfold unlocked_calls; cbn; auto with lia]. intros start.
  destruct rpcPrep as [prep|]; [|unfold unlocked_calls; cbn; auto with lia].
  cbn. intros [[[resp|]|es]|msg]; cbn; [|intros u; unfold unlocked_calls; cbn; auto with lia..].
  unfold rpc_write_back. cbn. destruct (rpc_mutates resp) eqn:Em; cbn.
  - assert (~ read_only resp) as Hro by (rewrite <- rpc_mutates_read_only; congruence).
    pose proof (rpc_signal_has_answer req resp).
    intros [e|]; cbn; intros u; unfold unlocked_calls, writes_back; cbn; naive_solver.
  - apply rpc_mutates_read_only in Em. intros u. unfold unlocked_calls. cbn. naive_solver.
Qed.

(** C18: an RPC writes back exactly when it has something to write.  When no policy of
    the request asks for an exclusive lock the worker is called once at most; if its
    answer upserts data or search attributes, publishes a message, records an event or
    starts a state, exactly one signal is sent, to the workflow and run of the request,
    with all of these and with the input and output unless they are to be omitted;
    otherwise, and when the worker fails, no signal is sent.  When a policy asks for a
    lock the service makes one synchronous update and neither calls the worker nor
    signals. *)
Theorem rpc_calls_spec req tr r :
  runs (ApiV1WorkflowRpcPost s req) tr r ->
  (asks_lock req -> locked_calls tr) /\ (~ asks_lock req -> unlocked_calls req tr).
Proof.
  intros Hruns. enough (always (ApiV1WorkflowRpcPost s req) (fun tr _ =>
    if needLocking req then locked_calls tr else unlocked_calls req tr)) as H.
  { apply (always_runs _ _ _ _ H) in Hruns. pose proof (needLocking_asks req) as Hl.
    destruct (needLocking req); split; naive_solver. }
  clear. unfold ApiV1WorkflowRpcPost. apply always_capture.
  destruct (needLocking req); [apply locking_calls|apply invoke_calls].
Qed.

(** ** Skipping a timer *)

(** What validation reads: the timers of the state execution, in order. *)
Definition timers_at (h : gmap loc TimerInfo) (ls : list loc) : list (option TimerInfo) :=
  (fun l => h !! l) <$> ls.

Lemma find_is_set {A} (f : A -> bool) l : is_set (List.find f l) = existsb f l.
Proof. induction l as [|a l IH]; [done|]. cbn. by destruct (f a). Qed.

Lemma existsb_fmap {A B} (f : A -> B) (g : B -> bool) l : existsb g (f <$> l) = existsb (fun a => g (f a)) l.
Proof. induction l as [|a l IH]; [done|]. cbn. by rewrite IH. Qed.

Definition valid_skip (timers : list (option TimerInfo)) (timerId : string) (timerIdx : Z) : bool :=
  if bool_decide (timerId <> EmptyString)
  then existsb (fun t => match t with
                         | Some t => bool_decide (ti_CommandId t = Some timerId)
                         | None => false end) timers
  else ((0 <=? timerIdx) && (timerIdx <? len timers))%Z &&
       match timers !! Z.to_nat timerIdx with
       | Some (Some t) => bool_decide (ti_Status t = TimerPending)
       | _ => false
       end.

Lemma validate_reads h m stateExeId timerId timerIdx :
  is_set (ValidateTimerSkipRequest h m stateExeId timerId timerIdx) =
  valid_skip (timers_at h (map_get [] m stateExeId)) timerId timerIdx.
Proof.
  unfold ValidateTimerSkipRequest, valid_skip, timers_at. set (ls := map_get [] m stateExeId).
  assert (len ((fun l => h !! l) <$> ls) = len ls) as Hlen by (unfold len; by rewrite length_fmap).
  destruct (Z.eqb_spec (len ls) 0) as [E%len_nil_iff|Hne].
  { rewrite E. case_bool_decide; [done|]. rewrite fmap_nil, lookup_nil. by rewrite andb_false_r. }
  case_bool_decide; [by rewrite find_is_set, existsb_fmap|].
  rewrite Hlen. destruct ((0 <=? timerIdx) && (timerIdx <? len ls))%Z eqn:Eb; cbn [andb]; [|done].
  rewrite list_lookup_fmap. destruct (ls !! Z.to_nat timerIdx) as [l|]; cbn; [|done].
  destruct (h !! l) as [t|]; cbn; [|done]. by case_bool_decide.
Qed.

Lemma map_get_singleton {V} (d v : V) (k : string) : map_get d {[ k := v ]} k = v.
Proof. unfold map_get. by rewrite lookup_singleton_eq. Qed.

Lemma decoded_timers_at timers :
  timers_at (decoded_timers timers) (seq 0 (length timers)) = Some <$> timers.
Proof.
  apply list_eq. intros i. unfold timers_at. rewrite !list_lookup_fmap.
  destruct (timers !! i) as [t|] eqn:Ei.
  - rewrite lookup_seq_lt by (by eapply lookup_lt_Some). cbn. f_equal. unfold decoded_timers.
    apply elem_of_list_to_map_1'.
    + intros t' (j & t'' & [= <- <-] & Hj)%elem_of_lookup_imap. congruence.
    + apply elem_of_lookup_imap. eauto.
  - rewrite lookup_seq_ge; [done|]. by apply lookup_ge_None.
Qed.

(** Every timer of the state execution is in the heap. *)
Definition timers_present (tp : TimerProcessor) (stateExeId : string) : Prop :=
  Forall (fun l => is_Some (tt_heap (tp_table tp) !! l))
    (map_get [] (stateExecutionCurrentTimerInfos (tp_table tp)) stateExeId).

Lemma timer_infos_at tp stateExeId :
  timers_present tp stateExeId ->
  timers_at (tt_heap (tp_table tp)) (map_get [] (stateExecutionCurrentTimerInfos (tp_table tp)) stateExeId)
  = Some <$> map_get [] (GetTimerInfos tp) stateExeId.
Proof.
  unfold timers_present, map_get, GetTimerInfos. rewrite lookup_fmap.
  destruct (stateExecutionCurrentTimerInfos (tp_table tp) !! stateExeId) as [ls|]; [|done]. cbn.
  unfold timers_at. induction ls as [|l ls IH]; [done|]. intros [[t Ht] Hls]%Forall_cons. cbn.
  rewrite Ht. cbn. f_equal. by apply IH.
Qed.

(** The skip signals of a run: where they are sent and what. *)
Definition skip_signal_of (o : obs apiE) : option (string * string * string * SkipTimerSignalRequest) :=
  match o with
  | Obs e _ =>
      match e with
      | Client c =>
          match c with
          | SignalWorkflow wid rid name ty arg =>
              match ty in sigty T return T -> option (string * string * string * SkipTimerSignalRequest) with
              | SigSkip => fun arg => Some (wid, rid, name, arg)
              | _ => fun _ => None
              end arg
          | _ => None
          end
      | _ => None
      end
  end.

(** C19: a timer skip that the API accepts is applied: a skip signal is only sent for
    a timer that the workflow has just listed, and a workflow whose timers are
    still those it listed skips one on receiving it. *)
Theorem accepted_skip_applies req tr r wid rid name arg sent :
  runs (ApiV1WorkflowSkipTimerPost s req) tr r ->
  made tr (Client (SignalWorkflow wid rid name SigSkip arg)) sent ->
  name = SkipTimerSignalChannelName /\
  exists infos, made tr (Client (QueryWorkflow wid rid QueryTimerInfos)) (inl infos) /\
    forall tp, GetTimerInfos tp = infos -> timers_present tp (sk_StateExecutionId arg) ->
      fst (tp_SkipTimer (sk_StateExecutionId arg) (sk_CommandId arg) (sk_CommandIndex arg) tp) = true.
Proof.
  intros Hruns. revert wid rid name arg sent.
  enough (always (ApiV1WorkflowSkipTimerPost s req) (fun tr _ => forall wid rid name arg sent,
    made tr (Client (SignalWorkflow wid rid name SigSkip arg)) sent ->
    name = SkipTimerSignalChannelName /\
    exists infos, made tr (Client (QueryWorkflow wid rid QueryTimerInfos)) (inl infos) /\
      timer_exists infos (sk_StateExecutionId arg) (sk_CommandId arg) (sk_CommandIndex arg) = true)) as H.
  { intros wid rid name arg sent Hm.
    destruct (always_runs _ _ _ _ H Hruns wid rid name arg sent Hm) as (-> & infos & Hq & Ht).
    split; [done|]. exists infos. split; [done|]. intros tp <- Hp.
    unfold timer_exists in Ht. rewrite validate_reads in Ht.
    rewrite map_get_singleton, decoded_timers_at, <- timer_infos_at, <- validate_reads in Ht by done.
    unfold tp_SkipTimer, SkipTimer. by destruct (ValidateTimerSkipRequest _ _ _ _ _). }
  clear. unfold ApiV1WorkflowSkipTimerPost. apply always_capture.
  assert (forall tr wid rid name arg sent, omap skip_signal_of tr = [] ->
    ~ made tr (Client (SignalWorkflow wid rid name SigSkip arg)) sent) as Hnone.
  { intros tr wid rid name arg sent Hn Hm.
    assert ((wid, rid, name, arg) ∈ omap skip_signal_of tr) as Hin
      by (apply list_elem_of_omap; eexists; split; [exact Hm | done]).
    rewrite Hn in Hin. by apply elem_of_nil in Hin. }
  destruct (_ && _); [intros ????? Hm; by apply Hnone in Hm|].
  cbn. intros [infos|err]; [|intros ????? Hm; by apply Hnone in Hm].
  destruct (timer_exists _ _ _ _) eqn:Et; cbn; [|intros ????? Hm; by apply Hnone in Hm].
  unfold send_signal, unless_error. cbn.
  intros res. destruct res as [e|]; cbn; intros wid rid name arg sent Hm;
    (apply elem_of_cons in Hm as [Hm|Hm]; [by apply (f_equal skip_signal_of) in Hm|];
     apply elem_of_cons in Hm as [Hm|Hm]; [|by apply elem_of_nil in Hm];
     apply (f_equal skip_signal_of) in Hm; cbn in Hm; injection Hm as -> -> -> ->;
     split; [done|]; exists infos; split; [by left | exact Et]).
Qed.

End facts.
