(* ===== verification/ApiBackend.v ===== *)
(** * The API service on a backend

    The service of Api.v with the calls of the unified client carried out by one
    of the backend clients, down to the calls of its SDK. *)

From S2P Require Export ApiFacts ClientFacts.

(** A call of the SDK, or one the service makes itself. *)
Inductive layered (E : Type -> Type) : Type -> Type :=
| Lower {X} (e : E X) : layered E X
| Service {X} (e : apiE X) : layered E X.
Arguments Lower {E X} e.
Arguments Service {E X} e.

Definition lift_call {E : Type -> Type} X (e : E X) : proc (layered E) X := ask (Lower e).

Definition lower_api {E} (c : UnifiedClient E) X (e : apiE X) : proc (layered E) X :=
  match e in apiE X return apiE X -> proc (layered E) X with
  | Client call => fun _ => translate lift_call (uc_call _ call)
  | _ => fun e => ask (Service e)
  end e.

(** The service's client is the backend client. *)
Definition runs_on {E} (s : serviceImpl) (c : UnifiedClient E) : Prop :=
  client_errors s = uc_errors /\ client_GetBackendType s = uc_GetBackendType.

(** ApiV1WorkflowStartPost, whose recovery covers the client too. *)
Definition start_over {E} (c : UnifiedClient E) (s : serviceImpl) (req : WorkflowStartRequest) :
  proc (layered E) (WorkflowStartResponse + ErrorAndStatus) :=
  CapturePanic (translate (lower_api c) (start_workflow s req)).

Lemma runs_capture {E A} (p : proc E (A + ErrorAndStatus)) tr a :
  runs (CapturePanic p) tr (Ret (inl a)) -> runs p tr (Ret (inl a)).
Proof.
  revert tr. induction p as [b|msg|X e k IH]; intros tr; cbn; [done|..].
  - by intros [_ ?]%runs_Fin.
  - intros (x & tr' & -> & H)%runs_Ask. constructor. by apply IH.
Qed.

(** What a client does is lifted as it is. *)
Lemma runs_lifted {E : Type -> Type} {A} (p : proc E A) tr a :
  runs (translate lift_call p) tr (Ret a) ->
  exists t, runs p t (Ret a) /\ tr = (fun o => match o with Obs e x => Obs (Lower e) x end) <$> t.
Proof.
  intros (t & Hr & Hi)%translate_runs. exists t. split; [done|]. clear Hr.
  induction Hi as [|X e x u l' l Hu Hi IH]; [done|].
  apply runs_Ask in Hu as (x0 & u' & -> & [-> [= ->]]%runs_Fin). cbn. by rewrite IH.
Qed.

(** ** The two clients keep their promise *)

Definition temporal_started (o : obs temporalE) : option (string * string) :=
  match o with
  | Obs e x =>
      match e in temporalE X return X -> option (string * string) with
      | T_ExecuteWorkflow options _ =>
          fun x => match x with inl runId => Some (ts_ID options, runId) | inr _ => None end
      | _ => fun _ => None
      end x
  end.

Definition cadence_started (o : obs cadenceE) : option (string * string) :=
  match o with
  | Obs e x =>
      match e in cadenceE X return X -> option (string * string) with
      | C_StartWorkflow options _ =>
          fun x => match x with inl runId => Some (cs_ID options, runId) | inr _ => None end
      | _ => fun _ => None
      end x
  end.

Definition unsupported_policy (options : StartWorkflowOptions) : Prop :=
  exists p, swo_WorkflowIDReusePolicy options = Some (WorkflowIDReusePolicy_other p).

#[export] Instance temporal_lawful t fuel : LawfulClient (temporal_client t fuel).
Proof.
  refine {| sdk_started := temporal_started;
            starts_nothing := fun options => unsupported_policy options \/
              (exists cron, swo_CronSchedule options = Some cron /\ cron <> EmptyString) |}.
  intros options input tr runId Hruns. cbn in Hruns. unfold temporal_StartInterpreterWorkflow in Hruns.
  destruct (encryptMemoIfNeeded t (swo_Memo options)) as [memo|]; [|by apply runs_Fin in Hruns as [_ ?]].
  destruct (match swo_WorkflowIDReusePolicy options with
            | Some p => mapToWorkflowIdReusePolicy p | None => _ end) as [policy|err] eqn:Ep.
  - destruct (ConvertTemporalWorkflowRetryPolicy _) as [retry ?]. cbv zeta in Hruns.
    case_bool_decide as Hcron.
    + apply runs_Ask in Hruns as (x & tr' & -> & Hr). destruct x; apply runs_Fin in Hr as [_ E]; [done|].
      injection E as ->. right. split; [done|]. right.
      destruct (swo_CronSchedule options) as [cron|]; [by exists cron | done].
    + apply runs_Ask in Hruns as (x & tr' & -> & [-> [= <-]]%runs_Fin). left.
      eexists. split; [by left | done].
  - apply runs_Fin in Hruns as [-> [= ->]]. right. split; [done|]. left.
    destruct (swo_WorkflowIDReusePolicy options) as [[]|] eqn:E; try done. by eexists.
Defined.

#[export] Instance cadence_lawful t fuel : LawfulClient (cadence_client t fuel).
Proof.
  refine {| sdk_started := cadence_started; starts_nothing := unsupported_policy |}.
  intros options input tr runId Hruns. cbn in Hruns. unfold cadence_StartInterpreterWorkflow in Hruns.
  destruct (is_set _); [by apply runs_Fin in Hruns as [_ ?]|].
  destruct (match swo_WorkflowIDReusePolicy options with
            | Some p => mapToWorkflowIdReusePolicy p | None => _ end) as [policy|err] eqn:Ep.
  - destruct (ConvertCadenceWorkflowRetryPolicy _) as [retry ?].
    apply runs_Ask in Hruns as (x & tr' & -> & [-> [= <-]]%runs_Fin). left.
    eexists. split; [by left | done].
  - apply runs_Fin in Hruns as [-> [= ->]]. right. split; [done|].
    destruct (swo_WorkflowIDReusePolicy options) as [[]|] eqn:E; try done. by eexists.
Defined.

(** ** Starting a workflow, down to the SDK *)

(** The SDK's calls of a run. *)
Definition sdk_calls {E} (tr : list (obs (layered E))) : list (obs E) :=
  omap (fun o => match o with
    Obs e x => match e in layered _ X return X -> option (obs E) with
               | Lower e => fun x => Some (Obs e x)
               | Service _ => fun _ => None
               end x end) tr.

Lemma elem_of_sdk_calls {E : Type -> Type} X (e : E X) x tr : Obs (Lower e) x ∈ tr -> Obs e x ∈ sdk_calls tr.
Proof. intros H. apply list_elem_of_omap. eexists. split; [exact H | done]. Qed.

(** C5: a successful start reaches the backend, whichever it is: the run id answered
    is of a workflow that the SDK started under the requested id, or of the one
    that already runs, which the request must allow; except that an unsupported
    reuse policy, or on Temporal a cron schedule, is answered with success and an
    empty run id. *)
Theorem start_reaches_backend {E} (c : UnifiedClient E) `{!LawfulClient c} s req tr resp runId :
  runs_on s c -> runs (start_over c s req) tr (Ret (inl resp)) -> sresp_WorkflowRunId resp = Some runId ->
  (exists o, o ∈ sdk_calls tr /\ sdk_started o = Some (sr_WorkflowId req, runId)) \/
  (runId = EmptyString /\ exists options, requested_options req options /\ starts_nothing options) \/
  (exists err already, eh_IsWorkflowAlreadyStartedError uc_errors err = true /\
     (sr_WorkflowStartOptions req ≫= so_WorkflowAlreadyStartedOptions) = Some already /\
     IgnoreAlreadyStartedError already = true /\
     runId = GetRunIdFromWorkflowAlreadyStartedError uc_errors err).
Proof.
  intros [Herrs _] Hruns Hid. apply runs_capture, translate_runs in Hruns as (tr' & Hruns & Hi).
  pose proof (always_runs _ _ _ _ (start_claims s req) Hruns resp runId eq_refl Hid)
    as (options & input & answer & Hopt & Hmade & Hans).
  apply (implements_call_of _ _ _ _ _ _ Hi) in Hmade as (t & Ht & Hsub).
  destruct answer as [started|err].
  - subst started. apply runs_lifted in Ht as (t0 & Ht0 & ->).
    destruct (start_sound options input t0 runId Ht0) as [(o & Ho & Hs)|[-> Hn]]; [left|right; left; eauto].
    exists o. rewrite (proj1 Hopt) in Hs. split; [|done]. destruct o as [X e x].
    apply elem_of_sdk_calls, Hsub. apply list_elem_of_fmap. by exists (Obs e x).
  - right; right. destruct Hans as (already & Ha & Hal & Hig & Hrun & _).
    rewrite Herrs in Ha, Hrun. by exists err, already.
Qed.
