(* ===== verification/Http.v ===== *)
(** * The HTTP layer

    api/handler.go and api/routers.go: the routes, the decoding of a request from
    JSON and the reply, for every endpoint alike. *)

From S2P Require Export ApiFacts ApiJson Wire.

(** The endpoints, with the types of request and response. *)
Inductive endpoint : Type -> Type -> Type :=
| WorkflowStart : endpoint WorkflowStartRequest WorkflowStartResponse
| WorkflowWaitForStateCompletion :
    endpoint WorkflowWaitForStateCompletionRequest WorkflowWaitForStateCompletionResponse
| WorkflowSignal : endpoint WorkflowSignalRequest unit
| WorkflowPublishToInternalChannel : endpoint PublishToInternalChannelRequest unit
| WorkflowGetDataAttributes : endpoint WorkflowGetDataObjectsRequest WorkflowGetDataObjectsResponse
| WorkflowSetDataAttributes : endpoint WorkflowSetDataObjectsRequest unit
| WorkflowGetSearchAttributes :
    endpoint WorkflowGetSearchAttributesRequest WorkflowGetSearchAttributesResponse
| WorkflowSetSearchAttributes : endpoint WorkflowSetSearchAttributesRequest unit
| WorkflowGet : endpoint WorkflowGetRequest WorkflowGetResponse
| WorkflowGetWithWait : endpoint WorkflowGetRequest WorkflowGetResponse
| WorkflowSearch : endpoint WorkflowSearchRequest WorkflowSearchResponse
| WorkflowReset : endpoint WorkflowResetRequest WorkflowResetResponse
| WorkflowStop : endpoint WorkflowStopRequest unit
| WorkflowSkipTimer : endpoint WorkflowSkipTimerRequest unit
| WorkflowInternalDump : endpoint WorkflowDumpRequest WorkflowDumpResponse
| WorkflowConfigUpdate : endpoint WorkflowConfigUpdateRequest unit
| WorkflowTriggerContinueAsNew : endpoint TriggerContinueAsNewRequest unit
| WorkflowRpc : endpoint WorkflowRpcRequest (option WorkflowRpcResponse).

Definition api_path {Req Resp} (e : endpoint Req Resp) : string :=
  "/api/v1/workflow/" +:+
  match e with
  | WorkflowStart => "start"
  | WorkflowWaitForStateCompletion => "waitForStateCompletion"
  | WorkflowSignal => "signal"
  | WorkflowPublishToInternalChannel => "publishToInternalChannel"
  | WorkflowGetDataAttributes => "dataobjects/get"
  | WorkflowSetDataAttributes => "dataobjects/set"
  | WorkflowGetSearchAttributes => "searchattributes/get"
  | WorkflowSetSearchAttributes => "searchattributes/set"
  | WorkflowGet => "get"
  | WorkflowGetWithWait => "getWithWait"
  | WorkflowSearch => "search"
  | WorkflowReset => "reset"
  | WorkflowStop => "stop"
  | WorkflowSkipTimer => "timer/skip"
  | WorkflowInternalDump => "internal/dump"
  | WorkflowConfigUpdate => "config/update"
  | WorkflowTriggerContinueAsNew => "triggerContinueAsNew"
  | WorkflowRpc => "rpc"
  end.

Section codecs.
Context {FT : FloatText}.

(** [var req iwfidl.X; c.ShouldBindJSON(&req)]: the type of each endpoint's request. *)
Definition request_codec {Req Resp} (e : endpoint Req Resp) : codec Req :=
  match e in endpoint Req Resp return codec Req with
  | WorkflowStart => WorkflowStartRequest_codec
  | WorkflowWaitForStateCompletion => WorkflowWaitForStateCompletionRequest_codec
  | WorkflowSignal => WorkflowSignalRequest_codec
  | WorkflowPublishToInternalChannel => PublishToInternalChannelRequest_codec
  | WorkflowGetDataAttributes => WorkflowGetDataObjectsRequest_codec
  | WorkflowSetDataAttributes => WorkflowSetDataObjectsRequest_codec
  | WorkflowGetSearchAttributes => WorkflowGetSearchAttributesRequest_codec
  | WorkflowSetSearchAttributes => WorkflowSetSearchAttributesRequest_codec
  | WorkflowGet => WorkflowGetRequest_codec
  | WorkflowGetWithWait => WorkflowGetRequest_codec
  | WorkflowSearch => WorkflowSearchRequest_codec
  | WorkflowReset => WorkflowResetRequest_codec
  | WorkflowStop => WorkflowStopRequest_codec
  | WorkflowSkipTimer => WorkflowSkipTimerRequest_codec
  | WorkflowInternalDump => WorkflowDumpRequest_codec
  | WorkflowConfigUpdate => WorkflowConfigUpdateRequest_codec
  | WorkflowTriggerContinueAsNew => TriggerContinueAsNewRequest_codec
  | WorkflowRpc => WorkflowRpcRequest_codec
  end.

(** [c.JSON(http.StatusOK, resp)], with [struct{}{}] where there is no response. *)
Definition response_codec {Req Resp} (e : endpoint Req Resp) : codec Resp :=
  match e in endpoint Req Resp return codec Resp with
  | WorkflowStart => WorkflowStartResponse_codec
  | WorkflowWaitForStateCompletion => WorkflowWaitForStateCompletionResponse_codec
  | WorkflowSignal => empty_struct
  | WorkflowPublishToInternalChannel => empty_struct
  | WorkflowGetDataAttributes => WorkflowGetDataObjectsResponse_codec
  | WorkflowSetDataAttributes => empty_struct
  | WorkflowGetSearchAttributes => WorkflowGetSearchAttributesResponse_codec
  | WorkflowSetSearchAttributes => empty_struct
  | WorkflowGet => WorkflowGetResponse_codec
  | WorkflowGetWithWait => WorkflowGetResponse_codec
  | WorkflowSearch => WorkflowSearchResponse_codec
  | WorkflowReset => WorkflowResetResponse_codec
  | WorkflowStop => empty_struct
  | WorkflowSkipTimer => empty_struct
  | WorkflowInternalDump => WorkflowDumpResponse_codec
  | WorkflowConfigUpdate => empty_struct
  | WorkflowTriggerContinueAsNew => empty_struct
  | WorkflowRpc => ptr WorkflowRpcResponse_codec
  end.

(** [c.ShouldBindJSON]: a decoder, which ignores what follows the request.  The
    structs have no binding tags, so there is nothing to validate. *)
Definition ShouldBindJSON {Req Resp} (e : endpoint Req Resp) (body : list ascii) : option Req :=
  Decode (request_codec e) body.

#[export] Instance request_lawful {Req Resp} (e : endpoint Req Resp) : Lawful (request_codec e).
Proof. destruct e; typeclasses eauto. Qed.
#[export] Instance response_lawful {Req Resp} (e : endpoint Req Resp) : Lawful (response_codec e).
Proof. destruct e; typeclasses eauto. Qed.
End codecs.

(** A status with a response, and how it is marshalled, or an error as its body; or a
    text. *)
Inductive http_reply : Type :=
| Reply {Resp : Type} (c : codec Resp) (status : Z) (body : Resp + ErrorResponse)
| TextReply (status : Z) (text : string)
| NoRoute.

Definition StatusOK : Z := 200.

Section http.
Context (s : serviceImpl).
Context {FT : FloatText}.

Definition svc {Req Resp} (e : endpoint Req Resp) : Req -> handler Resp :=
  match e in endpoint Req Resp return Req -> handler Resp with
  | WorkflowStart => ApiV1WorkflowStartPost s
  | WorkflowWaitForStateCompletion => ApiV1WorkflowWaitForStateCompletion s
  | WorkflowSignal => ApiV1WorkflowSignalPost s
  | WorkflowPublishToInternalChannel => ApiV1WorkflowPublishToInternalChannelPost s
  | WorkflowGetDataAttributes => ApiV1WorkflowGetQueryAttributesPost s
  | WorkflowSetDataAttributes => ApiV1WorkflowSetQueryAttributesPost s
  | WorkflowGetSearchAttributes => ApiV1WorkflowGetSearchAttributesPost s
  | WorkflowSetSearchAttributes => ApiV1WorkflowSetSearchAttributesPost s
  | WorkflowGet => ApiV1WorkflowGetPost s
  | WorkflowGetWithWait => ApiV1WorkflowGetWithWaitPost s
  | WorkflowSearch => ApiV1WorkflowSearchPost s
  | WorkflowReset => ApiV1WorkflowResetPost s
  | WorkflowStop => ApiV1WorkflowStopPost s
  | WorkflowSkipTimer => ApiV1WorkflowSkipTimerPost s
  | WorkflowInternalDump => ApiV1WorkflowDumpPost s
  | WorkflowConfigUpdate => ApiV1WorkflowConfigUpdate s
  | WorkflowTriggerContinueAsNew => ApiV1WorkflowTriggerContinueAsNew s
  | WorkflowRpc => ApiV1WorkflowRpcPost s
  end.

Definition invalidRequestSchema {Resp : Type} (c : codec Resp) : http_reply :=
  Reply c StatusBadRequest
    (inr (mkErrorResponse (Some "invalid request schema") None None None None)).

Definition processError {Resp : Type} (c : codec Resp) (resp : ErrorAndStatus) : http_reply :=
  Reply c (StatusCode resp) (inr (es_Error resp)).

(** The handler of an endpoint. *)
Definition handle {Req Resp} (e : endpoint Req Resp) (body : list ascii) : proc apiE http_reply :=
  match ShouldBindJSON e body with
  | None => mret (invalidRequestSchema (response_codec e))
  | Some req =>
      r ← svc e req;
      mret match r with
           | inr errResp => processError (response_codec e) errResp
           | inl resp => Reply (response_codec e) StatusOK (inl resp)
           end
  end.

Definition index : proc apiE http_reply := mret (TextReply StatusOK "Hello World from iWF server!").

Definition infoHealthCheck : proc apiE http_reply :=
  resp ← ApiInfoHealth; mret (Reply HealthInfo_codec StatusOK (inl resp)).

(** The routes of [NewService]: a method, a path and a handler. *)
Definition routes : list (string * string * (list ascii -> proc apiE http_reply)) :=
  let post {Req Resp} (e : endpoint Req Resp) := ("POST", api_path e, handle e) in
  [("GET", "/", fun _ => index);
   post WorkflowStart; post WorkflowWaitForStateCompletion; post WorkflowSignal;
   post WorkflowPublishToInternalChannel; post WorkflowGetDataAttributes;
   post WorkflowSetDataAttributes; post WorkflowGetSearchAttributes;
   post WorkflowSetSearchAttributes; post WorkflowGet; post WorkflowGetWithWait;
   post WorkflowSearch; post WorkflowReset; post WorkflowStop; post WorkflowSkipTimer;
   post WorkflowInternalDump; post WorkflowConfigUpdate; post WorkflowTriggerContinueAsNew;
   post WorkflowRpc;
   ("GET", "/info/healthcheck", fun _ => infoHealthCheck)].

(** gin's choice of the handler; it answers a request that no route matches with 404
    (or a redirect, where only a slash at the end is wrong). *)
Definition serve (method path : string) (body : list ascii) : proc apiE http_reply :=
  match find (fun r => bool_decide (r.1 = (method, path))) routes with
  | Some (_, handle) => handle body
  | None => mret NoRoute
  end.

(** The reply as it goes out. *)
Definition write_reply (r : http_reply) : wire_response :=
  match r with
  | Reply c status (inl resp) => json_response c status resp
  | Reply _ status (inr err) => json_response ErrorResponse_codec status err
  | TextReply status text =>
      mkwire_response status (status_line status) "text/plain; charset=utf-8" (chars text) None
  | NoRoute => no_route
  end.

(** ** The status of every reply *)

(** The error the worker's RPC or the workflow's update gave. *)
Definition relayed (tr : list (obs apiE)) (e : ErrorAndStatus) : Prop :=
  (exists rpcPrep req, made tr (CallWorkerRpc rpcPrep req) (Ret (inr e))) \/
  (exists wid rid ty req output,
     made tr (Client (SynchronousUpdateWorkflow wid rid ty req)) (inl output) /\
     ho_StatusError output = Some e).

Definition known_status (status : Z) : Prop := status ∈ [400; 420; 450; 500]%Z.

(** An error a handler answers has a status of the service's own, or is relayed. *)
Definition errors_known {A} (tr : list (obs apiE)) (r : gores (A + ErrorAndStatus)) : Prop :=
  forall e, r = Ret (inr e) -> known_status (StatusCode e) \/ relayed tr e.

Lemma errors_known_app {A} tr tr' (r : gores (A + ErrorAndStatus)) :
  errors_known tr' r -> errors_known (tr ++ tr') r.
Proof.
  intros H e He. destruct (H e He) as [Hk|[(p & q & Hm)|(a & b & c & d & o & Hm & Ho)]]; [by left|right..].
  - left. exists p, q. apply elem_of_app. by right.
  - right. exists a, b, c, d, o. split; [apply elem_of_app; by right | done].
Qed.

Lemma known_bind {A B} (m : proc apiE A) (f : A -> handler B) :
  (forall a, always (f a) errors_known) -> always (m ≫= f) errors_known.
Proof.
  intros Hf. apply always_bind, always_intro. intros tr [a|msg]; cbn; [|by intros ?].
  eapply always_mono; [|apply Hf]. intros tr' r. apply errors_known_app.
Qed.

Lemma handleError_known err wid : known_status (StatusCode (handleError s err wid)).
Proof.
  unfold handleError, known_status.
  destruct (eh_IsNotFoundError _ err), (eh_IsWorkflowAlreadyStartedError _ err),
    (bool_decide (wid = EmptyString)); cbn; set_solver.
Qed.

Lemma known_or_error {A B} wid (m : proc apiE (A + error)) (f : A -> handler B) :
  (forall a, always (f a) errors_known) -> always (or_error s wid m f) errors_known.
Proof.
  intros Hf. apply known_bind. intros [a|err]; [apply Hf|]. cbn.
  intros e [= <-]. left. apply handleError_known.
Qed.

Lemma known_unless_error {B} wid (m : proc apiE (option error)) (k : handler B) :
  always k errors_known -> always (unless_error s wid m k) errors_known.
Proof.
  intros Hk. apply known_bind. intros [err|]; [|apply Hk]. cbn.
  intros e [= <-]. left. apply handleError_known.
Qed.

Lemma known_capture {A} (p : handler A) : always p errors_known -> always (CapturePanic p) errors_known.
Proof.
  intros Hp. apply always_capture. eapply always_mono; [|exact Hp].
  intros tr [r|msg] H; [exact H|]. intros e [= <-]. left. cbn. set_solver.
Qed.

Lemma known_ok {A} (a : A) : always (Fin (inl a) : handler A) errors_known.
Proof. by intros ?. Qed.

Lemma known_err {A} e : known_status (StatusCode e) -> always (Fin (inr e) : handler A) errors_known.
Proof. intros He e' [= <-]. by left. Qed.

Lemma known_finally {A} (p : handler A) (q : proc apiE unit) :
  always p errors_known -> always (finally p q) errors_known.
Proof.
  intros Hp. apply always_finally. eapply always_mono; [|exact Hp]. intros tr r Hr.
  apply always_intro. intros tr' [u|msg]; [|by intros ?]. intros e He.
  destruct (Hr e He) as [Hk|[(p' & q' & Hm)|(a & b & c & d & o & Hm & Ho)]]; [by left|right..].
  - left. exists p', q'. apply elem_of_app. by left.
  - right. exists a, b, c, d, o. split; [apply elem_of_app; by left | done].
Qed.

Lemma known_of_gores {A B} (m : gores A) (f : A -> handler B) :
  (forall a, always (f a) errors_known) -> always (of_gores m ≫= f) errors_known.
Proof. intros Hf. by apply known_bind. Qed.

(** The straight-line handlers. *)
Ltac known :=
  repeat (lazymatch goal with
  | |- always (CapturePanic _) _ => apply known_capture
  | |- always (or_error _ _ _ _) _ => apply known_or_error; intros
  | |- always (unless_error _ _ _ _) _ => apply known_unless_error
  | |- always (send_signal _ _ _ _ _ _) _ => apply known_unless_error
  | |- always (api_error _ _ _) _ => apply known_err, handleError_known
  | |- always (long_poll_timeout _) _ => apply known_err; cbn; set_solver
  | |- always (mret (inl _)) _ => apply known_ok
  | |- always (mret (inr _)) _ => apply known_err; cbn; set_solver
  | |- always (if ?b then _ else _) _ => destruct b
  | |- always (match ?x with _ => _ end) _ => destruct x
  | |- always (mbind _ _) _ => apply known_bind; intros
  end; cbv zeta beta).

Lemma known_start req : always (start_workflow s req) errors_known.
Proof. unfold start_workflow, already_started. known. Qed.

Lemma known_get req withWait : always (doApiV1WorkflowGetPost s req withWait) errors_known.
Proof. unfold doApiV1WorkflowGetPost, get_failed, failed_response, closed_response. known. Qed.

(** The errors the worker and the workflow answer are relayed. *)
Lemma known_update req : always (handleRpcBySynchronousUpdate s req) errors_known.
Proof.
  unfold handleRpcBySynchronousUpdate. apply known_bind. intros now. cbn. intros [output|err]; cbn.
  - destruct (ho_StatusError output) as [e|] eqn:Eo; [|by intros ?].
    intros e' [= <-]. right. right. eexists _, _, _, _, output. split; [by left | done].
  - destruct (GetApplicationErrorTypeIfIsApplicationError _ err) as [[]|]; cbn; intros e [= <-]; left;
      try apply handleError_known; cbn; set_solver.
Qed.

Lemma known_rpc req : always (invoke_rpc s req) errors_known.
Proof.
  unfold invoke_rpc. apply known_or_error. intros rpcPrep. apply known_bind. intros start.
  apply known_finally. destruct rpcPrep as [prep|]; [|by intros ?]. cbn.
  intros [[[resp|]|e]|msg]; cbn; try by intros ?.
  - unfold rpc_write_back. destruct (rpc_mutates resp); cbn; [|by intros ?].
    intros [err|]; cbn; [|by intros ?]. intros e [= <-]. left. apply handleError_known.
  - intros e' [= <-]. right. left. exists prep, req. by left.
Qed.

Lemma svc_known {Req Resp} (e : endpoint Req Resp) (req : Req) : always (svc e req) errors_known.
Proof.
  destruct e; cbn [svc];
    unfold ApiV1WorkflowStartPost, ApiV1WorkflowGetPost, ApiV1WorkflowGetWithWaitPost, ApiV1WorkflowRpcPost,
      ApiV1WorkflowWaitForStateCompletion, ApiV1WorkflowSignalPost,
      ApiV1WorkflowPublishToInternalChannelPost, ApiV1WorkflowConfigUpdate,
      ApiV1WorkflowTriggerContinueAsNew, ApiV1WorkflowStopPost, ApiV1WorkflowSetQueryAttributesPost,
      ApiV1WorkflowSetSearchAttributesPost, ApiV1WorkflowSkipTimerPost,
      ApiV1WorkflowGetQueryAttributesPost, ApiV1WorkflowGetSearchAttributesPost,
      ApiV1WorkflowSearchPost, ApiV1WorkflowResetPost, ApiV1WorkflowDumpPost; known;
    auto using known_start, known_get, known_update, known_rpc.
Qed.

(** No panic gets out of a handler. *)
Lemma capture_returns {A} (p : handler A) : always (CapturePanic p) (fun _ r => exists a, r = Ret a).
Proof. apply always_capture, always_intro. intros tr [a|msg]; cbn; eauto. Qed.

Lemma svc_returns {Req Resp} (e : endpoint Req Resp) (req : Req) :
  always (svc e req) (fun _ r => exists a, r = Ret a).
Proof.
  destruct e; cbn [svc]; try apply capture_returns.
  - cbn. intros [err|]; cbn; eauto.
  - cbn. intros [resp|err]; cbn; eauto.
Qed.

Lemma serve_route {Req Resp} (e : endpoint Req Resp) body : serve "POST" (api_path e) body = handle e body.
Proof. by destruct e. Qed.

(** C17: every request on a route of the service is answered: with 200 and a response
    or with an error, whose status is 400, 420, 450 or 500 unless it is the error
    the worker or the workflow gave; no panic escapes, and a request that does not
    decode is answered with 400 before any call is made. *)
Theorem requests_are_answered {Req Resp} (e : endpoint Req Resp) body tr r :
  runs (serve "POST" (api_path e) body) tr r ->
  (ShouldBindJSON e body = None -> tr = [] /\ r = Ret (invalidRequestSchema (response_codec e))) /\
  exists status (answer : Resp + ErrorResponse), r = Ret (Reply (response_codec e) status answer) /\
    match answer with
    | inl _ => status = 200%Z
    | inr err => known_status status \/ relayed tr (mkErrorAndStatus status err)
    end.
Proof.
  rewrite serve_route. unfold handle. destruct (ShouldBindJSON e body) as [req|].
  - intros Hruns. split; [done|].
    apply runs_bind in Hruns as [(msg & -> & Hp)|(a & t1 & t2 & -> & H1 & [-> ->]%runs_Fin)].
    { by destruct (always_runs _ _ _ _ (svc_returns e req) Hp). }
    rewrite app_nil_r. destruct a as [resp|errResp]; [by eexists _, (inl resp)|].
    eexists _, (inr _). split; [done|].
    destruct (always_runs _ _ _ _ (svc_known e req) H1 errResp eq_refl) as [Hk|Hr]; [by left|right].
    by destruct errResp.
  - intros [-> ->]%runs_Fin. split; [done|]. eexists _, (inr _). split; [done|]. left. cbn. set_solver.
Qed.
End http.
