(* ===== verification/ApiSignals.v ===== *)
(** * The signals of the API and their receivers

    Every handler of the API sends a signal with a value of the type that the
    receiver of its channel (Signals.v) decodes. *)

From S2P Require Export Http.

(** ** What a program calls *)

(** Every call the program can make satisfies [P]. *)
Fixpoint all_calls {E : Type -> Type} {A} (P : forall X, E X -> Prop) (p : proc E A) : Prop :=
  match p with
  | Fin _ | Throw _ => True
  | Ask e k => P _ e /\ forall x, all_calls P (k x)
  end.

Section calls.
Context {E : Type -> Type} (P : forall X, E X -> Prop).

Lemma all_calls_bind {A B} (p : proc E A) (f : A -> proc E B) :
  all_calls P p -> (forall a, all_calls P (f a)) -> all_calls P (p ≫= f).
Proof.
  intros Hp Hf. induction p as [a|msg|X e k IH]; cbn in *; [apply Hf | done|].
  destruct Hp as [He Hk]. split; [done|]. intros x. apply IH, Hk.
Qed.

Lemma all_calls_of_gores {A} (m : gores A) : all_calls P (of_gores m).
Proof. by destruct m. Qed.

Lemma all_calls_capture {A} (p : proc E (A + ErrorAndStatus)) :
  all_calls P p -> all_calls P (CapturePanic p).
Proof.
  induction p as [a|msg|X e k IH]; cbn; [done..|]. intros [He Hk]. split; [done|]. auto.
Qed.

Lemma all_calls_runs {A} (p : proc E A) tr r :
  all_calls P p -> runs p tr r -> Forall (fun o => match o with Obs e _ => P _ e end) tr.
Proof.
  intros Hp Hr. induction Hr as [a|msg|X e k x tr r Hr IH]; constructor; [apply Hp | apply IH, Hp].
Qed.
End calls.

Lemma all_calls_finally P {A} (p : proc apiE A) q :
  all_calls P p -> all_calls P q -> all_calls P (finally p q).
Proof.
  intros Hp Hq. induction p as [a|msg|X e k IH]; cbn in *.
  - by apply (all_calls_bind P q).
  - by apply (all_calls_bind P q).
  - destruct Hp as [He Hk]. split; [done|]. auto.
Qed.

(** ** Channels *)

(** The kind of values the interpreter decodes from a channel: the trigger's own
    handler, and those of the other system channels and of the user's. *)
Definition decoded_kind (sigName : string) : option nat :=
  if bool_decide (sigName = TriggerContinueAsNewSignalChannelName) then Some (sig_kind SigTrigger)
  else target sigName.

(** The channel and the kind of the value of a signal. *)
Definition signal_of (o : obs apiE) : option (string * nat) :=
  match o with
  | Obs e _ =>
      match e with
      | Client (SignalWorkflow _ _ name ty _) => Some (name, sig_kind ty)
      | _ => None
      end
  end.

Definition well_typed X (e : apiE X) : Prop :=
  match e with
  | Client (SignalWorkflow _ _ name ty _) => decoded_kind name = Some (sig_kind ty)
  | _ => True
  end.

(** The signal request is for a channel of the user. *)
Definition names_user_channel {Req Resp} (e : endpoint Req Resp) : Req -> Prop :=
  match e in endpoint Req Resp return Req -> Prop with
  | WorkflowSignal => fun req => HasPrefix (sg_SignalChannelName req) IwfSystemConstPrefix = false
  | _ => fun _ => True
  end.

Section signals.
Context (s : serviceImpl).

Notation typed p := (all_calls well_typed p).

Lemma typed_or_error {A B} wid (m : proc apiE (A + error)) (f : A -> handler B) :
  typed m -> (forall a, typed (f a)) -> typed (or_error s wid m f).
Proof. intros Hm Hf. apply all_calls_bind; [done|]. by intros []. Qed.

Lemma typed_unless_error {B} wid (m : proc apiE (option error)) (k : handler B) :
  typed m -> typed k -> typed (unless_error s wid m k).
Proof. intros Hm Hk. apply all_calls_bind; [done|]. by intros []. Qed.

Lemma typed_send {T} wid rid name (ty : sigty T) arg :
  decoded_kind name = Some (sig_kind ty) -> typed (send_signal s wid rid name ty arg).
Proof. intros Hty. apply typed_unless_error; [by split | done]. Qed.

Lemma typed_store_call {X} (e : apiE X) : well_typed X e -> typed (store_call_api s e).
Proof. intros He. unfold store_call_api. by destruct (store_set s). Qed.

Lemma typed_write_data objs wid : typed (write_data s objs wid).
Proof.
  induction objs as [|kv objs IH]; cbn [write_data]; [done|].
  destruct (oversized _ _) as [data|].
  - apply all_calls_bind; [by apply typed_store_call|]. intros [[storeId path]|err]; [|done].
    apply all_calls_bind; [done|]. by intros [].
  - apply all_calls_bind; [done|]. by intros [].
Qed.

Lemma typed_write objs wid : typed (writeDataObjectsToExternalStorage s objs wid).
Proof. unfold writeDataObjectsToExternalStorage. destruct (negb _); [done | apply typed_write_data]. Qed.

Lemma typed_load objs : typed (loadDataObjectsFromExternalStorage s objs).
Proof.
  induction objs as [|kv objs IH]; cbn [loadDataObjectsFromExternalStorage]; [done|].
  destruct (reference_of _) as [[storeId path]|].
  - apply all_calls_bind; [by apply typed_store_call|]. intros [data|err]; [|done].
    apply all_calls_bind; [done|]. by intros [].
  - apply all_calls_bind; [done|]. by intros [].
Qed.

Ltac typed_calls :=
  repeat (lazymatch goal with
  | |- typed (CapturePanic _) => apply all_calls_capture
  | |- typed (finally _ _) => apply all_calls_finally
  | |- typed (or_error _ _ _ _) => apply typed_or_error; [|intros ?]
  | |- typed (unless_error _ _ _ _) => apply typed_unless_error
  | |- typed (send_signal _ _ _ _ _ _) => apply typed_send; try done
  | |- typed (writeDataObjectsToExternalStorage _ _ _) => apply typed_write
  | |- typed (loadDataObjectsFromExternalStorage _ _) => apply typed_load
  | |- typed (store_call_api _ _) => by apply typed_store_call
  | |- typed (of_gores _) => apply all_calls_of_gores
  | |- typed (client _) => by split
  | |- typed (ask _) => by split
  | |- typed (api_error _ _ _) => done
  | |- typed (long_poll_timeout _) => done
  | |- typed (mret _) => done
  | |- typed (if ?b then _ else _) => destruct b
  | |- typed (match ?x with _ => _ end) => destruct x
  | |- typed (mbind _ _) => apply all_calls_bind; [|intros ?]
  end; cbv zeta beta).

Lemma svc_typed {Req Resp} (e : endpoint Req Resp) (req : Req) :
  names_user_channel e req -> typed (svc s e req).
Proof.
  destruct e; cbn [svc names_user_channel]; intros Hname;
    unfold ApiV1WorkflowStartPost, ApiV1WorkflowGetPost, ApiV1WorkflowGetWithWaitPost, ApiV1WorkflowRpcPost,
      ApiV1WorkflowWaitForStateCompletion, ApiV1WorkflowSignalPost,
      ApiV1WorkflowPublishToInternalChannelPost, ApiV1WorkflowConfigUpdate,
      ApiV1WorkflowTriggerContinueAsNew, ApiV1WorkflowStopPost, ApiV1WorkflowSetQueryAttributesPost,
      ApiV1WorkflowSetSearchAttributesPost, ApiV1WorkflowSkipTimerPost,
      ApiV1WorkflowGetQueryAttributesPost, ApiV1WorkflowGetSearchAttributesPost,
      ApiV1WorkflowSearchPost, ApiV1WorkflowResetPost, ApiV1WorkflowDumpPost,
      start_workflow, apply_start_options, store_state_input, already_started,
      wait_parent_id, attributes_from_memo, doApiV1WorkflowGetPost, get_failed, failed_response,
      closed_response, handleRpcBySynchronousUpdate, invoke_rpc, rpc_write_back, rpc_event, deadline_of;
    typed_calls.
  unfold decoded_kind, target. rewrite Hname. case_bool_decide as E; [|done].
  by rewrite E in Hname.
Qed.

(** C16: whatever endpoint is called, every signal it sends carries a value of the type
    that the channel's receiver in the workflow decodes; for the signal endpoint,
    when the request names a channel of the user and not one of the system. *)
Theorem signals_well_typed {Req Resp} (e : endpoint Req Resp) req tr r name kind :
  names_user_channel e req -> runs (svc s e req) tr r -> (name, kind) ∈ omap signal_of tr ->
  decoded_kind name = Some kind.
Proof.
  intros Hname Hruns (o & Ho & Hs)%list_elem_of_omap.
  pose proof (all_calls_runs _ _ _ _ (svc_typed e req Hname) Hruns) as Hall.
  apply (proj1 (Forall_forall _ _) Hall) in Ho. destruct o as [X call x]. cbn in Hs, Ho.
  destruct call as [X c| | | | | |]; try done. destruct c; try done. cbn in Hs, Ho. by injection Hs as <- <-.
Qed.
End signals.
