(* ===== verification/Server.v ===== *)
(** * The server: configuration, workers and start

    config/config.go, interpreter/env/env.go, interpreter/{temporal,cadence}/worker.go
    and cmd/server/iwf/iwf.go: what a process reads of its configuration, the workers
    it registers and the services it starts.  The calls outside (the SDKs' workers
    and clients, the set-up of S3, the process itself) are the events [serverE];
    log.Fatal ends the process, so its event has no answer. *)

From S2P Require Export WorkflowProviders ApiFacts.

(** ** Configuration

    Reading the file (NewConfig) is a parameter; Log is left out. *)

Record WaitForStateCompletionMigration : Type := mkWaitForStateCompletionMigration {
  mig_SignalWithStartOn : string;
  mig_WaitForOn : string
}.

Record ApiConfig : Type := mkApiConfig {
  Port : Z;
  ac_MaxWaitSeconds : Z;
  ac_OmitRpcInputOutputInHistory : option bool;
  ac_WaitForStateCompletionMigration : WaitForStateCompletionMigration;
  ac_QueryWorkflowFailedRetryPolicy : QueryWorkflowFailedRetryPolicy
}.

(** The options of the SDKs' workers the code looks at; the rest is handed on. *)
Record temporal_worker_Options : Type := mktemporal_worker_Options {
  tw_MaxConcurrentActivityTaskPollers : Z;
  tw_MaxConcurrentWorkflowTaskPollers : Z
}.

Record cadence_worker_Options : Type := mkcadence_worker_Options {
  cw_MaxConcurrentActivityTaskPollers : Z;
  cw_MaxConcurrentDecisionTaskPollers : Z;
  cw_DisableStickyExecution : bool
}.

Record TemporalConfig : Type := mkTemporalConfig {
  tcfg_HostPort : string;
  CloudAPIKey : string;
  Namespace : string;
  Prometheus : bool;                                  (* is set *)
  tcfg_WorkerOptions : option temporal_worker_Options
}.

Record CadenceConfig : Type := mkCadenceConfig {
  ccfg_HostPort : string;
  Domain : string;
  ccfg_WorkerOptions : option cadence_worker_Options
}.

Record InterpreterActivityConfig : Type := mkInterpreterActivityConfig {
  iac_ApiServiceAddress : string;
  DumpWorkflowInternalActivityConfig : option DumpActivityConfig;
  DefaultHeaders : gmap string string
}.

Record InterpreterConfig : Type := mkInterpreterConfig {
  Temporal : option TemporalConfig;
  Cadence : option CadenceConfig;
  ic_DefaultWorkflowConfig : option WorkflowConfig;
  ic_InterpreterActivityConfig : InterpreterActivityConfig;
  VerboseDebug : bool;
  ic_FailAtMemoIncompatibility : bool
}.

Record Config : Type := mkConfig {
  cfg_Api : ApiConfig;
  cfg_Interpreter : InterpreterConfig;
  cfg_Storage : ExternalStorageConfig
}.

Definition or_default (s d : string) : string := if bool_decide (s = EmptyString) then d else s.

Definition GetApiServiceAddressWithDefault (c : Config) : string :=
  or_default (iac_ApiServiceAddress (ic_InterpreterActivityConfig (cfg_Interpreter c)))
    ("http://localhost:" +:+ pretty (Port (cfg_Api c))).

Definition GetSignalWithStartOnWithDefault (c : Config) : string :=
  or_default (mig_SignalWithStartOn (ac_WaitForStateCompletionMigration (cfg_Api c))) "old".

Definition GetWaitForOnWithDefault (c : Config) : string :=
  or_default (mig_WaitForOn (ac_WaitForStateCompletionMigration (cfg_Api c))) "old".

(** The zero value, which the shared configuration has before it is set. *)
Definition zero_config : Config :=
  mkConfig
    (mkApiConfig 0 0 None (mkWaitForStateCompletionMigration EmptyString EmptyString)
       (mkQueryWorkflowFailedRetryPolicy 0 0))
    (mkInterpreterConfig None None None (mkInterpreterActivityConfig EmptyString None ∅) false false)
    (mkExternalStorageConfig false 0 [] 0).

(** ** The shared environment (env.go)

    The globals the workflows and activities use.  The unified client is that of
    the process, so only whether it is set is kept here. *)

Record SharedEnv (W : Type) : Type := mkSharedEnv {
  sharedConfig : Config;
  temporalMemoEncryption : bool;
  unifiedClient_set : bool;
  env_taskQueue : string;
  env_blobStore : option (blobStoreImpl W)
}.
Arguments mkSharedEnv {W} _ _ _ _ _.
Arguments sharedConfig {W} _.
Arguments temporalMemoEncryption {W} _.
Arguments unifiedClient_set {W} _.
Arguments env_taskQueue {W} _.
Arguments env_blobStore {W} _.

Definition zero_env {W} : SharedEnv W := mkSharedEnv zero_config false false EmptyString None.

(** ** The calls *)

(** The settings of the S3 client. *)
Record s3_settings : Type := mks3_settings {
  set_endpoint : string;
  set_region : string;
  set_accessKey : string;
  set_secretKey : string
}.

(** The goroutines of [start]. *)
Inductive launch : Type :=
| launchTemporal (svcName : string) (config : Config)
| launchCadence (svcName : string) (config : Config) (domain : string).

Inductive serverE (W : Type) : Type -> Type :=
| NewConfig (path : string) : serverE W (Config + error)
| NewZapLogger : serverE W (option error)
| NewPrometheusScope : serverE W unit
| DialTemporal (hostPort namespace apiKey : string) : serverE W (option error)
| DispatcherStart (hostPort : string) : serverE W (option error)
| Go (l : launch) : serverE W unit
| WaitForever : serverE W Empty_set
| Fatal (msg : string) : serverE W Empty_set
| LoadAwsConfig (settings : s3_settings) : serverE W (option error)
| HeadBucket (bucket : string) : serverE W (option error)
| CreateBucket (bucket : string) : serverE W (option error)
| SetSharedEnv (e : SharedEnv W) : serverE W unit
| GetSharedEnv : serverE W (SharedEnv W)
| RunApi (config : Config) (store : option (blobStoreImpl W)) (address : string) : serverE W error
| SetStickyWorkflowCacheSize (n : Z) : serverE W unit
| NewTemporalWorker (taskQueue : string) (options : temporal_worker_Options) : serverE W unit
| NewCadenceWorker (domain tasklist : string) (options : cadence_worker_Options) : serverE W unit
| EnableVerboseLogging (b : bool) : serverE W unit
| RegisterWorkflow (name : string) : serverE W unit
| RegisterActivity (name : string) : serverE W unit
| WorkerStart : serverE W (option error)
| WorkerStop : serverE W unit
| CloseClient : serverE W unit
| OfClient {X} (e : clientE X) : serverE W X
| ClientAlreadyStarted (err : error) : serverE W bool.
Arguments NewConfig {W} _.
Arguments NewZapLogger {W}.
Arguments NewPrometheusScope {W}.
Arguments DialTemporal {W} _ _ _.
Arguments DispatcherStart {W} _.
Arguments Go {W} _.
Arguments WaitForever {W}.
Arguments Fatal {W} _.
Arguments LoadAwsConfig {W} _.
Arguments HeadBucket {W} _.
Arguments CreateBucket {W} _.
Arguments SetSharedEnv {W} _.
Arguments GetSharedEnv {W}.
Arguments RunApi {W} _ _ _.
Arguments SetStickyWorkflowCacheSize {W} _.
Arguments NewTemporalWorker {W} _ _.
Arguments NewCadenceWorker {W} _ _ _.
Arguments EnableVerboseLogging {W} _.
Arguments RegisterWorkflow {W} _.
Arguments RegisterActivity {W} _.
Arguments WorkerStart {W}.
Arguments WorkerStop {W}.
Arguments CloseClient {W}.
Arguments OfClient {W X} _.
Arguments ClientAlreadyStarted {W} _.

(** ** The names of the services to start *)

(** The encodings of the white space of Unicode. *)
Definition white_space : list (list Ascii.ascii) :=
  map (fun n => [ascii_of_nat n]) [9; 10; 11; 12; 13; 32] ++
  map (map ascii_of_nat)
    ([[194; 133]; [194; 160]; [225; 154; 128]; [226; 128; 168]; [226; 128; 169]; [226; 128; 175];
      [226; 129; 159]; [227; 128; 128]] ++ map (fun n => [226; 128; n]%nat) (seq 128 11)).

Fixpoint strip (p s : list Ascii.ascii) : option (list Ascii.ascii) :=
  match p, s with
  | [], _ => Some s
  | c :: p, d :: s => if bool_decide (c = d) then strip p s else None
  | _ :: _, [] => None
  end.

(** Removes the given sequences from the front, at most [fuel] of them. *)
Fixpoint trim (fuel : nat) (ps : list (list Ascii.ascii)) (s : list Ascii.ascii) : list Ascii.ascii :=
  match fuel with
  | 0 => s
  | S fuel =>
      match head (omap (fun p => strip p s) ps) with
      | Some s' => trim fuel ps s'
      | None => s
      end
  end.

(** [strings.TrimSpace] *)
Definition TrimSpace (s : string) : string :=
  let l := String.list_ascii_of_string s in
  let l := trim (length l) white_space l in
  String.string_of_list_ascii (reverse (trim (length l) (reverse <$> white_space) (reverse l))).

(** [strings.Split] at one character *)
Fixpoint Split (s : string) (sep : Ascii.ascii) : list string :=
  match s with
  | EmptyString => [EmptyString]
  | String c rest =>
      if bool_decide (c = sep) then EmptyString :: Split rest sep
      else match Split rest sep with
           | t :: ts => String c t :: ts
           | [] => [String c EmptyString]
           end
  end.

(** There is always a token, so the check of no services never fails. *)
Definition getServices (services : string) : list string :=
  TrimSpace <$> Split (TrimSpace services) ",".

Example default_services : getServices "api, interpreter" = ["api"; "interpreter"].
Proof. reflexivity. Qed.

Section server.
Context {W : Type}.
Notation P A := (proc (serverE W) A).

(** [log.Fatal]: nothing runs after it. *)
Definition fatal {A} (msg : string) : P A := x ← ask (Fatal msg); match x : Empty_set with end.

(** ** The workers *)

Record InterpreterWorker : Type := mkInterpreterWorker {
  iw_domain : string;                                 (* Cadence's *)
  iw_taskQueue : string
}.

Definition temporal_NewInterpreterWorker (config : Config) (taskQueue : string) (memoEncryption : bool)
  (store : option (blobStoreImpl W)) : P InterpreterWorker :=
  _ ← ask (SetSharedEnv (mkSharedEnv config memoEncryption true taskQueue store));
  mret (mkInterpreterWorker EmptyString taskQueue).

Definition cadence_NewInterpreterWorker (config : Config) (domain tasklist : string)
  (store : option (blobStoreImpl W)) : P InterpreterWorker :=
  _ ← ask (SetSharedEnv (mkSharedEnv config false true tasklist store));
  mret (mkInterpreterWorker domain tasklist).

(** The first closes its connection, then the worker, on both backends. *)
Definition Close : P unit := _ ← ask CloseClient; ask WorkerStop.

Definition poller_default (n : Z) : Z := if (n =? 0)%Z then 10%Z else n.

(** Starts the clean-up workflow of every storage that has a schedule. *)
Definition start_cleanup (taskQueue : string) (storeCfg : BlobStorageConfig) : P unit :=
  if bool_decide (CleanupCronSchedule storeCfg = EmptyString) then mret tt
  else
    err ← ask (OfClient (StartBlobStoreCleanupWorkflow taskQueue
                           ("blobstore-cleanup-" +:+ StorageId storeCfg)
                           (CleanupCronSchedule storeCfg) (StorageId storeCfg)));
    match err with
    | None => mret tt
    | Some err =>
        started ← ask (ClientAlreadyStarted err);
        if started : bool then mret tt else fatal "Unable to start blobstore cleanup workflow"
    end.

(** What both workers do once they are registered. *)
Definition start_registered (cfg : Config) (taskQueue : string) : P unit :=
  err ← ask WorkerStart;
  match err with
  | Some _ => fatal "Unable to start worker"
  | None =>
      if Enabled (cfg_Storage cfg)
      then each (SupportedStorages (cfg_Storage cfg)) (start_cleanup taskQueue)
      else mret tt
  end.

Definition registered_workflows : list string :=
  ["Interpreter"; "WaitforStateCompletionWorkflow"; "BlobStoreCleanup"].
Definition temporal_activities : list string :=
  ["StateStart"; "StateDecide"; "StateApiWaitUntil"; "StateApiExecute"; "DumpWorkflowInternal";
   "InvokeWorkerRpc"; "CleanupBlobStore"].
Definition cadence_activities : list string :=
  ["StateStart"; "StateDecide"; "StateApiWaitUntil"; "StateApiExecute"; "DumpWorkflowInternal";
   "CleanupBlobStore"].

Definition temporal_worker_options (options : option temporal_worker_Options) : temporal_worker_Options :=
  let options := default (mktemporal_worker_Options 0 0) options in
  mktemporal_worker_Options (poller_default (tw_MaxConcurrentActivityTaskPollers options))
    (poller_default (tw_MaxConcurrentWorkflowTaskPollers options)).

Definition temporal_worker_start (iw : InterpreterWorker) (disableStickyCache : bool) : P unit :=
  env ← ask GetSharedEnv;
  let cfg := sharedConfig env in
  let options := temporal_worker_options (Temporal (cfg_Interpreter cfg) ≫= tcfg_WorkerOptions) in
  _ ← (if disableStickyCache then ask (SetStickyWorkflowCacheSize 0) else mret tt);
  _ ← ask (NewTemporalWorker (iw_taskQueue iw) options);
  _ ← ask (EnableVerboseLogging (VerboseDebug (cfg_Interpreter cfg)));
  _ ← each registered_workflows (fun name => ask (RegisterWorkflow name));
  _ ← each temporal_activities (fun name => ask (RegisterActivity name));
  start_registered cfg (iw_taskQueue iw).

Definition cadence_worker_options (options : option cadence_worker_Options) (disableStickyCache : bool) :
  cadence_worker_Options :=
  let options := default (mkcadence_worker_Options 0 0 false) options in
  mkcadence_worker_Options (poller_default (cw_MaxConcurrentActivityTaskPollers options))
    (poller_default (cw_MaxConcurrentDecisionTaskPollers options))
    (if disableStickyCache then true else cw_DisableStickyExecution options).

Definition cadence_worker_start (iw : InterpreterWorker) (disableStickyCache : bool) : P unit :=
  env ← ask GetSharedEnv;
  let cfg := sharedConfig env in
  let options :=
    cadence_worker_options (Cadence (cfg_Interpreter cfg) ≫= ccfg_WorkerOptions) disableStickyCache in
  _ ← ask (NewCadenceWorker (iw_domain iw) (iw_taskQueue iw) options);
  _ ← ask (EnableVerboseLogging (VerboseDebug (cfg_Interpreter cfg)));
  _ ← each registered_workflows (fun name => ask (RegisterWorkflow name));
  _ ← each cadence_activities (fun name => ask (RegisterActivity name));
  start_registered cfg (iw_taskQueue iw).

(** ** The S3 client *)

Definition createBucketIfNotExists (bucketName : string) : P unit :=
  err ← ask (HeadBucket bucketName);
  match err with
  | None => mret tt
  | Some _ =>
      err ← ask (CreateBucket bucketName);
      match err with
      | None => mret tt
      | Some _ =>
          err ← ask (HeadBucket bucketName);
          match err with
          | None => mret tt
          | Some _ => fatal "failed to create bucket"
          end
      end
  end.

Definition active_storage (storages : list BlobStorageConfig) : option BlobStorageConfig :=
  List.find (fun s => match Status s with StorageStatusActive => true | _ => false end) storages.

(** [client_of] makes a client of its settings (s3.NewFromConfig). *)
Context (client_of : s3_settings -> S3Client W) (nil_client : S3Client W).

Definition CreateS3Client (cfg : Config) : P (S3Client W) :=
  if negb (Enabled (cfg_Storage cfg)) then mret nil_client
  else
    match active_storage (SupportedStorages (cfg_Storage cfg)) with
    | None => fatal "no active storage found"
    | Some activeStorage =>
        match StorageType_ activeStorage with
        | StorageType_other _ => fatal "only s3 is supported for external storage"
        | StorageTypeS3 =>
            let settings := mks3_settings (S3Endpoint activeStorage) (S3Region activeStorage)
                              (S3AccessKey activeStorage) (S3SecretKey activeStorage) in
            err ← ask (LoadAwsConfig settings);
            match err with
            | Some _ => fatal "failed to load AWS config"
            | None =>
                _ ← createBucketIfNotExists (S3Bucket activeStorage);
                mret (client_of settings)
            end
        end
    end.

(** ** Launching a service *)

Definition serviceAPI : string := "api".
Definition serviceInterpreter : string := "interpreter".
Definition TaskQueue : string := "Interpreter_DEFAULT".

(** NewService and Run, which returns only with an error. *)
Definition run_api {A} (config : Config) (store : option (blobStoreImpl W)) : P A :=
  err ← ask (RunApi config store (":" +:+ pretty (Port (cfg_Api config))));
  fatal (error_text err).

(** Without the configuration of the backend, reading its namespace panics. *)
Definition launchTemporalService (svcName : string) (config : Config) : P unit :=
  s3Client ← CreateS3Client config;
  temporalConfig ← of_gores (deref (Temporal (cfg_Interpreter config)));
  blobStore ← of_gores (NewBlobStore s3Client (Namespace temporalConfig) (cfg_Storage config));
  if bool_decide (svcName = serviceAPI) then run_api config blobStore
  else if bool_decide (svcName = serviceInterpreter) then
    iw ← temporal_NewInterpreterWorker config TaskQueue false blobStore;
    temporal_worker_start iw false
  else fatal ("Invalid service: " +:+ svcName).

Definition launchCadenceService (svcName : string) (config : Config) (domain : string) : P unit :=
  s3Client ← CreateS3Client config;
  cadenceConfig ← of_gores (deref (Cadence (cfg_Interpreter config)));
  blobStore ← of_gores (NewBlobStore s3Client (Domain cadenceConfig) (cfg_Storage config));
  if bool_decide (svcName = serviceAPI) then run_api config blobStore
  else if bool_decide (svcName = serviceInterpreter) then
    iw ← cadence_NewInterpreterWorker config domain TaskQueue blobStore;
    cadence_worker_start iw false
  else fatal ("Invalid service: " +:+ svcName).

Definition run_launch (l : launch) : P unit :=
  match l with
  | launchTemporal svcName config => launchTemporalService svcName config
  | launchCadence svcName config domain => launchCadenceService svcName config domain
  end.

(** ** Starting the server *)

Definition DefaultCadenceDomain : string := "default".
Definition DefaultCadenceHostPort : string := "127.0.0.1:7833".

(** The goroutines of [start] on the configured backend; Temporal is preferred. *)
Definition start_services (config : Config) (services : list string) : P unit :=
  match Temporal (cfg_Interpreter config) with
  | Some temporalConfig =>
      _ ← (if Prometheus temporalConfig then ask NewPrometheusScope else mret tt);
      err ← ask (DialTemporal (tcfg_HostPort temporalConfig) (Namespace temporalConfig)
                   (CloudAPIKey temporalConfig));
      match err with
      | Some _ => fatal "Unable to connect to Temporal"
      | None => each services (fun svcName => ask (Go (launchTemporal svcName config)))
      end
  | None =>
      match Cadence (cfg_Interpreter config) with
      | Some cadenceConfig =>
          let hostPort := or_default (ccfg_HostPort cadenceConfig) DefaultCadenceHostPort in
          let domain := or_default (Domain cadenceConfig) DefaultCadenceDomain in
          err ← ask (DispatcherStart hostPort);
          match err with
          | Some _ => fatal "Failed to create outbound transport channel"
          | None => each services (fun svcName => ask (Go (launchCadence svcName config domain)))
          end
      | None => Throw "must provide either Cadence or Temporal config"
      end
  end.

(** [configPath] and [services] are the flags of the command. *)
Definition start (configPath services : string) : P unit :=
  config ← ask (NewConfig configPath);
  match config with
  | inr _ => fatal "Unable to load config"
  | inl config =>
      err ← ask NewZapLogger;
      match err with
      | Some _ => fatal "Unable to create a new zap logger"
      | None =>
          _ ← start_services config (getServices services);
          x ← ask WaitForever; match x : Empty_set with end
      end
  end.

(** ** The service of a process *)

(** newHandler and NewApiService; waiting for a state reads the shared configuration
    of the process instead of its own. *)
Definition NewApiService (config : Config) (env : SharedEnv W) (errors : errorHandler)
  (backend : BackendType) (store : option (blobStoreImpl W)) (deadline : option Z) : serviceImpl :=
  mkserviceImpl errors backend (is_set store) TaskQueue (cfg_Storage config)
    (ic_DefaultWorkflowConfig (cfg_Interpreter config)) (ic_FailAtMemoIncompatibility (cfg_Interpreter config))
    (ac_MaxWaitSeconds (cfg_Api config)) (ac_OmitRpcInputOutputInHistory (cfg_Api config))
    (GetWaitForOnWithDefault (sharedConfig env)) deadline.

(** The shared environment after some calls of the process. *)
Definition set_env (env : SharedEnv W) (o : obs (serverE W)) : SharedEnv W :=
  match o with Obs (SetSharedEnv e) _ => e | _ => env end.
Definition env_after (tr : list (obs (serverE W))) : SharedEnv W := foldl set_env zero_env tr.

End server.

(** ** Theorems *)

(** *** What the workers register *)

(** The name of the activity a call of the SDK runs. *)
Definition executed {I AO LO} (o : obs (wfE I AO LO)) : option string :=
  match o with
  | Obs (wf_ExecuteActivity _ _ a) _ | Obs (wf_ExecuteLocalActivity _ _ a) _ => Some (activity_name a)
  | _ => None
  end.

Definition workflow_name (w : workflow_args) : string :=
  match w with
  | Interpreter _ => "Interpreter"
  | WaitforStateCompletionWorkflow => "WaitforStateCompletionWorkflow"
  | BlobStoreCleanup _ => "BlobStoreCleanup"
  end.

Definition activity_registered {W} (o : obs (serverE W)) : option string :=
  match o with Obs (RegisterActivity name) _ => Some name | _ => None end.
Definition workflow_registered {W} (o : obs (serverE W)) : option string :=
  match o with Obs (RegisterWorkflow name) _ => Some name | _ => None end.

Definition runs_rpc {X} (e : providerE X) : bool :=
  match e with ExecuteInvokeWorkerRpc _ _ _ _ _ => true | _ => false end.

(** The activities a call of the interpreter runs are among [names]. *)
Definition runs_only {I AO LO X} (names : list string) (p : proc (wfE I AO LO) X) : Prop :=
  always p (fun tr _ => Forall (fun name => name ∈ names) (omap executed tr)).

Ltac registered :=
  cbn; repeat (apply List.Forall_cons; [apply (bool_decide_unpack _); vm_compute; exact I|]);
  apply List.Forall_nil.

Lemma temporal_runs_only {V} env w (ctx : UnifiedContext V) {X} (e : providerE X) :
  runs_only temporal_activities (temporal_provider env w ctx X e).
Proof.
  destruct ctx as [c|c|]; [|by destruct e; cbn; repeat constructor..].
  destruct e; cbn [temporal_provider]; try (by cbn; repeat constructor); unfold runs_only.
  - intros info. apply always_of_gores. constructor.
  - cbn -[upserted_memo]. destruct (upserted_memo env memo); cbn; repeat constructor.
  - temporal_activity options; cbn. destruct renamedApi, optimizeByLocalActivity; cbn; repeat intros []; registered.
  - temporal_activity options; cbn. destruct renamedApi, optimizeByLocalActivity; cbn; repeat intros []; registered.
  - temporal_activity options; cbn. intros []; registered.
  - temporal_activity options; cbn. destruct local, optimizeByLocalActivity; cbn; repeat intros []; registered.
  - temporal_activity options; cbn. intros []; registered.
Qed.

Lemma cadence_runs_only {V} env w (ctx : UnifiedContext V) {X} (e : providerE X) :
  runs_rpc e = false -> runs_only cadence_activities (cadence_provider env w ctx X e).
Proof.
  destruct ctx as [c|c|]; [by destruct e; cbn; repeat constructor| |by destruct e; cbn; repeat constructor].
  destruct e; cbn [cadence_provider]; intros He; try (by cbn; repeat constructor); try discriminate He;
    unfold runs_only.
  - intros info. apply always_of_gores. constructor.
  - cadence_activity options; cbn. destruct renamedApi, optimizeByLocalActivity; cbn; repeat intros []; registered.
  - cadence_activity options; cbn. destruct renamedApi, optimizeByLocalActivity; cbn; repeat intros []; registered.
  - cadence_activity options; cbn. intros []; registered.
  - cadence_activity options; cbn. intros []; registered.
Qed.

Definition starts_worker {W} (next : option (@next_call (serverE W))) : bool :=
  match next with Some (NextCall _ WorkerStart) => true | _ => false end.

Lemma start_cleanup_starts_no_worker {W} q (storeCfg : BlobStorageConfig) :
  throughout (E := serverE W) (start_cleanup q storeCfg) (fun _ next => starts_worker next = false).
Proof.
  unfold start_cleanup. case_bool_decide; [done|]. cbn. split; [done|]. intros [err|]; [|done].
  cbn. split; [done|]. intros []; cbn; [done|]. by split; [|intros []].
Qed.

(** The worker is started first, and once. *)
Lemma start_registered_starts {W} (cfg : Config) (q : string) :
  throughout (E := serverE W) (start_registered cfg q) (fun tr next => starts_worker next = true -> tr = []).
Proof.
  unfold start_registered. cbn. split; [done|]. intros err.
  apply throughout_mono with (Q := fun _ next => starts_worker next = false);
    [by intros tr next -> | ].
  destruct err; cbn; [by split; [|intros []]|]. destruct (Enabled _); [|done].
  apply throughout_each; [done|]. intros a. apply start_cleanup_starts_no_worker.
Qed.

Definition registers {W} (workflows activities : list string) (p : proc (serverE W) unit) : Prop :=
  throughout p (fun tr next => starts_worker next = true ->
    omap workflow_registered tr = workflows /\ omap activity_registered tr = activities).

Lemma temporal_registers {W} iw b :
  registers (W := W) registered_workflows temporal_activities (temporal_worker_start iw b).
Proof.
  unfold registers, temporal_worker_start. cbn -[start_registered temporal_worker_options starts_worker].
  split; [done|]. intros env.
  destruct b; cbn -[start_registered temporal_worker_options starts_worker];
    repeat (split; [done|]; intros ?);
    (eapply throughout_mono; [|apply start_registered_starts]); intros tr next H Hs; by rewrite (H Hs).
Qed.

Lemma cadence_registers {W} iw b :
  registers (W := W) registered_workflows cadence_activities (cadence_worker_start iw b).
Proof.
  unfold registers, cadence_worker_start. cbn -[start_registered cadence_worker_options starts_worker].
  repeat (split; [done|]; intros ?).
  (eapply throughout_mono; [|apply start_registered_starts]); intros tr next H Hs; by rewrite (H Hs).
Qed.

(** C33: a worker can run whatever is asked of it: when it is started, on either
    backend, every activity that a call of the interpreter runs there and every
    workflow that a client starts have been registered.  Cadence's worker lacks the
    activity of an RPC, which only the handler of an update runs, and there that
    handler is never given to the SDK. *)
Theorem workers_register_what_runs {V W} (iw : InterpreterWorker) (b : bool) :
  registers (W := W) registered_workflows temporal_activities (temporal_worker_start iw b) /\
  registers (W := W) registered_workflows cadence_activities (cadence_worker_start iw b) /\
  (forall env w (ctx : UnifiedContext V) X (e : providerE X),
     runs_only temporal_activities (temporal_provider env w ctx X e)) /\
  (forall env w (ctx : UnifiedContext V) X (e : providerE X),
     runs_rpc e = false -> runs_only cadence_activities (cadence_provider env w ctx X e)) /\
  (forall env w (ctx : UnifiedContext V) updateType,
     cadence_provider env w ctx _ (SetRpcUpdateHandler updateType) = mret None) /\
  (forall w, workflow_name w ∈ registered_workflows).
Proof.
  split_and!; [apply temporal_registers | apply cadence_registers | intros; apply temporal_runs_only
              | intros; by apply cadence_runs_only | done | ].
  intros []; apply (bool_decide_unpack _); vm_compute; exact I.
Qed.

(** *** A process that serves only the API *)

Definition sets_env {W} (next : option (@next_call (serverE W))) : bool :=
  match next with Some (NextCall _ (SetSharedEnv _)) => true | _ => false end.

Lemma env_unset {W A} (p : proc (serverE W) A) env :
  throughout p (fun _ next => sets_env next = false) ->
  throughout p (fun tr _ => foldl set_env env tr = env).
Proof.
  intros H. induction p as [a|msg|X e k IH]; cbn in *; [done..|].
  destruct H as [He H]. split; [done|]. intros x.
  assert (set_env env (Obs e x) = env) as Hx by (clear -He; by destruct e).
  eapply throughout_mono; [|by apply IH]. intros tr next Htr.
  change (foldl set_env (set_env env (Obs e x)) tr = env). by rewrite Hx.
Qed.

Section facts.
Context {W : Type} (client_of : s3_settings -> S3Client W) (nil_client : S3Client W).
Notation no_env := (fun _ next => sets_env next = false).

Lemma fatal_no_env {A} msg : throughout (E := serverE W) (A := A) (fatal msg) no_env.
Proof. by split; [|intros []]. Qed.

Lemma create_bucket_no_env b : throughout (E := serverE W) (createBucketIfNotExists b) no_env.
Proof.
  cbn. split; [done|]. intros [e|]; [|done]. cbn. split; [done|]. intros [e'|]; [|done].
  cbn. split; [done|]. intros [e''|]; [apply fatal_no_env | done].
Qed.

Lemma create_client_no_env cfg :
  throughout (CreateS3Client client_of nil_client cfg) no_env.
Proof.
  unfold CreateS3Client. destruct (Enabled _); [|done]. cbn [negb].
  destruct (active_storage _) as [a|]; [|apply fatal_no_env].
  destruct (StorageType_ a); [|apply fatal_no_env]. cbn [mbind proc_mbind ask proc_bind throughout].
  split; [done|]. intros [e|]; [apply fatal_no_env|].
  apply calls_bind; [apply create_bucket_no_env | done].
Qed.

Lemma of_gores_no_env {A} (m : gores A) : throughout (E := serverE W) (of_gores m) no_env.
Proof. by destruct m. Qed.

Lemma api_no_env l config :
  l = launchTemporal serviceAPI config \/ (exists domain, l = launchCadence serviceAPI config domain) ->
  throughout (run_launch client_of nil_client l) no_env.
Proof.
  intros [->|[domain ->]]; cbn [run_launch]; unfold launchTemporalService, launchCadenceService;
    (apply calls_bind; [apply create_client_no_env|]; intros s3);
    (apply calls_bind; [apply of_gores_no_env|]; intros backend);
    (apply calls_bind; [apply of_gores_no_env|]; intros store);
    (rewrite bool_decide_true by done); unfold run_api; cbn;
    by split; [|intros err; split; [|intros []]].
Qed.
(** The interpreter's worker sets it before it starts. *)
Lemma start_cleanup_no_env q storeCfg : throughout (E := serverE W) (start_cleanup q storeCfg) no_env.
Proof.
  unfold start_cleanup. case_bool_decide; [done|]. cbn. split; [done|]. intros [err|]; [|done].
  cbn. split; [done|]. intros []; cbn; [done|]. by split; [|intros []].
Qed.

Lemma start_registered_no_env cfg q : throughout (E := serverE W) (start_registered cfg q) no_env.
Proof.
  unfold start_registered. cbn. split; [done|]. intros [err|]; [apply fatal_no_env|].
  destruct (Enabled _); [|done]. apply throughout_each; [done|]. apply start_cleanup_no_env.
Qed.

Lemma register_no_env (l : list string) (reg : string -> serverE W unit) :
  (forall name, sets_env (Some (NextCall _ (reg name))) = false) ->
  throughout (each l (fun name => ask (reg name))) no_env.
Proof. intros H. apply throughout_each; [done|]. intros name. by split. Qed.

Lemma worker_start_no_env iw b :
  throughout (E := serverE W) (temporal_worker_start iw b) no_env /\
  throughout (E := serverE W) (cadence_worker_start iw b) no_env.
Proof.
  split; (split; [done|]); intros env;
    repeat (apply calls_bind; [first [by destruct b | by split | by apply register_no_env]|]; intros _);
    apply start_registered_no_env.
Qed.
End facts.

(** The id under which a request to wait names its workflow itself. *)
Definition old_wait_id (req : WorkflowWaitForStateCompletionRequest) : gores string :=
  GetWorkflowIdForWaitForStateExecution (wc_WorkflowId req) (wc_StateExecutionId req)
    (wc_WaitForKey req) (wc_StateId req).

Definition waits_on_old (req : WorkflowWaitForStateCompletionRequest) (o : obs apiE) : Prop :=
  match o with
  | Obs (Client (StartWaitForStateCompletionWorkflow options)) _ => old_wait_id req = Ret (swo_ID options)
  | _ => True
  end.

Lemma old_wait_spec (s : serviceImpl) req :
  cfg_WaitForOn s = "old" ->
  always (ApiV1WorkflowWaitForStateCompletion s req) (fun calls _ => Forall (waits_on_old req) calls).
Proof.
  intros Hs. unfold ApiV1WorkflowWaitForStateCompletion, wait_parent_id. rewrite Hs.
  apply always_capture. unfold or_error. rewrite bool_decide_true by done.
  cbn -[GetWorkflowIdForWaitForStateExecution]. fold (old_wait_id req).
  destruct (old_wait_id req) as [id|msg] eqn:Eid; cbn; [|constructor].
  intros [runId|err]; cbn; [|by repeat constructor]. intros now [output|err]; cbn; [by repeat constructor|].
  destruct (_ || _); cbn; by repeat constructor.
Qed.

(** A process that serves only the API ignores [waitForOn]: whatever is configured,
    at every moment of its run, a request to wait for a state waits on the id made of
    the workflow's own id, because the handler reads the shared configuration, which
    only the interpreter's worker sets. *)
Lemma api_alone_ignores_waitForOn {W} client_of nil_client l config errors backend
  (store : option (blobStoreImpl W)) deadline req :
  l = launchTemporal serviceAPI config \/ (exists domain, l = launchCadence serviceAPI config domain) ->
  throughout (run_launch client_of nil_client l) (fun tr _ =>
    always (ApiV1WorkflowWaitForStateCompletion
              (NewApiService config (env_after tr) errors backend store deadline) req)
      (fun calls _ => Forall (waits_on_old req) calls)).
Proof.
  intros Hl. eapply throughout_mono; [|apply env_unset, (api_no_env client_of nil_client l config Hl)].
  intros tr next Henv. apply old_wait_spec. unfold env_after, NewApiService. cbn [cfg_WaitForOn].
  by rewrite Henv.
Qed.

(** *** The bucket and the services *)

(** The bucket is there when the client is handed out. *)
Definition bucket_there {W} (b : string) (o : obs (serverE W)) : Prop :=
  match o with
  | Obs (HeadBucket b') err | Obs (CreateBucket b') err => b' = b /\ err = None
  | _ => False
  end.

Lemma createBucketIfNotExists_spec {W} b :
  always (createBucketIfNotExists (W := W) b) (fun tr r => r = Ret tt /\ Exists (bucket_there b) tr).
Proof.
  cbn. intros [e|]; cbn; [|by split; [|left]].
  intros [e'|]; cbn; [|by split; [|right; left]].
  intros [e''|]; cbn; [by intros [] | by split; [|right; right; left]].
Qed.

Definition launched {W} (o : obs (serverE W)) : option launch :=
  match o with Obs (Go l) _ => Some l | _ => None end.

Lemma each_launched {W} (l : list string) (f : string -> launch) :
  always (each l (fun s => ask (Go (W := W) (f s)))) (fun tr r => r = Ret tt /\ omap launched tr = map f l).
Proof.
  induction l as [|s l IH]; [done|]. cbn. intros x. eapply always_mono; [|exact IH].
  intros tr r [-> Htr]. split; [done|]. cbn. by rewrite Htr.
Qed.

(** Every service asked for is launched, in order, on Temporal when it is configured and
    on Cadence otherwise; without a backend the process panics. *)
Lemma start_services_spec {W} config services :
  always (start_services (W := W) config services) (fun tr r =>
    match Temporal (cfg_Interpreter config), Cadence (cfg_Interpreter config) with
    | Some _, _ => r = Ret tt /\ omap launched tr = map (fun s => launchTemporal s config) services
    | None, Some c => r = Ret tt /\
        omap launched tr = map (fun s => launchCadence s config (or_default (Domain c) "default")) services
    | None, None => r = Panic "must provide either Cadence or Temporal config"
    end).
Proof.
  unfold start_services. destruct (Temporal _) as [t|].
  - destruct (Prometheus t); cbn; [intros x|]; intros [e|]; cbn; try (by intros []);
      (eapply always_mono; [|apply each_launched]); by intros tr r [-> Htr].
  - destruct (Cadence _) as [c|]; [|done]. cbn. intros [e|]; cbn; [by intros []|].
    eapply always_mono; [|apply each_launched]. by intros tr r [-> Htr].
Qed.

(** *** The clean-up of the storages *)

Definition cleanup_started {W} (o : obs (serverE W)) : option string :=
  match o with
  | Obs (OfClient (StartBlobStoreCleanupWorkflow _ _ _ storeId)) _ => Some storeId
  | _ => None
  end.

Definition has_schedule (s : BlobStorageConfig) : Prop := CleanupCronSchedule s <> EmptyString.
#[export] Instance has_schedule_dec s : Decision (has_schedule s).
Proof. unfold has_schedule. apply _. Defined.

(** A worker that goes on has asked for one clean-up workflow of every storage with a
    schedule, when the external storage is enabled. *)
Lemma start_registered_cleanup {W} (cfg : Config) q :
  always (start_registered (W := W) cfg q) (fun tr r => r = Ret tt /\
    omap cleanup_started tr =
      if Enabled (cfg_Storage cfg)
      then StorageId <$> filter has_schedule (SupportedStorages (cfg_Storage cfg)) else []).
Proof.
  unfold start_registered. cbn. intros [e|]; cbn; [by intros []|].
  destruct (Enabled _); [|done]. induction (SupportedStorages (cfg_Storage cfg)) as [|s l IH]; [done|].
  cbn [each]. rewrite filter_cons. apply always_bind. unfold start_cleanup.
  case_bool_decide as Hs.
  - rewrite decide_False by (by intros H; apply H). exact IH.
  - rewrite decide_True by done. cbn. intros [err|]; cbn.
    + intros [|]; cbn; [|by intros []]. eapply always_mono; [|exact IH].
      intros tr r [-> Htr]. split; [done|]. cbn. by rewrite Htr.
    + eapply always_mono; [|exact IH]. intros tr r [-> Htr]. split; [done|]. cbn. by rewrite Htr.
Qed.
