(* ===== verification/ClientServer.v ===== *)
(** * The client of the API on top of the service

    A call of the generated client (IdlClient.v) whose requests are answered by the
    service's HTTP layer (Http.v): what its caller sees is what the service
    answered. *)

From S2P Require Export Http IdlClient.

Ltac law := first [typeclasses eauto | done].

(** What encoding and decoding leave of a value. *)
Lemma decode_text `{FloatText} {NT : NetText} {T} (c : codec T) text x :
  Unmarshal c text = Some x ->
  decode c text "application/json; charset=utf-8" (zero c) = (x, None).
Proof.
  intros Hu. unfold decode, Unmarshal in *.
  rewrite bool_decide_false by (intros E; by rewrite E in Hu).
  change (xmlCheck _) with false. change (jsonCheck _) with true. cbv iota. by rewrite Hu.
Qed.

Lemma decode_Marshal `{FloatText} {NT : NetText} {T} (c : codec T) `{!Lawful c} x old :
  carries c x = true -> old = zero c ->
  decode c (Marshal c x) "application/json; charset=utf-8" old = (x, None).
Proof. intros Hx ->. by apply decode_text, Unmarshal_Marshal. Qed.

(** The operation of the client for an endpoint, and the value it gives for a
    response; the client has no value where the response is empty. *)
Definition value_of {Req Resp} (e : endpoint Req Resp) : Type :=
  match e with
  | WorkflowStart => WorkflowStartResponse
  | WorkflowWaitForStateCompletion => WorkflowWaitForStateCompletionResponse
  | WorkflowGetDataAttributes => WorkflowGetDataObjectsResponse
  | WorkflowGetSearchAttributes => WorkflowGetSearchAttributesResponse
  | WorkflowGet | WorkflowGetWithWait => WorkflowGetResponse
  | WorkflowSearch => WorkflowSearchResponse
  | WorkflowReset => WorkflowResetResponse
  | WorkflowInternalDump => WorkflowDumpResponse
  | WorkflowRpc => WorkflowRpcResponse
  | _ => unit
  end.

Definition seen_value {Req Resp} (e : endpoint Req Resp) : Resp -> option (value_of e) :=
  match e in endpoint Req Resp return Resp -> option (value_of e) with
  | WorkflowStart => Some
  | WorkflowWaitForStateCompletion => Some
  | WorkflowGetDataAttributes => Some
  | WorkflowGetSearchAttributes => Some
  | WorkflowGet => Some
  | WorkflowGetWithWait => Some
  | WorkflowSearch => Some
  | WorkflowReset => Some
  | WorkflowInternalDump => Some
  | WorkflowRpc => id
  | _ => fun _ => None
  end.

Section client_server.
Context (s : serviceImpl).
Context {FT : FloatText} {NT : NetText}.

Definition client_op {Req Resp} (e : endpoint Req Resp) : operation Req (value_of e) :=
  match e in endpoint Req Resp return operation Req (value_of e) with
  | WorkflowStart => ApiV1WorkflowStartPost_op
  | WorkflowWaitForStateCompletion => ApiV1WorkflowWaitForStateCompletionPost_op
  | WorkflowSignal => ApiV1WorkflowSignalPost_op
  | WorkflowPublishToInternalChannel => ApiV1WorkflowPublishToInternalChannelPost_op
  | WorkflowGetDataAttributes => ApiV1WorkflowDataobjectsGetPost_op
  | WorkflowSetDataAttributes => ApiV1WorkflowDataobjectsSetPost_op
  | WorkflowGetSearchAttributes => ApiV1WorkflowSearchattributesGetPost_op
  | WorkflowSetSearchAttributes => ApiV1WorkflowSearchattributesSetPost_op
  | WorkflowGet => ApiV1WorkflowGetPost_op
  | WorkflowGetWithWait => ApiV1WorkflowGetWithWaitPost_op
  | WorkflowSearch => ApiV1WorkflowSearchPost_op
  | WorkflowReset => ApiV1WorkflowResetPost_op
  | WorkflowStop => ApiV1WorkflowStopPost_op
  | WorkflowSkipTimer => ApiV1WorkflowTimerSkipPost_op
  | WorkflowInternalDump => ApiV1WorkflowInternalDumpPost_op
  | WorkflowConfigUpdate => ApiV1WorkflowConfigUpdatePost_op
  | WorkflowTriggerContinueAsNew => ApiV1WorkflowTriggerContinueAsNewPost_op
  | WorkflowRpc => ApiV1WorkflowRpcPost_op
  end.

(** The server listens at [base]; what it sends arrives. *)
Definition network (base : string) X (e : httpE X) : proc apiE X :=
  match e in httpE X return proc apiE X with
  | Do _ req =>
      if HasPrefix (rq_URL req) base then
        reply ← serve s (rq_Method req) (TrimPrefix (rq_URL req) base) (default [] (rq_Body req));
        mret (Some (write_reply reply), None)
      else mret (None, Some "no such host")
  | DumpRequestOut _ => mret None
  | DumpResponse _ => mret None
  end.

(** ** The requests *)

Lemma op_route {Req Resp} (e : endpoint Req Resp) :
  op_Path (client_op e) = api_path e /\ op_Method (client_op e) = "POST" /\
  op_Body (client_op e) = Some (request_codec e).
Proof. by destruct e. Qed.

(** The client has an operation that the service does not route. *)
Lemma encodedobject_load_has_no_route body :
  serve s (op_Method ApiV1WorkflowEncodedobjectLoadPost_op) (op_Path ApiV1WorkflowEncodedobjectLoadPost_op) body =
  mret NoRoute.
Proof. reflexivity. Qed.

(** The headers of all of them are the same. *)
Lemma op_header {Req Resp} (e : endpoint Req Resp) :
  header_params (client_op e) = {[ "Accept" := "application/json"; "Content-Type" := "application/json" ]}.
Proof. by destruct e. Qed.

(** ** The answers *)

Definition answer_carried {Req Resp} (e : endpoint Req Resp) (answer : Resp + ErrorAndStatus) : Prop :=
  match answer with
  | inl resp => carries (response_codec e) resp = true
  | inr err => carries ErrorResponse_codec (es_Error err) = true /\ (300 <= StatusCode err)%Z
  end.

(** The statuses whose error responses the client decodes. *)
Definition decoded_statuses {Req Resp} (e : endpoint Req Resp) : list Z :=
  match e with
  | WorkflowRpc => [400; 420; 450]
  | WorkflowGetWithWait | WorkflowWaitForStateCompletion => [400; 420]
  | _ => [400]
  end%Z.

(** What the caller of the client gets for an answer of the service. *)
Definition seen {Req Resp} (e : endpoint Req Resp) (answer : Resp + ErrorAndStatus) :
  client_result (value_of e) :=
  match answer with
  | inl resp =>
      mkclient_result (seen_value e resp) (Some (json_response (response_codec e) 200 resp)) None
  | inr err =>
      let response := json_response ErrorResponse_codec (StatusCode err) (es_Error err) in
      mkclient_result None (Some response)
        (Some (GenericError
           (if bool_decide (StatusCode err ∈ decoded_statuses e)
            then mkGenericOpenAPIError (wr_Body response)
                   (formatErrorMessage (wr_Status response) (er_Detail (es_Error err)))
                   (Some (ErrorResponse_model (es_Error err)))
            else mkGenericOpenAPIError (wr_Body response) (wr_Status response) None)))
  end.

Lemma op_errors {Req Resp} (e : endpoint Req Resp) :
  op_Errors (client_op e) = map (fun status => (status, ErrorResponseKind)) (decoded_statuses e).
Proof. by destruct e. Qed.

Lemma find_status statuses status :
  find (fun e : Z * model_kind => (status =? e.1)%Z) (map (fun status => (status, ErrorResponseKind)) statuses) =
  if bool_decide (status ∈ statuses) then Some (status, ErrorResponseKind) else None.
Proof.
  induction statuses as [|status' statuses IH]; [done|]. cbn [map find fst].
  destruct (Z.eqb_spec status status') as [->|Hne].
  - by rewrite bool_decide_true by left.
  - rewrite IH. destruct (decide (status ∈ statuses)).
    + rewrite !bool_decide_true; [done | by right | done].
    + rewrite !bool_decide_false; [done | by intros [->|?]%elem_of_cons | done].
Qed.

Lemma read_error {Req Resp} (e : endpoint Req Resp) err :
  answer_carried e (inr err) ->
  read_response (client_op e) (json_response ErrorResponse_codec (StatusCode err) (es_Error err)) =
  seen e (inr err).
Proof.
  intros [Hc Hs]. unfold read_response. cbn [wr_BodyError json_response wr_StatusCode wr_Body].
  rewrite (proj2 (Z.leb_le _ _) Hs). unfold seen, status_error. rewrite op_errors.
  cbn [wr_StatusCode wr_Status wr_ContentType wr_Body json_response]. rewrite find_status.
  case_bool_decide; [|done]. unfold decode_model. by rewrite decode_Marshal by law.
Qed.

Lemma read_ok {Req V} (op : operation Req V) {T} (c : codec T) (resp : T) value :
  match op_Response op with
  | None => value = None
  | Some cv => Unmarshal (ptr cv) (Marshal c resp) = Some value
  end ->
  read_response op (json_response c 200 resp) = mkclient_result value (Some (json_response c 200 resp)) None.
Proof.
  intros H. unfold read_response, json_response.
  cbn [wr_BodyError wr_StatusCode wr_Body wr_ContentType wr_Status].
  change (300 <=? 200)%Z with false. cbv iota. destruct (op_Response op) as [cv|]; [|by subst].
  change (@None V) with (zero (ptr cv)). by rewrite (decode_text (ptr cv) _ value).
Qed.

Lemma read_value {Req Resp} (e : endpoint Req Resp) resp :
  answer_carried e (inl resp) ->
  read_response (client_op e) (json_response (response_codec e) 200 resp) = seen e (inl resp).
Proof.
  intros Hc. apply read_ok. destruct e; try reflexivity.
  all: hnf; match goal with |- Unmarshal (ptr ?c) _ = Some ?v =>
         apply (Unmarshal_Marshal (ptr c) v); first [exact Hc | typeclasses eauto] end.
Qed.

(** ** The whole call *)

Definition client_call {Req Resp} (e : endpoint Req Resp) (base : string) (headers : gmap string string)
  (deadline : option Z) (req : Req) : proc apiE (client_result (value_of e)) :=
  translate (network base)
    (Execute (api_client base headers) (client_op e) (with_body req (new_request (Some (background deadline))))).

Lemma handle_decoded {Req Resp} (e : endpoint Req Resp) body req :
  ShouldBindJSON e body = Some req ->
  handle s e body = r ← svc s e req;
    mret match r with
         | inr errResp => processError (response_codec e) errResp
         | inl resp => Reply (response_codec e) StatusOK (inl resp)
         end.
Proof. intros H. unfold handle. by rewrite H. Qed.

Lemma call_request {Req Resp} (e : endpoint Req Resp) base headers req :
  request_url EmptyString EmptyString (base +:+ api_path e) = inl (base +:+ api_path e) ->
  exists hdrs, operation_request (api_client base headers) (client_op e) base (Some req) =
    inl (mkhttp_request "POST" (base +:+ api_path e) hdrs (Some (Marshal (request_codec e) req ++ ["010"%char]))).
Proof.
  intros Hurl. destruct (op_route e) as (Hp & Hm & Hb).
  unfold operation_request, prepareRequest. rewrite op_header, Hp, Hm, Hb. cbn [fmap option_fmap option_map].
  change (map_get EmptyString {[ "Accept" := "application/json"; "Content-Type" := "application/json" ]}
    "Content-Type") with "application/json".
  rewrite (bool_decide_false ("application/json" = EmptyString)) by done.
  change (map_get EmptyString {[ "Accept" := "application/json"; "Content-Type" := "application/json" ]}
    "Content-Type") with "application/json".
  unfold setBody. change (jsonCheck "application/json") with true. cbv beta zeta iota.
  cbn [cfg_Host cfg_Scheme api_client]. rewrite Hurl. by eexists.
Qed.

(** The result for an answer of the service. *)
Definition client_view {Req Resp} (e : endpoint Req Resp) (answer : Resp + ErrorAndStatus) :
  client_result (value_of e) :=
  read_response (client_op e)
    (write_reply match answer with
                 | inr errResp => processError (response_codec e) errResp
                 | inl resp => Reply (response_codec e) StatusOK (inl resp)
                 end).

Lemma client_view_seen {Req Resp} (e : endpoint Req Resp) answer :
  answer_carried e answer -> client_view e answer = seen e answer.
Proof. destruct answer; [apply read_value | apply read_error]. Qed.

(** The call on top of an implementation of the service's calls. *)
Lemma interp_client_call {W} (h : forall X, apiE X -> M W X) {Req Resp} (e : endpoint Req Resp) base headers
  deadline req w :
  request_url EmptyString EmptyString (base +:+ api_path e) = inl (base +:+ api_path e) ->
  carries (request_codec e) req = true ->
  interp h (client_call e base headers deadline req) w =
  match interp h (svc s e req) w with
  | Ret (answer, w') => Ret (client_view e answer, w')
  | Panic msg => Panic msg
  end.
Proof.
  intros Hurl Hreq. unfold client_call, Execute. cbn [ar_ctx ar_body with_body new_request].
  rewrite api_client_URL by done. destruct (call_request e base headers req Hurl) as (hdrs & ->).
  unfold callAPI. cbn [cfg_Debug api_client mbind proc_mbind mret proc_ret proc_bind ask translate network
    rq_URL rq_Method rq_Body].
  rewrite (proj2 (HasPrefix_spec _ _)) by eauto. rewrite TrimPrefix_app, serve_route.
  rewrite (handle_decoded e _ req)
    by (apply Decode_Marshal; [typeclasses eauto | exact Hreq | reflexivity]).
  unfold mbind, proc_mbind. rewrite !interp_bind.
  destruct (interp h (svc s e req) w) as [[answer w']|msg]; [|done]. by destruct answer.
Qed.

(** C11: a call of the generated client reaches the service and returns its answer: for
    every endpoint, the service runs on exactly the request of the caller, and the
    caller gets the value the service answered, or for an error of the service an
    error that carries its body, and its fields where the client knows the status;
    requests, responses and errors are values that JSON carries (strings of UTF-8,
    allowed enumeration values, numbers in range). *)
Theorem client_sees_service {Req Resp} (e : endpoint Req Resp) base headers deadline req tr r :
  request_url EmptyString EmptyString (base +:+ api_path e) = inl (base +:+ api_path e) ->
  carries (request_codec e) req = true ->
  runs (client_call e base headers deadline req) tr r ->
  exists answer, runs (svc s e req) tr (Ret answer) /\
    (answer_carried e answer -> r = Ret (seen e answer)).
Proof.
  intros Hurl Hreq. unfold client_call, Execute. cbn [ar_ctx ar_body with_body new_request].
  rewrite api_client_URL by done. destruct (call_request e base headers req Hurl) as (hdrs & ->).
  unfold callAPI. cbn [cfg_Debug api_client mbind proc_mbind mret proc_ret proc_bind ask translate network
    rq_URL rq_Method rq_Body].
  rewrite (proj2 (HasPrefix_spec _ _)) by eauto. rewrite TrimPrefix_app, serve_route.
  rewrite (handle_decoded e _ req) by (apply Decode_Marshal; [typeclasses eauto | exact Hreq | reflexivity]).
  intros Hruns.
  apply runs_bind in Hruns as [(msg & -> & Hn)|(x & t1 & t2 & -> & Hn & Hr)].
  - apply runs_bind in Hn as [(msg' & _ & Hn)|(? & ? & ? & ? & _ & [_ ?]%runs_Fin)]; [|done].
    apply runs_bind in Hn as [(msg2 & _ & Hn)|(? & ? & ? & ? & _ & [_ ?]%runs_Fin)]; [|done].
    by destruct (always_runs _ _ _ _ (svc_returns s e req) Hn).
  - apply runs_bind in Hn as [(? & ? & _)|(reply & t3 & t4 & -> & Hn & [-> [= ->]]%runs_Fin)]; [done|].
    apply runs_bind in Hn as [(? & ? & _)|(answer & t5 & t6 & -> & Hn & [-> [= ->]]%runs_Fin)]; [done|].
    exists answer. destruct answer as [resp|err]; cbn in Hr; apply runs_Fin in Hr as [-> ->];
      rewrite !app_nil_r; (split; [done|]); intros Hc.
    + by rewrite <- read_value.
    + by rewrite <- read_error.
Qed.
End client_server.
