(* ===== verification/Waiting.v ===== *)
(** * Waiting for a state

    What the interpreter signals when a state completes is what a request to wait for
    that state waits for: both make the id of the waiting workflow, one from the state's
    execution (StateExecution.v), the other from the request (Api.v), each under its own
    configuration of the migration. *)

From S2P Require Export StateExecution ApiFacts.

(** ** The calls of a coroutine

    [traces t tr a]: [t] can return [a] having made the calls [tr], whatever the other
    coroutines do to the state and whatever is answered. *)
Section traces.
Context {St : Type} {Ev : Type -> Type}.
Notation thread := (thread St Ev).

Fixpoint traces {A : Type} (t : thread A) (tr : list (obs Ev)) (a : A) : Prop :=
  match t with
  | Done b => tr = [] /\ a = b
  | Crash _ => False
  | Get k => exists s, traces (k s) tr a
  | Put _ k => traces k tr a
  | Call e k => exists x tr', tr = Obs e x :: tr' /\ traces (k x) tr' a
  | Poll e ok k =>
      (exists x tr', tr = Obs e x :: tr' /\ traces (k (inl x)) tr' a) \/
      exists err, traces (k (inr err)) tr a
  | Wait _ k => exists r, traces (k r) tr a
  | GoNamed _ k => traces k tr a
  end.

(** All that a coroutine does by its own steps is of this kind. *)
Lemma own_step_traces `{!Provider Ev} {A : Type} (x : thread A * St) a s' :
  rtc own_step x (Done a, s') -> exists tr, traces x.1 tr a.
Proof.
  intros H. remember (Done a, s') as y eqn:Ey. revert Ey.
  induction H as [x|x y z Hxy _ IH]; intros ->; [by exists []|].
  destruct (IH eq_refl) as [tr Htr]. clear IH.
  destruct Hxy as [k s|s0 k s|X e k c s Hb|body k s|t t' s s1 Hd Hy Hr]; cbn [fst] in *;
    [by exists tr; exists s | by exists tr | by exists (Obs e c :: tr), c, tr | by exists tr |].
  destruct Hr as [c k Hc|c k err|X e ok k c Hok|X e ok k err|X e k c Hb|t Ht].
  - by exists tr, None.
  - by exists tr, (Some err).
  - exists (Obs e c :: tr). left. by exists c, tr.
  - exists tr. right. by exists err.
  - by exists (Obs e c :: tr), c, tr.
  - by exists tr.
Qed.

Lemma traces_bind {A B : Type} (t : thread A) (f : A -> thread B) tr b :
  traces (t ≫= f) tr b -> exists tr1 a tr2, tr = tr1 ++ tr2 /\ traces t tr1 a /\ traces (f a) tr2 b.
Proof.
  unfold mbind, thread_mbind. revert f tr.
  induction t as [A a|A msg|A k IH|A s0 k IH|A X e k IH|A X e ok k IH|A c k IH|A body _ k IH]; intros f tr H;
    cbn [thread_bind traces] in *.
  - by exists [], a, tr.
  - done.
  - destruct H as [s (tr1 & a & tr2 & H)%IH]. exists tr1, a, tr2. naive_solver.
  - by apply IH.
  - destruct H as (x & tr' & -> & (tr1 & a & tr2 & -> & H)%IH). exists (Obs e x :: tr1), a, tr2. naive_solver.
  - destruct H as [(x & tr' & -> & (tr1 & a & tr2 & -> & H)%IH)|[err (tr1 & a & tr2 & H)%IH]];
      [exists (Obs e x :: tr1), a, tr2 | exists tr1, a, tr2]; naive_solver.
  - destruct H as [r (tr1 & a & tr2 & H)%IH]. exists tr1, a, tr2. naive_solver.
  - by apply IH.
Qed.

Lemma traces_call_bind {X} {B : Type} (e : Ev X) (f : X -> thread B) tr b :
  traces (call e ≫= f) tr b -> exists x tr', tr = Obs e x :: tr' /\ traces (f x) tr' b.
Proof. intros (x & tr' & -> & H). by exists x, tr'. Qed.

(** The run of [exec] with its calls. *)
Fixpoint traced {A W : Type} (h : forall X, Ev X -> W -> X * W) (t : thread A) (w : W) (s : St) :
  option (list (obs Ev) * A) :=
  match t with
  | Done a => Some ([], a)
  | Crash _ => None
  | Get k => traced h (k s) w s
  | Put s' k => traced h k w s'
  | Call e k => let '(x, w') := h _ e w in '(tr, a) ← traced h (k x) w' s; Some (Obs e x :: tr, a)
  | Poll e ok k =>
      let '(x, w') := h _ e w in
      if ok x s then '(tr, a) ← traced h (k (inl x)) w' s; Some (Obs e x :: tr, a) else None
  | Wait c k => if c s then traced h (k None) w s else None
  | GoNamed _ k => traced h k w s
  end.

Lemma traced_traces {A W : Type} (h : forall X, Ev X -> W -> X * W) (t : thread A) w s tr a :
  traced h t w s = Some (tr, a) -> traces t tr a.
Proof.
  revert w s tr. induction t as [A a0|A msg|A k IH|A s0 k IH|A X e k IH|A X e ok k IH|A c k IH|A body _ k IH];
    intros w s tr H; cbn [traced traces] in *; simplify_eq; eauto.
  - destruct (h X e w) as [x w1]. apply bind_Some in H as ([tr1 a1] & H1 & [= <- <-]). eauto.
  - destruct (h X e w) as [x w1]. destruct (ok x s); [|done].
    apply bind_Some in H as ([tr1 a1] & H1 & [= <- <-]). left. eauto.
  - destruct (c s); [eauto | done].
Qed.

(** [quiet mark t]: none of its calls has a mark. *)
Context {K : Type} (mark : obs Ev -> option K).
Definition quiet {A : Type} (t : thread A) : Prop := forall tr a, traces t tr a -> omap mark tr = [].

Lemma quiet_bind {A B : Type} (t : thread A) (f : A -> thread B) :
  quiet t -> (forall a, quiet (f a)) -> quiet (t ≫= f).
Proof.
  intros Ht Hf tr b (tr1 & a & tr2 & -> & H1 & H2)%traces_bind.
  by rewrite omap_app, (Ht _ _ H1), (Hf _ _ _ H2).
Qed.
Lemma quiet_done {A : Type} (a : A) : quiet (mret a).
Proof. by intros tr b [-> _]. Qed.
Lemma quiet_crash {A : Type} msg : quiet (Crash msg : thread A).
Proof. by intros tr b []. Qed.
Lemma quiet_call {X} (e : Ev X) : (forall x, mark (Obs e x) = None) -> quiet (call e).
Proof. intros He tr b (x & tr' & -> & -> & _). cbn. by rewrite He. Qed.
Lemma quiet_wait (c : St -> bool) : quiet (wait c).
Proof. by intros tr b (r & -> & _). Qed.
Lemma quiet_get {A : Type} (f : St -> thread A) : (forall s, quiet (f s)) -> quiet (Get f).
Proof. intros Hf tr b [s H]. by eapply Hf. Qed.
Lemma quiet_put {A : Type} s (t : thread A) : quiet t -> quiet (Put s t).
Proof. intros Ht tr b H. by apply (Ht tr b). Qed.
Lemma quiet_get_part {P} `{!Has St P} : quiet (get_part (P := P)).
Proof. apply quiet_get. intros s. apply quiet_done. Qed.
Lemma quiet_mod_part {P} `{!Has St P} (f : P -> P) : quiet (mod_part f).
Proof. apply quiet_get. intros s. apply quiet_put, (quiet_done tt). Qed.
Lemma quiet_run_part {P A} `{!Has St P} (m : M P A) : quiet (run_part m).
Proof. apply quiet_get. intros s. destruct (m _) as [[a p]|msg]; [apply quiet_put, (quiet_done a) | apply quiet_crash]. Qed.
Lemma quiet_lift {A} (m : gores A) : quiet (lift_gores m).
Proof. destruct m; [apply quiet_done | apply quiet_crash]. Qed.
Lemma quiet_for_each {A} (l : list A) (f : A -> thread unit) : (forall a, quiet (f a)) -> quiet (for_each l f).
Proof. intros Hf. induction l as [|a l IH]; [apply (quiet_done tt)|]. by apply quiet_bind. Qed.
Lemma quiet_for_each_err {A} (l : list A) (f : A -> thread (option error)) :
  (forall a, quiet (f a)) -> quiet (for_each_err l f).
Proof.
  intros Hf. induction l as [|a l IH]; [apply (quiet_done None)|].
  apply quiet_bind; [done|]. intros [e|]; [apply quiet_done | done].
Qed.
End traces.

Create HintDb quiet.
#[export] Hint Resolve quiet_done quiet_crash quiet_wait quiet_get_part quiet_mod_part quiet_run_part quiet_lift : quiet.

Ltac quiet_auto :=
  repeat first
    [ solve [auto 2 with quiet]
    | apply quiet_call; by intros
    | apply quiet_for_each; intros ?
    | apply quiet_for_each_err; intros ?
    | apply quiet_bind; [|intros ?]
    | apply quiet_get; intros ?
    | case_match ].

(** ** What a state execution tells about its completion *)

Inductive completion_mark : Type :=
| Executed (success : bool)          (* the execute API was called, with success or not *)
| Told (workflowId : string).        (* this waiting workflow was signalled *)

Definition mark_of (o : obs providerE) : option completion_mark :=
  match o with
  | Obs (ExecuteStateDecide _ _ _ _) r => Some (Executed (match r with inl _ => true | inr _ => false end))
  | Obs (SignalWithStartWaitForStateCompletionWorkflow workflowId) _ => Some (Told workflowId)
  | _ => None
  end.

(** The interpreter runs on this backend with this configuration; [firstRun] is the
    first run of its workflow.  On a replay nothing is signalled again. *)
Definition as_deployed (backend : BackendType) (signalWithStartOn firstRun : string) (o : obs providerE) : Prop :=
  match o with
  | Obs GetBackendType b => b = backend
  | Obs SignalWithStartOn v => v = signalWithStartOn
  | Obs GetWorkflowInfo info => FirstRunID info = firstRun
  | Obs IsReplaying replaying => replaying = false
  | _ => True
  end.

(** The ids a completed state is waited for under, made of the id of its workflow or of
    the first run. *)
Definition wait_id (parentId : string) (state : StateMovement) (ctx : Context_) : gores string :=
  GetWorkflowIdForWaitForStateExecution parentId (ctx_StateExecutionId ctx) (WaitForKey state) (Some (StateId state)).

Definition under_workflow (backend : BackendType) (signalWithStartOn : string) : bool :=
  bool_decide (backend = BackendTypeCadence) ||
  (bool_decide (backend = BackendTypeTemporal) &&
   (bool_decide (signalWithStartOn = "old") || bool_decide (signalWithStartOn = "both"))).
Definition under_first_run (backend : BackendType) (signalWithStartOn : string) : bool :=
  bool_decide (backend = BackendTypeTemporal) &&
  (bool_decide (signalWithStartOn = "both") || bool_decide (signalWithStartOn = "new")).

(** Steps over the first part of a program, which has no mark. *)
Lemma traces_skip {St K} (mark : obs providerE -> option K) {A B : Type} (t : prog St A) (f : A -> prog St B)
  (P : obs providerE -> Prop) tr b :
  quiet mark t -> traces (t ≫= f) tr b -> Forall P tr ->
  exists a tr2, omap mark tr = omap mark tr2 /\ traces (f a) tr2 b /\ Forall P tr2.
Proof.
  intros Ht (tr1 & a & tr2 & -> & H1 & H2)%traces_bind [_ Hd]%Forall_app.
  exists a, tr2. by rewrite omap_app, (Ht _ _ H1).
Qed.
Ltac skip H Hd :=
  let E := fresh "E" in let H1 := fresh "H" in let H2 := fresh "H" in
  eapply traces_skip in H as (? & ? & E & H1 & H2);
    [rewrite E; clear E Hd; rename H1 into H; rename H2 into Hd; cbv beta in H | solve [auto with quiet] | exact Hd].

Section interpreter_side.
Context {St : Type} `{!Has St WorkflowConfiger, !Has St PersistenceManager, !Has St InternalChannel,
  !Has St ContinueAsNewer}.

Notation quiet := (quiet mark_of).

Lemma emit_event_quiet ty bi sid exe st b e : quiet (emit_event (St := St) ty bi sid exe st b e).
Proof. unfold emit_event. quiet_auto. Qed.
Lemma load_search_quiet sa : quiet (LoadSearchAttributes (St := St) sa).
Proof. unfold LoadSearchAttributes, awaitAndLockForKeys. quiet_auto. Qed.
Lemma load_data_quiet da : quiet (LoadDataAttributes (St := St) da).
Proof. unfold LoadDataAttributes, awaitAndLockForKeys. quiet_auto. Qed.
Lemma apply_decide_response_quiet exe resp : quiet (apply_decide_response (St := St) exe resp).
Proof.
  unfold apply_decide_response, ProcessUpsertSearchAttribute, ProcessUpsertDataAttribute. quiet_auto.
Qed.

#[local] Hint Resolve emit_event_quiet load_search_quiet load_data_quiet apply_decide_response_quiet : quiet.

Lemma signalWithStart_tells id tr :
  traces (signalWithStart (St := St) id) tr tt -> omap mark_of tr = [Told id].
Proof.
  unfold signalWithStart. intros (x & tr1 & -> & H). cbn [omap list_omap mark_of]. f_equal.
  destruct x as [e|]; cbn in H; [|by destruct H as [-> _]].
  destruct H as ([] & tr2 & -> & H); cbn in *; [by destruct H as [-> _] | done].
Qed.

Definition tells_waiters (state : StateMovement) (ctx : Context_) (backend : BackendType)
  (signalWithStartOn firstRun : string) (ids : list string) : Prop :=
  (under_workflow backend signalWithStartOn = true ->
     exists id, wait_id (ctx_WorkflowId ctx) state ctx = Ret id /\ id ∈ ids) /\
  (under_first_run backend signalWithStartOn = true ->
     exists id, wait_id firstRun state ctx = Ret id /\ id ∈ ids) /\
  Forall (fun id => wait_id (ctx_WorkflowId ctx) state ctx = Ret id \/ wait_id firstRun state ctx = Ret id) ids.

Lemma lift_then_tell (parentId : string) state ctx tr :
  traces (id ← lift_gores (wait_id parentId state ctx); signalWithStart (St := St) id) tr tt ->
  exists id, wait_id parentId state ctx = Ret id /\ omap mark_of tr = [Told id].
Proof.
  destruct (wait_id parentId state ctx) as [id|msg]; [|by intros []].
  intros H. exists id. by split; [|apply signalWithStart_tells].
Qed.

(** One of the two signals: the waiter is told when the condition holds. *)
Lemma tell_if (c : bool) (parentId : string) state ctx tr :
  traces (if c then id ← lift_gores (wait_id parentId state ctx); signalWithStart (St := St) id
          else mret tt) tr tt ->
  exists ids, omap mark_of tr = map Told ids /\
    (c = true -> exists id, wait_id parentId state ctx = Ret id /\ id ∈ ids) /\
    Forall (fun id => wait_id parentId state ctx = Ret id) ids.
Proof.
  destruct c.
  - intros (id & Eid & M)%lift_then_tell. exists [id]. split_and!; [done| |by constructor].
    intros _. exists id. split; [done | apply list_elem_of_here].
  - intros [-> _]. by exists [].
Qed.

Lemma signal_completion_tells state ctx backend signalOn firstRun tr :
  traces (signal_completion (St := St) state ctx) tr tt -> Forall (as_deployed backend signalOn firstRun) tr ->
  exists ids, omap mark_of tr = map Told ids /\ tells_waiters state ctx backend signalOn firstRun ids.
Proof.
  unfold signal_completion. intros (on & tr1 & -> & (b & tr2 & -> & H)%traces_call_bind)%traces_call_bind Hd.
  apply Forall_cons in Hd as [Eon Hd]. apply Forall_cons in Hd as [Eb Hd]. cbn in Eon, Eb. subst on b.
  cbv zeta in H. apply traces_bind in H as (tr3 & [] & tr4 & -> & H3 & H4).
  apply Forall_app in Hd as [_ Hd].
  apply (tell_if (under_workflow backend signalOn) (ctx_WorkflowId ctx) state ctx) in H3 as (ids3 & M3 & Tell3 & All3).
  assert (exists tr5, omap mark_of tr4 = omap mark_of tr5 /\
    traces (if under_first_run backend signalOn then id ← lift_gores (wait_id firstRun state ctx); signalWithStart (St := St) id
            else mret tt) tr5 tt) as (tr5 & E5 & H5).
  { unfold under_first_run. destruct (_ && _); [|by exists tr4].
    apply traces_call_bind in H4 as (info & tr5 & -> & H4). apply Forall_cons in Hd as [Ei _]. cbn in Ei.
    exists tr5. by rewrite <- Ei. }
  apply (tell_if (under_first_run backend signalOn) firstRun state ctx) in H5 as (ids5 & M5 & Tell5 & All5).
  exists (ids3 ++ ids5). split.
  { cbn [omap list_omap mark_of]. by rewrite omap_app, M3, E5, M5, map_app. }
  split_and!; [set_solver.. |]. rewrite Forall_app. split; (eapply Forall_impl; [eassumption|]); auto.
Qed.

Lemma invokeStateExecute_tells basicInfo state exe ctx commandRes renamed locals send backend signalOn firstRun tr r :
  traces (invokeStateExecute (St := St) basicInfo state exe ctx commandRes renamed locals send) tr r ->
  Forall (as_deployed backend signalOn firstRun) tr ->
  exists success ids, omap mark_of tr = Executed success :: map Told ids /\
    if success && send then tells_waiters state ctx backend signalOn firstRun ids else ids = [].
Proof.
  unfold invokeStateExecute. intros H Hd.
  apply traces_call_bind in H as (start & tr0 & -> & H). apply Forall_cons in Hd as [_ Hd].
  change (omap mark_of (Obs Now start :: tr0)) with (omap mark_of tr0). cbv zeta in H.
  do 4 skip H Hd.
  apply traces_call_bind in H as (answer & tr1 & -> & H). apply Forall_cons in Hd as [_ Hd].
  set (success := match answer with inl _ => true | inr _ => false end).
  match goal with |- context [Obs ?e answer :: tr1] =>
    change (omap mark_of (Obs e answer :: tr1)) with (Executed success :: omap mark_of tr1) end.
  exists success. cut (exists ids, omap mark_of tr1 = map Told ids /\
    if success && send then tells_waiters state ctx backend signalOn firstRun ids else ids = []).
  { intros (ids & -> & Hids). by exists ids. }
  destruct answer as [resp|err]; subst success; do 2 skip H Hd; cbn [andb].
  - destruct send; cbn beta iota in H.
    + apply traces_bind in H as (tr2 & [] & tr3 & -> & H2 & H3).
      apply Forall_app in Hd as [Hd _].
      apply traces_call_bind in H2 as (replaying & tr4 & -> & H2). apply Forall_cons in Hd as [Er Hd].
      cbn in Er. subst replaying.
      apply signal_completion_tells with (backend := backend) (signalOn := signalOn) (firstRun := firstRun) in H2
        as (ids & M & Hids); [|done].
      exists ids. split; [|done]. cbn [app omap list_omap mark_of].
      by rewrite omap_app, (apply_decide_response_quiet _ _ _ _ H3), app_nil_r.
    + skip H Hd. exists []. by rewrite (apply_decide_response_quiet _ _ _ _ H).
  - exists []. destruct (shouldProceedOnExecuteApiError state); by destruct H as [-> _].
Qed.
End interpreter_side.

(** ** What a request waits for *)

(** The backend describes the workflow with this first run. *)
Definition describes (firstRun : string) (o : obs apiE) : Prop :=
  match o with
  | Obs (Client (DescribeWorkflow _ _ _)) (inl response) => desc_FirstRunId response = firstRun
  | _ => True
  end.

Definition waited_parent (s : serviceImpl) (firstRun wid : string) : string :=
  if bool_decide (cfg_WaitForOn s = "old") then wid
  else match client_GetBackendType s with BackendTypeTemporal => firstRun | BackendTypeCadence => wid end.
Definition requested_id (req : WorkflowWaitForStateCompletionRequest) (parentId : string) : gores string :=
  GetWorkflowIdForWaitForStateExecution parentId (wc_StateExecutionId req) (wc_WaitForKey req) (wc_StateId req).

(** The workflow the request starts to wait, and the one whose result it answers. *)
Definition waits_under (id : gores string) (o : obs apiE) : Prop :=
  match o with
  | Obs (Client (StartWaitForStateCompletionWorkflow options)) _ => id = Ret (swo_ID options)
  | Obs (Client (GetWorkflowResult _ ResultStateCompletion workflowId _)) _ => id = Ret workflowId
  | _ => True
  end.

Lemma wait_spec (s : serviceImpl) req firstRun :
  always (ApiV1WorkflowWaitForStateCompletion s req) (fun calls _ =>
    Forall (describes firstRun) calls ->
    Forall (waits_under (requested_id req (waited_parent s firstRun (wc_WorkflowId req)))) calls).
Proof.
  unfold ApiV1WorkflowWaitForStateCompletion. apply always_capture.
  match goal with |- always (or_error _ _ _ ?f) _ =>
    assert (forall parentId, always (f parentId) (fun calls _ =>
      Forall (waits_under (requested_id req parentId)) calls)) as Hf end.
  { intros parentId. unfold or_error. fold (requested_id req parentId).
    destruct (requested_id req parentId) as [i|msg]; cbn; [|constructor].
    intros [runId|err]; cbn; [|by repeat constructor]. intros now [output|err]; cbn; [by repeat constructor|].
    destruct (_ || _); cbn; by repeat constructor. }
  unfold wait_parent_id, waited_parent, or_error at 1. case_bool_decide as Eon.
  { eapply always_mono; [|apply Hf]. by intros calls r H _. }
  destruct (client_GetBackendType s); [eapply always_mono; [|apply Hf]; by intros calls r H _|].
  intros [resp|err]; [|by repeat constructor].
  eapply always_mono; [|apply (Hf (desc_FirstRunId resp))]. intros calls r H [E Hd]%Forall_cons.
  constructor; [done|]. cbn in E. by rewrite <- E.
Qed.

(** ** The two meet *)

(** The request names this execution: by the key its state was started with, if there is
    one, and otherwise by the id of the execution. *)
Definition own_key (key : option string) : option string :=
  k ← key; if bool_decide (k = EmptyString) then None else Some k.
Definition asks_for (req : WorkflowWaitForStateCompletionRequest) (state : StateMovement) (ctx : Context_) : Prop :=
  wc_WorkflowId req = ctx_WorkflowId ctx /\ own_key (wc_WaitForKey req) = own_key (WaitForKey state) /\
  match own_key (WaitForKey state) with
  | Some _ => wc_StateId req = Some (StateId state)
  | None => wc_StateExecutionId req = ctx_StateExecutionId ctx
  end.

(** The interpreter signals under the kind of id the service waits under. *)
Definition compatible (backend : BackendType) (signalWithStartOn waitForOn : string) : bool :=
  match backend with
  | BackendTypeCadence => true
  | BackendTypeTemporal =>
      bool_decide (signalWithStartOn = "both") ||
      bool_decide (signalWithStartOn = if bool_decide (waitForOn = "old") then "old" else "new")
  end.

Lemma id_of_own_key parentId exe key stateId :
  GetWorkflowIdForWaitForStateExecution parentId exe key stateId =
  match own_key key with
  | Some k => sid ← deref stateId; Ret (IwfSystemConstPrefix +:+ parentId +:+ "_" +:+ sid +:+ "_" +:+ k)
  | None => e ← deref exe; Ret (IwfSystemConstPrefix +:+ parentId +:+ "_" +:+ e)
  end.
Proof.
  unfold GetWorkflowIdForWaitForStateExecution, own_key. destruct key as [k|]; [|done]. cbn.
  destruct (decide (k = EmptyString)) as [->|Hk]; [done|]. by rewrite bool_decide_true, bool_decide_false.
Qed.

Lemma asked_id req state ctx parentId : asks_for req state ctx -> requested_id req parentId = wait_id parentId state ctx.
Proof.
  intros (_ & Hk & H). unfold requested_id, wait_id. rewrite !id_of_own_key, Hk.
  destruct (own_key (WaitForKey state)); by rewrite H.
Qed.

(** A state with a key is told under the key alone: who waits for its execution is not. *)
Lemma key_hides_execution parentId state ctx k :
  own_key (WaitForKey state) = Some k ->
  wait_id parentId state ctx = Ret (IwfSystemConstPrefix +:+ parentId +:+ "_" +:+ StateId state +:+ "_" +:+ k).
Proof. intros Hk. unfold wait_id. by rewrite id_of_own_key, Hk. Qed.

(** The parts of an id are not told apart: waits of different workflows share one. *)
Lemma wait_ids_collide :
  requested_id (mkWorkflowWaitForStateCompletionRequest "order" None (Some "1") (Some "S1-1") None) "order" =
  requested_id (mkWorkflowWaitForStateCompletionRequest "order_1" (Some "S1-1") None None None) "order_1".
Proof. reflexivity. Qed.

(** C20: who waits for a state is told when it completes.  When the execute API of a state
    execution was answered, and the execution is one that is waited for, then the
    signals it sends after that call, and not on a replay, include one to the workflow
    that a request starts to wait and answers the result of, when the request names the
    execution as it was started to be waited for ([asks_for]: by its key if the state
    was started with one, by its id only if not, since a key hides the id:
    [key_hides_execution]) and the configurations of the two processes agree (so on
    Cadence always); and only workflows with the ids of this execution are told.  When
    the API failed, or nobody waits, none is. *)
Theorem completion_reaches_waiters `{!Has St WorkflowConfiger, !Has St PersistenceManager, !Has St InternalChannel,
  !Has St ContinueAsNewer} basicInfo state exe ctx commandRes renamed locals send signalOn firstRun tr r s req calls resp :
  traces (invokeStateExecute (St := St) basicInfo state exe ctx commandRes renamed locals send) tr r ->
  Forall (as_deployed (client_GetBackendType s) signalOn firstRun) tr ->
  runs (ApiV1WorkflowWaitForStateCompletion s req) calls resp ->
  Forall (describes firstRun) calls ->
  exists success ids, omap mark_of tr = Executed success :: map Told ids /\
    (success && send = false -> ids = []) /\
    Forall (fun id => wait_id (ctx_WorkflowId ctx) state ctx = Ret id \/ wait_id firstRun state ctx = Ret id) ids /\
    (success && send = true -> asks_for req state ctx ->
     compatible (client_GetBackendType s) signalOn (cfg_WaitForOn s) = true ->
     exists id, id ∈ ids /\ Forall (waits_under (Ret id)) calls).
Proof.
  intros Htr Hd Hcalls Hdesc.
  destruct (invokeStateExecute_tells _ _ _ _ _ _ _ _ _ _ _ _ _ Htr Hd) as (success & ids & M & Hids).
  exists success, ids. split; [done|]. destruct (success && send); [|subst ids; by split_and!].
  destruct Hids as (Told1 & Told2 & Only). split_and!; [done..|]. intros _ Hasks Hc.
  assert (exists id, requested_id req (waited_parent s firstRun (wc_WorkflowId req)) = Ret id /\ id ∈ ids)
    as (id & Eid & Hid).
  { rewrite (asked_id _ _ _ _ Hasks), (proj1 Hasks). revert Hc.
    unfold waited_parent, compatible, under_workflow, under_first_run in *.
    destruct (client_GetBackendType s); intros Hc.
    - rewrite bool_decide_true in Told1 by done. destruct (bool_decide (cfg_WaitForOn s = _)); by apply Told1.
    - apply orb_prop in Hc as [->%bool_decide_eq_true | ->%bool_decide_eq_true];
        destruct (bool_decide (cfg_WaitForOn s = "old")); first [by apply Told1 | by apply Told2]. }
  exists id. split; [done|]. rewrite <- Eid. exact (always_runs _ _ _ _ (wait_spec s req firstRun) Hcalls Hdesc).
Qed.
