(* ===== verification/DumpPath.v ===== *)
(** * Continue as new over HTTP

    How a run loads the snapshot of the previous one (ContinueAsNew.v): the dump
    activity (Activity.v) calls the API through the generated client
    (ClientServer.v), the API service queries the previous run through a client of
    the backend, and the previous run's query handler answers a page of its
    snapshot's JSON. *)

From S2P Require Export ClientServer ApiBackend ServiceJson ContinueAsNew Activity.

(** ** The query *)

Section query_dump.
Context {W : Type} (md5 : list ascii -> string) (served : W -> list ascii) (asked : WorkflowDumpRequest -> Prop).

(** The SDK's query of the previous run gives what its query handler answers; the
    handler's errors are errors of the query. *)
Definition query_served (q : WorkflowDumpRequest -> M W ((WorkflowDumpResponse + error) + error)) : Prop :=
  forall req w, asked req ->
    exists x w', q req w = Ret (x, w') /\
      match dump_answer md5 (served w) req with
      | inl resp => x = inl (inl resp)
      | inr _ => exists err, x = inr err
      end.

(** The backend client's query gives what the handler answered at some moment. *)
Definition client_queries {E} (c : UnifiedClient E) (sdk : forall X, E X -> M W X) : Prop :=
  forall req w, asked req ->
    exists x w' w1,
      interp sdk (uc_call _ (QueryWorkflow (dump_WorkflowId req) (dump_WorkflowRunId req) (QueryDumpPage req))) w =
        Ret (x, w') /\
      page_answer md5 (served w1) req x.

(** The retries of a query do not matter. *)
Lemma query_with_retry_served {E : Type -> Type} (sdk : forall X, E X -> M W X)
  (once : E ((WorkflowDumpResponse + error) + error)%type) (sleep : Z -> E unit) failed policy req :
  (forall w, exists x w', sdk _ once w = Ret (x, w') /\
     match dump_answer md5 (served w) req with
     | inl resp => x = inl (inl resp)
     | inr _ => exists err, x = inr err
     end) ->
  (forall d w, exists w', sdk _ (sleep d) w = Ret (tt, w')) ->
  (0 < qp_MaximumAttempts policy)%Z ->
  forall w, exists x w' w1,
    interp sdk (query_with_retry (ask once) (fun d => ask (sleep d)) failed policy) w = Ret (x, w') /\
    page_answer md5 (served w1) req x.
Proof.
  intros Honce Hsleep Hn. unfold query_with_retry.
  assert (exists n, Z.to_nat (qp_MaximumAttempts policy) = S n) as [n ->] by (exists (Z.to_nat (qp_MaximumAttempts policy) - 1); lia).
  clear Hn. generalize (None : option error). induction n as [|n IH]; intros err w;
    cbn [query_loop]; unfold mbind, proc_mbind; rewrite interp_bind; cbn [ask interp];
    unfold mbind at 1, M_bind at 1;
    destruct (Honce w) as (x & w1 & -> & Hx); unfold mret at 1, M_ret at 1; unfold page_answer;
    destruct (dump_answer md5 (served w) req) as [resp|e0] eqn:Ea.
  1,3: subst x; exists (inl resp), w1, w; rewrite Ea; split; reflexivity.
  - destruct Hx as [e ->]. destruct (failed e).
    + rewrite interp_bind. cbn [ask interp]. unfold mbind, M_bind. destruct (Hsleep (seconds_duration (qp_InitialIntervalSeconds policy)) w1) as [w2 ->].
      exists (inr e), w2, w. cbn. rewrite Ea. split; [reflexivity | by eexists].
    + exists (inr e), w1, w. rewrite Ea. split; [reflexivity | by eexists].
  - destruct Hx as [e ->]. destruct (failed e).
    + rewrite interp_bind. cbn [ask interp]. unfold mbind, M_bind. destruct (Hsleep (seconds_duration (qp_InitialIntervalSeconds policy)) w1) as [w2 ->].
      exact (IH (Some e) w2).
    + exists (inr e), w1, w. rewrite Ea. split; [reflexivity | by eexists].
Qed.

Lemma temporal_queries t fuel (sdk : forall X, temporalE X -> M W X) :
  query_served (fun req => sdk _ (T_QueryWorkflow (dump_WorkflowId req) (dump_WorkflowRunId req) (QueryDumpPage req))) ->
  (forall d w, exists w', sdk _ (T_Sleep d) w = Ret (tt, w')) ->
  (0 < qp_MaximumAttempts (queryWorkflowFailedRetryPolicy t))%Z ->
  client_queries (temporal_client t fuel) sdk.
Proof.
  intros Hq Hs Hn req w Hreq. apply query_with_retry_served; [|done..]. intros w1. by apply Hq.
Qed.

Lemma cadence_queries t fuel (sdk : forall X, cadenceE X -> M W X) :
  query_served (fun req => sdk _ (C_QueryWorkflow (dump_WorkflowId req) (dump_WorkflowRunId req) (QueryDumpPage req))) ->
  (forall d w, exists w', sdk _ (C_Sleep d) w = Ret (tt, w')) ->
  (0 < qp_MaximumAttempts (cc_queryWorkflowFailedRetryPolicy t))%Z ->
  client_queries (cadence_client t fuel) sdk.
Proof.
  intros Hq Hs Hn req w Hreq. apply query_with_retry_served; [|done..]. intros w1. by apply Hq.
Qed.
End query_dump.

(** ** The activity, the client, the service and the query *)

Section deployment.
Context {W : Type} {FT : FloatText} {NT : NetText}.
Context (md5 : list ascii -> string) (served : W -> list ascii) (asked : WorkflowDumpRequest -> Prop).
Context {E : Type -> Type} (c : UnifiedClient E) (sdk : forall X, E X -> M W X).
(** The service, and its other calls. *)
Context (s : serviceImpl) (others : forall X, apiE X -> M W X).
Context (env : ActivityEnv W) (DefaultHeaders : gmap string string).

Definition on_backend X (e : apiE X) : M W X :=
  match e in apiE X return apiE X -> M W X with
  | Client call => fun _ => interp sdk (uc_call _ call)
  | _ => fun e => others _ e
  end e.

(** The call of the activity's client. *)
Definition dump_over_http (apiAddress : string) (req : WorkflowDumpRequest) (w : W) :
  api_result WorkflowDumpResponse * W :=
  match interp on_backend (client_call s WorkflowInternalDump apiAddress DefaultHeaders (ContextDeadline env) req) w with
  | Ret (r, w') => (as_api_result r, w')
  | Panic msg => (mkapi_result None None (Some msg), w)
  end.

(** What the workflow gets of the activity; a nil response leaves the variable zero. *)
Definition activity_answer (r : gores ((option WorkflowDumpResponse + error) * W)) (w : W) :
  (WorkflowDumpResponse + error) * W :=
  match r with
  | Ret (inl resp, w') => (inl (default (Json.zero WorkflowDumpResponse_codec) resp), w')
  | Ret (inr err, w') => (inr err, w')
  | Panic msg => (inr (OtherError msg), w)
  end.

(** Everything the path needs: the activity's client calls the service of the API
    address, the service's client queries the previous run, the requests are values
    that JSON carries, and the number of pages is. *)
Record dump_path : Prop := {
  path_client : ApiV1WorkflowInternalDumpPost env = dump_over_http;
  path_url : request_url EmptyString EmptyString (ApiServiceAddress env +:+ "/api/v1/workflow/internal/dump") =
    inl (ApiServiceAddress env +:+ "/api/v1/workflow/internal/dump");
  path_queries : client_queries md5 served asked c sdk;
  path_requests : forall req, asked req -> carries WorkflowDumpRequest_codec req = true;
  path_totals : forall req w resp, asked req -> dump_answer md5 (served w) req = inl resp ->
    carries int32_codec (TotalPages resp) = true
}.

(** A page as it arrives: JSON replaces the bytes that are not UTF-8, as those of a
    character that a page cuts in two, and most of an MD5. *)
Definition arrived_md5 (data : list ascii) : string := repair_string (md5 data).
Definition arrived (resp : WorkflowDumpResponse) : WorkflowDumpResponse :=
  mkWorkflowDumpResponse (repair_string (Checksum resp)) (TotalPages resp) (repair_string (JsonData resp)).

Lemma dump_response_json checksum total text :
  enc (ptr WorkflowDumpResponse_codec) (Some (mkWorkflowDumpResponse checksum total text)) =
  JObj [("checksum", JStr checksum); ("jsonData", JStr text); ("totalPages", JNum (pretty total))].
Proof. reflexivity. Qed.

Lemma view_page resp :
  carries int32_codec (TotalPages resp) = true ->
  client_view (Resp := WorkflowDumpResponse) WorkflowInternalDump (inl resp) =
  mkclient_result (Some (arrived resp)) (Some (json_response WorkflowDumpResponse_codec 200 resp)) None.
Proof.
  intros Ht. apply read_ok. cbn [client_op op_Response post ApiV1WorkflowInternalDumpPost_op].
  destruct resp as [checksum total text]. cbn [JsonData TotalPages arrived Checksum] in *.
  apply (Unmarshal_repaired (ptr WorkflowDumpResponse_codec)
    (Some (mkWorkflowDumpResponse checksum total text))
    (Some (mkWorkflowDumpResponse (repair_string checksum) total (repair_string text))));
    rewrite ?dump_response_json.
  - cbn [numbers_ok forallb snd andb]. by rewrite pretty_number.
  - reflexivity.
  - cbn [carries ptr WorkflowDumpResponse_codec struct fields_carry f_codec f_get required string_codec
      Checksum TotalPages JsonData andb]. by rewrite !utf8_repair, Ht.
Qed.

Lemma handleError_status err wid : (300 <= StatusCode (handleError s err wid))%Z.
Proof.
  pose proof (handleError_known s err wid) as H. unfold known_status in H.
  repeat (apply elem_of_cons in H as [->|H]; [lia|]). by apply elem_of_nil in H.
Qed.

(** A failed call of the client. *)
Lemma view_error err :
  (300 <= StatusCode err)%Z ->
  exists e hr, cr_error (client_view (Resp := WorkflowDumpResponse) WorkflowInternalDump (inr err)) = Some e /\
    cr_response (client_view (Resp := WorkflowDumpResponse) WorkflowInternalDump (inr err)) = Some hr.
Proof.
  intros Hs. unfold client_view, read_response. cbn [write_reply processError json_response wr_BodyError wr_StatusCode].
  rewrite (proj2 (Z.leb_le _ _) Hs). by eexists _, _.
Qed.

(** The activity answers a page as it arrives, or an error. *)
Lemma activity_dumps req w :
  dump_path -> asked req ->
  exists w1,
    match dump_answer md5 (served w1) req with
    | inl resp => fst (activity_answer (DumpWorkflowInternal env req w) w) = inl (arrived resp)
    | inr _ => exists err, fst (activity_answer (DumpWorkflowInternal env req w) w) = inr err
    end.
Proof.
  intros [Hc Hu Hq Hr Hp] Hreq. unfold DumpWorkflowInternal. rewrite Hc.
  destruct (Hq req w Hreq) as (x & w' & w1 & Ex & Hx). exists w1.
  unfold outside, mbind, M_bind, dump_over_http. rewrite interp_client_call by (exact Hu || by apply Hr).
  cbn [svc]. unfold ApiV1WorkflowDumpPost, or_error, client. cbn [mbind proc_mbind proc_bind ask interp on_backend].
  unfold mbind, M_bind. rewrite Ex. unfold page_answer in *.
  destruct (dump_answer md5 (served w1) req) as [resp|e] eqn:Ea.
  - subst x. cbn [mret proc_ret interp]. unfold mret, M_ret.
    rewrite view_page by exact (Hp req w1 resp Hreq Ea). reflexivity.
  - destruct Hx as [err ->]. unfold api_error. cbn [mret proc_ret interp]. unfold mret, M_ret.
    destruct (view_error (handleError s err (dump_WorkflowId req)) (handleError_status _ _)) as (ce & hr & He & Hh).
    unfold as_api_result. rewrite He, Hh. cbn [ar_err ar_http fmap option_fmap option_map].
    unfold checkHttpError, CheckHttpError. cbn [is_set orb].
    unfold composeHttpError, liftM. cbn [deref].
    destruct (hr_Body _), (IsLocalActivity _); cbn; by eexists.
Qed.
End deployment.

(** ** Loading the previous run *)

(** The requests of a loading. *)
Definition page_request (wid rid : string) (pageSize : Z) (req : WorkflowDumpRequest) : Prop :=
  exists n, (0 <= n <= 2147483647)%Z /\ req = mkWorkflowDumpRequest wid rid pageSize n.

Section load_http.
Context {St W : Type} {FT : FloatText} {NT : NetText} (md5 : list ascii -> string).
Context {E : Type -> Type} (c : UnifiedClient E) (sdk : forall X, E X -> M W X).
Context (s : serviceImpl) (others : forall X, apiE X -> M W X).
Context (env : ActivityEnv W) (DefaultHeaders : gmap string string).
Context (h : forall X, providerE X -> W -> X * W) (wid runId : string) (pageSize : Z).

(** The backend of the new run: its workflow is [wid], and a dump activity is executed. *)
Definition executes_dumps : Prop :=
  (forall w, exists info, h _ GetWorkflowInfo w = (info, w) /\ ID (wi_WorkflowExecution info) = wid) /\
  forall options req w,
    h _ (ExecuteDumpWorkflowInternal options req) w = activity_answer (DumpWorkflowInternal env req w) w.

Definition snapshot_text : ContinueAsNewDumpResponse -> list ascii := Marshal ContinueAsNewDumpResponse_codec.

Definition path_of (snap : W -> ContinueAsNewDumpResponse) : Prop :=
  dump_path md5 (fun w => snapshot_text (snap w)) (page_request wid runId pageSize) c sdk s others env DefaultHeaders.

(** No page of a snapshot cuts a character in two. *)
Definition whole_characters (snap : W -> ContinueAsNewDumpResponse) : Prop :=
  forall w n, utf8 (String.string_of_list_ascii (page pageSize (snapshot_text (snap w)) n)) = true.

Lemma dump_answer_arrived data n :
  page_sizes_ok pageSize data -> (0 <= n)%Z ->
  utf8 (String.string_of_list_ascii (page pageSize data (Z.to_nat n))) = true ->
  dump_answer (arrived_md5 md5) data (mkWorkflowDumpRequest wid runId pageSize n) =
  match dump_answer md5 data (mkWorkflowDumpRequest wid runId pageSize n) with
  | inl resp => inl (arrived resp)
  | inr err => inr err
  end.
Proof.
  intros Hok Hn Hp. unfold dump_answer. rewrite !dump_page_spec by done.
  destruct (n <? total_pages pageSize data)%Z; [|done].
  unfold arrived. cbn [Checksum TotalPages JsonData]. by rewrite (repair_string_utf8 _ Hp).
Qed.

Lemma dumps_served snap :
  executes_dumps -> path_of snap -> whole_characters snap ->
  served_ok (arrived_md5 md5) (fun w => snapshot_text (snap w)) pageSize ->
  dump_server h (arrived_md5 md5) (fun w => snapshot_text (snap w)) (page_request wid runId pageSize).
Proof.
  intros [_ Hh] Hp Hw Hok options req w Hreq. rewrite Hh.
  destruct (activity_dumps _ _ _ _ _ _ _ _ _ req w Hp Hreq) as [w1 H]. exists w1.
  destruct Hreq as (n & Hn & ->). unfold page_answer.
  rewrite dump_answer_arrived by (apply Hok || apply Hw || lia).
  cbn beta in H. by destruct (dump_answer md5 _ _).
Qed.

Lemma loads_asked_dumps : executes_dumps -> loads_asked h (page_request wid runId pageSize) runId pageSize.
Proof.
  intros [Hi _] w n Hn. destruct (Hi w) as (info & -> & Hw). cbn. rewrite Hw. by exists n.
Qed.

(** A run that continues as new gets the state of the previous one, through the dump
    activity, the generated client, the API and a query of the previous run: with a
    previous run that no longer changes and enough fuel for its pages, loading ends
    with exactly its snapshot; when the snapshot is of values that JSON carries and
    no page cuts a character in two. *)
Theorem load_over_http snapshot fuel config w (st : St) :
  path_of (fun _ => snapshot) -> executes_dumps -> whole_characters (fun _ => snapshot) ->
  carries ContinueAsNewDumpResponse_codec snapshot = true ->
  served_ok (arrived_md5 md5) (fun _ : W => snapshot_text snapshot) pageSize ->
  (total_pages pageSize (snapshot_text snapshot) <= Z.of_nat fuel)%Z ->
  exists w', returns h (LoadInternalsFromPreviousRun (Unmarshal ContinueAsNewDumpResponse_codec) fuel config
      runId pageSize) w st (Some (inl snapshot)) w' st.
Proof.
  intros Hp Hh Hw Hc Hok Hf.
  apply (load_previous_run h (arrived_md5 md5) snapshot_text _ (page_request wid runId pageSize)); try done.
  - apply Unmarshal_Marshal; [typeclasses eauto | exact Hc].
  - intros w1. destruct (proj1 Hh w1) as (info & -> & _). done.
  - by apply dumps_served.
  - by apply loads_asked_dumps.
Qed.

(** C9: the pages a run loads over HTTP come from one snapshot, even when the previous run
    changes meanwhile: if loading succeeds, its result is one of the snapshots that
    the previous run served.  For snapshots of values that JSON carries, whose pages
    cut no character in two and stay within 32 bits, and whose checksums tell them
    apart as they arrive: bytes that are not UTF-8 are replaced on the way. *)
Theorem load_over_http_is_one_snapshot (snap : W -> ContinueAsNewDumpResponse) fuel config w (st : St) resp w'
  st' ts :
  path_of snap -> executes_dumps -> whole_characters snap ->
  (forall w, carries ContinueAsNewDumpResponse_codec (snap w) = true) ->
  (forall w1 w2, arrived_md5 md5 (snapshot_text (snap w1)) = arrived_md5 md5 (snapshot_text (snap w2)) ->
     snapshot_text (snap w1) = snapshot_text (snap w2)) ->
  served_ok (arrived_md5 md5) (fun w => snapshot_text (snap w)) pageSize ->
  exec h (LoadInternalsFromPreviousRun (Unmarshal ContinueAsNewDumpResponse_codec) fuel config runId pageSize)
    w st = Some (Some (inl resp), w', st', ts) ->
  st' = st /\ ts = [] /\ exists w0, resp = snap w0.
Proof.
  intros Hp Hh Hw Hc Hinj Hok Hrun.
  apply (load_is_one_snapshot h (arrived_md5 md5) snapshot_text (Unmarshal ContinueAsNewDumpResponse_codec)
    (page_request wid runId pageSize) snap fuel config runId pageSize w st resp w' st' ts); try done.
  - intros w1. apply Unmarshal_Marshal; [typeclasses eauto | apply Hc].
  - by apply dumps_served.
  - by apply loads_asked_dumps.
Qed.

(** The bytes of a page that are no part of a character. *)
Definition cut_bytes (n : nat) (data : list ascii) : nat :=
  length (filter is_bad (pieces (page pageSize data n))).

(** A page arrives with three bytes for each of these. *)
Lemma repair_length l : length (repair l) = length l + 2 * length (filter is_bad (pieces l)).
Proof.
  destruct (pieces_spec l) as [_ Hl]. transitivity (length (flat_map piece_bytes (pieces l)) +
    2 * length (filter is_bad (pieces l))); [|by rewrite Hl].
  unfold repair. clear Hl. induction (pieces l) as [|p ps IH]; [done|]. cbn [flat_map].
  rewrite !length_app, IH, filter_cons. destruct p; cbn [repair_piece piece_bytes is_bad].
  - destruct (decide _) as [[]|_]. cbn. lia.
  - destruct (decide _) as [[]|_]. lia.
  - destruct (decide _) as [_|[]]; [cbn; lia|done].
Qed.

Lemma no_cut_utf8 n data :
  cut_bytes n data = 0 -> utf8 (String.string_of_list_ascii (page pageSize data n)) = true.
Proof.
  unfold cut_bytes, utf8, chars. rewrite String.list_ascii_of_string_of_list_ascii. intros H.
  apply negb_true_iff. induction (pieces _) as [|p ps IH]; [done|]. rewrite filter_cons in H. cbn in *.
  by destruct p; cbn in *; auto.
Qed.

Lemma received_length data n :
  length (received pageSize repair_string data n) =
  length (take (Z.to_nat pageSize * n) data) + 2 * sum_list_with (fun i => cut_bytes i data) (seq 0 n).
Proof.
  induction n as [|n IH]; [by rewrite Nat.mul_0_r|].
  rewrite received_S, take_pages, !length_app, IH, seq_S, sum_list_with_app. cbn [sum_list_with].
  unfold repair_string, chars. rewrite !String.list_ascii_of_string_of_list_ascii, repair_length.
  unfold cut_bytes. cbn. lia.
Qed.

(** Loading decodes the pages as they arrive. *)
Lemma load_decodes_arrived snapshot data fuel config w (st : St) :
  data = snapshot_text snapshot ->
  path_of (fun _ => snapshot) -> executes_dumps -> served_ok (arrived_md5 md5) (fun _ : W => data) pageSize ->
  (total_pages pageSize data <= Z.of_nat fuel)%Z ->
  exists w',
    returns h (LoadInternalsFromPreviousRun (Unmarshal ContinueAsNewDumpResponse_codec) fuel config runId pageSize)
      w st (Some (match Unmarshal ContinueAsNewDumpResponse_codec
                          (received pageSize repair_string data (Z.to_nat (total_pages pageSize data))) with
                  | Some resp => inl resp
                  | None => inr (OtherError "json.Unmarshal")
                  end)) w' st.
Proof.
  intros Hd Hp Hh Hok Hf. unfold path_of in Hp. rewrite <- Hd in Hp. clear Hd.
  destruct (Hok w) as (Hpage & Hne & _).
  pose proof (total_pages_pos (arrived_md5 md5) (fun _ : W => data) pageSize w Hok) as Hpos. cbn beta in Hpos.
  apply (load_received h _ repair_string (arrived_md5 md5 data)).
  - intros w1. by destruct (proj1 Hh w1) as (info & -> & _).
  - apply Hpage.
  - exact Hpos.
  - intros options n w1 w0 Hn. rewrite (proj2 Hh).
    destruct (proj1 Hh w0) as (info & -> & Hwid). cbn [fst]. rewrite Hwid.
    assert (page_request wid runId pageSize (mkWorkflowDumpRequest wid runId pageSize n)) as Hreq
      by (exists n; split; [lia|reflexivity]).
    destruct (activity_dumps _ _ _ _ _ _ _ _ _ _ w1 Hp Hreq) as [w2 H]. cbn beta in H.
    unfold dump_answer in H. rewrite dump_page_spec in H by (exact Hpage || lia).
    destruct (Z.ltb_spec n (total_pages pageSize data)); [exact H|lia].
  - exact Hf.
Qed.

(** C35: a page border inside a character damages the snapshot.  Whatever the snapshot of
    a previous run that no longer changes and whatever the size of a page, loading
    decodes the pages as they arrive, in which every byte of a cut character has
    become the three bytes of the replacement character: the text is longer than the
    one that was dumped by two bytes for each, so it is that text only if no
    character is cut. *)
Theorem cut_characters_are_replaced snapshot fuel config w (st : St) :
  let data := snapshot_text snapshot in
  let total := Z.to_nat (total_pages pageSize data) in
  path_of (fun _ => snapshot) -> executes_dumps ->
  served_ok (arrived_md5 md5) (fun _ : W => data) pageSize -> (total <= fuel)%nat ->
  exists w' text,
    returns h (LoadInternalsFromPreviousRun (Unmarshal ContinueAsNewDumpResponse_codec) fuel config runId pageSize)
      w st (Some (match Unmarshal ContinueAsNewDumpResponse_codec text with
                  | Some resp => inl resp
                  | None => inr (OtherError "json.Unmarshal")
                  end)) w' st /\
    text = flat_map (fun n => repair (page pageSize data n)) (seq 0 total) /\
    length text = length data + 2 * sum_list_with (fun n => cut_bytes n data) (seq 0 total) /\
    (text = data <-> forall n, n < total -> cut_bytes n data = 0).
Proof.
  intros data. remember (snapshot_text snapshot) as text eqn:Hd. subst data. rename text into data.
  intros total Hp Hh Hok Hf. destruct (Hok w) as (Hpage & _).
  assert (total_pages pageSize data <= Z.of_nat total)%Z as Htotal by (subst total; lia).
  destruct (load_decodes_arrived snapshot data fuel config w st Hd Hp Hh Hok) as [w' Hw']; [lia|].
  clear Hd Hp. exists w', (received pageSize repair_string data total).
  assert (length (received pageSize repair_string data total) =
    length data + 2 * sum_list_with (fun n => cut_bytes n data) (seq 0 total)) as Hlen
    by (rewrite received_length, take_all_pages by assumption; reflexivity).
  split; [exact Hw'|]. split; [|split; [exact Hlen|split]].
  - unfold received. apply flat_map_ext. intros n. unfold repair_string, chars.
    by rewrite !String.list_ascii_of_string_of_list_ascii.
  - intros Heq n Hn. rewrite Heq in Hlen.
    assert (cut_bytes n data <= sum_list_with (fun n => cut_bytes n data) (seq 0 total)); [|lia].
    apply (sum_list_with_in n (fun n => cut_bytes n data)), elem_of_seq. lia.
  - intros Hcut. rewrite received_whole; [by apply take_all_pages|].
    intros i Hi. apply repair_string_utf8, no_cut_utf8, Hcut, Hi.
Qed.
End load_http.
