(* ===== verification/Interpreter.v ===== *)
(** * The interpreter workflow

    service/interpreter/workflowImpl.go: [InterpreterImpl], the two small
    workflows at the end of the file, and the shared state of a run. *)

From S2P Require Export StateExecution Updater.

(** ** The shared state *)

(** The variables of [InterpreterImpl] that its coroutines write. *)
Record RunVars : Type := mkRunVars {
  errToFailWf : option error;
  forceCompleteWf : bool;
  shouldGracefulComplete : bool
}.

Record WorkflowState : Type := mkWorkflowState {
  w_persistence : PersistenceManager;
  w_channel : InternalChannel;
  w_queue : StateRequestQueue;
  w_counter : StateExecutionCounter;
  w_can_counter : ContinueAsNewCounter;
  w_configer : WorkflowConfiger;
  w_versioner : GlobalVersioner;
  w_timers : TimerProcessor;
  w_signals : SignalReceiver;
  w_outputs : OutputCollector;
  w_newer : ContinueAsNewer;
  w_commands : CommandsHeap;
  w_vars : RunVars
}.

#[export] Program Instance Has_persistence : Has WorkflowState PersistenceManager := {|
  part := w_persistence;
  set_part p '(mkWorkflowState _ b c d e f g h i j k l m) := mkWorkflowState p b c d e f g h i j k l m |}.
Solve All Obligations with by intros; repeat match goal with s : WorkflowState |- _ => destruct s end.
#[export] Program Instance Has_channel : Has WorkflowState InternalChannel := {|
  part := w_channel;
  set_part p '(mkWorkflowState a _ c d e f g h i j k l m) := mkWorkflowState a p c d e f g h i j k l m |}.
Solve All Obligations with by intros; repeat match goal with s : WorkflowState |- _ => destruct s end.
#[export] Program Instance Has_queue : Has WorkflowState StateRequestQueue := {|
  part := w_queue;
  set_part p '(mkWorkflowState a b _ d e f g h i j k l m) := mkWorkflowState a b p d e f g h i j k l m |}.
Solve All Obligations with by intros; repeat match goal with s : WorkflowState |- _ => destruct s end.
#[export] Program Instance Has_counter : Has WorkflowState StateExecutionCounter := {|
  part := w_counter;
  set_part p '(mkWorkflowState a b c _ e f g h i j k l m) := mkWorkflowState a b c p e f g h i j k l m |}.
Solve All Obligations with by intros; repeat match goal with s : WorkflowState |- _ => destruct s end.
#[export] Program Instance Has_can_counter : Has WorkflowState ContinueAsNewCounter := {|
  part := w_can_counter;
  set_part p '(mkWorkflowState a b c d _ f g h i j k l m) := mkWorkflowState a b c d p f g h i j k l m |}.
Solve All Obligations with by intros; repeat match goal with s : WorkflowState |- _ => destruct s end.
#[export] Program Instance Has_configer : Has WorkflowState WorkflowConfiger := {|
  part := w_configer;
  set_part p '(mkWorkflowState a b c d e _ g h i j k l m) := mkWorkflowState a b c d e p g h i j k l m |}.
Solve All Obligations with by intros; repeat match goal with s : WorkflowState |- _ => destruct s end.
#[export] Program Instance Has_versioner : Has WorkflowState GlobalVersioner := {|
  part := w_versioner;
  set_part p '(mkWorkflowState a b c d e f _ h i j k l m) := mkWorkflowState a b c d e f p h i j k l m |}.
Solve All Obligations with by intros; repeat match goal with s : WorkflowState |- _ => destruct s end.
#[export] Program Instance Has_timers : Has WorkflowState TimerProcessor := {|
  part := w_timers;
  set_part p '(mkWorkflowState a b c d e f g _ i j k l m) := mkWorkflowState a b c d e f g p i j k l m |}.
Solve All Obligations with by intros; repeat match goal with s : WorkflowState |- _ => destruct s end.
#[export] Program Instance Has_signals : Has WorkflowState SignalReceiver := {|
  part := w_signals;
  set_part p '(mkWorkflowState a b c d e f g h _ j k l m) := mkWorkflowState a b c d e f g h p j k l m |}.
Solve All Obligations with by intros; repeat match goal with s : WorkflowState |- _ => destruct s end.
#[export] Program Instance Has_outputs : Has WorkflowState OutputCollector := {|
  part := w_outputs;
  set_part p '(mkWorkflowState a b c d e f g h i _ k l m) := mkWorkflowState a b c d e f g h i p k l m |}.
Solve All Obligations with by intros; repeat match goal with s : WorkflowState |- _ => destruct s end.
#[export] Program Instance Has_newer : Has WorkflowState ContinueAsNewer := {|
  part := w_newer;
  set_part p '(mkWorkflowState a b c d e f g h i j _ l m) := mkWorkflowState a b c d e f g h i j p l m |}.
Solve All Obligations with by intros; repeat match goal with s : WorkflowState |- _ => destruct s end.
#[export] Program Instance Has_commands : Has WorkflowState CommandsHeap := {|
  part := w_commands;
  set_part p '(mkWorkflowState a b c d e f g h i j k _ m) := mkWorkflowState a b c d e f g h i j k p m |}.
Solve All Obligations with by intros; repeat match goal with s : WorkflowState |- _ => destruct s end.
#[export] Program Instance Has_vars : Has WorkflowState RunVars := {|
  part := w_vars;
  set_part p '(mkWorkflowState a b c d e f g h i j k l _) := mkWorkflowState a b c d e f g h i j k l p |}.
Solve All Obligations with by intros; repeat match goal with s : WorkflowState |- _ => destruct s end.

#[export] Hint Extern 1 (Indep WorkflowState _ _) => (intros ? []; reflexivity) : typeclass_instances.

(** Before anything is created. *)
Definition initial_state (config : WorkflowConfig) : WorkflowState :=
  mkWorkflowState (NewPersistenceManager [] [] false) NewInternalChannel NewStateRequestQueue
    NewStateExecutionCounter NewContinueAsCounter (NewWorkflowConfiger config)
    (mkGlobalVersioner 0) (Simple (NewSimpleTimerProcessor [])) (NewSignalReceiverState ∅)
    (NewOutputCollector []) NewContinueAsNewer (mkCommandsHeap ∅) (mkRunVars None false false).

Notation wprog A := (prog WorkflowState A).

Definition set_errToFailWf (err : option error) (v : RunVars) : RunVars :=
  mkRunVars err (forceCompleteWf v) (shouldGracefulComplete v).
Definition set_forceComplete (v : RunVars) : RunVars :=
  mkRunVars (errToFailWf v) true (shouldGracefulComplete v).
Definition set_graceful (v : RunVars) : RunVars :=
  mkRunVars (errToFailWf v) (forceCompleteWf v) true.

(** ** One state execution coroutine *)

Definition apply_closing (r : ClosingCheck) : wprog unit :=
  _ ← (match closing_err r with
       | Some err => mod_part (set_errToFailWf (Some err))
       | None => mret tt
       end : wprog unit);
  _ ← (if gracefulComplete r then mod_part set_graceful else mret tt : wprog unit);
  _ ← (match completeOutput r with
       | Some output =>
           if gracefulComplete r || forceComplete r || forceFail r
           then mod_part (oc_Add output) else mret tt
       | None => mret tt
       end : wprog unit);
  _ ← (if forceComplete r then mod_part set_forceComplete else mret tt : wprog unit);
  if forceFail r then
    oc ← get_part (P := OutputCollector);
    mod_part (set_errToFailWf
      (Some (ApplicationError STATE_DECISION_FAILING_WORKFLOW_ERROR_TYPE
               (DetailsOutputs (oc_GetAll oc)))))
  else mret tt.

Definition mark_completed_or_fail (state : StateMovement) (nextStates : list StateMovement) :
  wprog unit :=
  err ← MarkStateExecutionCompleted state nextStates;
  match err with
  | Some e => mod_part (set_errToFailWf (Some e))
  | None => mret tt
  end.

Definition state_execution_thread (fuel : nat) (input : InterpreterWorkflowInput)
  (basicInfo : BasicInfo) (stateReq : StateRequest) : wprog unit :=
  let state := GetStateMovement stateReq in
  stateExeId ← (if IsResumeRequest stateReq
                then mret (ri_StateExecutionId (GetStateResumeRequest stateReq))
                else run_part (fun e => Ret (CreateNextExecutionId (StateId state) e)));
  let shouldSendSignalOnCompletion :=
    contains (in_WaitForCompletionStateExecutionIds input) stateExeId ||
    contains (in_WaitForCompletionStateIds input) (StateId state) in
  '(decision, stateExecStatus, err) ←
    processStateExecution basicInfo stateReq stateExeId shouldSendSignalOnCompletion;
  match err with
  | Some e => mod_part (set_errToFailWf (Some e))
  | None =>
      match stateExecStatus with
      | CompletedStateExecutionStatus =>
          let decision := default empty_decision decision in
          r ← checkClosingWorkflow fuel decision (StateId state) stateExeId;
          _ ← apply_closing r;
          _ ← (if canGoNext r && (0 <? len (NextStates decision))%Z
               then mod_part (AddStateStartRequests (NextStates decision)) else mret tt : wprog unit);
          mark_completed_or_fail state (NextStates decision)
      | ExecuteApiFailedAndProceed =>
          let options := GetStateOptions state in
          _ ← mod_part (AddSingleStateStartRequest
                (default EmptyString (ExecuteApiFailureProceedStateId options)) (StateInput state)
                (ExecuteApiFailureProceedStateOptions options));
          mark_completed_or_fail state []
      | _ => mret tt
      end
  end.

(** ** The main loop *)

Definition interpreter_result : Type := option InterpreterWorkflowOutput * option error.

(** How the inner loop ends: it broke or ran out of requests, or the workflow
    returns. *)
Inductive loop_exit : Type :=
| LoopEnd
| LoopReturn (r : interpreter_result).

Definition workflow_outputs (oc : OutputCollector) : option InterpreterWorkflowOutput :=
  Some (mkInterpreterWorkflowOutput (oc_GetAll oc)).

Definition fail_requested (s : WorkflowState) : bool := fst (IsFailWorkflowRequested (part s)).

(** The condition of the wait of the inner loop. *)
Definition inner_condition (s : WorkflowState) : bool :=
  fail_requested s || negb (IsEmpty (part s)) || is_set (errToFailWf (part s)) ||
  forceCompleteWf (part s) || (totalCurrentlyExecutingCount (part s) =? 0)%Z || threshold_met s.

(** The condition of the wait of the outer loop. *)
Definition outer_condition (s : WorkflowState) : bool :=
  negb (IsEmpty (part s)) || fail_requested s || shouldGracefulComplete (part s) ||
  (IsAfterVersionOfContinueAsNewOnNoStates (part s) && threshold_met s).

(** One iteration of the inner loop; [None] to go on. *)
Definition inner_iteration (fuel : nat) (input : InterpreterWorkflowInput) (basicInfo : BasicInfo) :
  wprog (option loop_exit) :=
  s ← Get Done;
  let take := negb (threshold_met s) in
  let statesToExecute := if take then queue (w_queue s) else [] in
  err ← (if take then
           _ ← run_part (fun srq => Ret (TakeAll srq));
           MarkStateIdExecutingIfNotYet statesToExecute
         else mret None : wprog (option error));
  match err with
  | Some e => mret (Some (LoopReturn (None, Some e)))
  | None =>
      _ ← for_each statesToExecute (fun stateReq =>
            GoNamed (state_execution_thread fuel input basicInfo stateReq) (Done tt));
      awaitError ← wait inner_condition;
      s ← Get Done;
      _ ← (if negb (is_set awaitError) && fail_requested s
           then mod_part (set_errToFailWf (snd (IsFailWorkflowRequested (w_signals s))))
           else mret tt : wprog unit);
      s ← Get Done;
      awaitError ← (if threshold_met s then
                      err ← DrainThreads;
                      mret (match err with Some e => Some e | None => awaitError end)
                    else mret awaitError : wprog (option error));
      s ← Get Done;
      if is_set (errToFailWf (w_vars s)) || forceCompleteWf (w_vars s)
      then mret (Some (LoopReturn (workflow_outputs (w_outputs s), errToFailWf (w_vars s))))
      else
        match awaitError with
        | Some e => _ ← mod_part (set_errToFailWf (Some e)); mret (Some LoopEnd)
        | None => if threshold_met s then mret (Some LoopEnd) else mret None
        end
  end.

(** [for !stateRequestQueue.IsEmpty() { ... }]; [None] when [fuel] ran out. *)
Fixpoint inner_loop (fuel : nat) (input : InterpreterWorkflowInput) (basicInfo : BasicInfo) :
  wprog (option loop_exit) :=
  match fuel with
  | O => mret None
  | S fuel' =>
      srq ← get_part (P := StateRequestQueue);
      if IsEmpty srq then mret (Some LoopEnd)
      else
        r ← inner_iteration fuel input basicInfo;
        match r with
        | Some e => mret (Some e)
        | None => inner_loop fuel' input basicInfo
        end
  end.

(** The input of the next run. *)
Definition continue_as_new_input (input : InterpreterWorkflowInput) (config : WorkflowConfig)
  (runId : string) : InterpreterWorkflowInput :=
  mkInterpreterWorkflowInput (in_IwfWorkflowType input) (in_IwfWorkerUrl input) None
    (in_WaitForCompletionStateExecutionIds input) (in_WaitForCompletionStateIds input)
    None None [] [] (in_UseMemoForDataAttributes input) config true
    (Some (mkContinueAsNewInput runId)).

(** The part of the outer loop for continue-as-new: [None] to break. *)
Definition continue_as_new (fuel : nat) (input : InterpreterWorkflowInput) :
  wprog (option interpreter_result) :=
  err ← DrainThreads;
  match err with
  | Some e => _ ← mod_part (set_errToFailWf (Some e)); mret None
  | None =>
      _ ← DrainAllReceivedButUnprocessedSignals fuel;
      s ← Get Done;
      match IsFailWorkflowRequested (w_signals s) with
      | (true, failErr) => mret (Some (workflow_outputs (w_outputs s), failErr))
      | (false, _) =>
          if IsEmpty (w_queue s) && negb (HasAnyStateExecutionToResume (w_newer s))
             && shouldGracefulComplete (w_vars s)
          then mret None
          else
            info ← call GetWorkflowInfo;
            e ← call (NewInterpreterContinueAsNewError
                  (continue_as_new_input input (wc_Get (w_configer s))
                     (RunID (wi_WorkflowExecution info))));
            mret (Some (None, Some e))
      end
  end.

(** The main loop: [None] when it ends by a break. *)
Fixpoint main_loop (fuel : nat) (input : InterpreterWorkflowInput) (basicInfo : BasicInfo) :
  wprog (option (option interpreter_result)) :=
  match fuel with
  | O => mret None
  | S fuel' =>
      err ← wait outer_condition;
      match err with
      | Some e => mret (Some (Some (None, Some e)))
      | None =>
          s ← Get Done;
          match IsFailWorkflowRequested (w_signals s) with
          | (true, failErr) => mret (Some (Some (None, failErr)))
          | (false, _) =>
              if shouldGracefulComplete (w_vars s) && IsEmpty (w_queue s) then mret (Some None)
              else
                r ← inner_loop fuel input basicInfo;
                match r with
                | None => mret None
                | Some (LoopReturn res) => mret (Some (Some res))
                | Some LoopEnd =>
                    s ← Get Done;
                    if threshold_met s then
                      res ← continue_as_new fuel input;
                      mret (Some res)
                    else main_loop fuel' input basicInfo
                end
          end
      end
  end.

(** ** InterpreterImpl *)

Section interpreter.
Context (unmarshal : list Ascii.ascii -> option ContinueAsNewDumpResponse)
  (dumpConfig : option DumpActivityConfig).

Definition start_timer_processor (fuel : nat) (input : InterpreterWorkflowInput)
  (stale : list StaleSkipTimerSignal) : wprog unit :=
  if GetOptimizeTimer (in_Config input) then
    _ ← GoNamed (greedy_timer_scheduler fuel) (Done tt);
    put_part (Greedy (NewGreedyTimerProcessor stale))
  else put_part (Simple (NewSimpleTimerProcessor stale)).

Definition init_new (fuel : nat) (input : InterpreterWorkflowInput) : wprog unit :=
  _ ← put_part NewInternalChannel;
  _ ← put_part NewStateRequestQueue;
  _ ← put_part (NewPersistenceManager (in_InitDataAttributes input) (in_InitSearchAttributes input)
                  (in_UseMemoForDataAttributes input));
  _ ← put_part NewContinueAsCounter;
  _ ← start_timer_processor fuel input [];
  _ ← NewSignalReceiver fuel ∅;
  _ ← put_part NewStateExecutionCounter;
  _ ← put_part (NewOutputCollector []);
  put_part NewContinueAsNewer.

Definition init_resumed (fuel : nat) (input : InterpreterWorkflowInput)
  (previous : ContinueAsNewDumpResponse) : wprog unit :=
  _ ← put_part (RebuildInternalChannel (InterStateChannelReceived previous));
  _ ← put_part (NewStateRequestQueueWithResumeRequests (StatesToStartFromBeginning previous)
                  (StateExecutionsToResume previous));
  _ ← put_part (RebuildPersistenceManager (DataObjects previous) (SearchAttributes previous)
                  (in_UseMemoForDataAttributes input));
  _ ← put_part NewContinueAsCounter;
  _ ← start_timer_processor fuel input (StaleSkipTimerSignals previous);
  _ ← NewSignalReceiver fuel (SignalsReceived previous);
  let counterInfo := StateExecutionCounterInfo_ previous in
  _ ← put_part (RebuildStateExecutionCounter (StateIdStartedCount counterInfo)
                  (StateIdCurrentlyExecutingCount counterInfo)
                  (TotalCurrentlyExecutingCount counterInfo));
  _ ← put_part (NewOutputCollector (StateOutputs previous));
  put_part NewContinueAsNewer.

(** The set-up until the components exist: the error to return, if any. *)
Definition setup (fuel : nat) (input : InterpreterWorkflowInput) : wprog (option (option error)) :=
  gv ← NewGlobalVersioner;
  _ ← put_part gv;
  err ← UpsertGlobalVersionSearchAttribute gv;
  match err with
  | Some e => mret (Some (Some e))
  | None =>
      err ← (if negb (GetDisableSystemSearchAttribute (in_Config input))
                && negb (IsAfterVersionOfOptimizedUpsertSearchAttribute gv)
             then call (UpsertSearchAttributes
                          {[ SearchAttributeIwfWorkflowType := IString (in_IwfWorkflowType input) ]})
             else mret None : wprog (option error));
      match err with
      | Some e => mret (Some (Some e))
      | None =>
          _ ← put_part (NewWorkflowConfiger (in_Config input));
          if in_IsResumeFromContinueAsNew input then
            canInput ← lift_gores (deref (in_ContinueAsNewInput input));
            r ← LoadInternalsFromPreviousRun unmarshal fuel dumpConfig
                  (PreviousInternalRunId canInput)
                  (GetContinueAsNewPageSizeInBytes (in_Config input));
            match r with
            | None => mret None
            | Some (inr e) => mret (Some (Some e))
            | Some (inl previous) => _ ← init_resumed fuel input previous; mret (Some None)
            end
          else _ ← init_new fuel input; mret (Some None)
      end
  end.

(** The starting state, in a run that is not a continuation. *)
Definition start_first_state (input : InterpreterWorkflowInput) (basicInfo : BasicInfo) : wprog unit :=
  if in_IsResumeFromContinueAsNew input then mret tt
  else
    info ← call GetWorkflowInfo;
    _ ← emit_event WORKFLOW_START_EVENT basicInfo None None
          (Some (UnixMilli (WorkflowStartTime info))) false None;
    match in_StartStateId input with
    | Some stateId =>
        mod_part (AddStateStartRequests
          [mkStateMovement stateId (in_StateInput input) (in_StateOptions input) None])
    | None => mret tt
    end.

(** From the first state to the result, with the deferred clearing; [None] when [fuel]
    ran out. *)
Definition run_to_end (fuel : nat) (input : InterpreterWorkflowInput) (basicInfo : BasicInfo) :
  wprog (option interpreter_result) :=
  _ ← start_first_state input basicInfo;
  r ← main_loop fuel input basicInfo;
  res ← (match r with
         | None => mret None
         | Some (Some res) => mret (Some res)
         | Some None =>
             s ← Get Done;
             mret (Some (workflow_outputs (w_outputs s), errToFailWf (w_vars s)))
         end : wprog (option interpreter_result));
  (* deferred *)
  _ ← ClearExecutingStateIdsSearchAttributeFinally;
  mret res.

(** Everything but the deferred event. *)
Definition interpreter_body (fuel : nat) (input : InterpreterWorkflowInput) :
  wprog (option interpreter_result) :=
  let basicInfo := mkBasicInfo (in_IwfWorkflowType input) (in_IwfWorkerUrl input) in
  r ← setup fuel input;
  match r with
  | None => mret None
  | Some (Some e) => mret (Some (None, Some e))
  | Some None =>
      err ← NewWorkflowUpdater;
      match err with
      | Some e => mret (Some (None, Some e))
      | None =>
          err ← SetQueryHandlers;
          match err with
          | Some e => mret (Some (None, Some e))
          | None => run_to_end fuel input basicInfo
          end
      end
  end.

(** The deferred event of the workflow's result. *)
Definition emit_result_event (basicInfo : BasicInfo) (retErr : option error) : wprog unit :=
  info ← call GetWorkflowInfo;
  let started := Some (UnixMilli (WorkflowStartTime info)) in
  match retErr with
  | None => emit_event WORKFLOW_COMPLETE_EVENT basicInfo None None started true None
  | Some e =>
      if IsApplicationError e
      then emit_event WORKFLOW_FAIL_EVENT basicInfo None None started true (Some e)
      else mret tt
  end.

Definition InterpreterImpl (fuel : nat) (input : InterpreterWorkflowInput) :
  wprog (option interpreter_result) :=
  let basicInfo := mkBasicInfo (in_IwfWorkflowType input) (in_IwfWorkerUrl input) in
  r ← interpreter_body fuel input;
  match r with
  | None => mret None
  | Some res => _ ← emit_result_event basicInfo (snd res); mret (Some res)
  end.

End interpreter.

(** ** The two small workflows *)

Definition WaitForStateCompletionWorkflowImpl {St} : prog St StateCompletionOutput :=
  call (ReceiveBlocking SigCompletion StateCompletionSignalChannelName).

Definition BlobStoreCleanup {St} (storeId : string) : prog St (option error) :=
  let activityOptions :=
    mkActivityOptions (24 * 3600 * SecondNs) 0
      (Some (mkRetryPolicy None None None (Some 10%Z) None)) in
  call (ExecuteCleanupBlobStore activityOptions storeId).

(** ** When a workflow may complete *)

(** The workflow may return without error: it is forced to complete, or a state
    asked for graceful completion and no request is left in the queue. *)
Definition may_complete (s : WorkflowState) : Prop :=
  forceCompleteWf (w_vars s) = true \/
  (shouldGracefulComplete (w_vars s) = true /\ queue (w_queue s) = []).

Definition completes (r : interpreter_result) : Prop := snd r = None.

Lemma IsEmpty_nil srq : IsEmpty srq = true <-> queue srq = [].
Proof. unfold IsEmpty. by rewrite Z.eqb_eq, len_nil_iff. Qed.

Lemma inner_iteration_wlp fuel input bi s :
  wlp (inner_iteration fuel input bi)
    (fun r s' => forall res, r = Some (LoopReturn res) -> completes res -> may_complete s') s.
Proof.
  unfold inner_iteration. apply wlp_any. intros s1 s1'. apply wlp_any. intros [e|] s2.
  { intros res [= <-] Hc. by cbn in Hc. }
  apply wlp_any. intros u3 s3. apply wlp_any. intros aw s4. apply wlp_any. intros s5 s5'.
  apply wlp_any. intros u6 s6. apply wlp_any. intros s7 s7'. apply wlp_any. intros aw8 s8. cbn.
  destruct (errToFailWf (w_vars s8)) as [e|] eqn:Ee; cbn.
  { intros res [= <-] Hc. by cbn in Hc. }
  destruct (forceCompleteWf (w_vars s8)) eqn:Ef; [intros res [= <-] _; by left|].
  destruct aw8 as [e|]; [by intros res [=]|].
  destruct (threshold_met s8); by intros res [=].
Qed.

Lemma inner_loop_wlp fuel input bi s :
  wlp (inner_loop fuel input bi)
    (fun r s' => forall res, r = Some (LoopReturn res) -> completes res -> may_complete s') s.
Proof.
  revert s. induction fuel as [|fuel IH]; intros s; cbn [inner_loop]; [by intros res [=]|].
  apply wlp_any. intros srq s1. destruct (IsEmpty srq); [by intros res [=]|].
  apply wlp_bind. eapply wlp_mono; [|apply inner_iteration_wlp].
  intros [e|] s2 H; [|apply IH]. exact H.
Qed.

Lemma continue_as_new_wlp fuel input s :
  wlp (continue_as_new fuel input)
    (fun r s' => match r with
       | Some res => completes res -> may_complete s'
       | None => is_set (errToFailWf (w_vars s')) = true \/ may_complete s'
       end) s.
Proof.
  unfold continue_as_new. apply wlp_any. intros [e|] s1; [left; by destruct s1|].
  apply wlp_any. intros u s2. cbn.
  unfold IsFailWorkflowRequested. destruct (failWorkflowByClient (w_signals s2)); [done|].
  destruct (IsEmpty (w_queue s2)) eqn:E1; cbn; [|intros ?? Hc; discriminate Hc].
  destruct (negb (HasAnyStateExecutionToResume (w_newer s2))); cbn; [|intros ?? Hc; discriminate Hc].
  destruct (shouldGracefulComplete (w_vars s2)) eqn:E2; cbn; [|intros ?? Hc; discriminate Hc].
  right. right. by apply IsEmpty_nil in E1.
Qed.

Lemma main_loop_wlp fuel input bi s :
  wlp (main_loop fuel input bi)
    (fun r s' => match r with
       | None => True
       | Some (Some res) => completes res -> may_complete s'
       | Some None => is_set (errToFailWf (w_vars s')) = true \/ may_complete s'
       end) s.
Proof.
  revert s. induction fuel as [|fuel IH]; intros s; cbn [main_loop]; [done|].
  apply wlp_any. intros [e|] s1; [done|]. apply (wlp_bind (Get Done)). cbn -[inner_loop].
  unfold IsFailWorkflowRequested. destruct (failWorkflowByClient (w_signals s1)); [done|].
  destruct (shouldGracefulComplete (w_vars s1) && IsEmpty (w_queue s1)) eqn:Eg.
  { apply andb_true_iff in Eg as [Eg Ee]. right. right. by apply IsEmpty_nil in Ee. }
  apply wlp_bind. eapply wlp_mono; [|apply inner_loop_wlp].
  intros [[|res]|] s2 Hr; cbn -[main_loop continue_as_new]; [| intros Hc; by eapply Hr | done].
  destruct (threshold_met s2).
  - apply (wlp_bind (continue_as_new _ _)). eapply wlp_mono; [|apply continue_as_new_wlp].
    intros [res|] s3 H3; exact H3.
  - apply IH.
Qed.

(** Emitting events and the final clearing leave the state alone. *)
Lemma clear_pure s : pure_calls (ClearExecutingStateIdsSearchAttributeFinally : wprog unit) s.
Proof.
  unfold ClearExecutingStateIdsSearchAttributeFinally. cbn.
  destruct (_ && _ && _); [|done]. destruct (GetDisableSystemSearchAttribute _); cbn; auto.
Qed.

Lemma emit_event_pure ty bi sid exe st b e (s : WorkflowState) :
  pure_calls (emit_event ty bi sid exe st b e : wprog unit) s.
Proof.
  unfold emit_event. cbn. split; [done|]. intros []; cbn; [done|]. split; [done|]. intros info.
  destruct b; cbn; auto.
Qed.

Lemma emit_result_pure bi e s : pure_calls (emit_result_event bi e) s.
Proof.
  unfold emit_result_event. split; [done|]. intros info. cbn -[emit_event].
  destruct e as [e|]; [|apply emit_event_pure]. destruct (IsApplicationError e); [apply emit_event_pure | done].
Qed.

Lemma interpreter_body_wlp unmarshal dumpConfig fuel input s :
  wlp (interpreter_body unmarshal dumpConfig fuel input)
    (fun r s' => forall res, r = Some res -> completes res -> may_complete s') s.
Proof.
  unfold interpreter_body. apply wlp_any. intros [[e|]|] s1; [by intros res [= <-] | | done].
  apply wlp_any. intros [e|] s2; [by intros res [= <-]|].
  apply wlp_any. intros [e|] s3; [by intros res [= <-]|]. unfold run_to_end.
  apply wlp_any. intros u s4. apply wlp_bind. eapply wlp_mono; [|apply main_loop_wlp].
  intros r s5 H. apply wlp_bind.
  assert (forall (res : option interpreter_result),
    (forall x, res = Some x -> completes x -> may_complete s5) ->
    wlp (ClearExecutingStateIdsSearchAttributeFinally ≫= (fun _ : unit => mret res : wprog _))
      (fun r s' => forall x, r = Some x -> completes x -> may_complete s') s5) as Hk.
  { intros res Hres. apply wlp_pure; [apply clear_pure|]. intros _. exact Hres. }
  destruct r as [[res|]|]; cbn [mret]; apply Hk.
  - intros x [= <-]. exact H.
  - intros x [= <-] Hc. cbn in Hc. rewrite Hc in H. by destruct H.
  - by intros x [=].
Qed.

(** C1: whatever the other coroutines and the backend do, if the interpreter
    workflow returns without an error, then a state forced its completion, or
    graceful completion was requested and no state is left waiting in the request
    queue: it never completes over a state that still has to start. *)
Theorem interpreter_completion_safe unmarshal dumpConfig fuel input s out s' :
  rtc own_step (InterpreterImpl unmarshal dumpConfig fuel input, s) (Done (Some (out, None)), s') ->
  may_complete s'.
Proof.
  intros Hr. refine (wlp_sound (InterpreterImpl unmarshal dumpConfig fuel input)
    (fun r s' => forall res, r = Some res -> completes res -> may_complete s') s _ s' _ Hr _ eq_refl eq_refl).
  unfold InterpreterImpl. apply wlp_bind. eapply wlp_mono; [|apply interpreter_body_wlp].
  intros [res|] s1 H1; [|by intros res [=]].
  apply wlp_pure; [apply emit_result_pure|]. intros _ x [= <-] Hc. by eapply H1.
Qed.
