(* ===== verification/Exclusion.v ===== *)
(** * Attribute locks in every interleaving

    The coroutines of a run (the main loop, state executions with their command
    coroutines, RPC updates, signal handlers, the timer scheduler) divide the
    locked keys among themselves: each owns the keys it locked and unlocks no
    others, so no key is ever held twice and none stays locked when all have
    returned.  Cancelling a wait breaks this. *)

From S2P Require Import Interpreter Simulate.
From S2P Require Export Sharing.

(** ** Shares of the lock tables *)

(** The keys a coroutine holds: of data attributes and of search attributes. *)
Notation share := (gset string * gset string)%type.

Definition held (w : lock_map) (H : share) : gset string :=
  match w with DataLocks => H.1 | SearchLocks => H.2 end.
(** How many hold [k]. *)
Definition holders_of (w : lock_map) (k : string) (Hs : list share) : nat :=
  length (filter (fun H => k ∈ held w H) Hs).
Definition is_locked (w : lock_map) (k : string) (s : WorkflowState) : bool :=
  is_true_key (locked w (part s)) k.

(** Every locked key has exactly one holder and every other key has none. *)
Definition lock_owned (Hs : list share) (s : WorkflowState) : Prop :=
  forall w k, holders_of w k Hs = if is_locked w k s then 1%nat else 0%nat.

Lemma holders_of_cons w k H Hs :
  holders_of w k (H :: Hs) = ((if decide (k ∈ held w H) then 1 else 0) + holders_of w k Hs)%nat.
Proof. unfold holders_of. rewrite filter_cons. by case_decide. Qed.

#[export] Program Instance lock_shares : Shares WorkflowState providerE share := {|
  no_share := (∅, ∅);
  owned := lock_owned;
  permits _ _ _ := True
|}.
Next Obligation.
  intros Hs Hs' s Hp Ho w k. rewrite <- (Ho w k). unfold holders_of. by rewrite Hp.
Qed.
Next Obligation.
  intros Hs s Ho w k. rewrite holders_of_cons, <- (Ho w k).
  by destruct w; rewrite decide_False by (cbn; set_solver).
Qed.

(** Only the attribute manager matters. *)
Lemma owned_persistence (s s' : WorkflowState) Hs :
  (forall w k, is_locked w k s' = is_locked w k s) -> lock_owned Hs s -> lock_owned Hs s'.
Proof. intros Hl Ho w k. by rewrite Hl. Qed.

#[export] Hint Extern 1 (Apart _) =>
  (intros ? [] ?; apply owned_persistence; reflexivity) : typeclass_instances.

Lemma ks_persistence H (g : PersistenceManager -> PersistenceManager) :
  (forall am w, locked w (g am) = locked w am) -> keeps_share H (mod_part g : wprog unit).
Proof.
  intros Hg s Fs Ho. change (lock_owned (H :: Fs) (set_part (g (part s)) s)).
  eapply owned_persistence; [|exact Ho].
  intros w k. unfold is_locked. rewrite part_set. by rewrite Hg.
Qed.

(** ** Acquiring and releasing *)

Definition acquire (w : lock_map) (keys : list string) (H : share) : share :=
  match w with
  | DataLocks => (list_to_set keys ∪ H.1, H.2)
  | SearchLocks => (H.1, list_to_set keys ∪ H.2)
  end.

Definition eq_map (w w' : lock_map) : bool :=
  match w, w' with DataLocks, DataLocks | SearchLocks, SearchLocks => true | _, _ => false end.

Lemma is_locked_lock w keys s w' k :
  is_locked w' k (set_part (set_locked w (lockKeys (locked w (part s)) keys) (part s)) s) =
  (eq_map w w' && bool_decide (k ∈ keys)) || is_locked w' k s.
Proof.
  unfold is_locked. rewrite part_set.
  destruct w, w'; cbn [set_locked locked eq_map set_lockedSearch set_lockedData
    lockedSearchAttributeKeys lockedDataAttributesKeys]; try done; apply lockKeys_true.
Qed.

Lemma held_acquire w keys H w' k :
  k ∈ held w' (acquire w keys H) <-> (eq_map w w' = true /\ k ∈ keys) \/ k ∈ held w' H.
Proof. destruct w, w'; cbn; set_solver. Qed.

Lemma owned_acquire w keys H Fs s :
  checkKeysAreUnlocked (locked w (part s)) keys = true -> lock_owned (H :: Fs) s ->
  lock_owned (acquire w keys H :: Fs)
    (set_part (set_locked w (lockKeys (locked w (part s)) keys) (part s)) s).
Proof.
  intros Hc Ho w' k. rewrite checkKeysAreUnlocked_spec in Hc.
  pose proof (Ho w' k) as Hk. rewrite holders_of_cons in *. rewrite is_locked_lock.
  destruct (eq_map w w' && bool_decide (k ∈ keys)) eqn:E; cbn [orb].
  - apply andb_true_iff in E as [E Hin%bool_decide_eq_true].
    rewrite decide_True by (apply held_acquire; auto).
    assert (is_locked w' k s = false) as Hf by (by destruct w, w'; try done; apply Hc).
    rewrite Hf in Hk. lia.
  - rewrite <- Hk. f_equal. apply andb_false_iff in E.
    destruct (decide (k ∈ held w' H)) as [Hh|Hh].
    + by rewrite decide_True by (apply held_acquire; auto).
    + rewrite decide_False; [done|]. rewrite held_acquire. intros [[Ht Hin]|]; [|done].
      rewrite bool_decide_eq_false in E. destruct E; congruence.
Qed.

Lemma ends_await w keys H : ends_with H (awaitAndLockForKeys w keys : wprog unit) (acquire w keys H).
Proof.
  intros s Fs Ho. exists H. split; [done|]. intros s' Fs' Ho' Hc.
  by apply (owned_acquire w keys H Fs' s').
Qed.

Lemma acquire_nil w H : acquire w [] H = H.
Proof. destruct w, H; cbn; f_equal; set_solver. Qed.

(** The locking part of the Load functions. *)
Lemma ends_lock w policy H :
  ends_with H
    (match policy with
     | Some p => if needs_lock (GetPersistenceLoadingType p)
                 then awaitAndLockForKeys w (LockingKeys p) else mret tt
     | None => mret tt
     end : wprog unit) (acquire w (locking_keys policy) H).
Proof.
  unfold locking_keys. destruct policy as [p|].
  - destruct (needs_lock _); [apply ends_await | rewrite acquire_nil; apply ks_ret].
  - rewrite acquire_nil. apply ks_ret.
Qed.

Lemma ends_LoadSearchAttributes policy H :
  ends_with H (LoadSearchAttributes policy : wprog _) (acquire SearchLocks (locking_keys policy) H).
Proof. eapply ends_bind; [apply ends_lock|]. intros _. ks_auto. Qed.

Lemma ends_LoadDataAttributes policy H :
  ends_with H (LoadDataAttributes policy : wprog _) (acquire DataLocks (locking_keys policy) H).
Proof. eapply ends_bind; [apply ends_lock|]. intros _. ks_auto. Qed.

(** The share between the Loads and the Unlock. *)
Definition both_locked (sa da : option PersistenceLoadingPolicy) : share :=
  acquire DataLocks (locking_keys da) (acquire SearchLocks (locking_keys sa) no_share).

Lemma held_both sa da w k :
  k ∈ held w (both_locked sa da) <-> k ∈ locking_keys (match w with DataLocks => da | SearchLocks => sa end).
Proof. destruct w; cbn; set_solver. Qed.

Lemma is_locked_unlock sa da s w k :
  is_locked w k (set_part (UnlockPersistence sa da (part s)) s) =
  negb (bool_decide (k ∈ held w (both_locked sa da))) && is_locked w k s.
Proof.
  unfold is_locked. rewrite part_set, (bool_decide_ext _ _ (held_both sa da w k)).
  destruct (UnlockPersistence_tables sa da (part s)) as [Hs Hd].
  destruct w; cbn [locked]; rewrite ?Hs, ?Hd; apply unlockKeys_true.
Qed.

Lemma owned_release sa da Fs s :
  lock_owned (both_locked sa da :: Fs) s ->
  lock_owned (no_share :: Fs) (set_part (UnlockPersistence sa da (part s)) s).
Proof.
  intros Ho w k. specialize (Ho w k). rewrite holders_of_cons in *. rewrite is_locked_unlock.
  rewrite (decide_False (P := k ∈ held w no_share)) by (destruct w; cbn; set_solver).
  case_decide as Hk.
  - rewrite bool_decide_true by done. cbn. destruct (is_locked w k s); lia.
  - rewrite bool_decide_false by done. cbn. done.
Qed.

Lemma ends_unlock sa da :
  ends_with (both_locked sa da) (mod_part (UnlockPersistence sa da) : wprog unit) no_share.
Proof. intros s Fs Ho. apply (owned_release sa da Fs s Ho). Qed.

(** ** The programs of the interpreter *)

Lemma ks_upsert_search H l : keeps_share H (ProcessUpsertSearchAttribute l : wprog _).
Proof. unfold ProcessUpsertSearchAttribute. ks_auto. by apply ks_persistence; intros ? []. Qed.
Lemma ks_upsert_data H l : keeps_share H (ProcessUpsertDataAttribute l : wprog _).
Proof. unfold ProcessUpsertDataAttribute. ks_auto. by apply ks_persistence; intros ? []. Qed.
Lemma ks_emit_event H ty bi sid exe st b e : keeps_share H (emit_event ty bi sid exe st b e : wprog _).
Proof. unfold emit_event. ks_auto. Qed.
Lemma ks_signal_completion H state ctx : keeps_share H (signal_completion state ctx : wprog _).
Proof. unfold signal_completion, signalWithStart. ks_auto. Qed.
#[export] Hint Resolve ks_upsert_search ks_upsert_data ks_emit_event ks_signal_completion : shares.

Lemma ks_apply_decide_response H exe resp : keeps_share H (apply_decide_response exe resp : wprog _).
Proof. unfold apply_decide_response. ks_auto. Qed.
#[export] Hint Resolve ks_apply_decide_response : shares.

Lemma ks_invokeStateExecute bi state exe ctx res renamed locals send :
  keeps_share no_share (invokeStateExecute bi state exe ctx res renamed locals send : wprog _).
Proof.
  unfold invokeStateExecute. apply ks_bind; [ks_auto|intros start]. apply ks_bind; [ks_auto|intros _].
  apply ks_bind; [ks_auto|intros wc].
  eapply ends_bind; [apply ends_LoadSearchAttributes|intros sas].
  eapply ends_bind; [apply ends_LoadDataAttributes|intros das].
  apply ends_after; [by apply ks_call|intros r]. apply ends_after; [ks_auto|intros _].
  eapply ends_bind; [apply ends_unlock|intros _]. ks_auto.
Qed.

Lemma ks_invoke_wait_until bi state exe ctx renamed :
  keeps_share no_share (invoke_wait_until bi state exe ctx renamed : wprog _).
Proof.
  unfold invoke_wait_until. apply ks_bind; [ks_auto|intros start]. apply ks_bind; [ks_auto|intros _].
  apply ks_bind; [ks_auto|intros wc].
  eapply ends_bind; [apply ends_LoadSearchAttributes|intros sas].
  eapply ends_bind; [apply ends_LoadDataAttributes|intros das].
  apply ends_after; [apply ks_get_part|intros am].
  apply ends_after; [by apply ks_call|intros r]. apply ends_after; [ks_auto|intros _].
  eapply ends_bind; [apply ends_unlock|intros _]. ks_auto.
Qed.
#[export] Hint Resolve ks_invokeStateExecute ks_invoke_wait_until : shares.

Lemma ks_WaitForTimer H exe idx c : keeps_share H (WaitForTimerFiredOrSkipped exe idx c : wprog _).
Proof. unfold WaitForTimerFiredOrSkipped, simple_wait, greedy_wait. ks_auto. Qed.
#[export] Hint Resolve ks_WaitForTimer : shares.

Lemma ks_start_commands H exe req cell : keeps_share H (start_commands exe req cell : wprog _).
Proof.
  unfold start_commands, start_command_threads, get_completed, timer_thread, signal_thread,
    interstate_thread. ks_auto.
Qed.
Lemma ks_await_commands H req cell : keeps_share H (await_commands req cell : wprog _).
Proof. unfold await_commands. ks_auto. Qed.
#[export] Hint Resolve ks_start_commands ks_await_commands : shares.

Lemma ks_process_commands bi state exe ctx renamed req locals e cell send :
  keeps_share no_share (process_commands bi state exe ctx renamed req locals e cell send : wprog _).
Proof. unfold process_commands, get_completed. ks_auto. Qed.
#[export] Hint Resolve ks_process_commands : shares.

Lemma ks_processStateExecution bi req exe send :
  keeps_share no_share (processStateExecution bi req exe send : wprog _).
Proof. unfold processStateExecution. ks_auto. Qed.
#[export] Hint Resolve ks_processStateExecution : shares.

(** *** Signals, counting, closing, the main loop *)

Lemma ks_receive_all {T} H fuel (ty : sigty T) name (process : T -> wprog unit) :
  (forall v, keeps_share H (process v)) -> keeps_share H (receive_all fuel ty name process).
Proof. intros Hp. induction fuel as [|fuel IH]; cbn [receive_all]; ks_auto; auto. Qed.
Lemma ks_process_rpc H v : keeps_share H (process_rpc v : wprog _).
Proof. unfold process_rpc. ks_auto. Qed.
#[export] Hint Resolve ks_receive_all ks_process_rpc : shares.

Lemma ks_drain H fuel : keeps_share H (DrainAllReceivedButUnprocessedSignals fuel : wprog _).
Proof.
  unfold DrainAllReceivedButUnprocessedSignals, drain_signal, receiveSignal, process_skip_timer,
    process_update_config, process_fail. ks_auto; apply ks_receive_all; intros v; ks_auto.
Qed.
#[export] Hint Resolve ks_drain : shares.

Lemma ks_system_handler {T} fuel (ty : sigty T) name (process : T -> wprog unit) H :
  (forall v, keeps_share H (process v)) -> keeps_share H (system_signal_handler fuel ty name process).
Proof.
  intros Hp. induction fuel as [|fuel IH]; cbn [system_signal_handler]; ks_auto; auto.
Qed.

Lemma ks_channel_coroutine t : channel_coroutine t -> keeps_share no_share (t : wprog unit).
Proof.
  intros [cell idx cmd name|cell idx cmd name|fuel|fuel|fuel| |fuel|fuel].
  - unfold signal_thread. ks_auto.
  - unfold interstate_thread. ks_auto.
  - apply ks_system_handler. intros v. apply ks_mod_part.
  - apply ks_system_handler. intros v. apply ks_mod_part.
  - apply ks_system_handler. intros v. apply ks_mod_part.
  - unfold trigger_continue_as_new_handler. ks_auto.
  - apply ks_system_handler. intros v. apply ks_process_rpc.
  - induction fuel as [|fuel IH]; cbn [user_signal_handler]; ks_auto.
    apply ks_receive_all. intros v. ks_auto.
Qed.

Lemma ks_greedy_scheduler fuel : keeps_share no_share (greedy_timer_scheduler fuel : wprog unit).
Proof. induction fuel as [|fuel IH]; cbn [greedy_timer_scheduler]; unfold prune; ks_auto. Qed.

Lemma ks_MarkExecuting H l : keeps_share H (MarkStateIdExecutingIfNotYet l : wprog _).
Proof. unfold MarkStateIdExecutingIfNotYet, refreshIwfExecutingStateIdSearchAttribute. ks_auto. Qed.
Lemma ks_MarkCompleted H s l : keeps_share H (MarkStateExecutionCompleted s l : wprog _).
Proof. unfold MarkStateExecutionCompleted, refreshIwfExecutingStateIdSearchAttribute. ks_auto. Qed.
Lemma ks_checkClosing H fuel d id exe : keeps_share H (checkClosingWorkflow fuel d id exe : wprog _).
Proof. unfold checkClosingWorkflow, DrainReceivedButUnprocessedInternalChannelsFromStateApis. ks_auto. Qed.
Lemma ks_apply_closing H r : keeps_share H (apply_closing r).
Proof. unfold apply_closing. ks_auto. Qed.
#[export] Hint Resolve ks_MarkExecuting ks_MarkCompleted ks_checkClosing ks_apply_closing : shares.

(** A state execution starts with reading its request. *)
Lemma may_start_state {R} `{!Shares WorkflowState providerE R} (H : R) fuel input bi req :
  may_start (state_execution_thread fuel input bi req) H.
Proof. unfold state_execution_thread. by destruct (IsResumeRequest req). Qed.
#[export] Hint Resolve may_start_state : shares.

Lemma ks_state_execution fuel input bi req : keeps_share no_share (state_execution_thread fuel input bi req).
Proof. unfold state_execution_thread, mark_completed_or_fail. ks_auto. Qed.
#[export] Hint Resolve ks_state_execution : shares.

Lemma ks_inner_loop fuel input bi : keeps_share no_share (inner_loop fuel input bi).
Proof.
  induction fuel as [|fuel IH]; cbn [inner_loop]; unfold inner_iteration, DrainThreads; ks_auto.
Qed.
#[export] Hint Resolve ks_inner_loop : shares.

Lemma ks_main_loop fuel input bi : keeps_share no_share (main_loop fuel input bi).
Proof.
  induction fuel as [|fuel IH]; cbn [main_loop]; unfold continue_as_new, DrainThreads; ks_auto.
Qed.

Lemma ks_updater_body bi info input : keeps_share no_share (updater_handler_body bi info input : wprog _).
Proof.
  unfold updater_handler_body.
  eapply ends_bind; [apply ends_LoadDataAttributes|intros das].
  eapply ends_bind; [apply ends_LoadSearchAttributes|intros sas].
  do 4 (apply ends_after; [apply ks_get_part|intros ?]). apply ends_after; [ks_auto|intros r].
  eapply ends_bind; [apply ends_unlock|intros _]. unfold apply_rpc_output. ks_auto.
Qed.
#[export] Hint Resolve ks_updater_body : shares.

Lemma ks_updater bi input : keeps_share no_share (updater_handler bi input : wprog _).
Proof. unfold updater_handler, emit_rpc_event. ks_auto. Qed.

(** ** Exclusion in every interleaving *)

(** An RPC update, which arrives at any time. *)
Inductive update_coroutine : wprog unit -> Prop :=
| uc_update bi input : update_coroutine (_ ← updater_handler bi input; mret tt).

(** The coroutines of a run once it is set up: its main loop, any number of state
    executions and of RPC updates, the signal handlers and command coroutines, and
    the timer scheduler. *)
Inductive workflow_coroutine : wprog unit -> Prop :=
| wc_main fuel input bi : workflow_coroutine (_ ← main_loop fuel input bi; mret tt)
| wc_state fuel input bi req : workflow_coroutine (state_execution_thread fuel input bi req)
| wc_update t : update_coroutine t -> workflow_coroutine t
| wc_channel t : channel_coroutine t -> workflow_coroutine t
| wc_timers fuel : workflow_coroutine (greedy_timer_scheduler fuel).

Lemma ks_update t : update_coroutine t -> keeps_share no_share t.
Proof. intros [bi input]. apply ks_bind; [apply ks_updater | intros; apply ks_ret]. Qed.

Lemma may_start_workflow {R} `{!Shares WorkflowState providerE R} t :
  (forall T (ty : sigty T) n, permits _ (ReceiveAsync ty n) (no_share (R := R))) ->
  permits _ GetUnhandledSignalNames (no_share (R := R)) -> permits _ Now (no_share (R := R)) ->
  workflow_coroutine t -> may_start t (no_share (R := R)).
Proof.
  intros Hr Hn Hnow Ht. destruct Ht as [fuel input bi|fuel input bi req|t [bi input]|t Ht|fuel].
  - by destruct fuel.
  - apply may_start_state.
  - done.
  - destruct Ht as [cell idx cmd name|cell idx cmd name|[|fuel]|[|fuel]|[|fuel]| |[|fuel]|[|fuel]];
      done || apply Hr || exact Hn.
  - destruct fuel; [done | exact Hnow].
Qed.

Lemma workflow_coroutine_arrives t : workflow_coroutine t -> arriving t.
Proof.
  intros Ht. split; [by apply may_start_workflow|]. apply ks_starts. destruct Ht.
  - apply ks_bind; [apply ks_main_loop | intros; apply ks_ret].
  - apply ks_state_execution.
  - by apply ks_update.
  - by apply ks_channel_coroutine.
  - apply ks_greedy_scheduler.
Qed.

(** The keys that two of the holders share. *)
Lemma lock_owned_disjoint Hs s i j Hi Hj w :
  lock_owned Hs s -> Hs !! i = Some Hi -> Hs !! j = Some Hj -> i <> j -> held w Hi ## held w Hj.
Proof.
  intros Ho Hsi Hsj Hij k Hk1 Hk2. specialize (Ho w k).
  assert (2 <= holders_of w k Hs)%nat as H2; [|destruct (is_locked w k s); lia].
  clear Ho. revert i j Hsi Hsj Hij. induction Hs as [|H Hs IH]; intros i j Hsi Hsj Hij; [done|].
  assert (forall i Hi, Hs !! i = Some Hi -> k ∈ held w Hi -> (1 <= holders_of w k Hs)%nat) as H1.
  { intros i' Hi' Hl Hin. unfold holders_of.
    assert (Hi' ∈ filter (fun H => k ∈ held w H) Hs) as Hf
      by (apply list_elem_of_filter; split; [done | by eapply list_elem_of_lookup_2]).
    destruct (filter _ Hs); [by apply elem_of_nil in Hf | cbn; lia]. }
  rewrite holders_of_cons. destruct i as [|i], j as [|j]; cbn in *; simplify_eq.
  - rewrite decide_True by done. specialize (H1 _ _ Hsj Hk2). lia.
  - rewrite decide_True by done. specialize (H1 _ _ Hsi Hk1). lia.
  - specialize (IH i j Hsi Hsj ltac:(congruence)). lia.
Qed.

(** C3: in every interleaving of the coroutines of a run and of the RPC updates that
    arrive, as long as no wait is cancelled, the locked keys are divided among the coroutines: whenever the
    running one is at a yield, each coroutine has a set of keys that it keeps
    through the yield and unlocks itself ([holds]), the sets of two coroutines are
    disjoint, a key is locked exactly when it is in one of them, and a coroutine
    that has returned has none.  So a key is never held twice, and when all have
    returned nothing is locked. *)
Theorem locks_exclusive_interleaved ts (s : WorkflowState) p :
  Forall workflow_coroutine ts -> (forall w k, is_locked w k s = false) ->
  rtc (calm_step update_coroutine) (mkPool (Done tt) ts s) p -> at_yield (active p) = true ->
  (exists Hs, Forall2 holds (active p :: waiting p) Hs /\
    (forall i j Hi Hj w, Hs !! i = Some Hi -> Hs !! j = Some Hj -> i <> j -> held w Hi ## held w Hj) /\
    (forall w k, is_locked w k (shared p) = true <-> exists H, H ∈ Hs /\ k ∈ held w H)) /\
  (Forall (fun t => t = Done tt) (active p :: waiting p) -> forall w k, is_locked w k (shared p) = false).
Proof.
  intros Hts Hs0 Hr Hy. destruct (pool_shares_none update_coroutine) with (ts := ts) (s := s) (p := p)
    as (Hs & Hh & Ho); [| | |done|done|].
  { intros t Ht. by apply workflow_coroutine_arrives, wc_update. }
  { eapply Forall_impl; [exact Hts | apply workflow_coroutine_arrives]. }
  { intros w k. by rewrite Hs0. }
  assert (forall w k, is_locked w k (shared p) = true <-> exists H, H ∈ Hs /\ k ∈ held w H) as Hl.
  { intros w k. specialize (Ho w k). unfold holders_of in Ho. split.
    - intros Ht. rewrite Ht in Ho. destruct (filter _ Hs) as [|H l] eqn:E; [done|].
      assert (H ∈ filter (fun H => k ∈ held w H) Hs) as Hf by (rewrite E; left).
      apply list_elem_of_filter in Hf as [Hk Hin]. by exists H.
    - intros (H & Hin & Hk). destruct (is_locked w k (shared p)); [done|].
      assert (H ∈ filter (fun H => k ∈ held w H) Hs) as Hf by (by apply list_elem_of_filter).
      destruct (filter _ Hs); [by apply elem_of_nil in Hf | done]. }
  split.
  - exists Hs. split_and!; [done | | done]. intros. by eapply lock_owned_disjoint.
  - intros Hd w k. apply not_true_is_false. intros (H & Hin & Hk)%Hl.
    apply list_elem_of_lookup in Hin as [i Hi].
    destruct (Forall2_lookup_r _ _ _ _ _ Hh Hi) as (t & Ht & Hht).
    eapply Forall_lookup_1 in Hd; [|exact Ht]. cbn in Hd. subst t. cbn in Hht. subst H.
    destruct w; cbn in Hk; set_solver.
Qed.
