(* ===== verification/Completion.v ===== *)
(** * A workflow completes only when its states have

    The interpreter counts the state executions that run
    ([totalCurrentlyExecutingCount]) and completes gracefully when the count is zero
    and the queue is empty.  In every interleaving without cancelled waits the count
    is never below the number of executions that run: each state execution owns one,
    from the moment the main loop takes its request to its completion, and only who
    owns one calls the worker's state APIs. *)

From S2P Require Export Interpreter Exclusion.

(** ** Shares of the count *)

(** How many executions a coroutine accounts for; an upper bound for all of them
    together, which only the main loop has; whether it knows that completion was
    forced. *)
Record exec_share : Type := mkShare { running : nat; limit : option nat; forced : bool }.

Definition all_running (Hs : list exec_share) : nat := sum_list (map running Hs).
Definition limits (Hs : list exec_share) : list nat := omap limit Hs.
(** One coroutine has a bound at most. *)
Definition within_limits (n : nat) (ls : list nat) : Prop :=
  match ls with [] => True | [m] => (n <= m)%nat | _ => False end.
Definition knows_forced (s : WorkflowState) (H : exec_share) : Prop :=
  forced H = true -> forceCompleteWf (w_vars s) = true.

(** Resume requests in the queue are executions of the previous run, already counted. *)
Definition resuming (s : WorkflowState) : Z := len (resume_requests (queue (w_queue s))).

Definition count_covers (Hs : list exec_share) (s : WorkflowState) : Prop :=
  (Z.of_nat (all_running Hs) + resuming s <= totalCurrentlyExecutingCount (w_counter s))%Z /\
  within_limits (all_running Hs) (limits Hs) /\ Forall (knows_forced s) Hs.

(** The state APIs are for who accounts for an execution, the event of completion for
    who knows that none runs or that completion was forced.  No coroutine sleeps:
    sleeping is for who only keeps the knowledge that none runs. *)
Definition count_permits X (e : providerE X) (H : exec_share) : Prop :=
  match e with
  | ExecuteStateStart _ _ _ _ _ | ExecuteStateDecide _ _ _ _ => (0 < running H)%nat
  | HandleEvent ev =>
      ev_EventType ev = WORKFLOW_COMPLETE_EVENT -> limit H = Some 0%nat \/ forced H = true
  | Sleep _ => limit H = Some 0%nat
  | _ => True
  end.

Lemma all_running_perm Hs Hs' : Hs ≡ₚ Hs' -> all_running Hs = all_running Hs'.
Proof. unfold all_running. by intros ->. Qed.
Lemma within_limits_perm n ls ls' : ls ≡ₚ ls' -> within_limits n ls -> within_limits n ls'.
Proof.
  intros Hp. destruct ls as [|m [|m' ls]]; [| |done].
  - by apply Permutation_nil_l in Hp as <-.
  - by apply Permutation_singleton_l in Hp as <-.
Qed.
Lemma within_limits_mono n n' ls : (n' <= n)%nat -> within_limits n ls -> within_limits n' ls.
Proof. destruct ls as [|m [|m' ls]]; cbn; lia || done. Qed.

Lemma all_running_cons H Hs : all_running (H :: Hs) = (running H + all_running Hs)%nat.
Proof. done. Qed.
Lemma all_running_none Hs : Forall (fun H => H = mkShare 0 None false) Hs -> all_running Hs = 0%nat.
Proof. induction 1 as [|H Hs -> _ IH]; [done | exact IH]. Qed.

#[export] Program Instance count_shares : Shares WorkflowState providerE exec_share := {|
  no_share := mkShare 0 None false;
  owned := count_covers;
  permits := count_permits
|}.
Next Obligation.
  intros Hs Hs' s Hp (Ht & Hl & Hf). unfold count_covers. rewrite <- (all_running_perm Hs Hs') by done.
  split_and!; [done | | by rewrite <- Hp]. eapply within_limits_perm; [|exact Hl]. unfold limits. by rewrite Hp.
Qed.
Next Obligation.
  intros Hs s (Ht & Hl & Hf). split_and!; [exact Ht | exact Hl | by constructor].
Qed.

(** Only these parts matter. *)
Lemma covers_same Hs s s' :
  w_queue s' = w_queue s -> totalCurrentlyExecutingCount (w_counter s') = totalCurrentlyExecutingCount (w_counter s) ->
  forceCompleteWf (w_vars s') = forceCompleteWf (w_vars s) -> count_covers Hs s -> count_covers Hs s'.
Proof. unfold count_covers, resuming, knows_forced. by intros -> -> ->. Qed.
#[export] Hint Extern 1 (Apart _) =>
  (intros ? [] ?; apply covers_same; reflexivity) : typeclass_instances.

(** A better bound. *)
Local Notation main_share n L := (mkShare n (Some L) false).
Lemma covers_bound n L L' Fs s :
  count_covers (main_share n L :: Fs) s -> (n + all_running Fs <= L')%nat -> count_covers (main_share n L' :: Fs) s.
Proof.
  intros (Ht & Hl & Hf) Hn. unfold count_covers, limits in *. rewrite all_running_cons in *. cbn in *.
  split_and!; [done | by destruct (omap limit Fs) |]. apply Forall_cons in Hf as [_ Hf]. by constructor.
Qed.

(** Accounting for less. *)
Lemma covers_drop H Fs s : count_covers (H :: Fs) s -> count_covers (mkShare 0 None false :: Fs) s.
Proof.
  intros (Ht & Hl & Hf). apply Forall_cons in Hf as [_ Hf].
  unfold count_covers, limits in *. rewrite !all_running_cons in *. cbn in *. split_and!.
  - lia.
  - destruct (limit H) as [m|].
    + destruct (omap limit Fs); [done | done].
    + eapply within_limits_mono; [|exact Hl]. lia.
  - by constructor.
Qed.

(** ** Changes of the parts that matter *)

Lemma counts_vars H (g : RunVars -> RunVars) :
  (forall v, forceCompleteWf v = true -> forceCompleteWf (g v) = true) -> keeps_share H (mod_part g : wprog unit).
Proof.
  intros Hg s Fs (Ht & Hl & Hf). cbn [act mod_part]. unfold owned, count_shares. destruct s. split_and!; [exact Ht | exact Hl |].
  eapply Forall_impl; [exact Hf|]. intros H' Hk E. apply Hg, (Hk E).
Qed.
Lemma counts_queue H (g : StateRequestQueue -> StateRequestQueue) :
  (forall q, resume_requests (queue (g q)) = resume_requests (queue q)) -> keeps_share H (mod_part g : wprog unit).
Proof.
  intros Hg s Fs (Ht & Hl & Hf). cbn [act mod_part]. unfold owned, count_shares. destruct s.
  split_and!; [|exact Hl | exact Hf]. unfold resuming in *. cbn in *. by rewrite Hg.
Qed.

Lemma counts_set_err H e : keeps_share H (mod_part (set_errToFailWf e) : wprog unit).
Proof. by apply counts_vars. Qed.
Lemma counts_set_graceful H : keeps_share H (mod_part set_graceful : wprog unit).
Proof. by apply counts_vars. Qed.
Lemma counts_set_force H : keeps_share H (mod_part set_forceComplete : wprog unit).
Proof. by apply counts_vars. Qed.
Lemma counts_add_starts H l : keeps_share H (mod_part (AddStateStartRequests l) : wprog unit).
Proof.
  apply counts_queue. intros q. by rewrite AddStateStartRequests_queue, resume_requests_app, resume_requests_map_start, app_nil_r.
Qed.
Lemma counts_add_single H id i o : keeps_share H (mod_part (AddSingleStateStartRequest id i o) : wprog unit).
Proof.
  apply counts_queue. intros q. unfold AddSingleStateStartRequest. cbn [queue]. by rewrite resume_requests_app, app_nil_r.
Qed.
Lemma counts_next_id H id : keeps_share H (run_part (fun e => Ret (CreateNextExecutionId id e)) : wprog string).
Proof. intros s Fs Ho. eapply covers_same; [..|exact Ho]; by destruct s. Qed.
#[export] Hint Resolve counts_set_err counts_set_graceful counts_set_force counts_add_starts counts_add_single counts_next_id : shares.

(** ** The programs of a state execution *)

Lemma counts_upsert_search H l : keeps_share H (ProcessUpsertSearchAttribute l : wprog _).
Proof. unfold ProcessUpsertSearchAttribute. ks_auto. Qed.
Lemma counts_upsert_data H l : keeps_share H (ProcessUpsertDataAttribute l : wprog _).
Proof. unfold ProcessUpsertDataAttribute. ks_auto. Qed.
Lemma counts_emit_event H ty bi sid exe st b e :
  ty <> WORKFLOW_COMPLETE_EVENT -> keeps_share H (emit_event ty bi sid exe st b e : wprog _).
Proof. intros Hty. unfold emit_event. ks_auto; apply ks_call; intros E; by destruct (Hty E). Qed.
Lemma counts_signal_completion H state ctx : keeps_share H (signal_completion state ctx : wprog _).
Proof. unfold signal_completion, signalWithStart. ks_auto. Qed.
Lemma counts_LoadSearchAttributes H policy : keeps_share H (LoadSearchAttributes policy : wprog _).
Proof. unfold LoadSearchAttributes, awaitAndLockForKeys. ks_auto. Qed.
Lemma counts_LoadDataAttributes H policy : keeps_share H (LoadDataAttributes policy : wprog _).
Proof. unfold LoadDataAttributes, awaitAndLockForKeys. ks_auto. Qed.
#[export] Hint Resolve counts_upsert_search counts_upsert_data counts_signal_completion counts_LoadSearchAttributes
  counts_LoadDataAttributes : shares.
#[export] Hint Extern 2 (keeps_share _ (emit_event _ _ _ _ _ _ _)) => (by apply counts_emit_event) : shares.
#[export] Hint Extern 2 (permits _ _ _) => (cbn; lia) : shares.

(** What a state execution accounts for while it runs. *)
Local Notation one := (mkShare 1 None false).
Local Notation none := (mkShare 0 None false).

Lemma counts_invokeStateExecute bi state exe ctx res renamed locals send :
  keeps_share one (invokeStateExecute bi state exe ctx res renamed locals send : wprog _).
Proof. unfold invokeStateExecute, apply_decide_response. ks_auto. Qed.
Lemma counts_invoke_wait_until bi state exe ctx renamed :
  keeps_share one (invoke_wait_until bi state exe ctx renamed : wprog _).
Proof. unfold invoke_wait_until. ks_auto. Qed.
Lemma counts_WaitForTimer H exe idx c : keeps_share H (WaitForTimerFiredOrSkipped exe idx c : wprog _).
Proof. unfold WaitForTimerFiredOrSkipped, simple_wait, greedy_wait. ks_auto. Qed.
#[export] Hint Resolve counts_invokeStateExecute counts_invoke_wait_until counts_WaitForTimer : shares.

Lemma counts_process_commands bi state exe ctx renamed req locals e cell send :
  keeps_share one (process_commands bi state exe ctx renamed req locals e cell send : wprog _).
Proof.
  unfold process_commands, start_commands, start_command_threads, await_commands, get_completed, timer_thread,
    signal_thread, interstate_thread. ks_auto.
Qed.
#[export] Hint Resolve counts_process_commands : shares.
Lemma counts_processStateExecution bi req exe send :
  keeps_share one (processStateExecution bi req exe send : wprog _).
Proof. unfold processStateExecution. ks_auto. Qed.
#[export] Hint Resolve counts_processStateExecution : shares.

Lemma counts_receive_all {T} H fuel (ty : sigty T) name (process : T -> wprog unit) :
  (forall v, keeps_share H (process v)) -> keeps_share H (receive_all fuel ty name process).
Proof. intros Hp. induction fuel as [|fuel IH]; cbn [receive_all]; ks_auto; auto. Qed.
Lemma counts_process_rpc H v : keeps_share H (process_rpc v : wprog _).
Proof. unfold process_rpc. ks_auto. Qed.
#[export] Hint Resolve counts_receive_all counts_process_rpc : shares.
Lemma counts_drain H fuel : keeps_share H (DrainAllReceivedButUnprocessedSignals fuel : wprog _).
Proof.
  unfold DrainAllReceivedButUnprocessedSignals, drain_signal, receiveSignal, process_skip_timer,
    process_update_config, process_fail. ks_auto; apply counts_receive_all; intros v; ks_auto.
Qed.
#[export] Hint Resolve counts_drain : shares.

Lemma counts_checkClosing H fuel d id exe : keeps_share H (checkClosingWorkflow fuel d id exe : wprog _).
Proof. unfold checkClosingWorkflow, DrainReceivedButUnprocessedInternalChannelsFromStateApis. ks_auto. Qed.
Lemma counts_apply_closing H r : keeps_share H (apply_closing r).
Proof. unfold apply_closing. ks_auto. Qed.
Lemma counts_refresh H : keeps_share H (refreshIwfExecutingStateIdSearchAttribute : wprog _).
Proof. unfold refreshIwfExecutingStateIdSearchAttribute. ks_auto. Qed.
#[export] Hint Resolve counts_checkClosing counts_apply_closing counts_refresh : shares.

(** ** Counting *)

Lemma mark_completed_total gv config state next e :
  totalCurrentlyExecutingCount (fst (mark_completed gv config state next e)) = (totalCurrentlyExecutingCount e - 1)%Z.
Proof.
  unfold mark_completed. destruct (IsAfterVersionOfExecutingStateIdMode gv).
  - destruct (GetExecutingStateIdMode config); try done; by destruct (skip_wait_until state).
  - by destruct (GetDisableSystemSearchAttribute config).
Qed.
Lemma mark_executing_total gv config reqs e :
  totalCurrentlyExecutingCount (fst (mark_executing gv config reqs e)) =
  (totalCurrentlyExecutingCount e + len (start_requests reqs))%Z.
Proof.
  unfold mark_executing.
  assert (forall e needs n, let '(e', _, n') := foldl (fun st sr => mark_executing_one gv config sr st) (e, needs, n) reqs in
    totalCurrentlyExecutingCount e' = totalCurrentlyExecutingCount e /\ n' = (n + len (start_requests reqs))%Z) as H.
  { induction reqs as [|sr reqs IH]; intros e0 needs n; cbn [foldl]; [split; [done | unfold len; cbn; lia]|].
    unfold mark_executing_one at 2, start_requests. cbn [omap list_omap]. destruct (IsResumeRequest sr); [apply IH|].
    pose proof (mark_track_spec gv config (GetStateStartRequest sr) e0 needs) as [He _].
    destruct (mark_track _ _ _ _ _) as [e1 needs1]. cbn [fst] in He. specialize (IH e1 needs1 (n + 1)%Z).
    destruct (foldl _ _ _) as [[e2 needs2] n2]. destruct IH as [-> ->]. rewrite len_cons. split; [|unfold start_requests; lia].
    subst e1. by destruct (tracked gv config _). }
  specialize (H e false 0%Z). destruct (foldl _ _ _) as [[e1 needs1] n1]. destruct H as [H1 H2]. cbn. lia.
Qed.

(** A new count, and what its owner accounts for after it. *)
Lemma act_count {A} (f : StateExecutionCounter -> StateExecutionCounter * bool) (k : bool -> wprog A) Q s Fs :
  (forall b, act (k b) Q (set_part (fst (f (w_counter s))) s) Fs) ->
  act (e ← get_part (P := StateExecutionCounter); let '(e', b) := f e in _ ← put_part e'; k b) Q s Fs.
Proof.
  intros Hk. unfold mbind, thread_mbind. cbn [get_part thread_bind act]. change (part s) with (w_counter s).
  destruct (f (w_counter s)) as [e' b] eqn:E. cbn [put_part thread_bind act]. apply Hk.
Qed.

Lemma covers_completed Fs s e :
  totalCurrentlyExecutingCount e = (totalCurrentlyExecutingCount (w_counter s) - 1)%Z ->
  count_covers (one :: Fs) s -> count_covers (none :: Fs) (set_part e s).
Proof.
  intros He (Ht & Hl & Hf). apply Forall_cons in Hf as [_ Hf]. destruct s. cbn in *.
  unfold count_covers, resuming, all_running in *. cbn in *. rewrite He. split_and!.
  - lia.
  - eapply within_limits_mono; [|exact Hl]. lia.
  - constructor; [done | exact Hf].
Qed.

Lemma ends_MarkCompleted state l :
  ends_with one (MarkStateExecutionCompleted state l : wprog _) none.
Proof.
  unfold MarkStateExecutionCompleted. apply ends_after; [ks_auto|intros wc]. apply ends_after; [ks_auto|intros gv].
  apply ends_after; [ks_auto|intros _]. intros s Fs Ho.
  apply (act_count _ (fun b => if b then refreshIwfExecutingStateIdSearchAttribute else mret None)). intros b.
  pose proof (covers_completed Fs s _
    (mark_completed_total gv (wc_Get wc) state l (w_counter s)) Ho) as Hc.
  destruct b; [by apply counts_refresh | exact Hc].
Qed.

Lemma ends_drop {A} H (t : wprog A) : keeps_share H t -> ends_with H t none.
Proof. intros Ht s Fs Ho. eapply act_mono; [|by apply Ht]. intros a s' Fs'. apply covers_drop. Qed.

Lemma ends_mark_completed state l : ends_with one (mark_completed_or_fail state l) none.
Proof.
  unfold mark_completed_or_fail. eapply ends_bind; [apply ends_MarkCompleted|]. intros [e|]; [apply counts_set_err | apply ks_ret].
Qed.

(** A state execution accounts for itself until it has completed or failed. *)
Lemma ends_state_execution fuel input bi req :
  ends_with one (state_execution_thread fuel input bi req) none.
Proof.
  unfold state_execution_thread. apply ends_after; [ks_auto|intros exe]. apply ends_after; [ks_auto|intros [[d status] err]].
  destruct err as [e|]; [by apply ends_drop, counts_set_err|].
  destruct status; try (by apply ends_drop, ks_ret).
  - apply ends_after; [ks_auto|intros r]. apply ends_after; [ks_auto|intros _].
    apply ends_after; [ks_auto|intros _]. apply ends_mark_completed.
  - apply ends_after; [ks_auto|intros _]. apply ends_mark_completed.
Qed.

(** ** The other coroutines *)

Lemma counts_system_handler {T} fuel (ty : sigty T) name (process : T -> wprog unit) H :
  (forall v, keeps_share H (process v)) -> keeps_share H (system_signal_handler fuel ty name process).
Proof. intros Hp. induction fuel as [|fuel IH]; cbn [system_signal_handler]; ks_auto; auto. Qed.

Lemma counts_channel_coroutine t : channel_coroutine t -> keeps_share none (t : wprog unit).
Proof.
  intros [cell idx cmd name|cell idx cmd name|fuel|fuel|fuel| |fuel|fuel].
  - unfold signal_thread. ks_auto.
  - unfold interstate_thread. ks_auto.
  - apply counts_system_handler. intros v. apply ks_mod_part.
  - apply counts_system_handler. intros v. apply ks_mod_part.
  - apply counts_system_handler. intros v. apply ks_mod_part.
  - unfold trigger_continue_as_new_handler. ks_auto.
  - apply counts_system_handler. intros v. apply counts_process_rpc.
  - induction fuel as [|fuel IH]; cbn [user_signal_handler]; ks_auto.
    apply counts_receive_all. intros v. ks_auto.
Qed.
Lemma counts_greedy_scheduler fuel : keeps_share none (greedy_timer_scheduler fuel : wprog unit).
Proof. induction fuel as [|fuel IH]; cbn [greedy_timer_scheduler]; unfold prune; ks_auto. Qed.
Lemma counts_updater bi input : keeps_share none (updater_handler bi input : wprog _).
Proof.
  unfold updater_handler, updater_handler_body, apply_rpc_output, emit_rpc_event. ks_auto; by apply ks_call.
Qed.

(** ** The main loop *)

(** The main loop accounts for the requests it took and has not started yet, and
    bounds what runs: by something, or by nothing. *)
Definition bounded (s : WorkflowState) (Fs : list exec_share) : Prop := exists L, count_covers (main_share 0 L :: Fs) s.
Definition idle (s : WorkflowState) (Fs : list exec_share) : Prop := count_covers (main_share 0 0 :: Fs) s.

Lemma idle_of_count s Fs :
  bounded s Fs -> totalCurrentlyExecutingCount (w_counter s) = 0%Z -> idle s Fs.
Proof.
  intros [L Hc] H0. pose proof Hc as (Ht & _). eapply covers_bound; [exact Hc|].
  unfold all_running, resuming in *. cbn in Ht. pose proof (len_nonneg (resume_requests (queue (w_queue s)))). lia.
Qed.
Lemma idle_of_alone s Fs : bounded s Fs -> alone 0 Fs -> idle s Fs.
Proof.
  intros [L Hc] Ha. eapply covers_bound; [exact Hc|]. rewrite all_running_none; [lia|]. by apply Ha.
Qed.
Lemma bounded_none s Fs : bounded s Fs -> count_covers (none :: Fs) s.
Proof. intros [L Hc]. by eapply covers_drop. Qed.
Lemma idle_bounded s Fs : idle s Fs -> bounded s Fs.
Proof. intros Hc. by exists 0%nat. Qed.

Lemma length_requests l : length l = (length (start_requests l) + length (resume_requests l))%nat.
Proof.
  induction l as [|r l IH]; [done|]. unfold start_requests, resume_requests in *. cbn.
  destruct (IsResumeRequest r); cbn; lia.
Qed.

(** Taking the queue and counting its requests. *)
Lemma act_take (take : bool) (s : WorkflowState) Fs :
  let reqs := if take then queue (w_queue s) else [] in
  bounded s Fs ->
  act (if take then _ ← run_part (fun srq : StateRequestQueue => Ret (TakeAll srq)); MarkStateIdExecutingIfNotYet reqs
       else mret None : wprog (option error))
    (fun _ s' Fs' => exists L, count_covers (main_share (length reqs) L :: Fs') s') s Fs.
Proof.
  intros reqs [L Hc]. destruct take; subst reqs; [|by exists L].
  set (reqs := queue (w_queue s)). unfold mbind, thread_mbind.
  cbn [run_part thread_bind act TakeAll]. unfold MarkStateIdExecutingIfNotYet, mbind, thread_mbind.
  cbn [get_part thread_bind act]. set (s1 := set_part (P := StateRequestQueue) _ s).
  apply (act_count _ (fun b => if b then refreshIwfExecutingStateIdSearchAttribute else mret None)). intros b.
  pose proof (mark_executing_total (w_versioner s1) (wc_Get (w_configer s1)) reqs (w_counter s1)) as He.
  destruct (mark_executing _ _ _ _) as [e' b']. cbn [fst] in *.
  assert (count_covers (main_share (length reqs) (L + length reqs) :: Fs) (set_part e' s1)) as Hc'.
  { destruct Hc as (Ht & Hl & Hf). apply Forall_cons in Hf as [_ Hf]. pose proof (length_requests reqs) as Hlen.
    unfold count_covers, resuming, all_running, limits in *. subst reqs s1. destruct s. cbn in *. split_and!.
    - rewrite He. unfold len in *. cbn in *. lia.
    - destruct (omap limit Fs); [|done]. cbn in *. lia.
    - constructor; [done | exact Hf]. }
  eapply act_mono; [|eapply (_ : keeps_share _ _), Hc'].
  - intros a s' Fs' Ho. by exists (L + length reqs)%nat.
  Unshelve. destruct b; [apply counts_refresh | apply ks_ret].
Qed.

(** Spawning hands each execution what it accounts for. *)
Lemma covers_spawn n L Fs s :
  count_covers (main_share (S n) L :: Fs) s -> count_covers (main_share n L :: Fs ++ [one]) s.
Proof.
  intros (Ht & Hl & Hf). apply Forall_cons in Hf as [_ Hf].
  unfold count_covers, all_running, limits in *. cbn in *. rewrite map_app, omap_app, sum_list_with_app. cbn. split_and!.
  - lia.
  - rewrite app_nil_r. destruct (omap limit Fs); [cbn in *; lia | done].
  - constructor; [done|]. apply Forall_app; split; [done|]. by constructor.
Qed.

Lemma act_spawn fuel input bi reqs s Fs L :
  count_covers (main_share (length reqs) L :: Fs) s ->
  act (for_each reqs (fun req => GoNamed (state_execution_thread fuel input bi req) (Done tt)) : wprog unit)
    (fun _ s' Fs' => bounded s' Fs') s Fs.
Proof.
  revert Fs. induction reqs as [|req reqs IH]; intros Fs Hc; [by exists L|].
  cbn [for_each thread_bind act]. exists one. split_and!; [apply may_start_state | |].
  - intros s' Fs' Ho. by apply ends_state_execution.
  - apply IH. by apply covers_spawn.
Qed.

(** Draining leaves no other coroutine, so nothing runs. *)
Lemma act_drain s Fs :
  bounded s Fs -> act (DrainThreads : wprog (option error)) (fun err s' Fs' => err = None /\ idle s' Fs') s Fs.
Proof.
  intros [L Hc]. unfold DrainThreads. cbn [act]. exists (main_share 0 L). split_and!; [done | exact Hc|].
  intros s' Fs' n x Ho Ha Hx Hok. cbn in Hx. subst n. apply andb_true_iff in Hok as [->%Z.eqb_eq _].
  cbn [act mret thread_ret]. split; [done|]. apply idle_of_alone; [by exists L | exact Ha].
Qed.

(** What is known when the workflow returns [r]. *)
Definition final_share (r : interpreter_result) : exec_share :=
  mkShare 0 None (negb (is_set (snd r))).
Definition ends_run (r : interpreter_result) (s : WorkflowState) (Fs : list exec_share) : Prop :=
  count_covers (final_share r :: Fs) s.

Lemma ends_run_error out e s Fs : bounded s Fs -> ends_run (out, Some e) s Fs.
Proof. intros Hb. by apply bounded_none. Qed.

Lemma ends_run_result s Fs :
  bounded s Fs -> is_set (errToFailWf (w_vars s)) || forceCompleteWf (w_vars s) = true ->
  ends_run (workflow_outputs (w_outputs s), errToFailWf (w_vars s)) s Fs.
Proof.
  intros Hb. unfold ends_run, final_share. cbn. destruct (errToFailWf (w_vars s)) as [e|]; cbn; intros Hf.
  - by apply bounded_none.
  - apply bounded_none in Hb as (Ht & Hl & Hk). split_and!; [exact Ht | exact Hl |].
    apply Forall_cons in Hk as [_ Hk]. constructor; [intros _; exact Hf | done].
Qed.

(** Between two iterations: either there are requests or nothing runs. *)
Definition goes_around (s : WorkflowState) (Fs : list exec_share) : Prop :=
  bounded s Fs /\ (queue (w_queue s) <> [] \/ idle s Fs).

Definition iteration_post (r : option loop_exit) (s : WorkflowState) (Fs : list exec_share) : Prop :=
  match r with
  | None => goes_around s Fs
  | Some LoopEnd => idle s Fs
  | Some (LoopReturn res) => ends_run res s Fs
  end.

(** The end of an iteration. *)
Lemma act_iteration_end s Fs :
  bounded s Fs ->
  (is_set (errToFailWf (w_vars s)) || forceCompleteWf (w_vars s) || threshold_met s = false -> goes_around s Fs) ->
  act (s ← Get Done;
       awaitError ← (if threshold_met s then
                       err ← DrainThreads;
                       mret (match err with Some e => Some e | None => None end)
                     else mret None : wprog (option error));
       s ← Get Done;
       if is_set (errToFailWf (w_vars s)) || forceCompleteWf (w_vars s)
       then mret (Some (LoopReturn (workflow_outputs (w_outputs s), errToFailWf (w_vars s))))
       else
         match awaitError with
         | Some e => _ ← mod_part (set_errToFailWf (Some e)); mret (Some LoopEnd)
         | None => if threshold_met s then mret (Some LoopEnd) else mret None
         end : wprog (option loop_exit))
    iteration_post s Fs.
Proof.
  intros Hb Hg. apply act_bind. cbn [act]. destruct (threshold_met s) eqn:Et.
  - apply act_bind. apply act_bind. eapply act_mono; [|by apply act_drain].
    clear. intros err s Fs [-> Hi]. cbn [act mret thread_ret]. apply act_bind. cbn [act].
    destruct (is_set _ || _) eqn:E; [exact (ends_run_result s Fs (idle_bounded _ _ Hi) E)|].
    destruct (threshold_met s); [exact Hi | exact (conj (idle_bounded _ _ Hi) (or_intror Hi))].
  - apply act_bind. cbn [act mret thread_ret]. apply act_bind. cbn [act].
    destruct (is_set _ || _) eqn:E; [exact (ends_run_result s Fs Hb E)|]. rewrite Et. exact (Hg eq_refl).
Qed.

Lemma bounded_vars g s Fs :
  (forall v, forceCompleteWf v = true -> forceCompleteWf (g v) = true) ->
  bounded s Fs -> bounded (set_part (g (w_vars s)) s) Fs.
Proof. intros Hg [L Hc]. exists L. by apply (counts_vars _ g Hg s Fs). Qed.

(** Why the inner loop woke up. *)
Lemma woken s Fs :
  bounded s Fs -> inner_condition s = true -> fail_requested s = false ->
  is_set (errToFailWf (w_vars s)) || forceCompleteWf (w_vars s) || threshold_met s = false -> goes_around s Fs.
Proof.
  intros Hb Hc Hf Hn. split; [exact Hb|]. unfold inner_condition in Hc. rewrite Hf in Hc.
  apply orb_false_iff in Hn as [[He Hfc]%orb_false_iff Ht]. cbn in Hc, He, Hfc.
  rewrite He, Hfc, Ht, !orb_false_r in Hc. cbn in Hc. apply orb_true_iff in Hc as [Hq|Hz%Z.eqb_eq].
  - left. intros Hq'%IsEmpty_nil. cbn in Hq'. by rewrite Hq' in Hq.
  - right. by apply idle_of_count.
Qed.

Lemma act_inner_iteration fuel input bi s Fs :
  bounded s Fs -> act (inner_iteration fuel input bi) iteration_post s Fs.
Proof.
  intros Hb. unfold inner_iteration. apply act_bind. cbn [act].
  apply act_bind. eapply act_mono; [|by apply act_take]. intros [e|] s1 Fs1 [L Hc].
  { exact (covers_drop _ _ _ Hc). }
  apply act_bind. eapply act_mono; [|by eapply act_spawn]. clear. intros _ s Fs [L Hb].
  apply act_bind. cbn [act wait]. exists (main_share 0 L). split; [exact Hb|].
  clear. intros s Fs Hc Hcond. assert (bounded s Fs) as Hb by by exists L.
  apply act_bind. cbn [act]. apply act_bind. cbn [is_set negb andb].
  destruct (fail_requested s) eqn:Ef.
  - cbn [mod_part act]. apply act_iteration_end; [by apply bounded_vars|]. intros Hn. exfalso.
    unfold fail_requested, IsFailWorkflowRequested in *. destruct s. cbn in *.
    by destruct (failWorkflowByClient _).
  - cbn [act mret thread_ret]. apply act_iteration_end; [done|]. by apply woken.
Qed.

(** The inner loop ends with nothing running and an empty queue, or the run ends. *)
Lemma act_inner_loop fuel input bi s Fs :
  goes_around s Fs ->
  act (inner_loop fuel input bi) (fun r s' Fs' => match r with
     | Some LoopEnd => idle s' Fs'
     | Some (LoopReturn res) => ends_run res s' Fs'
     | None => count_covers (none :: Fs') s'
     end) s Fs.
Proof.
  revert s Fs. induction fuel as [|fuel IH]; intros s Fs [Hb Hq]; cbn [inner_loop];
    [exact (bounded_none _ _ Hb)|].
  apply act_bind. cbn [act get_part]. destruct (IsEmpty (w_queue s)) eqn:Ee.
  - cbn. rewrite Ee. apply IsEmpty_nil in Ee. by destruct Hq.
  - cbn -[inner_iteration]. rewrite Ee. apply act_bind. eapply act_mono; [|by apply act_inner_iteration].
    intros [e|] s1 Fs1 Hp; cbn [act mret thread_ret]; [by destruct e | by apply IH].
Qed.

Definition loop_post (r : option (option interpreter_result)) (s : WorkflowState) (Fs : list exec_share) : Prop :=
  match r with
  | Some None => idle s Fs
  | Some (Some res) => ends_run res s Fs
  | None => count_covers (none :: Fs) s
  end.

Lemma act_continue_as_new fuel input s Fs :
  idle s Fs -> act (continue_as_new fuel input) (fun r s' Fs' => loop_post (Some r) s' Fs') s Fs.
Proof.
  intros Hi. unfold continue_as_new. apply act_bind. eapply act_mono; [|by apply act_drain, idle_bounded].
  clear. intros err s Fs [-> Hi]. apply act_bind. eapply act_mono; [|by apply counts_drain].
  clear. intros u s Fs Hi. cbn beta in Hi. apply act_bind. cbn [act]. unfold IsFailWorkflowRequested.
  destruct (failWorkflowByClient (w_signals s)); [exact (bounded_none _ _ (idle_bounded _ _ Hi))|].
  destruct (_ && _ && _); [exact Hi|].
  apply act_bind. eapply act_mono; [|exact (ks_call (main_share 0 0) GetWorkflowInfo I s Fs Hi)].
  intros info s1 Fs1 Hi1.
  apply act_bind. eapply act_mono; [|eapply (ks_call (main_share 0 0)); [exact I | exact Hi1]].
  intros e s2 Fs2 Hi2. exact (bounded_none _ _ (idle_bounded _ _ Hi2)).
Qed.

(** Graceful completion leaves the loop with nothing running. *)
Lemma act_main_loop fuel input bi s Fs : idle s Fs -> act (main_loop fuel input bi) loop_post s Fs.
Proof.
  revert s Fs. induction fuel as [|fuel IH]; intros s Fs Hi; cbn [main_loop];
    [exact (bounded_none _ _ (idle_bounded _ _ Hi))|].
  apply act_bind. cbn [act wait]. exists (main_share 0 0). split; [exact Hi|].
  clear s Fs Hi. intros s Fs Hi _. apply act_bind. cbn [act]. unfold IsFailWorkflowRequested.
  destruct (failWorkflowByClient (w_signals s)); [exact (bounded_none _ _ (idle_bounded _ _ Hi))|].
  destruct (_ && _); [exact Hi|].
  apply act_bind. eapply act_mono; [|apply act_inner_loop; split; [by apply idle_bounded | by right]].
  clear s Fs Hi. intros [[|res]|] s Fs Hp; [| exact Hp | exact Hp].
  apply act_bind. cbn [act]. destruct (threshold_met s); [|by apply IH].
  apply act_bind. eapply act_mono; [|by apply act_continue_as_new]. clear. intros r s Fs Hr. exact Hr.
Qed.

(** ** The whole run *)

(** The coroutine of the workflow from its first state to the event of its result. *)
Definition run_coroutine (fuel : nat) (input : InterpreterWorkflowInput) (bi : BasicInfo) : wprog unit :=
  r ← run_to_end fuel input bi;
  match r with None => Wait (fun _ => false) (fun _ => Done tt) | Some res => emit_result_event bi (snd res) end.

Lemma counts_clear H : keeps_share H (ClearExecutingStateIdsSearchAttributeFinally : wprog unit).
Proof. unfold ClearExecutingStateIdsSearchAttributeFinally. ks_auto. Qed.
Lemma counts_start_first H input bi : keeps_share H (start_first_state input bi : wprog unit).
Proof. unfold start_first_state. ks_auto. Qed.

Lemma counts_complete_event H bi err :
  (err = None -> limit H = Some 0%nat \/ forced H = true) -> keeps_share H (emit_result_event bi err).
Proof.
  intros Hp. unfold emit_result_event. apply ks_bind; [by apply ks_call|intros info].
  destruct err as [e|]; [destruct (IsApplicationError e); ks_auto|].
  unfold emit_event. ks_auto; apply ks_call; intros _; by apply Hp.
Qed.

Lemma act_run fuel input bi s Fs :
  idle s Fs -> behaves (run_coroutine fuel input bi) s Fs.
Proof.
  intros Hi. unfold behaves, run_coroutine, run_to_end. apply act_bind. apply act_bind.
  eapply act_mono; [|by apply counts_start_first]. clear. intros u s Fs Hi. cbn beta in Hi.
  apply act_bind. eapply act_mono; [|by apply act_main_loop]. clear. intros r s Fs Hp.
  apply act_bind. destruct r as [[res|]|].
  - apply act_bind. eapply act_mono; [|eapply counts_clear, Hp].
    clear s Fs Hp. intros u s Fs Hc. change (act (emit_result_event bi (snd res)) (fun _ s' Fs' => owned (no_share :: Fs') s') s Fs).
    eapply act_mono; [|eapply counts_complete_event, Hc]; [intros ???; apply covers_drop|].
    intros E. right. cbn. by rewrite E.
  - apply act_bind. cbn [act]. apply act_bind. eapply act_mono; [|eapply counts_clear, Hp].
    intros u s1 Fs1 Hc. change (act (emit_result_event bi (errToFailWf (w_vars s))) (fun _ s' Fs' => owned (no_share :: Fs') s') s1 Fs1).
    eapply act_mono; [|eapply counts_complete_event, Hc]; [intros ???; apply covers_drop | by left].
  - apply act_bind. eapply act_mono; [|eapply counts_clear, Hp].
    clear s Fs Hp. intros u s Fs Hc. exists none. by split.
Qed.

(** ** Completion waits for the states *)

(** In a call of a state API of the worker. *)
Definition calls_state_api (t : wprog unit) : bool :=
  match t with
  | Call e _ =>
      match e with ExecuteStateStart _ _ _ _ _ | ExecuteStateDecide _ _ _ _ => true | _ => false end
  | _ => false
  end.
(** About to emit the event that the workflow has completed. *)
Definition emits_completion (t : wprog unit) : bool :=
  match t with
  | Call e _ =>
      match e with
      | HandleEvent ev => match ev_EventType ev with WORKFLOW_COMPLETE_EVENT => true | _ => false end
      | _ => false
      end
  | _ => false
  end.

(** The coroutines that run beside the one of the workflow from the set-up on. *)
Inductive background_coroutine : wprog unit -> Prop :=
| bg_channel t : channel_coroutine t -> background_coroutine t
| bg_timers fuel : background_coroutine (greedy_timer_scheduler fuel).

(** A coroutine that does nothing any more. *)
Definition standstill : wprog unit := Poll (Sleep 0) (fun _ _ => false) (fun _ => Done tt).

Lemma background_arriving t : background_coroutine t -> arriving (R := exec_share) t.
Proof.
  intros Ht. split.
  - apply may_start_workflow; [done..|]. destruct Ht; [by apply wc_channel | apply wc_timers].
  - apply ks_starts. destruct Ht; [by apply counts_channel_coroutine | apply counts_greedy_scheduler].
Qed.
Lemma update_arriving t : update_coroutine t -> arriving (R := exec_share) t.
Proof.
  intros Ht. split; [by apply may_start_workflow, wc_update|]. apply ks_starts. destruct Ht.
  apply ks_bind; [apply counts_updater | intros; apply ks_ret].
Qed.

Lemma standstill_sleeps n s t : ~ wakes n s standstill t.
Proof.
  intros Hw.
  assert (match standstill with Poll e ok k => exists x, ok x s = true | _ => True end) as [x Hx]; [|done].
  destruct Hw as [c k Hc|X e ok k x Ht Hok|X e k x Hb|t Ht]; [done | by exists x | done | by destruct t].
Qed.

(** A coroutine that stands still stays. *)
Lemma standstill_stays arrives p p' :
  rtc (calm_step arrives) p p' -> standstill ∈ active p :: waiting p -> standstill ∈ active p' :: waiting p'.
Proof.
  intros Hr Hin. apply (rtc_invariant (calm_step arrives) (fun p => standstill ∈ active p :: waiting p) p p'); [|done..].
  clear. intros p p' Hin Hs.
  destruct Hs as [k ws s|s' k ws s|X e k x ws s Hb|body k ws s|t ws1 t' t'' ws2 ws' s Hy Hw Hp|t t' ws s Hy Hw
    |t body ws s Hy Hb]; cbn [active waiting] in *; try (apply elem_of_cons in Hin as [E|Hin]; [unfold standstill in E; discriminate E | by right]).
  - apply elem_of_cons in Hin as [E|Hin]; [unfold standstill in E; discriminate E|]. right. apply elem_of_app. by left.
  - rewrite elem_of_cons, elem_of_app, elem_of_cons in Hin. right. rewrite Hp, elem_of_cons, elem_of_app.
    destruct Hin as [?|[?|[<-|?]]]; [tauto | tauto | by apply standstill_sleeps in Hw | tauto].
  - apply elem_of_cons in Hin as [<-|Hin]; [by apply standstill_sleeps in Hw | by right].
  - apply elem_of_cons in Hin as [<-|Hin]; [left | right; apply elem_of_app; by left].
Qed.

Lemma one_of_all H Hs : H ∈ Hs -> (running H <= all_running Hs)%nat.
Proof.
  induction 1 as [Hs|H H' Hs Hin IH]; rewrite all_running_cons; lia.
Qed.

(** What holds where one stands still: nobody may call a state API. *)
Lemma nobody_calls p :
  shared_ok p -> standstill ∈ active p :: waiting p -> at_yield (active p) = true ->
  Forall (fun t => calls_state_api t = false) (active p :: waiting p).
Proof.
  intros (Hs & Hw & Ha) Hin Hy. apply (behaves_yield _ _ _ Hy) in Ha as (H & (_ & Hl & _) & Ht).
  assert (Forall2 holds (active p :: waiting p) (H :: Hs)) as Hall by by constructor.
  set (Hs' := H :: Hs) in *. clearbody Hs'. clear Hw Ht.
  assert (all_running Hs' = 0%nat) as H0.
  { apply list_elem_of_lookup in Hin as [i Hi]. destruct (Forall2_lookup_l _ _ _ _ _ Hall Hi) as (H' & HiH & Hp & _).
    cbn in Hp. assert (0%nat ∈ limits Hs') as Hz by (apply list_elem_of_omap; exists H'; split; [by eapply list_elem_of_lookup_2 | done]).
    destruct (limits Hs') as [|n [|? ?]]; [by apply elem_of_nil in Hz | | done].
    apply list_elem_of_singleton in Hz as <-. cbn in Hl. lia. }
  apply Forall_lookup. intros i t Hi. destruct (Forall2_lookup_l _ _ _ _ _ Hall Hi) as (H' & HiH & Ht).
  apply list_elem_of_lookup_2, one_of_all in HiH.
  destruct t as [a|msg|k|s0 k|X e k|X e ok k|c k|body k]; try done.
  destruct e; try done; cbn in Ht; destruct Ht as [Hp _]; lia.
Qed.

(** At the start nothing runs. *)
Lemma covers_start {A} (ts : list A) s :
  (resuming s <= totalCurrentlyExecutingCount (w_counter s))%Z ->
  count_covers (main_share 0 0 :: map (fun _ => none) ts) s.
Proof.
  intros Hc. assert (all_running (map (fun _ => none) ts) = 0%nat) as H0.
  { apply all_running_none. by induction ts; constructor. }
  assert (limits (map (fun _ => none) ts) = []) as Hl by (clear; unfold limits; by induction ts).
  unfold count_covers. rewrite all_running_cons, H0. change (limits (main_share 0 0 :: ?Hs)) with (0%nat :: limits Hs). rewrite Hl.
  cbn. split_and!; [lia | done |].
  constructor; [done|]. clear. induction ts; by constructor.
Qed.

(** C2: a workflow completes only when its states have.  In every interleaving of the
    coroutine of the workflow with its state executions, command coroutines, signal
    handlers, timer scheduler and the RPC updates that arrive, without cancelled
    waits: when the event of completion is emitted and no state forced it, no state
    execution runs: however the other coroutines go on, none of them is ever in a
    call of a state API.  For a run whose counter counts every execution that is to be
    resumed, as in a new run; it need not in one that continues another, after an
    execution that failed and proceeded to another state (workflowImpl.go:1021). *)
Theorem completion_waits_for_states fuel input bi ts s p p' :
  (0 < fuel)%nat -> Forall background_coroutine ts -> (resuming s <= totalCurrentlyExecutingCount (w_counter s))%Z ->
  rtc (calm_step update_coroutine) (mkPool (Done tt) (run_coroutine fuel input bi :: ts) s) p ->
  emits_completion (active p) = true -> forceCompleteWf (w_vars (shared p)) = false ->
  rtc (calm_step update_coroutine) (mkPool standstill (waiting p) (shared p)) p' -> at_yield (active p') = true ->
  Forall (fun t => calls_state_api t = false) (active p' :: waiting p').
Proof.
  intros Hfuel Hts Hcount Hr He Hf Hr' Hy.
  assert (shared_ok (mkPool (Done tt) (run_coroutine fuel input bi :: ts) s)) as Hok.
  { exists (main_share 0 0 :: map (fun _ => none) ts). split; cbn [waiting active shared].
    - constructor.
      + apply starts_holds.
        * unfold run_coroutine, run_to_end, start_first_state. destruct fuel; [lia|].
          by destruct (in_IsResumeFromContinueAsNew input).
        * intros s1 Fs. apply act_run.
      + clear - Hts. induction Hts as [|t ts Ht Hts IH]; [by constructor|].
        apply background_arriving in Ht as [Hm Hst]. constructor; [by apply starts_holds | exact IH].
    - unfold behaves. cbn [act]. apply owned_none. by apply covers_start. }
  apply (shared_ok_steps update_coroutine update_arriving) in Hr; [|exact Hok]. destruct Hr as (Hs & Hw & Ha).
  apply (nobody_calls p'); [| |exact Hy].
  - eapply (shared_ok_steps update_coroutine update_arriving); [|exact Hr'].
    exists Hs. split; [exact Hw|]. cbn [active shared].
    destruct (active p) as [a|msg|k|s0 k|X e k|X e ok k|c k|body k]; try done. destruct e; try done.
    assert (ev_EventType event = WORKFLOW_COMPLETE_EVENT) as Hev by (cbn in He; by destruct (ev_EventType event)).
    destruct Ha as (H & Hp & Ho & _).
    exists H. split_and!; [|exact Ho|done]. destruct (Hp Hev) as [Hl|Hfc]; [exact Hl|].
    destruct Ho as (_ & _ & Hk). apply Forall_cons in Hk as [Hk _]. specialize (Hk Hfc). congruence.
  - eapply standstill_stays; [exact Hr'|]. left.
Qed.
