(* ===== verification/Invariants.v ===== *)
(** * Invariants of the shared state in every interleaving

    A proof rule for what every coroutine keeps true wherever another one may run
    ([stable]), for all runs of a pool, with cancelled waits and panics, and its use:
    the components of a workflow stay well-formed whatever the coroutines of a run
    do. *)

From S2P Require Export Interpreter Exclusion.

(** ** The rule *)

Section invariant.
Context {St : Type} {Ev : Type -> Type} `{!Provider Ev} (I : St -> Prop).
Notation thread := (thread St Ev).

(** [kept t s]: [t], run from [s], has made [I] true wherever it yields or returns,
    if the others do; a panic ends the run. *)
Fixpoint kept {A : Type} (t : thread A) (s : St) : Prop :=
  match t with
  | Done _ => I s
  | Crash _ => True
  | Get k => kept (k s) s
  | Put s' k => kept k s'
  | Call e k =>
      if blocking _ e then I s /\ forall s' x, I s' -> kept (k x) s' else forall x, kept (k x) s
  | Poll e ok k => I s /\ forall s' r, I s' -> kept (k r) s'
  | Wait c k => I s /\ forall s' r, I s' -> kept (k r) s'
  | GoNamed body k => (forall s', I s' -> kept body s') /\ kept k s
  end.

Definition stable {A : Type} (t : thread A) : Prop := forall s, I s -> kept t s.

Lemma kept_bind {A B : Type} (t : thread A) (f : A -> thread B) s :
  kept t s -> (forall a, stable (f a)) -> kept (t ≫= f) s.
Proof.
  unfold mbind, thread_mbind. revert f s.
  induction t as [A a|A msg|A k IH|A s0 k IH|A X e k IH|A X e ok k IH|A c k IH|A body _ k IH];
    intros f s; simpl; eauto.
  - intros HI Hf. by apply Hf.
  - destruct (blocking X e); [intros [? Hk] Hf; split; eauto | eauto].
  - intros [? Hk] Hf; split; eauto.
  - intros [? Hk] Hf; split; eauto.
  - intros [? Hk] Hf; split; eauto.
Qed.

(** *** Programs *)

Lemma stable_ret {A : Type} (a : A) : stable (mret a : thread A).
Proof. by intros s HI. Qed.
Lemma stable_Done {A : Type} (a : A) : stable (Done a : thread A).
Proof. by intros s HI. Qed.
Lemma stable_Crash {A : Type} msg : stable (Crash msg : thread A).
Proof. by intros s HI. Qed.
Lemma stable_bind {A B : Type} (t : thread A) (f : A -> thread B) :
  stable t -> (forall a, stable (f a)) -> stable (t ≫= f).
Proof. intros Ht Hf s HI. apply kept_bind; [by apply Ht | done]. Qed.
Lemma stable_Get {A : Type} (k : St -> thread A) : (forall s, stable (k s)) -> stable (Get k).
Proof. intros Hk s HI. by apply Hk. Qed.
Lemma stable_call {X : Type} (e : Ev X) : stable (call e).
Proof. intros s HI. cbn. by destruct (blocking X e). Qed.
Lemma stable_wait c : stable (wait c : thread _).
Proof. by intros s HI. Qed.
Lemma stable_Poll {A X : Type} (e : Ev X) ok (k : X + error -> thread A) :
  (forall r, stable (k r)) -> stable (Poll e ok k).
Proof. intros Hk s HI. split; [done|]. intros s' r HI'. by apply Hk. Qed.
Lemma stable_go {A : Type} (body : thread unit) (k : thread A) :
  stable body -> stable k -> stable (GoNamed body k).
Proof. intros Hb Hk s HI. split; [exact Hb | by apply Hk]. Qed.
Lemma stable_lift {A : Type} (m : gores A) : stable (lift_gores m).
Proof. destruct m; [apply stable_Done | apply stable_Crash]. Qed.
Lemma stable_get_part {P} `{!Has St P} : stable (get_part (P := P)).
Proof. by intros s HI. Qed.
Lemma stable_for_each {A : Type} (l : list A) (f : A -> thread unit) :
  (forall a, stable (f a)) -> stable (for_each l f).
Proof. intros Hf. induction l as [|a l IH]; [apply stable_Done | by apply stable_bind]. Qed.

(** A change of a part that [I] allows. *)
Class Allows {P : Type} `{!Has St P} (g : P -> P) : Prop :=
  allows s : I s -> I (set_part (g (part s)) s).
(** A part that [I] does not speak about. *)
Class Free (P : Type) `{!Has St P} : Prop :=
  free (p : P) (s : St) : I s -> I (set_part p s).
#[export] Instance free_allows {P} `{!Has St P, !Free P} (g : P -> P) : Allows g | 10.
Proof. intros s HI. by apply free. Qed.

Lemma stable_mod_part {P} `{!Has St P} (g : P -> P) `{!Allows g} : stable (mod_part g).
Proof. intros s HI. by apply allows. Qed.
Lemma stable_put_part {P} `{!Has St P, !Free P} (p : P) : stable (put_part p).
Proof. intros s HI. by apply free. Qed.
Lemma stable_run_part {P A} `{!Has St P} (m : M P A) :
  (forall a p s, I s -> m (part s) = Ret (a, p) -> I (set_part p s)) -> stable (run_part m).
Proof.
  intros Hm s HI. cbn. destruct (m (part s)) as [[a p]|msg] eqn:E; cbn; [by eapply Hm | done].
Qed.

(** *** Pools *)

Definition stays (t : thread unit) : Prop := forall s t', I s -> resume s t t' -> kept t' s.
Definition pool_kept (p : pool St Ev) : Prop := kept (active p) (shared p) /\ Forall stays (waiting p).

Lemma kept_yield t s : at_yield t = true -> kept t s -> I s /\ stays t.
Proof.
  intros Hy Hk. split.
  - destruct t; simpl in *; try done; try tauto. rewrite Hy in Hk. tauto.
  - intros s' t' HI Hr.
    destruct Hr as [c k Hc|c k err|X e ok k x Hok|X e ok k err|X e k x Hb|t Ht]; simpl in *;
      try (destruct Hk as [_ Hk]; by apply Hk).
    + rewrite Hb in Hk. destruct Hk as [_ Hk]. by apply Hk.
    + congruence.
Qed.

Lemma stable_stays t : stable t -> stays t.
Proof.
  intros Ht s t' HI Hr. destruct (at_yield t) eqn:Hy.
  - by eapply (kept_yield t s Hy (Ht s HI)).
  - inversion Hr; subst; simpl in *; try congruence. by apply Ht.
Qed.

Lemma pool_kept_step p p' : pool_kept p -> step p p' -> pool_kept p'.
Proof.
  intros [Ha Hw] Hs.
  destruct Hs as [k ws s|s' k ws s|X e k x ws s Hb|body k ws s|t ws1 t' t'' ws2 ws' s Hy Hr Hp|t t' ws s Hy Hr];
    unfold pool_kept in *; simpl in *.
  - done.
  - done.
  - rewrite Hb in Ha. auto.
  - destruct Ha as [Hb Ha]. split; [done|]. apply Forall_app; split; [done|].
    by apply Forall_singleton, stable_stays.
  - apply (kept_yield _ _ Hy) in Ha as [HI Ht].
    apply Forall_app in Hw as [Hw1 Hw2]. apply Forall_cons in Hw2 as [Ht' Hw2]. split.
    + by eapply Ht'.
    + rewrite Hp. apply Forall_cons; split; [done | by apply Forall_app].
  - apply (kept_yield _ _ Hy) in Ha as [HI Ht]. split; [|done]. by eapply Ht.
Qed.

(** In a run of stable coroutines, [I] holds wherever the running one is at a yield. *)
Lemma stable_pool ts s p :
  Forall (fun t => stable t) ts -> I s -> rtc step (mkPool (Done tt) ts s) p -> at_yield (active p) = true ->
  I (shared p).
Proof.
  intros Hts HI Hr Hy. apply (kept_yield (active p) (shared p) Hy).
  apply (rtc_invariant step pool_kept (mkPool (Done tt) ts s) p); [apply pool_kept_step | | done].
  split; [done|]. cbn. eapply Forall_impl; [exact Hts | apply stable_stays].
Qed.
End invariant.

(** Decompose a program; the changes of constrained parts remain. *)
Ltac stable_step :=
  match goal with
  | |- stable _ (mret _) => apply stable_ret
  | |- stable _ (Done _) => apply stable_Done
  | |- stable _ (Crash _) => apply stable_Crash
  | |- stable _ (call _) => apply stable_call
  | |- stable _ get_part => apply stable_get_part
  | |- stable _ (mod_part _) => apply stable_mod_part; apply _
  | |- stable _ (put_part _) => apply stable_put_part; apply _
  | |- stable _ (lift_gores _) => apply stable_lift
  | |- stable _ (wait _) => apply stable_wait
  | |- stable _ (Get _) => apply stable_Get; intros ?
  | |- stable _ (Poll _ _ _) => apply stable_Poll; intros ?
  | |- stable _ (GoNamed _ _) => apply stable_go
  | |- stable _ (_ ≫= _) => apply stable_bind; [|intros ?]
  | |- stable _ (for_each _ _) => apply stable_for_each; intros ?
  | |- stable _ (match ?x with _ => _ end) => destruct x
  | |- stable _ (let _ := _ in _) => cbv zeta
  end.
Create HintDb stable.
Ltac stable_auto := repeat first [stable_step | solve [eauto with stable]].

(** ** The components of a workflow *)

(** Attributes and waiting executions are stored under their own names, no channel is
    stored without a message, no number of started executions is negative, and what
    is collected are outputs. *)
Record state_ok (s : WorkflowState) : Prop := {
  ok_attributes : am_wf (w_persistence s);
  ok_waiting : resume_wf (w_newer s);
  ok_messages : buffer_wf (receivedData (w_channel s));
  ok_signals : buffer_wf (receivedSignals (w_signals s));
  ok_started : started_wf (w_counter s);
  ok_outputs : Forall (fun o => is_Some (CompletedStateOutput o)) (outputs (w_outputs s))
}.

(** The parts that it does not speak about. *)
#[export] Hint Extern 1 (Free state_ok _) => (intros ? [] []; split; assumption) : typeclass_instances.

Notation allowed g := (Allows state_ok g).

Lemma allows_persistence (g : PersistenceManager -> PersistenceManager) :
  (forall am, am_wf am -> am_wf (g am)) -> allowed g.
Proof. intros Hg [] []; split; try assumption. by apply Hg. Qed.
Lemma allows_newer (g : ContinueAsNewer -> ContinueAsNewer) :
  (forall c, resume_wf c -> resume_wf (g c)) -> allowed g.
Proof. intros Hg [] []; split; try assumption. by apply Hg. Qed.
Lemma allows_channel (g : InternalChannel -> InternalChannel) :
  (forall i, buffer_wf (receivedData i) -> buffer_wf (receivedData (g i))) -> allowed g.
Proof. intros Hg [] []; split; try assumption. by apply Hg. Qed.
Lemma allows_signals (g : SignalReceiver -> SignalReceiver) :
  (forall i, buffer_wf (receivedSignals i) -> buffer_wf (receivedSignals (g i))) -> allowed g.
Proof. intros Hg [] []; split; try assumption. by apply Hg. Qed.

(** *** Attributes *)

#[export] Instance allows_upsert_search attrs : allowed (upsert_search attrs).
Proof. apply allows_persistence. intros am. apply upsert_search_wf. Qed.
#[export] Instance allows_upsert_data attrs : allowed (upsert_data attrs).
Proof. apply allows_persistence. intros am. apply upsert_data_wf. Qed.
#[export] Instance allows_locked w f : allowed (fun am => set_locked w (f am) am).
Proof. apply allows_persistence. intros am. by destruct w. Qed.
#[export] Instance allows_unlock sa da : allowed (UnlockPersistence sa da).
Proof.
  apply allows_persistence. intros am Ham. unfold UnlockPersistence.
  destruct sa as [p|], da as [q|]; try destruct (needs_lock (GetPersistenceLoadingType p));
    try destruct (needs_lock (GetPersistenceLoadingType q)); exact Ham.
Qed.

(** *** Waiting executions *)

#[export] Instance allows_potential exe state locals req cell :
  allowed (AddPotentialStateExecutionToResume exe state locals req cell).
Proof. apply allows_newer. intros c Hc. by apply map_Forall_insert_2. Qed.
#[export] Instance allows_remove exe : allowed (RemoveStateExecutionToResume exe).
Proof. apply allows_newer. intros c Hc. by apply map_Forall_delete. Qed.
#[export] Instance allows_increase : allowed IncreaseInflightOperation.
Proof. by apply allows_newer. Qed.
#[export] Instance allows_decrease : allowed DecreaseInflightOperation.
Proof. by apply allows_newer. Qed.

(** *** Channels *)

#[export] Instance allows_publish publishes : allowed (ProcessPublishing publishes).
Proof.
  apply allows_channel. unfold ProcessPublishing. induction publishes as [|pub l IH]; intros i Hi; [done|].
  cbn. apply IH. by apply buffer_receive_wf.
Qed.
#[export] Instance allows_receive name v : allowed (sr_receive name v).
Proof. apply allows_signals. intros sr Hsr. by apply buffer_receive_wf. Qed.
#[export] Instance allows_fail reason : allowed (set_fail reason).
Proof. by apply allows_signals. Qed.

(** A message is taken. *)
Lemma buffer_retrieve_wf n m v m' : buffer_wf m -> buffer_retrieve n m = Ret (v, m') -> buffer_wf m'.
Proof.
  intros Hm E. destruct (buffer_queue m n) as [|v0 rest] eqn:Eq.
  - by rewrite buffer_retrieve_empty in E.
  - destruct (buffer_retrieve_spec m n v0 rest Hm Eq) as (m1 & E1 & Hm1 & _).
    rewrite E1 in E. by injection E as _ <-.
Qed.
Lemma stable_sr_Retrieve n : stable state_ok (run_part (sr_Retrieve n) : wprog message).
Proof.
  apply stable_run_part. intros v sr s Hs E. unfold sr_Retrieve in E.
  destruct (buffer_retrieve n _) as [[v' m]|] eqn:Em; [|done]. injection E as <- <-.
  destruct s, Hs; split; try assumption. eapply buffer_retrieve_wf; [|exact Em]. assumption.
Qed.
Lemma stable_ic_Retrieve n : stable state_ok (run_part (ic_Retrieve n) : wprog message).
Proof.
  apply stable_run_part. intros v i s Hs E. unfold ic_Retrieve in E.
  destruct (buffer_retrieve n _) as [[v' m]|] eqn:Em; [|done]. injection E as <- <-.
  destruct s, Hs; split; try assumption. eapply buffer_retrieve_wf; [|exact Em]. assumption.
Qed.
#[export] Hint Resolve stable_sr_Retrieve stable_ic_Retrieve : stable.

(** A part that may change in any way. *)
Lemma stable_run_free {P A} `{!Has WorkflowState P, !Free state_ok P} (m : M P A) :
  stable state_ok (run_part m : wprog A).
Proof. apply stable_run_part. intros a p s Hs _. by apply free. Qed.
#[export] Hint Extern 2 (stable _ (run_part _)) => (apply stable_run_free; apply _) : stable.

(** *** Counts and outputs *)

Lemma mark_executing_started gv config reqs e :
  stateIdStartedCounts (fst (mark_executing gv config reqs e)) = stateIdStartedCounts e.
Proof.
  unfold mark_executing.
  assert (forall st, stateIdStartedCounts (foldl (fun st sr => mark_executing_one gv config sr st) st reqs).1.1 =
    stateIdStartedCounts st.1.1) as H.
  { induction reqs as [|r reqs IH]; intros st; [done|]. cbn [foldl]. rewrite IH.
    destruct st as [[e1 b] n]. unfold mark_executing_one, mark_track. destruct (IsResumeRequest r); [done|].
    destruct (IsAfterVersionOfExecutingStateIdMode gv).
    - destruct (GetExecutingStateIdMode config); try done; by destruct (negb _).
    - by destruct (negb _). }
  specialize (H (e, false, 0%Z)). by destruct (foldl _ _ _) as [[e1 b] n].
Qed.
Lemma mark_completed_started gv config state next e :
  stateIdStartedCounts (fst (mark_completed gv config state next e)) = stateIdStartedCounts e.
Proof.
  unfold mark_completed. destruct (IsAfterVersionOfExecutingStateIdMode gv).
  - destruct (GetExecutingStateIdMode config); try done; by destruct (skip_wait_until state).
  - by destruct (GetDisableSystemSearchAttribute config).
Qed.

Lemma state_ok_counter e s :
  stateIdStartedCounts e = stateIdStartedCounts (w_counter s) -> state_ok s -> state_ok (set_part e s).
Proof. intros He Hs. destruct s, Hs; split; try assumption. intros k. cbn in *. rewrite He. by apply ok_started0. Qed.

Lemma stable_refresh : stable state_ok (refreshIwfExecutingStateIdSearchAttribute : wprog _).
Proof. unfold refreshIwfExecutingStateIdSearchAttribute. stable_auto. Qed.

(** A new count that keeps the started ones. *)
Lemma stable_count {A} (f : StateExecutionCounter -> StateExecutionCounter * bool) (k : bool -> wprog A) :
  (forall e, stateIdStartedCounts (fst (f e)) = stateIdStartedCounts e) -> (forall b, stable state_ok (k b)) ->
  stable state_ok (e ← get_part (P := StateExecutionCounter); let '(e', b) := f e in _ ← put_part e'; k b).
Proof.
  intros Hf Hk s Hs. specialize (Hf (w_counter s)). unfold mbind, thread_mbind. cbn [get_part thread_bind kept].
  change (part s) with (w_counter s). destruct (f (w_counter s)) as [e' b]. cbn [put_part thread_bind kept].
  by apply Hk, state_ok_counter.
Qed.

Lemma stable_MarkExecuting l : stable state_ok (MarkStateIdExecutingIfNotYet l : wprog _).
Proof.
  unfold MarkStateIdExecutingIfNotYet. do 2 (apply stable_bind; [apply stable_get_part|intros ?]).
  apply (stable_count _ (fun b => if b then refreshIwfExecutingStateIdSearchAttribute else mret None)).
  - apply mark_executing_started.
  - intros []; [apply stable_refresh | apply stable_ret].
Qed.
Lemma stable_MarkCompleted state l : stable state_ok (MarkStateExecutionCompleted state l : wprog _).
Proof.
  unfold MarkStateExecutionCompleted. do 3 (apply stable_bind; [stable_auto|intros ?]).
  apply (stable_count _ (fun b => if b then refreshIwfExecutingStateIdSearchAttribute else mret None)).
  - apply mark_completed_started.
  - intros []; [apply stable_refresh | apply stable_ret].
Qed.
#[export] Hint Resolve stable_MarkExecuting stable_MarkCompleted : stable.

Lemma stable_next_id id : stable state_ok (run_part (fun e => Ret (CreateNextExecutionId id e)) : wprog string).
Proof.
  apply stable_run_part. intros exe e s Hs [= <- <-].
  destruct s, Hs; split; try assumption. by apply CreateNextExecutionId_wf.
Qed.
#[export] Hint Resolve stable_next_id : stable.

#[export] Instance allows_output o : allowed (oc_Add o).
Proof.
  intros [] []; split; try assumption. cbn in *. unfold oc_Add.
  destruct (CompletedStateOutput o) eqn:E; [|assumption]. cbn. apply Forall_app; split; [assumption|].
  apply Forall_singleton. by rewrite E.
Qed.

(** ** The programs *)

Lemma stable_upsert_search l : stable state_ok (ProcessUpsertSearchAttribute l : wprog _).
Proof. unfold ProcessUpsertSearchAttribute. stable_auto. Qed.
Lemma stable_upsert_data l : stable state_ok (ProcessUpsertDataAttribute l : wprog _).
Proof. unfold ProcessUpsertDataAttribute. stable_auto. Qed.
Lemma stable_emit_event ty bi sid exe st b e : stable state_ok (emit_event ty bi sid exe st b e : wprog _).
Proof. unfold emit_event. stable_auto. Qed.
Lemma stable_signal_completion state ctx : stable state_ok (signal_completion state ctx : wprog _).
Proof. unfold signal_completion, signalWithStart. stable_auto. Qed.
Lemma stable_LoadSearchAttributes policy : stable state_ok (LoadSearchAttributes policy : wprog _).
Proof. unfold LoadSearchAttributes, awaitAndLockForKeys. stable_auto. Qed.
Lemma stable_LoadDataAttributes policy : stable state_ok (LoadDataAttributes policy : wprog _).
Proof. unfold LoadDataAttributes, awaitAndLockForKeys. stable_auto. Qed.
#[export] Hint Resolve stable_upsert_search stable_upsert_data stable_emit_event stable_signal_completion
  stable_LoadSearchAttributes stable_LoadDataAttributes : stable.

Lemma stable_invokeStateExecute bi state exe ctx res renamed locals send :
  stable state_ok (invokeStateExecute bi state exe ctx res renamed locals send : wprog _).
Proof. unfold invokeStateExecute, apply_decide_response. stable_auto. Qed.
Lemma stable_invoke_wait_until bi state exe ctx renamed :
  stable state_ok (invoke_wait_until bi state exe ctx renamed : wprog _).
Proof. unfold invoke_wait_until. stable_auto. Qed.
Lemma stable_WaitForTimer exe idx c : stable state_ok (WaitForTimerFiredOrSkipped exe idx c : wprog _).
Proof. unfold WaitForTimerFiredOrSkipped, simple_wait, greedy_wait. stable_auto. Qed.
#[export] Hint Resolve stable_invokeStateExecute stable_invoke_wait_until stable_WaitForTimer : stable.

Lemma stable_process_commands bi state exe ctx renamed req locals e cell send :
  stable state_ok (process_commands bi state exe ctx renamed req locals e cell send : wprog _).
Proof.
  unfold process_commands, start_commands, start_command_threads, await_commands, get_completed, timer_thread,
    signal_thread, interstate_thread. stable_auto.
Qed.
#[export] Hint Resolve stable_process_commands : stable.

Lemma stable_processStateExecution bi req exe send :
  stable state_ok (processStateExecution bi req exe send : wprog _).
Proof. unfold processStateExecution. stable_auto. Qed.

Lemma stable_receive_all {T} fuel (ty : sigty T) name (process : T -> wprog unit) :
  (forall v, stable state_ok (process v)) -> stable state_ok (receive_all fuel ty name process).
Proof. intros Hp. induction fuel as [|fuel IH]; cbn [receive_all]; stable_auto; auto. Qed.
Lemma stable_system_handler {T} fuel (ty : sigty T) name (process : T -> wprog unit) :
  (forall v, stable state_ok (process v)) -> stable state_ok (system_signal_handler fuel ty name process).
Proof. intros Hp. induction fuel as [|fuel IH]; cbn [system_signal_handler]; stable_auto; auto. Qed.
Lemma stable_process_rpc v : stable state_ok (process_rpc v : wprog _).
Proof. unfold process_rpc. stable_auto. Qed.
#[export] Hint Resolve stable_processStateExecution stable_process_rpc : stable.

Lemma stable_drain fuel : stable state_ok (DrainAllReceivedButUnprocessedSignals fuel : wprog _).
Proof.
  unfold DrainAllReceivedButUnprocessedSignals, drain_signal, receiveSignal, process_skip_timer,
    process_update_config, process_fail. stable_auto; apply stable_receive_all; intros v; stable_auto.
Qed.
#[export] Hint Resolve stable_drain : stable.

Lemma stable_channel_coroutine t : channel_coroutine t -> stable state_ok (t : wprog unit).
Proof.
  intros [cell idx cmd name|cell idx cmd name|fuel|fuel|fuel| |fuel|fuel].
  - unfold signal_thread. stable_auto.
  - unfold interstate_thread. stable_auto.
  - apply stable_system_handler. intros v. unfold process_fail. stable_auto.
  - apply stable_system_handler. intros v. unfold process_skip_timer. stable_auto.
  - apply stable_system_handler. intros v. unfold process_update_config. stable_auto.
  - unfold trigger_continue_as_new_handler. stable_auto.
  - apply stable_system_handler. intros v. stable_auto.
  - induction fuel as [|fuel IH]; cbn [user_signal_handler]; stable_auto.
    apply stable_receive_all. intros v. stable_auto.
Qed.

Lemma stable_state_execution fuel input bi req : stable state_ok (state_execution_thread fuel input bi req).
Proof.
  unfold state_execution_thread, mark_completed_or_fail, apply_closing, checkClosingWorkflow,
    DrainReceivedButUnprocessedInternalChannelsFromStateApis. stable_auto.
Qed.
#[export] Hint Resolve stable_state_execution : stable.

Lemma stable_main_loop fuel input bi : stable state_ok (main_loop fuel input bi).
Proof.
  assert (forall fuel, stable state_ok (inner_loop fuel input bi)) as Hi.
  { clear fuel. induction fuel as [|fuel IH]; cbn [inner_loop]; unfold inner_iteration, DrainThreads; stable_auto. }
  induction fuel as [|fuel IH]; cbn [main_loop]; unfold continue_as_new, DrainThreads; stable_auto.
Qed.

Lemma stable_updater bi input : stable state_ok (updater_handler bi input : wprog _).
Proof. unfold updater_handler, updater_handler_body, apply_rpc_output, emit_rpc_event. stable_auto. Qed.

Lemma stable_workflow_coroutine t : workflow_coroutine t -> stable state_ok t.
Proof.
  intros [fuel input bi|fuel input bi req|t' [bi input]|t' Ht|fuel].
  - apply stable_bind; [apply stable_main_loop | intros; apply stable_ret].
  - apply stable_state_execution.
  - apply stable_bind; [apply stable_updater | intros; apply stable_ret].
  - by apply stable_channel_coroutine.
  - induction fuel as [|fuel IH]; cbn [greedy_timer_scheduler]; unfold prune; stable_auto.
Qed.

(** No interleaving leaves the invariant. *)
Lemma coroutines_keep_ok ts s p :
  Forall workflow_coroutine ts -> state_ok s -> rtc step (mkPool (Done tt) ts s) p -> at_yield (active p) = true ->
  state_ok (shared p).
Proof.
  intros Hts. apply stable_pool. eapply Forall_impl; [exact Hts | apply stable_workflow_coroutine].
Qed.

(** C23: in every interleaving of the coroutines of a run (the main loop, state executions
    with their commands, RPC updates, signal handlers, the timer scheduler), whatever
    the backend answers and whichever waits are cancelled, the components stay
    well-formed: every attribute and every waiting execution is stored under its own
    name, no channel is stored without a message, the number of executions started of a
    state is never negative, and every collected output has one. *)
Theorem components_stay_ok ts s p :
  Forall workflow_coroutine ts -> state_ok s -> rtc step (mkPool (Done tt) ts s) p -> at_yield (active p) = true ->
  state_ok (shared p).
Proof. exact (coroutines_keep_ok ts s p). Qed.
