(* ===== verification/Cancellation.v ===== *)
(** * Cancelled waits

    What a run does when its waits are cancelled, as all are when the workflow is: the
    wait for a lock (persistence.go, awaitAndLockForKeys) then returns to a caller that
    goes on as if it had the lock, and unlocks the keys of another coroutine
    (stateExecution of workflowImpl.go). *)

From S2P Require Export Calls Invariants.

(** ** Runs *)

(** A run of one coroutine while the others do nothing, in which every wait whose
    condition does not hold is cancelled, with the calls it makes, their answers
    and the states it makes them in; [h] answers the calls.  Only a panic has no result. *)
Section run.
Context {St W : Type} (h : forall X, providerE X -> W -> X * W).
Notation thread := (thread St providerE).
Notation canceled := (OtherError "canceled").

Fixpoint run_cancelled {A : Type} (t : thread A) (w : W) (s : St) : option (A * list (obs providerE * St) * W * St) :=
  match t with
  | Done a => Some (a, [], w, s)
  | Crash _ => None
  | Get k => run_cancelled (k s) w s
  | Put s' k => run_cancelled k w s'
  | Call e k =>
      let '(x, w') := h _ e w in
      '(a, calls, w', s') ← run_cancelled (k x) w' s; Some (a, (Obs e x, s) :: calls, w', s')
  | Poll e ok k =>
      let '(x, w') := h _ e w in
      '(a, calls, w', s') ← run_cancelled (k (if ok x s then inl x else inr canceled)) w' s;
      Some (a, (Obs e x, s) :: calls, w', s')
  | Wait c k => run_cancelled (k (if c s then None else Some canceled)) w s
  | GoNamed _ k => run_cancelled k w s
  end.

Lemma run_cancelled_bind {A B : Type} (t : thread A) (f : A -> thread B) w s b calls w' s' :
  run_cancelled (t ≫= f) w s = Some (b, calls, w', s') ->
  exists a c1 c2 w1 s1, run_cancelled t w s = Some (a, c1, w1, s1) /\
    run_cancelled (f a) w1 s1 = Some (b, c2, w', s') /\ calls = c1 ++ c2.
Proof.
  unfold mbind, thread_mbind. revert w s calls f.
  induction t as [A a|A msg|A k IH|A s0 k IH|A X e k IH|A X e ok k IH|A c k IH|A body _ k IH];
    intros w s calls f H; cbn [thread_bind run_cancelled] in *; try done; try by apply IH in H.
  - by do 5 eexists.
  - destruct (h X e w) as [x w0]. apply bind_Some in H as ([[[b' c'] w1'] s1'] & H & [= -> <- -> ->]).
    apply IH in H as (a & c1 & c2 & w1 & s1 & E & H & ->). do 5 eexists. rewrite E. by split_and!.
  - destruct (h X e w) as [x w0]. apply bind_Some in H as ([[[b' c'] w1'] s1'] & H & [= -> <- -> ->]).
    apply IH in H as (a & c1 & c2 & w1 & s1 & E & H & ->). do 5 eexists. rewrite E. by split_and!.
Qed.

(** An invariant of the coroutine (Invariants.v) holds at the end. *)
Lemma run_cancelled_kept {A : Type} (I : St -> Prop) (t : thread A) w s a calls w' s' :
  kept I t s -> run_cancelled t w s = Some (a, calls, w', s') -> I s'.
Proof.
  revert w s calls.
  induction t as [A a0|A msg|A k IH|A s0 k IH|A X e k IH|A X e ok k IH|A c k IH|A body _ k IH];
    intros w s calls Hk H; cbn [kept run_cancelled] in *; try done; eauto.
  - by injection H as <- <- <- <-.
  - destruct (h X e w) as [x w0]. apply bind_Some in H as ([[[b' c'] w1'] s1'] & H & [= -> <- -> ->]).
    eapply IH; [|exact H]. destruct (blocking X e); [exact (proj2 Hk _ _ (proj1 Hk))|exact (Hk x)].
  - destruct (h X e w) as [x w0]. apply bind_Some in H as ([[[b' c'] w1'] s1'] & H & [= -> <- -> ->]).
    eapply IH; [|exact H]. exact (proj2 Hk _ _ (proj1 Hk)).
  - eapply IH; [|exact H]. exact (proj2 Hk _ _ (proj1 Hk)).
  - eapply IH; [|exact H]. exact (proj2 Hk).
Qed.

Lemma run_cancelled_stable {A : Type} (I : St -> Prop) (t : thread A) w s a calls w' s' :
  stable I t -> I s -> run_cancelled t w s = Some (a, calls, w', s') -> I s'.
Proof. intros Ht Hs. apply run_cancelled_kept, Ht, Hs. Qed.
End run.

(** ** A key that is not locked *)

Definition key_free (w : lock_map) (k : string) (s : WorkflowState) : Prop := is_locked w k s = false.

#[export] Hint Extern 1 (Free (key_free _ _) _) => (intros ? [] ?; assumption) : typeclass_instances.

#[export] Instance free_after_upsert_search w k attrs : Allows (key_free w k) (upsert_search attrs).
Proof.
  intros s Hs. unfold key_free, is_locked in *. rewrite part_set. unfold upsert_search. by destruct w.
Qed.
#[export] Instance free_after_upsert_data w k attrs : Allows (key_free w k) (upsert_data attrs).
Proof.
  intros s Hs. unfold key_free, is_locked in *. rewrite part_set. unfold upsert_data. by destruct w.
Qed.

Lemma stays_free_completion w k state ctx : stable (key_free w k) (signal_completion state ctx : wprog _).
Proof. unfold signal_completion, signalWithStart. stable_auto. Qed.

Lemma stays_free_response w k exe resp : stable (key_free w k) (apply_decide_response exe resp : wprog _).
Proof.
  unfold apply_decide_response, ProcessUpsertSearchAttribute, ProcessUpsertDataAttribute. stable_auto.
Qed.

(** ** The lock of another coroutine *)

(** The policy by which a state execution takes its locks for the execute API. *)
Definition execute_policy (w : lock_map) (state : StateMovement) : option PersistenceLoadingPolicy :=
  match w with
  | SearchLocks => GetExecuteApiSearchAttributesLoadingPolicy (StateOptions state)
  | DataLocks => GetExecuteApiDataAttributesLoadingPolicy (StateOptions state)
  end.
(** The policy asks for an exclusive lock of the key. *)
Definition locks_key (policy : PersistenceLoadingPolicy) (k : string) : Prop :=
  GetPersistenceLoadingType policy ∈ [PARTIAL_WITH_EXCLUSIVE_LOCK; ALL_WITH_PARTIAL_LOCK] /\ k ∈ LockingKeys policy.

Definition calls_execute_api (o : obs providerE) : bool :=
  match o with Obs e _ => match e with ExecuteStateDecide _ _ _ _ => true | _ => false end end.

(** Its keys are among those that the Loads lock and the Unlock unlocks. *)
Lemma locks_key_spec policy k : locks_key policy k -> k ∈ locking_keys (Some policy).
Proof.
  intros [Ht Hk]. unfold locking_keys, needs_lock. set_unfold in Ht.
  by destruct Ht as [->|[->|[]]].
Qed.

Section others_lock.
Context {W : Type} (h : forall X, providerE X -> W -> X * W) (lm : lock_map) (k : string).

(** The lock table of [lm], in which [k] is locked, is as in [s0]. *)
Definition as_locked (s0 s : WorkflowState) : Prop := locked lm (part s) = locked lm (part s0).

#[local] Hint Extern 1 (Free (as_locked _) _) => (intros ? [] ?; assumption) : typeclass_instances.

Lemma as_locked_key s0 s : as_locked s0 s -> is_locked lm k s = is_locked lm k s0.
Proof. unfold is_locked. by intros ->. Qed.

(** Waiting for keys with [k] among them, or for those of the other table, does not
    change the table. *)
Lemma await_locks_nothing s0 lm' keys w s a calls w' s' :
  is_locked lm k s0 = true -> (lm' = lm -> k ∈ keys) -> as_locked s0 s ->
  run_cancelled h (awaitAndLockForKeys lm' keys) w s = Some (a, calls, w', s') -> as_locked s0 s'.
Proof.
  intros Hl Hk Hs H. cbn in H. destruct (checkKeysAreUnlocked _ keys) eqn:E; injection H as <- <- <- <-; [|done].
  unfold as_locked in *. assert (lm' = lm \/ lm' <> lm) as [->|Hne] by (destruct lm, lm'; auto).
  - rewrite checkKeysAreUnlocked_spec in E. specialize (E k (Hk eq_refl)).
    unfold is_locked in Hl. rewrite <- Hs in Hl. discriminate (eq_trans (eq_sym Hl) E).
  - destruct s, lm, lm'; done.
Qed.

Lemma load_locks_nothing {A : Type} s0 lm' policy (f : prog WorkflowState A) w s a calls w' s' :
  is_locked lm k s0 = true -> (lm' = lm -> k ∈ locking_keys policy) -> as_locked s0 s -> stable (as_locked s0) f ->
  run_cancelled h
    (_ ← match policy with
         | Some p => if needs_lock (GetPersistenceLoadingType p)
                     then awaitAndLockForKeys lm' (LockingKeys p) else mret tt
         | None => mret tt
         end; f) w s = Some (a, calls, w', s') -> as_locked s0 s'.
Proof.
  intros Hl Hk Hs Hf H. apply run_cancelled_bind in H as (u & c1 & c2 & w1 & s1 & H1 & H & ->).
  eapply run_cancelled_kept; [|exact H]. apply Hf.
  unfold locking_keys in Hk. destruct policy as [p|]; [|by injection H1 as <- <- <- <-].
  destruct (needs_lock _); [by eapply await_locks_nothing|by injection H1 as <- <- <- <-].
Qed.
End others_lock.
#[export] Hint Extern 1 (Free (as_locked _ _) _) => (intros ? [] ?; assumption) : typeclass_instances.

(** C40: a cancelled wait for a lock ends the exclusion.  Whatever the backend answers,
    when a state execution runs its execute API with a policy that locks a key, in a
    state in which another coroutine has locked the key, and its waits are cancelled,
    then it calls the worker while the locks are still as the other coroutine has left
    them -- [awaitAndLockForKeys] has locked nothing and nobody has unlocked the key --
    and when it ends the key is unlocked, though the other coroutine has not unlocked
    it. *)
Theorem cancelled_wait_unlocks_others {W} (h : forall X, providerE X -> W -> X * W) basicInfo state exe ctx
  commandRes renamed locals send lm k policy w s r calls w' s' :
  execute_policy lm state = Some policy -> locks_key policy k -> is_locked lm k s = true ->
  run_cancelled h (invokeStateExecute basicInfo state exe ctx commandRes renamed locals send) w s =
    Some (r, calls, w', s') ->
  (exists call during, (call, during) ∈ calls /\ calls_execute_api call = true /\
     locked lm (part during) = locked lm (part s)) /\
  is_locked lm k s' = false.
Proof.
  intros Hp Hk%locks_key_spec Hl H. unfold invokeStateExecute in H.
  set (sa := GetExecuteApiSearchAttributesLoadingPolicy _) in H.
  set (da := GetExecuteApiDataAttributesLoadingPolicy _) in H.
  assert (k ∈ locking_keys (match lm with DataLocks => da | SearchLocks => sa end)) as Hkeys
    by (destruct lm; subst sa da; cbn in Hp; by rewrite Hp).
  apply run_cancelled_bind in H as (start & c1 & c1' & w1 & s1 & H1 & H & ->).
  apply run_cancelled_bind in H as (u & c2 & c2' & w2 & s2 & H2 & H & ->).
  apply run_cancelled_bind in H as (wc & c3 & c3' & w3 & s3 & H3 & H & ->).
  assert (as_locked lm s s3) as E3.
  { assert (as_locked lm s s1) as E1 by (by eapply run_cancelled_stable; [apply stable_call| |exact H1]).
    assert (as_locked lm s s2) as E2
      by (eapply run_cancelled_stable; [|exact E1|exact H2]; unfold emit_event; stable_auto).
    cbn in H3. by injection H3 as _ _ _ <-. }
  apply run_cancelled_bind in H as (sas & c4 & c4' & w4 & s4 & H4 & H & ->).
  assert (as_locked lm s s4) as E4.
  { eapply (load_locks_nothing h lm k s SearchLocks sa); [exact Hl|by intros <-|exact E3| |exact H4]. stable_auto. }
  apply run_cancelled_bind in H as (das & c5 & c5' & w5 & s5 & H5 & H & ->).
  assert (as_locked lm s s5) as E5.
  { eapply (load_locks_nothing h lm k s DataLocks da); [exact Hl|by intros <-|exact E4| |exact H5]. stable_auto. }
  apply run_cancelled_bind in H as (x & c6 & c6' & w6 & s6 & Hx & H & ->).
  apply run_cancelled_bind in H as (u7 & c7 & c7' & w7 & s7 & _ & H & ->).
  apply run_cancelled_bind in H as (u8 & c8 & c8' & w8 & s8 & H8 & H & ->).
  split.
  - cbn [run_cancelled call] in Hx. destruct (h _ _ w5) as [y w5'].
    cbn in Hx. injection Hx as -> <- <- <-. eexists _, s5.
    split; [rewrite !elem_of_app; do 5 right; left; by left|]. split; [reflexivity|exact E5].
  - assert (key_free lm k s8) as H8f.
    { assert (s8 = set_part (UnlockPersistence sa da (part s7)) s7) as -> by (by injection H8 as _ _ _ <-).
      unfold key_free. by rewrite is_locked_unlock, bool_decide_true by (by apply held_both). }
    clear H8. change (key_free lm k s'). destruct x as [resp|err].
    + eapply run_cancelled_stable; [|exact H8f|exact H]. apply stable_bind; [|intros; apply stays_free_response].
      destruct send; [|apply stable_ret]. apply stable_bind; [apply stable_call|]. intros []; [apply stable_ret|].
      apply stays_free_completion.
    + destruct (shouldProceedOnExecuteApiError state); injection H as <- <- <- <-; exact H8f.
Qed.
