(* ===== verification/Resume.v ===== *)
(** * What continues in the next run

    A run that continues as new ends with the input of the next run
    ([continue_as_new_input] of Interpreter.v), whose set-up loads the snapshot of the
    previous run and builds the components from it.  This file follows a state of the
    interpreter through that: the snapshot, its way over HTTP (DumpPath.v) and the
    set-up. *)

From S2P Require Export DumpPath Invariants.

(** ** The snapshot of a rebuilt queue *)

(** Resume requests and waiting executions are stored under their own id. *)
Lemma resume_map_ids h c srq :
  resume_wf c -> map_Forall (fun k r => ri_StateExecutionId r = k) (resume_map h c srq).
Proof.
  intros Hc k r Hk. rewrite resume_map_lookup in Hk. destruct (last _) as [r'|] eqn:E.
  - injection Hk as ->. apply last_Some_elem_of in E. by apply list_elem_of_filter in E as [? _].
  - destruct (StateExecutionToResumeMap c !! k) as [e|] eqn:Ee; [|done]. injection Hk as <-. by apply (Hc k e).
Qed.

(** The requests of a rebuilt queue, dumped again, are those it was built from. *)
Lemma resume_map_rebuilt h states (m : gmap string StateExecutionResumeInfo) :
  map_Forall (fun k r => ri_StateExecutionId r = k) m ->
  resume_map h NewContinueAsNewer (NewStateRequestQueueWithResumeRequests states m) = m.
Proof.
  intros Hm. unfold resume_map. rewrite local_resume_map, GetAllStateResumeRequests_omap.
  rewrite NewStateRequestQueueWithResumeRequests_queue, resume_requests_app, resume_requests_map_start,
    resume_requests_map. cbn [app NewContinueAsNewer StateExecutionToResumeMap]. rewrite fmap_empty.
  by apply (rebuild_sorted_values ri_StateExecutionId).
Qed.

Lemma start_requests_rebuilt states (m : gmap string StateExecutionResumeInfo) :
  GetAllStateStartRequests (NewStateRequestQueueWithResumeRequests states m) = states.
Proof.
  by rewrite GetAllStateStartRequests_omap, NewStateRequestQueueWithResumeRequests_queue, start_requests_app,
    start_requests_map, start_requests_map_resume, app_nil_r.
Qed.

(** The values of a map that knows its keys are as many and as different as those. *)
Lemma sorted_values_keys {V} (key : V -> string) (m : gmap string V) :
  map_Forall (fun k v => key v = k) m -> map key (sorted_values m) = DeterministicKeys m.
Proof.
  intros Hm. unfold sorted_values.
  assert (Forall (fun k => is_Some (m !! k)) (DeterministicKeys m)) as Hks.
  { apply Forall_forall. intros k. apply elem_of_sorted_keys. }
  induction Hks as [|k ks [v Hv] Hks IH]; [done|]. cbn. rewrite Hv. cbn. by rewrite IH, (Hm _ _ Hv).
Qed.

(** ** A state and the one the next run starts in *)

(** [s'] is where the next run takes over from [s]. *)
Record continues (s s' : WorkflowState) : Prop := {
  (** nothing is lost that the next dump would hold *)
  same_snapshot : GetSnapshot s' = GetSnapshot s;
  (** the states to start, in their order, and all that were waiting, each once *)
  same_starts : start_requests (queue (w_queue s')) = start_requests (queue (w_queue s));
  resumes_waiting : forall info, info ∈ resume_requests (queue (w_queue s')) <->
    resume_map (w_commands s) (w_newer s) (w_queue s) !! ri_StateExecutionId info = Some info;
  resumes_once : NoDup (map ri_StateExecutionId (resume_requests (queue (w_queue s'))));
  (** messages and signals not taken yet *)
  same_messages : w_channel s' = w_channel s;
  same_signals : receivedSignals (w_signals s') = receivedSignals (w_signals s);
  (** the attributes, and no lock *)
  same_attributes : dataAttributes (w_persistence s') = dataAttributes (w_persistence s) /\
    searchAttributes (w_persistence s') = searchAttributes (w_persistence s);
  no_locks : lockedDataAttributesKeys (w_persistence s') = ∅ /\ lockedSearchAttributeKeys (w_persistence s') = ∅;
  (** counts, outputs, skips that found no timer, configuration *)
  same_counts : w_counter s' = w_counter s;
  same_outputs : w_outputs s' = w_outputs s;
  same_skips : tp_Dump (w_timers s') = tp_Dump (w_timers s);
  same_config : wc_Get (w_configer s') = wc_Get (w_configer s);
  (** and nothing of the old run's own *)
  no_timers : GetTimerInfos (w_timers s') = ∅;
  nothing_running : w_newer s' = NewContinueAsNewer /\ w_can_counter s' = NewContinueAsCounter
}.

(** The next run starts well-formed. *)
Lemma continues_ok s s' : state_ok s -> continues s s' -> state_ok s'.
Proof.
  intros [] []. split.
  - destruct same_attributes0 as [Hd Hs]. unfold am_wf. by rewrite Hd, Hs.
  - destruct nothing_running0 as [-> _]. apply map_Forall_empty.
  - by rewrite same_messages0.
  - by rewrite same_signals0.
  - by rewrite same_counts0.
  - by rewrite same_outputs0.
Qed.

Section continuation.
Context {W : Type} (h : forall X, providerE X -> W -> X * W).

Lemma start_timer_processor_exec fuel input stale w s :
  exists ts tp, exec h (start_timer_processor fuel input stale) w s = Some (tt, w, set_part tp s, ts) /\
    tp_Dump tp = stale /\ GetTimerInfos tp = ∅.
Proof.
  unfold start_timer_processor. destruct (GetOptimizeTimer (in_Config input)).
  - do 2 eexists. split; [reflexivity|]. cbn. by rewrite fmap_empty.
  - do 2 eexists. split; [reflexivity|]. cbn. by rewrite fmap_empty.
Qed.

(** The state [init_resumed] leaves, component by component. *)
Lemma init_resumed_exec fuel input previous w s :
  exists ts tp, tp_Dump tp = StaleSkipTimerSignals previous /\ GetTimerInfos tp = ∅ /\
  exec h (init_resumed fuel input previous) w s = Some (tt, w,
    mkWorkflowState
      (RebuildPersistenceManager (DataObjects previous) (SearchAttributes previous) (in_UseMemoForDataAttributes input))
      (RebuildInternalChannel (InterStateChannelReceived previous))
      (NewStateRequestQueueWithResumeRequests (StatesToStartFromBeginning previous) (StateExecutionsToResume previous))
      (RebuildStateExecutionCounter (StateIdStartedCount (StateExecutionCounterInfo_ previous))
         (StateIdCurrentlyExecutingCount (StateExecutionCounterInfo_ previous))
         (TotalCurrentlyExecutingCount (StateExecutionCounterInfo_ previous)))
      NewContinueAsCounter (w_configer s) (w_versioner s) tp (NewSignalReceiverState (SignalsReceived previous))
      (NewOutputCollector (StateOutputs previous)) NewContinueAsNewer (w_commands s) (w_vars s), ts).
Proof.
  unfold init_resumed, mbind, thread_mbind. cbn [put_part thread_bind exec].
  match goal with |- context [exec h (thread_bind _ _) w ?st] =>
    destruct (start_timer_processor_exec fuel input (StaleSkipTimerSignals previous) w st) as (ts & tp & E & Hd & Hi) end.
  rewrite exec_bind, E. eexists _, tp. split; [exact Hd|]. split; [exact Hi|]. destruct s. reflexivity.
Qed.

Lemma continues_of_snapshot s s0 tp input :
  state_ok s -> wc_Get (w_configer s0) = wc_Get (w_configer s) ->
  tp_Dump tp = tp_Dump (w_timers s) -> GetTimerInfos tp = ∅ ->
  let d := GetSnapshot s in
  continues s (mkWorkflowState
      (RebuildPersistenceManager (DataObjects d) (SearchAttributes d) (in_UseMemoForDataAttributes input))
      (RebuildInternalChannel (InterStateChannelReceived d))
      (NewStateRequestQueueWithResumeRequests (StatesToStartFromBeginning d) (StateExecutionsToResume d))
      (RebuildStateExecutionCounter (StateIdStartedCount (StateExecutionCounterInfo_ d))
         (StateIdCurrentlyExecutingCount (StateExecutionCounterInfo_ d))
         (TotalCurrentlyExecutingCount (StateExecutionCounterInfo_ d)))
      NewContinueAsCounter (w_configer s0) (w_versioner s0) tp (NewSignalReceiverState (SignalsReceived d))
      (NewOutputCollector (StateOutputs d)) NewContinueAsNewer (w_commands s0) (w_vars s0)).
Proof.
  intros [[Hda Hsa] Hn _ _ _ _] Hc Hd Hi d.
  assert (map_Forall (fun k r => ri_StateExecutionId r = k) (StateExecutionsToResume d)) as Hids
    by by apply resume_map_ids.
  assert (RebuildPersistenceManager (DataObjects d) (SearchAttributes d) (in_UseMemoForDataAttributes input) =
    mkPersistenceManager (dataAttributes (w_persistence s)) (searchAttributes (w_persistence s)) ∅ ∅
      (in_UseMemoForDataAttributes input)) as Hp.
  { unfold RebuildPersistenceManager. subst d. cbn.
    unfold GetAllDataAttributes, GetAllSearchAttributes.
    by rewrite (rebuild_sorted_values kv_GetKey), (rebuild_sorted_values sa_GetKey). }
  rewrite Hp. split; cbn [w_queue w_channel w_signals w_persistence w_counter w_outputs w_timers w_configer
    w_newer w_can_counter w_commands]; try done.
  - unfold GetSnapshot. cbn [part Has_queue Has_commands Has_newer Has_channel Has_signals Has_counter Has_outputs
      Has_timers Has_persistence w_queue w_channel w_signals w_persistence w_counter w_outputs w_timers
      w_newer w_commands].
    rewrite start_requests_rebuilt, (resume_map_rebuilt _ _ _ Hids), Hd. subst d. by destruct s as [? [?] ? [???] ????[???] [?] ???].
  - by rewrite <- GetAllStateStartRequests_omap, start_requests_rebuilt, <- GetAllStateStartRequests_omap.
  - intros info. rewrite NewStateRequestQueueWithResumeRequests_queue, resume_requests_app, resume_requests_map_start,
      resume_requests_map. cbn [app]. rewrite sorted_values_select, elem_of_select_values. split.
    + intros (k & Hk & _). by rewrite (Hids _ _ Hk).
    + intros Hk. by eexists.
  - rewrite NewStateRequestQueueWithResumeRequests_queue, resume_requests_app, resume_requests_map_start,
        resume_requests_map. cbn [app]. rewrite (sorted_values_keys ri_StateExecutionId) by done.
    apply NoDup_sorted_keys.
  - subst d. by destruct s as [? [?]].
  - subst d. by destruct s as [? ? ? [???]].
  - subst d. by destruct s as [? ? ? ? ? ? ? ? ? [?]].
Qed.

(** The backend takes what the set-up upserts. *)
Definition takes_upserts : Prop := forall m w, fst (h _ (UpsertSearchAttributes m) w) = None.

Lemma returns_version w (s : WorkflowState) :
  exists v w', returns h (NewGlobalVersioner : wprog _) w s (mkGlobalVersioner v) w' s.
Proof.
  unfold returns, NewGlobalVersioner. cbn.
  destruct (h _ (GetVersion _ _ _) w) as [v w']. by exists v, w'.
Qed.

Lemma returns_upsert m w (s : WorkflowState) :
  takes_upserts -> exists w', returns h (call (UpsertSearchAttributes m)) w s None w' s.
Proof.
  intros Hu. specialize (Hu m w). unfold returns. cbn.
  destruct (h _ (UpsertSearchAttributes m) w) as [r w']. cbn in Hu. subst r. by exists w'.
Qed.

Lemma returns_upsert_version gv w (s : WorkflowState) :
  takes_upserts -> exists w', returns h (UpsertGlobalVersionSearchAttribute gv) w s None w' s.
Proof.
  intros Hu. unfold UpsertGlobalVersionSearchAttribute.
  destruct (IsUsingGlobalVersionSearchAttribute gv); [|by exists w].
  unfold returns, mbind, thread_mbind. cbn [call thread_bind exec].
  destruct (h _ GetBackendType w) as [backend w1].
  destruct (bool_decide (backend <> BackendTypeCadence)); [apply (returns_upsert _ w1 s Hu) | by exists w1].
Qed.

(** The set-up of a continuation, given what the loading gives. *)
Lemma setup_resumed unmarshal dumpConfig fuel input runId s s0 w :
  takes_upserts -> state_ok s ->
  (forall w (st : WorkflowState), exists w', returns h (LoadInternalsFromPreviousRun unmarshal fuel dumpConfig runId
     (GetContinueAsNewPageSizeInBytes (wc_Get (w_configer s)))) w st (Some (inl (GetSnapshot s))) w' st) ->
  exists w' s' ts,
    exec h (setup unmarshal dumpConfig fuel (continue_as_new_input input (wc_Get (w_configer s)) runId)) w s0 =
      Some (Some None, w', s', ts) /\ continues s s'.
Proof.
  intros Hu Hok Hload. unfold setup, mbind, thread_mbind.
  destruct (returns_version w s0) as (v & w1 & E1). rewrite exec_bind, E1. cbn [put_part thread_bind exec].
  set (s1 := set_part _ s0).
  destruct (returns_upsert_version (mkGlobalVersioner v) w1 s1 Hu) as (w2 & E2). rewrite exec_bind, E2.
  match goal with |- context [exec h (thread_bind ?t _) w2 s1] => assert (exists w3, returns h t w2 s1 None w3 s1) as (w3 & E3) end.
  { destruct (_ && _); [apply (returns_upsert _ w2 s1 Hu) | by exists w2]. }
  rewrite exec_bind, E3. cbn [put_part thread_bind exec continue_as_new_input in_IsResumeFromContinueAsNew
    in_ContinueAsNewInput in_Config deref lift_gores PreviousInternalRunId].
  set (s2 := set_part (P := WorkflowConfiger) _ s1).
  destruct (Hload w3 s2) as (w4 & E4). rewrite exec_bind, E4.
  set (next := continue_as_new_input input (wc_Get (w_configer s)) runId).
  destruct (init_resumed_exec fuel next (GetSnapshot s) w4 s2) as (ts & tp & Hd & Hi & E5).
  cbn [exec]. rewrite exec_bind. change (mkInterpreterWorkflowInput _ _ _ _ _ _ _ _ _ _ _ _ _) with next. rewrite E5.
  do 3 eexists. split; [reflexivity|]. apply continues_of_snapshot; try done.
  subst s2. by destruct s1.
Qed.
End continuation.

(** ** The next run over HTTP *)

Section next_run.
Context {W : Type} {FT : FloatText} {NT : NetText} (md5 : list ascii -> string).
Context {E : Type -> Type} (c : UnifiedClient E) (sdk : forall X, E X -> M W X).
Context (s : serviceImpl) (others : forall X, apiE X -> M W X).
Context (env : ActivityEnv W) (DefaultHeaders : gmap string string).
Context (h : forall X, providerE X -> W -> X * W) (wid runId : string).

(** C10: nothing is lost when a workflow continues as new.  Whatever the coroutines of a run
    have done, the set-up of the next run, which loads the snapshot through the dump
    activity, the generated client, the API and a query of the previous run, comes to
    its end in a state that continues the previous one ([continues]): the same states
    to start in the same order, each waiting execution once with its commands, the
    same messages, signals, attributes, counts, outputs, skips and configuration, no
    lock and no timer; and it is well-formed again.  For a previous run that began
    well-formed and has stopped, a snapshot of values that JSON carries, whose pages
    (of a positive size, their total within 32 bits) cut no character in two, enough
    fuel for its pages, and a backend that accepts upserts. *)
Theorem next_run_continues ts s0 p fuel config input st w :
  let previous := shared p in
  let pageSize := GetContinueAsNewPageSizeInBytes (wc_Get (w_configer previous)) in
  Forall workflow_coroutine ts -> state_ok s0 -> rtc step (mkPool (Done tt) ts s0) p -> at_yield (active p) = true ->
  path_of md5 c sdk s others env DefaultHeaders wid runId pageSize (fun _ => GetSnapshot previous) ->
  executes_dumps env h wid -> takes_upserts h ->
  carries ContinueAsNewDumpResponse_codec (GetSnapshot previous) = true ->
  whole_characters (W := W) pageSize (fun _ => GetSnapshot previous) ->
  served_ok (arrived_md5 md5) (fun _ : W => snapshot_text (GetSnapshot previous)) pageSize ->
  (total_pages pageSize (snapshot_text (GetSnapshot previous)) <= Z.of_nat fuel)%Z ->
  exists w' s' ts',
    exec h (setup (Unmarshal ContinueAsNewDumpResponse_codec) config fuel
      (continue_as_new_input input (wc_Get (w_configer previous)) runId)) w st = Some (Some None, w', s', ts') /\
    continues previous s' /\ state_ok s'.
Proof.
  intros previous pageSize Hts Hs0 Hr Hy Hp Hh Hu Hc Hw Hok Hf.
  assert (state_ok previous) as Hs by by apply (coroutines_keep_ok ts s0).
  destruct (setup_resumed h (Unmarshal ContinueAsNewDumpResponse_codec) config fuel input runId previous st w Hu Hs)
    as (w' & s' & ts' & E1 & E2).
  { intros w1 st1. by eapply load_over_http. }
  exists w', s', ts'. split; [exact E1|]. split; [exact E2 | by eapply continues_ok].
Qed.
End next_run.
