(* ===== verification/Examples.v ===== *)
(** * Whole workflows run on the simulated backend

    The interpreter, with all its coroutines, run to the end on the backend of
    Simulate.v: a workflow that branches and completes, one whose state waits for
    a timer or a signal, one that continues as new while a state waits, and a run
    that shows a signal handler stopping too early.  Each run is evaluated by the
    kernel, and [run_pool_steps] makes it a run of the pool's step relation. *)

From S2P Require Import Interpreter Simulate.

Notation run_state := (prog WorkflowState unit * list (prog WorkflowState unit) * World * WorkflowState)%type.

Definition sample_config (threshold : Z) : WorkflowConfig :=
  mkWorkflowConfig None None (Some threshold) None None None.

Definition sample_input (startStateId : option string) (threshold : Z) : InterpreterWorkflowInput :=
  mkInterpreterWorkflowInput "wf" "url" startStateId [] [] None None [] [] false
    (sample_config threshold) false None.

(** How a run returned. *)
Definition describe (r : option interpreter_result) : string :=
  match r with
  | Some (_, None) => "completed"
  | Some (_, Some (OtherError msg)) => msg
  | Some (_, Some (ApplicationError _ _)) => "failed"
  | None => "out of fuel"
  end.

(** The simulation stops, with the description, when the workflow returns. *)
Definition workflow_main (unmarshal : list Ascii.ascii -> option ContinueAsNewDumpResponse)
  (input : InterpreterWorkflowInput) : wprog unit :=
  r ← InterpreterImpl unmarshal None 60 input; Crash (describe r).

Definition run_workflow (b : Workers) (unmarshal : list Ascii.ascii -> option ContinueAsNewDumpResponse)
  (input : InterpreterWorkflowInput) (w : World) : run_state :=
  run_pool b 4000 (workflow_main unmarshal input) [] w (initial_state (in_Config input)).

(** Let a stuck run go on after something happened in the world. *)
Definition run_on (b : Workers) (f : World -> World) (x : run_state) : run_state :=
  let '(t, ws, w, s) := x in run_pool b 4000 t ws (f w) s.

Definition no_snapshot : list Ascii.ascii -> option ContinueAsNewDumpResponse := fun _ => None.
(** ** Workers *)

Definition movement (stateId : string) (input : option EncodedObject) : StateMovement :=
  mkStateMovement stateId input None None.
Definition text (s : string) : option EncodedObject := Some (mkEncodedObject None None None (Some s)).
Definition answer_decision (next : list StateMovement) : WorkflowStateDecideResponse + error :=
  inl (mkWorkflowStateDecideResponse None (Some (mkStateDecision next None)) [] [] [] [] []).
Definition command_request (commands : CommandRequest) : WorkflowStateStartResponse + error :=
  inl (mkWorkflowStateStartResponse None [] [] (Some commands) [] [] []).

(** State A starts B and C; B completes the workflow, C is a dead end. *)
Definition branching_workers : Workers :=
  mkWorkers (fun _ => command_request empty_CommandRequest)
    (fun i =>
       let id := wd_WorkflowStateId (sd_Request i) in
       answer_decision (if bool_decide (id = "A") then [movement "B" None; movement "C" None]
               else if bool_decide (id = "B")
                    then [movement GracefulCompletingWorkflowStateId (text "done by B")]
                    else [movement DeadEndWorkflowStateId None]))
    (fun _ => inr (OtherError "no rpc")) (fun _ => inr (OtherError "no dump")).

(** State W waits for a timer of ten seconds or a signal, and completes the
    workflow with what it got. *)
Definition wait_commands : CommandRequest :=
  mkCommandRequest (Some ANY_COMMAND_COMPLETED) None
    [mkTimerCommand (Some "t") None (Some 10%Z)] [mkSignalCommand (Some "s") "go" None None] [] [].

Definition what_completed (results : option CommandResults) : string :=
  match results with
  | Some r =>
      match SignalResults r, TimerResults r with
      | [mkSignalResult _ RECEIVED _ v], _ =>
          "signal " +:+ default EmptyString (v ≫= Data)
      | _, [mkTimerResult _ FIRED] => "timer"
      | _, _ => "nothing"
      end
  | None => "no commands"
  end.

Definition finish (i : StateDecideActivityInput) : WorkflowStateDecideResponse + error :=
  answer_decision [movement GracefulCompletingWorkflowStateId
            (text (what_completed (wd_CommandResults (sd_Request i))))].

Definition waiting_workers : Workers :=
  mkWorkers (fun _ => command_request wait_commands) finish
    (fun _ => inr (OtherError "no rpc")) (fun _ => inr (OtherError "no dump")).

(** The workers of a run that goes on after continue-as-new: the waitUntil API is
    not to be called again. *)
Definition one_page : list Ascii.ascii := ["x"%char].
Definition resumed_workers : Workers :=
  mkWorkers (fun _ => inr (OtherError "waitUntil must not run again")) finish
    (fun _ => inr (OtherError "no rpc"))
    (dump_answer (fun _ => "sum") one_page).

(** ** What a run shows *)

Definition world_of (x : run_state) : World := let '(_, _, w, _) := x in w.
Definition state_of (x : run_state) : WorkflowState := let '(_, _, _, s) := x in s.
Definition stopped (x : run_state) : option string :=
  let '(t, _, _, _) := x in match t with Crash msg => Some msg | _ => None end.
Definition outputs_of (x : run_state) : list (string * string) :=
  map (fun o => (CompletedStateExecutionId o, default EmptyString (CompletedStateOutput o ≫= Data)))
    (outputs (w_outputs (state_of x))).
(** No coroutine can go on: the run waits for the world. *)
Definition stuck (b : Workers) (x : run_state) : bool :=
  let '(t, ws, w, s) := x in
  forallb (fun t => match wake b t w s with None => true | Some _ => false end) (t :: ws).

Definition value (s : string) : EncodedObject := mkEncodedObject None None None (Some s).

(** The simulated backend's signal channels are as the drain needs them. *)
#[export] Program Instance sim_inbox b : Inbox (sim b) := {|
  pending_signals := fun T ty n w => pending ty n w
|}.
Next Obligation.
  intros b T ty n w. cbn [sim]. destruct (pop_spec ty n w) as [H1 H2].
  split_and!; [done | done | intros; by apply pop_other].
Qed.
Next Obligation. intros b w. split; [done | intros T ty n; apply elem_of_unhandled]. Qed.
Next Obligation. done. Qed.
Next Obligation. done. Qed.
Next Obligation. done. Qed.

(** Every such run is a run of the pool. *)
Lemma run_workflow_steps b unmarshal input w t ws w' s :
  run_workflow b unmarshal input w = (t, ws, w', s) ->
  rtc step (mkPool (workflow_main unmarshal input) [] (initial_state (in_Config input))) (mkPool t ws s).
Proof. unfold run_workflow. apply run_pool_steps. Qed.

(** ** The runs *)

Definition branching_run : run_state :=
  run_workflow branching_workers no_snapshot (sample_input (Some "A") 100) (quiet_world 0).

(** A whole run of the interpreter: state A starts B and C in parallel, both call
    their waitUntil and execute APIs, C is a dead end, and the workflow completes
    with the output of B's execution once both are done; the events are reported in
    that order, and no state id is left in the executing counts. *)
Theorem branching_workflow_completes :
  stopped branching_run = Some "completed" /\
  outputs_of branching_run = [("B-1", "done by B")] /\
  events (world_of branching_run) =
    [WORKFLOW_START_EVENT; STATE_WAIT_UNTIL_EE_START_EVENT; STATE_WAIT_UNTIL_EE_COMPLETE_EVENT;
     STATE_EXECUTE_EE_START_EVENT; STATE_EXECUTE_EE_COMPLETE_EVENT;
     STATE_WAIT_UNTIL_EE_START_EVENT; STATE_WAIT_UNTIL_EE_START_EVENT;
     STATE_WAIT_UNTIL_EE_COMPLETE_EVENT; STATE_EXECUTE_EE_START_EVENT;
     STATE_WAIT_UNTIL_EE_COMPLETE_EVENT; STATE_EXECUTE_EE_START_EVENT;
     STATE_EXECUTE_EE_COMPLETE_EVENT; STATE_EXECUTE_EE_COMPLETE_EVENT; WORKFLOW_COMPLETE_EVENT] /\
  totalCurrentlyExecutingCount (w_counter (state_of branching_run)) = 0%Z /\
  DeterministicKeys (stateIdCurrentlyExecutingCounts (w_counter (state_of branching_run))) = [].
Proof. split_and!; vm_compute; reflexivity. Qed.

Definition waiting_run (w : World) : run_state :=
  run_workflow waiting_workers no_snapshot (sample_input (Some "W") 100) w.
Definition with_signal : World -> World := signal SigValue "go" (value "v").

(** A state that waits for the first of a timer and a signal: without a signal
    the execute API runs when the timer fires, ten seconds later, and sees the timer
    fired and the signal waiting; with the signal it runs at once, sees the
    signal's value, and consumes it. *)
Theorem timer_or_signal_workflow :
  stopped (waiting_run (quiet_world 0)) = Some "completed" /\
  outputs_of (waiting_run (quiet_world 0)) = [("W-1", "timer")] /\
  clock (world_of (waiting_run (quiet_world 0))) = 10000000000%Z /\
  stopped (waiting_run (with_signal (quiet_world 0))) = Some "completed" /\
  outputs_of (waiting_run (with_signal (quiet_world 0))) = [("W-1", "signal v")] /\
  clock (world_of (waiting_run (with_signal (quiet_world 0)))) = 0%Z /\
  receivedSignals (w_signals (state_of (waiting_run (with_signal (quiet_world 0))))) = ∅.
Proof. split_and!; vm_compute; reflexivity. Qed.

(** The run that is told to continue as new while W waits, and the next run, which
    loads its snapshot. *)
Definition first_run : run_state :=
  waiting_run (signal SigTrigger TriggerContinueAsNewSignalChannelName tt (quiet_world 0)).
Definition snapshot : ContinueAsNewDumpResponse := GetSnapshot (state_of first_run).
Definition next_input : InterpreterWorkflowInput :=
  continue_as_new_input (sample_input (Some "W") 100) (wc_Get (w_configer (state_of first_run))) "run".
Definition next_run : run_state :=
  run_workflow resumed_workers (fun _ => Some snapshot) next_input (with_signal (quiet_world 20000000000)).

(** A state that waits for its commands survives continue-as-new: the run stops
    with the continue-as-new error and the execution in its snapshot; the next run
    resumes it under the same execution id, without calling waitUntil again and
    with the timer that is due already, and completes the workflow. *)
Example waiting_state_survives_continue_as_new :
  stopped first_run = Some "continue as new" /\
  DeterministicKeys (StateExecutionsToResume snapshot) = ["W-1"] /\
  stopped next_run = Some "completed" /\
  map fst (outputs_of next_run) = ["W-1"] /\
  StateExecutionToResumeMap (w_newer (state_of next_run)) = ∅.
Proof. split_and!; vm_compute; reflexivity. Qed.

(** A workflow without states gets, in one workflow task, a skip-timer signal that
    meets its threshold of one and a configuration update that raises it; then
    another skip-timer signal. *)
Definition skip_signal : World -> World :=
  signal SigSkip SkipTimerSignalChannelName (mkSkipTimerSignalRequest "A-1" "t" 0).
Definition raised_run : run_state :=
  run_on no_workers
    (fun w => signal SigConfig UpdateConfigSignalChannelName (sample_config 100) (skip_signal w))
    (run_workflow no_workers no_snapshot (sample_input None 1) (quiet_world 0)).
Definition after_raise : run_state := run_on no_workers skip_signal raised_run.

(** A threshold that is met and then raised stops signal handlers for good: the
    skip-timer handler returns because the threshold is met, the configuration
    update raises the threshold, so the run does not continue as new, and the next
    skip-timer signal stays unprocessed although the workflow goes on. *)
Theorem raised_threshold_stops_handlers :
  stopped after_raise = None /\ stuck no_workers after_raise = true /\
  threshold_met (state_of after_raise) = false /\
  length (pending SigSkip SkipTimerSignalChannelName (world_of raised_run)) = 0%nat /\
  length (pending SigSkip SkipTimerSignalChannelName (world_of after_raise)) = 1%nat /\
  length (tp_Dump (w_timers (state_of after_raise))) = 1%nat.
Proof. split_and!; vm_compute; reflexivity. Qed.

