(* ===== verification/TestSystem.v ===== *)
(** * The whole system, executable

    The API service (Api.v), the interpreter with its coroutines on the backend of
    Simulate.v, the activities (Activity.v) and a worker put together: requests of a
    client start, signal and query a workflow whose states call the worker.  The
    workers of integ/workflow and the tests of integ are programs on it
    (TestWorkers.v).  Left out: the text of HTTP and JSON between the parts (IdlClient.v,
    ClientServer.v have it).  The external storage is an S3 in memory. *)

From S2P Require Export MemoryS3 JsonText ServiceJson ApiJson Simulate Interpreter Activity ApiFacts Api Examples.

#[export] Existing Instance whole_floats.

(** ** A worker

    integ/util.go, integ/workflow/common/interfaces.go: the handlers of the three
    calls of a worker.  They answer 200 with a body, or an error status with the text of
    one; [t.Fatal] and a panic end the request. *)

Inductive reply (A : Type) : Type :=
| ReplyOK (body : A)
| ReplyError (status : Z) (body : string).
Arguments ReplyOK {A} body.
Arguments ReplyError {A} status body.
Notation answer A := (M WorkerState (reply A)).

Record WorkflowHandler : Type := mkWorkflowHandler {
  ApiV1WorkflowStateStart : Z -> WorkflowStateStartRequest -> answer WorkflowStateStartResponse;
  ApiV1WorkflowStateDecide : Z -> WorkflowStateDecideRequest -> answer WorkflowStateDecideResponse;
  ApiV1WorkflowWorkerRpc : Z -> WorkflowWorkerRpcRequest -> answer WorkflowWorkerRpcResponse
}.

Definition reply_ok {A} (a : A) : answer A := mret (ReplyOK a).
Definition bad_request {A} : answer A := mret (ReplyError 400 "{}").

(** helpers.FailTestWithErrorMessage *)
Definition FailTestWithErrorMessage {A} (msg : string) : M WorkerState A := liftM (Panic msg).

(** [h.invokeHistory.Store(key, value+1)], or 1 for a new key. *)
Definition count_invocation (key : string) : M WorkerState unit := fun h =>
  Ret (tt, mkWorkerState (<[key := (map_get 0 (invokeHistory h) key + 1)%Z]> (invokeHistory h))
             (invokeData h) (flags h) (complaint h) (stored_objects h) (waiting_workflows h)).

(** [h.invokeData.Store(key, value)] *)
Definition store_data (key : string) (value : datum) : M WorkerState unit := fun h =>
  Ret (tt, mkWorkerState (invokeHistory h) (<[key := value]> (invokeData h)) (flags h) (complaint h)
             (stored_objects h) (waiting_workflows h)).

(** A flag of the handler: is it set, and setting it. *)
Definition has_flag (key : string) : M WorkerState bool := fun h => Ret (map_get false (flags h) key, h).
Definition set_flag (key : string) : M WorkerState unit := fun h =>
  Ret (tt, mkWorkerState (invokeHistory h) (invokeData h) (<[key := true]> (flags h)) (complaint h)
             (stored_objects h) (waiting_workflows h)).

(** What the generated client makes of an answer; a request that was ended is noted. *)
Definition answered {A} (m : answer A) (h : WorkerState) : api_result A * WorkerState :=
  match m h with
  | Ret (ReplyOK a, h) => (mkapi_result (Some a) (Some (mkhttp_response 200 (inl EmptyString))) None, h)
  | Ret (ReplyError status body, h) =>
      (mkapi_result None (Some (mkhttp_response status (inl body))) (Some (pretty status)), h)
  | Panic msg =>
      (mkapi_result None None (Some msg),
       mkWorkerState (invokeHistory h) (invokeData h) (flags h) (Some msg) (stored_objects h) (waiting_workflows h))
  end.

(** ** The external storage

    integ/config.go, integ/util.go: with a threshold the service stores larger values in
    an S3, here the one of MemoryS3.v among the rest of what the worker remembers. *)

Class IwfServiceTestConfig : Type := mkIwfServiceTestConfig { S3TestThreshold : Z }.
(** Most tests have none. *)
#[export] Instance no_storage : IwfServiceTestConfig | 10 := mkIwfServiceTestConfig 0.

Definition test_storage : BlobStorageConfig :=
  mkBlobStorageConfig StorageStatusActive "s3-store-id" StorageTypeS3 "http://localhost:9000"
    "iwf-test-bucket" "us-east-1" "minioadmin" "minioadmin" EmptyString.
Definition createTestConfig (testCfg : IwfServiceTestConfig) : ExternalStorageConfig :=
  if (0 <? S3TestThreshold)%Z then mkExternalStorageConfig true S3TestThreshold [test_storage] 3
  else mkExternalStorageConfig false 0 [] 0.

(** What runs on the objects, run on all that is remembered. *)
Definition on_objects {A} (m : M memory A) : M WorkerState A := fun h =>
  match m (stored_objects h) with
  | Ret (a, objects) => Ret (a, mkWorkerState (invokeHistory h) (invokeData h) (flags h) (complaint h) objects
                           (waiting_workflows h))
  | Panic msg => Panic msg
  end.
Definition globalBlobStore (testCfg : IwfServiceTestConfig) : option (blobStoreImpl memory) :=
  match NewBlobStore memory_s3 "default" (createTestConfig testCfg) with Ret b => b | Panic _ => None end.
Definition test_store (testCfg : IwfServiceTestConfig) : option (BlobStore WorkerState) :=
  b ← globalBlobStore testCfg;
  let s := blobStore_of b 10 in
  Some (mkBlobStore (fun workflowId data => on_objects (WriteObject s workflowId data))
    (fun storeId path => on_objects (ReadObject s storeId path))
    (fun storeId path => on_objects (DeleteWorkflowObjects s storeId path))
    (fun storeId token => on_objects (ListWorkflowPaths s storeId token))).

(** ** Its activities *)

Section system.
Context (worker_handler : WorkflowHandler) {testCfg : IwfServiceTestConfig}.

(** The environment of an attempt at a time (unix nanoseconds). *)
Definition test_env (attempt now : Z) : ActivityEnv WorkerState := mkActivityEnv WorkerState
  (test_store testCfg) (createTestConfig testCfg) 60 "http://api" (fun _ => EmptyString)
  (mkActivityInfo now attempt false (mkWorkflowExecution "wid" "run")) None (fun h => (now, h))
  (fun _ req => answered (ApiV1WorkflowStateStart worker_handler now req))
  (fun _ req => answered (ApiV1WorkflowStateDecide worker_handler now req))
  (fun _ _ req => answered (ApiV1WorkflowWorkerRpc worker_handler now req))
  (fun _ _ h => (mkapi_result None None (Some "no dump"), h))
  (fun body => Unmarshal WorkerErrorResponse_codec (String.list_ascii_of_string body))
  (fun _ => EmptyString) (fun _ => EmptyString) (fun _ h => (tt, h)) (fun _ h => (None, h))
  (fun _ => false) (fun h => (tt, h)).

(** The result of an activity; one that panics fails. *)
Definition activity_result {A} (m : M WorkerState (option A + error)) (h : WorkerState) :
  (A + error) * WorkerState :=
  match m h with
  | Ret (inl (Some a), h) => (inl a, h)
  | Ret (inl None, h) => (inr (OtherError "no response"), h)
  | Ret (inr e, h) => (inr e, h)
  | Panic msg => (inr (OtherError msg), h)
  end.

(** The dump of the previous run, if there was one, is answered from its state. *)
Definition test_workers (previous : option WorkflowState) : Workers := mkStatefulWorkers
  (fun attempt now input => activity_result (StateApiWaitUntil (test_env attempt now) input []))
  (fun attempt now input => activity_result (StateApiExecute (test_env attempt now) input))
  (fun _ => inr (OtherError "no rpc"))
  (fun request => match previous with
                  | Some s => dump_answer (fun _ => "md5") (Marshal ContinueAsNewDumpResponse_codec (GetSnapshot s)) request
                  | None => inr (OtherError "no previous run")
                  end).

(** ** A workflow *)

Record running : Type := mkrunning {
  started_with : StartWorkflowOptions;
  stopped_as : option WorkflowStatus;                 (* by a cancellation or termination *)
  previous_run : option WorkflowState;                (* that continued as new *)
  run_input : InterpreterWorkflowInput;
  run : run_state
}.

Record system : Type := mksystem {
  sys_worker : WorkerState;                           (* before a workflow runs *)
  sys_clock : Z;
  sys_held : bool;                                    (* a worker is busy: the workflow does not go on *)
  sys_run : option running
}.

Definition new_system (now : Z) : system := mksystem new_worker now false None.
Definition set_held (b : bool) (sys : system) : system :=
  mksystem (sys_worker sys) (sys_clock sys) b (sys_run sys).

Definition system_world (sys : system) : World :=
  match sys_run sys with
  | Some r => world_of (run r)
  | None => set_worker (sys_worker sys) (quiet_world (sys_clock sys))
  end.

Definition set_run (r : running) (sys : system) : system :=
  mksystem (sys_worker sys) (sys_clock sys) (sys_held sys) (Some r).

(** What the worker and the storage do between the steps of the workflow. *)
Definition on_worker {A} (m : M WorkerState A) : M system A := fun sys =>
  match m (worker (system_world sys)) with
  | Ret (a, h) =>
      Ret (a, match sys_run sys with
              | Some (mkrunning o c p input (t, ws, w, s)) =>
                  set_run (mkrunning o c p input (t, ws, set_worker h w, s)) sys
              | None => mksystem h (sys_clock sys) (sys_held sys) None
              end)
  | Panic msg => Panic msg
  end.

(** A run that ends to continue as new is followed by the next one, which has its own
    timers and finds the signals that are left; [fuel] runs at most. *)
Fixpoint follow (fuel : nat) (r : running) : running :=
  match fuel, stopped (run r) with
  | S fuel', Some "continue as new" =>
      let s := state_of (run r) in
      let input := continue_as_new_input (run_input r) (wc_Get (w_configer s)) "run" in
      follow fuel' (mkrunning (started_with r) (stopped_as r) (Some s) input
        (run_workflow (test_workers (Some s)) (Unmarshal ContinueAsNewDumpResponse_codec) input
           (clear_timers (world_of (run r)))))
  | _, _ => r
  end.

(** Lets the workflow run until nothing can happen before the horizon. *)
Definition go_on (h : option Z) (r : running) : running :=
  match stopped_as r with
  | Some _ => r
  | None => follow 20 (mkrunning (started_with r) None (previous_run r) (run_input r)
              (run_on (test_workers (previous_run r)) (set_horizon h) (run r)))
  end.
Definition let_run (h : option Z) (sys : system) : system :=
  match sys_run sys with
  | Some r => if sys_held sys then sys else set_run (go_on h r) sys
  | None => sys
  end.

Definition set_run_world (f : World -> World) (sys : system) : system :=
  match sys_run sys with
  | Some (mkrunning o c p input (t, ws, w, s)) => set_run (mkrunning o c p input (t, ws, f w, s)) sys
  | None => sys
  end.

(** [time.Sleep(d)] of the test. *)
Definition sleep (d : Z) : M system unit := fun sys =>
  let until := (clock (system_world sys) + d)%Z in
  Ret (tt, set_run_world (fun w => set_clock (Z.max until (clock w)) w) (let_run (Some until) sys)).

(** ** The backend the service talks to *)

Definition not_exists : error := OtherError "not found".
Definition already_exists : error := OtherError "already started".
Definition still_running : error := OtherError "deadline".
Definition has_text (s : string) (e : error) : bool :=
  match e with OtherError msg => bool_decide (msg = s) | _ => false end.

Definition test_errors : errorHandler := mkerrorHandler
  (fun e => match e with ApplicationError ty _ => Some ty | OtherError _ => None end)
  (fun e => match e with ApplicationError _ (DetailsOutputs l) => inl l | _ => inr e end)
  (fun e => match e with ApplicationError _ (DetailsString s) => inl s | _ => inr e end)
  (has_text "already started") (fun _ => "run") (has_text "not found") (has_text "deadline")
  (has_text "timeout").

Definition workflow_status (r : running) : WorkflowStatus :=
  match stopped_as r, stopped (run r) with
  | Some status, _ => status
  | None, None => RUNNING
  | None, Some "completed" => COMPLETED
  | None, Some _ => FAILED
  end.

(** May a workflow be started under the id of this one? *)
Definition may_reuse (policy : option WorkflowIDReusePolicy) (r : running) : bool :=
  match workflow_status r with
  | RUNNING => bool_decide (policy = Some TERMINATE_IF_RUNNING)
  | COMPLETED => negb (bool_decide (policy = Some REJECT_DUPLICATE)) &&
                 negb (bool_decide (policy = Some ALLOW_DUPLICATE_FAILED_ONLY))
  | _ => negb (bool_decide (policy = Some REJECT_DUPLICATE))
  end.

Definition stop_as (status : WorkflowStatus) (r : running) : running :=
  if bool_decide (workflow_status r = RUNNING)
  then mkrunning (started_with r) (Some status) (previous_run r) (run_input r) (run r) else r.

(** The workflow the request names, if it is the one that was started. *)
Definition named (wid : string) (sys : system) : option running :=
  if bool_decide (wid = "wid") then sys_run sys else None.

(** The handler of the query for an RPC runs at once, on the state as it is. *)
Definition prepare_rpc (input : InterpreterWorkflowInput) (x : run_state) (request : PrepareRpcQueryRequest) :
  option PrepareRpcQueryResponse :=
  fst <$> own_run (test_workers None) (fun s => s)
    (query_prepare_rpc (mkBasicInfo (in_IwfWorkflowType input) (in_IwfWorkerUrl input)) request)
    (world_of x) (state_of x).

Definition run_query {T} (q : query T) (input : InterpreterWorkflowInput) (x : run_state) : T + error :=
  match q in query T return T + error with
  | QueryDataAttributes keys => inl (query_data_attributes keys (state_of x))
  | QueryPrepareRpc request => inl (prepare_rpc input x request)
  | QueryTimerInfos => inl (query_timer_infos (state_of x))
  | QueryDumpPage _ => inr (OtherError "no dump")
  end.

Definition workflow_result (r : running) : InterpreterWorkflowOutput + error :=
  let x := run r in
  match stopped_as r, stopped x with
  | Some _, _ => inr (OtherError "stopped")
  | None, None => inr still_running
  | None, Some "completed" => inl (mkInterpreterWorkflowOutput (outputs (w_outputs (state_of x))))
  | None, Some msg => inr (default (OtherError msg) (failure (world_of x)))
  end.

(** The workflow that waits for a state, run with the signals it was sent. *)
Definition waiting_result (signals : list StateCompletionOutput) : StateCompletionOutput + error :=
  match signals with
  | [] => inr still_running
  | _ =>
      match own_run (test_workers None) (fun s => s) WaitForStateCompletionWorkflowImpl
              (set_signals SigCompletion {[StateCompletionSignalChannelName := signals]} (quiet_world 0)) tt with
      | Some (output, _) => inl output
      | None => inr still_running
      end
  end.

(** Is there such a workflow, and what is known of its result now. *)
Definition known {T} (ty : result_of T) (wid : string) (sys : system) : bool :=
  match ty with
  | ResultOutput => match named wid sys with Some _ => true | None => false end
  | ResultStateCompletion => bool_decide (wid ∈ dom (waiting_workflows (worker (system_world sys))))
  end.
Definition result_now {T} (ty : result_of T) (wid : string) (sys : system) : T + error :=
  match ty in result_of T return T + error with
  | ResultOutput => match named wid sys with Some r => workflow_result r | None => inr not_exists end
  | ResultStateCompletion =>
      match waiting_workflows (worker (system_world sys)) !! wid with
      | Some signals => waiting_result signals
      | None => inr not_exists
      end
  end.

(** A workflow that is about to run. *)
Definition about_to_run (input : InterpreterWorkflowInput) (w : World) : run_state :=
  (workflow_main no_snapshot input, [], w, initial_state (in_Config input)).

(** Starting runs the workflow up to what can happen at once, unless a test holds it;
    waiting for its result lets it run up to the deadline. *)
Definition on_client {X} (e : clientE X) : M system X :=
  match e in clientE X return M system X with
  | StartInterpreterWorkflow options input => fun sys =>
      if default true (may_reuse (swo_WorkflowIDReusePolicy options) <$> sys_run sys) then
        let w := system_world sys in
        let w := set_horizon (Some (clock w)) (set_worker (worker w) (quiet_world (clock w))) in
        Ret (inl "run", set_run
          (if sys_held sys then mkrunning options None None input (about_to_run input w)
           else follow 20 (mkrunning options None None input
                  (run_workflow (test_workers None) no_snapshot input w))) sys)
      else Ret (inr already_exists, sys)
  | SignalWorkflow wid _ name ty arg => fun sys =>
      match named wid sys with
      | None => Ret (Some not_exists, sys)
      | Some _ =>
          let sys := set_run_world (signal ty name arg) sys in
          Ret (None, let_run (Some (clock (system_world sys))) sys)
      end
  | QueryWorkflow wid _ q => fun sys =>
      Ret (match named wid sys with
           | None => inr not_exists
           | Some r => run_query q (run_input r) (run r)
           end, sys)
  | DescribeWorkflow wid _ _ => fun sys =>
      Ret (match named wid sys with
           | None => inr not_exists
           | Some r =>
               inl (mkDescribeWorkflowExecutionResponse (workflow_status r) "run" "run"
                      (searchAttributes (w_persistence (state_of (run r)))) (swo_Memo (started_with r)) 0)
           end, sys)
  | CancelWorkflow wid _ => fun sys =>
      match named wid sys with
      | None => Ret (Some not_exists, sys)
      | Some r => Ret (None, set_run (stop_as CANCELED r) sys)
      end
  | TerminateWorkflow wid _ _ => fun sys =>
      match named wid sys with
      | None => Ret (Some not_exists, sys)
      | Some r => Ret (None, set_run (stop_as TERMINATED r) sys)
      end
  | GetWorkflowResult deadline ty wid _ => fun sys =>
      if known ty wid sys then
        let sys := let_run ((fun d => (d * SecondNs)%Z) <$> deadline) sys in
        Ret (result_now ty wid sys, sys)
      else Ret (inr not_exists, sys)
  | StartWaitForStateCompletionWorkflow options =>
      _ ← on_worker (fun h => Ret (tt, signal_waiting (swo_ID options) [] h));
      mret (inl "run")
  | _ => fun _ => Panic "not in the test system"
  end.

(** [m], with the workflow held until it is over: what it sends arrives together with
    what comes next. *)
Definition hold {A} (m : M system A) : M system A := fun sys =>
  match m (set_held true sys) with
  | Ret (a, sys) => Ret (a, set_held false sys)
  | Panic msg => Panic msg
  end.

(** The calls of the service; the worker answers its RPCs. *)
Definition on_api {X} (e : apiE X) : M system X :=
  match e in apiE X return M system X with
  | Client c => on_client c
  | StoreWrite workflowId data =>
      match test_store testCfg with
      | Some s => on_worker (WriteObject s workflowId data)
      | None => fun _ => Panic "no storage"
      end
  | StoreRead storeId path =>
      match test_store testCfg with
      | Some s => on_worker (ReadObject s storeId path)
      | None => fun _ => Panic "no storage"
      end
  | CallWorkerRpc rpcPrep req => fun sys =>
      let w := system_world sys in
      match InvokeWorkerRpc (FixWorkerUrl (test_env 1 (clock w))) (UnmarshalWorkerError (test_env 1 (clock w)))
              (ApiV1WorkflowWorkerRpcPost_ (test_env 1 (clock w))) (time_Now_Unix (test_env 1 (clock w)))
              None rpcPrep req 60 (test_store testCfg) (createTestConfig testCfg) (worker w) with
      | Ret (r, h) => Ret (Ret r, set_run_world (set_worker h) sys)
      | Panic msg => Ret (Panic msg, sys)
      end
  | TimeNowNs => fun sys => Ret (clock (system_world sys), sys)
  | ApiHandleEvent _ => fun sys => Ret (tt, sys)
  | _ => fun _ => Panic "not in the test system"
  end.

Definition test_service : serviceImpl :=
  mkserviceImpl test_errors BackendTypeTemporal (0 <? S3TestThreshold)%Z "Interpreter_DEFAULT"
    (createTestConfig testCfg) None true 60 None "old" None.

(** A request to the service. *)
Definition api {A} (handler : serviceImpl -> proc apiE A) : M system A :=
  interp (fun X (e : apiE X) => on_api e) (handler test_service).

(** GetTestResult, and what the worker complained about. *)
Definition GetTestResult : M system WorkerState := fun sys => Ret (worker (system_world sys), sys).
End system.

(** [time.Now()] of the test. *)
Definition system_now : M system Z := fun sys => Ret (clock (system_world sys), sys).

(** [assertions]: all must hold. *)
Definition asserted (l : list bool) : bool := forallb id l.

(** ** The workflow of a system is a run of the interpreter

    Whatever requests are made, the coroutines of the workflow and its state are reached
    from the interpreter's start by steps of the pool, in each run of it. *)

Definition unmarshal_of (previous : option WorkflowState) : list Ascii.ascii -> option ContinueAsNewDumpResponse :=
  match previous with Some _ => Unmarshal ContinueAsNewDumpResponse_codec | None => no_snapshot end.

Definition genuine (r : running) : Prop :=
  let '(t, ws, _, s) := run r in
  rtc step (mkPool (workflow_main (unmarshal_of (previous_run r)) (run_input r)) []
              (initial_state (in_Config (run_input r)))) (mkPool t ws s).

Definition genuine_system (sys : system) : Prop :=
  match sys_run sys with Some r => genuine r | None => True end.

(** What a client does keeps that. *)
Definition upholds {A} (m : M system A) : Prop := forall sys a sys',
  genuine_system sys -> m sys = Ret (a, sys') -> genuine_system sys'.

Section genuine_systems.
Context {testCfg : IwfServiceTestConfig}.

Lemma genuine_start b o c p input w :
  genuine (mkrunning o c p input (run_workflow b (unmarshal_of p) input w)).
Proof.
  unfold genuine. cbn [run previous_run run_input].
  destruct (run_workflow b (unmarshal_of p) input w) as [[[t ws] w'] s] eqn:E. by eapply run_workflow_steps.
Qed.

Lemma genuine_run_on b f r o c :
  genuine r -> genuine (mkrunning o c (previous_run r) (run_input r) (run_on b f (run r))).
Proof.
  unfold genuine. cbn [run previous_run run_input]. destruct (run r) as [[[t ws] w] s]. cbn [run_on].
  intros Hr. destruct (run_pool b 4000 t ws (f w) s) as [[[t' ws'] w'] s'] eqn:E.
  etrans; [exact Hr | by eapply run_pool_steps].
Qed.

Lemma genuine_follow h fuel r : genuine r -> genuine (follow h fuel r).
Proof.
  revert r. induction fuel as [|fuel IH]; intros r Hr; cbn [follow]; [done|].
  case_match; [|done]. repeat (case_match; try done). apply IH, (genuine_start _ _ _ (Some _)).
Qed.

Lemma genuine_go_on h z r : genuine r -> genuine (go_on h z r).
Proof. intros Hr. unfold go_on. destruct (stopped_as r); [done|]. by apply genuine_follow, genuine_run_on. Qed.

Lemma genuine_let_run h z sys : genuine_system sys -> genuine_system (let_run h z sys).
Proof.
  unfold let_run. destruct (sys_run sys) as [r|] eqn:E; [|done]. destruct (sys_held sys); [done|].
  unfold genuine_system. rewrite E. apply genuine_go_on.
Qed.

Lemma genuine_set_world f sys : genuine_system sys -> genuine_system (set_run_world f sys).
Proof.
  unfold set_run_world. destruct (sys_run sys) as [[o c p input [[[t ws] w] s]]|] eqn:E; [|done].
  unfold genuine_system. by rewrite E.
Qed.

Lemma genuine_stop status r : genuine r -> genuine (stop_as status r).
Proof. unfold stop_as. by case_bool_decide. Qed.

Lemma named_genuine wid sys r : genuine_system sys -> named wid sys = Some r -> genuine r.
Proof. unfold named, genuine_system. case_bool_decide; [|done]. intros Hs E. by rewrite E in Hs. Qed.

Lemma upholds_ret {A} (a : A) : upholds (mret a).
Proof. intros sys b sys' H [= <- <-]. done. Qed.
Lemma upholds_bind {A B} (m : M system A) (f : A -> M system B) :
  upholds m -> (forall a, upholds (f a)) -> upholds (m ≫= f).
Proof.
  intros Hm Hf sys b sys' Hs. unfold mbind, M_bind. destruct (m sys) as [[a sys1]|] eqn:E; [|done].
  apply Hf. by eapply Hm.
Qed.
Lemma upholds_panic {A} msg : upholds (fun _ => Panic msg : gores (A * system)).
Proof. by intros sys a sys' _ H. Qed.
(** Looking at the system. *)
Lemma upholds_look {A} (f : system -> A) : upholds (fun sys => Ret (f sys, sys)).
Proof. intros sys a sys' H [= <- <-]. done. Qed.

Lemma upholds_sleep h d : upholds (sleep h d).
Proof. intros sys [] sys' H [= <-]. by apply genuine_set_world, genuine_let_run. Qed.

Lemma upholds_on_worker {A} (m : M WorkerState A) : upholds (on_worker m).
Proof.
  intros sys a sys' H. unfold on_worker. destruct (m _) as [[a1 h1]|]; [|done]. intros [= <- <-].
  unfold genuine_system in *. by destruct (sys_run sys) as [[o c p input [[[t ws] w] s]]|].
Qed.

Lemma upholds_hold {A} (m : M system A) : upholds m -> upholds (hold m).
Proof.
  intros Hm sys a sys' H. unfold hold. destruct (m (set_held true sys)) as [[a1 sys1]|] eqn:E; [|done].
  intros [= <- <-]. exact (Hm (set_held true sys) _ _ H E).
Qed.

Lemma upholds_on_client h {X} (e : clientE X) : upholds (on_client h e).
Proof.
  intros sys a sys' H. destruct e; cbn [on_client]; try done.
  2: { apply (upholds_bind (on_worker _) (fun _ => mret (inl "run")));
         [apply upholds_on_worker | intros _; apply upholds_ret | done]. }
  - destruct (default _ _); [|by intros [= <- <-]]. cbv zeta.
    match goal with |- context [set_run ?x sys] => set (r := x) end.
    assert (genuine r) as Hr.
    { subst r. destruct (sys_held sys); [apply rtc_refl | apply genuine_follow, (genuine_start _ _ _ None)]. }
    clearbody r. by intros [= <- <-].
  - destruct (named _ _); intros [= <- <-]; [by apply genuine_let_run, genuine_set_world | done].
  - destruct (named _ _) eqn:E; intros [= <- <-]; [|done]. by eapply genuine_stop, named_genuine.
  - destruct (named _ _) eqn:E; intros [= <- <-]; [|done]. by eapply genuine_stop, named_genuine.
  - by intros [= <- <-].
  - by intros [= <- <-].
  - destruct (known _ _ _); intros [= <- <-]; [by apply genuine_let_run | done].
Qed.

Lemma upholds_api h {A} (handler : serviceImpl -> proc apiE A) : upholds (api h handler).
Proof.
  unfold api. generalize (handler test_service). intros p. induction p as [a|msg|X e k IH]; cbn [interp].
  - apply upholds_ret.
  - apply upholds_panic.
  - apply upholds_bind; [|done]. destruct e; cbn [on_api]; try apply upholds_panic; try apply upholds_look.
    + apply upholds_on_client.
    + destruct (test_store testCfg); [apply upholds_on_worker | apply upholds_panic].
    + destruct (test_store testCfg); [apply upholds_on_worker | apply upholds_panic].
    + intros sys a sys' H. cbv zeta. destruct (InvokeWorkerRpc _ _ _ _ _ _ _ _ _ _ _) as [[r h']|];
        intros [= <- <-]; [by apply genuine_set_world | done].
Qed.

Lemma keeps_GetTestResult : upholds GetTestResult.
Proof. apply upholds_look. Qed.
Lemma upholds_system_now : upholds system_now.
Proof. apply upholds_look. Qed.

End genuine_systems.

Create HintDb test_upholds.
#[export] Hint Resolve upholds_ret upholds_panic upholds_sleep upholds_on_client upholds_api keeps_GetTestResult
  upholds_system_now : test_upholds.

(** Proves [upholds] of a program. *)
Ltac upholds_auto :=
  cbv zeta; intros;
  repeat first
    [ solve [auto 2 with test_upholds]
    | apply upholds_hold
    | apply upholds_bind; [|intros ?]
    | case_match ].
