(* ===== verification/TestWorkers.v ===== *)
(** * The workers of the integration tests, and the tests

    The handlers of the workers in integ/workflow, and the integration tests of integ as
    programs on the system of TestSystem.v: here those of states, timers and failures.
    A test collects what it asserts; [integration_tests_pass] (TestAttributes.v) says that
    all of it holds.  A request the handlers cannot decode is left out, as is the log; what
    the tests wait for, with [time.Sleep], is time on the clock of the simulated backend,
    on which the worker itself takes none. *)

From S2P Require Export TestSystem.

#[export] Instance Q_leibniz_dec : EqDecision Q.
Proof. solve_decision. Defined.
#[export] Instance SearchAttribute_leibniz_dec : EqDecision SearchAttribute.
Proof. solve_decision. Defined.
#[export] Instance StateCompletionOutput_leibniz_dec : EqDecision StateCompletionOutput.
Proof. solve_decision. Defined.
#[export] Instance TimerResult_leibniz_dec : EqDecision TimerResult.
Proof. solve_decision. Defined.
#[export] Instance SignalResult_leibniz_dec : EqDecision SignalResult.
Proof. solve_decision. Defined.
#[export] Instance InterStateChannelResult_leibniz_dec : EqDecision InterStateChannelResult.
Proof. solve_decision. Defined.
#[export] Instance CommandResults_leibniz_dec : EqDecision CommandResults.
Proof. solve_decision. Defined.
#[export] Instance WorkflowConfig_leibniz_dec : EqDecision WorkflowConfig.
Proof. solve_decision. Defined.
#[export] Instance ChannelInfo_leibniz_dec : EqDecision ChannelInfo.
Proof. solve_decision. Defined.
#[export] Instance datum_leibniz_dec : EqDecision datum.
Proof. solve_decision. Defined.

(** ** What the handlers have in common *)

Definition straight : CommandRequest := mkCommandRequest (Some ALL_COMMAND_COMPLETED) None [] [] [] [].
Definition start_with (commands : CommandRequest) : answer WorkflowStateStartResponse :=
  reply_ok (mkWorkflowStateStartResponse None [] [] (Some commands) [] [] []).
Definition decide_to (next : list StateMovement) : answer WorkflowStateDecideResponse :=
  reply_ok (mkWorkflowStateDecideResponse None (Some (mkStateDecision next None)) [] [] [] [] []).
Definition to_state (stateId : string) : StateMovement := mkStateMovement stateId None None None.

Definition count_start (req : WorkflowStateStartRequest) : M WorkerState unit :=
  count_invocation (ws_WorkflowStateId req +:+ "_start").
Definition count_decide (req : WorkflowStateDecideRequest) : M WorkerState unit :=
  count_invocation (wd_WorkflowStateId req +:+ "_decide").

(** [GetCommandResults()], and the elements of its lists: Go panics outside of them. *)
Definition GetCommandResults (req : WorkflowStateDecideRequest) : CommandResults :=
  default (mkCommandResults [] [] [] None None) (wd_CommandResults req).
Definition at_index {A} (l : list A) (i : nat) : M WorkerState A :=
  match l !! i with Some a => mret a | None => liftM (Panic "index out of range") end.
Definition object_or_empty (v : option EncodedObject) : EncodedObject := default empty_EncodedObject v.

Definition json_object (data : string) : EncodedObject := mkEncodedObject None None (Some "json") (Some data).

Definition no_rpc (now : Z) (req : WorkflowWorkerRpcRequest) : answer WorkflowWorkerRpcResponse := bad_request.

(** ** What the tests have in common *)

Notation test := (M system (list bool)).

Definition start_of (workflowType : string) (state : option string) (input : option EncodedObject)
  (options : option WorkflowStateOptions) (config : option WorkflowConfig) : WorkflowStartRequest :=
  mkWorkflowStartRequest "wid" workflowType 10 "worker" state [] [] input options
    (Some (mkWorkflowStartOptions None None None None [] [] config None None None)).

(** A request to the service; an error status fails the test (failTestAtHttpError). *)
Definition must {A} {testCfg : IwfServiceTestConfig} (worker_handler : WorkflowHandler) (handler : serviceImpl -> proc apiE (A + ErrorAndStatus)) :
  M system A :=
  r ← api worker_handler handler;
  match r with
  | inl a => mret a
  | inr e => fun _ => Panic (default "error" (er_Detail (es_Error e)))
  end.
(** [uclient.QueryWorkflow] *)
Definition query_workflow {T} {testCfg : IwfServiceTestConfig} (worker_handler : WorkflowHandler) (q : query T) : M system T :=
  r ← on_client worker_handler (QueryWorkflow "wid" EmptyString q);
  match r with
  | inl v => mret v
  | inr _ => fun _ => Panic "Fail to invoke query"
  end.
Definition sub_status {A} (r : A + ErrorAndStatus) : option ErrorSubStatus :=
  match r with inl _ => None | inr e => er_SubStatus (es_Error e) end.

Definition get_request (workflowId : string) : WorkflowGetRequest := mkWorkflowGetRequest workflowId None None None.
Definition signal_request (channel : string) (v : option EncodedObject) : WorkflowSignalRequest :=
  mkWorkflowSignalRequest "wid" None channel v.

Definition same {A} `{EqDecision A} (x y : A) : bool := bool_decide (x = y).
Definition elements_match {A} `{EqDecision A} (l l' : list A) : bool := bool_decide (l ≡ₚ l').
Definition history_is (h : WorkerState) (l : list (string * Z)) : bool :=
  same (invokeHistory h) (list_to_map l).
Definition noted (h : WorkerState) (key : string) (d : datum) : bool := same (invokeData h !! key) (Some d).

(** The test is over with all assertions true and no complaint of the worker, and the
    workflow was run by the interpreter. *)
Definition start_time : Z := 1700000000000000000.
Definition passes (t : test) : Prop := exists l sys,
  t (new_system start_time) = Ret (l, sys) /\ (forall b, b ∈ l -> b = true) /\
  complaint (worker (system_world sys)) = None /\ genuine_system sys.

(** What of it is computed. *)
Definition verdict (t : test) : bool :=
  match t (new_system start_time) with
  | Ret (l, sys) => asserted l && bool_decide (complaint (worker (system_world sys)) = None)
  | Panic _ => false
  end.

Lemma passes_of_verdict t : upholds t -> verdict t = true -> passes t.
Proof.
  unfold verdict, passes. intros Hk. destruct (t (new_system start_time)) as [[l sys]|] eqn:E; [|done].
  intros [Hl Hc%bool_decide_eq_true]%andb_prop. exists l, sys. split_and!; [done| |done|].
  - unfold asserted in Hl. rewrite forallb_forall in Hl. intros b Hb. by apply Hl, list_elem_of_In.
  - by eapply Hk, E.
Qed.

Lemma passes_all l : Forall upholds l -> forallb verdict l = true -> Forall passes l.
Proof.
  intros Hk. rewrite forallb_forall. rewrite !Forall_forall in *. intros Hv t Ht.
  apply passes_of_verdict; [by apply Hk | by apply Hv, list_elem_of_In].
Qed.

Lemma upholds_must h {A} {testCfg : IwfServiceTestConfig} (handler : serviceImpl -> proc apiE (A + ErrorAndStatus)) : upholds (must h handler).
Proof. unfold must. upholds_auto. Qed.
Lemma upholds_query_workflow h {T} {testCfg : IwfServiceTestConfig} (q : query T) : upholds (query_workflow h q).
Proof. unfold query_workflow. upholds_auto. Qed.
#[export] Hint Resolve upholds_must upholds_query_workflow : test_upholds.

(** minimumContinueAsNewConfig, greedyTimerConfig *)
Definition minimumContinueAsNewConfig (optimizeActivity : bool) : WorkflowConfig :=
  mkWorkflowConfig None None (Some 1%Z) None (Some optimizeActivity) None.
Definition greedyTimerConfig (continueAsNew : bool) : WorkflowConfig :=
  if continueAsNew then mkWorkflowConfig None None (Some 1%Z) None None (Some true)
  else mkWorkflowConfig None None None None None (Some true).

(** ** basic *)

Definition check_context (c : Context_) : M WorkerState unit :=
  if (default 0 (Attempt c) <=? 0)%Z || (default 0 (FirstAttemptTimestamp c) <=? 0)%Z
  then FailTestWithErrorMessage "attempt and firstAttemptTimestamp should be greater than zero"
  else mret tt.

Definition basic_start (now : Z) (req : WorkflowStateStartRequest) : answer WorkflowStateStartResponse :=
  _ ← check_context (ws_Context req);
  if bool_decide (ws_WorkflowType req = "basic") &&
     (bool_decide (ws_WorkflowStateId req = "S1") || bool_decide (ws_WorkflowStateId req = "S2"))
  then _ ← count_start req; start_with straight
  else bad_request.

Definition retry_policy (n : Z) : RetryPolicy :=
  mkRetryPolicy (Some n) (Some (inject_Z n)) (Some n) (Some n) None.

Definition basic_decide (now : Z) (req : WorkflowStateDecideRequest) : answer WorkflowStateDecideResponse :=
  _ ← check_context (wd_Context req);
  if bool_decide (wd_WorkflowType req = "basic") then
    _ ← count_decide req;
    if bool_decide (wd_WorkflowStateId req = "S1") then
      decide_to [mkStateMovement "S2" (wd_StateInput req)
        (Some (mkWorkflowStateOptions None None None None (Some 14%Z) None (Some (retry_policy 14)) None None None
                 None None None None (Some 15%Z) None (Some (retry_policy 15)) None None None None None)) None]
    else if bool_decide (wd_WorkflowStateId req = "S2") then
      decide_to [mkStateMovement GracefulCompletingWorkflowStateId (wd_StateInput req) None None]
    else bad_request
  else bad_request.

Definition basic : WorkflowHandler := mkWorkflowHandler basic_start basic_decide no_rpc.

Definition basic_test (config : option WorkflowConfig) : test :=
  let wfInput := json_object "test data" in
  let startReq := mkWorkflowStartRequest "wid" "basic" 100 "worker" (Some "S1") [] [] (Some wfInput)
    (Some (mkWorkflowStateOptions None None None None (Some 12%Z) (Some 13%Z) (Some (retry_policy 12))
             (Some (retry_policy 13)) None None None None None None None None None None None None None None))
    (Some (mkWorkflowStartOptions (Some REJECT_DUPLICATE) None None
             (Some (mkWorkflowRetryPolicy (Some 11%Z) (Some (inject_Z 11)) (Some 11%Z) (Some 11%Z))) [] [] config None None None)) in
  _ ← must basic (fun s => ApiV1WorkflowStartPost s startReq);
  again ← api basic (fun s => ApiV1WorkflowStartPost s startReq);
  resp ← must basic (fun s => ApiV1WorkflowGetWithWaitPost s (get_request "wid"));
  wrong ← api basic (fun s => ApiV1WorkflowGetWithWaitPost s (get_request "a wrong workflowId"));
  h ← GetTestResult;
  mret [same (sub_status again) (Some WORKFLOW_ALREADY_STARTED_SUB_STATUS);
        same (sub_status wrong) (Some WORKFLOW_NOT_EXISTS_SUB_STATUS);
        history_is h [("S1_start", 1); ("S1_decide", 1); ("S2_start", 1); ("S2_decide", 1)]%Z;
        same (getr_WorkflowStatus resp) COMPLETED;
        same (Results resp) [mkStateCompletionOutput "S2" "S2-1" (Some wfInput)]].

(** ** any_command_close *)

Definition any_command_close_start (now : Z) (req : WorkflowStateStartRequest) :
  answer WorkflowStateStartResponse :=
  if bool_decide (ws_WorkflowType req = "any_command_close") then
    _ ← count_start req;
    if bool_decide (ws_WorkflowStateId req = "S1") then
      start_with (mkCommandRequest None (Some ANY_COMPLETED) []
        [mkSignalCommand (Some "signal-cmd-id1") "test-signal-name1" None None;
         mkSignalCommand (Some "signal-cmd-id2") "test-signal-name2" None None] [] [])
    else if bool_decide (ws_WorkflowStateId req = "S2") then start_with straight
    else bad_request
  else bad_request.

Definition any_command_close_decide (now : Z) (req : WorkflowStateDecideRequest) :
  answer WorkflowStateDecideResponse :=
  if bool_decide (wd_WorkflowType req = "any_command_close") then
    _ ← count_decide req;
    if bool_decide (wd_WorkflowStateId req = "S1") then
      let results := SignalResults (GetCommandResults req) in
      _ ← store_data "signalCommandResultsLength" (DInt (len results));
      r0 ← at_index results 0;
      _ ← store_data "signalChannelName0" (DText (sr_SignalChannelName r0));
      _ ← store_data "signalCommandId0" (DText (sr_CommandId r0));
      _ ← store_data "signalStatus0" (DChannel (SignalRequestStatus r0));
      r1 ← at_index results 1;
      _ ← store_data "signalChannelName1" (DText (sr_SignalChannelName r1));
      _ ← store_data "signalCommandId1" (DText (sr_CommandId r1));
      _ ← store_data "signalStatus1" (DChannel (SignalRequestStatus r1));
      _ ← store_data "signalValue1" (DObject (Some (object_or_empty (SignalValue r1))));
      decide_to [to_state "S2"]
    else if bool_decide (wd_WorkflowStateId req = "S2") then
      decide_to [to_state GracefulCompletingWorkflowStateId]
    else bad_request
  else bad_request.

Definition any_command_close : WorkflowHandler :=
  mkWorkflowHandler any_command_close_start any_command_close_decide no_rpc.

Definition any_command_close_test (config : option WorkflowConfig) : test :=
  let signalValue := json_object "test-data-1" in
  _ ← must any_command_close (fun s =>
        ApiV1WorkflowStartPost s (start_of "any_command_close" (Some "S1") None None config));
  _ ← must any_command_close (fun s =>
        ApiV1WorkflowSignalPost s (signal_request "test-signal-name2" (Some signalValue)));
  _ ← must any_command_close (fun s => ApiV1WorkflowGetWithWaitPost s (get_request "wid"));
  h ← GetTestResult;
  mret [history_is h [("S1_start", 1); ("S1_decide", 1); ("S2_start", 1); ("S2_decide", 1)]%Z;
        noted h "signalChannelName1" (DText "test-signal-name2");
        noted h "signalCommandId1" (DText "signal-cmd-id2");
        noted h "signalValue1" (DObject (Some signalValue));
        noted h "signalStatus1" (DChannel RECEIVED);
        noted h "signalChannelName0" (DText "test-signal-name1");
        noted h "signalCommandId0" (DText "signal-cmd-id1");
        noted h "signalStatus0" (DChannel WAITING)].

(** ** parallel

    The worker's sleeps take no time of the clock here. *)

Definition parallel_start (now : Z) (req : WorkflowStateStartRequest) : answer WorkflowStateStartResponse :=
  if bool_decide (ws_WorkflowType req = "parallel") then _ ← count_start req; start_with straight
  else bad_request.

Definition parallel_next (stateId : string) : list StateMovement :=
  let complete := [mkStateMovement GracefulCompletingWorkflowStateId
                     (Some (json_object ("from " +:+ stateId))) None None] in
  if bool_decide (stateId = "S1") then [to_state "S11"; to_state "S12"; to_state "S13"]
  else if bool_decide (stateId = "S11") then [to_state "S111"; to_state "S112"]
  else if bool_decide (stateId = "S12") then [to_state "S121"; to_state "S122"]
  else if bool_decide (stateId = "S13") then complete
  else if bool_decide (stateId ∈ ["S111"; "S112"; "S121"; "S122"]) then complete
  else [to_state ForceFailingWorkflowStateId].

Definition parallel_decide (now : Z) (req : WorkflowStateDecideRequest) : answer WorkflowStateDecideResponse :=
  if bool_decide (wd_WorkflowType req = "parallel") then
    _ ← count_decide req; decide_to (parallel_next (wd_WorkflowStateId req))
  else bad_request.

Definition parallel : WorkflowHandler := mkWorkflowHandler parallel_start parallel_decide no_rpc.

Definition parallel_test (config : option WorkflowConfig) : test :=
  let completed id := mkStateCompletionOutput id (id +:+ "-1") (Some (json_object ("from " +:+ id))) in
  _ ← must parallel (fun s =>
        ApiV1WorkflowStartPost s (start_of "parallel" (Some "S1") None None config));
  resp ← must parallel (fun s => ApiV1WorkflowGetWithWaitPost s (get_request "wid"));
  h ← GetTestResult;
  mret [history_is h [("S1_start", 1); ("S1_decide", 1); ("S11_start", 1); ("S11_decide", 1);
          ("S12_start", 1); ("S12_decide", 1); ("S13_start", 1); ("S13_decide", 1);
          ("S111_start", 1); ("S111_decide", 1); ("S112_start", 1); ("S112_decide", 1);
          ("S121_start", 1); ("S121_decide", 1); ("S122_start", 1); ("S122_decide", 1)]%Z;
        same (getr_WorkflowStatus resp) COMPLETED;
        elements_match (map completed ["S13"; "S111"; "S112"; "S121"; "S122"]) (Results resp)].

(** ** skipstart *)

Definition skipstart_start (now : Z) (req : WorkflowStateStartRequest) : answer WorkflowStateStartResponse :=
  FailTestWithErrorMessage "start API should be skipped".

Definition skip_options : WorkflowStateOptions :=
  mkWorkflowStateOptions None None None None None None None None None None None None (Some true)
    None None None None None None None None None.

Definition skipstart_decide (now : Z) (req : WorkflowStateDecideRequest) : answer WorkflowStateDecideResponse :=
  if bool_decide (wd_WorkflowType req = "skipstart") then
    _ ← count_decide req;
    if bool_decide (wd_WorkflowStateId req = "S1") then
      decide_to [mkStateMovement "S2" (wd_StateInput req) (Some skip_options) None]
    else if bool_decide (wd_WorkflowStateId req = "S2") then
      decide_to [mkStateMovement GracefulCompletingWorkflowStateId (wd_StateInput req) None None]
    else bad_request
  else bad_request.

Definition skipstart : WorkflowHandler := mkWorkflowHandler skipstart_start skipstart_decide no_rpc.

Definition skip_wait_until : WorkflowStateOptions :=
  mkWorkflowStateOptions None None None None None None None None None None None None None
    None None None None None (Some true) None None None.

Definition skip_start_test (config : option WorkflowConfig) : test :=
  let wfInput := json_object "test data" in
  _ ← must skipstart (fun s =>
        ApiV1WorkflowStartPost s (start_of "skipstart" (Some "S1") (Some wfInput) (Some skip_wait_until) config));
  resp ← must skipstart (fun s => ApiV1WorkflowGetWithWaitPost s (get_request "wid"));
  h ← GetTestResult;
  mret [history_is h [("S1_decide", 1); ("S2_decide", 1)]%Z;
        same (getr_WorkflowStatus resp) COMPLETED;
        same (Results resp) [mkStateCompletionOutput "S2" "S2-1" (Some wfInput)]].

(** ** timer *)

Definition timer_start (now : Z) (req : WorkflowStateStartRequest) : answer WorkflowStateStartResponse :=
  if bool_decide (ws_WorkflowType req = "timer") then
    _ ← count_start req;
    if bool_decide (ws_WorkflowStateId req = "S1") then
      match ParseInt (default EmptyString (ws_StateInput req ≫= Data)) with
      | None => FailTestWithErrorMessage "not a number"
      | Some started =>
          _ ← store_data "scheduled_at" (DInt started);
          start_with (mkCommandRequest (Some ALL_COMMAND_COMPLETED) None
            [mkTimerCommand (Some "timer-cmd-id") None (Some 10%Z);
             mkTimerCommand (Some "timer-cmd-id-2") None (Some 86400%Z);
             mkTimerCommand (Some "timer-cmd-id-3") None (Some (86400 * 365)%Z)] [] [] [])
      end
    else if bool_decide (ws_WorkflowStateId req = "S2") then start_with straight
    else bad_request
  else bad_request.

Definition timer_decide (now : Z) (req : WorkflowStateDecideRequest) : answer WorkflowStateDecideResponse :=
  if bool_decide (wd_WorkflowType req = "timer") then
    _ ← count_decide req;
    if bool_decide (wd_WorkflowStateId req = "S1") then
      _ ← store_data "fired_at" (DInt (Unix now));
      r0 ← at_index (TimerResults (GetCommandResults req)) 0;
      _ ← store_data "timer_id" (DText (tr_CommandId r0));
      decide_to [to_state "S2"]
    else if bool_decide (wd_WorkflowStateId req = "S2") then
      decide_to [to_state GracefulCompletingWorkflowStateId]
    else bad_request
  else bad_request.

Definition timer_worker : WorkflowHandler := mkWorkflowHandler timer_start timer_decide no_rpc.

(** assertTimerQueryResponseEqual: the firing times may be off by a second. *)
Definition timer_infos_match (expected : list TimerInfo) (infos : gmap string (list TimerInfo)) : bool :=
  let infos := map_get [] infos "S1-1" in
  same (length expected) (length infos) &&
  forallb (fun '(e, i) =>
    (Z.abs (ti_FiringUnixTimestampSeconds e - ti_FiringUnixTimestampSeconds i) <=? 1)%Z &&
    same (ti_CommandId e) (ti_CommandId i) && same (ti_Status e) (ti_Status i)) (zip expected infos).

(** Up to the reset of the workflow. *)
Definition timer_test (config : option WorkflowConfig) : test :=
  w ← system_now;
  let nowTimestamp := Unix w in
  let expected s2 s3 :=
    [mkTimerInfo (Some "timer-cmd-id") (nowTimestamp + 10) TimerPending;
     mkTimerInfo (Some "timer-cmd-id-2") (nowTimestamp + 86400) s2;
     mkTimerInfo (Some "timer-cmd-id-3") (nowTimestamp + 86400 * 365) s3] in
  let skip id index := must timer_worker (fun s =>
    ApiV1WorkflowSkipTimerPost s (mkWorkflowSkipTimerRequest "wid" None "S1-1" id index)) in
  _ ← must timer_worker (fun s => ApiV1WorkflowStartPost s (start_of "timer" (Some "S1")
        (Some (mkEncodedObject None None None (Some (pretty nowTimestamp)))) None config));
  _ ← sleep timer_worker SecondNs;
  infos1 ← query_workflow timer_worker QueryTimerInfos;
  _ ← skip (Some "timer-cmd-id-2") None;
  _ ← sleep timer_worker SecondNs;
  infos2 ← query_workflow timer_worker QueryTimerInfos;
  _ ← skip None (Some 2%Z);
  _ ← sleep timer_worker SecondNs;
  infos3 ← query_workflow timer_worker QueryTimerInfos;
  _ ← must timer_worker (fun s => ApiV1WorkflowGetWithWaitPost s (get_request "wid"));
  h ← GetTestResult;
  mret [timer_infos_match (expected TimerPending TimerPending) infos1;
        timer_infos_match (expected TimerSkipped TimerPending) infos2;
        timer_infos_match (expected TimerSkipped TimerSkipped) infos3;
        history_is h [("S1_start", 1); ("S1_decide", 1); ("S2_start", 1); ("S2_decide", 1)]%Z;
        noted h "timer_id" (DText "timer-cmd-id");
        match invokeData h !! "fired_at", invokeData h !! "scheduled_at" with
        | Some (DInt fired), Some (DInt scheduled) => (9 <=? fired - scheduled)%Z && (fired - scheduled <=? 11)%Z
        | _, _ => false
        end].


(** ** wf_force_fail *)

Definition TestData : EncodedObject := mkEncodedObject None None (Some "test-encoding") (Some "test-data").

Definition wf_force_fail_start (now : Z) (req : WorkflowStateStartRequest) : answer WorkflowStateStartResponse :=
  if bool_decide (ws_WorkflowType req = "wf_force_fail") then
    _ ← count_start req;
    if bool_decide (ws_WorkflowStateId req = "S1")
    then reply_ok (mkWorkflowStateStartResponse None [] [] None [] [] [])
    else liftM (Panic "should not get here")
  else liftM (Panic "should not get here").

Definition wf_force_fail_decide (now : Z) (req : WorkflowStateDecideRequest) : answer WorkflowStateDecideResponse :=
  if bool_decide (wd_WorkflowType req = "wf_force_fail") && bool_decide (wd_WorkflowStateId req = "S1") then
    _ ← count_decide req;
    decide_to [mkStateMovement ForceFailingWorkflowStateId (Some TestData) None None]
  else FailTestWithErrorMessage "should not get here".

Definition wf_force_fail : WorkflowHandler := mkWorkflowHandler wf_force_fail_start wf_force_fail_decide no_rpc.

(** A response as the tests compare it: its status, error type and results. *)
Definition response_is (status : WorkflowStatus) (errType : option WorkflowErrorType)
  (results : list StateCompletionOutput) (resp : WorkflowGetResponse) : bool :=
  same (getr_WorkflowStatus resp) status && same (ErrorType resp) errType &&
  same (ErrorMessage resp) None && same (Results resp) results.

Definition wf_force_fail_test (config : option WorkflowConfig) : test :=
  started ← must wf_force_fail (fun s =>
        ApiV1WorkflowStartPost s (start_of "wf_force_fail" (Some "S1") None None config));
  resp ← must wf_force_fail (fun s => ApiV1WorkflowGetWithWaitPost s (get_request "wid"));
  mret [same (sresp_WorkflowRunId started) (Some (getr_WorkflowRunId resp));
        response_is FAILED (Some STATE_DECISION_FAILING_WORKFLOW_ERROR_TYPE)
          [mkStateCompletionOutput "S1" "S1-1" (Some TestData)] resp].

(** ** any_timer_signal *)

Definition any_timer_signal_start (now : Z) (req : WorkflowStateStartRequest) :
  answer WorkflowStateStartResponse :=
  if bool_decide (ws_WorkflowType req = "any_timer_signal") then
    _ ← count_start req;
    if bool_decide (ws_WorkflowStateId req = "S1") then
      let timerCommands :=
        if bool_decide (ctx_StateExecutionId (ws_Context req) = Some "S1-1")
        then [mkTimerCommand None (Some (Unix now + 1)%Z) None] else [] in
      start_with (mkCommandRequest None (Some ANY_COMPLETED) timerCommands
        [mkSignalCommand (Some "signal-cmd-id") "test-signal-name" None None] [] [])
    else if bool_decide (ws_WorkflowStateId req = "S2") then start_with straight
    else bad_request
  else bad_request.

Definition any_timer_signal_decide (now : Z) (req : WorkflowStateDecideRequest) :
  answer WorkflowStateDecideResponse :=
  if bool_decide (wd_WorkflowType req = "any_timer_signal") then
    _ ← count_decide req;
    if bool_decide (wd_WorkflowStateId req = "S1") then
      r0 ← at_index (SignalResults (GetCommandResults req)) 0;
      if bool_decide (ctx_StateExecutionId (wd_Context req) = Some "S1-1") then
        _ ← store_data "signalChannelName1" (DText (sr_SignalChannelName r0));
        _ ← store_data "signalCommandId1" (DText (sr_CommandId r0));
        _ ← store_data "signalStatus1" (DChannel (SignalRequestStatus r0));
        decide_to [to_state "S1"]
      else
        _ ← store_data "signalChannelName2" (DText (sr_SignalChannelName r0));
        _ ← store_data "signalCommandId2" (DText (sr_CommandId r0));
        _ ← store_data "signalStatus2" (DChannel (SignalRequestStatus r0));
        _ ← store_data "signalValue2" (DObject (Some (object_or_empty (SignalValue r0))));
        decide_to [to_state "S2"]
    else if bool_decide (wd_WorkflowStateId req = "S2") then
      decide_to [to_state GracefulCompletingWorkflowStateId]
    else bad_request
  else bad_request.

Definition any_timer_signal : WorkflowHandler :=
  mkWorkflowHandler any_timer_signal_start any_timer_signal_decide no_rpc.

Definition any_timer_signal_test (config : option WorkflowConfig) : test :=
  let signalValue := json_object "test-data-1" in
  _ ← must any_timer_signal (fun s =>
        ApiV1WorkflowStartPost s (start_of "any_timer_signal" (Some "S1") None None config));
  _ ← sleep any_timer_signal (3 * SecondNs)%Z;
  _ ← must any_timer_signal (fun s =>
        ApiV1WorkflowSignalPost s (signal_request "test-signal-name" (Some signalValue)));
  _ ← must any_timer_signal (fun s => ApiV1WorkflowGetWithWaitPost s (get_request "wid"));
  h ← GetTestResult;
  mret [history_is h [("S1_start", 2); ("S1_decide", 2); ("S2_start", 1); ("S2_decide", 1)]%Z;
        noted h "signalChannelName1" (DText "test-signal-name");
        noted h "signalCommandId1" (DText "signal-cmd-id");
        noted h "signalStatus1" (DChannel WAITING);
        noted h "signalChannelName2" (DText "test-signal-name");
        noted h "signalCommandId2" (DText "signal-cmd-id");
        noted h "signalStatus2" (DChannel RECEIVED);
        noted h "signalValue2" (DObject (Some signalValue))].

(** ** wf_state_api_fail_and_proceed *)

Definition start_fails_start (now : Z) (req : WorkflowStateStartRequest) : answer WorkflowStateStartResponse :=
  if bool_decide (ws_WorkflowType req = "wf_state_api_fail_and_proceed") then
    _ ← count_start req;
    if bool_decide (ws_WorkflowStateId req = "S1") then bad_request
    else FailTestWithErrorMessage "should not get here"
  else FailTestWithErrorMessage "should not get here".

Definition start_fails_decide (now : Z) (req : WorkflowStateDecideRequest) : answer WorkflowStateDecideResponse :=
  _ ← (if default true (StateStartApiSucceeded (GetCommandResults req))
       then FailTestWithErrorMessage "stateStartApiSucceeded should be false" else mret tt);
  _ ← (if negb (default false (StateWaitUntilFailed (GetCommandResults req)))
       then FailTestWithErrorMessage "stateWaitUntilFailed should be true" else mret tt);
  _ ← (if bool_decide (wd_WorkflowType req = "wf_state_api_fail_and_proceed") then count_decide req else mret tt);
  decide_to [to_state GracefulCompletingWorkflowStateId].

Definition wf_state_api_fail_and_proceed : WorkflowHandler :=
  mkWorkflowHandler start_fails_start start_fails_decide no_rpc.

Definition attempts (n : Z) : RetryPolicy := mkRetryPolicy None None None (Some n) None.

Definition state_api_fail_and_proceed_test (config : option WorkflowConfig) : test :=
  let options :=
    match config with
    | None => mkWorkflowStateOptions None None None None None None (Some (attempts 1)) None
        (Some PROCEED_TO_DECIDE_ON_START_API_FAILURE) None None None None None None None None None None None None None
    | Some _ => mkWorkflowStateOptions None None None None None None (Some (attempts 1)) None
        None None None None None None None None None (Some PROCEED_ON_FAILURE) None None None None
    end in
  started ← must wf_state_api_fail_and_proceed (fun s => ApiV1WorkflowStartPost s
        (start_of "wf_state_api_fail_and_proceed" (Some "S1") None (Some options) config));
  resp ← must wf_state_api_fail_and_proceed (fun s => ApiV1WorkflowGetWithWaitPost s (get_request "wid"));
  h ← GetTestResult;
  mret [history_is h [("S1_start", 1); ("S1_decide", 1)]%Z;
        same (sresp_WorkflowRunId started) (Some (getr_WorkflowRunId resp));
        response_is COMPLETED None [] resp].

(** ** wf_execute_api_fail_and_proceed *)

Definition execute_fails_start (now : Z) (req : WorkflowStateStartRequest) : answer WorkflowStateStartResponse :=
  FailTestWithErrorMessage "should not get here".

Definition execute_fails_decide (now : Z) (req : WorkflowStateDecideRequest) : answer WorkflowStateDecideResponse :=
  _ ← (if bool_decide (wd_WorkflowType req = "wf_execute_api_fail_and_proceed") then count_decide req else mret tt);
  let input := wd_StateInput req in
  let correct := bool_decide (default EmptyString (input ≫= Data) = "test-data") &&
                 bool_decide (default EmptyString (input ≫= Encoding) = "test-encoding") in
  if bool_decide (wd_WorkflowStateId req = "S1") then
    if correct then bad_request else FailTestWithErrorMessage "input is not correct"
  else if bool_decide (wd_WorkflowStateId req = "Recover") then
    if correct then decide_to [to_state GracefulCompletingWorkflowStateId]
    else FailTestWithErrorMessage "input is not correct"
  else FailTestWithErrorMessage "should not get here".

Definition wf_execute_api_fail_and_proceed : WorkflowHandler :=
  mkWorkflowHandler execute_fails_start execute_fails_decide no_rpc.

Definition execute_api_fail_and_proceed_test (config : option WorkflowConfig) : test :=
  let options := mkWorkflowStateOptions None None None None None None None None None
    (Some PROCEED_TO_CONFIGURED_STATE) (Some "Recover") (Some skip_wait_until) None None None None
    (Some (attempts 1)) None (Some true) None None None in
  started ← must wf_execute_api_fail_and_proceed (fun s => ApiV1WorkflowStartPost s
        (start_of "wf_execute_api_fail_and_proceed" (Some "S1")
           (Some (mkEncodedObject None None (Some "test-encoding") (Some "test-data"))) (Some options) config));
  resp ← must wf_execute_api_fail_and_proceed (fun s => ApiV1WorkflowGetWithWaitPost s (get_request "wid"));
  h ← GetTestResult;
  mret [history_is h [("S1_decide", 1); ("Recover_decide", 1)]%Z;
        same (sresp_WorkflowRunId started) (Some (getr_WorkflowRunId resp));
        response_is COMPLETED None [] resp].

Definition asNew (optimizeActivity : bool) : option WorkflowConfig := Some (minimumContinueAsNewConfig optimizeActivity).
Definition greedy (continueAsNew : bool) : option WorkflowConfig := Some (greedyTimerConfig continueAsNew).

(** The tests of this file, with the configurations they are called with. *)
Definition state_tests : list test :=
  [basic_test None; basic_test (asNew true); basic_test (Some (mkWorkflowConfig (Some true) None None None None None));
   any_command_close_test None; any_command_close_test (asNew true);
   parallel_test None; parallel_test (asNew true);
   skip_start_test None; skip_start_test (asNew false);
   timer_test None; timer_test (asNew false); timer_test (greedy false); timer_test (greedy true);
   wf_force_fail_test None; wf_force_fail_test (asNew false);
   any_timer_signal_test None; any_timer_signal_test (asNew true);
   any_timer_signal_test (greedy false); any_timer_signal_test (greedy true);
   state_api_fail_and_proceed_test None; state_api_fail_and_proceed_test (asNew false);
   execute_api_fail_and_proceed_test None; execute_api_fail_and_proceed_test (asNew false)].

Lemma state_tests_pass : Forall passes state_tests.
Proof.
  apply passes_all; [|vm_compute; reflexivity].
  unfold state_tests, basic_test, any_command_close_test, parallel_test, skip_start_test, timer_test, wf_force_fail_test,
    any_timer_signal_test, state_api_fail_and_proceed_test, execute_api_fail_and_proceed_test.
  repeat apply Forall_cons_2; try apply Forall_nil_2; upholds_auto.
Qed.
