(* ===== verification/TestChannels.v ===== *)
(** * More workers of the integration tests

    The workers of integ/workflow whose tests send signals, call RPCs, skip timers or
    stop the workflow, and their tests. *)

From S2P Require Export TestWorkers.

Definition publish (channel : string) (v : option EncodedObject) : InterStateChannelPublishing :=
  mkInterStateChannelPublishing channel v.
Definition rpc_request (name : string) (input : option EncodedObject) : WorkflowRpcRequest :=
  mkWorkflowRpcRequest "wid" None name input None None None None [].

(** ** conditional_close *)

Definition close_input : EncodedObject := json_object "test-data".

Definition conditional_close_rpc (now : Z) (req : WorkflowWorkerRpcRequest) : answer WorkflowWorkerRpcResponse :=
  _ ← count_invocation (wr_RpcName req);
  reply_ok (mkWorkflowWorkerRpcResponse None None [] [] [] [] [publish "test-channel-name" None]).

Definition uses_signal (input : option EncodedObject) : bool :=
  bool_decide (default EmptyString (input ≫= Data) = "use-signal-channel").

Definition conditional_close_start (now : Z) (req : WorkflowStateStartRequest) :
  answer WorkflowStateStartResponse :=
  if bool_decide (ws_WorkflowType req = "conditional_close") then
    _ ← count_start req;
    if bool_decide (ws_WorkflowStateId req = "S1") then
      start_with (if uses_signal (ws_StateInput req)
        then mkCommandRequest None (Some ANY_COMPLETED) []
               [mkSignalCommand None "test-channel-name" None None] [] []
        else mkCommandRequest None (Some ANY_COMPLETED) [] []
               [mkInterStateChannelCommand None "test-channel-name" None None] [])
    else FailTestWithErrorMessage "error request"
  else FailTestWithErrorMessage "error request".

Definition conditional_close_decide (now : Z) (req : WorkflowStateDecideRequest) :
  answer WorkflowStateDecideResponse :=
  if bool_decide (wd_WorkflowType req = "conditional_close") then
    _ ← count_decide req;
    if bool_decide (wd_WorkflowStateId req = "S1") then
      let published := if bool_decide (ctx_StateExecutionId (wd_Context req) = Some "S1-3")
                       then [publish "test-channel-name" (Some close_input)] else [] in
      let closeType := if uses_signal (wd_StateInput req)
                       then FORCE_COMPLETE_ON_SIGNAL_CHANNEL_EMPTY
                       else FORCE_COMPLETE_ON_INTERNAL_CHANNEL_EMPTY in
      reply_ok (mkWorkflowStateDecideResponse None
        (Some (mkStateDecision [mkStateMovement "S1" (wd_StateInput req) None None]
           (Some (mkWorkflowConditionalClose (Some closeType) (Some "test-channel-name") (Some close_input)))))
        [] [] [] [] published)
    else FailTestWithErrorMessage "error request"
  else FailTestWithErrorMessage "error request".

Definition conditional_close : WorkflowHandler :=
  mkWorkflowHandler conditional_close_start conditional_close_decide conditional_close_rpc.

(** The worker's execute API of S1-1 takes three seconds, in which the other messages
    arrive; here it takes no time, and they are sent before the workflow goes on. *)
Definition conditional_close_test (useSignalChannel : bool) (config : option WorkflowConfig) : test :=
  let w := conditional_close in
  let input := if useSignalChannel then Some (mkEncodedObject None None None (Some "use-signal-channel")) else None in
  let send := if useSignalChannel
              then must w (fun s => ApiV1WorkflowSignalPost s (signal_request "test-channel-name" None))
              else (_ ← must w (fun s => ApiV1WorkflowRpcPost s (rpc_request "publish_internal_channel" None)); mret tt) in
  _ ← must w (fun s => ApiV1WorkflowStartPost s (start_of "conditional_close" (Some "S1") input None config));
  _ ← sleep w SecondNs;
  _ ← hold send; _ ← hold send; _ ← send;
  resp ← must w (fun s => ApiV1WorkflowGetWithWaitPost s (get_request "wid"));
  h ← GetTestResult;
  mret [history_is h (if useSignalChannel then [("S1_start", 3); ("S1_decide", 3)]
                      else [("S1_start", 4); ("S1_decide", 4); ("publish_internal_channel", 3)])%Z;
        same (getr_WorkflowStatus resp) COMPLETED;
        same (Results resp)
          [mkStateCompletionOutput "S1" (if useSignalChannel then "S1-3" else "S1-4") (Some close_input)]].

(** ** interstate *)

Definition interstate_start (now : Z) (req : WorkflowStateStartRequest) : answer WorkflowStateStartResponse :=
  let await id channel := start_with (mkCommandRequest (Some ALL_COMMAND_COMPLETED) None [] []
    [mkInterStateChannelCommand (Some id) channel None None] []) in
  if bool_decide (ws_WorkflowType req = "interstate") then
    _ ← count_start req;
    if bool_decide (ws_WorkflowStateId req = "S1") then start_with straight
    else if bool_decide (ws_WorkflowStateId req = "S21") then await "cmd-1" "channel1"
    else if bool_decide (ws_WorkflowStateId req = "S31") then await "cmd-2" "channel2"
    else if bool_decide (ws_WorkflowStateId req = "S22") then
      reply_ok (mkWorkflowStateStartResponse None [] [] (Some straight) [] []
        [publish "channel1" (Some (json_object "test-value1"))])
    else bad_request
  else bad_request.

Definition interstate_decide (now : Z) (req : WorkflowStateDecideRequest) : answer WorkflowStateDecideResponse :=
  if bool_decide (wd_WorkflowType req = "interstate") then
    _ ← count_decide req;
    let received k :=
      r0 ← at_index (InterStateChannelResults (GetCommandResults req)) 0;
      _ ← store_data (wd_WorkflowStateId req +:+ "received") (DObject (Some (object_or_empty (ir_Value r0))));
      k in
    if bool_decide (wd_WorkflowStateId req = "S1") then decide_to [to_state "S21"; to_state "S22"]
    else if bool_decide (wd_WorkflowStateId req = "S21") then received (decide_to [to_state "S31"])
    else if bool_decide (wd_WorkflowStateId req = "S31") then
      received (decide_to [to_state GracefulCompletingWorkflowStateId])
    else if bool_decide (wd_WorkflowStateId req = "S22") then
      reply_ok (mkWorkflowStateDecideResponse None (Some (mkStateDecision [to_state DeadEndWorkflowStateId] None))
        [] [] [] [] [publish "channel2" (Some (json_object "test-value2"))])
    else bad_request
  else bad_request.

Definition interstate : WorkflowHandler := mkWorkflowHandler interstate_start interstate_decide no_rpc.

Definition interstate_test (config : option WorkflowConfig) : test :=
  _ ← must interstate (fun s => ApiV1WorkflowStartPost s (start_of "interstate" (Some "S1") None None config));
  resp ← must interstate (fun s => ApiV1WorkflowGetWithWaitPost s (get_request "wid"));
  h ← GetTestResult;
  mret [history_is h [("S1_start", 1); ("S1_decide", 1); ("S21_start", 1); ("S21_decide", 1);
          ("S22_start", 1); ("S22_decide", 1); ("S31_start", 1); ("S31_decide", 1)]%Z;
        same (getr_WorkflowStatus resp) COMPLETED; same (Results resp) [];
        same (invokeData h) (list_to_map
          [("S21received", DObject (Some (json_object "test-value1")));
           ("S31received", DObject (Some (json_object "test-value2")))])].

(** ** any_command_combination *)

Definition one_year_later (now : Z) : option Z := Some (Unix now + 86400 * 365)%Z.

(** The waitUntil API first asks for commands without an id, which the interpreter's
    activity refuses, and is called again. *)
Definition combination_start (now : Z) (req : WorkflowStateStartRequest) : answer WorkflowStateStartResponse :=
  let invalidTimers := [mkTimerCommand None (one_year_later now) None] in
  let validTimers := [mkTimerCommand (Some "test-timer-1") (one_year_later now) None] in
  let cmd id name := mkSignalCommand id name None None in
  let invalidSignals := [cmd None "test-signal-name1"; cmd (Some "test-signal-name2") "test-signal-name2"] in
  let validSignals :=
    [cmd (Some "test-signal-name1") "test-signal-name1"; cmd (Some "test-signal-name1") "test-signal-name1";
     cmd (Some "test-signal-name2") "test-signal-name2"; cmd (Some "test-signal-name3") "test-signal-name3"] in
  let ask timers signals combinations :=
    start_with (mkCommandRequest (Some ANY_COMMAND_COMBINATION_COMPLETED) None timers signals []
                  (map mkCommandCombination combinations)) in
  let timer_and_both := ["test-timer-1"; "test-signal-name1"; "test-signal-name2"] in
  if bool_decide (ws_WorkflowType req = "any_command_combination") then
    _ ← count_start req;
    if bool_decide (ws_WorkflowStateId req = "S1") then
      retried ← has_flag "hasS1RetriedForInvalidCommandId";
      if retried : bool then
        ask validTimers validSignals
          [["test-timer-1"; "test-signal-name1"; "test-signal-name1"]; timer_and_both]
      else
        _ ← set_flag "hasS1RetriedForInvalidCommandId";
        ask invalidTimers validSignals []
    else if bool_decide (ws_WorkflowStateId req = "S2") then
      retried ← has_flag "hasS2RetriedForInvalidCommandId";
      if retried : bool then
        ask validTimers validSignals [["test-signal-name2"; "test-signal-name1"]; timer_and_both]
      else
        _ ← set_flag "hasS2RetriedForInvalidCommandId";
        ask validTimers invalidSignals []
    else FailTestWithErrorMessage "invalid workflow type"
  else FailTestWithErrorMessage "invalid workflow type".

Definition combination_decide (now : Z) (req : WorkflowStateDecideRequest) : answer WorkflowStateDecideResponse :=
  if bool_decide (wd_WorkflowType req = "any_command_combination") then
    _ ← count_decide req;
    if bool_decide (wd_WorkflowStateId req = "S1") then
      _ ← store_data "s1_commandResults" (DResults (Some (GetCommandResults req)));
      decide_to [to_state "S2"]
    else if bool_decide (wd_WorkflowStateId req = "S2") then
      _ ← store_data "s2_commandResults" (DResults (Some (GetCommandResults req)));
      decide_to [to_state GracefulCompletingWorkflowStateId]
    else FailTestWithErrorMessage "invalid workflow type"
  else FailTestWithErrorMessage "invalid workflow type".

Definition any_command_combination : WorkflowHandler :=
  mkWorkflowHandler combination_start combination_decide no_rpc.

Definition any_command_combination_test (config : option WorkflowConfig) : test :=
  let w := any_command_combination in
  let v := json_object "test-data-1" in
  let send name := must w (fun s => ApiV1WorkflowSignalPost s (signal_request name (Some v))) in
  let received name := mkSignalResult name RECEIVED name (Some v) in
  let waiting name := mkSignalResult name WAITING name None in
  let results signals timer :=
    DResults (Some (mkCommandResults signals [] [mkTimerResult "test-timer-1" timer] (Some true) (Some false))) in
  _ ← must w (fun s => ApiV1WorkflowStartPost s (start_of "any_command_combination" (Some "S1") None None config));
  _ ← send "test-signal-name1";
  _ ← send "test-signal-name1";
  _ ← sleep w (5 * SecondNs)%Z;
  _ ← must w (fun s => ApiV1WorkflowSkipTimerPost s
        (mkWorkflowSkipTimerRequest "wid" None "S1-1" (Some "test-timer-1") None));
  _ ← sleep w SecondNs;
  _ ← send "test-signal-name1";
  descResp ← must w (fun s => ApiV1WorkflowGetPost s (get_request "wid"));
  _ ← send "test-signal-name3";
  _ ← send "test-signal-name2";
  _ ← sleep w SecondNs;
  final ← must w (fun s => match config with
                           | None => ApiV1WorkflowGetPost s (get_request "wid")
                           | Some _ => ApiV1WorkflowGetWithWaitPost s (get_request "wid")
                           end);
  h ← GetTestResult;
  mret [same (getr_WorkflowStatus descResp) RUNNING;
        same (getr_WorkflowStatus final) COMPLETED;
        history_is h [("S1_start", 2); ("S1_decide", 1); ("S2_start", 2); ("S2_decide", 1)]%Z;
        same (invokeData h) (list_to_map
          [("s1_commandResults", results [received "test-signal-name1"; received "test-signal-name1";
              waiting "test-signal-name2"; waiting "test-signal-name3"] FIRED);
           ("s2_commandResults", results [received "test-signal-name1"; waiting "test-signal-name1";
              received "test-signal-name2"; received "test-signal-name3"] SCHEDULED)])].

(** ** signal *)

Definition channel_infos_text (infos : option (gmap string ChannelInfo)) : string :=
  String.string_of_list_ascii (Marshal (ptr (string_map ChannelInfo_codec)) infos).

Definition signal_rpc (now : Z) (req : WorkflowWorkerRpcRequest) : answer WorkflowWorkerRpcResponse :=
  let answer_infos infos published :=
    reply_ok (mkWorkflowWorkerRpcResponse
      (Some (mkEncodedObject None None None (Some (channel_infos_text infos)))) None [] [] [] [] published) in
  if bool_decide (wr_RpcName req = "RPCNameGetSignalChannelInfo") then
    answer_infos (wr_SignalChannelInfos req) [publish "test-internal-channel-name" None]
  else if bool_decide (wr_RpcName req = "RPCNameGetInternalChannelInfo") then
    answer_infos (wr_InternalChannelInfos req) []
  else bad_request.

Definition signal_start (now : Z) (req : WorkflowStateStartRequest) : answer WorkflowStateStartResponse :=
  if bool_decide (ws_WorkflowType req = "signal") then
    _ ← count_start req;
    if bool_decide (ws_WorkflowStateId req = "S1") then
      start_with (mkCommandRequest (Some ALL_COMMAND_COMPLETED) None []
        [mkSignalCommand (Some "signal-cmd-id0") "test-signal-name" None None;
         mkSignalCommand (Some "signal-cmd-id1") "test-signal-name" None None;
         mkSignalCommand None "test-signal-name" None None;
         mkSignalCommand None "test-signal-name" None None] [] [])
    else if bool_decide (ws_WorkflowStateId req = "S2") then start_with straight
    else bad_request
  else bad_request.

Definition StateOptionsForLargeDataAttributes : WorkflowStateOptions :=
  mkWorkflowStateOptions None None None None None None None None None None None None None
    None None None None None None (Some (mkPersistenceLoadingPolicy (Some NONE) [] [] None None)) None None.

Definition signal_decide (now : Z) (req : WorkflowStateDecideRequest) : answer WorkflowStateDecideResponse :=
  if bool_decide (wd_WorkflowType req = "signal") then
    _ ← count_decide req;
    if bool_decide (wd_WorkflowStateId req = "S1") then
      let store i :=
        r ← at_index (SignalResults (GetCommandResults req)) i;
        _ ← store_data ("signalId" +:+ pretty i) (DText (sr_CommandId r));
        store_data ("signalValue" +:+ pretty i) (DObject (Some (object_or_empty (SignalValue r)))) in
      _ ← store 0; _ ← store 1; _ ← store 2; _ ← store 3;
      decide_to [mkStateMovement "S2" None (Some StateOptionsForLargeDataAttributes) None]
    else if bool_decide (wd_WorkflowStateId req = "S2") then
      decide_to [to_state GracefulCompletingWorkflowStateId]
    else bad_request
  else bad_request.

Definition signal_worker : WorkflowHandler := mkWorkflowHandler signal_start signal_decide signal_rpc.

(** [uclient.QueryWorkflow(..., service.DebugDumpQueryType)] *)
Definition query_debug : M system DebugDumpResponse := fun sys =>
  match sys_run sys with
  | Some r => Ret (query_debug_dump (state_of (run r)), sys)
  | None => Panic "Fail to invoke query"
  end.

Definition set_DisableSystemSearchAttribute (b : bool) (c : WorkflowConfig) : WorkflowConfig :=
  mkWorkflowConfig (Some b) (cfg_ExecutingStateIdMode c) (ContinueAsNewThreshold c)
    (ContinueAsNewPageSizeInBytes c) (OptimizeActivity c) (OptimizeTimer c).
Definition set_ContinueAsNewPageSizeInBytes (n : Z) (c : WorkflowConfig) : WorkflowConfig :=
  mkWorkflowConfig (DisableSystemSearchAttribute c) (cfg_ExecutingStateIdMode c) (ContinueAsNewThreshold c)
    (Some n) (OptimizeActivity c) (OptimizeTimer c).

Fixpoint each {A} (f : nat -> M system A) (from n : nat) : M system (list A) :=
  match n with
  | O => mret []
  | S n => a ← f from; l ← each f (S from) n; mret (a :: l)
  end.

(** The channel sizes an RPC of the worker answers. *)
Definition asks_infos (name : string) (expected : list (string * Z)) : M system bool :=
  resp ← (must signal_worker (fun s => ApiV1WorkflowRpcPost s (rpc_request name None)) : M system (option WorkflowRpcResponse));
  mret match default None (rpcr_Output <$> resp) ≫= Data with
       | Some text =>
           same (Unmarshal (string_map ChannelInfo_codec) (String.list_ascii_of_string text))
             (Some (list_to_map (map (fun '(k, n) => (k, mkChannelInfo (Some n))) expected)))
       | None => false
       end.

(** Up to the resets of the workflow. *)
Definition signal_test (config : option WorkflowConfig) : test :=
  let w := signal_worker in
  let value i := json_object ("test-data-" +:+ pretty i) in
  let update c := must w (fun s => ApiV1WorkflowConfigUpdate s (mkWorkflowConfigUpdateRequest "wid" None c)) in
  let c0 := default (mkWorkflowConfig None None (Some 100%Z) None None None) config in
  let c1 := set_DisableSystemSearchAttribute true c0 in
  let c2 := set_ContinueAsNewPageSizeInBytes 3000000 c1 in
  _ ← must w (fun s => ApiV1WorkflowStartPost s (start_of "signal" (Some "S1") None None config));
  dump0 ← query_debug;
  _ ← update (set_DisableSystemSearchAttribute true (mkWorkflowConfig None None None None None None));
  _ ← sleep w (2 * SecondNs)%Z;
  dump1 ← query_debug;
  _ ← update (set_ContinueAsNewPageSizeInBytes 3000000 (mkWorkflowConfig None None None None None None));
  _ ← sleep w (2 * SecondNs)%Z;
  dump2 ← query_debug;
  infos ← each (fun i =>
    _ ← must w (fun s => ApiV1WorkflowSignalPost s (signal_request "test-unhandled-signal-name" (Some (value i))));
    asks_infos "RPCNameGetSignalChannelInfo" [("test-unhandled-signal-name", Z.of_nat i + 1)%Z]) 0 10;
  internal ← asks_infos "RPCNameGetInternalChannelInfo" [("test-internal-channel-name", 10%Z)];
  _ ← each (fun i => must w (fun s =>
        ApiV1WorkflowSignalPost s (signal_request "test-signal-name" (Some (value i))))) 0 4;
  _ ← must w (fun s => ApiV1WorkflowGetWithWaitPost s (get_request "wid"));
  h ← GetTestResult;
  dump ← query_debug;
  mret ([same (dd_Config dump0) c0; same (dd_Config dump1) c1; same (dd_Config dump2) c2; internal;
         history_is h [("S1_start", 1); ("S1_decide", 1); ("S2_start", 1); ("S2_decide", 1)]%Z;
         noted h "signalId0" (DText "signal-cmd-id0"); noted h "signalId1" (DText "signal-cmd-id1");
         noted h "signalId2" (DText EmptyString); noted h "signalId3" (DText EmptyString);
         same (map_get [] (SignalsReceived (dd_Snapshot dump)) "test-unhandled-signal-name")
           (map (fun i => Some (value i)) (seq 0 10))] ++
        map (fun i => noted h ("signalValue" +:+ pretty i) (DObject (Some (value i)))) (seq 0 4) ++ infos).

(** ** deadend *)

Definition deadend_rpc (now : Z) (req : WorkflowWorkerRpcRequest) : answer WorkflowWorkerRpcResponse :=
  let ctx := wr_Context req in
  _ ← (if bool_decide (ctx_WorkflowId ctx = EmptyString) || bool_decide (ctx_WorkflowRunId ctx = EmptyString)
       then FailTestWithErrorMessage "invalid context in the request" else mret tt);
  _ ← (if bool_decide (wr_WorkflowType req = "deadend") then mret tt
       else FailTestWithErrorMessage "invalid workflow type");
  if bool_decide (wr_RpcName req = "test-RPCTriggerState") then
    reply_ok (mkWorkflowWorkerRpcResponse None
      (Some (mkStateDecision [mkStateMovement "S1" None (Some skip_options) None] None)) [] [] [] [] [])
  else if bool_decide (wr_RpcName req = "RPCWriteData") then
    reply_ok (mkWorkflowWorkerRpcResponse None None []
      [mkKeyValue (Some "any key") (Some (mkEncodedObject None None (Some "encoding") (Some "data")))] [] [] [])
  else FailTestWithErrorMessage "invalid rpc name".

Definition deadend_start (now : Z) (req : WorkflowStateStartRequest) : answer WorkflowStateStartResponse :=
  FailTestWithErrorMessage "should not be called".

Definition deadend_decide (now : Z) (req : WorkflowStateDecideRequest) : answer WorkflowStateDecideResponse :=
  if bool_decide (wd_WorkflowType req = "deadend") then
    _ ← count_decide req;
    if bool_decide (wd_WorkflowStateId req = "S1") then decide_to [to_state DeadEndWorkflowStateId]
    else bad_request
  else bad_request.

Definition deadend : WorkflowHandler := mkWorkflowHandler deadend_start deadend_decide deadend_rpc.

Definition continued_as_new : M system bool := fun sys =>
  Ret (match sys_run sys with Some r => bool_decide (is_Some (previous_run r)) | None => false end, sys).

Definition deadend_test (config : option WorkflowConfig) : test :=
  let call name := each (fun _ =>
    _ ← sleep deadend (2 * SecondNs)%Z;
    must deadend (fun s => ApiV1WorkflowRpcPost s (rpc_request name None))) 0 3 in
  _ ← must deadend (fun s => ApiV1WorkflowStartPost s (start_of "deadend" None None None config));
  _ ← call "RPCWriteData";
  continued ← continued_as_new;
  _ ← call "test-RPCTriggerState";
  _ ← sleep deadend (2 * SecondNs)%Z;
  _ ← must deadend (fun s => ApiV1WorkflowStopPost s (mkWorkflowStopRequest "wid" None None None));
  h ← GetTestResult;
  mret [same continued (bool_decide (is_Some config)); history_is h [("S1_decide", 3)]%Z].

(** ** command_thread_completion *)

Definition seconds_from (now d : Z) : option Z := Some (Unix (now + d * SecondNs)).

Definition command_thread_start (now : Z) (req : WorkflowStateStartRequest) : answer WorkflowStateStartResponse :=
  if bool_decide (ws_WorkflowType req = "command_thread_completion") then
    _ ← count_start req;
    if bool_decide (ws_WorkflowStateId req = "S1") then
      reply_ok (mkWorkflowStateStartResponse None [] []
        (Some (mkCommandRequest (Some ALL_COMMAND_COMPLETED) None
           [mkTimerCommand (Some "test-timer") (seconds_from now 2) None]
           [mkSignalCommand (Some "test-signal-cmd") "test-signal" None None]
           [mkInterStateChannelCommand (Some "test-channel-cmd") "test-channel" None None] []))
        [] [] [publish "test-channel" (Some (json_object "channel-data"))])
    else if bool_decide (ws_WorkflowStateId req = "S2") then
      start_with (mkCommandRequest (Some ALL_COMMAND_COMPLETED) None [] []
        [mkInterStateChannelCommand (Some "s2-channel-cmd") "test-channel2" None None] [])
    else if bool_decide (ws_WorkflowStateId req = "S3") then
      start_with (mkCommandRequest (Some ALL_COMMAND_COMPLETED) None
        [mkTimerCommand (Some "s3-timer-cmd") (seconds_from now 2) None] [] [] [])
    else if bool_decide (ws_WorkflowStateId req = "StateAnyCmd") then
      start_with (mkCommandRequest (Some ANY_COMMAND_COMPLETED) None
        [mkTimerCommand (Some "any-cmd-timer") (seconds_from now 20) None]
        [mkSignalCommand (Some "any-cmd-signal-cmd") "any-cmd-signal" None None] [] [])
    else bad_request
  else bad_request.

(** [recordData(key, true)] for a result that fits, [recordData(key, otherwise)] if none does. *)
Definition record_if {A} (key : string) (fits : A -> bool) (results : list A) (otherwise : option bool) :
  M WorkerState bool :=
  if existsb fits results then _ ← store_data key (DFlag true); mret true
  else match otherwise with
       | Some b => _ ← store_data key (DFlag b); mret false
       | None => mret false
       end.
Definition fired (r : TimerResult) : bool :=
  match tr_TimerStatus r with FIRED => true | _ => false end.
Definition signal_received (channel : string) (r : SignalResult) : bool :=
  bool_decide (sr_SignalChannelName r = channel) && bool_decide (SignalRequestStatus r = RECEIVED).
Definition channel_received (channel : string) (r : InterStateChannelResult) : bool :=
  bool_decide (ir_ChannelName r = channel) && bool_decide (RequestStatus r = RECEIVED).

Definition command_thread_decide (now : Z) (req : WorkflowStateDecideRequest) : answer WorkflowStateDecideResponse :=
  let results := GetCommandResults req in
  if bool_decide (wd_WorkflowType req = "command_thread_completion") then
    _ ← count_decide req;
    if bool_decide (wd_WorkflowStateId req = "S1") then
      _ ← record_if "s1_timer_fired" fired (TimerResults results) None;
      _ ← record_if "s1_signal_received" (signal_received "test-signal") (SignalResults results) None;
      _ ← record_if "s1_channel_received" (channel_received "test-channel") (InterStateChannelResults results) None;
      reply_ok (mkWorkflowStateDecideResponse None
        (Some (mkStateDecision [to_state "S2"; to_state "S3"] None)) [] [] [] []
        [publish "test-channel2" (Some (json_object "channel-data"))])
    else if bool_decide (wd_WorkflowStateId req = "S2") then
      _ ← record_if "s2_channel_received" (channel_received "test-channel2")
            (InterStateChannelResults results) (Some false);
      _ ← (match find (channel_received "test-channel2") (rev (InterStateChannelResults results)) with
           | Some r => store_data "s2_channel_value" (DObject (Some (object_or_empty (ir_Value r))))
           | None => mret tt
           end);
      decide_to [to_state DeadEndWorkflowStateId]
    else if bool_decide (wd_WorkflowStateId req = "S3") then
      _ ← record_if "s3_timer_fired" fired (TimerResults results) (Some false);
      decide_to [to_state GracefulCompletingWorkflowStateId]
    else if bool_decide (wd_WorkflowStateId req = "StateAnyCmd") then
      _ ← record_if "any_cmd_signal_received" (signal_received "any-cmd-signal")
            (SignalResults results) (Some false);
      decide_to [to_state "S3"]
    else bad_request
  else bad_request.

Definition command_thread_completion : WorkflowHandler :=
  mkWorkflowHandler command_thread_start command_thread_decide no_rpc.

Definition half_a_second : Z := 500000000.

Definition any_command_completed_test : test :=
  let w := command_thread_completion in
  startTime ← system_now;
  _ ← must w (fun s => ApiV1WorkflowStartPost s (start_of "command_thread_completion" (Some "StateAnyCmd")
        None None (Some (mkWorkflowConfig None None (Some 1%Z) None None None))));
  _ ← sleep w half_a_second;
  _ ← must w (fun s => ApiV1WorkflowSignalPost s
        (signal_request "any-cmd-signal" (Some (json_object "signal-data"))));
  resp ← must w (fun s => ApiV1WorkflowGetWithWaitPost s (mkWorkflowGetRequest "wid" None None (Some 20%Z)));
  endTime ← system_now;
  h ← GetTestResult;
  mret [history_is h [("S3_decide", 1); ("S3_start", 1); ("StateAnyCmd_start", 1); ("StateAnyCmd_decide", 1)]%Z;
        same (getr_WorkflowStatus resp) COMPLETED;
        noted h "any_cmd_signal_received" (DFlag true);
        (endTime - startTime <? 5 * SecondNs)%Z].

Definition command_thread_completion_test (config : option WorkflowConfig) : test :=
  let w := command_thread_completion in
  _ ← must w (fun s => ApiV1WorkflowStartPost s (start_of "command_thread_completion" (Some "S1") None None config));
  _ ← sleep w half_a_second;
  _ ← must w (fun s => ApiV1WorkflowSignalPost s (signal_request "test-signal" (Some (json_object "signal-data"))));
  resp ← must w (fun s => ApiV1WorkflowGetWithWaitPost s (get_request "wid"));
  h ← GetTestResult;
  mret [history_is h [("S1_start", 1); ("S1_decide", 1); ("S2_start", 1); ("S2_decide", 1);
          ("S3_start", 1); ("S3_decide", 1)]%Z;
        same (getr_WorkflowStatus resp) COMPLETED;
        noted h "s1_timer_fired" (DFlag true); noted h "s1_signal_received" (DFlag true);
        noted h "s1_channel_received" (DFlag true); noted h "s2_channel_received" (DFlag true);
        noted h "s2_channel_value" (DObject (Some (json_object "channel-data")));
        noted h "s3_timer_fired" (DFlag true)].

(** ** wf_ignore_already_started *)

Definition ignore_started_start (now : Z) (req : WorkflowStateStartRequest) : answer WorkflowStateStartResponse :=
  if bool_decide (ws_WorkflowType req = "wf_ignore_already_started") then
    _ ← count_start req;
    if bool_decide (ws_WorkflowStateId req = "S1") then
      start_with (mkCommandRequest (Some ALL_COMMAND_COMPLETED) None
        [mkTimerCommand (Some "timer-cmd-id") None (Some 10%Z)] [] [] [])
    else bad_request
  else bad_request.

Definition ignore_started_decide (now : Z) (req : WorkflowStateDecideRequest) : answer WorkflowStateDecideResponse :=
  if bool_decide (wd_WorkflowType req = "wf_ignore_already_started") then
    _ ← count_decide req;
    if bool_decide (wd_WorkflowStateId req = "S1") then decide_to [to_state GracefulCompletingWorkflowStateId]
    else bad_request
  else bad_request.

Definition wf_ignore_already_started : WorkflowHandler :=
  mkWorkflowHandler ignore_started_start ignore_started_decide no_rpc.

Definition ignore_already_started_test (first second : option WorkflowAlreadyStartedOptions)
  (errorExpected : bool) : test :=
  let w := wf_ignore_already_started in
  let createReq o := mkWorkflowStartRequest "wid" "wf_ignore_already_started" 10 "worker" (Some "S1") [] [] None None
    (Some (mkWorkflowStartOptions None None None None [] [] None None None o)) in
  firstRes ← must w (fun s => ApiV1WorkflowStartPost s (createReq first));
  secondRes ← api w (fun s => ApiV1WorkflowStartPost s (createReq second));
  mret [if errorExpected then same (sub_status secondRes) (Some WORKFLOW_ALREADY_STARTED_SUB_STATUS)
        else match secondRes with
             | inl r => same (sresp_WorkflowRunId firstRes) (sresp_WorkflowRunId r)
             | inr _ => false
             end].

(** ** wf_stop, which uses the signal worker *)

Definition stop_request (stopType : option WorkflowStopType) (reason : option string) : WorkflowStopRequest :=
  mkWorkflowStopRequest "wid" None reason stopType.

Definition stop_test (stopType : WorkflowStopType) (reason : option string)
  (status : WorkflowStatus) (errType : option WorkflowErrorType) (config : option WorkflowConfig) : test :=
  let w := signal_worker in
  started ← must w (fun s => ApiV1WorkflowStartPost s (start_of "signal" (Some "S1") None None config));
  _ ← must w (fun s => ApiV1WorkflowStopPost s (stop_request (Some stopType) reason));
  resp ← must w (fun s => ApiV1WorkflowGetWithWaitPost s (get_request "wid"));
  mret [same (sresp_WorkflowRunId started) (Some (getr_WorkflowRunId resp));
        same (getr_WorkflowStatus resp) status; same (ErrorType resp) errType;
        same (ErrorMessage resp) reason; same (Results resp) []].

(** Starting again, with the policies that terminate the run there is. *)
Definition terminate_if_running_test (config : option WorkflowConfig) : test :=
  let w := signal_worker in
  let request policy idPolicy := mkWorkflowStartRequest "wid" "signal" 10 "worker" (Some "S1") [] [] None None
    (Some (mkWorkflowStartOptions policy None None None [] [] config idPolicy None None)) in
  _ ← must w (fun s => ApiV1WorkflowStartPost s (request None None));
  again ← api w (fun s => ApiV1WorkflowStartPost s (request None None));
  _ ← must w (fun s => ApiV1WorkflowStartPost s (request (Some TERMINATE_IF_RUNNING) None));
  _ ← must w (fun s => ApiV1WorkflowStartPost s (request None (Some ALLOW_TERMINATE_IF_RUNNING)));
  _ ← must w (fun s => ApiV1WorkflowStopPost s (stop_request (Some TERMINATE) None));
  resp ← must w (fun s => ApiV1WorkflowGetWithWaitPost s (get_request "wid"));
  mret [match again with inl _ => false | inr _ => true end; response_is TERMINATED None [] resp].

(** ** greedy_timer *)

Definition Input_codec : codec (list Z) := struct true (
  construct (fun durations => durations) ⊛ required "durations" (fun durations => durations) (slice int64_codec))%json.
Definition input_text (durations : list Z) : string :=
  String.string_of_list_ascii (Marshal Input_codec durations).

Definition greedy_timer_rpc (now : Z) (req : WorkflowWorkerRpcRequest) : answer WorkflowWorkerRpcResponse :=
  let ctx := wr_Context req in
  _ ← (if bool_decide (ctx_WorkflowId ctx = EmptyString) || bool_decide (ctx_WorkflowRunId ctx = EmptyString)
       then FailTestWithErrorMessage "invalid context in the request" else mret tt);
  _ ← (if bool_decide (wr_WorkflowType req = "greedy_timer") then mret tt
       else liftM (Panic ("invalid WorkflowType:" +:+ wr_WorkflowType req)));
  if bool_decide (wr_RpcName req = "submitDurationsRPC") then
    reply_ok (mkWorkflowWorkerRpcResponse None
      (Some (mkStateDecision [mkStateMovement "schedule" (wr_Input req) None None] None)) [] [] [] [] [])
  else FailTestWithErrorMessage "invalid rpc name".

Definition greedy_timer_start (now : Z) (req : WorkflowStateStartRequest) : answer WorkflowStateStartResponse :=
  if bool_decide (ws_WorkflowType req = "greedy_timer") then
    _ ← count_start req;
    if bool_decide (ws_WorkflowStateId req = "schedule") then
      match Unmarshal Input_codec (String.list_ascii_of_string (default EmptyString (ws_StateInput req ≫= Data))) with
      | None => liftM (Panic "invalid input")
      | Some durations =>
          start_with (mkCommandRequest (Some ALL_COMMAND_COMPLETED) None
            (map (fun d => mkTimerCommand (Some ("duration-" +:+ pretty d)) None (Some d)) durations) [] [] [])
      end
    else bad_request
  else bad_request.

Definition greedy_timer_decide (now : Z) (req : WorkflowStateDecideRequest) : answer WorkflowStateDecideResponse :=
  if bool_decide (wd_WorkflowType req = "greedy_timer") then
    _ ← count_decide req;
    if bool_decide (wd_WorkflowStateId req = "schedule") then
      _ ← store_data "completed_state_id" (DText (default EmptyString (ctx_StateExecutionId (wd_Context req))));
      r0 ← at_index (TimerResults (GetCommandResults req)) 0;
      _ ← store_data "completed_timer_id" (DText (tr_CommandId r0));
      decide_to [to_state ForceCompletingWorkflowStateId]
    else bad_request
  else bad_request.

Definition greedy_timer : WorkflowHandler :=
  mkWorkflowHandler greedy_timer_start greedy_timer_decide greedy_timer_rpc.

(** scheduleTimerAndAssertExpectedScheduled *)
Definition schedules (duration noMoreThan : Z) : M system bool :=
  _ ← must greedy_timer (fun s => ApiV1WorkflowRpcPost s
        (rpc_request "submitDurationsRPC" (Some (json_object (input_text [duration])))));
  _ ← sleep greedy_timer SecondNs;
  debug ← query_debug;
  mret (len (FiringTimersUnixTimestamps debug) <=? noMoreThan)%Z.

Definition greedy_timer_test (config : WorkflowConfig) : test :=
  let w := greedy_timer in
  _ ← must w (fun s => ApiV1WorkflowStartPost s (start_of "greedy_timer" (Some "schedule")
        (Some (json_object (input_text [15; 30]%Z))) None (Some config)));
  _ ← sleep w SecondNs;
  debug1 ← query_debug;
  ok1 ← schedules 20 1;
  _ ← must w (fun s => ApiV1WorkflowSkipTimerPost s
        (mkWorkflowSkipTimerRequest "wid" None "schedule-1" (Some "duration-15") None));
  _ ← sleep w SecondNs;
  debug2 ← query_debug;
  ok2 ← schedules 5 2;
  _ ← must w (fun s => ApiV1WorkflowGetWithWaitPost s (get_request "wid"));
  h ← GetTestResult;
  mret [ok1; ok2;
        match FiringTimersUnixTimestamps debug1, FiringTimersUnixTimestamps debug2 with
        | [t1], [t2] => (t1 <=? t2)%Z
        | _, _ => false
        end;
        history_is h [("schedule_start", 3); ("schedule_decide", 1)]%Z].

(** ** The tests of this file *)

(** get_with_wait_timeout: the signal worker's workflow waits for longer than the caller. *)
Definition wait_timeout_test (config : option WorkflowConfig) : test :=
  let w := signal_worker in
  _ ← must w (fun s => ApiV1WorkflowStartPost s (start_of "signal" (Some "S1") None None config));
  r ← api w (fun s => ApiV1WorkflowGetWithWaitPost s (get_request "wid"));
  mret [match r with
        | inl _ => false
        | inr e =>
            same (StatusCode e) HttpStatusCodeSpecial4xxError1 &&
            same (er_SubStatus (es_Error e)) (Some LONG_POLL_TIME_OUT_SUB_STATUS) &&
            same (er_Detail (es_Error e))
              (Some "workflow is still running, waiting has exceeded timeout limit, please retry")
        end].

Definition channel_tests : list test :=
  [conditional_close_test false None; conditional_close_test true None;
   conditional_close_test false (asNew false); conditional_close_test true (asNew false);
   interstate_test None; interstate_test (asNew true);
   any_command_combination_test None; any_command_combination_test (asNew false);
   signal_test None; signal_test (asNew false); deadend_test None; deadend_test (asNew true);
   command_thread_completion_test None;
   command_thread_completion_test (Some (mkWorkflowConfig None None (Some 1%Z) None None None));
   any_command_completed_test;
   greedy_timer_test (greedyTimerConfig false); greedy_timer_test (greedyTimerConfig true);
   wait_timeout_test None].


Definition already_options (ignore : bool) (requestId : option string) : option WorkflowAlreadyStartedOptions :=
  Some (mkWorkflowAlreadyStartedOptions ignore requestId).

Definition client_tests : list test :=
  [ignore_already_started_test None None true;
   ignore_already_started_test None (already_options true None) false;
   ignore_already_started_test (already_options false (Some "test")) (already_options true (Some "test")) false;
   ignore_already_started_test (already_options false (Some "test1")) (already_options true (Some "test2")) true;
   stop_test CANCEL None CANCELED None None; stop_test CANCEL None CANCELED None (asNew false);
   terminate_if_running_test None; terminate_if_running_test (asNew false);
   stop_test FAIL (Some "fail reason") FAILED (Some CLIENT_API_FAILING_WORKFLOW_ERROR_TYPE) None;
   stop_test FAIL (Some "fail reason") FAILED (Some CLIENT_API_FAILING_WORKFLOW_ERROR_TYPE) (asNew false)].


Lemma upholds_each {A} (f : nat -> M system A) from n : (forall i, upholds (f i)) -> upholds (each f from n).
Proof. intros Hf. revert from. induction n as [|n IH]; intros from; cbn [each]; upholds_auto; done. Qed.
Lemma upholds_query_debug : upholds query_debug.
Proof. unfold query_debug. intros sys a sys' H. destruct (sys_run sys); [by intros [= <- <-] | done]. Qed.
Lemma upholds_continued_as_new : upholds continued_as_new.
Proof. apply upholds_look. Qed.
Lemma upholds_asks_infos name expected : upholds (asks_infos name expected).
Proof. unfold asks_infos. upholds_auto. Qed.
#[export] Hint Resolve upholds_each upholds_query_debug upholds_continued_as_new upholds_asks_infos : test_upholds.
Lemma upholds_schedules duration noMoreThan : upholds (schedules duration noMoreThan).
Proof. unfold schedules. upholds_auto. Qed.
#[export] Hint Resolve upholds_schedules : test_upholds.

Lemma channel_tests_pass : Forall passes channel_tests.
Proof.
  apply passes_all; [|vm_compute; reflexivity].
  unfold channel_tests, conditional_close_test, interstate_test, any_command_combination_test, signal_test, deadend_test,
    command_thread_completion_test, any_command_completed_test, greedy_timer_test, wait_timeout_test.
  repeat apply Forall_cons_2; try apply Forall_nil_2; upholds_auto; apply upholds_each; upholds_auto.
Qed.

Lemma client_tests_pass : Forall passes client_tests.
Proof.
  apply passes_all; [|vm_compute; reflexivity].
  unfold client_tests, ignore_already_started_test, stop_test, terminate_if_running_test.
  repeat apply Forall_cons_2; try apply Forall_nil_2; upholds_auto.
Qed.
