(* ===== verification/TestAttributes.v ===== *)
(** * The workers of the integration tests that use attributes

    The workers persistence, persistence_loading_policy, wf_state_options_data_attributes_loading,
    wf_state_options_search_attributes_loading and rpc of integ/workflow, with their tests;
    all without the external storage. *)

From S2P Require Export TestChannels.

Definition object (key data : string) : KeyValue := mkKeyValue (Some key) (Some (json_object data)).
Definition keyword_attribute (key v : string) : SearchAttribute :=
  mkSearchAttribute (Some key) (Some v) None None None [] (Some KEYWORD).
Definition int_attribute (key : string) (v : Z) : SearchAttribute :=
  mkSearchAttribute (Some key) None (Some v) None None [] (Some INT).
Definition bool_attribute (key : string) (v : bool) : SearchAttribute :=
  mkSearchAttribute (Some key) None None None (Some v) [] (Some BOOL).
Definition text_attribute (key v : string) : SearchAttribute :=
  mkSearchAttribute (Some key) (Some v) None None None [] (Some TEXT).

(** A loading policy without the rest. *)
Definition loading (ty : PersistenceLoadingType) (partial : list string) : PersistenceLoadingPolicy :=
  mkPersistenceLoadingPolicy (Some ty) partial [] None None.

(** State options with a policy for the search attributes and one for the data attributes. *)
Definition loading_options (sas das : option PersistenceLoadingPolicy) : WorkflowStateOptions :=
  mkWorkflowStateOptions sas None None None None None None None None None None None None
    None None None None None None das None None.

Definition fail_unless (b : bool) (msg : string) : M WorkerState unit :=
  if b then mret tt else FailTestWithErrorMessage msg.

(** ** persistence *)

Definition found_keywords (v : string) (sas : list SearchAttribute) : Z :=
  len (List.filter (fun sa => bool_decide (sa_Key sa = Some "CustomKeywordField") &&
    bool_decide (StringValue sa = Some v) && bool_decide (ValueType sa = Some KEYWORD)) sas).
Definition found_ints (v : Z) (sas : list SearchAttribute) : Z :=
  len (List.filter (fun sa => bool_decide (sa_Key sa = Some "CustomIntField") &&
    bool_decide (IntegerValue sa = Some v) && bool_decide (ValueType sa = Some INT)) sas).
Definition has_key (key : string) (kv : KeyValue) : bool := bool_decide (kv_Key kv = Some key).
Definition has_data (key data : string) (kv : KeyValue) : bool :=
  has_key key kv && bool_decide (default EmptyString (kv_Value kv ≫= Data) = data) &&
  bool_decide (default EmptyString (kv_Value kv ≫= Encoding) = "json").
Definition count_if {A} (f : A -> bool) (l : list A) : Z := len (List.filter f l).

Definition value1 : string := "test-data-attribute-value1".
Definition value2 : string := "test-data-attribute-value2".
Definition key1 : string := "test-data-attribute".
Definition key2 : string := "test-data-attribute-2".

(** What S2 notes and checks of its attributes, in both APIs. *)
Definition check_s2 (api_name : string) (sas : list SearchAttribute) (das : list KeyValue) : M WorkerState unit :=
  _ ← store_data ("S2_" +:+ api_name +:+ "_kwSaFounds") (DInt (found_keywords "keyword-value2" sas));
  _ ← store_data ("S2_" +:+ api_name +:+ "_intSaFounds") (DInt (found_ints 2 sas));
  _ ← fail_unless (negb (existsb (has_key key2) das))
        "should not load key that is not included in partial loading";
  store_data ("S2_" +:+ api_name +:+ "_queryAttFound") (DFlag (existsb (has_data key1 value2) das)).

(** What S3 checks, in both APIs. *)
Definition check_s3 (sas : list SearchAttribute) (das : list KeyValue) : M WorkerState unit :=
  _ ← fail_unless (negb (existsb (fun sa => bool_decide (sa_Key sa = Some "CustomKeywordField")) sas))
        "should not load key that is not included in partial loading";
  _ ← fail_unless (0 <? found_ints 2 sas)%Z "should see the requested partial loading key";
  fail_unless (count_if (has_key key1) das + count_if (has_key key2) das =? 2)%Z
    "missing query attribute requested by partial loading keys".

Definition persistence_start (now : Z) (req : WorkflowStateStartRequest) : answer WorkflowStateStartResponse :=
  let initSas := ws_SearchAttributes req in
  _ ← fail_unless (1 <=? len initSas)%Z "should have at least one init search attribute";
  _ ← fail_unless (forallb (fun sa => negb (bool_decide (sa_Key sa = Some "CustomDatetimeField")) ||
                                      bool_decide (ValueType sa = Some DATETIME)) initSas)
        "key and value type not match";
  if bool_decide (ws_WorkflowType req = "persistence") then
    _ ← count_start req;
    if bool_decide (ws_WorkflowStateId req = "S1") then
      reply_ok (mkWorkflowStateStartResponse None
        [keyword_attribute "CustomKeywordField" "keyword-value1"; int_attribute "CustomIntField" 1;
         bool_attribute "CustomBoolField" false]
        [object key1 value1; object key2 value1] (Some straight)
        [object "test-state-local" "test-state-local-value"] [] [])
    else if bool_decide (ws_WorkflowStateId req = "S2") then
      _ ← check_s2 "start" initSas (ws_DataObjects req); start_with straight
    else if bool_decide (ws_WorkflowStateId req = "S3") then
      _ ← check_s3 initSas (ws_DataObjects req); start_with straight
    else bad_request
  else bad_request.

Definition persistence_decide (now : Z) (req : WorkflowStateDecideRequest) : answer WorkflowStateDecideResponse :=
  let sas := wd_SearchAttributes req in
  let das := wd_DataObjects req in
  if bool_decide (wd_WorkflowType req = "persistence") then
    _ ← count_decide req;
    if bool_decide (wd_WorkflowStateId req = "S1") then
      _ ← store_data "S1_decide_kwSaFounds" (DInt (found_keywords "keyword-value1" sas));
      _ ← store_data "S1_decide_intSaFounds" (DInt (found_ints 1 sas));
      _ ← store_data "S1_decide_queryAttFound"
            (DInt (count_if (has_data key1 value1) das + count_if (has_data key2 value1) das));
      localAtt ← at_index (wd_StateLocals req) 0;
      _ ← store_data "S1_decide_localAttFound" (DFlag (has_data "test-state-local" "test-state-local-value" localAtt));
      reply_ok (mkWorkflowStateDecideResponse None
        (Some (mkStateDecision [mkStateMovement "S2" None
           (Some (loading_options
              (Some (loading PARTIAL_WITHOUT_LOCKING ["CustomIntField"; "CustomKeywordField"]))
              (Some (loading PARTIAL_WITHOUT_LOCKING [key1])))) None] None))
        [keyword_attribute "CustomKeywordField" "keyword-value2"; int_attribute "CustomIntField" 2]
        [object key1 value2] [] [] [])
    else if bool_decide (wd_WorkflowStateId req = "S2") then
      _ ← check_s2 "decide" sas das;
      decide_to [mkStateMovement "S3" None
        (Some (mkWorkflowStateOptions (Some (loading PARTIAL_WITHOUT_LOCKING ["CustomIntField"])) None None
                 (Some (loading PARTIAL_WITHOUT_LOCKING [key1; key2])) None None None None None None None None
                 None None None None None None None None None None)) None]
    else if bool_decide (wd_WorkflowStateId req = "S3") then
      _ ← check_s3 sas das; decide_to [to_state GracefulCompletingWorkflowStateId]
    else bad_request
  else bad_request.

Definition persistence : WorkflowHandler := mkWorkflowHandler persistence_start persistence_decide no_rpc.

Definition start_with_attributes (workflowType state : string) (input : option EncodedObject)
  (options : option WorkflowStateOptions) (sas : list SearchAttribute) (das : list KeyValue)
  (config : option WorkflowConfig) : WorkflowStartRequest :=
  mkWorkflowStartRequest "wid" workflowType 20 "worker" (Some state) [] [] input options
    (Some (mkWorkflowStartOptions None None None None sas das config None (Some false) None)).

Definition data_attributes {testCfg : IwfServiceTestConfig} (w : WorkflowHandler) (keys : list string) : M system (list KeyValue) :=
  resp ← must w (fun s => ApiV1WorkflowGetQueryAttributesPost s
           (mkWorkflowGetDataObjectsRequest "wid" None keys (Some false)));
  mret (Objects resp).
Definition search_attributes (w : WorkflowHandler) (keys : list (string * SearchAttributeValueType)) :
  M system (list SearchAttribute) :=
  resp ← must w (fun s => ApiV1WorkflowGetSearchAttributesPost s (mkWorkflowGetSearchAttributesRequest "wid" None
           (map (fun '(k, ty) => mkSearchAttributeKeyAndType (Some k) (Some ty)) keys)));
  mret (gsr_SearchAttributes resp).
Definition query_all_search_attributes : M system (list SearchAttribute) := fun sys =>
  match sys_run sys with
  | Some r => Ret (query_search_attributes (state_of (run r)), sys)
  | None => Panic "Fail to invoke query"
  end.

(** Without the memo, and without the search for several workflows at the end. *)
Definition persistence_test (config : option WorkflowConfig) : test :=
  let w := persistence in
  let expectedData := mkKeyValue (Some "TestKey")
    (Some (mkEncodedObject None None (Some "TestEncoding") (Some "TestValue"))) in
  let expectedDatetime := mkSearchAttribute (Some "CustomDatetimeField") (Some "2023-11-14T22:13:20+00:00")
    None None None [] (Some DATETIME) in
  let all := loading ALL_WITHOUT_LOCKING [] in
  _ ← must w (fun s => ApiV1WorkflowStartPost s (start_with_attributes "persistence" "S1" None
        (Some (mkWorkflowStateOptions (Some all) None None (Some all) None None None None None None None None
                 None None None None None None None None None None)) [expectedDatetime] [expectedData] config));
  first ← data_attributes w [key1; "TestKey"];
  _ ← must w (fun s => ApiV1WorkflowGetWithWaitPost s (get_request "wid"));
  query1 ← data_attributes w [key1; "TestKey"];
  query2 ← data_attributes w [];
  search1 ← search_attributes w [("CustomKeywordField", KEYWORD)];
  search2 ← search_attributes w [("CustomIntField", INT)];
  sas ← query_all_search_attributes;
  h ← GetTestResult;
  mret [bool_decide (expectedData ∈ first);
        history_is h [("S1_start", 1); ("S1_decide", 1); ("S2_start", 1); ("S2_decide", 1);
          ("S3_start", 1); ("S3_decide", 1)]%Z;
        same (invokeData h) (list_to_map
          [("S1_decide_intSaFounds", DInt 1); ("S1_decide_kwSaFounds", DInt 1);
           ("S2_decide_intSaFounds", DInt 1); ("S2_decide_kwSaFounds", DInt 1);
           ("S2_start_intSaFounds", DInt 1); ("S2_start_kwSaFounds", DInt 1);
           ("S1_decide_localAttFound", DFlag true); ("S1_decide_queryAttFound", DInt 2);
           ("S2_decide_queryAttFound", DFlag true); ("S2_start_queryAttFound", DFlag true)]);
        elements_match [object key1 value2; expectedData] query1;
        elements_match [object key1 value2; object key2 value1; expectedData] query2;
        same search1 [keyword_attribute "CustomKeywordField" "keyword-value2"];
        same search2 [int_attribute "CustomIntField" 2];
        elements_match [expectedDatetime; keyword_attribute "CustomKeywordField" "keyword-value2";
          int_attribute "CustomIntField" 2; bool_attribute "CustomBoolField" false] sas].

(** ** persistence_loading_policy *)

(** [iwfidl.PersistenceLoadingType(input.GetData())] *)
Definition loading_type (input : option EncodedObject) : PersistenceLoadingType :=
  let text := default EmptyString (input ≫= Data) in
  default (if bool_decide (text = EmptyString) then PersistenceLoadingType_empty else PersistenceLoadingType_other text)
    (enum_of_text PersistenceLoadingType_enum text).
Definition loading_input (ty : PersistenceLoadingType) : EncodedObject :=
  json_object (enum_text PersistenceLoadingType_enum ty).

Definition verifyLoadedAttributes (sas : list SearchAttribute) (das : list KeyValue)
  (ty : PersistenceLoadingType) : M WorkerState unit :=
  let sa1 := keyword_attribute "CustomKeywordField" "test-search-attribute-1" in
  let sa2 := text_attribute "CustomStringField" "test-search-attribute-2" in
  let '(expectedSas, expectedDas) :=
    match ty with
    | ALL_WITHOUT_LOCKING | PARTIAL_WITH_EXCLUSIVE_LOCK => ([sa1; sa2], [object "da_1" value1; object "da_2" value2])
    | PARTIAL_WITHOUT_LOCKING => ([sa1], [object "da_1" value1])
    | _ => ([], [])
    end in
  _ ← fail_unless (elements_match expectedSas sas) "Search attributes should be the same";
  fail_unless (elements_match expectedDas das) "Data attributes should be the same".

Definition getStateDecision (nextStateId : string) (input : option EncodedObject) : StateDecision :=
  let policy partial lock := mkPersistenceLoadingPolicy (Some (loading_type input)) [partial] [lock] None None in
  mkStateDecision [mkStateMovement nextStateId (Some (object_or_empty input))
    (Some (loading_options (Some (policy "CustomKeywordField" "CustomStringField"))
             (Some (policy "da_1" "da_2")))) None] None.

Definition any_command_straight : CommandRequest := mkCommandRequest (Some ANY_COMMAND_COMPLETED) None [] [] [] [].

Definition loading_policy_start (now : Z) (req : WorkflowStateStartRequest) : answer WorkflowStateStartResponse :=
  if bool_decide (ws_WorkflowType req = "persistence_loading_policy") then
    _ ← count_start req;
    _ ← (if bool_decide (ws_WorkflowStateId req = "S2")
         then verifyLoadedAttributes (ws_SearchAttributes req) (ws_DataObjects req) (loading_type (ws_StateInput req))
         else mret tt);
    start_with any_command_straight
  else bad_request.

Definition loading_policy_decide (now : Z) (req : WorkflowStateDecideRequest) : answer WorkflowStateDecideResponse :=
  let id := wd_WorkflowStateId req in
  if bool_decide (wd_WorkflowType req = "persistence_loading_policy") then
    _ ← count_decide req;
    _ ← (if bool_decide (id = "S2")
         then verifyLoadedAttributes (wd_SearchAttributes req) (wd_DataObjects req) (loading_type (wd_StateInput req))
         else mret tt);
    let first := bool_decide (id = "S1") in
    let nextStateId := if first then DeadEndWorkflowStateId
                       else if bool_decide (id = "S2") then GracefulCompletingWorkflowStateId else EmptyString in
    reply_ok (mkWorkflowStateDecideResponse None (Some (getStateDecision nextStateId (wd_StateInput req)))
      (if first then [keyword_attribute "CustomKeywordField" "test-search-attribute-1";
                      text_attribute "CustomStringField" "test-search-attribute-2"] else [])
      (if first then [object "da_1" value1; object "da_2" value2] else []) [] [] [])
  else bad_request.

Definition loading_policy_rpc (now : Z) (req : WorkflowWorkerRpcRequest) : answer WorkflowWorkerRpcResponse :=
  if bool_decide (wr_WorkflowType req = "persistence_loading_policy") then
    _ ← count_invocation "rpc";
    _ ← verifyLoadedAttributes (wr_SearchAttributes req) (wr_DataAttributes req) (loading_type (wr_Input req));
    reply_ok (mkWorkflowWorkerRpcResponse None (Some (getStateDecision "S2" (wr_Input req))) [] [] [] [] [])
  else bad_request.

Definition persistence_loading_policy : WorkflowHandler :=
  mkWorkflowHandler loading_policy_start loading_policy_decide loading_policy_rpc.

(** For the types without locks: an RPC that locks is an update. *)
Definition persistence_loading_policy_test (ty : PersistenceLoadingType) : test :=
  let w := persistence_loading_policy in
  let policy partial lock := Some (mkPersistenceLoadingPolicy (Some ty) [partial] [lock] None None) in
  _ ← must w (fun s => ApiV1WorkflowStartPost s (start_with_attributes "persistence_loading_policy" "S1"
        (Some (loading_input ty)) None [] [] None));
  _ ← sleep w (2 * SecondNs)%Z;
  _ ← must w (fun s => ApiV1WorkflowRpcPost s (mkWorkflowRpcRequest "wid" None "persistence_loading_policy_rpc"
        (Some (loading_input ty)) (policy "CustomKeywordField" "CustomStringField") (policy "da_1" "da_2")
        (Some 3%Z) (Some false) []));
  _ ← must w (fun s => ApiV1WorkflowGetWithWaitPost s (get_request "wid"));
  h ← GetTestResult;
  mret [history_is h [("S1_start", 1); ("S1_decide", 1); ("rpc", 1); ("S2_start", 1); ("S2_decide", 1)]%Z].

(** ** wf_state_options_data_attributes_loading and wf_state_options_search_attributes_loading

    The two workers differ in the attributes they load. *)

Section state_options.
Context {A : Type} `{EqDecision A} (workflowType : string) (upserted : list A).
Context (wait_until_key execute_key other_key : string) (with_key : string -> A -> bool).
Context (start_attributes : WorkflowStateStartRequest -> list A) (decide_attributes : WorkflowStateDecideRequest -> list A).
Context (options : option PersistenceLoadingPolicy -> option PersistenceLoadingPolicy ->
                   option PersistenceLoadingPolicy -> WorkflowStateOptions).
Context (respond : list StateMovement -> list A -> answer WorkflowStateDecideResponse).

Definition of_key (key : string) : list A := List.filter (with_key key) upserted.

Definition getExpectedAttributes (stateId method : string) (ty : PersistenceLoadingType) : list A :=
  let partial := match ty with PARTIAL_WITH_EXCLUSIVE_LOCK | PARTIAL_WITHOUT_LOCKING => true | _ => false end in
  if negb partial then upserted
  else if bool_decide (stateId = "S2") then of_key wait_until_key
  else if bool_decide (stateId = "S3") then of_key execute_key
  else if bool_decide (stateId = "S4") then of_key other_key
  else if bool_decide (stateId = "S5") then
    if bool_decide (method = "WaitUntil") then of_key wait_until_key
    else if bool_decide (method = "Execute") then of_key other_key else upserted
  else upserted.

Definition verifyEmptyAttributes (l : list A) : M WorkerState unit :=
  fail_unless (elements_match [] l) "attributes should be empty".
Definition verifyLoaded (stateId method : string) (l : list A) (ty : PersistenceLoadingType) : M WorkerState unit :=
  fail_unless (elements_match (getExpectedAttributes stateId method ty) l) "attributes should be the same".

Definition state_options_start (now : Z) (req : WorkflowStateStartRequest) : answer WorkflowStateStartResponse :=
  let id := ws_WorkflowStateId req in
  if bool_decide (ws_WorkflowType req = workflowType) then
    _ ← count_start req;
    _ ← (if bool_decide (id ∈ ["S2"; "S4"; "S5"])
         then verifyLoaded id "WaitUntil" (start_attributes req) (loading_type (ws_StateInput req)) else mret tt);
    _ ← (if bool_decide (id = "S3") then verifyEmptyAttributes (start_attributes req) else mret tt);
    start_with any_command_straight
  else bad_request.

(** getState1DecideResponse to getState5DecideResponse *)
Definition next_of_state (id : string) (input : option EncodedObject) : list StateMovement :=
  let policy key := Some (loading (loading_type input) [key]) in
  let none := Some (loading NONE []) in
  let next id wait_until execute all :=
    [mkStateMovement id (Some (object_or_empty input)) (Some (options wait_until execute all)) None] in
  if bool_decide (id = "S1") then next "S2" (policy wait_until_key) none None
  else if bool_decide (id = "S2") then next "S3" none (policy execute_key) None
  else if bool_decide (id = "S3") then next "S4" None None (policy other_key)
  else if bool_decide (id = "S4") then next "S5" (policy wait_until_key) None (policy other_key)
  else [to_state GracefulCompletingWorkflowStateId].

Definition state_options_decide (now : Z) (req : WorkflowStateDecideRequest) : answer WorkflowStateDecideResponse :=
  let id := wd_WorkflowStateId req in
  let input := wd_StateInput req in
  if bool_decide (wd_WorkflowType req = workflowType) then
    _ ← count_decide req;
    _ ← (if bool_decide (id = "S2") then verifyEmptyAttributes (decide_attributes req) else mret tt);
    _ ← (if bool_decide (id ∈ ["S3"; "S4"; "S5"])
         then verifyLoaded id "Execute" (decide_attributes req) (loading_type input) else mret tt);
    if bool_decide (id ∈ ["S1"; "S2"; "S3"; "S4"; "S5"])
    then respond (next_of_state id input) (if bool_decide (id = "S1") then upserted else [])
    else reply_ok (mkWorkflowStateDecideResponse None None [] [] [] [] [])
  else bad_request.

End state_options.

Definition getUpsertDataAttributes : list KeyValue :=
  [object "da_wait_until1" "test-data-attribute-wait-until"; object "da_execute1" "test-data-attribute-execute";
   object "da_other_key" "random-value"].
Definition data_loading_start : Z -> WorkflowStateStartRequest -> answer WorkflowStateStartResponse :=
  state_options_start "state_options_data_attributes_loading" getUpsertDataAttributes
    "da_wait_until1" "da_execute1" "da_other_key" has_key ws_DataObjects.
Definition data_loading_decide : Z -> WorkflowStateDecideRequest -> answer WorkflowStateDecideResponse :=
  state_options_decide "state_options_data_attributes_loading" getUpsertDataAttributes
    "da_wait_until1" "da_execute1" "da_other_key" has_key wd_DataObjects
    (fun wait_until execute all => mkWorkflowStateOptions None None None None None None None None None None None None
       None None None None None None None all wait_until execute)
    (fun next upserted => reply_ok (mkWorkflowStateDecideResponse None (Some (mkStateDecision next None))
       [] upserted [] [] [])).

Definition getUpsertSearchAttributes : list SearchAttribute :=
  [mkSearchAttribute (Some "CustomKeywordField") None None None None ["keyword1"; "keyword2"] (Some KEYWORD_ARRAY);
   text_attribute "CustomStringField" "I am a string"; bool_attribute "CustomBoolField" true].
Definition has_attribute_key (key : string) (sa : SearchAttribute) : bool := bool_decide (sa_Key sa = Some key).
Definition search_loading_start : Z -> WorkflowStateStartRequest -> answer WorkflowStateStartResponse :=
  state_options_start "state_options_search_attributes_loading" getUpsertSearchAttributes
    "CustomKeywordField" "CustomStringField" "CustomBoolField" has_attribute_key ws_SearchAttributes.
Definition search_loading_decide : Z -> WorkflowStateDecideRequest -> answer WorkflowStateDecideResponse :=
  state_options_decide "state_options_search_attributes_loading" getUpsertSearchAttributes
    "CustomKeywordField" "CustomStringField" "CustomBoolField" has_attribute_key wd_SearchAttributes
    (fun wait_until execute all => mkWorkflowStateOptions all wait_until execute None None None None None None None None None
       None None None None None None None None None None)
    (fun next upserted => reply_ok (mkWorkflowStateDecideResponse None (Some (mkStateDecision next None))
       upserted [] [] [] [])).

Definition state_options_loading_test (w : WorkflowHandler) (workflowType : string) (ty : PersistenceLoadingType) : test :=
  _ ← must w (fun s => ApiV1WorkflowStartPost s
        (mkWorkflowStartRequest "wid" workflowType 10 "worker" (Some "S1") [] [] (Some (loading_input ty)) None None));
  _ ← must w (fun s => ApiV1WorkflowGetWithWaitPost s (get_request "wid"));
  h ← GetTestResult;
  mret [history_is h [("S1_start", 1); ("S1_decide", 1); ("S2_start", 1); ("S2_decide", 1); ("S3_start", 1);
          ("S3_decide", 1); ("S4_start", 1); ("S4_decide", 1); ("S5_start", 1); ("S5_decide", 1)]%Z].

Definition data_attributes_loading_test : PersistenceLoadingType -> test :=
  state_options_loading_test (mkWorkflowHandler data_loading_start data_loading_decide no_rpc)
    "state_options_data_attributes_loading".
Definition search_attributes_loading_test : PersistenceLoadingType -> test :=
  state_options_loading_test (mkWorkflowHandler search_loading_start search_loading_decide no_rpc)
    "state_options_search_attributes_loading".

(** ** rpc *)

Definition rpc_key : string := "test-data-attribute".
Definition rpc_input : EncodedObject := json_object "test-input-value".
Definition rpc_output : EncodedObject := json_object "test-output-value".
Definition rpc_channel : string := "test-TestInterStateChannelName".
Definition rpc_channel_value : EncodedObject := json_object "test-interstatechannel-value".

Definition rpc_worker_rpc (now : Z) (req : WorkflowWorkerRpcRequest) : answer WorkflowWorkerRpcResponse :=
  let ctx := wr_Context req in
  let name := wr_RpcName req in
  _ ← fail_unless (negb (bool_decide (ctx_WorkflowId ctx = EmptyString)) &&
                   negb (bool_decide (ctx_WorkflowRunId ctx = EmptyString))) "invalid context in the request";
  _ ← fail_unless (bool_decide (wr_WorkflowType req = "rpc") &&
                   bool_decide (name ∈ ["test-RPCName"; "test-RPC-readonly"; "test-RPC-error"])) "invalid rpc name";
  _ ← store_data (name +:+ "-input") (DObject (wr_Input req));
  _ ← store_data (name +:+ "-search-attributes") (DAttributes (wr_SearchAttributes req));
  _ ← store_data (name +:+ "-data-attributes") (DObjects (wr_DataAttributes req));
  if bool_decide (name = "test-RPC-readonly") then
    reply_ok (mkWorkflowWorkerRpcResponse (Some rpc_output) None [] [] [] [] [])
  else if bool_decide (name = "test-RPC-error") then
    mret (ReplyError 502 (String.string_of_list_ascii (Marshal WorkerErrorResponse_codec
      (mkWorkerErrorResponse (Some "test-details") (Some "test-type")))))
  else
    reply_ok (mkWorkflowWorkerRpcResponse (Some rpc_output)
      (Some (mkStateDecision [to_state "S2"] None))
      [keyword_attribute "CustomKeywordField" "keyword-value2"; int_attribute "CustomIntField" 2]
      [object rpc_key value2] [object "test-key" "test-record-event-value"] []
      [publish rpc_channel (Some rpc_channel_value)]).

Definition rpc_start (now : Z) (req : WorkflowStateStartRequest) : answer WorkflowStateStartResponse :=
  if bool_decide (ws_WorkflowType req = "rpc") then
    _ ← count_start req;
    if bool_decide (ws_WorkflowStateId req = "S1") then
      reply_ok (mkWorkflowStateStartResponse None
        [keyword_attribute "CustomKeywordField" "keyword-value1"; int_attribute "CustomIntField" 1;
         bool_attribute "CustomBoolField" false]
        [object rpc_key value1]
        (Some (mkCommandRequest (Some ALL_COMMAND_COMPLETED) None [] []
           [mkInterStateChannelCommand None rpc_channel None None] [])) [] [] [])
    else if bool_decide (ws_WorkflowStateId req = "S2") then start_with straight
    else bad_request
  else bad_request.

Definition rpc_decide (now : Z) (req : WorkflowStateDecideRequest) : answer WorkflowStateDecideResponse :=
  if bool_decide (wd_WorkflowType req = "rpc") then
    _ ← count_decide req;
    if bool_decide (wd_WorkflowStateId req = "S1") then
      res ← at_index (InterStateChannelResults (GetCommandResults req)) 0;
      _ ← fail_unless (channel_received rpc_channel res) "the signal should be received";
      _ ← store_data rpc_channel (DObject (ir_Value res));
      decide_to [to_state "S2"]
    else if bool_decide (wd_WorkflowStateId req = "S2") then
      decide_to [to_state GracefulCompletingWorkflowStateId]
    else bad_request
  else bad_request.

Definition rpc_worker : WorkflowHandler := mkWorkflowHandler rpc_start rpc_decide rpc_worker_rpc.

(** Without the memo. *)
Definition rpc_test (config : option WorkflowConfig) : test :=
  let w := rpc_worker in
  let call name := mkWorkflowRpcRequest "wid" None name (Some rpc_input)
    (Some (loading PARTIAL_WITHOUT_LOCKING ["CustomIntField"])) None (Some 2%Z) (Some false)
    [mkSearchAttributeKeyAndType (Some "CustomKeywordField") (Some KEYWORD);
     mkSearchAttributeKeyAndType (Some "CustomIntField") (Some INT);
     mkSearchAttributeKeyAndType (Some "CustomBoolField") (Some BOOL)] in
  let seen name := [(name +:+ "-data-attributes", DObjects [object rpc_key value1]);
                    (name +:+ "-search-attributes", DAttributes [int_attribute "CustomIntField" 1]);
                    (name +:+ "-input", DObject (Some rpc_input))] in
  _ ← must w (fun s => ApiV1WorkflowStartPost s (start_of "rpc" (Some "S1") None None config));
  _ ← sleep w SecondNs;
  readOnly ← must w (fun s => ApiV1WorkflowRpcPost s (call "test-RPC-readonly"));
  failed ← api w (fun s => ApiV1WorkflowRpcPost s (call "test-RPC-error"));
  resp ← must w (fun s => ApiV1WorkflowRpcPost s (call "test-RPCName"));
  respWait ← must w (fun s => ApiV1WorkflowGetWithWaitPost s (get_request "wid"));
  allDos ← data_attributes w [];
  allSAs ← search_attributes w [("CustomKeywordField", KEYWORD); ("CustomIntField", INT); ("CustomBoolField", BOOL)];
  h ← GetTestResult;
  mret [same (getr_WorkflowStatus respWait) COMPLETED;
        match failed with
        | inl _ => false
        | inr e =>
            same (StatusCode e) HttpStatusCodeSpecial4xxError1 &&
            same (er_Detail (es_Error e)) (Some "worker API error, status:502, errorType:test-type") &&
            same (er_SubStatus (es_Error e)) (Some WORKER_API_ERROR) &&
            same (OriginalWorkerErrorStatus (es_Error e)) (Some 502%Z) &&
            same (OriginalWorkerErrorType (es_Error e)) (Some "test-type") &&
            same (OriginalWorkerErrorDetail (es_Error e)) (Some "test-details")
        end;
        history_is h [("S1_start", 1); ("S1_decide", 1); ("S2_start", 2); ("S2_decide", 2)]%Z;
        same (rpcr_Output <$> readOnly) (Some (Some rpc_output));
        same (rpcr_Output <$> resp) (Some (Some rpc_output));
        same (invokeData h) (list_to_map (seen "test-RPCName" ++ seen "test-RPC-readonly" ++ seen "test-RPC-error" ++
          [(rpc_channel, DObject (Some rpc_channel_value))]));
        same allDos [object rpc_key value2];
        elements_match [keyword_attribute "CustomKeywordField" "keyword-value2"; int_attribute "CustomIntField" 2;
          bool_attribute "CustomBoolField" false] allSAs].

(** ** The tests of this file *)

Definition attribute_tests : list test :=
  [persistence_test None; persistence_test (asNew true); rpc_test None; rpc_test (asNew false)] ++
  map persistence_loading_policy_test [ALL_WITHOUT_LOCKING; PARTIAL_WITHOUT_LOCKING; NONE] ++
  map data_attributes_loading_test [PARTIAL_WITHOUT_LOCKING; PARTIAL_WITH_EXCLUSIVE_LOCK] ++
  map search_attributes_loading_test [PARTIAL_WITHOUT_LOCKING; PARTIAL_WITH_EXCLUSIVE_LOCK].


Lemma upholds_data_attributes {testCfg : IwfServiceTestConfig} h keys : upholds (data_attributes h keys).
Proof. unfold data_attributes. upholds_auto. Qed.
Lemma upholds_search_attributes h keys : upholds (search_attributes h keys).
Proof. unfold search_attributes. upholds_auto. Qed.
Lemma upholds_query_all_search_attributes : upholds query_all_search_attributes.
Proof. intros sys a sys' H. unfold query_all_search_attributes. destruct (sys_run sys); [by intros [= <- <-] | done]. Qed.
#[export] Hint Resolve upholds_data_attributes upholds_search_attributes upholds_query_all_search_attributes : test_upholds.

Lemma attribute_tests_pass : Forall passes attribute_tests.
Proof.
  apply passes_all; [|vm_compute; reflexivity].
  unfold attribute_tests, persistence_test, rpc_test, persistence_loading_policy_test, data_attributes_loading_test,
    search_attributes_loading_test, state_options_loading_test.
  cbn [map app]. repeat apply Forall_cons_2; try apply Forall_nil_2; upholds_auto.
Qed.
