(* ===== verification/TestStorage.v ===== *)
(** * The workers of the integration tests that use the external storage

    The workers s3-start-input, s3-state-input-optimization, s3-init-data-attributes,
    s3-upsert-data-objects, s3-get-set-data-attributes and rpc-external-storage of
    integ/workflow, with their tests.  Left out are the variants with memos and the
    RPC that is an update. *)

From S2P Require Export TestAttributes.

(** Text in double quotes, as the tests write their JSON strings. *)
Definition quoted (s : string) : string :=
  String (ascii_of_nat 34) (s +:+ String (ascii_of_nat 34) EmptyString).
Fixpoint strings_Repeat (s : string) (n : nat) : string :=
  match n with O => EmptyString | S n => s +:+ strings_Repeat s n end.

(** [globalBlobStore.CountWorkflowObjectsForTesting] *)
Definition count_objects {testCfg : IwfServiceTestConfig} : M system (option Z) :=
  match globalBlobStore testCfg with
  | None => fun _ => Panic "no storage"
  | Some b =>
      r ← on_worker (on_objects (CountWorkflowObjectsForTesting b "wid"));
      mret match r with inl n => Some n | inr _ => None end
  end.
Lemma upholds_count_objects {testCfg : IwfServiceTestConfig} : upholds count_objects.
Proof. unfold count_objects. destruct (globalBlobStore testCfg); [|apply upholds_panic]. upholds_auto. apply upholds_on_worker. Qed.
#[export] Hint Resolve upholds_count_objects : test_upholds.

Definition storing (threshold : Z) : IwfServiceTestConfig := mkIwfServiceTestConfig threshold.
Definition start_storing (workflowType : string) (timeout : Z) (input : EncodedObject)
  (das : list KeyValue) : WorkflowStartRequest :=
  mkWorkflowStartRequest "wid" workflowType timeout "worker" (Some "S1") [] [] (Some input) None
    (match das with
     | [] => None
     | _ => Some (mkWorkflowStartOptions None None None None [] das None None None None)
     end).

(** ** s3-start-input *)

Definition s3_start_input_start (now : Z) (req : WorkflowStateStartRequest) : answer WorkflowStateStartResponse :=
  if bool_decide (ws_WorkflowType req = "s3-start-input") && bool_decide (ws_WorkflowStateId req = "S1") then
    _ ← count_start req;
    _ ← store_data "S1_start_input" (DObject (Some (object_or_empty (ws_StateInput req))));
    start_with straight
  else bad_request.

Definition s3_start_input_decide (now : Z) (req : WorkflowStateDecideRequest) : answer WorkflowStateDecideResponse :=
  if bool_decide (wd_WorkflowType req = "s3-start-input") then
    _ ← count_decide req;
    _ ← store_data (wd_WorkflowStateId req +:+ "_decide_input")
          (DObject (Some (object_or_empty (wd_StateInput req))));
    if bool_decide (wd_WorkflowStateId req = "S1")
    then decide_to [mkStateMovement GracefulCompletingWorkflowStateId (wd_StateInput req) None None]
    else bad_request
  else bad_request.

Definition s3_start_input : WorkflowHandler :=
  mkWorkflowHandler s3_start_input_start s3_start_input_decide no_rpc.

Definition s3_start_input_test : test :=
  let testCfg := storing 10 in
  let wfInput := json_object (quoted "12345678901") in
  _ ← must s3_start_input (fun s => ApiV1WorkflowStartPost s (start_storing "s3-start-input" 100 wfInput []));
  _ ← must s3_start_input (fun s => ApiV1WorkflowGetWithWaitPost s (get_request "wid"));
  h ← GetTestResult;
  objectCount ← count_objects;
  mret [noted h "S1_start_input" (DObject (Some wfInput)); noted h "S1_decide_input" (DObject (Some wfInput));
        history_is h [("S1_start", 1); ("S1_decide", 1)]%Z;
        same objectCount (Some 1%Z)].

(** ** s3-state-input-optimization *)

Definition optimization_start (now : Z) (req : WorkflowStateStartRequest) : answer WorkflowStateStartResponse :=
  let stateId := ws_WorkflowStateId req in
  if bool_decide (ws_WorkflowType req = "s3-state-input-optimization") then
    _ ← count_start req;
    _ ← (match ws_StateInput req ≫= Data with
         | Some data => store_data (stateId +:+ "_input_data") (DText data)
         | None => mret tt
         end);
    if bool_decide (stateId ∈ ["S1"; "S2"; "S3"]) then start_with straight else bad_request
  else bad_request.

Definition optimization_decide (now : Z) (req : WorkflowStateDecideRequest) : answer WorkflowStateDecideResponse :=
  let stateId := wd_WorkflowStateId req in
  let move_to next := decide_to [mkStateMovement next (wd_StateInput req) None None] in
  if bool_decide (wd_WorkflowType req = "s3-state-input-optimization") then
    _ ← count_decide req;
    if bool_decide (stateId = "S1") then move_to "S2"
    else if bool_decide (stateId = "S2") then move_to "S3"
    else if bool_decide (stateId = "S3") then move_to GracefulCompletingWorkflowStateId
    else bad_request
  else bad_request.

Definition s3_state_input_optimization : WorkflowHandler :=
  mkWorkflowHandler optimization_start optimization_decide no_rpc.

(** The three states share one object. *)
Definition s3_state_input_optimization_test : test :=
  let testCfg := storing 10 in
  let data := quoted "this-is-a-large-input-that-exceeds-threshold" in
  _ ← must s3_state_input_optimization (fun s =>
        ApiV1WorkflowStartPost s (start_storing "s3-state-input-optimization" 100 (json_object data) []));
  _ ← must s3_state_input_optimization (fun s => ApiV1WorkflowGetWithWaitPost s (get_request "wid"));
  h ← GetTestResult;
  objectCount ← count_objects;
  mret [history_is h [("S1_start", 1); ("S1_decide", 1); ("S2_start", 1); ("S2_decide", 1);
          ("S3_start", 1); ("S3_decide", 1)]%Z;
        noted h "S1_input_data" (DText data); noted h "S2_input_data" (DText data);
        noted h "S3_input_data" (DText data);
        same objectCount (Some 1%Z)].

(** ** s3-init-data-attributes *)

(** The loop over the attributes: the attribute with a key that is expected is compared;
    what is noted of one that matches, which ones do, and how many do not. *)
Fixpoint compare_attributes (expected : list (string * (string * (string * string)))) (note : string -> string)
  (queryAtts : list KeyValue) (found : list string) (mismatches : Z) : M WorkerState (list string * Z) :=
  match queryAtts with
  | [] => mret (found, mismatches)
  | queryAtt :: rest =>
      match snd <$> find (fun e => bool_decide (kv_GetKey queryAtt = fst e)) expected with
      | None => compare_attributes expected note rest found mismatches
      | Some (name, (expectedData, noted_data)) =>
          receivedData ← liftM (deref (Data (kv_GetValue queryAtt)));
          if bool_decide (receivedData = expectedData) then
            _ ← store_data (note name) (DText noted_data);
            compare_attributes expected note rest (name :: found) mismatches
          else compare_attributes expected note rest found (mismatches + 1)
      end
  end.

Definition init_content1 : string := quoted
  "this_is_a_large_data_content_that_should_be_stored_in_s3_for_testing_purposes_with_more_than_10_characters".
Definition init_content2 : string := quoted
  "another_large_data_content_for_second_attribute_that_exceeds_the_s3_threshold_for_external_storage_testing".
Definition init_content3 : string := quoted "small".

(** What S1 checks before it waits, and S2 when it executes. *)
Definition validate_attributes (who : string) (queryAtts : list KeyValue) : M WorkerState unit :=
  '(found, mismatches) ← compare_attributes
     [("test-da-key1", ("attr1", (init_content1, init_content1)));
      ("test-da-key2", ("attr2", (init_content2, init_content2)));
      ("test-da-key3", ("attr3", (init_content3, init_content3)))]
     (fun name => who +:+ "_" +:+ name +:+ "_data") queryAtts [] 0;
  let found_ name := bool_decide (name ∈ found) in
  let allValidationsPass := found_ "attr1" && found_ "attr2" && found_ "attr3" && (mismatches =? 0)%Z in
  _ ← store_data (who +:+ "_attr1_found") (DFlag (found_ "attr1"));
  _ ← store_data (who +:+ "_attr2_found") (DFlag (found_ "attr2"));
  _ ← store_data (who +:+ "_attr3_found") (DFlag (found_ "attr3"));
  _ ← store_data (who +:+ "_total_attrs") (DInt (len queryAtts));
  store_data (who +:+ "_validation_pass") (DFlag allValidationsPass).

Definition init_start (now : Z) (req : WorkflowStateStartRequest) : answer WorkflowStateStartResponse :=
  if bool_decide (ws_WorkflowType req = "s3-init-data-attributes") then
    if bool_decide (ws_WorkflowStateId req = "S1") then
      _ ← count_start req;
      _ ← store_data "S1_start_input" (DObject (Some (object_or_empty (ws_StateInput req))));
      _ ← validate_attributes "S1_start" (ws_DataObjects req);
      start_with straight
    else if bool_decide (ws_WorkflowStateId req = "S2") then _ ← count_start req; start_with straight
    else bad_request
  else bad_request.

Definition init_decide (now : Z) (req : WorkflowStateDecideRequest) : answer WorkflowStateDecideResponse :=
  let decide_input := store_data (wd_WorkflowStateId req +:+ "_decide_input")
                        (DObject (Some (object_or_empty (wd_StateInput req)))) in
  if bool_decide (wd_WorkflowType req = "s3-init-data-attributes") then
    if bool_decide (wd_WorkflowStateId req = "S1") then
      _ ← count_decide req;
      _ ← decide_input;
      decide_to [mkStateMovement "S2" (wd_StateInput req) None None]
    else if bool_decide (wd_WorkflowStateId req = "S2") then
      _ ← count_decide req;
      _ ← decide_input;
      _ ← validate_attributes "S2_decide" (wd_DataObjects req);
      decide_to [mkStateMovement GracefulCompletingWorkflowStateId (wd_StateInput req) None None]
    else bad_request
  else bad_request.

Definition s3_init_data_attributes : WorkflowHandler := mkWorkflowHandler init_start init_decide no_rpc.

Definition s3_init_data_attributes_test : test :=
  let testCfg := storing 10 in
  let initial := [object "test-da-key1" init_content1; object "test-da-key2" init_content2;
                  object "test-da-key3" init_content3] in
  let checked who :=
    [(who +:+ "_attr1_found", DFlag true); (who +:+ "_attr2_found", DFlag true);
     (who +:+ "_attr3_found", DFlag true); (who +:+ "_total_attrs", DInt 3);
     (who +:+ "_attr1_data", DText init_content1); (who +:+ "_attr2_data", DText init_content2);
     (who +:+ "_attr3_data", DText init_content3); (who +:+ "_validation_pass", DFlag true)] in
  _ ← must s3_init_data_attributes (fun s =>
        ApiV1WorkflowStartPost s (start_storing "s3-init-data-attributes" 100 (json_object "test") initial));
  _ ← must s3_init_data_attributes (fun s => ApiV1WorkflowGetWithWaitPost s (get_request "wid"));
  h ← GetTestResult;
  objectCount ← count_objects;
  mret [history_is h [("S1_start", 1); ("S1_decide", 1); ("S2_start", 1); ("S2_decide", 1)]%Z;
        forallb (fun '(key, d) => noted h key d) (checked "S1_start" ++ checked "S2_decide");
        same objectCount (Some 2%Z)].

(** ** s3-upsert-data-objects *)

Definition upsert_content1 : string :=
  "this_is_a_large_data_content_that_should_be_stored_in_s3_for_upsert_testing_purposes_with_more_than_10_characters".
Definition upsert_content2 : string :=
  "another_large_data_content_for_second_upserted_object_that_exceeds_the_s3_threshold_for_external_storage_testing".

Definition upsert_start (now : Z) (req : WorkflowStateStartRequest) : answer WorkflowStateStartResponse :=
  let stateId := ws_WorkflowStateId req in
  if bool_decide (ws_WorkflowType req = "s3-upsert-data-objects") then
    _ ← count_start req;
    if bool_decide (stateId = "S1") then start_with straight
    else if bool_decide (stateId = "S2") then
      '(found, _) ← compare_attributes
         [("large_obj1", ("large_obj1", (quoted upsert_content1, upsert_content1)));
          ("large_obj2", ("large_obj2", (quoted upsert_content2, upsert_content2)));
          ("small_obj3", ("small_obj3", (quoted "small", "small")))]
         (fun name => "S2_" +:+ name +:+ "_data") (ws_DataObjects req) [] 0;
      _ ← store_data "S2_received_large_obj1" (DFlag (bool_decide ("large_obj1" ∈ found)));
      _ ← store_data "S2_received_large_obj2" (DFlag (bool_decide ("large_obj2" ∈ found)));
      _ ← store_data "S2_received_small_obj3" (DFlag (bool_decide ("small_obj3" ∈ found)));
      start_with straight
    else bad_request
  else bad_request.

Definition upsert_decide (now : Z) (req : WorkflowStateDecideRequest) : answer WorkflowStateDecideResponse :=
  let stateId := wd_WorkflowStateId req in
  if bool_decide (wd_WorkflowType req = "s3-upsert-data-objects") then
    _ ← count_decide req;
    if bool_decide (stateId = "S1") then
      reply_ok (mkWorkflowStateDecideResponse None
        (Some (mkStateDecision [mkStateMovement "S2" (wd_StateInput req) None None] None)) []
        [object "large_obj1" (quoted upsert_content1); object "large_obj2" (quoted upsert_content2);
         object "small_obj3" (quoted "small")] [] [] [])
    else if bool_decide (stateId = "S2") then
      decide_to [mkStateMovement GracefulCompletingWorkflowStateId (wd_StateInput req) None None]
    else bad_request
  else bad_request.

Definition s3_upsert_data_objects : WorkflowHandler := mkWorkflowHandler upsert_start upsert_decide no_rpc.

Definition s3_upsert_data_objects_test : test :=
  let testCfg := storing 10 in
  _ ← must s3_upsert_data_objects (fun s =>
        ApiV1WorkflowStartPost s (start_storing "s3-upsert-data-objects" 100 (json_object (quoted "test")) []));
  _ ← must s3_upsert_data_objects (fun s => ApiV1WorkflowGetWithWaitPost s (get_request "wid"));
  h ← GetTestResult;
  objectCount ← count_objects;
  mret [history_is h [("S1_start", 1); ("S1_decide", 1); ("S2_start", 1); ("S2_decide", 1)]%Z;
        noted h "S2_received_large_obj1" (DFlag true); noted h "S2_received_large_obj2" (DFlag true);
        noted h "S2_received_small_obj3" (DFlag true);
        noted h "S2_large_obj1_data" (DText upsert_content1); noted h "S2_large_obj2_data" (DText upsert_content2);
        noted h "S2_small_obj3_data" (DText "small");
        same objectCount (Some 2%Z)].

(** ** s3-get-set-data-attributes *)

Definition get_set_start (now : Z) (req : WorkflowStateStartRequest) : answer WorkflowStateStartResponse :=
  if bool_decide (ws_WorkflowType req = "s3-get-set-data-attributes") then
    if bool_decide (ws_WorkflowStateId req = "S1")
    then _ ← store_data "S1_start" (DInt 1); start_with any_command_straight
    else bad_request
  else bad_request.

Definition get_set_decide (now : Z) (req : WorkflowStateDecideRequest) : answer WorkflowStateDecideResponse :=
  if bool_decide (wd_WorkflowType req = "s3-get-set-data-attributes") then
    if bool_decide (wd_WorkflowStateId req = "S1")
    then _ ← store_data "S1_decide" (DInt 1); decide_to [to_state GracefulCompletingWorkflowStateId]
    else bad_request
  else bad_request.

Definition s3_get_set_data_attributes : WorkflowHandler :=
  mkWorkflowHandler get_set_start get_set_decide no_rpc.

Definition small_data : string := quoted "small".
Definition large_data : string := quoted ("large-data-content-" +:+ strings_Repeat "x" 96).
Definition another_large_data : string := quoted ("another-large-data-content-" +:+ strings_Repeat "y" 80).

(** The value of the attribute, and whether a reference is kept next to it. *)
Definition retrieved (l : list KeyValue) (key data : string) (reference : bool) : bool :=
  existsb (fun kv => bool_decide (kv_Key kv = Some key) &&
    same (Data (kv_GetValue kv)) (Some data) && same (Encoding (kv_GetValue kv)) (Some "json") &&
    (negb reference || is_set (ExtStoreId (kv_GetValue kv)) && is_set (ExtPath (kv_GetValue kv)))) l.

(** The attributes are set while the first state is still to run. *)
Definition s3_get_set_data_attributes_test : test :=
  let testCfg := storing 50 in
  let w := s3_get_set_data_attributes in
  let attributes := [object "small-data" small_data; object "large-data" large_data;
                     object "another-large-data" another_large_data] in
  _ ← hold (_ ← must w (fun s => ApiV1WorkflowStartPost s
                 (start_storing "s3-get-set-data-attributes" 100 (json_object "test-input") []));
            must w (fun s => ApiV1WorkflowSetQueryAttributesPost s
                 (mkWorkflowSetDataObjectsRequest "wid" None attributes)));
  _ ← sleep w (500 * 1000000)%Z;
  getResult ← data_attributes w ["small-data"; "large-data"; "another-large-data"];
  specific ← data_attributes w ["large-data"];
  objectCount ← count_objects;
  _ ← must w (fun s => ApiV1WorkflowGetWithWaitPost s (get_request "wid"));
  mret [same (len getResult) 3%Z;
        retrieved getResult "small-data" small_data false;
        retrieved getResult "large-data" large_data true;
        retrieved getResult "another-large-data" another_large_data true;
        same (len specific) 1%Z; retrieved specific "large-data" large_data false;
        same objectCount (Some 2%Z)].

(** ** rpc-external-storage *)

Definition rpc_large_content : string := "large-data-content-" +:+ strings_Repeat "x" 1000.
Definition rpc_initial_large_content : string := "initial-large-data-" +:+ strings_Repeat "y" 1000.

Definition rpc_storage_rpc (now : Z) (req : WorkflowWorkerRpcRequest) : answer WorkflowWorkerRpcResponse :=
  let wfCtx := wr_Context req in
  _ ← fail_unless (negb (bool_decide (ctx_WorkflowId wfCtx = EmptyString)) &&
                   negb (bool_decide (ctx_WorkflowRunId wfCtx = EmptyString))) "invalid context in the request";
  _ ← fail_unless (bool_decide (wr_WorkflowType req = "rpc-external-storage")) "invalid workflow type";
  _ ← store_data (wr_RpcName req +:+ "-input") (DObject (wr_Input req));
  _ ← store_data (wr_RpcName req +:+ "-received-data") (DObjects (wr_DataAttributes req));
  if bool_decide (wr_RpcName req = "update-data-attributes") then
    _ ← fail_unless (forallb (fun attr => is_set (kv_Value attr ≫= Data)) (wr_DataAttributes req))
          "RPC should receive actual data content, not external storage references";
    reply_ok (mkWorkflowWorkerRpcResponse (Some (json_object "test-output-value")) None []
      [object "small-data" "small-data-content"; object "large-data" rpc_large_content] [] []
      [publish "close-workflow" (Some (json_object (quoted "close")))])
  else FailTestWithErrorMessage "unknown RPC name".

Definition rpc_storage_start (now : Z) (req : WorkflowStateStartRequest) : answer WorkflowStateStartResponse :=
  if bool_decide (ws_WorkflowType req = "rpc-external-storage") then
    if bool_decide (ws_WorkflowStateId req = "S1") then
      reply_ok (mkWorkflowStateStartResponse None []
        [object "small-data" "initial-small-data"; object "large-data" rpc_initial_large_content]
        (Some (mkCommandRequest (Some ALL_COMMAND_COMPLETED) None [] []
                 [mkInterStateChannelCommand None "close-workflow" None None] [])) [] [] [])
    else if bool_decide (ws_WorkflowStateId req = "S2") then start_with straight
    else bad_request
  else bad_request.

Definition rpc_storage_decide (now : Z) (req : WorkflowStateDecideRequest) : answer WorkflowStateDecideResponse :=
  if bool_decide (wd_WorkflowType req = "rpc-external-storage") then
    if bool_decide (wd_WorkflowStateId req = "S1") then
      if (0 <? len (InterStateChannelResults (GetCommandResults req)))%Z
      then decide_to [to_state GracefulCompletingWorkflowStateId] else bad_request
    else if bool_decide (wd_WorkflowStateId req = "S2")
         then decide_to [to_state GracefulCompletingWorkflowStateId]
    else bad_request
  else bad_request.

Definition rpc_external_storage : WorkflowHandler :=
  mkWorkflowHandler rpc_storage_start rpc_storage_decide rpc_storage_rpc.

(** Without locks. *)
Definition rpc_external_storage_test : test :=
  let testCfg := storing 100 in
  let w := rpc_external_storage in
  _ ← must w (fun s => ApiV1WorkflowStartPost s
        (start_storing "rpc-external-storage" 30 (json_object (quoted "start-input")) []));
  _ ← sleep w (500 * 1000000)%Z;
  rpcResp ← must w (fun s => ApiV1WorkflowRpcPost s (mkWorkflowRpcRequest "wid" None "update-data-attributes"
        (Some (json_object "test-input-value")) None (Some (loading ALL_WITHOUT_LOCKING [])) (Some 10%Z) None []));
  _ ← sleep w (100 * 1000000)%Z;
  h ← GetTestResult;
  respWait ← must w (fun s => ApiV1WorkflowGetWithWaitPost s (mkWorkflowGetRequest "wid" None None (Some 5%Z)));
  mret [same (rpcr_Output <$> rpcResp) (Some (Some (json_object "test-output-value")));
        match invokeData h !! "update-data-attributes-received-data" with
        | Some (DObjects l) =>
            elements_match l [object "small-data" "initial-small-data"; object "large-data" rpc_initial_large_content]
        | _ => false
        end;
        same (getr_WorkflowStatus respWait) COMPLETED].

Definition storage_tests : list test :=
  [s3_start_input_test; s3_state_input_optimization_test; s3_init_data_attributes_test;
   s3_upsert_data_objects_test; s3_get_set_data_attributes_test; rpc_external_storage_test].

Lemma storage_tests_pass : Forall passes storage_tests.
Proof.
  apply passes_all; [|vm_compute; reflexivity].
  unfold storage_tests, s3_start_input_test, s3_state_input_optimization_test, s3_init_data_attributes_test,
    s3_upsert_data_objects_test, s3_get_set_data_attributes_test, rpc_external_storage_test.
  cbn [map app]. repeat apply Forall_cons_2; try apply Forall_nil_2; upholds_auto.
Qed.
