(* ===== verification/TestLocking.v ===== *)
(** * The workers of the integration tests that lock, and that are waited for

    The workers locking and wait_for_state_completion of integ/workflow, with their tests,
    and the property that all the integration tests hold.  Of the locking test the variant
    of the Cadence backend, up to the reset: its RPC does not lock, and so is no update. *)

From S2P Require Export TestStorage.

(** ** locking *)

Definition saInt_key : string := "CustomIntField".
Definition saKeyword_key : string := "CustomKeywordField".
Definition da_key1 : string := "test-data-attribute-1".
Definition da_key2 : string := "test-data-attribute-2".
Definition TestValue : EncodedObject := json_object "data".
Definition UnblockValue : EncodedObject := json_object "shouldUnblockStateWaiting".
Definition InParallelS2 : nat := 10.
Definition NumUnusedSignals : nat := 4.

Definition locking_policy (partial locking : list string) : PersistenceLoadingPolicy :=
  mkPersistenceLoadingPolicy (Some PARTIAL_WITH_EXCLUSIVE_LOCK) partial locking None None.
Definition state2Options : WorkflowStateOptions :=
  loading_options (Some (locking_policy [saInt_key; saKeyword_key] [saInt_key]))
    (Some (locking_policy [da_key1; da_key2] [da_key1])).
Definition state2Movement : StateMovement := mkStateMovement "S2" None (Some state2Options) None.

(** The counter in the search attributes, the last one if there are more. *)
Definition sa_counter (sas : list SearchAttribute) : Z :=
  foldl (fun n sa => if bool_decide (default EmptyString (sa_Key sa) = saInt_key)
                     then default 0%Z (IntegerValue sa) else n) 0%Z sas.

(** The counter in the data attributes: the worker fails on one that is not an int32. *)
Fixpoint da_counter (n : Z) (das : list KeyValue) : M WorkerState Z :=
  match das with
  | [] => mret n
  | da :: rest =>
      let data := default EmptyString (Data (kv_GetValue da)) in
      if bool_decide (kv_GetKey da = da_key1) && negb (bool_decide (data = EmptyString)) then
        match ParseInt data with
        | Some i =>
            if ((-2147483648 <=? i) && (i <=? 2147483647))%Z then da_counter i rest
            else FailTestWithErrorMessage "value out of range"
        | None => FailTestWithErrorMessage "invalid syntax"
        end
      else da_counter n rest
  end.

Definition increased_sas (n : Z) (ctx : Context_) : list SearchAttribute :=
  [keyword_attribute saKeyword_key (default EmptyString (ctx_StateExecutionId ctx)); int_attribute saInt_key n].
Definition increased_das (n : Z) (ctx : Context_) : list KeyValue :=
  [object da_key1 (pretty n); object da_key2 (default EmptyString (ctx_StateExecutionId ctx))].

Definition channel_size (infos : option (gmap string ChannelInfo)) (name : string) : M WorkerState Z :=
  m ← liftM (deref infos);
  mret (default 0%Z (Size (map_get (mkChannelInfo None) m name))).

(** [h.rpcInvokes] *)
Definition rpcInvokes : M WorkerState Z := fun h =>
  Ret (match invokeData h !! "rpcInvokes" with Some (DInt n) => n | _ => 0%Z end, h).

Definition locking_rpc (now : Z) (req : WorkflowWorkerRpcRequest) : answer WorkflowWorkerRpcResponse :=
  _ ← fail_unless (bool_decide (wr_WorkflowType req = "locking") && bool_decide (wr_RpcName req = "increase-counter"))
        "invalid rpc name";
  let input := object_or_empty (wr_Input req) in
  _ ← fail_unless (bool_decide (default EmptyString (Encoding input) = "json")) "input is incorrect";
  if bool_decide (default EmptyString (Data input) = "shouldUnblockStateWaiting") then
    reply_ok (mkWorkflowWorkerRpcResponse None None [] [] [] [] [publish "test-channel" (Some TestValue)])
  else
    unused ← channel_size (wr_SignalChannelInfos req) "test-unused-signal-channel";
    _ ← fail_unless (unused =? Z.of_nat NumUnusedSignals)%Z "incorrect signal channel size";
    n ← rpcInvokes;
    _ ← (if (0 <? n)%Z then
           size ← channel_size (wr_InternalChannelInfos req) "test-unused-internal-channel";
           fail_unless (n =? size)%Z "incorrect internal channel size"
         else mret tt);
    _ ← store_data "rpcInvokes" (DInt (n + 1)%Z);
    let saInt := (sa_counter (wr_SearchAttributes req) + 1)%Z in
    daInt ← da_counter 0%Z (wr_DataAttributes req);
    reply_ok (mkWorkflowWorkerRpcResponse (Some TestValue) (Some (mkStateDecision [state2Movement] None))
      (increased_sas saInt (wr_Context req)) (increased_das (daInt + 1)%Z (wr_Context req))
      [mkKeyValue (Some "test-key") (Some TestValue)] []
      [publish "test-unused-internal-channel" (Some TestValue)]).

Definition locking_start (now : Z) (req : WorkflowStateStartRequest) : answer WorkflowStateStartResponse :=
  if bool_decide (ws_WorkflowType req = "locking") then
    _ ← count_start req;
    if bool_decide (ws_WorkflowStateId req = "S1") then start_with straight
    else if bool_decide (ws_WorkflowStateId req = "StateWaiting") then
      start_with (mkCommandRequest (Some ALL_COMMAND_COMPLETED) None [] []
                    [mkInterStateChannelCommand None "test-channel" None None] [])
    else if bool_decide (ws_WorkflowStateId req = "S2") then
      reply_ok (mkWorkflowStateStartResponse None
        (increased_sas (sa_counter (ws_SearchAttributes req) + 1)%Z (ws_Context req)) [] (Some straight) [] [] [])
    else bad_request
  else bad_request.

Definition locking_decide (now : Z) (req : WorkflowStateDecideRequest) : answer WorkflowStateDecideResponse :=
  if bool_decide (wd_WorkflowType req = "locking") then
    _ ← count_decide req;
    if bool_decide (wd_WorkflowStateId req = "S1")
    then decide_to (to_state "StateWaiting" :: repeat state2Movement InParallelS2)
    else if bool_decide (wd_WorkflowStateId req = "StateWaiting")
    then decide_to [to_state GracefulCompletingWorkflowStateId]
    else if bool_decide (wd_WorkflowStateId req = "S2") then
      daInt ← da_counter 0%Z (wd_DataObjects req);
      reply_ok (mkWorkflowStateDecideResponse None
        (Some (mkStateDecision [to_state GracefulCompletingWorkflowStateId] None)) []
        (increased_das (daInt + 1)%Z (wd_Context req)) [] [] [])
    else bad_request
  else bad_request.

Definition locking_worker : WorkflowHandler := mkWorkflowHandler locking_start locking_decide locking_rpc.

(** Ten states increase the counters at the same time, each between taking the locks
    and giving them back. *)
Definition locking_test (config : option WorkflowConfig) : test :=
  let w := locking_worker in
  let finalCounterValue := Z.of_nat InParallelS2 in
  let send_unused := must w (fun s => ApiV1WorkflowSignalPost s (signal_request "test-unused-signal-channel" None)) in
  _ ← must w (fun s => ApiV1WorkflowStartPost s
        (mkWorkflowStartRequest "wid" "locking" 300 "worker" (Some "S1") [] [] None None
           (Some (mkWorkflowStartOptions None None None None [] [] config None None None))));
  _ ← mapM (fun _ => send_unused) (seq 0 NumUnusedSignals);
  _ ← sleep w SecondNs;
  _ ← must w (fun s => ApiV1WorkflowRpcPost s (rpc_request "increase-counter" (Some UnblockValue)));
  _ ← sleep w (20 * SecondNs)%Z;
  resp2 ← must w (fun s => ApiV1WorkflowGetWithWaitPost s (get_request "wid"));
  h ← GetTestResult;
  searchResult2 ← search_attributes w [(saInt_key, INT)];
  queryResult1 ← data_attributes w [da_key1];
  mret [history_is h [("S1_start", 1); ("S1_decide", 1); ("StateWaiting_start", 1); ("StateWaiting_decide", 1);
          ("S2_start", finalCounterValue); ("S2_decide", finalCounterValue)]%Z;
        same (getr_WorkflowStatus resp2) COMPLETED;
        same (len (Results resp2)) 0%Z;
        same searchResult2 [int_attribute saInt_key finalCounterValue];
        elements_match queryResult1 [object da_key1 (pretty finalCounterValue)]].

(** ** wait_for_state_completion *)

Definition wait_start (now : Z) (req : WorkflowStateStartRequest) : answer WorkflowStateStartResponse :=
  if bool_decide (ws_WorkflowType req = "wait_for_state_completion") then
    _ ← count_start req;
    if bool_decide (ws_WorkflowStateId req = "S1") then
      data ← liftM (deref (ws_StateInput req));
      match ParseInt (default EmptyString (Data data)) with
      | None => FailTestWithErrorMessage "invalid syntax"
      | Some now =>
          _ ← store_data "scheduled_at" (DInt now);
          start_with (mkCommandRequest (Some ALL_COMMAND_COMPLETED) None
            [mkTimerCommand (Some "timer-cmd-id") (Some (wrap64 (now + 10))) None] [] [] [])
      end
    else if bool_decide (ws_WorkflowStateId req = "S2") then start_with straight
    else bad_request
  else bad_request.

Definition wait_decide (now : Z) (req : WorkflowStateDecideRequest) : answer WorkflowStateDecideResponse :=
  if bool_decide (wd_WorkflowType req = "wait_for_state_completion") then
    _ ← count_decide req;
    if bool_decide (wd_WorkflowStateId req = "S1") then
      _ ← store_data "fired_at" (DInt (Unix now));
      r0 ← at_index (TimerResults (GetCommandResults req)) 0;
      _ ← store_data "timer_id" (DText (tr_CommandId r0));
      decide_to [mkStateMovement "S2" None None (Some "testKey")]
    else if bool_decide (wd_WorkflowStateId req = "S2")
    then decide_to [to_state GracefulCompletingWorkflowStateId]
    else bad_request
  else bad_request.

Definition wait_for_state_completion : WorkflowHandler := mkWorkflowHandler wait_start wait_decide no_rpc.

(** Waiting for a state answers when it completes, here the second state by its id and
    the key it was started with, or the first by its execution id. *)
Definition wait_for_state_completion_test (useStateId : bool) : test :=
  let w := wait_for_state_completion in
  nowNs ← system_now;
  let start stateIds executionIds := must w (fun s => ApiV1WorkflowStartPost s
    (mkWorkflowStartRequest "wid" "wait_for_state_completion" 30 "worker" (Some "S1") stateIds executionIds
       (Some (mkEncodedObject None None None (Some (pretty (Unix nowNs))))) None
       (Some (mkWorkflowStartOptions None None None None [] [] None None None None)))) in
  let wait exe stateId key := must w (fun s => ApiV1WorkflowWaitForStateCompletion s
    (mkWorkflowWaitForStateCompletionRequest "wid" exe stateId key (Some 30%Z))) in
  output ← (if useStateId then _ ← start ["S2"] []; wait None (Some "S2") (Some "testKey")
            else _ ← start [] ["S1-1"]; wait (Some "S1-1") None None);
  _ ← must w (fun s => ApiV1WorkflowGetWithWaitPost s (get_request "wid"));
  h ← GetTestResult;
  mret [is_set (wcr_StateCompletionOutput output);
        history_is h [("S1_start", 1); ("S1_decide", 1); ("S2_start", 1); ("S2_decide", 1)]%Z;
        noted h "timer_id" (DText "timer-cmd-id");
        match invokeData h !! "fired_at", invokeData h !! "scheduled_at" with
        | Some (DInt fired), Some (DInt scheduled) =>
            (9 <=? fired - scheduled)%Z && (fired - scheduled <=? 11)%Z
        | _, _ => false
        end].

Definition waiting_tests : list test :=
  [locking_test None; locking_test (asNew false);
   wait_for_state_completion_test false; wait_for_state_completion_test true].

Lemma upholds_mapM {A B} (f : A -> M system B) l : (forall a, upholds (f a)) -> upholds (mapM f l).
Proof.
  intros Hf. induction l as [|a l IH]; cbn [mapM]; [apply upholds_ret|].
  apply upholds_bind; [apply Hf|]. intros b. apply upholds_bind; [exact IH|]. intros k. apply upholds_ret.
Qed.

Lemma waiting_tests_pass : Forall passes waiting_tests.
Proof.
  apply passes_all; [|vm_compute; reflexivity].
  unfold waiting_tests, locking_test, wait_for_state_completion_test.
  repeat apply Forall_cons_2; try apply Forall_nil_2; upholds_auto; apply upholds_mapM; upholds_auto.
Qed.

Definition integration_tests : list test := state_tests ++ channel_tests ++ client_tests ++ attribute_tests ++ storage_tests
  ++ waiting_tests.

(** The integration tests hold on the model of the whole system.  For the workers of
    these files, with the configurations the tests use (so also when the workflow
    continues as new after every state, with the greedy timers, and with the large
    contents kept in the external storage), the test comes to its
    end, its requests get the answers it asserts, the worker is called as often and with
    what it asserts and never complains; and what the workflow did is a run of the
    interpreter's coroutines. *)
Theorem integration_tests_pass : Forall passes integration_tests.
Proof.
  unfold integration_tests. rewrite !Forall_app.
  auto 10 using state_tests_pass, channel_tests_pass, client_tests_pass, attribute_tests_pass, storage_tests_pass, waiting_tests_pass.
Qed.
