(* ===== verification/Witnesses.v ===== *)
(** * The theorems at concrete inputs

    For every theorem with hypotheses, an input where they hold, and what the
    theorem says there.  The backend is the simulated one of Simulate.v. *)

From S2P Require Import Interpreter Simulate Exclusion Cancellation Examples.

(** ** Completion *)

Definition two_timers : CommandRequest :=
  mkCommandRequest (Some ALL_COMMAND_COMPLETED) None
    [mkTimerCommand (Some "a") (Some 10%Z) None; mkTimerCommand (Some "b") (Some 20%Z) None]
    [] [] [].
Definition one_fired : gmap nat InternalTimerStatus := {[ 0%nat := TimerFired ]}.
Definition both_fired : gmap nat InternalTimerStatus := {[ 0%nat := TimerFired; 1%nat := TimerSkipped ]}.
Definition none_received : gmap nat (option EncodedObject) := ∅.

Ltac in_range_tac :=
  unfold completions_in_range, in_range, one_fired, both_fired, none_received; split_and!;
  intros i [x Hx]; rewrite ?lookup_insert_Some, ?lookup_singleton_Some, ?lookup_empty in Hx;
  cbn; [destruct_or? Hx; destruct_and? Hx; lia | done | done].

Lemma trigger_all_spec_witness :
  GetDeciderTriggerType two_timers = Ret ALL_COMMAND_COMPLETED /\
  IsDeciderTriggerConditionMet two_timers both_fired none_received none_received = Ret true /\
  all_completed both_fired 2.
Proof.
  assert (IsDeciderTriggerConditionMet two_timers both_fired none_received none_received = Ret true)
    as H by (vm_compute; reflexivity).
  split_and!; [reflexivity | exact H |].
  apply (trigger_all_spec two_timers both_fired none_received none_received) in H as (H & _ & _);
    [exact H | reflexivity | in_range_tac].
Defined.

Definition combination_request : CommandRequest :=
  mkCommandRequest (Some ANY_COMMAND_COMBINATION_COMPLETED) None
    [mkTimerCommand (Some "a") (Some 10%Z) None; mkTimerCommand (Some "b") (Some 20%Z) None]
    [] [] [mkCommandCombination ["a"; "c"]; mkCommandCombination ["b"; "a"]].

Lemma trigger_combination_spec_witness :
  completed_cmd_ids combination_request both_fired none_received none_received = Ret ["a"; "b"] /\
  IsDeciderTriggerConditionMet combination_request both_fired none_received none_received = Ret true.
Proof.
  split; [reflexivity|].
  apply (trigger_combination_spec combination_request both_fired none_received none_received ["a"; "b"]);
    [reflexivity | reflexivity | reflexivity |].
  exists (mkCommandCombination ["b"; "a"]). split; [cbn; right; left |].
  cbn. by rewrite (Permutation_swap "a" "b" []).
Defined.

Definition any_timer : CommandRequest :=
  mkCommandRequest (Some ANY_COMMAND_COMPLETED) None (TimerCommands two_timers) [] [] [].

Lemma trigger_monotone_witness :
  IsDeciderTriggerConditionMet any_timer one_fired none_received none_received = Ret true /\
  IsDeciderTriggerConditionMet any_timer both_fired none_received none_received = Ret true.
Proof.
  assert (IsDeciderTriggerConditionMet any_timer one_fired none_received none_received = Ret true)
    as H by reflexivity.
  split; [exact H|].
  destruct (IsDeciderTriggerConditionMet any_timer both_fired none_received none_received) as [b|] eqn:Hb;
    [|discriminate].
  f_equal.
  apply (trigger_monotone any_timer one_fired none_received none_received
           both_fired none_received none_received b);
    [apply insert_mono, map_empty_subseteq | done | done | in_range_tac | exact H | exact Hb].
Defined.

(** ** Queues and the queue of state requests *)

Definition filled_channel : InternalChannel := mkInternalChannel {[ "c" := [Some (value "m")] ]}.

Lemma channels_are_fifo_witness :
  run_ops [OpPublish "c" (Some (value "n")); OpRetrieve "c"] filled_channel =
    Some ([Some (value "m")], mkInternalChannel {[ "c" := [Some (value "n")] ]}) /\
  refines (run_ops [OpPublish "c" (Some (value "n")); OpRetrieve "c"] filled_channel)
    (spec_run [OpPublish "c" (Some (value "n")); OpRetrieve "c"] (mc_queue filled_channel)).
Proof.
  split; [reflexivity|].
  apply (channels_are_fifo [OpPublish "c" (Some (value "n")); OpRetrieve "c"]).
  split; [|done]. apply map_Forall_singleton. discriminate.
Defined.

(** ** Counting *)

Definition mv (stateId : string) : StateMovement := movement stateId None.
Definition after_start : StateExecutionCounter :=
  fst (mark_executing (mkGlobalVersioner 10) (sample_config 100)
    [NewStateStartRequest (mv "A"); NewStateStartRequest (mv "A")] NewStateExecutionCounter).

Lemma counter_counts_running_witness :
  exists running' e',
    rtc (counter_step (mkGlobalVersioner 10) (sample_config 100)) ([], NewStateExecutionCounter) (running', e') /\
    totalCurrentlyExecutingCount e' = 1%Z /\ running' = [mv "A"].
Proof.
  set (e := fst (mark_completed (mkGlobalVersioner 10) (sample_config 100) (mv "A") [] after_start)).
  assert (rtc (counter_step (mkGlobalVersioner 10) (sample_config 100)) ([], NewStateExecutionCounter)
    ([mv "A"], e)) as H.
  { eapply rtc_l; [apply (cs_start _ _ [NewStateStartRequest (mv "A"); NewStateStartRequest (mv "A")])|].
    eapply rtc_l; [apply (cs_complete _ _ [] (mv "A") [mv "A"] [])|]. apply rtc_refl. }
  exists [mv "A"], e. split; [exact H | split; [|reflexivity]].
  apply (counter_counts_running (mkGlobalVersioner 10) (sample_config 100) [] NewStateExecutionCounter
           [mv "A"] e); [|exact H].
  split; [reflexivity|]. intros k. reflexivity.
Defined.

Lemma execution_ids_unique_witness :
  fst (create_ids ["A"; "B"; "A"] NewStateExecutionCounter) = ["A-1"; "B-1"; "A-2"] /\
  NoDup (fst (create_ids ["A"; "B"; "A"] NewStateExecutionCounter)).
Proof.
  split; [reflexivity|]. apply (execution_ids_unique ["A"; "B"; "A"] NewStateExecutionCounter).
  intros k. reflexivity || (unfold map_get; cbn; rewrite lookup_empty; cbn; lia).
Defined.

Lemma skipped_refresh_happens_later_witness :
  snd (mark_completed (mkGlobalVersioner 10) (sample_config 100) (mv "A") [mv "A"; mv "B"] after_start) = false /\
  snd (mark_executing (mkGlobalVersioner 10) (sample_config 100)
         [NewStateStartRequest (mv "A"); NewStateStartRequest (mv "B")]
         (fst (mark_completed (mkGlobalVersioner 10) (sample_config 100) (mv "A") [mv "A"; mv "B"] after_start)))
    = true.
Proof.
  assert (snd (mark_completed (mkGlobalVersioner 10) (sample_config 100) (mv "A") [mv "A"; mv "B"]
    after_start) = false) as H by (vm_compute; reflexivity).
  split; [exact H|].
  apply (skipped_refresh_happens_later (mkGlobalVersioner 10) (sample_config 100) (mv "A") [mv "A"; mv "B"]
           [NewStateStartRequest (mv "A"); NewStateStartRequest (mv "B")] after_start);
    [reflexivity | repeat constructor | reflexivity | exact H | reflexivity].
Defined.

Lemma threshold_met_exactly_witness :
  IsThresholdMet (mkWorkflowConfiger (sample_config 4))
    (foldl apply_can_op NewContinueAsCounter [OpExecuted false; OpSignal; OpSyncUpdate]) = true.
Proof.
  rewrite (threshold_met_exactly (mkWorkflowConfiger (sample_config 4)) NewContinueAsCounter
             [OpExecuted false; OpSignal; OpSyncUpdate]);
    [reflexivity | split_and!; vm_compute; discriminate | vm_compute; discriminate].
Defined.

Definition mode_config (m : ExecutingStateIdMode) : WorkflowConfig :=
  mkWorkflowConfig None (Some m) None None None None.

Lemma mode_change_leaves_stale_id_witness :
  "A" ∈ DeterministicKeys (stateIdCurrentlyExecutingCounts
    (fst (mark_completed (mkGlobalVersioner 10) (mode_config ENABLED_FOR_ALL) (mv "A") []
       (fst (mark_executing (mkGlobalVersioner 10) (mode_config DISABLED) [NewStateStartRequest (mv "A")]
          NewStateExecutionCounter))))).
Proof.
  apply (mode_change_leaves_stale_id (mkGlobalVersioner 10) (mode_config DISABLED)
           (mode_config ENABLED_FOR_ALL) (mv "A") NewStateExecutionCounter); reflexivity.
Defined.

(** ** Attributes *)

Definition kv (k v : string) : KeyValue := mkKeyValue (Some k) (Some (value v)).
Definition sa (k v : string) : SearchAttribute := sa_with_string v (new_sa k KEYWORD).
Definition some_attributes : PersistenceManager :=
  NewPersistenceManager [kv "a" "1"; kv "b" "2"] [sa "x" "3"; sa "y" "4"] true.
Definition lock_a : PersistenceLoadingPolicy :=
  mkPersistenceLoadingPolicy (Some PARTIAL_WITH_EXCLUSIVE_LOCK) ["a"] ["a"] None None.
Definition no_keys : PersistenceLoadingPolicy :=
  mkPersistenceLoadingPolicy (Some PARTIAL_WITHOUT_LOCKING) [] [] None None.

Lemma LoadDataAttributes_spec_witness :
  exists res,
    returns (sim no_workers) (LoadDataAttributes (Some lock_a)) (quiet_world 0) some_attributes res
      (quiet_world 0) (after_lock DataLocks (Some lock_a) some_attributes) /\ kv "a" "1" ∈ res.
Proof.
  destruct (LoadDataAttributes_spec (sim no_workers) (Some lock_a) (quiet_world 0) some_attributes)
    as (res & Hr & Hin); [intros s; discriminate | reflexivity |].
  exists res. split; [exact Hr|]. apply Hin. exists "a". split; [reflexivity|].
  left. apply list_elem_of_here.
Defined.

Lemma LoadSearchAttributes_spec_witness :
  exists res,
    returns (sim no_workers) (LoadSearchAttributes (Some no_keys)) (quiet_world 0) some_attributes res
      (quiet_world 0) (after_lock SearchLocks (Some no_keys) some_attributes) /\ sa "x" "3" ∉ res.
Proof.
  destruct (LoadSearchAttributes_spec (sim no_workers) (Some no_keys) (quiet_world 0) some_attributes)
    as (res & Hr & Hin); [intros s; discriminate | reflexivity |].
  exists res. split; [exact Hr|]. intros Hx. apply Hin in Hx as (k & _ & [Hk|[Hk _]]); [|discriminate].
  apply elem_of_nil in Hk. exact Hk.
Defined.

Lemma ProcessUpsertDataAttribute_spec_witness :
  dataAttributes (upsert_data [kv "a" "5"; kv "c" "6"; kv "a" "7"] some_attributes) !! "a" =
    Some (kv "a" "7").
Proof.
  exact (proj2 (proj2 (ProcessUpsertDataAttribute_spec (sim no_workers)
    [kv "a" "5"; kv "c" "6"; kv "a" "7"] (quiet_world 0) some_attributes ltac:(discriminate)) "a")).
Defined.

Lemma persistence_snapshot_roundtrip_witness :
  RebuildPersistenceManager (GetAllDataAttributes some_attributes) (GetAllSearchAttributes some_attributes)
    true = mkPersistenceManager (dataAttributes some_attributes) (searchAttributes some_attributes) ∅ ∅ true.
Proof. apply (persistence_snapshot_roundtrip some_attributes), NewPersistenceManager_wf. Defined.

(** ** Timers *)

Definition table (stale : list StaleSkipTimerSignal) : TimerTable :=
  mkTimerTable
    {[ 0%nat := mkTimerInfo (Some "t") 10 TimerPending; 1%nat := mkTimerInfo (Some "u") 20 TimerPending ]}
    {[ "A-1" := [0%nat; 1%nat] ]} stale.
Definition unmatched : StaleSkipTimerSignal := mkStaleSkipTimerSignal "B-1" "t" 0.
Definition matched : StaleSkipTimerSignal := mkStaleSkipTimerSignal "A-1" "u" 0.
Definition greedy_processor : GreedyTimerProcessor :=
  mkGreedyTimerProcessor (table []) (mkTimerScheduler [] []).

Lemma greedy_AddTimers_spec_witness :
  exists t' ls, greedy_AddTimers "A-1" (TimerCommands two_timers) one_fired
      (NewGreedyTimerProcessor []) = Ret t' /\
    sched_inv (tt_heap (g_table t')) (timerManager t') /\ length ls = 2%nat /\
    stateExecutionCurrentTimerInfos (g_table t') !! "A-1" = Some ls.
Proof.
  destruct (greedy_AddTimers_spec "A-1" (TimerCommands two_timers) one_fired (NewGreedyTimerProcessor []))
    as (t' & ls & Ht & Hs & Hi & Hl & _).
  - intros l Hl. apply elem_of_nil in Hl. destruct Hl.
  - split; constructor.
  - exists t', ls. split; [exact Ht|]. split; [exact Hs|]. split; [exact Hl|].
    rewrite Hi. apply lookup_insert_eq.
Defined.

Definition pending_processor : GreedyTimerProcessor :=
  mkGreedyTimerProcessor (table []) (mkTimerScheduler [1%nat; 0%nat] []).
Definition pending_state : WorkflowState :=
  set_part (Greedy pending_processor) (initial_state (sample_config 100)).

(** The simulated backend with a clock that stands still. *)
Definition frozen (now : Z) (X : Type) (e : providerE X) (w : unit) : X * unit :=
  (fst (sim no_workers X e (quiet_world now)), w).

Lemma frozen_now now w : frozen now Z Now w = (now, w).
Proof. reflexivity. Qed.

Lemma greedy_scheduler_covers_witness :
  exists e' s' p', returns (frozen 0) (greedy_timer_scheduler 1) tt pending_state tt e' s' /\
    w_timers s' = Greedy p' /\
    exists ts, ts ∈ providerScheduledTimerUnixTs (timerManager p') /\ (0 < ts <= 10)%Z.
Proof.
  destruct (greedy_scheduler_covers (frozen 0) 0 tt pending_state pending_processor)
    as (p' & (e' & s' & Hr & Hp) & _ & _ & Hc); [apply frozen_now | reflexivity | reflexivity | |].
  - split; repeat constructor; vm_compute; discriminate.
  - exists e', s', p'. split; [exact Hr|]. split; [exact Hp|].
    apply (Hc 0%nat); [vm_compute; right; left | split; vm_compute; reflexivity].
Defined.

Lemma stale_skip_applied_once_witness :
  exists t', RetryStaleSkipTimer (table [unmatched; matched]) = (true, t') /\
    staleSkipTimerSignals t' ≡ₚ [unmatched; unmatched].
Proof.
  destruct (stale_skip_applied_once [unmatched] matched [] (table [unmatched; matched]) 1%nat)
    as (t' & Ht & _ & _ & Hs); [reflexivity | | reflexivity |].
  - intros sk ->%list_elem_of_singleton. reflexivity.
  - exists t'. split; [exact Ht | exact Hs].
Defined.

Lemma failed_retry_doubles_witness :
  RetryStaleSkipTimer (table [unmatched]) = (false, table [unmatched; unmatched]).
Proof.
  apply (failed_retry_doubles (table [unmatched])).
  intros sk ->%list_elem_of_singleton. reflexivity.
Defined.

Lemma ValidateTimerSkipRequest_sound_witness :
  ValidateTimerSkipRequest (tt_heap (table [])) (stateExecutionCurrentTimerInfos (table [])) "A-1" "u" 0 =
    Some 1%nat /\
  exists timer, tt_heap (table []) !! 1%nat = Some timer /\ ti_CommandId timer = Some "u".
Proof.
  split; [reflexivity|].
  destruct (ValidateTimerSkipRequest_sound (tt_heap (table [])) (stateExecutionCurrentTimerInfos (table []))
    "A-1" "u" 0 1%nat) as (infos & i & timer & _ & _ & Ht & Hid); [reflexivity|].
  exists timer. split; [exact Ht | exact Hid].
Defined.

(** ** Values of search attributes *)

Lemma search_attribute_roundtrip_witness :
  exists v, internal_value 0 (sa_with_int 42 (new_sa "n" INT)) = inl v /\
    mapToIwfSearchAttribute "n" INT (json_value v) false = (Some (sa_with_int 42 (new_sa "n" INT)), None).
Proof.
  destruct (search_attribute_roundtrip 0 (sa_with_int 42 (new_sa "n" INT))) as (v & Hv & _ & Hm).
  - exists "n", 42%Z. split; [reflexivity | discriminate].
  - exists v. split; [exact Hv | exact Hm].
Defined.

Lemma bad_array_element_panics_witness :
  MapTemporalToIwfSearchAttributes (fun p : iface => Some p) (Some {[ "k" := IArray [IBool true] ]})
    [mkSearchAttributeKeyAndType (Some "k") (Some KEYWORD_ARRAY)] = Panic "nil pointer dereference".
Proof.
  apply (bad_array_element_panics (fun p : iface => Some p) {[ "k" := IArray [IBool true] ]} "k"
           (IArray [IBool true]) [IBool true]); reflexivity.
Defined.

(** ** Times *)

Lemma parseTimeRange_spec_witness :
  parseTimeRange 10000000000000 (pretty 2%Z +:+ "h") = Some (10000000000000 - 2 * 3600000000000)%Z.
Proof.
  rewrite (proj2 (parseTimeRange_spec 10000000000000 2 "h" 3600000000000 ltac:(lia) ltac:(reflexivity)));
    [reflexivity | split; vm_compute; (discriminate || reflexivity)].
Defined.

(** ** State executions, updates and completion *)

(** What the other coroutines do meanwhile: they end all states and ask for a
    graceful completion. *)
Definition all_done (s : WorkflowState) : WorkflowState :=
  set_part (set_graceful (w_vars s)) (set_part NewStateRequestQueue (set_part NewStateExecutionCounter s)).
Definition done_run : option (option interpreter_result * WorkflowState) :=
  own_run no_workers all_done (InterpreterImpl no_snapshot None 5 (sample_input None 100)) (quiet_world 0)
    (initial_state (sample_config 100)).
Definition done_state : WorkflowState :=
  match done_run with Some (_, s) => s | None => initial_state (sample_config 100) end.

Lemma interpreter_completion_safe_witness :
  rtc own_step (InterpreterImpl no_snapshot None 5 (sample_input None 100), initial_state (sample_config 100))
    (Done (Some (Some (mkInterpreterWorkflowOutput []), None)), done_state) /\
  may_complete done_state.
Proof.
  assert (done_run = Some (Some (Some (mkInterpreterWorkflowOutput []), None), done_state)) as H
    by (vm_compute; reflexivity).
  apply own_run_steps in H. split; [exact H|].
  apply (interpreter_completion_safe no_snapshot None 5 (sample_input None 100)
           (initial_state (sample_config 100)) (Some (mkInterpreterWorkflowOutput [])) done_state H).
Defined.

(** State B with an execute API that locks a data attribute. *)
Definition locking_options : WorkflowStateOptions :=
  mkWorkflowStateOptions None None None None None None None None None None None None None None None None
    None None None None None (Some lock_a).
Definition state_B : StateMovement := mkStateMovement "B" None (Some locking_options) None.
Definition sample_context : Context_ := mkContext "wf" "run" 0 (Some "B-1") None None.
Definition ready_state : WorkflowState := set_part some_attributes (initial_state (sample_config 100)).
Definition execute_B :
  option (option StateDecision * StateExecutionStatus * option error * World * WorkflowState *
    list (prog WorkflowState unit)) :=
  exec (sim branching_workers)
    (invokeStateExecute (mkBasicInfo "wf" "url") state_B "B-1" sample_context None true [] false)
    (quiet_world 0) ready_state.
Definition execute_B_state : WorkflowState :=
  match execute_B with Some (_, _, s, _) => s | None => ready_state end.

Lemma invokeStateExecute_cleanup_witness :
  match execute_B with
  | Some (_, status, err, _, _, _) => status = CompletedStateExecutionStatus /\ err = None
  | None => False
  end /\ same_locks ready_state execute_B_state.
Proof.
  split; [vm_compute; split; reflexivity|].
  unfold execute_B_state. destruct execute_B as [[[[[[d status] err] w] s] ts]|] eqn:E.
  - unfold execute_B in E. eapply invokeStateExecute_cleanup in E as [E _]. exact E.
  - exfalso. vm_compute in E. discriminate.
Defined.

Definition sample_rpc : WorkflowRpcRequest :=
  mkWorkflowRpcRequest "wf" None "rpc" None None (Some lock_a) None None [].
Definition update_run :=
  exec (sim no_workers) (updater_handler (mkBasicInfo "wf" "url") sample_rpc) (quiet_world 0) ready_state.
Definition update_state : WorkflowState :=
  match update_run with Some (_, _, s, _) => s | None => ready_state end.

Lemma updater_handler_cleanup_witness :
  is_Some update_run /\ same_locks ready_state update_state.
Proof.
  split; [vm_compute; eexists; reflexivity|].
  unfold update_state. destruct update_run as [[[[r w] s] ts]|] eqn:E.
  - unfold update_run in E. apply (updater_handler_cleanup (sim no_workers)) in E as [E _]. exact E.
  - exfalso. vm_compute in E. discriminate.
Defined.

Definition taken_state : WorkflowState :=
  set_part (after_lock DataLocks (Some lock_a) some_attributes) (initial_state (sample_config 100)).

Lemma updater_validator_spec_witness :
  exists details, updater_validator sample_rpc taken_state =
    Some (ApplicationError RPC_ACQUIRE_LOCK_FAILURE details).
Proof.
  destruct (updater_validator sample_rpc taken_state) as [err|] eqn:E; [|vm_compute in E; discriminate].
  destruct (proj2 (updater_validator_spec sample_rpc taken_state) err E) as [details ->].
  exists details. reflexivity.
Defined.

Lemma check_next_states_spec_witness :
  completeOutput (check_next_states "A" "A-1" [movement GracefulCompletingWorkflowStateId (text "x")]) =
    Some (mkStateCompletionOutput "A" "A-1" (text "x")).
Proof.
  apply (check_next_states_spec "A" "A-1" [movement GracefulCompletingWorkflowStateId (text "x")])
    with (m := movement GracefulCompletingWorkflowStateId (text "x"));
    [reflexivity | apply list_elem_of_here || (vm_compute; repeat constructor) | discriminate].
Defined.

Definition go_signal : SignalCommand := mkSignalCommand (Some "s") "go" None None.
Definition go_thread : prog WorkflowState unit := signal_thread 0%nat 0%nat go_signal "s".

(** One buffered signal and two commands that wait for it. *)
Definition one_signal_state : WorkflowState :=
  set_part (NewSignalReceiverState {[ "go" := [Some (value "v")] ]}) (initial_state (sample_config 100)).
Definition go_pool : pool WorkflowState providerE :=
  let '(t, ws, _, s) :=
    run_pool no_workers 100 (Done tt) [go_thread; go_thread] (quiet_world 0) one_signal_state in
  mkPool t ws s.

Lemma channel_coroutines_never_panic_witness :
  receivedSignals (w_signals (shared go_pool)) = ∅ /\
  active go_pool <> Crash "critical bug, this shouldn't happen".
Proof.
  split; [vm_compute; reflexivity|].
  apply (channel_coroutines_never_panic [go_thread; go_thread] one_signal_state); [repeat constructor|].
  unfold go_pool.
  destruct (run_pool no_workers 100 (Done tt) [go_thread; go_thread] (quiet_world 0) one_signal_state)
    as [[[t ws] w] s] eqn:E.
  eapply run_pool_steps. exact E.
Defined.

(** A state execution whose execute API locks data attribute [k]. *)
Definition lock_policy (k : string) : PersistenceLoadingPolicy :=
  mkPersistenceLoadingPolicy (Some PARTIAL_WITH_EXCLUSIVE_LOCK) [] [k] None None.
Definition locking_state (k : string) : StateMovement :=
  mkStateMovement "B" None (Some (mkWorkflowStateOptions None None None None None None None None None
    None None None None None None None None None None None None (Some (lock_policy k)))) None.

(** Two state executions that lock the same key: one is in its execute API, the
    other waits for the key. *)
Definition locking_thread : wprog unit :=
  state_execution_thread 5 (sample_input None 100) (mkBasicInfo "wf" "url")
    (NewStateStartRequest (locking_state "k")).
Definition contended : pool WorkflowState providerE :=
  let '(t, ws, _, s) :=
    run_pool branching_workers 92 (Done tt) [locking_thread; locking_thread] (quiet_world 0)
      (initial_state (sample_config 100)) in
  mkPool t ws s.

Lemma contended_reached :
  rtc (calm_step update_coroutine) (mkPool (Done tt) [locking_thread; locking_thread] (initial_state (sample_config 100)))
    contended.
Proof.
  unfold contended.
  destruct (run_pool branching_workers 92 (Done tt) [locking_thread; locking_thread] (quiet_world 0)
    (initial_state (sample_config 100))) as [[[t ws] w] s] eqn:E.
  eapply run_pool_calm. exact E.
Qed.

Lemma locks_exclusive_interleaved_witness :
  is_locked DataLocks "k" (shared contended) = true /\
  exists Hs H, Forall2 holds (active contended :: waiting contended) Hs /\ H ∈ Hs /\ "k" ∈ held DataLocks H.
Proof.
  assert (is_locked DataLocks "k" (shared contended) = true) as Hk by (vm_compute; reflexivity).
  split; [exact Hk|].
  destruct (locks_exclusive_interleaved [locking_thread; locking_thread] (initial_state (sample_config 100))
    contended) as [(Hs & Hh & _ & Hl) _].
  - repeat constructor.
  - intros [] k; reflexivity.
  - exact contended_reached.
  - vm_compute; reflexivity.
  - destruct (proj1 (Hl _ _) Hk) as (H & Hin & Hkh). exists Hs, H. exact (conj Hh (conj Hin Hkh)).
Defined.

(** Another coroutine has locked [k]. *)
Definition locked_by_other (k : string) : WorkflowState :=
  set_part (mkPersistenceManager ∅ ∅ {[ k := true ]} ∅ false) (initial_state (sample_config 100)).

Notation cancelled_execution := (
  run_cancelled (sim no_workers)
    (invokeStateExecute (mkBasicInfo "wf" "url") (locking_state "k") "B-1" (mkContext "wf" "run" 0 None None None)
       None true [] false) (quiet_world 0) (locked_by_other "k")).

Lemma cancelled_wait_unlocks_others_witness :
  is_locked DataLocks "k" (locked_by_other "k") = true /\
  exists r calls w' s', cancelled_execution = Some (r, calls, w', s') /\ is_locked DataLocks "k" s' = false.
Proof.
  split; [vm_compute; reflexivity|].
  assert (is_set cancelled_execution = true) as Hk by (vm_compute; reflexivity).
  destruct cancelled_execution as [[[[r calls] w'] s']|] eqn:E; [|discriminate Hk].
  exists r, calls, w', s'. split; [reflexivity|].
  apply (cancelled_wait_unlocks_others _ _ _ _ _ _ _ _ _ DataLocks "k" (lock_policy "k")) in E as [_ E];
    [exact E | reflexivity | split; [by left|by left] | vm_compute; reflexivity].
Defined.

Definition busy_world : World :=
  signal SigValue "go" (value "v2") (with_signal (skip_signal (quiet_world 0))).

Lemma short_queue {T} (k : nat) (m : gmap string (list T)) n :
  (0 < k)%nat -> bool_decide (map_Forall (fun _ l => length l < k)%nat m) = true ->
  (length (map_get [] m n) < k)%nat.
Proof.
  intros Hk Hm%bool_decide_eq_true. unfold map_get.
  destruct (m !! n) as [l|] eqn:E; [exact (Hm n l E) | exact Hk].
Qed.

Lemma drain_complete_witness :
  exists w' s', returns (sim no_workers) (DrainAllReceivedButUnprocessedSignals 3) busy_world
      (initial_state (sample_config 100)) tt w' s' /\
    pending SigSkip SkipTimerSignalChannelName w' = [] /\
    buffer_queue (receivedSignals (w_signals s')) "go" = [Some (value "v"); Some (value "v2")].
Proof.
  destruct (drain_complete (sim no_workers) 3 busy_world (initial_state (sample_config 100)))
    as (w' & s' & Hr & Hp & _ & Hb & _).
  - intros T ty n. apply (short_queue 3 (signals_of ty busy_world)); [lia|]. destruct ty; vm_compute; reflexivity.
  - exists w', s'. split; [exact Hr|]. split; [apply (Hp _ SigSkip); reflexivity|].
    apply (Hb "go"). reflexivity.
Defined.
