(* ===== verification/ApiWitnesses.v ===== *)
(** * The theorems on the API and the activities at concrete inputs

    For every theorem with hypotheses on the external storage, the activities, the
    API service and the backend clients, an input where they hold.  The external
    storage is the one of MemoryS3.v; the worker, the backends and their answers
    are small concrete functions. *)

From S2P Require Import MemoryS3 Activity ApiBackend ApiSignals.

(** Did a run return a value that satisfies the test? *)
Definition returns {W A} (test : A -> bool) (r : gores (A * W)) : bool :=
  match r with Ret (a, _) => test a | Panic _ => false end.
Definition is_ok {A B} (r : A + B) : bool := match r with inl _ => true | inr _ => false end.

(** ** External storage *)

Definition inline_data (data : string) : EncodedObject := mkEncodedObject None None (Some "json") (Some data).
Definition big_text : string := "a value that is long".
Definition big_and_small : list KeyValue :=
  [mkKeyValue (Some "big") (Some (inline_data big_text)); mkKeyValue (Some "small") (Some (inline_data "x"));
   mkKeyValue (Some "unset") None].

Lemma big_and_small_inline : Forall inline big_and_small.
Proof.
  apply Forall_cons; split; [by intros v [= <-]; split|].
  apply Forall_cons; split; [by intros v [= <-]; split|].
  apply Forall_cons; split; [done | constructor].
Qed.

Lemma external_storage_roundtrip_witness :
  Forall inline big_and_small /\
  exists objs' w', WriteDataObjectsToExternalStorage (Some (memory_store 9)) big_and_small "wf" 5 true ∅
      = Ret ((objs', None), w') /\
    exists objs'' err' w2,
      LoadDataObjectsFromExternalStorage (Some (memory_store 9)) objs' w' = Ret ((objs'', err'), w2) /\
      (err' = None -> objs'' = big_and_small).
Proof.
  split; [exact big_and_small_inline|].
  destruct (external_storage_roundtrip (memory_store 9) "wf" 5 big_and_small ∅ big_and_small_inline)
    as (objs' & err & w' & Hw & _ & H).
  assert (returns (fun r => negb (is_set (snd r)))
    (WriteDataObjectsToExternalStorage (Some (memory_store 9)) big_and_small "wf" 5 true ∅) = true) as Hok
    by (vm_compute; reflexivity).
  rewrite Hw in Hok. destruct err as [e|]; [discriminate Hok|]. clear Hok.
  exists objs', w'. split; [exact Hw|]. destruct (H eq_refl) as [_ Hl].
  destruct (Hl w' (reflexivity w')) as (objs'' & err' & w2 & Hr & He & _).
  exists objs'', err', w2. split; [exact Hr | exact He].
Defined.

(** Two objects of a workflow, one of another. *)
Definition two_workflows : memory :=
  {[ ("bucket", "ns/20250102$wf/u1") := "1"; ("bucket", "ns/20250102$wf/u2") := "2";
     ("bucket", "ns/20250102$wf2/u3") := "3" ]}.

Lemma DeleteWorkflowObjects_exact_witness :
  count_under memory_blobStore "bucket" "ns/20250102$wf/" two_workflows = 2 /\
  exists w', DeleteWorkflowObjects (memory_store 3) "s3" "20250102$wf" two_workflows = Ret (None, w') /\
    w' !! ("bucket", "ns/20250102$wf2/u3") = Some "3" /\
    w' !! ("bucket", "ns/20250102$wf/u1") = None.
Proof.
  split; [vm_compute; reflexivity|].
  destruct (DeleteWorkflowObjects_exact memory_blobStore 3 "s3" "20250102$wf" memory_config two_workflows)
    as (err & w' & E & _ & Hframe & Hgone & Hok); [reflexivity | vm_compute; lia|].
  assert (err = None) as -> by (apply Hok; by split; [|intros bucket keys w r w2 [= <- _]]).
  exists w'. split; [exact E|]. split.
  - transitivity (two_workflows !! ("bucket", "ns/20250102$wf2/u3")); [|reflexivity].
    apply (Hframe ("bucket", "ns/20250102$wf2/u3")). intros [_ H]. by vm_compute in H.
  - apply (Hgone eq_refl ("bucket", "ns/20250102$wf/u1")). by split; [|vm_compute].
Defined.

Lemma workflow_objects_separate_witness :
  ValidateWorkflowId "wf" = None /\ ValidateWorkflowId "wf2" = None /\
  ~ HasPrefix ("ns/" +:+ objectPath "20250102" "wf2" "u3") ("ns/" +:+ ("20250102" +:+ "$" +:+ "wf") +:+ "/") = true.
Proof.
  split; [reflexivity|]. split; [reflexivity|]. intros H.
  apply (workflow_objects_separate memory_blobStore) in H as [_ H]; try reflexivity; [done|].
  repeat constructor; by vm_compute; intros ?; set_solver.
Defined.

(** ** RPC *)

Definition rpc_request : WorkflowRpcRequest :=
  mkWorkflowRpcRequest "wf" None "update" None None None None None [].
Definition rpc_prep : PrepareRpcQueryResponse :=
  mkPrepareRpcQueryResponse [] [] "run" 0 "Order" "http://worker" ∅ ∅.
Definition go_to (stateId : string) (input : option EncodedObject) : StateMovement :=
  mkStateMovement stateId input None None.

(** The worker moves to a state and upserts a large attribute. *)
Definition rpc_answer : WorkflowWorkerRpcResponse :=
  mkWorkflowWorkerRpcResponse (Some (inline_data "out")) (Some (mkStateDecision [go_to "Ship" None] None)) []
    big_and_small [] [] [].
Definition ok_200 : http_response := mkhttp_response 200 (inl EmptyString).
Definition rpc_post : string -> Z -> WorkflowWorkerRpcRequest -> memory ->
  api_result WorkflowWorkerRpcResponse * memory :=
  fun _ _ _ m => (mkapi_result (Some rpc_answer) (Some ok_200) None, m).
Definition small_storage : ExternalStorageConfig :=
  mkExternalStorageConfig true 5 [memory_config] 30.
Definition clock (m : memory) : Z * memory := (1735776000, m)%Z.          (* 2025-01-02 *)

Lemma rpc_never_closes_witness :
  exists resp w', InvokeWorkerRpc id (fun _ => None) rpc_post clock None rpc_prep rpc_request 60
      (Some (memory_store 9)) small_storage ∅ = Ret (inl (Some resp), w') /\
    forall d, wr_StateDecision resp = Some d -> ConditionalClose d = None.
Proof.
  destruct (InvokeWorkerRpc id (fun _ => None) rpc_post clock None rpc_prep rpc_request 60
      (Some (memory_store 9)) small_storage ∅) as [[[r|e] w']|msg] eqn:E.
  - destruct (rpc_never_closes _ _ _ _ _ _ _ _ _ _ _ _ _ E) as (resp & -> & H & _).
    exists resp, w'. split; [exact eq_refl|]. intros d Hd. exact (proj1 (H d Hd)).
  - apply (f_equal (returns is_ok)) in E. vm_compute in E. discriminate E.
  - apply (f_equal (returns is_ok)) in E. vm_compute in E. discriminate E.
Defined.

(** ** Activities *)

Definition state_context : Context_ := mkContext "wf" "run" 0 (Some "Pay-1") None None.
Definition wait_for_timer : CommandRequest :=
  mkCommandRequest (Some ANY_COMMAND_COMPLETED) None [mkTimerCommand (Some "t") (Some 10%Z) None] [] [] [].
Definition start_answer : WorkflowStateStartResponse :=
  mkWorkflowStateStartResponse None [] big_and_small (Some wait_for_timer) [] [] [].
Definition decide_answer : WorkflowStateDecideResponse :=
  mkWorkflowStateDecideResponse None
    (Some (mkStateDecision [go_to "Ship" (Some (inline_data big_text)); go_to "Bill" (Some (inline_data "x"))] None))
    [] [] [] [] [].

(** A worker that answers with the given status. *)
Definition worker_env (http_status : Z) : ActivityEnv memory := mkActivityEnv memory
  (Some (memory_store 9)) small_storage 60 "http://api" (fun _ => EmptyString)
  (mkActivityInfo 0 1 false (mkWorkflowExecution "wf" "run")) None
  (fun m => (1735776000000000000%Z, m))
  (fun _ _ m => (mkapi_result (Some start_answer) (Some (mkhttp_response http_status (inl EmptyString))) None, m))
  (fun _ _ m => (mkapi_result (Some decide_answer) (Some (mkhttp_response http_status (inl EmptyString))) None, m))
  (fun _ => rpc_post EmptyString)
  (fun _ _ m => (mkapi_result None None None, m))
  (fun _ => None) (fun _ => EmptyString) (fun _ => EmptyString)
  (fun _ m => (tt, m)) (fun _ m => (Some (OtherError "not found"), m)) is_set (fun m => (tt, m)).

Definition start_input : StateStartActivityInput :=
  mkStateStartActivityInput "http://worker/"
    (mkWorkflowStateStartRequest state_context "Order" "Pay" None [] []).
Definition decide_input : StateDecideActivityInput :=
  mkStateDecideActivityInput "http://worker/"
    (mkWorkflowStateDecideRequest state_context "Order" "Pay" None [] [] [] None).

Definition commands_of (r : option WorkflowStateStartResponse + error) : option CommandRequest :=
  match r with inl r => r ≫= ws_CommandRequest | inr _ => None end.

Lemma accepted_request_never_panics_witness :
  exists resp w', StateApiWaitUntil (worker_env 200) start_input [] ∅ = Ret (inl (Some resp), w') /\
    ws_CommandRequest resp = Some wait_for_timer /\
    exists met, IsDeciderTriggerConditionMet wait_for_timer {[ 0 := TimerFired ]} ∅ ∅ = Ret met.
Proof.
  assert (match StateApiWaitUntil (worker_env 200) start_input [] ∅ with
          | Ret (r, _) => commands_of r | Panic _ => None end = Some wait_for_timer) as Hc
    by (vm_compute; reflexivity).
  destruct (StateApiWaitUntil (worker_env 200) start_input [] ∅) as [[[[resp|]|e] w']|msg] eqn:E;
    try discriminate Hc.
  exists resp, w'. split; [exact eq_refl|]. split; [exact Hc|].
  apply (accepted_request_never_panics (worker_env 200) start_input [] ∅ resp w' wait_for_timer
           {[ 0 := TimerFired ]} ∅ ∅ E Hc).
  split_and!; intros i [x Hx]; [|by rewrite lookup_empty in Hx..].
  apply lookup_singleton_Some in Hx as [<- _]. cbn. lia.
Defined.

Lemma execute_inputs_roundtrip_witness :
  exists resp w', StateApiExecute (worker_env 200) decide_input ∅ = Ret (inl (Some resp), w') /\
    exists d, wd_StateDecision resp = Some d /\ length (NextStates d) = 2.
Proof.
  assert (returns is_ok (StateApiExecute (worker_env 200) decide_input ∅) = true) as Hok
    by (vm_compute; reflexivity).
  destruct (StateApiExecute (worker_env 200) decide_input ∅) as [[[resp|e] w']|msg] eqn:E; try discriminate Hok.
  assert (keeps_store (worker_env 200) (memory_store 9)) as Hk by (split_and!; intros; exact (reflexivity _)).
  destruct (execute_inputs_roundtrip (worker_env 200) (memory_store 9) eq_refl decide_input ∅ resp w'
              Hk eq_refl E) as (si & objs & result & w1 & d0 & resp' & d & Hr & Hd0 & _ & -> & Hd & Hn).
  exists resp', w'. split; [exact eq_refl|]. exists d. split; [exact Hd|].
  subst result. cbn in Hd0. injection Hd0 as <-. by apply Forall2_length in Hn.
Defined.

Lemma execute_panics_on_other_success_witness :
  exists msg, StateApiExecute (worker_env 202) decide_input ∅ = Panic msg.
Proof.
  apply (execute_panics_on_other_success (worker_env 202) decide_input ∅ 202 (inl EmptyString));
    [reflexivity | reflexivity | lia |].
  intros url request w. exists (Some decide_answer), w. reflexivity.
Defined.

(** An object of 2024, cleaned up on 2025-01-02 with a minimum age of 30 days. *)
Definition old_object : memory := {[ ("bucket", "ns/20240101$wf/u1") := "1" ]}.

Lemma sub_old_object (m : memory) : m ⊆ old_object -> m = ∅ \/ m = old_object.
Proof.
  intros Hsub. destruct (m !! ("bucket", "ns/20240101$wf/u1")) as [d|] eqn:Ed; [right | left];
    apply map_eq; intros k; (destruct (decide (("bucket", "ns/20240101$wf/u1") = k)) as [<-|Hne]).
  - apply (lookup_weaken _ _ _ _ Ed) in Hsub. by rewrite Hsub.
  - unfold old_object. rewrite lookup_singleton_ne by done. apply eq_None_not_Some. intros [d' Hd'].
    apply (lookup_weaken _ _ _ _ Hd') in Hsub. unfold old_object in Hsub.
    by rewrite lookup_singleton_ne in Hsub.
  - by rewrite Ed, lookup_empty.
  - rewrite lookup_empty. apply eq_None_not_Some. intros [d' Hd'].
    apply (lookup_weaken _ _ _ _ Hd') in Hsub. unfold old_object in Hsub.
    by rewrite lookup_singleton_ne in Hsub.
Qed.

Definition listed {A B W} (r : gores ((A + B) * W)) : option A :=
  match r with Ret (inl a, _) => Some a | _ => None end.

Lemma old_object_listed : listing_ends memory_blobStore 9 "s3" old_object 1 None.
Proof.
  intros w out w' Hsub E. apply (f_equal listed) in E.
  destruct (sub_old_object w Hsub) as [-> | ->]; vm_compute in E; injection E as <-.
  - split; [constructor | exact I].
  - split; [|exact I]. apply Forall_cons; split; [|constructor].
    intros day Hd. vm_compute in Hd. injection Hd as <-. by eexists.
Qed.

Lemma cleanup_keeps_old_witness :
  exists r w', CleanupBlobStore (worker_env 200) 1 "s3" old_object = Ret (r, w') /\
    w' !! ("bucket", "ns/20240101$wf/u1") = Some "1".
Proof.
  destruct (cleanup_keeps_old (worker_env 200) memory_blobStore 9 1 "s3" 1 old_object)
    as (r & w' & E & H).
  - reflexivity.
  - split_and!; reflexivity.
  - exact old_object_listed.
  - lia.
  - vm_compute. lia.
  - exists r, w'. split; [exact E|].
    transitivity (old_object !! ("bucket", "ns/20240101$wf/u1")); [|reflexivity].
    apply (H "20240101" 1704067200%Z); [by apply contains_char_spec | reflexivity | vm_compute; reflexivity|].
    by exists "wf/u1".
Defined.

(** ** The API service *)

(** Makes the next call of a run, with its answer. *)
Ltac answer x := refine (runs_ask _ _ _ x _ _ _); cbn.

(** The SDK's error texts, as the service tells them apart. *)
Definition by_text (msg : string) (err : error) : bool := bool_decide (error_text err = msg).
Definition plain_errors : errorHandler := mkerrorHandler
  (fun _ => None) (fun err => inr err) (fun err => inr err) (by_text "already started") (fun _ => "run-1")
  (by_text "not found") (by_text "deadline") (by_text "timeout").
Definition service (store : bool) : serviceImpl :=
  mkserviceImpl plain_errors BackendTypeTemporal store "queue" small_storage None false 60 None "old" None.

(** The service's storage calls go to the memory. *)
Definition service_on_memory X (e : apiE X) : M memory X :=
  match e in apiE X return M memory X with
  | StoreWrite wid data => WriteObject (memory_store 9) wid data
  | StoreRead storeId path => ReadObject (memory_store 9) storeId path
  | _ => fun _ => Panic "not a call of the storage"
  end.

(** A start that is retried: the workflow runs, under the same request id. *)
Definition retried_start : WorkflowStartRequest :=
  mkWorkflowStartRequest "wf" "Order" 60 "http://worker" (Some "Pay") [] [] None None
    (Some (mkWorkflowStartOptions None None None None [] [] None None None
             (Some (mkWorkflowAlreadyStartedOptions true (Some "request-1"))))).
Definition running_description (status : WorkflowStatus) : DescribeWorkflowExecutionResponse :=
  mkDescribeWorkflowExecutionResponse status "run-1" "run-1" ∅
    {[ WorkflowRequestId := memo_value "request-1" ]} 0.

Lemma start_answers_own_workflow_witness :
  exists tr, runs (ApiV1WorkflowStartPost (service true) retried_start) tr
               (Ret (inl (mkWorkflowStartResponse (Some "run-1")))) /\
    claims (service true) retried_start tr "run-1".
Proof.
  assert (exists tr, runs (ApiV1WorkflowStartPost (service true) retried_start) tr
    (Ret (inl (mkWorkflowStartResponse (Some "run-1"))))) as [tr Hruns].
  { eexists. answer 0%Z. answer (@inr string error (OtherError "already started")).
    answer (@inl _ error (running_description RUNNING)). constructor. }
  exists tr. split; [exact Hruns|].
  exact (start_answers_own_workflow (service true) retried_start tr _ "run-1" Hruns eq_refl).
Defined.

Definition get_request : WorkflowGetRequest := mkWorkflowGetRequest "wf" None (Some true) None.
Definition wf_output : InterpreterWorkflowOutput :=
  mkInterpreterWorkflowOutput [mkStateCompletionOutput "Ship" "Ship-1" (Some (inline_data "done"))].

Lemma get_replies_sound_witness :
  exists tr resp, runs (doApiV1WorkflowGetPost (service true) get_request true) tr (Ret (inl resp)) /\
    getr_WorkflowStatus resp <> RUNNING.
Proof.
  assert (exists tr resp, runs (doApiV1WorkflowGetPost (service true) get_request true) tr (Ret (inl resp)))
    as (tr & resp & Hruns).
  { do 2 eexists. answer (@inl _ error (running_description RUNNING)). answer 0%Z.
    answer (@inl _ error wf_output). constructor. }
  exists tr, resp. split; [exact Hruns|].
  destruct (get_replies_sound (service true) get_request true tr _ Hruns) as (H & _ & _).
  destruct (H resp eq_refl) as (Hw & _). exact (proj1 (Hw eq_refl)).
Defined.

Lemma rpc_calls_spec_witness :
  exists tr r, runs (ApiV1WorkflowRpcPost (service true) rpc_request) tr r /\
    omap worker_answer_of tr = [Ret (inl (Some rpc_answer))] /\
    writes_back (service true) rpc_request rpc_answer (omap sent_signal tr).
Proof.
  assert (exists tr r, runs (ApiV1WorkflowRpcPost (service true) rpc_request) tr r /\
    omap worker_answer_of tr = [Ret (inl (Some rpc_answer))]) as (tr & r & Hruns & Ha).
  { do 2 eexists. split.
    - answer (@inl _ error (Some rpc_prep)). answer 0%Z.
      answer (Ret (inl (Some rpc_answer)) : gores (option WorkflowWorkerRpcResponse + ErrorAndStatus)).
      answer (@None error). answer tt. constructor.
    - reflexivity. }
  exists tr, r. split; [exact Hruns|]. split; [exact Ha|].
  destruct (rpc_calls_spec (service true) rpc_request tr r Hruns) as [_ H].
  assert (~ asks_lock rpc_request) as Hl by (intros (p & t & [[=]|[=]] & _)).
  destruct (H Hl) as [_ Hu]. rewrite Ha in Hu. apply (proj2 Hu). intros Hro.
  by discriminate (no_data _ Hro).
Defined.

(** A workflow with one pending timer, which the request skips. *)
Definition skip_request : WorkflowSkipTimerRequest :=
  mkWorkflowSkipTimerRequest "wf" None "Pay-1" (Some "t") None.
Definition one_timer : TimerProcessor :=
  Simple (mkSimpleTimerProcessor (mkTimerTable {[ 0 := mkTimerInfo (Some "t") 100 TimerPending ]} {[ "Pay-1" := [0] ]} []) []).

(** The timers a workflow answered. *)
Definition listed_timers (o : obs apiE) : option (gmap string (list TimerInfo)) :=
  match o with
  | Obs e x =>
      match e in apiE X return X -> option (gmap string (list TimerInfo)) with
      | Client c =>
          match c in clientE X return X -> option (gmap string (list TimerInfo)) with
          | QueryWorkflow _ _ q =>
              match q in query T return T + error -> option (gmap string (list TimerInfo)) with
              | QueryTimerInfos => fun x => match x with inl infos => Some infos | inr _ => None end
              | _ => fun _ => None
              end
          | _ => fun _ => None
          end
      | _ => fun _ => None
      end x
  end.

Lemma accepted_skip_applies_witness :
  exists tr r, runs (ApiV1WorkflowSkipTimerPost (service true) skip_request) tr r /\
    omap listed_timers tr = [GetTimerInfos one_timer] /\
    fst (tp_SkipTimer "Pay-1" "t" 0 one_timer) = true.
Proof.
  assert (exists tr r, runs (ApiV1WorkflowSkipTimerPost (service true) skip_request) tr r /\
    omap listed_timers tr = [GetTimerInfos one_timer] /\
    made tr (Client (SignalWorkflow "wf" EmptyString SkipTimerSignalChannelName SigSkip
                       (mkSkipTimerSignalRequest "Pay-1" "t" 0))) None) as (tr & r & Hruns & Hl & Hm).
  { do 2 eexists. split; [|split].
    - answer (@inl _ error (GetTimerInfos one_timer)). answer (@None error). constructor.
    - reflexivity.
    - by find_call. }
  exists tr, r. split; [exact Hruns|]. split; [exact Hl|].
  destruct (accepted_skip_applies (service true) skip_request tr r _ _ _ _ _ Hruns Hm)
    as (_ & infos & Hq & H).
  apply (H one_timer); [|by repeat constructor].
  assert (infos ∈ omap listed_timers tr) as Hin
    by (apply list_elem_of_omap; eexists; split; [exact Hq | done]).
  rewrite Hl in Hin. by apply list_elem_of_singleton in Hin.
Defined.

(** ** HTTP *)

#[export] Existing Instance whole_floats.

Definition skip_body : list ascii := Marshal WorkflowSkipTimerRequest_codec skip_request.

(** The request decodes, and the query of the timers fails. *)
Lemma requests_are_answered_witness :
  exists tr r status (answer : unit + ErrorResponse),
    runs (serve (service true) "POST" "/api/v1/workflow/timer/skip" skip_body) tr r /\
    r = Ret (Reply empty_struct status answer) /\ length tr = 1.
Proof.
  assert (ShouldBindJSON WorkflowSkipTimer skip_body = Some skip_request) as Hreq by (vm_compute; reflexivity).
  assert (exists tr r, runs (serve (service true) "POST" (api_path WorkflowSkipTimer) skip_body) tr r /\
    length tr = 1) as (tr & r & Hruns & Hl).
  { do 2 eexists. split.
    - rewrite serve_route. unfold handle. rewrite Hreq.
      answer (@inr (gmap string (list TimerInfo)) error (OtherError "not found")). constructor.
    - reflexivity. }
  destruct (requests_are_answered (service true) WorkflowSkipTimer skip_body tr r Hruns)
    as (_ & status & ans & Hr & _).
  exists tr, r, status, ans. split; [exact Hruns|]. split; [exact Hr | exact Hl].
Defined.

Lemma signals_well_typed_witness :
  exists tr r, runs (svc (service true) WorkflowStop (mkWorkflowStopRequest "wf" None None (Some FAIL))) tr r /\
    omap signal_of tr = [(FailWorkflowSignalChannelName, sig_kind SigFail)] /\
    decoded_kind FailWorkflowSignalChannelName = Some (sig_kind SigFail).
Proof.
  assert (exists tr r, runs (svc (service true) WorkflowStop (mkWorkflowStopRequest "wf" None None (Some FAIL))) tr r /\
    omap signal_of tr = [(FailWorkflowSignalChannelName, sig_kind SigFail)]) as (tr & r & Hruns & Hs).
  { do 2 eexists. split; [|].
    - answer (@None error). constructor.
    - reflexivity. }
  exists tr, r. split; [exact Hruns|]. split; [exact Hs|].
  apply (signals_well_typed (service true) WorkflowStop (mkWorkflowStopRequest "wf" None None (Some FAIL)) tr r);
    [exact I | exact Hruns | rewrite Hs; by left].
Defined.

(** ** The providers and the backend clients *)

Definition state_policy : RetryPolicy := mkRetryPolicy (Some 3%Z) None None (Some 5%Z) (Some 60%Z).
Definition state_options : ActivityOptions := mkActivityOptions 30000000000 0 (Some state_policy).

Definition two_attempts : QueryWorkflowFailedRetryPolicy := mkQueryWorkflowFailedRetryPolicy 1 2.
Definition timers_query : temporalE ((gmap string (list TimerInfo) + error) + error) :=
  T_QueryWorkflow "wf" EmptyString QueryTimerInfos.

(** Both attempts fail. *)
Lemma queries_are_retried_witness :
  exists tr, runs (query_with_retry (ask timers_query) (fun d => ask (T_Sleep d)) (by_text "query failed")
                     two_attempts) tr (Ret (inr (OtherError "query failed"))) /\
    exists errs, (len errs <= 2)%Z /\
      query_end timers_query T_Sleep (by_text "query failed") two_attempts errs tr
        (Ret (inr (OtherError "query failed"))).
Proof.
  assert (exists tr, runs (query_with_retry (ask timers_query) (fun d => ask (T_Sleep d)) (by_text "query failed")
    two_attempts) tr (Ret (inr (OtherError "query failed")))) as [tr Hruns].
  { eexists. answer (@inr (gmap string (list TimerInfo) + error) error (OtherError "query failed")). answer tt.
    answer (@inr (gmap string (list TimerInfo) + error) error (OtherError "query failed")). answer tt. constructor. }
  exists tr. split; [exact Hruns|].
  destruct (queries_are_retried timers_query T_Sleep (by_text "query failed") two_attempts tr _
    ltac:(vm_compute; discriminate) Hruns) as (errs & _ & Hn & He).
  exists errs. split; [exact Hn | exact He].
Defined.

(** An encoding of values as text. *)
Fixpoint show_bits (p : positive) : string :=
  match p with
  | xH => EmptyString
  | xO p => String "0"%char (show_bits p)
  | xI p => String "1"%char (show_bits p)
  end.
Fixpoint read_bits (s : string) : positive :=
  match s with
  | EmptyString => xH
  | String c s => if bool_decide (c = "0"%char) then xO (read_bits s) else xI (read_bits s)
  end.
Lemma read_show_bits p : read_bits (show_bits p) = p.
Proof. by induction p as [p IH|p IH|]; cbn; rewrite ?IH. Qed.

#[export] Instance EncodedObject_countable : Countable EncodedObject.
Proof.
  refine (inj_countable' (fun v => (ExtStoreId v, ExtPath v, Encoding v, Data v))
            (fun '(i, p, e, d) => mkEncodedObject i p e d) _).
  by intros [].
Defined.

Definition value_text (v : EncodedObject) : string := show_bits (encode v).
Definition text_value (s : string) : EncodedObject + error :=
  match countable.decode (read_bits s) with Some v => inl v | None => inr (OtherError "corrupt") end.
Lemma text_value_text v : text_value (value_text v) = inl v.
Proof. unfold text_value, value_text. by rewrite read_show_bits, decode_encode. Qed.

(** The arguments of an activity name its state. *)
Definition activity_input (data : string) : StateStartActivityInput + error :=
  inl (mkStateStartActivityInput EmptyString (mkWorkflowStateStartRequest state_context "Order" data None [] [])).

Definition plain_sdk : temporal_sdk := mktemporal_sdk
  (by_text "already started") (fun _ => Some "run-1") (by_text "not found") (by_text "query failed")
  (by_text "deadline") (by_text "canceled") (by_text "timeout") (fun _ => None)
  (fun v => inl (value_text v)) text_value text_value inl (fun _ => None) activity_input.
Definition encrypting_client : temporalClient := mktemporalClient plain_sdk "ns" true two_attempts.

(** How the SDK stores a field of a memo. *)
Definition stored_field (f : memo_field) : string :=
  match f with MemoValue v => value_text v | MemoPayload p => p end.
Definition secret_memo : gmap string EncodedObject :=
  {[ "attribute" := inline_data "secret"; WorkerUrlMemoKey := memo_value "http://worker" ]}.

(** *** A reset *)

Definition event {T} (id : Z) (ty : HistoryEventType) (t : T) (input : string) : HistoryEvent T :=
  mkHistoryEvent id ty t (if bool_decide (ty = ACTIVITY_TASK_SCHEDULED) then "StateApiExecute" else EmptyString) input.

(** Two pages: tasks complete at 4 and 10, the second before the activity of "Ship". *)
Definition history_1 : list (HistoryEvent (Z * Z)) :=
  [event 2 TASK_SCHEDULED (1, 0)%Z EmptyString; event 4 TASK_COMPLETED (2, 0)%Z EmptyString;
   event 5 ACTIVITY_TASK_SCHEDULED (3, 0)%Z "Pay"].
Definition history_2 : list (HistoryEvent (Z * Z)) :=
  [event 10 TASK_COMPLETED (4, 0)%Z EmptyString; event 11 ACTIVITY_TASK_SCHEDULED (5, 0)%Z "Ship"].

Definition temporal_page (token : string) : HistoryPage (Z * Z) + error :=
  if bool_decide (token = EmptyString) then inl (mkHistoryPage history_1 "next")
  else inl (mkHistoryPage history_2 EmptyString).
Definition temporal_answers X (e : temporalE X) : M nat X :=
  match e in temporalE X return M nat X with
  | T_TimeNow => mret 7%Z
  | T_UuidNew => mret "uuid"
  | T_GetWorkflowExecutionHistory _ _ _ token => mret (temporal_page token)
  | T_DescribeWorkflowExecution _ _ =>
      mret (inl (mktemporal_description STATUS_RUNNING "run-1" "run-1" None None (0, 0)%Z))
  | T_ResetWorkflowExecution request =>
      mret (inl ("reset to " +:+ pretty (tr_WorkflowTaskFinishEventId request)))
  | _ => fun _ => Panic "not called"
  end.

Definition reset_request : WorkflowResetRequest :=
  mkWorkflowResetRequest "wf" None STATE_ID None None None (Some "Ship") (Some "Ship-1") None None.

Lemma temporal_answers_serves :
  temporal_serves 0 encrypting_client temporal_answers "wf" "run-1" 7 [history_1; history_2].
Proof.
  split; [reflexivity|]. exists temporal_page. split; [|done]. cbn.
  exists "next". by split_and!.
Qed.

Lemma history_ids_ok : ids_ok (concat [history_1; history_2]).
Proof. unfold ids_ok. cbn. repeat (apply Forall_cons; split; [cbn; lia|]). constructor. Qed.

Lemma reset_finds_event_witness :
  interp temporal_answers (temporal_ResetWorkflow encrypting_client 2 reset_request) 0
  = Ret (inl "reset to 10", 0).
Proof.
  erewrite (reset_finds_event 0 encrypting_client temporal_answers reset_request _ 7 "uuid"
             [history_1; history_2] 2);
    [reflexivity | reflexivity | reflexivity | exact temporal_answers_serves | cbn; lia
    | exact history_ids_ok | exact I].
Defined.

Definition cadence_plain_sdk : cadence_sdk := mkcadence_sdk
  (fun _ => None) (fun _ => false) (by_text "not found") (by_text "query failed") (by_text "deadline")
  (by_text "timeout") (fun _ => None) text_value (fun _ => None) activity_input.
Definition plain_cadence : cadenceClient := mkcadenceClient cadence_plain_sdk "domain" two_attempts.

(** The same history on one page. *)
Definition cadence_history : list (HistoryEvent Z) := as_cadence <$> history_1 ++ history_2.
Definition cadence_answers X (e : cadenceE X) : M nat X :=
  match e in cadenceE X return M nat X with
  | C_TimeNow => mret 7%Z
  | C_GetWorkflowExecutionHistory _ _ _ _ => mret (inl (mkHistoryPage cadence_history EmptyString))
  | _ => fun _ => Panic "not called"
  end.

Lemma backends_reset_alike_witness :
  exists found,
    interp temporal_answers (getResetEventIDByType encrypting_client 2 BEGINNING "wf" "run-1" 0 EmptyString
                               EmptyString EmptyString) 0 = Ret (with_run "run-1" found, 0) /\
    interp cadence_answers (getResetIDsByType plain_cadence 2 BEGINNING "wf" "run-1" 0 EmptyString
                              EmptyString EmptyString) 0 = Ret (found, 0) /\
    found = inl 4%Z.
Proof.
  destruct (backends_reset_alike 0 encrypting_client plain_cadence temporal_answers cadence_answers "wf" "run-1"
    7 [history_1; history_2] [cadence_history] 2 BEGINNING 0 EmptyString EmptyString EmptyString)
    as (found & Ht & Hc).
  - exact temporal_answers_serves.
  - split; [reflexivity|]. exists (fun _ => inl (mkHistoryPage cadence_history EmptyString)). by split.
  - reflexivity.
  - reflexivity.
  - cbn. lia.
  - cbn. lia.
  - exact history_ids_ok.
  - exact I.
  - intros _. by eexists _, _.
  - exists found. split; [exact Ht|]. split; [exact Hc|].
    vm_compute in Hc. by injection Hc as <-.
Defined.

(** *** A start on Temporal *)

Definition plain_temporal : temporalClient := mktemporalClient plain_sdk "ns" false two_attempts.
Definition temporal_service : serviceImpl :=
  mkserviceImpl (temporal_errorHandler plain_temporal) BackendTypeTemporal true "queue" small_storage None false
    60 None "old" None.
Definition plain_start : WorkflowStartRequest :=
  mkWorkflowStartRequest "wf" "Order" 60 "http://worker" (Some "Pay") [] [] None None None.

Lemma start_reaches_backend_witness :
  exists tr, runs (start_over (temporal_client plain_temporal 1) temporal_service plain_start) tr
               (Ret (inl (mkWorkflowStartResponse (Some "run-9")))) /\
    exists o, o ∈ sdk_calls tr /\ temporal_started o = Some ("wf", "run-9").
Proof.
  assert (exists tr, runs (start_over (temporal_client plain_temporal 1) temporal_service plain_start) tr
    (Ret (inl (mkWorkflowStartResponse (Some "run-9"))))) as [tr Hruns].
  { eexists. answer (@inl string error "run-9"). constructor. }
  exists tr. split; [exact Hruns|].
  destruct (start_reaches_backend (temporal_client plain_temporal 1) temporal_service plain_start tr _ "run-9"
    (conj eq_refl eq_refl) Hruns eq_refl) as [H|[[H _]|(err & already & _ & H & _)]];
    [exact H | discriminate H | discriminate H].
Defined.
