(* ===== verification/DumpWitness.v ===== *)
(** * Continue as new over HTTP, at concrete inputs

    The theorems of DumpPath.v on a Temporal backend that answers the queries of the
    previous run, and what they cannot promise: a page that ends inside a character
    is not read back. *)

From S2P Require Import ApiWitnesses DumpPath Interpreter Simulate Examples Witnesses.

(** Urls that are used as they are. *)
#[export] Instance plain_net : NetText := {|
  request_url _ _ path := inl path;
  xml_Unmarshal _ _ _ old := (old, Some "EOF");
  Unmarshal_leaves _ _ _ old := old;
  Unmarshal_error _ _ _ := "invalid";
  pointer_text p := match p with None => "%!s(*string=<nil>)" | Some _ => "%!s(*string=0xc000012345)" end
|}.

Section deployment.
Context (md5 : list ascii -> string) (snap : World -> ContinueAsNewDumpResponse).

(** The previous run changes with the clock, which every query moves on. *)
Definition query_sdk X (e : temporalE X) : M World X :=
  match e in temporalE X return M World X with
  | T_QueryWorkflow wid rid q => fun w =>
      Ret (match q in query T return (T + error) + error with
           | QueryDumpPage req =>
               match dump_answer md5 (snapshot_text (snap w)) req with
               | inl resp => inl (inl resp)
               | inr err => inr err
               end
           | _ => inr (OtherError "unknown query")
           end, set_clock (clock w + 1) w)
  | T_Sleep d => mret tt
  | _ => fun _ => Panic "not called"
  end.

Definition no_calls X (e : apiE X) : M World X := fun _ => Panic "not called".

Definition idle_env (post : string -> WorkflowDumpRequest -> World -> api_result WorkflowDumpResponse * World) :
  ActivityEnv World :=
  mkActivityEnv World None (mkExternalStorageConfig false 0 [] 0) 60 "http://api" (fun _ => EmptyString)
    (mkActivityInfo 0 1 false (mkWorkflowExecution "wid" "run-2")) None (fun w => (clock w, w))
    (fun _ _ w => (mkapi_result None None (Some "no worker"), w))
    (fun _ _ w => (mkapi_result None None (Some "no worker"), w))
    (fun _ _ _ w => (mkapi_result None None (Some "no worker"), w))
    post (fun _ => None) (fun _ => EmptyString) (fun _ => EmptyString) (fun _ w => (tt, w)) (fun _ w => (None, w))
    (fun _ => false) (fun w => (tt, w)).

Definition dump_post :=
  dump_over_http (temporal_client plain_temporal 1) query_sdk temporal_service no_calls
    (idle_env (fun _ _ w => (mkapi_result None None None, w))) ∅.
Definition dump_env : ActivityEnv World := idle_env dump_post.

Definition dumping_backend X (e : providerE X) (w : World) : X * World :=
  match e in providerE X return X * World with
  | ExecuteDumpWorkflowInternal _ request => activity_answer (DumpWorkflowInternal dump_env request w) w
  | e => sim no_workers _ e w
  end.

Lemma dumping_backend_executes : executes_dumps dump_env dumping_backend "wid".
Proof. split; [|reflexivity]. intros w. by eexists. Qed.
End deployment.

(** ** A call of the client *)

(** The backend knows no workflow. *)
Definition no_workflows X (e : apiE X) : M unit X :=
  match e in apiE X return M unit X with
  | @Client X0 call =>
      match call in clientE X0 return M unit X0 with
      | QueryWorkflow _ _ _ => fun w => Ret (inr (OtherError "not found"), w)
      | _ => fun _ => Panic "not called"
      end
  | _ => fun _ => Panic "not called"
  end.

Notation skip_call := (client_call (service true) WorkflowSkipTimer "http://api" ∅ None skip_request).

(** The skip of a timer is answered with 400, which the client decodes. *)
Definition not_found_seen (r : gores (client_result unit * unit)) : bool :=
  match r with
  | Ret (r, _) =>
      match cr_error r with
      | Some (GenericError e) =>
          bool_decide (cr_value r = None) && is_set (goe_model e) &&
          bool_decide (wr_StatusCode <$> cr_response r = Some 400%Z)
      | _ => false
      end
  | Panic _ => false
  end.

Lemma client_sees_service_witness :
  exists tr r, runs skip_call tr (Ret r) /\ not_found_seen (Ret (r, tt)) = true /\
    exists answer, runs (svc (service true) WorkflowSkipTimer skip_request) tr (Ret answer) /\
      (answer_carried WorkflowSkipTimer answer -> Ret r = Ret (seen WorkflowSkipTimer answer)).
Proof.
  assert (not_found_seen (interp no_workflows skip_call tt) = true) as Hk by (vm_compute; reflexivity).
  destruct (interp no_workflows skip_call tt) as [[r []]|] eqn:E; [|discriminate Hk].
  destruct (interp_runs _ _ _ _ _ E) as [tr Hr].
  exists tr, r. split; [exact Hr|]. split; [exact Hk|].
  apply (client_sees_service (service true) WorkflowSkipTimer "http://api" ∅ None skip_request tr (Ret r));
    [reflexivity | vm_compute; reflexivity | exact Hr].
Defined.

(** ** Pages of ASCII *)

Definition ascii_text (l : list ascii) : bool := forallb (Json.between 0 127) l.

(** A page of a text. *)
Lemma ascii_page pageSize data n :
  ascii_text data = true -> utf8 (String.string_of_list_ascii (page pageSize data n)) = true.
Proof.
  intros Hd. apply ascii_utf8. unfold chars. rewrite String.list_ascii_of_string_of_list_ascii.
  apply forallb_forall. intros a Ha%list_elem_of_In. apply (proj1 (forallb_forall _ _) Hd).
  apply list_elem_of_In. unfold page in Ha. apply elem_of_take in Ha as (i & Ha & _).
  rewrite lookup_drop in Ha. by eapply list_elem_of_lookup_2.
Qed.

Lemma ascii_whole pageSize (snap : World -> ContinueAsNewDumpResponse) :
  (forall w, ascii_text (snapshot_text (snap w)) = true) -> whole_characters pageSize snap.
Proof. intros Hs w n. by apply ascii_page. Qed.

(** The pages are within the numbers of JSON. *)
Lemma totals_carried md5 pageSize data wid rid req resp :
  page_sizes_ok pageSize data ->
  page_request wid rid pageSize req -> dump_answer md5 data req = inl resp ->
  carries int32_codec (TotalPages resp) = true.
Proof.
  intros Hok (n & Hn & ->) Ha. unfold dump_answer in Ha. rewrite dump_page_spec in Ha by (done || lia).
  destruct (Z.ltb_spec n (total_pages pageSize data)); [|done]. injection Ha as <-.
  destruct Hok as [Hp Hl]. pose proof (ceil_div_le (len data) pageSize ltac:(lia) ltac:(unfold len; lia)) as Hc.
  cbn [TotalPages carries int32_codec int_codec].
  unfold total_pages. rewrite (proj2 (Z.leb_le _ _)), (proj2 (Z.leb_le _ _)) by lia. done.
Qed.

Lemma deployed md5 snap pageSize :
  (forall w, page_sizes_ok pageSize (snapshot_text (snap w))) ->
  path_of md5 (temporal_client plain_temporal 1) (query_sdk md5 snap) temporal_service no_calls
    (dump_env md5 snap) ∅ "wid" "run-1" pageSize snap.
Proof.
  intros Hsnap. split.
  - reflexivity.
  - reflexivity.
  - apply temporal_queries; [|by eexists | reflexivity].
    intros req w Hreq. do 2 eexists. split; [reflexivity|]. by destruct (dump_answer _ _ _); [|eexists].
  - intros req (n & Hn & ->). cbn.
    assert (page_sizes_ok pageSize (snapshot_text (snap (quiet_world 0)))) as [Hp Hl] by apply Hsnap.
    unfold len in Hl.
    rewrite !(proj2 (Z.leb_le _ _)) by lia. done.
  - intros req w resp Hreq Ha. by eapply totals_carried.
Qed.

(** ** The witnesses *)

Definition snapshot_of (states : list StateMovement) : ContinueAsNewDumpResponse :=
  mkContinueAsNewDumpResponse states ∅ ∅ ∅ (mkStateExecutionCounterInfo ∅ ∅ 0) [] [] [] [].
Definition one_state : ContinueAsNewDumpResponse := snapshot_of [mv "A"].
Definition no_state : ContinueAsNewDumpResponse := snapshot_of [].
Definition changing (w : World) : ContinueAsNewDumpResponse :=
  if bool_decide (clock w = 0%Z) then one_state else no_state.

Lemma changing_cases (P : ContinueAsNewDumpResponse -> Prop) : P one_state -> P no_state -> forall w, P (changing w).
Proof. intros H1 H2 w. unfold changing. by destruct (bool_decide _). Qed.

Definition text_md5 (text : list ascii) : string := String.string_of_list_ascii text.

Lemma text_md5_inj a b : text_md5 a = text_md5 b -> a = b.
Proof.
  intros H. apply (f_equal String.list_ascii_of_string) in H. unfold text_md5 in H.
  by rewrite !String.list_ascii_of_string_of_list_ascii in H.
Qed.

(** Bytes as those of an MD5, which are no UTF-8. *)
Definition raw_md5 (text : list ascii) : string := String "212" (String "029" (String "140" (String "217" EmptyString))).

Lemma load_over_http_witness :
  exists w', returns (dumping_backend raw_md5 (fun _ => one_state))
    (LoadInternalsFromPreviousRun (Unmarshal ContinueAsNewDumpResponse_codec) 20 None "run-1" 100) (quiet_world 0)
    (initial_state (sample_config 100)) (Some (inl one_state)) w' (initial_state (sample_config 100)).
Proof.
  apply (load_over_http raw_md5 (temporal_client plain_temporal 1)
    (query_sdk raw_md5 (fun _ => one_state)) temporal_service no_calls
    (dump_env raw_md5 (fun _ => one_state)) ∅ _ "wid" "run-1" 100 one_state).
  - apply deployed. intros _. split; vm_compute; (reflexivity || discriminate).
  - apply dumping_backend_executes.
  - apply ascii_whole. intros _. vm_compute. reflexivity.
  - vm_compute. reflexivity.
  - intros w. split; [split; vm_compute; (reflexivity || discriminate) | split; [|discriminate]].
    vm_compute. discriminate.
  - vm_compute. discriminate.
Defined.

Notation changing_load := (
  exec (dumping_backend text_md5 changing)
    (LoadInternalsFromPreviousRun (Unmarshal ContinueAsNewDumpResponse_codec) 20 None "run-1" 200 : wprog _)
    (quiet_world 0) (initial_state (sample_config 100))).

(** What a loading gave. *)
Definition loaded {A B C} (r : option (option (ContinueAsNewDumpResponse + error) * A * B * C)) :
  option ContinueAsNewDumpResponse :=
  match r with Some (Some (inl resp), _, _, _) => Some resp | _ => None end.

Lemma load_over_http_is_one_snapshot_witness :
  loaded changing_load = Some no_state /\ exists w0, no_state = changing w0.
Proof.
  assert (loaded changing_load = Some no_state) as Hl by (vm_compute; reflexivity).
  split; [exact Hl|].
  destruct changing_load as [[[[r w'] s'] ts]|] eqn:E; [|discriminate Hl].
  destruct r as [[resp|err]|]; [|discriminate Hl..]. injection Hl as ->.
  apply (load_over_http_is_one_snapshot text_md5 (temporal_client plain_temporal 1)
    (query_sdk text_md5 changing) temporal_service no_calls (dump_env text_md5 changing) ∅ _ "wid" "run-1" 200
    changing) in E as (_ & _ & E).
  - exact E.
  - apply deployed. intros w. pattern (changing w). revert w. apply changing_cases;
      (split; vm_compute; (reflexivity || discriminate)).
  - apply dumping_backend_executes.
  - apply ascii_whole. intros w. pattern (changing w). revert w. apply changing_cases; vm_compute; reflexivity.
  - intros w. pattern (changing w). revert w. apply changing_cases; vm_compute; reflexivity.
  - intros w1 w2 H. apply text_md5_inj. unfold arrived_md5 in H.
    rewrite !repair_string_utf8 in H by (unfold changing; destruct (bool_decide _); vm_compute; reflexivity).
    exact H.
  - intros w. pattern (changing w). revert w. apply changing_cases;
      (split; [split; vm_compute; (reflexivity || discriminate) | split; vm_compute; discriminate]).
Defined.

(** ** A character on the border of two pages *)

(** The letter e with an acute accent, and what becomes of its two bytes. *)
Definition e_acute : string := String "195" (String "169" EmptyString).
Definition replaced : string :=
  String "239" (String "191" (String "189" (String "239" (String "191" (String "189" EmptyString))))).
Definition named (name : string) : ContinueAsNewDumpResponse :=
  mkContinueAsNewDumpResponse [] ∅ ∅ ∅ (mkStateExecutionCounterInfo ∅ ∅ 0) [] []
    [mkKeyValue (Some "name") (Some (inline_data name))] [].

Fixpoint before_accent (l : list ascii) : list ascii :=
  match l with a :: l => if bool_decide (a = "195"%char) then [] else a :: before_accent l | [] => [] end.
(** The size of a page that ends with the first of the two bytes. *)
Definition border : Z :=
  Z.of_nat (length (before_accent (snapshot_text (named e_acute)))) + 1.

(** The bytes of a page are cut from the JSON of the snapshot without regard to
    characters: loading this one succeeds and gives another value, a data attribute
    whose accented letter has become two replacement characters. *)
Lemma accent_is_lost :
  loaded (exec (dumping_backend (fun _ => "sum") (fun _ => named e_acute))
    (LoadInternalsFromPreviousRun (Unmarshal ContinueAsNewDumpResponse_codec) 20 None "run-1" border : wprog _)
    (quiet_world 0) (initial_state (sample_config 100))) = Some (named replaced) /\
  named replaced <> named e_acute.
Proof. split; [vm_compute; reflexivity | discriminate]. Qed.

(** The two bytes of the letter are one each on either side of the border, and the text
    that is decoded is four bytes longer. *)
Lemma cut_characters_are_replaced_witness :
  exists w' text,
    returns (dumping_backend raw_md5 (fun _ => named e_acute))
      (LoadInternalsFromPreviousRun (Unmarshal ContinueAsNewDumpResponse_codec) 20 None "run-1" border)
      (quiet_world 0) (initial_state (sample_config 100))
      (Some (match Unmarshal ContinueAsNewDumpResponse_codec text with
             | Some resp => inl resp
             | None => inr (OtherError "json.Unmarshal")
             end)) w' (initial_state (sample_config 100)) /\
    length text = length (snapshot_text (named e_acute)) + 4 /\ text <> snapshot_text (named e_acute).
Proof.
  destruct (cut_characters_are_replaced (St := WorkflowState) raw_md5 (temporal_client plain_temporal 1)
    (query_sdk raw_md5 (fun _ => named e_acute)) temporal_service no_calls
    (dump_env raw_md5 (fun _ => named e_acute)) ∅ (dumping_backend raw_md5 (fun _ => named e_acute))
    "wid" "run-1" border (named e_acute) 20 None (quiet_world 0) (initial_state (sample_config 100)))
    as (w' & text & Hr & _ & Hl & Hd).
  - apply deployed. intros _. split; vm_compute; (reflexivity || discriminate).
  - apply dumping_backend_executes.
  - intros w. split; [split; vm_compute; (reflexivity || discriminate) | split; [|discriminate]].
    vm_compute. discriminate.
  - apply Nat.leb_le. vm_compute. reflexivity.
  - assert (length text = length (snapshot_text (named e_acute)) + 4) as Hlen.
    { rewrite Hl. apply Nat.add_cancel_l. vm_compute. reflexivity. }
    exists w', text. split; [exact Hr|]. split; [exact Hlen|].
    intros E. rewrite E in Hlen. lia.
Defined.
