(* ===== verification/ResumeWitness.v ===== *)
(** * The next run, at concrete inputs

    A workflow with a state execution that waits for a signal, another
    state still to start and an attribute, and the run that takes over from it on a
    Temporal backend that answers the queries of the first ([dumping_backend]). *)

From S2P Require Import Waiting ApiWitnesses DumpWitness Resume Completion Examples Simulate.

Definition paged_config : WorkflowConfig := mkWorkflowConfig None None (Some 100%Z) (Some 200%Z) None None.

Definition waiting_thread : wprog unit :=
  state_execution_thread 5 (sample_input None 100) (mkBasicInfo "wf" "url") (NewStateStartRequest (movement "W" None)).

(** Its waitUntil API asks for a signal. *)
Definition signal_workers : Workers :=
  mkWorkers (fun _ => command_request (mkCommandRequest (Some ANY_COMMAND_COMPLETED) None []
    [mkSignalCommand (Some "s") "go" None None] [] [])) finish
    (fun _ => inr (OtherError "no rpc")) (fun _ => inr (OtherError "no dump")).

(** Before the execution starts. *)
Definition before_waiting : WorkflowState :=
  set_part (AddStateStartRequests [movement "Next" None] NewStateRequestQueue)
    (set_part (upsert_data [mkKeyValue (Some "k") (Some (mkEncodedObject None None None (Some "v")))]
       (NewPersistenceManager [] [] false)) (initial_state paged_config)).

Definition waiting_run : prog WorkflowState unit * list (prog WorkflowState unit) * World * WorkflowState :=
  run_pool signal_workers 200 (Done tt) [waiting_thread] (quiet_world 0) before_waiting.
Definition waiting_pool : pool WorkflowState providerE :=
  let '(t, ws, _, s) := waiting_run in mkPool t ws s.

Lemma waiting_pool_reached : rtc step (mkPool (Done tt) [waiting_thread] before_waiting) waiting_pool.
Proof.
  unfold waiting_pool, waiting_run.
  destruct (run_pool signal_workers 200 (Done tt) [waiting_thread] (quiet_world 0) before_waiting)
    as [[[t ws] w] s] eqn:E.
  eapply run_pool_steps. exact E.
Qed.

Lemma before_waiting_ok : state_ok before_waiting.
Proof.
  split; cbn.
  - apply upsert_data_wf, NewPersistenceManager_wf.
  - apply map_Forall_empty.
  - apply map_Forall_empty.
  - apply map_Forall_empty.
  - intros k. reflexivity.
  - constructor.
Qed.

Definition names {V} (m : gmap string V) : list string := DeterministicKeys m.

Lemma components_stay_ok_witness :
  names (StateExecutionToResumeMap (w_newer (shared waiting_pool))) = ["W-1"] /\ state_ok (shared waiting_pool).
Proof.
  split; [vm_compute; reflexivity|].
  apply (components_stay_ok [waiting_thread] before_waiting).
  - repeat constructor.
  - exact before_waiting_ok.
  - exact waiting_pool_reached.
  - vm_compute. reflexivity.
Defined.

Notation waiting_snapshot := (GetSnapshot (shared waiting_pool)).

Lemma next_run_continues_witness :
  exists w' s' ts', exec (dumping_backend raw_md5 (fun _ => waiting_snapshot))
    (setup (Unmarshal ContinueAsNewDumpResponse_codec) None 20
      (continue_as_new_input (sample_input None 100) paged_config "run-1")) (quiet_world 0)
      (initial_state paged_config) = Some (Some None, w', s', ts') /\
    names (StateExecutionsToResume (GetSnapshot s')) = ["W-1"] /\
    start_requests (queue (w_queue s')) = [movement "Next" None].
Proof.
  destruct (next_run_continues raw_md5 (temporal_client plain_temporal 1)
    (query_sdk raw_md5 (fun _ => waiting_snapshot)) temporal_service no_calls
    (dump_env raw_md5 (fun _ => waiting_snapshot)) ∅
    (dumping_backend raw_md5 (fun _ => waiting_snapshot)) "wid" "run-1" [waiting_thread] before_waiting waiting_pool
    20 None (sample_input None 100) (initial_state paged_config) (quiet_world 0))
    as (w' & s' & ts' & E1 & E2 & E3).
  - repeat constructor.
  - exact before_waiting_ok.
  - exact waiting_pool_reached.
  - vm_compute. reflexivity.
  - apply deployed. intros _. split; vm_compute; (reflexivity || discriminate).
  - apply dumping_backend_executes.
  - intros m w. reflexivity.
  - vm_compute. reflexivity.
  - apply ascii_whole. intros _. vm_compute. reflexivity.
  - intros w. split; [split; vm_compute; (reflexivity || discriminate) | split; [|vm_compute; discriminate]].
    vm_compute. discriminate.
  - vm_compute. discriminate.
  - exists w', s', ts'. split; [exact E1|]. split.
    + rewrite (same_snapshot _ _ E2). vm_compute. reflexivity.
    + rewrite (same_starts _ _ E2). vm_compute. reflexivity.
Defined.

(** A run that is about to emit the event of its completion, beside the
    coroutines of its state executions. *)
Definition completing_run : prog WorkflowState unit * list (prog WorkflowState unit) * World * WorkflowState :=
  run_pool branching_workers 265 (Done tt)
    [run_coroutine 20 (sample_input (Some "A") 100) (mkBasicInfo "wf" "url")] (quiet_world 0)
    (initial_state (sample_config 100)).
Definition completing_pool : pool WorkflowState providerE :=
  let '(t, ws, _, s) := completing_run in mkPool t ws s.

Lemma completing_pool_reached :
  rtc (calm_step update_coroutine)
    (mkPool (Done tt) [run_coroutine 20 (sample_input (Some "A") 100) (mkBasicInfo "wf" "url")]
       (initial_state (sample_config 100))) completing_pool.
Proof.
  unfold completing_pool, completing_run.
  destruct (run_pool branching_workers 265 (Done tt)
    [run_coroutine 20 (sample_input (Some "A") 100) (mkBasicInfo "wf" "url")] (quiet_world 0)
    (initial_state (sample_config 100))) as [[[t ws] w] s] eqn:E.
  eapply run_pool_calm. exact E.
Qed.

(** What is left of it beside the main coroutine. *)
Definition completing_rest : pool WorkflowState providerE :=
  mkPool standstill (waiting completing_pool) (shared completing_pool).

Lemma completion_waits_for_states_witness :
  emits_completion (active completing_pool) = true /\ length (waiting completing_rest) = 4%nat /\
  Forall (fun t => calls_state_api t = false) (active completing_rest :: waiting completing_rest).
Proof.
  split; [vm_compute; reflexivity|]. split; [vm_compute; reflexivity|].
  apply (completion_waits_for_states 20 (sample_input (Some "A") 100) (mkBasicInfo "wf" "url") []
    (initial_state (sample_config 100)) completing_pool completing_rest).
  - lia.
  - constructor.
  - vm_compute. discriminate.
  - exact completing_pool_reached.
  - vm_compute. reflexivity.
  - vm_compute. reflexivity.
  - unfold completing_rest. apply rtc_refl.
  - reflexivity.
Defined.

(** ** A state that is waited for *)

Definition waited_context : Context_ := mkContext "wf" "run" 0 (Some "W-1") None None.
Definition waited_run : option (list (obs providerE) * (option StateDecision * StateExecutionStatus * option error)) :=
  traced (sim signal_workers) (invokeStateExecute (mkBasicInfo "wf" "url") (movement "W" None) "W-1" waited_context
    None true [] true) (quiet_world 0) before_waiting.
Definition waited_trace : list (obs providerE) := match waited_run with Some (tr, _) => tr | None => [] end.
Definition wait_request : WorkflowWaitForStateCompletionRequest :=
  mkWorkflowWaitForStateCompletionRequest "wf" (Some "W-1") None None (Some 5%Z).

Lemma waited_traces : exists r, traces (invokeStateExecute (mkBasicInfo "wf" "url") (movement "W" None) "W-1" waited_context
    None true [] true) waited_trace r.
Proof.
  unfold waited_trace. destruct waited_run as [[tr r]|] eqn:E; [|vm_compute in E; discriminate].
  exists r. eapply traced_traces, E.
Qed.

Lemma completion_reaches_waiters_witness :
  exists calls r, runs (ApiV1WorkflowWaitForStateCompletion (service true) wait_request) calls r /\
    exists id, Told id ∈ omap mark_of waited_trace /\ Forall (waits_under (Ret id)) calls.
Proof.
  assert (exists calls r, runs (ApiV1WorkflowWaitForStateCompletion (service true) wait_request) calls r /\
    Forall (describes "run") calls) as (calls & r & Hruns & Hdesc).
  { eexists _, _. split.
    - unfold ApiV1WorkflowWaitForStateCompletion. cbn.
      answer (inl "waiting" : string + error). answer 0%Z.
      answer (inl (mkStateCompletionOutput EmptyString EmptyString None) : StateCompletionOutput + error). constructor.
    - repeat constructor. }
  destruct waited_traces as [result Htr].
  destruct (completion_reaches_waiters _ _ _ waited_context _ _ _ _ "old" "run" _ _ (service true) wait_request calls r Htr)
    as (success & ids & M & _ & _ & H); [vm_compute; repeat constructor | exact Hruns | exact Hdesc |].
  assert (success = true) as -> by (vm_compute in M; by injection M).
  destruct H as (id & Hid & Hcalls); [done | by split_and! | reflexivity |].
  exists calls, r. split; [exact Hruns|]. exists id. split; [|exact Hcalls].
  rewrite M. right. apply list_elem_of_fmap. by exists id.
Defined.
