(* ===== verification/ProviderWitness.v ===== *)
(** * The providers on the executable backend

    An SDK of either backend made of the backend of Simulate.v, on which the provider
    gives that backend again, and the theorems of WorkflowProviders.v and Server.v
    with hypotheses at concrete inputs. *)

From S2P Require Import ApiWitnesses Server Simulate MemoryS3.

(** ** An SDK *)

Section sdk.
Context {I AO LO : Type} (info : I) (b : Workers).

(** A worker's attempt; what the other activities do does not change the worker. *)
Definition run_activity {X} (a : activity X) (attempt now : Z) (h : WorkerState) : (X + error) * WorkerState :=
  match a in activity X return (X + error) * WorkerState with
  | act_StateStart input _ | act_StateApiWaitUntil input _ => wait_until_api b attempt now input h
  | act_StateDecide input | act_StateApiExecute input => execute_api b attempt now input h
  | act_DumpWorkflowInternal request => (dump_api b request, h)
  | act_InvokeWorkerRpc _ input => (rpc_api b input, h)
  | act_CleanupBlobStore _ => (inl tt, h)
  end.

(** [ao_tries] and [lo_tries] are the attempts of the options. *)
Context (ao_tries : option AO -> nat) (lo_tries : option LO -> nat).

Definition simulated_sdk (X : Type) (e : wfE I AO LO X) : M World X := fun w =>
  Ret match e in wfE _ _ _ X return X * World with
      | wf_GetInfo => (info, w)
      | wf_UpsertSearchAttributes attributes => sim b _ (UpsertSearchAttributes attributes) w
      | wf_UpsertMemo _ => (None, w)
      | wf_SetQueryHandler queryType => sim b _ (SetQueryHandler queryType) w
      | wf_SetUpdateHandlerWithOptions updateType => sim b _ (SetRpcUpdateHandler updateType) w
      | wf_NewTimer d => sim b _ (NewTimer d) w
      | wf_FutureIsReady future => sim b _ (IsReady future) w
      | wf_FutureGet future => sim b _ (FutureGet future) w
      | wf_ExecuteActivity o _ a => run_attempts (pred (ao_tries o)) 1 (run_activity a) w
      | wf_ExecuteLocalActivity o _ a => run_attempts (pred (lo_tries o)) 1 (run_activity a) w
      | wf_Now => sim b _ Now w
      | wf_Sleep d => sim b _ (Sleep d) w
      | wf_IsReplaying => sim b _ IsReplaying w
      | wf_GetVersion changeID lo hi => sim b _ (GetVersion changeID lo hi) w
      | wf_ReceiveAsync ty signalName => sim b _ (ReceiveAsync ty signalName) w
      | wf_Receive ty signalName => sim b _ (ReceiveBlocking ty signalName) w
      | wf_GetUnhandledSignalNames => sim b _ GetUnhandledSignalNames w
      | wf_NewContinueAsNewError _ => (OtherError "continue as new", w)
      | wf_outside e => sim b _ e w
      end.
End sdk.

Definition temporal_tries (p : option temporal_RetryPolicy) : nat :=
  tries (default 0%Z (t_MaximumAttempts <$> p)).
Definition cadence_tries (p : option cadence_RetryPolicy) : nat :=
  tries (default 0%Z (c_MaximumAttempts <$> p)).

Definition temporal_sim (b : Workers) : forall X, temporal_wfE X -> M World X :=
  simulated_sdk (mktemporal_Info (mkWorkflowExecution "wid" "run") 0 0 "run" None) b
    (fun o => temporal_tries (o ≫= ta_RetryPolicy)) (fun o => temporal_tries (o ≫= la_RetryPolicy)).
Definition cadence_sim (b : Workers) : forall X, cadence_wfE X -> M World X :=
  simulated_sdk (mkcadence_Info (mkWorkflowExecution "wid" "run") 0 None) b
    (fun o => cadence_tries (o ≫= ca_RetryPolicy)) (fun o => cadence_tries (o ≫= la_RetryPolicy)).

(** The answers do not depend on the SDK. *)
Lemma same_tries tp cp :
  match tp, cp with Some t, Some c => same_policy t c | _, _ => False end ->
  temporal_tries tp = cadence_tries cp.
Proof.
  destruct tp as [t|], cp as [c|]; [|done..]. intros (_ & _ & H & _). unfold temporal_tries, cadence_tries.
  cbn. by rewrite H.
Qed.

Lemma simulated_agree b X (e : temporal_wfE X) (e' : cadence_wfE X) :
  same_call X e e' -> forall w, temporal_sim b X e w = cadence_sim b X e' w.
Proof.
  intros H w. destruct H as [X e e' He|X a t c (_ & _ & Hp)|X a t c (_ & Hp)].
  - destruct e; cbn in He; try discriminate He; by injection He as <-.
  - unfold temporal_sim, cadence_sim, simulated_sdk. cbn [mbind option_bind]. rewrite (same_tries (ta_RetryPolicy t) (ca_RetryPolicy c)); [done|].
    destruct (ta_RetryPolicy t), (ca_RetryPolicy c); try done. apply Hp.
  - unfold temporal_sim, cadence_sim, simulated_sdk. cbn [mbind option_bind]. by rewrite (same_tries (la_RetryPolicy t) (la_RetryPolicy c)).
Qed.

(** The attempts an activity's options give it on Temporal. *)
Lemma options_tries o :
  let '(t, tl, _) := temporal_WithActivityOptions o in
  temporal_tries (ta_RetryPolicy t) = tries_of o /\ temporal_tries (la_RetryPolicy tl) = tries_of o.
Proof.
  unfold temporal_WithActivityOptions, tries_of, temporal_tries. destruct (ao_RetryPolicy o) as [p|]; [|done].
  cbn. by destruct (MaximumAttempts p).
Qed.

Lemma set_worker_same w : set_worker (worker w) w = w.
Proof. by destruct w. Qed.

(** Attempts that all answer the same and change nothing. *)
Lemma run_attempts_same {A} more attempt (f : Z -> Z -> WorkerState -> (A + error) * WorkerState) r w :
  (forall attempt now h, f attempt now h = (r, h)) -> run_attempts more attempt f w = (r, w).
Proof.
  intros Hf. revert attempt. induction more as [|more IH]; intros attempt; cbn; rewrite Hf, set_worker_same.
  - by destruct r.
  - destruct r; [done | apply IH].
Qed.

(** An activity run by the provider: the attempts of its options, again when an
    optimised one failed. *)
Lemma run_activity_interp {V X} b optimize (c : temporal_Context V) (a : activity X) s t tl :
  cx_activity c = Some t -> cx_local c = Some tl ->
  temporal_tries (ta_RetryPolicy t) = temporal_tries (la_RetryPolicy tl) ->
  interp (temporal_sim b) (temporal_ExecuteActivity optimize (TemporalContext c) a) s =
  Ret (run_simulated optimize (temporal_tries (ta_RetryPolicy t)) (run_activity b a) s).
Proof.
  intros Ht Htl He. unfold temporal_sim, run_simulated.
  destruct optimize; cbn; unfold mbind, M_bind; cbn; rewrite ?Ht, ?Htl; cbn [mbind option_bind]; rewrite <- ?He.
  - destruct (run_attempts _ _ _ _) as [[r|r] s'] eqn:E; [done|]. cbn. unfold mbind, M_bind. cbn.
    rewrite Ht. cbn [mbind option_bind]. by destruct (run_attempts _ _ _ s').
  - by destruct (run_attempts _ _ _ _) as [[r|r] s'].
Qed.

(** On it the Temporal provider is the backend of Simulate.v, so the whole runs on that
    backend are runs on this provider. *)
Lemma provider_is_sim {V} env b w (c : temporal_Context V) {X} (e : providerE X) s :
  pe_shouldEncrypt env = false -> threadCount w = threads s ->
  interp (temporal_sim b) (temporal_provider env w (TemporalContext c) X e) s = Ret (sim b X e s).
Proof.
  intros He Hw. destruct e; cbn [temporal_provider]; try reflexivity;
    try (match goal with |- context [temporal_with_options _ ?o _] =>
           pose proof (options_tries o) as Ho; revert Ho; temporal_activity o; intros [Ho1 Ho2] end).
  - cbn -[upserted_memo]. unfold upserted_memo. by rewrite He.
  - cbn. by rewrite Hw.
  - cbn. unfold mbind, M_bind. cbn. by destruct (pop ty signalName s).
  - cbn. unfold mbind, M_bind. cbn. by destruct (pop ty signalName s).
  - erewrite run_activity_interp; [|done|done|congruence]. rewrite Ho1. by destruct renamedApi.
  - erewrite run_activity_interp; [|done|done|congruence]. rewrite Ho1. by destruct renamedApi.
  - erewrite run_activity_interp; [|done|done|congruence]. unfold run_simulated.
    rewrite (run_attempts_same _ _ _ (dump_api b request)) by done. cbn. by destruct (dump_api b request).
  - destruct local.
    + cbn. unfold mbind, M_bind. cbn. by rewrite (run_attempts_same _ _ _ (rpc_api b input)).
    + erewrite run_activity_interp; [|done|done|congruence]. unfold run_simulated.
      rewrite !(run_attempts_same _ _ _ (rpc_api b input)) by done. cbn.
      destruct (rpc_api b input), optimizeByLocalActivity; by rewrite ?(run_attempts_same _ _ _ (rpc_api b input)).
  - cbn. unfold mbind, M_bind. cbn. by rewrite (run_attempts_same _ _ _ (inl tt)).
Qed.

(** ** The witnesses *)

(** The worker of the state is down for waitUntil and empty for execute. *)
Definition shop_workers : Workers :=
  mkWorkers (fun _ => inr (OtherError "worker is down"))
    (fun _ => inl (mkWorkflowStateDecideResponse None None [] [] [] [] []))
    (fun _ => inr (OtherError "no rpc")) (fun _ => inr (OtherError "no dump")).

Definition bare_context {V AO LO} : sdk_context V AO LO := mksdk_context ∅ None None.
Definition plain_env : provider_env := mkprovider_env (ToPayload plain_sdk) true (fun _ => None).

(** The waitUntil API of a state, tried as a local activity first. *)
Definition wait_until_call : providerE (WorkflowStateStartResponse + error) :=
  ExecuteStateStart true state_options true
    (mkStateStartActivityInput "http://worker" (mkWorkflowStateStartRequest state_context "Order" "Pay" None [] [])) [].

Lemma backends_agree_witness :
  portable wait_until_call /\
  interp (temporal_sim shop_workers)
    (temporal_provider (V := unit) plain_env newWorkflowProvider (TemporalContext bare_context) _ wait_until_call)
    (quiet_world 0) =
  interp (cadence_sim shop_workers)
    (cadence_provider (V := unit) plain_env newWorkflowProvider (CadenceContext bare_context) _ wait_until_call)
    (quiet_world 0) /\
  interp (cadence_sim shop_workers)
    (cadence_provider (V := unit) plain_env newWorkflowProvider (CadenceContext bare_context) _ wait_until_call)
    (quiet_world 0) = Ret (inr (OtherError "worker is down"), quiet_world 0).
Proof.
  assert (portable wait_until_call) as Hp
    by (eexists; split; [reflexivity|]; split_and!; intros s; cbn; intros [= <-]; unfold is_int32; lia).
  split; [exact Hp|]. split; [|vm_compute; reflexivity].
  exact (backends_agree (temporal_sim shop_workers) (cadence_sim shop_workers) (fun _ _ _ => 0%Z)
           (fun X e e' H s _ => simulated_agree shop_workers X e e' H s) (fun _ _ _ => ltac:(unfold SecondNs; lia))
           plain_env plain_env newWorkflowProvider bare_context bare_context wait_until_call Hp (quiet_world 0)).
Defined.

Lemma plain_codecs : memo_codecs encrypting_client stored_field.
Proof.
  split; [apply text_value_text | reflexivity |]. intros v p [= <-]. apply text_value_text.
Qed.

Lemma upserted_memo_is_described_witness :
  always (temporal_UpsertMemo (V := unit) plain_env (TemporalContext bare_context) secret_memo) (fun tr r =>
    exists fields answer, tr = [Obs (wf_UpsertMemo fields) answer] /\
      getMemoAndDecryptIfNeeded encrypting_client (Some (stored_field <$> fields)) = inl secret_memo /\
      forall k f, fields !! k = Some f -> exists p, f = MemoPayload p).
Proof.
  pose proof (upserted_memo_is_described (V := unit) plain_env encrypting_client stored_field bare_context
                OtherContext secret_memo eq_refl eq_refl plain_codecs) as [H _].
  eapply always_mono; [|exact H]. intros [|o tr] r; cbv beta iota.
  - intros (k & v & err & _ & E & _). discriminate E.
  - intros (fields & answer & -> & _ & Hd & Hp). exists fields, answer. split; [done|].
    split; [exact Hd | exact (Hp eq_refl)].
Defined.

(** A configuration with the migration of waiting switched to the new ids. *)
Definition new_ids_config : Config :=
  mkConfig
    (mkApiConfig 8801 60 None (mkWaitForStateCompletionMigration "new" "new")
       (mkQueryWorkflowFailedRetryPolicy 1 5))
    (mkInterpreterConfig (Some (mkTemporalConfig "localhost:7233" EmptyString "default" false None)) None None
       (mkInterpreterActivityConfig EmptyString None ∅) false false)
    (mkExternalStorageConfig false 0 [] 0).

Definition wait_request : WorkflowWaitForStateCompletionRequest :=
  mkWorkflowWaitForStateCompletionRequest "order-1" (Some "Pay-1") None None None.

Lemma api_alone_ignores_waitForOn_witness :
  GetWaitForOnWithDefault new_ids_config = "new" /\
  throughout (run_launch (fun _ => memory_s3) memory_s3 (launchTemporal serviceAPI new_ids_config))
    (fun tr _ => always (ApiV1WorkflowWaitForStateCompletion
        (NewApiService new_ids_config (env_after tr) (client_errors temporal_service) BackendTypeTemporal None None)
        wait_request) (fun calls _ => Forall (waits_on_old wait_request) calls)) /\
  old_wait_id wait_request = Ret (IwfSystemConstPrefix +:+ "order-1_Pay-1").
Proof.
  split; [reflexivity|]. split; [|reflexivity].
  exact (api_alone_ignores_waitForOn (fun _ => memory_s3) memory_s3 (launchTemporal serviceAPI new_ids_config)
           new_ids_config (client_errors temporal_service) BackendTypeTemporal None None wait_request (or_introl eq_refl)).
Defined.
